(* ===== verification/_CoqProject ===== *)
-Q . S2P
Prelude.v
JsString.v
JsValue.v
Utf8.v
Chain.v
Address.v
RpcDefs.v
RpcInterface.v
TxDefs.v
QueryDefs.v
EventDefs.v
Types.v
LookupDefs.v
TypesLookup.v
DefaultTypes.v
ErrorDefs.v
ConstDefs.v
RuntimeDefs.v
RegistryDefs.v
ImportDefs.v
Interface.v
Util.v
UtilFacts.v
Helper.v
HelperFacts.v
Collections.v
Tokens.v
Objects.v
Balance.v
Governance.v
Xcm.v
Dev.v
Lifecycle.v
Wait.v
Arrange.v
GovernanceFacts.v
WaitFacts.v
ArrangeFacts.v
CollectionFacts.v
Mock.v
Witnesses.v
DevWitnesses.v
Eth.v
EthFacts.v
TestUtil.v
Scripts.v
Proposals.v
Measure.v
RpcFacts.v
InterfaceFacts.v
OptionFacts.v
TypesFacts.v
TxFacts.v
Calibrate.v
CalibrateFacts.v
CalibrateRun.v
ScriptFacts.v
Load.v
Benchmarks.v
OpsFee.v
EthWitnesses.v
ScriptWitnesses.v
ToolWitnesses.v
