(* ===== verification/Prelude.v ===== *)
(** * A verification library for the TypeScript client of the Unique chain

    The repository holds the Unique parachain and its client. The client, in
    [js-packages], is the library [playgrounds/unique.ts] (helpers that sign
    extrinsics, query a node and read events), the test helpers built on it in
    [test-utils] (sudo and scheduling, governance, other chains, waiting,
    accounts, Ethereum), and the command-line scripts in [scripts]. This
    development models the client and proves what its operations guarantee.

    ** How the program is put together

    Every operation goes through a helper object: its class extends
    [ChainHelperBase], whose fields hold the connection, the network, a log of
    calls and the clones made of it. Groups of methods ([helper.nft],
    [helper.balance], [helper.wait], ...) keep a reference to their helper and
    end in its [executeExtrinsic], [callRpc] or [getApi]. Mixins override
    [executeExtrinsic] so that a call is wrapped in sudo or in the scheduler.
    [EthUniqueHelper] adds a web3 provider. Scripts and tests run inside
    [usingPlaygrounds], which makes a helper, connects it, and disconnects it in
    the end.

    In the model the helpers live in a store (file [Chain]): a state is the list
    of helper objects, the lines of the logger, and the world, which is the node
    and the clock. A computation takes a state and gives an [outcome] (a value,
    an exception, or a promise that never settles) and a state. The library
    polkadot.js with the node behind it is the class [NodeApi], the
    cryptography of its packages the class [Crypto], ethers and solc the class
    [Ethers], Node's hashing and URLs the class [Harness], and programs, network
    and files the class [Process]: operations without definitions, with laws as
    classes of their own where a theorem needs one ([EthersLaws]). Everything
    else the code computes is defined.

    ** Files

    Data and language: [JsString] (strings of UTF-16 units, numbers and their
    text), [JsValue] (dynamically typed values, exceptions, event records),
    [Utf8] (UTF-8 and hexadecimal text).

    [playgrounds/unique.ts] and [types.ts]:
    [Chain] (store, monad, frames), [Address] (cross accounts, checksums, token
    and SS58 addresses; and the token addresses of the runtime's
    [primitives/data-structs/src/mapping.rs]), [Util] (readers of events and
    results), [Helper] (ChainHelperBase, ChainGroup, the sudo and scheduler
    mixins), [Collections], [Tokens], [Objects] (collections and tokens),
    [Balance] (balances, vesting, staking, preimages, batches).

    [test-utils]: [Governance] (governance.ts), [Xcm] (xcm/index.ts), [Dev]
    (events, console, capture, helper groups), [Wait] (WaitGroup), [Arrange]
    (accounts, fees, scripted democracy), [Eth] (eth/index.ts, eth/types.ts),
    [TestUtil] (util.ts, globalSetup.ts, eth/util.ts).

    [types]: [RpcDefs] (the RPC methods of definitions.ts and the node's traits
    in [client/rpc]), [RpcInterface], [TxDefs], [QueryDefs] and [EventDefs] (the
    RPC methods, extrinsics, storage items and events of augment-api-rpc.ts,
    augment-api-tx.ts, augment-api-query.ts and augment-api-events.ts, as tables
    by namespace and pallet), [LookupDefs], [TypesLookup] and [DefaultTypes] (the
    types of the chain in lookup.ts, types-lookup.ts and default/types.ts),
    [ErrorDefs], [ConstDefs] and [RuntimeDefs] (augment-api-errors.ts,
    augment-api-consts.ts, augment-api-runtime.ts), [RegistryDefs] (the registry
    of names in augment-types.ts), [ImportDefs] (the imports of these files),
    [Types] (a reader of the texts of types, and the interface that a layout of
    the table demands), [Interface] (the values of a described type, and when a
    call fits the declarations).

    [scripts]: [Calibrate] and [CalibrateRun] (calibrate.ts), [Scripts] (lease
    times, maintenance, constants and environment files, load generator,
    identities), [Proposals] (proposals, channels, superuser scripts, the
    checker of relay identities), [Measure] (fetchMetadata.ts, the fee tables of
    the benchmarks, and [calculatePoVInfo] of test-utils/index.ts), [Load] (the
    processes of transfer.nload.ts), [Benchmarks] (mintFee and nesting) and
    [OpsFee] (opsFee).

    A Module of a file is a class or a script of the code, and a definition in
    it has the name of the method it models; a definition with a name of its own
    is a loop, a callback or an expression of the method it stands before.

    ** Theorems

    - Executing extrinsics ([HelperFacts]): what [executeExtrinsic] can return
      through any stack of mixins, how [signTransaction] settles, exactly one
      log entry and no other change, the verdict of a sudo call.
    - Helper objects ([Lifecycle]): in every reachable store clones form a forest
      and a helper with a network has a connection, and conversely unless an
      override of [connect] failed or stayed open; what disconnecting clears.
    - Events and results ([UtilFacts], [CollectionFacts]): each reader and each
      command against the events of the extrinsic; amounts and flags.
    - Addresses ([Address], [EthFacts]): agreement with the runtime, round trips
      of token, collection and SS58 addresses.
    - Test helpers ([GovernanceFacts], [WaitFacts], [ArrangeFacts]): closing of
      proposals, when and how waiting ends, accounts funded in the nominal of the
      chain.
    - Ethereum ([EthFacts]): the store of Ethereum helpers refines that of node
      helpers with a provider for some of them, connections, events of a receipt,
      creation of collections, fees.
    - Interface ([RpcFacts], [InterfaceFacts], [OptionFacts], [TypesFacts],
      [TxFacts]): the declared RPC methods are those the node serves; the
      methods of the client and the test helper that execute extrinsics, all but
      three, submit declared extrinsics with parameters that are values of the
      declared types, structures and variants included, and so are the calls
      inside sudo and scheduled extrinsics; the logged reads name declared items;
      typed events read the fields they name. Of the three, two call extrinsics
      that are missing, and the native teleport builds locations that no version
      of its type has. The two files of interfaces follow the table of types;
      every generated file imports exactly the types it names, which resolve to
      interfaces and registered types; and the types, extrinsics, events and
      errors describe the same pallets.
    - Calibration ([CalibrateFacts]): the stack calculator refines the rationals
      of the Standard Library and is type safe, linear regression gives the line
      of least squares, the square root.
    - Harness and scripts ([ScriptFacts]): the clean-up after a test, attempts of
      loops that retry, sizes of encoded values, number formatting, batches,
      lease times, the transfers of the load generator and the accounts it keeps,
      identities.
    - Load generator and benchmarks ([Load], [Benchmarks], [OpsFee]): in every
      interleaving of the processes no count is invented, and only a worker that
      ends loses any; what the tables and files of the benchmarks hold.

    [Mock] gives a node and a cryptography that compute; [Witnesses],
    [DevWitnesses], [EthWitnesses], [ScriptWitnesses] and [ToolWitnesses] apply the theorems to
    runs on them. Some theorems state behaviour that differs from a comment or
    from the evident intention; their comments say so.

    ** Bounds and fuel

    Numbers of the client are exact integers, and [NaN]: ids, block numbers and
    sizes stay below 2^53. [|] works on 32-bit numbers and wraps. Loops whose
    end the code does not bound take a bound from the caller, and the theorems
    say what happens for every bound: attempts of [createCrowd], rounds of
    [newSessions] (which stays open only when as many rounds were all short), the
    random seeds of the load generator, retries of [itEth].
    [poll_fuel] counts the looks of a polling promise up to its deadline. The
    reader of type texts has twice as much fuel as the text has tokens, and one
    more; the check that a value fits a type goes as deep as its caller asks,
    and is only used to prove that values do fit. [gcd_fuel] is twice the length
    of the smaller number, which is proved to be enough. [sqrt] takes the depth of
    the stack.

    ** Order of events

    Operations that the code starts together and awaits later are run in the
    order in which they are started; for the load generator, where the order of
    completion matters, it is a parameter, and the turns of its processes are a
    list of events. Callbacks of one subscription run one
    after the other. Console output is left out.

    ** Not modelled

    [Fract.toNumber] (a double that is printed), the console, mocha and chai,
    [runCheckState.ts] (calls [main] of the maintenance script), [evm-abi], the test cases, and the Rust side except for its token addresses,
    whose EVM account type is the class [mapping.CrossAccountEvm], and the
    signatures of its RPC traits. *)

From Stdlib Require Export ZArith Lia.
From stdpp Require Export base tactics option list.

#[export] Set Default Goal Selector "!".

(** ** Outcomes

    What running a piece of TypeScript gives: a value, a thrown value (a
    rejected promise), or a promise that never settles. *)

Inductive outcome (E A : Type) : Type :=
  | Ret (a : A)
  | Throw (e : E)
  | Pending.

Arguments Ret {E A} a.
Arguments Throw {E A} e.
Arguments Pending {E A}.

(** Monads, with the computation before its continuation. *)
Class Monad (M : Type -> Type) : Type :=
  { mreturn : forall {A}, A -> M A;
    bind : forall {A B}, M A -> (A -> M B) -> M B }.

Declare Scope js_scope.
Delimit Scope js_scope with js.

Notation "x ← m ; k" := (bind m (fun x => k))
  (at level 20, m at level 100, k at level 200, only parsing) : js_scope.

Notation "' x ← m ; k" := (bind m (fun x => k))
  (at level 20, x pattern, m at level 100, k at level 200, only parsing) : js_scope.

Notation "m ;; k" := (bind m (fun _ => k))
  (at level 100, k at level 200, right associativity, only parsing) : js_scope.

#[export] Instance outcome_monad {E} : Monad (outcome E) :=
  {| mreturn A a := Ret a;
     bind A B m f :=
       match m with
       | Ret a => f a
       | Throw e => Throw e
       | Pending => Pending
       end |}.

#[export] Instance outcome_fmap {E} : FMap (outcome E) :=
  fun A B f m =>
    match m with
    | Ret a => Ret (f a)
    | Throw e => Throw e
    | Pending => Pending
    end.

Open Scope js_scope.


(** A [try ... catch] over outcomes. *)
Definition ocatch {E A} (m : outcome E A) (h : E -> outcome E A) : outcome E A :=
  match m with
  | Throw e => h e
  | _ => m
  end.

(** [Array.prototype.forEach] with a callback that may throw and updates the
    variables it closes over, carried as the accumulator [b]. *)
Fixpoint for_each {E A B} (f : B -> A -> outcome E B) (b : B) (l : list A)
  : outcome E B :=
  match l with
  | [] => Ret b
  | a :: l' => b' ← f b a; for_each f b' l'
  end.

(** [Array.prototype.map] with a callback that may throw. *)
Fixpoint map_out {E A B} (f : A -> outcome E B) (l : list A) : outcome E (list B) :=
  match l with
  | [] => Ret []
  | a :: l' => b ← f a; bs ← map_out f l'; Ret (b :: bs)
  end.

(** [Array.prototype.find] with a callback that may throw. *)
Fixpoint find_out {E A} (p : A -> outcome E bool) (l : list A) : outcome E (option A) :=
  match l with
  | [] => Ret None
  | a :: l' => b ← p a; if (b : bool) then Ret (Some a) else find_out p l'
  end.

(** The values of a list that satisfy a boolean test: [Array.prototype.filter]
    and [Array.prototype.find]. *)
Definition filterb {A} (p : A -> bool) (l : list A) : list A := List.filter p l.

Definition findb {A} (p : A -> bool) (l : list A) : option A := List.find p l.

(** The law-abiding monads of the library. *)
Class MonadLaws (M : Type -> Type) `{!Monad M} (eqv : forall A, relation (M A)) :=
  { law_ret_bind : forall A B (a : A) (k : A -> M B), eqv B (bind (mreturn a) k) (k a);
    law_bind_ret : forall A (m : M A), eqv A (bind m mreturn) m;
    law_bind_assoc : forall A B C (m : M A) (k : A -> M B) (h : B -> M C),
      eqv C (bind (bind m k) h) (bind m (fun a => bind (k a) h)) }.

#[export] Instance outcome_laws {E} : MonadLaws (outcome E) (fun A => eq).
Proof. split; intros; try destruct m; done. Qed.

Lemma Ret_inj {E A} (a b : A) : Ret (E := E) a = Ret b -> a = b.
Proof. congruence. Qed.

(** ** Loops that overwrite or collect *)

Section Loops.
Context {E A B : Type}.
Implicit Types (p : A -> bool) (g : A -> outcome E B).

(** A loop that overwrites a variable on matching elements leaves the value of
    the last match. *)
Lemma for_each_overwrite p g l : forall b,
  for_each (fun b a => if p a then g a else Ret b) b l
  = (fun bs => default b (last bs)) <$> map_out g (filterb p l).
Proof.
  induction l as [|a l IH]; intros b; simpl; [done|].
  destruct (p a); simpl; [|apply IH].
  destruct (g a) as [b'|e|]; simpl; [|done..]. rewrite IH.
  destruct (map_out g (filterb p l)) as [bs|e|]; simpl; [|done..].
  f_equal. rewrite last_cons. by destruct (last bs).
Qed.

(** A loop that pushes matching elements collects them in order. *)
Lemma for_each_collect p g l : forall bs,
  for_each (fun bs a => if p a then x ← g a; Ret (bs ++ [x]) else Ret bs) bs l
  = (fun xs => bs ++ xs) <$> map_out g (filterb p l).
Proof.
  induction l as [|a l IH]; intros bs; simpl; [by rewrite app_nil_r|].
  destruct (p a); simpl; [|apply IH].
  destruct (g a) as [b'|e|]; simpl; [|done..]. rewrite IH.
  destruct (map_out g (filterb p l)) as [xs|e|]; simpl; [|done..].
  by rewrite <- app_assoc.
Qed.

Lemma map_out_Ret_Forall2 g l bs :
  map_out g l = Ret bs <-> Forall2 (fun a b => g a = Ret b) l bs.
Proof.
  revert bs. induction l as [|a l IH]; intros bs; simpl.
  - split; [by intros <-%Ret_inj; constructor|]. by inversion 1.
  - split.
    + destruct (g a) as [b|e|] eqn:Ha; simpl; [|discriminate..].
      destruct (map_out g l) as [bs'|e|]; simpl; [|discriminate..].
      intros <-%Ret_inj. constructor; [done|]. by apply IH.
    + inversion 1 as [|? b ? bs' Hb Hbs]; subst. rewrite Hb. simpl.
      apply IH in Hbs. by rewrite Hbs.
Qed.

End Loops.

Lemma last_Some_app {A} (l : list A) x : last l = Some x -> exists l', l = l' ++ [x].
Proof. apply last_Some. Qed.

(** ** Filters and their last match *)

Section LastMatch.
Context {A : Type}.
Implicit Types (p : A -> bool) (l : list A).

Lemma filterb_app p l1 l2 : filterb p (l1 ++ l2) = filterb p l1 ++ filterb p l2.
Proof. apply List.filter_app. Qed.

Lemma filterb_nil p l : filterb p l = [] <-> Forall (fun a => p a = false) l.
Proof.
  induction l as [|a l IH]; simpl; [by split|].
  destruct (p a) eqn:E; split.
  - discriminate.
  - inversion 1; congruence.
  - intros H. constructor; [done|]. by apply IH.
  - inversion 1. by apply IH.
Qed.

Lemma filterb_true p l : Forall (fun a => p a = true) (filterb p l).
Proof. induction l as [|a l IH]; simpl; [done|]. destruct (p a) eqn:E; by repeat constructor. Qed.

(** [a] is the last element of [l] on which [p] holds. *)
Definition last_match p l a : Prop :=
  exists l1 l2, l = l1 ++ a :: l2 /\ p a = true /\ Forall (fun b => p b = false) l2.

Lemma last_filterb p l a : last (filterb p l) = Some a <-> last_match p l a.
Proof.
  split.
  - induction l as [|b l IH] using rev_ind; [done|]. rewrite filterb_app. simpl.
    destruct (p b) eqn:Hb.
    + rewrite last_snoc. intros [= <-]. exists l, []. by repeat constructor.
    + rewrite app_nil_r. intros (l1 & l2 & -> & Ha & Hl2)%IH. exists l1, (l2 ++ [b]).
      split_and!; [by rewrite <- app_assoc|done|]. apply Forall_app. by repeat constructor.
  - intros (l1 & l2 & -> & Ha & Hl2). rewrite filterb_app. simpl. rewrite Ha.
    apply filterb_nil in Hl2 as ->. apply last_snoc.
Qed.

Lemma last_filterb_None p l : last (filterb p l) = None <-> Forall (fun a => p a = false) l.
Proof. rewrite <- filterb_nil. apply last_None. Qed.

End LastMatch.

Lemma Forall2_last {A B} (R : A -> B -> Prop) l k :
  Forall2 R l k -> option_Forall2 R (last l) (last k).
Proof.
  induction 1 as [|a b l k Hab Hlk IH]; [constructor|].
  rewrite !last_cons. destruct IH; by constructor.
Qed.
