(* ===== verification/JsString.v ===== *)
(** * JavaScript strings and number printing

    A JavaScript string is the list of its UTF-16 code units.  The string
    methods that the client calls are defined on code units; [toLowerCase] and
    [toUpperCase] are given on the ASCII letters, the only ones that occur in
    the addresses, hexadecimal literals and method names they are applied to.
    Numbers are exact integers: the client's numbers are block numbers, token
    and collection ids and byte counts, all below 2^53. *)

From Stdlib Require Import Ascii String.
From stdpp Require Import sorting list.
From S2P Require Import Prelude.

Open Scope Z_scope.
Open Scope js_scope.

Definition jsstr : Type := list Z.

#[export] Instance jsstr_eq_dec : EqDecision jsstr := _.

Definition char_unit (c : ascii) : Z := Z.of_nat (nat_of_ascii c).

(** A string literal of the source. *)
Definition js (s : string) : jsstr := map char_unit (list_ascii_of_string s).
Arguments js s%_string : simpl never.

(** [number]: an integer or [NaN]. *)
Inductive number : Type :=
  | NaN
  | Int (z : Z).

Coercion Int : Z >-> number.

#[export] Instance number_eq_dec : EqDecision number.
Proof. solve_decision. Defined.

(** [===] on numbers. *)
Definition num_eqb (m n : number) : bool :=
  match m, n with Int a, Int b => a =? b | _, _ => false end.

(** An optional result, [None] being [NaN]. *)
Definition of_option (o : option Z) : number :=
  match o with Some z => Int z | None => NaN end.

(** [===] on strings. *)
Definition jseq (s t : jsstr) : bool := bool_decide (s = t).

(** ** Letters and digits *)

Definition is_upper (c : Z) : bool := (65 <=? c) && (c <=? 90).
Definition is_lower (c : Z) : bool := (97 <=? c) && (c <=? 122).
Definition is_digit (c : Z) : bool := (48 <=? c) && (c <=? 57).

Definition lower_unit (c : Z) : Z := if is_upper c then c + 32 else c.
Definition upper_unit (c : Z) : Z := if is_lower c then c - 32 else c.

Definition toLowerCase (s : jsstr) : jsstr := map lower_unit s.
Definition toUpperCase (s : jsstr) : jsstr := map upper_unit s.

(** A hexadecimal digit, either case. *)
Definition is_hex (c : Z) : bool :=
  is_digit c || ((97 <=? c) && (c <=? 102)) || ((65 <=? c) && (c <=? 70)).

(** The value of a digit of base 16 or less, [None] for another code unit. *)
Definition digit_value (c : Z) : option Z :=
  if is_digit c then Some (c - 48)
  else if (97 <=? c) && (c <=? 102) then Some (c - 87)
  else if (65 <=? c) && (c <=? 70) then Some (c - 55)
  else None.

Definition digit_unit (d : Z) : Z := if d <? 10 then 48 + d else 87 + d.

(** ** Positional notation *)

Fixpoint digits_fuel (fuel : nat) (b n : Z) (acc : list Z) : list Z :=
  match fuel with
  | O => acc
  | S f => if n <? b then n :: acc else digits_fuel f b (n / b) (n mod b :: acc)
  end.

(** The digits of [n] in base [b], most significant first. *)
Definition digits (b n : Z) : list Z :=
  digits_fuel (S (Z.to_nat (Z.log2 n))) b n [].

Definition undigits (b : Z) (l : list Z) : Z :=
  fold_left (fun acc d => acc * b + d) l 0.

(** [Number.prototype.toString(radix)] and [BigInt.prototype.toString()]. *)
Definition toString_radix (b n : Z) : jsstr :=
  if n <? 0 then 45 :: map digit_unit (digits b (- n))
  else map digit_unit (digits b n).

Definition num_toString (b : Z) (n : number) : jsstr :=
  match n with Int z => toString_radix b z | NaN => js "NaN" end.

Definition number_toString (n : Z) : jsstr := toString_radix 10 n.

(** ** Slicing, padding, searching *)

(** [String.prototype.repeat]. *)
Definition repeat_unit (c : Z) (n : nat) : jsstr := replicate n c.

(** [s.padStart(n, c)] and [s.padEnd(n, c)] with a one-unit filler. *)
Definition padStart (n : nat) (c : Z) (s : jsstr) : jsstr :=
  replicate (n - length s) c ++ s.

Definition padEnd (n : nat) (c : Z) (s : jsstr) : jsstr :=
  s ++ replicate (n - length s) c.

Fixpoint startsWith (p s : jsstr) : bool :=
  match p, s with
  | [], _ => true
  | a :: p', b :: s' => (a =? b) && startsWith p' s'
  | _ :: _, [] => false
  end.

(** [s.includes(p)]. *)
Fixpoint includes (p s : jsstr) : bool :=
  startsWith p s || match s with [] => false | _ :: s' => includes p s' end.

(** [s.split(c)] for a one-unit separator: at least one piece. *)
Fixpoint split_unit (c : Z) (s : jsstr) : list jsstr :=
  match s with
  | [] => [[]]
  | a :: s' =>
      if a =? c then [] :: split_unit c s'
      else match split_unit c s' with
           | [] => [[a]]
           | p :: ps => (a :: p) :: ps
           end
  end.

(** [Array.prototype.join(sep)]. *)
Fixpoint join (sep : jsstr) (l : list jsstr) : jsstr :=
  match l with
  | [] => []
  | [s] => s
  | s :: l' => s ++ sep ++ join sep l'
  end.

(** [s < t] on strings: the order of their code units. *)
Fixpoint str_leb (s t : jsstr) : bool :=
  match s, t with
  | [], _ => true
  | _ :: _, [] => false
  | a :: s', b :: t' => (a <? b) || ((a =? b) && str_leb s' t')
  end.

(** [Array.prototype.sort()] on strings. *)
Definition str_le (s t : jsstr) : Prop := str_leb s t = true.

#[export] Instance str_le_dec : RelDecision str_le.
Proof. intros s t. unfold str_le. apply _. Defined.

Definition sort_strings (l : list jsstr) : list jsstr := merge_sort str_le l.

(** [s.replace(/^0x/i, '')]. *)
Definition strip_0x (s : jsstr) : jsstr :=
  match s with
  | a :: c :: s' => if (a =? 48) && ((c =? 120) || (c =? 88)) then s' else s
  | _ => s
  end.

(** [s.replace(/,/g, '')]. *)
Definition remove_commas (s : jsstr) : jsstr := filterb (fun c => negb (c =? 44)) s.

(** ** Reading numbers *)

(** The white space [parseInt] and [BigInt] skip. *)
Definition is_space (c : Z) : bool :=
  ((9 <=? c) && (c <=? 13)) || bool_decide (c ∈ [32; 160; 5760; 8232; 8233; 8239; 8287; 12288; 65279])
  || ((8192 <=? c) && (c <=? 8202)).

Fixpoint skip_spaces (s : jsstr) : jsstr :=
  match s with
  | c :: s' => if is_space c then skip_spaces s' else s
  | [] => []
  end.

(** The longest prefix of digits below [b], as digit values. *)
Fixpoint take_digits (b : Z) (s : jsstr) : list Z :=
  match s with
  | [] => []
  | c :: s' =>
      match digit_value c with
      | Some d => if d <? b then d :: take_digits b s' else []
      | None => []
      end
  end.

Definition read_digits (b : Z) (s : jsstr) : option Z :=
  match take_digits b s with
  | [] => None
  | ds => Some (undigits b ds)
  end.

(** The digits after an optional sign. *)
Definition read_signed (rd : jsstr -> option Z) (s : jsstr) : option Z :=
  match s with
  | c :: s' =>
      if c =? 45 then Z.opp <$> rd s'
      else if c =? 43 then rd s' else rd s
  | [] => None
  end.

(** [parseInt(s, 10)] and [parseInt(s, 16)]. *)
Definition parseInt10 (s : jsstr) : number :=
  of_option (read_signed (read_digits 10) (skip_spaces s)).

Definition parseInt16 (s : jsstr) : number :=
  of_option (read_signed (fun t => read_digits 16 (strip_0x t)) (skip_spaces s)).

(** [parseInt(s)]: base 16 after a [0x] prefix, base 10 otherwise. *)
Definition parseInt (s : jsstr) : number :=
  of_option (read_signed
    (fun t => if bool_decide (strip_0x t = t) then read_digits 10 t
              else read_digits 16 (strip_0x t))
    (skip_spaces s)).

(** All of a string as digits of base [b]. *)
Definition read_all (b : Z) (s : jsstr) : option Z :=
  let ds := take_digits b s in
  if bool_decide (length ds = length s) then Some (undigits b ds) else None.

(** [BigInt(s)] for a decimal or [0x] literal without surrounding blanks;
    [None] is a [SyntaxError]. *)
Definition string_toBigInt (s : jsstr) : option Z :=
  match s with
  | [] => Some 0
  | _ =>
      if bool_decide (strip_0x s = s) then
        read_signed (fun t => match t with [] => None | _ => read_all 10 t end) s
      else match strip_0x s with [] => None | t => read_all 16 t end
  end.

(** ** JSON string literals *)

Definition is_lead (c : Z) : bool := (55296 <=? c) && (c <=? 56319).
Definition is_trail (c : Z) : bool := (56320 <=? c) && (c <=? 57343).

Definition unicode_escape (c : Z) : jsstr :=
  92 :: 117 :: padStart 4 48 (toString_radix 16 c).

(** One code unit outside a surrogate pair. *)
Definition escape_unit (c : Z) : jsstr :=
  if c =? 8 then [92; 98]
  else if c =? 9 then [92; 116]
  else if c =? 10 then [92; 110]
  else if c =? 12 then [92; 102]
  else if c =? 13 then [92; 114]
  else if c =? 34 then [92; 34]
  else if c =? 92 then [92; 92]
  else if (c <? 32) || is_lead c || is_trail c then unicode_escape c
  else [c].

Fixpoint escape (s : jsstr) : jsstr :=
  match s with
  | [] => []
  | a :: s1 =>
      match s1 with
      | b :: s2 =>
          if is_lead a && is_trail b then a :: b :: escape s2
          else escape_unit a ++ escape s1
      | [] => escape_unit a
      end
  end.

(** [JSON.stringify] of a string. *)
Definition json_quote (s : jsstr) : jsstr := 34 :: escape s ++ [34].

(** The inverse, for well-formed literals. *)
Fixpoint unescape (s : jsstr) : jsstr :=
  match s with
  | 92 :: 117 :: a :: b :: c :: d :: s' =>
      undigits 16 (take_digits 16 [a; b; c; d]) :: unescape s'
  | 92 :: c :: s' =>
      (if c =? 98 then 8 else if c =? 116 then 9 else if c =? 110 then 10
       else if c =? 102 then 12 else if c =? 114 then 13 else c) :: unescape s'
  | c :: s' => c :: unescape s'
  | [] => []
  end.

(** ** Digits: bounds, round trip, injectivity *)

Lemma fold_digits_shift b l a :
  fold_left (fun acc d => acc * b + d) l a = a * b ^ Z.of_nat (length l) + undigits b l.
Proof.
  unfold undigits. revert a. induction l as [|d l IH]; intros a; cbn [fold_left length].
  - lia.
  - rewrite (IH (a * b + d)), (IH (0 * b + d)), Nat2Z.inj_succ, Z.pow_succ_r by lia. lia.
Qed.

Lemma undigits_app b l1 l2 :
  undigits b (l1 ++ l2) = undigits b l1 * b ^ Z.of_nat (length l2) + undigits b l2.
Proof. unfold undigits at 1. rewrite fold_left_app. apply fold_digits_shift. Qed.

Lemma undigits_cons b d l :
  undigits b (d :: l) = d * b ^ Z.of_nat (length l) + undigits b l.
Proof. change (d :: l) with ([d] ++ l). rewrite undigits_app. reflexivity. Qed.

Lemma digits_fuel_spec b : 1 < b -> forall fuel n acc,
  0 <= n < 2 ^ Z.of_nat fuel ->
  exists ds, digits_fuel fuel b n acc = ds ++ acc
    /\ undigits b ds = n
    /\ Forall (fun d => 0 <= d < b) ds
    /\ ((0 < fuel)%nat -> (0 < length ds)%nat)
    /\ (forall k, (0 < k)%nat -> n < b ^ Z.of_nat k -> (length ds <= k)%nat).
Proof.
  intros Hb fuel. induction fuel as [|fuel IH]; intros n acc Hn; simpl.
  - change (2 ^ Z.of_nat 0) with 1 in Hn. exists []. split_and!; [done|cbn; lia|constructor|cbn; lia|cbn; lia].
  - rewrite Nat2Z.inj_succ, Z.pow_succ_r in Hn by lia.
    destruct (Z.ltb_spec n b) as [Hlt|Hge].
    + exists [n]. unfold undigits; simpl. split_and!; try done; [repeat constructor; lia|lia].
    + assert (0 <= n / b < 2 ^ Z.of_nat fuel) as Hq.
      { split; [apply Z.div_pos; lia|]. apply Z.div_lt_upper_bound; [lia|]. nia. }
      assert (1 <= n / b) as Hq1 by (apply Z.div_le_lower_bound; lia).
      destruct (IH (n / b) (n mod b :: acc) Hq) as (ds & -> & Hu & Hf & Hl & Hk).
      assert (Hm := Z.mod_pos_bound n b ltac:(lia)).
      exists (ds ++ [n mod b]). rewrite <- app_assoc. split_and!; [done| | | |].
      * rewrite undigits_app, Hu. simpl. unfold undigits; simpl.
        rewrite Z.pow_1_r. pose proof (Z.div_mod n b ltac:(lia)). lia.
      * apply Forall_app; split; [done|]. repeat constructor; lia.
      * rewrite length_app; simpl. lia.
      * intros k Hk0 Hnk. rewrite length_app; simpl.
        destruct k as [|k]; [lia|]. rewrite Nat2Z.inj_succ, Z.pow_succ_r in Hnk by lia.
        destruct k as [|k].
        { simpl in Hnk. lia. }
        enough (length ds <= S k)%nat by lia. apply Hk; [lia|].
        apply Z.div_lt_upper_bound; lia.
Qed.

Lemma digits_spec b n : 1 < b -> 0 <= n ->
  undigits b (digits b n) = n
  /\ Forall (fun d => 0 <= d < b) (digits b n)
  /\ (0 < length (digits b n))%nat
  /\ (forall k, (0 < k)%nat -> n < b ^ Z.of_nat k -> (length (digits b n) <= k)%nat).
Proof.
  intros Hb Hn. unfold digits.
  destruct (digits_fuel_spec b Hb (S (Z.to_nat (Z.log2 n))) n []) as (ds & Hd & Hu & Hf & Hl & Hk).
  - split; [done|]. rewrite Nat2Z.inj_succ, Z2Nat.id by apply Z.log2_nonneg.
    destruct (Z.eq_dec n 0) as [->|]; [simpl; lia|]. apply Z.log2_spec. lia.
  - rewrite app_nil_r in Hd. rewrite Hd. split_and!; try done. apply Hl; lia.
Qed.

Lemma undigits_bound b l :
  1 < b -> Forall (fun d => 0 <= d < b) l -> 0 <= undigits b l < b ^ Z.of_nat (length l).
Proof.
  intros Hb. induction 1 as [|d l Hd Hl IH].
  - unfold undigits; simpl. lia.
  - rewrite undigits_cons. simpl length. rewrite Nat2Z.inj_succ, Z.pow_succ_r by lia. nia.
Qed.

Lemma undigits_inj b l1 l2 :
  1 < b -> Forall (fun d => 0 <= d < b) l1 -> Forall (fun d => 0 <= d < b) l2 ->
  length l1 = length l2 -> undigits b l1 = undigits b l2 -> l1 = l2.
Proof.
  intros Hb H1; revert l2. induction H1 as [|d1 l1 Hd1 H1 IH]; intros l2 H2 Hlen Hu.
  - by destruct l2.
  - destruct H2 as [|d2 l2 Hd2 H2]; [done|]. simpl in Hlen. injection Hlen as Hlen.
    rewrite !undigits_cons, Hlen in Hu.
    pose proof (undigits_bound b l1 Hb H1) as B1. pose proof (undigits_bound b l2 Hb H2) as B2.
    rewrite Hlen in B1. assert (d1 = d2) as -> by nia. f_equal. apply IH; [done..|lia].
Qed.

Lemma digit_value_unit d : 0 <= d < 16 -> digit_value (digit_unit d) = Some d.
Proof.
  intros Hd. unfold digit_value, digit_unit, is_digit.
  destruct (Z.ltb_spec d 10).
  - replace ((48 <=? 48 + d) && (48 + d <=? 57)) with true by (symmetry; apply andb_true_intro; lia).
    f_equal; lia.
  - replace ((48 <=? 87 + d) && (87 + d <=? 57)) with false by (symmetry; apply andb_false_intro2; lia).
    replace ((97 <=? 87 + d) && (87 + d <=? 102)) with true by (symmetry; apply andb_true_intro; lia).
    f_equal; lia.
Qed.

Lemma digit_unit_inj d e : 0 <= d < 16 -> 0 <= e < 16 -> digit_unit d = digit_unit e -> d = e.
Proof.
  intros Hd He H. apply (f_equal digit_value) in H. rewrite !digit_value_unit in H by done. congruence.
Qed.

Lemma take_digits_units b ds : b <= 16 -> Forall (fun d => 0 <= d < b) ds ->
  take_digits b (map digit_unit ds) = ds.
Proof.
  intros Hb. induction 1 as [|d ds Hd Hds IH]; simpl; [done|].
  rewrite digit_value_unit by lia. replace (d <? b) with true by (symmetry; lia). by rewrite IH.
Qed.

Lemma toString_radix_nonneg b n : 0 <= n -> toString_radix b n = map digit_unit (digits b n).
Proof. intros. unfold toString_radix. by replace (n <? 0) with false by (symmetry; lia). Qed.

Lemma length_toString_radix b n k :
  1 < b -> 0 <= n < b ^ Z.of_nat k -> (0 < k)%nat -> (length (toString_radix b n) <= k)%nat.
Proof.
  intros Hb Hn Hk. rewrite toString_radix_nonneg by lia. rewrite length_map.
  apply (digits_spec b n Hb); lia.
Qed.

Lemma digit_unit_0 : digit_unit 0 = 48.
Proof. reflexivity. Qed.

Lemma undigits_replicate_0 b n l : undigits b (replicate n 0 ++ l) = undigits b l.
Proof.
  induction n as [|n IH]; [done|]. cbn [replicate app]. rewrite undigits_cons, IH. lia.
Qed.

(** A number printed in base [b] and padded to [k] digits. *)
Lemma padStart_radix b n k : 1 < b <= 16 -> 0 <= n < b ^ Z.of_nat k -> (0 < k)%nat ->
  exists ds, padStart k 48 (toString_radix b n) = map digit_unit ds
    /\ length ds = k /\ Forall (fun d => 0 <= d < b) ds /\ undigits b ds = n.
Proof.
  intros Hb Hn Hk. rewrite toString_radix_nonneg by lia.
  destruct (digits_spec b n) as (Hu & Hf & _ & Hl); [lia..|].
  specialize (Hl k Hk ltac:(lia)).
  exists (replicate (k - length (digits b n)) 0 ++ digits b n). split_and!.
  - unfold padStart. rewrite length_map, map_app. f_equal.
    rewrite <- digit_unit_0. symmetry. apply (fmap_replicate digit_unit).
  - rewrite length_app, length_replicate. lia.
  - apply Forall_app; split; [|done]. apply Forall_replicate. lia.
  - by rewrite undigits_replicate_0.
Qed.

Lemma map_digit_unit_inj b ds es : b <= 16 ->
  Forall (fun d => 0 <= d < b) ds -> Forall (fun d => 0 <= d < b) es ->
  map digit_unit ds = map digit_unit es -> ds = es.
Proof.
  intros Hb Hd He H. rewrite <- (take_digits_units b ds Hb Hd), <- (take_digits_units b es Hb He).
  by rewrite H.
Qed.

Lemma padStart_radix_inj b m n k : 1 < b <= 16 -> (0 < k)%nat ->
  0 <= m < b ^ Z.of_nat k -> 0 <= n < b ^ Z.of_nat k ->
  padStart k 48 (toString_radix b m) = padStart k 48 (toString_radix b n) -> m = n.
Proof.
  intros Hb Hk Hm Hn H.
  destruct (padStart_radix b m k) as (ds & E1 & _ & F1 & <-); [done..|].
  destruct (padStart_radix b n k) as (es & E2 & _ & F2 & <-); [done..|].
  rewrite E1, E2 in H. f_equal. eapply map_digit_unit_inj; [|done..]. lia.
Qed.

(** ** Reading back a printed number *)

Lemma digit_unit_range b d : b <= 16 -> 0 <= d < b ->
  (48 <= digit_unit d <= 57 /\ d < 10) \/ (97 <= digit_unit d <= 102 /\ 10 <= d).
Proof. intros Hb Hd. unfold digit_unit. destruct (Z.ltb_spec d 10); lia. Qed.

Lemma graphic_not_space c : 33 <= c <= 126 -> is_space c = false.
Proof.
  intros Hc. unfold is_space.
  replace (c <=? 13) with false by (symmetry; lia).
  replace (8192 <=? c) with false by (symmetry; lia).
  rewrite bool_decide_false; [by rewrite andb_false_r|].
  rewrite !elem_of_cons, elem_of_nil. lia.
Qed.

Lemma digit_unit_not_space d : 0 <= d < 16 -> is_space (digit_unit d) = false.
Proof.
  intros Hd. apply graphic_not_space.
  destruct (digit_unit_range 16 d) as [[H _]|[H _]]; lia.
Qed.

Lemma skip_spaces_units ds : Forall (fun d => 0 <= d < 16) ds ->
  skip_spaces (map digit_unit ds) = map digit_unit ds.
Proof.
  intros [|d l Hd Hl]; simpl; [done|]. by rewrite digit_unit_not_space.
Qed.

Lemma read_signed_units rd d ds : 0 <= d < 16 ->
  read_signed rd (map digit_unit (d :: ds)) = rd (map digit_unit (d :: ds)).
Proof.
  intros Hd. cbn [map read_signed].
  assert (48 <= digit_unit d) by (destruct (digit_unit_range 16 d); lia).
  replace (digit_unit d =? 45) with false by (symmetry; lia).
  by replace (digit_unit d =? 43) with false by (symmetry; lia).
Qed.

Lemma read_digits_units b d ds : b <= 16 -> Forall (fun d => 0 <= d < b) (d :: ds) ->
  read_digits b (map digit_unit (d :: ds)) = Some (undigits b (d :: ds)).
Proof. intros Hb Hf. unfold read_digits. by rewrite take_digits_units. Qed.

Lemma parseInt10_number_toString n : parseInt10 (number_toString n) = Int n.
Proof.
  assert (forall m, 0 <= m -> exists d ds, digits 10 m = d :: ds /\ Forall (fun d => 0 <= d < 10) (d :: ds)
     /\ undigits 10 (d :: ds) = m) as Hdig.
  { intros m Hm. destruct (digits_spec 10 m) as (Hu & Hf & Hl & _); [lia..|].
    destruct (digits 10 m) as [|d ds]; simpl in Hl; [lia|eauto]. }
  unfold parseInt10, number_toString, toString_radix.
  destruct (Z.ltb_spec n 0) as [Hn|Hn].
  - destruct (Hdig (- n)) as (d & ds & -> & Hf & Hu); [lia|].
    change (skip_spaces (45 :: ?l)) with (45 :: l).
    change (read_signed ?r (45 :: ?l)) with (Z.opp <$> r l).
    rewrite read_digits_units by (done || lia). rewrite Hu. simpl. by rewrite Z.opp_involutive.
  - destruct (Hdig n) as (d & ds & -> & Hf & Hu); [lia|].
    rewrite skip_spaces_units by (eapply Forall_impl; [exact Hf|cbn; lia]).
    rewrite read_signed_units by (inversion Hf; lia).
    rewrite read_digits_units by (done || lia). by rewrite Hu.
Qed.

(** ** Case folding *)

(** Split every integer comparison of the goal whose sides are not themselves
    conditionals, then close by arithmetic. *)
Ltac zcases :=
  repeat match goal with
  | |- context[?a <=? ?b] =>
      lazymatch a with context[if _ then _ else _] => fail | _ => idtac end;
      lazymatch b with context[if _ then _ else _] => fail | _ => idtac end;
      destruct (Z.leb_spec a b); simpl
  end; lia.

Lemma lower_unit_idemp c : lower_unit (lower_unit c) = lower_unit c.
Proof.
  unfold lower_unit, is_upper.
  zcases.
Qed.

Lemma lower_upper_unit c : lower_unit (upper_unit c) = lower_unit c.
Proof.
  unfold lower_unit, upper_unit, is_upper, is_lower.
  zcases.
Qed.

Lemma toLowerCase_idemp s : toLowerCase (toLowerCase s) = toLowerCase s.
Proof. unfold toLowerCase. rewrite map_map. apply map_ext, lower_unit_idemp. Qed.

Lemma is_hex_lower c : is_hex (lower_unit c) = is_hex c.
Proof.
  unfold is_hex, lower_unit, is_upper, is_digit.
  zcases.
Qed.

Lemma is_hex_upper c : is_hex (upper_unit c) = is_hex c \/ is_lower c = true.
Proof. unfold upper_unit. destruct (is_lower c); auto. Qed.

Lemma digit_unit_lower d : 0 <= d < 16 -> lower_unit (digit_unit d) = digit_unit d.
Proof.
  intros Hd. unfold lower_unit, is_upper.
  destruct (digit_unit_range 16 d) as [[H _]|[H _]]; [lia..| |];
    zcases.
Qed.

Lemma digit_unit_hex d : 0 <= d < 16 -> is_hex (digit_unit d) = true.
Proof.
  intros Hd. unfold is_hex, is_digit.
  destruct (digit_unit_range 16 d) as [[H _]|[H _]]; [lia..| |];
    zcases.
Qed.

(** ** JSON literals *)

(** The code units of a JavaScript string. *)
Definition units (s : jsstr) : Prop := Forall (fun c => 0 <= c < 65536) s.

Lemma unescape_unicode c s : 0 <= c < 65536 ->
  unescape (unicode_escape c ++ s) = c :: unescape s.
Proof.
  intros Hc. unfold unicode_escape.
  destruct (padStart_radix 16 c 4) as (ds & -> & Hl & Hf & Hu); [lia|simpl; lia|lia|].
  destruct ds as [|d1 [|d2 [|d3 [|d4 [|]]]]]; try discriminate Hl.
  cbn [map app]. cbn [unescape].
  change [digit_unit d1; digit_unit d2; digit_unit d3; digit_unit d4]
    with (map digit_unit [d1; d2; d3; d4]).
  rewrite take_digits_units by (done || lia). by rewrite Hu.
Qed.

Lemma unescape_escape_unit c s : 0 <= c < 65536 ->
  unescape (escape_unit c ++ s) = c :: unescape s.
Proof.
  intros Hc. unfold escape_unit.
  repeat match goal with
  | |- context[?a =? ?b] => destruct (Z.eqb_spec a b) as [->|?]; [reflexivity|]
  end.
  destruct ((c <? 32) || is_lead c || is_trail c); [by apply unescape_unicode|].
  cbn [app]. destruct c as [|p|p]; [reflexivity| |lia].
  repeat (destruct p as [p|p|]; try reflexivity; try lia).
Qed.

Lemma unescape_plain c s : c <> 92 -> unescape (c :: s) = c :: unescape s.
Proof.
  intros Hc. destruct c as [|p|p]; try reflexivity.
  repeat (destruct p as [p|p|]; try reflexivity; try lia).
Qed.

Lemma unescape_escape s : units s -> unescape (escape s) = s.
Proof.
  remember (length s) as n eqn:Hn. assert (length s <= n)%nat as Hle by lia. clear Hn.
  revert s Hle. induction n as [|n IH]; intros s Hle Hs.
  - destruct s; simpl in Hle; [done|lia].
  - destruct s as [|a [|b s]]; [done| |].
    + inversion Hs; subst. cbn [escape]. rewrite <- (app_nil_r (escape_unit a)).
      by rewrite unescape_escape_unit.
    + inversion Hs as [|? ? Ha Hs1]; subst. inversion Hs1 as [|? ? Hb Hs2]; subst.
      simpl in Hle. cbn [escape].
      destruct (is_lead a && is_trail b) eqn:Hp.
      * apply andb_true_iff in Hp as [Hl Ht]. unfold is_lead, is_trail in *.
        rewrite !unescape_plain by lia. rewrite IH by (done || lia). done.
      * rewrite unescape_escape_unit by done. f_equal. apply (IH (b :: s)); [simpl; lia|done].
Qed.

(** Two strings with the same JSON literal are equal. *)
Lemma json_quote_inj s t : units s -> units t -> json_quote s = json_quote t -> s = t.
Proof.
  intros Hs Ht H. unfold json_quote in H. injection H as H. apply app_inj_tail in H as [H _].
  rewrite <- (unescape_escape s Hs), <- (unescape_escape t Ht). by rewrite H.
Qed.
