(* ===== verification/JsValue.v ===== *)
(** * JavaScript values

    The dynamically typed values the client receives from the node library: a
    codec object of polkadot.js is seen through its properties and through the
    results of its parameterless methods ([toJSON()], [toHuman()],
    [toNumber()], ...), which are pure.  Accesses fail as in JavaScript:
    reading a property of [undefined] or [null], or calling a method that is
    not there, throws. *)

From Stdlib Require Import Ascii String.
From stdpp Require Import list.
From S2P Require Import Prelude JsString.

#[local] Set Warnings "-register-all".

Open Scope Z_scope.
Open Scope js_scope.

Inductive jsval : Type :=
  | JUndef
  | JNull
  | JBool (b : bool)
  | JNum (n : number)
  | JBig (z : Z)
  | JStr (s : jsstr)
  | JArr (l : list jsval)
  | JObj (props methods : list (jsstr * jsval)).

(** An object literal: own properties, no methods. *)
Definition obj (props : list (jsstr * jsval)) : jsval := JObj props [].

(** A codec: methods only. *)
Definition codec (methods : list (jsstr * jsval)) : jsval := JObj [] methods.

(** Induction with hypotheses for the elements of arrays and the properties of
    objects. *)
Section Induction.
Variable P : jsval -> Prop.
Hypothesis case_flat : forall v,
  match v with JArr _ | JObj _ _ => False | _ => True end -> P v.
Hypothesis case_arr : forall l, Forall P l -> P (JArr l).
Hypothesis case_obj : forall ps ms,
  Forall (fun kv => P kv.2) ps -> Forall (fun kv => P kv.2) ms -> P (JObj ps ms).

Fixpoint jsval_nested (v : jsval) : P v :=
  let entries := fix entries (l : list (jsstr * jsval)) : Forall (fun kv => P kv.2) l :=
    match l with
    | [] => @List.Forall_nil _ _
    | kv :: l' => @List.Forall_cons _ _ _ _ (jsval_nested kv.2) (entries l')
    end in
  match v with
  | JArr l =>
      case_arr l
        ((fix elems (l : list jsval) : Forall P l :=
            match l with
            | [] => @List.Forall_nil _ _
            | x :: l' => @List.Forall_cons _ _ _ _ (jsval_nested x) (elems l')
            end) l)
  | JObj ps ms => case_obj ps ms (entries ps) (entries ms)
  | v => case_flat v I
  end.
End Induction.

(** ** Values with a fixed shape *)

(** [event.event] together with [event.phase], as the node library delivers
    them ([IPhasicEvent] and [FrameSystemEventRecord]). *)
Record EventRecord : Type := mkEvent {
  section : jsstr;
  method : jsstr;
  index : jsval;
  typeDef : list jsval;
  data : list jsval;
  phase : jsval }.

(** The client's own event object. *)
Record IEvent : Type := mkIEvent {
  ie_section : jsstr;
  ie_method : jsstr;
  ie_index : jsval;
  ie_data : list jsval;
  ie_phase : jsval }.

(** The life of an extrinsic in the pool and in blocks, with block hashes. *)
Inductive ExtrinsicStatus : Type :=
  | StFuture
  | StReady
  | StBroadcast
  | StInBlock (hash : jsstr)
  | StRetracted (hash : jsstr)
  | StFinalityTimeout (hash : jsstr)
  | StFinalized (hash : jsstr)
  | StUsurped (hash : jsstr)
  | StDropped
  | StInvalid.

Definition isReady (s : ExtrinsicStatus) : bool := match s with StReady => true | _ => false end.
Definition isBroadcast (s : ExtrinsicStatus) : bool := match s with StBroadcast => true | _ => false end.
Definition isFuture (s : ExtrinsicStatus) : bool := match s with StFuture => true | _ => false end.
Definition isRetracted (s : ExtrinsicStatus) : bool := match s with StRetracted _ => true | _ => false end.
Definition isInBlock (s : ExtrinsicStatus) : bool := match s with StInBlock _ => true | _ => false end.
Definition isFinalized (s : ExtrinsicStatus) : bool := match s with StFinalized _ => true | _ => false end.

(** A dispatch error: of a module, of the token engine, or another one; with
    the value its [toJSON] gives. *)
Inductive DispatchErrorKind : Type :=
  | DEModule (err : jsval)
  | DEToken (name : jsstr)
  | DEOther (human : jsval).

Record DispatchError : Type := mkDispatchError {
  de_kind : DispatchErrorKind;
  de_json : jsval }.

(** One status report of a submitted extrinsic. [None] in
    [tu_dispatchError] means that the object has no such own property and
    [Some None] that the property holds [undefined]. *)
Record TxUpdate : Type := mkTxUpdate {
  tu_status : ExtrinsicStatus;
  tu_events : list EventRecord;
  tu_dispatchError : option (option DispatchError) }.

(** [UniqueUtil.transactionStatus]. *)
Inductive TransactionStatus : Type := NOT_READY | FAIL | SUCCESS.

#[export] Instance status_eq_dec : EqDecision TransactionStatus.
Proof. solve_decision. Defined.

Record ITransactionResult : Type := mkResult {
  tr_status : TransactionStatus;
  tr_result : TxUpdate;
  tr_blockHash : jsval;
  tr_fee : option Z;
  tr_moduleError : jsval }.

Definition tr_events (r : ITransactionResult) : list EventRecord := tu_events (tr_result r).

(** What is thrown: [Error(message)], an error raised by the engine
    ([TypeError], [RangeError], [SyntaxError]), a bare string, another value, or the object
    with which [signTransaction] rejects. Only the last has a property
    [status] of its own. *)
Inductive exn : Type :=
  | JSError (message : jsstr)
  | EngineError
  | JSThrown (s : jsstr)
  | JSValue (v : jsval)
  | TxRejected (r : ITransactionResult).

Abbreviation Res := (outcome exn).

(** ** Property lists, conversions, accesses *)

Fixpoint assoc (k : jsstr) (l : list (jsstr * jsval)) : option jsval :=
  match l with
  | [] => None
  | (k', v) :: l' => if jseq k k' then Some v else assoc k l'
  end.

(** Assignment to a property keeps its place, or appends it. *)
Fixpoint assoc_set (k : jsstr) (v : jsval) (l : list (jsstr * jsval)) : list (jsstr * jsval) :=
  match l with
  | [] => [(k, v)]
  | (k', v') :: l' => if jseq k k' then (k, v) :: l' else (k', v') :: assoc_set k v l'
  end.

(** [Boolean(v)]. *)
Definition truthy (v : jsval) : bool :=
  match v with
  | JUndef | JNull | JNum NaN => false
  | JBool b => b
  | JNum (Int z) | JBig z => negb (z =? 0)
  | JStr s => negb (bool_decide (s = []))
  | JArr _ | JObj _ _ => true
  end.

(** [String(v)] and template interpolation. *)
Fixpoint to_string (v : jsval) : jsstr :=
  match v with
  | JUndef => js "undefined"
  | JNull => js "null"
  | JBool b => js (if b then "true" else "false")
  | JNum n => num_toString 10 n
  | JBig z => number_toString z
  | JStr s => s
  | JArr l =>
      join (js ",") (map (fun x => match x with JUndef | JNull => [] | _ => to_string x end) l)
  | JObj _ ms =>
      match assoc (js "toString") ms with
      | Some (JStr s) => s
      | _ => js "[object Object]"
      end
  end.

(** [===]; objects are compared by identity in JavaScript and the client never
    compares two of them, so they count as different. *)
Definition strict_eq (v w : jsval) : bool :=
  match v, w with
  | JUndef, JUndef | JNull, JNull => true
  | JBool a, JBool b => Bool.eqb a b
  | JNum a, JNum b => num_eqb a b
  | JBig a, JBig b => a =? b
  | JStr a, JStr b => jseq a b
  | _, _ => false
  end.

(** [v.k]. *)
Definition get_prop (v : jsval) (k : jsstr) : Res jsval :=
  match v with
  | JUndef | JNull => Throw EngineError
  | JObj ps _ => Ret (default JUndef (assoc k ps))
  | JArr l => Ret (if jseq k (js "length") then JNum (Int (Z.of_nat (length l))) else JUndef)
  | JStr s => Ret (if jseq k (js "length") then JNum (Int (Z.of_nat (length s))) else JUndef)
  | _ => Ret JUndef
  end.

(** [v.k()] for a parameterless method. *)
Definition call0 (v : jsval) (k : jsstr) : Res jsval :=
  match v with
  | JUndef | JNull => Throw EngineError
  | JObj _ ms =>
      match assoc k ms with
      | Some r => Ret r
      | None =>
          if jseq k (js "toString") then Ret (JStr (to_string v)) else Throw EngineError
      end
  | _ => if jseq k (js "toString") then Ret (JStr (to_string v)) else Throw EngineError
  end.

(** [v[i]] on an array. *)
Definition get_index (v : jsval) (i : nat) : Res jsval :=
  match v with
  | JUndef | JNull => Throw EngineError
  | JArr l => Ret (default JUndef (l !! i))
  | _ => Ret JUndef
  end.

(** [k in v]. *)
Definition has_prop (v : jsval) (k : jsstr) : Res bool :=
  match v with
  | JObj ps ms => Ret (bool_decide (is_Some (assoc k ps)) || bool_decide (is_Some (assoc k ms)))
  | JArr _ => Ret false
  | _ => Throw EngineError
  end.

(** The elements of an array the client iterates over. *)
Definition elements (v : jsval) : Res (list jsval) :=
  match v with
  | JArr l => Ret l
  | _ => Throw EngineError
  end.

(** [BigInt(v)]. *)
Definition bigint_of_string (s : jsstr) : Res Z :=
  match string_toBigInt s with Some z => Ret z | None => Throw EngineError end.

Definition to_bigint (v : jsval) : Res Z :=
  match v with
  | JBig z | JNum (Int z) => Ret z
  | JBool b => Ret (if b then 1 else 0)
  | JStr s => bigint_of_string s
  | JArr _ | JObj _ _ => bigint_of_string (to_string v)
  | JUndef | JNull | JNum NaN => Throw EngineError
  end.

(** [a < b], [a - b] on two numbers or two bigints. *)
Definition js_lt (a b : jsval) : bool :=
  match a, b with
  | JNum (Int x), JNum (Int y) | JBig x, JBig y
  | JNum (Int x), JBig y | JBig x, JNum (Int y) => x <? y
  | _, _ => false
  end.

Definition js_sub (a b : jsval) : Res jsval :=
  match a, b with
  | JNum (Int x), JNum (Int y) => Ret (JNum (Int (x - y)))
  | JBig x, JBig y => Ret (JBig (x - y))
  | JBig _, _ | _, JBig _ => Throw EngineError
  | _, _ => Ret (JNum NaN)
  end.

(** ** JSON *)

(** A property list without the entries that [JSON.stringify] drops. *)
Fixpoint flatten_props (l : list (jsstr * option jsstr)) : list jsstr :=
  match l with
  | [] => []
  | (k, Some s) :: l' => (json_quote k ++ js ":" ++ s) :: flatten_props l'
  | (_, None) :: l' => flatten_props l'
  end.

(** [JSON.stringify(v)]: [Ret None] is [undefined]; a [bigint] throws. *)
Fixpoint json_stringify (v : jsval) : Res (option jsstr) :=
  match v with
  | JUndef => Ret None
  | JNull | JNum NaN => Ret (Some (js "null"))
  | JBool b => Ret (Some (js (if b then "true" else "false")))
  | JNum (Int z) => Ret (Some (number_toString z))
  | JBig _ => Throw EngineError
  | JStr s => Ret (Some (json_quote s))
  | JArr l =>
      (fun ss => Some (js "[" ++ join (js ",") ss ++ js "]")) <$>
      (fix go (l : list jsval) : Res (list jsstr) :=
         match l with
         | [] => Ret []
         | x :: l' =>
             o ← json_stringify x;
             ss ← go l';
             Ret (default (js "null") o :: ss)
         end) l
  | JObj ps ms =>
      match
        (fix method (l : list (jsstr * jsval)) : option (Res (option jsstr)) :=
           match l with
           | [] => None
           | (k, x) :: l' => if jseq k (js "toJSON") then Some (json_stringify x) else method l'
           end) ms
      with
      | Some r => r
      | None =>
          (fun ss => Some (js "{" ++ join (js ",") (flatten_props ss) ++ js "}")) <$>
          (fix go (l : list (jsstr * jsval)) : Res (list (jsstr * option jsstr)) :=
             match l with
             | [] => Ret []
             | (k, x) :: l' => o ← json_stringify x; ss ← go l'; Ret ((k, o) :: ss)
             end) ps
      end
  end.

(** [JSON.parse(JSON.stringify(v))]: the deep copy of a value, without methods
    and without [undefined] properties. [Ret None] is [undefined]. *)
Fixpoint json_clone (v : jsval) : Res (option jsval) :=
  match v with
  | JUndef => Ret None
  | JNull | JNum NaN => Ret (Some JNull)
  | JBool _ | JNum _ | JStr _ => Ret (Some v)
  | JBig _ => Throw EngineError
  | JArr l =>
      (fun xs => Some (JArr xs)) <$>
      (fix go (l : list jsval) : Res (list jsval) :=
         match l with
         | [] => Ret []
         | x :: l' => o ← json_clone x; xs ← go l'; Ret (default JNull o :: xs)
         end) l
  | JObj ps ms =>
      match
        (fix method (l : list (jsstr * jsval)) : option (Res (option jsval)) :=
           match l with
           | [] => None
           | (k, x) :: l' => if jseq k (js "toJSON") then Some (json_clone x) else method l'
           end) ms
      with
      | Some r => r
      | None =>
          (fun xs => Some (obj xs)) <$>
          (fix go (l : list (jsstr * jsval)) : Res (list (jsstr * jsval)) :=
             match l with
             | [] => Ret []
             | (k, x) :: l' =>
                 o ← json_clone x;
                 xs ← go l';
                 Ret (match o with Some y => (k, y) :: xs | None => xs end)
             end) ps
      end
  end.

(** ** Lemmas *)

(** A computation whose only exceptions are those of the engine. *)
Definition engine_only {A} (o : Res A) : Prop := forall e, o = Throw e -> e = EngineError.

Lemma engine_bind {A B} (o : Res A) (k : A -> Res B) :
  engine_only o -> (forall a, engine_only (k a)) -> engine_only (bind o k).
Proof.
  intros Ho Hk e. destruct o as [a|e'|]; cbn; [apply Hk| |done].
  intros [= <-]. by apply Ho.
Qed.

Lemma engine_fmap {A B} (o : Res A) (f : A -> B) : engine_only o -> engine_only (f <$> o).
Proof. intros Ho e. destruct o; cbn; [done| |done]. intros [= <-]. by apply Ho. Qed.

Lemma engine_Ret {A} (a : A) : engine_only (Ret a).
Proof. done. Qed.

Lemma engine_Throw {A} : engine_only (Throw EngineError : Res A).
Proof. by intros e [= <-]. Qed.

Lemma engine_map_out {A B} (f : A -> Res B) l :
  (forall a, engine_only (f a)) -> engine_only (map_out f l).
Proof.
  intros Hf. induction l as [|a l IH]; cbn [map_out]; [apply engine_Ret|].
  apply engine_bind; [apply Hf|]. intros b. apply engine_bind; [apply IH|]. intros. apply engine_Ret.
Qed.

Create HintDb engine.
#[export] Hint Resolve engine_Ret engine_Throw engine_bind engine_fmap engine_map_out : engine.

Lemma engine_get_prop v k : engine_only (get_prop v k).
Proof. destruct v; cbn; auto with engine. Qed.

Lemma engine_get_index v i : engine_only (get_index v i).
Proof. destruct v; cbn; auto with engine. Qed.

Lemma engine_call0 v k : engine_only (call0 v k).
Proof. destruct v; cbn; repeat case_match; auto with engine. Qed.

#[export] Hint Resolve engine_get_prop engine_get_index engine_call0 : engine.

Lemma assoc_set_eq k v l : assoc k (assoc_set k v l) = Some v.
Proof.
  induction l as [|[k' v'] l IH]; simpl; unfold jseq.
  - by rewrite bool_decide_true.
  - destruct (bool_decide (k = k')) eqn:E; simpl; unfold jseq; [by rewrite bool_decide_true|].
    by rewrite E.
Qed.

Lemma assoc_set_ne k k' v l : k <> k' -> assoc k' (assoc_set k v l) = assoc k' l.
Proof.
  intros Hne. induction l as [|[j w] l IH]; simpl; unfold jseq.
  - rewrite bool_decide_false by congruence. done.
  - case_bool_decide as E; simpl; unfold jseq.
    + subst j. by rewrite !(bool_decide_false (k' = k)) by congruence.
    + case_bool_decide; [done|]. done.
Qed.

Lemma jseq_true s t : jseq s t = true <-> s = t.
Proof. unfold jseq. by rewrite bool_decide_eq_true. Qed.

Lemma jseq_refl s : jseq s s = true.
Proof. by apply jseq_true. Qed.

Lemma strict_eq_num a b : strict_eq (JNum (Int a)) (JNum (Int b)) = true <-> a = b.
Proof. apply Z.eqb_eq. Qed.
