(* ===== verification/Utf8.v ===== *)
(** * UTF-8 and hexadecimal text of strings

    [Buffer.from(s)] and [new TextEncoder().encode(s)] give the UTF-8 bytes of
    a string, a lone surrogate becoming the replacement character;
    [buffer.toString('hex')] writes bytes as pairs of hexadecimal digits.  With
    a decoder as the reference, and the round trip. *)

From Stdlib Require Import Ascii String.
From stdpp Require Import list.
From S2P Require Import Prelude JsString.

Open Scope Z_scope.

(** The bytes of a code point. *)
Definition utf8_point (p : Z) : list Z :=
  if p <? 0x80 then [p]
  else if p <? 0x800 then [0xC0 + p / 64; 0x80 + p mod 64]
  else if p <? 0x10000 then [0xE0 + p / 4096; 0x80 + p / 64 mod 64; 0x80 + p mod 64]
  else [0xF0 + p / 262144; 0x80 + p / 4096 mod 64; 0x80 + p / 64 mod 64; 0x80 + p mod 64].

Definition replacement : list Z := [0xEF; 0xBF; 0xBD].

(** The code point of a surrogate pair. *)
Definition pair_point (lead trail : Z) : Z := 0x10000 + (lead - 0xD800) * 1024 + (trail - 0xDC00).

Fixpoint utf8 (s : jsstr) : list Z :=
  match s with
  | [] => []
  | a :: s1 =>
      match s1 with
      | b :: s2 =>
          if is_lead a && is_trail b then utf8_point (pair_point a b) ++ utf8 s2
          else (if is_lead a || is_trail a then replacement else utf8_point a) ++ utf8 s1
      | [] => if is_lead a || is_trail a then replacement else utf8_point a
      end
  end.

(** [buffer.toString('hex')]. *)
Definition hex_bytes (bs : list Z) : jsstr :=
  flat_map (fun b => [digit_unit (b / 16); digit_unit (b mod 16)]) bs.

(** ** The reference decoder *)

(** The units of a code point. *)
Definition point_units (p : Z) : jsstr :=
  if p <? 0x10000 then [p]
  else [0xD800 + (p - 0x10000) / 1024; 0xDC00 + (p - 0x10000) mod 1024].

Fixpoint utf8_decode (bs : list Z) : jsstr :=
  match bs with
  | a :: l1 =>
      if a <? 0x80 then a :: utf8_decode l1
      else
        match l1 with
        | b :: l2 =>
            if a <? 0xE0 then point_units ((a - 0xC0) * 64 + (b - 0x80)) ++ utf8_decode l2
            else
              match l2 with
              | c :: l3 =>
                  if a <? 0xF0 then
                    point_units ((a - 0xE0) * 4096 + (b - 0x80) * 64 + (c - 0x80)) ++ utf8_decode l3
                  else
                    match l3 with
                    | d :: l4 =>
                        point_units ((a - 0xF0) * 262144 + (b - 0x80) * 4096 + (c - 0x80) * 64 + (d - 0x80))
                        ++ utf8_decode l4
                    | [] => []
                    end
              | [] => []
              end
        | [] => []
        end
  | [] => []
  end.

Fixpoint hex_decode (s : jsstr) : list Z :=
  match s with
  | a :: b :: s' => (16 * default 0 (digit_value a) + default 0 (digit_value b)) :: hex_decode s'
  | _ => []
  end.

(** ** Lemmas *)

Definition unit16 (c : Z) : Prop := 0 <= c < 0x10000.

(** No lone surrogate. *)
Fixpoint well_formed_units (s : jsstr) : Prop :=
  match s with
  | [] => True
  | a :: s1 =>
      match s1 with
      | b :: s2 =>
          if is_lead a && is_trail b then well_formed_units s2
          else is_lead a || is_trail a = false /\ well_formed_units s1
      | [] => is_lead a || is_trail a = false
      end
  end.

Lemma utf8_point_decode p bs : 0 <= p < 0x110000 ->
  utf8_decode (utf8_point p ++ bs) = point_units p ++ utf8_decode bs.
Proof.
  intros Hp. unfold utf8_point.
  pose proof (Z.div_mod p 64 ltac:(lia)). pose proof (Z.mod_pos_bound p 64 ltac:(lia)).
  pose proof (Z.div_mod (p / 64) 64 ltac:(lia)). pose proof (Z.mod_pos_bound (p / 64) 64 ltac:(lia)).
  pose proof (Z.div_mod (p / 4096) 64 ltac:(lia)). pose proof (Z.mod_pos_bound (p / 4096) 64 ltac:(lia)).
  assert (p / 64 / 64 = p / 4096) by (rewrite Z.div_div by lia; done).
  assert (p / 4096 / 64 = p / 262144) by (rewrite Z.div_div by lia; done).
  destruct (Z.ltb_spec p 0x80).
  { cbn [app utf8_decode]. rewrite (proj2 (Z.ltb_lt p 0x80)) by lia. unfold point_units.
    by rewrite (proj2 (Z.ltb_lt p 0x10000)) by lia. }
  destruct (Z.ltb_spec p 0x800); [|destruct (Z.ltb_spec p 0x10000)]; cbn [app utf8_decode].
  - rewrite (proj2 (Z.ltb_ge _ 0x80)), (proj2 (Z.ltb_lt _ 0xE0)) by lia. do 2 f_equal. lia.
  - rewrite (proj2 (Z.ltb_ge _ 0x80)), (proj2 (Z.ltb_ge _ 0xE0)), (proj2 (Z.ltb_lt _ 0xF0)) by lia.
    do 2 f_equal. lia.
  - rewrite (proj2 (Z.ltb_ge _ 0x80)), (proj2 (Z.ltb_ge _ 0xE0)), (proj2 (Z.ltb_ge _ 0xF0)) by lia.
    do 2 f_equal. lia.
Qed.

Lemma pair_point_units a b : is_lead a && is_trail b = true ->
  0 <= pair_point a b < 0x110000 /\ point_units (pair_point a b) = [a; b].
Proof.
  unfold is_lead, is_trail, pair_point, point_units. intros H.
  assert (0xD800 <= a <= 0xDBFF /\ 0xDC00 <= b <= 0xDFFF) as [Ha Hb] by lia.
  split; [lia|]. rewrite (proj2 (Z.ltb_ge _ 0x10000)) by lia.
  replace (0x10000 + (a - 0xD800) * 1024 + (b - 0xDC00) - 0x10000)
    with ((b - 0xDC00) + (a - 0xD800) * 1024) by lia.
  rewrite Z.div_add, Z.mod_add, Z.div_small, Z.mod_small by lia. f_equal; [lia|f_equal; lia].
Qed.

Lemma plain_units a : unit16 a -> point_units a = [a].
Proof. unfold unit16, point_units. intros H. by rewrite (proj2 (Z.ltb_lt _ _)) by lia. Qed.

(** Strings are read in steps of one unit or of a pair. *)
Lemma units_ind (P : list Z -> Prop) :
  P [] ->
  (forall a s, P s -> (match s with b :: _ => is_lead a && is_trail b = false | [] => True end) -> P (a :: s)) ->
  (forall a b s, is_lead a && is_trail b = true -> P s -> P (a :: b :: s)) ->
  forall s : list Z, P s.
Proof.
  intros H0 H1 H2 s. remember (length s) as n eqn:Hn. revert s Hn.
  induction n as [n IH] using lt_wf_ind. intros s ->.
  destruct s as [|a [|b s]]; [done|by apply H1|].
  destruct (is_lead a && is_trail b) eqn:E.
  - apply H2; [done|]. eapply IH; [|done]. simpl. lia.
  - apply H1; [|done]. eapply IH; [|done]. simpl. lia.
Qed.

Lemma utf8_cons a s :
  (match s with b :: _ => is_lead a && is_trail b = false | [] => True end) ->
  utf8 (a :: s) = (if is_lead a || is_trail a then replacement else utf8_point a) ++ utf8 s.
Proof.
  destruct s as [|b s]; [by rewrite app_nil_r|]. intros E.
  change (utf8 (a :: b :: s)) with (if is_lead a && is_trail b then utf8_point (pair_point a b) ++ utf8 s
    else (if is_lead a || is_trail a then replacement else utf8_point a) ++ utf8 (b :: s)).
  by rewrite E.
Qed.

Lemma utf8_pair a b s : is_lead a && is_trail b = true ->
  utf8 (a :: b :: s) = utf8_point (pair_point a b) ++ utf8 s.
Proof. intros E. cbn [utf8]. by rewrite E. Qed.

Lemma well_formed_cons a s :
  (match s with b :: _ => is_lead a && is_trail b = false | [] => True end) ->
  well_formed_units (a :: s) -> is_lead a || is_trail a = false /\ well_formed_units s.
Proof.
  destruct s as [|b s]; [done|]. intros E H. cbn [well_formed_units] in H. by rewrite E in H.
Qed.

Lemma utf8_decode_encode s : Forall unit16 s -> well_formed_units s -> utf8_decode (utf8 s) = s.
Proof.
  induction s as [|a s IH E|a b s E IH] using units_ind; intros Hu Hw; [done| |].
  - inversion Hu as [|? ? Ha Hu']; subst. apply well_formed_cons in Hw as [Ho Hw]; [|done].
    rewrite utf8_cons by done. rewrite Ho, utf8_point_decode, plain_units by (unfold unit16 in *; lia).
    by rewrite IH.
  - cbn [well_formed_units] in Hw. rewrite E in Hw. rewrite utf8_pair by done.
    destruct (pair_point_units a b E) as [Hp Hpu]. rewrite utf8_point_decode, Hpu by done.
    inversion Hu as [|? ? _ Hu']; subst. inversion Hu'; subst. by rewrite IH.
Qed.

Definition byte (b : Z) : Prop := 0 <= b < 256.

Lemma hex_decode_bytes bs : Forall byte bs -> hex_decode (hex_bytes bs) = bs.
Proof.
  unfold byte. induction 1 as [|b bs Hb _ IH]; [done|]. cbn [hex_bytes flat_map app hex_decode].
  fold (hex_bytes bs). rewrite IH. f_equal.
  pose proof (Z.div_mod b 16 ltac:(lia)). pose proof (Z.mod_pos_bound b 16 ltac:(lia)).
  rewrite !digit_value_unit by lia. simpl. lia.
Qed.

Lemma utf8_point_bytes p : 0 <= p < 0x110000 -> Forall byte (utf8_point p).
Proof.
  intros Hp. unfold utf8_point, byte.
  destruct (Z.ltb_spec p 0x80); [|destruct (Z.ltb_spec p 0x800); [|destruct (Z.ltb_spec p 0x10000)]];
    repeat apply List.Forall_cons; try apply List.Forall_nil;
    Z.to_euclidean_division_equations; lia.
Qed.

Lemma utf8_bytes s : Forall unit16 s -> Forall byte (utf8 s).
Proof.
  unfold unit16. induction s as [|a s IH E|a b s E IH] using units_ind; intros Hu; [constructor| |].
  - inversion Hu; subst. rewrite utf8_cons by done. apply Forall_app. split; [|auto].
    destruct (is_lead a || is_trail a); [by repeat constructor|]. apply utf8_point_bytes. lia.
  - inversion Hu as [|? ? _ Hu']; subst. inversion Hu'; subst. rewrite utf8_pair by done.
    apply Forall_app. split; [|auto]. apply utf8_point_bytes, (pair_point_units a b E).
Qed.

(** ASCII text is its own encoding. *)
Lemma utf8_ascii s : Forall (fun c => 0 <= c < 0x80) s -> utf8 s = s.
Proof.
  induction s as [|a s IH E|a b s E IH] using units_ind; intros Hu; [done| |].
  - inversion Hu; subst. rewrite utf8_cons, IH by done. unfold is_lead, is_trail, utf8_point.
    rewrite (proj2 (Z.leb_gt 55296 a)), (proj2 (Z.leb_gt 56320 a)), (proj2 (Z.ltb_lt a 0x80)) by lia. done.
  - inversion Hu; subst. unfold is_lead in E. lia.
Qed.
