(* ===== verification/Chain.v ===== *)
(** * The node behind the client, the client's store, and its monad

    [NodeApi] is the interface to the node library (polkadot.js) and through it
    to a node; it is a parameter of the whole development.  The client's own
    state is a store of helper objects, one per [ChainHelperBase] instance,
    indexed by a location; [clone] makes a new object and the parent keeps its
    location in [children], so that [disconnect] reaches it.  Client methods
    are run in [M], which passes the store and ends in an [outcome]. *)

From Stdlib Require Import Ascii String.
From stdpp Require Import list.
From S2P Require Import Prelude JsString JsValue.

Open Scope Z_scope.
Open Scope js_scope.

(** ** Signers *)

(** [IKeyringPair]: the address and the raw public key. [TSigner] is this type;
    a bare address string is excluded by it. *)
Record TSigner : Type := mkSigner {
  address : jsstr;
  addressRaw : list Z }.

(** ** The node library *)

(** What the library returns or throws: it throws [Error] objects, given by
    their message. *)
Abbreviation Lib := (outcome jsstr).

Class NodeApi := {
  (** the state of the node, of the network and of the clock *)
  World : Type;
  (** a connection: an [ApiPromise] *)
  Api : Type;
  (** [api.a.b.c] is truthy *)
  api_has : Api -> list jsstr -> bool;
  (** [await api.a.b.c(...params)] *)
  api_apply : Api -> list jsstr -> list jsval -> World -> Lib jsval * World;
  (** [new ApiPromise({provider: new WsProvider(endpoint), rpc})]; the second
      argument names the network whose RPC definitions are given *)
  new_ApiPromise : jsstr -> option jsstr -> World -> Api * World;
  (** [await api.isReadyOrError] *)
  isReadyOrError : Api -> World -> Lib unit * World;
  (** [api.on(event, listener)] *)
  api_on : Api -> jsstr -> jsval -> World -> World;
  (** [await api.disconnect()] *)
  api_disconnect : Api -> World -> Lib unit * World;
  (** [api.at(blockHash)] *)
  api_at : Api -> jsval -> World -> Lib Api * World;
  (** the status reports [tx.signAndSend(sender, options, callback)] hands to
      its callback, in order *)
  sign_and_send : TSigner -> jsval -> jsval -> World -> Lib (list TxUpdate) * World;
  (** [tx.sign(sender, options)] followed by [tx.toHex()] *)
  sign_tx : TSigner -> jsval -> jsval -> World -> Lib jsval * World;
  (** [api.genesisHash], [api.runtimeVersion] *)
  genesisHash : Api -> jsval;
  runtimeVersion : Api -> jsval;
  (** the successive values of a subscription to [api.query.system.events] *)
  system_events : Api -> World -> Lib (list (list EventRecord)) * World;
  (** [(await apiAt.query.system.events()).toArray()] *)
  events_at : Api -> World -> Lib (list EventRecord) * World;
  (** what a subscription at a path hands to its callback, in order, each with
      the time at which it does so, in milliseconds from the subscription *)
  api_subscribe : Api -> list jsstr -> World -> Lib (list (Z * jsval)) * World;
  (** the passing of a number of milliseconds *)
  elapse : Z -> World -> World;
  (** [mnemonicGenerate()] *)
  mnemonicGenerate : World -> jsstr * World;
  (** [api.consts.a.b] *)
  consts : Api -> list jsstr -> jsval;
  (** [status.toHuman()] of an extrinsic status *)
  status_toHuman : ExtrinsicStatus -> jsval;
  (** [(new Date()).getTime()] *)
  now : World -> Z * World;
  (** [api.registry.getChainProperties().toJSON()] *)
  chain_properties : Api -> jsval;
  (** section and name of a module error, [registry.findMetaError] *)
  findMetaError : jsval -> jsstr * jsstr;
  (** pallet names of [api.runtimeMetadata.asLatest.pallets] *)
  metadata_pallets : Api -> list jsstr;
  (** [api.registry.createType(type, value)] *)
  createType : Api -> jsstr -> jsval -> Lib jsval }.

(** ** Helper objects *)

Inductive ScheduleFn : Type := Schedule | ScheduleAfter.

Record ISchedulerOptions : Type := mkSched {
  scheduledId : option jsstr;
  priority : option Z;
  periodic : option (Z * Z) }.

(** The class of a helper object, as a stack of mixins.  [clone] sets the
    prototype of the new class to the cloned object, so [super] in a mixin is
    the class of the object that was cloned. *)
Inductive HelperClass : Type :=
  | PlainHelper
  | SudoHelper (super : HelperClass)
  | ScheduledHelper (scheduleFn : ScheduleFn) (blocksNum : Z)
      (options : ISchedulerOptions) (super : HelperClass).

(** [UniqueUtil.chainLogType]. *)
Inductive ChainLogType : Type := EXTRINSIC | RPC.

Record IUniqueHelperLog : Type := mkLog {
  log_executedAt : Z;
  log_executionTime : Z;
  log_type : ChainLogType;
  log_status : TransactionStatus;
  log_call : jsstr;
  log_signer : option jsstr;
  log_params : list jsval;
  log_moduleError : option jsstr;
  log_dispatchError : option DispatchError;
  log_events : option (list IEvent) }.

(** What is handed to [logger.log]. *)
Inductive LogMessage : Type :=
  | LogText (s : jsstr)
  | LogResult (r : TxUpdate)
  | LogExn (e : exn).

Inductive LogLevel : Type := LERROR | LWARNING | LINFO.

Section Store.
Context {N : NodeApi}.

(** The fields of [ChainHelperBase] that change. *)
Record HelperState : Type := mkHelper {
  hs_class : HelperClass;
  hs_api : option Api;
  hs_forcedNetwork : option jsstr;
  hs_network : option jsstr;
  hs_wsEndpoint : option jsstr;
  hs_chainLog : list IUniqueHelperLog;
  hs_children : list nat }.

Record State : Type := mkState {
  st_helpers : list HelperState;
  st_logger : list (LogMessage * LogLevel);
  st_world : World }.

Definition M (A : Type) : Type := State -> Res A * State.

#[global] Instance M_monad : Monad M :=
  {| mreturn A a := fun s => (Ret a, s);
     bind A B m k := fun s =>
       match m s with
       | (Ret a, s') => k a s'
       | (Throw e, s') => (Throw e, s')
       | (Pending, s') => (Pending, s')
       end |}.

(** [throw e]. *)
Definition throw {A} (e : exn) : M A := fun s => (Throw e, s).

(** A promise that never settles. *)
Definition never {A} : M A := fun s => (Pending, s).

(** [try { m } catch(e) { h e }]. *)
Definition catch {A} (m : M A) (h : exn -> M A) : M A := fun s =>
  match m s with
  | (Throw e, s') => h e s'
  | r => r
  end.

(** A computation without effects. *)
Definition lift {A} (o : Res A) : M A := fun s => (o, s).

(** An exception of the library. *)
Definition of_lib {A} (o : Lib A) : Res A :=
  match o with
  | Ret a => Ret a
  | Throw message => Throw (JSError message)
  | Pending => Pending
  end.

(** A call into the node library. *)
Definition world_call {A} (f : World -> Lib A * World) : M A := fun s =>
  let '(o, w) := f (st_world s) in
  (of_lib o, mkState (st_helpers s) (st_logger s) w).

(** A constructor of the library, which does not fail. *)
Definition world_new {A} (f : World -> A * World) : M A := fun s =>
  let '(a, w) := f (st_world s) in
  (Ret a, mkState (st_helpers s) (st_logger s) w).

Definition current_time : M Z := fun s =>
  let '(t, w) := now (st_world s) in
  (Ret t, mkState (st_helpers s) (st_logger s) w).

(** [this]. *)
Definition get_this (this : nat) : M HelperState := fun s =>
  match st_helpers s !! this with
  | Some h => (Ret h, s)
  | None => (Throw EngineError, s)
  end.

Definition modify_helpers (f : list HelperState -> list HelperState) : M unit := fun s =>
  (Ret tt, mkState (f (st_helpers s)) (st_logger s) (st_world s)).

Definition modify_this (this : nat) (f : HelperState -> HelperState) : M unit :=
  modify_helpers (alter f this).

Definition push_entries (l : list IUniqueHelperLog) (h : HelperState) : HelperState :=
  mkHelper (hs_class h) (hs_api h) (hs_forcedNetwork h) (hs_network h)
    (hs_wsEndpoint h) (hs_chainLog h ++ l) (hs_children h).

(** [this.chainLog.push(log)]. *)
Definition push_log (this : nat) (e : IUniqueHelperLog) : M unit :=
  modify_this this (push_entries [e]).

(** [this.logger.log(msg, level)]. *)
Definition logger_log (m : LogMessage) (lvl : LogLevel) : M unit := fun s =>
  (Ret tt, mkState (st_helpers s) (st_logger s ++ [(m, lvl)]) (st_world s)).

Fixpoint for_each_M {A B} (f : B -> A -> M B) (b : B) (l : list A) : M B :=
  match l with
  | [] => mreturn b
  | a :: l' => b' ← f b a; for_each_M f b' l'
  end.

Fixpoint map_M {A B} (f : A -> M B) (l : list A) : M (list B) :=
  match l with
  | [] => mreturn []
  | a :: l' => b ← f a; bs ← map_M f l'; mreturn (b :: bs)
  end.

End Store.

Arguments M {N} A.

(** ** Laws and inversion *)

Section Laws.
Context {N : NodeApi}.

#[global] Instance M_laws : MonadLaws M (fun A (m1 m2 : M A) => forall s, m1 s = m2 s).
Proof.
  split; intros; simpl; try done; by destruct (m s) as [[]].
Qed.

Lemma bind_inv {A B} (m : M A) (k : A -> M B) s o s' :
  (bind m k) s = (o, s') ->
  (exists a s1, m s = (Ret a, s1) /\ k a s1 = (o, s'))
  \/ (exists e, m s = (Throw e, s') /\ o = Throw e)
  \/ (m s = (Pending, s') /\ o = Pending).
Proof.
  simpl. destruct (m s) as [[a|e|] s1] eqn:Em; intros H.
  - left. eauto.
  - right; left. injection H as <- <-. eauto.
  - right; right. by injection H as <- <-.
Qed.

Lemma bind_Ret_inv {A B} (m : M A) (k : A -> M B) s b s' :
  (bind m k) s = (Ret b, s') ->
  exists a s1, m s = (Ret a, s1) /\ k a s1 = (Ret b, s').
Proof. intros [?|[(e & _ & ?)|[_ ?]]]%bind_inv; [done|discriminate..]. Qed.

Lemma bind_Ret {A B} (m : M A) (k : A -> M B) s a s1 :
  m s = (Ret a, s1) -> (bind m k) s = k a s1.
Proof. simpl. by intros ->. Qed.

Lemma bind_Throw {A B} (m : M A) (k : A -> M B) s e s1 :
  m s = (Throw e, s1) -> (bind m k) s = (Throw e, s1).
Proof. simpl. by intros ->. Qed.

Lemma lift_Ret_inv {A} (o : Res A) s a s' : lift o s = (Ret a, s') -> o = Ret a /\ s' = s.
Proof. unfold lift. by intros [= -> ->]. Qed.

Lemma get_this_inv this s h s' :
  get_this this s = (Ret h, s') -> s' = s /\ st_helpers s !! this = Some h.
Proof. unfold get_this. destruct (st_helpers s !! this) eqn:E; by intros [= -> ->]. Qed.

Lemma get_this_Some this s h : st_helpers s !! this = Some h -> get_this this s = (Ret h, s).
Proof. unfold get_this. by intros ->. Qed.

End Laws.

(** Decompose a successful run into the runs of its steps. *)
Ltac run_inv :=
  repeat match goal with
  | H : (bind _ _) _ = (Ret _, _) |- _ =>
      let a := fresh "a" in let s := fresh "s" in
      apply bind_Ret_inv in H as (a & s & ? & H)
  | H : lift _ _ = (Ret _, _) |- _ => apply lift_Ret_inv in H as [? ->]
  | H : get_this _ _ = (Ret _, _) |- _ => apply get_this_inv in H as [-> ?]
  | H : mreturn _ _ = (Ret _, _) |- _ => injection H as ? ?; subst
  | H : throw _ _ = (Ret _, _) |- _ => discriminate H
  | H : never _ = (Ret _, _) |- _ => discriminate H
  end.

(** ** Frames: what a helper's methods may change

    A framed computation of the helper [this] appends to its chain log, only
    entries that satisfy [P], and to the logger, moves the world, and leaves
    every other field of every helper object as it was. *)

Section Frame.
Context {N : NodeApi}.

Definition LogPred : Type := IUniqueHelperLog -> Prop.
Implicit Types P : LogPred.

Definition evolves (this : nat) (P : LogPred) (s s' : State) : Prop :=
  exists entries lines,
    Forall P entries
    /\ st_helpers s' = alter (push_entries entries) this (st_helpers s)
    /\ st_logger s' = st_logger s ++ lines.

Class Framed (this : nat) (P : LogPred) {A} (m : M A) : Prop :=
  framed : forall s, evolves this P s (m s).2.

(** Any entry; entries of RPC calls only; and the predicates that allow the
    latter. *)
Definition any_entry : LogPred := fun _ => True.
Definition rpc_entry : LogPred := fun e => log_type e = RPC.
Class AllowsRpc (P : LogPred) : Prop := allows_rpc : forall e, log_type e = RPC -> P e.

(** Predicates that allow one call, those that allow one extrinsic, and those
    that allow any. *)
Class AllowsCall (P : LogPred) (call : jsstr) (params : list jsval) : Prop :=
  allows_call : forall e, log_type e = RPC -> log_call e = call -> log_params e = params -> P e.
Class AllowsTx (P : LogPred) (extrinsic : jsstr) (params : list jsval) : Prop :=
  allows_tx : forall e, log_type e = EXTRINSIC -> log_call e = extrinsic -> log_params e = params -> P e.
Class AllowsExtrinsics (P : LogPred) : Prop := allows_extrinsics : forall e, log_type e = EXTRINSIC -> P e.

#[global] Instance any_allows_extrinsics : AllowsExtrinsics any_entry.
Proof. intros e _. exact I. Qed.

#[global] Instance extrinsics_allow_tx P extrinsic params : AllowsExtrinsics P -> AllowsTx P extrinsic params.
Proof. intros H e He _ _. by apply H. Qed.

#[global] Instance rpc_allows_call P call params : AllowsRpc P -> AllowsCall P call params.
Proof. intros H e He _ _. by apply H. Qed.

#[global] Instance any_allows_rpc : AllowsRpc any_entry.
Proof. intros e _. exact I. Qed.

#[global] Instance rpc_allows_rpc : AllowsRpc rpc_entry.
Proof. by intros e. Qed.

Lemma push_entries_nil h : push_entries [] h = h.
Proof. destruct h. unfold push_entries; simpl. by rewrite app_nil_r. Qed.

Lemma push_entries_app l1 l2 h : push_entries l2 (push_entries l1 h) = push_entries (l1 ++ l2) h.
Proof. destruct h. unfold push_entries; simpl. by rewrite app_assoc. Qed.

Lemma evolves_helpers this P s s' :
  st_helpers s' = st_helpers s -> (exists lines, st_logger s' = st_logger s ++ lines) ->
  evolves this P s s'.
Proof.
  intros Hh [lines Hl]. exists [], lines. split_and!; [done| |done].
  rewrite list_alter_id; [done|]. apply push_entries_nil.
Qed.

#[global] Instance evolves_preorder this P : PreOrder (evolves this P).
Proof.
  split.
  - intros s. apply evolves_helpers; [done|]. exists []. by rewrite app_nil_r.
  - intros s1 s2 s3 (e1 & l1 & F1 & H1 & L1) (e2 & l2 & F2 & H2 & L2).
    exists (e1 ++ e2), (l1 ++ l2). rewrite H2, H1, L2, L1, app_assoc.
    split_and!; [by apply Forall_app| |done].
    rewrite list_alter_alter_eq. apply list_alter_ext; [|done].
    intros h _. apply push_entries_app.
Qed.

#[global] Instance framed_ret this P {A} (a : A) : Framed this P (mreturn a : M A).
Proof. intros s. simpl. reflexivity. Qed.

#[global] Instance framed_throw this P {A} (e : exn) : Framed this P (throw e : M A).
Proof. intros s. simpl. reflexivity. Qed.

#[global] Instance framed_never this P {A} : Framed this P (never : M A).
Proof. intros s. simpl. reflexivity. Qed.

#[global] Instance framed_lift this P {A} (o : Res A) : Framed this P (lift o).
Proof. intros s. simpl. reflexivity. Qed.

#[global] Instance framed_get this P l : Framed this P (get_this l).
Proof. intros s. unfold get_this. destruct (_ !! _); simpl; reflexivity. Qed.

#[global] Instance framed_world this P {A} (f : World -> Lib A * World) : Framed this P (world_call f).
Proof.
  intros s. unfold world_call. destruct (f _). apply evolves_helpers; [done|].
  exists []. simpl. by rewrite app_nil_r.
Qed.

#[global] Instance framed_new this P {A} (f : World -> A * World) : Framed this P (world_new f).
Proof.
  intros s. unfold world_new. destruct (f _). apply evolves_helpers; [done|].
  exists []. simpl. by rewrite app_nil_r.
Qed.

#[global] Instance framed_time this P : Framed this P current_time.
Proof.
  intros s. unfold current_time. destruct (now _). apply evolves_helpers; [done|].
  exists []. simpl. by rewrite app_nil_r.
Qed.

#[global] Instance framed_logger this P m lvl : Framed this P (logger_log m lvl).
Proof. intros s. apply evolves_helpers; [done|]. by eexists. Qed.

Lemma framed_push this P e : P e -> Framed this P (push_log this e).
Proof. intros He s. exists [e], []. simpl. rewrite app_nil_r. by repeat constructor. Qed.

#[global] Instance framed_push_any this e : Framed this any_entry (push_log this e).
Proof. apply framed_push. exact I. Qed.

#[global] Instance framed_bind this P {A B} (m : M A) (k : A -> M B) :
  Framed this P m -> (forall a, Framed this P (k a)) -> Framed this P (bind m k).
Proof.
  intros Hm Hk s. specialize (Hm s). simpl.
  destruct (m s) as [[a|e|] s1]; simpl in *; [|done..].
  etrans; [exact Hm|apply Hk].
Qed.

(** A frame that may use what the first part returned. *)
Lemma framed_bind_value this P {A B} (m : M A) (k : A -> M B) :
  Framed this P m -> (forall a s s', m s = (Ret a, s') -> Framed this P (k a)) ->
  Framed this P (bind m k).
Proof.
  intros Hm Hk s. specialize (Hm s). specialize (fun a => Hk a s). simpl.
  destruct (m s) as [[a|e|] s1]; simpl in *; [|done..].
  etrans; [exact Hm|]. by eapply Hk.
Qed.

#[global] Instance framed_catch this P {A} (m : M A) (h : exn -> M A) :
  Framed this P m -> (forall e, Framed this P (h e)) -> Framed this P (catch m h).
Proof.
  intros Hm Hh s. specialize (Hm s). unfold catch.
  destruct (m s) as [[a|e|] s1]; simpl in *; [done| |done].
  etrans; [exact Hm|apply Hh].
Qed.

#[global] Instance framed_if this P {A} (b : bool) (m1 m2 : M A) :
  Framed this P m1 -> Framed this P m2 -> Framed this P (if b then m1 else m2).
Proof. by destruct b. Qed.

#[global] Instance framed_option this P {A B} (o : option B) (f : B -> M A) (m : M A) :
  (forall b, Framed this P (f b)) -> Framed this P m ->
  Framed this P (match o with Some b => f b | None => m end).
Proof. by destruct o. Qed.

#[global] Instance framed_for_each this P {A B} (f : B -> A -> M B) l : forall b,
  (forall b a, Framed this P (f b a)) -> Framed this P (for_each_M f b l).
Proof. induction l as [|a l IH]; intros b Hf; simpl; [apply _|]. apply framed_bind; auto. Qed.

#[global] Instance framed_map this P {A B} (f : A -> M B) l :
  (forall a, Framed this P (f a)) -> Framed this P (map_M f l).
Proof.
  intros Hf. induction l as [|a l IH]; simpl; [apply _|].
  apply framed_bind; [done|]. intros b. apply framed_bind; [done|]. apply _.
Qed.

(** Reading a framed run: the other helpers are untouched, and [this] only
    gained log entries. *)
Lemma evolves_other this P s s' l : evolves this P s s' -> l <> this ->
  st_helpers s' !! l = st_helpers s !! l.
Proof. intros (e & _ & _ & -> & _) Hne. by rewrite list_lookup_alter_ne. Qed.

Lemma evolves_this this P s s' h : evolves this P s s' -> st_helpers s !! this = Some h ->
  exists entries, Forall P entries /\ st_helpers s' !! this = Some (push_entries entries h).
Proof. intros (e & _ & HP & -> & _) Hh. exists e. by rewrite list_lookup_alter_eq, Hh. Qed.

Lemma framed_run this P {A} (m : M A) s o s' :
  Framed this P m -> m s = (o, s') -> evolves this P s s'.
Proof. intros Hm H. specialize (Hm s). by rewrite H in Hm. Qed.

(** A computation that may log nothing changes no helper object. *)
Definition no_entry : LogPred := fun _ => False.

Lemma evolves_quiet this s s' : evolves this no_entry s s' -> st_helpers s' = st_helpers s.
Proof.
  intros ([|e es] & lines & He & -> & _).
  - rewrite list_alter_id; [done|]. apply push_entries_nil.
  - by apply Forall_cons in He as [[] _].
Qed.

Lemma quiet_run this {A} (m : M A) s o s' :
  Framed this no_entry m -> m s = (o, s') -> st_helpers s' = st_helpers s.
Proof. intros Hm H. by eapply evolves_quiet, framed_run. Qed.

End Frame.

(** Frame a method from the frames of what it calls. *)
Ltac frame_case :=
  match goal with
  | |- Framed _ _ (match ?x with _ => _ end) => destruct x
  | |- Framed _ _ (let '(_, _) := ?x in _) => destruct x
  end.

Ltac solve_frame :=
  repeat first [ apply _ | progress intros | apply framed_bind | apply framed_catch | frame_case ].
