(* ===== verification/Address.v ===== *)
(** * Addresses

    [CrossAccountId], the Ethereum checksum and token-address functions
    ([nesting]) and the pure parts of [AddressGroup]
    (js-packages/playgrounds/unique.ts), with the runtime's own mapping between
    tokens and addresses (primitives/data-structs/src/mapping.rs). *)

From Stdlib Require Import Ascii String.
From stdpp Require Import list.
From S2P Require Import Prelude JsString JsValue Chain.

Open Scope Z_scope.
Open Scope js_scope.

(** [@polkadot/util-crypto] and [@polkadot/util]. *)
Class Crypto := {
  encodeAddress : list Z -> Z -> Res jsstr;
  decodeAddress : jsstr -> Res (list Z);
  (** [decodeAddress] of an account the node library returned *)
  decodeAccount : jsval -> Res (list Z);
  (** [encodeAddress] and [evmToAddress] with the format that the chain's
      properties give *)
  encodeAddressChain : list Z -> jsval -> Res jsstr;
  evmToAddressChain : jsstr -> jsval -> Res jsstr;
  keccakAsHex : jsstr -> jsstr;
  addressToEvm : jsstr -> Res (list Z);
  evmToAddress : jsstr -> option Z -> Res jsstr;
  base58Encode : list Z -> jsstr;
  blake2AsU8a : list Z -> list Z;
  hexToU8a : jsstr -> Res (list Z);
  blake2AsHex : jsstr -> jsstr;
  (** [blake2AsHex(bytes, 256)] of an encoded value *)
  blake2AsHex256 : jsval -> jsstr;
  (** [new Keyring({type: 'sr25519', ss58Format}).addFromUri(seed)] *)
  addFromUri : jsstr -> Z -> TSigner;
  (** the same with the format that the chain's properties give *)
  addFromUriChain : jsstr -> jsval -> TSigner;
  (** [new Keyring({type: 'ethereum'}).addFromUri(key)] *)
  addFromUriEthereum : jsstr -> TSigner;
  stringToU8a : jsstr -> list Z }.

Inductive ICrossAccountId : Type :=
  | Substrate (a : jsstr)
  | Ethereum (a : jsstr).

#[export] Instance cross_eq_dec : EqDecision ICrossAccountId.
Proof. solve_decision. Defined.

Inductive ICrossAccountIdLower : Type :=
  | substrate (a : jsstr)
  | ethereum (a : jsstr).

(** The object literal an [ICrossAccountId] is. *)
Definition cross_js (a : ICrossAccountId) : jsval :=
  match a with
  | Substrate s => obj [(js "Substrate", JStr s)]
  | Ethereum s => obj [(js "Ethereum", JStr s)]
  end.

(** ** nesting *)

Module nesting.
Section nesting.
Context {C : Crypto}.

(** [/^(0x)?[0-9a-f]{40}$/i.test(address)] *)
Definition is_eth_address (s : jsstr) : bool :=
  bool_decide (length (strip_0x s) = 40%nat) && forallb is_hex (strip_0x s).

(** [parseInt(addressHash[i], 16) > 7] *)
Definition nibble_gt7 (c : option Z) : bool :=
  match c ≫= digit_value with Some d => 7 <? d | None => false end.

(** The loop over the digits; [hash] is what is left of [addressHash]. *)
Fixpoint checksum_loop (hash address : jsstr) : jsstr :=
  match address with
  | [] => []
  | c :: address' =>
      (if nibble_gt7 (head hash) then upper_unit c else c)
        :: checksum_loop (tail hash) address'
  end.

Definition toChecksumAddress (address : option jsstr) : Res jsstr :=
  match address with
  | None => Ret []
  | Some address =>
      if negb (is_eth_address address) then
        Throw (JSError (js "Given address " ++ [34] ++ address ++ [34] ++ js " is not a valid Ethereum address."))
      else
        let address := strip_0x (toLowerCase address) in
        let addressHash := strip_0x (keccakAsHex address) in
        Ret (js "0x" ++ checksum_loop addressHash address)
  end.

Definition tokenIdToAddress (collectionId tokenId : number) : Res jsstr :=
  toChecksumAddress (Some (js "0xf8238ccfff8ed887463fd5e0"
    ++ padStart 8 48 (num_toString 16 collectionId)
    ++ padStart 8 48 (num_toString 16 tokenId))).

End nesting.
End nesting.

(** ** CrossAccountId

    An instance holds one [ICrossAccountId]; the instance methods replace it
    and return the instance, so they are functions on its content. *)

Module CrossAccountId.
Section CrossAccountId.
Context {C : Crypto}.

Definition translateSubToEth (address : jsstr) : Res jsstr :=
  bs ← addressToEvm address;
  nesting.toChecksumAddress
    (Some (js "0x" ++ join [] (map (fun i => padStart 2 48 (toString_radix 16 i)) bs))).

Definition toEthereum (account : ICrossAccountId) : Res ICrossAccountId :=
  match account with
  | Substrate a => Ethereum <$> translateSubToEth a
  | Ethereum _ => Ret account
  end.

Definition translateEthToSub (address : jsstr) (ss58Format : option Z) : Res jsstr :=
  evmToAddress address ss58Format.

Definition toSubstrate (account : ICrossAccountId) (ss58Format : option Z)
  : Res ICrossAccountId :=
  match account with
  | Ethereum a => Substrate <$> translateEthToSub a ss58Format
  | Substrate _ => Ret account
  end.

Inductive Domain : Type := DSubstrate | DEthereum.

Definition fromKeyring (account : TSigner) (domain : Domain) : Res ICrossAccountId :=
  match domain with
  | DSubstrate => Ret (Substrate (address account))
  | DEthereum => toEthereum (Substrate (address account))
  end.

Definition fromLowerCaseKeys (a : ICrossAccountIdLower) : ICrossAccountId :=
  match a with
  | substrate s => Substrate s
  | ethereum s => Ethereum s
  end.

(** The same on a value as the node library returns it: [address.substrate]
    when the key is there, [address.ethereum] (maybe [undefined]) otherwise. *)
Definition fromLowerCaseKeys_js (a : jsval) : Res jsval :=
  b ← has_prop a (js "substrate");
  if (b : bool) then
    s ← get_prop a (js "substrate"); Ret (obj [(js "Substrate", s)])
  else
    s ← get_prop a (js "ethereum"); Ret (obj [(js "Ethereum", s)]).

Definition normalizeSubstrateAddress (a : jsstr) (ss58Format : Z) : Res jsstr :=
  bs ← decodeAddress a; encodeAddress bs ss58Format.

Definition withNormalizedSubstrate (a : ICrossAccountId) (ss58Format : Z)
  : Res ICrossAccountId :=
  match a with
  | Substrate s => Substrate <$> normalizeSubstrateAddress s ss58Format
  | Ethereum _ => Ret a
  end.

(** [CrossAccountId.withNormalizedSubstrate(address)] on a returned value. *)
Definition withNormalizedSubstrate_js (a : jsval) (ss58Format : Z) : Res jsval :=
  b ← has_prop a (js "Substrate");
  if (b : bool) then
    v ← get_prop a (js "Substrate");
    s ← match v with JStr s => Ret s | _ => Throw EngineError end;
    r ← normalizeSubstrateAddress s ss58Format;
    Ret (obj [(js "Substrate", JStr r)])
  else Ret a.

Definition toLowerCase (a : ICrossAccountId) : ICrossAccountId :=
  match a with
  | Substrate s => Substrate (JsString.toLowerCase s)
  | Ethereum s => Ethereum (JsString.toLowerCase s)
  end.

(** [CrossAccountId.toLowerCase(address)] on a returned value. *)
Definition toLowerCase_js (a : jsval) : Res jsval :=
  let lower k :=
    v ← get_prop a k;
    match v with
    | JStr s => Ret (obj [(k, JStr (JsString.toLowerCase s))])
    | _ => Throw EngineError
    end in
  b ← has_prop a (js "Substrate");
  if (b : bool) then lower (js "Substrate")
  else
    b ← has_prop a (js "Ethereum");
    if (b : bool) then lower (js "Ethereum") else Ret a.

Definition toICrossAccountId (a : ICrossAccountId) : ICrossAccountId := a.

End CrossAccountId.
End CrossAccountId.

(** ** AddressGroup, without a connection *)

Module AddressGroup.
Section AddressGroup.
Context {C : Crypto}.

Definition normalizeSubstrate (a : jsstr) (ss58Format : Z) : Res jsstr :=
  CrossAccountId.normalizeSubstrateAddress a ss58Format.

Definition substrateToEth (a : jsstr) : Res jsstr := CrossAccountId.translateSubToEth a.

Inductive AddressKey : Type :=
  | KeyHex (s : jsstr)
  | KeyBig (z : Z)
  | KeyBytes (bs : list Z).

Definition allowedDecodedLengths : list nat := [1; 2; 4; 8; 32; 33]%nat.

(** [new Uint8Array(l)] *)
Definition u8 (l : list Z) : list Z := map (fun z => z mod 256) l.

Definition u8aPrefix (ss58Format : Z) : list Z :=
  if ss58Format <? 64 then u8 [ss58Format]
  else u8 [Z.lor (Z.shiftr (Z.land ss58Format 0xfc) 2) 0x40;
           Z.lor (Z.shiftr ss58Format 8) (Z.shiftl (Z.land ss58Format 0x03) 6)].

Definition encodeSubstrateAddress (key : AddressKey) (ss58Format : Z) : Res jsstr :=
  u8a ← match key with
        | KeyHex s => hexToU8a s
        | KeyBig z => hexToU8a (toString_radix 16 z)
        | KeyBytes bs => Ret bs
        end;
  if (ss58Format <? 0) || (16383 <? ss58Format) || bool_decide (ss58Format ∈ [46; 47]) then
    Throw (JSError (js "ss58Format is not valid, received number " ++ [34]
                     ++ number_toString ss58Format ++ [34]))
  else if negb (bool_decide (length u8a ∈ allowedDecodedLengths)) then
    Throw (JSError (js "key length is not valid, received "
      ++ number_toString (Z.of_nat (length u8a)) ++ js ", valid values are "
      ++ join (js ", ") (map (fun n => number_toString (Z.of_nat n)) allowedDecodedLengths)))
  else
    let input := u8aPrefix ss58Format ++ u8a in
    Ret (base58Encode (input ++
      take (if bool_decide (length u8a ∈ [32; 33]%nat) then 2 else 1) (blake2AsU8a input))).

(** The network identifier a decoder reads back from an address's first bytes
    (the SS58 format). *)
Definition ss58_identifier (bs : list Z) : option (Z * list Z) :=
  match bs with
  | b0 :: rest =>
      if b0 <? 64 then Some (b0, rest)
      else match rest with
           | b1 :: rest' =>
               if b0 <? 128 then
                 Some (Z.lor (Z.shiftl (Z.land b0 0x3f) 2)
                        (Z.lor (Z.shiftr b1 6) (Z.shiftl (Z.land b1 0x3f) 8)), rest')
               else None
           | [] => None
           end
  | [] => None
  end.

End AddressGroup.
End AddressGroup.

(** ** The runtime's mapping (mapping.rs)

    An [H160] is a list of 20 bytes. *)

Module mapping.

Definition ETH_COLLECTION_TOKEN_PREFIX : list Z :=
  [0xf8; 0x23; 0x8c; 0xcf; 0xff; 0x8e; 0xd8; 0x87; 0x46; 0x3f; 0xd5; 0xe0].

(** [u32::to_be_bytes] and [u32::from_be_bytes]. *)
Definition to_be_bytes (n : Z) : list Z :=
  [n / 2 ^ 24 mod 256; n / 2 ^ 16 mod 256; n / 2 ^ 8 mod 256; n mod 256].

Definition from_be_bytes (bs : list Z) : Z := undigits 256 bs.

Definition token_to_address (collection token : Z) : list Z :=
  ETH_COLLECTION_TOKEN_PREFIX ++ to_be_bytes collection ++ to_be_bytes token.

Definition address_to_token (eth : list Z) : option (Z * Z) :=
  if negb (bool_decide (take 12 eth = ETH_COLLECTION_TOKEN_PREFIX)) then None
  else Some (from_be_bytes (take 4 (drop 12 eth)), from_be_bytes (take 4 (drop 16 eth))).

Definition is_token_address (eth : list Z) : bool :=
  bool_decide (take 12 eth = ETH_COLLECTION_TOKEN_PREFIX).

(** The [0x] literal of an [H160]. *)
Definition hex_literal (bs : list Z) : jsstr :=
  js "0x" ++ mjoin (map (fun b => padStart 2 48 (toString_radix 16 b)) bs).

(** The trait [CrossAccountId] of the EVM pallet, as far as [mapping.rs] uses
    it: accounts that have an Ethereum address, and those made from one. *)
Class CrossAccountEvm (A : Type) : Type := {
  from_eth : list Z -> A;
  as_eth : A -> list Z }.

(** [CrossTokenAddressMapping]: the mapping through the Ethereum address of an
    account. *)
Module cross.
Section cross.
Context {A : Type} {E : CrossAccountEvm A}.

Definition token_to_address (collection token : Z) : A := from_eth (mapping.token_to_address collection token).

Definition address_to_token (address : A) : option (Z * Z) := mapping.address_to_token (as_eth address).

Definition is_token_address (address : A) : bool := mapping.is_token_address (as_eth address).

End cross.
End cross.

End mapping.

(** * Lemmas *)

Section ChecksumLemmas.
Context {C : Crypto}.
Import nesting.

Lemma strip_0x_lower s : strip_0x (JsString.toLowerCase s) = JsString.toLowerCase (strip_0x s).
Proof.
  destruct s as [|a [|b s]]; [done..|]. simpl.
  assert (forall c d, (d < 65 \/ 97 <= d) -> ~ (97 <= d <= 122) -> (lower_unit c =? d) = (c =? d)) as Hl.
  { intros c d Hd Hd'. unfold lower_unit, is_upper.
    destruct ((65 <=? c) && (c <=? 90)) eqn:E; lia. }
  assert ((lower_unit b =? 120) || (lower_unit b =? 88) = ((b =? 120) || (b =? 88))) as ->.
  { unfold lower_unit, is_upper. destruct ((65 <=? b) && (b <=? 90)) eqn:E; lia. }
  rewrite Hl by lia. by destruct (_ && _).
Qed.

Lemma forallb_map {A B} (p : B -> bool) (f : A -> B) l :
  forallb p (map f l) = forallb (fun a => p (f a)) l.
Proof. induction l as [|a l IH]; simpl; [done|]. by rewrite IH. Qed.

Lemma forallb_hex_lower s : forallb is_hex (JsString.toLowerCase s) = forallb is_hex s.
Proof.
  unfold JsString.toLowerCase. rewrite forallb_map. induction s as [|c s IH]; simpl; [done|].
  by rewrite is_hex_lower, IH.
Qed.

Lemma is_hex_upper_hex c : is_hex c = true -> is_hex (upper_unit c) = true.
Proof.
  unfold is_hex, upper_unit, is_lower, is_digit.
  destruct ((97 <=? c) && (c <=? 122)) eqn:E; lia.
Qed.

Lemma checksum_loop_hex h a : forallb is_hex a = true -> forallb is_hex (checksum_loop h a) = true.
Proof.
  revert h. induction a as [|c a IH]; intros h; simpl; [done|].
  intros [Hc Ha]%andb_true_iff. apply andb_true_iff. split; [|by apply IH].
  case_match; [by apply is_hex_upper_hex|done].
Qed.

Lemma length_checksum_loop h a : length (checksum_loop h a) = length a.
Proof. revert h. induction a as [|c a IH]; intros h; simpl; [done|]. by rewrite IH. Qed.

Lemma checksum_loop_lower h a :
  JsString.toLowerCase (checksum_loop h a) = JsString.toLowerCase a.
Proof.
  revert h. induction a as [|c a IH]; intros h; simpl; [done|].
  f_equal; [|apply IH]. case_match; [apply lower_upper_unit|done].
Qed.

Lemma strip_0x_0x s : strip_0x (js "0x" ++ s) = s.
Proof. reflexivity. Qed.

Lemma toChecksumAddress_eq a : is_eth_address a = true ->
  toChecksumAddress (Some a) =
  Ret (js "0x" ++ checksum_loop (strip_0x (keccakAsHex (JsString.toLowerCase (strip_0x a))))
                     (JsString.toLowerCase (strip_0x a))).
Proof. intros Ha. unfold toChecksumAddress. rewrite Ha. simpl negb. cbv iota zeta. by rewrite strip_0x_lower. Qed.

Lemma toChecksumAddress_inv a r : toChecksumAddress (Some a) = Ret r ->
  is_eth_address a = true /\
  r = js "0x" ++ checksum_loop (strip_0x (keccakAsHex (JsString.toLowerCase (strip_0x a))))
                   (JsString.toLowerCase (strip_0x a)).
Proof.
  destruct (is_eth_address a) eqn:Ha.
  - rewrite toChecksumAddress_eq by done. by intros <-%Ret_inj.
  - unfold toChecksumAddress. by rewrite Ha.
Qed.

Lemma is_eth_address_spec a :
  is_eth_address a = true <-> length (strip_0x a) = 40%nat /\ forallb is_hex (strip_0x a) = true.
Proof. unfold is_eth_address. by rewrite andb_true_iff, bool_decide_eq_true. Qed.

Lemma toLowerCase_app s t :
  JsString.toLowerCase (s ++ t) = JsString.toLowerCase s ++ JsString.toLowerCase t.
Proof. apply map_app. Qed.

(** The checksum only changes the case of letters. *)
Lemma toChecksumAddress_lower a r : toChecksumAddress (Some a) = Ret r ->
  JsString.toLowerCase r = js "0x" ++ JsString.toLowerCase (strip_0x a).
Proof.
  intros [_ ->]%toChecksumAddress_inv.
  by rewrite toLowerCase_app, checksum_loop_lower, toLowerCase_idemp.
Qed.

Lemma toChecksumAddress_valid a r : toChecksumAddress (Some a) = Ret r -> is_eth_address r = true.
Proof.
  intros [[Hl Hx]%is_eth_address_spec ->]%toChecksumAddress_inv. apply is_eth_address_spec.
  rewrite strip_0x_0x, length_checksum_loop. split.
  - unfold JsString.toLowerCase. by rewrite length_map.
  - apply checksum_loop_hex. by rewrite forallb_hex_lower.
Qed.

End ChecksumLemmas.

(** ** Token addresses *)

Section TokenAddressLemmas.
Context {C : Crypto}.
Import nesting.

Definition u32 (n : Z) : Prop := 0 <= n < 2 ^ 32.

(** The forty digits of a token address. *)
Definition token_digits (collectionId tokenId : Z) : jsstr :=
  js "f8238ccfff8ed887463fd5e0"
    ++ padStart 8 48 (toString_radix 16 collectionId)
    ++ padStart 8 48 (toString_radix 16 tokenId).

Lemma tokenIdToAddress_unfold (c t : Z) :
  tokenIdToAddress c t = toChecksumAddress (Some (js "0x" ++ token_digits c t)).
Proof. reflexivity. Qed.

Lemma pad8 n : u32 n -> exists ds, padStart 8 48 (toString_radix 16 n) = map digit_unit ds
    /\ length ds = 8%nat /\ Forall (fun d => 0 <= d < 16) ds /\ undigits 16 ds = n.
Proof. intros Hn. apply padStart_radix; [lia| |lia]. unfold u32 in Hn. simpl. lia. Qed.

Lemma hex_units ds : Forall (fun d => 0 <= d < 16) ds ->
  forallb is_hex (map digit_unit ds) = true
  /\ JsString.toLowerCase (map digit_unit ds) = map digit_unit ds.
Proof.
  induction 1 as [|d ds Hd Hds [IH1 IH2]]; [done|]. simpl.
  rewrite digit_unit_hex, digit_unit_lower by done. rewrite IH1. split; [done|]. f_equal. exact IH2.
Qed.

Lemma token_digits_spec c t : u32 c -> u32 t ->
  length (token_digits c t) = 40%nat /\ forallb is_hex (token_digits c t) = true
  /\ JsString.toLowerCase (token_digits c t) = token_digits c t.
Proof.
  intros Hc Ht. unfold token_digits.
  destruct (pad8 c Hc) as (d1 & -> & L1 & F1 & _). destruct (pad8 t Ht) as (d2 & -> & L2 & F2 & _).
  destruct (hex_units d1 F1) as [X1 W1]. destruct (hex_units d2 F2) as [X2 W2].
  rewrite !forallb_app, !toLowerCase_app, !length_app, !length_map, X1, X2, W1, W2, L1, L2.
  split_and!; reflexivity.
Qed.

Lemma token_digits_inj c t c' t' : u32 c -> u32 t -> u32 c' -> u32 t' ->
  token_digits c t = token_digits c' t' -> c = c' /\ t = t'.
Proof.
  intros Hc Ht Hc' Ht' H. unfold token_digits in H. apply app_inv_head in H.
  assert (forall n, u32 n -> length (padStart 8 48 (toString_radix 16 n)) = 8%nat) as Hl.
  { intros n Hn. destruct (pad8 n Hn) as (ds & -> & <- & _). by rewrite length_map. }
  apply app_inj_1 in H as [H1 H2]; [|by rewrite !Hl].
  split; (eapply padStart_radix_inj; [| | | |eassumption]); unfold u32 in *; simpl; lia.
Qed.

Lemma toString_radix_long n : 2 ^ 32 <= n -> (8 < length (toString_radix 16 n))%nat.
Proof.
  intros Hn. rewrite toString_radix_nonneg by lia. rewrite length_map.
  destruct (digits_spec 16 n) as (Hu & Hf & _ & _); [lia..|].
  apply undigits_bound in Hf; [|lia]. rewrite Hu in Hf.
  destruct (decide (length (digits 16 n) <= 8)%nat) as [Hle|]; [|lia].
  assert (16 ^ Z.of_nat (length (digits 16 n)) <= 16 ^ 8) by (apply Z.pow_le_mono_r; lia).
  simpl in *. lia.
Qed.

Lemma length_padStart n c s : length (padStart n c s) = Nat.max n (length s).
Proof. unfold padStart. rewrite length_app, length_replicate. lia. Qed.

Lemma padStart_hex_only n : forallb is_hex (padStart 8 48 (toString_radix 16 n)) = true -> 0 <= n.
Proof.
  unfold padStart, toString_radix. rewrite forallb_app, andb_true_iff.
  destruct (Z.ltb_spec n 0); [|done]. by intros [_ ?].
Qed.

(** The address exists exactly for two 32-bit numbers. *)
Lemma tokenIdToAddress_defined (c t : Z) :
  (exists r, tokenIdToAddress c t = Ret r) <-> u32 c /\ u32 t.
Proof.
  rewrite tokenIdToAddress_unfold. split.
  - intros [r [[Hl Hx]%is_eth_address_spec _]%toChecksumAddress_inv].
    rewrite strip_0x_0x in Hl, Hx. unfold token_digits in Hl, Hx.
    rewrite !forallb_app, !andb_true_iff in Hx. destruct Hx as (_ & H1%padStart_hex_only & H2%padStart_hex_only).
    rewrite !length_app, !length_padStart in Hl. change (length (js "f8238ccfff8ed887463fd5e0")) with 24%nat in Hl.
    unfold u32. split; (split; [done|]);
      match goal with |- ?n < _ => destruct (Z.lt_ge_cases n (2 ^ 32)) as [|Hge]; [done|] end;
      apply toString_radix_long in Hge; lia.
  - intros [Hc Ht]. destruct (token_digits_spec c t Hc Ht) as (Hl & Hx & _).
    eexists. apply toChecksumAddress_eq. apply is_eth_address_spec. by rewrite strip_0x_0x.
Qed.

Lemma tokenIdToAddress_lower (c t : Z) r : tokenIdToAddress c t = Ret r ->
  JsString.toLowerCase r = js "0x" ++ token_digits c t.
Proof.
  intros H. assert (u32 c /\ u32 t) as [Hc Ht] by (apply tokenIdToAddress_defined; eauto).
  rewrite tokenIdToAddress_unfold in H. apply toChecksumAddress_lower in H.
  rewrite H, strip_0x_0x. f_equal. by apply token_digits_spec.
Qed.

End TokenAddressLemmas.

(** ** The runtime's mapping *)

Section MappingLemmas.
Import mapping.

Lemma be_bytes_range n : Forall (fun b => 0 <= b < 256) (to_be_bytes n).
Proof. unfold to_be_bytes. repeat constructor; apply Z.mod_pos_bound; lia. Qed.

Lemma from_to_be_bytes n : u32 n -> from_be_bytes (to_be_bytes n) = n.
Proof.
  intros Hn. unfold u32 in Hn. unfold from_be_bytes, to_be_bytes, undigits. cbn [fold_left].
  change (2 ^ 24) with (256 * 256 * 256). change (2 ^ 16) with (256 * 256). change (2 ^ 8) with 256.
  rewrite <- !Z.div_div by lia.
  pose proof (Z.div_mod n 256 ltac:(lia)).
  pose proof (Z.div_mod (n / 256) 256 ltac:(lia)).
  pose proof (Z.div_mod (n / 256 / 256) 256 ltac:(lia)).
  rewrite (Z.mod_small (n / 256 / 256 / 256)); [lia|].
  split; [repeat apply Z.div_pos; lia|].
  repeat (apply Z.div_lt_upper_bound; [lia|]). lia.
Qed.

Lemma byte_hex b : 0 <= b < 256 -> exists h l,
  padStart 2 48 (toString_radix 16 b) = map digit_unit [h; l]
  /\ 0 <= h < 16 /\ 0 <= l < 16 /\ b = h * 16 + l.
Proof.
  intros Hb. destruct (padStart_radix 16 b 2) as (ds & -> & Hl & Hf & Hu); [lia|simpl; lia|lia|].
  destruct ds as [|h [|l [|]]]; try discriminate Hl.
  inversion Hf as [|? ? Hh Hf2]; subst. inversion Hf2; subst.
  by exists h, l.
Qed.

Lemma hex_bytes_digits bs : Forall (fun b => 0 <= b < 256) bs -> exists ds,
  mjoin (map (fun b => padStart 2 48 (toString_radix 16 b)) bs) = map digit_unit ds
  /\ length ds = (2 * length bs)%nat /\ Forall (fun d => 0 <= d < 16) ds
  /\ undigits 16 ds = undigits 256 bs.
Proof.
  induction 1 as [|b bs Hb Hbs (ds & IH & Hl & Hf & Hu)].
  - exists []. done.
  - destruct (byte_hex b Hb) as (h & l & E & Hh & Hl' & ->). exists (h :: l :: ds).
    cbn [map]. rewrite E. split_and!.
    + simpl. simpl in IH. by rewrite IH.
    + simpl. lia.
    + constructor; [done|]. by constructor.
    + rewrite !undigits_cons, Hu. simpl length. rewrite Hl.
      rewrite Nat2Z.inj_succ, Nat2Z.inj_mul, Z.pow_succ_r by lia.
      replace (16 ^ (Z.of_nat 2 * Z.of_nat (length bs))) with (256 ^ Z.of_nat (length bs)).
      * lia.
      * rewrite Z.pow_mul_r by lia. reflexivity.
Qed.

Lemma hex_be_bytes n : u32 n ->
  mjoin (map (fun b => padStart 2 48 (toString_radix 16 b)) (to_be_bytes n))
  = padStart 8 48 (toString_radix 16 n).
Proof.
  intros Hn. destruct (hex_bytes_digits _ (be_bytes_range n)) as (ds & -> & Hl & Hf & Hu).
  destruct (pad8 n Hn) as (es & -> & Hl' & Hf' & Hu'). f_equal.
  eapply (undigits_inj 16); [lia|done|done| |].
  - rewrite Hl, Hl'. done.
  - rewrite Hu, Hu'. by apply from_to_be_bytes.
Qed.

Lemma mjoin_app (l1 l2 : list jsstr) : mjoin (l1 ++ l2) = mjoin l1 ++ mjoin l2.
Proof. induction l1 as [|x l1 IH]; simpl; [done|]. by rewrite IH, app_assoc. Qed.

Lemma hex_token_address c t : u32 c -> u32 t ->
  hex_literal (token_to_address c t) = js "0x" ++ token_digits c t.
Proof.
  intros Hc Ht. unfold hex_literal, token_to_address, token_digits. f_equal.
  rewrite !map_app, !mjoin_app, !hex_be_bytes by done. reflexivity.
Qed.

Lemma address_to_token_to_address c t : u32 c -> u32 t ->
  address_to_token (token_to_address c t) = Some (c, t).
Proof.
  intros Hc Ht. unfold address_to_token, token_to_address.
  change (take 12 (ETH_COLLECTION_TOKEN_PREFIX ++ ?l)) with ETH_COLLECTION_TOKEN_PREFIX.
  rewrite bool_decide_true by done. simpl negb. cbv iota.
  change (take 4 (drop 12 (ETH_COLLECTION_TOKEN_PREFIX ++ to_be_bytes c ++ ?l))) with (to_be_bytes c).
  change (take 4 (drop 16 (ETH_COLLECTION_TOKEN_PREFIX ++ ?k ++ to_be_bytes t))) with (to_be_bytes t).
  by rewrite !from_to_be_bytes.
Qed.

End MappingLemmas.

(** ** The network prefix of an address *)

Section PrefixLemmas.
Import AddressGroup.

(** Every two-byte prefix, checked one by one. *)
Definition prefix_ok (f : Z) : bool :=
  forallb (fun b => (0 <=? b) && (b <? 256)) (u8aPrefix f) &&
  match ss58_identifier (u8aPrefix f) with
  | Some (g, []) => g =? f
  | _ => false
  end.

Fixpoint all_below (n : nat) (p : Z -> bool) : bool :=
  match n with
  | O => true
  | S m => p (Z.of_nat m) && all_below m p
  end.

Lemma all_below_spec n p : all_below n p = true -> forall z, 0 <= z < Z.of_nat n -> p z = true.
Proof.
  induction n as [|n IH]; intros H z Hz; [lia|].
  simpl in H. apply andb_true_iff in H as [H1 H2].
  destruct (Z.eq_dec z (Z.of_nat n)) as [->|]; [done|]. apply IH; [done|lia].
Qed.

Lemma prefix_checked : forall f, 0 <= f < 16384 -> prefix_ok f = true.
Proof. apply (all_below_spec (Z.to_nat 16384)). vm_compute. reflexivity. Qed.

Lemma u8aPrefix_identifier f bs : 0 <= f <= 16383 ->
  ss58_identifier (u8aPrefix f ++ bs) = Some (f, bs).
Proof.
  intros Hf. pose proof (prefix_checked f ltac:(lia)) as H. unfold prefix_ok in H.
  apply andb_true_iff in H as [_ H].
  destruct (u8aPrefix f) as [|b0 [|b1 [|b2 l]]] eqn:E; cbn in H; try discriminate.
  - cbn. destruct (b0 <? 64); [|done]. apply Z.eqb_eq in H as ->. done.
  - cbn. destruct (b0 <? 64); [done|]. destruct (b0 <? 128); [|done].
    by apply Z.eqb_eq in H as ->.
  - destruct (b0 <? 64); [done|]. by destruct (b0 <? 128).
Qed.

End PrefixLemmas.

(** * Properties *)

Section AddressProperties.
Context {C : Crypto}.

(** Two tokens whose account addresses agree up to letter case are the same
    token. Addresses are compared in lower case by the client and as bytes by
    the runtime, so no two tokens share a nesting account. *)
Theorem token_address_injective (c t c' t' : Z) r r' :
  nesting.tokenIdToAddress c t = Ret r ->
  nesting.tokenIdToAddress c' t' = Ret r' ->
  JsString.toLowerCase r = JsString.toLowerCase r' ->
  c = c' /\ t = t'.
Proof.
  intros Hr Hr' E.
  destruct (proj1 (tokenIdToAddress_defined c t)) as [Hc Ht]; [eauto|].
  destruct (proj1 (tokenIdToAddress_defined c' t')) as [Hc' Ht']; [eauto|].
  rewrite (tokenIdToAddress_lower _ _ _ Hr), (tokenIdToAddress_lower _ _ _ Hr') in E.
  apply app_inv_head in E. by apply token_digits_inj.
Qed.

(** The addresses of tokens are those that are read back. *)
Lemma is_token_address_iff (eth : list Z) :
  mapping.is_token_address eth = true <-> is_Some (mapping.address_to_token eth).
Proof.
  unfold mapping.is_token_address, mapping.address_to_token.
  destruct (bool_decide _); cbn [negb]; split; intros H; [by eexists|done|done|by destruct H].
Qed.

(** C6: the client's token address exists exactly for two 32-bit ids, and then
    it is, up to letter case, the 20 bytes the runtime computes for that token,
    from which the runtime reads the token back. So it does from the account
    that it makes for the token, when an account made from an Ethereum address
    has that address, and it takes exactly the accounts that it can read for
    token addresses. *)
Theorem token_address_agrees_with_runtime (c t : Z) :
  (forall r, nesting.tokenIdToAddress c t = Ret r ->
     JsString.toLowerCase r = mapping.hex_literal (mapping.token_to_address c t)
     /\ mapping.address_to_token (mapping.token_to_address c t) = Some (c, t))
  /\ ((exists r, nesting.tokenIdToAddress c t = Ret r) <-> 0 <= c < 2 ^ 32 /\ 0 <= t < 2 ^ 32)
  /\ (forall A (E : mapping.CrossAccountEvm A),
        (forall eth, mapping.as_eth (mapping.from_eth eth) = eth) -> 0 <= c < 2 ^ 32 -> 0 <= t < 2 ^ 32 ->
        mapping.cross.address_to_token (mapping.cross.token_to_address c t) = Some (c, t)
        /\ forall a, mapping.cross.is_token_address a = true <-> is_Some (mapping.cross.address_to_token a)).
Proof.
  split; [|split; [apply tokenIdToAddress_defined|]].
  2:{ intros A E Hlaw Hc Ht. split; [|intros a; apply is_token_address_iff].
      unfold mapping.cross.address_to_token, mapping.cross.token_to_address. rewrite Hlaw.
      by apply address_to_token_to_address. }
  intros r Hr.
  destruct (proj1 (tokenIdToAddress_defined c t)) as [Hc Ht]; [eauto|].
  rewrite (tokenIdToAddress_lower _ _ _ Hr), hex_token_address by done.
  split; [done|]. by apply address_to_token_to_address.
Qed.

(** The checksum function rejects exactly the strings that are not forty
    hexadecimal digits with an optional [0x]; on the others it changes nothing
    but the case of letters, its result is again an address, and applying it
    twice is applying it once. *)
Theorem checksum_address_idempotent a :
  match nesting.toChecksumAddress (Some a) with
  | Ret r =>
      nesting.is_eth_address a = true
      /\ JsString.toLowerCase r = js "0x" ++ JsString.toLowerCase (strip_0x a)
      /\ nesting.is_eth_address r = true
      /\ nesting.toChecksumAddress (Some r) = Ret r
  | Throw e =>
      nesting.is_eth_address a = false
      /\ e = JSError (js "Given address " ++ [34] ++ a ++ [34] ++ js " is not a valid Ethereum address.")
  | Pending => False
  end.
Proof.
  destruct (nesting.toChecksumAddress (Some a)) as [r|e|] eqn:H.
  - pose proof (toChecksumAddress_lower a r H) as Hlow.
    pose proof (toChecksumAddress_valid a r H) as Hv.
    apply toChecksumAddress_inv in H as [Ha Hr]. split_and!; [done..|].
    rewrite toChecksumAddress_eq by done. f_equal.
    rewrite Hr at 1 2. rewrite !strip_0x_0x, checksum_loop_lower, toLowerCase_idemp. by rewrite <- Hr.
  - unfold nesting.toChecksumAddress in H. destruct (nesting.is_eth_address a); simpl in H; [done|].
    by injection H as <-.
  - unfold nesting.toChecksumAddress in H. by destruct (nesting.is_eth_address a).
Qed.

(** C34: a key is encoded exactly when the network identifier is a 14-bit number
    other than the reserved 46 and 47 and the key has one of the six allowed
    lengths; what is then encoded in base 58 begins with a prefix from which a
    decoder reads back that identifier and the key. *)
Theorem encode_substrate_address_identifier bs f :
  (0 <= f <= 16383 /\ f <> 46 /\ f <> 47
     /\ (length bs = 1 \/ length bs = 2 \/ length bs = 4 \/ length bs = 8
         \/ length bs = 32 \/ length bs = 33)%nat
     /\ exists checksum,
          AddressGroup.encodeSubstrateAddress (AddressGroup.KeyBytes bs) f
            = Ret (base58Encode (AddressGroup.u8aPrefix f ++ bs ++ checksum))
          /\ AddressGroup.ss58_identifier (AddressGroup.u8aPrefix f ++ bs ++ checksum)
               = Some (f, bs ++ checksum)
          /\ (length checksum <= 2)%nat)
  \/ (exists msg, AddressGroup.encodeSubstrateAddress (AddressGroup.KeyBytes bs) f
        = Throw (JSError msg)
      /\ (f < 0 \/ 16383 < f \/ f = 46 \/ f = 47 \/ ~ (length bs ∈ AddressGroup.allowedDecodedLengths))).
Proof.
  unfold AddressGroup.encodeSubstrateAddress. cbn [bind outcome_monad].
  destruct ((f <? 0) || (16383 <? f) || bool_decide (f ∈ [46; 47])) eqn:Hf.
  { right. eexists. split; [done|]. rewrite !orb_true_iff, bool_decide_eq_true in Hf.
    rewrite !elem_of_cons, elem_of_nil in Hf. lia. }
  rewrite !orb_false_iff, bool_decide_eq_false in Hf.
  rewrite !elem_of_cons, elem_of_nil in Hf.
  destruct (decide (length bs ∈ AddressGroup.allowedDecodedLengths)) as [Hl|Hl].
  - rewrite bool_decide_true by done. left. split_and!; try lia.
    + unfold AddressGroup.allowedDecodedLengths in Hl.
      rewrite !elem_of_cons, elem_of_nil in Hl. lia.
    + eexists. split_and!; [cbn [negb]; cbv zeta; by rewrite <- app_assoc| |].
      * apply u8aPrefix_identifier. lia.
      * rewrite length_take. case_bool_decide; lia.
  - rewrite bool_decide_false by done. right. eexists. split; [done|]. tauto.
Qed.

End AddressProperties.
