(* ===== verification/RpcDefs.v ===== *)
(** * RPC definitions

    The tables with which the client library declares the methods of the
    node's own RPC namespaces (types/definitions.ts and the definitions.ts
    of unique, appPromotion and povinfo), the traits that the node serves
    (client/rpc/src), and what it means that a call of the client, a name
    and a list of parameters, fits a declaration. *)

From Stdlib Require Import Ascii String.
From stdpp Require Import list.
From S2P Require Import Prelude JsString JsValue Chain Address.

Open Scope Z_scope.
Open Scope js_scope.

(** ** The declarations *)

Record RpcParam : Type := mkRpcParam {
  rp_name : jsstr;
  rp_type : jsstr;
  rp_isOptional : bool }.

(** What [fun] returns. *)
Record RpcFun : Type := mkRpcFun {
  rf_description : jsstr;
  rf_params : list RpcParam;
  rf_type : jsstr }.

Definition CROSS_ACCOUNT_ID_TYPE : jsstr := js "PalletEvmAccountBasicCrossAccountIdRepr".

Definition collectionParam : RpcParam := mkRpcParam (js "collection") (js "u32") false.
Definition tokenParam : RpcParam := mkRpcParam (js "tokenId") (js "u32") false.
Definition propertyKeysParam : RpcParam :=
  mkRpcParam (js "propertyKeys") (js "Option<Vec<String>>") true.
Definition crossAccountParam (name : jsstr) : RpcParam := mkRpcParam name CROSS_ACCOUNT_ID_TYPE false.
Definition atParam : RpcParam := mkRpcParam (js "at") (js "Hash") true.
Definition accountParam : RpcParam := crossAccountParam (js "account").
Definition optionalStaker : RpcParam := mkRpcParam (js "staker") CROSS_ACCOUNT_ID_TYPE true.

Definition fun_ (description : string) (params : list RpcParam) (type : jsstr) : RpcFun :=
  mkRpcFun (js description) (params ++ [atParam]) type.

(** The type texts [Option<...>] and [Vec<...>]. *)
Definition option_of (t : jsstr) : jsstr := js "Option<" ++ t ++ js ">".
Definition vec_of (t : jsstr) : jsstr := js "Vec<" ++ t ++ js ">".

Definition unique_rpc : list (string * RpcFun) := [
  ("accountTokens", fun_ "Get tokens owned by an account in a collection"
    [collectionParam; accountParam] (js "Vec<u32>"));
  ("collectionTokens", fun_ "Get tokens contained within a collection"
    [collectionParam] (js "Vec<u32>"));
  ("tokenExists", fun_ "Check if the token exists" [collectionParam; tokenParam] (js "bool"));
  ("tokenOwner", fun_ "Get the token owner"
    [collectionParam; tokenParam] (option_of CROSS_ACCOUNT_ID_TYPE));
  ("topmostTokenOwner",
    fun_ "Get the topmost token owner in the hierarchy of a possibly nested token"
    [collectionParam; tokenParam] (option_of CROSS_ACCOUNT_ID_TYPE));
  ("tokenOwners", fun_ "Returns 10 tokens owners in no particular order"
    [collectionParam; tokenParam] (vec_of CROSS_ACCOUNT_ID_TYPE));
  ("tokenChildren", fun_ "Get tokens nested directly into the token"
    [collectionParam; tokenParam] (js "Vec<UpDataStructsTokenChild>"));
  ("collectionProperties",
    fun_ "Get collection properties, optionally limited to the provided keys"
    [collectionParam; propertyKeysParam] (js "Vec<UpDataStructsProperty>"));
  ("tokenProperties", fun_ "Get token properties, optionally limited to the provided keys"
    [collectionParam; tokenParam; propertyKeysParam] (js "Vec<UpDataStructsProperty>"));
  ("propertyPermissions",
    fun_ "Get property permissions, optionally limited to the provided keys"
    [collectionParam; propertyKeysParam] (js "Vec<UpDataStructsPropertyKeyPermission>"));
  ("constMetadata", fun_ "Get token constant metadata" [collectionParam; tokenParam] (js "Vec<u8>"));
  ("variableMetadata", fun_ "Get token variable metadata"
    [collectionParam; tokenParam] (js "Vec<u8>"));
  ("tokenData", fun_ "Get token data, including properties, optionally limited to the provided keys, and total pieces for an RFT"
    [collectionParam; tokenParam; propertyKeysParam] (js "UpDataStructsTokenData"));
  ("totalSupply", fun_ "Get the amount of distinctive tokens present in a collection"
    [collectionParam] (js "u32"));
  ("accountBalance", fun_ "Get the amount of any user tokens owned by an account"
    [collectionParam; accountParam] (js "u32"));
  ("balance", fun_ "Get the amount of a specific token owned by an account"
    [collectionParam; accountParam; tokenParam] (js "u128"));
  ("allowance", fun_ "Get the amount of currently possible sponsored transactions on a token for the fee to be taken off a sponsor"
    [collectionParam; crossAccountParam (js "sender"); crossAccountParam (js "spender"); tokenParam]
    (js "u128"));
  ("adminlist", fun_ "Get the list of admin accounts of a collection"
    [collectionParam] (js "Vec<PalletEvmAccountBasicCrossAccountIdRepr>"));
  ("allowlist", fun_ "Get the list of accounts allowed to operate within a collection"
    [collectionParam] (js "Vec<PalletEvmAccountBasicCrossAccountIdRepr>"));
  ("allowed", fun_ "Check if a user is allowed to operate within a collection"
    [collectionParam; accountParam] (js "bool"));
  ("lastTokenId", fun_ "Get the last token ID created in a collection" [collectionParam] (js "u32"));
  ("collectionById", fun_ "Get a collection by the specified ID"
    [collectionParam] (js "Option<UpDataStructsRpcCollection>"));
  ("collectionStats", fun_ "Get chain stats about collections" [] (js "UpDataStructsCollectionStats"));
  ("nextSponsored", fun_ "Get the number of blocks until sponsoring a transaction is available"
    [collectionParam; accountParam; tokenParam] (js "Option<u64>"));
  ("effectiveCollectionLimits", fun_ "Get effective collection limits"
    [collectionParam] (js "Option<UpDataStructsCollectionLimits>"));
  ("totalPieces", fun_ "Get the total amount of pieces of an RFT"
    [collectionParam; tokenParam] (js "Option<u128>"));
  ("allowanceForAll", fun_ "Tells whether the given `owner` approves the `operator`."
    [collectionParam; crossAccountParam (js "owner"); crossAccountParam (js "operator")]
    (js "Option<bool>"))]%string.

Definition appPromotion_rpc : list (string * RpcFun) := [
  ("totalStaked", fun_ "Returns the total amount of staked tokens" [optionalStaker] (js "u128"));
  ("totalStakedPerBlock", fun_ "Returns the total amount of staked tokens per block when staked"
    [crossAccountParam (js "staker")] (js "Vec<(u32, u128)>"));
  ("pendingUnstake", fun_ "Returns the total amount of unstaked tokens" [optionalStaker] (js "u128"));
  ("pendingUnstakePerBlock", fun_ "Returns the total amount of unstaked tokens per block"
    [crossAccountParam (js "staker")] (js "Vec<(u32, u128)>"))]%string.

Definition povinfo_rpc : list (string * RpcFun) := [
  ("estimateExtrinsicPoV", fun_ "Estimate PoV size of encoded signed extrinsics"
    [mkRpcParam (js "encodedXt") (js "Vec<Bytes>") false] (js "UpPovEstimateRpcPovInfo"))]%string.

(** The namespaces that types/definitions.ts exports; [default] declares
    types and no method. *)
Definition definitions : list (string * list (string * RpcFun)) := [
  ("unique", unique_rpc); ("appPromotion", appPromotion_rpc); ("povinfo", povinfo_rpc);
  ("default", [])]%string.

(** ** The node's traits *)

(** The Rust types of their signatures. [RString] in a result carries an
    amount, in a parameter a text. *)
Inductive RustType : Type :=
  | CollectionId | TokenId | CrossAccountIdT | BlockHash | BlockNumber
  | RBool | RU32 | RU64 | RString | RBytes
  | RStruct (crate name : string)
  | ROption (t : RustType)
  | RVec (t : RustType)
  | RPair (a b : RustType).

Record RustMethod : Type := mkRustMethod {
  rm_params : list RustType;
  rm_result : RustType }.

(** A method with its last parameter, [at: Option<BlockHash>]. *)
Definition served_method (params : list RustType) (result : RustType) : RustMethod :=
  mkRustMethod (params ++ [ROption BlockHash]) result.

Definition optional_keys : RustType := ROption (RVec RString).
Definition up_data (name : string) : RustType := RStruct "UpDataStructs" name.

Definition UniqueApi : list (string * RustMethod) := [
  ("accountTokens", served_method [CollectionId; CrossAccountIdT] (RVec TokenId));
  ("collectionTokens", served_method [CollectionId] (RVec TokenId));
  ("tokenExists", served_method [CollectionId; TokenId] RBool);
  ("tokenOwner", served_method [CollectionId; TokenId] (ROption CrossAccountIdT));
  ("tokenOwners", served_method [CollectionId; TokenId] (RVec CrossAccountIdT));
  ("topmostTokenOwner", served_method [CollectionId; TokenId] (ROption CrossAccountIdT));
  ("tokenChildren", served_method [CollectionId; TokenId] (RVec (up_data "TokenChild")));
  ("collectionProperties", served_method [CollectionId; optional_keys] (RVec (up_data "Property")));
  ("tokenProperties", served_method [CollectionId; TokenId; optional_keys] (RVec (up_data "Property")));
  ("propertyPermissions", served_method [CollectionId; optional_keys] (RVec (up_data "PropertyKeyPermission")));
  ("tokenData", served_method [CollectionId; TokenId; optional_keys] (up_data "TokenData"));
  ("totalSupply", served_method [CollectionId] RU32);
  ("accountBalance", served_method [CollectionId; CrossAccountIdT] RU32);
  ("balance", served_method [CollectionId; CrossAccountIdT; TokenId] RString);
  ("allowance", served_method [CollectionId; CrossAccountIdT; CrossAccountIdT; TokenId] RString);
  ("adminlist", served_method [CollectionId] (RVec CrossAccountIdT));
  ("allowlist", served_method [CollectionId] (RVec CrossAccountIdT));
  ("allowed", served_method [CollectionId; CrossAccountIdT] RBool);
  ("lastTokenId", served_method [CollectionId] TokenId);
  ("collectionById", served_method [CollectionId] (ROption (up_data "RpcCollection")));
  ("collectionStats", served_method [] (up_data "CollectionStats"));
  ("nextSponsored", served_method [CollectionId; CrossAccountIdT; TokenId] (ROption RU64));
  ("effectiveCollectionLimits", served_method [CollectionId] (ROption (up_data "CollectionLimits")));
  ("totalPieces", served_method [CollectionId; TokenId] (ROption RString));
  ("allowanceForAll", served_method [CollectionId; CrossAccountIdT; CrossAccountIdT] RBool)]%string.

Definition AppPromotionApi : list (string * RustMethod) := [
  ("totalStaked", served_method [ROption CrossAccountIdT] RString);
  ("totalStakedPerBlock", served_method [CrossAccountIdT] (RVec (RPair BlockNumber RString)));
  ("pendingUnstake", served_method [ROption CrossAccountIdT] RString);
  ("pendingUnstakePerBlock", served_method [CrossAccountIdT] (RVec (RPair BlockNumber RString)))]%string.

Definition PovEstimateApi : list (string * RustMethod) := [
  ("estimateExtrinsicPoV", served_method [RVec RBytes] (RStruct "UpPovEstimateRpc" "PovInfo"))]%string.

Definition served : list (string * list (string * RustMethod)) := [
  ("unique", UniqueApi); ("appPromotion", AppPromotionApi); ("povinfo", PovEstimateApi)]%string.

(** ** Agreement of the two *)

(** The text under which a Rust type is known to the client; [text] is what
    [String] stands for. *)
Fixpoint type_text (text : jsstr) (t : RustType) : jsstr :=
  match t with
  | CollectionId | TokenId | BlockNumber | RU32 => js "u32"
  | CrossAccountIdT => CROSS_ACCOUNT_ID_TYPE
  | BlockHash => js "Hash"
  | RBool => js "bool"
  | RU64 => js "u64"
  | RString => text
  | RBytes => js "Bytes"
  | RStruct crate name => js crate ++ js name
  | ROption t => option_of (type_text text t)
  | RVec t => vec_of (type_text text t)
  | RPair a b => js "(" ++ type_text text a ++ js ", " ++ type_text text b ++ js ")"
  end.

(** A declared parameter stands for a Rust one: an optional parameter for an
    [Option], declared with or without that wrapper. *)
Definition param_agrees (p : RpcParam) (t : RustType) : bool :=
  match t with
  | ROption t' =>
      rp_isOptional p && (bool_decide (rp_type p = type_text (js "String") t')
                          || bool_decide (rp_type p = type_text (js "String") t))
  | _ => negb (rp_isOptional p) && bool_decide (rp_type p = type_text (js "String") t)
  end.

Fixpoint params_agree (ps : list RpcParam) (ts : list RustType) : bool :=
  match ps, ts with
  | [], [] => true
  | p :: ps', t :: ts' => param_agrees p t && params_agree ps' ts'
  | _, _ => false
  end.

Definition result_agrees (f : RpcFun) (m : RustMethod) : bool :=
  bool_decide (rf_type f = type_text (js "u128") (rm_result m)).

(** Lookup in the tables. *)
Fixpoint entry {A} (k : jsstr) (l : list (string * A)) : option A :=
  match l with
  | [] => None
  | (k', a) :: l' => if bool_decide (k = js k') then Some a else entry k l'
  end.

Definition declared (ns name : jsstr) : option RpcFun := entry ns definitions ≫= entry name.
Definition method_of (ns name : jsstr) : option RustMethod := entry ns served ≫= entry name.

(** ** Calls that fit a declaration *)

(** The value has the outer shape of the type: a number, a text, an array, or
    an object with the one property [Substrate] or [Ethereum]. *)
Definition is_cross (v : jsval) : bool :=
  match v with
  | JObj [(k, _)] _ => bool_decide (k = js "Substrate") || bool_decide (k = js "Ethereum")
  | _ => false
  end.

Definition nullish (v : jsval) : bool := match v with JUndef | JNull => true | _ => false end.

Definition has_shape (type : jsstr) (v : jsval) : bool :=
  if bool_decide (type = js "u32") then match v with JNum _ => true | _ => false end
  else if bool_decide (type = js "Hash") then match v with JStr _ => true | _ => false end
  else if bool_decide (type = CROSS_ACCOUNT_ID_TYPE) then is_cross v
  else if bool_decide (type = js "Option<Vec<String>>")
  then match v with JArr _ => true | v => nullish v end
  else if bool_decide (type = js "Vec<Bytes>") then match v with JArr _ => true | _ => false end
  else false.

(** Parameters are positional; the optional ones may be missing, [undefined]
    or [null]. *)
Fixpoint fits (ps : list RpcParam) (vs : list jsval) : bool :=
  match ps, vs with
  | [], [] => true
  | [], _ :: _ => false
  | p :: ps', [] => rp_isOptional p && fits ps' []
  | p :: ps', v :: vs' => (has_shape (rp_type p) v || (rp_isOptional p && nullish v)) && fits ps' vs'
  end.

(** A call [api.rpc.<namespace>.<method>] of one of the declared namespaces
    must be declared and fit; other calls are not restricted. *)
Definition call_fits (call : jsstr) (params : list jsval) : bool :=
  match split_unit 46 call with
  | [a; r; ns; name] =>
      if bool_decide (a = js "api") && bool_decide (r = js "rpc") then
        match entry ns definitions with
        | None => true
        | Some methods =>
            match entry name methods with
            | None => false
            | Some f => fits (rf_params f) params
            end
        end
      else true
  | _ => true
  end.
