(* ===== verification/RpcInterface.v ===== *)
(** * The RPC interface of the chain

    The RPC methods that types/augment-api-rpc.ts declares, by namespace: the
    name of each, its parameters with their types, the optional ones marked, and
    the type of its result. *)

From Stdlib Require Import String.
From stdpp Require Import list.

#[local] Open Scope string_scope.

(** A parameter that must be given, and one that need not. *)
Definition needs (name type : string) : string * bool * string := (name, false, type).
Definition takes (name type : string) : string * bool * string := (name, true, type).

Module RpcInterface.

Definition appPromotion : list (string * (list (string * bool * string) * string)) := [
  ("pendingUnstake", ([takes "staker" "PalletEvmAccountBasicCrossAccountIdRepr"; takes "at" "Hash"], "u128"));
  ("pendingUnstakePerBlock", ([needs "staker" "PalletEvmAccountBasicCrossAccountIdRepr"; takes "at" "Hash"], "Vec<ITuple<[u32, u128]>>"));
  ("totalStaked", ([takes "staker" "PalletEvmAccountBasicCrossAccountIdRepr"; takes "at" "Hash"], "u128"));
  ("totalStakedPerBlock", ([needs "staker" "PalletEvmAccountBasicCrossAccountIdRepr"; takes "at" "Hash"], "Vec<ITuple<[u32, u128]>>"))]%string.

Definition author : list (string * (list (string * bool * string) * string)) := [
  ("hasKey", ([needs "publicKey" "Bytes"; needs "keyType" "Text"], "bool"));
  ("hasSessionKeys", ([needs "sessionKeys" "Bytes"], "bool"));
  ("insertKey", ([needs "keyType" "Text"; needs "suri" "Text"; needs "publicKey" "Bytes"], "Bytes"));
  ("pendingExtrinsics", ([], "Vec<Extrinsic>"));
  ("removeExtrinsic", ([needs "bytesOrHash" "Vec<ExtrinsicOrHash>"], "Vec<Hash>"));
  ("rotateKeys", ([], "Bytes"));
  ("submitAndWatchExtrinsic", ([needs "extrinsic" "Extrinsic"], "ExtrinsicStatus"));
  ("submitExtrinsic", ([needs "extrinsic" "Extrinsic"], "Hash"))]%string.

Definition babe : list (string * (list (string * bool * string) * string)) := [
  ("epochAuthorship", ([], "HashMap<AuthorityId, EpochAuthorship>"))]%string.

Definition beefy : list (string * (list (string * bool * string) * string)) := [
  ("getFinalizedHead", ([], "H256")); ("subscribeJustifications", ([], "BeefyVersionedFinalityProof"))]%string.

Definition chain : list (string * (list (string * bool * string) * string)) := [
  ("getBlock", ([takes "hash" "BlockHash"], "SignedBlock"));
  ("getBlockHash", ([takes "blockNumber" "BlockNumber"], "BlockHash")); ("getFinalizedHead", ([], "BlockHash"));
  ("getHeader", ([takes "hash" "BlockHash"], "Header")); ("subscribeAllHeads", ([], "Header"));
  ("subscribeFinalizedHeads", ([], "Header")); ("subscribeNewHeads", ([], "Header"))]%string.

Definition childstate : list (string * (list (string * bool * string) * string)) := [
  ("getKeys", ([needs "childKey" "PrefixedStorageKey"; needs "prefix" "StorageKey"; takes "at" "Hash"], "Vec<StorageKey>"));
  ("getKeysPaged", ([needs "childKey" "PrefixedStorageKey"; needs "prefix" "StorageKey"; needs "count" "u32"; takes "startKey" "StorageKey"; takes "at" "Hash"], "Vec<StorageKey>"));
  ("getStorage", ([needs "childKey" "PrefixedStorageKey"; needs "key" "StorageKey"; takes "at" "Hash"], "Option<StorageData>"));
  ("getStorageEntries", ([needs "childKey" "PrefixedStorageKey"; needs "keys" "Vec<StorageKey>"; takes "at" "Hash"], "Vec<Option<StorageData>>"));
  ("getStorageHash", ([needs "childKey" "PrefixedStorageKey"; needs "key" "StorageKey"; takes "at" "Hash"], "Option<Hash>"));
  ("getStorageSize", ([needs "childKey" "PrefixedStorageKey"; needs "key" "StorageKey"; takes "at" "Hash"], "Option<u64>"))]%string.

Definition contracts : list (string * (list (string * bool * string) * string)) := [
  ("call", ([needs "callRequest" "ContractCallRequest"; takes "at" "BlockHash"], "ContractExecResult"));
  ("getStorage", ([needs "address" "AccountId"; needs "key" "H256"; takes "at" "BlockHash"], "Option<Bytes>"));
  ("instantiate", ([needs "request" "InstantiateRequestV1"; takes "at" "BlockHash"], "ContractInstantiateResult"));
  ("rentProjection", ([needs "address" "AccountId"; takes "at" "BlockHash"], "Option<BlockNumber>"));
  ("uploadCode", ([needs "uploadRequest" "CodeUploadRequest"; takes "at" "BlockHash"], "CodeUploadResult"))]%string.

Definition dev : list (string * (list (string * bool * string) * string)) := [
  ("getBlockStats", ([needs "at" "Hash"], "Option<BlockStats>"))]%string.

Definition engine : list (string * (list (string * bool * string) * string)) := [
  ("createBlock", ([needs "createEmpty" "bool"; needs "finalize" "bool"; takes "parentHash" "BlockHash"], "CreatedBlock"));
  ("finalizeBlock", ([needs "hash" "BlockHash"; takes "justification" "Justification"], "bool"))]%string.

Definition eth : list (string * (list (string * bool * string) * string)) := [
  ("accounts", ([], "Vec<H160>")); ("blockNumber", ([], "U256"));
  ("call", ([needs "request" "EthCallRequest"; takes "number" "BlockNumber"], "Bytes"));
  ("chainId", ([], "U64")); ("coinbase", ([], "H160"));
  ("estimateGas", ([needs "request" "EthCallRequest"; takes "number" "BlockNumber"], "U256"));
  ("feeHistory", ([needs "blockCount" "U256"; needs "newestBlock" "BlockNumber"; needs "rewardPercentiles" "Option<Vec<f64>>"], "EthFeeHistory"));
  ("gasPrice", ([], "U256")); ("getBalance", ([needs "address" "H160"; takes "number" "BlockNumber"], "U256"));
  ("getBlockByHash", ([needs "hash" "H256"; needs "full" "bool"], "Option<EthRichBlock>"));
  ("getBlockByNumber", ([needs "block" "BlockNumber"; needs "full" "bool"], "Option<EthRichBlock>"));
  ("getBlockTransactionCountByHash", ([needs "hash" "H256"], "U256"));
  ("getBlockTransactionCountByNumber", ([needs "block" "BlockNumber"], "U256"));
  ("getCode", ([needs "address" "H160"; takes "number" "BlockNumber"], "Bytes"));
  ("getFilterChanges", ([needs "index" "U256"], "EthFilterChanges"));
  ("getFilterLogs", ([needs "index" "U256"], "Vec<EthLog>"));
  ("getLogs", ([needs "filter" "EthFilter"], "Vec<EthLog>"));
  ("getProof", ([needs "address" "H160"; needs "storageKeys" "Vec<H256>"; needs "number" "BlockNumber"], "EthAccount"));
  ("getStorageAt", ([needs "address" "H160"; needs "index" "U256"; takes "number" "BlockNumber"], "H256"));
  ("getTransactionByBlockHashAndIndex", ([needs "hash" "H256"; needs "index" "U256"], "EthTransaction"));
  ("getTransactionByBlockNumberAndIndex", ([needs "number" "BlockNumber"; needs "index" "U256"], "EthTransaction"));
  ("getTransactionByHash", ([needs "hash" "H256"], "EthTransaction"));
  ("getTransactionCount", ([needs "address" "H160"; takes "number" "BlockNumber"], "U256"));
  ("getTransactionReceipt", ([needs "hash" "H256"], "EthReceipt"));
  ("getUncleByBlockHashAndIndex", ([needs "hash" "H256"; needs "index" "U256"], "EthRichBlock"));
  ("getUncleByBlockNumberAndIndex", ([needs "number" "BlockNumber"; needs "index" "U256"], "EthRichBlock"));
  ("getUncleCountByBlockHash", ([needs "hash" "H256"], "U256"));
  ("getUncleCountByBlockNumber", ([needs "number" "BlockNumber"], "U256")); ("getWork", ([], "EthWork"));
  ("hashrate", ([], "U256")); ("maxPriorityFeePerGas", ([], "U256")); ("mining", ([], "bool"));
  ("newBlockFilter", ([], "U256")); ("newFilter", ([needs "filter" "EthFilter"], "U256"));
  ("newPendingTransactionFilter", ([], "U256")); ("protocolVersion", ([], "u64"));
  ("sendRawTransaction", ([needs "bytes" "Bytes"], "H256"));
  ("sendTransaction", ([needs "tx" "EthTransactionRequest"], "H256"));
  ("submitHashrate", ([needs "index" "U256"; needs "hash" "H256"], "bool"));
  ("submitWork", ([needs "nonce" "H64"; needs "headerHash" "H256"; needs "mixDigest" "H256"], "bool"));
  ("subscribe", ([needs "kind" "EthSubKind"; takes "params" "EthSubParams"], "Null"));
  ("syncing", ([], "EthSyncStatus")); ("uninstallFilter", ([needs "index" "U256"], "bool"))]%string.

Definition grandpa : list (string * (list (string * bool * string) * string)) := [
  ("proveFinality", ([needs "blockNumber" "BlockNumber"], "Option<EncodedFinalityProofs>"));
  ("roundState", ([], "ReportedRoundStates")); ("subscribeJustifications", ([], "JustificationNotification"))]%string.

Definition mmr : list (string * (list (string * bool * string) * string)) := [
  ("generateProof", ([needs "blockNumbers" "Vec<u64>"; takes "bestKnownBlockNumber" "u64"; takes "at" "BlockHash"], "MmrLeafBatchProof"));
  ("root", ([takes "at" "BlockHash"], "MmrHash"));
  ("verifyProof", ([needs "proof" "MmrLeafBatchProof"], "bool"));
  ("verifyProofStateless", ([needs "root" "MmrHash"; needs "proof" "MmrLeafBatchProof"], "bool"))]%string.

Definition net : list (string * (list (string * bool * string) * string)) := [
  ("listening", ([], "bool")); ("peerCount", ([], "Text")); ("version", ([], "Text"))]%string.

Definition offchain : list (string * (list (string * bool * string) * string)) := [
  ("localStorageClear", ([needs "kind" "StorageKind"; needs "key" "Bytes"], "Null"));
  ("localStorageGet", ([needs "kind" "StorageKind"; needs "key" "Bytes"], "Option<Bytes>"));
  ("localStorageSet", ([needs "kind" "StorageKind"; needs "key" "Bytes"; needs "value" "Bytes"], "Null"))]%string.

Definition payment : list (string * (list (string * bool * string) * string)) := [
  ("queryFeeDetails", ([needs "extrinsic" "Bytes"; takes "at" "BlockHash"], "FeeDetails"));
  ("queryInfo", ([needs "extrinsic" "Bytes"; takes "at" "BlockHash"], "RuntimeDispatchInfoV1"))]%string.

Definition povinfo : list (string * (list (string * bool * string) * string)) := [
  ("estimateExtrinsicPoV", ([needs "encodedXt" "Vec<Bytes>"; takes "at" "Hash"], "UpPovEstimateRpcPovInfo"))]%string.

Definition rpc : list (string * (list (string * bool * string) * string)) := [
  ("methods", ([], "RpcMethods"))]%string.

Definition state : list (string * (list (string * bool * string) * string)) := [
  ("call", ([needs "method" "Text"; needs "data" "Bytes"; takes "at" "BlockHash"], "Bytes"));
  ("getChildKeys", ([needs "childStorageKey" "StorageKey"; needs "childDefinition" "StorageKey"; needs "childType" "u32"; needs "key" "StorageKey"; takes "at" "BlockHash"], "Vec<StorageKey>"));
  ("getChildReadProof", ([needs "childStorageKey" "PrefixedStorageKey"; needs "keys" "Vec<StorageKey>"; takes "at" "BlockHash"], "ReadProof"));
  ("getChildStorage", ([needs "childStorageKey" "StorageKey"; needs "childDefinition" "StorageKey"; needs "childType" "u32"; needs "key" "StorageKey"; takes "at" "BlockHash"], "StorageData"));
  ("getChildStorageHash", ([needs "childStorageKey" "StorageKey"; needs "childDefinition" "StorageKey"; needs "childType" "u32"; needs "key" "StorageKey"; takes "at" "BlockHash"], "Hash"));
  ("getChildStorageSize", ([needs "childStorageKey" "StorageKey"; needs "childDefinition" "StorageKey"; needs "childType" "u32"; needs "key" "StorageKey"; takes "at" "BlockHash"], "u64"));
  ("getKeys", ([needs "key" "StorageKey"; takes "at" "BlockHash"], "Vec<StorageKey>"));
  ("getKeysPaged", ([needs "key" "StorageKey"; needs "count" "u32"; takes "startKey" "StorageKey"; takes "at" "BlockHash"], "Vec<StorageKey>"));
  ("getMetadata", ([takes "at" "BlockHash"], "Metadata"));
  ("getPairs", ([needs "prefix" "StorageKey"; takes "at" "BlockHash"], "Vec<KeyValue>"));
  ("getReadProof", ([needs "keys" "Vec<StorageKey>"; takes "at" "BlockHash"], "ReadProof"));
  ("getRuntimeVersion", ([takes "at" "BlockHash"], "RuntimeVersion"));
  ("getStorage", ([needs "key" "StorageKey"; takes "block" "Hash"], "T"));
  ("getStorageHash", ([needs "key" "StorageKey"; takes "at" "BlockHash"], "Hash"));
  ("getStorageSize", ([needs "key" "StorageKey"; takes "at" "BlockHash"], "u64"));
  ("queryStorage", ([needs "keys" "Vec<StorageKey>"; takes "fromBlock" "Hash"; takes "toBlock" "Hash"], "[Hash, T][]"));
  ("queryStorageAt", ([needs "keys" "Vec<StorageKey>"; takes "at" "Hash"], "T"));
  ("subscribeRuntimeVersion", ([], "RuntimeVersion"));
  ("subscribeStorage", ([takes "keys" "Vec<StorageKey>"], "T"));
  ("traceBlock", ([needs "block" "Hash"; needs "targets" "Option<Text>"; needs "storageKeys" "Option<Text>"; needs "methods" "Option<Text>"], "TraceBlockResponse"));
  ("trieMigrationStatus", ([takes "at" "BlockHash"], "MigrationStatusResult"))]%string.

Definition syncstate : list (string * (list (string * bool * string) * string)) := [
  ("genSyncSpec", ([needs "raw" "bool"], "Json"))]%string.

Definition system : list (string * (list (string * bool * string) * string)) := [
  ("accountNextIndex", ([needs "accountId" "AccountId"], "Index"));
  ("addLogFilter", ([needs "directives" "Text"], "Null")); ("addReservedPeer", ([needs "peer" "Text"], "Text"));
  ("chain", ([], "Text")); ("chainType", ([], "ChainType"));
  ("dryRun", ([needs "extrinsic" "Bytes"; takes "at" "BlockHash"], "ApplyExtrinsicResult"));
  ("health", ([], "Health")); ("localListenAddresses", ([], "Vec<Text>")); ("localPeerId", ([], "Text"));
  ("name", ([], "Text")); ("networkState", ([], "NetworkState")); ("nodeRoles", ([], "Vec<NodeRole>"));
  ("peers", ([], "Vec<PeerInfo>")); ("properties", ([], "ChainProperties"));
  ("removeReservedPeer", ([needs "peerId" "Text"], "Text")); ("reservedPeers", ([], "Vec<Text>"));
  ("resetLogFilter", ([], "Null")); ("syncState", ([], "SyncState")); ("version", ([], "Text"))]%string.

Definition unique : list (string * (list (string * bool * string) * string)) := [
  ("accountBalance", ([needs "collection" "u32"; needs "account" "PalletEvmAccountBasicCrossAccountIdRepr"; takes "at" "Hash"], "u32"));
  ("accountTokens", ([needs "collection" "u32"; needs "account" "PalletEvmAccountBasicCrossAccountIdRepr"; takes "at" "Hash"], "Vec<u32>"));
  ("adminlist", ([needs "collection" "u32"; takes "at" "Hash"], "Vec<PalletEvmAccountBasicCrossAccountIdRepr>"));
  ("allowance", ([needs "collection" "u32"; needs "sender" "PalletEvmAccountBasicCrossAccountIdRepr"; needs "spender" "PalletEvmAccountBasicCrossAccountIdRepr"; needs "tokenId" "u32"; takes "at" "Hash"], "u128"));
  ("allowanceForAll", ([needs "collection" "u32"; needs "owner" "PalletEvmAccountBasicCrossAccountIdRepr"; needs "operator" "PalletEvmAccountBasicCrossAccountIdRepr"; takes "at" "Hash"], "Option<bool>"));
  ("allowed", ([needs "collection" "u32"; needs "account" "PalletEvmAccountBasicCrossAccountIdRepr"; takes "at" "Hash"], "bool"));
  ("allowlist", ([needs "collection" "u32"; takes "at" "Hash"], "Vec<PalletEvmAccountBasicCrossAccountIdRepr>"));
  ("balance", ([needs "collection" "u32"; needs "account" "PalletEvmAccountBasicCrossAccountIdRepr"; needs "tokenId" "u32"; takes "at" "Hash"], "u128"));
  ("collectionById", ([needs "collection" "u32"; takes "at" "Hash"], "Option<UpDataStructsRpcCollection>"));
  ("collectionProperties", ([needs "collection" "u32"; takes "propertyKeys" "Option<Vec<Text>>"; takes "at" "Hash"], "Vec<UpDataStructsProperty>"));
  ("collectionStats", ([takes "at" "Hash"], "UpDataStructsCollectionStats"));
  ("collectionTokens", ([needs "collection" "u32"; takes "at" "Hash"], "Vec<u32>"));
  ("constMetadata", ([needs "collection" "u32"; needs "tokenId" "u32"; takes "at" "Hash"], "Bytes"));
  ("effectiveCollectionLimits", ([needs "collection" "u32"; takes "at" "Hash"], "Option<UpDataStructsCollectionLimits>"));
  ("lastTokenId", ([needs "collection" "u32"; takes "at" "Hash"], "u32"));
  ("nextSponsored", ([needs "collection" "u32"; needs "account" "PalletEvmAccountBasicCrossAccountIdRepr"; needs "tokenId" "u32"; takes "at" "Hash"], "Option<u64>"));
  ("propertyPermissions", ([needs "collection" "u32"; takes "propertyKeys" "Option<Vec<Text>>"; takes "at" "Hash"], "Vec<UpDataStructsPropertyKeyPermission>"));
  ("tokenChildren", ([needs "collection" "u32"; needs "tokenId" "u32"; takes "at" "Hash"], "Vec<UpDataStructsTokenChild>"));
  ("tokenData", ([needs "collection" "u32"; needs "tokenId" "u32"; takes "propertyKeys" "Option<Vec<Text>>"; takes "at" "Hash"], "UpDataStructsTokenData"));
  ("tokenExists", ([needs "collection" "u32"; needs "tokenId" "u32"; takes "at" "Hash"], "bool"));
  ("tokenOwner", ([needs "collection" "u32"; needs "tokenId" "u32"; takes "at" "Hash"], "Option<PalletEvmAccountBasicCrossAccountIdRepr>"));
  ("tokenOwners", ([needs "collection" "u32"; needs "tokenId" "u32"; takes "at" "Hash"], "Vec<PalletEvmAccountBasicCrossAccountIdRepr>"));
  ("tokenProperties", ([needs "collection" "u32"; needs "tokenId" "u32"; takes "propertyKeys" "Option<Vec<Text>>"; takes "at" "Hash"], "Vec<UpDataStructsProperty>"));
  ("topmostTokenOwner", ([needs "collection" "u32"; needs "tokenId" "u32"; takes "at" "Hash"], "Option<PalletEvmAccountBasicCrossAccountIdRepr>"));
  ("totalPieces", ([needs "collection" "u32"; needs "tokenId" "u32"; takes "at" "Hash"], "Option<u128>"));
  ("totalSupply", ([needs "collection" "u32"; takes "at" "Hash"], "u32"));
  ("variableMetadata", ([needs "collection" "u32"; needs "tokenId" "u32"; takes "at" "Hash"], "Bytes"))]%string.

Definition web3 : list (string * (list (string * bool * string) * string)) := [
  ("clientVersion", ([], "Text")); ("sha3", ([needs "data" "Bytes"], "H256"))]%string.

End RpcInterface.

(** [RpcInterface] *)
Definition rpc_interface : list (string * list (string * (list (string * bool * string) * string))) := [
  ("appPromotion", RpcInterface.appPromotion); ("author", RpcInterface.author); ("babe", RpcInterface.babe);
  ("beefy", RpcInterface.beefy); ("chain", RpcInterface.chain); ("childstate", RpcInterface.childstate);
  ("contracts", RpcInterface.contracts); ("dev", RpcInterface.dev); ("engine", RpcInterface.engine);
  ("eth", RpcInterface.eth); ("grandpa", RpcInterface.grandpa); ("mmr", RpcInterface.mmr);
  ("net", RpcInterface.net); ("offchain", RpcInterface.offchain); ("payment", RpcInterface.payment);
  ("povinfo", RpcInterface.povinfo); ("rpc", RpcInterface.rpc); ("state", RpcInterface.state);
  ("syncstate", RpcInterface.syncstate); ("system", RpcInterface.system); ("unique", RpcInterface.unique);
  ("web3", RpcInterface.web3)]%string.
