(* ===== verification/TxDefs.v ===== *)
(** * The extrinsics of the chain

    The extrinsics that types/augment-api-tx.ts declares, by pallet: the name
    of each and its parameters with their types. *)

From Stdlib Require Import String.
From stdpp Require Import list.

#[local] Open Scope string_scope.

Module Tx.

Definition appPromotion : list (string * list (string * string)) := [
  ("payoutStakers", [("stakersNumber", "Option<u8>")]);
  ("resolveSkippedBlocks", [("pendingBlocks", "Vec<u32>")]);
  ("setAdminAddress", [("admin", "PalletEvmAccountBasicCrossAccountIdRepr")]);
  ("sponsorCollection", [("collectionId", "u32")]); ("sponsorContract", [("contractId", "H160")]);
  ("stake", [("amount", "u128")]); ("stopSponsoringCollection", [("collectionId", "u32")]);
  ("stopSponsoringContract", [("contractId", "H160")]); ("unstakeAll", []);
  ("unstakePartial", [("amount", "u128")])]%string.

Definition balances : list (string * list (string * string)) := [
  ("burn", [("value", "Compact<u128>"); ("keepAlive", "bool")]);
  ("forceAdjustTotalIssuance", [("direction", "PalletBalancesAdjustmentDirection"); ("delta", "Compact<u128>")]);
  ("forceSetBalance", [("who", "MultiAddress"); ("newFree", "Compact<u128>")]);
  ("forceTransfer", [("source", "MultiAddress"); ("dest", "MultiAddress"); ("value", "Compact<u128>")]);
  ("forceUnreserve", [("who", "MultiAddress"); ("amount", "u128")]);
  ("transferAll", [("dest", "MultiAddress"); ("keepAlive", "bool")]);
  ("transferAllowDeath", [("dest", "MultiAddress"); ("value", "Compact<u128>")]);
  ("transferKeepAlive", [("dest", "MultiAddress"); ("value", "Compact<u128>")]);
  ("upgradeAccounts", [("who", "Vec<AccountId32>")])]%string.

Definition collatorSelection : list (string * list (string * string)) := [
  ("addInvulnerable", [("updated", "AccountId32")]); ("forceReleaseLicense", [("who", "AccountId32")]);
  ("getLicense", []); ("offboard", []); ("onboard", []); ("releaseLicense", []);
  ("removeInvulnerable", [("who", "AccountId32")])]%string.

Definition configuration : list (string * list (string * string)) := [
  ("setAppPromotionConfigurationOverride", [("configuration", "PalletConfigurationAppPromotionConfiguration")]);
  ("setCollatorSelectionDesiredCollators", [("max", "Option<u32>")]);
  ("setCollatorSelectionKickThreshold", [("threshold", "Option<u32>")]);
  ("setCollatorSelectionLicenseBond", [("amount", "Option<u128>")]);
  ("setMinGasPriceOverride", [("coeff", "Option<u64>")]);
  ("setWeightToFeeCoefficientOverride", [("coeff", "Option<u64>")])]%string.

Definition council : list (string * list (string * string)) := [
  ("close", [("proposalHash", "H256"); ("index", "Compact<u32>"); ("proposalWeightBound", "SpWeightsWeightV2Weight"); ("lengthBound", "Compact<u32>")]);
  ("disapproveProposal", [("proposalHash", "H256")]);
  ("execute", [("proposal", "Call"); ("lengthBound", "Compact<u32>")]); ("kill", [("proposalHash", "H256")]);
  ("propose", [("threshold", "Compact<u32>"); ("proposal", "Call"); ("lengthBound", "Compact<u32>")]);
  ("releaseProposalCost", [("proposalHash", "H256")]);
  ("setMembers", [("newMembers", "Vec<AccountId32>"); ("prime", "Option<AccountId32>"); ("oldCount", "u32")]);
  ("vote", [("proposal", "H256"); ("index", "Compact<u32>"); ("approve", "bool")])]%string.

Definition councilMembership : list (string * list (string * string)) := [
  ("addMember", [("who", "MultiAddress")]); ("changeKey", [("updated", "MultiAddress")]); ("clearPrime", []);
  ("removeMember", [("who", "MultiAddress")]); ("resetMembers", [("members", "Vec<AccountId32>")]);
  ("setPrime", [("who", "MultiAddress")]); ("swapMember", [("remove", "MultiAddress"); ("add", "MultiAddress")])]%string.

Definition democracy : list (string * list (string * string)) := [
  ("blacklist", [("proposalHash", "H256"); ("maybeRefIndex", "Option<u32>")]);
  ("cancelProposal", [("propIndex", "Compact<u32>")]); ("cancelReferendum", [("refIndex", "Compact<u32>")]);
  ("clearPublicProposals", []);
  ("delegate", [("to", "MultiAddress"); ("conviction", "PalletDemocracyConviction"); ("balance", "u128")]);
  ("emergencyCancel", [("refIndex", "u32")]);
  ("externalPropose", [("proposal", "FrameSupportPreimagesBounded")]);
  ("externalProposeDefault", [("proposal", "FrameSupportPreimagesBounded")]);
  ("externalProposeMajority", [("proposal", "FrameSupportPreimagesBounded")]);
  ("fastTrack", [("proposalHash", "H256"); ("votingPeriod", "u32"); ("delay", "u32")]);
  ("propose", [("proposal", "FrameSupportPreimagesBounded"); ("value", "Compact<u128>")]);
  ("removeOtherVote", [("target", "MultiAddress"); ("index", "u32")]); ("removeVote", [("index", "u32")]);
  ("second", [("proposal", "Compact<u32>")]);
  ("setMetadata", [("owner", "PalletDemocracyMetadataOwner"); ("maybeHash", "Option<H256>")]);
  ("undelegate", []); ("unlock", [("target", "MultiAddress")]); ("vetoExternal", [("proposalHash", "H256")]);
  ("vote", [("refIndex", "Compact<u32>"); ("vote", "PalletDemocracyVoteAccountVote")])]%string.

Definition ethereum : list (string * list (string * string)) := [
  ("transact", [("transaction", "EthereumTransactionTransactionV2")])]%string.

Definition evm : list (string * list (string * string)) := [
  ("call", [("source", "H160"); ("target", "H160"); ("input", "Bytes"); ("value", "U256"); ("gasLimit", "u64"); ("maxFeePerGas", "U256"); ("maxPriorityFeePerGas", "Option<U256>"); ("nonce", "Option<U256>"); ("accessList", "Vec<ITuple<[H160, Vec<H256>]>>")]);
  ("create", [("source", "H160"); ("init", "Bytes"); ("value", "U256"); ("gasLimit", "u64"); ("maxFeePerGas", "U256"); ("maxPriorityFeePerGas", "Option<U256>"); ("nonce", "Option<U256>"); ("accessList", "Vec<ITuple<[H160, Vec<H256>]>>")]);
  ("create2", [("source", "H160"); ("init", "Bytes"); ("salt", "H256"); ("value", "U256"); ("gasLimit", "u64"); ("maxFeePerGas", "U256"); ("maxPriorityFeePerGas", "Option<U256>"); ("nonce", "Option<U256>"); ("accessList", "Vec<ITuple<[H160, Vec<H256>]>>")]);
  ("withdraw", [("address", "H160"); ("value", "u128")])]%string.

Definition evmContractHelpers : list (string * list (string * string)) := [
  ("migrateFromSelfSponsoring", [("addresses", "Vec<H160>")])]%string.

Definition evmMigration : list (string * list (string * string)) := [
  ("begin", [("address", "H160")]); ("finish", [("address", "H160"); ("code", "Bytes")]);
  ("insertEthLogs", [("logs", "Vec<EthereumLog>")]); ("insertEvents", [("events", "Vec<Bytes>")]);
  ("removeRmrkData", []); ("setData", [("address", "H160"); ("data", "Vec<ITuple<[H256, H256]>>")])]%string.

Definition fellowshipCollective : list (string * list (string * string)) := [
  ("addMember", [("who", "MultiAddress")]); ("cleanupPoll", [("pollIndex", "u32"); ("max", "u32")]);
  ("demoteMember", [("who", "MultiAddress")]);
  ("exchangeMember", [("who", "MultiAddress"); ("newWho", "MultiAddress")]);
  ("promoteMember", [("who", "MultiAddress")]); ("removeMember", [("who", "MultiAddress"); ("minRank", "u16")]);
  ("vote", [("poll", "u32"); ("aye", "bool")])]%string.

Definition fellowshipReferenda : list (string * list (string * string)) := [
  ("cancel", [("index", "u32")]); ("kill", [("index", "u32")]); ("nudgeReferendum", [("index", "u32")]);
  ("oneFewerDeciding", [("track", "u16")]); ("placeDecisionDeposit", [("index", "u32")]);
  ("refundDecisionDeposit", [("index", "u32")]); ("refundSubmissionDeposit", [("index", "u32")]);
  ("setMetadata", [("index", "u32"); ("maybeHash", "Option<H256>")]);
  ("submit", [("proposalOrigin", "OpalRuntimeOriginCaller"); ("proposal", "FrameSupportPreimagesBounded"); ("enactmentMoment", "FrameSupportScheduleDispatchTime")])]%string.

Definition financialCouncil : list (string * list (string * string)) := [
  ("close", [("proposalHash", "H256"); ("index", "Compact<u32>"); ("proposalWeightBound", "SpWeightsWeightV2Weight"); ("lengthBound", "Compact<u32>")]);
  ("disapproveProposal", [("proposalHash", "H256")]);
  ("execute", [("proposal", "Call"); ("lengthBound", "Compact<u32>")]); ("kill", [("proposalHash", "H256")]);
  ("propose", [("threshold", "Compact<u32>"); ("proposal", "Call"); ("lengthBound", "Compact<u32>")]);
  ("releaseProposalCost", [("proposalHash", "H256")]);
  ("setMembers", [("newMembers", "Vec<AccountId32>"); ("prime", "Option<AccountId32>"); ("oldCount", "u32")]);
  ("vote", [("proposal", "H256"); ("index", "Compact<u32>"); ("approve", "bool")])]%string.

Definition financialCouncilMembership : list (string * list (string * string)) := [
  ("addMember", [("who", "MultiAddress")]); ("changeKey", [("updated", "MultiAddress")]); ("clearPrime", []);
  ("removeMember", [("who", "MultiAddress")]); ("resetMembers", [("members", "Vec<AccountId32>")]);
  ("setPrime", [("who", "MultiAddress")]); ("swapMember", [("remove", "MultiAddress"); ("add", "MultiAddress")])]%string.

Definition foreignAssets : list (string * list (string * string)) := [
  ("forceRegisterForeignAsset", [("versionedAssetId", "XcmVersionedAssetId"); ("name", "Vec<u16>"); ("tokenPrefix", "Bytes"); ("mode", "PalletForeignAssetsForeignCollectionMode")]);
  ("forceResetForeignAssetLocation", [("existingVersionedAssetId", "XcmVersionedAssetId"); ("newVersionedAssetId", "XcmVersionedAssetId")])]%string.

Definition identity : list (string * list (string * string)) := [
  ("addRegistrar", [("account", "MultiAddress")]); ("addSub", [("sub", "MultiAddress"); ("data", "Data")]);
  ("cancelRequest", [("regIndex", "u32")]); ("clearIdentity", []);
  ("forceInsertIdentities", [("identities", "Vec<ITuple<[AccountId32, PalletIdentityRegistration]>>")]);
  ("forceRemoveIdentities", [("identities", "Vec<AccountId32>")]);
  ("forceSetSubs", [("subs", "Vec<ITuple<[AccountId32, ITuple<[u128, Vec<ITuple<[AccountId32, Data]>>]>]>>")]);
  ("killIdentity", [("target", "MultiAddress")]);
  ("provideJudgement", [("regIndex", "Compact<u32>"); ("target", "MultiAddress"); ("judgement", "PalletIdentityJudgement"); ("identity", "H256")]);
  ("quitSub", []); ("removeSub", [("sub", "MultiAddress")]);
  ("renameSub", [("sub", "MultiAddress"); ("data", "Data")]);
  ("requestJudgement", [("regIndex", "Compact<u32>"); ("maxFee", "Compact<u128>")]);
  ("setAccountId", [("index", "Compact<u32>"); ("updated", "MultiAddress")]);
  ("setFee", [("index", "Compact<u32>"); ("fee", "Compact<u128>")]);
  ("setFields", [("index", "Compact<u32>"); ("fields", "PalletIdentityBitFlags")]);
  ("setIdentity", [("info", "PalletIdentityIdentityInfo")]);
  ("setSubs", [("subs", "Vec<ITuple<[AccountId32, Data]>>")])]%string.

Definition inflation : list (string * list (string * string)) := [
  ("startInflation", [("inflationStartRelayBlock", "u32")])]%string.

Definition maintenance : list (string * list (string * string)) := [
  ("disable", []); ("enable", [])]%string.

Definition messageQueue : list (string * list (string * string)) := [
  ("executeOverweight", [("messageOrigin", "CumulusPrimitivesCoreAggregateMessageOrigin"); ("page", "u32"); ("index", "u32"); ("weightLimit", "SpWeightsWeightV2Weight")]);
  ("reapPage", [("messageOrigin", "CumulusPrimitivesCoreAggregateMessageOrigin"); ("pageIndex", "u32")])]%string.

Definition parachainSystem : list (string * list (string * string)) := [
  ("setValidationData", [("data", "CumulusPrimitivesParachainInherentParachainInherentData")]);
  ("sudoSendUpwardMessage", [("message", "Bytes")])]%string.

Definition polkadotXcm : list (string * list (string * string)) := [
  ("addAuthorizedAlias", [("aliaser", "XcmVersionedLocation"); ("expires", "Option<u64>")]);
  ("claimAssets", [("assets", "XcmVersionedAssets"); ("beneficiary", "XcmVersionedLocation")]);
  ("execute", [("message", "XcmVersionedXcm"); ("maxWeight", "SpWeightsWeightV2Weight")]);
  ("forceDefaultXcmVersion", [("maybeXcmVersion", "Option<u32>")]);
  ("forceSubscribeVersionNotify", [("location", "XcmVersionedLocation")]);
  ("forceSuspension", [("suspended", "bool")]);
  ("forceUnsubscribeVersionNotify", [("location", "XcmVersionedLocation")]);
  ("forceXcmVersion", [("location", "StagingXcmV5Location"); ("version", "u32")]);
  ("limitedReserveTransferAssets", [("dest", "XcmVersionedLocation"); ("beneficiary", "XcmVersionedLocation"); ("assets", "XcmVersionedAssets"); ("feeAssetItem", "u32"); ("weightLimit", "XcmV3WeightLimit")]);
  ("limitedTeleportAssets", [("dest", "XcmVersionedLocation"); ("beneficiary", "XcmVersionedLocation"); ("assets", "XcmVersionedAssets"); ("feeAssetItem", "u32"); ("weightLimit", "XcmV3WeightLimit")]);
  ("removeAllAuthorizedAliases", []); ("removeAuthorizedAlias", [("aliaser", "XcmVersionedLocation")]);
  ("reserveTransferAssets", [("dest", "XcmVersionedLocation"); ("beneficiary", "XcmVersionedLocation"); ("assets", "XcmVersionedAssets"); ("feeAssetItem", "u32")]);
  ("send", [("dest", "XcmVersionedLocation"); ("message", "XcmVersionedXcm")]);
  ("teleportAssets", [("dest", "XcmVersionedLocation"); ("beneficiary", "XcmVersionedLocation"); ("assets", "XcmVersionedAssets"); ("feeAssetItem", "u32")]);
  ("transferAssets", [("dest", "XcmVersionedLocation"); ("beneficiary", "XcmVersionedLocation"); ("assets", "XcmVersionedAssets"); ("feeAssetItem", "u32"); ("weightLimit", "XcmV3WeightLimit")]);
  ("transferAssetsUsingTypeAndThen", [("dest", "XcmVersionedLocation"); ("assets", "XcmVersionedAssets"); ("assetsTransferType", "StagingXcmExecutorAssetTransferTransferType"); ("remoteFeesId", "XcmVersionedAssetId"); ("feesTransferType", "StagingXcmExecutorAssetTransferTransferType"); ("customXcmOnDest", "XcmVersionedXcm"); ("weightLimit", "XcmV3WeightLimit")])]%string.

Definition preimage : list (string * list (string * string)) := [
  ("ensureUpdated", [("hashes", "Vec<H256>")]); ("notePreimage", [("bytes", "Bytes")]);
  ("requestPreimage", [("hash", "H256")]); ("unnotePreimage", [("hash", "H256")]);
  ("unrequestPreimage", [("hash", "H256")])]%string.

Definition scheduler : list (string * list (string * string)) := [
  ("cancel", [("when", "u32"); ("index", "u32")]); ("cancelNamed", [("id", "U8aFixed")]);
  ("cancelRetry", [("task", "ITuple<[u32, u32]>")]); ("cancelRetryNamed", [("id", "U8aFixed")]);
  ("schedule", [("when", "u32"); ("maybePeriodic", "Option<ITuple<[u32, u32]>>"); ("priority", "u8"); ("call", "Call")]);
  ("scheduleAfter", [("after", "u32"); ("maybePeriodic", "Option<ITuple<[u32, u32]>>"); ("priority", "u8"); ("call", "Call")]);
  ("scheduleNamed", [("id", "U8aFixed"); ("when", "u32"); ("maybePeriodic", "Option<ITuple<[u32, u32]>>"); ("priority", "u8"); ("call", "Call")]);
  ("scheduleNamedAfter", [("id", "U8aFixed"); ("after", "u32"); ("maybePeriodic", "Option<ITuple<[u32, u32]>>"); ("priority", "u8"); ("call", "Call")]);
  ("setRetry", [("task", "ITuple<[u32, u32]>"); ("retries", "u8"); ("period", "u32")]);
  ("setRetryNamed", [("id", "U8aFixed"); ("retries", "u8"); ("period", "u32")])]%string.

Definition session : list (string * list (string * string)) := [
  ("purgeKeys", []); ("setKeys", [("keys", "OpalRuntimeRuntimeCommonSessionKeys"); ("proof", "Bytes")])]%string.

Definition stateTrieMigration : list (string * list (string * string)) := [
  ("continueMigrate", [("limits", "PalletStateTrieMigrationMigrationLimits"); ("realSizeUpper", "u32"); ("witnessTask", "PalletStateTrieMigrationMigrationTask")]);
  ("controlAutoMigration", [("maybeConfig", "Option<PalletStateTrieMigrationMigrationLimits>")]);
  ("forceSetProgress", [("progressTop", "PalletStateTrieMigrationProgress"); ("progressChild", "PalletStateTrieMigrationProgress")]);
  ("migrateCustomChild", [("root", "Bytes"); ("childKeys", "Vec<Bytes>"); ("totalSize", "u32")]);
  ("migrateCustomTop", [("keys", "Vec<Bytes>"); ("witnessSize", "u32")]);
  ("setSignedMaxLimits", [("limits", "PalletStateTrieMigrationMigrationLimits")])]%string.

Definition sudo : list (string * list (string * string)) := [
  ("removeKey", []); ("setKey", [("updated", "MultiAddress")]); ("sudo", [("call", "Call")]);
  ("sudoAs", [("who", "MultiAddress"); ("call", "Call")]);
  ("sudoUncheckedWeight", [("call", "Call"); ("weight", "SpWeightsWeightV2Weight")])]%string.

Definition system : list (string * list (string * string)) := [
  ("applyAuthorizedUpgrade", [("code", "Bytes")]); ("authorizeUpgrade", [("codeHash", "H256")]);
  ("authorizeUpgradeWithoutChecks", [("codeHash", "H256")]);
  ("killPrefix", [("prefix", "Bytes"); ("subkeys", "u32")]); ("killStorage", [("keys", "Vec<Bytes>")]);
  ("remark", [("remark", "Bytes")]); ("remarkWithEvent", [("remark", "Bytes")]);
  ("setCode", [("code", "Bytes")]); ("setCodeWithoutChecks", [("code", "Bytes")]);
  ("setHeapPages", [("pages", "u64")]); ("setStorage", [("items", "Vec<ITuple<[Bytes, Bytes]>>")])]%string.

Definition technicalCommittee : list (string * list (string * string)) := [
  ("close", [("proposalHash", "H256"); ("index", "Compact<u32>"); ("proposalWeightBound", "SpWeightsWeightV2Weight"); ("lengthBound", "Compact<u32>")]);
  ("disapproveProposal", [("proposalHash", "H256")]);
  ("execute", [("proposal", "Call"); ("lengthBound", "Compact<u32>")]); ("kill", [("proposalHash", "H256")]);
  ("propose", [("threshold", "Compact<u32>"); ("proposal", "Call"); ("lengthBound", "Compact<u32>")]);
  ("releaseProposalCost", [("proposalHash", "H256")]);
  ("setMembers", [("newMembers", "Vec<AccountId32>"); ("prime", "Option<AccountId32>"); ("oldCount", "u32")]);
  ("vote", [("proposal", "H256"); ("index", "Compact<u32>"); ("approve", "bool")])]%string.

Definition technicalCommitteeMembership : list (string * list (string * string)) := [
  ("addMember", [("who", "MultiAddress")]); ("changeKey", [("updated", "MultiAddress")]); ("clearPrime", []);
  ("removeMember", [("who", "MultiAddress")]); ("resetMembers", [("members", "Vec<AccountId32>")]);
  ("setPrime", [("who", "MultiAddress")]); ("swapMember", [("remove", "MultiAddress"); ("add", "MultiAddress")])]%string.

Definition testUtils : list (string * list (string * string)) := [
  ("batchAll", [("calls", "Vec<Call>")]); ("enable", []); ("incTestValue", []); ("justTakeFee", []);
  ("setTestValue", [("value", "u32")]); ("setTestValueAndRollback", [("value", "u32")])]%string.

Definition timestamp : list (string * list (string * string)) := [
  ("set", [("now", "Compact<u64>")])]%string.

Definition treasury : list (string * list (string * string)) := [
  ("checkStatus", [("index", "u32")]); ("payout", [("index", "u32")]);
  ("removeApproval", [("proposalId", "Compact<u32>")]);
  ("spend", [("assetKind", "Null"); ("amount", "Compact<u128>"); ("beneficiary", "AccountId32"); ("validFrom", "Option<u32>")]);
  ("spendLocal", [("amount", "Compact<u128>"); ("beneficiary", "MultiAddress")]);
  ("voidSpend", [("index", "u32")])]%string.

Definition unique : list (string * list (string * string)) := [
  ("addCollectionAdmin", [("collectionId", "u32"); ("newAdminId", "PalletEvmAccountBasicCrossAccountIdRepr")]);
  ("addToAllowList", [("collectionId", "u32"); ("address", "PalletEvmAccountBasicCrossAccountIdRepr")]);
  ("approve", [("spender", "PalletEvmAccountBasicCrossAccountIdRepr"); ("collectionId", "u32"); ("itemId", "u32"); ("amount", "u128")]);
  ("approveFrom", [("from", "PalletEvmAccountBasicCrossAccountIdRepr"); ("to", "PalletEvmAccountBasicCrossAccountIdRepr"); ("collectionId", "u32"); ("itemId", "u32"); ("amount", "u128")]);
  ("burnFrom", [("collectionId", "u32"); ("from", "PalletEvmAccountBasicCrossAccountIdRepr"); ("itemId", "u32"); ("value", "u128")]);
  ("burnItem", [("collectionId", "u32"); ("itemId", "u32"); ("value", "u128")]);
  ("changeCollectionOwner", [("collectionId", "u32"); ("newOwner", "AccountId32")]);
  ("confirmSponsorship", [("collectionId", "u32")]);
  ("createCollection", [("collectionName", "Vec<u16>"); ("collectionDescription", "Vec<u16>"); ("tokenPrefix", "Bytes"); ("mode", "UpDataStructsCollectionMode")]);
  ("createCollectionEx", [("data", "UpDataStructsCreateCollectionData")]);
  ("createItem", [("collectionId", "u32"); ("owner", "PalletEvmAccountBasicCrossAccountIdRepr"); ("data", "UpDataStructsCreateItemData")]);
  ("createMultipleItems", [("collectionId", "u32"); ("owner", "PalletEvmAccountBasicCrossAccountIdRepr"); ("itemsData", "Vec<UpDataStructsCreateItemData>")]);
  ("createMultipleItemsEx", [("collectionId", "u32"); ("data", "UpDataStructsCreateItemExData")]);
  ("deleteCollectionProperties", [("collectionId", "u32"); ("propertyKeys", "Vec<Bytes>")]);
  ("deleteTokenProperties", [("collectionId", "u32"); ("tokenId", "u32"); ("propertyKeys", "Vec<Bytes>")]);
  ("destroyCollection", [("collectionId", "u32")]); ("forceRepairCollection", [("collectionId", "u32")]);
  ("forceRepairItem", [("collectionId", "u32"); ("itemId", "u32")]);
  ("removeCollectionAdmin", [("collectionId", "u32"); ("accountId", "PalletEvmAccountBasicCrossAccountIdRepr")]);
  ("removeCollectionSponsor", [("collectionId", "u32")]);
  ("removeFromAllowList", [("collectionId", "u32"); ("address", "PalletEvmAccountBasicCrossAccountIdRepr")]);
  ("repartition", [("collectionId", "u32"); ("tokenId", "u32"); ("amount", "u128")]);
  ("setAllowanceForAll", [("collectionId", "u32"); ("operator", "PalletEvmAccountBasicCrossAccountIdRepr"); ("approve", "bool")]);
  ("setCollectionLimits", [("collectionId", "u32"); ("newLimit", "UpDataStructsCollectionLimits")]);
  ("setCollectionPermissions", [("collectionId", "u32"); ("newPermission", "UpDataStructsCollectionPermissions")]);
  ("setCollectionProperties", [("collectionId", "u32"); ("properties", "Vec<UpDataStructsProperty>")]);
  ("setCollectionSponsor", [("collectionId", "u32"); ("newSponsor", "AccountId32")]);
  ("setTokenProperties", [("collectionId", "u32"); ("tokenId", "u32"); ("properties", "Vec<UpDataStructsProperty>")]);
  ("setTokenPropertyPermissions", [("collectionId", "u32"); ("propertyPermissions", "Vec<UpDataStructsPropertyKeyPermission>")]);
  ("setTransfersEnabledFlag", [("collectionId", "u32"); ("value", "bool")]);
  ("transfer", [("recipient", "PalletEvmAccountBasicCrossAccountIdRepr"); ("collectionId", "u32"); ("itemId", "u32"); ("value", "u128")]);
  ("transferFrom", [("from", "PalletEvmAccountBasicCrossAccountIdRepr"); ("recipient", "PalletEvmAccountBasicCrossAccountIdRepr"); ("collectionId", "u32"); ("itemId", "u32"); ("value", "u128")])]%string.

Definition utility : list (string * list (string * string)) := [
  ("asDerivative", [("index", "u16"); ("call", "Call")]); ("batch", [("calls", "Vec<Call>")]);
  ("batchAll", [("calls", "Vec<Call>")]);
  ("dispatchAs", [("asOrigin", "OpalRuntimeOriginCaller"); ("call", "Call")]);
  ("dispatchAsFallible", [("asOrigin", "OpalRuntimeOriginCaller"); ("call", "Call")]);
  ("forceBatch", [("calls", "Vec<Call>")]); ("ifElse", [("main", "Call"); ("fallback", "Call")]);
  ("withWeight", [("call", "Call"); ("weight", "SpWeightsWeightV2Weight")])]%string.

Definition vesting : list (string * list (string * string)) := [
  ("claim", []); ("claimFor", [("dest", "MultiAddress")]);
  ("updateVestingSchedules", [("who", "MultiAddress"); ("vestingSchedules", "Vec<OrmlVestingVestingSchedule>")]);
  ("vestedTransfer", [("dest", "MultiAddress"); ("schedule", "OrmlVestingVestingSchedule")])]%string.

Definition xcmpQueue : list (string * list (string * string)) := [
  ("resumeXcmExecution", []); ("suspendXcmExecution", []); ("updateDropThreshold", [("updated", "u32")]);
  ("updateResumeThreshold", [("updated", "u32")]); ("updateSuspendThreshold", [("updated", "u32")])]%string.

Definition xTokens : list (string * list (string * string)) := [
  ("transfer", [("currencyId", "u32"); ("amount", "u128"); ("dest", "XcmVersionedLocation"); ("destWeightLimit", "XcmV3WeightLimit")]);
  ("transferMultiasset", [("asset", "XcmVersionedAsset"); ("dest", "XcmVersionedLocation"); ("destWeightLimit", "XcmV3WeightLimit")]);
  ("transferMultiassets", [("assets", "XcmVersionedAssets"); ("feeItem", "u32"); ("dest", "XcmVersionedLocation"); ("destWeightLimit", "XcmV3WeightLimit")]);
  ("transferMultiassetWithFee", [("asset", "XcmVersionedAsset"); ("fee", "XcmVersionedAsset"); ("dest", "XcmVersionedLocation"); ("destWeightLimit", "XcmV3WeightLimit")]);
  ("transferMulticurrencies", [("currencies", "Vec<ITuple<[u32, u128]>>"); ("feeItem", "u32"); ("dest", "XcmVersionedLocation"); ("destWeightLimit", "XcmV3WeightLimit")]);
  ("transferWithFee", [("currencyId", "u32"); ("amount", "u128"); ("fee", "u128"); ("dest", "XcmVersionedLocation"); ("destWeightLimit", "XcmV3WeightLimit")])]%string.

End Tx.

(** [AugmentedSubmittables] *)
Definition extrinsics : list (string * list (string * list (string * string))) := [
  ("appPromotion", Tx.appPromotion); ("balances", Tx.balances); ("collatorSelection", Tx.collatorSelection);
  ("configuration", Tx.configuration); ("council", Tx.council); ("councilMembership", Tx.councilMembership);
  ("democracy", Tx.democracy); ("ethereum", Tx.ethereum); ("evm", Tx.evm);
  ("evmContractHelpers", Tx.evmContractHelpers); ("evmMigration", Tx.evmMigration);
  ("fellowshipCollective", Tx.fellowshipCollective); ("fellowshipReferenda", Tx.fellowshipReferenda);
  ("financialCouncil", Tx.financialCouncil); ("financialCouncilMembership", Tx.financialCouncilMembership);
  ("foreignAssets", Tx.foreignAssets); ("identity", Tx.identity); ("inflation", Tx.inflation);
  ("maintenance", Tx.maintenance); ("messageQueue", Tx.messageQueue); ("parachainSystem", Tx.parachainSystem);
  ("polkadotXcm", Tx.polkadotXcm); ("preimage", Tx.preimage); ("scheduler", Tx.scheduler);
  ("session", Tx.session); ("stateTrieMigration", Tx.stateTrieMigration); ("sudo", Tx.sudo);
  ("system", Tx.system); ("technicalCommittee", Tx.technicalCommittee);
  ("technicalCommitteeMembership", Tx.technicalCommitteeMembership); ("testUtils", Tx.testUtils);
  ("timestamp", Tx.timestamp); ("treasury", Tx.treasury); ("unique", Tx.unique); ("utility", Tx.utility);
  ("vesting", Tx.vesting); ("xcmpQueue", Tx.xcmpQueue); ("xTokens", Tx.xTokens)]%string.
