(* ===== verification/QueryDefs.v ===== *)
(** * The storage of the chain

    The storage items that types/augment-api-query.ts declares, by pallet: the
    name of each, the types of its keys and the type of its value. *)

From Stdlib Require Import String.
From stdpp Require Import list.

#[local] Open Scope string_scope.

Module Query.

Definition appPromotion : list (string * (list string * string)) := [
  ("admin", ([], "Option<AccountId32>")); ("pendingUnstake", (["u32"], "Vec<ITuple<[AccountId32, u128]>>"));
  ("previousCalculatedRecord", ([], "Option<ITuple<[AccountId32, u32]>>"));
  ("staked", (["AccountId32"; "u32"], "ITuple<[u128, u32]>")); ("stakesPerAccount", (["AccountId32"], "u8"));
  ("totalStaked", ([], "u128"))]%string.

Definition aura : list (string * (list string * string)) := [
  ("authorities", ([], "Vec<SpConsensusAuraSr25519AppSr25519Public>")); ("currentSlot", ([], "u64"))]%string.

Definition auraExt : list (string * (list string * string)) := [
  ("authorities", ([], "Vec<SpConsensusAuraSr25519AppSr25519Public>"));
  ("relaySlotInfo", ([], "Option<ITuple<[u64, u32]>>"))]%string.

Definition authorship : list (string * (list string * string)) := [
  ("author", ([], "Option<AccountId32>"))]%string.

Definition balances : list (string * (list string * string)) := [
  ("account", (["AccountId32"], "PalletBalancesAccountData"));
  ("freezes", (["AccountId32"], "Vec<FrameSupportTokensMiscIdAmount>"));
  ("holds", (["AccountId32"], "Vec<{ readonly id: OpalRuntimeRuntimeHoldReason; readonly amount: u128; } & Struct>"));
  ("inactiveIssuance", ([], "u128")); ("locks", (["AccountId32"], "Vec<PalletBalancesBalanceLock>"));
  ("reserves", (["AccountId32"], "Vec<PalletBalancesReserveData>")); ("totalIssuance", ([], "u128"))]%string.

Definition collatorSelection : list (string * (list string * string)) := [
  ("candidates", ([], "Vec<AccountId32>")); ("invulnerables", ([], "Vec<AccountId32>"));
  ("lastAuthoredBlock", (["AccountId32"], "u32")); ("licenseDepositOf", (["AccountId32"], "u128"))]%string.

Definition common : list (string * (list string * string)) := [
  ("adminAmount", (["u32"], "u32"));
  ("allowlist", (["u32"; "PalletEvmAccountBasicCrossAccountIdRepr"], "bool"));
  ("collectionById", (["u32"], "Option<UpDataStructsCollection>"));
  ("collectionProperties", (["u32"], "UpDataStructsProperties"));
  ("collectionPropertyPermissions", (["u32"], "UpDataStructsPropertiesMapPropertyPermission"));
  ("createdCollectionCount", ([], "u32")); ("destroyedCollectionCount", ([], "u32"));
  ("dummyStorageValue", ([], "Option<ITuple<[UpDataStructsCollectionStats, u32, u32, UpDataStructsTokenChild, PhantomTypeUpDataStructs]>>"));
  ("isAdmin", (["u32"; "PalletEvmAccountBasicCrossAccountIdRepr"], "bool"))]%string.

Definition configuration : list (string * (list string * string)) := [
  ("appPromomotionConfigurationOverride", ([], "PalletConfigurationAppPromotionConfiguration"));
  ("collatorSelectionDesiredCollatorsOverride", ([], "u32"));
  ("collatorSelectionKickThresholdOverride", ([], "u32"));
  ("collatorSelectionLicenseBondOverride", ([], "u128")); ("minGasPriceOverride", ([], "u64"));
  ("weightToFeeCoefficientOverride", ([], "u64"))]%string.

Definition council : list (string * (list string * string)) := [
  ("costOf", (["H256"], "Option<ITuple<[AccountId32, u128]>>")); ("members", ([], "Vec<AccountId32>"));
  ("prime", ([], "Option<AccountId32>")); ("proposalCount", ([], "u32"));
  ("proposalOf", (["H256"], "Option<Call>")); ("proposals", ([], "Vec<H256>"));
  ("voting", (["H256"], "Option<PalletCollectiveVotes>"))]%string.

Definition councilMembership : list (string * (list string * string)) := [
  ("members", ([], "Vec<AccountId32>")); ("prime", ([], "Option<AccountId32>"))]%string.

Definition democracy : list (string * (list string * string)) := [
  ("blacklist", (["H256"], "Option<ITuple<[u32, Vec<AccountId32>]>>")); ("cancellations", (["H256"], "bool"));
  ("depositOf", (["u32"], "Option<ITuple<[Vec<AccountId32>, u128]>>")); ("lastTabledWasExternal", ([], "bool"));
  ("lowestUnbaked", ([], "u32")); ("metadataOf", (["PalletDemocracyMetadataOwner"], "Option<H256>"));
  ("nextExternal", ([], "Option<ITuple<[FrameSupportPreimagesBounded, PalletDemocracyVoteThreshold]>>"));
  ("publicPropCount", ([], "u32"));
  ("publicProps", ([], "Vec<ITuple<[u32, FrameSupportPreimagesBounded, AccountId32]>>"));
  ("referendumCount", ([], "u32")); ("referendumInfoOf", (["u32"], "Option<PalletDemocracyReferendumInfo>"));
  ("votingOf", (["AccountId32"], "PalletDemocracyVoteVoting"))]%string.

Definition dmpQueue : list (string * (list string * string)) := [
  ("migrationStatus", ([], "CumulusPalletDmpQueueMigrationState"))]%string.

Definition ethereum : list (string * (list string * string)) := [
  ("blockHash", (["U256"], "H256")); ("counterForPending", ([], "u32"));
  ("currentBlock", ([], "Option<EthereumBlock>"));
  ("currentReceipts", ([], "Option<Vec<EthereumReceiptReceiptV3>>"));
  ("currentTransactionStatuses", ([], "Option<Vec<FpRpcTransactionStatus>>")); ("injectedNonce", ([], "U256"));
  ("pending", (["u32"], "Option<ITuple<[EthereumTransactionTransactionV2, FpRpcTransactionStatus, EthereumReceiptReceiptV3]>>"))]%string.

Definition evm : list (string * (list string * string)) := [
  ("accountCodes", (["H160"], "Bytes")); ("accountCodesMetadata", (["H160"], "Option<PalletEvmCodeMetadata>"));
  ("accountStorages", (["H160"; "H256"], "H256")); ("currentLogs", ([], "Vec<EthereumLog>"))]%string.

Definition evmContractHelpers : list (string * (list string * string)) := [
  ("allowlist", (["H160"; "H160"], "bool")); ("allowlistEnabled", (["H160"], "bool"));
  ("owner", (["H160"], "H160")); ("selfSponsoring", (["H160"], "bool"));
  ("sponsorBasket", (["H160"; "H160"], "Option<u32>"));
  ("sponsoring", (["H160"], "UpDataStructsSponsorshipStateBasicCrossAccountIdRepr"));
  ("sponsoringFeeLimit", (["H160"], "BTreeMap<u32, U256>"));
  ("sponsoringMode", (["H160"], "Option<PalletEvmContractHelpersSponsoringModeT>"));
  ("sponsoringRateLimit", (["H160"], "u32"))]%string.

Definition evmMigration : list (string * (list string * string)) := [
  ("migrationPending", (["H160"], "bool"))]%string.

Definition fellowshipCollective : list (string * (list string * string)) := [
  ("idToIndex", (["u16"; "AccountId32"], "Option<u32>"));
  ("indexToId", (["u16"; "u32"], "Option<AccountId32>")); ("memberCount", (["u16"], "u32"));
  ("members", (["AccountId32"], "Option<PalletRankedCollectiveMemberRecord>"));
  ("voting", (["u32"; "AccountId32"], "Option<PalletRankedCollectiveVoteRecord>"));
  ("votingCleanup", (["u32"], "Option<Bytes>"))]%string.

Definition fellowshipReferenda : list (string * (list string * string)) := [
  ("decidingCount", (["u16"], "u32")); ("metadataOf", (["u32"], "Option<H256>"));
  ("referendumCount", ([], "u32")); ("referendumInfoFor", (["u32"], "Option<PalletReferendaReferendumInfo>"));
  ("trackQueue", (["u16"], "Vec<ITuple<[u32, u32]>>"))]%string.

Definition financialCouncil : list (string * (list string * string)) := [
  ("costOf", (["H256"], "Option<ITuple<[AccountId32, u128]>>")); ("members", ([], "Vec<AccountId32>"));
  ("prime", ([], "Option<AccountId32>")); ("proposalCount", ([], "u32"));
  ("proposalOf", (["H256"], "Option<Call>")); ("proposals", ([], "Vec<H256>"));
  ("voting", (["H256"], "Option<PalletCollectiveVotes>"))]%string.

Definition financialCouncilMembership : list (string * (list string * string)) := [
  ("members", ([], "Vec<AccountId32>")); ("prime", ([], "Option<AccountId32>"))]%string.

Definition foreignAssets : list (string * (list string * string)) := [
  ("collectionToForeignAsset", (["u32"], "Option<StagingXcmV5AssetAssetId>"));
  ("foreignAssetToCollection", (["StagingXcmV5AssetAssetId"], "Option<u32>"));
  ("foreignReserveAssetInstanceToTokenId", (["u32"; "StagingXcmV5AssetAssetInstance"], "Option<u32>"));
  ("tokenIdToForeignReserveAssetInstance", (["u32"; "u32"], "Option<StagingXcmV5AssetAssetInstance>"))]%string.

Definition fungible : list (string * (list string * string)) := [
  ("allowance", (["u32"; "PalletEvmAccountBasicCrossAccountIdRepr"; "PalletEvmAccountBasicCrossAccountIdRepr"], "u128"));
  ("balance", (["u32"; "PalletEvmAccountBasicCrossAccountIdRepr"], "u128")); ("totalSupply", (["u32"], "u128"))]%string.

Definition identity : list (string * (list string * string)) := [
  ("identityOf", (["AccountId32"], "Option<PalletIdentityRegistration>"));
  ("registrars", ([], "Vec<Option<PalletIdentityRegistrarInfo>>"));
  ("subsOf", (["AccountId32"], "ITuple<[u128, Vec<AccountId32>]>"));
  ("superOf", (["AccountId32"], "Option<ITuple<[AccountId32, Data]>>"))]%string.

Definition inflation : list (string * (list string * string)) := [
  ("blockInflation", ([], "u128")); ("nextInflationBlock", ([], "u32"));
  ("nextRecalculationBlock", ([], "u32")); ("startBlock", ([], "u32"));
  ("startingYearTotalIssuance", ([], "u128"))]%string.

Definition maintenance : list (string * (list string * string)) := [
  ("enabled", ([], "bool"))]%string.

Definition messageQueue : list (string * (list string * string)) := [
  ("bookStateFor", (["CumulusPrimitivesCoreAggregateMessageOrigin"], "PalletMessageQueueBookState"));
  ("pages", (["CumulusPrimitivesCoreAggregateMessageOrigin"; "u32"], "Option<PalletMessageQueuePage>"));
  ("serviceHead", ([], "Option<CumulusPrimitivesCoreAggregateMessageOrigin>"))]%string.

Definition nonfungible : list (string * (list string * string)) := [
  ("accountBalance", (["u32"; "PalletEvmAccountBasicCrossAccountIdRepr"], "u32"));
  ("allowance", (["u32"; "u32"], "Option<PalletEvmAccountBasicCrossAccountIdRepr>"));
  ("collectionAllowance", (["u32"; "PalletEvmAccountBasicCrossAccountIdRepr"; "PalletEvmAccountBasicCrossAccountIdRepr"], "bool"));
  ("owned", (["u32"; "PalletEvmAccountBasicCrossAccountIdRepr"; "u32"], "bool"));
  ("tokenAuxProperties", (["u32"; "u32"; "UpDataStructsPropertyScope"; "Bytes"], "Option<Bytes>"));
  ("tokenChildren", (["u32"; "u32"; "ITuple<[u32, u32]>"], "bool"));
  ("tokenData", (["u32"; "u32"], "Option<PalletNonfungibleItemData>"));
  ("tokenProperties", (["u32"; "u32"], "Option<UpDataStructsProperties>")); ("tokensBurnt", (["u32"], "u32"));
  ("tokensMinted", (["u32"], "u32"))]%string.

Definition parachainInfo : list (string * (list string * string)) := [
  ("parachainId", ([], "u32"))]%string.

Definition parachainSystem : list (string * (list string * string)) := [
  ("aggregatedUnincludedSegment", ([], "Option<CumulusPalletParachainSystemUnincludedSegmentSegmentTracker>"));
  ("announcedHrmpMessagesPerCandidate", ([], "u32")); ("customValidationHeadData", ([], "Option<Bytes>"));
  ("didSetValidationCode", ([], "bool"));
  ("hostConfiguration", ([], "Option<PolkadotPrimitivesV8AbridgedHostConfiguration>"));
  ("hrmpOutboundMessages", ([], "Vec<PolkadotCorePrimitivesOutboundHrmpMessage>"));
  ("hrmpWatermark", ([], "u32")); ("lastDmqMqcHead", ([], "H256"));
  ("lastHrmpMqcHeads", ([], "BTreeMap<u32, H256>")); ("lastRelayChainBlockNumber", ([], "u32"));
  ("newValidationCode", ([], "Option<Bytes>")); ("pendingUpwardMessages", ([], "Vec<Bytes>"));
  ("pendingValidationCode", ([], "Bytes")); ("processedDownwardMessages", ([], "u32"));
  ("relayStateProof", ([], "Option<SpTrieStorageProof>"));
  ("relevantMessagingState", ([], "Option<CumulusPalletParachainSystemRelayStateSnapshotMessagingStateSnapshot>"));
  ("reservedDmpWeightOverride", ([], "Option<SpWeightsWeightV2Weight>"));
  ("reservedXcmpWeightOverride", ([], "Option<SpWeightsWeightV2Weight>"));
  ("unincludedSegment", ([], "Vec<CumulusPalletParachainSystemUnincludedSegmentAncestor>"));
  ("upgradeGoAhead", ([], "Option<PolkadotPrimitivesV8UpgradeGoAhead>"));
  ("upgradeRestrictionSignal", ([], "Option<PolkadotPrimitivesV8UpgradeRestriction>"));
  ("upwardDeliveryFeeFactor", ([], "u128")); ("upwardMessages", ([], "Vec<Bytes>"));
  ("validationData", ([], "Option<PolkadotPrimitivesV8PersistedValidationData>"))]%string.

Definition polkadotXcm : list (string * (list string * string)) := [
  ("assetTraps", (["H256"], "u32"));
  ("authorizedAliases", (["XcmVersionedLocation"], "Option<PalletXcmAuthorizedAliasesEntry>"));
  ("currentMigration", ([], "Option<PalletXcmVersionMigrationStage>"));
  ("lockedFungibles", (["AccountId32"], "Option<Vec<ITuple<[u128, XcmVersionedLocation]>>>"));
  ("queries", (["u64"], "Option<PalletXcmQueryStatus>")); ("queryCounter", ([], "u64"));
  ("recordedXcm", ([], "Option<Vec<StagingXcmV5Instruction>>"));
  ("remoteLockedFungibles", (["u32"; "AccountId32"; "XcmVersionedAssetId"], "Option<PalletXcmRemoteLockedFungibleRecord>"));
  ("safeXcmVersion", ([], "Option<u32>")); ("shouldRecordXcm", ([], "bool"));
  ("supportedVersion", (["u32"; "XcmVersionedLocation"], "Option<u32>"));
  ("versionDiscoveryQueue", ([], "Vec<ITuple<[XcmVersionedLocation, u32]>>"));
  ("versionNotifiers", (["u32"; "XcmVersionedLocation"], "Option<u64>"));
  ("versionNotifyTargets", (["u32"; "XcmVersionedLocation"], "Option<ITuple<[u64, SpWeightsWeightV2Weight, u32]>>"));
  ("xcmExecutionSuspended", ([], "bool"))]%string.

Definition preimage : list (string * (list string * string)) := [
  ("preimageFor", (["ITuple<[H256, u32]>"], "Option<Bytes>"));
  ("requestStatusFor", (["H256"], "Option<PalletPreimageRequestStatus>"));
  ("statusFor", (["H256"], "Option<PalletPreimageOldRequestStatus>"))]%string.

Definition refungible : list (string * (list string * string)) := [
  ("accountBalance", (["u32"; "PalletEvmAccountBasicCrossAccountIdRepr"], "u32"));
  ("allowance", (["u32"; "u32"; "PalletEvmAccountBasicCrossAccountIdRepr"; "PalletEvmAccountBasicCrossAccountIdRepr"], "u128"));
  ("balance", (["u32"; "u32"; "PalletEvmAccountBasicCrossAccountIdRepr"], "u128"));
  ("collectionAllowance", (["u32"; "PalletEvmAccountBasicCrossAccountIdRepr"; "PalletEvmAccountBasicCrossAccountIdRepr"], "bool"));
  ("owned", (["u32"; "PalletEvmAccountBasicCrossAccountIdRepr"; "u32"], "bool"));
  ("tokenProperties", (["u32"; "u32"], "Option<UpDataStructsProperties>")); ("tokensBurnt", (["u32"], "u32"));
  ("tokensMinted", (["u32"], "u32")); ("totalSupply", (["u32"; "u32"], "u128"))]%string.

Definition scheduler : list (string * (list string * string)) := [
  ("agenda", (["u32"], "Vec<Option<PalletSchedulerScheduled>>")); ("incompleteSince", ([], "Option<u32>"));
  ("lookup", (["U8aFixed"], "Option<ITuple<[u32, u32]>>"));
  ("retries", (["ITuple<[u32, u32]>"], "Option<PalletSchedulerRetryConfig>"))]%string.

Definition session : list (string * (list string * string)) := [
  ("currentIndex", ([], "u32")); ("disabledValidators", ([], "Vec<ITuple<[u32, Perbill]>>"));
  ("keyOwner", (["ITuple<[SpCoreCryptoKeyTypeId, Bytes]>"], "Option<AccountId32>"));
  ("nextKeys", (["AccountId32"], "Option<OpalRuntimeRuntimeCommonSessionKeys>"));
  ("queuedChanged", ([], "bool"));
  ("queuedKeys", ([], "Vec<ITuple<[AccountId32, OpalRuntimeRuntimeCommonSessionKeys]>>"));
  ("validators", ([], "Vec<AccountId32>"))]%string.

Definition stateTrieMigration : list (string * (list string * string)) := [
  ("autoLimits", ([], "Option<PalletStateTrieMigrationMigrationLimits>"));
  ("migrationProcess", ([], "PalletStateTrieMigrationMigrationTask"));
  ("signedMigrationMaxLimits", ([], "Option<PalletStateTrieMigrationMigrationLimits>"))]%string.

Definition sudo : list (string * (list string * string)) := [
  ("key", ([], "Option<AccountId32>"))]%string.

Definition system : list (string * (list string * string)) := [
  ("account", (["AccountId32"], "FrameSystemAccountInfo")); ("allExtrinsicsLen", ([], "Option<u32>"));
  ("authorizedUpgrade", ([], "Option<FrameSystemCodeUpgradeAuthorization>")); ("blockHash", (["u32"], "H256"));
  ("blockWeight", ([], "FrameSupportDispatchPerDispatchClassWeight")); ("digest", ([], "SpRuntimeDigest"));
  ("eventCount", ([], "u32")); ("events", ([], "Vec<FrameSystemEventRecord>"));
  ("eventTopics", (["H256"], "Vec<ITuple<[u32, u32]>>")); ("executionPhase", ([], "Option<FrameSystemPhase>"));
  ("extrinsicCount", ([], "Option<u32>")); ("extrinsicData", (["u32"], "Bytes"));
  ("extrinsicWeightReclaimed", ([], "SpWeightsWeightV2Weight")); ("inherentsApplied", ([], "bool"));
  ("lastRuntimeUpgrade", ([], "Option<FrameSystemLastRuntimeUpgradeInfo>")); ("number", ([], "u32"));
  ("parentHash", ([], "H256")); ("upgradedToTripleRefCount", ([], "bool"));
  ("upgradedToU32RefCount", ([], "bool"))]%string.

Definition technicalCommittee : list (string * (list string * string)) := [
  ("costOf", (["H256"], "Option<ITuple<[AccountId32, u128]>>")); ("members", ([], "Vec<AccountId32>"));
  ("prime", ([], "Option<AccountId32>")); ("proposalCount", ([], "u32"));
  ("proposalOf", (["H256"], "Option<Call>")); ("proposals", ([], "Vec<H256>"));
  ("voting", (["H256"], "Option<PalletCollectiveVotes>"))]%string.

Definition technicalCommitteeMembership : list (string * (list string * string)) := [
  ("members", ([], "Vec<AccountId32>")); ("prime", ([], "Option<AccountId32>"))]%string.

Definition testUtils : list (string * (list string * string)) := [
  ("enabled", ([], "bool")); ("testValue", ([], "u32"))]%string.

Definition timestamp : list (string * (list string * string)) := [
  ("didUpdate", ([], "bool")); ("now", ([], "u64"))]%string.

Definition transactionPayment : list (string * (list string * string)) := [
  ("nextFeeMultiplier", ([], "u128")); ("storageVersion", ([], "PalletTransactionPaymentReleases"))]%string.

Definition treasury : list (string * (list string * string)) := [
  ("approvals", ([], "Vec<u32>")); ("deactivated", ([], "u128")); ("lastSpendPeriod", ([], "Option<u32>"));
  ("proposalCount", ([], "u32")); ("proposals", (["u32"], "Option<PalletTreasuryProposal>"));
  ("spendCount", ([], "u32")); ("spends", (["u32"], "Option<PalletTreasurySpendStatus>"))]%string.

Definition unique : list (string * (list string * string)) := [
  ("chainVersion", ([], "u64")); ("createItemBasket", (["ITuple<[u32, AccountId32]>"], "Option<u32>"));
  ("fungibleApproveBasket", (["u32"; "AccountId32"], "Option<u32>"));
  ("fungibleTransferBasket", (["u32"; "AccountId32"], "Option<u32>"));
  ("nftApproveBasket", (["u32"; "u32"], "Option<u32>")); ("nftTransferBasket", (["u32"; "u32"], "Option<u32>"));
  ("refungibleApproveBasket", (["u32"; "u32"; "AccountId32"], "Option<u32>"));
  ("reFungibleTransferBasket", (["u32"; "u32"; "AccountId32"], "Option<u32>"));
  ("tokenPropertyBasket", (["u32"; "u32"], "Option<u32>"))]%string.

Definition vesting : list (string * (list string * string)) := [
  ("vestingSchedules", (["AccountId32"], "Vec<OrmlVestingVestingSchedule>"))]%string.

Definition xcmpQueue : list (string * (list string * string)) := [
  ("deliveryFeeFactor", (["u32"], "u128")); ("inboundXcmpSuspended", ([], "BTreeSet<u32>"));
  ("outboundXcmpMessages", (["u32"; "u16"], "Bytes"));
  ("outboundXcmpStatus", ([], "Vec<CumulusPalletXcmpQueueOutboundChannelDetails>"));
  ("queueConfig", ([], "CumulusPalletXcmpQueueQueueConfigData")); ("queueSuspended", ([], "bool"));
  ("signalMessages", (["u32"], "Bytes"))]%string.

End Query.

(** [AugmentedQueries] *)
Definition storage : list (string * list (string * (list string * string))) := [
  ("appPromotion", Query.appPromotion); ("aura", Query.aura); ("auraExt", Query.auraExt);
  ("authorship", Query.authorship); ("balances", Query.balances);
  ("collatorSelection", Query.collatorSelection); ("common", Query.common);
  ("configuration", Query.configuration); ("council", Query.council);
  ("councilMembership", Query.councilMembership); ("democracy", Query.democracy); ("dmpQueue", Query.dmpQueue);
  ("ethereum", Query.ethereum); ("evm", Query.evm); ("evmContractHelpers", Query.evmContractHelpers);
  ("evmMigration", Query.evmMigration); ("fellowshipCollective", Query.fellowshipCollective);
  ("fellowshipReferenda", Query.fellowshipReferenda); ("financialCouncil", Query.financialCouncil);
  ("financialCouncilMembership", Query.financialCouncilMembership); ("foreignAssets", Query.foreignAssets);
  ("fungible", Query.fungible); ("identity", Query.identity); ("inflation", Query.inflation);
  ("maintenance", Query.maintenance); ("messageQueue", Query.messageQueue); ("nonfungible", Query.nonfungible);
  ("parachainInfo", Query.parachainInfo); ("parachainSystem", Query.parachainSystem);
  ("polkadotXcm", Query.polkadotXcm); ("preimage", Query.preimage); ("refungible", Query.refungible);
  ("scheduler", Query.scheduler); ("session", Query.session); ("stateTrieMigration", Query.stateTrieMigration);
  ("sudo", Query.sudo); ("system", Query.system); ("technicalCommittee", Query.technicalCommittee);
  ("technicalCommitteeMembership", Query.technicalCommitteeMembership); ("testUtils", Query.testUtils);
  ("timestamp", Query.timestamp); ("transactionPayment", Query.transactionPayment);
  ("treasury", Query.treasury); ("unique", Query.unique); ("vesting", Query.vesting);
  ("xcmpQueue", Query.xcmpQueue)]%string.
