(* ===== verification/EventDefs.v ===== *)
(** * The events of the chain

    The events that types/augment-api-events.ts declares, by pallet: the name
    of each and its fields with their types; a field without a name has an
    empty one. *)

From Stdlib Require Import String.
From stdpp Require Import list.

#[local] Open Scope string_scope.

(** The name of a field without one. *)
Definition unnamed : string := EmptyString.

Module Event.

Definition appPromotion : list (string * list (string * string)) := [
  ("SetAdmin", [(unnamed, "AccountId32")]); ("Stake", [(unnamed, "AccountId32"); (unnamed, "u128")]);
  ("StakingRecalculation", [(unnamed, "AccountId32"); (unnamed, "u128"); (unnamed, "u128")]);
  ("Unstake", [(unnamed, "AccountId32"); (unnamed, "u128")])]%string.

Definition balances : list (string * list (string * string)) := [
  ("BalanceSet", [("who", "AccountId32"); ("free", "u128")]);
  ("Burned", [("who", "AccountId32"); ("amount", "u128")]);
  ("Deposit", [("who", "AccountId32"); ("amount", "u128")]);
  ("DustLost", [("account", "AccountId32"); ("amount", "u128")]);
  ("Endowed", [("account", "AccountId32"); ("freeBalance", "u128")]);
  ("Frozen", [("who", "AccountId32"); ("amount", "u128")]); ("Issued", [("amount", "u128")]);
  ("Locked", [("who", "AccountId32"); ("amount", "u128")]);
  ("Minted", [("who", "AccountId32"); ("amount", "u128")]); ("Rescinded", [("amount", "u128")]);
  ("Reserved", [("who", "AccountId32"); ("amount", "u128")]);
  ("ReserveRepatriated", [("from", "AccountId32"); ("to", "AccountId32"); ("amount", "u128"); ("destinationStatus", "FrameSupportTokensMiscBalanceStatus")]);
  ("Restored", [("who", "AccountId32"); ("amount", "u128")]);
  ("Slashed", [("who", "AccountId32"); ("amount", "u128")]);
  ("Suspended", [("who", "AccountId32"); ("amount", "u128")]);
  ("Thawed", [("who", "AccountId32"); ("amount", "u128")]);
  ("TotalIssuanceForced", [("old", "u128"); ("new_", "u128")]);
  ("Transfer", [("from", "AccountId32"); ("to", "AccountId32"); ("amount", "u128")]);
  ("Unlocked", [("who", "AccountId32"); ("amount", "u128")]);
  ("Unreserved", [("who", "AccountId32"); ("amount", "u128")]); ("Upgraded", [("who", "AccountId32")]);
  ("Withdraw", [("who", "AccountId32"); ("amount", "u128")])]%string.

Definition collatorSelection : list (string * list (string * string)) := [
  ("CandidateAdded", [("accountId", "AccountId32")]); ("CandidateRemoved", [("accountId", "AccountId32")]);
  ("InvulnerableAdded", [("invulnerable", "AccountId32")]);
  ("InvulnerableRemoved", [("invulnerable", "AccountId32")]);
  ("LicenseObtained", [("accountId", "AccountId32"); ("deposit", "u128")]);
  ("LicenseReleased", [("accountId", "AccountId32"); ("depositReturned", "u128")])]%string.

Definition common : list (string * list (string * string)) := [
  ("AllowListAddressAdded", [(unnamed, "u32"); (unnamed, "PalletEvmAccountBasicCrossAccountIdRepr")]);
  ("AllowListAddressRemoved", [(unnamed, "u32"); (unnamed, "PalletEvmAccountBasicCrossAccountIdRepr")]);
  ("Approved", [(unnamed, "u32"); (unnamed, "u32"); (unnamed, "PalletEvmAccountBasicCrossAccountIdRepr"); (unnamed, "PalletEvmAccountBasicCrossAccountIdRepr"); (unnamed, "u128")]);
  ("ApprovedForAll", [(unnamed, "u32"); (unnamed, "PalletEvmAccountBasicCrossAccountIdRepr"); (unnamed, "PalletEvmAccountBasicCrossAccountIdRepr"); (unnamed, "bool")]);
  ("CollectionAdminAdded", [(unnamed, "u32"); (unnamed, "PalletEvmAccountBasicCrossAccountIdRepr")]);
  ("CollectionAdminRemoved", [(unnamed, "u32"); (unnamed, "PalletEvmAccountBasicCrossAccountIdRepr")]);
  ("CollectionCreated", [(unnamed, "u32"); (unnamed, "u8"); (unnamed, "AccountId32")]);
  ("CollectionDestroyed", [(unnamed, "u32")]); ("CollectionLimitSet", [(unnamed, "u32")]);
  ("CollectionOwnerChanged", [(unnamed, "u32"); (unnamed, "AccountId32")]);
  ("CollectionPermissionSet", [(unnamed, "u32")]);
  ("CollectionPropertyDeleted", [(unnamed, "u32"); (unnamed, "Bytes")]);
  ("CollectionPropertySet", [(unnamed, "u32"); (unnamed, "Bytes")]);
  ("CollectionSponsorRemoved", [(unnamed, "u32")]);
  ("CollectionSponsorSet", [(unnamed, "u32"); (unnamed, "AccountId32")]);
  ("ItemCreated", [(unnamed, "u32"); (unnamed, "u32"); (unnamed, "PalletEvmAccountBasicCrossAccountIdRepr"); (unnamed, "u128")]);
  ("ItemDestroyed", [(unnamed, "u32"); (unnamed, "u32"); (unnamed, "PalletEvmAccountBasicCrossAccountIdRepr"); (unnamed, "u128")]);
  ("PropertyPermissionSet", [(unnamed, "u32"); (unnamed, "Bytes")]);
  ("SponsorshipConfirmed", [(unnamed, "u32"); (unnamed, "AccountId32")]);
  ("TokenPropertyDeleted", [(unnamed, "u32"); (unnamed, "u32"); (unnamed, "Bytes")]);
  ("TokenPropertySet", [(unnamed, "u32"); (unnamed, "u32"); (unnamed, "Bytes")]);
  ("Transfer", [(unnamed, "u32"); (unnamed, "u32"); (unnamed, "PalletEvmAccountBasicCrossAccountIdRepr"); (unnamed, "PalletEvmAccountBasicCrossAccountIdRepr"); (unnamed, "u128")])]%string.

Definition configuration : list (string * list (string * string)) := [
  ("NewCollatorKickThreshold", [("lengthInBlocks", "Option<u32>")]);
  ("NewCollatorLicenseBond", [("bondCost", "Option<u128>")]);
  ("NewDesiredCollators", [("desiredCollators", "Option<u32>")])]%string.

Definition council : list (string * list (string * string)) := [
  ("Approved", [("proposalHash", "H256")]);
  ("Closed", [("proposalHash", "H256"); ("yes", "u32"); ("no", "u32")]);
  ("Disapproved", [("proposalHash", "H256")]);
  ("Executed", [("proposalHash", "H256"); ("result", "Result<Null, SpRuntimeDispatchError>")]);
  ("Killed", [("proposalHash", "H256")]);
  ("MemberExecuted", [("proposalHash", "H256"); ("result", "Result<Null, SpRuntimeDispatchError>")]);
  ("ProposalCostBurned", [("proposalHash", "H256"); ("who", "AccountId32")]);
  ("ProposalCostReleased", [("proposalHash", "H256"); ("who", "AccountId32")]);
  ("Proposed", [("account", "AccountId32"); ("proposalIndex", "u32"); ("proposalHash", "H256"); ("threshold", "u32")]);
  ("Voted", [("account", "AccountId32"); ("proposalHash", "H256"); ("voted", "bool"); ("yes", "u32"); ("no", "u32")])]%string.

Definition councilMembership : list (string * list (string * string)) := [
  ("Dummy", []); ("KeyChanged", []); ("MemberAdded", []); ("MemberRemoved", []); ("MembersReset", []);
  ("MembersSwapped", [])]%string.

Definition cumulusXcm : list (string * list (string * string)) := [
  ("ExecutedDownward", [(unnamed, "U8aFixed"); (unnamed, "StagingXcmV5TraitsOutcome")]);
  ("InvalidFormat", [(unnamed, "U8aFixed")]); ("UnsupportedVersion", [(unnamed, "U8aFixed")])]%string.

Definition democracy : list (string * list (string * string)) := [
  ("Blacklisted", [("proposalHash", "H256")]); ("Cancelled", [("refIndex", "u32")]);
  ("Delegated", [("who", "AccountId32"); ("target", "AccountId32")]); ("ExternalTabled", []);
  ("MetadataCleared", [("owner", "PalletDemocracyMetadataOwner"); ("hash_", "H256")]);
  ("MetadataSet", [("owner", "PalletDemocracyMetadataOwner"); ("hash_", "H256")]);
  ("MetadataTransferred", [("prevOwner", "PalletDemocracyMetadataOwner"); ("owner", "PalletDemocracyMetadataOwner"); ("hash_", "H256")]);
  ("NotPassed", [("refIndex", "u32")]); ("Passed", [("refIndex", "u32")]);
  ("ProposalCanceled", [("propIndex", "u32")]); ("Proposed", [("proposalIndex", "u32"); ("deposit", "u128")]);
  ("Seconded", [("seconder", "AccountId32"); ("propIndex", "u32")]);
  ("Started", [("refIndex", "u32"); ("threshold", "PalletDemocracyVoteThreshold")]);
  ("Tabled", [("proposalIndex", "u32"); ("deposit", "u128")]); ("Undelegated", [("account", "AccountId32")]);
  ("Vetoed", [("who", "AccountId32"); ("proposalHash", "H256"); ("until", "u32")]);
  ("Voted", [("voter", "AccountId32"); ("refIndex", "u32"); ("vote", "PalletDemocracyVoteAccountVote")])]%string.

Definition dmpQueue : list (string * list (string * string)) := [
  ("CleanedSome", [("keysRemoved", "u32")]); ("Completed", [("error", "bool")]); ("CompletedExport", []);
  ("CompletedOverweightExport", []); ("Exported", [("page", "u32")]);
  ("ExportedOverweight", [("index", "u64")]); ("ExportFailed", [("page", "u32")]);
  ("ExportOverweightFailed", [("index", "u64")]); ("StartedCleanup", []); ("StartedExport", []);
  ("StartedOverweightExport", [])]%string.

Definition ethereum : list (string * list (string * string)) := [
  ("Executed", [("from", "H160"); ("to", "H160"); ("transactionHash", "H256"); ("exitReason", "EvmCoreErrorExitReason"); ("extraData", "Bytes")])]%string.

Definition evm : list (string * list (string * string)) := [
  ("Created", [("address", "H160")]); ("CreatedFailed", [("address", "H160")]);
  ("Executed", [("address", "H160")]); ("ExecutedFailed", [("address", "H160")]);
  ("Log", [("log", "EthereumLog")])]%string.

Definition evmContractHelpers : list (string * list (string * string)) := [
  ("ContractSponsorRemoved", [(unnamed, "H160")]);
  ("ContractSponsorSet", [(unnamed, "H160"); (unnamed, "AccountId32")]);
  ("ContractSponsorshipConfirmed", [(unnamed, "H160"); (unnamed, "AccountId32")])]%string.

Definition evmMigration : list (string * list (string * string)) := [
  ("TestEvent", [])]%string.

Definition fellowshipCollective : list (string * list (string * string)) := [
  ("MemberAdded", [("who", "AccountId32")]);
  ("MemberExchanged", [("who", "AccountId32"); ("newWho", "AccountId32")]);
  ("MemberRemoved", [("who", "AccountId32"); ("rank", "u16")]);
  ("RankChanged", [("who", "AccountId32"); ("rank", "u16")]);
  ("Voted", [("who", "AccountId32"); ("poll", "u32"); ("vote", "PalletRankedCollectiveVoteRecord"); ("tally", "PalletRankedCollectiveTally")])]%string.

Definition fellowshipReferenda : list (string * list (string * string)) := [
  ("Approved", [("index", "u32")]); ("Cancelled", [("index", "u32"); ("tally", "PalletRankedCollectiveTally")]);
  ("ConfirmAborted", [("index", "u32")]);
  ("Confirmed", [("index", "u32"); ("tally", "PalletRankedCollectiveTally")]);
  ("ConfirmStarted", [("index", "u32")]);
  ("DecisionDepositPlaced", [("index", "u32"); ("who", "AccountId32"); ("amount", "u128")]);
  ("DecisionDepositRefunded", [("index", "u32"); ("who", "AccountId32"); ("amount", "u128")]);
  ("DecisionStarted", [("index", "u32"); ("track", "u16"); ("proposal", "FrameSupportPreimagesBounded"); ("tally", "PalletRankedCollectiveTally")]);
  ("DepositSlashed", [("who", "AccountId32"); ("amount", "u128")]);
  ("Killed", [("index", "u32"); ("tally", "PalletRankedCollectiveTally")]);
  ("MetadataCleared", [("index", "u32"); ("hash_", "H256")]);
  ("MetadataSet", [("index", "u32"); ("hash_", "H256")]);
  ("Rejected", [("index", "u32"); ("tally", "PalletRankedCollectiveTally")]);
  ("SubmissionDepositRefunded", [("index", "u32"); ("who", "AccountId32"); ("amount", "u128")]);
  ("Submitted", [("index", "u32"); ("track", "u16"); ("proposal", "FrameSupportPreimagesBounded")]);
  ("TimedOut", [("index", "u32"); ("tally", "PalletRankedCollectiveTally")])]%string.

Definition financialCouncil : list (string * list (string * string)) := [
  ("Approved", [("proposalHash", "H256")]);
  ("Closed", [("proposalHash", "H256"); ("yes", "u32"); ("no", "u32")]);
  ("Disapproved", [("proposalHash", "H256")]);
  ("Executed", [("proposalHash", "H256"); ("result", "Result<Null, SpRuntimeDispatchError>")]);
  ("Killed", [("proposalHash", "H256")]);
  ("MemberExecuted", [("proposalHash", "H256"); ("result", "Result<Null, SpRuntimeDispatchError>")]);
  ("ProposalCostBurned", [("proposalHash", "H256"); ("who", "AccountId32")]);
  ("ProposalCostReleased", [("proposalHash", "H256"); ("who", "AccountId32")]);
  ("Proposed", [("account", "AccountId32"); ("proposalIndex", "u32"); ("proposalHash", "H256"); ("threshold", "u32")]);
  ("Voted", [("account", "AccountId32"); ("proposalHash", "H256"); ("voted", "bool"); ("yes", "u32"); ("no", "u32")])]%string.

Definition financialCouncilMembership : list (string * list (string * string)) := [
  ("Dummy", []); ("KeyChanged", []); ("MemberAdded", []); ("MemberRemoved", []); ("MembersReset", []);
  ("MembersSwapped", [])]%string.

Definition foreignAssets : list (string * list (string * string)) := [
  ("ForeignAssetMoved", [("oldAssetId", "XcmVersionedAssetId"); ("newAssetId", "XcmVersionedAssetId")]);
  ("ForeignAssetRegistered", [("collectionId", "u32"); ("assetId", "XcmVersionedAssetId")]);
  ("MigrationStatus", [(unnamed, "PalletForeignAssetsMigrationStatus")])]%string.

Definition identity : list (string * list (string * string)) := [
  ("IdentitiesInserted", [("amount", "u32")]); ("IdentitiesRemoved", [("amount", "u32")]);
  ("IdentityCleared", [("who", "AccountId32"); ("deposit", "u128")]);
  ("IdentityKilled", [("who", "AccountId32"); ("deposit", "u128")]); ("IdentitySet", [("who", "AccountId32")]);
  ("JudgementGiven", [("target", "AccountId32"); ("registrarIndex", "u32")]);
  ("JudgementRequested", [("who", "AccountId32"); ("registrarIndex", "u32")]);
  ("JudgementUnrequested", [("who", "AccountId32"); ("registrarIndex", "u32")]);
  ("RegistrarAdded", [("registrarIndex", "u32")]); ("SubIdentitiesInserted", [("amount", "u32")]);
  ("SubIdentityAdded", [("sub", "AccountId32"); ("main", "AccountId32"); ("deposit", "u128")]);
  ("SubIdentityRemoved", [("sub", "AccountId32"); ("main", "AccountId32"); ("deposit", "u128")]);
  ("SubIdentityRevoked", [("sub", "AccountId32"); ("main", "AccountId32"); ("deposit", "u128")])]%string.

Definition maintenance : list (string * list (string * string)) := [
  ("MaintenanceDisabled", []); ("MaintenanceEnabled", [])]%string.

Definition messageQueue : list (string * list (string * string)) := [
  ("OverweightEnqueued", [("id", "U8aFixed"); ("origin", "CumulusPrimitivesCoreAggregateMessageOrigin"); ("pageIndex", "u32"); ("messageIndex", "u32")]);
  ("PageReaped", [("origin", "CumulusPrimitivesCoreAggregateMessageOrigin"); ("index", "u32")]);
  ("Processed", [("id", "H256"); ("origin", "CumulusPrimitivesCoreAggregateMessageOrigin"); ("weightUsed", "SpWeightsWeightV2Weight"); ("success", "bool")]);
  ("ProcessingFailed", [("id", "H256"); ("origin", "CumulusPrimitivesCoreAggregateMessageOrigin"); ("error", "FrameSupportMessagesProcessMessageError")])]%string.

Definition parachainSystem : list (string * list (string * string)) := [
  ("DownwardMessagesProcessed", [("weightUsed", "SpWeightsWeightV2Weight"); ("dmqHead", "H256")]);
  ("DownwardMessagesReceived", [("count", "u32")]);
  ("UpwardMessageSent", [("messageHash", "Option<U8aFixed>")]);
  ("ValidationFunctionApplied", [("relayChainBlockNum", "u32")]); ("ValidationFunctionDiscarded", []);
  ("ValidationFunctionStored", [])]%string.

Definition polkadotXcm : list (string * list (string * string)) := [
  ("AliasAuthorizationRemoved", [("aliaser", "StagingXcmV5Location"); ("target", "StagingXcmV5Location")]);
  ("AliasAuthorized", [("aliaser", "StagingXcmV5Location"); ("target", "StagingXcmV5Location"); ("expiry", "Option<u64>")]);
  ("AliasesAuthorizationsRemoved", [("target", "StagingXcmV5Location")]);
  ("AssetsClaimed", [("hash_", "H256"); ("origin", "StagingXcmV5Location"); ("assets", "XcmVersionedAssets")]);
  ("AssetsTrapped", [("hash_", "H256"); ("origin", "StagingXcmV5Location"); ("assets", "XcmVersionedAssets")]);
  ("Attempted", [("outcome", "StagingXcmV5TraitsOutcome")]);
  ("FeesPaid", [("paying", "StagingXcmV5Location"); ("fees", "StagingXcmV5AssetAssets")]);
  ("InvalidQuerier", [("origin", "StagingXcmV5Location"); ("queryId", "u64"); ("expectedQuerier", "StagingXcmV5Location"); ("maybeActualQuerier", "Option<StagingXcmV5Location>")]);
  ("InvalidQuerierVersion", [("origin", "StagingXcmV5Location"); ("queryId", "u64")]);
  ("InvalidResponder", [("origin", "StagingXcmV5Location"); ("queryId", "u64"); ("expectedLocation", "Option<StagingXcmV5Location>")]);
  ("InvalidResponderVersion", [("origin", "StagingXcmV5Location"); ("queryId", "u64")]);
  ("Notified", [("queryId", "u64"); ("palletIndex", "u8"); ("callIndex", "u8")]);
  ("NotifyDecodeFailed", [("queryId", "u64"); ("palletIndex", "u8"); ("callIndex", "u8")]);
  ("NotifyDispatchError", [("queryId", "u64"); ("palletIndex", "u8"); ("callIndex", "u8")]);
  ("NotifyOverweight", [("queryId", "u64"); ("palletIndex", "u8"); ("callIndex", "u8"); ("actualWeight", "SpWeightsWeightV2Weight"); ("maxBudgetedWeight", "SpWeightsWeightV2Weight")]);
  ("NotifyTargetMigrationFail", [("location", "XcmVersionedLocation"); ("queryId", "u64")]);
  ("NotifyTargetSendFail", [("location", "StagingXcmV5Location"); ("queryId", "u64"); ("error", "XcmV5TraitsError")]);
  ("ProcessXcmError", [("origin", "StagingXcmV5Location"); ("error", "XcmV5TraitsError"); ("messageId", "U8aFixed")]);
  ("ResponseReady", [("queryId", "u64"); ("response", "StagingXcmV5Response")]);
  ("ResponseTaken", [("queryId", "u64")]);
  ("SendFailed", [("origin", "StagingXcmV5Location"); ("destination", "StagingXcmV5Location"); ("error", "XcmV3TraitsSendError"); ("messageId", "U8aFixed")]);
  ("Sent", [("origin", "StagingXcmV5Location"); ("destination", "StagingXcmV5Location"); ("message", "StagingXcmV5Xcm"); ("messageId", "U8aFixed")]);
  ("SupportedVersionChanged", [("location", "StagingXcmV5Location"); ("version", "u32")]);
  ("UnexpectedResponse", [("origin", "StagingXcmV5Location"); ("queryId", "u64")]);
  ("VersionChangeNotified", [("destination", "StagingXcmV5Location"); ("result", "u32"); ("cost", "StagingXcmV5AssetAssets"); ("messageId", "U8aFixed")]);
  ("VersionMigrationFinished", [("version", "u32")]);
  ("VersionNotifyRequested", [("destination", "StagingXcmV5Location"); ("cost", "StagingXcmV5AssetAssets"); ("messageId", "U8aFixed")]);
  ("VersionNotifyStarted", [("destination", "StagingXcmV5Location"); ("cost", "StagingXcmV5AssetAssets"); ("messageId", "U8aFixed")]);
  ("VersionNotifyUnrequested", [("destination", "StagingXcmV5Location"); ("cost", "StagingXcmV5AssetAssets"); ("messageId", "U8aFixed")])]%string.

Definition preimage : list (string * list (string * string)) := [
  ("Cleared", [("hash_", "H256")]); ("Noted", [("hash_", "H256")]); ("Requested", [("hash_", "H256")])]%string.

Definition scheduler : list (string * list (string * string)) := [
  ("AgendaIncomplete", [("when", "u32")]);
  ("CallUnavailable", [("task", "ITuple<[u32, u32]>"); ("id", "Option<U8aFixed>")]);
  ("Canceled", [("when", "u32"); ("index", "u32")]);
  ("Dispatched", [("task", "ITuple<[u32, u32]>"); ("id", "Option<U8aFixed>"); ("result", "Result<Null, SpRuntimeDispatchError>")]);
  ("PeriodicFailed", [("task", "ITuple<[u32, u32]>"); ("id", "Option<U8aFixed>")]);
  ("PermanentlyOverweight", [("task", "ITuple<[u32, u32]>"); ("id", "Option<U8aFixed>")]);
  ("RetryCancelled", [("task", "ITuple<[u32, u32]>"); ("id", "Option<U8aFixed>")]);
  ("RetryFailed", [("task", "ITuple<[u32, u32]>"); ("id", "Option<U8aFixed>")]);
  ("RetrySet", [("task", "ITuple<[u32, u32]>"); ("id", "Option<U8aFixed>"); ("period", "u32"); ("retries", "u8")]);
  ("Scheduled", [("when", "u32"); ("index", "u32")])]%string.

Definition session : list (string * list (string * string)) := [
  ("NewSession", [("sessionIndex", "u32")]); ("ValidatorDisabled", [("validator", "AccountId32")]);
  ("ValidatorReenabled", [("validator", "AccountId32")])]%string.

Definition stateTrieMigration : list (string * list (string * string)) := [
  ("AutoMigrationFinished", []); ("Halted", [("error", "PalletStateTrieMigrationError")]);
  ("Migrated", [("top", "u32"); ("child", "u32"); ("compute", "PalletStateTrieMigrationMigrationCompute")]);
  ("Slashed", [("who", "AccountId32"); ("amount", "u128")])]%string.

Definition structure : list (string * list (string * string)) := [
  ("Executed", [(unnamed, "Result<Null, SpRuntimeDispatchError>")])]%string.

Definition sudo : list (string * list (string * string)) := [
  ("KeyChanged", [("old", "Option<AccountId32>"); ("new_", "AccountId32")]); ("KeyRemoved", []);
  ("Sudid", [("sudoResult", "Result<Null, SpRuntimeDispatchError>")]);
  ("SudoAsDone", [("sudoResult", "Result<Null, SpRuntimeDispatchError>")])]%string.

Definition system : list (string * list (string * string)) := [
  ("CodeUpdated", []);
  ("ExtrinsicFailed", [("dispatchError", "SpRuntimeDispatchError"); ("dispatchInfo", "FrameSystemDispatchEventInfo")]);
  ("ExtrinsicSuccess", [("dispatchInfo", "FrameSystemDispatchEventInfo")]);
  ("KilledAccount", [("account", "AccountId32")]); ("NewAccount", [("account", "AccountId32")]);
  ("RejectedInvalidAuthorizedUpgrade", [("codeHash", "H256"); ("error", "SpRuntimeDispatchError")]);
  ("Remarked", [("sender", "AccountId32"); ("hash_", "H256")]);
  ("UpgradeAuthorized", [("codeHash", "H256"); ("checkVersion", "bool")])]%string.

Definition technicalCommittee : list (string * list (string * string)) := [
  ("Approved", [("proposalHash", "H256")]);
  ("Closed", [("proposalHash", "H256"); ("yes", "u32"); ("no", "u32")]);
  ("Disapproved", [("proposalHash", "H256")]);
  ("Executed", [("proposalHash", "H256"); ("result", "Result<Null, SpRuntimeDispatchError>")]);
  ("Killed", [("proposalHash", "H256")]);
  ("MemberExecuted", [("proposalHash", "H256"); ("result", "Result<Null, SpRuntimeDispatchError>")]);
  ("ProposalCostBurned", [("proposalHash", "H256"); ("who", "AccountId32")]);
  ("ProposalCostReleased", [("proposalHash", "H256"); ("who", "AccountId32")]);
  ("Proposed", [("account", "AccountId32"); ("proposalIndex", "u32"); ("proposalHash", "H256"); ("threshold", "u32")]);
  ("Voted", [("account", "AccountId32"); ("proposalHash", "H256"); ("voted", "bool"); ("yes", "u32"); ("no", "u32")])]%string.

Definition technicalCommitteeMembership : list (string * list (string * string)) := [
  ("Dummy", []); ("KeyChanged", []); ("MemberAdded", []); ("MemberRemoved", []); ("MembersReset", []);
  ("MembersSwapped", [])]%string.

Definition testUtils : list (string * list (string * string)) := [
  ("BatchCompleted", []); ("ShouldRollback", []); ("ValueIsSet", [])]%string.

Definition transactionPayment : list (string * list (string * string)) := [
  ("TransactionFeePaid", [("who", "AccountId32"); ("actualFee", "u128"); ("tip", "u128")])]%string.

Definition treasury : list (string * list (string * string)) := [
  ("AssetSpendApproved", [("index", "u32"); ("assetKind", "Null"); ("amount", "u128"); ("beneficiary", "AccountId32"); ("validFrom", "u32"); ("expireAt", "u32")]);
  ("AssetSpendVoided", [("index", "u32")]);
  ("Awarded", [("proposalIndex", "u32"); ("award", "u128"); ("account", "AccountId32")]);
  ("Burnt", [("burntFunds", "u128")]); ("Deposit", [("value", "u128")]);
  ("Paid", [("index", "u32"); ("paymentId", "Null")]);
  ("PaymentFailed", [("index", "u32"); ("paymentId", "Null")]); ("Rollover", [("rolloverBalance", "u128")]);
  ("SpendApproved", [("proposalIndex", "u32"); ("amount", "u128"); ("beneficiary", "AccountId32")]);
  ("Spending", [("budgetRemaining", "u128")]); ("SpendProcessed", [("index", "u32")]);
  ("UpdatedInactive", [("reactivated", "u128"); ("deactivated", "u128")])]%string.

Definition utility : list (string * list (string * string)) := [
  ("BatchCompleted", []); ("BatchCompletedWithErrors", []);
  ("BatchInterrupted", [("index", "u32"); ("error", "SpRuntimeDispatchError")]);
  ("DispatchedAs", [("result", "Result<Null, SpRuntimeDispatchError>")]);
  ("IfElseFallbackCalled", [("mainError", "SpRuntimeDispatchError")]); ("IfElseMainSuccess", []);
  ("ItemCompleted", []); ("ItemFailed", [("error", "SpRuntimeDispatchError")])]%string.

Definition vesting : list (string * list (string * string)) := [
  ("Claimed", [("who", "AccountId32"); ("amount", "u128")]);
  ("VestingScheduleAdded", [("from", "AccountId32"); ("to", "AccountId32"); ("vestingSchedule", "OrmlVestingVestingSchedule")]);
  ("VestingSchedulesUpdated", [("who", "AccountId32")])]%string.

Definition xcmpQueue : list (string * list (string * string)) := [
  ("XcmpMessageSent", [("messageHash", "U8aFixed")])]%string.

Definition xTokens : list (string * list (string * string)) := [
  ("TransferredAssets", [("sender", "AccountId32"); ("assets", "StagingXcmV5AssetAssets"); ("fee", "StagingXcmV5Asset"); ("dest", "StagingXcmV5Location")])]%string.

End Event.

(** [AugmentedEvents] *)
Definition events : list (string * list (string * list (string * string))) := [
  ("appPromotion", Event.appPromotion); ("balances", Event.balances);
  ("collatorSelection", Event.collatorSelection); ("common", Event.common);
  ("configuration", Event.configuration); ("council", Event.council);
  ("councilMembership", Event.councilMembership); ("cumulusXcm", Event.cumulusXcm);
  ("democracy", Event.democracy); ("dmpQueue", Event.dmpQueue); ("ethereum", Event.ethereum);
  ("evm", Event.evm); ("evmContractHelpers", Event.evmContractHelpers); ("evmMigration", Event.evmMigration);
  ("fellowshipCollective", Event.fellowshipCollective); ("fellowshipReferenda", Event.fellowshipReferenda);
  ("financialCouncil", Event.financialCouncil);
  ("financialCouncilMembership", Event.financialCouncilMembership); ("foreignAssets", Event.foreignAssets);
  ("identity", Event.identity); ("maintenance", Event.maintenance); ("messageQueue", Event.messageQueue);
  ("parachainSystem", Event.parachainSystem); ("polkadotXcm", Event.polkadotXcm); ("preimage", Event.preimage);
  ("scheduler", Event.scheduler); ("session", Event.session); ("stateTrieMigration", Event.stateTrieMigration);
  ("structure", Event.structure); ("sudo", Event.sudo); ("system", Event.system);
  ("technicalCommittee", Event.technicalCommittee);
  ("technicalCommitteeMembership", Event.technicalCommitteeMembership); ("testUtils", Event.testUtils);
  ("transactionPayment", Event.transactionPayment); ("treasury", Event.treasury); ("utility", Event.utility);
  ("vesting", Event.vesting); ("xcmpQueue", Event.xcmpQueue); ("xTokens", Event.xTokens)]%string.
