(* ===== verification/Types.v ===== *)
(** * Descriptions of the chain's types

    The language of types/lookup.ts, in which every type of the runtime is
    described by a text or by a structure or an enumeration with texts for its
    parts; a reader for these texts; and the TypeScript
    interfaces of types/types-lookup.ts and types/default/types.ts with what it
    means that an interface is the one of a described type. *)

From Stdlib Require Import Ascii String.
From stdpp Require Import list.

#[local] Open Scope string_scope.

(** ** Texts *)

(** Names are compared up to case and underscores: the runtime writes
    [set_code] and [NFT], the declarations [SetCode] and [Nft]. *)
Definition fold_ascii (c : ascii) : ascii :=
  let n := N_of_ascii c in
  if ((65 <=? n) && (n <=? 90))%N then ascii_of_N (n + 32) else c.

Fixpoint fold_name (s : string) : string :=
  match s with
  | EmptyString => EmptyString
  | String "_" s' => fold_name s'
  | String c s' => String (fold_ascii c) (fold_name s')
  end.

Definition same_name (s t : string) : bool := fold_name s =? fold_name t.

Fixpoint spaceless (s : string) : string :=
  match s with
  | EmptyString => EmptyString
  | String " " s' => spaceless s'
  | String c s' => String c (spaceless s')
  end.

Fixpoint same_names (l l' : list string) : bool :=
  match l, l' with
  | [], [] => true
  | s :: l, s' :: l' => same_name s s' && same_names l l'
  | _, _ => false
  end.

(** ** Type texts *)

(** A name, a name with arguments, a tuple, or an array of fixed length. *)
Inductive ty : Type :=
  | Name (name : string)
  | App (f : string) (args : list ty)
  | Tuple (parts : list ty)
  | Fixed (item : ty) (length : string).

Definition is_word (c : ascii) : bool :=
  let n := N_of_ascii c in
  ((48 <=? n) && (n <=? 57) || (65 <=? n) && (n <=? 90) || (97 <=? n) && (n <=? 122))%N || (c =? "_")%char.

(** Words and signs, without the spaces between them. *)
Definition starts_word (s : string) : bool :=
  match s with String c _ => is_word c | EmptyString => false end.

Fixpoint tokens (s : string) : list string :=
  match s with
  | EmptyString => []
  | String c s' =>
      let ts := tokens s' in
      if is_word c then
        match ts with
        | w :: ts' => if starts_word s' then String c w :: ts' else String c EmptyString :: ts
        | [] => [String c EmptyString]
        end
      else if (c =? " ")%char then ts
      else String c EmptyString :: ts
  end.

(** One type, or the arguments up to the sign [close]. *)
Fixpoint read_ty (fuel : nat) (ts : list string) : option (ty * list string) :=
  match fuel, ts with
  | S fuel, "(" :: ts => '(l, ts) ← read_args fuel ")" ts; Some (Tuple l, ts)
  | S fuel, "[" :: "]" :: ts => Some (Tuple [], ts)
  | S fuel, "[" :: ts =>
      '(t, ts) ← read_ty fuel ts;
      match ts with
      | ";" :: n :: "]" :: ts => Some (Fixed t n, ts)
      | "]" :: ts => Some (Tuple [t], ts)
      | "," :: ts => '(l, ts) ← read_args fuel "]" ts; Some (Tuple (t :: l), ts)
      | _ => None
      end
  | S fuel, f :: "<" :: ts => '(l, ts) ← read_args fuel ">" ts; Some (App f l, ts)
  | S fuel, name :: ts => Some (Name name, ts)
  | _, _ => None
  end
with read_args (fuel : nat) (close : string) (ts : list string) : option (list ty * list string) :=
  match fuel with
  | O => None
  | S fuel =>
      '(t, ts) ← read_ty fuel ts;
      match ts with
      | "," :: ts => '(l, ts) ← read_args fuel close ts; Some (t :: l, ts)
      | sign :: ts => if sign =? close then Some ([t], ts) else None
      | [] => None
      end
  end.

(** The type that a text denotes: every call of the reader takes a token, so
    that their number is fuel enough. *)
Definition parse (s : string) : option ty :=
  let ts := tokens s in
  match read_ty (S (2 * length ts)) ts with
  | Some (t, []) => Some t
  | _ => None
  end.

Definition commas (l : list string) : string := String.concat "," l.

(** The text of a type, without spaces. *)
Fixpoint print (t : ty) : string :=
  match t with
  | Name n => n
  | App f l => f ++ "<" ++ commas (map print l) ++ ">"
  | Tuple l => "(" ++ commas (map print l) ++ ")"
  | Fixed t n => "[" ++ print t ++ ";" ++ n ++ "]"
  end.

(** The TypeScript type of a type: bytes of fixed length are [U8aFixed], other
    arrays are [Vec], tuples [ITuple]; [resolve] gives the name of a type that
    is referred to by its number. *)
Fixpoint typescript (resolve : string -> string) (t : ty) : string :=
  match t with
  | Name n => resolve n
  | App f l => f ++ "<" ++ commas (map (typescript resolve) l) ++ ">"
  | Tuple l => "ITuple<[" ++ commas (map (typescript resolve) l) ++ "]>"
  | Fixed (Name "u8") _ => "U8aFixed"
  | Fixed t _ => "Vec<" ++ typescript resolve t ++ ">"
  end.

Definition typescript_of (resolve : string -> string) (text : string) : string :=
  match parse text with Some t => typescript resolve t | None => EmptyString end.

(** ** Descriptions of types *)

(** Fields with their types; [_alias] tells which fields have another name in
    the runtime. *)
Inductive payload : Type :=
  | Of (type : string)
  | Fields (fields : list (string * string))
  | AliasedFields (alias fields : list (string * string)).

Inductive type_def : Type :=
  | Alias (type : string)
  | Struct (fields : list (string * string))
  | AliasedStruct (alias fields : list (string * string))
  | Enum (variants : list (string * payload))
  | Names (names : list string).

(** ** Interfaces *)

Inductive member : Type :=
  | Plain (type : string)
  | Fielded (fields : list (string * string))
  | Union (names : list string).

(** What an interface extends, and its members. *)
Definition interface : Type := string * list (string * member).

(** Variants that the runtime has not, which keep the numbers of the others. *)
Definition unused (variant : string) : bool := String.prefix "__Unused" variant.

(** The test of a variant. *)
Definition test (name : string) : string * member := ("is" ++ name, Plain "boolean").

Section Interfaces.
Variable resolve : string -> string.

Definition typed (fields : list (string * string)) : list (string * string) :=
  map (fun f => (f.1, typescript_of resolve f.2)) fields.

Definition variant_members (v : string * payload) : list (string * member) :=
  test v.1 ::
  match v.2 with
  | Of "Null" => []
  | Of type => [("as" ++ v.1, Plain (typescript_of resolve type))]
  | Fields fs | AliasedFields _ fs => [("as" ++ v.1, Fielded (typed fs))]
  end.

(** The interface of a described type: a structure has its fields; an
    enumeration the tests and readers of its variants, and the union of their
    names. *)
Definition interface_of (d : type_def) : interface :=
  match d with
  | Alias type => (typescript_of resolve type, [])
  | Struct fs | AliasedStruct _ fs => ("Struct", map (fun f => (f.1, Plain f.2)) (typed fs))
  | Enum vs =>
      let vs := List.filter (fun v => negb (unused v.1)) vs in
      ("Enum", concat (map variant_members vs) ++ [("type", Union (map fst vs))])%list
  | Names ns =>
      let ns := List.filter (fun n => negb (unused n)) ns in
      ("Enum", map test ns ++ [("type", Union ns)])%list
  end.
End Interfaces.

Definition same_text (s t : string) : bool := spaceless s =? spaceless t.

Fixpoint same_fields (l l' : list (string * string)) : bool :=
  match l, l' with
  | [], [] => true
  | f :: l, f' :: l' => (f.1 =? f'.1) && same_text f.2 f'.2 && same_fields l l'
  | _, _ => false
  end.

Definition same_member (m m' : string * member) : bool :=
  same_name m.1 m'.1 &&
  match m.2, m'.2 with
  | Plain t, Plain t' => same_text t t'
  | Fielded fs, Fielded fs' => same_fields fs fs'
  | Union ns, Union ns' => same_names ns ns'
  | _, _ => false
  end.

Fixpoint same_members (l l' : list (string * member)) : bool :=
  match l, l' with
  | [], [] => true
  | m :: l, m' :: l' => same_member m m' && same_members l l'
  | _, _ => false
  end.

(** Equal up to spaces in types and the case of names made from variants. *)
Definition same_interface (i j : interface) : bool :=
  same_text i.1 j.1 && same_members i.2 j.2.

(** ** Tables *)

Fixpoint named {A} (name : string) (l : list (string * A)) : option A :=
  match l with
  | [] => None
  | (n, a) :: l => if n =? name then Some a else named name l
  end.
