(* ===== verification/LookupDefs.v ===== *)
(** * The types of the runtime

    The types that types/lookup.ts describes, one definition for each. *)
From Stdlib Require Import String.
From stdpp Require Import list.
From S2P Require Import Types.

#[local] Open Scope string_scope.

Module Lookup.

Definition FrameSystemAccountInfo : type_def :=
  Struct [
  ("nonce", "u32"); ("consumers", "u32"); ("providers", "u32"); ("sufficients", "u32");
  ("data", "PalletBalancesAccountData")].

Definition PalletBalancesAccountData : type_def :=
  Struct [("free", "u128"); ("reserved", "u128"); ("frozen", "u128"); ("flags", "u128")].

Definition FrameSupportDispatchPerDispatchClassWeight : type_def :=
  Struct [
  ("normal", "SpWeightsWeightV2Weight"); ("operational", "SpWeightsWeightV2Weight");
  ("mandatory", "SpWeightsWeightV2Weight")].

Definition SpWeightsWeightV2Weight : type_def :=
  Struct [("refTime", "Compact<u64>"); ("proofSize", "Compact<u64>")].

Definition SpRuntimeDigest : type_def :=
  Struct [("logs", "Vec<SpRuntimeDigestDigestItem>")].

Definition SpRuntimeDigestDigestItem : type_def :=
  Enum [
  ("Other", Of "Bytes"); ("__Unused1", Of "Null"); ("__Unused2", Of "Null"); ("__Unused3", Of "Null");
  ("Consensus", Of "([u8;4],Bytes)"); ("Seal", Of "([u8;4],Bytes)"); ("PreRuntime", Of "([u8;4],Bytes)");
  ("__Unused7", Of "Null"); ("RuntimeEnvironmentUpdated", Of "Null")].

Definition FrameSystemEventRecord : type_def :=
  Struct [("phase", "FrameSystemPhase"); ("event", "Event"); ("topics", "Vec<H256>")].

Definition FrameSystemEvent : type_def :=
  Enum [
  ("ExtrinsicSuccess", Fields [("dispatchInfo", "FrameSystemDispatchEventInfo")]);
  ("ExtrinsicFailed", Fields [("dispatchError", "SpRuntimeDispatchError"); ("dispatchInfo", "FrameSystemDispatchEventInfo")]);
  ("CodeUpdated", Of "Null"); ("NewAccount", Fields [("account", "AccountId32")]);
  ("KilledAccount", Fields [("account", "AccountId32")]);
  ("Remarked", AliasedFields [("hash_", "hash")] [("sender", "AccountId32"); ("hash_", "H256")]);
  ("UpgradeAuthorized", Fields [("codeHash", "H256"); ("checkVersion", "bool")]);
  ("RejectedInvalidAuthorizedUpgrade", Fields [("codeHash", "H256"); ("error", "SpRuntimeDispatchError")])].

Definition FrameSystemDispatchEventInfo : type_def :=
  Struct [
  ("weight", "SpWeightsWeightV2Weight"); ("class", "FrameSupportDispatchDispatchClass");
  ("paysFee", "FrameSupportDispatchPays")].

Definition FrameSupportDispatchDispatchClass : type_def :=
  Names ["Normal"; "Operational"; "Mandatory"].

Definition FrameSupportDispatchPays : type_def :=
  Names ["Yes"; "No"].

Definition SpRuntimeDispatchError : type_def :=
  Enum [
  ("Other", Of "Null"); ("CannotLookup", Of "Null"); ("BadOrigin", Of "Null");
  ("Module", Of "SpRuntimeModuleError"); ("ConsumerRemaining", Of "Null"); ("NoProviders", Of "Null");
  ("TooManyConsumers", Of "Null"); ("Token", Of "SpRuntimeTokenError");
  ("Arithmetic", Of "SpArithmeticArithmeticError"); ("Transactional", Of "SpRuntimeTransactionalError");
  ("Exhausted", Of "Null"); ("Corruption", Of "Null"); ("Unavailable", Of "Null");
  ("RootNotAllowed", Of "Null"); ("Trie", Of "SpRuntimeProvingTrieTrieError")].

Definition SpRuntimeModuleError : type_def :=
  Struct [("index", "u8"); ("error", "[u8;4]")].

Definition SpRuntimeTokenError : type_def :=
  Names [
  "FundsUnavailable"; "OnlyProvider"; "BelowMinimum"; "CannotCreate"; "UnknownAsset"; "Frozen"; "Unsupported";
  "CannotCreateHold"; "NotExpendable"; "Blocked"].

Definition SpArithmeticArithmeticError : type_def :=
  Names ["Underflow"; "Overflow"; "DivisionByZero"].

Definition SpRuntimeTransactionalError : type_def :=
  Names ["LimitReached"; "NoLayer"].

Definition SpRuntimeProvingTrieTrieError : type_def :=
  Names [
  "InvalidStateRoot"; "IncompleteDatabase"; "ValueAtIncompleteKey"; "DecoderError"; "InvalidHash";
  "DuplicateKey"; "ExtraneousNode"; "ExtraneousValue"; "ExtraneousHashReference"; "InvalidChildReference";
  "ValueMismatch"; "IncompleteProof"; "RootMismatch"; "DecodeError"].

Definition PalletStateTrieMigrationEvent : type_def :=
  Enum [
  ("Migrated", Fields [("top", "u32"); ("child", "u32"); ("compute", "PalletStateTrieMigrationMigrationCompute")]);
  ("Slashed", Fields [("who", "AccountId32"); ("amount", "u128")]); ("AutoMigrationFinished", Of "Null");
  ("Halted", Fields [("error", "PalletStateTrieMigrationError")])].

Definition PalletStateTrieMigrationMigrationCompute : type_def :=
  Names ["Signed"; "Auto"].

Definition PalletStateTrieMigrationError : type_def :=
  Names [
  "MaxSignedLimits"; "KeyTooLong"; "NotEnoughFunds"; "BadWitness"; "SignedMigrationNotAllowed"; "BadChildRoot"].

Definition CumulusPalletParachainSystemEvent : type_def :=
  Enum [
  ("ValidationFunctionStored", Of "Null");
  ("ValidationFunctionApplied", Fields [("relayChainBlockNum", "u32")]);
  ("ValidationFunctionDiscarded", Of "Null"); ("DownwardMessagesReceived", Fields [("count", "u32")]);
  ("DownwardMessagesProcessed", Fields [("weightUsed", "SpWeightsWeightV2Weight"); ("dmqHead", "H256")]);
  ("UpwardMessageSent", Fields [("messageHash", "Option<[u8;32]>")])].

Definition PalletCollatorSelectionEvent : type_def :=
  Enum [
  ("InvulnerableAdded", Fields [("invulnerable", "AccountId32")]);
  ("InvulnerableRemoved", Fields [("invulnerable", "AccountId32")]);
  ("LicenseObtained", Fields [("accountId", "AccountId32"); ("deposit", "u128")]);
  ("LicenseReleased", Fields [("accountId", "AccountId32"); ("depositReturned", "u128")]);
  ("CandidateAdded", Fields [("accountId", "AccountId32")]);
  ("CandidateRemoved", Fields [("accountId", "AccountId32")])].

Definition PalletSessionEvent : type_def :=
  Enum [
  ("NewSession", Fields [("sessionIndex", "u32")]);
  ("ValidatorDisabled", Fields [("validator", "AccountId32")]);
  ("ValidatorReenabled", Fields [("validator", "AccountId32")])].

Definition PalletBalancesEvent : type_def :=
  Enum [
  ("Endowed", Fields [("account", "AccountId32"); ("freeBalance", "u128")]);
  ("DustLost", Fields [("account", "AccountId32"); ("amount", "u128")]);
  ("Transfer", Fields [("from", "AccountId32"); ("to", "AccountId32"); ("amount", "u128")]);
  ("BalanceSet", Fields [("who", "AccountId32"); ("free", "u128")]);
  ("Reserved", Fields [("who", "AccountId32"); ("amount", "u128")]);
  ("Unreserved", Fields [("who", "AccountId32"); ("amount", "u128")]);
  ("ReserveRepatriated", Fields [("from", "AccountId32"); ("to", "AccountId32"); ("amount", "u128"); ("destinationStatus", "FrameSupportTokensMiscBalanceStatus")]);
  ("Deposit", Fields [("who", "AccountId32"); ("amount", "u128")]);
  ("Withdraw", Fields [("who", "AccountId32"); ("amount", "u128")]);
  ("Slashed", Fields [("who", "AccountId32"); ("amount", "u128")]);
  ("Minted", Fields [("who", "AccountId32"); ("amount", "u128")]);
  ("Burned", Fields [("who", "AccountId32"); ("amount", "u128")]);
  ("Suspended", Fields [("who", "AccountId32"); ("amount", "u128")]);
  ("Restored", Fields [("who", "AccountId32"); ("amount", "u128")]);
  ("Upgraded", Fields [("who", "AccountId32")]); ("Issued", Fields [("amount", "u128")]);
  ("Rescinded", Fields [("amount", "u128")]); ("Locked", Fields [("who", "AccountId32"); ("amount", "u128")]);
  ("Unlocked", Fields [("who", "AccountId32"); ("amount", "u128")]);
  ("Frozen", Fields [("who", "AccountId32"); ("amount", "u128")]);
  ("Thawed", Fields [("who", "AccountId32"); ("amount", "u128")]);
  ("TotalIssuanceForced", AliasedFields [("new_", "new")] [("old", "u128"); ("new_", "u128")])].

Definition FrameSupportTokensMiscBalanceStatus : type_def :=
  Names ["Free"; "Reserved"].

Definition PalletTransactionPaymentEvent : type_def :=
  Enum [
  ("TransactionFeePaid", Fields [("who", "AccountId32"); ("actualFee", "u128"); ("tip", "u128")])].

Definition PalletTreasuryEvent : type_def :=
  Enum [
  ("Spending", Fields [("budgetRemaining", "u128")]);
  ("Awarded", Fields [("proposalIndex", "u32"); ("award", "u128"); ("account", "AccountId32")]);
  ("Burnt", Fields [("burntFunds", "u128")]); ("Rollover", Fields [("rolloverBalance", "u128")]);
  ("Deposit", Fields [("value", "u128")]);
  ("SpendApproved", Fields [("proposalIndex", "u32"); ("amount", "u128"); ("beneficiary", "AccountId32")]);
  ("UpdatedInactive", Fields [("reactivated", "u128"); ("deactivated", "u128")]);
  ("AssetSpendApproved", Fields [("index", "u32"); ("assetKind", "Null"); ("amount", "u128"); ("beneficiary", "AccountId32"); ("validFrom", "u32"); ("expireAt", "u32")]);
  ("AssetSpendVoided", Fields [("index", "u32")]); ("Paid", Fields [("index", "u32"); ("paymentId", "Null")]);
  ("PaymentFailed", Fields [("index", "u32"); ("paymentId", "Null")]);
  ("SpendProcessed", Fields [("index", "u32")])].

Definition PalletSudoEvent : type_def :=
  Enum [
  ("Sudid", Fields [("sudoResult", "Result<Null, SpRuntimeDispatchError>")]);
  ("KeyChanged", AliasedFields [("new_", "new")] [("old", "Option<AccountId32>"); ("new_", "AccountId32")]);
  ("KeyRemoved", Of "Null"); ("SudoAsDone", Fields [("sudoResult", "Result<Null, SpRuntimeDispatchError>")])].

Definition OrmlVestingModuleEvent : type_def :=
  Enum [
  ("VestingScheduleAdded", Fields [("from", "AccountId32"); ("to", "AccountId32"); ("vestingSchedule", "OrmlVestingVestingSchedule")]);
  ("Claimed", Fields [("who", "AccountId32"); ("amount", "u128")]);
  ("VestingSchedulesUpdated", Fields [("who", "AccountId32")])].

Definition OrmlVestingVestingSchedule : type_def :=
  Struct [
  ("start", "u32"); ("period", "u32"); ("periodCount", "u32"); ("perPeriod", "Compact<u128>")].

Definition OrmlXtokensModuleEvent : type_def :=
  Enum [
  ("TransferredAssets", Fields [("sender", "AccountId32"); ("assets", "StagingXcmV5AssetAssets"); ("fee", "StagingXcmV5Asset"); ("dest", "StagingXcmV5Location")])].

Definition StagingXcmV5AssetAssets : type_def :=
  Alias "Vec<StagingXcmV5Asset>".

Definition StagingXcmV5Asset : type_def :=
  Struct [("id", "StagingXcmV5AssetAssetId"); ("fun", "StagingXcmV5AssetFungibility")].

Definition StagingXcmV5AssetAssetId : type_def :=
  Alias "StagingXcmV5Location".

Definition StagingXcmV5Location : type_def :=
  Struct [("parents", "u8"); ("interior", "StagingXcmV5Junctions")].

Definition StagingXcmV5Junctions : type_def :=
  Enum [
  ("Here", Of "Null"); ("X1", Of "[Lookup58;1]"); ("X2", Of "[Lookup58;2]"); ("X3", Of "[Lookup58;3]");
  ("X4", Of "[Lookup58;4]"); ("X5", Of "[Lookup58;5]"); ("X6", Of "[Lookup58;6]"); ("X7", Of "[Lookup58;7]");
  ("X8", Of "[Lookup58;8]")].

Definition StagingXcmV5Junction : type_def :=
  Enum [
  ("Parachain", Of "Compact<u32>");
  ("AccountId32", Fields [("network", "Option<StagingXcmV5JunctionNetworkId>"); ("id", "[u8;32]")]);
  ("AccountIndex64", Fields [("network", "Option<StagingXcmV5JunctionNetworkId>"); ("index", "Compact<u64>")]);
  ("AccountKey20", Fields [("network", "Option<StagingXcmV5JunctionNetworkId>"); ("key", "[u8;20]")]);
  ("PalletInstance", Of "u8"); ("GeneralIndex", Of "Compact<u128>");
  ("GeneralKey", Fields [("length", "u8"); ("data", "[u8;32]")]); ("OnlyChild", Of "Null");
  ("Plurality", Fields [("id", "XcmV3JunctionBodyId"); ("part", "XcmV3JunctionBodyPart")]);
  ("GlobalConsensus", Of "StagingXcmV5JunctionNetworkId")].

Definition StagingXcmV5JunctionNetworkId : type_def :=
  Enum [
  ("ByGenesis", Of "[u8;32]"); ("ByFork", Fields [("blockNumber", "u64"); ("blockHash", "[u8;32]")]);
  ("Polkadot", Of "Null"); ("Kusama", Of "Null"); ("__Unused4", Of "Null"); ("__Unused5", Of "Null");
  ("__Unused6", Of "Null"); ("Ethereum", Fields [("chainId", "Compact<u64>")]); ("BitcoinCore", Of "Null");
  ("BitcoinCash", Of "Null"); ("PolkadotBulletin", Of "Null")].

Definition XcmV3JunctionBodyId : type_def :=
  Enum [
  ("Unit", Of "Null"); ("Moniker", Of "[u8;4]"); ("Index", Of "Compact<u32>"); ("Executive", Of "Null");
  ("Technical", Of "Null"); ("Legislative", Of "Null"); ("Judicial", Of "Null"); ("Defense", Of "Null");
  ("Administration", Of "Null"); ("Treasury", Of "Null")].

Definition XcmV3JunctionBodyPart : type_def :=
  Enum [
  ("Voice", Of "Null"); ("Members", Fields [("count", "Compact<u32>")]);
  ("Fraction", Fields [("nom", "Compact<u32>"); ("denom", "Compact<u32>")]);
  ("AtLeastProportion", Fields [("nom", "Compact<u32>"); ("denom", "Compact<u32>")]);
  ("MoreThanProportion", Fields [("nom", "Compact<u32>"); ("denom", "Compact<u32>")])].

Definition StagingXcmV5AssetFungibility : type_def :=
  Enum [
  ("Fungible", Of "Compact<u128>"); ("NonFungible", Of "StagingXcmV5AssetAssetInstance")].

Definition StagingXcmV5AssetAssetInstance : type_def :=
  Enum [
  ("Undefined", Of "Null"); ("Index", Of "Compact<u128>"); ("Array4", Of "[u8;4]"); ("Array8", Of "[u8;8]");
  ("Array16", Of "[u8;16]"); ("Array32", Of "[u8;32]")].

Definition PalletIdentityEvent : type_def :=
  Enum [
  ("IdentitySet", Fields [("who", "AccountId32")]);
  ("IdentityCleared", Fields [("who", "AccountId32"); ("deposit", "u128")]);
  ("IdentityKilled", Fields [("who", "AccountId32"); ("deposit", "u128")]);
  ("IdentitiesInserted", Fields [("amount", "u32")]); ("IdentitiesRemoved", Fields [("amount", "u32")]);
  ("JudgementRequested", Fields [("who", "AccountId32"); ("registrarIndex", "u32")]);
  ("JudgementUnrequested", Fields [("who", "AccountId32"); ("registrarIndex", "u32")]);
  ("JudgementGiven", Fields [("target", "AccountId32"); ("registrarIndex", "u32")]);
  ("RegistrarAdded", Fields [("registrarIndex", "u32")]);
  ("SubIdentityAdded", Fields [("sub", "AccountId32"); ("main", "AccountId32"); ("deposit", "u128")]);
  ("SubIdentityRemoved", Fields [("sub", "AccountId32"); ("main", "AccountId32"); ("deposit", "u128")]);
  ("SubIdentityRevoked", Fields [("sub", "AccountId32"); ("main", "AccountId32"); ("deposit", "u128")]);
  ("SubIdentitiesInserted", Fields [("amount", "u32")])].

Definition PalletPreimageEvent : type_def :=
  Enum [
  ("Noted", AliasedFields [("hash_", "hash")] [("hash_", "H256")]);
  ("Requested", AliasedFields [("hash_", "hash")] [("hash_", "H256")]);
  ("Cleared", AliasedFields [("hash_", "hash")] [("hash_", "H256")])].

Definition PalletDemocracyEvent : type_def :=
  Enum [
  ("Proposed", Fields [("proposalIndex", "u32"); ("deposit", "u128")]);
  ("Tabled", Fields [("proposalIndex", "u32"); ("deposit", "u128")]); ("ExternalTabled", Of "Null");
  ("Started", Fields [("refIndex", "u32"); ("threshold", "PalletDemocracyVoteThreshold")]);
  ("Passed", Fields [("refIndex", "u32")]); ("NotPassed", Fields [("refIndex", "u32")]);
  ("Cancelled", Fields [("refIndex", "u32")]);
  ("Delegated", Fields [("who", "AccountId32"); ("target", "AccountId32")]);
  ("Undelegated", Fields [("account", "AccountId32")]);
  ("Vetoed", Fields [("who", "AccountId32"); ("proposalHash", "H256"); ("until", "u32")]);
  ("Blacklisted", Fields [("proposalHash", "H256")]);
  ("Voted", Fields [("voter", "AccountId32"); ("refIndex", "u32"); ("vote", "PalletDemocracyVoteAccountVote")]);
  ("Seconded", Fields [("seconder", "AccountId32"); ("propIndex", "u32")]);
  ("ProposalCanceled", Fields [("propIndex", "u32")]);
  ("MetadataSet", AliasedFields [("hash_", "hash")] [("owner", "PalletDemocracyMetadataOwner"); ("hash_", "H256")]);
  ("MetadataCleared", AliasedFields [("hash_", "hash")] [("owner", "PalletDemocracyMetadataOwner"); ("hash_", "H256")]);
  ("MetadataTransferred", AliasedFields [("hash_", "hash")] [("prevOwner", "PalletDemocracyMetadataOwner"); ("owner", "PalletDemocracyMetadataOwner"); ("hash_", "H256")])].

Definition PalletDemocracyVoteThreshold : type_def :=
  Names ["SuperMajorityApprove"; "SuperMajorityAgainst"; "SimpleMajority"].

Definition PalletDemocracyVoteAccountVote : type_def :=
  Enum [
  ("Standard", Fields [("vote", "Vote"); ("balance", "u128")]);
  ("Split", Fields [("aye", "u128"); ("nay", "u128")])].

Definition PalletDemocracyMetadataOwner : type_def :=
  Enum [("External", Of "Null"); ("Proposal", Of "u32"); ("Referendum", Of "u32")].

Definition PalletCollectiveEvent : type_def :=
  Enum [
  ("Proposed", Fields [("account", "AccountId32"); ("proposalIndex", "u32"); ("proposalHash", "H256"); ("threshold", "u32")]);
  ("Voted", Fields [("account", "AccountId32"); ("proposalHash", "H256"); ("voted", "bool"); ("yes", "u32"); ("no", "u32")]);
  ("Approved", Fields [("proposalHash", "H256")]); ("Disapproved", Fields [("proposalHash", "H256")]);
  ("Executed", Fields [("proposalHash", "H256"); ("result", "Result<Null, SpRuntimeDispatchError>")]);
  ("MemberExecuted", Fields [("proposalHash", "H256"); ("result", "Result<Null, SpRuntimeDispatchError>")]);
  ("Closed", Fields [("proposalHash", "H256"); ("yes", "u32"); ("no", "u32")]);
  ("Killed", Fields [("proposalHash", "H256")]);
  ("ProposalCostBurned", Fields [("proposalHash", "H256"); ("who", "AccountId32")]);
  ("ProposalCostReleased", Fields [("proposalHash", "H256"); ("who", "AccountId32")])].

Definition PalletMembershipEvent : type_def :=
  Names [
  "MemberAdded"; "MemberRemoved"; "MembersSwapped"; "MembersReset"; "KeyChanged"; "Dummy"].

Definition PalletRankedCollectiveEvent : type_def :=
  Enum [
  ("MemberAdded", Fields [("who", "AccountId32")]);
  ("RankChanged", Fields [("who", "AccountId32"); ("rank", "u16")]);
  ("MemberRemoved", Fields [("who", "AccountId32"); ("rank", "u16")]);
  ("Voted", Fields [("who", "AccountId32"); ("poll", "u32"); ("vote", "PalletRankedCollectiveVoteRecord"); ("tally", "PalletRankedCollectiveTally")]);
  ("MemberExchanged", Fields [("who", "AccountId32"); ("newWho", "AccountId32")])].

Definition PalletRankedCollectiveVoteRecord : type_def :=
  Enum [("Aye", Of "u32"); ("Nay", Of "u32")].

Definition PalletRankedCollectiveTally : type_def :=
  Struct [("bareAyes", "u32"); ("ayes", "u32"); ("nays", "u32")].

Definition PalletReferendaEvent : type_def :=
  Enum [
  ("Submitted", Fields [("index", "u32"); ("track", "u16"); ("proposal", "FrameSupportPreimagesBounded")]);
  ("DecisionDepositPlaced", Fields [("index", "u32"); ("who", "AccountId32"); ("amount", "u128")]);
  ("DecisionDepositRefunded", Fields [("index", "u32"); ("who", "AccountId32"); ("amount", "u128")]);
  ("DepositSlashed", Fields [("who", "AccountId32"); ("amount", "u128")]);
  ("DecisionStarted", Fields [("index", "u32"); ("track", "u16"); ("proposal", "FrameSupportPreimagesBounded"); ("tally", "PalletRankedCollectiveTally")]);
  ("ConfirmStarted", Fields [("index", "u32")]); ("ConfirmAborted", Fields [("index", "u32")]);
  ("Confirmed", Fields [("index", "u32"); ("tally", "PalletRankedCollectiveTally")]);
  ("Approved", Fields [("index", "u32")]);
  ("Rejected", Fields [("index", "u32"); ("tally", "PalletRankedCollectiveTally")]);
  ("TimedOut", Fields [("index", "u32"); ("tally", "PalletRankedCollectiveTally")]);
  ("Cancelled", Fields [("index", "u32"); ("tally", "PalletRankedCollectiveTally")]);
  ("Killed", Fields [("index", "u32"); ("tally", "PalletRankedCollectiveTally")]);
  ("SubmissionDepositRefunded", Fields [("index", "u32"); ("who", "AccountId32"); ("amount", "u128")]);
  ("MetadataSet", AliasedFields [("hash_", "hash")] [("index", "u32"); ("hash_", "H256")]);
  ("MetadataCleared", AliasedFields [("hash_", "hash")] [("index", "u32"); ("hash_", "H256")])].

Definition FrameSupportPreimagesBounded : type_def :=
  Enum [
  ("Legacy", AliasedFields [("hash_", "hash")] [("hash_", "H256")]); ("Inline", Of "Bytes");
  ("Lookup", AliasedFields [("hash_", "hash")] [("hash_", "H256"); ("len", "u32")])].

Definition FrameSystemCall : type_def :=
  Enum [
  ("remark", Fields [("remark", "Bytes")]); ("set_heap_pages", Fields [("pages", "u64")]);
  ("set_code", Fields [("code", "Bytes")]); ("set_code_without_checks", Fields [("code", "Bytes")]);
  ("set_storage", Fields [("items", "Vec<(Bytes,Bytes)>")]);
  ("kill_storage", AliasedFields [("keys_", "keys")] [("keys_", "Vec<Bytes>")]);
  ("kill_prefix", Fields [("prefix", "Bytes"); ("subkeys", "u32")]);
  ("remark_with_event", Fields [("remark", "Bytes")]); ("__Unused8", Of "Null");
  ("authorize_upgrade", Fields [("codeHash", "H256")]);
  ("authorize_upgrade_without_checks", Fields [("codeHash", "H256")]);
  ("apply_authorized_upgrade", Fields [("code", "Bytes")])].

Definition PalletStateTrieMigrationCall : type_def :=
  Enum [
  ("control_auto_migration", Fields [("maybeConfig", "Option<PalletStateTrieMigrationMigrationLimits>")]);
  ("continue_migrate", Fields [("limits", "PalletStateTrieMigrationMigrationLimits"); ("realSizeUpper", "u32"); ("witnessTask", "PalletStateTrieMigrationMigrationTask")]);
  ("migrate_custom_top", AliasedFields [("keys_", "keys")] [("keys_", "Vec<Bytes>"); ("witnessSize", "u32")]);
  ("migrate_custom_child", Fields [("root", "Bytes"); ("childKeys", "Vec<Bytes>"); ("totalSize", "u32")]);
  ("set_signed_max_limits", Fields [("limits", "PalletStateTrieMigrationMigrationLimits")]);
  ("force_set_progress", Fields [("progressTop", "PalletStateTrieMigrationProgress"); ("progressChild", "PalletStateTrieMigrationProgress")])].

Definition PalletStateTrieMigrationMigrationLimits : type_def :=
  AliasedStruct [("size_", "size")] [("size_", "u32"); ("item", "u32")].

Definition PalletStateTrieMigrationMigrationTask : type_def :=
  AliasedStruct [("size_", "size")] [
  ("progressTop", "PalletStateTrieMigrationProgress"); ("progressChild", "PalletStateTrieMigrationProgress");
  ("size_", "u32"); ("topItems", "u32"); ("childItems", "u32")].

Definition PalletStateTrieMigrationProgress : type_def :=
  Enum [("ToStart", Of "Null"); ("LastKey", Of "Bytes"); ("Complete", Of "Null")].

Definition CumulusPalletParachainSystemCall : type_def :=
  Enum [
  ("set_validation_data", Fields [("data", "CumulusPrimitivesParachainInherentParachainInherentData")]);
  ("sudo_send_upward_message", Fields [("message", "Bytes")])].

Definition CumulusPrimitivesParachainInherentParachainInherentData : type_def :=
  Struct [
  ("validationData", "PolkadotPrimitivesV8PersistedValidationData"); ("relayChainState", "SpTrieStorageProof");
  ("downwardMessages", "Vec<PolkadotCorePrimitivesInboundDownwardMessage>");
  ("horizontalMessages", "BTreeMap<u32, Vec<PolkadotCorePrimitivesInboundHrmpMessage>>")].

Definition PolkadotPrimitivesV8PersistedValidationData : type_def :=
  Struct [
  ("parentHead", "Bytes"); ("relayParentNumber", "u32"); ("relayParentStorageRoot", "H256");
  ("maxPovSize", "u32")].

Definition SpTrieStorageProof : type_def :=
  Struct [("trieNodes", "BTreeSet<Bytes>")].

Definition PolkadotCorePrimitivesInboundDownwardMessage : type_def :=
  Struct [("sentAt", "u32"); ("msg", "Bytes")].

Definition PolkadotCorePrimitivesInboundHrmpMessage : type_def :=
  Struct [("sentAt", "u32"); ("data", "Bytes")].

Definition StagingParachainInfoCall : type_def :=
  Alias "Null".

Definition PalletCollatorSelectionCall : type_def :=
  Enum [
  ("add_invulnerable", AliasedFields [("new_", "new")] [("new_", "AccountId32")]);
  ("remove_invulnerable", Fields [("who", "AccountId32")]); ("get_license", Of "Null"); ("onboard", Of "Null");
  ("offboard", Of "Null"); ("release_license", Of "Null");
  ("force_release_license", Fields [("who", "AccountId32")])].

Definition PalletSessionCall : type_def :=
  Enum [
  ("set_keys", AliasedFields [("keys_", "keys")] [("keys_", "OpalRuntimeRuntimeCommonSessionKeys"); ("proof", "Bytes")]);
  ("purge_keys", Of "Null")].

Definition OpalRuntimeRuntimeCommonSessionKeys : type_def :=
  Struct [("aura", "SpConsensusAuraSr25519AppSr25519Public")].

Definition SpConsensusAuraSr25519AppSr25519Public : type_def :=
  Alias "[u8;32]".

Definition PalletBalancesCall : type_def :=
  Enum [
  ("transfer_allow_death", Fields [("dest", "MultiAddress"); ("value", "Compact<u128>")]);
  ("__Unused1", Of "Null");
  ("force_transfer", Fields [("source", "MultiAddress"); ("dest", "MultiAddress"); ("value", "Compact<u128>")]);
  ("transfer_keep_alive", Fields [("dest", "MultiAddress"); ("value", "Compact<u128>")]);
  ("transfer_all", Fields [("dest", "MultiAddress"); ("keepAlive", "bool")]);
  ("force_unreserve", Fields [("who", "MultiAddress"); ("amount", "u128")]);
  ("upgrade_accounts", Fields [("who", "Vec<AccountId32>")]); ("__Unused7", Of "Null");
  ("force_set_balance", Fields [("who", "MultiAddress"); ("newFree", "Compact<u128>")]);
  ("force_adjust_total_issuance", Fields [("direction", "PalletBalancesAdjustmentDirection"); ("delta", "Compact<u128>")]);
  ("burn", Fields [("value", "Compact<u128>"); ("keepAlive", "bool")])].

Definition PalletBalancesAdjustmentDirection : type_def :=
  Names ["Increase"; "Decrease"].

Definition PalletTimestampCall : type_def :=
  Enum [("set", Fields [("now", "Compact<u64>")])].

Definition PalletTreasuryCall : type_def :=
  Enum [
  ("__Unused0", Of "Null"); ("__Unused1", Of "Null"); ("__Unused2", Of "Null");
  ("spend_local", Fields [("amount", "Compact<u128>"); ("beneficiary", "MultiAddress")]);
  ("remove_approval", Fields [("proposalId", "Compact<u32>")]);
  ("spend", Fields [("assetKind", "Null"); ("amount", "Compact<u128>"); ("beneficiary", "AccountId32"); ("validFrom", "Option<u32>")]);
  ("payout", Fields [("index", "u32")]); ("check_status", Fields [("index", "u32")]);
  ("void_spend", Fields [("index", "u32")])].

Definition PalletSudoCall : type_def :=
  Enum [
  ("sudo", Fields [("call", "Call")]);
  ("sudo_unchecked_weight", Fields [("call", "Call"); ("weight", "SpWeightsWeightV2Weight")]);
  ("set_key", AliasedFields [("new_", "new")] [("new_", "MultiAddress")]);
  ("sudo_as", Fields [("who", "MultiAddress"); ("call", "Call")]); ("remove_key", Of "Null")].

Definition OrmlVestingModuleCall : type_def :=
  Enum [
  ("claim", Of "Null");
  ("vested_transfer", Fields [("dest", "MultiAddress"); ("schedule", "OrmlVestingVestingSchedule")]);
  ("update_vesting_schedules", Fields [("who", "MultiAddress"); ("vestingSchedules", "Vec<OrmlVestingVestingSchedule>")]);
  ("claim_for", Fields [("dest", "MultiAddress")])].

Definition OrmlXtokensModuleCall : type_def :=
  Enum [
  ("transfer", Fields [("currencyId", "u32"); ("amount", "u128"); ("dest", "XcmVersionedLocation"); ("destWeightLimit", "XcmV3WeightLimit")]);
  ("transfer_multiasset", Fields [("asset", "XcmVersionedAsset"); ("dest", "XcmVersionedLocation"); ("destWeightLimit", "XcmV3WeightLimit")]);
  ("transfer_with_fee", Fields [("currencyId", "u32"); ("amount", "u128"); ("fee", "u128"); ("dest", "XcmVersionedLocation"); ("destWeightLimit", "XcmV3WeightLimit")]);
  ("transfer_multiasset_with_fee", Fields [("asset", "XcmVersionedAsset"); ("fee", "XcmVersionedAsset"); ("dest", "XcmVersionedLocation"); ("destWeightLimit", "XcmV3WeightLimit")]);
  ("transfer_multicurrencies", Fields [("currencies", "Vec<(u32,u128)>"); ("feeItem", "u32"); ("dest", "XcmVersionedLocation"); ("destWeightLimit", "XcmV3WeightLimit")]);
  ("transfer_multiassets", Fields [("assets", "XcmVersionedAssets"); ("feeItem", "u32"); ("dest", "XcmVersionedLocation"); ("destWeightLimit", "XcmV3WeightLimit")])].

Definition XcmVersionedLocation : type_def :=
  Enum [
  ("__Unused0", Of "Null"); ("__Unused1", Of "Null"); ("__Unused2", Of "Null");
  ("V3", Of "StagingXcmV3MultiLocation"); ("V4", Of "StagingXcmV4Location"); ("V5", Of "StagingXcmV5Location")].

Definition StagingXcmV3MultiLocation : type_def :=
  Struct [("parents", "u8"); ("interior", "XcmV3Junctions")].

Definition XcmV3Junctions : type_def :=
  Enum [
  ("Here", Of "Null"); ("X1", Of "XcmV3Junction"); ("X2", Of "(XcmV3Junction,XcmV3Junction)");
  ("X3", Of "(XcmV3Junction,XcmV3Junction,XcmV3Junction)");
  ("X4", Of "(XcmV3Junction,XcmV3Junction,XcmV3Junction,XcmV3Junction)");
  ("X5", Of "(XcmV3Junction,XcmV3Junction,XcmV3Junction,XcmV3Junction,XcmV3Junction)");
  ("X6", Of "(XcmV3Junction,XcmV3Junction,XcmV3Junction,XcmV3Junction,XcmV3Junction,XcmV3Junction)");
  ("X7", Of "(XcmV3Junction,XcmV3Junction,XcmV3Junction,XcmV3Junction,XcmV3Junction,XcmV3Junction,XcmV3Junction)");
  ("X8", Of "(XcmV3Junction,XcmV3Junction,XcmV3Junction,XcmV3Junction,XcmV3Junction,XcmV3Junction,XcmV3Junction,XcmV3Junction)")].

Definition XcmV3Junction : type_def :=
  Enum [
  ("Parachain", Of "Compact<u32>");
  ("AccountId32", Fields [("network", "Option<XcmV3JunctionNetworkId>"); ("id", "[u8;32]")]);
  ("AccountIndex64", Fields [("network", "Option<XcmV3JunctionNetworkId>"); ("index", "Compact<u64>")]);
  ("AccountKey20", Fields [("network", "Option<XcmV3JunctionNetworkId>"); ("key", "[u8;20]")]);
  ("PalletInstance", Of "u8"); ("GeneralIndex", Of "Compact<u128>");
  ("GeneralKey", Fields [("length", "u8"); ("data", "[u8;32]")]); ("OnlyChild", Of "Null");
  ("Plurality", Fields [("id", "XcmV3JunctionBodyId"); ("part", "XcmV3JunctionBodyPart")]);
  ("GlobalConsensus", Of "XcmV3JunctionNetworkId")].

Definition XcmV3JunctionNetworkId : type_def :=
  Enum [
  ("ByGenesis", Of "[u8;32]"); ("ByFork", Fields [("blockNumber", "u64"); ("blockHash", "[u8;32]")]);
  ("Polkadot", Of "Null"); ("Kusama", Of "Null"); ("Westend", Of "Null"); ("Rococo", Of "Null");
  ("Wococo", Of "Null"); ("Ethereum", Fields [("chainId", "Compact<u64>")]); ("BitcoinCore", Of "Null");
  ("BitcoinCash", Of "Null"); ("PolkadotBulletin", Of "Null")].

Definition StagingXcmV4Location : type_def :=
  Struct [("parents", "u8"); ("interior", "StagingXcmV4Junctions")].

Definition StagingXcmV4Junctions : type_def :=
  Enum [
  ("Here", Of "Null"); ("X1", Of "[Lookup145;1]"); ("X2", Of "[Lookup145;2]"); ("X3", Of "[Lookup145;3]");
  ("X4", Of "[Lookup145;4]"); ("X5", Of "[Lookup145;5]"); ("X6", Of "[Lookup145;6]");
  ("X7", Of "[Lookup145;7]"); ("X8", Of "[Lookup145;8]")].

Definition StagingXcmV4Junction : type_def :=
  Enum [
  ("Parachain", Of "Compact<u32>");
  ("AccountId32", Fields [("network", "Option<StagingXcmV4JunctionNetworkId>"); ("id", "[u8;32]")]);
  ("AccountIndex64", Fields [("network", "Option<StagingXcmV4JunctionNetworkId>"); ("index", "Compact<u64>")]);
  ("AccountKey20", Fields [("network", "Option<StagingXcmV4JunctionNetworkId>"); ("key", "[u8;20]")]);
  ("PalletInstance", Of "u8"); ("GeneralIndex", Of "Compact<u128>");
  ("GeneralKey", Fields [("length", "u8"); ("data", "[u8;32]")]); ("OnlyChild", Of "Null");
  ("Plurality", Fields [("id", "XcmV3JunctionBodyId"); ("part", "XcmV3JunctionBodyPart")]);
  ("GlobalConsensus", Of "StagingXcmV4JunctionNetworkId")].

Definition StagingXcmV4JunctionNetworkId : type_def :=
  Enum [
  ("ByGenesis", Of "[u8;32]"); ("ByFork", Fields [("blockNumber", "u64"); ("blockHash", "[u8;32]")]);
  ("Polkadot", Of "Null"); ("Kusama", Of "Null"); ("Westend", Of "Null"); ("Rococo", Of "Null");
  ("Wococo", Of "Null"); ("Ethereum", Fields [("chainId", "Compact<u64>")]); ("BitcoinCore", Of "Null");
  ("BitcoinCash", Of "Null"); ("PolkadotBulletin", Of "Null")].

Definition XcmV3WeightLimit : type_def :=
  Enum [("Unlimited", Of "Null"); ("Limited", Of "SpWeightsWeightV2Weight")].

Definition XcmVersionedAsset : type_def :=
  Enum [
  ("__Unused0", Of "Null"); ("__Unused1", Of "Null"); ("__Unused2", Of "Null"); ("V3", Of "XcmV3MultiAsset");
  ("V4", Of "StagingXcmV4Asset"); ("V5", Of "StagingXcmV5Asset")].

Definition XcmV3MultiAsset : type_def :=
  Struct [("id", "XcmV3MultiassetAssetId"); ("fun", "XcmV3MultiassetFungibility")].

Definition XcmV3MultiassetAssetId : type_def :=
  Enum [("Concrete", Of "StagingXcmV3MultiLocation"); ("Abstract", Of "[u8;32]")].

Definition XcmV3MultiassetFungibility : type_def :=
  Enum [
  ("Fungible", Of "Compact<u128>"); ("NonFungible", Of "XcmV3MultiassetAssetInstance")].

Definition XcmV3MultiassetAssetInstance : type_def :=
  Enum [
  ("Undefined", Of "Null"); ("Index", Of "Compact<u128>"); ("Array4", Of "[u8;4]"); ("Array8", Of "[u8;8]");
  ("Array16", Of "[u8;16]"); ("Array32", Of "[u8;32]")].

Definition StagingXcmV4Asset : type_def :=
  Struct [("id", "StagingXcmV4AssetAssetId"); ("fun", "StagingXcmV4AssetFungibility")].

Definition StagingXcmV4AssetAssetId : type_def :=
  Alias "StagingXcmV4Location".

Definition StagingXcmV4AssetFungibility : type_def :=
  Enum [
  ("Fungible", Of "Compact<u128>"); ("NonFungible", Of "StagingXcmV4AssetAssetInstance")].

Definition StagingXcmV4AssetAssetInstance : type_def :=
  Enum [
  ("Undefined", Of "Null"); ("Index", Of "Compact<u128>"); ("Array4", Of "[u8;4]"); ("Array8", Of "[u8;8]");
  ("Array16", Of "[u8;16]"); ("Array32", Of "[u8;32]")].

Definition XcmVersionedAssets : type_def :=
  Enum [
  ("__Unused0", Of "Null"); ("__Unused1", Of "Null"); ("__Unused2", Of "Null");
  ("V3", Of "XcmV3MultiassetMultiAssets"); ("V4", Of "StagingXcmV4AssetAssets");
  ("V5", Of "StagingXcmV5AssetAssets")].

Definition XcmV3MultiassetMultiAssets : type_def :=
  Alias "Vec<XcmV3MultiAsset>".

Definition StagingXcmV4AssetAssets : type_def :=
  Alias "Vec<StagingXcmV4Asset>".

Definition PalletIdentityCall : type_def :=
  Enum [
  ("add_registrar", Fields [("account", "MultiAddress")]);
  ("set_identity", Fields [("info", "PalletIdentityIdentityInfo")]);
  ("set_subs", Fields [("subs", "Vec<(AccountId32,Data)>")]); ("clear_identity", Of "Null");
  ("request_judgement", Fields [("regIndex", "Compact<u32>"); ("maxFee", "Compact<u128>")]);
  ("cancel_request", Fields [("regIndex", "u32")]);
  ("set_fee", Fields [("index", "Compact<u32>"); ("fee", "Compact<u128>")]);
  ("set_account_id", AliasedFields [("new_", "new")] [("index", "Compact<u32>"); ("new_", "MultiAddress")]);
  ("set_fields", Fields [("index", "Compact<u32>"); ("fields", "PalletIdentityBitFlags")]);
  ("provide_judgement", Fields [("regIndex", "Compact<u32>"); ("target", "MultiAddress"); ("judgement", "PalletIdentityJudgement"); ("identity", "H256")]);
  ("kill_identity", Fields [("target", "MultiAddress")]);
  ("add_sub", Fields [("sub", "MultiAddress"); ("data", "Data")]);
  ("rename_sub", Fields [("sub", "MultiAddress"); ("data", "Data")]);
  ("remove_sub", Fields [("sub", "MultiAddress")]); ("quit_sub", Of "Null");
  ("force_insert_identities", Fields [("identities", "Vec<(AccountId32,PalletIdentityRegistration)>")]);
  ("force_remove_identities", Fields [("identities", "Vec<AccountId32>")]);
  ("force_set_subs", Fields [("subs", "Vec<(AccountId32,(u128,Vec<(AccountId32,Data)>))>")])].

Definition PalletIdentityIdentityInfo : type_def :=
  Struct [
  ("additional", "Vec<(Data,Data)>"); ("display", "Data"); ("legal", "Data"); ("web", "Data"); ("riot", "Data");
  ("email", "Data"); ("pgpFingerprint", "Option<[u8;20]>"); ("image", "Data"); ("twitter", "Data")].

Definition PalletIdentityBitFlags : type_def :=
  Struct [
  ("_bitLength", "64"); ("Display", "1"); ("Legal", "2"); ("Web", "4"); ("Riot", "8"); ("Email", "16");
  ("PgpFingerprint", "32"); ("Image", "64"); ("Twitter", "128")].

Definition PalletIdentityIdentityField : type_def :=
  Names [
  "__Unused0"; "Display"; "Legal"; "__Unused3"; "Web"; "__Unused5"; "__Unused6"; "__Unused7"; "Riot";
  "__Unused9"; "__Unused10"; "__Unused11"; "__Unused12"; "__Unused13"; "__Unused14"; "__Unused15"; "Email";
  "__Unused17"; "__Unused18"; "__Unused19"; "__Unused20"; "__Unused21"; "__Unused22"; "__Unused23";
  "__Unused24"; "__Unused25"; "__Unused26"; "__Unused27"; "__Unused28"; "__Unused29"; "__Unused30";
  "__Unused31"; "PgpFingerprint"; "__Unused33"; "__Unused34"; "__Unused35"; "__Unused36"; "__Unused37";
  "__Unused38"; "__Unused39"; "__Unused40"; "__Unused41"; "__Unused42"; "__Unused43"; "__Unused44";
  "__Unused45"; "__Unused46"; "__Unused47"; "__Unused48"; "__Unused49"; "__Unused50"; "__Unused51";
  "__Unused52"; "__Unused53"; "__Unused54"; "__Unused55"; "__Unused56"; "__Unused57"; "__Unused58";
  "__Unused59"; "__Unused60"; "__Unused61"; "__Unused62"; "__Unused63"; "Image"; "__Unused65"; "__Unused66";
  "__Unused67"; "__Unused68"; "__Unused69"; "__Unused70"; "__Unused71"; "__Unused72"; "__Unused73";
  "__Unused74"; "__Unused75"; "__Unused76"; "__Unused77"; "__Unused78"; "__Unused79"; "__Unused80";
  "__Unused81"; "__Unused82"; "__Unused83"; "__Unused84"; "__Unused85"; "__Unused86"; "__Unused87";
  "__Unused88"; "__Unused89"; "__Unused90"; "__Unused91"; "__Unused92"; "__Unused93"; "__Unused94";
  "__Unused95"; "__Unused96"; "__Unused97"; "__Unused98"; "__Unused99"; "__Unused100"; "__Unused101";
  "__Unused102"; "__Unused103"; "__Unused104"; "__Unused105"; "__Unused106"; "__Unused107"; "__Unused108";
  "__Unused109"; "__Unused110"; "__Unused111"; "__Unused112"; "__Unused113"; "__Unused114"; "__Unused115";
  "__Unused116"; "__Unused117"; "__Unused118"; "__Unused119"; "__Unused120"; "__Unused121"; "__Unused122";
  "__Unused123"; "__Unused124"; "__Unused125"; "__Unused126"; "__Unused127"; "Twitter"].

Definition PalletIdentityJudgement : type_def :=
  Enum [
  ("Unknown", Of "Null"); ("FeePaid", Of "u128"); ("Reasonable", Of "Null"); ("KnownGood", Of "Null");
  ("OutOfDate", Of "Null"); ("LowQuality", Of "Null"); ("Erroneous", Of "Null")].

Definition PalletIdentityRegistration : type_def :=
  Struct [
  ("judgements", "Vec<(u32,PalletIdentityJudgement)>"); ("deposit", "u128");
  ("info", "PalletIdentityIdentityInfo")].

Definition PalletPreimageCall : type_def :=
  Enum [
  ("note_preimage", Fields [("bytes", "Bytes")]);
  ("unnote_preimage", AliasedFields [("hash_", "hash")] [("hash_", "H256")]);
  ("request_preimage", AliasedFields [("hash_", "hash")] [("hash_", "H256")]);
  ("unrequest_preimage", AliasedFields [("hash_", "hash")] [("hash_", "H256")]);
  ("ensure_updated", Fields [("hashes", "Vec<H256>")])].

Definition PalletDemocracyCall : type_def :=
  Enum [
  ("propose", Fields [("proposal", "FrameSupportPreimagesBounded"); ("value", "Compact<u128>")]);
  ("second", Fields [("proposal", "Compact<u32>")]);
  ("vote", Fields [("refIndex", "Compact<u32>"); ("vote", "PalletDemocracyVoteAccountVote")]);
  ("emergency_cancel", Fields [("refIndex", "u32")]);
  ("external_propose", Fields [("proposal", "FrameSupportPreimagesBounded")]);
  ("external_propose_majority", Fields [("proposal", "FrameSupportPreimagesBounded")]);
  ("external_propose_default", Fields [("proposal", "FrameSupportPreimagesBounded")]);
  ("fast_track", Fields [("proposalHash", "H256"); ("votingPeriod", "u32"); ("delay", "u32")]);
  ("veto_external", Fields [("proposalHash", "H256")]);
  ("cancel_referendum", Fields [("refIndex", "Compact<u32>")]);
  ("delegate", Fields [("to", "MultiAddress"); ("conviction", "PalletDemocracyConviction"); ("balance", "u128")]);
  ("undelegate", Of "Null"); ("clear_public_proposals", Of "Null");
  ("unlock", Fields [("target", "MultiAddress")]); ("remove_vote", Fields [("index", "u32")]);
  ("remove_other_vote", Fields [("target", "MultiAddress"); ("index", "u32")]);
  ("blacklist", Fields [("proposalHash", "H256"); ("maybeRefIndex", "Option<u32>")]);
  ("cancel_proposal", Fields [("propIndex", "Compact<u32>")]);
  ("set_metadata", Fields [("owner", "PalletDemocracyMetadataOwner"); ("maybeHash", "Option<H256>")])].

Definition PalletDemocracyConviction : type_def :=
  Names ["None"; "Locked1x"; "Locked2x"; "Locked3x"; "Locked4x"; "Locked5x"; "Locked6x"].

Definition PalletCollectiveCall : type_def :=
  Enum [
  ("set_members", Fields [("newMembers", "Vec<AccountId32>"); ("prime", "Option<AccountId32>"); ("oldCount", "u32")]);
  ("execute", Fields [("proposal", "Call"); ("lengthBound", "Compact<u32>")]);
  ("propose", Fields [("threshold", "Compact<u32>"); ("proposal", "Call"); ("lengthBound", "Compact<u32>")]);
  ("vote", Fields [("proposal", "H256"); ("index", "Compact<u32>"); ("approve", "bool")]);
  ("__Unused4", Of "Null"); ("disapprove_proposal", Fields [("proposalHash", "H256")]);
  ("close", Fields [("proposalHash", "H256"); ("index", "Compact<u32>"); ("proposalWeightBound", "SpWeightsWeightV2Weight"); ("lengthBound", "Compact<u32>")]);
  ("kill", Fields [("proposalHash", "H256")]); ("release_proposal_cost", Fields [("proposalHash", "H256")])].

Definition PalletMembershipCall : type_def :=
  Enum [
  ("add_member", Fields [("who", "MultiAddress")]); ("remove_member", Fields [("who", "MultiAddress")]);
  ("swap_member", Fields [("remove", "MultiAddress"); ("add", "MultiAddress")]);
  ("reset_members", Fields [("members", "Vec<AccountId32>")]);
  ("change_key", AliasedFields [("new_", "new")] [("new_", "MultiAddress")]);
  ("set_prime", Fields [("who", "MultiAddress")]); ("clear_prime", Of "Null")].

Definition PalletRankedCollectiveCall : type_def :=
  Enum [
  ("add_member", Fields [("who", "MultiAddress")]); ("promote_member", Fields [("who", "MultiAddress")]);
  ("demote_member", Fields [("who", "MultiAddress")]);
  ("remove_member", Fields [("who", "MultiAddress"); ("minRank", "u16")]);
  ("vote", Fields [("poll", "u32"); ("aye", "bool")]);
  ("cleanup_poll", Fields [("pollIndex", "u32"); ("max", "u32")]);
  ("exchange_member", Fields [("who", "MultiAddress"); ("newWho", "MultiAddress")])].

Definition PalletReferendaCall : type_def :=
  Enum [
  ("submit", Fields [("proposalOrigin", "OpalRuntimeOriginCaller"); ("proposal", "FrameSupportPreimagesBounded"); ("enactmentMoment", "FrameSupportScheduleDispatchTime")]);
  ("place_decision_deposit", Fields [("index", "u32")]); ("refund_decision_deposit", Fields [("index", "u32")]);
  ("cancel", Fields [("index", "u32")]); ("kill", Fields [("index", "u32")]);
  ("nudge_referendum", Fields [("index", "u32")]); ("one_fewer_deciding", Fields [("track", "u16")]);
  ("refund_submission_deposit", Fields [("index", "u32")]);
  ("set_metadata", Fields [("index", "u32"); ("maybeHash", "Option<H256>")])].

Definition OpalRuntimeOriginCaller : type_def :=
  Enum [
  ("system", Of "FrameSupportDispatchRawOrigin"); ("__Unused1", Of "Null"); ("__Unused2", Of "Null");
  ("__Unused3", Of "Null"); ("__Unused4", Of "Null"); ("__Unused5", Of "Null"); ("__Unused6", Of "Null");
  ("__Unused7", Of "Null"); ("__Unused8", Of "Null"); ("__Unused9", Of "Null"); ("__Unused10", Of "Null");
  ("__Unused11", Of "Null"); ("__Unused12", Of "Null"); ("__Unused13", Of "Null"); ("__Unused14", Of "Null");
  ("__Unused15", Of "Null"); ("__Unused16", Of "Null"); ("__Unused17", Of "Null"); ("__Unused18", Of "Null");
  ("__Unused19", Of "Null"); ("__Unused20", Of "Null"); ("__Unused21", Of "Null"); ("__Unused22", Of "Null");
  ("__Unused23", Of "Null"); ("__Unused24", Of "Null"); ("__Unused25", Of "Null"); ("__Unused26", Of "Null");
  ("__Unused27", Of "Null"); ("__Unused28", Of "Null"); ("__Unused29", Of "Null"); ("__Unused30", Of "Null");
  ("__Unused31", Of "Null"); ("__Unused32", Of "Null"); ("__Unused33", Of "Null"); ("__Unused34", Of "Null");
  ("__Unused35", Of "Null"); ("__Unused36", Of "Null"); ("__Unused37", Of "Null"); ("__Unused38", Of "Null");
  ("__Unused39", Of "Null"); ("__Unused40", Of "Null"); ("__Unused41", Of "Null"); ("__Unused42", Of "Null");
  ("Council", Of "PalletCollectiveRawOrigin"); ("TechnicalCommittee", Of "PalletCollectiveRawOrigin");
  ("__Unused45", Of "Null"); ("__Unused46", Of "Null"); ("__Unused47", Of "Null"); ("__Unused48", Of "Null");
  ("__Unused49", Of "Null"); ("__Unused50", Of "Null"); ("PolkadotXcm", Of "PalletXcmOrigin");
  ("CumulusXcm", Of "CumulusPalletXcmOrigin"); ("__Unused53", Of "Null"); ("__Unused54", Of "Null");
  ("__Unused55", Of "Null"); ("__Unused56", Of "Null"); ("__Unused57", Of "Null"); ("__Unused58", Of "Null");
  ("__Unused59", Of "Null"); ("__Unused60", Of "Null"); ("__Unused61", Of "Null"); ("__Unused62", Of "Null");
  ("__Unused63", Of "Null"); ("__Unused64", Of "Null"); ("__Unused65", Of "Null"); ("__Unused66", Of "Null");
  ("__Unused67", Of "Null"); ("__Unused68", Of "Null"); ("__Unused69", Of "Null"); ("__Unused70", Of "Null");
  ("__Unused71", Of "Null"); ("__Unused72", Of "Null"); ("__Unused73", Of "Null"); ("__Unused74", Of "Null");
  ("__Unused75", Of "Null"); ("__Unused76", Of "Null"); ("__Unused77", Of "Null"); ("__Unused78", Of "Null");
  ("__Unused79", Of "Null"); ("__Unused80", Of "Null"); ("__Unused81", Of "Null"); ("__Unused82", Of "Null");
  ("__Unused83", Of "Null"); ("__Unused84", Of "Null"); ("__Unused85", Of "Null"); ("__Unused86", Of "Null");
  ("__Unused87", Of "Null"); ("__Unused88", Of "Null"); ("__Unused89", Of "Null"); ("__Unused90", Of "Null");
  ("__Unused91", Of "Null"); ("__Unused92", Of "Null"); ("__Unused93", Of "Null"); ("__Unused94", Of "Null");
  ("__Unused95", Of "Null"); ("__Unused96", Of "Null"); ("FinancialCouncil", Of "PalletCollectiveRawOrigin");
  ("__Unused98", Of "Null"); ("Origins", Of "PalletGovOriginsOrigin"); ("__Unused100", Of "Null");
  ("Ethereum", Of "PalletEthereumRawOrigin")].

Definition FrameSupportDispatchRawOrigin : type_def :=
  Enum [("Root", Of "Null"); ("Signed", Of "AccountId32"); ("None", Of "Null")].

Definition PalletCollectiveRawOrigin : type_def :=
  Enum [("Members", Of "(u32,u32)"); ("Member", Of "AccountId32"); ("_Phantom", Of "Null")].

Definition PalletGovOriginsOrigin : type_def :=
  Names ["FellowshipProposition"].

Definition PalletXcmOrigin : type_def :=
  Enum [("Xcm", Of "StagingXcmV5Location"); ("Response", Of "StagingXcmV5Location")].

Definition CumulusPalletXcmOrigin : type_def :=
  Enum [("Relay", Of "Null"); ("SiblingParachain", Of "u32")].

Definition PalletEthereumRawOrigin : type_def :=
  Enum [("EthereumTransaction", Of "H160")].

Definition FrameSupportScheduleDispatchTime : type_def :=
  Enum [("At", Of "u32"); ("After", Of "u32")].

Definition PalletSchedulerCall : type_def :=
  Enum [
  ("schedule", Fields [("when", "u32"); ("maybePeriodic", "Option<(u32,u32)>"); ("priority", "u8"); ("call", "Call")]);
  ("cancel", Fields [("when", "u32"); ("index", "u32")]);
  ("schedule_named", Fields [("id", "[u8;32]"); ("when", "u32"); ("maybePeriodic", "Option<(u32,u32)>"); ("priority", "u8"); ("call", "Call")]);
  ("cancel_named", Fields [("id", "[u8;32]")]);
  ("schedule_after", Fields [("after", "u32"); ("maybePeriodic", "Option<(u32,u32)>"); ("priority", "u8"); ("call", "Call")]);
  ("schedule_named_after", Fields [("id", "[u8;32]"); ("after", "u32"); ("maybePeriodic", "Option<(u32,u32)>"); ("priority", "u8"); ("call", "Call")]);
  ("set_retry", Fields [("task", "(u32,u32)"); ("retries", "u8"); ("period", "u32")]);
  ("set_retry_named", Fields [("id", "[u8;32]"); ("retries", "u8"); ("period", "u32")]);
  ("cancel_retry", Fields [("task", "(u32,u32)")]); ("cancel_retry_named", Fields [("id", "[u8;32]")])].

Definition CumulusPalletXcmpQueueCall : type_def :=
  Enum [
  ("__Unused0", Of "Null"); ("suspend_xcm_execution", Of "Null"); ("resume_xcm_execution", Of "Null");
  ("update_suspend_threshold", AliasedFields [("new_", "new")] [("new_", "u32")]);
  ("update_drop_threshold", AliasedFields [("new_", "new")] [("new_", "u32")]);
  ("update_resume_threshold", AliasedFields [("new_", "new")] [("new_", "u32")])].

Definition PalletXcmCall : type_def :=
  Enum [
  ("send", Fields [("dest", "XcmVersionedLocation"); ("message", "XcmVersionedXcm")]);
  ("teleport_assets", Fields [("dest", "XcmVersionedLocation"); ("beneficiary", "XcmVersionedLocation"); ("assets", "XcmVersionedAssets"); ("feeAssetItem", "u32")]);
  ("reserve_transfer_assets", Fields [("dest", "XcmVersionedLocation"); ("beneficiary", "XcmVersionedLocation"); ("assets", "XcmVersionedAssets"); ("feeAssetItem", "u32")]);
  ("execute", Fields [("message", "XcmVersionedXcm"); ("maxWeight", "SpWeightsWeightV2Weight")]);
  ("force_xcm_version", Fields [("location", "StagingXcmV5Location"); ("version", "u32")]);
  ("force_default_xcm_version", Fields [("maybeXcmVersion", "Option<u32>")]);
  ("force_subscribe_version_notify", Fields [("location", "XcmVersionedLocation")]);
  ("force_unsubscribe_version_notify", Fields [("location", "XcmVersionedLocation")]);
  ("limited_reserve_transfer_assets", Fields [("dest", "XcmVersionedLocation"); ("beneficiary", "XcmVersionedLocation"); ("assets", "XcmVersionedAssets"); ("feeAssetItem", "u32"); ("weightLimit", "XcmV3WeightLimit")]);
  ("limited_teleport_assets", Fields [("dest", "XcmVersionedLocation"); ("beneficiary", "XcmVersionedLocation"); ("assets", "XcmVersionedAssets"); ("feeAssetItem", "u32"); ("weightLimit", "XcmV3WeightLimit")]);
  ("force_suspension", Fields [("suspended", "bool")]);
  ("transfer_assets", Fields [("dest", "XcmVersionedLocation"); ("beneficiary", "XcmVersionedLocation"); ("assets", "XcmVersionedAssets"); ("feeAssetItem", "u32"); ("weightLimit", "XcmV3WeightLimit")]);
  ("claim_assets", Fields [("assets", "XcmVersionedAssets"); ("beneficiary", "XcmVersionedLocation")]);
  ("transfer_assets_using_type_and_then", Fields [("dest", "XcmVersionedLocation"); ("assets", "XcmVersionedAssets"); ("assetsTransferType", "StagingXcmExecutorAssetTransferTransferType"); ("remoteFeesId", "XcmVersionedAssetId"); ("feesTransferType", "StagingXcmExecutorAssetTransferTransferType"); ("customXcmOnDest", "XcmVersionedXcm"); ("weightLimit", "XcmV3WeightLimit")]);
  ("add_authorized_alias", Fields [("aliaser", "XcmVersionedLocation"); ("expires", "Option<u64>")]);
  ("remove_authorized_alias", Fields [("aliaser", "XcmVersionedLocation")]);
  ("remove_all_authorized_aliases", Of "Null")].

Definition XcmVersionedXcm : type_def :=
  Enum [
  ("__Unused0", Of "Null"); ("__Unused1", Of "Null"); ("__Unused2", Of "Null"); ("V3", Of "XcmV3Xcm");
  ("V4", Of "StagingXcmV4Xcm"); ("V5", Of "StagingXcmV5Xcm")].

Definition XcmV3Xcm : type_def :=
  Alias "Vec<XcmV3Instruction>".

Definition XcmV3Instruction : type_def :=
  Enum [
  ("WithdrawAsset", Of "XcmV3MultiassetMultiAssets");
  ("ReserveAssetDeposited", Of "XcmV3MultiassetMultiAssets");
  ("ReceiveTeleportedAsset", Of "XcmV3MultiassetMultiAssets");
  ("QueryResponse", Fields [("queryId", "Compact<u64>"); ("response", "XcmV3Response"); ("maxWeight", "SpWeightsWeightV2Weight"); ("querier", "Option<StagingXcmV3MultiLocation>")]);
  ("TransferAsset", Fields [("assets", "XcmV3MultiassetMultiAssets"); ("beneficiary", "StagingXcmV3MultiLocation")]);
  ("TransferReserveAsset", Fields [("assets", "XcmV3MultiassetMultiAssets"); ("dest", "StagingXcmV3MultiLocation"); ("xcm", "XcmV3Xcm")]);
  ("Transact", Fields [("originKind", "XcmV3OriginKind"); ("requireWeightAtMost", "SpWeightsWeightV2Weight"); ("call", "XcmDoubleEncoded")]);
  ("HrmpNewChannelOpenRequest", Fields [("sender", "Compact<u32>"); ("maxMessageSize", "Compact<u32>"); ("maxCapacity", "Compact<u32>")]);
  ("HrmpChannelAccepted", Fields [("recipient", "Compact<u32>")]);
  ("HrmpChannelClosing", Fields [("initiator", "Compact<u32>"); ("sender", "Compact<u32>"); ("recipient", "Compact<u32>")]);
  ("ClearOrigin", Of "Null"); ("DescendOrigin", Of "XcmV3Junctions");
  ("ReportError", Of "XcmV3QueryResponseInfo");
  ("DepositAsset", Fields [("assets", "XcmV3MultiassetMultiAssetFilter"); ("beneficiary", "StagingXcmV3MultiLocation")]);
  ("DepositReserveAsset", Fields [("assets", "XcmV3MultiassetMultiAssetFilter"); ("dest", "StagingXcmV3MultiLocation"); ("xcm", "XcmV3Xcm")]);
  ("ExchangeAsset", Fields [("give", "XcmV3MultiassetMultiAssetFilter"); ("want", "XcmV3MultiassetMultiAssets"); ("maximal", "bool")]);
  ("InitiateReserveWithdraw", Fields [("assets", "XcmV3MultiassetMultiAssetFilter"); ("reserve", "StagingXcmV3MultiLocation"); ("xcm", "XcmV3Xcm")]);
  ("InitiateTeleport", Fields [("assets", "XcmV3MultiassetMultiAssetFilter"); ("dest", "StagingXcmV3MultiLocation"); ("xcm", "XcmV3Xcm")]);
  ("ReportHolding", Fields [("responseInfo", "XcmV3QueryResponseInfo"); ("assets", "XcmV3MultiassetMultiAssetFilter")]);
  ("BuyExecution", Fields [("fees", "XcmV3MultiAsset"); ("weightLimit", "XcmV3WeightLimit")]);
  ("RefundSurplus", Of "Null"); ("SetErrorHandler", Of "XcmV3Xcm"); ("SetAppendix", Of "XcmV3Xcm");
  ("ClearError", Of "Null");
  ("ClaimAsset", Fields [("assets", "XcmV3MultiassetMultiAssets"); ("ticket", "StagingXcmV3MultiLocation")]);
  ("Trap", Of "Compact<u64>");
  ("SubscribeVersion", Fields [("queryId", "Compact<u64>"); ("maxResponseWeight", "SpWeightsWeightV2Weight")]);
  ("UnsubscribeVersion", Of "Null"); ("BurnAsset", Of "XcmV3MultiassetMultiAssets");
  ("ExpectAsset", Of "XcmV3MultiassetMultiAssets"); ("ExpectOrigin", Of "Option<StagingXcmV3MultiLocation>");
  ("ExpectError", Of "Option<(u32,XcmV3TraitsError)>"); ("ExpectTransactStatus", Of "XcmV3MaybeErrorCode");
  ("QueryPallet", Fields [("moduleName", "Bytes"); ("responseInfo", "XcmV3QueryResponseInfo")]);
  ("ExpectPallet", Fields [("index", "Compact<u32>"); ("name", "Bytes"); ("moduleName", "Bytes"); ("crateMajor", "Compact<u32>"); ("minCrateMinor", "Compact<u32>")]);
  ("ReportTransactStatus", Of "XcmV3QueryResponseInfo"); ("ClearTransactStatus", Of "Null");
  ("UniversalOrigin", Of "XcmV3Junction");
  ("ExportMessage", Fields [("network", "XcmV3JunctionNetworkId"); ("destination", "XcmV3Junctions"); ("xcm", "XcmV3Xcm")]);
  ("LockAsset", Fields [("asset", "XcmV3MultiAsset"); ("unlocker", "StagingXcmV3MultiLocation")]);
  ("UnlockAsset", Fields [("asset", "XcmV3MultiAsset"); ("target", "StagingXcmV3MultiLocation")]);
  ("NoteUnlockable", Fields [("asset", "XcmV3MultiAsset"); ("owner", "StagingXcmV3MultiLocation")]);
  ("RequestUnlock", Fields [("asset", "XcmV3MultiAsset"); ("locker", "StagingXcmV3MultiLocation")]);
  ("SetFeesMode", Fields [("jitWithdraw", "bool")]); ("SetTopic", Of "[u8;32]"); ("ClearTopic", Of "Null");
  ("AliasOrigin", Of "StagingXcmV3MultiLocation");
  ("UnpaidExecution", Fields [("weightLimit", "XcmV3WeightLimit"); ("checkOrigin", "Option<StagingXcmV3MultiLocation>")])].

Definition XcmV3Response : type_def :=
  Enum [
  ("Null", Of "Null"); ("Assets", Of "XcmV3MultiassetMultiAssets");
  ("ExecutionResult", Of "Option<(u32,XcmV3TraitsError)>"); ("Version", Of "u32");
  ("PalletsInfo", Of "Vec<XcmV3PalletInfo>"); ("DispatchResult", Of "XcmV3MaybeErrorCode")].

Definition XcmV3TraitsError : type_def :=
  Enum [
  ("Overflow", Of "Null"); ("Unimplemented", Of "Null"); ("UntrustedReserveLocation", Of "Null");
  ("UntrustedTeleportLocation", Of "Null"); ("LocationFull", Of "Null"); ("LocationNotInvertible", Of "Null");
  ("BadOrigin", Of "Null"); ("InvalidLocation", Of "Null"); ("AssetNotFound", Of "Null");
  ("FailedToTransactAsset", Of "Null"); ("NotWithdrawable", Of "Null"); ("LocationCannotHold", Of "Null");
  ("ExceedsMaxMessageSize", Of "Null"); ("DestinationUnsupported", Of "Null"); ("Transport", Of "Null");
  ("Unroutable", Of "Null"); ("UnknownClaim", Of "Null"); ("FailedToDecode", Of "Null");
  ("MaxWeightInvalid", Of "Null"); ("NotHoldingFees", Of "Null"); ("TooExpensive", Of "Null");
  ("Trap", Of "u64"); ("ExpectationFalse", Of "Null"); ("PalletNotFound", Of "Null");
  ("NameMismatch", Of "Null"); ("VersionIncompatible", Of "Null"); ("HoldingWouldOverflow", Of "Null");
  ("ExportError", Of "Null"); ("ReanchorFailed", Of "Null"); ("NoDeal", Of "Null"); ("FeesNotMet", Of "Null");
  ("LockError", Of "Null"); ("NoPermission", Of "Null"); ("Unanchored", Of "Null");
  ("NotDepositable", Of "Null"); ("UnhandledXcmVersion", Of "Null");
  ("WeightLimitReached", Of "SpWeightsWeightV2Weight"); ("Barrier", Of "Null");
  ("WeightNotComputable", Of "Null"); ("ExceedsStackLimit", Of "Null")].

Definition XcmV3PalletInfo : type_def :=
  Struct [
  ("index", "Compact<u32>"); ("name", "Bytes"); ("moduleName", "Bytes"); ("major", "Compact<u32>");
  ("minor", "Compact<u32>"); ("patch", "Compact<u32>")].

Definition XcmV3MaybeErrorCode : type_def :=
  Enum [("Success", Of "Null"); ("Error", Of "Bytes"); ("TruncatedError", Of "Bytes")].

Definition XcmV3OriginKind : type_def :=
  Names ["Native"; "SovereignAccount"; "Superuser"; "Xcm"].

Definition XcmDoubleEncoded : type_def :=
  Struct [("encoded", "Bytes")].

Definition XcmV3QueryResponseInfo : type_def :=
  Struct [
  ("destination", "StagingXcmV3MultiLocation"); ("queryId", "Compact<u64>");
  ("maxWeight", "SpWeightsWeightV2Weight")].

Definition XcmV3MultiassetMultiAssetFilter : type_def :=
  Enum [
  ("Definite", Of "XcmV3MultiassetMultiAssets"); ("Wild", Of "XcmV3MultiassetWildMultiAsset")].

Definition XcmV3MultiassetWildMultiAsset : type_def :=
  Enum [
  ("All", Of "Null");
  ("AllOf", Fields [("id", "XcmV3MultiassetAssetId"); ("fun", "XcmV3MultiassetWildFungibility")]);
  ("AllCounted", Of "Compact<u32>");
  ("AllOfCounted", Fields [("id", "XcmV3MultiassetAssetId"); ("fun", "XcmV3MultiassetWildFungibility"); ("count", "Compact<u32>")])].

Definition XcmV3MultiassetWildFungibility : type_def :=
  Names ["Fungible"; "NonFungible"].

Definition StagingXcmV4Xcm : type_def :=
  Alias "Vec<StagingXcmV4Instruction>".

Definition StagingXcmV4Instruction : type_def :=
  Enum [
  ("WithdrawAsset", Of "StagingXcmV4AssetAssets"); ("ReserveAssetDeposited", Of "StagingXcmV4AssetAssets");
  ("ReceiveTeleportedAsset", Of "StagingXcmV4AssetAssets");
  ("QueryResponse", Fields [("queryId", "Compact<u64>"); ("response", "StagingXcmV4Response"); ("maxWeight", "SpWeightsWeightV2Weight"); ("querier", "Option<StagingXcmV4Location>")]);
  ("TransferAsset", Fields [("assets", "StagingXcmV4AssetAssets"); ("beneficiary", "StagingXcmV4Location")]);
  ("TransferReserveAsset", Fields [("assets", "StagingXcmV4AssetAssets"); ("dest", "StagingXcmV4Location"); ("xcm", "StagingXcmV4Xcm")]);
  ("Transact", Fields [("originKind", "XcmV3OriginKind"); ("requireWeightAtMost", "SpWeightsWeightV2Weight"); ("call", "XcmDoubleEncoded")]);
  ("HrmpNewChannelOpenRequest", Fields [("sender", "Compact<u32>"); ("maxMessageSize", "Compact<u32>"); ("maxCapacity", "Compact<u32>")]);
  ("HrmpChannelAccepted", Fields [("recipient", "Compact<u32>")]);
  ("HrmpChannelClosing", Fields [("initiator", "Compact<u32>"); ("sender", "Compact<u32>"); ("recipient", "Compact<u32>")]);
  ("ClearOrigin", Of "Null"); ("DescendOrigin", Of "StagingXcmV4Junctions");
  ("ReportError", Of "StagingXcmV4QueryResponseInfo");
  ("DepositAsset", Fields [("assets", "StagingXcmV4AssetAssetFilter"); ("beneficiary", "StagingXcmV4Location")]);
  ("DepositReserveAsset", Fields [("assets", "StagingXcmV4AssetAssetFilter"); ("dest", "StagingXcmV4Location"); ("xcm", "StagingXcmV4Xcm")]);
  ("ExchangeAsset", Fields [("give", "StagingXcmV4AssetAssetFilter"); ("want", "StagingXcmV4AssetAssets"); ("maximal", "bool")]);
  ("InitiateReserveWithdraw", Fields [("assets", "StagingXcmV4AssetAssetFilter"); ("reserve", "StagingXcmV4Location"); ("xcm", "StagingXcmV4Xcm")]);
  ("InitiateTeleport", Fields [("assets", "StagingXcmV4AssetAssetFilter"); ("dest", "StagingXcmV4Location"); ("xcm", "StagingXcmV4Xcm")]);
  ("ReportHolding", Fields [("responseInfo", "StagingXcmV4QueryResponseInfo"); ("assets", "StagingXcmV4AssetAssetFilter")]);
  ("BuyExecution", Fields [("fees", "StagingXcmV4Asset"); ("weightLimit", "XcmV3WeightLimit")]);
  ("RefundSurplus", Of "Null"); ("SetErrorHandler", Of "StagingXcmV4Xcm");
  ("SetAppendix", Of "StagingXcmV4Xcm"); ("ClearError", Of "Null");
  ("ClaimAsset", Fields [("assets", "StagingXcmV4AssetAssets"); ("ticket", "StagingXcmV4Location")]);
  ("Trap", Of "Compact<u64>");
  ("SubscribeVersion", Fields [("queryId", "Compact<u64>"); ("maxResponseWeight", "SpWeightsWeightV2Weight")]);
  ("UnsubscribeVersion", Of "Null"); ("BurnAsset", Of "StagingXcmV4AssetAssets");
  ("ExpectAsset", Of "StagingXcmV4AssetAssets"); ("ExpectOrigin", Of "Option<StagingXcmV4Location>");
  ("ExpectError", Of "Option<(u32,XcmV3TraitsError)>"); ("ExpectTransactStatus", Of "XcmV3MaybeErrorCode");
  ("QueryPallet", Fields [("moduleName", "Bytes"); ("responseInfo", "StagingXcmV4QueryResponseInfo")]);
  ("ExpectPallet", Fields [("index", "Compact<u32>"); ("name", "Bytes"); ("moduleName", "Bytes"); ("crateMajor", "Compact<u32>"); ("minCrateMinor", "Compact<u32>")]);
  ("ReportTransactStatus", Of "StagingXcmV4QueryResponseInfo"); ("ClearTransactStatus", Of "Null");
  ("UniversalOrigin", Of "StagingXcmV4Junction");
  ("ExportMessage", Fields [("network", "StagingXcmV4JunctionNetworkId"); ("destination", "StagingXcmV4Junctions"); ("xcm", "StagingXcmV4Xcm")]);
  ("LockAsset", Fields [("asset", "StagingXcmV4Asset"); ("unlocker", "StagingXcmV4Location")]);
  ("UnlockAsset", Fields [("asset", "StagingXcmV4Asset"); ("target", "StagingXcmV4Location")]);
  ("NoteUnlockable", Fields [("asset", "StagingXcmV4Asset"); ("owner", "StagingXcmV4Location")]);
  ("RequestUnlock", Fields [("asset", "StagingXcmV4Asset"); ("locker", "StagingXcmV4Location")]);
  ("SetFeesMode", Fields [("jitWithdraw", "bool")]); ("SetTopic", Of "[u8;32]"); ("ClearTopic", Of "Null");
  ("AliasOrigin", Of "StagingXcmV4Location");
  ("UnpaidExecution", Fields [("weightLimit", "XcmV3WeightLimit"); ("checkOrigin", "Option<StagingXcmV4Location>")])].

Definition StagingXcmV4Response : type_def :=
  Enum [
  ("Null", Of "Null"); ("Assets", Of "StagingXcmV4AssetAssets");
  ("ExecutionResult", Of "Option<(u32,XcmV3TraitsError)>"); ("Version", Of "u32");
  ("PalletsInfo", Of "Vec<StagingXcmV4PalletInfo>"); ("DispatchResult", Of "XcmV3MaybeErrorCode")].

Definition StagingXcmV4PalletInfo : type_def :=
  Struct [
  ("index", "Compact<u32>"); ("name", "Bytes"); ("moduleName", "Bytes"); ("major", "Compact<u32>");
  ("minor", "Compact<u32>"); ("patch", "Compact<u32>")].

Definition StagingXcmV4QueryResponseInfo : type_def :=
  Struct [
  ("destination", "StagingXcmV4Location"); ("queryId", "Compact<u64>"); ("maxWeight", "SpWeightsWeightV2Weight")].

Definition StagingXcmV4AssetAssetFilter : type_def :=
  Enum [
  ("Definite", Of "StagingXcmV4AssetAssets"); ("Wild", Of "StagingXcmV4AssetWildAsset")].

Definition StagingXcmV4AssetWildAsset : type_def :=
  Enum [
  ("All", Of "Null");
  ("AllOf", Fields [("id", "StagingXcmV4AssetAssetId"); ("fun", "StagingXcmV4AssetWildFungibility")]);
  ("AllCounted", Of "Compact<u32>");
  ("AllOfCounted", Fields [("id", "StagingXcmV4AssetAssetId"); ("fun", "StagingXcmV4AssetWildFungibility"); ("count", "Compact<u32>")])].

Definition StagingXcmV4AssetWildFungibility : type_def :=
  Names ["Fungible"; "NonFungible"].

Definition StagingXcmV5Xcm : type_def :=
  Alias "Vec<StagingXcmV5Instruction>".

Definition StagingXcmV5Instruction : type_def :=
  Enum [
  ("WithdrawAsset", Of "StagingXcmV5AssetAssets"); ("ReserveAssetDeposited", Of "StagingXcmV5AssetAssets");
  ("ReceiveTeleportedAsset", Of "StagingXcmV5AssetAssets");
  ("QueryResponse", Fields [("queryId", "Compact<u64>"); ("response", "StagingXcmV5Response"); ("maxWeight", "SpWeightsWeightV2Weight"); ("querier", "Option<StagingXcmV5Location>")]);
  ("TransferAsset", Fields [("assets", "StagingXcmV5AssetAssets"); ("beneficiary", "StagingXcmV5Location")]);
  ("TransferReserveAsset", Fields [("assets", "StagingXcmV5AssetAssets"); ("dest", "StagingXcmV5Location"); ("xcm", "StagingXcmV5Xcm")]);
  ("Transact", Fields [("originKind", "XcmV3OriginKind"); ("fallbackMaxWeight", "Option<SpWeightsWeightV2Weight>"); ("call", "XcmDoubleEncoded")]);
  ("HrmpNewChannelOpenRequest", Fields [("sender", "Compact<u32>"); ("maxMessageSize", "Compact<u32>"); ("maxCapacity", "Compact<u32>")]);
  ("HrmpChannelAccepted", Fields [("recipient", "Compact<u32>")]);
  ("HrmpChannelClosing", Fields [("initiator", "Compact<u32>"); ("sender", "Compact<u32>"); ("recipient", "Compact<u32>")]);
  ("ClearOrigin", Of "Null"); ("DescendOrigin", Of "StagingXcmV5Junctions");
  ("ReportError", Of "StagingXcmV5QueryResponseInfo");
  ("DepositAsset", Fields [("assets", "StagingXcmV5AssetAssetFilter"); ("beneficiary", "StagingXcmV5Location")]);
  ("DepositReserveAsset", Fields [("assets", "StagingXcmV5AssetAssetFilter"); ("dest", "StagingXcmV5Location"); ("xcm", "StagingXcmV5Xcm")]);
  ("ExchangeAsset", Fields [("give", "StagingXcmV5AssetAssetFilter"); ("want", "StagingXcmV5AssetAssets"); ("maximal", "bool")]);
  ("InitiateReserveWithdraw", Fields [("assets", "StagingXcmV5AssetAssetFilter"); ("reserve", "StagingXcmV5Location"); ("xcm", "StagingXcmV5Xcm")]);
  ("InitiateTeleport", Fields [("assets", "StagingXcmV5AssetAssetFilter"); ("dest", "StagingXcmV5Location"); ("xcm", "StagingXcmV5Xcm")]);
  ("ReportHolding", Fields [("responseInfo", "StagingXcmV5QueryResponseInfo"); ("assets", "StagingXcmV5AssetAssetFilter")]);
  ("BuyExecution", Fields [("fees", "StagingXcmV5Asset"); ("weightLimit", "XcmV3WeightLimit")]);
  ("RefundSurplus", Of "Null"); ("SetErrorHandler", Of "StagingXcmV5Xcm");
  ("SetAppendix", Of "StagingXcmV5Xcm"); ("ClearError", Of "Null");
  ("ClaimAsset", Fields [("assets", "StagingXcmV5AssetAssets"); ("ticket", "StagingXcmV5Location")]);
  ("Trap", Of "Compact<u64>");
  ("SubscribeVersion", Fields [("queryId", "Compact<u64>"); ("maxResponseWeight", "SpWeightsWeightV2Weight")]);
  ("UnsubscribeVersion", Of "Null"); ("BurnAsset", Of "StagingXcmV5AssetAssets");
  ("ExpectAsset", Of "StagingXcmV5AssetAssets"); ("ExpectOrigin", Of "Option<StagingXcmV5Location>");
  ("ExpectError", Of "Option<(u32,XcmV5TraitsError)>"); ("ExpectTransactStatus", Of "XcmV3MaybeErrorCode");
  ("QueryPallet", Fields [("moduleName", "Bytes"); ("responseInfo", "StagingXcmV5QueryResponseInfo")]);
  ("ExpectPallet", Fields [("index", "Compact<u32>"); ("name", "Bytes"); ("moduleName", "Bytes"); ("crateMajor", "Compact<u32>"); ("minCrateMinor", "Compact<u32>")]);
  ("ReportTransactStatus", Of "StagingXcmV5QueryResponseInfo"); ("ClearTransactStatus", Of "Null");
  ("UniversalOrigin", Of "StagingXcmV5Junction");
  ("ExportMessage", Fields [("network", "StagingXcmV5JunctionNetworkId"); ("destination", "StagingXcmV5Junctions"); ("xcm", "StagingXcmV5Xcm")]);
  ("LockAsset", Fields [("asset", "StagingXcmV5Asset"); ("unlocker", "StagingXcmV5Location")]);
  ("UnlockAsset", Fields [("asset", "StagingXcmV5Asset"); ("target", "StagingXcmV5Location")]);
  ("NoteUnlockable", Fields [("asset", "StagingXcmV5Asset"); ("owner", "StagingXcmV5Location")]);
  ("RequestUnlock", Fields [("asset", "StagingXcmV5Asset"); ("locker", "StagingXcmV5Location")]);
  ("SetFeesMode", Fields [("jitWithdraw", "bool")]); ("SetTopic", Of "[u8;32]"); ("ClearTopic", Of "Null");
  ("AliasOrigin", Of "StagingXcmV5Location");
  ("UnpaidExecution", Fields [("weightLimit", "XcmV3WeightLimit"); ("checkOrigin", "Option<StagingXcmV5Location>")]);
  ("PayFees", Fields [("asset", "StagingXcmV5Asset")]);
  ("InitiateTransfer", Fields [("destination", "StagingXcmV5Location"); ("remoteFees", "Option<StagingXcmV5AssetAssetTransferFilter>"); ("preserveOrigin", "bool"); ("assets", "Vec<StagingXcmV5AssetAssetTransferFilter>"); ("remoteXcm", "StagingXcmV5Xcm")]);
  ("ExecuteWithOrigin", Fields [("descendantOrigin", "Option<StagingXcmV5Junctions>"); ("xcm", "StagingXcmV5Xcm")]);
  ("SetHints", Fields [("hints", "Vec<StagingXcmV5Hint>")])].

Definition StagingXcmV5Response : type_def :=
  Enum [
  ("Null", Of "Null"); ("Assets", Of "StagingXcmV5AssetAssets");
  ("ExecutionResult", Of "Option<(u32,XcmV5TraitsError)>"); ("Version", Of "u32");
  ("PalletsInfo", Of "Vec<StagingXcmV5PalletInfo>"); ("DispatchResult", Of "XcmV3MaybeErrorCode")].

Definition XcmV5TraitsError : type_def :=
  Enum [
  ("Overflow", Of "Null"); ("Unimplemented", Of "Null"); ("UntrustedReserveLocation", Of "Null");
  ("UntrustedTeleportLocation", Of "Null"); ("LocationFull", Of "Null"); ("LocationNotInvertible", Of "Null");
  ("BadOrigin", Of "Null"); ("InvalidLocation", Of "Null"); ("AssetNotFound", Of "Null");
  ("FailedToTransactAsset", Of "Null"); ("NotWithdrawable", Of "Null"); ("LocationCannotHold", Of "Null");
  ("ExceedsMaxMessageSize", Of "Null"); ("DestinationUnsupported", Of "Null"); ("Transport", Of "Null");
  ("Unroutable", Of "Null"); ("UnknownClaim", Of "Null"); ("FailedToDecode", Of "Null");
  ("MaxWeightInvalid", Of "Null"); ("NotHoldingFees", Of "Null"); ("TooExpensive", Of "Null");
  ("Trap", Of "u64"); ("ExpectationFalse", Of "Null"); ("PalletNotFound", Of "Null");
  ("NameMismatch", Of "Null"); ("VersionIncompatible", Of "Null"); ("HoldingWouldOverflow", Of "Null");
  ("ExportError", Of "Null"); ("ReanchorFailed", Of "Null"); ("NoDeal", Of "Null"); ("FeesNotMet", Of "Null");
  ("LockError", Of "Null"); ("NoPermission", Of "Null"); ("Unanchored", Of "Null");
  ("NotDepositable", Of "Null"); ("TooManyAssets", Of "Null"); ("UnhandledXcmVersion", Of "Null");
  ("WeightLimitReached", Of "SpWeightsWeightV2Weight"); ("Barrier", Of "Null");
  ("WeightNotComputable", Of "Null"); ("ExceedsStackLimit", Of "Null")].

Definition StagingXcmV5PalletInfo : type_def :=
  Struct [
  ("index", "Compact<u32>"); ("name", "Bytes"); ("moduleName", "Bytes"); ("major", "Compact<u32>");
  ("minor", "Compact<u32>"); ("patch", "Compact<u32>")].

Definition StagingXcmV5QueryResponseInfo : type_def :=
  Struct [
  ("destination", "StagingXcmV5Location"); ("queryId", "Compact<u64>"); ("maxWeight", "SpWeightsWeightV2Weight")].

Definition StagingXcmV5AssetAssetFilter : type_def :=
  Enum [
  ("Definite", Of "StagingXcmV5AssetAssets"); ("Wild", Of "StagingXcmV5AssetWildAsset")].

Definition StagingXcmV5AssetWildAsset : type_def :=
  Enum [
  ("All", Of "Null");
  ("AllOf", Fields [("id", "StagingXcmV5AssetAssetId"); ("fun", "StagingXcmV5AssetWildFungibility")]);
  ("AllCounted", Of "Compact<u32>");
  ("AllOfCounted", Fields [("id", "StagingXcmV5AssetAssetId"); ("fun", "StagingXcmV5AssetWildFungibility"); ("count", "Compact<u32>")])].

Definition StagingXcmV5AssetWildFungibility : type_def :=
  Names ["Fungible"; "NonFungible"].

Definition StagingXcmV5AssetAssetTransferFilter : type_def :=
  Enum [
  ("Teleport", Of "StagingXcmV5AssetAssetFilter"); ("ReserveDeposit", Of "StagingXcmV5AssetAssetFilter");
  ("ReserveWithdraw", Of "StagingXcmV5AssetAssetFilter")].

Definition StagingXcmV5Hint : type_def :=
  Enum [("AssetClaimer", Fields [("location", "StagingXcmV5Location")])].

Definition StagingXcmExecutorAssetTransferTransferType : type_def :=
  Enum [
  ("Teleport", Of "Null"); ("LocalReserve", Of "Null"); ("DestinationReserve", Of "Null");
  ("RemoteReserve", Of "XcmVersionedLocation")].

Definition XcmVersionedAssetId : type_def :=
  Enum [
  ("__Unused0", Of "Null"); ("__Unused1", Of "Null"); ("__Unused2", Of "Null");
  ("V3", Of "XcmV3MultiassetAssetId"); ("V4", Of "StagingXcmV4AssetAssetId");
  ("V5", Of "StagingXcmV5AssetAssetId")].

Definition CumulusPalletXcmCall : type_def :=
  Alias "Null".

Definition CumulusPalletDmpQueueCall : type_def :=
  Alias "Null".

Definition PalletMessageQueueCall : type_def :=
  Enum [
  ("reap_page", Fields [("messageOrigin", "CumulusPrimitivesCoreAggregateMessageOrigin"); ("pageIndex", "u32")]);
  ("execute_overweight", Fields [("messageOrigin", "CumulusPrimitivesCoreAggregateMessageOrigin"); ("page", "u32"); ("index", "u32"); ("weightLimit", "SpWeightsWeightV2Weight")])].

Definition CumulusPrimitivesCoreAggregateMessageOrigin : type_def :=
  Enum [("Here", Of "Null"); ("Parent", Of "Null"); ("Sibling", Of "u32")].

Definition PalletInflationCall : type_def :=
  Enum [("start_inflation", Fields [("inflationStartRelayBlock", "u32")])].

Definition PalletUniqueCall : type_def :=
  Enum [
  ("create_collection", Fields [("collectionName", "Vec<u16>"); ("collectionDescription", "Vec<u16>"); ("tokenPrefix", "Bytes"); ("mode", "UpDataStructsCollectionMode")]);
  ("create_collection_ex", Fields [("data", "UpDataStructsCreateCollectionData")]);
  ("destroy_collection", Fields [("collectionId", "u32")]);
  ("add_to_allow_list", Fields [("collectionId", "u32"); ("address", "PalletEvmAccountBasicCrossAccountIdRepr")]);
  ("remove_from_allow_list", Fields [("collectionId", "u32"); ("address", "PalletEvmAccountBasicCrossAccountIdRepr")]);
  ("change_collection_owner", Fields [("collectionId", "u32"); ("newOwner", "AccountId32")]);
  ("add_collection_admin", Fields [("collectionId", "u32"); ("newAdminId", "PalletEvmAccountBasicCrossAccountIdRepr")]);
  ("remove_collection_admin", Fields [("collectionId", "u32"); ("accountId", "PalletEvmAccountBasicCrossAccountIdRepr")]);
  ("set_collection_sponsor", Fields [("collectionId", "u32"); ("newSponsor", "AccountId32")]);
  ("confirm_sponsorship", Fields [("collectionId", "u32")]);
  ("remove_collection_sponsor", Fields [("collectionId", "u32")]);
  ("create_item", Fields [("collectionId", "u32"); ("owner", "PalletEvmAccountBasicCrossAccountIdRepr"); ("data", "UpDataStructsCreateItemData")]);
  ("create_multiple_items", Fields [("collectionId", "u32"); ("owner", "PalletEvmAccountBasicCrossAccountIdRepr"); ("itemsData", "Vec<UpDataStructsCreateItemData>")]);
  ("set_collection_properties", Fields [("collectionId", "u32"); ("properties", "Vec<UpDataStructsProperty>")]);
  ("delete_collection_properties", Fields [("collectionId", "u32"); ("propertyKeys", "Vec<Bytes>")]);
  ("set_token_properties", Fields [("collectionId", "u32"); ("tokenId", "u32"); ("properties", "Vec<UpDataStructsProperty>")]);
  ("delete_token_properties", Fields [("collectionId", "u32"); ("tokenId", "u32"); ("propertyKeys", "Vec<Bytes>")]);
  ("set_token_property_permissions", Fields [("collectionId", "u32"); ("propertyPermissions", "Vec<UpDataStructsPropertyKeyPermission>")]);
  ("create_multiple_items_ex", Fields [("collectionId", "u32"); ("data", "UpDataStructsCreateItemExData")]);
  ("set_transfers_enabled_flag", Fields [("collectionId", "u32"); ("value", "bool")]);
  ("burn_item", Fields [("collectionId", "u32"); ("itemId", "u32"); ("value", "u128")]);
  ("burn_from", Fields [("collectionId", "u32"); ("from", "PalletEvmAccountBasicCrossAccountIdRepr"); ("itemId", "u32"); ("value", "u128")]);
  ("transfer", Fields [("recipient", "PalletEvmAccountBasicCrossAccountIdRepr"); ("collectionId", "u32"); ("itemId", "u32"); ("value", "u128")]);
  ("approve", Fields [("spender", "PalletEvmAccountBasicCrossAccountIdRepr"); ("collectionId", "u32"); ("itemId", "u32"); ("amount", "u128")]);
  ("approve_from", Fields [("from", "PalletEvmAccountBasicCrossAccountIdRepr"); ("to", "PalletEvmAccountBasicCrossAccountIdRepr"); ("collectionId", "u32"); ("itemId", "u32"); ("amount", "u128")]);
  ("transfer_from", Fields [("from", "PalletEvmAccountBasicCrossAccountIdRepr"); ("recipient", "PalletEvmAccountBasicCrossAccountIdRepr"); ("collectionId", "u32"); ("itemId", "u32"); ("value", "u128")]);
  ("set_collection_limits", Fields [("collectionId", "u32"); ("newLimit", "UpDataStructsCollectionLimits")]);
  ("set_collection_permissions", Fields [("collectionId", "u32"); ("newPermission", "UpDataStructsCollectionPermissions")]);
  ("repartition", Fields [("collectionId", "u32"); ("tokenId", "u32"); ("amount", "u128")]);
  ("set_allowance_for_all", Fields [("collectionId", "u32"); ("operator", "PalletEvmAccountBasicCrossAccountIdRepr"); ("approve", "bool")]);
  ("force_repair_collection", Fields [("collectionId", "u32")]);
  ("force_repair_item", Fields [("collectionId", "u32"); ("itemId", "u32")])].

Definition UpDataStructsCollectionMode : type_def :=
  Enum [("NFT", Of "Null"); ("Fungible", Of "u8"); ("ReFungible", Of "Null")].

Definition UpDataStructsCreateCollectionData : type_def :=
  Struct [
  ("mode", "UpDataStructsCollectionMode"); ("access", "Option<UpDataStructsAccessMode>"); ("name", "Vec<u16>");
  ("description", "Vec<u16>"); ("tokenPrefix", "Bytes"); ("limits", "Option<UpDataStructsCollectionLimits>");
  ("permissions", "Option<UpDataStructsCollectionPermissions>");
  ("tokenPropertyPermissions", "Vec<UpDataStructsPropertyKeyPermission>");
  ("properties", "Vec<UpDataStructsProperty>"); ("adminList", "Vec<PalletEvmAccountBasicCrossAccountIdRepr>");
  ("pendingSponsor", "Option<PalletEvmAccountBasicCrossAccountIdRepr>"); ("flags", "[u8;1]")].

Definition PalletEvmAccountBasicCrossAccountIdRepr : type_def :=
  Enum [("Substrate", Of "AccountId32"); ("Ethereum", Of "H160")].

Definition UpDataStructsAccessMode : type_def :=
  Names ["Normal"; "AllowList"].

Definition UpDataStructsCollectionLimits : type_def :=
  Struct [
  ("accountTokenOwnershipLimit", "Option<u32>"); ("sponsoredDataSize", "Option<u32>");
  ("sponsoredDataRateLimit", "Option<UpDataStructsSponsoringRateLimit>"); ("tokenLimit", "Option<u32>");
  ("sponsorTransferTimeout", "Option<u32>"); ("sponsorApproveTimeout", "Option<u32>");
  ("ownerCanTransfer", "Option<bool>"); ("ownerCanDestroy", "Option<bool>");
  ("transfersEnabled", "Option<bool>")].

Definition UpDataStructsSponsoringRateLimit : type_def :=
  Enum [("SponsoringDisabled", Of "Null"); ("Blocks", Of "u32")].

Definition UpDataStructsCollectionPermissions : type_def :=
  Struct [
  ("access", "Option<UpDataStructsAccessMode>"); ("mintMode", "Option<bool>");
  ("nesting", "Option<UpDataStructsNestingPermissions>")].

Definition UpDataStructsNestingPermissions : type_def :=
  Struct [
  ("tokenOwner", "bool"); ("collectionAdmin", "bool"); ("restricted", "Option<UpDataStructsOwnerRestrictedSet>")].

Definition UpDataStructsOwnerRestrictedSet : type_def :=
  Alias "BTreeSet<u32>".

Definition UpDataStructsPropertyKeyPermission : type_def :=
  Struct [("key", "Bytes"); ("permission", "UpDataStructsPropertyPermission")].

Definition UpDataStructsPropertyPermission : type_def :=
  Struct [("mutable", "bool"); ("collectionAdmin", "bool"); ("tokenOwner", "bool")].

Definition UpDataStructsProperty : type_def :=
  Struct [("key", "Bytes"); ("value", "Bytes")].

Definition UpDataStructsCreateItemData : type_def :=
  Enum [
  ("NFT", Of "UpDataStructsCreateNftData"); ("Fungible", Of "UpDataStructsCreateFungibleData");
  ("ReFungible", Of "UpDataStructsCreateReFungibleData")].

Definition UpDataStructsCreateNftData : type_def :=
  Struct [("properties", "Vec<UpDataStructsProperty>")].

Definition UpDataStructsCreateFungibleData : type_def :=
  Struct [("value", "u128")].

Definition UpDataStructsCreateReFungibleData : type_def :=
  Struct [("pieces", "u128"); ("properties", "Vec<UpDataStructsProperty>")].

Definition UpDataStructsCreateItemExData : type_def :=
  Enum [
  ("NFT", Of "Vec<UpDataStructsCreateNftExData>");
  ("Fungible", Of "BTreeMap<PalletEvmAccountBasicCrossAccountIdRepr, u128>");
  ("RefungibleMultipleItems", Of "Vec<UpDataStructsCreateRefungibleExSingleOwner>");
  ("RefungibleMultipleOwners", Of "UpDataStructsCreateRefungibleExMultipleOwners")].

Definition UpDataStructsCreateNftExData : type_def :=
  Struct [
  ("properties", "Vec<UpDataStructsProperty>"); ("owner", "PalletEvmAccountBasicCrossAccountIdRepr")].

Definition UpDataStructsCreateRefungibleExSingleOwner : type_def :=
  Struct [
  ("user", "PalletEvmAccountBasicCrossAccountIdRepr"); ("pieces", "u128");
  ("properties", "Vec<UpDataStructsProperty>")].

Definition UpDataStructsCreateRefungibleExMultipleOwners : type_def :=
  Struct [
  ("users", "BTreeMap<PalletEvmAccountBasicCrossAccountIdRepr, u128>");
  ("properties", "Vec<UpDataStructsProperty>")].

Definition PalletConfigurationCall : type_def :=
  Enum [
  ("set_weight_to_fee_coefficient_override", Fields [("coeff", "Option<u64>")]);
  ("set_min_gas_price_override", Fields [("coeff", "Option<u64>")]); ("__Unused2", Of "Null");
  ("set_app_promotion_configuration_override", Fields [("configuration", "PalletConfigurationAppPromotionConfiguration")]);
  ("set_collator_selection_desired_collators", Fields [("max", "Option<u32>")]);
  ("set_collator_selection_license_bond", Fields [("amount", "Option<u128>")]);
  ("set_collator_selection_kick_threshold", Fields [("threshold", "Option<u32>")])].

Definition PalletConfigurationAppPromotionConfiguration : type_def :=
  Struct [
  ("recalculationInterval", "Option<u32>"); ("pendingInterval", "Option<u32>");
  ("intervalIncome", "Option<Perbill>"); ("maxStakersPerCalculation", "Option<u8>")].

Definition PalletStructureCall : type_def :=
  Alias "Null".

Definition PalletAppPromotionCall : type_def :=
  Enum [
  ("set_admin_address", Fields [("admin", "PalletEvmAccountBasicCrossAccountIdRepr")]);
  ("stake", Fields [("amount", "u128")]); ("unstake_all", Of "Null");
  ("sponsor_collection", Fields [("collectionId", "u32")]);
  ("stop_sponsoring_collection", Fields [("collectionId", "u32")]);
  ("sponsor_contract", Fields [("contractId", "H160")]);
  ("stop_sponsoring_contract", Fields [("contractId", "H160")]);
  ("payout_stakers", Fields [("stakersNumber", "Option<u8>")]);
  ("unstake_partial", Fields [("amount", "u128")]);
  ("resolve_skipped_blocks", Fields [("pendingBlocks", "Vec<u32>")])].

Definition PalletForeignAssetsModuleCall : type_def :=
  Enum [
  ("force_register_foreign_asset", Fields [("versionedAssetId", "XcmVersionedAssetId"); ("name", "Vec<u16>"); ("tokenPrefix", "Bytes"); ("mode", "PalletForeignAssetsForeignCollectionMode")]);
  ("force_reset_foreign_asset_location", Fields [("existingVersionedAssetId", "XcmVersionedAssetId"); ("newVersionedAssetId", "XcmVersionedAssetId")])].

Definition PalletForeignAssetsForeignCollectionMode : type_def :=
  Enum [("NFT", Of "Null"); ("Fungible", Of "u8")].

Definition PalletEvmCall : type_def :=
  Enum [
  ("withdraw", Fields [("address", "H160"); ("value", "u128")]);
  ("call", Fields [("source", "H160"); ("target", "H160"); ("input", "Bytes"); ("value", "U256"); ("gasLimit", "u64"); ("maxFeePerGas", "U256"); ("maxPriorityFeePerGas", "Option<U256>"); ("nonce", "Option<U256>"); ("accessList", "Vec<(H160,Vec<H256>)>")]);
  ("create", Fields [("source", "H160"); ("init", "Bytes"); ("value", "U256"); ("gasLimit", "u64"); ("maxFeePerGas", "U256"); ("maxPriorityFeePerGas", "Option<U256>"); ("nonce", "Option<U256>"); ("accessList", "Vec<(H160,Vec<H256>)>")]);
  ("create2", Fields [("source", "H160"); ("init", "Bytes"); ("salt", "H256"); ("value", "U256"); ("gasLimit", "u64"); ("maxFeePerGas", "U256"); ("maxPriorityFeePerGas", "Option<U256>"); ("nonce", "Option<U256>"); ("accessList", "Vec<(H160,Vec<H256>)>")])].

Definition PalletEthereumCall : type_def :=
  Enum [("transact", Fields [("transaction", "EthereumTransactionTransactionV2")])].

Definition EthereumTransactionTransactionV2 : type_def :=
  Enum [
  ("Legacy", Of "EthereumTransactionLegacyLegacyTransaction");
  ("EIP2930", Of "EthereumTransactionEip2930Eip2930Transaction");
  ("EIP1559", Of "EthereumTransactionEip1559Eip1559Transaction")].

Definition EthereumTransactionLegacyLegacyTransaction : type_def :=
  Struct [
  ("nonce", "U256"); ("gasPrice", "U256"); ("gasLimit", "U256");
  ("action", "EthereumTransactionLegacyTransactionAction"); ("value", "U256"); ("input", "Bytes");
  ("signature", "EthereumTransactionLegacyTransactionSignature")].

Definition EthereumTransactionLegacyTransactionAction : type_def :=
  Enum [("Call", Of "H160"); ("Create", Of "Null")].

Definition EthereumTransactionLegacyTransactionSignature : type_def :=
  Struct [("v", "u64"); ("r", "H256"); ("s", "H256")].

Definition EthereumTransactionEip2930Eip2930Transaction : type_def :=
  Struct [
  ("chainId", "u64"); ("nonce", "U256"); ("gasPrice", "U256"); ("gasLimit", "U256");
  ("action", "EthereumTransactionLegacyTransactionAction"); ("value", "U256"); ("input", "Bytes");
  ("accessList", "Vec<EthereumTransactionEip2930AccessListItem>"); ("oddYParity", "bool"); ("r", "H256");
  ("s", "H256")].

Definition EthereumTransactionEip2930AccessListItem : type_def :=
  Struct [("address", "H160"); ("storageKeys", "Vec<H256>")].

Definition EthereumTransactionEip1559Eip1559Transaction : type_def :=
  Struct [
  ("chainId", "u64"); ("nonce", "U256"); ("maxPriorityFeePerGas", "U256"); ("maxFeePerGas", "U256");
  ("gasLimit", "U256"); ("action", "EthereumTransactionLegacyTransactionAction"); ("value", "U256");
  ("input", "Bytes"); ("accessList", "Vec<EthereumTransactionEip2930AccessListItem>"); ("oddYParity", "bool");
  ("r", "H256"); ("s", "H256")].

Definition PalletEvmContractHelpersCall : type_def :=
  Enum [("migrate_from_self_sponsoring", Fields [("addresses", "Vec<H160>")])].

Definition PalletEvmMigrationCall : type_def :=
  Enum [
  ("begin", Fields [("address", "H160")]);
  ("set_data", Fields [("address", "H160"); ("data", "Vec<(H256,H256)>")]);
  ("finish", Fields [("address", "H160"); ("code", "Bytes")]);
  ("insert_eth_logs", Fields [("logs", "Vec<EthereumLog>")]);
  ("insert_events", Fields [("events", "Vec<Bytes>")]); ("remove_rmrk_data", Of "Null")].

Definition EthereumLog : type_def :=
  Struct [("address", "H160"); ("topics", "Vec<H256>"); ("data", "Bytes")].

Definition PalletMaintenanceCall : type_def :=
  Names ["enable"; "disable"].

Definition PalletUtilityCall : type_def :=
  Enum [
  ("batch", Fields [("calls", "Vec<Call>")]); ("as_derivative", Fields [("index", "u16"); ("call", "Call")]);
  ("batch_all", Fields [("calls", "Vec<Call>")]);
  ("dispatch_as", Fields [("asOrigin", "OpalRuntimeOriginCaller"); ("call", "Call")]);
  ("force_batch", Fields [("calls", "Vec<Call>")]);
  ("with_weight", Fields [("call", "Call"); ("weight", "SpWeightsWeightV2Weight")]);
  ("if_else", Fields [("main", "Call"); ("fallback", "Call")]);
  ("dispatch_as_fallible", Fields [("asOrigin", "OpalRuntimeOriginCaller"); ("call", "Call")])].

Definition PalletTestUtilsCall : type_def :=
  Enum [
  ("enable", Of "Null"); ("set_test_value", Fields [("value", "u32")]);
  ("set_test_value_and_rollback", Fields [("value", "u32")]); ("inc_test_value", Of "Null");
  ("just_take_fee", Of "Null"); ("batch_all", Fields [("calls", "Vec<Call>")])].

Definition SpRuntimeBlakeTwo256 : type_def :=
  Alias "Null".

Definition PalletSchedulerEvent : type_def :=
  Enum [
  ("Scheduled", Fields [("when", "u32"); ("index", "u32")]);
  ("Canceled", Fields [("when", "u32"); ("index", "u32")]);
  ("Dispatched", Fields [("task", "(u32,u32)"); ("id", "Option<[u8;32]>"); ("result", "Result<Null, SpRuntimeDispatchError>")]);
  ("RetrySet", Fields [("task", "(u32,u32)"); ("id", "Option<[u8;32]>"); ("period", "u32"); ("retries", "u8")]);
  ("RetryCancelled", Fields [("task", "(u32,u32)"); ("id", "Option<[u8;32]>")]);
  ("CallUnavailable", Fields [("task", "(u32,u32)"); ("id", "Option<[u8;32]>")]);
  ("PeriodicFailed", Fields [("task", "(u32,u32)"); ("id", "Option<[u8;32]>")]);
  ("RetryFailed", Fields [("task", "(u32,u32)"); ("id", "Option<[u8;32]>")]);
  ("PermanentlyOverweight", Fields [("task", "(u32,u32)"); ("id", "Option<[u8;32]>")]);
  ("AgendaIncomplete", Fields [("when", "u32")])].

Definition CumulusPalletXcmpQueueEvent : type_def :=
  Enum [("XcmpMessageSent", Fields [("messageHash", "[u8;32]")])].

Definition PalletXcmEvent : type_def :=
  Enum [
  ("Attempted", Fields [("outcome", "StagingXcmV5TraitsOutcome")]);
  ("Sent", Fields [("origin", "StagingXcmV5Location"); ("destination", "StagingXcmV5Location"); ("message", "StagingXcmV5Xcm"); ("messageId", "[u8;32]")]);
  ("SendFailed", Fields [("origin", "StagingXcmV5Location"); ("destination", "StagingXcmV5Location"); ("error", "XcmV3TraitsSendError"); ("messageId", "[u8;32]")]);
  ("ProcessXcmError", Fields [("origin", "StagingXcmV5Location"); ("error", "XcmV5TraitsError"); ("messageId", "[u8;32]")]);
  ("UnexpectedResponse", Fields [("origin", "StagingXcmV5Location"); ("queryId", "u64")]);
  ("ResponseReady", Fields [("queryId", "u64"); ("response", "StagingXcmV5Response")]);
  ("Notified", Fields [("queryId", "u64"); ("palletIndex", "u8"); ("callIndex", "u8")]);
  ("NotifyOverweight", Fields [("queryId", "u64"); ("palletIndex", "u8"); ("callIndex", "u8"); ("actualWeight", "SpWeightsWeightV2Weight"); ("maxBudgetedWeight", "SpWeightsWeightV2Weight")]);
  ("NotifyDispatchError", Fields [("queryId", "u64"); ("palletIndex", "u8"); ("callIndex", "u8")]);
  ("NotifyDecodeFailed", Fields [("queryId", "u64"); ("palletIndex", "u8"); ("callIndex", "u8")]);
  ("InvalidResponder", Fields [("origin", "StagingXcmV5Location"); ("queryId", "u64"); ("expectedLocation", "Option<StagingXcmV5Location>")]);
  ("InvalidResponderVersion", Fields [("origin", "StagingXcmV5Location"); ("queryId", "u64")]);
  ("ResponseTaken", Fields [("queryId", "u64")]);
  ("AssetsTrapped", AliasedFields [("hash_", "hash")] [("hash_", "H256"); ("origin", "StagingXcmV5Location"); ("assets", "XcmVersionedAssets")]);
  ("VersionChangeNotified", Fields [("destination", "StagingXcmV5Location"); ("result", "u32"); ("cost", "StagingXcmV5AssetAssets"); ("messageId", "[u8;32]")]);
  ("SupportedVersionChanged", Fields [("location", "StagingXcmV5Location"); ("version", "u32")]);
  ("NotifyTargetSendFail", Fields [("location", "StagingXcmV5Location"); ("queryId", "u64"); ("error", "XcmV5TraitsError")]);
  ("NotifyTargetMigrationFail", Fields [("location", "XcmVersionedLocation"); ("queryId", "u64")]);
  ("InvalidQuerierVersion", Fields [("origin", "StagingXcmV5Location"); ("queryId", "u64")]);
  ("InvalidQuerier", Fields [("origin", "StagingXcmV5Location"); ("queryId", "u64"); ("expectedQuerier", "StagingXcmV5Location"); ("maybeActualQuerier", "Option<StagingXcmV5Location>")]);
  ("VersionNotifyStarted", Fields [("destination", "StagingXcmV5Location"); ("cost", "StagingXcmV5AssetAssets"); ("messageId", "[u8;32]")]);
  ("VersionNotifyRequested", Fields [("destination", "StagingXcmV5Location"); ("cost", "StagingXcmV5AssetAssets"); ("messageId", "[u8;32]")]);
  ("VersionNotifyUnrequested", Fields [("destination", "StagingXcmV5Location"); ("cost", "StagingXcmV5AssetAssets"); ("messageId", "[u8;32]")]);
  ("FeesPaid", Fields [("paying", "StagingXcmV5Location"); ("fees", "StagingXcmV5AssetAssets")]);
  ("AssetsClaimed", AliasedFields [("hash_", "hash")] [("hash_", "H256"); ("origin", "StagingXcmV5Location"); ("assets", "XcmVersionedAssets")]);
  ("VersionMigrationFinished", Fields [("version", "u32")]);
  ("AliasAuthorized", Fields [("aliaser", "StagingXcmV5Location"); ("target", "StagingXcmV5Location"); ("expiry", "Option<u64>")]);
  ("AliasAuthorizationRemoved", Fields [("aliaser", "StagingXcmV5Location"); ("target", "StagingXcmV5Location")]);
  ("AliasesAuthorizationsRemoved", Fields [("target", "StagingXcmV5Location")])].

Definition StagingXcmV5TraitsOutcome : type_def :=
  Enum [
  ("Complete", Fields [("used", "SpWeightsWeightV2Weight")]);
  ("Incomplete", Fields [("used", "SpWeightsWeightV2Weight"); ("error", "XcmV5TraitsError")]);
  ("Error", Fields [("error", "XcmV5TraitsError")])].

Definition XcmV3TraitsSendError : type_def :=
  Names [
  "NotApplicable"; "Transport"; "Unroutable"; "DestinationUnsupported"; "ExceedsMaxMessageSize";
  "MissingArgument"; "Fees"].

Definition CumulusPalletXcmEvent : type_def :=
  Enum [
  ("InvalidFormat", Of "[u8;32]"); ("UnsupportedVersion", Of "[u8;32]");
  ("ExecutedDownward", Of "([u8;32],StagingXcmV5TraitsOutcome)")].

Definition CumulusPalletDmpQueueEvent : type_def :=
  Enum [
  ("StartedExport", Of "Null"); ("Exported", Fields [("page", "u32")]);
  ("ExportFailed", Fields [("page", "u32")]); ("CompletedExport", Of "Null");
  ("StartedOverweightExport", Of "Null"); ("ExportedOverweight", Fields [("index", "u64")]);
  ("ExportOverweightFailed", Fields [("index", "u64")]); ("CompletedOverweightExport", Of "Null");
  ("StartedCleanup", Of "Null"); ("CleanedSome", Fields [("keysRemoved", "u32")]);
  ("Completed", Fields [("error", "bool")])].

Definition PalletMessageQueueEvent : type_def :=
  Enum [
  ("ProcessingFailed", Fields [("id", "H256"); ("origin", "CumulusPrimitivesCoreAggregateMessageOrigin"); ("error", "FrameSupportMessagesProcessMessageError")]);
  ("Processed", Fields [("id", "H256"); ("origin", "CumulusPrimitivesCoreAggregateMessageOrigin"); ("weightUsed", "SpWeightsWeightV2Weight"); ("success", "bool")]);
  ("OverweightEnqueued", Fields [("id", "[u8;32]"); ("origin", "CumulusPrimitivesCoreAggregateMessageOrigin"); ("pageIndex", "u32"); ("messageIndex", "u32")]);
  ("PageReaped", Fields [("origin", "CumulusPrimitivesCoreAggregateMessageOrigin"); ("index", "u32")])].

Definition FrameSupportMessagesProcessMessageError : type_def :=
  Enum [
  ("BadFormat", Of "Null"); ("Corrupt", Of "Null"); ("Unsupported", Of "Null");
  ("Overweight", Of "SpWeightsWeightV2Weight"); ("Yield", Of "Null"); ("StackLimitReached", Of "Null")].

Definition PalletConfigurationEvent : type_def :=
  Enum [
  ("NewDesiredCollators", Fields [("desiredCollators", "Option<u32>")]);
  ("NewCollatorLicenseBond", Fields [("bondCost", "Option<u128>")]);
  ("NewCollatorKickThreshold", Fields [("lengthInBlocks", "Option<u32>")])].

Definition PalletCommonEvent : type_def :=
  Enum [
  ("CollectionCreated", Of "(u32,u8,AccountId32)"); ("CollectionDestroyed", Of "u32");
  ("ItemCreated", Of "(u32,u32,PalletEvmAccountBasicCrossAccountIdRepr,u128)");
  ("ItemDestroyed", Of "(u32,u32,PalletEvmAccountBasicCrossAccountIdRepr,u128)");
  ("Transfer", Of "(u32,u32,PalletEvmAccountBasicCrossAccountIdRepr,PalletEvmAccountBasicCrossAccountIdRepr,u128)");
  ("Approved", Of "(u32,u32,PalletEvmAccountBasicCrossAccountIdRepr,PalletEvmAccountBasicCrossAccountIdRepr,u128)");
  ("ApprovedForAll", Of "(u32,PalletEvmAccountBasicCrossAccountIdRepr,PalletEvmAccountBasicCrossAccountIdRepr,bool)");
  ("CollectionPropertySet", Of "(u32,Bytes)"); ("CollectionPropertyDeleted", Of "(u32,Bytes)");
  ("TokenPropertySet", Of "(u32,u32,Bytes)"); ("TokenPropertyDeleted", Of "(u32,u32,Bytes)");
  ("PropertyPermissionSet", Of "(u32,Bytes)");
  ("AllowListAddressAdded", Of "(u32,PalletEvmAccountBasicCrossAccountIdRepr)");
  ("AllowListAddressRemoved", Of "(u32,PalletEvmAccountBasicCrossAccountIdRepr)");
  ("CollectionAdminAdded", Of "(u32,PalletEvmAccountBasicCrossAccountIdRepr)");
  ("CollectionAdminRemoved", Of "(u32,PalletEvmAccountBasicCrossAccountIdRepr)");
  ("CollectionLimitSet", Of "u32"); ("CollectionOwnerChanged", Of "(u32,AccountId32)");
  ("CollectionPermissionSet", Of "u32"); ("CollectionSponsorSet", Of "(u32,AccountId32)");
  ("SponsorshipConfirmed", Of "(u32,AccountId32)"); ("CollectionSponsorRemoved", Of "u32")].

Definition PalletStructureEvent : type_def :=
  Enum [("Executed", Of "Result<Null, SpRuntimeDispatchError>")].

Definition PalletAppPromotionEvent : type_def :=
  Enum [
  ("StakingRecalculation", Of "(AccountId32,u128,u128)"); ("Stake", Of "(AccountId32,u128)");
  ("Unstake", Of "(AccountId32,u128)"); ("SetAdmin", Of "AccountId32")].

Definition PalletForeignAssetsModuleEvent : type_def :=
  Enum [
  ("ForeignAssetRegistered", Fields [("collectionId", "u32"); ("assetId", "XcmVersionedAssetId")]);
  ("MigrationStatus", Of "PalletForeignAssetsMigrationStatus");
  ("ForeignAssetMoved", Fields [("oldAssetId", "XcmVersionedAssetId"); ("newAssetId", "XcmVersionedAssetId")])].

Definition PalletForeignAssetsMigrationStatus : type_def :=
  Enum [("V3ToV5", Of "PalletForeignAssetsMigrationStatusV3ToV5")].

Definition PalletForeignAssetsMigrationStatusV3ToV5 : type_def :=
  Enum [
  ("Done", Of "Null"); ("SkippedNotConvertibleAssetId", Of "XcmV3MultiassetAssetId");
  ("SkippedNotConvertibleAssetInstance", Fields [("collectionId", "u32"); ("assetInstance", "XcmV3MultiassetAssetInstance")])].

Definition PalletEvmEvent : type_def :=
  Enum [
  ("Log", Fields [("log", "EthereumLog")]); ("Created", Fields [("address", "H160")]);
  ("CreatedFailed", Fields [("address", "H160")]); ("Executed", Fields [("address", "H160")]);
  ("ExecutedFailed", Fields [("address", "H160")])].

Definition PalletEthereumEvent : type_def :=
  Enum [
  ("Executed", Fields [("from", "H160"); ("to", "H160"); ("transactionHash", "H256"); ("exitReason", "EvmCoreErrorExitReason"); ("extraData", "Bytes")])].

Definition EvmCoreErrorExitReason : type_def :=
  Enum [
  ("Succeed", Of "EvmCoreErrorExitSucceed"); ("Error", Of "EvmCoreErrorExitError");
  ("Revert", Of "EvmCoreErrorExitRevert"); ("Fatal", Of "EvmCoreErrorExitFatal")].

Definition EvmCoreErrorExitSucceed : type_def :=
  Names ["Stopped"; "Returned"; "Suicided"].

Definition EvmCoreErrorExitError : type_def :=
  Enum [
  ("StackUnderflow", Of "Null"); ("StackOverflow", Of "Null"); ("InvalidJump", Of "Null");
  ("InvalidRange", Of "Null"); ("DesignatedInvalid", Of "Null"); ("CallTooDeep", Of "Null");
  ("CreateCollision", Of "Null"); ("CreateContractLimit", Of "Null"); ("OutOfOffset", Of "Null");
  ("OutOfGas", Of "Null"); ("OutOfFund", Of "Null"); ("PCUnderflow", Of "Null"); ("CreateEmpty", Of "Null");
  ("Other", Of "Text"); ("MaxNonce", Of "Null"); ("InvalidCode", Of "u8")].

Definition EvmCoreErrorExitRevert : type_def :=
  Names ["Reverted"].

Definition EvmCoreErrorExitFatal : type_def :=
  Enum [
  ("NotSupported", Of "Null"); ("UnhandledInterrupt", Of "Null");
  ("CallErrorAsFatal", Of "EvmCoreErrorExitError"); ("Other", Of "Text")].

Definition PalletEvmContractHelpersEvent : type_def :=
  Enum [
  ("ContractSponsorSet", Of "(H160,AccountId32)"); ("ContractSponsorshipConfirmed", Of "(H160,AccountId32)");
  ("ContractSponsorRemoved", Of "H160")].

Definition PalletEvmMigrationEvent : type_def :=
  Names ["TestEvent"].

Definition PalletMaintenanceEvent : type_def :=
  Names ["MaintenanceEnabled"; "MaintenanceDisabled"].

Definition PalletUtilityEvent : type_def :=
  Enum [
  ("BatchInterrupted", Fields [("index", "u32"); ("error", "SpRuntimeDispatchError")]);
  ("BatchCompleted", Of "Null"); ("BatchCompletedWithErrors", Of "Null"); ("ItemCompleted", Of "Null");
  ("ItemFailed", Fields [("error", "SpRuntimeDispatchError")]);
  ("DispatchedAs", Fields [("result", "Result<Null, SpRuntimeDispatchError>")]);
  ("IfElseMainSuccess", Of "Null"); ("IfElseFallbackCalled", Fields [("mainError", "SpRuntimeDispatchError")])].

Definition PalletTestUtilsEvent : type_def :=
  Names ["ValueIsSet"; "ShouldRollback"; "BatchCompleted"].

Definition FrameSystemPhase : type_def :=
  Enum [
  ("ApplyExtrinsic", Of "u32"); ("Finalization", Of "Null"); ("Initialization", Of "Null")].

Definition FrameSystemLastRuntimeUpgradeInfo : type_def :=
  Struct [("specVersion", "Compact<u32>"); ("specName", "Text")].

Definition FrameSystemCodeUpgradeAuthorization : type_def :=
  Struct [("codeHash", "H256"); ("checkVersion", "bool")].

Definition FrameSystemLimitsBlockWeights : type_def :=
  Struct [
  ("baseBlock", "SpWeightsWeightV2Weight"); ("maxBlock", "SpWeightsWeightV2Weight");
  ("perClass", "FrameSupportDispatchPerDispatchClassWeightsPerClass")].

Definition FrameSupportDispatchPerDispatchClassWeightsPerClass : type_def :=
  Struct [
  ("normal", "FrameSystemLimitsWeightsPerClass"); ("operational", "FrameSystemLimitsWeightsPerClass");
  ("mandatory", "FrameSystemLimitsWeightsPerClass")].

Definition FrameSystemLimitsWeightsPerClass : type_def :=
  Struct [
  ("baseExtrinsic", "SpWeightsWeightV2Weight"); ("maxExtrinsic", "Option<SpWeightsWeightV2Weight>");
  ("maxTotal", "Option<SpWeightsWeightV2Weight>"); ("reserved", "Option<SpWeightsWeightV2Weight>")].

Definition FrameSystemLimitsBlockLength : type_def :=
  Struct [("max", "FrameSupportDispatchPerDispatchClassU32")].

Definition FrameSupportDispatchPerDispatchClassU32 : type_def :=
  Struct [("normal", "u32"); ("operational", "u32"); ("mandatory", "u32")].

Definition SpWeightsRuntimeDbWeight : type_def :=
  Struct [("read", "u64"); ("write", "u64")].

Definition SpVersionRuntimeVersion : type_def :=
  Struct [
  ("specName", "Text"); ("implName", "Text"); ("authoringVersion", "u32"); ("specVersion", "u32");
  ("implVersion", "u32"); ("apis", "Vec<([u8;8],u32)>"); ("transactionVersion", "u32"); ("systemVersion", "u8")].

Definition FrameSystemError : type_def :=
  Names [
  "InvalidSpecName"; "SpecVersionNeedsToIncrease"; "FailedToExtractRuntimeVersion"; "NonDefaultComposite";
  "NonZeroRefCount"; "CallFiltered"; "MultiBlockMigrationsOngoing"; "NothingAuthorized"; "Unauthorized"].

Definition CumulusPalletParachainSystemUnincludedSegmentAncestor : type_def :=
  Struct [
  ("usedBandwidth", "CumulusPalletParachainSystemUnincludedSegmentUsedBandwidth");
  ("paraHeadHash", "Option<H256>"); ("consumedGoAheadSignal", "Option<PolkadotPrimitivesV8UpgradeGoAhead>")].

Definition CumulusPalletParachainSystemUnincludedSegmentUsedBandwidth : type_def :=
  Struct [
  ("umpMsgCount", "u32"); ("umpTotalBytes", "u32");
  ("hrmpOutgoing", "BTreeMap<u32, CumulusPalletParachainSystemUnincludedSegmentHrmpChannelUpdate>")].

Definition CumulusPalletParachainSystemUnincludedSegmentHrmpChannelUpdate : type_def :=
  Struct [("msgCount", "u32"); ("totalBytes", "u32")].

Definition PolkadotPrimitivesV8UpgradeGoAhead : type_def :=
  Names ["Abort"; "GoAhead"].

Definition CumulusPalletParachainSystemUnincludedSegmentSegmentTracker : type_def :=
  Struct [
  ("usedBandwidth", "CumulusPalletParachainSystemUnincludedSegmentUsedBandwidth");
  ("hrmpWatermark", "Option<u32>"); ("consumedGoAheadSignal", "Option<PolkadotPrimitivesV8UpgradeGoAhead>")].

Definition PolkadotPrimitivesV8UpgradeRestriction : type_def :=
  Names ["Present"].

Definition CumulusPalletParachainSystemRelayStateSnapshotMessagingStateSnapshot : type_def :=
  Struct [
  ("dmqMqcHead", "H256");
  ("relayDispatchQueueRemainingCapacity", "CumulusPalletParachainSystemRelayStateSnapshotRelayDispatchQueueRemainingCapacity");
  ("ingressChannels", "Vec<(u32,PolkadotPrimitivesV8AbridgedHrmpChannel)>");
  ("egressChannels", "Vec<(u32,PolkadotPrimitivesV8AbridgedHrmpChannel)>")].

Definition CumulusPalletParachainSystemRelayStateSnapshotRelayDispatchQueueRemainingCapacity : type_def :=
  Struct [("remainingCount", "u32"); ("remainingSize", "u32")].

Definition PolkadotPrimitivesV8AbridgedHrmpChannel : type_def :=
  Struct [
  ("maxCapacity", "u32"); ("maxTotalSize", "u32"); ("maxMessageSize", "u32"); ("msgCount", "u32");
  ("totalSize", "u32"); ("mqcHead", "Option<H256>")].

Definition PolkadotPrimitivesV8AbridgedHostConfiguration : type_def :=
  Struct [
  ("maxCodeSize", "u32"); ("maxHeadDataSize", "u32"); ("maxUpwardQueueCount", "u32");
  ("maxUpwardQueueSize", "u32"); ("maxUpwardMessageSize", "u32"); ("maxUpwardMessageNumPerCandidate", "u32");
  ("hrmpMaxMessageNumPerCandidate", "u32"); ("validationUpgradeCooldown", "u32");
  ("validationUpgradeDelay", "u32");
  ("asyncBackingParams", "PolkadotPrimitivesV8AsyncBackingAsyncBackingParams")].

Definition PolkadotPrimitivesV8AsyncBackingAsyncBackingParams : type_def :=
  Struct [("maxCandidateDepth", "u32"); ("allowedAncestryLen", "u32")].

Definition PolkadotCorePrimitivesOutboundHrmpMessage : type_def :=
  Struct [("recipient", "u32"); ("data", "Bytes")].

Definition CumulusPalletParachainSystemError : type_def :=
  Names [
  "OverlappingUpgrades"; "ProhibitedByPolkadot"; "TooBig"; "ValidationDataNotAvailable";
  "HostConfigurationNotAvailable"; "NotScheduled"].

Definition PalletCollatorSelectionError : type_def :=
  Names [
  "TooManyCandidates"; "Unknown"; "Permission"; "AlreadyHoldingLicense"; "NoLicense"; "AlreadyCandidate";
  "NotCandidate"; "TooManyInvulnerables"; "TooFewInvulnerables"; "AlreadyInvulnerable"; "NotInvulnerable";
  "NoAssociatedValidatorId"; "ValidatorNotRegistered"].

Definition SpCoreCryptoKeyTypeId : type_def :=
  Alias "[u8;4]".

Definition PalletSessionError : type_def :=
  Names ["InvalidProof"; "NoAssociatedValidatorId"; "DuplicatedKey"; "NoKeys"; "NoAccount"].

Definition PalletBalancesBalanceLock : type_def :=
  Struct [("id", "[u8;8]"); ("amount", "u128"); ("reasons", "PalletBalancesReasons")].

Definition PalletBalancesReasons : type_def :=
  Names ["Fee"; "Misc"; "All"].

Definition PalletBalancesReserveData : type_def :=
  Struct [("id", "[u8;16]"); ("amount", "u128")].

Definition OpalRuntimeRuntimeHoldReason : type_def :=
  Enum [
  ("__Unused0", Of "Null"); ("StateTrieMigration", Of "PalletStateTrieMigrationHoldReason");
  ("__Unused2", Of "Null"); ("__Unused3", Of "Null"); ("__Unused4", Of "Null"); ("__Unused5", Of "Null");
  ("__Unused6", Of "Null"); ("__Unused7", Of "Null"); ("__Unused8", Of "Null"); ("__Unused9", Of "Null");
  ("__Unused10", Of "Null"); ("__Unused11", Of "Null"); ("__Unused12", Of "Null"); ("__Unused13", Of "Null");
  ("__Unused14", Of "Null"); ("__Unused15", Of "Null"); ("__Unused16", Of "Null"); ("__Unused17", Of "Null");
  ("__Unused18", Of "Null"); ("__Unused19", Of "Null"); ("__Unused20", Of "Null"); ("__Unused21", Of "Null");
  ("__Unused22", Of "Null"); ("CollatorSelection", Of "PalletCollatorSelectionHoldReason");
  ("__Unused24", Of "Null"); ("__Unused25", Of "Null"); ("__Unused26", Of "Null"); ("__Unused27", Of "Null");
  ("__Unused28", Of "Null"); ("__Unused29", Of "Null"); ("__Unused30", Of "Null"); ("__Unused31", Of "Null");
  ("__Unused32", Of "Null"); ("__Unused33", Of "Null"); ("__Unused34", Of "Null"); ("__Unused35", Of "Null");
  ("__Unused36", Of "Null"); ("__Unused37", Of "Null"); ("__Unused38", Of "Null"); ("__Unused39", Of "Null");
  ("__Unused40", Of "Null"); ("Preimage", Of "PalletPreimageHoldReason"); ("__Unused42", Of "Null");
  ("Council", Of "PalletCollectiveHoldReason"); ("TechnicalCommittee", Of "PalletCollectiveHoldReason");
  ("__Unused45", Of "Null"); ("__Unused46", Of "Null"); ("__Unused47", Of "Null"); ("__Unused48", Of "Null");
  ("__Unused49", Of "Null"); ("__Unused50", Of "Null"); ("PolkadotXcm", Of "PalletXcmHoldReason");
  ("__Unused52", Of "Null"); ("__Unused53", Of "Null"); ("__Unused54", Of "Null"); ("__Unused55", Of "Null");
  ("__Unused56", Of "Null"); ("__Unused57", Of "Null"); ("__Unused58", Of "Null"); ("__Unused59", Of "Null");
  ("__Unused60", Of "Null"); ("__Unused61", Of "Null"); ("__Unused62", Of "Null"); ("__Unused63", Of "Null");
  ("__Unused64", Of "Null"); ("__Unused65", Of "Null"); ("__Unused66", Of "Null"); ("__Unused67", Of "Null");
  ("__Unused68", Of "Null"); ("__Unused69", Of "Null"); ("__Unused70", Of "Null"); ("__Unused71", Of "Null");
  ("__Unused72", Of "Null"); ("__Unused73", Of "Null"); ("__Unused74", Of "Null"); ("__Unused75", Of "Null");
  ("__Unused76", Of "Null"); ("__Unused77", Of "Null"); ("__Unused78", Of "Null"); ("__Unused79", Of "Null");
  ("__Unused80", Of "Null"); ("__Unused81", Of "Null"); ("__Unused82", Of "Null"); ("__Unused83", Of "Null");
  ("__Unused84", Of "Null"); ("__Unused85", Of "Null"); ("__Unused86", Of "Null"); ("__Unused87", Of "Null");
  ("__Unused88", Of "Null"); ("__Unused89", Of "Null"); ("__Unused90", Of "Null"); ("__Unused91", Of "Null");
  ("__Unused92", Of "Null"); ("__Unused93", Of "Null"); ("__Unused94", Of "Null"); ("__Unused95", Of "Null");
  ("__Unused96", Of "Null"); ("FinancialCouncil", Of "PalletCollectiveHoldReason")].

Definition PalletStateTrieMigrationHoldReason : type_def :=
  Names ["SlashForMigrate"].

Definition PalletCollatorSelectionHoldReason : type_def :=
  Names ["LicenseBond"].

Definition PalletPreimageHoldReason : type_def :=
  Names ["Preimage"].

Definition PalletCollectiveHoldReason : type_def :=
  Names ["ProposalSubmission"].

Definition PalletXcmHoldReason : type_def :=
  Names ["AuthorizeAlias"].

Definition FrameSupportTokensMiscIdAmount : type_def :=
  Struct [("id", "[u8;16]"); ("amount", "u128")].

Definition PalletBalancesError : type_def :=
  Names [
  "VestingBalance"; "LiquidityRestrictions"; "InsufficientBalance"; "ExistentialDeposit"; "Expendability";
  "ExistingVestingSchedule"; "DeadAccount"; "TooManyReserves"; "TooManyHolds"; "TooManyFreezes";
  "IssuanceDeactivated"; "DeltaZero"].

Definition PalletTransactionPaymentReleases : type_def :=
  Names ["V1Ancient"; "V2"].

Definition PalletTreasuryProposal : type_def :=
  Struct [
  ("proposer", "AccountId32"); ("value", "u128"); ("beneficiary", "AccountId32"); ("bond", "u128")].

Definition PalletTreasurySpendStatus : type_def :=
  Struct [
  ("assetKind", "Null"); ("amount", "u128"); ("beneficiary", "AccountId32"); ("validFrom", "u32");
  ("expireAt", "u32"); ("status", "PalletTreasuryPaymentState")].

Definition PalletTreasuryPaymentState : type_def :=
  Enum [
  ("Pending", Of "Null"); ("Attempted", Fields [("id", "Null")]); ("Failed", Of "Null")].

Definition FrameSupportPalletId : type_def :=
  Alias "[u8;8]".

Definition PalletTreasuryError : type_def :=
  Names [
  "InvalidIndex"; "TooManyApprovals"; "InsufficientPermission"; "ProposalNotApproved"; "FailedToConvertBalance";
  "SpendExpired"; "EarlyPayout"; "AlreadyAttempted"; "PayoutError"; "NotAttempted"; "Inconclusive"].

Definition PalletSudoError : type_def :=
  Names ["RequireSudo"].

Definition OrmlVestingModuleError : type_def :=
  Names [
  "ZeroVestingPeriod"; "ZeroVestingPeriodCount"; "InsufficientBalanceToLock"; "TooManyVestingSchedules";
  "AmountLow"; "MaxVestingSchedulesExceeded"].

Definition OrmlXtokensModuleError : type_def :=
  Names [
  "AssetHasNoReserve"; "NotCrossChainTransfer"; "InvalidDest"; "NotCrossChainTransferableCurrency";
  "UnweighableMessage"; "XcmExecutionFailed"; "CannotReanchor"; "InvalidAncestry"; "InvalidAsset";
  "DestinationNotInvertible"; "BadVersion"; "DistinctReserveForAssetAndFee"; "ZeroFee"; "ZeroAmount";
  "TooManyAssetsBeingSent"; "AssetIndexNonExistent"; "FeeNotEnough"; "NotSupportedLocation";
  "MinXcmFeeNotDefined"; "RateLimited"].

Definition PalletIdentityRegistrarInfo : type_def :=
  Struct [
  ("account", "AccountId32"); ("fee", "u128"); ("fields", "PalletIdentityBitFlags")].

Definition PalletIdentityError : type_def :=
  Names [
  "TooManySubAccounts"; "NotFound"; "NotNamed"; "EmptyIndex"; "FeeChanged"; "NoIdentity"; "StickyJudgement";
  "JudgementGiven"; "InvalidJudgement"; "InvalidIndex"; "InvalidTarget"; "TooManyFields"; "TooManyRegistrars";
  "AlreadyClaimed"; "NotSub"; "NotOwned"; "JudgementForDifferentIdentity"; "JudgementPaymentFailed"].

Definition PalletPreimageOldRequestStatus : type_def :=
  Enum [
  ("Unrequested", Fields [("deposit", "(AccountId32,u128)"); ("len", "u32")]);
  ("Requested", Fields [("deposit", "Option<(AccountId32,u128)>"); ("count", "u32"); ("len", "Option<u32>")])].

Definition PalletPreimageRequestStatus : type_def :=
  Enum [
  ("Unrequested", Fields [("ticket", "(AccountId32,u128)"); ("len", "u32")]);
  ("Requested", Fields [("maybeTicket", "Option<(AccountId32,u128)>"); ("count", "u32"); ("maybeLen", "Option<u32>")])].

Definition PalletPreimageError : type_def :=
  Names [
  "TooBig"; "AlreadyNoted"; "NotAuthorized"; "NotNoted"; "Requested"; "NotRequested"; "TooMany"; "TooFew"].

Definition PalletDemocracyReferendumInfo : type_def :=
  Enum [
  ("Ongoing", Of "PalletDemocracyReferendumStatus"); ("Finished", Fields [("approved", "bool"); ("end", "u32")])].

Definition PalletDemocracyReferendumStatus : type_def :=
  Struct [
  ("end", "u32"); ("proposal", "FrameSupportPreimagesBounded"); ("threshold", "PalletDemocracyVoteThreshold");
  ("delay", "u32"); ("tally", "PalletDemocracyTally")].

Definition PalletDemocracyTally : type_def :=
  Struct [("ayes", "u128"); ("nays", "u128"); ("turnout", "u128")].

Definition PalletDemocracyVoteVoting : type_def :=
  Enum [
  ("Direct", Fields [("votes", "Vec<(u32,PalletDemocracyVoteAccountVote)>"); ("delegations", "PalletDemocracyDelegations"); ("prior", "PalletDemocracyVotePriorLock")]);
  ("Delegating", Fields [("balance", "u128"); ("target", "AccountId32"); ("conviction", "PalletDemocracyConviction"); ("delegations", "PalletDemocracyDelegations"); ("prior", "PalletDemocracyVotePriorLock")])].

Definition PalletDemocracyDelegations : type_def :=
  Struct [("votes", "u128"); ("capital", "u128")].

Definition PalletDemocracyVotePriorLock : type_def :=
  Alias "(u32,u128)".

Definition PalletDemocracyError : type_def :=
  Names [
  "ValueLow"; "ProposalMissing"; "AlreadyCanceled"; "DuplicateProposal"; "ProposalBlacklisted";
  "NotSimpleMajority"; "InvalidHash"; "NoProposal"; "AlreadyVetoed"; "ReferendumInvalid"; "NoneWaiting";
  "NotVoter"; "NoPermission"; "AlreadyDelegating"; "InsufficientFunds"; "NotDelegating"; "VotesExist";
  "InstantNotAllowed"; "Nonsense"; "WrongUpperBound"; "MaxVotesReached"; "TooMany"; "VotingPeriodLow";
  "PreimageNotExist"].

Definition PalletCollectiveVotes : type_def :=
  Struct [
  ("index", "u32"); ("threshold", "u32"); ("ayes", "Vec<AccountId32>"); ("nays", "Vec<AccountId32>");
  ("end", "u32")].

Definition PalletCollectiveError : type_def :=
  Names [
  "NotMember"; "DuplicateProposal"; "ProposalMissing"; "WrongIndex"; "DuplicateVote"; "AlreadyInitialized";
  "TooEarly"; "TooManyProposals"; "WrongProposalWeight"; "WrongProposalLength"; "PrimeAccountNotMember";
  "ProposalActive"].

Definition PalletMembershipError : type_def :=
  Names ["AlreadyMember"; "NotMember"; "TooManyMembers"].

Definition PalletRankedCollectiveMemberRecord : type_def :=
  Struct [("rank", "u16")].

Definition PalletRankedCollectiveError : type_def :=
  Names [
  "AlreadyMember"; "NotMember"; "NotPolling"; "Ongoing"; "NoneRemaining"; "Corruption"; "RankTooLow";
  "InvalidWitness"; "NoPermission"; "SameMember"; "TooManyMembers"].

Definition PalletReferendaReferendumInfo : type_def :=
  Enum [
  ("Ongoing", Of "PalletReferendaReferendumStatus");
  ("Approved", Of "(u32,Option<PalletReferendaDeposit>,Option<PalletReferendaDeposit>)");
  ("Rejected", Of "(u32,Option<PalletReferendaDeposit>,Option<PalletReferendaDeposit>)");
  ("Cancelled", Of "(u32,Option<PalletReferendaDeposit>,Option<PalletReferendaDeposit>)");
  ("TimedOut", Of "(u32,Option<PalletReferendaDeposit>,Option<PalletReferendaDeposit>)"); ("Killed", Of "u32")].

Definition PalletReferendaReferendumStatus : type_def :=
  Struct [
  ("track", "u16"); ("origin", "OpalRuntimeOriginCaller"); ("proposal", "FrameSupportPreimagesBounded");
  ("enactment", "FrameSupportScheduleDispatchTime"); ("submitted", "u32");
  ("submissionDeposit", "PalletReferendaDeposit"); ("decisionDeposit", "Option<PalletReferendaDeposit>");
  ("deciding", "Option<PalletReferendaDecidingStatus>"); ("tally", "PalletRankedCollectiveTally");
  ("inQueue", "bool"); ("alarm", "Option<(u32,(u32,u32))>")].

Definition PalletReferendaDeposit : type_def :=
  Struct [("who", "AccountId32"); ("amount", "u128")].

Definition PalletReferendaDecidingStatus : type_def :=
  Struct [("since", "u32"); ("confirming", "Option<u32>")].

Definition PalletReferendaTrackDetails : type_def :=
  Struct [
  ("name", "Text"); ("maxDeciding", "u32"); ("decisionDeposit", "u128"); ("preparePeriod", "u32");
  ("decisionPeriod", "u32"); ("confirmPeriod", "u32"); ("minEnactmentPeriod", "u32");
  ("minApproval", "PalletReferendaCurve"); ("minSupport", "PalletReferendaCurve")].

Definition PalletReferendaCurve : type_def :=
  Enum [
  ("LinearDecreasing", Fields [("length", "Perbill"); ("floor", "Perbill"); ("ceil", "Perbill")]);
  ("SteppedDecreasing", Fields [("begin", "Perbill"); ("end", "Perbill"); ("step", "Perbill"); ("period", "Perbill")]);
  ("Reciprocal", Fields [("factor", "i64"); ("xOffset", "i64"); ("yOffset", "i64")])].

Definition PalletReferendaError : type_def :=
  Names [
  "NotOngoing"; "HasDeposit"; "BadTrack"; "Full"; "QueueEmpty"; "BadReferendum"; "NothingToDo"; "NoTrack";
  "Unfinished"; "NoPermission"; "NoDeposit"; "BadStatus"; "PreimageNotExist";
  "PreimageStoredWithDifferentLength"].

Definition PalletSchedulerScheduled : type_def :=
  Struct [
  ("maybeId", "Option<[u8;32]>"); ("priority", "u8"); ("call", "FrameSupportPreimagesBounded");
  ("maybePeriodic", "Option<(u32,u32)>"); ("origin", "OpalRuntimeOriginCaller")].

Definition PalletSchedulerRetryConfig : type_def :=
  Struct [("totalRetries", "u8"); ("remaining", "u8"); ("period", "u32")].

Definition PalletSchedulerError : type_def :=
  Names [
  "FailedToSchedule"; "NotFound"; "TargetBlockNumberInPast"; "RescheduleNoChange"; "Named"].

Definition CumulusPalletXcmpQueueOutboundChannelDetails : type_def :=
  Struct [
  ("recipient", "u32"); ("state", "CumulusPalletXcmpQueueOutboundState"); ("signalsExist", "bool");
  ("firstIndex", "u16"); ("lastIndex", "u16")].

Definition CumulusPalletXcmpQueueOutboundState : type_def :=
  Names ["Ok"; "Suspended"].

Definition CumulusPalletXcmpQueueQueueConfigData : type_def :=
  Struct [
  ("suspendThreshold", "u32"); ("dropThreshold", "u32"); ("resumeThreshold", "u32")].

Definition CumulusPalletXcmpQueueError : type_def :=
  Names [
  "BadQueueConfig"; "AlreadySuspended"; "AlreadyResumed"; "TooManyActiveOutboundChannels"; "TooBig"].

Definition PalletXcmQueryStatus : type_def :=
  Enum [
  ("Pending", Fields [("responder", "XcmVersionedLocation"); ("maybeMatchQuerier", "Option<XcmVersionedLocation>"); ("maybeNotify", "Option<(u8,u8)>"); ("timeout", "u32")]);
  ("VersionNotifier", Fields [("origin", "XcmVersionedLocation"); ("isActive", "bool")]);
  ("Ready", Fields [("response", "XcmVersionedResponse"); ("at", "u32")])].

Definition XcmVersionedResponse : type_def :=
  Enum [
  ("__Unused0", Of "Null"); ("__Unused1", Of "Null"); ("__Unused2", Of "Null"); ("V3", Of "XcmV3Response");
  ("V4", Of "StagingXcmV4Response"); ("V5", Of "StagingXcmV5Response")].

Definition PalletXcmVersionMigrationStage : type_def :=
  Enum [
  ("MigrateSupportedVersion", Of "Null"); ("MigrateVersionNotifiers", Of "Null");
  ("NotifyCurrentTargets", Of "Option<Bytes>"); ("MigrateAndNotifyOldTargets", Of "Null")].

Definition PalletXcmRemoteLockedFungibleRecord : type_def :=
  Struct [
  ("amount", "u128"); ("owner", "XcmVersionedLocation"); ("locker", "XcmVersionedLocation");
  ("consumers", "Vec<(Null,u128)>")].

Definition PalletXcmAuthorizedAliasesEntry : type_def :=
  Struct [
  ("aliasers", "Vec<XcmRuntimeApisAuthorizedAliasesOriginAliaser>"); ("ticket", "FrameSupportStorageDisabled")].

Definition FrameSupportStorageDisabled : type_def :=
  Alias "Null".

Definition PalletXcmMaxAuthorizedAliases : type_def :=
  Alias "Null".

Definition XcmRuntimeApisAuthorizedAliasesOriginAliaser : type_def :=
  Struct [("location", "XcmVersionedLocation"); ("expiry", "Option<u64>")].

Definition PalletXcmError : type_def :=
  Names [
  "Unreachable"; "SendFailure"; "Filtered"; "UnweighableMessage"; "DestinationNotInvertible"; "Empty";
  "CannotReanchor"; "TooManyAssets"; "InvalidOrigin"; "BadVersion"; "BadLocation"; "NoSubscription";
  "AlreadySubscribed"; "CannotCheckOutTeleport"; "LowBalance"; "TooManyLocks"; "AccountNotSovereign";
  "FeesNotMet"; "LockNotFound"; "InUse"; "__Unused20"; "InvalidAssetUnknownReserve";
  "InvalidAssetUnsupportedReserve"; "TooManyReserves"; "LocalExecutionIncomplete"; "TooManyAuthorizedAliases";
  "ExpiresInPast"; "AliasNotFound"].

Definition CumulusPalletDmpQueueMigrationState : type_def :=
  Enum [
  ("NotStarted", Of "Null"); ("StartedExport", Fields [("nextBeginUsed", "u32")]);
  ("CompletedExport", Of "Null"); ("StartedOverweightExport", Fields [("nextOverweightIndex", "u64")]);
  ("CompletedOverweightExport", Of "Null"); ("StartedCleanup", Fields [("cursor", "Option<Bytes>")]);
  ("Completed", Of "Null")].

Definition PalletMessageQueueBookState : type_def :=
  AliasedStruct [("size_", "size")] [
  ("begin", "u32"); ("end", "u32"); ("count", "u32");
  ("readyNeighbours", "Option<PalletMessageQueueNeighbours>"); ("messageCount", "u64"); ("size_", "u64")].

Definition PalletMessageQueueNeighbours : type_def :=
  Struct [
  ("prev", "CumulusPrimitivesCoreAggregateMessageOrigin");
  ("next", "CumulusPrimitivesCoreAggregateMessageOrigin")].

Definition PalletMessageQueuePage : type_def :=
  Struct [
  ("remaining", "u32"); ("remainingSize", "u32"); ("firstIndex", "u32"); ("first", "u32"); ("last", "u32");
  ("heap", "Bytes")].

Definition PalletMessageQueueError : type_def :=
  Names [
  "NotReapable"; "NoPage"; "NoMessage"; "AlreadyProcessed"; "Queued"; "InsufficientWeight";
  "TemporarilyUnprocessable"; "QueuePaused"; "RecursiveDisallowed"].

Definition PalletUniqueError : type_def :=
  Names [
  "CollectionDecimalPointLimitExceeded"; "EmptyArgument"; "RepartitionCalledOnNonRefungibleCollection"].

Definition PalletConfigurationError : type_def :=
  Names ["InconsistentConfiguration"].

Definition UpDataStructsCollection : type_def :=
  Struct [
  ("owner", "AccountId32"); ("mode", "UpDataStructsCollectionMode"); ("name", "Vec<u16>");
  ("description", "Vec<u16>"); ("tokenPrefix", "Bytes");
  ("sponsorship", "UpDataStructsSponsorshipStateAccountId32"); ("limits", "UpDataStructsCollectionLimits");
  ("permissions", "UpDataStructsCollectionPermissions"); ("flags", "[u8;1]")].

Definition UpDataStructsSponsorshipStateAccountId32 : type_def :=
  Enum [
  ("Disabled", Of "Null"); ("Unconfirmed", Of "AccountId32"); ("Confirmed", Of "AccountId32")].

Definition UpDataStructsProperties : type_def :=
  Struct [
  ("map", "UpDataStructsPropertiesMapBoundedVec"); ("consumedSpace", "u32"); ("reserved", "u32")].

Definition UpDataStructsPropertiesMapBoundedVec : type_def :=
  Alias "BTreeMap<Bytes, Bytes>".

Definition UpDataStructsPropertiesMapPropertyPermission : type_def :=
  Alias "BTreeMap<Bytes, UpDataStructsPropertyPermission>".

Definition UpDataStructsCollectionStats : type_def :=
  Struct [("created", "u32"); ("destroyed", "u32"); ("alive", "u32")].

Definition UpDataStructsTokenChild : type_def :=
  Struct [("token", "u32"); ("collection", "u32")].

Definition PhantomTypeUpDataStructs : type_def :=
  Alias "[(UpDataStructsTokenData,UpDataStructsRpcCollection,UpPovEstimateRpcPovInfo);0]".

Definition UpDataStructsTokenData : type_def :=
  Struct [
  ("properties", "Vec<UpDataStructsProperty>"); ("owner", "Option<PalletEvmAccountBasicCrossAccountIdRepr>");
  ("pieces", "u128")].

Definition UpDataStructsRpcCollection : type_def :=
  Struct [
  ("owner", "AccountId32"); ("mode", "UpDataStructsCollectionMode"); ("name", "Vec<u16>");
  ("description", "Vec<u16>"); ("tokenPrefix", "Bytes");
  ("sponsorship", "UpDataStructsSponsorshipStateAccountId32"); ("limits", "UpDataStructsCollectionLimits");
  ("permissions", "UpDataStructsCollectionPermissions");
  ("tokenPropertyPermissions", "Vec<UpDataStructsPropertyKeyPermission>");
  ("properties", "Vec<UpDataStructsProperty>"); ("readOnly", "bool");
  ("flags", "UpDataStructsRpcCollectionFlags")].

Definition UpDataStructsRpcCollectionFlags : type_def :=
  Struct [("foreign", "bool"); ("erc721metadata", "bool")].

Definition UpPovEstimateRpcPovInfo : type_def :=
  Struct [
  ("proofSize", "u64"); ("compactProofSize", "u64"); ("compressedProofSize", "u64");
  ("results", "Vec<Result<Result<Null, SpRuntimeDispatchError>, SpRuntimeTransactionValidityTransactionValidityError>>");
  ("keyValues", "Vec<UpPovEstimateRpcTrieKeyValue>")].

Definition SpRuntimeTransactionValidityTransactionValidityError : type_def :=
  Enum [
  ("Invalid", Of "SpRuntimeTransactionValidityInvalidTransaction");
  ("Unknown", Of "SpRuntimeTransactionValidityUnknownTransaction")].

Definition SpRuntimeTransactionValidityInvalidTransaction : type_def :=
  Enum [
  ("Call", Of "Null"); ("Payment", Of "Null"); ("Future", Of "Null"); ("Stale", Of "Null");
  ("BadProof", Of "Null"); ("AncientBirthBlock", Of "Null"); ("ExhaustsResources", Of "Null");
  ("Custom", Of "u8"); ("BadMandatory", Of "Null"); ("MandatoryValidation", Of "Null");
  ("BadSigner", Of "Null"); ("IndeterminateImplicit", Of "Null"); ("UnknownOrigin", Of "Null")].

Definition SpRuntimeTransactionValidityUnknownTransaction : type_def :=
  Enum [
  ("CannotLookup", Of "Null"); ("NoUnsignedValidator", Of "Null"); ("Custom", Of "u8")].

Definition UpPovEstimateRpcTrieKeyValue : type_def :=
  Struct [("key", "Bytes"); ("value", "Bytes")].

Definition PalletCommonError : type_def :=
  Names [
  "CollectionNotFound"; "MustBeTokenOwner"; "NoPermission"; "CantDestroyNotEmptyCollection";
  "PublicMintingNotAllowed"; "AddressNotInAllowlist"; "CollectionNameLimitExceeded";
  "CollectionDescriptionLimitExceeded"; "CollectionTokenPrefixLimitExceeded"; "TotalCollectionsLimitExceeded";
  "CollectionAdminCountExceeded"; "CollectionLimitBoundsExceeded"; "OwnerPermissionsCantBeReverted";
  "TransferNotAllowed"; "AccountTokenLimitExceeded"; "CollectionTokenLimitExceeded"; "MetadataFlagFrozen";
  "TokenNotFound"; "TokenValueTooLow"; "ApprovedValueTooLow"; "CantApproveMoreThanOwned";
  "AddressIsNotEthMirror"; "AddressIsZero"; "UnsupportedOperation"; "NotSufficientFounds";
  "UserIsNotAllowedToNest"; "SourceCollectionIsNotAllowedToNest"; "CollectionFieldSizeExceeded";
  "NoSpaceForProperty"; "PropertyLimitReached"; "PropertyKeyIsTooLong"; "InvalidCharacterInPropertyKey";
  "EmptyPropertyKey"; "CollectionIsExternal"; "CollectionIsInternal"; "ConfirmSponsorshipFail";
  "UserIsNotCollectionAdmin"; "FungibleItemsHaveNoId"; "NotFungibleDataUsedToMintFungibleCollectionToken"].

Definition PalletFungibleError : type_def :=
  Names [
  "FungibleItemsDontHaveData"; "FungibleDisallowsNesting"; "SettingPropertiesNotAllowed";
  "SettingAllowanceForAllNotAllowed"; "FungibleTokensAreAlwaysValid"].

Definition PalletRefungibleError : type_def :=
  Names [
  "NotRefungibleDataUsedToMintFungibleCollectionToken"; "WrongRefungiblePieces";
  "RepartitionWhileNotOwningAllPieces"; "RefungibleDisallowsNesting"; "SettingPropertiesNotAllowed"].

Definition PalletNonfungibleItemData : type_def :=
  Struct [("owner", "PalletEvmAccountBasicCrossAccountIdRepr")].

Definition UpDataStructsPropertyScope : type_def :=
  Names ["None"; "Rmrk"].

Definition PalletNonfungibleError : type_def :=
  Names [
  "NotNonfungibleDataUsedToMintFungibleCollectionToken"; "NonfungibleItemsHaveNoAmount";
  "CantBurnNftWithChildren"].

Definition PalletStructureError : type_def :=
  Names [
  "OuroborosDetected"; "DepthLimit"; "BreadthLimit"; "TokenNotFound"; "CantNestTokenUnderCollection"].

Definition PalletAppPromotionError : type_def :=
  Names [
  "AdminNotSet"; "NoPermission"; "NotSufficientFunds"; "PendingForBlockOverflow"; "SponsorNotSet";
  "InsufficientStakedBalance"; "InconsistencyState"].

Definition PalletForeignAssetsModuleError : type_def :=
  Names ["ForeignAssetAlreadyRegistered"; "BadForeignAssetId"; "ForeignAssetNotFound"].

Definition PalletEvmCodeMetadata : type_def :=
  AliasedStruct [("size_", "size"); ("hash_", "hash")] [
  ("size_", "u64"); ("hash_", "H256")].

Definition PalletEvmError : type_def :=
  Names [
  "BalanceLow"; "FeeOverflow"; "PaymentOverflow"; "WithdrawFailed"; "GasPriceTooLow"; "InvalidNonce";
  "GasLimitTooLow"; "GasLimitTooHigh"; "InvalidChainId"; "InvalidSignature"; "Reentrancy";
  "TransactionMustComeFromEOA"; "Undefined"; "CreateOriginNotAllowed"].

Definition FpRpcTransactionStatus : type_def :=
  Struct [
  ("transactionHash", "H256"); ("transactionIndex", "u32"); ("from", "H160"); ("to", "Option<H160>");
  ("contractAddress", "Option<H160>"); ("logs", "Vec<EthereumLog>"); ("logsBloom", "EthbloomBloom")].

Definition EthbloomBloom : type_def :=
  Alias "[u8;256]".

Definition EthereumReceiptReceiptV3 : type_def :=
  Enum [
  ("Legacy", Of "EthereumReceiptEip658ReceiptData"); ("EIP2930", Of "EthereumReceiptEip658ReceiptData");
  ("EIP1559", Of "EthereumReceiptEip658ReceiptData")].

Definition EthereumReceiptEip658ReceiptData : type_def :=
  Struct [
  ("statusCode", "u8"); ("usedGas", "U256"); ("logsBloom", "EthbloomBloom"); ("logs", "Vec<EthereumLog>")].

Definition EthereumBlock : type_def :=
  Struct [
  ("header", "EthereumHeader"); ("transactions", "Vec<EthereumTransactionTransactionV2>");
  ("ommers", "Vec<EthereumHeader>")].

Definition EthereumHeader : type_def :=
  Struct [
  ("parentHash", "H256"); ("ommersHash", "H256"); ("beneficiary", "H160"); ("stateRoot", "H256");
  ("transactionsRoot", "H256"); ("receiptsRoot", "H256"); ("logsBloom", "EthbloomBloom");
  ("difficulty", "U256"); ("number", "U256"); ("gasLimit", "U256"); ("gasUsed", "U256"); ("timestamp", "u64");
  ("extraData", "Bytes"); ("mixHash", "H256"); ("nonce", "EthereumTypesHashH64")].

Definition EthereumTypesHashH64 : type_def :=
  Alias "[u8;8]".

Definition PalletEthereumError : type_def :=
  Names ["InvalidSignature"; "PreLogExists"].

Definition PalletEvmCoderSubstrateError : type_def :=
  Names ["OutOfGas"; "OutOfFund"].

Definition UpDataStructsSponsorshipStateBasicCrossAccountIdRepr : type_def :=
  Enum [
  ("Disabled", Of "Null"); ("Unconfirmed", Of "PalletEvmAccountBasicCrossAccountIdRepr");
  ("Confirmed", Of "PalletEvmAccountBasicCrossAccountIdRepr")].

Definition PalletEvmContractHelpersSponsoringModeT : type_def :=
  Names ["Disabled"; "Allowlisted"; "Generous"].

Definition PalletEvmContractHelpersError : type_def :=
  Names ["NoPermission"; "NoPendingSponsor"; "TooManyMethodsHaveSponsoredLimit"].

Definition PalletEvmMigrationError : type_def :=
  Names ["AccountNotEmpty"; "AccountIsNotMigrating"; "BadEvent"].

Definition PalletMaintenanceError : type_def :=
  Alias "Null".

Definition PalletUtilityError : type_def :=
  Names ["TooManyCalls"].

Definition PalletTestUtilsError : type_def :=
  Names ["TestPalletDisabled"; "TriggerRollback"].

Definition SpRuntimeMultiSignature : type_def :=
  Enum [("Ed25519", Of "[u8;64]"); ("Sr25519", Of "[u8;64]"); ("Ecdsa", Of "[u8;65]")].

Definition FrameSystemExtensionsCheckSpecVersion : type_def :=
  Alias "Null".

Definition FrameSystemExtensionsCheckTxVersion : type_def :=
  Alias "Null".

Definition FrameSystemExtensionsCheckGenesis : type_def :=
  Alias "Null".

Definition PalletSponsoringCheckNonce : type_def :=
  Alias "Compact<u32>".

Definition FrameSystemExtensionsCheckWeight : type_def :=
  Alias "Null".

Definition OpalRuntimeRuntimeCommonMaintenanceCheckMaintenance : type_def :=
  Alias "Null".

Definition OpalRuntimeRuntimeCommonIdentityDisableIdentityCalls : type_def :=
  Alias "Null".

Definition PalletSponsoringChargeTransactionPayment : type_def :=
  Alias "Compact<u128>".

Definition OpalRuntimeRuntime : type_def :=
  Alias "Null".

Definition OpalRuntimeRuntimeCommonFeeCoefficientCalculator : type_def :=
  Alias "Null".

Definition PalletEthereumFakeTransactionFinalizer : type_def :=
  Alias "Null".

Definition CumulusPrimitivesStorageWeightReclaimAllowDeprecatedStorageWeightReclaim : type_def :=
  Alias "Null".

Definition FrameMetadataHashExtensionCheckMetadataHash : type_def :=
  Struct [("mode", "FrameMetadataHashExtensionMode")].

Definition FrameMetadataHashExtensionMode : type_def :=
  Names ["Disabled"; "Enabled"].

End Lookup.

(** By name, with the names by their numbers in the metadata. *)
Definition lookup : list (string * (string * type_def)) := [
  ("FrameSystemAccountInfo", ("Lookup3", Lookup.FrameSystemAccountInfo));
  ("PalletBalancesAccountData", ("Lookup5", Lookup.PalletBalancesAccountData));
  ("FrameSupportDispatchPerDispatchClassWeight", ("Lookup9", Lookup.FrameSupportDispatchPerDispatchClassWeight));
  ("SpWeightsWeightV2Weight", ("Lookup10", Lookup.SpWeightsWeightV2Weight));
  ("SpRuntimeDigest", ("Lookup15", Lookup.SpRuntimeDigest));
  ("SpRuntimeDigestDigestItem", ("Lookup17", Lookup.SpRuntimeDigestDigestItem));
  ("FrameSystemEventRecord", ("Lookup20", Lookup.FrameSystemEventRecord));
  ("FrameSystemEvent", ("Lookup22", Lookup.FrameSystemEvent));
  ("FrameSystemDispatchEventInfo", ("Lookup23", Lookup.FrameSystemDispatchEventInfo));
  ("FrameSupportDispatchDispatchClass", ("Lookup24", Lookup.FrameSupportDispatchDispatchClass));
  ("FrameSupportDispatchPays", ("Lookup25", Lookup.FrameSupportDispatchPays));
  ("SpRuntimeDispatchError", ("Lookup26", Lookup.SpRuntimeDispatchError));
  ("SpRuntimeModuleError", ("Lookup27", Lookup.SpRuntimeModuleError));
  ("SpRuntimeTokenError", ("Lookup28", Lookup.SpRuntimeTokenError));
  ("SpArithmeticArithmeticError", ("Lookup29", Lookup.SpArithmeticArithmeticError));
  ("SpRuntimeTransactionalError", ("Lookup30", Lookup.SpRuntimeTransactionalError));
  ("SpRuntimeProvingTrieTrieError", ("Lookup31", Lookup.SpRuntimeProvingTrieTrieError));
  ("PalletStateTrieMigrationEvent", ("Lookup32", Lookup.PalletStateTrieMigrationEvent));
  ("PalletStateTrieMigrationMigrationCompute", ("Lookup33", Lookup.PalletStateTrieMigrationMigrationCompute));
  ("PalletStateTrieMigrationError", ("Lookup34", Lookup.PalletStateTrieMigrationError));
  ("CumulusPalletParachainSystemEvent", ("Lookup35", Lookup.CumulusPalletParachainSystemEvent));
  ("PalletCollatorSelectionEvent", ("Lookup37", Lookup.PalletCollatorSelectionEvent));
  ("PalletSessionEvent", ("Lookup38", Lookup.PalletSessionEvent));
  ("PalletBalancesEvent", ("Lookup39", Lookup.PalletBalancesEvent));
  ("FrameSupportTokensMiscBalanceStatus", ("Lookup40", Lookup.FrameSupportTokensMiscBalanceStatus));
  ("PalletTransactionPaymentEvent", ("Lookup41", Lookup.PalletTransactionPaymentEvent));
  ("PalletTreasuryEvent", ("Lookup42", Lookup.PalletTreasuryEvent));
  ("PalletSudoEvent", ("Lookup44", Lookup.PalletSudoEvent));
  ("OrmlVestingModuleEvent", ("Lookup47", Lookup.OrmlVestingModuleEvent));
  ("OrmlVestingVestingSchedule", ("Lookup48", Lookup.OrmlVestingVestingSchedule));
  ("OrmlXtokensModuleEvent", ("Lookup50", Lookup.OrmlXtokensModuleEvent));
  ("StagingXcmV5AssetAssets", ("Lookup51", Lookup.StagingXcmV5AssetAssets));
  ("StagingXcmV5Asset", ("Lookup53", Lookup.StagingXcmV5Asset));
  ("StagingXcmV5AssetAssetId", ("Lookup54", Lookup.StagingXcmV5AssetAssetId));
  ("StagingXcmV5Location", ("Lookup55", Lookup.StagingXcmV5Location));
  ("StagingXcmV5Junctions", ("Lookup56", Lookup.StagingXcmV5Junctions));
  ("StagingXcmV5Junction", ("Lookup58", Lookup.StagingXcmV5Junction));
  ("StagingXcmV5JunctionNetworkId", ("Lookup61", Lookup.StagingXcmV5JunctionNetworkId));
  ("XcmV3JunctionBodyId", ("Lookup63", Lookup.XcmV3JunctionBodyId));
  ("XcmV3JunctionBodyPart", ("Lookup64", Lookup.XcmV3JunctionBodyPart));
  ("StagingXcmV5AssetFungibility", ("Lookup72", Lookup.StagingXcmV5AssetFungibility));
  ("StagingXcmV5AssetAssetInstance", ("Lookup73", Lookup.StagingXcmV5AssetAssetInstance));
  ("PalletIdentityEvent", ("Lookup76", Lookup.PalletIdentityEvent));
  ("PalletPreimageEvent", ("Lookup77", Lookup.PalletPreimageEvent));
  ("PalletDemocracyEvent", ("Lookup78", Lookup.PalletDemocracyEvent));
  ("PalletDemocracyVoteThreshold", ("Lookup79", Lookup.PalletDemocracyVoteThreshold));
  ("PalletDemocracyVoteAccountVote", ("Lookup80", Lookup.PalletDemocracyVoteAccountVote));
  ("PalletDemocracyMetadataOwner", ("Lookup82", Lookup.PalletDemocracyMetadataOwner));
  ("PalletCollectiveEvent", ("Lookup83", Lookup.PalletCollectiveEvent));
  ("PalletMembershipEvent", ("Lookup85", Lookup.PalletMembershipEvent));
  ("PalletRankedCollectiveEvent", ("Lookup87", Lookup.PalletRankedCollectiveEvent));
  ("PalletRankedCollectiveVoteRecord", ("Lookup89", Lookup.PalletRankedCollectiveVoteRecord));
  ("PalletRankedCollectiveTally", ("Lookup90", Lookup.PalletRankedCollectiveTally));
  ("PalletReferendaEvent", ("Lookup91", Lookup.PalletReferendaEvent));
  ("FrameSupportPreimagesBounded", ("Lookup92", Lookup.FrameSupportPreimagesBounded));
  ("FrameSystemCall", ("Lookup94", Lookup.FrameSystemCall));
  ("PalletStateTrieMigrationCall", ("Lookup98", Lookup.PalletStateTrieMigrationCall));
  ("PalletStateTrieMigrationMigrationLimits", ("Lookup100", Lookup.PalletStateTrieMigrationMigrationLimits));
  ("PalletStateTrieMigrationMigrationTask", ("Lookup101", Lookup.PalletStateTrieMigrationMigrationTask));
  ("PalletStateTrieMigrationProgress", ("Lookup102", Lookup.PalletStateTrieMigrationProgress));
  ("CumulusPalletParachainSystemCall", ("Lookup104", Lookup.CumulusPalletParachainSystemCall));
  ("CumulusPrimitivesParachainInherentParachainInherentData", ("Lookup105", Lookup.CumulusPrimitivesParachainInherentParachainInherentData));
  ("PolkadotPrimitivesV8PersistedValidationData", ("Lookup106", Lookup.PolkadotPrimitivesV8PersistedValidationData));
  ("SpTrieStorageProof", ("Lookup108", Lookup.SpTrieStorageProof));
  ("PolkadotCorePrimitivesInboundDownwardMessage", ("Lookup111", Lookup.PolkadotCorePrimitivesInboundDownwardMessage));
  ("PolkadotCorePrimitivesInboundHrmpMessage", ("Lookup115", Lookup.PolkadotCorePrimitivesInboundHrmpMessage));
  ("StagingParachainInfoCall", ("Lookup118", Lookup.StagingParachainInfoCall));
  ("PalletCollatorSelectionCall", ("Lookup119", Lookup.PalletCollatorSelectionCall));
  ("PalletSessionCall", ("Lookup120", Lookup.PalletSessionCall));
  ("OpalRuntimeRuntimeCommonSessionKeys", ("Lookup121", Lookup.OpalRuntimeRuntimeCommonSessionKeys));
  ("SpConsensusAuraSr25519AppSr25519Public", ("Lookup122", Lookup.SpConsensusAuraSr25519AppSr25519Public));
  ("PalletBalancesCall", ("Lookup123", Lookup.PalletBalancesCall));
  ("PalletBalancesAdjustmentDirection", ("Lookup127", Lookup.PalletBalancesAdjustmentDirection));
  ("PalletTimestampCall", ("Lookup128", Lookup.PalletTimestampCall));
  ("PalletTreasuryCall", ("Lookup129", Lookup.PalletTreasuryCall));
  ("PalletSudoCall", ("Lookup131", Lookup.PalletSudoCall));
  ("OrmlVestingModuleCall", ("Lookup132", Lookup.OrmlVestingModuleCall));
  ("OrmlXtokensModuleCall", ("Lookup134", Lookup.OrmlXtokensModuleCall));
  ("XcmVersionedLocation", ("Lookup136", Lookup.XcmVersionedLocation));
  ("StagingXcmV3MultiLocation", ("Lookup137", Lookup.StagingXcmV3MultiLocation));
  ("XcmV3Junctions", ("Lookup138", Lookup.XcmV3Junctions));
  ("XcmV3Junction", ("Lookup139", Lookup.XcmV3Junction));
  ("XcmV3JunctionNetworkId", ("Lookup141", Lookup.XcmV3JunctionNetworkId));
  ("StagingXcmV4Location", ("Lookup142", Lookup.StagingXcmV4Location));
  ("StagingXcmV4Junctions", ("Lookup143", Lookup.StagingXcmV4Junctions));
  ("StagingXcmV4Junction", ("Lookup145", Lookup.StagingXcmV4Junction));
  ("StagingXcmV4JunctionNetworkId", ("Lookup147", Lookup.StagingXcmV4JunctionNetworkId));
  ("XcmV3WeightLimit", ("Lookup155", Lookup.XcmV3WeightLimit));
  ("XcmVersionedAsset", ("Lookup156", Lookup.XcmVersionedAsset));
  ("XcmV3MultiAsset", ("Lookup157", Lookup.XcmV3MultiAsset));
  ("XcmV3MultiassetAssetId", ("Lookup158", Lookup.XcmV3MultiassetAssetId));
  ("XcmV3MultiassetFungibility", ("Lookup159", Lookup.XcmV3MultiassetFungibility));
  ("XcmV3MultiassetAssetInstance", ("Lookup160", Lookup.XcmV3MultiassetAssetInstance));
  ("StagingXcmV4Asset", ("Lookup161", Lookup.StagingXcmV4Asset));
  ("StagingXcmV4AssetAssetId", ("Lookup162", Lookup.StagingXcmV4AssetAssetId));
  ("StagingXcmV4AssetFungibility", ("Lookup163", Lookup.StagingXcmV4AssetFungibility));
  ("StagingXcmV4AssetAssetInstance", ("Lookup164", Lookup.StagingXcmV4AssetAssetInstance));
  ("XcmVersionedAssets", ("Lookup167", Lookup.XcmVersionedAssets));
  ("XcmV3MultiassetMultiAssets", ("Lookup168", Lookup.XcmV3MultiassetMultiAssets));
  ("StagingXcmV4AssetAssets", ("Lookup170", Lookup.StagingXcmV4AssetAssets));
  ("PalletIdentityCall", ("Lookup172", Lookup.PalletIdentityCall));
  ("PalletIdentityIdentityInfo", ("Lookup173", Lookup.PalletIdentityIdentityInfo));
  ("PalletIdentityBitFlags", ("Lookup209", Lookup.PalletIdentityBitFlags));
  ("PalletIdentityIdentityField", ("Lookup210", Lookup.PalletIdentityIdentityField));
  ("PalletIdentityJudgement", ("Lookup211", Lookup.PalletIdentityJudgement));
  ("PalletIdentityRegistration", ("Lookup214", Lookup.PalletIdentityRegistration));
  ("PalletPreimageCall", ("Lookup222", Lookup.PalletPreimageCall));
  ("PalletDemocracyCall", ("Lookup224", Lookup.PalletDemocracyCall));
  ("PalletDemocracyConviction", ("Lookup225", Lookup.PalletDemocracyConviction));
  ("PalletCollectiveCall", ("Lookup227", Lookup.PalletCollectiveCall));
  ("PalletMembershipCall", ("Lookup229", Lookup.PalletMembershipCall));
  ("PalletRankedCollectiveCall", ("Lookup231", Lookup.PalletRankedCollectiveCall));
  ("PalletReferendaCall", ("Lookup232", Lookup.PalletReferendaCall));
  ("OpalRuntimeOriginCaller", ("Lookup233", Lookup.OpalRuntimeOriginCaller));
  ("FrameSupportDispatchRawOrigin", ("Lookup234", Lookup.FrameSupportDispatchRawOrigin));
  ("PalletCollectiveRawOrigin", ("Lookup235", Lookup.PalletCollectiveRawOrigin));
  ("PalletGovOriginsOrigin", ("Lookup238", Lookup.PalletGovOriginsOrigin));
  ("PalletXcmOrigin", ("Lookup239", Lookup.PalletXcmOrigin));
  ("CumulusPalletXcmOrigin", ("Lookup240", Lookup.CumulusPalletXcmOrigin));
  ("PalletEthereumRawOrigin", ("Lookup241", Lookup.PalletEthereumRawOrigin));
  ("FrameSupportScheduleDispatchTime", ("Lookup243", Lookup.FrameSupportScheduleDispatchTime));
  ("PalletSchedulerCall", ("Lookup244", Lookup.PalletSchedulerCall));
  ("CumulusPalletXcmpQueueCall", ("Lookup249", Lookup.CumulusPalletXcmpQueueCall));
  ("PalletXcmCall", ("Lookup250", Lookup.PalletXcmCall));
  ("XcmVersionedXcm", ("Lookup251", Lookup.XcmVersionedXcm)); ("XcmV3Xcm", ("Lookup252", Lookup.XcmV3Xcm));
  ("XcmV3Instruction", ("Lookup254", Lookup.XcmV3Instruction));
  ("XcmV3Response", ("Lookup255", Lookup.XcmV3Response));
  ("XcmV3TraitsError", ("Lookup258", Lookup.XcmV3TraitsError));
  ("XcmV3PalletInfo", ("Lookup260", Lookup.XcmV3PalletInfo));
  ("XcmV3MaybeErrorCode", ("Lookup263", Lookup.XcmV3MaybeErrorCode));
  ("XcmV3OriginKind", ("Lookup266", Lookup.XcmV3OriginKind));
  ("XcmDoubleEncoded", ("Lookup267", Lookup.XcmDoubleEncoded));
  ("XcmV3QueryResponseInfo", ("Lookup268", Lookup.XcmV3QueryResponseInfo));
  ("XcmV3MultiassetMultiAssetFilter", ("Lookup269", Lookup.XcmV3MultiassetMultiAssetFilter));
  ("XcmV3MultiassetWildMultiAsset", ("Lookup270", Lookup.XcmV3MultiassetWildMultiAsset));
  ("XcmV3MultiassetWildFungibility", ("Lookup271", Lookup.XcmV3MultiassetWildFungibility));
  ("StagingXcmV4Xcm", ("Lookup272", Lookup.StagingXcmV4Xcm));
  ("StagingXcmV4Instruction", ("Lookup274", Lookup.StagingXcmV4Instruction));
  ("StagingXcmV4Response", ("Lookup275", Lookup.StagingXcmV4Response));
  ("StagingXcmV4PalletInfo", ("Lookup277", Lookup.StagingXcmV4PalletInfo));
  ("StagingXcmV4QueryResponseInfo", ("Lookup281", Lookup.StagingXcmV4QueryResponseInfo));
  ("StagingXcmV4AssetAssetFilter", ("Lookup282", Lookup.StagingXcmV4AssetAssetFilter));
  ("StagingXcmV4AssetWildAsset", ("Lookup283", Lookup.StagingXcmV4AssetWildAsset));
  ("StagingXcmV4AssetWildFungibility", ("Lookup284", Lookup.StagingXcmV4AssetWildFungibility));
  ("StagingXcmV5Xcm", ("Lookup285", Lookup.StagingXcmV5Xcm));
  ("StagingXcmV5Instruction", ("Lookup287", Lookup.StagingXcmV5Instruction));
  ("StagingXcmV5Response", ("Lookup288", Lookup.StagingXcmV5Response));
  ("XcmV5TraitsError", ("Lookup291", Lookup.XcmV5TraitsError));
  ("StagingXcmV5PalletInfo", ("Lookup293", Lookup.StagingXcmV5PalletInfo));
  ("StagingXcmV5QueryResponseInfo", ("Lookup298", Lookup.StagingXcmV5QueryResponseInfo));
  ("StagingXcmV5AssetAssetFilter", ("Lookup299", Lookup.StagingXcmV5AssetAssetFilter));
  ("StagingXcmV5AssetWildAsset", ("Lookup300", Lookup.StagingXcmV5AssetWildAsset));
  ("StagingXcmV5AssetWildFungibility", ("Lookup301", Lookup.StagingXcmV5AssetWildFungibility));
  ("StagingXcmV5AssetAssetTransferFilter", ("Lookup303", Lookup.StagingXcmV5AssetAssetTransferFilter));
  ("StagingXcmV5Hint", ("Lookup308", Lookup.StagingXcmV5Hint));
  ("StagingXcmExecutorAssetTransferTransferType", ("Lookup321", Lookup.StagingXcmExecutorAssetTransferTransferType));
  ("XcmVersionedAssetId", ("Lookup322", Lookup.XcmVersionedAssetId));
  ("CumulusPalletXcmCall", ("Lookup324", Lookup.CumulusPalletXcmCall));
  ("CumulusPalletDmpQueueCall", ("Lookup325", Lookup.CumulusPalletDmpQueueCall));
  ("PalletMessageQueueCall", ("Lookup326", Lookup.PalletMessageQueueCall));
  ("CumulusPrimitivesCoreAggregateMessageOrigin", ("Lookup327", Lookup.CumulusPrimitivesCoreAggregateMessageOrigin));
  ("PalletInflationCall", ("Lookup328", Lookup.PalletInflationCall));
  ("PalletUniqueCall", ("Lookup329", Lookup.PalletUniqueCall));
  ("UpDataStructsCollectionMode", ("Lookup334", Lookup.UpDataStructsCollectionMode));
  ("UpDataStructsCreateCollectionData", ("Lookup335", Lookup.UpDataStructsCreateCollectionData));
  ("PalletEvmAccountBasicCrossAccountIdRepr", ("Lookup336", Lookup.PalletEvmAccountBasicCrossAccountIdRepr));
  ("UpDataStructsAccessMode", ("Lookup338", Lookup.UpDataStructsAccessMode));
  ("UpDataStructsCollectionLimits", ("Lookup340", Lookup.UpDataStructsCollectionLimits));
  ("UpDataStructsSponsoringRateLimit", ("Lookup342", Lookup.UpDataStructsSponsoringRateLimit));
  ("UpDataStructsCollectionPermissions", ("Lookup345", Lookup.UpDataStructsCollectionPermissions));
  ("UpDataStructsNestingPermissions", ("Lookup347", Lookup.UpDataStructsNestingPermissions));
  ("UpDataStructsOwnerRestrictedSet", ("Lookup349", Lookup.UpDataStructsOwnerRestrictedSet));
  ("UpDataStructsPropertyKeyPermission", ("Lookup354", Lookup.UpDataStructsPropertyKeyPermission));
  ("UpDataStructsPropertyPermission", ("Lookup356", Lookup.UpDataStructsPropertyPermission));
  ("UpDataStructsProperty", ("Lookup359", Lookup.UpDataStructsProperty));
  ("UpDataStructsCreateItemData", ("Lookup364", Lookup.UpDataStructsCreateItemData));
  ("UpDataStructsCreateNftData", ("Lookup365", Lookup.UpDataStructsCreateNftData));
  ("UpDataStructsCreateFungibleData", ("Lookup366", Lookup.UpDataStructsCreateFungibleData));
  ("UpDataStructsCreateReFungibleData", ("Lookup367", Lookup.UpDataStructsCreateReFungibleData));
  ("UpDataStructsCreateItemExData", ("Lookup371", Lookup.UpDataStructsCreateItemExData));
  ("UpDataStructsCreateNftExData", ("Lookup373", Lookup.UpDataStructsCreateNftExData));
  ("UpDataStructsCreateRefungibleExSingleOwner", ("Lookup380", Lookup.UpDataStructsCreateRefungibleExSingleOwner));
  ("UpDataStructsCreateRefungibleExMultipleOwners", ("Lookup382", Lookup.UpDataStructsCreateRefungibleExMultipleOwners));
  ("PalletConfigurationCall", ("Lookup383", Lookup.PalletConfigurationCall));
  ("PalletConfigurationAppPromotionConfiguration", ("Lookup384", Lookup.PalletConfigurationAppPromotionConfiguration));
  ("PalletStructureCall", ("Lookup389", Lookup.PalletStructureCall));
  ("PalletAppPromotionCall", ("Lookup390", Lookup.PalletAppPromotionCall));
  ("PalletForeignAssetsModuleCall", ("Lookup392", Lookup.PalletForeignAssetsModuleCall));
  ("PalletForeignAssetsForeignCollectionMode", ("Lookup393", Lookup.PalletForeignAssetsForeignCollectionMode));
  ("PalletEvmCall", ("Lookup394", Lookup.PalletEvmCall));
  ("PalletEthereumCall", ("Lookup400", Lookup.PalletEthereumCall));
  ("EthereumTransactionTransactionV2", ("Lookup401", Lookup.EthereumTransactionTransactionV2));
  ("EthereumTransactionLegacyLegacyTransaction", ("Lookup402", Lookup.EthereumTransactionLegacyLegacyTransaction));
  ("EthereumTransactionLegacyTransactionAction", ("Lookup403", Lookup.EthereumTransactionLegacyTransactionAction));
  ("EthereumTransactionLegacyTransactionSignature", ("Lookup404", Lookup.EthereumTransactionLegacyTransactionSignature));
  ("EthereumTransactionEip2930Eip2930Transaction", ("Lookup406", Lookup.EthereumTransactionEip2930Eip2930Transaction));
  ("EthereumTransactionEip2930AccessListItem", ("Lookup408", Lookup.EthereumTransactionEip2930AccessListItem));
  ("EthereumTransactionEip1559Eip1559Transaction", ("Lookup409", Lookup.EthereumTransactionEip1559Eip1559Transaction));
  ("PalletEvmContractHelpersCall", ("Lookup410", Lookup.PalletEvmContractHelpersCall));
  ("PalletEvmMigrationCall", ("Lookup412", Lookup.PalletEvmMigrationCall));
  ("EthereumLog", ("Lookup416", Lookup.EthereumLog));
  ("PalletMaintenanceCall", ("Lookup417", Lookup.PalletMaintenanceCall));
  ("PalletUtilityCall", ("Lookup418", Lookup.PalletUtilityCall));
  ("PalletTestUtilsCall", ("Lookup420", Lookup.PalletTestUtilsCall));
  ("SpRuntimeBlakeTwo256", ("Lookup421", Lookup.SpRuntimeBlakeTwo256));
  ("PalletSchedulerEvent", ("Lookup423", Lookup.PalletSchedulerEvent));
  ("CumulusPalletXcmpQueueEvent", ("Lookup426", Lookup.CumulusPalletXcmpQueueEvent));
  ("PalletXcmEvent", ("Lookup427", Lookup.PalletXcmEvent));
  ("StagingXcmV5TraitsOutcome", ("Lookup428", Lookup.StagingXcmV5TraitsOutcome));
  ("XcmV3TraitsSendError", ("Lookup429", Lookup.XcmV3TraitsSendError));
  ("CumulusPalletXcmEvent", ("Lookup430", Lookup.CumulusPalletXcmEvent));
  ("CumulusPalletDmpQueueEvent", ("Lookup431", Lookup.CumulusPalletDmpQueueEvent));
  ("PalletMessageQueueEvent", ("Lookup432", Lookup.PalletMessageQueueEvent));
  ("FrameSupportMessagesProcessMessageError", ("Lookup433", Lookup.FrameSupportMessagesProcessMessageError));
  ("PalletConfigurationEvent", ("Lookup434", Lookup.PalletConfigurationEvent));
  ("PalletCommonEvent", ("Lookup435", Lookup.PalletCommonEvent));
  ("PalletStructureEvent", ("Lookup436", Lookup.PalletStructureEvent));
  ("PalletAppPromotionEvent", ("Lookup437", Lookup.PalletAppPromotionEvent));
  ("PalletForeignAssetsModuleEvent", ("Lookup438", Lookup.PalletForeignAssetsModuleEvent));
  ("PalletForeignAssetsMigrationStatus", ("Lookup439", Lookup.PalletForeignAssetsMigrationStatus));
  ("PalletForeignAssetsMigrationStatusV3ToV5", ("Lookup440", Lookup.PalletForeignAssetsMigrationStatusV3ToV5));
  ("PalletEvmEvent", ("Lookup441", Lookup.PalletEvmEvent));
  ("PalletEthereumEvent", ("Lookup442", Lookup.PalletEthereumEvent));
  ("EvmCoreErrorExitReason", ("Lookup443", Lookup.EvmCoreErrorExitReason));
  ("EvmCoreErrorExitSucceed", ("Lookup444", Lookup.EvmCoreErrorExitSucceed));
  ("EvmCoreErrorExitError", ("Lookup445", Lookup.EvmCoreErrorExitError));
  ("EvmCoreErrorExitRevert", ("Lookup449", Lookup.EvmCoreErrorExitRevert));
  ("EvmCoreErrorExitFatal", ("Lookup450", Lookup.EvmCoreErrorExitFatal));
  ("PalletEvmContractHelpersEvent", ("Lookup451", Lookup.PalletEvmContractHelpersEvent));
  ("PalletEvmMigrationEvent", ("Lookup452", Lookup.PalletEvmMigrationEvent));
  ("PalletMaintenanceEvent", ("Lookup453", Lookup.PalletMaintenanceEvent));
  ("PalletUtilityEvent", ("Lookup454", Lookup.PalletUtilityEvent));
  ("PalletTestUtilsEvent", ("Lookup455", Lookup.PalletTestUtilsEvent));
  ("FrameSystemPhase", ("Lookup456", Lookup.FrameSystemPhase));
  ("FrameSystemLastRuntimeUpgradeInfo", ("Lookup458", Lookup.FrameSystemLastRuntimeUpgradeInfo));
  ("FrameSystemCodeUpgradeAuthorization", ("Lookup459", Lookup.FrameSystemCodeUpgradeAuthorization));
  ("FrameSystemLimitsBlockWeights", ("Lookup460", Lookup.FrameSystemLimitsBlockWeights));
  ("FrameSupportDispatchPerDispatchClassWeightsPerClass", ("Lookup461", Lookup.FrameSupportDispatchPerDispatchClassWeightsPerClass));
  ("FrameSystemLimitsWeightsPerClass", ("Lookup462", Lookup.FrameSystemLimitsWeightsPerClass));
  ("FrameSystemLimitsBlockLength", ("Lookup463", Lookup.FrameSystemLimitsBlockLength));
  ("FrameSupportDispatchPerDispatchClassU32", ("Lookup464", Lookup.FrameSupportDispatchPerDispatchClassU32));
  ("SpWeightsRuntimeDbWeight", ("Lookup465", Lookup.SpWeightsRuntimeDbWeight));
  ("SpVersionRuntimeVersion", ("Lookup466", Lookup.SpVersionRuntimeVersion));
  ("FrameSystemError", ("Lookup470", Lookup.FrameSystemError));
  ("CumulusPalletParachainSystemUnincludedSegmentAncestor", ("Lookup472", Lookup.CumulusPalletParachainSystemUnincludedSegmentAncestor));
  ("CumulusPalletParachainSystemUnincludedSegmentUsedBandwidth", ("Lookup473", Lookup.CumulusPalletParachainSystemUnincludedSegmentUsedBandwidth));
  ("CumulusPalletParachainSystemUnincludedSegmentHrmpChannelUpdate", ("Lookup475", Lookup.CumulusPalletParachainSystemUnincludedSegmentHrmpChannelUpdate));
  ("PolkadotPrimitivesV8UpgradeGoAhead", ("Lookup479", Lookup.PolkadotPrimitivesV8UpgradeGoAhead));
  ("CumulusPalletParachainSystemUnincludedSegmentSegmentTracker", ("Lookup480", Lookup.CumulusPalletParachainSystemUnincludedSegmentSegmentTracker));
  ("PolkadotPrimitivesV8UpgradeRestriction", ("Lookup482", Lookup.PolkadotPrimitivesV8UpgradeRestriction));
  ("CumulusPalletParachainSystemRelayStateSnapshotMessagingStateSnapshot", ("Lookup483", Lookup.CumulusPalletParachainSystemRelayStateSnapshotMessagingStateSnapshot));
  ("CumulusPalletParachainSystemRelayStateSnapshotRelayDispatchQueueRemainingCapacity", ("Lookup484", Lookup.CumulusPalletParachainSystemRelayStateSnapshotRelayDispatchQueueRemainingCapacity));
  ("PolkadotPrimitivesV8AbridgedHrmpChannel", ("Lookup487", Lookup.PolkadotPrimitivesV8AbridgedHrmpChannel));
  ("PolkadotPrimitivesV8AbridgedHostConfiguration", ("Lookup488", Lookup.PolkadotPrimitivesV8AbridgedHostConfiguration));
  ("PolkadotPrimitivesV8AsyncBackingAsyncBackingParams", ("Lookup489", Lookup.PolkadotPrimitivesV8AsyncBackingAsyncBackingParams));
  ("PolkadotCorePrimitivesOutboundHrmpMessage", ("Lookup495", Lookup.PolkadotCorePrimitivesOutboundHrmpMessage));
  ("CumulusPalletParachainSystemError", ("Lookup497", Lookup.CumulusPalletParachainSystemError));
  ("PalletCollatorSelectionError", ("Lookup499", Lookup.PalletCollatorSelectionError));
  ("SpCoreCryptoKeyTypeId", ("Lookup506", Lookup.SpCoreCryptoKeyTypeId));
  ("PalletSessionError", ("Lookup507", Lookup.PalletSessionError));
  ("PalletBalancesBalanceLock", ("Lookup513", Lookup.PalletBalancesBalanceLock));
  ("PalletBalancesReasons", ("Lookup514", Lookup.PalletBalancesReasons));
  ("PalletBalancesReserveData", ("Lookup517", Lookup.PalletBalancesReserveData));
  ("OpalRuntimeRuntimeHoldReason", ("Lookup521", Lookup.OpalRuntimeRuntimeHoldReason));
  ("PalletStateTrieMigrationHoldReason", ("Lookup522", Lookup.PalletStateTrieMigrationHoldReason));
  ("PalletCollatorSelectionHoldReason", ("Lookup523", Lookup.PalletCollatorSelectionHoldReason));
  ("PalletPreimageHoldReason", ("Lookup524", Lookup.PalletPreimageHoldReason));
  ("PalletCollectiveHoldReason", ("Lookup525", Lookup.PalletCollectiveHoldReason));
  ("PalletXcmHoldReason", ("Lookup528", Lookup.PalletXcmHoldReason));
  ("FrameSupportTokensMiscIdAmount", ("Lookup531", Lookup.FrameSupportTokensMiscIdAmount));
  ("PalletBalancesError", ("Lookup533", Lookup.PalletBalancesError));
  ("PalletTransactionPaymentReleases", ("Lookup534", Lookup.PalletTransactionPaymentReleases));
  ("PalletTreasuryProposal", ("Lookup535", Lookup.PalletTreasuryProposal));
  ("PalletTreasurySpendStatus", ("Lookup537", Lookup.PalletTreasurySpendStatus));
  ("PalletTreasuryPaymentState", ("Lookup538", Lookup.PalletTreasuryPaymentState));
  ("FrameSupportPalletId", ("Lookup540", Lookup.FrameSupportPalletId));
  ("PalletTreasuryError", ("Lookup541", Lookup.PalletTreasuryError));
  ("PalletSudoError", ("Lookup542", Lookup.PalletSudoError));
  ("OrmlVestingModuleError", ("Lookup544", Lookup.OrmlVestingModuleError));
  ("OrmlXtokensModuleError", ("Lookup545", Lookup.OrmlXtokensModuleError));
  ("PalletIdentityRegistrarInfo", ("Lookup550", Lookup.PalletIdentityRegistrarInfo));
  ("PalletIdentityError", ("Lookup552", Lookup.PalletIdentityError));
  ("PalletPreimageOldRequestStatus", ("Lookup553", Lookup.PalletPreimageOldRequestStatus));
  ("PalletPreimageRequestStatus", ("Lookup556", Lookup.PalletPreimageRequestStatus));
  ("PalletPreimageError", ("Lookup562", Lookup.PalletPreimageError));
  ("PalletDemocracyReferendumInfo", ("Lookup568", Lookup.PalletDemocracyReferendumInfo));
  ("PalletDemocracyReferendumStatus", ("Lookup569", Lookup.PalletDemocracyReferendumStatus));
  ("PalletDemocracyTally", ("Lookup570", Lookup.PalletDemocracyTally));
  ("PalletDemocracyVoteVoting", ("Lookup571", Lookup.PalletDemocracyVoteVoting));
  ("PalletDemocracyDelegations", ("Lookup575", Lookup.PalletDemocracyDelegations));
  ("PalletDemocracyVotePriorLock", ("Lookup576", Lookup.PalletDemocracyVotePriorLock));
  ("PalletDemocracyError", ("Lookup579", Lookup.PalletDemocracyError));
  ("PalletCollectiveVotes", ("Lookup583", Lookup.PalletCollectiveVotes));
  ("PalletCollectiveError", ("Lookup584", Lookup.PalletCollectiveError));
  ("PalletMembershipError", ("Lookup590", Lookup.PalletMembershipError));
  ("PalletRankedCollectiveMemberRecord", ("Lookup593", Lookup.PalletRankedCollectiveMemberRecord));
  ("PalletRankedCollectiveError", ("Lookup598", Lookup.PalletRankedCollectiveError));
  ("PalletReferendaReferendumInfo", ("Lookup599", Lookup.PalletReferendaReferendumInfo));
  ("PalletReferendaReferendumStatus", ("Lookup600", Lookup.PalletReferendaReferendumStatus));
  ("PalletReferendaDeposit", ("Lookup601", Lookup.PalletReferendaDeposit));
  ("PalletReferendaDecidingStatus", ("Lookup604", Lookup.PalletReferendaDecidingStatus));
  ("PalletReferendaTrackDetails", ("Lookup610", Lookup.PalletReferendaTrackDetails));
  ("PalletReferendaCurve", ("Lookup611", Lookup.PalletReferendaCurve));
  ("PalletReferendaError", ("Lookup614", Lookup.PalletReferendaError));
  ("PalletSchedulerScheduled", ("Lookup617", Lookup.PalletSchedulerScheduled));
  ("PalletSchedulerRetryConfig", ("Lookup619", Lookup.PalletSchedulerRetryConfig));
  ("PalletSchedulerError", ("Lookup620", Lookup.PalletSchedulerError));
  ("CumulusPalletXcmpQueueOutboundChannelDetails", ("Lookup631", Lookup.CumulusPalletXcmpQueueOutboundChannelDetails));
  ("CumulusPalletXcmpQueueOutboundState", ("Lookup632", Lookup.CumulusPalletXcmpQueueOutboundState));
  ("CumulusPalletXcmpQueueQueueConfigData", ("Lookup636", Lookup.CumulusPalletXcmpQueueQueueConfigData));
  ("CumulusPalletXcmpQueueError", ("Lookup637", Lookup.CumulusPalletXcmpQueueError));
  ("PalletXcmQueryStatus", ("Lookup638", Lookup.PalletXcmQueryStatus));
  ("XcmVersionedResponse", ("Lookup642", Lookup.XcmVersionedResponse));
  ("PalletXcmVersionMigrationStage", ("Lookup648", Lookup.PalletXcmVersionMigrationStage));
  ("PalletXcmRemoteLockedFungibleRecord", ("Lookup651", Lookup.PalletXcmRemoteLockedFungibleRecord));
  ("PalletXcmAuthorizedAliasesEntry", ("Lookup658", Lookup.PalletXcmAuthorizedAliasesEntry));
  ("FrameSupportStorageDisabled", ("Lookup659", Lookup.FrameSupportStorageDisabled));
  ("PalletXcmMaxAuthorizedAliases", ("Lookup660", Lookup.PalletXcmMaxAuthorizedAliases));
  ("XcmRuntimeApisAuthorizedAliasesOriginAliaser", ("Lookup662", Lookup.XcmRuntimeApisAuthorizedAliasesOriginAliaser));
  ("PalletXcmError", ("Lookup664", Lookup.PalletXcmError));
  ("CumulusPalletDmpQueueMigrationState", ("Lookup665", Lookup.CumulusPalletDmpQueueMigrationState));
  ("PalletMessageQueueBookState", ("Lookup668", Lookup.PalletMessageQueueBookState));
  ("PalletMessageQueueNeighbours", ("Lookup670", Lookup.PalletMessageQueueNeighbours));
  ("PalletMessageQueuePage", ("Lookup672", Lookup.PalletMessageQueuePage));
  ("PalletMessageQueueError", ("Lookup674", Lookup.PalletMessageQueueError));
  ("PalletUniqueError", ("Lookup678", Lookup.PalletUniqueError));
  ("PalletConfigurationError", ("Lookup679", Lookup.PalletConfigurationError));
  ("UpDataStructsCollection", ("Lookup680", Lookup.UpDataStructsCollection));
  ("UpDataStructsSponsorshipStateAccountId32", ("Lookup681", Lookup.UpDataStructsSponsorshipStateAccountId32));
  ("UpDataStructsProperties", ("Lookup682", Lookup.UpDataStructsProperties));
  ("UpDataStructsPropertiesMapBoundedVec", ("Lookup683", Lookup.UpDataStructsPropertiesMapBoundedVec));
  ("UpDataStructsPropertiesMapPropertyPermission", ("Lookup688", Lookup.UpDataStructsPropertiesMapPropertyPermission));
  ("UpDataStructsCollectionStats", ("Lookup695", Lookup.UpDataStructsCollectionStats));
  ("UpDataStructsTokenChild", ("Lookup696", Lookup.UpDataStructsTokenChild));
  ("PhantomTypeUpDataStructs", ("Lookup697", Lookup.PhantomTypeUpDataStructs));
  ("UpDataStructsTokenData", ("Lookup699", Lookup.UpDataStructsTokenData));
  ("UpDataStructsRpcCollection", ("Lookup700", Lookup.UpDataStructsRpcCollection));
  ("UpDataStructsRpcCollectionFlags", ("Lookup701", Lookup.UpDataStructsRpcCollectionFlags));
  ("UpPovEstimateRpcPovInfo", ("Lookup702", Lookup.UpPovEstimateRpcPovInfo));
  ("SpRuntimeTransactionValidityTransactionValidityError", ("Lookup705", Lookup.SpRuntimeTransactionValidityTransactionValidityError));
  ("SpRuntimeTransactionValidityInvalidTransaction", ("Lookup706", Lookup.SpRuntimeTransactionValidityInvalidTransaction));
  ("SpRuntimeTransactionValidityUnknownTransaction", ("Lookup707", Lookup.SpRuntimeTransactionValidityUnknownTransaction));
  ("UpPovEstimateRpcTrieKeyValue", ("Lookup709", Lookup.UpPovEstimateRpcTrieKeyValue));
  ("PalletCommonError", ("Lookup711", Lookup.PalletCommonError));
  ("PalletFungibleError", ("Lookup713", Lookup.PalletFungibleError));
  ("PalletRefungibleError", ("Lookup718", Lookup.PalletRefungibleError));
  ("PalletNonfungibleItemData", ("Lookup719", Lookup.PalletNonfungibleItemData));
  ("UpDataStructsPropertyScope", ("Lookup721", Lookup.UpDataStructsPropertyScope));
  ("PalletNonfungibleError", ("Lookup724", Lookup.PalletNonfungibleError));
  ("PalletStructureError", ("Lookup725", Lookup.PalletStructureError));
  ("PalletAppPromotionError", ("Lookup730", Lookup.PalletAppPromotionError));
  ("PalletForeignAssetsModuleError", ("Lookup732", Lookup.PalletForeignAssetsModuleError));
  ("PalletEvmCodeMetadata", ("Lookup733", Lookup.PalletEvmCodeMetadata));
  ("PalletEvmError", ("Lookup735", Lookup.PalletEvmError));
  ("FpRpcTransactionStatus", ("Lookup737", Lookup.FpRpcTransactionStatus));
  ("EthbloomBloom", ("Lookup739", Lookup.EthbloomBloom));
  ("EthereumReceiptReceiptV3", ("Lookup741", Lookup.EthereumReceiptReceiptV3));
  ("EthereumReceiptEip658ReceiptData", ("Lookup742", Lookup.EthereumReceiptEip658ReceiptData));
  ("EthereumBlock", ("Lookup743", Lookup.EthereumBlock));
  ("EthereumHeader", ("Lookup744", Lookup.EthereumHeader));
  ("EthereumTypesHashH64", ("Lookup745", Lookup.EthereumTypesHashH64));
  ("PalletEthereumError", ("Lookup750", Lookup.PalletEthereumError));
  ("PalletEvmCoderSubstrateError", ("Lookup751", Lookup.PalletEvmCoderSubstrateError));
  ("UpDataStructsSponsorshipStateBasicCrossAccountIdRepr", ("Lookup752", Lookup.UpDataStructsSponsorshipStateBasicCrossAccountIdRepr));
  ("PalletEvmContractHelpersSponsoringModeT", ("Lookup753", Lookup.PalletEvmContractHelpersSponsoringModeT));
  ("PalletEvmContractHelpersError", ("Lookup759", Lookup.PalletEvmContractHelpersError));
  ("PalletEvmMigrationError", ("Lookup760", Lookup.PalletEvmMigrationError));
  ("PalletMaintenanceError", ("Lookup761", Lookup.PalletMaintenanceError));
  ("PalletUtilityError", ("Lookup762", Lookup.PalletUtilityError));
  ("PalletTestUtilsError", ("Lookup763", Lookup.PalletTestUtilsError));
  ("SpRuntimeMultiSignature", ("Lookup765", Lookup.SpRuntimeMultiSignature));
  ("FrameSystemExtensionsCheckSpecVersion", ("Lookup769", Lookup.FrameSystemExtensionsCheckSpecVersion));
  ("FrameSystemExtensionsCheckTxVersion", ("Lookup770", Lookup.FrameSystemExtensionsCheckTxVersion));
  ("FrameSystemExtensionsCheckGenesis", ("Lookup771", Lookup.FrameSystemExtensionsCheckGenesis));
  ("PalletSponsoringCheckNonce", ("Lookup774", Lookup.PalletSponsoringCheckNonce));
  ("FrameSystemExtensionsCheckWeight", ("Lookup775", Lookup.FrameSystemExtensionsCheckWeight));
  ("OpalRuntimeRuntimeCommonMaintenanceCheckMaintenance", ("Lookup776", Lookup.OpalRuntimeRuntimeCommonMaintenanceCheckMaintenance));
  ("OpalRuntimeRuntimeCommonIdentityDisableIdentityCalls", ("Lookup777", Lookup.OpalRuntimeRuntimeCommonIdentityDisableIdentityCalls));
  ("PalletSponsoringChargeTransactionPayment", ("Lookup778", Lookup.PalletSponsoringChargeTransactionPayment));
  ("OpalRuntimeRuntime", ("Lookup779", Lookup.OpalRuntimeRuntime));
  ("OpalRuntimeRuntimeCommonFeeCoefficientCalculator", ("Lookup780", Lookup.OpalRuntimeRuntimeCommonFeeCoefficientCalculator));
  ("PalletEthereumFakeTransactionFinalizer", ("Lookup781", Lookup.PalletEthereumFakeTransactionFinalizer));
  ("CumulusPrimitivesStorageWeightReclaimAllowDeprecatedStorageWeightReclaim", ("Lookup782", Lookup.CumulusPrimitivesStorageWeightReclaimAllowDeprecatedStorageWeightReclaim));
  ("FrameMetadataHashExtensionCheckMetadataHash", ("Lookup783", Lookup.FrameMetadataHashExtensionCheckMetadataHash));
  ("FrameMetadataHashExtensionMode", ("Lookup784", Lookup.FrameMetadataHashExtensionMode))].
