(* ===== verification/DefaultTypes.v ===== *)
(** * The interfaces of default/types.ts

    The TypeScript interfaces of the runtime types that types/default/types.ts exports. *)
From Stdlib Require Import String.
From stdpp Require Import list.
From S2P Require Import Types.

#[local] Open Scope string_scope.

Module ByDefinition.

Definition CumulusPalletDmpQueueCall : interface :=
  ("Null", []).

Definition CumulusPalletDmpQueueEvent : interface :=
  ("Enum", [
  ("isStartedExport", Plain "boolean"); ("isExported", Plain "boolean");
  ("asExported", Fielded [("page", "u32")]); ("isExportFailed", Plain "boolean");
  ("asExportFailed", Fielded [("page", "u32")]); ("isCompletedExport", Plain "boolean");
  ("isStartedOverweightExport", Plain "boolean"); ("isExportedOverweight", Plain "boolean");
  ("asExportedOverweight", Fielded [("index", "u64")]); ("isExportOverweightFailed", Plain "boolean");
  ("asExportOverweightFailed", Fielded [("index", "u64")]); ("isCompletedOverweightExport", Plain "boolean");
  ("isStartedCleanup", Plain "boolean"); ("isCleanedSome", Plain "boolean");
  ("asCleanedSome", Fielded [("keysRemoved", "u32")]); ("isCompleted", Plain "boolean");
  ("asCompleted", Fielded [("error", "bool")]);
  ("type", Union ["StartedExport"; "Exported"; "ExportFailed"; "CompletedExport"; "StartedOverweightExport"; "ExportedOverweight"; "ExportOverweightFailed"; "CompletedOverweightExport"; "StartedCleanup"; "CleanedSome"; "Completed"])]).

Definition CumulusPalletDmpQueueMigrationState : interface :=
  ("Enum", [
  ("isNotStarted", Plain "boolean"); ("isStartedExport", Plain "boolean");
  ("asStartedExport", Fielded [("nextBeginUsed", "u32")]); ("isCompletedExport", Plain "boolean");
  ("isStartedOverweightExport", Plain "boolean");
  ("asStartedOverweightExport", Fielded [("nextOverweightIndex", "u64")]);
  ("isCompletedOverweightExport", Plain "boolean"); ("isStartedCleanup", Plain "boolean");
  ("asStartedCleanup", Fielded [("cursor", "Option<Bytes>")]); ("isCompleted", Plain "boolean");
  ("type", Union ["NotStarted"; "StartedExport"; "CompletedExport"; "StartedOverweightExport"; "CompletedOverweightExport"; "StartedCleanup"; "Completed"])]).

Definition CumulusPalletParachainSystemCall : interface :=
  ("Enum", [
  ("isSetValidationData", Plain "boolean");
  ("asSetValidationData", Fielded [("data", "CumulusPrimitivesParachainInherentParachainInherentData")]);
  ("isSudoSendUpwardMessage", Plain "boolean"); ("asSudoSendUpwardMessage", Fielded [("message", "Bytes")]);
  ("type", Union ["SetValidationData"; "SudoSendUpwardMessage"])]).

Definition CumulusPalletParachainSystemError : interface :=
  ("Enum", [
  ("isOverlappingUpgrades", Plain "boolean"); ("isProhibitedByPolkadot", Plain "boolean");
  ("isTooBig", Plain "boolean"); ("isValidationDataNotAvailable", Plain "boolean");
  ("isHostConfigurationNotAvailable", Plain "boolean"); ("isNotScheduled", Plain "boolean");
  ("type", Union ["OverlappingUpgrades"; "ProhibitedByPolkadot"; "TooBig"; "ValidationDataNotAvailable"; "HostConfigurationNotAvailable"; "NotScheduled"])]).

Definition CumulusPalletParachainSystemEvent : interface :=
  ("Enum", [
  ("isValidationFunctionStored", Plain "boolean"); ("isValidationFunctionApplied", Plain "boolean");
  ("asValidationFunctionApplied", Fielded [("relayChainBlockNum", "u32")]);
  ("isValidationFunctionDiscarded", Plain "boolean"); ("isDownwardMessagesReceived", Plain "boolean");
  ("asDownwardMessagesReceived", Fielded [("count", "u32")]); ("isDownwardMessagesProcessed", Plain "boolean");
  ("asDownwardMessagesProcessed", Fielded [("weightUsed", "SpWeightsWeightV2Weight"); ("dmqHead", "H256")]);
  ("isUpwardMessageSent", Plain "boolean");
  ("asUpwardMessageSent", Fielded [("messageHash", "Option<U8aFixed>")]);
  ("type", Union ["ValidationFunctionStored"; "ValidationFunctionApplied"; "ValidationFunctionDiscarded"; "DownwardMessagesReceived"; "DownwardMessagesProcessed"; "UpwardMessageSent"])]).

Definition CumulusPalletParachainSystemRelayStateSnapshotMessagingStateSnapshot : interface :=
  ("Struct", [
  ("dmqMqcHead", Plain "H256");
  ("relayDispatchQueueRemainingCapacity", Plain "CumulusPalletParachainSystemRelayStateSnapshotRelayDispatchQueueRemainingCapacity");
  ("ingressChannels", Plain "Vec<ITuple<[u32, PolkadotPrimitivesV8AbridgedHrmpChannel]>>");
  ("egressChannels", Plain "Vec<ITuple<[u32, PolkadotPrimitivesV8AbridgedHrmpChannel]>>")]).

Definition CumulusPalletParachainSystemRelayStateSnapshotRelayDispatchQueueRemainingCapacity : interface :=
  ("Struct", [("remainingCount", Plain "u32"); ("remainingSize", Plain "u32")]).

Definition CumulusPalletParachainSystemUnincludedSegmentAncestor : interface :=
  ("Struct", [
  ("usedBandwidth", Plain "CumulusPalletParachainSystemUnincludedSegmentUsedBandwidth");
  ("paraHeadHash", Plain "Option<H256>");
  ("consumedGoAheadSignal", Plain "Option<PolkadotPrimitivesV8UpgradeGoAhead>")]).

Definition CumulusPalletParachainSystemUnincludedSegmentHrmpChannelUpdate : interface :=
  ("Struct", [("msgCount", Plain "u32"); ("totalBytes", Plain "u32")]).

Definition CumulusPalletParachainSystemUnincludedSegmentSegmentTracker : interface :=
  ("Struct", [
  ("usedBandwidth", Plain "CumulusPalletParachainSystemUnincludedSegmentUsedBandwidth");
  ("hrmpWatermark", Plain "Option<u32>");
  ("consumedGoAheadSignal", Plain "Option<PolkadotPrimitivesV8UpgradeGoAhead>")]).

Definition CumulusPalletParachainSystemUnincludedSegmentUsedBandwidth : interface :=
  ("Struct", [
  ("umpMsgCount", Plain "u32"); ("umpTotalBytes", Plain "u32");
  ("hrmpOutgoing", Plain "BTreeMap<u32, CumulusPalletParachainSystemUnincludedSegmentHrmpChannelUpdate>")]).

Definition CumulusPalletXcmCall : interface :=
  ("Null", []).

Definition CumulusPalletXcmEvent : interface :=
  ("Enum", [
  ("isInvalidFormat", Plain "boolean"); ("asInvalidFormat", Plain "U8aFixed");
  ("isUnsupportedVersion", Plain "boolean"); ("asUnsupportedVersion", Plain "U8aFixed");
  ("isExecutedDownward", Plain "boolean");
  ("asExecutedDownward", Plain "ITuple<[U8aFixed, StagingXcmV5TraitsOutcome]>");
  ("type", Union ["InvalidFormat"; "UnsupportedVersion"; "ExecutedDownward"])]).

Definition CumulusPalletXcmOrigin : interface :=
  ("Enum", [
  ("isRelay", Plain "boolean"); ("isSiblingParachain", Plain "boolean"); ("asSiblingParachain", Plain "u32");
  ("type", Union ["Relay"; "SiblingParachain"])]).

Definition CumulusPalletXcmpQueueCall : interface :=
  ("Enum", [
  ("isSuspendXcmExecution", Plain "boolean"); ("isResumeXcmExecution", Plain "boolean");
  ("isUpdateSuspendThreshold", Plain "boolean"); ("asUpdateSuspendThreshold", Fielded [("new_", "u32")]);
  ("isUpdateDropThreshold", Plain "boolean"); ("asUpdateDropThreshold", Fielded [("new_", "u32")]);
  ("isUpdateResumeThreshold", Plain "boolean"); ("asUpdateResumeThreshold", Fielded [("new_", "u32")]);
  ("type", Union ["SuspendXcmExecution"; "ResumeXcmExecution"; "UpdateSuspendThreshold"; "UpdateDropThreshold"; "UpdateResumeThreshold"])]).

Definition CumulusPalletXcmpQueueError : interface :=
  ("Enum", [
  ("isBadQueueConfig", Plain "boolean"); ("isAlreadySuspended", Plain "boolean");
  ("isAlreadyResumed", Plain "boolean"); ("isTooManyActiveOutboundChannels", Plain "boolean");
  ("isTooBig", Plain "boolean");
  ("type", Union ["BadQueueConfig"; "AlreadySuspended"; "AlreadyResumed"; "TooManyActiveOutboundChannels"; "TooBig"])]).

Definition CumulusPalletXcmpQueueEvent : interface :=
  ("Enum", [
  ("isXcmpMessageSent", Plain "boolean"); ("asXcmpMessageSent", Fielded [("messageHash", "U8aFixed")]);
  ("type", Union ["XcmpMessageSent"])]).

Definition CumulusPalletXcmpQueueOutboundChannelDetails : interface :=
  ("Struct", [
  ("recipient", Plain "u32"); ("state", Plain "CumulusPalletXcmpQueueOutboundState");
  ("signalsExist", Plain "bool"); ("firstIndex", Plain "u16"); ("lastIndex", Plain "u16")]).

Definition CumulusPalletXcmpQueueOutboundState : interface :=
  ("Enum", [
  ("isOk", Plain "boolean"); ("isSuspended", Plain "boolean"); ("type", Union ["Ok"; "Suspended"])]).

Definition CumulusPalletXcmpQueueQueueConfigData : interface :=
  ("Struct", [
  ("suspendThreshold", Plain "u32"); ("dropThreshold", Plain "u32"); ("resumeThreshold", Plain "u32")]).

Definition CumulusPrimitivesCoreAggregateMessageOrigin : interface :=
  ("Enum", [
  ("isHere", Plain "boolean"); ("isParent", Plain "boolean"); ("isSibling", Plain "boolean");
  ("asSibling", Plain "u32"); ("type", Union ["Here"; "Parent"; "Sibling"])]).

Definition CumulusPrimitivesParachainInherentParachainInherentData : interface :=
  ("Struct", [
  ("validationData", Plain "PolkadotPrimitivesV8PersistedValidationData");
  ("relayChainState", Plain "SpTrieStorageProof");
  ("downwardMessages", Plain "Vec<PolkadotCorePrimitivesInboundDownwardMessage>");
  ("horizontalMessages", Plain "BTreeMap<u32, Vec<PolkadotCorePrimitivesInboundHrmpMessage>>")]).

Definition CumulusPrimitivesStorageWeightReclaimAllowDeprecatedStorageWeightReclaim : interface :=
  ("Null", []).

Definition EthbloomBloom : interface :=
  ("U8aFixed", []).

Definition EthereumBlock : interface :=
  ("Struct", [
  ("header", Plain "EthereumHeader"); ("transactions", Plain "Vec<EthereumTransactionTransactionV2>");
  ("ommers", Plain "Vec<EthereumHeader>")]).

Definition EthereumHeader : interface :=
  ("Struct", [
  ("parentHash", Plain "H256"); ("ommersHash", Plain "H256"); ("beneficiary", Plain "H160");
  ("stateRoot", Plain "H256"); ("transactionsRoot", Plain "H256"); ("receiptsRoot", Plain "H256");
  ("logsBloom", Plain "EthbloomBloom"); ("difficulty", Plain "U256"); ("number", Plain "U256");
  ("gasLimit", Plain "U256"); ("gasUsed", Plain "U256"); ("timestamp", Plain "u64");
  ("extraData", Plain "Bytes"); ("mixHash", Plain "H256"); ("nonce", Plain "EthereumTypesHashH64")]).

Definition EthereumLog : interface :=
  ("Struct", [
  ("address", Plain "H160"); ("topics", Plain "Vec<H256>"); ("data", Plain "Bytes")]).

Definition EthereumReceiptEip658ReceiptData : interface :=
  ("Struct", [
  ("statusCode", Plain "u8"); ("usedGas", Plain "U256"); ("logsBloom", Plain "EthbloomBloom");
  ("logs", Plain "Vec<EthereumLog>")]).

Definition EthereumReceiptReceiptV3 : interface :=
  ("Enum", [
  ("isLegacy", Plain "boolean"); ("asLegacy", Plain "EthereumReceiptEip658ReceiptData");
  ("isEip2930", Plain "boolean"); ("asEip2930", Plain "EthereumReceiptEip658ReceiptData");
  ("isEip1559", Plain "boolean"); ("asEip1559", Plain "EthereumReceiptEip658ReceiptData");
  ("type", Union ["Legacy"; "Eip2930"; "Eip1559"])]).

Definition EthereumTransactionEip1559Eip1559Transaction : interface :=
  ("Struct", [
  ("chainId", Plain "u64"); ("nonce", Plain "U256"); ("maxPriorityFeePerGas", Plain "U256");
  ("maxFeePerGas", Plain "U256"); ("gasLimit", Plain "U256");
  ("action", Plain "EthereumTransactionLegacyTransactionAction"); ("value", Plain "U256");
  ("input", Plain "Bytes"); ("accessList", Plain "Vec<EthereumTransactionEip2930AccessListItem>");
  ("oddYParity", Plain "bool"); ("r", Plain "H256"); ("s", Plain "H256")]).

Definition EthereumTransactionEip2930AccessListItem : interface :=
  ("Struct", [("address", Plain "H160"); ("storageKeys", Plain "Vec<H256>")]).

Definition EthereumTransactionEip2930Eip2930Transaction : interface :=
  ("Struct", [
  ("chainId", Plain "u64"); ("nonce", Plain "U256"); ("gasPrice", Plain "U256"); ("gasLimit", Plain "U256");
  ("action", Plain "EthereumTransactionLegacyTransactionAction"); ("value", Plain "U256");
  ("input", Plain "Bytes"); ("accessList", Plain "Vec<EthereumTransactionEip2930AccessListItem>");
  ("oddYParity", Plain "bool"); ("r", Plain "H256"); ("s", Plain "H256")]).

Definition EthereumTransactionLegacyLegacyTransaction : interface :=
  ("Struct", [
  ("nonce", Plain "U256"); ("gasPrice", Plain "U256"); ("gasLimit", Plain "U256");
  ("action", Plain "EthereumTransactionLegacyTransactionAction"); ("value", Plain "U256");
  ("input", Plain "Bytes"); ("signature", Plain "EthereumTransactionLegacyTransactionSignature")]).

Definition EthereumTransactionLegacyTransactionAction : interface :=
  ("Enum", [
  ("isCall", Plain "boolean"); ("asCall", Plain "H160"); ("isCreate", Plain "boolean");
  ("type", Union ["Call"; "Create"])]).

Definition EthereumTransactionLegacyTransactionSignature : interface :=
  ("Struct", [("v", Plain "u64"); ("r", Plain "H256"); ("s", Plain "H256")]).

Definition EthereumTransactionTransactionV2 : interface :=
  ("Enum", [
  ("isLegacy", Plain "boolean"); ("asLegacy", Plain "EthereumTransactionLegacyLegacyTransaction");
  ("isEip2930", Plain "boolean"); ("asEip2930", Plain "EthereumTransactionEip2930Eip2930Transaction");
  ("isEip1559", Plain "boolean"); ("asEip1559", Plain "EthereumTransactionEip1559Eip1559Transaction");
  ("type", Union ["Legacy"; "Eip2930"; "Eip1559"])]).

Definition EthereumTypesHashH64 : interface :=
  ("U8aFixed", []).

Definition EvmCoreErrorExitError : interface :=
  ("Enum", [
  ("isStackUnderflow", Plain "boolean"); ("isStackOverflow", Plain "boolean");
  ("isInvalidJump", Plain "boolean"); ("isInvalidRange", Plain "boolean");
  ("isDesignatedInvalid", Plain "boolean"); ("isCallTooDeep", Plain "boolean");
  ("isCreateCollision", Plain "boolean"); ("isCreateContractLimit", Plain "boolean");
  ("isOutOfOffset", Plain "boolean"); ("isOutOfGas", Plain "boolean"); ("isOutOfFund", Plain "boolean");
  ("isPcUnderflow", Plain "boolean"); ("isCreateEmpty", Plain "boolean"); ("isOther", Plain "boolean");
  ("asOther", Plain "Text"); ("isMaxNonce", Plain "boolean"); ("isInvalidCode", Plain "boolean");
  ("asInvalidCode", Plain "u8");
  ("type", Union ["StackUnderflow"; "StackOverflow"; "InvalidJump"; "InvalidRange"; "DesignatedInvalid"; "CallTooDeep"; "CreateCollision"; "CreateContractLimit"; "OutOfOffset"; "OutOfGas"; "OutOfFund"; "PcUnderflow"; "CreateEmpty"; "Other"; "MaxNonce"; "InvalidCode"])]).

Definition EvmCoreErrorExitFatal : interface :=
  ("Enum", [
  ("isNotSupported", Plain "boolean"); ("isUnhandledInterrupt", Plain "boolean");
  ("isCallErrorAsFatal", Plain "boolean"); ("asCallErrorAsFatal", Plain "EvmCoreErrorExitError");
  ("isOther", Plain "boolean"); ("asOther", Plain "Text");
  ("type", Union ["NotSupported"; "UnhandledInterrupt"; "CallErrorAsFatal"; "Other"])]).

Definition EvmCoreErrorExitReason : interface :=
  ("Enum", [
  ("isSucceed", Plain "boolean"); ("asSucceed", Plain "EvmCoreErrorExitSucceed"); ("isError", Plain "boolean");
  ("asError", Plain "EvmCoreErrorExitError"); ("isRevert", Plain "boolean");
  ("asRevert", Plain "EvmCoreErrorExitRevert"); ("isFatal", Plain "boolean");
  ("asFatal", Plain "EvmCoreErrorExitFatal"); ("type", Union ["Succeed"; "Error"; "Revert"; "Fatal"])]).

Definition EvmCoreErrorExitRevert : interface :=
  ("Enum", [("isReverted", Plain "boolean"); ("type", Union ["Reverted"])]).

Definition EvmCoreErrorExitSucceed : interface :=
  ("Enum", [
  ("isStopped", Plain "boolean"); ("isReturned", Plain "boolean"); ("isSuicided", Plain "boolean");
  ("type", Union ["Stopped"; "Returned"; "Suicided"])]).

Definition FpRpcTransactionStatus : interface :=
  ("Struct", [
  ("transactionHash", Plain "H256"); ("transactionIndex", Plain "u32"); ("from", Plain "H160");
  ("to", Plain "Option<H160>"); ("contractAddress", Plain "Option<H160>"); ("logs", Plain "Vec<EthereumLog>");
  ("logsBloom", Plain "EthbloomBloom")]).

Definition FrameMetadataHashExtensionCheckMetadataHash : interface :=
  ("Struct", [("mode", Plain "FrameMetadataHashExtensionMode")]).

Definition FrameMetadataHashExtensionMode : interface :=
  ("Enum", [
  ("isDisabled", Plain "boolean"); ("isEnabled", Plain "boolean"); ("type", Union ["Disabled"; "Enabled"])]).

Definition FrameSupportDispatchDispatchClass : interface :=
  ("Enum", [
  ("isNormal", Plain "boolean"); ("isOperational", Plain "boolean"); ("isMandatory", Plain "boolean");
  ("type", Union ["Normal"; "Operational"; "Mandatory"])]).

Definition FrameSupportDispatchPays : interface :=
  ("Enum", [
  ("isYes", Plain "boolean"); ("isNo", Plain "boolean"); ("type", Union ["Yes"; "No"])]).

Definition FrameSupportDispatchPerDispatchClassU32 : interface :=
  ("Struct", [
  ("normal", Plain "u32"); ("operational", Plain "u32"); ("mandatory", Plain "u32")]).

Definition FrameSupportDispatchPerDispatchClassWeight : interface :=
  ("Struct", [
  ("normal", Plain "SpWeightsWeightV2Weight"); ("operational", Plain "SpWeightsWeightV2Weight");
  ("mandatory", Plain "SpWeightsWeightV2Weight")]).

Definition FrameSupportDispatchPerDispatchClassWeightsPerClass : interface :=
  ("Struct", [
  ("normal", Plain "FrameSystemLimitsWeightsPerClass");
  ("operational", Plain "FrameSystemLimitsWeightsPerClass");
  ("mandatory", Plain "FrameSystemLimitsWeightsPerClass")]).

Definition FrameSupportDispatchRawOrigin : interface :=
  ("Enum", [
  ("isRoot", Plain "boolean"); ("isSigned", Plain "boolean"); ("asSigned", Plain "AccountId32");
  ("isNone", Plain "boolean"); ("type", Union ["Root"; "Signed"; "None"])]).

Definition FrameSupportMessagesProcessMessageError : interface :=
  ("Enum", [
  ("isBadFormat", Plain "boolean"); ("isCorrupt", Plain "boolean"); ("isUnsupported", Plain "boolean");
  ("isOverweight", Plain "boolean"); ("asOverweight", Plain "SpWeightsWeightV2Weight");
  ("isYield", Plain "boolean"); ("isStackLimitReached", Plain "boolean");
  ("type", Union ["BadFormat"; "Corrupt"; "Unsupported"; "Overweight"; "Yield"; "StackLimitReached"])]).

Definition FrameSupportPalletId : interface :=
  ("U8aFixed", []).

Definition FrameSupportPreimagesBounded : interface :=
  ("Enum", [
  ("isLegacy", Plain "boolean"); ("asLegacy", Fielded [("hash_", "H256")]); ("isInline", Plain "boolean");
  ("asInline", Plain "Bytes"); ("isLookup", Plain "boolean");
  ("asLookup", Fielded [("hash_", "H256"); ("len", "u32")]); ("type", Union ["Legacy"; "Inline"; "Lookup"])]).

Definition FrameSupportScheduleDispatchTime : interface :=
  ("Enum", [
  ("isAt", Plain "boolean"); ("asAt", Plain "u32"); ("isAfter", Plain "boolean"); ("asAfter", Plain "u32");
  ("type", Union ["At"; "After"])]).

Definition FrameSupportStorageDisabled : interface :=
  ("Null", []).

Definition FrameSupportTokensMiscBalanceStatus : interface :=
  ("Enum", [
  ("isFree", Plain "boolean"); ("isReserved", Plain "boolean"); ("type", Union ["Free"; "Reserved"])]).

Definition FrameSupportTokensMiscIdAmount : interface :=
  ("Struct", [("id", Plain "U8aFixed"); ("amount", Plain "u128")]).

Definition FrameSystemAccountInfo : interface :=
  ("Struct", [
  ("nonce", Plain "u32"); ("consumers", Plain "u32"); ("providers", Plain "u32"); ("sufficients", Plain "u32");
  ("data", Plain "PalletBalancesAccountData")]).

Definition FrameSystemCall : interface :=
  ("Enum", [
  ("isRemark", Plain "boolean"); ("asRemark", Fielded [("remark", "Bytes")]);
  ("isSetHeapPages", Plain "boolean"); ("asSetHeapPages", Fielded [("pages", "u64")]);
  ("isSetCode", Plain "boolean"); ("asSetCode", Fielded [("code", "Bytes")]);
  ("isSetCodeWithoutChecks", Plain "boolean"); ("asSetCodeWithoutChecks", Fielded [("code", "Bytes")]);
  ("isSetStorage", Plain "boolean"); ("asSetStorage", Fielded [("items", "Vec<ITuple<[Bytes, Bytes]>>")]);
  ("isKillStorage", Plain "boolean"); ("asKillStorage", Fielded [("keys_", "Vec<Bytes>")]);
  ("isKillPrefix", Plain "boolean"); ("asKillPrefix", Fielded [("prefix", "Bytes"); ("subkeys", "u32")]);
  ("isRemarkWithEvent", Plain "boolean"); ("asRemarkWithEvent", Fielded [("remark", "Bytes")]);
  ("isAuthorizeUpgrade", Plain "boolean"); ("asAuthorizeUpgrade", Fielded [("codeHash", "H256")]);
  ("isAuthorizeUpgradeWithoutChecks", Plain "boolean");
  ("asAuthorizeUpgradeWithoutChecks", Fielded [("codeHash", "H256")]);
  ("isApplyAuthorizedUpgrade", Plain "boolean"); ("asApplyAuthorizedUpgrade", Fielded [("code", "Bytes")]);
  ("type", Union ["Remark"; "SetHeapPages"; "SetCode"; "SetCodeWithoutChecks"; "SetStorage"; "KillStorage"; "KillPrefix"; "RemarkWithEvent"; "AuthorizeUpgrade"; "AuthorizeUpgradeWithoutChecks"; "ApplyAuthorizedUpgrade"])]).

Definition FrameSystemCodeUpgradeAuthorization : interface :=
  ("Struct", [("codeHash", Plain "H256"); ("checkVersion", Plain "bool")]).

Definition FrameSystemDispatchEventInfo : interface :=
  ("Struct", [
  ("weight", Plain "SpWeightsWeightV2Weight"); ("class", Plain "FrameSupportDispatchDispatchClass");
  ("paysFee", Plain "FrameSupportDispatchPays")]).

Definition FrameSystemError : interface :=
  ("Enum", [
  ("isInvalidSpecName", Plain "boolean"); ("isSpecVersionNeedsToIncrease", Plain "boolean");
  ("isFailedToExtractRuntimeVersion", Plain "boolean"); ("isNonDefaultComposite", Plain "boolean");
  ("isNonZeroRefCount", Plain "boolean"); ("isCallFiltered", Plain "boolean");
  ("isMultiBlockMigrationsOngoing", Plain "boolean"); ("isNothingAuthorized", Plain "boolean");
  ("isUnauthorized", Plain "boolean");
  ("type", Union ["InvalidSpecName"; "SpecVersionNeedsToIncrease"; "FailedToExtractRuntimeVersion"; "NonDefaultComposite"; "NonZeroRefCount"; "CallFiltered"; "MultiBlockMigrationsOngoing"; "NothingAuthorized"; "Unauthorized"])]).

Definition FrameSystemEvent : interface :=
  ("Enum", [
  ("isExtrinsicSuccess", Plain "boolean");
  ("asExtrinsicSuccess", Fielded [("dispatchInfo", "FrameSystemDispatchEventInfo")]);
  ("isExtrinsicFailed", Plain "boolean");
  ("asExtrinsicFailed", Fielded [("dispatchError", "SpRuntimeDispatchError"); ("dispatchInfo", "FrameSystemDispatchEventInfo")]);
  ("isCodeUpdated", Plain "boolean"); ("isNewAccount", Plain "boolean");
  ("asNewAccount", Fielded [("account", "AccountId32")]); ("isKilledAccount", Plain "boolean");
  ("asKilledAccount", Fielded [("account", "AccountId32")]); ("isRemarked", Plain "boolean");
  ("asRemarked", Fielded [("sender", "AccountId32"); ("hash_", "H256")]);
  ("isUpgradeAuthorized", Plain "boolean");
  ("asUpgradeAuthorized", Fielded [("codeHash", "H256"); ("checkVersion", "bool")]);
  ("isRejectedInvalidAuthorizedUpgrade", Plain "boolean");
  ("asRejectedInvalidAuthorizedUpgrade", Fielded [("codeHash", "H256"); ("error", "SpRuntimeDispatchError")]);
  ("type", Union ["ExtrinsicSuccess"; "ExtrinsicFailed"; "CodeUpdated"; "NewAccount"; "KilledAccount"; "Remarked"; "UpgradeAuthorized"; "RejectedInvalidAuthorizedUpgrade"])]).

Definition FrameSystemEventRecord : interface :=
  ("Struct", [
  ("phase", Plain "FrameSystemPhase"); ("event", Plain "Event"); ("topics", Plain "Vec<H256>")]).

Definition FrameSystemExtensionsCheckGenesis : interface :=
  ("Null", []).

Definition FrameSystemExtensionsCheckSpecVersion : interface :=
  ("Null", []).

Definition FrameSystemExtensionsCheckTxVersion : interface :=
  ("Null", []).

Definition FrameSystemExtensionsCheckWeight : interface :=
  ("Null", []).

Definition FrameSystemLastRuntimeUpgradeInfo : interface :=
  ("Struct", [("specVersion", Plain "Compact<u32>"); ("specName", Plain "Text")]).

Definition FrameSystemLimitsBlockLength : interface :=
  ("Struct", [("max", Plain "FrameSupportDispatchPerDispatchClassU32")]).

Definition FrameSystemLimitsBlockWeights : interface :=
  ("Struct", [
  ("baseBlock", Plain "SpWeightsWeightV2Weight"); ("maxBlock", Plain "SpWeightsWeightV2Weight");
  ("perClass", Plain "FrameSupportDispatchPerDispatchClassWeightsPerClass")]).

Definition FrameSystemLimitsWeightsPerClass : interface :=
  ("Struct", [
  ("baseExtrinsic", Plain "SpWeightsWeightV2Weight"); ("maxExtrinsic", Plain "Option<SpWeightsWeightV2Weight>");
  ("maxTotal", Plain "Option<SpWeightsWeightV2Weight>"); ("reserved", Plain "Option<SpWeightsWeightV2Weight>")]).

Definition FrameSystemPhase : interface :=
  ("Enum", [
  ("isApplyExtrinsic", Plain "boolean"); ("asApplyExtrinsic", Plain "u32"); ("isFinalization", Plain "boolean");
  ("isInitialization", Plain "boolean"); ("type", Union ["ApplyExtrinsic"; "Finalization"; "Initialization"])]).

Definition OpalRuntimeOriginCaller : interface :=
  ("Enum", [
  ("isSystem", Plain "boolean"); ("asSystem", Plain "FrameSupportDispatchRawOrigin");
  ("isCouncil", Plain "boolean"); ("asCouncil", Plain "PalletCollectiveRawOrigin");
  ("isTechnicalCommittee", Plain "boolean"); ("asTechnicalCommittee", Plain "PalletCollectiveRawOrigin");
  ("isPolkadotXcm", Plain "boolean"); ("asPolkadotXcm", Plain "PalletXcmOrigin");
  ("isCumulusXcm", Plain "boolean"); ("asCumulusXcm", Plain "CumulusPalletXcmOrigin");
  ("isFinancialCouncil", Plain "boolean"); ("asFinancialCouncil", Plain "PalletCollectiveRawOrigin");
  ("isOrigins", Plain "boolean"); ("asOrigins", Plain "PalletGovOriginsOrigin");
  ("isEthereum", Plain "boolean"); ("asEthereum", Plain "PalletEthereumRawOrigin");
  ("type", Union ["System"; "Council"; "TechnicalCommittee"; "PolkadotXcm"; "CumulusXcm"; "FinancialCouncil"; "Origins"; "Ethereum"])]).

Definition OpalRuntimeRuntime : interface :=
  ("Null", []).

Definition OpalRuntimeRuntimeCommonFeeCoefficientCalculator : interface :=
  ("Null", []).

Definition OpalRuntimeRuntimeCommonIdentityDisableIdentityCalls : interface :=
  ("Null", []).

Definition OpalRuntimeRuntimeCommonMaintenanceCheckMaintenance : interface :=
  ("Null", []).

Definition OpalRuntimeRuntimeCommonSessionKeys : interface :=
  ("Struct", [("aura", Plain "SpConsensusAuraSr25519AppSr25519Public")]).

Definition OpalRuntimeRuntimeHoldReason : interface :=
  ("Enum", [
  ("isStateTrieMigration", Plain "boolean");
  ("asStateTrieMigration", Plain "PalletStateTrieMigrationHoldReason");
  ("isCollatorSelection", Plain "boolean"); ("asCollatorSelection", Plain "PalletCollatorSelectionHoldReason");
  ("isPreimage", Plain "boolean"); ("asPreimage", Plain "PalletPreimageHoldReason");
  ("isCouncil", Plain "boolean"); ("asCouncil", Plain "PalletCollectiveHoldReason");
  ("isTechnicalCommittee", Plain "boolean"); ("asTechnicalCommittee", Plain "PalletCollectiveHoldReason");
  ("isPolkadotXcm", Plain "boolean"); ("asPolkadotXcm", Plain "PalletXcmHoldReason");
  ("isFinancialCouncil", Plain "boolean"); ("asFinancialCouncil", Plain "PalletCollectiveHoldReason");
  ("type", Union ["StateTrieMigration"; "CollatorSelection"; "Preimage"; "Council"; "TechnicalCommittee"; "PolkadotXcm"; "FinancialCouncil"])]).

Definition OrmlVestingModuleCall : interface :=
  ("Enum", [
  ("isClaim", Plain "boolean"); ("isVestedTransfer", Plain "boolean");
  ("asVestedTransfer", Fielded [("dest", "MultiAddress"); ("schedule", "OrmlVestingVestingSchedule")]);
  ("isUpdateVestingSchedules", Plain "boolean");
  ("asUpdateVestingSchedules", Fielded [("who", "MultiAddress"); ("vestingSchedules", "Vec<OrmlVestingVestingSchedule>")]);
  ("isClaimFor", Plain "boolean"); ("asClaimFor", Fielded [("dest", "MultiAddress")]);
  ("type", Union ["Claim"; "VestedTransfer"; "UpdateVestingSchedules"; "ClaimFor"])]).

Definition OrmlVestingModuleError : interface :=
  ("Enum", [
  ("isZeroVestingPeriod", Plain "boolean"); ("isZeroVestingPeriodCount", Plain "boolean");
  ("isInsufficientBalanceToLock", Plain "boolean"); ("isTooManyVestingSchedules", Plain "boolean");
  ("isAmountLow", Plain "boolean"); ("isMaxVestingSchedulesExceeded", Plain "boolean");
  ("type", Union ["ZeroVestingPeriod"; "ZeroVestingPeriodCount"; "InsufficientBalanceToLock"; "TooManyVestingSchedules"; "AmountLow"; "MaxVestingSchedulesExceeded"])]).

Definition OrmlVestingModuleEvent : interface :=
  ("Enum", [
  ("isVestingScheduleAdded", Plain "boolean");
  ("asVestingScheduleAdded", Fielded [("from", "AccountId32"); ("to", "AccountId32"); ("vestingSchedule", "OrmlVestingVestingSchedule")]);
  ("isClaimed", Plain "boolean"); ("asClaimed", Fielded [("who", "AccountId32"); ("amount", "u128")]);
  ("isVestingSchedulesUpdated", Plain "boolean");
  ("asVestingSchedulesUpdated", Fielded [("who", "AccountId32")]);
  ("type", Union ["VestingScheduleAdded"; "Claimed"; "VestingSchedulesUpdated"])]).

Definition OrmlVestingVestingSchedule : interface :=
  ("Struct", [
  ("start", Plain "u32"); ("period", Plain "u32"); ("periodCount", Plain "u32");
  ("perPeriod", Plain "Compact<u128>")]).

Definition OrmlXtokensModuleCall : interface :=
  ("Enum", [
  ("isTransfer", Plain "boolean");
  ("asTransfer", Fielded [("currencyId", "u32"); ("amount", "u128"); ("dest", "XcmVersionedLocation"); ("destWeightLimit", "XcmV3WeightLimit")]);
  ("isTransferMultiasset", Plain "boolean");
  ("asTransferMultiasset", Fielded [("asset", "XcmVersionedAsset"); ("dest", "XcmVersionedLocation"); ("destWeightLimit", "XcmV3WeightLimit")]);
  ("isTransferWithFee", Plain "boolean");
  ("asTransferWithFee", Fielded [("currencyId", "u32"); ("amount", "u128"); ("fee", "u128"); ("dest", "XcmVersionedLocation"); ("destWeightLimit", "XcmV3WeightLimit")]);
  ("isTransferMultiassetWithFee", Plain "boolean");
  ("asTransferMultiassetWithFee", Fielded [("asset", "XcmVersionedAsset"); ("fee", "XcmVersionedAsset"); ("dest", "XcmVersionedLocation"); ("destWeightLimit", "XcmV3WeightLimit")]);
  ("isTransferMulticurrencies", Plain "boolean");
  ("asTransferMulticurrencies", Fielded [("currencies", "Vec<ITuple<[u32, u128]>>"); ("feeItem", "u32"); ("dest", "XcmVersionedLocation"); ("destWeightLimit", "XcmV3WeightLimit")]);
  ("isTransferMultiassets", Plain "boolean");
  ("asTransferMultiassets", Fielded [("assets", "XcmVersionedAssets"); ("feeItem", "u32"); ("dest", "XcmVersionedLocation"); ("destWeightLimit", "XcmV3WeightLimit")]);
  ("type", Union ["Transfer"; "TransferMultiasset"; "TransferWithFee"; "TransferMultiassetWithFee"; "TransferMulticurrencies"; "TransferMultiassets"])]).

Definition OrmlXtokensModuleError : interface :=
  ("Enum", [
  ("isAssetHasNoReserve", Plain "boolean"); ("isNotCrossChainTransfer", Plain "boolean");
  ("isInvalidDest", Plain "boolean"); ("isNotCrossChainTransferableCurrency", Plain "boolean");
  ("isUnweighableMessage", Plain "boolean"); ("isXcmExecutionFailed", Plain "boolean");
  ("isCannotReanchor", Plain "boolean"); ("isInvalidAncestry", Plain "boolean");
  ("isInvalidAsset", Plain "boolean"); ("isDestinationNotInvertible", Plain "boolean");
  ("isBadVersion", Plain "boolean"); ("isDistinctReserveForAssetAndFee", Plain "boolean");
  ("isZeroFee", Plain "boolean"); ("isZeroAmount", Plain "boolean");
  ("isTooManyAssetsBeingSent", Plain "boolean"); ("isAssetIndexNonExistent", Plain "boolean");
  ("isFeeNotEnough", Plain "boolean"); ("isNotSupportedLocation", Plain "boolean");
  ("isMinXcmFeeNotDefined", Plain "boolean"); ("isRateLimited", Plain "boolean");
  ("type", Union ["AssetHasNoReserve"; "NotCrossChainTransfer"; "InvalidDest"; "NotCrossChainTransferableCurrency"; "UnweighableMessage"; "XcmExecutionFailed"; "CannotReanchor"; "InvalidAncestry"; "InvalidAsset"; "DestinationNotInvertible"; "BadVersion"; "DistinctReserveForAssetAndFee"; "ZeroFee"; "ZeroAmount"; "TooManyAssetsBeingSent"; "AssetIndexNonExistent"; "FeeNotEnough"; "NotSupportedLocation"; "MinXcmFeeNotDefined"; "RateLimited"])]).

Definition OrmlXtokensModuleEvent : interface :=
  ("Enum", [
  ("isTransferredAssets", Plain "boolean");
  ("asTransferredAssets", Fielded [("sender", "AccountId32"); ("assets", "StagingXcmV5AssetAssets"); ("fee", "StagingXcmV5Asset"); ("dest", "StagingXcmV5Location")]);
  ("type", Union ["TransferredAssets"])]).

Definition PalletAppPromotionCall : interface :=
  ("Enum", [
  ("isSetAdminAddress", Plain "boolean");
  ("asSetAdminAddress", Fielded [("admin", "PalletEvmAccountBasicCrossAccountIdRepr")]);
  ("isStake", Plain "boolean"); ("asStake", Fielded [("amount", "u128")]); ("isUnstakeAll", Plain "boolean");
  ("isSponsorCollection", Plain "boolean"); ("asSponsorCollection", Fielded [("collectionId", "u32")]);
  ("isStopSponsoringCollection", Plain "boolean");
  ("asStopSponsoringCollection", Fielded [("collectionId", "u32")]); ("isSponsorContract", Plain "boolean");
  ("asSponsorContract", Fielded [("contractId", "H160")]); ("isStopSponsoringContract", Plain "boolean");
  ("asStopSponsoringContract", Fielded [("contractId", "H160")]); ("isPayoutStakers", Plain "boolean");
  ("asPayoutStakers", Fielded [("stakersNumber", "Option<u8>")]); ("isUnstakePartial", Plain "boolean");
  ("asUnstakePartial", Fielded [("amount", "u128")]); ("isResolveSkippedBlocks", Plain "boolean");
  ("asResolveSkippedBlocks", Fielded [("pendingBlocks", "Vec<u32>")]);
  ("type", Union ["SetAdminAddress"; "Stake"; "UnstakeAll"; "SponsorCollection"; "StopSponsoringCollection"; "SponsorContract"; "StopSponsoringContract"; "PayoutStakers"; "UnstakePartial"; "ResolveSkippedBlocks"])]).

Definition PalletAppPromotionError : interface :=
  ("Enum", [
  ("isAdminNotSet", Plain "boolean"); ("isNoPermission", Plain "boolean");
  ("isNotSufficientFunds", Plain "boolean"); ("isPendingForBlockOverflow", Plain "boolean");
  ("isSponsorNotSet", Plain "boolean"); ("isInsufficientStakedBalance", Plain "boolean");
  ("isInconsistencyState", Plain "boolean");
  ("type", Union ["AdminNotSet"; "NoPermission"; "NotSufficientFunds"; "PendingForBlockOverflow"; "SponsorNotSet"; "InsufficientStakedBalance"; "InconsistencyState"])]).

Definition PalletAppPromotionEvent : interface :=
  ("Enum", [
  ("isStakingRecalculation", Plain "boolean");
  ("asStakingRecalculation", Plain "ITuple<[AccountId32, u128, u128]>"); ("isStake", Plain "boolean");
  ("asStake", Plain "ITuple<[AccountId32, u128]>"); ("isUnstake", Plain "boolean");
  ("asUnstake", Plain "ITuple<[AccountId32, u128]>"); ("isSetAdmin", Plain "boolean");
  ("asSetAdmin", Plain "AccountId32"); ("type", Union ["StakingRecalculation"; "Stake"; "Unstake"; "SetAdmin"])]).

Definition PalletBalancesAccountData : interface :=
  ("Struct", [
  ("free", Plain "u128"); ("reserved", Plain "u128"); ("frozen", Plain "u128"); ("flags", Plain "u128")]).

Definition PalletBalancesAdjustmentDirection : interface :=
  ("Enum", [
  ("isIncrease", Plain "boolean"); ("isDecrease", Plain "boolean"); ("type", Union ["Increase"; "Decrease"])]).

Definition PalletBalancesBalanceLock : interface :=
  ("Struct", [
  ("id", Plain "U8aFixed"); ("amount", Plain "u128"); ("reasons", Plain "PalletBalancesReasons")]).

Definition PalletBalancesCall : interface :=
  ("Enum", [
  ("isTransferAllowDeath", Plain "boolean");
  ("asTransferAllowDeath", Fielded [("dest", "MultiAddress"); ("value", "Compact<u128>")]);
  ("isForceTransfer", Plain "boolean");
  ("asForceTransfer", Fielded [("source", "MultiAddress"); ("dest", "MultiAddress"); ("value", "Compact<u128>")]);
  ("isTransferKeepAlive", Plain "boolean");
  ("asTransferKeepAlive", Fielded [("dest", "MultiAddress"); ("value", "Compact<u128>")]);
  ("isTransferAll", Plain "boolean");
  ("asTransferAll", Fielded [("dest", "MultiAddress"); ("keepAlive", "bool")]);
  ("isForceUnreserve", Plain "boolean");
  ("asForceUnreserve", Fielded [("who", "MultiAddress"); ("amount", "u128")]);
  ("isUpgradeAccounts", Plain "boolean"); ("asUpgradeAccounts", Fielded [("who", "Vec<AccountId32>")]);
  ("isForceSetBalance", Plain "boolean");
  ("asForceSetBalance", Fielded [("who", "MultiAddress"); ("newFree", "Compact<u128>")]);
  ("isForceAdjustTotalIssuance", Plain "boolean");
  ("asForceAdjustTotalIssuance", Fielded [("direction", "PalletBalancesAdjustmentDirection"); ("delta", "Compact<u128>")]);
  ("isBurn", Plain "boolean"); ("asBurn", Fielded [("value", "Compact<u128>"); ("keepAlive", "bool")]);
  ("type", Union ["TransferAllowDeath"; "ForceTransfer"; "TransferKeepAlive"; "TransferAll"; "ForceUnreserve"; "UpgradeAccounts"; "ForceSetBalance"; "ForceAdjustTotalIssuance"; "Burn"])]).

Definition PalletBalancesError : interface :=
  ("Enum", [
  ("isVestingBalance", Plain "boolean"); ("isLiquidityRestrictions", Plain "boolean");
  ("isInsufficientBalance", Plain "boolean"); ("isExistentialDeposit", Plain "boolean");
  ("isExpendability", Plain "boolean"); ("isExistingVestingSchedule", Plain "boolean");
  ("isDeadAccount", Plain "boolean"); ("isTooManyReserves", Plain "boolean");
  ("isTooManyHolds", Plain "boolean"); ("isTooManyFreezes", Plain "boolean");
  ("isIssuanceDeactivated", Plain "boolean"); ("isDeltaZero", Plain "boolean");
  ("type", Union ["VestingBalance"; "LiquidityRestrictions"; "InsufficientBalance"; "ExistentialDeposit"; "Expendability"; "ExistingVestingSchedule"; "DeadAccount"; "TooManyReserves"; "TooManyHolds"; "TooManyFreezes"; "IssuanceDeactivated"; "DeltaZero"])]).

Definition PalletBalancesEvent : interface :=
  ("Enum", [
  ("isEndowed", Plain "boolean"); ("asEndowed", Fielded [("account", "AccountId32"); ("freeBalance", "u128")]);
  ("isDustLost", Plain "boolean"); ("asDustLost", Fielded [("account", "AccountId32"); ("amount", "u128")]);
  ("isTransfer", Plain "boolean");
  ("asTransfer", Fielded [("from", "AccountId32"); ("to", "AccountId32"); ("amount", "u128")]);
  ("isBalanceSet", Plain "boolean"); ("asBalanceSet", Fielded [("who", "AccountId32"); ("free", "u128")]);
  ("isReserved", Plain "boolean"); ("asReserved", Fielded [("who", "AccountId32"); ("amount", "u128")]);
  ("isUnreserved", Plain "boolean"); ("asUnreserved", Fielded [("who", "AccountId32"); ("amount", "u128")]);
  ("isReserveRepatriated", Plain "boolean");
  ("asReserveRepatriated", Fielded [("from", "AccountId32"); ("to", "AccountId32"); ("amount", "u128"); ("destinationStatus", "FrameSupportTokensMiscBalanceStatus")]);
  ("isDeposit", Plain "boolean"); ("asDeposit", Fielded [("who", "AccountId32"); ("amount", "u128")]);
  ("isWithdraw", Plain "boolean"); ("asWithdraw", Fielded [("who", "AccountId32"); ("amount", "u128")]);
  ("isSlashed", Plain "boolean"); ("asSlashed", Fielded [("who", "AccountId32"); ("amount", "u128")]);
  ("isMinted", Plain "boolean"); ("asMinted", Fielded [("who", "AccountId32"); ("amount", "u128")]);
  ("isBurned", Plain "boolean"); ("asBurned", Fielded [("who", "AccountId32"); ("amount", "u128")]);
  ("isSuspended", Plain "boolean"); ("asSuspended", Fielded [("who", "AccountId32"); ("amount", "u128")]);
  ("isRestored", Plain "boolean"); ("asRestored", Fielded [("who", "AccountId32"); ("amount", "u128")]);
  ("isUpgraded", Plain "boolean"); ("asUpgraded", Fielded [("who", "AccountId32")]);
  ("isIssued", Plain "boolean"); ("asIssued", Fielded [("amount", "u128")]); ("isRescinded", Plain "boolean");
  ("asRescinded", Fielded [("amount", "u128")]); ("isLocked", Plain "boolean");
  ("asLocked", Fielded [("who", "AccountId32"); ("amount", "u128")]); ("isUnlocked", Plain "boolean");
  ("asUnlocked", Fielded [("who", "AccountId32"); ("amount", "u128")]); ("isFrozen", Plain "boolean");
  ("asFrozen", Fielded [("who", "AccountId32"); ("amount", "u128")]); ("isThawed", Plain "boolean");
  ("asThawed", Fielded [("who", "AccountId32"); ("amount", "u128")]);
  ("isTotalIssuanceForced", Plain "boolean");
  ("asTotalIssuanceForced", Fielded [("old", "u128"); ("new_", "u128")]);
  ("type", Union ["Endowed"; "DustLost"; "Transfer"; "BalanceSet"; "Reserved"; "Unreserved"; "ReserveRepatriated"; "Deposit"; "Withdraw"; "Slashed"; "Minted"; "Burned"; "Suspended"; "Restored"; "Upgraded"; "Issued"; "Rescinded"; "Locked"; "Unlocked"; "Frozen"; "Thawed"; "TotalIssuanceForced"])]).

Definition PalletBalancesReasons : interface :=
  ("Enum", [
  ("isFee", Plain "boolean"); ("isMisc", Plain "boolean"); ("isAll", Plain "boolean");
  ("type", Union ["Fee"; "Misc"; "All"])]).

Definition PalletBalancesReserveData : interface :=
  ("Struct", [("id", Plain "U8aFixed"); ("amount", Plain "u128")]).

Definition PalletCollatorSelectionCall : interface :=
  ("Enum", [
  ("isAddInvulnerable", Plain "boolean"); ("asAddInvulnerable", Fielded [("new_", "AccountId32")]);
  ("isRemoveInvulnerable", Plain "boolean"); ("asRemoveInvulnerable", Fielded [("who", "AccountId32")]);
  ("isGetLicense", Plain "boolean"); ("isOnboard", Plain "boolean"); ("isOffboard", Plain "boolean");
  ("isReleaseLicense", Plain "boolean"); ("isForceReleaseLicense", Plain "boolean");
  ("asForceReleaseLicense", Fielded [("who", "AccountId32")]);
  ("type", Union ["AddInvulnerable"; "RemoveInvulnerable"; "GetLicense"; "Onboard"; "Offboard"; "ReleaseLicense"; "ForceReleaseLicense"])]).

Definition PalletCollatorSelectionError : interface :=
  ("Enum", [
  ("isTooManyCandidates", Plain "boolean"); ("isUnknown", Plain "boolean"); ("isPermission", Plain "boolean");
  ("isAlreadyHoldingLicense", Plain "boolean"); ("isNoLicense", Plain "boolean");
  ("isAlreadyCandidate", Plain "boolean"); ("isNotCandidate", Plain "boolean");
  ("isTooManyInvulnerables", Plain "boolean"); ("isTooFewInvulnerables", Plain "boolean");
  ("isAlreadyInvulnerable", Plain "boolean"); ("isNotInvulnerable", Plain "boolean");
  ("isNoAssociatedValidatorId", Plain "boolean"); ("isValidatorNotRegistered", Plain "boolean");
  ("type", Union ["TooManyCandidates"; "Unknown"; "Permission"; "AlreadyHoldingLicense"; "NoLicense"; "AlreadyCandidate"; "NotCandidate"; "TooManyInvulnerables"; "TooFewInvulnerables"; "AlreadyInvulnerable"; "NotInvulnerable"; "NoAssociatedValidatorId"; "ValidatorNotRegistered"])]).

Definition PalletCollatorSelectionEvent : interface :=
  ("Enum", [
  ("isInvulnerableAdded", Plain "boolean"); ("asInvulnerableAdded", Fielded [("invulnerable", "AccountId32")]);
  ("isInvulnerableRemoved", Plain "boolean");
  ("asInvulnerableRemoved", Fielded [("invulnerable", "AccountId32")]); ("isLicenseObtained", Plain "boolean");
  ("asLicenseObtained", Fielded [("accountId", "AccountId32"); ("deposit", "u128")]);
  ("isLicenseReleased", Plain "boolean");
  ("asLicenseReleased", Fielded [("accountId", "AccountId32"); ("depositReturned", "u128")]);
  ("isCandidateAdded", Plain "boolean"); ("asCandidateAdded", Fielded [("accountId", "AccountId32")]);
  ("isCandidateRemoved", Plain "boolean"); ("asCandidateRemoved", Fielded [("accountId", "AccountId32")]);
  ("type", Union ["InvulnerableAdded"; "InvulnerableRemoved"; "LicenseObtained"; "LicenseReleased"; "CandidateAdded"; "CandidateRemoved"])]).

Definition PalletCollatorSelectionHoldReason : interface :=
  ("Enum", [("isLicenseBond", Plain "boolean"); ("type", Union ["LicenseBond"])]).

Definition PalletCollectiveCall : interface :=
  ("Enum", [
  ("isSetMembers", Plain "boolean");
  ("asSetMembers", Fielded [("newMembers", "Vec<AccountId32>"); ("prime", "Option<AccountId32>"); ("oldCount", "u32")]);
  ("isExecute", Plain "boolean");
  ("asExecute", Fielded [("proposal", "Call"); ("lengthBound", "Compact<u32>")]);
  ("isPropose", Plain "boolean");
  ("asPropose", Fielded [("threshold", "Compact<u32>"); ("proposal", "Call"); ("lengthBound", "Compact<u32>")]);
  ("isVote", Plain "boolean");
  ("asVote", Fielded [("proposal", "H256"); ("index", "Compact<u32>"); ("approve", "bool")]);
  ("isDisapproveProposal", Plain "boolean"); ("asDisapproveProposal", Fielded [("proposalHash", "H256")]);
  ("isClose", Plain "boolean");
  ("asClose", Fielded [("proposalHash", "H256"); ("index", "Compact<u32>"); ("proposalWeightBound", "SpWeightsWeightV2Weight"); ("lengthBound", "Compact<u32>")]);
  ("isKill", Plain "boolean"); ("asKill", Fielded [("proposalHash", "H256")]);
  ("isReleaseProposalCost", Plain "boolean"); ("asReleaseProposalCost", Fielded [("proposalHash", "H256")]);
  ("type", Union ["SetMembers"; "Execute"; "Propose"; "Vote"; "DisapproveProposal"; "Close"; "Kill"; "ReleaseProposalCost"])]).

Definition PalletCollectiveError : interface :=
  ("Enum", [
  ("isNotMember", Plain "boolean"); ("isDuplicateProposal", Plain "boolean");
  ("isProposalMissing", Plain "boolean"); ("isWrongIndex", Plain "boolean");
  ("isDuplicateVote", Plain "boolean"); ("isAlreadyInitialized", Plain "boolean");
  ("isTooEarly", Plain "boolean"); ("isTooManyProposals", Plain "boolean");
  ("isWrongProposalWeight", Plain "boolean"); ("isWrongProposalLength", Plain "boolean");
  ("isPrimeAccountNotMember", Plain "boolean"); ("isProposalActive", Plain "boolean");
  ("type", Union ["NotMember"; "DuplicateProposal"; "ProposalMissing"; "WrongIndex"; "DuplicateVote"; "AlreadyInitialized"; "TooEarly"; "TooManyProposals"; "WrongProposalWeight"; "WrongProposalLength"; "PrimeAccountNotMember"; "ProposalActive"])]).

Definition PalletCollectiveEvent : interface :=
  ("Enum", [
  ("isProposed", Plain "boolean");
  ("asProposed", Fielded [("account", "AccountId32"); ("proposalIndex", "u32"); ("proposalHash", "H256"); ("threshold", "u32")]);
  ("isVoted", Plain "boolean");
  ("asVoted", Fielded [("account", "AccountId32"); ("proposalHash", "H256"); ("voted", "bool"); ("yes", "u32"); ("no", "u32")]);
  ("isApproved", Plain "boolean"); ("asApproved", Fielded [("proposalHash", "H256")]);
  ("isDisapproved", Plain "boolean"); ("asDisapproved", Fielded [("proposalHash", "H256")]);
  ("isExecuted", Plain "boolean");
  ("asExecuted", Fielded [("proposalHash", "H256"); ("result", "Result<Null, SpRuntimeDispatchError>")]);
  ("isMemberExecuted", Plain "boolean");
  ("asMemberExecuted", Fielded [("proposalHash", "H256"); ("result", "Result<Null, SpRuntimeDispatchError>")]);
  ("isClosed", Plain "boolean");
  ("asClosed", Fielded [("proposalHash", "H256"); ("yes", "u32"); ("no", "u32")]);
  ("isKilled", Plain "boolean"); ("asKilled", Fielded [("proposalHash", "H256")]);
  ("isProposalCostBurned", Plain "boolean");
  ("asProposalCostBurned", Fielded [("proposalHash", "H256"); ("who", "AccountId32")]);
  ("isProposalCostReleased", Plain "boolean");
  ("asProposalCostReleased", Fielded [("proposalHash", "H256"); ("who", "AccountId32")]);
  ("type", Union ["Proposed"; "Voted"; "Approved"; "Disapproved"; "Executed"; "MemberExecuted"; "Closed"; "Killed"; "ProposalCostBurned"; "ProposalCostReleased"])]).

Definition PalletCollectiveHoldReason : interface :=
  ("Enum", [
  ("isProposalSubmission", Plain "boolean"); ("type", Union ["ProposalSubmission"])]).

Definition PalletCollectiveRawOrigin : interface :=
  ("Enum", [
  ("isMembers", Plain "boolean"); ("asMembers", Plain "ITuple<[u32, u32]>"); ("isMember", Plain "boolean");
  ("asMember", Plain "AccountId32"); ("isPhantom", Plain "boolean");
  ("type", Union ["Members"; "Member"; "Phantom"])]).

Definition PalletCollectiveVotes : interface :=
  ("Struct", [
  ("index", Plain "u32"); ("threshold", Plain "u32"); ("ayes", Plain "Vec<AccountId32>");
  ("nays", Plain "Vec<AccountId32>"); ("end", Plain "u32")]).

Definition PalletCommonError : interface :=
  ("Enum", [
  ("isCollectionNotFound", Plain "boolean"); ("isMustBeTokenOwner", Plain "boolean");
  ("isNoPermission", Plain "boolean"); ("isCantDestroyNotEmptyCollection", Plain "boolean");
  ("isPublicMintingNotAllowed", Plain "boolean"); ("isAddressNotInAllowlist", Plain "boolean");
  ("isCollectionNameLimitExceeded", Plain "boolean"); ("isCollectionDescriptionLimitExceeded", Plain "boolean");
  ("isCollectionTokenPrefixLimitExceeded", Plain "boolean");
  ("isTotalCollectionsLimitExceeded", Plain "boolean"); ("isCollectionAdminCountExceeded", Plain "boolean");
  ("isCollectionLimitBoundsExceeded", Plain "boolean"); ("isOwnerPermissionsCantBeReverted", Plain "boolean");
  ("isTransferNotAllowed", Plain "boolean"); ("isAccountTokenLimitExceeded", Plain "boolean");
  ("isCollectionTokenLimitExceeded", Plain "boolean"); ("isMetadataFlagFrozen", Plain "boolean");
  ("isTokenNotFound", Plain "boolean"); ("isTokenValueTooLow", Plain "boolean");
  ("isApprovedValueTooLow", Plain "boolean"); ("isCantApproveMoreThanOwned", Plain "boolean");
  ("isAddressIsNotEthMirror", Plain "boolean"); ("isAddressIsZero", Plain "boolean");
  ("isUnsupportedOperation", Plain "boolean"); ("isNotSufficientFounds", Plain "boolean");
  ("isUserIsNotAllowedToNest", Plain "boolean"); ("isSourceCollectionIsNotAllowedToNest", Plain "boolean");
  ("isCollectionFieldSizeExceeded", Plain "boolean"); ("isNoSpaceForProperty", Plain "boolean");
  ("isPropertyLimitReached", Plain "boolean"); ("isPropertyKeyIsTooLong", Plain "boolean");
  ("isInvalidCharacterInPropertyKey", Plain "boolean"); ("isEmptyPropertyKey", Plain "boolean");
  ("isCollectionIsExternal", Plain "boolean"); ("isCollectionIsInternal", Plain "boolean");
  ("isConfirmSponsorshipFail", Plain "boolean"); ("isUserIsNotCollectionAdmin", Plain "boolean");
  ("isFungibleItemsHaveNoId", Plain "boolean");
  ("isNotFungibleDataUsedToMintFungibleCollectionToken", Plain "boolean");
  ("type", Union ["CollectionNotFound"; "MustBeTokenOwner"; "NoPermission"; "CantDestroyNotEmptyCollection"; "PublicMintingNotAllowed"; "AddressNotInAllowlist"; "CollectionNameLimitExceeded"; "CollectionDescriptionLimitExceeded"; "CollectionTokenPrefixLimitExceeded"; "TotalCollectionsLimitExceeded"; "CollectionAdminCountExceeded"; "CollectionLimitBoundsExceeded"; "OwnerPermissionsCantBeReverted"; "TransferNotAllowed"; "AccountTokenLimitExceeded"; "CollectionTokenLimitExceeded"; "MetadataFlagFrozen"; "TokenNotFound"; "TokenValueTooLow"; "ApprovedValueTooLow"; "CantApproveMoreThanOwned"; "AddressIsNotEthMirror"; "AddressIsZero"; "UnsupportedOperation"; "NotSufficientFounds"; "UserIsNotAllowedToNest"; "SourceCollectionIsNotAllowedToNest"; "CollectionFieldSizeExceeded"; "NoSpaceForProperty"; "PropertyLimitReached"; "PropertyKeyIsTooLong"; "InvalidCharacterInPropertyKey"; "EmptyPropertyKey"; "CollectionIsExternal"; "CollectionIsInternal"; "ConfirmSponsorshipFail"; "UserIsNotCollectionAdmin"; "FungibleItemsHaveNoId"; "NotFungibleDataUsedToMintFungibleCollectionToken"])]).

Definition PalletCommonEvent : interface :=
  ("Enum", [
  ("isCollectionCreated", Plain "boolean"); ("asCollectionCreated", Plain "ITuple<[u32, u8, AccountId32]>");
  ("isCollectionDestroyed", Plain "boolean"); ("asCollectionDestroyed", Plain "u32");
  ("isItemCreated", Plain "boolean");
  ("asItemCreated", Plain "ITuple<[u32, u32, PalletEvmAccountBasicCrossAccountIdRepr, u128]>");
  ("isItemDestroyed", Plain "boolean");
  ("asItemDestroyed", Plain "ITuple<[u32, u32, PalletEvmAccountBasicCrossAccountIdRepr, u128]>");
  ("isTransfer", Plain "boolean");
  ("asTransfer", Plain "ITuple<[u32, u32, PalletEvmAccountBasicCrossAccountIdRepr, PalletEvmAccountBasicCrossAccountIdRepr, u128]>");
  ("isApproved", Plain "boolean");
  ("asApproved", Plain "ITuple<[u32, u32, PalletEvmAccountBasicCrossAccountIdRepr, PalletEvmAccountBasicCrossAccountIdRepr, u128]>");
  ("isApprovedForAll", Plain "boolean");
  ("asApprovedForAll", Plain "ITuple<[u32, PalletEvmAccountBasicCrossAccountIdRepr, PalletEvmAccountBasicCrossAccountIdRepr, bool]>");
  ("isCollectionPropertySet", Plain "boolean"); ("asCollectionPropertySet", Plain "ITuple<[u32, Bytes]>");
  ("isCollectionPropertyDeleted", Plain "boolean");
  ("asCollectionPropertyDeleted", Plain "ITuple<[u32, Bytes]>"); ("isTokenPropertySet", Plain "boolean");
  ("asTokenPropertySet", Plain "ITuple<[u32, u32, Bytes]>"); ("isTokenPropertyDeleted", Plain "boolean");
  ("asTokenPropertyDeleted", Plain "ITuple<[u32, u32, Bytes]>"); ("isPropertyPermissionSet", Plain "boolean");
  ("asPropertyPermissionSet", Plain "ITuple<[u32, Bytes]>"); ("isAllowListAddressAdded", Plain "boolean");
  ("asAllowListAddressAdded", Plain "ITuple<[u32, PalletEvmAccountBasicCrossAccountIdRepr]>");
  ("isAllowListAddressRemoved", Plain "boolean");
  ("asAllowListAddressRemoved", Plain "ITuple<[u32, PalletEvmAccountBasicCrossAccountIdRepr]>");
  ("isCollectionAdminAdded", Plain "boolean");
  ("asCollectionAdminAdded", Plain "ITuple<[u32, PalletEvmAccountBasicCrossAccountIdRepr]>");
  ("isCollectionAdminRemoved", Plain "boolean");
  ("asCollectionAdminRemoved", Plain "ITuple<[u32, PalletEvmAccountBasicCrossAccountIdRepr]>");
  ("isCollectionLimitSet", Plain "boolean"); ("asCollectionLimitSet", Plain "u32");
  ("isCollectionOwnerChanged", Plain "boolean");
  ("asCollectionOwnerChanged", Plain "ITuple<[u32, AccountId32]>");
  ("isCollectionPermissionSet", Plain "boolean"); ("asCollectionPermissionSet", Plain "u32");
  ("isCollectionSponsorSet", Plain "boolean"); ("asCollectionSponsorSet", Plain "ITuple<[u32, AccountId32]>");
  ("isSponsorshipConfirmed", Plain "boolean"); ("asSponsorshipConfirmed", Plain "ITuple<[u32, AccountId32]>");
  ("isCollectionSponsorRemoved", Plain "boolean"); ("asCollectionSponsorRemoved", Plain "u32");
  ("type", Union ["CollectionCreated"; "CollectionDestroyed"; "ItemCreated"; "ItemDestroyed"; "Transfer"; "Approved"; "ApprovedForAll"; "CollectionPropertySet"; "CollectionPropertyDeleted"; "TokenPropertySet"; "TokenPropertyDeleted"; "PropertyPermissionSet"; "AllowListAddressAdded"; "AllowListAddressRemoved"; "CollectionAdminAdded"; "CollectionAdminRemoved"; "CollectionLimitSet"; "CollectionOwnerChanged"; "CollectionPermissionSet"; "CollectionSponsorSet"; "SponsorshipConfirmed"; "CollectionSponsorRemoved"])]).

Definition PalletConfigurationAppPromotionConfiguration : interface :=
  ("Struct", [
  ("recalculationInterval", Plain "Option<u32>"); ("pendingInterval", Plain "Option<u32>");
  ("intervalIncome", Plain "Option<Perbill>"); ("maxStakersPerCalculation", Plain "Option<u8>")]).

Definition PalletConfigurationCall : interface :=
  ("Enum", [
  ("isSetWeightToFeeCoefficientOverride", Plain "boolean");
  ("asSetWeightToFeeCoefficientOverride", Fielded [("coeff", "Option<u64>")]);
  ("isSetMinGasPriceOverride", Plain "boolean");
  ("asSetMinGasPriceOverride", Fielded [("coeff", "Option<u64>")]);
  ("isSetAppPromotionConfigurationOverride", Plain "boolean");
  ("asSetAppPromotionConfigurationOverride", Fielded [("configuration", "PalletConfigurationAppPromotionConfiguration")]);
  ("isSetCollatorSelectionDesiredCollators", Plain "boolean");
  ("asSetCollatorSelectionDesiredCollators", Fielded [("max", "Option<u32>")]);
  ("isSetCollatorSelectionLicenseBond", Plain "boolean");
  ("asSetCollatorSelectionLicenseBond", Fielded [("amount", "Option<u128>")]);
  ("isSetCollatorSelectionKickThreshold", Plain "boolean");
  ("asSetCollatorSelectionKickThreshold", Fielded [("threshold", "Option<u32>")]);
  ("type", Union ["SetWeightToFeeCoefficientOverride"; "SetMinGasPriceOverride"; "SetAppPromotionConfigurationOverride"; "SetCollatorSelectionDesiredCollators"; "SetCollatorSelectionLicenseBond"; "SetCollatorSelectionKickThreshold"])]).

Definition PalletConfigurationError : interface :=
  ("Enum", [
  ("isInconsistentConfiguration", Plain "boolean"); ("type", Union ["InconsistentConfiguration"])]).

Definition PalletConfigurationEvent : interface :=
  ("Enum", [
  ("isNewDesiredCollators", Plain "boolean");
  ("asNewDesiredCollators", Fielded [("desiredCollators", "Option<u32>")]);
  ("isNewCollatorLicenseBond", Plain "boolean");
  ("asNewCollatorLicenseBond", Fielded [("bondCost", "Option<u128>")]);
  ("isNewCollatorKickThreshold", Plain "boolean");
  ("asNewCollatorKickThreshold", Fielded [("lengthInBlocks", "Option<u32>")]);
  ("type", Union ["NewDesiredCollators"; "NewCollatorLicenseBond"; "NewCollatorKickThreshold"])]).

Definition PalletDemocracyCall : interface :=
  ("Enum", [
  ("isPropose", Plain "boolean");
  ("asPropose", Fielded [("proposal", "FrameSupportPreimagesBounded"); ("value", "Compact<u128>")]);
  ("isSecond", Plain "boolean"); ("asSecond", Fielded [("proposal", "Compact<u32>")]);
  ("isVote", Plain "boolean");
  ("asVote", Fielded [("refIndex", "Compact<u32>"); ("vote", "PalletDemocracyVoteAccountVote")]);
  ("isEmergencyCancel", Plain "boolean"); ("asEmergencyCancel", Fielded [("refIndex", "u32")]);
  ("isExternalPropose", Plain "boolean");
  ("asExternalPropose", Fielded [("proposal", "FrameSupportPreimagesBounded")]);
  ("isExternalProposeMajority", Plain "boolean");
  ("asExternalProposeMajority", Fielded [("proposal", "FrameSupportPreimagesBounded")]);
  ("isExternalProposeDefault", Plain "boolean");
  ("asExternalProposeDefault", Fielded [("proposal", "FrameSupportPreimagesBounded")]);
  ("isFastTrack", Plain "boolean");
  ("asFastTrack", Fielded [("proposalHash", "H256"); ("votingPeriod", "u32"); ("delay", "u32")]);
  ("isVetoExternal", Plain "boolean"); ("asVetoExternal", Fielded [("proposalHash", "H256")]);
  ("isCancelReferendum", Plain "boolean"); ("asCancelReferendum", Fielded [("refIndex", "Compact<u32>")]);
  ("isDelegate", Plain "boolean");
  ("asDelegate", Fielded [("to", "MultiAddress"); ("conviction", "PalletDemocracyConviction"); ("balance", "u128")]);
  ("isUndelegate", Plain "boolean"); ("isClearPublicProposals", Plain "boolean"); ("isUnlock", Plain "boolean");
  ("asUnlock", Fielded [("target", "MultiAddress")]); ("isRemoveVote", Plain "boolean");
  ("asRemoveVote", Fielded [("index", "u32")]); ("isRemoveOtherVote", Plain "boolean");
  ("asRemoveOtherVote", Fielded [("target", "MultiAddress"); ("index", "u32")]);
  ("isBlacklist", Plain "boolean");
  ("asBlacklist", Fielded [("proposalHash", "H256"); ("maybeRefIndex", "Option<u32>")]);
  ("isCancelProposal", Plain "boolean"); ("asCancelProposal", Fielded [("propIndex", "Compact<u32>")]);
  ("isSetMetadata", Plain "boolean");
  ("asSetMetadata", Fielded [("owner", "PalletDemocracyMetadataOwner"); ("maybeHash", "Option<H256>")]);
  ("type", Union ["Propose"; "Second"; "Vote"; "EmergencyCancel"; "ExternalPropose"; "ExternalProposeMajority"; "ExternalProposeDefault"; "FastTrack"; "VetoExternal"; "CancelReferendum"; "Delegate"; "Undelegate"; "ClearPublicProposals"; "Unlock"; "RemoveVote"; "RemoveOtherVote"; "Blacklist"; "CancelProposal"; "SetMetadata"])]).

Definition PalletDemocracyConviction : interface :=
  ("Enum", [
  ("isNone", Plain "boolean"); ("isLocked1x", Plain "boolean"); ("isLocked2x", Plain "boolean");
  ("isLocked3x", Plain "boolean"); ("isLocked4x", Plain "boolean"); ("isLocked5x", Plain "boolean");
  ("isLocked6x", Plain "boolean");
  ("type", Union ["None"; "Locked1x"; "Locked2x"; "Locked3x"; "Locked4x"; "Locked5x"; "Locked6x"])]).

Definition PalletDemocracyDelegations : interface :=
  ("Struct", [("votes", Plain "u128"); ("capital", Plain "u128")]).

Definition PalletDemocracyError : interface :=
  ("Enum", [
  ("isValueLow", Plain "boolean"); ("isProposalMissing", Plain "boolean");
  ("isAlreadyCanceled", Plain "boolean"); ("isDuplicateProposal", Plain "boolean");
  ("isProposalBlacklisted", Plain "boolean"); ("isNotSimpleMajority", Plain "boolean");
  ("isInvalidHash", Plain "boolean"); ("isNoProposal", Plain "boolean"); ("isAlreadyVetoed", Plain "boolean");
  ("isReferendumInvalid", Plain "boolean"); ("isNoneWaiting", Plain "boolean"); ("isNotVoter", Plain "boolean");
  ("isNoPermission", Plain "boolean"); ("isAlreadyDelegating", Plain "boolean");
  ("isInsufficientFunds", Plain "boolean"); ("isNotDelegating", Plain "boolean");
  ("isVotesExist", Plain "boolean"); ("isInstantNotAllowed", Plain "boolean"); ("isNonsense", Plain "boolean");
  ("isWrongUpperBound", Plain "boolean"); ("isMaxVotesReached", Plain "boolean");
  ("isTooMany", Plain "boolean"); ("isVotingPeriodLow", Plain "boolean");
  ("isPreimageNotExist", Plain "boolean");
  ("type", Union ["ValueLow"; "ProposalMissing"; "AlreadyCanceled"; "DuplicateProposal"; "ProposalBlacklisted"; "NotSimpleMajority"; "InvalidHash"; "NoProposal"; "AlreadyVetoed"; "ReferendumInvalid"; "NoneWaiting"; "NotVoter"; "NoPermission"; "AlreadyDelegating"; "InsufficientFunds"; "NotDelegating"; "VotesExist"; "InstantNotAllowed"; "Nonsense"; "WrongUpperBound"; "MaxVotesReached"; "TooMany"; "VotingPeriodLow"; "PreimageNotExist"])]).

Definition PalletDemocracyEvent : interface :=
  ("Enum", [
  ("isProposed", Plain "boolean"); ("asProposed", Fielded [("proposalIndex", "u32"); ("deposit", "u128")]);
  ("isTabled", Plain "boolean"); ("asTabled", Fielded [("proposalIndex", "u32"); ("deposit", "u128")]);
  ("isExternalTabled", Plain "boolean"); ("isStarted", Plain "boolean");
  ("asStarted", Fielded [("refIndex", "u32"); ("threshold", "PalletDemocracyVoteThreshold")]);
  ("isPassed", Plain "boolean"); ("asPassed", Fielded [("refIndex", "u32")]); ("isNotPassed", Plain "boolean");
  ("asNotPassed", Fielded [("refIndex", "u32")]); ("isCancelled", Plain "boolean");
  ("asCancelled", Fielded [("refIndex", "u32")]); ("isDelegated", Plain "boolean");
  ("asDelegated", Fielded [("who", "AccountId32"); ("target", "AccountId32")]);
  ("isUndelegated", Plain "boolean"); ("asUndelegated", Fielded [("account", "AccountId32")]);
  ("isVetoed", Plain "boolean");
  ("asVetoed", Fielded [("who", "AccountId32"); ("proposalHash", "H256"); ("until", "u32")]);
  ("isBlacklisted", Plain "boolean"); ("asBlacklisted", Fielded [("proposalHash", "H256")]);
  ("isVoted", Plain "boolean");
  ("asVoted", Fielded [("voter", "AccountId32"); ("refIndex", "u32"); ("vote", "PalletDemocracyVoteAccountVote")]);
  ("isSeconded", Plain "boolean"); ("asSeconded", Fielded [("seconder", "AccountId32"); ("propIndex", "u32")]);
  ("isProposalCanceled", Plain "boolean"); ("asProposalCanceled", Fielded [("propIndex", "u32")]);
  ("isMetadataSet", Plain "boolean");
  ("asMetadataSet", Fielded [("owner", "PalletDemocracyMetadataOwner"); ("hash_", "H256")]);
  ("isMetadataCleared", Plain "boolean");
  ("asMetadataCleared", Fielded [("owner", "PalletDemocracyMetadataOwner"); ("hash_", "H256")]);
  ("isMetadataTransferred", Plain "boolean");
  ("asMetadataTransferred", Fielded [("prevOwner", "PalletDemocracyMetadataOwner"); ("owner", "PalletDemocracyMetadataOwner"); ("hash_", "H256")]);
  ("type", Union ["Proposed"; "Tabled"; "ExternalTabled"; "Started"; "Passed"; "NotPassed"; "Cancelled"; "Delegated"; "Undelegated"; "Vetoed"; "Blacklisted"; "Voted"; "Seconded"; "ProposalCanceled"; "MetadataSet"; "MetadataCleared"; "MetadataTransferred"])]).

Definition PalletDemocracyMetadataOwner : interface :=
  ("Enum", [
  ("isExternal", Plain "boolean"); ("isProposal", Plain "boolean"); ("asProposal", Plain "u32");
  ("isReferendum", Plain "boolean"); ("asReferendum", Plain "u32");
  ("type", Union ["External"; "Proposal"; "Referendum"])]).

Definition PalletDemocracyReferendumInfo : interface :=
  ("Enum", [
  ("isOngoing", Plain "boolean"); ("asOngoing", Plain "PalletDemocracyReferendumStatus");
  ("isFinished", Plain "boolean"); ("asFinished", Fielded [("approved", "bool"); ("end", "u32")]);
  ("type", Union ["Ongoing"; "Finished"])]).

Definition PalletDemocracyReferendumStatus : interface :=
  ("Struct", [
  ("end", Plain "u32"); ("proposal", Plain "FrameSupportPreimagesBounded");
  ("threshold", Plain "PalletDemocracyVoteThreshold"); ("delay", Plain "u32");
  ("tally", Plain "PalletDemocracyTally")]).

Definition PalletDemocracyTally : interface :=
  ("Struct", [("ayes", Plain "u128"); ("nays", Plain "u128"); ("turnout", Plain "u128")]).

Definition PalletDemocracyVoteAccountVote : interface :=
  ("Enum", [
  ("isStandard", Plain "boolean"); ("asStandard", Fielded [("vote", "Vote"); ("balance", "u128")]);
  ("isSplit", Plain "boolean"); ("asSplit", Fielded [("aye", "u128"); ("nay", "u128")]);
  ("type", Union ["Standard"; "Split"])]).

Definition PalletDemocracyVotePriorLock : interface :=
  ("ITuple<[u32, u128]>", []).

Definition PalletDemocracyVoteThreshold : interface :=
  ("Enum", [
  ("isSuperMajorityApprove", Plain "boolean"); ("isSuperMajorityAgainst", Plain "boolean");
  ("isSimpleMajority", Plain "boolean");
  ("type", Union ["SuperMajorityApprove"; "SuperMajorityAgainst"; "SimpleMajority"])]).

Definition PalletDemocracyVoteVoting : interface :=
  ("Enum", [
  ("isDirect", Plain "boolean");
  ("asDirect", Fielded [("votes", "Vec<ITuple<[u32, PalletDemocracyVoteAccountVote]>>"); ("delegations", "PalletDemocracyDelegations"); ("prior", "PalletDemocracyVotePriorLock")]);
  ("isDelegating", Plain "boolean");
  ("asDelegating", Fielded [("balance", "u128"); ("target", "AccountId32"); ("conviction", "PalletDemocracyConviction"); ("delegations", "PalletDemocracyDelegations"); ("prior", "PalletDemocracyVotePriorLock")]);
  ("type", Union ["Direct"; "Delegating"])]).

Definition PalletEthereumCall : interface :=
  ("Enum", [
  ("isTransact", Plain "boolean");
  ("asTransact", Fielded [("transaction", "EthereumTransactionTransactionV2")]); ("type", Union ["Transact"])]).

Definition PalletEthereumError : interface :=
  ("Enum", [
  ("isInvalidSignature", Plain "boolean"); ("isPreLogExists", Plain "boolean");
  ("type", Union ["InvalidSignature"; "PreLogExists"])]).

Definition PalletEthereumEvent : interface :=
  ("Enum", [
  ("isExecuted", Plain "boolean");
  ("asExecuted", Fielded [("from", "H160"); ("to", "H160"); ("transactionHash", "H256"); ("exitReason", "EvmCoreErrorExitReason"); ("extraData", "Bytes")]);
  ("type", Union ["Executed"])]).

Definition PalletEthereumFakeTransactionFinalizer : interface :=
  ("Null", []).

Definition PalletEthereumRawOrigin : interface :=
  ("Enum", [
  ("isEthereumTransaction", Plain "boolean"); ("asEthereumTransaction", Plain "H160");
  ("type", Union ["EthereumTransaction"])]).

Definition PalletEvmAccountBasicCrossAccountIdRepr : interface :=
  ("Enum", [
  ("isSubstrate", Plain "boolean"); ("asSubstrate", Plain "AccountId32"); ("isEthereum", Plain "boolean");
  ("asEthereum", Plain "H160"); ("type", Union ["Substrate"; "Ethereum"])]).

Definition PalletEvmCall : interface :=
  ("Enum", [
  ("isWithdraw", Plain "boolean"); ("asWithdraw", Fielded [("address", "H160"); ("value", "u128")]);
  ("isCall", Plain "boolean");
  ("asCall", Fielded [("source", "H160"); ("target", "H160"); ("input", "Bytes"); ("value", "U256"); ("gasLimit", "u64"); ("maxFeePerGas", "U256"); ("maxPriorityFeePerGas", "Option<U256>"); ("nonce", "Option<U256>"); ("accessList", "Vec<ITuple<[H160, Vec<H256>]>>")]);
  ("isCreate", Plain "boolean");
  ("asCreate", Fielded [("source", "H160"); ("init", "Bytes"); ("value", "U256"); ("gasLimit", "u64"); ("maxFeePerGas", "U256"); ("maxPriorityFeePerGas", "Option<U256>"); ("nonce", "Option<U256>"); ("accessList", "Vec<ITuple<[H160, Vec<H256>]>>")]);
  ("isCreate2", Plain "boolean");
  ("asCreate2", Fielded [("source", "H160"); ("init", "Bytes"); ("salt", "H256"); ("value", "U256"); ("gasLimit", "u64"); ("maxFeePerGas", "U256"); ("maxPriorityFeePerGas", "Option<U256>"); ("nonce", "Option<U256>"); ("accessList", "Vec<ITuple<[H160, Vec<H256>]>>")]);
  ("type", Union ["Withdraw"; "Call"; "Create"; "Create2"])]).

Definition PalletEvmCodeMetadata : interface :=
  ("Struct", [("size_", Plain "u64"); ("hash_", Plain "H256")]).

Definition PalletEvmCoderSubstrateError : interface :=
  ("Enum", [
  ("isOutOfGas", Plain "boolean"); ("isOutOfFund", Plain "boolean"); ("type", Union ["OutOfGas"; "OutOfFund"])]).

Definition PalletEvmContractHelpersCall : interface :=
  ("Enum", [
  ("isMigrateFromSelfSponsoring", Plain "boolean");
  ("asMigrateFromSelfSponsoring", Fielded [("addresses", "Vec<H160>")]);
  ("type", Union ["MigrateFromSelfSponsoring"])]).

Definition PalletEvmContractHelpersError : interface :=
  ("Enum", [
  ("isNoPermission", Plain "boolean"); ("isNoPendingSponsor", Plain "boolean");
  ("isTooManyMethodsHaveSponsoredLimit", Plain "boolean");
  ("type", Union ["NoPermission"; "NoPendingSponsor"; "TooManyMethodsHaveSponsoredLimit"])]).

Definition PalletEvmContractHelpersEvent : interface :=
  ("Enum", [
  ("isContractSponsorSet", Plain "boolean"); ("asContractSponsorSet", Plain "ITuple<[H160, AccountId32]>");
  ("isContractSponsorshipConfirmed", Plain "boolean");
  ("asContractSponsorshipConfirmed", Plain "ITuple<[H160, AccountId32]>");
  ("isContractSponsorRemoved", Plain "boolean"); ("asContractSponsorRemoved", Plain "H160");
  ("type", Union ["ContractSponsorSet"; "ContractSponsorshipConfirmed"; "ContractSponsorRemoved"])]).

Definition PalletEvmContractHelpersSponsoringModeT : interface :=
  ("Enum", [
  ("isDisabled", Plain "boolean"); ("isAllowlisted", Plain "boolean"); ("isGenerous", Plain "boolean");
  ("type", Union ["Disabled"; "Allowlisted"; "Generous"])]).

Definition PalletEvmError : interface :=
  ("Enum", [
  ("isBalanceLow", Plain "boolean"); ("isFeeOverflow", Plain "boolean"); ("isPaymentOverflow", Plain "boolean");
  ("isWithdrawFailed", Plain "boolean"); ("isGasPriceTooLow", Plain "boolean");
  ("isInvalidNonce", Plain "boolean"); ("isGasLimitTooLow", Plain "boolean");
  ("isGasLimitTooHigh", Plain "boolean"); ("isInvalidChainId", Plain "boolean");
  ("isInvalidSignature", Plain "boolean"); ("isReentrancy", Plain "boolean");
  ("isTransactionMustComeFromEOA", Plain "boolean"); ("isUndefined", Plain "boolean");
  ("isCreateOriginNotAllowed", Plain "boolean");
  ("type", Union ["BalanceLow"; "FeeOverflow"; "PaymentOverflow"; "WithdrawFailed"; "GasPriceTooLow"; "InvalidNonce"; "GasLimitTooLow"; "GasLimitTooHigh"; "InvalidChainId"; "InvalidSignature"; "Reentrancy"; "TransactionMustComeFromEOA"; "Undefined"; "CreateOriginNotAllowed"])]).

Definition PalletEvmEvent : interface :=
  ("Enum", [
  ("isLog", Plain "boolean"); ("asLog", Fielded [("log", "EthereumLog")]); ("isCreated", Plain "boolean");
  ("asCreated", Fielded [("address", "H160")]); ("isCreatedFailed", Plain "boolean");
  ("asCreatedFailed", Fielded [("address", "H160")]); ("isExecuted", Plain "boolean");
  ("asExecuted", Fielded [("address", "H160")]); ("isExecutedFailed", Plain "boolean");
  ("asExecutedFailed", Fielded [("address", "H160")]);
  ("type", Union ["Log"; "Created"; "CreatedFailed"; "Executed"; "ExecutedFailed"])]).

Definition PalletEvmMigrationCall : interface :=
  ("Enum", [
  ("isBegin", Plain "boolean"); ("asBegin", Fielded [("address", "H160")]); ("isSetData", Plain "boolean");
  ("asSetData", Fielded [("address", "H160"); ("data", "Vec<ITuple<[H256, H256]>>")]);
  ("isFinish", Plain "boolean"); ("asFinish", Fielded [("address", "H160"); ("code", "Bytes")]);
  ("isInsertEthLogs", Plain "boolean"); ("asInsertEthLogs", Fielded [("logs", "Vec<EthereumLog>")]);
  ("isInsertEvents", Plain "boolean"); ("asInsertEvents", Fielded [("events", "Vec<Bytes>")]);
  ("isRemoveRmrkData", Plain "boolean");
  ("type", Union ["Begin"; "SetData"; "Finish"; "InsertEthLogs"; "InsertEvents"; "RemoveRmrkData"])]).

Definition PalletEvmMigrationError : interface :=
  ("Enum", [
  ("isAccountNotEmpty", Plain "boolean"); ("isAccountIsNotMigrating", Plain "boolean");
  ("isBadEvent", Plain "boolean"); ("type", Union ["AccountNotEmpty"; "AccountIsNotMigrating"; "BadEvent"])]).

Definition PalletEvmMigrationEvent : interface :=
  ("Enum", [("isTestEvent", Plain "boolean"); ("type", Union ["TestEvent"])]).

Definition PalletForeignAssetsForeignCollectionMode : interface :=
  ("Enum", [
  ("isNft", Plain "boolean"); ("isFungible", Plain "boolean"); ("asFungible", Plain "u8");
  ("type", Union ["Nft"; "Fungible"])]).

Definition PalletForeignAssetsMigrationStatus : interface :=
  ("Enum", [
  ("isV3ToV5", Plain "boolean"); ("asV3ToV5", Plain "PalletForeignAssetsMigrationStatusV3ToV5");
  ("type", Union ["V3ToV5"])]).

Definition PalletForeignAssetsMigrationStatusV3ToV5 : interface :=
  ("Enum", [
  ("isDone", Plain "boolean"); ("isSkippedNotConvertibleAssetId", Plain "boolean");
  ("asSkippedNotConvertibleAssetId", Plain "XcmV3MultiassetAssetId");
  ("isSkippedNotConvertibleAssetInstance", Plain "boolean");
  ("asSkippedNotConvertibleAssetInstance", Fielded [("collectionId", "u32"); ("assetInstance", "XcmV3MultiassetAssetInstance")]);
  ("type", Union ["Done"; "SkippedNotConvertibleAssetId"; "SkippedNotConvertibleAssetInstance"])]).

Definition PalletForeignAssetsModuleCall : interface :=
  ("Enum", [
  ("isForceRegisterForeignAsset", Plain "boolean");
  ("asForceRegisterForeignAsset", Fielded [("versionedAssetId", "XcmVersionedAssetId"); ("name", "Vec<u16>"); ("tokenPrefix", "Bytes"); ("mode", "PalletForeignAssetsForeignCollectionMode")]);
  ("isForceResetForeignAssetLocation", Plain "boolean");
  ("asForceResetForeignAssetLocation", Fielded [("existingVersionedAssetId", "XcmVersionedAssetId"); ("newVersionedAssetId", "XcmVersionedAssetId")]);
  ("type", Union ["ForceRegisterForeignAsset"; "ForceResetForeignAssetLocation"])]).

Definition PalletForeignAssetsModuleError : interface :=
  ("Enum", [
  ("isForeignAssetAlreadyRegistered", Plain "boolean"); ("isBadForeignAssetId", Plain "boolean");
  ("isForeignAssetNotFound", Plain "boolean");
  ("type", Union ["ForeignAssetAlreadyRegistered"; "BadForeignAssetId"; "ForeignAssetNotFound"])]).

Definition PalletForeignAssetsModuleEvent : interface :=
  ("Enum", [
  ("isForeignAssetRegistered", Plain "boolean");
  ("asForeignAssetRegistered", Fielded [("collectionId", "u32"); ("assetId", "XcmVersionedAssetId")]);
  ("isMigrationStatus", Plain "boolean"); ("asMigrationStatus", Plain "PalletForeignAssetsMigrationStatus");
  ("isForeignAssetMoved", Plain "boolean");
  ("asForeignAssetMoved", Fielded [("oldAssetId", "XcmVersionedAssetId"); ("newAssetId", "XcmVersionedAssetId")]);
  ("type", Union ["ForeignAssetRegistered"; "MigrationStatus"; "ForeignAssetMoved"])]).

Definition PalletFungibleError : interface :=
  ("Enum", [
  ("isFungibleItemsDontHaveData", Plain "boolean"); ("isFungibleDisallowsNesting", Plain "boolean");
  ("isSettingPropertiesNotAllowed", Plain "boolean"); ("isSettingAllowanceForAllNotAllowed", Plain "boolean");
  ("isFungibleTokensAreAlwaysValid", Plain "boolean");
  ("type", Union ["FungibleItemsDontHaveData"; "FungibleDisallowsNesting"; "SettingPropertiesNotAllowed"; "SettingAllowanceForAllNotAllowed"; "FungibleTokensAreAlwaysValid"])]).

Definition PalletGovOriginsOrigin : interface :=
  ("Enum", [
  ("isFellowshipProposition", Plain "boolean"); ("type", Union ["FellowshipProposition"])]).

Definition PalletIdentityBitFlags : interface :=
  ("Struct", [
  ("_bitLength", Plain "64"); ("Display", Plain "1"); ("Legal", Plain "2"); ("Web", Plain "4");
  ("Riot", Plain "8"); ("Email", Plain "16"); ("PgpFingerprint", Plain "32"); ("Image", Plain "64");
  ("Twitter", Plain "128")]).

Definition PalletIdentityCall : interface :=
  ("Enum", [
  ("isAddRegistrar", Plain "boolean"); ("asAddRegistrar", Fielded [("account", "MultiAddress")]);
  ("isSetIdentity", Plain "boolean"); ("asSetIdentity", Fielded [("info", "PalletIdentityIdentityInfo")]);
  ("isSetSubs", Plain "boolean"); ("asSetSubs", Fielded [("subs", "Vec<ITuple<[AccountId32, Data]>>")]);
  ("isClearIdentity", Plain "boolean"); ("isRequestJudgement", Plain "boolean");
  ("asRequestJudgement", Fielded [("regIndex", "Compact<u32>"); ("maxFee", "Compact<u128>")]);
  ("isCancelRequest", Plain "boolean"); ("asCancelRequest", Fielded [("regIndex", "u32")]);
  ("isSetFee", Plain "boolean"); ("asSetFee", Fielded [("index", "Compact<u32>"); ("fee", "Compact<u128>")]);
  ("isSetAccountId", Plain "boolean");
  ("asSetAccountId", Fielded [("index", "Compact<u32>"); ("new_", "MultiAddress")]);
  ("isSetFields", Plain "boolean");
  ("asSetFields", Fielded [("index", "Compact<u32>"); ("fields", "PalletIdentityBitFlags")]);
  ("isProvideJudgement", Plain "boolean");
  ("asProvideJudgement", Fielded [("regIndex", "Compact<u32>"); ("target", "MultiAddress"); ("judgement", "PalletIdentityJudgement"); ("identity", "H256")]);
  ("isKillIdentity", Plain "boolean"); ("asKillIdentity", Fielded [("target", "MultiAddress")]);
  ("isAddSub", Plain "boolean"); ("asAddSub", Fielded [("sub", "MultiAddress"); ("data", "Data")]);
  ("isRenameSub", Plain "boolean"); ("asRenameSub", Fielded [("sub", "MultiAddress"); ("data", "Data")]);
  ("isRemoveSub", Plain "boolean"); ("asRemoveSub", Fielded [("sub", "MultiAddress")]);
  ("isQuitSub", Plain "boolean"); ("isForceInsertIdentities", Plain "boolean");
  ("asForceInsertIdentities", Fielded [("identities", "Vec<ITuple<[AccountId32, PalletIdentityRegistration]>>")]);
  ("isForceRemoveIdentities", Plain "boolean");
  ("asForceRemoveIdentities", Fielded [("identities", "Vec<AccountId32>")]);
  ("isForceSetSubs", Plain "boolean");
  ("asForceSetSubs", Fielded [("subs", "Vec<ITuple<[AccountId32, ITuple<[u128, Vec<ITuple<[AccountId32, Data]>>]>]>>")]);
  ("type", Union ["AddRegistrar"; "SetIdentity"; "SetSubs"; "ClearIdentity"; "RequestJudgement"; "CancelRequest"; "SetFee"; "SetAccountId"; "SetFields"; "ProvideJudgement"; "KillIdentity"; "AddSub"; "RenameSub"; "RemoveSub"; "QuitSub"; "ForceInsertIdentities"; "ForceRemoveIdentities"; "ForceSetSubs"])]).

Definition PalletIdentityError : interface :=
  ("Enum", [
  ("isTooManySubAccounts", Plain "boolean"); ("isNotFound", Plain "boolean"); ("isNotNamed", Plain "boolean");
  ("isEmptyIndex", Plain "boolean"); ("isFeeChanged", Plain "boolean"); ("isNoIdentity", Plain "boolean");
  ("isStickyJudgement", Plain "boolean"); ("isJudgementGiven", Plain "boolean");
  ("isInvalidJudgement", Plain "boolean"); ("isInvalidIndex", Plain "boolean");
  ("isInvalidTarget", Plain "boolean"); ("isTooManyFields", Plain "boolean");
  ("isTooManyRegistrars", Plain "boolean"); ("isAlreadyClaimed", Plain "boolean");
  ("isNotSub", Plain "boolean"); ("isNotOwned", Plain "boolean");
  ("isJudgementForDifferentIdentity", Plain "boolean"); ("isJudgementPaymentFailed", Plain "boolean");
  ("type", Union ["TooManySubAccounts"; "NotFound"; "NotNamed"; "EmptyIndex"; "FeeChanged"; "NoIdentity"; "StickyJudgement"; "JudgementGiven"; "InvalidJudgement"; "InvalidIndex"; "InvalidTarget"; "TooManyFields"; "TooManyRegistrars"; "AlreadyClaimed"; "NotSub"; "NotOwned"; "JudgementForDifferentIdentity"; "JudgementPaymentFailed"])]).

Definition PalletIdentityEvent : interface :=
  ("Enum", [
  ("isIdentitySet", Plain "boolean"); ("asIdentitySet", Fielded [("who", "AccountId32")]);
  ("isIdentityCleared", Plain "boolean");
  ("asIdentityCleared", Fielded [("who", "AccountId32"); ("deposit", "u128")]);
  ("isIdentityKilled", Plain "boolean");
  ("asIdentityKilled", Fielded [("who", "AccountId32"); ("deposit", "u128")]);
  ("isIdentitiesInserted", Plain "boolean"); ("asIdentitiesInserted", Fielded [("amount", "u32")]);
  ("isIdentitiesRemoved", Plain "boolean"); ("asIdentitiesRemoved", Fielded [("amount", "u32")]);
  ("isJudgementRequested", Plain "boolean");
  ("asJudgementRequested", Fielded [("who", "AccountId32"); ("registrarIndex", "u32")]);
  ("isJudgementUnrequested", Plain "boolean");
  ("asJudgementUnrequested", Fielded [("who", "AccountId32"); ("registrarIndex", "u32")]);
  ("isJudgementGiven", Plain "boolean");
  ("asJudgementGiven", Fielded [("target", "AccountId32"); ("registrarIndex", "u32")]);
  ("isRegistrarAdded", Plain "boolean"); ("asRegistrarAdded", Fielded [("registrarIndex", "u32")]);
  ("isSubIdentityAdded", Plain "boolean");
  ("asSubIdentityAdded", Fielded [("sub", "AccountId32"); ("main", "AccountId32"); ("deposit", "u128")]);
  ("isSubIdentityRemoved", Plain "boolean");
  ("asSubIdentityRemoved", Fielded [("sub", "AccountId32"); ("main", "AccountId32"); ("deposit", "u128")]);
  ("isSubIdentityRevoked", Plain "boolean");
  ("asSubIdentityRevoked", Fielded [("sub", "AccountId32"); ("main", "AccountId32"); ("deposit", "u128")]);
  ("isSubIdentitiesInserted", Plain "boolean"); ("asSubIdentitiesInserted", Fielded [("amount", "u32")]);
  ("type", Union ["IdentitySet"; "IdentityCleared"; "IdentityKilled"; "IdentitiesInserted"; "IdentitiesRemoved"; "JudgementRequested"; "JudgementUnrequested"; "JudgementGiven"; "RegistrarAdded"; "SubIdentityAdded"; "SubIdentityRemoved"; "SubIdentityRevoked"; "SubIdentitiesInserted"])]).

Definition PalletIdentityIdentityField : interface :=
  ("Enum", [
  ("isDisplay", Plain "boolean"); ("isLegal", Plain "boolean"); ("isWeb", Plain "boolean");
  ("isRiot", Plain "boolean"); ("isEmail", Plain "boolean"); ("isPgpFingerprint", Plain "boolean");
  ("isImage", Plain "boolean"); ("isTwitter", Plain "boolean");
  ("type", Union ["Display"; "Legal"; "Web"; "Riot"; "Email"; "PgpFingerprint"; "Image"; "Twitter"])]).

Definition PalletIdentityIdentityInfo : interface :=
  ("Struct", [
  ("additional", Plain "Vec<ITuple<[Data, Data]>>"); ("display", Plain "Data"); ("legal", Plain "Data");
  ("web", Plain "Data"); ("riot", Plain "Data"); ("email", Plain "Data");
  ("pgpFingerprint", Plain "Option<U8aFixed>"); ("image", Plain "Data"); ("twitter", Plain "Data")]).

Definition PalletIdentityJudgement : interface :=
  ("Enum", [
  ("isUnknown", Plain "boolean"); ("isFeePaid", Plain "boolean"); ("asFeePaid", Plain "u128");
  ("isReasonable", Plain "boolean"); ("isKnownGood", Plain "boolean"); ("isOutOfDate", Plain "boolean");
  ("isLowQuality", Plain "boolean"); ("isErroneous", Plain "boolean");
  ("type", Union ["Unknown"; "FeePaid"; "Reasonable"; "KnownGood"; "OutOfDate"; "LowQuality"; "Erroneous"])]).

Definition PalletIdentityRegistrarInfo : interface :=
  ("Struct", [
  ("account", Plain "AccountId32"); ("fee", Plain "u128"); ("fields", Plain "PalletIdentityBitFlags")]).

Definition PalletIdentityRegistration : interface :=
  ("Struct", [
  ("judgements", Plain "Vec<ITuple<[u32, PalletIdentityJudgement]>>"); ("deposit", Plain "u128");
  ("info", Plain "PalletIdentityIdentityInfo")]).

Definition PalletInflationCall : interface :=
  ("Enum", [
  ("isStartInflation", Plain "boolean"); ("asStartInflation", Fielded [("inflationStartRelayBlock", "u32")]);
  ("type", Union ["StartInflation"])]).

Definition PalletMaintenanceCall : interface :=
  ("Enum", [
  ("isEnable", Plain "boolean"); ("isDisable", Plain "boolean"); ("type", Union ["Enable"; "Disable"])]).

Definition PalletMaintenanceError : interface :=
  ("Null", []).

Definition PalletMaintenanceEvent : interface :=
  ("Enum", [
  ("isMaintenanceEnabled", Plain "boolean"); ("isMaintenanceDisabled", Plain "boolean");
  ("type", Union ["MaintenanceEnabled"; "MaintenanceDisabled"])]).

Definition PalletMembershipCall : interface :=
  ("Enum", [
  ("isAddMember", Plain "boolean"); ("asAddMember", Fielded [("who", "MultiAddress")]);
  ("isRemoveMember", Plain "boolean"); ("asRemoveMember", Fielded [("who", "MultiAddress")]);
  ("isSwapMember", Plain "boolean");
  ("asSwapMember", Fielded [("remove", "MultiAddress"); ("add", "MultiAddress")]);
  ("isResetMembers", Plain "boolean"); ("asResetMembers", Fielded [("members", "Vec<AccountId32>")]);
  ("isChangeKey", Plain "boolean"); ("asChangeKey", Fielded [("new_", "MultiAddress")]);
  ("isSetPrime", Plain "boolean"); ("asSetPrime", Fielded [("who", "MultiAddress")]);
  ("isClearPrime", Plain "boolean");
  ("type", Union ["AddMember"; "RemoveMember"; "SwapMember"; "ResetMembers"; "ChangeKey"; "SetPrime"; "ClearPrime"])]).

Definition PalletMembershipError : interface :=
  ("Enum", [
  ("isAlreadyMember", Plain "boolean"); ("isNotMember", Plain "boolean"); ("isTooManyMembers", Plain "boolean");
  ("type", Union ["AlreadyMember"; "NotMember"; "TooManyMembers"])]).

Definition PalletMembershipEvent : interface :=
  ("Enum", [
  ("isMemberAdded", Plain "boolean"); ("isMemberRemoved", Plain "boolean");
  ("isMembersSwapped", Plain "boolean"); ("isMembersReset", Plain "boolean"); ("isKeyChanged", Plain "boolean");
  ("isDummy", Plain "boolean");
  ("type", Union ["MemberAdded"; "MemberRemoved"; "MembersSwapped"; "MembersReset"; "KeyChanged"; "Dummy"])]).

Definition PalletMessageQueueBookState : interface :=
  ("Struct", [
  ("begin", Plain "u32"); ("end", Plain "u32"); ("count", Plain "u32");
  ("readyNeighbours", Plain "Option<PalletMessageQueueNeighbours>"); ("messageCount", Plain "u64");
  ("size_", Plain "u64")]).

Definition PalletMessageQueueCall : interface :=
  ("Enum", [
  ("isReapPage", Plain "boolean");
  ("asReapPage", Fielded [("messageOrigin", "CumulusPrimitivesCoreAggregateMessageOrigin"); ("pageIndex", "u32")]);
  ("isExecuteOverweight", Plain "boolean");
  ("asExecuteOverweight", Fielded [("messageOrigin", "CumulusPrimitivesCoreAggregateMessageOrigin"); ("page", "u32"); ("index", "u32"); ("weightLimit", "SpWeightsWeightV2Weight")]);
  ("type", Union ["ReapPage"; "ExecuteOverweight"])]).

Definition PalletMessageQueueError : interface :=
  ("Enum", [
  ("isNotReapable", Plain "boolean"); ("isNoPage", Plain "boolean"); ("isNoMessage", Plain "boolean");
  ("isAlreadyProcessed", Plain "boolean"); ("isQueued", Plain "boolean");
  ("isInsufficientWeight", Plain "boolean"); ("isTemporarilyUnprocessable", Plain "boolean");
  ("isQueuePaused", Plain "boolean"); ("isRecursiveDisallowed", Plain "boolean");
  ("type", Union ["NotReapable"; "NoPage"; "NoMessage"; "AlreadyProcessed"; "Queued"; "InsufficientWeight"; "TemporarilyUnprocessable"; "QueuePaused"; "RecursiveDisallowed"])]).

Definition PalletMessageQueueEvent : interface :=
  ("Enum", [
  ("isProcessingFailed", Plain "boolean");
  ("asProcessingFailed", Fielded [("id", "H256"); ("origin", "CumulusPrimitivesCoreAggregateMessageOrigin"); ("error", "FrameSupportMessagesProcessMessageError")]);
  ("isProcessed", Plain "boolean");
  ("asProcessed", Fielded [("id", "H256"); ("origin", "CumulusPrimitivesCoreAggregateMessageOrigin"); ("weightUsed", "SpWeightsWeightV2Weight"); ("success", "bool")]);
  ("isOverweightEnqueued", Plain "boolean");
  ("asOverweightEnqueued", Fielded [("id", "U8aFixed"); ("origin", "CumulusPrimitivesCoreAggregateMessageOrigin"); ("pageIndex", "u32"); ("messageIndex", "u32")]);
  ("isPageReaped", Plain "boolean");
  ("asPageReaped", Fielded [("origin", "CumulusPrimitivesCoreAggregateMessageOrigin"); ("index", "u32")]);
  ("type", Union ["ProcessingFailed"; "Processed"; "OverweightEnqueued"; "PageReaped"])]).

Definition PalletMessageQueueNeighbours : interface :=
  ("Struct", [
  ("prev", Plain "CumulusPrimitivesCoreAggregateMessageOrigin");
  ("next", Plain "CumulusPrimitivesCoreAggregateMessageOrigin")]).

Definition PalletMessageQueuePage : interface :=
  ("Struct", [
  ("remaining", Plain "u32"); ("remainingSize", Plain "u32"); ("firstIndex", Plain "u32");
  ("first", Plain "u32"); ("last", Plain "u32"); ("heap", Plain "Bytes")]).

Definition PalletNonfungibleError : interface :=
  ("Enum", [
  ("isNotNonfungibleDataUsedToMintFungibleCollectionToken", Plain "boolean");
  ("isNonfungibleItemsHaveNoAmount", Plain "boolean"); ("isCantBurnNftWithChildren", Plain "boolean");
  ("type", Union ["NotNonfungibleDataUsedToMintFungibleCollectionToken"; "NonfungibleItemsHaveNoAmount"; "CantBurnNftWithChildren"])]).

Definition PalletNonfungibleItemData : interface :=
  ("Struct", [("owner", Plain "PalletEvmAccountBasicCrossAccountIdRepr")]).

Definition PalletPreimageCall : interface :=
  ("Enum", [
  ("isNotePreimage", Plain "boolean"); ("asNotePreimage", Fielded [("bytes", "Bytes")]);
  ("isUnnotePreimage", Plain "boolean"); ("asUnnotePreimage", Fielded [("hash_", "H256")]);
  ("isRequestPreimage", Plain "boolean"); ("asRequestPreimage", Fielded [("hash_", "H256")]);
  ("isUnrequestPreimage", Plain "boolean"); ("asUnrequestPreimage", Fielded [("hash_", "H256")]);
  ("isEnsureUpdated", Plain "boolean"); ("asEnsureUpdated", Fielded [("hashes", "Vec<H256>")]);
  ("type", Union ["NotePreimage"; "UnnotePreimage"; "RequestPreimage"; "UnrequestPreimage"; "EnsureUpdated"])]).

Definition PalletPreimageError : interface :=
  ("Enum", [
  ("isTooBig", Plain "boolean"); ("isAlreadyNoted", Plain "boolean"); ("isNotAuthorized", Plain "boolean");
  ("isNotNoted", Plain "boolean"); ("isRequested", Plain "boolean"); ("isNotRequested", Plain "boolean");
  ("isTooMany", Plain "boolean"); ("isTooFew", Plain "boolean");
  ("type", Union ["TooBig"; "AlreadyNoted"; "NotAuthorized"; "NotNoted"; "Requested"; "NotRequested"; "TooMany"; "TooFew"])]).

Definition PalletPreimageEvent : interface :=
  ("Enum", [
  ("isNoted", Plain "boolean"); ("asNoted", Fielded [("hash_", "H256")]); ("isRequested", Plain "boolean");
  ("asRequested", Fielded [("hash_", "H256")]); ("isCleared", Plain "boolean");
  ("asCleared", Fielded [("hash_", "H256")]); ("type", Union ["Noted"; "Requested"; "Cleared"])]).

Definition PalletPreimageHoldReason : interface :=
  ("Enum", [("isPreimage", Plain "boolean"); ("type", Union ["Preimage"])]).

Definition PalletPreimageOldRequestStatus : interface :=
  ("Enum", [
  ("isUnrequested", Plain "boolean");
  ("asUnrequested", Fielded [("deposit", "ITuple<[AccountId32, u128]>"); ("len", "u32")]);
  ("isRequested", Plain "boolean");
  ("asRequested", Fielded [("deposit", "Option<ITuple<[AccountId32, u128]>>"); ("count", "u32"); ("len", "Option<u32>")]);
  ("type", Union ["Unrequested"; "Requested"])]).

Definition PalletPreimageRequestStatus : interface :=
  ("Enum", [
  ("isUnrequested", Plain "boolean");
  ("asUnrequested", Fielded [("ticket", "ITuple<[AccountId32, u128]>"); ("len", "u32")]);
  ("isRequested", Plain "boolean");
  ("asRequested", Fielded [("maybeTicket", "Option<ITuple<[AccountId32, u128]>>"); ("count", "u32"); ("maybeLen", "Option<u32>")]);
  ("type", Union ["Unrequested"; "Requested"])]).

Definition PalletRankedCollectiveCall : interface :=
  ("Enum", [
  ("isAddMember", Plain "boolean"); ("asAddMember", Fielded [("who", "MultiAddress")]);
  ("isPromoteMember", Plain "boolean"); ("asPromoteMember", Fielded [("who", "MultiAddress")]);
  ("isDemoteMember", Plain "boolean"); ("asDemoteMember", Fielded [("who", "MultiAddress")]);
  ("isRemoveMember", Plain "boolean");
  ("asRemoveMember", Fielded [("who", "MultiAddress"); ("minRank", "u16")]); ("isVote", Plain "boolean");
  ("asVote", Fielded [("poll", "u32"); ("aye", "bool")]); ("isCleanupPoll", Plain "boolean");
  ("asCleanupPoll", Fielded [("pollIndex", "u32"); ("max", "u32")]); ("isExchangeMember", Plain "boolean");
  ("asExchangeMember", Fielded [("who", "MultiAddress"); ("newWho", "MultiAddress")]);
  ("type", Union ["AddMember"; "PromoteMember"; "DemoteMember"; "RemoveMember"; "Vote"; "CleanupPoll"; "ExchangeMember"])]).

Definition PalletRankedCollectiveError : interface :=
  ("Enum", [
  ("isAlreadyMember", Plain "boolean"); ("isNotMember", Plain "boolean"); ("isNotPolling", Plain "boolean");
  ("isOngoing", Plain "boolean"); ("isNoneRemaining", Plain "boolean"); ("isCorruption", Plain "boolean");
  ("isRankTooLow", Plain "boolean"); ("isInvalidWitness", Plain "boolean"); ("isNoPermission", Plain "boolean");
  ("isSameMember", Plain "boolean"); ("isTooManyMembers", Plain "boolean");
  ("type", Union ["AlreadyMember"; "NotMember"; "NotPolling"; "Ongoing"; "NoneRemaining"; "Corruption"; "RankTooLow"; "InvalidWitness"; "NoPermission"; "SameMember"; "TooManyMembers"])]).

Definition PalletRankedCollectiveEvent : interface :=
  ("Enum", [
  ("isMemberAdded", Plain "boolean"); ("asMemberAdded", Fielded [("who", "AccountId32")]);
  ("isRankChanged", Plain "boolean"); ("asRankChanged", Fielded [("who", "AccountId32"); ("rank", "u16")]);
  ("isMemberRemoved", Plain "boolean"); ("asMemberRemoved", Fielded [("who", "AccountId32"); ("rank", "u16")]);
  ("isVoted", Plain "boolean");
  ("asVoted", Fielded [("who", "AccountId32"); ("poll", "u32"); ("vote", "PalletRankedCollectiveVoteRecord"); ("tally", "PalletRankedCollectiveTally")]);
  ("isMemberExchanged", Plain "boolean");
  ("asMemberExchanged", Fielded [("who", "AccountId32"); ("newWho", "AccountId32")]);
  ("type", Union ["MemberAdded"; "RankChanged"; "MemberRemoved"; "Voted"; "MemberExchanged"])]).

Definition PalletRankedCollectiveMemberRecord : interface :=
  ("Struct", [("rank", Plain "u16")]).

Definition PalletRankedCollectiveTally : interface :=
  ("Struct", [("bareAyes", Plain "u32"); ("ayes", Plain "u32"); ("nays", Plain "u32")]).

Definition PalletRankedCollectiveVoteRecord : interface :=
  ("Enum", [
  ("isAye", Plain "boolean"); ("asAye", Plain "u32"); ("isNay", Plain "boolean"); ("asNay", Plain "u32");
  ("type", Union ["Aye"; "Nay"])]).

Definition PalletReferendaCall : interface :=
  ("Enum", [
  ("isSubmit", Plain "boolean");
  ("asSubmit", Fielded [("proposalOrigin", "OpalRuntimeOriginCaller"); ("proposal", "FrameSupportPreimagesBounded"); ("enactmentMoment", "FrameSupportScheduleDispatchTime")]);
  ("isPlaceDecisionDeposit", Plain "boolean"); ("asPlaceDecisionDeposit", Fielded [("index", "u32")]);
  ("isRefundDecisionDeposit", Plain "boolean"); ("asRefundDecisionDeposit", Fielded [("index", "u32")]);
  ("isCancel", Plain "boolean"); ("asCancel", Fielded [("index", "u32")]); ("isKill", Plain "boolean");
  ("asKill", Fielded [("index", "u32")]); ("isNudgeReferendum", Plain "boolean");
  ("asNudgeReferendum", Fielded [("index", "u32")]); ("isOneFewerDeciding", Plain "boolean");
  ("asOneFewerDeciding", Fielded [("track", "u16")]); ("isRefundSubmissionDeposit", Plain "boolean");
  ("asRefundSubmissionDeposit", Fielded [("index", "u32")]); ("isSetMetadata", Plain "boolean");
  ("asSetMetadata", Fielded [("index", "u32"); ("maybeHash", "Option<H256>")]);
  ("type", Union ["Submit"; "PlaceDecisionDeposit"; "RefundDecisionDeposit"; "Cancel"; "Kill"; "NudgeReferendum"; "OneFewerDeciding"; "RefundSubmissionDeposit"; "SetMetadata"])]).

Definition PalletReferendaCurve : interface :=
  ("Enum", [
  ("isLinearDecreasing", Plain "boolean");
  ("asLinearDecreasing", Fielded [("length", "Perbill"); ("floor", "Perbill"); ("ceil", "Perbill")]);
  ("isSteppedDecreasing", Plain "boolean");
  ("asSteppedDecreasing", Fielded [("begin", "Perbill"); ("end", "Perbill"); ("step", "Perbill"); ("period", "Perbill")]);
  ("isReciprocal", Plain "boolean");
  ("asReciprocal", Fielded [("factor", "i64"); ("xOffset", "i64"); ("yOffset", "i64")]);
  ("type", Union ["LinearDecreasing"; "SteppedDecreasing"; "Reciprocal"])]).

Definition PalletReferendaDecidingStatus : interface :=
  ("Struct", [("since", Plain "u32"); ("confirming", Plain "Option<u32>")]).

Definition PalletReferendaDeposit : interface :=
  ("Struct", [("who", Plain "AccountId32"); ("amount", Plain "u128")]).

Definition PalletReferendaError : interface :=
  ("Enum", [
  ("isNotOngoing", Plain "boolean"); ("isHasDeposit", Plain "boolean"); ("isBadTrack", Plain "boolean");
  ("isFull", Plain "boolean"); ("isQueueEmpty", Plain "boolean"); ("isBadReferendum", Plain "boolean");
  ("isNothingToDo", Plain "boolean"); ("isNoTrack", Plain "boolean"); ("isUnfinished", Plain "boolean");
  ("isNoPermission", Plain "boolean"); ("isNoDeposit", Plain "boolean"); ("isBadStatus", Plain "boolean");
  ("isPreimageNotExist", Plain "boolean"); ("isPreimageStoredWithDifferentLength", Plain "boolean");
  ("type", Union ["NotOngoing"; "HasDeposit"; "BadTrack"; "Full"; "QueueEmpty"; "BadReferendum"; "NothingToDo"; "NoTrack"; "Unfinished"; "NoPermission"; "NoDeposit"; "BadStatus"; "PreimageNotExist"; "PreimageStoredWithDifferentLength"])]).

Definition PalletReferendaEvent : interface :=
  ("Enum", [
  ("isSubmitted", Plain "boolean");
  ("asSubmitted", Fielded [("index", "u32"); ("track", "u16"); ("proposal", "FrameSupportPreimagesBounded")]);
  ("isDecisionDepositPlaced", Plain "boolean");
  ("asDecisionDepositPlaced", Fielded [("index", "u32"); ("who", "AccountId32"); ("amount", "u128")]);
  ("isDecisionDepositRefunded", Plain "boolean");
  ("asDecisionDepositRefunded", Fielded [("index", "u32"); ("who", "AccountId32"); ("amount", "u128")]);
  ("isDepositSlashed", Plain "boolean");
  ("asDepositSlashed", Fielded [("who", "AccountId32"); ("amount", "u128")]);
  ("isDecisionStarted", Plain "boolean");
  ("asDecisionStarted", Fielded [("index", "u32"); ("track", "u16"); ("proposal", "FrameSupportPreimagesBounded"); ("tally", "PalletRankedCollectiveTally")]);
  ("isConfirmStarted", Plain "boolean"); ("asConfirmStarted", Fielded [("index", "u32")]);
  ("isConfirmAborted", Plain "boolean"); ("asConfirmAborted", Fielded [("index", "u32")]);
  ("isConfirmed", Plain "boolean");
  ("asConfirmed", Fielded [("index", "u32"); ("tally", "PalletRankedCollectiveTally")]);
  ("isApproved", Plain "boolean"); ("asApproved", Fielded [("index", "u32")]); ("isRejected", Plain "boolean");
  ("asRejected", Fielded [("index", "u32"); ("tally", "PalletRankedCollectiveTally")]);
  ("isTimedOut", Plain "boolean");
  ("asTimedOut", Fielded [("index", "u32"); ("tally", "PalletRankedCollectiveTally")]);
  ("isCancelled", Plain "boolean");
  ("asCancelled", Fielded [("index", "u32"); ("tally", "PalletRankedCollectiveTally")]);
  ("isKilled", Plain "boolean");
  ("asKilled", Fielded [("index", "u32"); ("tally", "PalletRankedCollectiveTally")]);
  ("isSubmissionDepositRefunded", Plain "boolean");
  ("asSubmissionDepositRefunded", Fielded [("index", "u32"); ("who", "AccountId32"); ("amount", "u128")]);
  ("isMetadataSet", Plain "boolean"); ("asMetadataSet", Fielded [("index", "u32"); ("hash_", "H256")]);
  ("isMetadataCleared", Plain "boolean"); ("asMetadataCleared", Fielded [("index", "u32"); ("hash_", "H256")]);
  ("type", Union ["Submitted"; "DecisionDepositPlaced"; "DecisionDepositRefunded"; "DepositSlashed"; "DecisionStarted"; "ConfirmStarted"; "ConfirmAborted"; "Confirmed"; "Approved"; "Rejected"; "TimedOut"; "Cancelled"; "Killed"; "SubmissionDepositRefunded"; "MetadataSet"; "MetadataCleared"])]).

Definition PalletReferendaReferendumInfo : interface :=
  ("Enum", [
  ("isOngoing", Plain "boolean"); ("asOngoing", Plain "PalletReferendaReferendumStatus");
  ("isApproved", Plain "boolean");
  ("asApproved", Plain "ITuple<[u32, Option<PalletReferendaDeposit>, Option<PalletReferendaDeposit>]>");
  ("isRejected", Plain "boolean");
  ("asRejected", Plain "ITuple<[u32, Option<PalletReferendaDeposit>, Option<PalletReferendaDeposit>]>");
  ("isCancelled", Plain "boolean");
  ("asCancelled", Plain "ITuple<[u32, Option<PalletReferendaDeposit>, Option<PalletReferendaDeposit>]>");
  ("isTimedOut", Plain "boolean");
  ("asTimedOut", Plain "ITuple<[u32, Option<PalletReferendaDeposit>, Option<PalletReferendaDeposit>]>");
  ("isKilled", Plain "boolean"); ("asKilled", Plain "u32");
  ("type", Union ["Ongoing"; "Approved"; "Rejected"; "Cancelled"; "TimedOut"; "Killed"])]).

Definition PalletReferendaReferendumStatus : interface :=
  ("Struct", [
  ("track", Plain "u16"); ("origin", Plain "OpalRuntimeOriginCaller");
  ("proposal", Plain "FrameSupportPreimagesBounded"); ("enactment", Plain "FrameSupportScheduleDispatchTime");
  ("submitted", Plain "u32"); ("submissionDeposit", Plain "PalletReferendaDeposit");
  ("decisionDeposit", Plain "Option<PalletReferendaDeposit>");
  ("deciding", Plain "Option<PalletReferendaDecidingStatus>"); ("tally", Plain "PalletRankedCollectiveTally");
  ("inQueue", Plain "bool"); ("alarm", Plain "Option<ITuple<[u32, ITuple<[u32, u32]>]>>")]).

Definition PalletReferendaTrackDetails : interface :=
  ("Struct", [
  ("name", Plain "Text"); ("maxDeciding", Plain "u32"); ("decisionDeposit", Plain "u128");
  ("preparePeriod", Plain "u32"); ("decisionPeriod", Plain "u32"); ("confirmPeriod", Plain "u32");
  ("minEnactmentPeriod", Plain "u32"); ("minApproval", Plain "PalletReferendaCurve");
  ("minSupport", Plain "PalletReferendaCurve")]).

Definition PalletRefungibleError : interface :=
  ("Enum", [
  ("isNotRefungibleDataUsedToMintFungibleCollectionToken", Plain "boolean");
  ("isWrongRefungiblePieces", Plain "boolean"); ("isRepartitionWhileNotOwningAllPieces", Plain "boolean");
  ("isRefungibleDisallowsNesting", Plain "boolean"); ("isSettingPropertiesNotAllowed", Plain "boolean");
  ("type", Union ["NotRefungibleDataUsedToMintFungibleCollectionToken"; "WrongRefungiblePieces"; "RepartitionWhileNotOwningAllPieces"; "RefungibleDisallowsNesting"; "SettingPropertiesNotAllowed"])]).

Definition PalletSchedulerCall : interface :=
  ("Enum", [
  ("isSchedule", Plain "boolean");
  ("asSchedule", Fielded [("when", "u32"); ("maybePeriodic", "Option<ITuple<[u32, u32]>>"); ("priority", "u8"); ("call", "Call")]);
  ("isCancel", Plain "boolean"); ("asCancel", Fielded [("when", "u32"); ("index", "u32")]);
  ("isScheduleNamed", Plain "boolean");
  ("asScheduleNamed", Fielded [("id", "U8aFixed"); ("when", "u32"); ("maybePeriodic", "Option<ITuple<[u32, u32]>>"); ("priority", "u8"); ("call", "Call")]);
  ("isCancelNamed", Plain "boolean"); ("asCancelNamed", Fielded [("id", "U8aFixed")]);
  ("isScheduleAfter", Plain "boolean");
  ("asScheduleAfter", Fielded [("after", "u32"); ("maybePeriodic", "Option<ITuple<[u32, u32]>>"); ("priority", "u8"); ("call", "Call")]);
  ("isScheduleNamedAfter", Plain "boolean");
  ("asScheduleNamedAfter", Fielded [("id", "U8aFixed"); ("after", "u32"); ("maybePeriodic", "Option<ITuple<[u32, u32]>>"); ("priority", "u8"); ("call", "Call")]);
  ("isSetRetry", Plain "boolean");
  ("asSetRetry", Fielded [("task", "ITuple<[u32, u32]>"); ("retries", "u8"); ("period", "u32")]);
  ("isSetRetryNamed", Plain "boolean");
  ("asSetRetryNamed", Fielded [("id", "U8aFixed"); ("retries", "u8"); ("period", "u32")]);
  ("isCancelRetry", Plain "boolean"); ("asCancelRetry", Fielded [("task", "ITuple<[u32, u32]>")]);
  ("isCancelRetryNamed", Plain "boolean"); ("asCancelRetryNamed", Fielded [("id", "U8aFixed")]);
  ("type", Union ["Schedule"; "Cancel"; "ScheduleNamed"; "CancelNamed"; "ScheduleAfter"; "ScheduleNamedAfter"; "SetRetry"; "SetRetryNamed"; "CancelRetry"; "CancelRetryNamed"])]).

Definition PalletSchedulerError : interface :=
  ("Enum", [
  ("isFailedToSchedule", Plain "boolean"); ("isNotFound", Plain "boolean");
  ("isTargetBlockNumberInPast", Plain "boolean"); ("isRescheduleNoChange", Plain "boolean");
  ("isNamed", Plain "boolean");
  ("type", Union ["FailedToSchedule"; "NotFound"; "TargetBlockNumberInPast"; "RescheduleNoChange"; "Named"])]).

Definition PalletSchedulerEvent : interface :=
  ("Enum", [
  ("isScheduled", Plain "boolean"); ("asScheduled", Fielded [("when", "u32"); ("index", "u32")]);
  ("isCanceled", Plain "boolean"); ("asCanceled", Fielded [("when", "u32"); ("index", "u32")]);
  ("isDispatched", Plain "boolean");
  ("asDispatched", Fielded [("task", "ITuple<[u32, u32]>"); ("id", "Option<U8aFixed>"); ("result", "Result<Null, SpRuntimeDispatchError>")]);
  ("isRetrySet", Plain "boolean");
  ("asRetrySet", Fielded [("task", "ITuple<[u32, u32]>"); ("id", "Option<U8aFixed>"); ("period", "u32"); ("retries", "u8")]);
  ("isRetryCancelled", Plain "boolean");
  ("asRetryCancelled", Fielded [("task", "ITuple<[u32, u32]>"); ("id", "Option<U8aFixed>")]);
  ("isCallUnavailable", Plain "boolean");
  ("asCallUnavailable", Fielded [("task", "ITuple<[u32, u32]>"); ("id", "Option<U8aFixed>")]);
  ("isPeriodicFailed", Plain "boolean");
  ("asPeriodicFailed", Fielded [("task", "ITuple<[u32, u32]>"); ("id", "Option<U8aFixed>")]);
  ("isRetryFailed", Plain "boolean");
  ("asRetryFailed", Fielded [("task", "ITuple<[u32, u32]>"); ("id", "Option<U8aFixed>")]);
  ("isPermanentlyOverweight", Plain "boolean");
  ("asPermanentlyOverweight", Fielded [("task", "ITuple<[u32, u32]>"); ("id", "Option<U8aFixed>")]);
  ("isAgendaIncomplete", Plain "boolean"); ("asAgendaIncomplete", Fielded [("when", "u32")]);
  ("type", Union ["Scheduled"; "Canceled"; "Dispatched"; "RetrySet"; "RetryCancelled"; "CallUnavailable"; "PeriodicFailed"; "RetryFailed"; "PermanentlyOverweight"; "AgendaIncomplete"])]).

Definition PalletSchedulerRetryConfig : interface :=
  ("Struct", [
  ("totalRetries", Plain "u8"); ("remaining", Plain "u8"); ("period", Plain "u32")]).

Definition PalletSchedulerScheduled : interface :=
  ("Struct", [
  ("maybeId", Plain "Option<U8aFixed>"); ("priority", Plain "u8");
  ("call", Plain "FrameSupportPreimagesBounded"); ("maybePeriodic", Plain "Option<ITuple<[u32, u32]>>");
  ("origin", Plain "OpalRuntimeOriginCaller")]).

Definition PalletSessionCall : interface :=
  ("Enum", [
  ("isSetKeys", Plain "boolean");
  ("asSetKeys", Fielded [("keys_", "OpalRuntimeRuntimeCommonSessionKeys"); ("proof", "Bytes")]);
  ("isPurgeKeys", Plain "boolean"); ("type", Union ["SetKeys"; "PurgeKeys"])]).

Definition PalletSessionError : interface :=
  ("Enum", [
  ("isInvalidProof", Plain "boolean"); ("isNoAssociatedValidatorId", Plain "boolean");
  ("isDuplicatedKey", Plain "boolean"); ("isNoKeys", Plain "boolean"); ("isNoAccount", Plain "boolean");
  ("type", Union ["InvalidProof"; "NoAssociatedValidatorId"; "DuplicatedKey"; "NoKeys"; "NoAccount"])]).

Definition PalletSessionEvent : interface :=
  ("Enum", [
  ("isNewSession", Plain "boolean"); ("asNewSession", Fielded [("sessionIndex", "u32")]);
  ("isValidatorDisabled", Plain "boolean"); ("asValidatorDisabled", Fielded [("validator", "AccountId32")]);
  ("isValidatorReenabled", Plain "boolean"); ("asValidatorReenabled", Fielded [("validator", "AccountId32")]);
  ("type", Union ["NewSession"; "ValidatorDisabled"; "ValidatorReenabled"])]).

Definition PalletSponsoringChargeTransactionPayment : interface :=
  ("Compact<u128>", []).

Definition PalletSponsoringCheckNonce : interface :=
  ("Compact<u32>", []).

Definition PalletStateTrieMigrationCall : interface :=
  ("Enum", [
  ("isControlAutoMigration", Plain "boolean");
  ("asControlAutoMigration", Fielded [("maybeConfig", "Option<PalletStateTrieMigrationMigrationLimits>")]);
  ("isContinueMigrate", Plain "boolean");
  ("asContinueMigrate", Fielded [("limits", "PalletStateTrieMigrationMigrationLimits"); ("realSizeUpper", "u32"); ("witnessTask", "PalletStateTrieMigrationMigrationTask")]);
  ("isMigrateCustomTop", Plain "boolean");
  ("asMigrateCustomTop", Fielded [("keys_", "Vec<Bytes>"); ("witnessSize", "u32")]);
  ("isMigrateCustomChild", Plain "boolean");
  ("asMigrateCustomChild", Fielded [("root", "Bytes"); ("childKeys", "Vec<Bytes>"); ("totalSize", "u32")]);
  ("isSetSignedMaxLimits", Plain "boolean");
  ("asSetSignedMaxLimits", Fielded [("limits", "PalletStateTrieMigrationMigrationLimits")]);
  ("isForceSetProgress", Plain "boolean");
  ("asForceSetProgress", Fielded [("progressTop", "PalletStateTrieMigrationProgress"); ("progressChild", "PalletStateTrieMigrationProgress")]);
  ("type", Union ["ControlAutoMigration"; "ContinueMigrate"; "MigrateCustomTop"; "MigrateCustomChild"; "SetSignedMaxLimits"; "ForceSetProgress"])]).

Definition PalletStateTrieMigrationError : interface :=
  ("Enum", [
  ("isMaxSignedLimits", Plain "boolean"); ("isKeyTooLong", Plain "boolean");
  ("isNotEnoughFunds", Plain "boolean"); ("isBadWitness", Plain "boolean");
  ("isSignedMigrationNotAllowed", Plain "boolean"); ("isBadChildRoot", Plain "boolean");
  ("type", Union ["MaxSignedLimits"; "KeyTooLong"; "NotEnoughFunds"; "BadWitness"; "SignedMigrationNotAllowed"; "BadChildRoot"])]).

Definition PalletStateTrieMigrationEvent : interface :=
  ("Enum", [
  ("isMigrated", Plain "boolean");
  ("asMigrated", Fielded [("top", "u32"); ("child", "u32"); ("compute", "PalletStateTrieMigrationMigrationCompute")]);
  ("isSlashed", Plain "boolean"); ("asSlashed", Fielded [("who", "AccountId32"); ("amount", "u128")]);
  ("isAutoMigrationFinished", Plain "boolean"); ("isHalted", Plain "boolean");
  ("asHalted", Fielded [("error", "PalletStateTrieMigrationError")]);
  ("type", Union ["Migrated"; "Slashed"; "AutoMigrationFinished"; "Halted"])]).

Definition PalletStateTrieMigrationHoldReason : interface :=
  ("Enum", [("isSlashForMigrate", Plain "boolean"); ("type", Union ["SlashForMigrate"])]).

Definition PalletStateTrieMigrationMigrationCompute : interface :=
  ("Enum", [
  ("isSigned", Plain "boolean"); ("isAuto", Plain "boolean"); ("type", Union ["Signed"; "Auto"])]).

Definition PalletStateTrieMigrationMigrationLimits : interface :=
  ("Struct", [("size_", Plain "u32"); ("item", Plain "u32")]).

Definition PalletStateTrieMigrationMigrationTask : interface :=
  ("Struct", [
  ("progressTop", Plain "PalletStateTrieMigrationProgress");
  ("progressChild", Plain "PalletStateTrieMigrationProgress"); ("size_", Plain "u32");
  ("topItems", Plain "u32"); ("childItems", Plain "u32")]).

Definition PalletStateTrieMigrationProgress : interface :=
  ("Enum", [
  ("isToStart", Plain "boolean"); ("isLastKey", Plain "boolean"); ("asLastKey", Plain "Bytes");
  ("isComplete", Plain "boolean"); ("type", Union ["ToStart"; "LastKey"; "Complete"])]).

Definition PalletStructureCall : interface :=
  ("Null", []).

Definition PalletStructureError : interface :=
  ("Enum", [
  ("isOuroborosDetected", Plain "boolean"); ("isDepthLimit", Plain "boolean");
  ("isBreadthLimit", Plain "boolean"); ("isTokenNotFound", Plain "boolean");
  ("isCantNestTokenUnderCollection", Plain "boolean");
  ("type", Union ["OuroborosDetected"; "DepthLimit"; "BreadthLimit"; "TokenNotFound"; "CantNestTokenUnderCollection"])]).

Definition PalletStructureEvent : interface :=
  ("Enum", [
  ("isExecuted", Plain "boolean"); ("asExecuted", Plain "Result<Null, SpRuntimeDispatchError>");
  ("type", Union ["Executed"])]).

Definition PalletSudoCall : interface :=
  ("Enum", [
  ("isSudo", Plain "boolean"); ("asSudo", Fielded [("call", "Call")]);
  ("isSudoUncheckedWeight", Plain "boolean");
  ("asSudoUncheckedWeight", Fielded [("call", "Call"); ("weight", "SpWeightsWeightV2Weight")]);
  ("isSetKey", Plain "boolean"); ("asSetKey", Fielded [("new_", "MultiAddress")]);
  ("isSudoAs", Plain "boolean"); ("asSudoAs", Fielded [("who", "MultiAddress"); ("call", "Call")]);
  ("isRemoveKey", Plain "boolean");
  ("type", Union ["Sudo"; "SudoUncheckedWeight"; "SetKey"; "SudoAs"; "RemoveKey"])]).

Definition PalletSudoError : interface :=
  ("Enum", [("isRequireSudo", Plain "boolean"); ("type", Union ["RequireSudo"])]).

Definition PalletSudoEvent : interface :=
  ("Enum", [
  ("isSudid", Plain "boolean"); ("asSudid", Fielded [("sudoResult", "Result<Null, SpRuntimeDispatchError>")]);
  ("isKeyChanged", Plain "boolean");
  ("asKeyChanged", Fielded [("old", "Option<AccountId32>"); ("new_", "AccountId32")]);
  ("isKeyRemoved", Plain "boolean"); ("isSudoAsDone", Plain "boolean");
  ("asSudoAsDone", Fielded [("sudoResult", "Result<Null, SpRuntimeDispatchError>")]);
  ("type", Union ["Sudid"; "KeyChanged"; "KeyRemoved"; "SudoAsDone"])]).

Definition PalletTestUtilsCall : interface :=
  ("Enum", [
  ("isEnable", Plain "boolean"); ("isSetTestValue", Plain "boolean");
  ("asSetTestValue", Fielded [("value", "u32")]); ("isSetTestValueAndRollback", Plain "boolean");
  ("asSetTestValueAndRollback", Fielded [("value", "u32")]); ("isIncTestValue", Plain "boolean");
  ("isJustTakeFee", Plain "boolean"); ("isBatchAll", Plain "boolean");
  ("asBatchAll", Fielded [("calls", "Vec<Call>")]);
  ("type", Union ["Enable"; "SetTestValue"; "SetTestValueAndRollback"; "IncTestValue"; "JustTakeFee"; "BatchAll"])]).

Definition PalletTestUtilsError : interface :=
  ("Enum", [
  ("isTestPalletDisabled", Plain "boolean"); ("isTriggerRollback", Plain "boolean");
  ("type", Union ["TestPalletDisabled"; "TriggerRollback"])]).

Definition PalletTestUtilsEvent : interface :=
  ("Enum", [
  ("isValueIsSet", Plain "boolean"); ("isShouldRollback", Plain "boolean");
  ("isBatchCompleted", Plain "boolean"); ("type", Union ["ValueIsSet"; "ShouldRollback"; "BatchCompleted"])]).

Definition PalletTimestampCall : interface :=
  ("Enum", [
  ("isSet", Plain "boolean"); ("asSet", Fielded [("now", "Compact<u64>")]); ("type", Union ["Set"])]).

Definition PalletTransactionPaymentEvent : interface :=
  ("Enum", [
  ("isTransactionFeePaid", Plain "boolean");
  ("asTransactionFeePaid", Fielded [("who", "AccountId32"); ("actualFee", "u128"); ("tip", "u128")]);
  ("type", Union ["TransactionFeePaid"])]).

Definition PalletTransactionPaymentReleases : interface :=
  ("Enum", [
  ("isV1Ancient", Plain "boolean"); ("isV2", Plain "boolean"); ("type", Union ["V1Ancient"; "V2"])]).

Definition PalletTreasuryCall : interface :=
  ("Enum", [
  ("isSpendLocal", Plain "boolean");
  ("asSpendLocal", Fielded [("amount", "Compact<u128>"); ("beneficiary", "MultiAddress")]);
  ("isRemoveApproval", Plain "boolean"); ("asRemoveApproval", Fielded [("proposalId", "Compact<u32>")]);
  ("isSpend", Plain "boolean");
  ("asSpend", Fielded [("assetKind", "Null"); ("amount", "Compact<u128>"); ("beneficiary", "AccountId32"); ("validFrom", "Option<u32>")]);
  ("isPayout", Plain "boolean"); ("asPayout", Fielded [("index", "u32")]); ("isCheckStatus", Plain "boolean");
  ("asCheckStatus", Fielded [("index", "u32")]); ("isVoidSpend", Plain "boolean");
  ("asVoidSpend", Fielded [("index", "u32")]);
  ("type", Union ["SpendLocal"; "RemoveApproval"; "Spend"; "Payout"; "CheckStatus"; "VoidSpend"])]).

Definition PalletTreasuryError : interface :=
  ("Enum", [
  ("isInvalidIndex", Plain "boolean"); ("isTooManyApprovals", Plain "boolean");
  ("isInsufficientPermission", Plain "boolean"); ("isProposalNotApproved", Plain "boolean");
  ("isFailedToConvertBalance", Plain "boolean"); ("isSpendExpired", Plain "boolean");
  ("isEarlyPayout", Plain "boolean"); ("isAlreadyAttempted", Plain "boolean");
  ("isPayoutError", Plain "boolean"); ("isNotAttempted", Plain "boolean"); ("isInconclusive", Plain "boolean");
  ("type", Union ["InvalidIndex"; "TooManyApprovals"; "InsufficientPermission"; "ProposalNotApproved"; "FailedToConvertBalance"; "SpendExpired"; "EarlyPayout"; "AlreadyAttempted"; "PayoutError"; "NotAttempted"; "Inconclusive"])]).

Definition PalletTreasuryEvent : interface :=
  ("Enum", [
  ("isSpending", Plain "boolean"); ("asSpending", Fielded [("budgetRemaining", "u128")]);
  ("isAwarded", Plain "boolean");
  ("asAwarded", Fielded [("proposalIndex", "u32"); ("award", "u128"); ("account", "AccountId32")]);
  ("isBurnt", Plain "boolean"); ("asBurnt", Fielded [("burntFunds", "u128")]); ("isRollover", Plain "boolean");
  ("asRollover", Fielded [("rolloverBalance", "u128")]); ("isDeposit", Plain "boolean");
  ("asDeposit", Fielded [("value", "u128")]); ("isSpendApproved", Plain "boolean");
  ("asSpendApproved", Fielded [("proposalIndex", "u32"); ("amount", "u128"); ("beneficiary", "AccountId32")]);
  ("isUpdatedInactive", Plain "boolean");
  ("asUpdatedInactive", Fielded [("reactivated", "u128"); ("deactivated", "u128")]);
  ("isAssetSpendApproved", Plain "boolean");
  ("asAssetSpendApproved", Fielded [("index", "u32"); ("assetKind", "Null"); ("amount", "u128"); ("beneficiary", "AccountId32"); ("validFrom", "u32"); ("expireAt", "u32")]);
  ("isAssetSpendVoided", Plain "boolean"); ("asAssetSpendVoided", Fielded [("index", "u32")]);
  ("isPaid", Plain "boolean"); ("asPaid", Fielded [("index", "u32"); ("paymentId", "Null")]);
  ("isPaymentFailed", Plain "boolean"); ("asPaymentFailed", Fielded [("index", "u32"); ("paymentId", "Null")]);
  ("isSpendProcessed", Plain "boolean"); ("asSpendProcessed", Fielded [("index", "u32")]);
  ("type", Union ["Spending"; "Awarded"; "Burnt"; "Rollover"; "Deposit"; "SpendApproved"; "UpdatedInactive"; "AssetSpendApproved"; "AssetSpendVoided"; "Paid"; "PaymentFailed"; "SpendProcessed"])]).

Definition PalletTreasuryPaymentState : interface :=
  ("Enum", [
  ("isPending", Plain "boolean"); ("isAttempted", Plain "boolean"); ("asAttempted", Fielded [("id", "Null")]);
  ("isFailed", Plain "boolean"); ("type", Union ["Pending"; "Attempted"; "Failed"])]).

Definition PalletTreasuryProposal : interface :=
  ("Struct", [
  ("proposer", Plain "AccountId32"); ("value", Plain "u128"); ("beneficiary", Plain "AccountId32");
  ("bond", Plain "u128")]).

Definition PalletTreasurySpendStatus : interface :=
  ("Struct", [
  ("assetKind", Plain "Null"); ("amount", Plain "u128"); ("beneficiary", Plain "AccountId32");
  ("validFrom", Plain "u32"); ("expireAt", Plain "u32"); ("status", Plain "PalletTreasuryPaymentState")]).

Definition PalletUniqueCall : interface :=
  ("Enum", [
  ("isCreateCollection", Plain "boolean");
  ("asCreateCollection", Fielded [("collectionName", "Vec<u16>"); ("collectionDescription", "Vec<u16>"); ("tokenPrefix", "Bytes"); ("mode", "UpDataStructsCollectionMode")]);
  ("isCreateCollectionEx", Plain "boolean");
  ("asCreateCollectionEx", Fielded [("data", "UpDataStructsCreateCollectionData")]);
  ("isDestroyCollection", Plain "boolean"); ("asDestroyCollection", Fielded [("collectionId", "u32")]);
  ("isAddToAllowList", Plain "boolean");
  ("asAddToAllowList", Fielded [("collectionId", "u32"); ("address", "PalletEvmAccountBasicCrossAccountIdRepr")]);
  ("isRemoveFromAllowList", Plain "boolean");
  ("asRemoveFromAllowList", Fielded [("collectionId", "u32"); ("address", "PalletEvmAccountBasicCrossAccountIdRepr")]);
  ("isChangeCollectionOwner", Plain "boolean");
  ("asChangeCollectionOwner", Fielded [("collectionId", "u32"); ("newOwner", "AccountId32")]);
  ("isAddCollectionAdmin", Plain "boolean");
  ("asAddCollectionAdmin", Fielded [("collectionId", "u32"); ("newAdminId", "PalletEvmAccountBasicCrossAccountIdRepr")]);
  ("isRemoveCollectionAdmin", Plain "boolean");
  ("asRemoveCollectionAdmin", Fielded [("collectionId", "u32"); ("accountId", "PalletEvmAccountBasicCrossAccountIdRepr")]);
  ("isSetCollectionSponsor", Plain "boolean");
  ("asSetCollectionSponsor", Fielded [("collectionId", "u32"); ("newSponsor", "AccountId32")]);
  ("isConfirmSponsorship", Plain "boolean"); ("asConfirmSponsorship", Fielded [("collectionId", "u32")]);
  ("isRemoveCollectionSponsor", Plain "boolean");
  ("asRemoveCollectionSponsor", Fielded [("collectionId", "u32")]); ("isCreateItem", Plain "boolean");
  ("asCreateItem", Fielded [("collectionId", "u32"); ("owner", "PalletEvmAccountBasicCrossAccountIdRepr"); ("data", "UpDataStructsCreateItemData")]);
  ("isCreateMultipleItems", Plain "boolean");
  ("asCreateMultipleItems", Fielded [("collectionId", "u32"); ("owner", "PalletEvmAccountBasicCrossAccountIdRepr"); ("itemsData", "Vec<UpDataStructsCreateItemData>")]);
  ("isSetCollectionProperties", Plain "boolean");
  ("asSetCollectionProperties", Fielded [("collectionId", "u32"); ("properties", "Vec<UpDataStructsProperty>")]);
  ("isDeleteCollectionProperties", Plain "boolean");
  ("asDeleteCollectionProperties", Fielded [("collectionId", "u32"); ("propertyKeys", "Vec<Bytes>")]);
  ("isSetTokenProperties", Plain "boolean");
  ("asSetTokenProperties", Fielded [("collectionId", "u32"); ("tokenId", "u32"); ("properties", "Vec<UpDataStructsProperty>")]);
  ("isDeleteTokenProperties", Plain "boolean");
  ("asDeleteTokenProperties", Fielded [("collectionId", "u32"); ("tokenId", "u32"); ("propertyKeys", "Vec<Bytes>")]);
  ("isSetTokenPropertyPermissions", Plain "boolean");
  ("asSetTokenPropertyPermissions", Fielded [("collectionId", "u32"); ("propertyPermissions", "Vec<UpDataStructsPropertyKeyPermission>")]);
  ("isCreateMultipleItemsEx", Plain "boolean");
  ("asCreateMultipleItemsEx", Fielded [("collectionId", "u32"); ("data", "UpDataStructsCreateItemExData")]);
  ("isSetTransfersEnabledFlag", Plain "boolean");
  ("asSetTransfersEnabledFlag", Fielded [("collectionId", "u32"); ("value", "bool")]);
  ("isBurnItem", Plain "boolean");
  ("asBurnItem", Fielded [("collectionId", "u32"); ("itemId", "u32"); ("value", "u128")]);
  ("isBurnFrom", Plain "boolean");
  ("asBurnFrom", Fielded [("collectionId", "u32"); ("from", "PalletEvmAccountBasicCrossAccountIdRepr"); ("itemId", "u32"); ("value", "u128")]);
  ("isTransfer", Plain "boolean");
  ("asTransfer", Fielded [("recipient", "PalletEvmAccountBasicCrossAccountIdRepr"); ("collectionId", "u32"); ("itemId", "u32"); ("value", "u128")]);
  ("isApprove", Plain "boolean");
  ("asApprove", Fielded [("spender", "PalletEvmAccountBasicCrossAccountIdRepr"); ("collectionId", "u32"); ("itemId", "u32"); ("amount", "u128")]);
  ("isApproveFrom", Plain "boolean");
  ("asApproveFrom", Fielded [("from", "PalletEvmAccountBasicCrossAccountIdRepr"); ("to", "PalletEvmAccountBasicCrossAccountIdRepr"); ("collectionId", "u32"); ("itemId", "u32"); ("amount", "u128")]);
  ("isTransferFrom", Plain "boolean");
  ("asTransferFrom", Fielded [("from", "PalletEvmAccountBasicCrossAccountIdRepr"); ("recipient", "PalletEvmAccountBasicCrossAccountIdRepr"); ("collectionId", "u32"); ("itemId", "u32"); ("value", "u128")]);
  ("isSetCollectionLimits", Plain "boolean");
  ("asSetCollectionLimits", Fielded [("collectionId", "u32"); ("newLimit", "UpDataStructsCollectionLimits")]);
  ("isSetCollectionPermissions", Plain "boolean");
  ("asSetCollectionPermissions", Fielded [("collectionId", "u32"); ("newPermission", "UpDataStructsCollectionPermissions")]);
  ("isRepartition", Plain "boolean");
  ("asRepartition", Fielded [("collectionId", "u32"); ("tokenId", "u32"); ("amount", "u128")]);
  ("isSetAllowanceForAll", Plain "boolean");
  ("asSetAllowanceForAll", Fielded [("collectionId", "u32"); ("operator", "PalletEvmAccountBasicCrossAccountIdRepr"); ("approve", "bool")]);
  ("isForceRepairCollection", Plain "boolean"); ("asForceRepairCollection", Fielded [("collectionId", "u32")]);
  ("isForceRepairItem", Plain "boolean");
  ("asForceRepairItem", Fielded [("collectionId", "u32"); ("itemId", "u32")]);
  ("type", Union ["CreateCollection"; "CreateCollectionEx"; "DestroyCollection"; "AddToAllowList"; "RemoveFromAllowList"; "ChangeCollectionOwner"; "AddCollectionAdmin"; "RemoveCollectionAdmin"; "SetCollectionSponsor"; "ConfirmSponsorship"; "RemoveCollectionSponsor"; "CreateItem"; "CreateMultipleItems"; "SetCollectionProperties"; "DeleteCollectionProperties"; "SetTokenProperties"; "DeleteTokenProperties"; "SetTokenPropertyPermissions"; "CreateMultipleItemsEx"; "SetTransfersEnabledFlag"; "BurnItem"; "BurnFrom"; "Transfer"; "Approve"; "ApproveFrom"; "TransferFrom"; "SetCollectionLimits"; "SetCollectionPermissions"; "Repartition"; "SetAllowanceForAll"; "ForceRepairCollection"; "ForceRepairItem"])]).

Definition PalletUniqueError : interface :=
  ("Enum", [
  ("isCollectionDecimalPointLimitExceeded", Plain "boolean"); ("isEmptyArgument", Plain "boolean");
  ("isRepartitionCalledOnNonRefungibleCollection", Plain "boolean");
  ("type", Union ["CollectionDecimalPointLimitExceeded"; "EmptyArgument"; "RepartitionCalledOnNonRefungibleCollection"])]).

Definition PalletUtilityCall : interface :=
  ("Enum", [
  ("isBatch", Plain "boolean"); ("asBatch", Fielded [("calls", "Vec<Call>")]);
  ("isAsDerivative", Plain "boolean"); ("asAsDerivative", Fielded [("index", "u16"); ("call", "Call")]);
  ("isBatchAll", Plain "boolean"); ("asBatchAll", Fielded [("calls", "Vec<Call>")]);
  ("isDispatchAs", Plain "boolean");
  ("asDispatchAs", Fielded [("asOrigin", "OpalRuntimeOriginCaller"); ("call", "Call")]);
  ("isForceBatch", Plain "boolean"); ("asForceBatch", Fielded [("calls", "Vec<Call>")]);
  ("isWithWeight", Plain "boolean");
  ("asWithWeight", Fielded [("call", "Call"); ("weight", "SpWeightsWeightV2Weight")]);
  ("isIfElse", Plain "boolean"); ("asIfElse", Fielded [("main", "Call"); ("fallback", "Call")]);
  ("isDispatchAsFallible", Plain "boolean");
  ("asDispatchAsFallible", Fielded [("asOrigin", "OpalRuntimeOriginCaller"); ("call", "Call")]);
  ("type", Union ["Batch"; "AsDerivative"; "BatchAll"; "DispatchAs"; "ForceBatch"; "WithWeight"; "IfElse"; "DispatchAsFallible"])]).

Definition PalletUtilityError : interface :=
  ("Enum", [("isTooManyCalls", Plain "boolean"); ("type", Union ["TooManyCalls"])]).

Definition PalletUtilityEvent : interface :=
  ("Enum", [
  ("isBatchInterrupted", Plain "boolean");
  ("asBatchInterrupted", Fielded [("index", "u32"); ("error", "SpRuntimeDispatchError")]);
  ("isBatchCompleted", Plain "boolean"); ("isBatchCompletedWithErrors", Plain "boolean");
  ("isItemCompleted", Plain "boolean"); ("isItemFailed", Plain "boolean");
  ("asItemFailed", Fielded [("error", "SpRuntimeDispatchError")]); ("isDispatchedAs", Plain "boolean");
  ("asDispatchedAs", Fielded [("result", "Result<Null, SpRuntimeDispatchError>")]);
  ("isIfElseMainSuccess", Plain "boolean"); ("isIfElseFallbackCalled", Plain "boolean");
  ("asIfElseFallbackCalled", Fielded [("mainError", "SpRuntimeDispatchError")]);
  ("type", Union ["BatchInterrupted"; "BatchCompleted"; "BatchCompletedWithErrors"; "ItemCompleted"; "ItemFailed"; "DispatchedAs"; "IfElseMainSuccess"; "IfElseFallbackCalled"])]).

Definition PalletXcmAuthorizedAliasesEntry : interface :=
  ("Struct", [
  ("aliasers", Plain "Vec<XcmRuntimeApisAuthorizedAliasesOriginAliaser>");
  ("ticket", Plain "FrameSupportStorageDisabled")]).

Definition PalletXcmCall : interface :=
  ("Enum", [
  ("isSend", Plain "boolean");
  ("asSend", Fielded [("dest", "XcmVersionedLocation"); ("message", "XcmVersionedXcm")]);
  ("isTeleportAssets", Plain "boolean");
  ("asTeleportAssets", Fielded [("dest", "XcmVersionedLocation"); ("beneficiary", "XcmVersionedLocation"); ("assets", "XcmVersionedAssets"); ("feeAssetItem", "u32")]);
  ("isReserveTransferAssets", Plain "boolean");
  ("asReserveTransferAssets", Fielded [("dest", "XcmVersionedLocation"); ("beneficiary", "XcmVersionedLocation"); ("assets", "XcmVersionedAssets"); ("feeAssetItem", "u32")]);
  ("isExecute", Plain "boolean");
  ("asExecute", Fielded [("message", "XcmVersionedXcm"); ("maxWeight", "SpWeightsWeightV2Weight")]);
  ("isForceXcmVersion", Plain "boolean");
  ("asForceXcmVersion", Fielded [("location", "StagingXcmV5Location"); ("version", "u32")]);
  ("isForceDefaultXcmVersion", Plain "boolean");
  ("asForceDefaultXcmVersion", Fielded [("maybeXcmVersion", "Option<u32>")]);
  ("isForceSubscribeVersionNotify", Plain "boolean");
  ("asForceSubscribeVersionNotify", Fielded [("location", "XcmVersionedLocation")]);
  ("isForceUnsubscribeVersionNotify", Plain "boolean");
  ("asForceUnsubscribeVersionNotify", Fielded [("location", "XcmVersionedLocation")]);
  ("isLimitedReserveTransferAssets", Plain "boolean");
  ("asLimitedReserveTransferAssets", Fielded [("dest", "XcmVersionedLocation"); ("beneficiary", "XcmVersionedLocation"); ("assets", "XcmVersionedAssets"); ("feeAssetItem", "u32"); ("weightLimit", "XcmV3WeightLimit")]);
  ("isLimitedTeleportAssets", Plain "boolean");
  ("asLimitedTeleportAssets", Fielded [("dest", "XcmVersionedLocation"); ("beneficiary", "XcmVersionedLocation"); ("assets", "XcmVersionedAssets"); ("feeAssetItem", "u32"); ("weightLimit", "XcmV3WeightLimit")]);
  ("isForceSuspension", Plain "boolean"); ("asForceSuspension", Fielded [("suspended", "bool")]);
  ("isTransferAssets", Plain "boolean");
  ("asTransferAssets", Fielded [("dest", "XcmVersionedLocation"); ("beneficiary", "XcmVersionedLocation"); ("assets", "XcmVersionedAssets"); ("feeAssetItem", "u32"); ("weightLimit", "XcmV3WeightLimit")]);
  ("isClaimAssets", Plain "boolean");
  ("asClaimAssets", Fielded [("assets", "XcmVersionedAssets"); ("beneficiary", "XcmVersionedLocation")]);
  ("isTransferAssetsUsingTypeAndThen", Plain "boolean");
  ("asTransferAssetsUsingTypeAndThen", Fielded [("dest", "XcmVersionedLocation"); ("assets", "XcmVersionedAssets"); ("assetsTransferType", "StagingXcmExecutorAssetTransferTransferType"); ("remoteFeesId", "XcmVersionedAssetId"); ("feesTransferType", "StagingXcmExecutorAssetTransferTransferType"); ("customXcmOnDest", "XcmVersionedXcm"); ("weightLimit", "XcmV3WeightLimit")]);
  ("isAddAuthorizedAlias", Plain "boolean");
  ("asAddAuthorizedAlias", Fielded [("aliaser", "XcmVersionedLocation"); ("expires", "Option<u64>")]);
  ("isRemoveAuthorizedAlias", Plain "boolean");
  ("asRemoveAuthorizedAlias", Fielded [("aliaser", "XcmVersionedLocation")]);
  ("isRemoveAllAuthorizedAliases", Plain "boolean");
  ("type", Union ["Send"; "TeleportAssets"; "ReserveTransferAssets"; "Execute"; "ForceXcmVersion"; "ForceDefaultXcmVersion"; "ForceSubscribeVersionNotify"; "ForceUnsubscribeVersionNotify"; "LimitedReserveTransferAssets"; "LimitedTeleportAssets"; "ForceSuspension"; "TransferAssets"; "ClaimAssets"; "TransferAssetsUsingTypeAndThen"; "AddAuthorizedAlias"; "RemoveAuthorizedAlias"; "RemoveAllAuthorizedAliases"])]).

Definition PalletXcmError : interface :=
  ("Enum", [
  ("isUnreachable", Plain "boolean"); ("isSendFailure", Plain "boolean"); ("isFiltered", Plain "boolean");
  ("isUnweighableMessage", Plain "boolean"); ("isDestinationNotInvertible", Plain "boolean");
  ("isEmpty", Plain "boolean"); ("isCannotReanchor", Plain "boolean"); ("isTooManyAssets", Plain "boolean");
  ("isInvalidOrigin", Plain "boolean"); ("isBadVersion", Plain "boolean"); ("isBadLocation", Plain "boolean");
  ("isNoSubscription", Plain "boolean"); ("isAlreadySubscribed", Plain "boolean");
  ("isCannotCheckOutTeleport", Plain "boolean"); ("isLowBalance", Plain "boolean");
  ("isTooManyLocks", Plain "boolean"); ("isAccountNotSovereign", Plain "boolean");
  ("isFeesNotMet", Plain "boolean"); ("isLockNotFound", Plain "boolean"); ("isInUse", Plain "boolean");
  ("isInvalidAssetUnknownReserve", Plain "boolean"); ("isInvalidAssetUnsupportedReserve", Plain "boolean");
  ("isTooManyReserves", Plain "boolean"); ("isLocalExecutionIncomplete", Plain "boolean");
  ("isTooManyAuthorizedAliases", Plain "boolean"); ("isExpiresInPast", Plain "boolean");
  ("isAliasNotFound", Plain "boolean");
  ("type", Union ["Unreachable"; "SendFailure"; "Filtered"; "UnweighableMessage"; "DestinationNotInvertible"; "Empty"; "CannotReanchor"; "TooManyAssets"; "InvalidOrigin"; "BadVersion"; "BadLocation"; "NoSubscription"; "AlreadySubscribed"; "CannotCheckOutTeleport"; "LowBalance"; "TooManyLocks"; "AccountNotSovereign"; "FeesNotMet"; "LockNotFound"; "InUse"; "InvalidAssetUnknownReserve"; "InvalidAssetUnsupportedReserve"; "TooManyReserves"; "LocalExecutionIncomplete"; "TooManyAuthorizedAliases"; "ExpiresInPast"; "AliasNotFound"])]).

Definition PalletXcmEvent : interface :=
  ("Enum", [
  ("isAttempted", Plain "boolean"); ("asAttempted", Fielded [("outcome", "StagingXcmV5TraitsOutcome")]);
  ("isSent", Plain "boolean");
  ("asSent", Fielded [("origin", "StagingXcmV5Location"); ("destination", "StagingXcmV5Location"); ("message", "StagingXcmV5Xcm"); ("messageId", "U8aFixed")]);
  ("isSendFailed", Plain "boolean");
  ("asSendFailed", Fielded [("origin", "StagingXcmV5Location"); ("destination", "StagingXcmV5Location"); ("error", "XcmV3TraitsSendError"); ("messageId", "U8aFixed")]);
  ("isProcessXcmError", Plain "boolean");
  ("asProcessXcmError", Fielded [("origin", "StagingXcmV5Location"); ("error", "XcmV5TraitsError"); ("messageId", "U8aFixed")]);
  ("isUnexpectedResponse", Plain "boolean");
  ("asUnexpectedResponse", Fielded [("origin", "StagingXcmV5Location"); ("queryId", "u64")]);
  ("isResponseReady", Plain "boolean");
  ("asResponseReady", Fielded [("queryId", "u64"); ("response", "StagingXcmV5Response")]);
  ("isNotified", Plain "boolean");
  ("asNotified", Fielded [("queryId", "u64"); ("palletIndex", "u8"); ("callIndex", "u8")]);
  ("isNotifyOverweight", Plain "boolean");
  ("asNotifyOverweight", Fielded [("queryId", "u64"); ("palletIndex", "u8"); ("callIndex", "u8"); ("actualWeight", "SpWeightsWeightV2Weight"); ("maxBudgetedWeight", "SpWeightsWeightV2Weight")]);
  ("isNotifyDispatchError", Plain "boolean");
  ("asNotifyDispatchError", Fielded [("queryId", "u64"); ("palletIndex", "u8"); ("callIndex", "u8")]);
  ("isNotifyDecodeFailed", Plain "boolean");
  ("asNotifyDecodeFailed", Fielded [("queryId", "u64"); ("palletIndex", "u8"); ("callIndex", "u8")]);
  ("isInvalidResponder", Plain "boolean");
  ("asInvalidResponder", Fielded [("origin", "StagingXcmV5Location"); ("queryId", "u64"); ("expectedLocation", "Option<StagingXcmV5Location>")]);
  ("isInvalidResponderVersion", Plain "boolean");
  ("asInvalidResponderVersion", Fielded [("origin", "StagingXcmV5Location"); ("queryId", "u64")]);
  ("isResponseTaken", Plain "boolean"); ("asResponseTaken", Fielded [("queryId", "u64")]);
  ("isAssetsTrapped", Plain "boolean");
  ("asAssetsTrapped", Fielded [("hash_", "H256"); ("origin", "StagingXcmV5Location"); ("assets", "XcmVersionedAssets")]);
  ("isVersionChangeNotified", Plain "boolean");
  ("asVersionChangeNotified", Fielded [("destination", "StagingXcmV5Location"); ("result", "u32"); ("cost", "StagingXcmV5AssetAssets"); ("messageId", "U8aFixed")]);
  ("isSupportedVersionChanged", Plain "boolean");
  ("asSupportedVersionChanged", Fielded [("location", "StagingXcmV5Location"); ("version", "u32")]);
  ("isNotifyTargetSendFail", Plain "boolean");
  ("asNotifyTargetSendFail", Fielded [("location", "StagingXcmV5Location"); ("queryId", "u64"); ("error", "XcmV5TraitsError")]);
  ("isNotifyTargetMigrationFail", Plain "boolean");
  ("asNotifyTargetMigrationFail", Fielded [("location", "XcmVersionedLocation"); ("queryId", "u64")]);
  ("isInvalidQuerierVersion", Plain "boolean");
  ("asInvalidQuerierVersion", Fielded [("origin", "StagingXcmV5Location"); ("queryId", "u64")]);
  ("isInvalidQuerier", Plain "boolean");
  ("asInvalidQuerier", Fielded [("origin", "StagingXcmV5Location"); ("queryId", "u64"); ("expectedQuerier", "StagingXcmV5Location"); ("maybeActualQuerier", "Option<StagingXcmV5Location>")]);
  ("isVersionNotifyStarted", Plain "boolean");
  ("asVersionNotifyStarted", Fielded [("destination", "StagingXcmV5Location"); ("cost", "StagingXcmV5AssetAssets"); ("messageId", "U8aFixed")]);
  ("isVersionNotifyRequested", Plain "boolean");
  ("asVersionNotifyRequested", Fielded [("destination", "StagingXcmV5Location"); ("cost", "StagingXcmV5AssetAssets"); ("messageId", "U8aFixed")]);
  ("isVersionNotifyUnrequested", Plain "boolean");
  ("asVersionNotifyUnrequested", Fielded [("destination", "StagingXcmV5Location"); ("cost", "StagingXcmV5AssetAssets"); ("messageId", "U8aFixed")]);
  ("isFeesPaid", Plain "boolean");
  ("asFeesPaid", Fielded [("paying", "StagingXcmV5Location"); ("fees", "StagingXcmV5AssetAssets")]);
  ("isAssetsClaimed", Plain "boolean");
  ("asAssetsClaimed", Fielded [("hash_", "H256"); ("origin", "StagingXcmV5Location"); ("assets", "XcmVersionedAssets")]);
  ("isVersionMigrationFinished", Plain "boolean"); ("asVersionMigrationFinished", Fielded [("version", "u32")]);
  ("isAliasAuthorized", Plain "boolean");
  ("asAliasAuthorized", Fielded [("aliaser", "StagingXcmV5Location"); ("target", "StagingXcmV5Location"); ("expiry", "Option<u64>")]);
  ("isAliasAuthorizationRemoved", Plain "boolean");
  ("asAliasAuthorizationRemoved", Fielded [("aliaser", "StagingXcmV5Location"); ("target", "StagingXcmV5Location")]);
  ("isAliasesAuthorizationsRemoved", Plain "boolean");
  ("asAliasesAuthorizationsRemoved", Fielded [("target", "StagingXcmV5Location")]);
  ("type", Union ["Attempted"; "Sent"; "SendFailed"; "ProcessXcmError"; "UnexpectedResponse"; "ResponseReady"; "Notified"; "NotifyOverweight"; "NotifyDispatchError"; "NotifyDecodeFailed"; "InvalidResponder"; "InvalidResponderVersion"; "ResponseTaken"; "AssetsTrapped"; "VersionChangeNotified"; "SupportedVersionChanged"; "NotifyTargetSendFail"; "NotifyTargetMigrationFail"; "InvalidQuerierVersion"; "InvalidQuerier"; "VersionNotifyStarted"; "VersionNotifyRequested"; "VersionNotifyUnrequested"; "FeesPaid"; "AssetsClaimed"; "VersionMigrationFinished"; "AliasAuthorized"; "AliasAuthorizationRemoved"; "AliasesAuthorizationsRemoved"])]).

Definition PalletXcmHoldReason : interface :=
  ("Enum", [("isAuthorizeAlias", Plain "boolean"); ("type", Union ["AuthorizeAlias"])]).

Definition PalletXcmMaxAuthorizedAliases : interface :=
  ("Null", []).

Definition PalletXcmOrigin : interface :=
  ("Enum", [
  ("isXcm", Plain "boolean"); ("asXcm", Plain "StagingXcmV5Location"); ("isResponse", Plain "boolean");
  ("asResponse", Plain "StagingXcmV5Location"); ("type", Union ["Xcm"; "Response"])]).

Definition PalletXcmQueryStatus : interface :=
  ("Enum", [
  ("isPending", Plain "boolean");
  ("asPending", Fielded [("responder", "XcmVersionedLocation"); ("maybeMatchQuerier", "Option<XcmVersionedLocation>"); ("maybeNotify", "Option<ITuple<[u8, u8]>>"); ("timeout", "u32")]);
  ("isVersionNotifier", Plain "boolean");
  ("asVersionNotifier", Fielded [("origin", "XcmVersionedLocation"); ("isActive", "bool")]);
  ("isReady", Plain "boolean"); ("asReady", Fielded [("response", "XcmVersionedResponse"); ("at", "u32")]);
  ("type", Union ["Pending"; "VersionNotifier"; "Ready"])]).

Definition PalletXcmRemoteLockedFungibleRecord : interface :=
  ("Struct", [
  ("amount", Plain "u128"); ("owner", Plain "XcmVersionedLocation"); ("locker", Plain "XcmVersionedLocation");
  ("consumers", Plain "Vec<ITuple<[Null, u128]>>")]).

Definition PalletXcmVersionMigrationStage : interface :=
  ("Enum", [
  ("isMigrateSupportedVersion", Plain "boolean"); ("isMigrateVersionNotifiers", Plain "boolean");
  ("isNotifyCurrentTargets", Plain "boolean"); ("asNotifyCurrentTargets", Plain "Option<Bytes>");
  ("isMigrateAndNotifyOldTargets", Plain "boolean");
  ("type", Union ["MigrateSupportedVersion"; "MigrateVersionNotifiers"; "NotifyCurrentTargets"; "MigrateAndNotifyOldTargets"])]).

Definition PhantomTypeUpDataStructs : interface :=
  ("Vec<ITuple<[UpDataStructsTokenData, UpDataStructsRpcCollection, UpPovEstimateRpcPovInfo]>>", [
]).

Definition PolkadotCorePrimitivesInboundDownwardMessage : interface :=
  ("Struct", [("sentAt", Plain "u32"); ("msg", Plain "Bytes")]).

Definition PolkadotCorePrimitivesInboundHrmpMessage : interface :=
  ("Struct", [("sentAt", Plain "u32"); ("data", Plain "Bytes")]).

Definition PolkadotCorePrimitivesOutboundHrmpMessage : interface :=
  ("Struct", [("recipient", Plain "u32"); ("data", Plain "Bytes")]).

Definition PolkadotPrimitivesV8AbridgedHostConfiguration : interface :=
  ("Struct", [
  ("maxCodeSize", Plain "u32"); ("maxHeadDataSize", Plain "u32"); ("maxUpwardQueueCount", Plain "u32");
  ("maxUpwardQueueSize", Plain "u32"); ("maxUpwardMessageSize", Plain "u32");
  ("maxUpwardMessageNumPerCandidate", Plain "u32"); ("hrmpMaxMessageNumPerCandidate", Plain "u32");
  ("validationUpgradeCooldown", Plain "u32"); ("validationUpgradeDelay", Plain "u32");
  ("asyncBackingParams", Plain "PolkadotPrimitivesV8AsyncBackingAsyncBackingParams")]).

Definition PolkadotPrimitivesV8AbridgedHrmpChannel : interface :=
  ("Struct", [
  ("maxCapacity", Plain "u32"); ("maxTotalSize", Plain "u32"); ("maxMessageSize", Plain "u32");
  ("msgCount", Plain "u32"); ("totalSize", Plain "u32"); ("mqcHead", Plain "Option<H256>")]).

Definition PolkadotPrimitivesV8AsyncBackingAsyncBackingParams : interface :=
  ("Struct", [("maxCandidateDepth", Plain "u32"); ("allowedAncestryLen", Plain "u32")]).

Definition PolkadotPrimitivesV8PersistedValidationData : interface :=
  ("Struct", [
  ("parentHead", Plain "Bytes"); ("relayParentNumber", Plain "u32"); ("relayParentStorageRoot", Plain "H256");
  ("maxPovSize", Plain "u32")]).

Definition PolkadotPrimitivesV8UpgradeGoAhead : interface :=
  ("Enum", [
  ("isAbort", Plain "boolean"); ("isGoAhead", Plain "boolean"); ("type", Union ["Abort"; "GoAhead"])]).

Definition PolkadotPrimitivesV8UpgradeRestriction : interface :=
  ("Enum", [("isPresent", Plain "boolean"); ("type", Union ["Present"])]).

Definition SpArithmeticArithmeticError : interface :=
  ("Enum", [
  ("isUnderflow", Plain "boolean"); ("isOverflow", Plain "boolean"); ("isDivisionByZero", Plain "boolean");
  ("type", Union ["Underflow"; "Overflow"; "DivisionByZero"])]).

Definition SpConsensusAuraSr25519AppSr25519Public : interface :=
  ("U8aFixed", []).

Definition SpCoreCryptoKeyTypeId : interface :=
  ("U8aFixed", []).

Definition SpRuntimeBlakeTwo256 : interface :=
  ("Null", []).

Definition SpRuntimeDigest : interface :=
  ("Struct", [("logs", Plain "Vec<SpRuntimeDigestDigestItem>")]).

Definition SpRuntimeDigestDigestItem : interface :=
  ("Enum", [
  ("isOther", Plain "boolean"); ("asOther", Plain "Bytes"); ("isConsensus", Plain "boolean");
  ("asConsensus", Plain "ITuple<[U8aFixed, Bytes]>"); ("isSeal", Plain "boolean");
  ("asSeal", Plain "ITuple<[U8aFixed, Bytes]>"); ("isPreRuntime", Plain "boolean");
  ("asPreRuntime", Plain "ITuple<[U8aFixed, Bytes]>"); ("isRuntimeEnvironmentUpdated", Plain "boolean");
  ("type", Union ["Other"; "Consensus"; "Seal"; "PreRuntime"; "RuntimeEnvironmentUpdated"])]).

Definition SpRuntimeDispatchError : interface :=
  ("Enum", [
  ("isOther", Plain "boolean"); ("isCannotLookup", Plain "boolean"); ("isBadOrigin", Plain "boolean");
  ("isModule", Plain "boolean"); ("asModule", Plain "SpRuntimeModuleError");
  ("isConsumerRemaining", Plain "boolean"); ("isNoProviders", Plain "boolean");
  ("isTooManyConsumers", Plain "boolean"); ("isToken", Plain "boolean");
  ("asToken", Plain "SpRuntimeTokenError"); ("isArithmetic", Plain "boolean");
  ("asArithmetic", Plain "SpArithmeticArithmeticError"); ("isTransactional", Plain "boolean");
  ("asTransactional", Plain "SpRuntimeTransactionalError"); ("isExhausted", Plain "boolean");
  ("isCorruption", Plain "boolean"); ("isUnavailable", Plain "boolean"); ("isRootNotAllowed", Plain "boolean");
  ("isTrie", Plain "boolean"); ("asTrie", Plain "SpRuntimeProvingTrieTrieError");
  ("type", Union ["Other"; "CannotLookup"; "BadOrigin"; "Module"; "ConsumerRemaining"; "NoProviders"; "TooManyConsumers"; "Token"; "Arithmetic"; "Transactional"; "Exhausted"; "Corruption"; "Unavailable"; "RootNotAllowed"; "Trie"])]).

Definition SpRuntimeModuleError : interface :=
  ("Struct", [("index", Plain "u8"); ("error", Plain "U8aFixed")]).

Definition SpRuntimeMultiSignature : interface :=
  ("Enum", [
  ("isEd25519", Plain "boolean"); ("asEd25519", Plain "U8aFixed"); ("isSr25519", Plain "boolean");
  ("asSr25519", Plain "U8aFixed"); ("isEcdsa", Plain "boolean"); ("asEcdsa", Plain "U8aFixed");
  ("type", Union ["Ed25519"; "Sr25519"; "Ecdsa"])]).

Definition SpRuntimeProvingTrieTrieError : interface :=
  ("Enum", [
  ("isInvalidStateRoot", Plain "boolean"); ("isIncompleteDatabase", Plain "boolean");
  ("isValueAtIncompleteKey", Plain "boolean"); ("isDecoderError", Plain "boolean");
  ("isInvalidHash", Plain "boolean"); ("isDuplicateKey", Plain "boolean");
  ("isExtraneousNode", Plain "boolean"); ("isExtraneousValue", Plain "boolean");
  ("isExtraneousHashReference", Plain "boolean"); ("isInvalidChildReference", Plain "boolean");
  ("isValueMismatch", Plain "boolean"); ("isIncompleteProof", Plain "boolean");
  ("isRootMismatch", Plain "boolean"); ("isDecodeError", Plain "boolean");
  ("type", Union ["InvalidStateRoot"; "IncompleteDatabase"; "ValueAtIncompleteKey"; "DecoderError"; "InvalidHash"; "DuplicateKey"; "ExtraneousNode"; "ExtraneousValue"; "ExtraneousHashReference"; "InvalidChildReference"; "ValueMismatch"; "IncompleteProof"; "RootMismatch"; "DecodeError"])]).

Definition SpRuntimeTokenError : interface :=
  ("Enum", [
  ("isFundsUnavailable", Plain "boolean"); ("isOnlyProvider", Plain "boolean");
  ("isBelowMinimum", Plain "boolean"); ("isCannotCreate", Plain "boolean"); ("isUnknownAsset", Plain "boolean");
  ("isFrozen", Plain "boolean"); ("isUnsupported", Plain "boolean"); ("isCannotCreateHold", Plain "boolean");
  ("isNotExpendable", Plain "boolean"); ("isBlocked", Plain "boolean");
  ("type", Union ["FundsUnavailable"; "OnlyProvider"; "BelowMinimum"; "CannotCreate"; "UnknownAsset"; "Frozen"; "Unsupported"; "CannotCreateHold"; "NotExpendable"; "Blocked"])]).

Definition SpRuntimeTransactionalError : interface :=
  ("Enum", [
  ("isLimitReached", Plain "boolean"); ("isNoLayer", Plain "boolean");
  ("type", Union ["LimitReached"; "NoLayer"])]).

Definition SpRuntimeTransactionValidityInvalidTransaction : interface :=
  ("Enum", [
  ("isCall", Plain "boolean"); ("isPayment", Plain "boolean"); ("isFuture", Plain "boolean");
  ("isStale", Plain "boolean"); ("isBadProof", Plain "boolean"); ("isAncientBirthBlock", Plain "boolean");
  ("isExhaustsResources", Plain "boolean"); ("isCustom", Plain "boolean"); ("asCustom", Plain "u8");
  ("isBadMandatory", Plain "boolean"); ("isMandatoryValidation", Plain "boolean");
  ("isBadSigner", Plain "boolean"); ("isIndeterminateImplicit", Plain "boolean");
  ("isUnknownOrigin", Plain "boolean");
  ("type", Union ["Call"; "Payment"; "Future"; "Stale"; "BadProof"; "AncientBirthBlock"; "ExhaustsResources"; "Custom"; "BadMandatory"; "MandatoryValidation"; "BadSigner"; "IndeterminateImplicit"; "UnknownOrigin"])]).

Definition SpRuntimeTransactionValidityTransactionValidityError : interface :=
  ("Enum", [
  ("isInvalid", Plain "boolean"); ("asInvalid", Plain "SpRuntimeTransactionValidityInvalidTransaction");
  ("isUnknown", Plain "boolean"); ("asUnknown", Plain "SpRuntimeTransactionValidityUnknownTransaction");
  ("type", Union ["Invalid"; "Unknown"])]).

Definition SpRuntimeTransactionValidityUnknownTransaction : interface :=
  ("Enum", [
  ("isCannotLookup", Plain "boolean"); ("isNoUnsignedValidator", Plain "boolean");
  ("isCustom", Plain "boolean"); ("asCustom", Plain "u8");
  ("type", Union ["CannotLookup"; "NoUnsignedValidator"; "Custom"])]).

Definition SpTrieStorageProof : interface :=
  ("Struct", [("trieNodes", Plain "BTreeSet<Bytes>")]).

Definition SpVersionRuntimeVersion : interface :=
  ("Struct", [
  ("specName", Plain "Text"); ("implName", Plain "Text"); ("authoringVersion", Plain "u32");
  ("specVersion", Plain "u32"); ("implVersion", Plain "u32"); ("apis", Plain "Vec<ITuple<[U8aFixed, u32]>>");
  ("transactionVersion", Plain "u32"); ("systemVersion", Plain "u8")]).

Definition SpWeightsRuntimeDbWeight : interface :=
  ("Struct", [("read", Plain "u64"); ("write", Plain "u64")]).

Definition SpWeightsWeightV2Weight : interface :=
  ("Struct", [("refTime", Plain "Compact<u64>"); ("proofSize", Plain "Compact<u64>")]).

Definition StagingParachainInfoCall : interface :=
  ("Null", []).

Definition StagingXcmExecutorAssetTransferTransferType : interface :=
  ("Enum", [
  ("isTeleport", Plain "boolean"); ("isLocalReserve", Plain "boolean");
  ("isDestinationReserve", Plain "boolean"); ("isRemoteReserve", Plain "boolean");
  ("asRemoteReserve", Plain "XcmVersionedLocation");
  ("type", Union ["Teleport"; "LocalReserve"; "DestinationReserve"; "RemoteReserve"])]).

Definition StagingXcmV3MultiLocation : interface :=
  ("Struct", [("parents", Plain "u8"); ("interior", Plain "XcmV3Junctions")]).

Definition StagingXcmV4Asset : interface :=
  ("Struct", [
  ("id", Plain "StagingXcmV4AssetAssetId"); ("fun", Plain "StagingXcmV4AssetFungibility")]).

Definition StagingXcmV4AssetAssetFilter : interface :=
  ("Enum", [
  ("isDefinite", Plain "boolean"); ("asDefinite", Plain "StagingXcmV4AssetAssets"); ("isWild", Plain "boolean");
  ("asWild", Plain "StagingXcmV4AssetWildAsset"); ("type", Union ["Definite"; "Wild"])]).

Definition StagingXcmV4AssetAssetId : interface :=
  ("StagingXcmV4Location", []).

Definition StagingXcmV4AssetAssetInstance : interface :=
  ("Enum", [
  ("isUndefined", Plain "boolean"); ("isIndex", Plain "boolean"); ("asIndex", Plain "Compact<u128>");
  ("isArray4", Plain "boolean"); ("asArray4", Plain "U8aFixed"); ("isArray8", Plain "boolean");
  ("asArray8", Plain "U8aFixed"); ("isArray16", Plain "boolean"); ("asArray16", Plain "U8aFixed");
  ("isArray32", Plain "boolean"); ("asArray32", Plain "U8aFixed");
  ("type", Union ["Undefined"; "Index"; "Array4"; "Array8"; "Array16"; "Array32"])]).

Definition StagingXcmV4AssetAssets : interface :=
  ("Vec<StagingXcmV4Asset>", []).

Definition StagingXcmV4AssetFungibility : interface :=
  ("Enum", [
  ("isFungible", Plain "boolean"); ("asFungible", Plain "Compact<u128>"); ("isNonFungible", Plain "boolean");
  ("asNonFungible", Plain "StagingXcmV4AssetAssetInstance"); ("type", Union ["Fungible"; "NonFungible"])]).

Definition StagingXcmV4AssetWildAsset : interface :=
  ("Enum", [
  ("isAll", Plain "boolean"); ("isAllOf", Plain "boolean");
  ("asAllOf", Fielded [("id", "StagingXcmV4AssetAssetId"); ("fun", "StagingXcmV4AssetWildFungibility")]);
  ("isAllCounted", Plain "boolean"); ("asAllCounted", Plain "Compact<u32>");
  ("isAllOfCounted", Plain "boolean");
  ("asAllOfCounted", Fielded [("id", "StagingXcmV4AssetAssetId"); ("fun", "StagingXcmV4AssetWildFungibility"); ("count", "Compact<u32>")]);
  ("type", Union ["All"; "AllOf"; "AllCounted"; "AllOfCounted"])]).

Definition StagingXcmV4AssetWildFungibility : interface :=
  ("Enum", [
  ("isFungible", Plain "boolean"); ("isNonFungible", Plain "boolean");
  ("type", Union ["Fungible"; "NonFungible"])]).

Definition StagingXcmV4Instruction : interface :=
  ("Enum", [
  ("isWithdrawAsset", Plain "boolean"); ("asWithdrawAsset", Plain "StagingXcmV4AssetAssets");
  ("isReserveAssetDeposited", Plain "boolean"); ("asReserveAssetDeposited", Plain "StagingXcmV4AssetAssets");
  ("isReceiveTeleportedAsset", Plain "boolean"); ("asReceiveTeleportedAsset", Plain "StagingXcmV4AssetAssets");
  ("isQueryResponse", Plain "boolean");
  ("asQueryResponse", Fielded [("queryId", "Compact<u64>"); ("response", "StagingXcmV4Response"); ("maxWeight", "SpWeightsWeightV2Weight"); ("querier", "Option<StagingXcmV4Location>")]);
  ("isTransferAsset", Plain "boolean");
  ("asTransferAsset", Fielded [("assets", "StagingXcmV4AssetAssets"); ("beneficiary", "StagingXcmV4Location")]);
  ("isTransferReserveAsset", Plain "boolean");
  ("asTransferReserveAsset", Fielded [("assets", "StagingXcmV4AssetAssets"); ("dest", "StagingXcmV4Location"); ("xcm", "StagingXcmV4Xcm")]);
  ("isTransact", Plain "boolean");
  ("asTransact", Fielded [("originKind", "XcmV3OriginKind"); ("requireWeightAtMost", "SpWeightsWeightV2Weight"); ("call", "XcmDoubleEncoded")]);
  ("isHrmpNewChannelOpenRequest", Plain "boolean");
  ("asHrmpNewChannelOpenRequest", Fielded [("sender", "Compact<u32>"); ("maxMessageSize", "Compact<u32>"); ("maxCapacity", "Compact<u32>")]);
  ("isHrmpChannelAccepted", Plain "boolean");
  ("asHrmpChannelAccepted", Fielded [("recipient", "Compact<u32>")]); ("isHrmpChannelClosing", Plain "boolean");
  ("asHrmpChannelClosing", Fielded [("initiator", "Compact<u32>"); ("sender", "Compact<u32>"); ("recipient", "Compact<u32>")]);
  ("isClearOrigin", Plain "boolean"); ("isDescendOrigin", Plain "boolean");
  ("asDescendOrigin", Plain "StagingXcmV4Junctions"); ("isReportError", Plain "boolean");
  ("asReportError", Plain "StagingXcmV4QueryResponseInfo"); ("isDepositAsset", Plain "boolean");
  ("asDepositAsset", Fielded [("assets", "StagingXcmV4AssetAssetFilter"); ("beneficiary", "StagingXcmV4Location")]);
  ("isDepositReserveAsset", Plain "boolean");
  ("asDepositReserveAsset", Fielded [("assets", "StagingXcmV4AssetAssetFilter"); ("dest", "StagingXcmV4Location"); ("xcm", "StagingXcmV4Xcm")]);
  ("isExchangeAsset", Plain "boolean");
  ("asExchangeAsset", Fielded [("give", "StagingXcmV4AssetAssetFilter"); ("want", "StagingXcmV4AssetAssets"); ("maximal", "bool")]);
  ("isInitiateReserveWithdraw", Plain "boolean");
  ("asInitiateReserveWithdraw", Fielded [("assets", "StagingXcmV4AssetAssetFilter"); ("reserve", "StagingXcmV4Location"); ("xcm", "StagingXcmV4Xcm")]);
  ("isInitiateTeleport", Plain "boolean");
  ("asInitiateTeleport", Fielded [("assets", "StagingXcmV4AssetAssetFilter"); ("dest", "StagingXcmV4Location"); ("xcm", "StagingXcmV4Xcm")]);
  ("isReportHolding", Plain "boolean");
  ("asReportHolding", Fielded [("responseInfo", "StagingXcmV4QueryResponseInfo"); ("assets", "StagingXcmV4AssetAssetFilter")]);
  ("isBuyExecution", Plain "boolean");
  ("asBuyExecution", Fielded [("fees", "StagingXcmV4Asset"); ("weightLimit", "XcmV3WeightLimit")]);
  ("isRefundSurplus", Plain "boolean"); ("isSetErrorHandler", Plain "boolean");
  ("asSetErrorHandler", Plain "StagingXcmV4Xcm"); ("isSetAppendix", Plain "boolean");
  ("asSetAppendix", Plain "StagingXcmV4Xcm"); ("isClearError", Plain "boolean");
  ("isClaimAsset", Plain "boolean");
  ("asClaimAsset", Fielded [("assets", "StagingXcmV4AssetAssets"); ("ticket", "StagingXcmV4Location")]);
  ("isTrap", Plain "boolean"); ("asTrap", Plain "Compact<u64>"); ("isSubscribeVersion", Plain "boolean");
  ("asSubscribeVersion", Fielded [("queryId", "Compact<u64>"); ("maxResponseWeight", "SpWeightsWeightV2Weight")]);
  ("isUnsubscribeVersion", Plain "boolean"); ("isBurnAsset", Plain "boolean");
  ("asBurnAsset", Plain "StagingXcmV4AssetAssets"); ("isExpectAsset", Plain "boolean");
  ("asExpectAsset", Plain "StagingXcmV4AssetAssets"); ("isExpectOrigin", Plain "boolean");
  ("asExpectOrigin", Plain "Option<StagingXcmV4Location>"); ("isExpectError", Plain "boolean");
  ("asExpectError", Plain "Option<ITuple<[u32, XcmV3TraitsError]>>");
  ("isExpectTransactStatus", Plain "boolean"); ("asExpectTransactStatus", Plain "XcmV3MaybeErrorCode");
  ("isQueryPallet", Plain "boolean");
  ("asQueryPallet", Fielded [("moduleName", "Bytes"); ("responseInfo", "StagingXcmV4QueryResponseInfo")]);
  ("isExpectPallet", Plain "boolean");
  ("asExpectPallet", Fielded [("index", "Compact<u32>"); ("name", "Bytes"); ("moduleName", "Bytes"); ("crateMajor", "Compact<u32>"); ("minCrateMinor", "Compact<u32>")]);
  ("isReportTransactStatus", Plain "boolean");
  ("asReportTransactStatus", Plain "StagingXcmV4QueryResponseInfo"); ("isClearTransactStatus", Plain "boolean");
  ("isUniversalOrigin", Plain "boolean"); ("asUniversalOrigin", Plain "StagingXcmV4Junction");
  ("isExportMessage", Plain "boolean");
  ("asExportMessage", Fielded [("network", "StagingXcmV4JunctionNetworkId"); ("destination", "StagingXcmV4Junctions"); ("xcm", "StagingXcmV4Xcm")]);
  ("isLockAsset", Plain "boolean");
  ("asLockAsset", Fielded [("asset", "StagingXcmV4Asset"); ("unlocker", "StagingXcmV4Location")]);
  ("isUnlockAsset", Plain "boolean");
  ("asUnlockAsset", Fielded [("asset", "StagingXcmV4Asset"); ("target", "StagingXcmV4Location")]);
  ("isNoteUnlockable", Plain "boolean");
  ("asNoteUnlockable", Fielded [("asset", "StagingXcmV4Asset"); ("owner", "StagingXcmV4Location")]);
  ("isRequestUnlock", Plain "boolean");
  ("asRequestUnlock", Fielded [("asset", "StagingXcmV4Asset"); ("locker", "StagingXcmV4Location")]);
  ("isSetFeesMode", Plain "boolean"); ("asSetFeesMode", Fielded [("jitWithdraw", "bool")]);
  ("isSetTopic", Plain "boolean"); ("asSetTopic", Plain "U8aFixed"); ("isClearTopic", Plain "boolean");
  ("isAliasOrigin", Plain "boolean"); ("asAliasOrigin", Plain "StagingXcmV4Location");
  ("isUnpaidExecution", Plain "boolean");
  ("asUnpaidExecution", Fielded [("weightLimit", "XcmV3WeightLimit"); ("checkOrigin", "Option<StagingXcmV4Location>")]);
  ("type", Union ["WithdrawAsset"; "ReserveAssetDeposited"; "ReceiveTeleportedAsset"; "QueryResponse"; "TransferAsset"; "TransferReserveAsset"; "Transact"; "HrmpNewChannelOpenRequest"; "HrmpChannelAccepted"; "HrmpChannelClosing"; "ClearOrigin"; "DescendOrigin"; "ReportError"; "DepositAsset"; "DepositReserveAsset"; "ExchangeAsset"; "InitiateReserveWithdraw"; "InitiateTeleport"; "ReportHolding"; "BuyExecution"; "RefundSurplus"; "SetErrorHandler"; "SetAppendix"; "ClearError"; "ClaimAsset"; "Trap"; "SubscribeVersion"; "UnsubscribeVersion"; "BurnAsset"; "ExpectAsset"; "ExpectOrigin"; "ExpectError"; "ExpectTransactStatus"; "QueryPallet"; "ExpectPallet"; "ReportTransactStatus"; "ClearTransactStatus"; "UniversalOrigin"; "ExportMessage"; "LockAsset"; "UnlockAsset"; "NoteUnlockable"; "RequestUnlock"; "SetFeesMode"; "SetTopic"; "ClearTopic"; "AliasOrigin"; "UnpaidExecution"])]).

Definition StagingXcmV4Junction : interface :=
  ("Enum", [
  ("isParachain", Plain "boolean"); ("asParachain", Plain "Compact<u32>"); ("isAccountId32", Plain "boolean");
  ("asAccountId32", Fielded [("network", "Option<StagingXcmV4JunctionNetworkId>"); ("id", "U8aFixed")]);
  ("isAccountIndex64", Plain "boolean");
  ("asAccountIndex64", Fielded [("network", "Option<StagingXcmV4JunctionNetworkId>"); ("index", "Compact<u64>")]);
  ("isAccountKey20", Plain "boolean");
  ("asAccountKey20", Fielded [("network", "Option<StagingXcmV4JunctionNetworkId>"); ("key", "U8aFixed")]);
  ("isPalletInstance", Plain "boolean"); ("asPalletInstance", Plain "u8"); ("isGeneralIndex", Plain "boolean");
  ("asGeneralIndex", Plain "Compact<u128>"); ("isGeneralKey", Plain "boolean");
  ("asGeneralKey", Fielded [("length", "u8"); ("data", "U8aFixed")]); ("isOnlyChild", Plain "boolean");
  ("isPlurality", Plain "boolean");
  ("asPlurality", Fielded [("id", "XcmV3JunctionBodyId"); ("part", "XcmV3JunctionBodyPart")]);
  ("isGlobalConsensus", Plain "boolean"); ("asGlobalConsensus", Plain "StagingXcmV4JunctionNetworkId");
  ("type", Union ["Parachain"; "AccountId32"; "AccountIndex64"; "AccountKey20"; "PalletInstance"; "GeneralIndex"; "GeneralKey"; "OnlyChild"; "Plurality"; "GlobalConsensus"])]).

Definition StagingXcmV4JunctionNetworkId : interface :=
  ("Enum", [
  ("isByGenesis", Plain "boolean"); ("asByGenesis", Plain "U8aFixed"); ("isByFork", Plain "boolean");
  ("asByFork", Fielded [("blockNumber", "u64"); ("blockHash", "U8aFixed")]); ("isPolkadot", Plain "boolean");
  ("isKusama", Plain "boolean"); ("isWestend", Plain "boolean"); ("isRococo", Plain "boolean");
  ("isWococo", Plain "boolean"); ("isEthereum", Plain "boolean");
  ("asEthereum", Fielded [("chainId", "Compact<u64>")]); ("isBitcoinCore", Plain "boolean");
  ("isBitcoinCash", Plain "boolean"); ("isPolkadotBulletin", Plain "boolean");
  ("type", Union ["ByGenesis"; "ByFork"; "Polkadot"; "Kusama"; "Westend"; "Rococo"; "Wococo"; "Ethereum"; "BitcoinCore"; "BitcoinCash"; "PolkadotBulletin"])]).

Definition StagingXcmV4Junctions : interface :=
  ("Enum", [
  ("isHere", Plain "boolean"); ("isX1", Plain "boolean"); ("asX1", Plain "Vec<StagingXcmV4Junction>");
  ("isX2", Plain "boolean"); ("asX2", Plain "Vec<StagingXcmV4Junction>"); ("isX3", Plain "boolean");
  ("asX3", Plain "Vec<StagingXcmV4Junction>"); ("isX4", Plain "boolean");
  ("asX4", Plain "Vec<StagingXcmV4Junction>"); ("isX5", Plain "boolean");
  ("asX5", Plain "Vec<StagingXcmV4Junction>"); ("isX6", Plain "boolean");
  ("asX6", Plain "Vec<StagingXcmV4Junction>"); ("isX7", Plain "boolean");
  ("asX7", Plain "Vec<StagingXcmV4Junction>"); ("isX8", Plain "boolean");
  ("asX8", Plain "Vec<StagingXcmV4Junction>");
  ("type", Union ["Here"; "X1"; "X2"; "X3"; "X4"; "X5"; "X6"; "X7"; "X8"])]).

Definition StagingXcmV4Location : interface :=
  ("Struct", [("parents", Plain "u8"); ("interior", Plain "StagingXcmV4Junctions")]).

Definition StagingXcmV4PalletInfo : interface :=
  ("Struct", [
  ("index", Plain "Compact<u32>"); ("name", Plain "Bytes"); ("moduleName", Plain "Bytes");
  ("major", Plain "Compact<u32>"); ("minor", Plain "Compact<u32>"); ("patch", Plain "Compact<u32>")]).

Definition StagingXcmV4QueryResponseInfo : interface :=
  ("Struct", [
  ("destination", Plain "StagingXcmV4Location"); ("queryId", Plain "Compact<u64>");
  ("maxWeight", Plain "SpWeightsWeightV2Weight")]).

Definition StagingXcmV4Response : interface :=
  ("Enum", [
  ("isNull", Plain "boolean"); ("isAssets", Plain "boolean"); ("asAssets", Plain "StagingXcmV4AssetAssets");
  ("isExecutionResult", Plain "boolean");
  ("asExecutionResult", Plain "Option<ITuple<[u32, XcmV3TraitsError]>>"); ("isVersion", Plain "boolean");
  ("asVersion", Plain "u32"); ("isPalletsInfo", Plain "boolean");
  ("asPalletsInfo", Plain "Vec<StagingXcmV4PalletInfo>"); ("isDispatchResult", Plain "boolean");
  ("asDispatchResult", Plain "XcmV3MaybeErrorCode");
  ("type", Union ["Null"; "Assets"; "ExecutionResult"; "Version"; "PalletsInfo"; "DispatchResult"])]).

Definition StagingXcmV4Xcm : interface :=
  ("Vec<StagingXcmV4Instruction>", []).

Definition StagingXcmV5Asset : interface :=
  ("Struct", [
  ("id", Plain "StagingXcmV5AssetAssetId"); ("fun", Plain "StagingXcmV5AssetFungibility")]).

Definition StagingXcmV5AssetAssetFilter : interface :=
  ("Enum", [
  ("isDefinite", Plain "boolean"); ("asDefinite", Plain "StagingXcmV5AssetAssets"); ("isWild", Plain "boolean");
  ("asWild", Plain "StagingXcmV5AssetWildAsset"); ("type", Union ["Definite"; "Wild"])]).

Definition StagingXcmV5AssetAssetId : interface :=
  ("StagingXcmV5Location", []).

Definition StagingXcmV5AssetAssetInstance : interface :=
  ("Enum", [
  ("isUndefined", Plain "boolean"); ("isIndex", Plain "boolean"); ("asIndex", Plain "Compact<u128>");
  ("isArray4", Plain "boolean"); ("asArray4", Plain "U8aFixed"); ("isArray8", Plain "boolean");
  ("asArray8", Plain "U8aFixed"); ("isArray16", Plain "boolean"); ("asArray16", Plain "U8aFixed");
  ("isArray32", Plain "boolean"); ("asArray32", Plain "U8aFixed");
  ("type", Union ["Undefined"; "Index"; "Array4"; "Array8"; "Array16"; "Array32"])]).

Definition StagingXcmV5AssetAssets : interface :=
  ("Vec<StagingXcmV5Asset>", []).

Definition StagingXcmV5AssetAssetTransferFilter : interface :=
  ("Enum", [
  ("isTeleport", Plain "boolean"); ("asTeleport", Plain "StagingXcmV5AssetAssetFilter");
  ("isReserveDeposit", Plain "boolean"); ("asReserveDeposit", Plain "StagingXcmV5AssetAssetFilter");
  ("isReserveWithdraw", Plain "boolean"); ("asReserveWithdraw", Plain "StagingXcmV5AssetAssetFilter");
  ("type", Union ["Teleport"; "ReserveDeposit"; "ReserveWithdraw"])]).

Definition StagingXcmV5AssetFungibility : interface :=
  ("Enum", [
  ("isFungible", Plain "boolean"); ("asFungible", Plain "Compact<u128>"); ("isNonFungible", Plain "boolean");
  ("asNonFungible", Plain "StagingXcmV5AssetAssetInstance"); ("type", Union ["Fungible"; "NonFungible"])]).

Definition StagingXcmV5AssetWildAsset : interface :=
  ("Enum", [
  ("isAll", Plain "boolean"); ("isAllOf", Plain "boolean");
  ("asAllOf", Fielded [("id", "StagingXcmV5AssetAssetId"); ("fun", "StagingXcmV5AssetWildFungibility")]);
  ("isAllCounted", Plain "boolean"); ("asAllCounted", Plain "Compact<u32>");
  ("isAllOfCounted", Plain "boolean");
  ("asAllOfCounted", Fielded [("id", "StagingXcmV5AssetAssetId"); ("fun", "StagingXcmV5AssetWildFungibility"); ("count", "Compact<u32>")]);
  ("type", Union ["All"; "AllOf"; "AllCounted"; "AllOfCounted"])]).

Definition StagingXcmV5AssetWildFungibility : interface :=
  ("Enum", [
  ("isFungible", Plain "boolean"); ("isNonFungible", Plain "boolean");
  ("type", Union ["Fungible"; "NonFungible"])]).

Definition StagingXcmV5Hint : interface :=
  ("Enum", [
  ("isAssetClaimer", Plain "boolean"); ("asAssetClaimer", Fielded [("location", "StagingXcmV5Location")]);
  ("type", Union ["AssetClaimer"])]).

Definition StagingXcmV5Instruction : interface :=
  ("Enum", [
  ("isWithdrawAsset", Plain "boolean"); ("asWithdrawAsset", Plain "StagingXcmV5AssetAssets");
  ("isReserveAssetDeposited", Plain "boolean"); ("asReserveAssetDeposited", Plain "StagingXcmV5AssetAssets");
  ("isReceiveTeleportedAsset", Plain "boolean"); ("asReceiveTeleportedAsset", Plain "StagingXcmV5AssetAssets");
  ("isQueryResponse", Plain "boolean");
  ("asQueryResponse", Fielded [("queryId", "Compact<u64>"); ("response", "StagingXcmV5Response"); ("maxWeight", "SpWeightsWeightV2Weight"); ("querier", "Option<StagingXcmV5Location>")]);
  ("isTransferAsset", Plain "boolean");
  ("asTransferAsset", Fielded [("assets", "StagingXcmV5AssetAssets"); ("beneficiary", "StagingXcmV5Location")]);
  ("isTransferReserveAsset", Plain "boolean");
  ("asTransferReserveAsset", Fielded [("assets", "StagingXcmV5AssetAssets"); ("dest", "StagingXcmV5Location"); ("xcm", "StagingXcmV5Xcm")]);
  ("isTransact", Plain "boolean");
  ("asTransact", Fielded [("originKind", "XcmV3OriginKind"); ("fallbackMaxWeight", "Option<SpWeightsWeightV2Weight>"); ("call", "XcmDoubleEncoded")]);
  ("isHrmpNewChannelOpenRequest", Plain "boolean");
  ("asHrmpNewChannelOpenRequest", Fielded [("sender", "Compact<u32>"); ("maxMessageSize", "Compact<u32>"); ("maxCapacity", "Compact<u32>")]);
  ("isHrmpChannelAccepted", Plain "boolean");
  ("asHrmpChannelAccepted", Fielded [("recipient", "Compact<u32>")]); ("isHrmpChannelClosing", Plain "boolean");
  ("asHrmpChannelClosing", Fielded [("initiator", "Compact<u32>"); ("sender", "Compact<u32>"); ("recipient", "Compact<u32>")]);
  ("isClearOrigin", Plain "boolean"); ("isDescendOrigin", Plain "boolean");
  ("asDescendOrigin", Plain "StagingXcmV5Junctions"); ("isReportError", Plain "boolean");
  ("asReportError", Plain "StagingXcmV5QueryResponseInfo"); ("isDepositAsset", Plain "boolean");
  ("asDepositAsset", Fielded [("assets", "StagingXcmV5AssetAssetFilter"); ("beneficiary", "StagingXcmV5Location")]);
  ("isDepositReserveAsset", Plain "boolean");
  ("asDepositReserveAsset", Fielded [("assets", "StagingXcmV5AssetAssetFilter"); ("dest", "StagingXcmV5Location"); ("xcm", "StagingXcmV5Xcm")]);
  ("isExchangeAsset", Plain "boolean");
  ("asExchangeAsset", Fielded [("give", "StagingXcmV5AssetAssetFilter"); ("want", "StagingXcmV5AssetAssets"); ("maximal", "bool")]);
  ("isInitiateReserveWithdraw", Plain "boolean");
  ("asInitiateReserveWithdraw", Fielded [("assets", "StagingXcmV5AssetAssetFilter"); ("reserve", "StagingXcmV5Location"); ("xcm", "StagingXcmV5Xcm")]);
  ("isInitiateTeleport", Plain "boolean");
  ("asInitiateTeleport", Fielded [("assets", "StagingXcmV5AssetAssetFilter"); ("dest", "StagingXcmV5Location"); ("xcm", "StagingXcmV5Xcm")]);
  ("isReportHolding", Plain "boolean");
  ("asReportHolding", Fielded [("responseInfo", "StagingXcmV5QueryResponseInfo"); ("assets", "StagingXcmV5AssetAssetFilter")]);
  ("isBuyExecution", Plain "boolean");
  ("asBuyExecution", Fielded [("fees", "StagingXcmV5Asset"); ("weightLimit", "XcmV3WeightLimit")]);
  ("isRefundSurplus", Plain "boolean"); ("isSetErrorHandler", Plain "boolean");
  ("asSetErrorHandler", Plain "StagingXcmV5Xcm"); ("isSetAppendix", Plain "boolean");
  ("asSetAppendix", Plain "StagingXcmV5Xcm"); ("isClearError", Plain "boolean");
  ("isClaimAsset", Plain "boolean");
  ("asClaimAsset", Fielded [("assets", "StagingXcmV5AssetAssets"); ("ticket", "StagingXcmV5Location")]);
  ("isTrap", Plain "boolean"); ("asTrap", Plain "Compact<u64>"); ("isSubscribeVersion", Plain "boolean");
  ("asSubscribeVersion", Fielded [("queryId", "Compact<u64>"); ("maxResponseWeight", "SpWeightsWeightV2Weight")]);
  ("isUnsubscribeVersion", Plain "boolean"); ("isBurnAsset", Plain "boolean");
  ("asBurnAsset", Plain "StagingXcmV5AssetAssets"); ("isExpectAsset", Plain "boolean");
  ("asExpectAsset", Plain "StagingXcmV5AssetAssets"); ("isExpectOrigin", Plain "boolean");
  ("asExpectOrigin", Plain "Option<StagingXcmV5Location>"); ("isExpectError", Plain "boolean");
  ("asExpectError", Plain "Option<ITuple<[u32, XcmV5TraitsError]>>");
  ("isExpectTransactStatus", Plain "boolean"); ("asExpectTransactStatus", Plain "XcmV3MaybeErrorCode");
  ("isQueryPallet", Plain "boolean");
  ("asQueryPallet", Fielded [("moduleName", "Bytes"); ("responseInfo", "StagingXcmV5QueryResponseInfo")]);
  ("isExpectPallet", Plain "boolean");
  ("asExpectPallet", Fielded [("index", "Compact<u32>"); ("name", "Bytes"); ("moduleName", "Bytes"); ("crateMajor", "Compact<u32>"); ("minCrateMinor", "Compact<u32>")]);
  ("isReportTransactStatus", Plain "boolean");
  ("asReportTransactStatus", Plain "StagingXcmV5QueryResponseInfo"); ("isClearTransactStatus", Plain "boolean");
  ("isUniversalOrigin", Plain "boolean"); ("asUniversalOrigin", Plain "StagingXcmV5Junction");
  ("isExportMessage", Plain "boolean");
  ("asExportMessage", Fielded [("network", "StagingXcmV5JunctionNetworkId"); ("destination", "StagingXcmV5Junctions"); ("xcm", "StagingXcmV5Xcm")]);
  ("isLockAsset", Plain "boolean");
  ("asLockAsset", Fielded [("asset", "StagingXcmV5Asset"); ("unlocker", "StagingXcmV5Location")]);
  ("isUnlockAsset", Plain "boolean");
  ("asUnlockAsset", Fielded [("asset", "StagingXcmV5Asset"); ("target", "StagingXcmV5Location")]);
  ("isNoteUnlockable", Plain "boolean");
  ("asNoteUnlockable", Fielded [("asset", "StagingXcmV5Asset"); ("owner", "StagingXcmV5Location")]);
  ("isRequestUnlock", Plain "boolean");
  ("asRequestUnlock", Fielded [("asset", "StagingXcmV5Asset"); ("locker", "StagingXcmV5Location")]);
  ("isSetFeesMode", Plain "boolean"); ("asSetFeesMode", Fielded [("jitWithdraw", "bool")]);
  ("isSetTopic", Plain "boolean"); ("asSetTopic", Plain "U8aFixed"); ("isClearTopic", Plain "boolean");
  ("isAliasOrigin", Plain "boolean"); ("asAliasOrigin", Plain "StagingXcmV5Location");
  ("isUnpaidExecution", Plain "boolean");
  ("asUnpaidExecution", Fielded [("weightLimit", "XcmV3WeightLimit"); ("checkOrigin", "Option<StagingXcmV5Location>")]);
  ("isPayFees", Plain "boolean"); ("asPayFees", Fielded [("asset", "StagingXcmV5Asset")]);
  ("isInitiateTransfer", Plain "boolean");
  ("asInitiateTransfer", Fielded [("destination", "StagingXcmV5Location"); ("remoteFees", "Option<StagingXcmV5AssetAssetTransferFilter>"); ("preserveOrigin", "bool"); ("assets", "Vec<StagingXcmV5AssetAssetTransferFilter>"); ("remoteXcm", "StagingXcmV5Xcm")]);
  ("isExecuteWithOrigin", Plain "boolean");
  ("asExecuteWithOrigin", Fielded [("descendantOrigin", "Option<StagingXcmV5Junctions>"); ("xcm", "StagingXcmV5Xcm")]);
  ("isSetHints", Plain "boolean"); ("asSetHints", Fielded [("hints", "Vec<StagingXcmV5Hint>")]);
  ("type", Union ["WithdrawAsset"; "ReserveAssetDeposited"; "ReceiveTeleportedAsset"; "QueryResponse"; "TransferAsset"; "TransferReserveAsset"; "Transact"; "HrmpNewChannelOpenRequest"; "HrmpChannelAccepted"; "HrmpChannelClosing"; "ClearOrigin"; "DescendOrigin"; "ReportError"; "DepositAsset"; "DepositReserveAsset"; "ExchangeAsset"; "InitiateReserveWithdraw"; "InitiateTeleport"; "ReportHolding"; "BuyExecution"; "RefundSurplus"; "SetErrorHandler"; "SetAppendix"; "ClearError"; "ClaimAsset"; "Trap"; "SubscribeVersion"; "UnsubscribeVersion"; "BurnAsset"; "ExpectAsset"; "ExpectOrigin"; "ExpectError"; "ExpectTransactStatus"; "QueryPallet"; "ExpectPallet"; "ReportTransactStatus"; "ClearTransactStatus"; "UniversalOrigin"; "ExportMessage"; "LockAsset"; "UnlockAsset"; "NoteUnlockable"; "RequestUnlock"; "SetFeesMode"; "SetTopic"; "ClearTopic"; "AliasOrigin"; "UnpaidExecution"; "PayFees"; "InitiateTransfer"; "ExecuteWithOrigin"; "SetHints"])]).

Definition StagingXcmV5Junction : interface :=
  ("Enum", [
  ("isParachain", Plain "boolean"); ("asParachain", Plain "Compact<u32>"); ("isAccountId32", Plain "boolean");
  ("asAccountId32", Fielded [("network", "Option<StagingXcmV5JunctionNetworkId>"); ("id", "U8aFixed")]);
  ("isAccountIndex64", Plain "boolean");
  ("asAccountIndex64", Fielded [("network", "Option<StagingXcmV5JunctionNetworkId>"); ("index", "Compact<u64>")]);
  ("isAccountKey20", Plain "boolean");
  ("asAccountKey20", Fielded [("network", "Option<StagingXcmV5JunctionNetworkId>"); ("key", "U8aFixed")]);
  ("isPalletInstance", Plain "boolean"); ("asPalletInstance", Plain "u8"); ("isGeneralIndex", Plain "boolean");
  ("asGeneralIndex", Plain "Compact<u128>"); ("isGeneralKey", Plain "boolean");
  ("asGeneralKey", Fielded [("length", "u8"); ("data", "U8aFixed")]); ("isOnlyChild", Plain "boolean");
  ("isPlurality", Plain "boolean");
  ("asPlurality", Fielded [("id", "XcmV3JunctionBodyId"); ("part", "XcmV3JunctionBodyPart")]);
  ("isGlobalConsensus", Plain "boolean"); ("asGlobalConsensus", Plain "StagingXcmV5JunctionNetworkId");
  ("type", Union ["Parachain"; "AccountId32"; "AccountIndex64"; "AccountKey20"; "PalletInstance"; "GeneralIndex"; "GeneralKey"; "OnlyChild"; "Plurality"; "GlobalConsensus"])]).

Definition StagingXcmV5JunctionNetworkId : interface :=
  ("Enum", [
  ("isByGenesis", Plain "boolean"); ("asByGenesis", Plain "U8aFixed"); ("isByFork", Plain "boolean");
  ("asByFork", Fielded [("blockNumber", "u64"); ("blockHash", "U8aFixed")]); ("isPolkadot", Plain "boolean");
  ("isKusama", Plain "boolean"); ("isEthereum", Plain "boolean");
  ("asEthereum", Fielded [("chainId", "Compact<u64>")]); ("isBitcoinCore", Plain "boolean");
  ("isBitcoinCash", Plain "boolean"); ("isPolkadotBulletin", Plain "boolean");
  ("type", Union ["ByGenesis"; "ByFork"; "Polkadot"; "Kusama"; "Ethereum"; "BitcoinCore"; "BitcoinCash"; "PolkadotBulletin"])]).

Definition StagingXcmV5Junctions : interface :=
  ("Enum", [
  ("isHere", Plain "boolean"); ("isX1", Plain "boolean"); ("asX1", Plain "Vec<StagingXcmV5Junction>");
  ("isX2", Plain "boolean"); ("asX2", Plain "Vec<StagingXcmV5Junction>"); ("isX3", Plain "boolean");
  ("asX3", Plain "Vec<StagingXcmV5Junction>"); ("isX4", Plain "boolean");
  ("asX4", Plain "Vec<StagingXcmV5Junction>"); ("isX5", Plain "boolean");
  ("asX5", Plain "Vec<StagingXcmV5Junction>"); ("isX6", Plain "boolean");
  ("asX6", Plain "Vec<StagingXcmV5Junction>"); ("isX7", Plain "boolean");
  ("asX7", Plain "Vec<StagingXcmV5Junction>"); ("isX8", Plain "boolean");
  ("asX8", Plain "Vec<StagingXcmV5Junction>");
  ("type", Union ["Here"; "X1"; "X2"; "X3"; "X4"; "X5"; "X6"; "X7"; "X8"])]).

Definition StagingXcmV5Location : interface :=
  ("Struct", [("parents", Plain "u8"); ("interior", Plain "StagingXcmV5Junctions")]).

Definition StagingXcmV5PalletInfo : interface :=
  ("Struct", [
  ("index", Plain "Compact<u32>"); ("name", Plain "Bytes"); ("moduleName", Plain "Bytes");
  ("major", Plain "Compact<u32>"); ("minor", Plain "Compact<u32>"); ("patch", Plain "Compact<u32>")]).

Definition StagingXcmV5QueryResponseInfo : interface :=
  ("Struct", [
  ("destination", Plain "StagingXcmV5Location"); ("queryId", Plain "Compact<u64>");
  ("maxWeight", Plain "SpWeightsWeightV2Weight")]).

Definition StagingXcmV5Response : interface :=
  ("Enum", [
  ("isNull", Plain "boolean"); ("isAssets", Plain "boolean"); ("asAssets", Plain "StagingXcmV5AssetAssets");
  ("isExecutionResult", Plain "boolean");
  ("asExecutionResult", Plain "Option<ITuple<[u32, XcmV5TraitsError]>>"); ("isVersion", Plain "boolean");
  ("asVersion", Plain "u32"); ("isPalletsInfo", Plain "boolean");
  ("asPalletsInfo", Plain "Vec<StagingXcmV5PalletInfo>"); ("isDispatchResult", Plain "boolean");
  ("asDispatchResult", Plain "XcmV3MaybeErrorCode");
  ("type", Union ["Null"; "Assets"; "ExecutionResult"; "Version"; "PalletsInfo"; "DispatchResult"])]).

Definition StagingXcmV5TraitsOutcome : interface :=
  ("Enum", [
  ("isComplete", Plain "boolean"); ("asComplete", Fielded [("used", "SpWeightsWeightV2Weight")]);
  ("isIncomplete", Plain "boolean");
  ("asIncomplete", Fielded [("used", "SpWeightsWeightV2Weight"); ("error", "XcmV5TraitsError")]);
  ("isError", Plain "boolean"); ("asError", Fielded [("error", "XcmV5TraitsError")]);
  ("type", Union ["Complete"; "Incomplete"; "Error"])]).

Definition StagingXcmV5Xcm : interface :=
  ("Vec<StagingXcmV5Instruction>", []).

Definition UpDataStructsAccessMode : interface :=
  ("Enum", [
  ("isNormal", Plain "boolean"); ("isAllowList", Plain "boolean"); ("type", Union ["Normal"; "AllowList"])]).

Definition UpDataStructsCollection : interface :=
  ("Struct", [
  ("owner", Plain "AccountId32"); ("mode", Plain "UpDataStructsCollectionMode"); ("name", Plain "Vec<u16>");
  ("description", Plain "Vec<u16>"); ("tokenPrefix", Plain "Bytes");
  ("sponsorship", Plain "UpDataStructsSponsorshipStateAccountId32");
  ("limits", Plain "UpDataStructsCollectionLimits");
  ("permissions", Plain "UpDataStructsCollectionPermissions"); ("flags", Plain "U8aFixed")]).

Definition UpDataStructsCollectionLimits : interface :=
  ("Struct", [
  ("accountTokenOwnershipLimit", Plain "Option<u32>"); ("sponsoredDataSize", Plain "Option<u32>");
  ("sponsoredDataRateLimit", Plain "Option<UpDataStructsSponsoringRateLimit>");
  ("tokenLimit", Plain "Option<u32>"); ("sponsorTransferTimeout", Plain "Option<u32>");
  ("sponsorApproveTimeout", Plain "Option<u32>"); ("ownerCanTransfer", Plain "Option<bool>");
  ("ownerCanDestroy", Plain "Option<bool>"); ("transfersEnabled", Plain "Option<bool>")]).

Definition UpDataStructsCollectionMode : interface :=
  ("Enum", [
  ("isNft", Plain "boolean"); ("isFungible", Plain "boolean"); ("asFungible", Plain "u8");
  ("isReFungible", Plain "boolean"); ("type", Union ["Nft"; "Fungible"; "ReFungible"])]).

Definition UpDataStructsCollectionPermissions : interface :=
  ("Struct", [
  ("access", Plain "Option<UpDataStructsAccessMode>"); ("mintMode", Plain "Option<bool>");
  ("nesting", Plain "Option<UpDataStructsNestingPermissions>")]).

Definition UpDataStructsCollectionStats : interface :=
  ("Struct", [
  ("created", Plain "u32"); ("destroyed", Plain "u32"); ("alive", Plain "u32")]).

Definition UpDataStructsCreateCollectionData : interface :=
  ("Struct", [
  ("mode", Plain "UpDataStructsCollectionMode"); ("access", Plain "Option<UpDataStructsAccessMode>");
  ("name", Plain "Vec<u16>"); ("description", Plain "Vec<u16>"); ("tokenPrefix", Plain "Bytes");
  ("limits", Plain "Option<UpDataStructsCollectionLimits>");
  ("permissions", Plain "Option<UpDataStructsCollectionPermissions>");
  ("tokenPropertyPermissions", Plain "Vec<UpDataStructsPropertyKeyPermission>");
  ("properties", Plain "Vec<UpDataStructsProperty>");
  ("adminList", Plain "Vec<PalletEvmAccountBasicCrossAccountIdRepr>");
  ("pendingSponsor", Plain "Option<PalletEvmAccountBasicCrossAccountIdRepr>"); ("flags", Plain "U8aFixed")]).

Definition UpDataStructsCreateFungibleData : interface :=
  ("Struct", [("value", Plain "u128")]).

Definition UpDataStructsCreateItemData : interface :=
  ("Enum", [
  ("isNft", Plain "boolean"); ("asNft", Plain "UpDataStructsCreateNftData"); ("isFungible", Plain "boolean");
  ("asFungible", Plain "UpDataStructsCreateFungibleData"); ("isReFungible", Plain "boolean");
  ("asReFungible", Plain "UpDataStructsCreateReFungibleData"); ("type", Union ["Nft"; "Fungible"; "ReFungible"])]).

Definition UpDataStructsCreateItemExData : interface :=
  ("Enum", [
  ("isNft", Plain "boolean"); ("asNft", Plain "Vec<UpDataStructsCreateNftExData>");
  ("isFungible", Plain "boolean");
  ("asFungible", Plain "BTreeMap<PalletEvmAccountBasicCrossAccountIdRepr,u128>");
  ("isRefungibleMultipleItems", Plain "boolean");
  ("asRefungibleMultipleItems", Plain "Vec<UpDataStructsCreateRefungibleExSingleOwner>");
  ("isRefungibleMultipleOwners", Plain "boolean");
  ("asRefungibleMultipleOwners", Plain "UpDataStructsCreateRefungibleExMultipleOwners");
  ("type", Union ["Nft"; "Fungible"; "RefungibleMultipleItems"; "RefungibleMultipleOwners"])]).

Definition UpDataStructsCreateNftData : interface :=
  ("Struct", [("properties", Plain "Vec<UpDataStructsProperty>")]).

Definition UpDataStructsCreateNftExData : interface :=
  ("Struct", [
  ("properties", Plain "Vec<UpDataStructsProperty>"); ("owner", Plain "PalletEvmAccountBasicCrossAccountIdRepr")]).

Definition UpDataStructsCreateReFungibleData : interface :=
  ("Struct", [
  ("pieces", Plain "u128"); ("properties", Plain "Vec<UpDataStructsProperty>")]).

Definition UpDataStructsCreateRefungibleExMultipleOwners : interface :=
  ("Struct", [
  ("users", Plain "BTreeMap<PalletEvmAccountBasicCrossAccountIdRepr, u128>");
  ("properties", Plain "Vec<UpDataStructsProperty>")]).

Definition UpDataStructsCreateRefungibleExSingleOwner : interface :=
  ("Struct", [
  ("user", Plain "PalletEvmAccountBasicCrossAccountIdRepr"); ("pieces", Plain "u128");
  ("properties", Plain "Vec<UpDataStructsProperty>")]).

Definition UpDataStructsNestingPermissions : interface :=
  ("Struct", [
  ("tokenOwner", Plain "bool"); ("collectionAdmin", Plain "bool");
  ("restricted", Plain "Option<UpDataStructsOwnerRestrictedSet>")]).

Definition UpDataStructsOwnerRestrictedSet : interface :=
  ("BTreeSet<u32>", []).

Definition UpDataStructsProperties : interface :=
  ("Struct", [
  ("map", Plain "UpDataStructsPropertiesMapBoundedVec"); ("consumedSpace", Plain "u32");
  ("reserved", Plain "u32")]).

Definition UpDataStructsPropertiesMapBoundedVec : interface :=
  ("BTreeMap<Bytes, Bytes>", []).

Definition UpDataStructsPropertiesMapPropertyPermission : interface :=
  ("BTreeMap<Bytes, UpDataStructsPropertyPermission>", []).

Definition UpDataStructsProperty : interface :=
  ("Struct", [("key", Plain "Bytes"); ("value", Plain "Bytes")]).

Definition UpDataStructsPropertyKeyPermission : interface :=
  ("Struct", [
  ("key", Plain "Bytes"); ("permission", Plain "UpDataStructsPropertyPermission")]).

Definition UpDataStructsPropertyPermission : interface :=
  ("Struct", [
  ("mutable", Plain "bool"); ("collectionAdmin", Plain "bool"); ("tokenOwner", Plain "bool")]).

Definition UpDataStructsPropertyScope : interface :=
  ("Enum", [
  ("isNone", Plain "boolean"); ("isRmrk", Plain "boolean"); ("type", Union ["None"; "Rmrk"])]).

Definition UpDataStructsRpcCollection : interface :=
  ("Struct", [
  ("owner", Plain "AccountId32"); ("mode", Plain "UpDataStructsCollectionMode"); ("name", Plain "Vec<u16>");
  ("description", Plain "Vec<u16>"); ("tokenPrefix", Plain "Bytes");
  ("sponsorship", Plain "UpDataStructsSponsorshipStateAccountId32");
  ("limits", Plain "UpDataStructsCollectionLimits");
  ("permissions", Plain "UpDataStructsCollectionPermissions");
  ("tokenPropertyPermissions", Plain "Vec<UpDataStructsPropertyKeyPermission>");
  ("properties", Plain "Vec<UpDataStructsProperty>"); ("readOnly", Plain "bool");
  ("flags", Plain "UpDataStructsRpcCollectionFlags")]).

Definition UpDataStructsRpcCollectionFlags : interface :=
  ("Struct", [("foreign", Plain "bool"); ("erc721metadata", Plain "bool")]).

Definition UpDataStructsSponsoringRateLimit : interface :=
  ("Enum", [
  ("isSponsoringDisabled", Plain "boolean"); ("isBlocks", Plain "boolean"); ("asBlocks", Plain "u32");
  ("type", Union ["SponsoringDisabled"; "Blocks"])]).

Definition UpDataStructsSponsorshipStateAccountId32 : interface :=
  ("Enum", [
  ("isDisabled", Plain "boolean"); ("isUnconfirmed", Plain "boolean"); ("asUnconfirmed", Plain "AccountId32");
  ("isConfirmed", Plain "boolean"); ("asConfirmed", Plain "AccountId32");
  ("type", Union ["Disabled"; "Unconfirmed"; "Confirmed"])]).

Definition UpDataStructsSponsorshipStateBasicCrossAccountIdRepr : interface :=
  ("Enum", [
  ("isDisabled", Plain "boolean"); ("isUnconfirmed", Plain "boolean");
  ("asUnconfirmed", Plain "PalletEvmAccountBasicCrossAccountIdRepr"); ("isConfirmed", Plain "boolean");
  ("asConfirmed", Plain "PalletEvmAccountBasicCrossAccountIdRepr");
  ("type", Union ["Disabled"; "Unconfirmed"; "Confirmed"])]).

Definition UpDataStructsTokenChild : interface :=
  ("Struct", [("token", Plain "u32"); ("collection", Plain "u32")]).

Definition UpDataStructsTokenData : interface :=
  ("Struct", [
  ("properties", Plain "Vec<UpDataStructsProperty>");
  ("owner", Plain "Option<PalletEvmAccountBasicCrossAccountIdRepr>"); ("pieces", Plain "u128")]).

Definition UpPovEstimateRpcPovInfo : interface :=
  ("Struct", [
  ("proofSize", Plain "u64"); ("compactProofSize", Plain "u64"); ("compressedProofSize", Plain "u64");
  ("results", Plain "Vec<Result<Result<Null, SpRuntimeDispatchError>, SpRuntimeTransactionValidityTransactionValidityError>>");
  ("keyValues", Plain "Vec<UpPovEstimateRpcTrieKeyValue>")]).

Definition UpPovEstimateRpcTrieKeyValue : interface :=
  ("Struct", [("key", Plain "Bytes"); ("value", Plain "Bytes")]).

Definition XcmDoubleEncoded : interface :=
  ("Struct", [("encoded", Plain "Bytes")]).

Definition XcmRuntimeApisAuthorizedAliasesOriginAliaser : interface :=
  ("Struct", [("location", Plain "XcmVersionedLocation"); ("expiry", Plain "Option<u64>")]).

Definition XcmV3Instruction : interface :=
  ("Enum", [
  ("isWithdrawAsset", Plain "boolean"); ("asWithdrawAsset", Plain "XcmV3MultiassetMultiAssets");
  ("isReserveAssetDeposited", Plain "boolean"); ("asReserveAssetDeposited", Plain "XcmV3MultiassetMultiAssets");
  ("isReceiveTeleportedAsset", Plain "boolean");
  ("asReceiveTeleportedAsset", Plain "XcmV3MultiassetMultiAssets"); ("isQueryResponse", Plain "boolean");
  ("asQueryResponse", Fielded [("queryId", "Compact<u64>"); ("response", "XcmV3Response"); ("maxWeight", "SpWeightsWeightV2Weight"); ("querier", "Option<StagingXcmV3MultiLocation>")]);
  ("isTransferAsset", Plain "boolean");
  ("asTransferAsset", Fielded [("assets", "XcmV3MultiassetMultiAssets"); ("beneficiary", "StagingXcmV3MultiLocation")]);
  ("isTransferReserveAsset", Plain "boolean");
  ("asTransferReserveAsset", Fielded [("assets", "XcmV3MultiassetMultiAssets"); ("dest", "StagingXcmV3MultiLocation"); ("xcm", "XcmV3Xcm")]);
  ("isTransact", Plain "boolean");
  ("asTransact", Fielded [("originKind", "XcmV3OriginKind"); ("requireWeightAtMost", "SpWeightsWeightV2Weight"); ("call", "XcmDoubleEncoded")]);
  ("isHrmpNewChannelOpenRequest", Plain "boolean");
  ("asHrmpNewChannelOpenRequest", Fielded [("sender", "Compact<u32>"); ("maxMessageSize", "Compact<u32>"); ("maxCapacity", "Compact<u32>")]);
  ("isHrmpChannelAccepted", Plain "boolean");
  ("asHrmpChannelAccepted", Fielded [("recipient", "Compact<u32>")]); ("isHrmpChannelClosing", Plain "boolean");
  ("asHrmpChannelClosing", Fielded [("initiator", "Compact<u32>"); ("sender", "Compact<u32>"); ("recipient", "Compact<u32>")]);
  ("isClearOrigin", Plain "boolean"); ("isDescendOrigin", Plain "boolean");
  ("asDescendOrigin", Plain "XcmV3Junctions"); ("isReportError", Plain "boolean");
  ("asReportError", Plain "XcmV3QueryResponseInfo"); ("isDepositAsset", Plain "boolean");
  ("asDepositAsset", Fielded [("assets", "XcmV3MultiassetMultiAssetFilter"); ("beneficiary", "StagingXcmV3MultiLocation")]);
  ("isDepositReserveAsset", Plain "boolean");
  ("asDepositReserveAsset", Fielded [("assets", "XcmV3MultiassetMultiAssetFilter"); ("dest", "StagingXcmV3MultiLocation"); ("xcm", "XcmV3Xcm")]);
  ("isExchangeAsset", Plain "boolean");
  ("asExchangeAsset", Fielded [("give", "XcmV3MultiassetMultiAssetFilter"); ("want", "XcmV3MultiassetMultiAssets"); ("maximal", "bool")]);
  ("isInitiateReserveWithdraw", Plain "boolean");
  ("asInitiateReserveWithdraw", Fielded [("assets", "XcmV3MultiassetMultiAssetFilter"); ("reserve", "StagingXcmV3MultiLocation"); ("xcm", "XcmV3Xcm")]);
  ("isInitiateTeleport", Plain "boolean");
  ("asInitiateTeleport", Fielded [("assets", "XcmV3MultiassetMultiAssetFilter"); ("dest", "StagingXcmV3MultiLocation"); ("xcm", "XcmV3Xcm")]);
  ("isReportHolding", Plain "boolean");
  ("asReportHolding", Fielded [("responseInfo", "XcmV3QueryResponseInfo"); ("assets", "XcmV3MultiassetMultiAssetFilter")]);
  ("isBuyExecution", Plain "boolean");
  ("asBuyExecution", Fielded [("fees", "XcmV3MultiAsset"); ("weightLimit", "XcmV3WeightLimit")]);
  ("isRefundSurplus", Plain "boolean"); ("isSetErrorHandler", Plain "boolean");
  ("asSetErrorHandler", Plain "XcmV3Xcm"); ("isSetAppendix", Plain "boolean");
  ("asSetAppendix", Plain "XcmV3Xcm"); ("isClearError", Plain "boolean"); ("isClaimAsset", Plain "boolean");
  ("asClaimAsset", Fielded [("assets", "XcmV3MultiassetMultiAssets"); ("ticket", "StagingXcmV3MultiLocation")]);
  ("isTrap", Plain "boolean"); ("asTrap", Plain "Compact<u64>"); ("isSubscribeVersion", Plain "boolean");
  ("asSubscribeVersion", Fielded [("queryId", "Compact<u64>"); ("maxResponseWeight", "SpWeightsWeightV2Weight")]);
  ("isUnsubscribeVersion", Plain "boolean"); ("isBurnAsset", Plain "boolean");
  ("asBurnAsset", Plain "XcmV3MultiassetMultiAssets"); ("isExpectAsset", Plain "boolean");
  ("asExpectAsset", Plain "XcmV3MultiassetMultiAssets"); ("isExpectOrigin", Plain "boolean");
  ("asExpectOrigin", Plain "Option<StagingXcmV3MultiLocation>"); ("isExpectError", Plain "boolean");
  ("asExpectError", Plain "Option<ITuple<[u32, XcmV3TraitsError]>>");
  ("isExpectTransactStatus", Plain "boolean"); ("asExpectTransactStatus", Plain "XcmV3MaybeErrorCode");
  ("isQueryPallet", Plain "boolean");
  ("asQueryPallet", Fielded [("moduleName", "Bytes"); ("responseInfo", "XcmV3QueryResponseInfo")]);
  ("isExpectPallet", Plain "boolean");
  ("asExpectPallet", Fielded [("index", "Compact<u32>"); ("name", "Bytes"); ("moduleName", "Bytes"); ("crateMajor", "Compact<u32>"); ("minCrateMinor", "Compact<u32>")]);
  ("isReportTransactStatus", Plain "boolean"); ("asReportTransactStatus", Plain "XcmV3QueryResponseInfo");
  ("isClearTransactStatus", Plain "boolean"); ("isUniversalOrigin", Plain "boolean");
  ("asUniversalOrigin", Plain "XcmV3Junction"); ("isExportMessage", Plain "boolean");
  ("asExportMessage", Fielded [("network", "XcmV3JunctionNetworkId"); ("destination", "XcmV3Junctions"); ("xcm", "XcmV3Xcm")]);
  ("isLockAsset", Plain "boolean");
  ("asLockAsset", Fielded [("asset", "XcmV3MultiAsset"); ("unlocker", "StagingXcmV3MultiLocation")]);
  ("isUnlockAsset", Plain "boolean");
  ("asUnlockAsset", Fielded [("asset", "XcmV3MultiAsset"); ("target", "StagingXcmV3MultiLocation")]);
  ("isNoteUnlockable", Plain "boolean");
  ("asNoteUnlockable", Fielded [("asset", "XcmV3MultiAsset"); ("owner", "StagingXcmV3MultiLocation")]);
  ("isRequestUnlock", Plain "boolean");
  ("asRequestUnlock", Fielded [("asset", "XcmV3MultiAsset"); ("locker", "StagingXcmV3MultiLocation")]);
  ("isSetFeesMode", Plain "boolean"); ("asSetFeesMode", Fielded [("jitWithdraw", "bool")]);
  ("isSetTopic", Plain "boolean"); ("asSetTopic", Plain "U8aFixed"); ("isClearTopic", Plain "boolean");
  ("isAliasOrigin", Plain "boolean"); ("asAliasOrigin", Plain "StagingXcmV3MultiLocation");
  ("isUnpaidExecution", Plain "boolean");
  ("asUnpaidExecution", Fielded [("weightLimit", "XcmV3WeightLimit"); ("checkOrigin", "Option<StagingXcmV3MultiLocation>")]);
  ("type", Union ["WithdrawAsset"; "ReserveAssetDeposited"; "ReceiveTeleportedAsset"; "QueryResponse"; "TransferAsset"; "TransferReserveAsset"; "Transact"; "HrmpNewChannelOpenRequest"; "HrmpChannelAccepted"; "HrmpChannelClosing"; "ClearOrigin"; "DescendOrigin"; "ReportError"; "DepositAsset"; "DepositReserveAsset"; "ExchangeAsset"; "InitiateReserveWithdraw"; "InitiateTeleport"; "ReportHolding"; "BuyExecution"; "RefundSurplus"; "SetErrorHandler"; "SetAppendix"; "ClearError"; "ClaimAsset"; "Trap"; "SubscribeVersion"; "UnsubscribeVersion"; "BurnAsset"; "ExpectAsset"; "ExpectOrigin"; "ExpectError"; "ExpectTransactStatus"; "QueryPallet"; "ExpectPallet"; "ReportTransactStatus"; "ClearTransactStatus"; "UniversalOrigin"; "ExportMessage"; "LockAsset"; "UnlockAsset"; "NoteUnlockable"; "RequestUnlock"; "SetFeesMode"; "SetTopic"; "ClearTopic"; "AliasOrigin"; "UnpaidExecution"])]).

Definition XcmV3Junction : interface :=
  ("Enum", [
  ("isParachain", Plain "boolean"); ("asParachain", Plain "Compact<u32>"); ("isAccountId32", Plain "boolean");
  ("asAccountId32", Fielded [("network", "Option<XcmV3JunctionNetworkId>"); ("id", "U8aFixed")]);
  ("isAccountIndex64", Plain "boolean");
  ("asAccountIndex64", Fielded [("network", "Option<XcmV3JunctionNetworkId>"); ("index", "Compact<u64>")]);
  ("isAccountKey20", Plain "boolean");
  ("asAccountKey20", Fielded [("network", "Option<XcmV3JunctionNetworkId>"); ("key", "U8aFixed")]);
  ("isPalletInstance", Plain "boolean"); ("asPalletInstance", Plain "u8"); ("isGeneralIndex", Plain "boolean");
  ("asGeneralIndex", Plain "Compact<u128>"); ("isGeneralKey", Plain "boolean");
  ("asGeneralKey", Fielded [("length", "u8"); ("data", "U8aFixed")]); ("isOnlyChild", Plain "boolean");
  ("isPlurality", Plain "boolean");
  ("asPlurality", Fielded [("id", "XcmV3JunctionBodyId"); ("part", "XcmV3JunctionBodyPart")]);
  ("isGlobalConsensus", Plain "boolean"); ("asGlobalConsensus", Plain "XcmV3JunctionNetworkId");
  ("type", Union ["Parachain"; "AccountId32"; "AccountIndex64"; "AccountKey20"; "PalletInstance"; "GeneralIndex"; "GeneralKey"; "OnlyChild"; "Plurality"; "GlobalConsensus"])]).

Definition XcmV3JunctionBodyId : interface :=
  ("Enum", [
  ("isUnit", Plain "boolean"); ("isMoniker", Plain "boolean"); ("asMoniker", Plain "U8aFixed");
  ("isIndex", Plain "boolean"); ("asIndex", Plain "Compact<u32>"); ("isExecutive", Plain "boolean");
  ("isTechnical", Plain "boolean"); ("isLegislative", Plain "boolean"); ("isJudicial", Plain "boolean");
  ("isDefense", Plain "boolean"); ("isAdministration", Plain "boolean"); ("isTreasury", Plain "boolean");
  ("type", Union ["Unit"; "Moniker"; "Index"; "Executive"; "Technical"; "Legislative"; "Judicial"; "Defense"; "Administration"; "Treasury"])]).

Definition XcmV3JunctionBodyPart : interface :=
  ("Enum", [
  ("isVoice", Plain "boolean"); ("isMembers", Plain "boolean");
  ("asMembers", Fielded [("count", "Compact<u32>")]); ("isFraction", Plain "boolean");
  ("asFraction", Fielded [("nom", "Compact<u32>"); ("denom", "Compact<u32>")]);
  ("isAtLeastProportion", Plain "boolean");
  ("asAtLeastProportion", Fielded [("nom", "Compact<u32>"); ("denom", "Compact<u32>")]);
  ("isMoreThanProportion", Plain "boolean");
  ("asMoreThanProportion", Fielded [("nom", "Compact<u32>"); ("denom", "Compact<u32>")]);
  ("type", Union ["Voice"; "Members"; "Fraction"; "AtLeastProportion"; "MoreThanProportion"])]).

Definition XcmV3JunctionNetworkId : interface :=
  ("Enum", [
  ("isByGenesis", Plain "boolean"); ("asByGenesis", Plain "U8aFixed"); ("isByFork", Plain "boolean");
  ("asByFork", Fielded [("blockNumber", "u64"); ("blockHash", "U8aFixed")]); ("isPolkadot", Plain "boolean");
  ("isKusama", Plain "boolean"); ("isWestend", Plain "boolean"); ("isRococo", Plain "boolean");
  ("isWococo", Plain "boolean"); ("isEthereum", Plain "boolean");
  ("asEthereum", Fielded [("chainId", "Compact<u64>")]); ("isBitcoinCore", Plain "boolean");
  ("isBitcoinCash", Plain "boolean"); ("isPolkadotBulletin", Plain "boolean");
  ("type", Union ["ByGenesis"; "ByFork"; "Polkadot"; "Kusama"; "Westend"; "Rococo"; "Wococo"; "Ethereum"; "BitcoinCore"; "BitcoinCash"; "PolkadotBulletin"])]).

Definition XcmV3Junctions : interface :=
  ("Enum", [
  ("isHere", Plain "boolean"); ("isX1", Plain "boolean"); ("asX1", Plain "XcmV3Junction");
  ("isX2", Plain "boolean"); ("asX2", Plain "ITuple<[XcmV3Junction, XcmV3Junction]>");
  ("isX3", Plain "boolean"); ("asX3", Plain "ITuple<[XcmV3Junction, XcmV3Junction, XcmV3Junction]>");
  ("isX4", Plain "boolean");
  ("asX4", Plain "ITuple<[XcmV3Junction, XcmV3Junction, XcmV3Junction, XcmV3Junction]>");
  ("isX5", Plain "boolean");
  ("asX5", Plain "ITuple<[XcmV3Junction, XcmV3Junction, XcmV3Junction, XcmV3Junction, XcmV3Junction]>");
  ("isX6", Plain "boolean");
  ("asX6", Plain "ITuple<[XcmV3Junction, XcmV3Junction, XcmV3Junction, XcmV3Junction, XcmV3Junction, XcmV3Junction]>");
  ("isX7", Plain "boolean");
  ("asX7", Plain "ITuple<[XcmV3Junction, XcmV3Junction, XcmV3Junction, XcmV3Junction, XcmV3Junction, XcmV3Junction, XcmV3Junction]>");
  ("isX8", Plain "boolean");
  ("asX8", Plain "ITuple<[XcmV3Junction, XcmV3Junction, XcmV3Junction, XcmV3Junction, XcmV3Junction, XcmV3Junction, XcmV3Junction, XcmV3Junction]>");
  ("type", Union ["Here"; "X1"; "X2"; "X3"; "X4"; "X5"; "X6"; "X7"; "X8"])]).

Definition XcmV3MaybeErrorCode : interface :=
  ("Enum", [
  ("isSuccess", Plain "boolean"); ("isError", Plain "boolean"); ("asError", Plain "Bytes");
  ("isTruncatedError", Plain "boolean"); ("asTruncatedError", Plain "Bytes");
  ("type", Union ["Success"; "Error"; "TruncatedError"])]).

Definition XcmV3MultiAsset : interface :=
  ("Struct", [
  ("id", Plain "XcmV3MultiassetAssetId"); ("fun", Plain "XcmV3MultiassetFungibility")]).

Definition XcmV3MultiassetAssetId : interface :=
  ("Enum", [
  ("isConcrete", Plain "boolean"); ("asConcrete", Plain "StagingXcmV3MultiLocation");
  ("isAbstract", Plain "boolean"); ("asAbstract", Plain "U8aFixed"); ("type", Union ["Concrete"; "Abstract"])]).

Definition XcmV3MultiassetAssetInstance : interface :=
  ("Enum", [
  ("isUndefined", Plain "boolean"); ("isIndex", Plain "boolean"); ("asIndex", Plain "Compact<u128>");
  ("isArray4", Plain "boolean"); ("asArray4", Plain "U8aFixed"); ("isArray8", Plain "boolean");
  ("asArray8", Plain "U8aFixed"); ("isArray16", Plain "boolean"); ("asArray16", Plain "U8aFixed");
  ("isArray32", Plain "boolean"); ("asArray32", Plain "U8aFixed");
  ("type", Union ["Undefined"; "Index"; "Array4"; "Array8"; "Array16"; "Array32"])]).

Definition XcmV3MultiassetFungibility : interface :=
  ("Enum", [
  ("isFungible", Plain "boolean"); ("asFungible", Plain "Compact<u128>"); ("isNonFungible", Plain "boolean");
  ("asNonFungible", Plain "XcmV3MultiassetAssetInstance"); ("type", Union ["Fungible"; "NonFungible"])]).

Definition XcmV3MultiassetMultiAssetFilter : interface :=
  ("Enum", [
  ("isDefinite", Plain "boolean"); ("asDefinite", Plain "XcmV3MultiassetMultiAssets");
  ("isWild", Plain "boolean"); ("asWild", Plain "XcmV3MultiassetWildMultiAsset");
  ("type", Union ["Definite"; "Wild"])]).

Definition XcmV3MultiassetMultiAssets : interface :=
  ("Vec<XcmV3MultiAsset>", []).

Definition XcmV3MultiassetWildFungibility : interface :=
  ("Enum", [
  ("isFungible", Plain "boolean"); ("isNonFungible", Plain "boolean");
  ("type", Union ["Fungible"; "NonFungible"])]).

Definition XcmV3MultiassetWildMultiAsset : interface :=
  ("Enum", [
  ("isAll", Plain "boolean"); ("isAllOf", Plain "boolean");
  ("asAllOf", Fielded [("id", "XcmV3MultiassetAssetId"); ("fun", "XcmV3MultiassetWildFungibility")]);
  ("isAllCounted", Plain "boolean"); ("asAllCounted", Plain "Compact<u32>");
  ("isAllOfCounted", Plain "boolean");
  ("asAllOfCounted", Fielded [("id", "XcmV3MultiassetAssetId"); ("fun", "XcmV3MultiassetWildFungibility"); ("count", "Compact<u32>")]);
  ("type", Union ["All"; "AllOf"; "AllCounted"; "AllOfCounted"])]).

Definition XcmV3OriginKind : interface :=
  ("Enum", [
  ("isNative", Plain "boolean"); ("isSovereignAccount", Plain "boolean"); ("isSuperuser", Plain "boolean");
  ("isXcm", Plain "boolean"); ("type", Union ["Native"; "SovereignAccount"; "Superuser"; "Xcm"])]).

Definition XcmV3PalletInfo : interface :=
  ("Struct", [
  ("index", Plain "Compact<u32>"); ("name", Plain "Bytes"); ("moduleName", Plain "Bytes");
  ("major", Plain "Compact<u32>"); ("minor", Plain "Compact<u32>"); ("patch", Plain "Compact<u32>")]).

Definition XcmV3QueryResponseInfo : interface :=
  ("Struct", [
  ("destination", Plain "StagingXcmV3MultiLocation"); ("queryId", Plain "Compact<u64>");
  ("maxWeight", Plain "SpWeightsWeightV2Weight")]).

Definition XcmV3Response : interface :=
  ("Enum", [
  ("isNull", Plain "boolean"); ("isAssets", Plain "boolean"); ("asAssets", Plain "XcmV3MultiassetMultiAssets");
  ("isExecutionResult", Plain "boolean");
  ("asExecutionResult", Plain "Option<ITuple<[u32, XcmV3TraitsError]>>"); ("isVersion", Plain "boolean");
  ("asVersion", Plain "u32"); ("isPalletsInfo", Plain "boolean");
  ("asPalletsInfo", Plain "Vec<XcmV3PalletInfo>"); ("isDispatchResult", Plain "boolean");
  ("asDispatchResult", Plain "XcmV3MaybeErrorCode");
  ("type", Union ["Null"; "Assets"; "ExecutionResult"; "Version"; "PalletsInfo"; "DispatchResult"])]).

Definition XcmV3TraitsError : interface :=
  ("Enum", [
  ("isOverflow", Plain "boolean"); ("isUnimplemented", Plain "boolean");
  ("isUntrustedReserveLocation", Plain "boolean"); ("isUntrustedTeleportLocation", Plain "boolean");
  ("isLocationFull", Plain "boolean"); ("isLocationNotInvertible", Plain "boolean");
  ("isBadOrigin", Plain "boolean"); ("isInvalidLocation", Plain "boolean");
  ("isAssetNotFound", Plain "boolean"); ("isFailedToTransactAsset", Plain "boolean");
  ("isNotWithdrawable", Plain "boolean"); ("isLocationCannotHold", Plain "boolean");
  ("isExceedsMaxMessageSize", Plain "boolean"); ("isDestinationUnsupported", Plain "boolean");
  ("isTransport", Plain "boolean"); ("isUnroutable", Plain "boolean"); ("isUnknownClaim", Plain "boolean");
  ("isFailedToDecode", Plain "boolean"); ("isMaxWeightInvalid", Plain "boolean");
  ("isNotHoldingFees", Plain "boolean"); ("isTooExpensive", Plain "boolean"); ("isTrap", Plain "boolean");
  ("asTrap", Plain "u64"); ("isExpectationFalse", Plain "boolean"); ("isPalletNotFound", Plain "boolean");
  ("isNameMismatch", Plain "boolean"); ("isVersionIncompatible", Plain "boolean");
  ("isHoldingWouldOverflow", Plain "boolean"); ("isExportError", Plain "boolean");
  ("isReanchorFailed", Plain "boolean"); ("isNoDeal", Plain "boolean"); ("isFeesNotMet", Plain "boolean");
  ("isLockError", Plain "boolean"); ("isNoPermission", Plain "boolean"); ("isUnanchored", Plain "boolean");
  ("isNotDepositable", Plain "boolean"); ("isUnhandledXcmVersion", Plain "boolean");
  ("isWeightLimitReached", Plain "boolean"); ("asWeightLimitReached", Plain "SpWeightsWeightV2Weight");
  ("isBarrier", Plain "boolean"); ("isWeightNotComputable", Plain "boolean");
  ("isExceedsStackLimit", Plain "boolean");
  ("type", Union ["Overflow"; "Unimplemented"; "UntrustedReserveLocation"; "UntrustedTeleportLocation"; "LocationFull"; "LocationNotInvertible"; "BadOrigin"; "InvalidLocation"; "AssetNotFound"; "FailedToTransactAsset"; "NotWithdrawable"; "LocationCannotHold"; "ExceedsMaxMessageSize"; "DestinationUnsupported"; "Transport"; "Unroutable"; "UnknownClaim"; "FailedToDecode"; "MaxWeightInvalid"; "NotHoldingFees"; "TooExpensive"; "Trap"; "ExpectationFalse"; "PalletNotFound"; "NameMismatch"; "VersionIncompatible"; "HoldingWouldOverflow"; "ExportError"; "ReanchorFailed"; "NoDeal"; "FeesNotMet"; "LockError"; "NoPermission"; "Unanchored"; "NotDepositable"; "UnhandledXcmVersion"; "WeightLimitReached"; "Barrier"; "WeightNotComputable"; "ExceedsStackLimit"])]).

Definition XcmV3TraitsSendError : interface :=
  ("Enum", [
  ("isNotApplicable", Plain "boolean"); ("isTransport", Plain "boolean"); ("isUnroutable", Plain "boolean");
  ("isDestinationUnsupported", Plain "boolean"); ("isExceedsMaxMessageSize", Plain "boolean");
  ("isMissingArgument", Plain "boolean"); ("isFees", Plain "boolean");
  ("type", Union ["NotApplicable"; "Transport"; "Unroutable"; "DestinationUnsupported"; "ExceedsMaxMessageSize"; "MissingArgument"; "Fees"])]).

Definition XcmV3WeightLimit : interface :=
  ("Enum", [
  ("isUnlimited", Plain "boolean"); ("isLimited", Plain "boolean");
  ("asLimited", Plain "SpWeightsWeightV2Weight"); ("type", Union ["Unlimited"; "Limited"])]).

Definition XcmV3Xcm : interface :=
  ("Vec<XcmV3Instruction>", []).

Definition XcmV5TraitsError : interface :=
  ("Enum", [
  ("isOverflow", Plain "boolean"); ("isUnimplemented", Plain "boolean");
  ("isUntrustedReserveLocation", Plain "boolean"); ("isUntrustedTeleportLocation", Plain "boolean");
  ("isLocationFull", Plain "boolean"); ("isLocationNotInvertible", Plain "boolean");
  ("isBadOrigin", Plain "boolean"); ("isInvalidLocation", Plain "boolean");
  ("isAssetNotFound", Plain "boolean"); ("isFailedToTransactAsset", Plain "boolean");
  ("isNotWithdrawable", Plain "boolean"); ("isLocationCannotHold", Plain "boolean");
  ("isExceedsMaxMessageSize", Plain "boolean"); ("isDestinationUnsupported", Plain "boolean");
  ("isTransport", Plain "boolean"); ("isUnroutable", Plain "boolean"); ("isUnknownClaim", Plain "boolean");
  ("isFailedToDecode", Plain "boolean"); ("isMaxWeightInvalid", Plain "boolean");
  ("isNotHoldingFees", Plain "boolean"); ("isTooExpensive", Plain "boolean"); ("isTrap", Plain "boolean");
  ("asTrap", Plain "u64"); ("isExpectationFalse", Plain "boolean"); ("isPalletNotFound", Plain "boolean");
  ("isNameMismatch", Plain "boolean"); ("isVersionIncompatible", Plain "boolean");
  ("isHoldingWouldOverflow", Plain "boolean"); ("isExportError", Plain "boolean");
  ("isReanchorFailed", Plain "boolean"); ("isNoDeal", Plain "boolean"); ("isFeesNotMet", Plain "boolean");
  ("isLockError", Plain "boolean"); ("isNoPermission", Plain "boolean"); ("isUnanchored", Plain "boolean");
  ("isNotDepositable", Plain "boolean"); ("isTooManyAssets", Plain "boolean");
  ("isUnhandledXcmVersion", Plain "boolean"); ("isWeightLimitReached", Plain "boolean");
  ("asWeightLimitReached", Plain "SpWeightsWeightV2Weight"); ("isBarrier", Plain "boolean");
  ("isWeightNotComputable", Plain "boolean"); ("isExceedsStackLimit", Plain "boolean");
  ("type", Union ["Overflow"; "Unimplemented"; "UntrustedReserveLocation"; "UntrustedTeleportLocation"; "LocationFull"; "LocationNotInvertible"; "BadOrigin"; "InvalidLocation"; "AssetNotFound"; "FailedToTransactAsset"; "NotWithdrawable"; "LocationCannotHold"; "ExceedsMaxMessageSize"; "DestinationUnsupported"; "Transport"; "Unroutable"; "UnknownClaim"; "FailedToDecode"; "MaxWeightInvalid"; "NotHoldingFees"; "TooExpensive"; "Trap"; "ExpectationFalse"; "PalletNotFound"; "NameMismatch"; "VersionIncompatible"; "HoldingWouldOverflow"; "ExportError"; "ReanchorFailed"; "NoDeal"; "FeesNotMet"; "LockError"; "NoPermission"; "Unanchored"; "NotDepositable"; "TooManyAssets"; "UnhandledXcmVersion"; "WeightLimitReached"; "Barrier"; "WeightNotComputable"; "ExceedsStackLimit"])]).

Definition XcmVersionedAsset : interface :=
  ("Enum", [
  ("isV3", Plain "boolean"); ("asV3", Plain "XcmV3MultiAsset"); ("isV4", Plain "boolean");
  ("asV4", Plain "StagingXcmV4Asset"); ("isV5", Plain "boolean"); ("asV5", Plain "StagingXcmV5Asset");
  ("type", Union ["V3"; "V4"; "V5"])]).

Definition XcmVersionedAssetId : interface :=
  ("Enum", [
  ("isV3", Plain "boolean"); ("asV3", Plain "XcmV3MultiassetAssetId"); ("isV4", Plain "boolean");
  ("asV4", Plain "StagingXcmV4AssetAssetId"); ("isV5", Plain "boolean");
  ("asV5", Plain "StagingXcmV5AssetAssetId"); ("type", Union ["V3"; "V4"; "V5"])]).

Definition XcmVersionedAssets : interface :=
  ("Enum", [
  ("isV3", Plain "boolean"); ("asV3", Plain "XcmV3MultiassetMultiAssets"); ("isV4", Plain "boolean");
  ("asV4", Plain "StagingXcmV4AssetAssets"); ("isV5", Plain "boolean");
  ("asV5", Plain "StagingXcmV5AssetAssets"); ("type", Union ["V3"; "V4"; "V5"])]).

Definition XcmVersionedLocation : interface :=
  ("Enum", [
  ("isV3", Plain "boolean"); ("asV3", Plain "StagingXcmV3MultiLocation"); ("isV4", Plain "boolean");
  ("asV4", Plain "StagingXcmV4Location"); ("isV5", Plain "boolean"); ("asV5", Plain "StagingXcmV5Location");
  ("type", Union ["V3"; "V4"; "V5"])]).

Definition XcmVersionedResponse : interface :=
  ("Enum", [
  ("isV3", Plain "boolean"); ("asV3", Plain "XcmV3Response"); ("isV4", Plain "boolean");
  ("asV4", Plain "StagingXcmV4Response"); ("isV5", Plain "boolean"); ("asV5", Plain "StagingXcmV5Response");
  ("type", Union ["V3"; "V4"; "V5"])]).

Definition XcmVersionedXcm : interface :=
  ("Enum", [
  ("isV3", Plain "boolean"); ("asV3", Plain "XcmV3Xcm"); ("isV4", Plain "boolean");
  ("asV4", Plain "StagingXcmV4Xcm"); ("isV5", Plain "boolean"); ("asV5", Plain "StagingXcmV5Xcm");
  ("type", Union ["V3"; "V4"; "V5"])]).

End ByDefinition.

(** By name. *)
Definition default_interfaces : list (string * interface) := [
  ("CumulusPalletDmpQueueCall", ByDefinition.CumulusPalletDmpQueueCall);
  ("CumulusPalletDmpQueueEvent", ByDefinition.CumulusPalletDmpQueueEvent);
  ("CumulusPalletDmpQueueMigrationState", ByDefinition.CumulusPalletDmpQueueMigrationState);
  ("CumulusPalletParachainSystemCall", ByDefinition.CumulusPalletParachainSystemCall);
  ("CumulusPalletParachainSystemError", ByDefinition.CumulusPalletParachainSystemError);
  ("CumulusPalletParachainSystemEvent", ByDefinition.CumulusPalletParachainSystemEvent);
  ("CumulusPalletParachainSystemRelayStateSnapshotMessagingStateSnapshot", ByDefinition.CumulusPalletParachainSystemRelayStateSnapshotMessagingStateSnapshot);
  ("CumulusPalletParachainSystemRelayStateSnapshotRelayDispatchQueueRemainingCapacity", ByDefinition.CumulusPalletParachainSystemRelayStateSnapshotRelayDispatchQueueRemainingCapacity);
  ("CumulusPalletParachainSystemUnincludedSegmentAncestor", ByDefinition.CumulusPalletParachainSystemUnincludedSegmentAncestor);
  ("CumulusPalletParachainSystemUnincludedSegmentHrmpChannelUpdate", ByDefinition.CumulusPalletParachainSystemUnincludedSegmentHrmpChannelUpdate);
  ("CumulusPalletParachainSystemUnincludedSegmentSegmentTracker", ByDefinition.CumulusPalletParachainSystemUnincludedSegmentSegmentTracker);
  ("CumulusPalletParachainSystemUnincludedSegmentUsedBandwidth", ByDefinition.CumulusPalletParachainSystemUnincludedSegmentUsedBandwidth);
  ("CumulusPalletXcmCall", ByDefinition.CumulusPalletXcmCall);
  ("CumulusPalletXcmEvent", ByDefinition.CumulusPalletXcmEvent);
  ("CumulusPalletXcmOrigin", ByDefinition.CumulusPalletXcmOrigin);
  ("CumulusPalletXcmpQueueCall", ByDefinition.CumulusPalletXcmpQueueCall);
  ("CumulusPalletXcmpQueueError", ByDefinition.CumulusPalletXcmpQueueError);
  ("CumulusPalletXcmpQueueEvent", ByDefinition.CumulusPalletXcmpQueueEvent);
  ("CumulusPalletXcmpQueueOutboundChannelDetails", ByDefinition.CumulusPalletXcmpQueueOutboundChannelDetails);
  ("CumulusPalletXcmpQueueOutboundState", ByDefinition.CumulusPalletXcmpQueueOutboundState);
  ("CumulusPalletXcmpQueueQueueConfigData", ByDefinition.CumulusPalletXcmpQueueQueueConfigData);
  ("CumulusPrimitivesCoreAggregateMessageOrigin", ByDefinition.CumulusPrimitivesCoreAggregateMessageOrigin);
  ("CumulusPrimitivesParachainInherentParachainInherentData", ByDefinition.CumulusPrimitivesParachainInherentParachainInherentData);
  ("CumulusPrimitivesStorageWeightReclaimAllowDeprecatedStorageWeightReclaim", ByDefinition.CumulusPrimitivesStorageWeightReclaimAllowDeprecatedStorageWeightReclaim);
  ("EthbloomBloom", ByDefinition.EthbloomBloom); ("EthereumBlock", ByDefinition.EthereumBlock);
  ("EthereumHeader", ByDefinition.EthereumHeader); ("EthereumLog", ByDefinition.EthereumLog);
  ("EthereumReceiptEip658ReceiptData", ByDefinition.EthereumReceiptEip658ReceiptData);
  ("EthereumReceiptReceiptV3", ByDefinition.EthereumReceiptReceiptV3);
  ("EthereumTransactionEip1559Eip1559Transaction", ByDefinition.EthereumTransactionEip1559Eip1559Transaction);
  ("EthereumTransactionEip2930AccessListItem", ByDefinition.EthereumTransactionEip2930AccessListItem);
  ("EthereumTransactionEip2930Eip2930Transaction", ByDefinition.EthereumTransactionEip2930Eip2930Transaction);
  ("EthereumTransactionLegacyLegacyTransaction", ByDefinition.EthereumTransactionLegacyLegacyTransaction);
  ("EthereumTransactionLegacyTransactionAction", ByDefinition.EthereumTransactionLegacyTransactionAction);
  ("EthereumTransactionLegacyTransactionSignature", ByDefinition.EthereumTransactionLegacyTransactionSignature);
  ("EthereumTransactionTransactionV2", ByDefinition.EthereumTransactionTransactionV2);
  ("EthereumTypesHashH64", ByDefinition.EthereumTypesHashH64);
  ("EvmCoreErrorExitError", ByDefinition.EvmCoreErrorExitError);
  ("EvmCoreErrorExitFatal", ByDefinition.EvmCoreErrorExitFatal);
  ("EvmCoreErrorExitReason", ByDefinition.EvmCoreErrorExitReason);
  ("EvmCoreErrorExitRevert", ByDefinition.EvmCoreErrorExitRevert);
  ("EvmCoreErrorExitSucceed", ByDefinition.EvmCoreErrorExitSucceed);
  ("FpRpcTransactionStatus", ByDefinition.FpRpcTransactionStatus);
  ("FrameMetadataHashExtensionCheckMetadataHash", ByDefinition.FrameMetadataHashExtensionCheckMetadataHash);
  ("FrameMetadataHashExtensionMode", ByDefinition.FrameMetadataHashExtensionMode);
  ("FrameSupportDispatchDispatchClass", ByDefinition.FrameSupportDispatchDispatchClass);
  ("FrameSupportDispatchPays", ByDefinition.FrameSupportDispatchPays);
  ("FrameSupportDispatchPerDispatchClassU32", ByDefinition.FrameSupportDispatchPerDispatchClassU32);
  ("FrameSupportDispatchPerDispatchClassWeight", ByDefinition.FrameSupportDispatchPerDispatchClassWeight);
  ("FrameSupportDispatchPerDispatchClassWeightsPerClass", ByDefinition.FrameSupportDispatchPerDispatchClassWeightsPerClass);
  ("FrameSupportDispatchRawOrigin", ByDefinition.FrameSupportDispatchRawOrigin);
  ("FrameSupportMessagesProcessMessageError", ByDefinition.FrameSupportMessagesProcessMessageError);
  ("FrameSupportPalletId", ByDefinition.FrameSupportPalletId);
  ("FrameSupportPreimagesBounded", ByDefinition.FrameSupportPreimagesBounded);
  ("FrameSupportScheduleDispatchTime", ByDefinition.FrameSupportScheduleDispatchTime);
  ("FrameSupportStorageDisabled", ByDefinition.FrameSupportStorageDisabled);
  ("FrameSupportTokensMiscBalanceStatus", ByDefinition.FrameSupportTokensMiscBalanceStatus);
  ("FrameSupportTokensMiscIdAmount", ByDefinition.FrameSupportTokensMiscIdAmount);
  ("FrameSystemAccountInfo", ByDefinition.FrameSystemAccountInfo);
  ("FrameSystemCall", ByDefinition.FrameSystemCall);
  ("FrameSystemCodeUpgradeAuthorization", ByDefinition.FrameSystemCodeUpgradeAuthorization);
  ("FrameSystemDispatchEventInfo", ByDefinition.FrameSystemDispatchEventInfo);
  ("FrameSystemError", ByDefinition.FrameSystemError); ("FrameSystemEvent", ByDefinition.FrameSystemEvent);
  ("FrameSystemEventRecord", ByDefinition.FrameSystemEventRecord);
  ("FrameSystemExtensionsCheckGenesis", ByDefinition.FrameSystemExtensionsCheckGenesis);
  ("FrameSystemExtensionsCheckSpecVersion", ByDefinition.FrameSystemExtensionsCheckSpecVersion);
  ("FrameSystemExtensionsCheckTxVersion", ByDefinition.FrameSystemExtensionsCheckTxVersion);
  ("FrameSystemExtensionsCheckWeight", ByDefinition.FrameSystemExtensionsCheckWeight);
  ("FrameSystemLastRuntimeUpgradeInfo", ByDefinition.FrameSystemLastRuntimeUpgradeInfo);
  ("FrameSystemLimitsBlockLength", ByDefinition.FrameSystemLimitsBlockLength);
  ("FrameSystemLimitsBlockWeights", ByDefinition.FrameSystemLimitsBlockWeights);
  ("FrameSystemLimitsWeightsPerClass", ByDefinition.FrameSystemLimitsWeightsPerClass);
  ("FrameSystemPhase", ByDefinition.FrameSystemPhase);
  ("OpalRuntimeOriginCaller", ByDefinition.OpalRuntimeOriginCaller);
  ("OpalRuntimeRuntime", ByDefinition.OpalRuntimeRuntime);
  ("OpalRuntimeRuntimeCommonFeeCoefficientCalculator", ByDefinition.OpalRuntimeRuntimeCommonFeeCoefficientCalculator);
  ("OpalRuntimeRuntimeCommonIdentityDisableIdentityCalls", ByDefinition.OpalRuntimeRuntimeCommonIdentityDisableIdentityCalls);
  ("OpalRuntimeRuntimeCommonMaintenanceCheckMaintenance", ByDefinition.OpalRuntimeRuntimeCommonMaintenanceCheckMaintenance);
  ("OpalRuntimeRuntimeCommonSessionKeys", ByDefinition.OpalRuntimeRuntimeCommonSessionKeys);
  ("OpalRuntimeRuntimeHoldReason", ByDefinition.OpalRuntimeRuntimeHoldReason);
  ("OrmlVestingModuleCall", ByDefinition.OrmlVestingModuleCall);
  ("OrmlVestingModuleError", ByDefinition.OrmlVestingModuleError);
  ("OrmlVestingModuleEvent", ByDefinition.OrmlVestingModuleEvent);
  ("OrmlVestingVestingSchedule", ByDefinition.OrmlVestingVestingSchedule);
  ("OrmlXtokensModuleCall", ByDefinition.OrmlXtokensModuleCall);
  ("OrmlXtokensModuleError", ByDefinition.OrmlXtokensModuleError);
  ("OrmlXtokensModuleEvent", ByDefinition.OrmlXtokensModuleEvent);
  ("PalletAppPromotionCall", ByDefinition.PalletAppPromotionCall);
  ("PalletAppPromotionError", ByDefinition.PalletAppPromotionError);
  ("PalletAppPromotionEvent", ByDefinition.PalletAppPromotionEvent);
  ("PalletBalancesAccountData", ByDefinition.PalletBalancesAccountData);
  ("PalletBalancesAdjustmentDirection", ByDefinition.PalletBalancesAdjustmentDirection);
  ("PalletBalancesBalanceLock", ByDefinition.PalletBalancesBalanceLock);
  ("PalletBalancesCall", ByDefinition.PalletBalancesCall);
  ("PalletBalancesError", ByDefinition.PalletBalancesError);
  ("PalletBalancesEvent", ByDefinition.PalletBalancesEvent);
  ("PalletBalancesReasons", ByDefinition.PalletBalancesReasons);
  ("PalletBalancesReserveData", ByDefinition.PalletBalancesReserveData);
  ("PalletCollatorSelectionCall", ByDefinition.PalletCollatorSelectionCall);
  ("PalletCollatorSelectionError", ByDefinition.PalletCollatorSelectionError);
  ("PalletCollatorSelectionEvent", ByDefinition.PalletCollatorSelectionEvent);
  ("PalletCollatorSelectionHoldReason", ByDefinition.PalletCollatorSelectionHoldReason);
  ("PalletCollectiveCall", ByDefinition.PalletCollectiveCall);
  ("PalletCollectiveError", ByDefinition.PalletCollectiveError);
  ("PalletCollectiveEvent", ByDefinition.PalletCollectiveEvent);
  ("PalletCollectiveHoldReason", ByDefinition.PalletCollectiveHoldReason);
  ("PalletCollectiveRawOrigin", ByDefinition.PalletCollectiveRawOrigin);
  ("PalletCollectiveVotes", ByDefinition.PalletCollectiveVotes);
  ("PalletCommonError", ByDefinition.PalletCommonError); ("PalletCommonEvent", ByDefinition.PalletCommonEvent);
  ("PalletConfigurationAppPromotionConfiguration", ByDefinition.PalletConfigurationAppPromotionConfiguration);
  ("PalletConfigurationCall", ByDefinition.PalletConfigurationCall);
  ("PalletConfigurationError", ByDefinition.PalletConfigurationError);
  ("PalletConfigurationEvent", ByDefinition.PalletConfigurationEvent);
  ("PalletDemocracyCall", ByDefinition.PalletDemocracyCall);
  ("PalletDemocracyConviction", ByDefinition.PalletDemocracyConviction);
  ("PalletDemocracyDelegations", ByDefinition.PalletDemocracyDelegations);
  ("PalletDemocracyError", ByDefinition.PalletDemocracyError);
  ("PalletDemocracyEvent", ByDefinition.PalletDemocracyEvent);
  ("PalletDemocracyMetadataOwner", ByDefinition.PalletDemocracyMetadataOwner);
  ("PalletDemocracyReferendumInfo", ByDefinition.PalletDemocracyReferendumInfo);
  ("PalletDemocracyReferendumStatus", ByDefinition.PalletDemocracyReferendumStatus);
  ("PalletDemocracyTally", ByDefinition.PalletDemocracyTally);
  ("PalletDemocracyVoteAccountVote", ByDefinition.PalletDemocracyVoteAccountVote);
  ("PalletDemocracyVotePriorLock", ByDefinition.PalletDemocracyVotePriorLock);
  ("PalletDemocracyVoteThreshold", ByDefinition.PalletDemocracyVoteThreshold);
  ("PalletDemocracyVoteVoting", ByDefinition.PalletDemocracyVoteVoting);
  ("PalletEthereumCall", ByDefinition.PalletEthereumCall);
  ("PalletEthereumError", ByDefinition.PalletEthereumError);
  ("PalletEthereumEvent", ByDefinition.PalletEthereumEvent);
  ("PalletEthereumFakeTransactionFinalizer", ByDefinition.PalletEthereumFakeTransactionFinalizer);
  ("PalletEthereumRawOrigin", ByDefinition.PalletEthereumRawOrigin);
  ("PalletEvmAccountBasicCrossAccountIdRepr", ByDefinition.PalletEvmAccountBasicCrossAccountIdRepr);
  ("PalletEvmCall", ByDefinition.PalletEvmCall); ("PalletEvmCodeMetadata", ByDefinition.PalletEvmCodeMetadata);
  ("PalletEvmCoderSubstrateError", ByDefinition.PalletEvmCoderSubstrateError);
  ("PalletEvmContractHelpersCall", ByDefinition.PalletEvmContractHelpersCall);
  ("PalletEvmContractHelpersError", ByDefinition.PalletEvmContractHelpersError);
  ("PalletEvmContractHelpersEvent", ByDefinition.PalletEvmContractHelpersEvent);
  ("PalletEvmContractHelpersSponsoringModeT", ByDefinition.PalletEvmContractHelpersSponsoringModeT);
  ("PalletEvmError", ByDefinition.PalletEvmError); ("PalletEvmEvent", ByDefinition.PalletEvmEvent);
  ("PalletEvmMigrationCall", ByDefinition.PalletEvmMigrationCall);
  ("PalletEvmMigrationError", ByDefinition.PalletEvmMigrationError);
  ("PalletEvmMigrationEvent", ByDefinition.PalletEvmMigrationEvent);
  ("PalletForeignAssetsForeignCollectionMode", ByDefinition.PalletForeignAssetsForeignCollectionMode);
  ("PalletForeignAssetsMigrationStatus", ByDefinition.PalletForeignAssetsMigrationStatus);
  ("PalletForeignAssetsMigrationStatusV3ToV5", ByDefinition.PalletForeignAssetsMigrationStatusV3ToV5);
  ("PalletForeignAssetsModuleCall", ByDefinition.PalletForeignAssetsModuleCall);
  ("PalletForeignAssetsModuleError", ByDefinition.PalletForeignAssetsModuleError);
  ("PalletForeignAssetsModuleEvent", ByDefinition.PalletForeignAssetsModuleEvent);
  ("PalletFungibleError", ByDefinition.PalletFungibleError);
  ("PalletGovOriginsOrigin", ByDefinition.PalletGovOriginsOrigin);
  ("PalletIdentityBitFlags", ByDefinition.PalletIdentityBitFlags);
  ("PalletIdentityCall", ByDefinition.PalletIdentityCall);
  ("PalletIdentityError", ByDefinition.PalletIdentityError);
  ("PalletIdentityEvent", ByDefinition.PalletIdentityEvent);
  ("PalletIdentityIdentityField", ByDefinition.PalletIdentityIdentityField);
  ("PalletIdentityIdentityInfo", ByDefinition.PalletIdentityIdentityInfo);
  ("PalletIdentityJudgement", ByDefinition.PalletIdentityJudgement);
  ("PalletIdentityRegistrarInfo", ByDefinition.PalletIdentityRegistrarInfo);
  ("PalletIdentityRegistration", ByDefinition.PalletIdentityRegistration);
  ("PalletInflationCall", ByDefinition.PalletInflationCall);
  ("PalletMaintenanceCall", ByDefinition.PalletMaintenanceCall);
  ("PalletMaintenanceError", ByDefinition.PalletMaintenanceError);
  ("PalletMaintenanceEvent", ByDefinition.PalletMaintenanceEvent);
  ("PalletMembershipCall", ByDefinition.PalletMembershipCall);
  ("PalletMembershipError", ByDefinition.PalletMembershipError);
  ("PalletMembershipEvent", ByDefinition.PalletMembershipEvent);
  ("PalletMessageQueueBookState", ByDefinition.PalletMessageQueueBookState);
  ("PalletMessageQueueCall", ByDefinition.PalletMessageQueueCall);
  ("PalletMessageQueueError", ByDefinition.PalletMessageQueueError);
  ("PalletMessageQueueEvent", ByDefinition.PalletMessageQueueEvent);
  ("PalletMessageQueueNeighbours", ByDefinition.PalletMessageQueueNeighbours);
  ("PalletMessageQueuePage", ByDefinition.PalletMessageQueuePage);
  ("PalletNonfungibleError", ByDefinition.PalletNonfungibleError);
  ("PalletNonfungibleItemData", ByDefinition.PalletNonfungibleItemData);
  ("PalletPreimageCall", ByDefinition.PalletPreimageCall);
  ("PalletPreimageError", ByDefinition.PalletPreimageError);
  ("PalletPreimageEvent", ByDefinition.PalletPreimageEvent);
  ("PalletPreimageHoldReason", ByDefinition.PalletPreimageHoldReason);
  ("PalletPreimageOldRequestStatus", ByDefinition.PalletPreimageOldRequestStatus);
  ("PalletPreimageRequestStatus", ByDefinition.PalletPreimageRequestStatus);
  ("PalletRankedCollectiveCall", ByDefinition.PalletRankedCollectiveCall);
  ("PalletRankedCollectiveError", ByDefinition.PalletRankedCollectiveError);
  ("PalletRankedCollectiveEvent", ByDefinition.PalletRankedCollectiveEvent);
  ("PalletRankedCollectiveMemberRecord", ByDefinition.PalletRankedCollectiveMemberRecord);
  ("PalletRankedCollectiveTally", ByDefinition.PalletRankedCollectiveTally);
  ("PalletRankedCollectiveVoteRecord", ByDefinition.PalletRankedCollectiveVoteRecord);
  ("PalletReferendaCall", ByDefinition.PalletReferendaCall);
  ("PalletReferendaCurve", ByDefinition.PalletReferendaCurve);
  ("PalletReferendaDecidingStatus", ByDefinition.PalletReferendaDecidingStatus);
  ("PalletReferendaDeposit", ByDefinition.PalletReferendaDeposit);
  ("PalletReferendaError", ByDefinition.PalletReferendaError);
  ("PalletReferendaEvent", ByDefinition.PalletReferendaEvent);
  ("PalletReferendaReferendumInfo", ByDefinition.PalletReferendaReferendumInfo);
  ("PalletReferendaReferendumStatus", ByDefinition.PalletReferendaReferendumStatus);
  ("PalletReferendaTrackDetails", ByDefinition.PalletReferendaTrackDetails);
  ("PalletRefungibleError", ByDefinition.PalletRefungibleError);
  ("PalletSchedulerCall", ByDefinition.PalletSchedulerCall);
  ("PalletSchedulerError", ByDefinition.PalletSchedulerError);
  ("PalletSchedulerEvent", ByDefinition.PalletSchedulerEvent);
  ("PalletSchedulerRetryConfig", ByDefinition.PalletSchedulerRetryConfig);
  ("PalletSchedulerScheduled", ByDefinition.PalletSchedulerScheduled);
  ("PalletSessionCall", ByDefinition.PalletSessionCall);
  ("PalletSessionError", ByDefinition.PalletSessionError);
  ("PalletSessionEvent", ByDefinition.PalletSessionEvent);
  ("PalletSponsoringChargeTransactionPayment", ByDefinition.PalletSponsoringChargeTransactionPayment);
  ("PalletSponsoringCheckNonce", ByDefinition.PalletSponsoringCheckNonce);
  ("PalletStateTrieMigrationCall", ByDefinition.PalletStateTrieMigrationCall);
  ("PalletStateTrieMigrationError", ByDefinition.PalletStateTrieMigrationError);
  ("PalletStateTrieMigrationEvent", ByDefinition.PalletStateTrieMigrationEvent);
  ("PalletStateTrieMigrationHoldReason", ByDefinition.PalletStateTrieMigrationHoldReason);
  ("PalletStateTrieMigrationMigrationCompute", ByDefinition.PalletStateTrieMigrationMigrationCompute);
  ("PalletStateTrieMigrationMigrationLimits", ByDefinition.PalletStateTrieMigrationMigrationLimits);
  ("PalletStateTrieMigrationMigrationTask", ByDefinition.PalletStateTrieMigrationMigrationTask);
  ("PalletStateTrieMigrationProgress", ByDefinition.PalletStateTrieMigrationProgress);
  ("PalletStructureCall", ByDefinition.PalletStructureCall);
  ("PalletStructureError", ByDefinition.PalletStructureError);
  ("PalletStructureEvent", ByDefinition.PalletStructureEvent); ("PalletSudoCall", ByDefinition.PalletSudoCall);
  ("PalletSudoError", ByDefinition.PalletSudoError); ("PalletSudoEvent", ByDefinition.PalletSudoEvent);
  ("PalletTestUtilsCall", ByDefinition.PalletTestUtilsCall);
  ("PalletTestUtilsError", ByDefinition.PalletTestUtilsError);
  ("PalletTestUtilsEvent", ByDefinition.PalletTestUtilsEvent);
  ("PalletTimestampCall", ByDefinition.PalletTimestampCall);
  ("PalletTransactionPaymentEvent", ByDefinition.PalletTransactionPaymentEvent);
  ("PalletTransactionPaymentReleases", ByDefinition.PalletTransactionPaymentReleases);
  ("PalletTreasuryCall", ByDefinition.PalletTreasuryCall);
  ("PalletTreasuryError", ByDefinition.PalletTreasuryError);
  ("PalletTreasuryEvent", ByDefinition.PalletTreasuryEvent);
  ("PalletTreasuryPaymentState", ByDefinition.PalletTreasuryPaymentState);
  ("PalletTreasuryProposal", ByDefinition.PalletTreasuryProposal);
  ("PalletTreasurySpendStatus", ByDefinition.PalletTreasurySpendStatus);
  ("PalletUniqueCall", ByDefinition.PalletUniqueCall); ("PalletUniqueError", ByDefinition.PalletUniqueError);
  ("PalletUtilityCall", ByDefinition.PalletUtilityCall);
  ("PalletUtilityError", ByDefinition.PalletUtilityError);
  ("PalletUtilityEvent", ByDefinition.PalletUtilityEvent);
  ("PalletXcmAuthorizedAliasesEntry", ByDefinition.PalletXcmAuthorizedAliasesEntry);
  ("PalletXcmCall", ByDefinition.PalletXcmCall); ("PalletXcmError", ByDefinition.PalletXcmError);
  ("PalletXcmEvent", ByDefinition.PalletXcmEvent); ("PalletXcmHoldReason", ByDefinition.PalletXcmHoldReason);
  ("PalletXcmMaxAuthorizedAliases", ByDefinition.PalletXcmMaxAuthorizedAliases);
  ("PalletXcmOrigin", ByDefinition.PalletXcmOrigin);
  ("PalletXcmQueryStatus", ByDefinition.PalletXcmQueryStatus);
  ("PalletXcmRemoteLockedFungibleRecord", ByDefinition.PalletXcmRemoteLockedFungibleRecord);
  ("PalletXcmVersionMigrationStage", ByDefinition.PalletXcmVersionMigrationStage);
  ("PhantomTypeUpDataStructs", ByDefinition.PhantomTypeUpDataStructs);
  ("PolkadotCorePrimitivesInboundDownwardMessage", ByDefinition.PolkadotCorePrimitivesInboundDownwardMessage);
  ("PolkadotCorePrimitivesInboundHrmpMessage", ByDefinition.PolkadotCorePrimitivesInboundHrmpMessage);
  ("PolkadotCorePrimitivesOutboundHrmpMessage", ByDefinition.PolkadotCorePrimitivesOutboundHrmpMessage);
  ("PolkadotPrimitivesV8AbridgedHostConfiguration", ByDefinition.PolkadotPrimitivesV8AbridgedHostConfiguration);
  ("PolkadotPrimitivesV8AbridgedHrmpChannel", ByDefinition.PolkadotPrimitivesV8AbridgedHrmpChannel);
  ("PolkadotPrimitivesV8AsyncBackingAsyncBackingParams", ByDefinition.PolkadotPrimitivesV8AsyncBackingAsyncBackingParams);
  ("PolkadotPrimitivesV8PersistedValidationData", ByDefinition.PolkadotPrimitivesV8PersistedValidationData);
  ("PolkadotPrimitivesV8UpgradeGoAhead", ByDefinition.PolkadotPrimitivesV8UpgradeGoAhead);
  ("PolkadotPrimitivesV8UpgradeRestriction", ByDefinition.PolkadotPrimitivesV8UpgradeRestriction);
  ("SpArithmeticArithmeticError", ByDefinition.SpArithmeticArithmeticError);
  ("SpConsensusAuraSr25519AppSr25519Public", ByDefinition.SpConsensusAuraSr25519AppSr25519Public);
  ("SpCoreCryptoKeyTypeId", ByDefinition.SpCoreCryptoKeyTypeId);
  ("SpRuntimeBlakeTwo256", ByDefinition.SpRuntimeBlakeTwo256);
  ("SpRuntimeDigest", ByDefinition.SpRuntimeDigest);
  ("SpRuntimeDigestDigestItem", ByDefinition.SpRuntimeDigestDigestItem);
  ("SpRuntimeDispatchError", ByDefinition.SpRuntimeDispatchError);
  ("SpRuntimeModuleError", ByDefinition.SpRuntimeModuleError);
  ("SpRuntimeMultiSignature", ByDefinition.SpRuntimeMultiSignature);
  ("SpRuntimeProvingTrieTrieError", ByDefinition.SpRuntimeProvingTrieTrieError);
  ("SpRuntimeTokenError", ByDefinition.SpRuntimeTokenError);
  ("SpRuntimeTransactionalError", ByDefinition.SpRuntimeTransactionalError);
  ("SpRuntimeTransactionValidityInvalidTransaction", ByDefinition.SpRuntimeTransactionValidityInvalidTransaction);
  ("SpRuntimeTransactionValidityTransactionValidityError", ByDefinition.SpRuntimeTransactionValidityTransactionValidityError);
  ("SpRuntimeTransactionValidityUnknownTransaction", ByDefinition.SpRuntimeTransactionValidityUnknownTransaction);
  ("SpTrieStorageProof", ByDefinition.SpTrieStorageProof);
  ("SpVersionRuntimeVersion", ByDefinition.SpVersionRuntimeVersion);
  ("SpWeightsRuntimeDbWeight", ByDefinition.SpWeightsRuntimeDbWeight);
  ("SpWeightsWeightV2Weight", ByDefinition.SpWeightsWeightV2Weight);
  ("StagingParachainInfoCall", ByDefinition.StagingParachainInfoCall);
  ("StagingXcmExecutorAssetTransferTransferType", ByDefinition.StagingXcmExecutorAssetTransferTransferType);
  ("StagingXcmV3MultiLocation", ByDefinition.StagingXcmV3MultiLocation);
  ("StagingXcmV4Asset", ByDefinition.StagingXcmV4Asset);
  ("StagingXcmV4AssetAssetFilter", ByDefinition.StagingXcmV4AssetAssetFilter);
  ("StagingXcmV4AssetAssetId", ByDefinition.StagingXcmV4AssetAssetId);
  ("StagingXcmV4AssetAssetInstance", ByDefinition.StagingXcmV4AssetAssetInstance);
  ("StagingXcmV4AssetAssets", ByDefinition.StagingXcmV4AssetAssets);
  ("StagingXcmV4AssetFungibility", ByDefinition.StagingXcmV4AssetFungibility);
  ("StagingXcmV4AssetWildAsset", ByDefinition.StagingXcmV4AssetWildAsset);
  ("StagingXcmV4AssetWildFungibility", ByDefinition.StagingXcmV4AssetWildFungibility);
  ("StagingXcmV4Instruction", ByDefinition.StagingXcmV4Instruction);
  ("StagingXcmV4Junction", ByDefinition.StagingXcmV4Junction);
  ("StagingXcmV4JunctionNetworkId", ByDefinition.StagingXcmV4JunctionNetworkId);
  ("StagingXcmV4Junctions", ByDefinition.StagingXcmV4Junctions);
  ("StagingXcmV4Location", ByDefinition.StagingXcmV4Location);
  ("StagingXcmV4PalletInfo", ByDefinition.StagingXcmV4PalletInfo);
  ("StagingXcmV4QueryResponseInfo", ByDefinition.StagingXcmV4QueryResponseInfo);
  ("StagingXcmV4Response", ByDefinition.StagingXcmV4Response);
  ("StagingXcmV4Xcm", ByDefinition.StagingXcmV4Xcm); ("StagingXcmV5Asset", ByDefinition.StagingXcmV5Asset);
  ("StagingXcmV5AssetAssetFilter", ByDefinition.StagingXcmV5AssetAssetFilter);
  ("StagingXcmV5AssetAssetId", ByDefinition.StagingXcmV5AssetAssetId);
  ("StagingXcmV5AssetAssetInstance", ByDefinition.StagingXcmV5AssetAssetInstance);
  ("StagingXcmV5AssetAssets", ByDefinition.StagingXcmV5AssetAssets);
  ("StagingXcmV5AssetAssetTransferFilter", ByDefinition.StagingXcmV5AssetAssetTransferFilter);
  ("StagingXcmV5AssetFungibility", ByDefinition.StagingXcmV5AssetFungibility);
  ("StagingXcmV5AssetWildAsset", ByDefinition.StagingXcmV5AssetWildAsset);
  ("StagingXcmV5AssetWildFungibility", ByDefinition.StagingXcmV5AssetWildFungibility);
  ("StagingXcmV5Hint", ByDefinition.StagingXcmV5Hint);
  ("StagingXcmV5Instruction", ByDefinition.StagingXcmV5Instruction);
  ("StagingXcmV5Junction", ByDefinition.StagingXcmV5Junction);
  ("StagingXcmV5JunctionNetworkId", ByDefinition.StagingXcmV5JunctionNetworkId);
  ("StagingXcmV5Junctions", ByDefinition.StagingXcmV5Junctions);
  ("StagingXcmV5Location", ByDefinition.StagingXcmV5Location);
  ("StagingXcmV5PalletInfo", ByDefinition.StagingXcmV5PalletInfo);
  ("StagingXcmV5QueryResponseInfo", ByDefinition.StagingXcmV5QueryResponseInfo);
  ("StagingXcmV5Response", ByDefinition.StagingXcmV5Response);
  ("StagingXcmV5TraitsOutcome", ByDefinition.StagingXcmV5TraitsOutcome);
  ("StagingXcmV5Xcm", ByDefinition.StagingXcmV5Xcm);
  ("UpDataStructsAccessMode", ByDefinition.UpDataStructsAccessMode);
  ("UpDataStructsCollection", ByDefinition.UpDataStructsCollection);
  ("UpDataStructsCollectionLimits", ByDefinition.UpDataStructsCollectionLimits);
  ("UpDataStructsCollectionMode", ByDefinition.UpDataStructsCollectionMode);
  ("UpDataStructsCollectionPermissions", ByDefinition.UpDataStructsCollectionPermissions);
  ("UpDataStructsCollectionStats", ByDefinition.UpDataStructsCollectionStats);
  ("UpDataStructsCreateCollectionData", ByDefinition.UpDataStructsCreateCollectionData);
  ("UpDataStructsCreateFungibleData", ByDefinition.UpDataStructsCreateFungibleData);
  ("UpDataStructsCreateItemData", ByDefinition.UpDataStructsCreateItemData);
  ("UpDataStructsCreateItemExData", ByDefinition.UpDataStructsCreateItemExData);
  ("UpDataStructsCreateNftData", ByDefinition.UpDataStructsCreateNftData);
  ("UpDataStructsCreateNftExData", ByDefinition.UpDataStructsCreateNftExData);
  ("UpDataStructsCreateReFungibleData", ByDefinition.UpDataStructsCreateReFungibleData);
  ("UpDataStructsCreateRefungibleExMultipleOwners", ByDefinition.UpDataStructsCreateRefungibleExMultipleOwners);
  ("UpDataStructsCreateRefungibleExSingleOwner", ByDefinition.UpDataStructsCreateRefungibleExSingleOwner);
  ("UpDataStructsNestingPermissions", ByDefinition.UpDataStructsNestingPermissions);
  ("UpDataStructsOwnerRestrictedSet", ByDefinition.UpDataStructsOwnerRestrictedSet);
  ("UpDataStructsProperties", ByDefinition.UpDataStructsProperties);
  ("UpDataStructsPropertiesMapBoundedVec", ByDefinition.UpDataStructsPropertiesMapBoundedVec);
  ("UpDataStructsPropertiesMapPropertyPermission", ByDefinition.UpDataStructsPropertiesMapPropertyPermission);
  ("UpDataStructsProperty", ByDefinition.UpDataStructsProperty);
  ("UpDataStructsPropertyKeyPermission", ByDefinition.UpDataStructsPropertyKeyPermission);
  ("UpDataStructsPropertyPermission", ByDefinition.UpDataStructsPropertyPermission);
  ("UpDataStructsPropertyScope", ByDefinition.UpDataStructsPropertyScope);
  ("UpDataStructsRpcCollection", ByDefinition.UpDataStructsRpcCollection);
  ("UpDataStructsRpcCollectionFlags", ByDefinition.UpDataStructsRpcCollectionFlags);
  ("UpDataStructsSponsoringRateLimit", ByDefinition.UpDataStructsSponsoringRateLimit);
  ("UpDataStructsSponsorshipStateAccountId32", ByDefinition.UpDataStructsSponsorshipStateAccountId32);
  ("UpDataStructsSponsorshipStateBasicCrossAccountIdRepr", ByDefinition.UpDataStructsSponsorshipStateBasicCrossAccountIdRepr);
  ("UpDataStructsTokenChild", ByDefinition.UpDataStructsTokenChild);
  ("UpDataStructsTokenData", ByDefinition.UpDataStructsTokenData);
  ("UpPovEstimateRpcPovInfo", ByDefinition.UpPovEstimateRpcPovInfo);
  ("UpPovEstimateRpcTrieKeyValue", ByDefinition.UpPovEstimateRpcTrieKeyValue);
  ("XcmDoubleEncoded", ByDefinition.XcmDoubleEncoded);
  ("XcmRuntimeApisAuthorizedAliasesOriginAliaser", ByDefinition.XcmRuntimeApisAuthorizedAliasesOriginAliaser);
  ("XcmV3Instruction", ByDefinition.XcmV3Instruction); ("XcmV3Junction", ByDefinition.XcmV3Junction);
  ("XcmV3JunctionBodyId", ByDefinition.XcmV3JunctionBodyId);
  ("XcmV3JunctionBodyPart", ByDefinition.XcmV3JunctionBodyPart);
  ("XcmV3JunctionNetworkId", ByDefinition.XcmV3JunctionNetworkId);
  ("XcmV3Junctions", ByDefinition.XcmV3Junctions); ("XcmV3MaybeErrorCode", ByDefinition.XcmV3MaybeErrorCode);
  ("XcmV3MultiAsset", ByDefinition.XcmV3MultiAsset);
  ("XcmV3MultiassetAssetId", ByDefinition.XcmV3MultiassetAssetId);
  ("XcmV3MultiassetAssetInstance", ByDefinition.XcmV3MultiassetAssetInstance);
  ("XcmV3MultiassetFungibility", ByDefinition.XcmV3MultiassetFungibility);
  ("XcmV3MultiassetMultiAssetFilter", ByDefinition.XcmV3MultiassetMultiAssetFilter);
  ("XcmV3MultiassetMultiAssets", ByDefinition.XcmV3MultiassetMultiAssets);
  ("XcmV3MultiassetWildFungibility", ByDefinition.XcmV3MultiassetWildFungibility);
  ("XcmV3MultiassetWildMultiAsset", ByDefinition.XcmV3MultiassetWildMultiAsset);
  ("XcmV3OriginKind", ByDefinition.XcmV3OriginKind); ("XcmV3PalletInfo", ByDefinition.XcmV3PalletInfo);
  ("XcmV3QueryResponseInfo", ByDefinition.XcmV3QueryResponseInfo);
  ("XcmV3Response", ByDefinition.XcmV3Response); ("XcmV3TraitsError", ByDefinition.XcmV3TraitsError);
  ("XcmV3TraitsSendError", ByDefinition.XcmV3TraitsSendError);
  ("XcmV3WeightLimit", ByDefinition.XcmV3WeightLimit); ("XcmV3Xcm", ByDefinition.XcmV3Xcm);
  ("XcmV5TraitsError", ByDefinition.XcmV5TraitsError); ("XcmVersionedAsset", ByDefinition.XcmVersionedAsset);
  ("XcmVersionedAssetId", ByDefinition.XcmVersionedAssetId);
  ("XcmVersionedAssets", ByDefinition.XcmVersionedAssets);
  ("XcmVersionedLocation", ByDefinition.XcmVersionedLocation);
  ("XcmVersionedResponse", ByDefinition.XcmVersionedResponse); ("XcmVersionedXcm", ByDefinition.XcmVersionedXcm)].
