(* ===== verification/ErrorDefs.v ===== *)
(** * The errors of the chain

    The errors that types/augment-api-errors.ts declares, by pallet. *)

From Stdlib Require Import String.
From stdpp Require Import list.

#[local] Open Scope string_scope.

Module Errors.

Definition appPromotion : list string := [
  "AdminNotSet"; "InconsistencyState"; "InsufficientStakedBalance"; "NoPermission"; "NotSufficientFunds";
  "PendingForBlockOverflow"; "SponsorNotSet"].

Definition balances : list string := [
  "DeadAccount"; "DeltaZero"; "ExistentialDeposit"; "ExistingVestingSchedule"; "Expendability";
  "InsufficientBalance"; "IssuanceDeactivated"; "LiquidityRestrictions"; "TooManyFreezes"; "TooManyHolds";
  "TooManyReserves"; "VestingBalance"].

Definition collatorSelection : list string := [
  "AlreadyCandidate"; "AlreadyHoldingLicense"; "AlreadyInvulnerable"; "NoAssociatedValidatorId"; "NoLicense";
  "NotCandidate"; "NotInvulnerable"; "Permission"; "TooFewInvulnerables"; "TooManyCandidates";
  "TooManyInvulnerables"; "Unknown"; "ValidatorNotRegistered"].

Definition common : list string := [
  "AccountTokenLimitExceeded"; "AddressIsNotEthMirror"; "AddressIsZero"; "AddressNotInAllowlist";
  "ApprovedValueTooLow"; "CantApproveMoreThanOwned"; "CantDestroyNotEmptyCollection";
  "CollectionAdminCountExceeded"; "CollectionDescriptionLimitExceeded"; "CollectionFieldSizeExceeded";
  "CollectionIsExternal"; "CollectionIsInternal"; "CollectionLimitBoundsExceeded";
  "CollectionNameLimitExceeded"; "CollectionNotFound"; "CollectionTokenLimitExceeded";
  "CollectionTokenPrefixLimitExceeded"; "ConfirmSponsorshipFail"; "EmptyPropertyKey"; "FungibleItemsHaveNoId";
  "InvalidCharacterInPropertyKey"; "MetadataFlagFrozen"; "MustBeTokenOwner"; "NoPermission";
  "NoSpaceForProperty"; "NotFungibleDataUsedToMintFungibleCollectionToken"; "NotSufficientFounds";
  "OwnerPermissionsCantBeReverted"; "PropertyKeyIsTooLong"; "PropertyLimitReached"; "PublicMintingNotAllowed";
  "SourceCollectionIsNotAllowedToNest"; "TokenNotFound"; "TokenValueTooLow"; "TotalCollectionsLimitExceeded";
  "TransferNotAllowed"; "UnsupportedOperation"; "UserIsNotAllowedToNest"; "UserIsNotCollectionAdmin"].

Definition configuration : list string := [
  "InconsistentConfiguration"].

Definition council : list string := [
  "AlreadyInitialized"; "DuplicateProposal"; "DuplicateVote"; "NotMember"; "PrimeAccountNotMember";
  "ProposalActive"; "ProposalMissing"; "TooEarly"; "TooManyProposals"; "WrongIndex"; "WrongProposalLength";
  "WrongProposalWeight"].

Definition councilMembership : list string := [
  "AlreadyMember"; "NotMember"; "TooManyMembers"].

Definition democracy : list string := [
  "AlreadyCanceled"; "AlreadyDelegating"; "AlreadyVetoed"; "DuplicateProposal"; "InstantNotAllowed";
  "InsufficientFunds"; "InvalidHash"; "MaxVotesReached"; "NoneWaiting"; "Nonsense"; "NoPermission";
  "NoProposal"; "NotDelegating"; "NotSimpleMajority"; "NotVoter"; "PreimageNotExist"; "ProposalBlacklisted";
  "ProposalMissing"; "ReferendumInvalid"; "TooMany"; "ValueLow"; "VotesExist"; "VotingPeriodLow";
  "WrongUpperBound"].

Definition ethereum : list string := [
  "InvalidSignature"; "PreLogExists"].

Definition evm : list string := [
  "BalanceLow"; "CreateOriginNotAllowed"; "FeeOverflow"; "GasLimitTooHigh"; "GasLimitTooLow"; "GasPriceTooLow";
  "InvalidChainId"; "InvalidNonce"; "InvalidSignature"; "PaymentOverflow"; "Reentrancy";
  "TransactionMustComeFromEOA"; "Undefined"; "WithdrawFailed"].

Definition evmCoderSubstrate : list string := [
  "OutOfFund"; "OutOfGas"].

Definition evmContractHelpers : list string := [
  "NoPendingSponsor"; "NoPermission"; "TooManyMethodsHaveSponsoredLimit"].

Definition evmMigration : list string := [
  "AccountIsNotMigrating"; "AccountNotEmpty"; "BadEvent"].

Definition fellowshipCollective : list string := [
  "AlreadyMember"; "Corruption"; "InvalidWitness"; "NoneRemaining"; "NoPermission"; "NotMember"; "NotPolling";
  "Ongoing"; "RankTooLow"; "SameMember"; "TooManyMembers"].

Definition fellowshipReferenda : list string := [
  "BadReferendum"; "BadStatus"; "BadTrack"; "Full"; "HasDeposit"; "NoDeposit"; "NoPermission"; "NothingToDo";
  "NotOngoing"; "NoTrack"; "PreimageNotExist"; "PreimageStoredWithDifferentLength"; "QueueEmpty"; "Unfinished"].

Definition financialCouncil : list string := [
  "AlreadyInitialized"; "DuplicateProposal"; "DuplicateVote"; "NotMember"; "PrimeAccountNotMember";
  "ProposalActive"; "ProposalMissing"; "TooEarly"; "TooManyProposals"; "WrongIndex"; "WrongProposalLength";
  "WrongProposalWeight"].

Definition financialCouncilMembership : list string := [
  "AlreadyMember"; "NotMember"; "TooManyMembers"].

Definition foreignAssets : list string := [
  "BadForeignAssetId"; "ForeignAssetAlreadyRegistered"; "ForeignAssetNotFound"].

Definition fungible : list string := [
  "FungibleDisallowsNesting"; "FungibleItemsDontHaveData"; "FungibleTokensAreAlwaysValid";
  "SettingAllowanceForAllNotAllowed"; "SettingPropertiesNotAllowed"].

Definition identity : list string := [
  "AlreadyClaimed"; "EmptyIndex"; "FeeChanged"; "InvalidIndex"; "InvalidJudgement"; "InvalidTarget";
  "JudgementForDifferentIdentity"; "JudgementGiven"; "JudgementPaymentFailed"; "NoIdentity"; "NotFound";
  "NotNamed"; "NotOwned"; "NotSub"; "StickyJudgement"; "TooManyFields"; "TooManyRegistrars";
  "TooManySubAccounts"].

Definition maintenance : list string := [
].

Definition messageQueue : list string := [
  "AlreadyProcessed"; "InsufficientWeight"; "NoMessage"; "NoPage"; "NotReapable"; "Queued"; "QueuePaused";
  "RecursiveDisallowed"; "TemporarilyUnprocessable"].

Definition nonfungible : list string := [
  "CantBurnNftWithChildren"; "NonfungibleItemsHaveNoAmount";
  "NotNonfungibleDataUsedToMintFungibleCollectionToken"].

Definition parachainSystem : list string := [
  "HostConfigurationNotAvailable"; "NotScheduled"; "OverlappingUpgrades"; "ProhibitedByPolkadot"; "TooBig";
  "ValidationDataNotAvailable"].

Definition polkadotXcm : list string := [
  "AccountNotSovereign"; "AliasNotFound"; "AlreadySubscribed"; "BadLocation"; "BadVersion";
  "CannotCheckOutTeleport"; "CannotReanchor"; "DestinationNotInvertible"; "Empty"; "ExpiresInPast";
  "FeesNotMet"; "Filtered"; "InUse"; "InvalidAssetUnknownReserve"; "InvalidAssetUnsupportedReserve";
  "InvalidOrigin"; "LocalExecutionIncomplete"; "LockNotFound"; "LowBalance"; "NoSubscription"; "SendFailure";
  "TooManyAssets"; "TooManyAuthorizedAliases"; "TooManyLocks"; "TooManyReserves"; "Unreachable";
  "UnweighableMessage"].

Definition preimage : list string := [
  "AlreadyNoted"; "NotAuthorized"; "NotNoted"; "NotRequested"; "Requested"; "TooBig"; "TooFew"; "TooMany"].

Definition refungible : list string := [
  "NotRefungibleDataUsedToMintFungibleCollectionToken"; "RefungibleDisallowsNesting";
  "RepartitionWhileNotOwningAllPieces"; "SettingPropertiesNotAllowed"; "WrongRefungiblePieces"].

Definition scheduler : list string := [
  "FailedToSchedule"; "Named"; "NotFound"; "RescheduleNoChange"; "TargetBlockNumberInPast"].

Definition session : list string := [
  "DuplicatedKey"; "InvalidProof"; "NoAccount"; "NoAssociatedValidatorId"; "NoKeys"].

Definition stateTrieMigration : list string := [
  "BadChildRoot"; "BadWitness"; "KeyTooLong"; "MaxSignedLimits"; "NotEnoughFunds"; "SignedMigrationNotAllowed"].

Definition structure : list string := [
  "BreadthLimit"; "CantNestTokenUnderCollection"; "DepthLimit"; "OuroborosDetected"; "TokenNotFound"].

Definition sudo : list string := [
  "RequireSudo"].

Definition system : list string := [
  "CallFiltered"; "FailedToExtractRuntimeVersion"; "InvalidSpecName"; "MultiBlockMigrationsOngoing";
  "NonDefaultComposite"; "NonZeroRefCount"; "NothingAuthorized"; "SpecVersionNeedsToIncrease"; "Unauthorized"].

Definition technicalCommittee : list string := [
  "AlreadyInitialized"; "DuplicateProposal"; "DuplicateVote"; "NotMember"; "PrimeAccountNotMember";
  "ProposalActive"; "ProposalMissing"; "TooEarly"; "TooManyProposals"; "WrongIndex"; "WrongProposalLength";
  "WrongProposalWeight"].

Definition technicalCommitteeMembership : list string := [
  "AlreadyMember"; "NotMember"; "TooManyMembers"].

Definition testUtils : list string := [
  "TestPalletDisabled"; "TriggerRollback"].

Definition treasury : list string := [
  "AlreadyAttempted"; "EarlyPayout"; "FailedToConvertBalance"; "Inconclusive"; "InsufficientPermission";
  "InvalidIndex"; "NotAttempted"; "PayoutError"; "ProposalNotApproved"; "SpendExpired"; "TooManyApprovals"].

Definition unique : list string := [
  "CollectionDecimalPointLimitExceeded"; "EmptyArgument"; "RepartitionCalledOnNonRefungibleCollection"].

Definition utility : list string := [
  "TooManyCalls"].

Definition vesting : list string := [
  "AmountLow"; "InsufficientBalanceToLock"; "MaxVestingSchedulesExceeded"; "TooManyVestingSchedules";
  "ZeroVestingPeriod"; "ZeroVestingPeriodCount"].

Definition xcmpQueue : list string := [
  "AlreadyResumed"; "AlreadySuspended"; "BadQueueConfig"; "TooBig"; "TooManyActiveOutboundChannels"].

Definition xTokens : list string := [
  "AssetHasNoReserve"; "AssetIndexNonExistent"; "BadVersion"; "CannotReanchor"; "DestinationNotInvertible";
  "DistinctReserveForAssetAndFee"; "FeeNotEnough"; "InvalidAncestry"; "InvalidAsset"; "InvalidDest";
  "MinXcmFeeNotDefined"; "NotCrossChainTransfer"; "NotCrossChainTransferableCurrency"; "NotSupportedLocation";
  "RateLimited"; "TooManyAssetsBeingSent"; "UnweighableMessage"; "XcmExecutionFailed"; "ZeroAmount"; "ZeroFee"].

End Errors.

(** By pallet. *)
Definition errors : list (string * list string) := [
  ("appPromotion", Errors.appPromotion); ("balances", Errors.balances);
  ("collatorSelection", Errors.collatorSelection); ("common", Errors.common);
  ("configuration", Errors.configuration); ("council", Errors.council);
  ("councilMembership", Errors.councilMembership); ("democracy", Errors.democracy);
  ("ethereum", Errors.ethereum); ("evm", Errors.evm); ("evmCoderSubstrate", Errors.evmCoderSubstrate);
  ("evmContractHelpers", Errors.evmContractHelpers); ("evmMigration", Errors.evmMigration);
  ("fellowshipCollective", Errors.fellowshipCollective); ("fellowshipReferenda", Errors.fellowshipReferenda);
  ("financialCouncil", Errors.financialCouncil);
  ("financialCouncilMembership", Errors.financialCouncilMembership); ("foreignAssets", Errors.foreignAssets);
  ("fungible", Errors.fungible); ("identity", Errors.identity); ("maintenance", Errors.maintenance);
  ("messageQueue", Errors.messageQueue); ("nonfungible", Errors.nonfungible);
  ("parachainSystem", Errors.parachainSystem); ("polkadotXcm", Errors.polkadotXcm);
  ("preimage", Errors.preimage); ("refungible", Errors.refungible); ("scheduler", Errors.scheduler);
  ("session", Errors.session); ("stateTrieMigration", Errors.stateTrieMigration);
  ("structure", Errors.structure); ("sudo", Errors.sudo); ("system", Errors.system);
  ("technicalCommittee", Errors.technicalCommittee);
  ("technicalCommitteeMembership", Errors.technicalCommitteeMembership); ("testUtils", Errors.testUtils);
  ("treasury", Errors.treasury); ("unique", Errors.unique); ("utility", Errors.utility);
  ("vesting", Errors.vesting); ("xcmpQueue", Errors.xcmpQueue); ("xTokens", Errors.xTokens)].
