(* ===== verification/ConstDefs.v ===== *)
(** * The constants of the chain

    The constants that types/augment-api-consts.ts declares, by pallet, with
    their types. *)

From Stdlib Require Import String.
From stdpp Require Import list.

#[local] Open Scope string_scope.

Module Consts.

Definition appPromotion : list (string * string) := [
  ("freezeIdentifier", "U8aFixed"); ("intervalIncome", "Perbill"); ("nominal", "u128");
  ("palletId", "FrameSupportPalletId"); ("pendingInterval", "u32"); ("recalculationInterval", "u32")].

Definition aura : list (string * string) := [
  ("slotDuration", "u64")].

Definition balances : list (string * string) := [
  ("existentialDeposit", "u128"); ("maxFreezes", "u32"); ("maxLocks", "u32"); ("maxReserves", "u32")].

Definition common : list (string * string) := [
  ("collectionAdminsLimit", "u32"); ("collectionCreationPrice", "u128"); ("contractAddress", "H160")].

Definition configuration : list (string * string) := [
  ("appPromotionDailyRate", "Perbill"); ("dayRelayBlocks", "u32");
  ("defaultCollatorSelectionKickThreshold", "u32"); ("defaultCollatorSelectionLicenseBond", "u128");
  ("defaultCollatorSelectionMaxCollators", "u32"); ("defaultMinGasPrice", "u64");
  ("defaultWeightToFeeCoefficient", "u64"); ("maxXcmAllowedLocations", "u32")].

Definition council : list (string * string) := [
  ("maxProposalWeight", "SpWeightsWeightV2Weight")].

Definition democracy : list (string * string) := [
  ("cooloffPeriod", "u32"); ("enactmentPeriod", "u32"); ("fastTrackVotingPeriod", "u32");
  ("instantAllowed", "bool"); ("launchPeriod", "u32"); ("maxBlacklisted", "u32"); ("maxDeposits", "u32");
  ("maxProposals", "u32"); ("maxVotes", "u32"); ("minimumDeposit", "u128"); ("voteLockingPeriod", "u32");
  ("votingPeriod", "u32")].

Definition evmContractHelpers : list (string * string) := [
  ("contractAddress", "H160")].

Definition fellowshipReferenda : list (string * string) := [
  ("alarmInterval", "u32"); ("maxQueued", "u32"); ("submissionDeposit", "u128");
  ("tracks", "Vec<ITuple<[u16, PalletReferendaTrackDetails]>>"); ("undecidingTimeout", "u32")].

Definition financialCouncil : list (string * string) := [
  ("maxProposalWeight", "SpWeightsWeightV2Weight")].

Definition identity : list (string * string) := [
  ("basicDeposit", "u128"); ("fieldDeposit", "u128"); ("maxAdditionalFields", "u32"); ("maxRegistrars", "u32");
  ("maxSubAccounts", "u32"); ("subAccountDeposit", "u128")].

Definition inflation : list (string * string) := [
  ("inflationBlockInterval", "u32")].

Definition messageQueue : list (string * string) := [
  ("heapSize", "u32"); ("idleMaxServiceWeight", "Option<SpWeightsWeightV2Weight>"); ("maxStale", "u32");
  ("serviceWeight", "Option<SpWeightsWeightV2Weight>")].

Definition parachainSystem : list (string * string) := [
  ("selfParaId", "u32")].

Definition polkadotXcm : list (string * string) := [
  ("advertisedXcmVersion", "u32")].

Definition scheduler : list (string * string) := [
  ("maximumWeight", "SpWeightsWeightV2Weight"); ("maxScheduledPerBlock", "u32")].

Definition stateTrieMigration : list (string * string) := [
  ("maxKeyLen", "u32")].

Definition system : list (string * string) := [
  ("blockHashCount", "u32"); ("blockLength", "FrameSystemLimitsBlockLength");
  ("blockWeights", "FrameSystemLimitsBlockWeights"); ("dbWeight", "SpWeightsRuntimeDbWeight");
  ("ss58Prefix", "u16"); ("version", "SpVersionRuntimeVersion")].

Definition technicalCommittee : list (string * string) := [
  ("maxProposalWeight", "SpWeightsWeightV2Weight")].

Definition timestamp : list (string * string) := [
  ("minimumPeriod", "u64")].

Definition transactionPayment : list (string * string) := [
  ("operationalFeeMultiplier", "u8")].

Definition treasury : list (string * string) := [
  ("burn", "Permill"); ("maxApprovals", "u32"); ("palletId", "FrameSupportPalletId"); ("payoutPeriod", "u32");
  ("potAccount", "AccountId32"); ("spendPeriod", "u32")].

Definition unique : list (string * string) := [
  ("collectionAdminsLimit", "u32"); ("ftDefaultCollectionLimits", "UpDataStructsCollectionLimits");
  ("maxCollectionDescriptionLength", "u32"); ("maxCollectionNameLength", "u32");
  ("maxCollectionPropertiesSize", "u32"); ("maxPropertiesPerItem", "u32"); ("maxPropertyKeyLength", "u32");
  ("maxPropertyValueLength", "u32"); ("maxTokenPrefixLength", "u32"); ("maxTokenPropertiesSize", "u32");
  ("nestingBudget", "u32"); ("nftDefaultCollectionLimits", "UpDataStructsCollectionLimits");
  ("rftDefaultCollectionLimits", "UpDataStructsCollectionLimits")].

Definition utility : list (string * string) := [
  ("batchedCallsLimit", "u32")].

Definition vesting : list (string * string) := [
  ("minVestedTransfer", "u128")].

Definition xcmpQueue : list (string * string) := [
  ("maxActiveOutboundChannels", "u32"); ("maxInboundSuspended", "u32"); ("maxPageSize", "u32")].

Definition xTokens : list (string * string) := [
  ("baseXcmWeight", "SpWeightsWeightV2Weight"); ("rateLimiterId", "Null");
  ("selfLocation", "StagingXcmV5Location")].

End Consts.

(** By pallet. *)
Definition constants : list (string * list (string * string)) := [
  ("appPromotion", Consts.appPromotion); ("aura", Consts.aura); ("balances", Consts.balances);
  ("common", Consts.common); ("configuration", Consts.configuration); ("council", Consts.council);
  ("democracy", Consts.democracy); ("evmContractHelpers", Consts.evmContractHelpers);
  ("fellowshipReferenda", Consts.fellowshipReferenda); ("financialCouncil", Consts.financialCouncil);
  ("identity", Consts.identity); ("inflation", Consts.inflation); ("messageQueue", Consts.messageQueue);
  ("parachainSystem", Consts.parachainSystem); ("polkadotXcm", Consts.polkadotXcm);
  ("scheduler", Consts.scheduler); ("stateTrieMigration", Consts.stateTrieMigration); ("system", Consts.system);
  ("technicalCommittee", Consts.technicalCommittee); ("timestamp", Consts.timestamp);
  ("transactionPayment", Consts.transactionPayment); ("treasury", Consts.treasury); ("unique", Consts.unique);
  ("utility", Consts.utility); ("vesting", Consts.vesting); ("xcmpQueue", Consts.xcmpQueue);
  ("xTokens", Consts.xTokens)].
