(* ===== verification/RuntimeDefs.v ===== *)
(** * The runtime calls of the chain

    The calls that types/augment-api-runtime.ts declares, by interface of the
    runtime: the name of each, its parameters with their types, and the type of
    its result. *)

From Stdlib Require Import String.
From stdpp Require Import list.

#[local] Open Scope string_scope.

Module Runtime.

Definition accountNonceApi : list (string * (list (string * string) * string)) := [
  ("accountNonce", ([("accountId", "AccountId")], "Index"))].

Definition auraApi : list (string * (list (string * string) * string)) := [
  ("authorities", ([], "Vec<AuthorityId>")); ("slotDuration", ([], "SlotDuration"))].

Definition blockBuilder : list (string * (list (string * string) * string)) := [
  ("applyExtrinsic", ([("extrinsic", "Extrinsic")], "ApplyExtrinsicResult"));
  ("checkInherents", ([("block", "Block"); ("data", "InherentData")], "CheckInherentsResult"));
  ("finalizeBlock", ([], "Header")); ("inherentExtrinsics", ([("inherent", "InherentData")],
     "Vec<Extrinsic>"))].

Definition collectCollationInfo : list (string * (list (string * string) * string)) := [
  ("collectCollationInfo", ([("header", "Header")], "CollationInfo"))].

Definition convertTransactionRuntimeApi : list (string * (list (string * string) * string)) := [
  ("convertTransaction", ([("transaction", "TransactionV2")], "Extrinsic"))].

Definition core : list (string * (list (string * string) * string)) := [
  ("executeBlock", ([("block", "Block")], "Null"));
  ("initializeBlock", ([("header", "Header")], "ExtrinsicInclusionMode")); ("version", ([], "RuntimeVersion"))].

Definition ethereumRuntimeRPCApi : list (string * (list (string * string) * string)) := [
  ("accountBasic", ([("address", "H160")], "EvmAccount")); ("accountCodeAt", ([("address", "H160")], "Bytes"));
  ("author", ([], "H160"));
  ("call", ([("from", "H160"); ("to", "H160"); ("data", "Bytes"); ("value", "U256"); ("gasLimit", "U256");
     ("maxFeePerGas", "Option<U256>"); ("maxPriorityFeePerGas", "Option<U256>"); ("nonce", "Option<U256>");
     ("estimate", "bool"); ("accessList", "Option<Vec<ITuple<[H160, Vec<H256>]>>>")],
     "Result<EvmCallInfoV2, DispatchError>"));
  ("chainId", ([], "u64"));
  ("create", ([("from", "H160"); ("data", "Bytes"); ("value", "U256"); ("gasLimit", "U256"); ("maxFeePerGas",
     "Option<U256>"); ("maxPriorityFeePerGas", "Option<U256>"); ("nonce", "Option<U256>"); ("estimate", "bool");
     ("accessList", "Option<Vec<ITuple<[H160, Vec<H256>]>>>")], "Result<EvmCreateInfoV2, DispatchError>"));
  ("currentAll", ([],
     "ITuple<[Option<BlockV2>, Option<Vec<EthReceiptV3>>, Option<Vec<EthTransactionStatus>>]>"));
  ("currentBlock", ([], "BlockV2")); ("currentReceipts", ([], "Option<Vec<EthReceiptV3>>"));
  ("currentTransactionStatuses", ([], "Option<Vec<EthTransactionStatus>>"));
  ("elasticity", ([], "Option<Permill>"));
  ("extrinsicFilter", ([("xts", "Vec<Extrinsic>")], "Vec<TransactionV2>")); ("gasPrice", ([], "u256"));
  ("storageAt", ([("address", "H160"); ("index", "u256")], "H256"))].

Definition genesisBuilder : list (string * (list (string * string) * string)) := [
  ("buildConfig", ([("json", "Bytes")], "Result<ITuple<[]>, GenesisBuildErr>"));
  ("createDefaultConfig", ([], "Bytes"))].

Definition metadata : list (string * (list (string * string) * string)) := [
  ("metadata", ([], "OpaqueMetadata")); ("metadataAtVersion", ([("version", "u32")], "Option<OpaqueMetadata>"));
  ("metadataVersions", ([], "Vec<u32>"))].

Definition offchainWorkerApi : list (string * (list (string * string) * string)) := [
  ("offchainWorker", ([("header", "Header")], "Null"))].

Definition sessionKeys : list (string * (list (string * string) * string)) := [
  ("decodeSessionKeys", ([("encoded", "Bytes")], "Option<Vec<ITuple<[Bytes, KeyTypeId]>>>"));
  ("generateSessionKeys", ([("seed", "Option<Bytes>")], "Bytes"))].

Definition taggedTransactionQueue : list (string * (list (string * string) * string)) := [
  ("validateTransaction", ([("source", "TransactionSource"); ("tx", "Extrinsic"); ("blockHash", "BlockHash")],
     "TransactionValidity"))].

Definition transactionPaymentApi : list (string * (list (string * string) * string)) := [
  ("queryFeeDetails", ([("uxt", "Extrinsic"); ("len", "u32")], "FeeDetails"));
  ("queryInfo", ([("uxt", "Extrinsic"); ("len", "u32")], "RuntimeDispatchInfo"));
  ("queryLengthToFee", ([("length", "u32")], "Balance"));
  ("queryWeightToFee", ([("weight", "Weight")], "Balance"))].

End Runtime.

(** [AugmentedCalls] *)
Definition runtime_calls : list (string * list (string * (list (string * string) * string))) := [
  ("accountNonceApi", Runtime.accountNonceApi); ("auraApi", Runtime.auraApi);
  ("blockBuilder", Runtime.blockBuilder); ("collectCollationInfo", Runtime.collectCollationInfo);
  ("convertTransactionRuntimeApi", Runtime.convertTransactionRuntimeApi); ("core", Runtime.core);
  ("ethereumRuntimeRPCApi", Runtime.ethereumRuntimeRPCApi); ("genesisBuilder", Runtime.genesisBuilder);
  ("metadata", Runtime.metadata); ("offchainWorkerApi", Runtime.offchainWorkerApi);
  ("sessionKeys", Runtime.sessionKeys); ("taggedTransactionQueue", Runtime.taggedTransactionQueue);
  ("transactionPaymentApi", Runtime.transactionPaymentApi)].
