(* ===== verification/RegistryDefs.v ===== *)
(** * The registry of types

    The names of types that types/augment-types.ts registers, by their first
    letter; each is the name of an interface with the same name. *)

From Stdlib Require Import String.
From stdpp Require Import list.

#[local] Open Scope string_scope.

Module Registry.

Definition names_A : list string := [
  "AbridgedCandidateReceipt"; "AbridgedHostConfiguration"; "AbridgedHrmpChannel"; "AccountData"; "AccountId";
  "AccountId20"; "AccountId32"; "AccountId33"; "AccountIdOf"; "AccountIndex"; "AccountInfo";
  "AccountInfoWithDualRefCount"; "AccountInfoWithProviders"; "AccountInfoWithRefCount";
  "AccountInfoWithRefCountU8"; "AccountInfoWithTripleRefCount"; "AccountStatus"; "AccountValidity";
  "AccountVote"; "AccountVoteSplit"; "AccountVoteStandard"; "ActiveEraInfo"; "ActiveGilt"; "ActiveGiltsTotal";
  "ActiveIndex"; "ActiveRecovery"; "Address"; "AliveContractInfo"; "AllowedSlots"; "AnySignature"; "ApiId";
  "ApplyExtrinsicResult"; "ApplyExtrinsicResultPre6"; "ApprovalFlag"; "Approvals"; "ApprovalVotingParams";
  "ArithmeticError"; "AssetApproval"; "AssetApprovalKey"; "AssetBalance"; "AssetDestroyWitness"; "AssetDetails";
  "AssetId"; "AssetIdV2"; "AssetIdV3"; "AssetIdV4"; "AssetInstance"; "AssetInstanceV0"; "AssetInstanceV1";
  "AssetInstanceV2"; "AssetInstanceV3"; "AssetInstanceV4"; "AssetMetadata"; "AssetOptions"; "AssignmentId";
  "AssignmentKind"; "AsyncBackingParams"; "AttestedCandidate"; "AuctionIndex"; "AuthIndex";
  "AuthorityDiscoveryId"; "AuthorityId"; "AuthorityIndex"; "AuthorityList"; "AuthoritySet";
  "AuthoritySetChange"; "AuthoritySetChanges"; "AuthoritySignature"; "AuthorityWeight"; "AvailabilityBitfield";
  "AvailabilityBitfieldRecord"].

Definition names_B : list string := [
  "BabeAuthorityWeight"; "BabeBlockWeight"; "BabeEpochConfiguration"; "BabeEquivocationProof";
  "BabeGenesisConfiguration"; "BabeGenesisConfigurationV1"; "BabeWeight"; "BackedCandidate"; "BackingState";
  "Balance"; "BalanceLock"; "BalanceLockTo212"; "BalanceOf"; "BalanceStatus"; "BeefyAuthoritySet";
  "BeefyCommitment"; "BeefyCompactSignedCommitment"; "BeefyEquivocationProof"; "BeefyId"; "BeefyKey";
  "BeefyNextAuthoritySet"; "BeefyPayload"; "BeefyPayloadId"; "BeefySignedCommitment";
  "BeefyVersionedFinalityProof"; "BeefyVoteMessage"; "BenchmarkBatch"; "BenchmarkConfig"; "BenchmarkList";
  "BenchmarkMetadata"; "BenchmarkParameter"; "BenchmarkResult"; "Bid"; "Bidder"; "BidKind"; "BitVec"; "Block";
  "BlockAttestations"; "BlockHash"; "BlockLength"; "BlockNumber"; "BlockNumberFor"; "BlockNumberOf";
  "BlockStats"; "BlockTrace"; "BlockTraceEvent"; "BlockTraceEventData"; "BlockTraceSpan"; "BlockV0"; "BlockV1";
  "BlockV2"; "BlockWeights"; "BodyId"; "BodyIdV2"; "BodyIdV3"; "BodyPart"; "BodyPartV2"; "BodyPartV3"; "bool";
  "Bool"; "Bounty"; "BountyIndex"; "BountyStatus"; "BountyStatusActive"; "BountyStatusCuratorProposed";
  "BountyStatusPendingPayout"; "BridgedBlockHash"; "BridgedBlockNumber"; "BridgedHeader"; "BridgeMessageId";
  "BufferedSessionChange"; "Bytes"].

Definition names_C_1 : list string := [
  "Call"; "CallDryRunEffects"; "CallHash"; "CallHashOf"; "CallIndex"; "CallOrigin"; "CandidateCommitments";
  "CandidateDescriptor"; "CandidateEvent"; "CandidateHash"; "CandidateInfo"; "CandidatePendingAvailability";
  "CandidateReceipt"; "ChainId"; "ChainProperties"; "ChainType"; "ChangesTrieConfiguration";
  "ChangesTrieSignal"; "CheckInherentsResult"; "ClassDetails"; "ClassId"; "ClassMetadata"; "CodecHash";
  "CodeHash"; "CodeSource"; "CodeUploadRequest"; "CodeUploadResult"; "CodeUploadResultValue"; "CollationInfo";
  "CollationInfoV1"; "CollatorId"; "CollatorSignature"; "CollectiveOrigin"; "CommittedCandidateReceipt";
  "CompactAssignments"; "CompactAssignmentsTo257"; "CompactAssignmentsTo265"; "CompactAssignmentsWith16";
  "CompactAssignmentsWith24"; "CompactScore"; "CompactScoreCompact"; "ConfigData"; "Consensus";
  "ConsensusEngineId"; "Constraints"; "ConsumedWeight"; "ContractCallFlags"; "ContractCallRequest";
  "ContractConstructorSpecLatest"; "ContractConstructorSpecV0"; "ContractConstructorSpecV1";
  "ContractConstructorSpecV2"; "ContractConstructorSpecV3"; "ContractConstructorSpecV4";
  "ContractContractSpecV0"; "ContractContractSpecV1"; "ContractContractSpecV2"; "ContractContractSpecV3";
  "ContractContractSpecV4"; "ContractContractSpecV5"; "ContractCryptoHasher"; "ContractDiscriminant";
  "ContractDisplayName"; "ContractEnvironmentV4"; "ContractEventParamSpecLatest"; "ContractEventParamSpecV0";
  "ContractEventParamSpecV2"; "ContractEventSpecLatest"; "ContractEventSpecV0"; "ContractEventSpecV1";
  "ContractEventSpecV2"; "ContractEventSpecV3"; "ContractExecResult"; "ContractExecResultOk";
  "ContractExecResultResult"; "ContractExecResultSuccessTo255"; "ContractExecResultSuccessTo260";
  "ContractExecResultTo255"; "ContractExecResultTo260"; "ContractExecResultTo267"; "ContractExecResultU64";
  "ContractInfo"; "ContractInstantiateResult"; "ContractInstantiateResultTo267";
  "ContractInstantiateResultTo299"; "ContractInstantiateResultU64"; "ContractLayoutArray"; "ContractLayoutCell";
  "ContractLayoutEnum"; "ContractLayoutHash"; "ContractLayoutHashingStrategy"; "ContractLayoutKey";
  "ContractLayoutStruct"; "ContractLayoutStructField"; "ContractMessageParamSpecLatest";
  "ContractMessageParamSpecV0"; "ContractMessageParamSpecV2"; "ContractMessageSpecLatest";
  "ContractMessageSpecV0"; "ContractMessageSpecV1"; "ContractMessageSpecV2"; "ContractMessageSpecV3";
  "ContractMetadata"; "ContractMetadataLatest"; "ContractMetadataV0"; "ContractMetadataV1";
  "ContractMetadataV2"; "ContractMetadataV3"; "ContractMetadataV4"; "ContractMetadataV5"; "ContractProject";
  "ContractProjectContract"; "ContractProjectInfo"; "ContractProjectSource"; "ContractProjectV0";
  "ContractReturnFlags"; "ContractSelector"; "ContractStorageKey"; "ContractStorageLayout"; "ContractTypeSpec";
  "Conviction"; "CoreAssignment"; "CoreIndex"; "CoreOccupied"; "CoreState"; "CrateVersion"; "CreatedBlock";
  "CumulusPalletDmpQueueCall"; "CumulusPalletDmpQueueEvent"; "CumulusPalletDmpQueueMigrationState";
  "CumulusPalletParachainSystemCall"; "CumulusPalletParachainSystemError"; "CumulusPalletParachainSystemEvent";
  "CumulusPalletParachainSystemRelayStateSnapshotMessagingStateSnapshot";
  "CumulusPalletParachainSystemRelayStateSnapshotRelayDispatchQueueRemainingCapacity";
  "CumulusPalletParachainSystemUnincludedSegmentAncestor";
  "CumulusPalletParachainSystemUnincludedSegmentHrmpChannelUpdate";
  "CumulusPalletParachainSystemUnincludedSegmentSegmentTracker";
  "CumulusPalletParachainSystemUnincludedSegmentUsedBandwidth"; "CumulusPalletXcmCall"; "CumulusPalletXcmEvent";
  "CumulusPalletXcmOrigin"; "CumulusPalletXcmpQueueCall"; "CumulusPalletXcmpQueueError";
  "CumulusPalletXcmpQueueEvent"; "CumulusPalletXcmpQueueOutboundChannelDetails";
  "CumulusPalletXcmpQueueOutboundState"; "CumulusPalletXcmpQueueQueueConfigData";
  "CumulusPrimitivesCoreAggregateMessageOrigin"; "CumulusPrimitivesParachainInherentParachainInherentData"].

Definition names_C_2 : list string := [
  "CumulusPrimitivesStorageWeightReclaimAllowDeprecatedStorageWeightReclaim"; "CustomMetadata15";
  "CustomValueMetadata15"].

Definition names_D : list string := [
  "Data"; "DeferredOffenceOf"; "DefunctVoter"; "DelayKind"; "DelayKindBest"; "Delegations"; "DeletedContract";
  "DeliveredMessages"; "DepositBalance"; "DepositBalanceOf"; "DestroyWitness"; "Digest"; "DigestItem";
  "DigestOf"; "DispatchClass"; "DispatchError"; "DispatchErrorModule"; "DispatchErrorModulePre6";
  "DispatchErrorModuleU8"; "DispatchErrorModuleU8a"; "DispatchErrorPre6"; "DispatchErrorPre6First";
  "DispatchErrorTo198"; "DispatchFeePayment"; "DispatchInfo"; "DispatchInfoTo190"; "DispatchInfoTo244";
  "DispatchOutcome"; "DispatchOutcomePre6"; "DispatchResult"; "DispatchResultOf"; "DispatchResultTo198";
  "DispatchResultWithPostInfo"; "DisputeLocation"; "DisputeProof"; "DisputeResult"; "DisputeState";
  "DisputeStatement"; "DisputeStatementSet"; "DisputesTimeSlot"; "DoubleEncodedCall"; "DoubleVoteReport";
  "DownwardMessage"].

Definition names_E : list string := [
  "EcdsaSignature"; "Ed25519Signature"; "EIP1559Transaction"; "EIP2930Transaction"; "ElectionCompute";
  "ElectionPhase"; "ElectionResult"; "ElectionResultToSpec10"; "ElectionScore"; "ElectionSize";
  "ElectionStatus"; "EncodedFinalityProofs"; "EncodedJustification"; "Epoch"; "EpochAuthorship"; "Era";
  "EraIndex"; "EraPoints"; "EraRewardPoints"; "EraRewards"; "Error"; "ErrorMetadataLatest"; "ErrorMetadataV10";
  "ErrorMetadataV11"; "ErrorMetadataV12"; "ErrorMetadataV13"; "ErrorMetadataV14"; "ErrorMetadataV9";
  "EthAccessList"; "EthAccessListItem"; "EthAccount"; "EthAddress"; "EthBlock"; "EthBloom"; "EthbloomBloom";
  "EthCallRequest"; "EthereumAccountId"; "EthereumAddress"; "EthereumBlock"; "EthereumHeader"; "EthereumLog";
  "EthereumLookupSource"; "EthereumReceiptEip658ReceiptData"; "EthereumReceiptReceiptV3"; "EthereumSignature";
  "EthereumTransactionEip1559Eip1559Transaction"; "EthereumTransactionEip2930AccessListItem";
  "EthereumTransactionEip2930Eip2930Transaction"; "EthereumTransactionLegacyLegacyTransaction";
  "EthereumTransactionLegacyTransactionAction"; "EthereumTransactionLegacyTransactionSignature";
  "EthereumTransactionTransactionV2"; "EthereumTypesHashH64"; "EthFeeHistory"; "EthFilter"; "EthFilterAddress";
  "EthFilterChanges"; "EthFilterTopic"; "EthFilterTopicEntry"; "EthFilterTopicInner"; "EthHeader"; "EthLog";
  "EthReceipt"; "EthReceiptV0"; "EthReceiptV3"; "EthRichBlock"; "EthRichHeader"; "EthStorageProof";
  "EthSubKind"; "EthSubParams"; "EthSubResult"; "EthSyncInfo"; "EthSyncStatus"; "EthTransaction";
  "EthTransactionAction"; "EthTransactionCondition"; "EthTransactionRequest"; "EthTransactionSignature";
  "EthTransactionStatus"; "EthWork"; "Event"; "EventId"; "EventIndex"; "EventMetadataLatest";
  "EventMetadataV10"; "EventMetadataV11"; "EventMetadataV12"; "EventMetadataV13"; "EventMetadataV14";
  "EventMetadataV9"; "EventRecord"; "EvmAccount"; "EvmCallInfo"; "EvmCallInfoV2"; "EvmCoreErrorExitError";
  "EvmCoreErrorExitFatal"; "EvmCoreErrorExitReason"; "EvmCoreErrorExitRevert"; "EvmCoreErrorExitSucceed";
  "EvmCreateInfo"; "EvmCreateInfoV2"; "EvmLog"; "EvmVicinity"; "EvmWeightInfo"; "ExecReturnValue";
  "ExecutorParam"; "ExecutorParams"; "ExecutorParamsHash"; "ExitError"; "ExitFatal"; "ExitReason"; "ExitRevert";
  "ExitSucceed"; "ExplicitDisputeStatement"; "Exposure"; "ExtendedBalance"; "Extrinsic"; "ExtrinsicEra";
  "ExtrinsicInclusionMode"; "ExtrinsicMetadataLatest"; "ExtrinsicMetadataV11"; "ExtrinsicMetadataV12";
  "ExtrinsicMetadataV13"; "ExtrinsicMetadataV14"; "ExtrinsicMetadataV15"; "ExtrinsicOrHash"; "ExtrinsicPayload";
  "ExtrinsicPayloadUnknown"; "ExtrinsicPayloadV4"; "ExtrinsicPayloadV5"; "ExtrinsicSignature";
  "ExtrinsicSignatureV4"; "ExtrinsicSignatureV5"; "ExtrinsicStatus"; "ExtrinsicsWeight"; "ExtrinsicUnknown";
  "ExtrinsicV4"; "ExtrinsicV5"].

Definition names_F : list string := [
  "f32"; "F32"; "f64"; "F64"; "FeeDetails"; "Fixed128"; "Fixed64"; "FixedI128"; "FixedI64"; "FixedU128";
  "FixedU64"; "Forcing"; "ForkTreePendingChange"; "ForkTreePendingChangeNode"; "FpRpcTransactionStatus";
  "FrameMetadataHashExtensionCheckMetadataHash"; "FrameMetadataHashExtensionMode";
  "FrameSupportDispatchDispatchClass"; "FrameSupportDispatchPays"; "FrameSupportDispatchPerDispatchClassU32";
  "FrameSupportDispatchPerDispatchClassWeight"; "FrameSupportDispatchPerDispatchClassWeightsPerClass";
  "FrameSupportDispatchRawOrigin"; "FrameSupportMessagesProcessMessageError"; "FrameSupportPalletId";
  "FrameSupportPreimagesBounded"; "FrameSupportScheduleDispatchTime"; "FrameSupportStorageDisabled";
  "FrameSupportTokensMiscBalanceStatus"; "FrameSupportTokensMiscIdAmount"; "FrameSystemAccountInfo";
  "FrameSystemCall"; "FrameSystemCodeUpgradeAuthorization"; "FrameSystemDispatchEventInfo"; "FrameSystemError";
  "FrameSystemEvent"; "FrameSystemEventRecord"; "FrameSystemExtensionsCheckGenesis";
  "FrameSystemExtensionsCheckSpecVersion"; "FrameSystemExtensionsCheckTxVersion";
  "FrameSystemExtensionsCheckWeight"; "FrameSystemLastRuntimeUpgradeInfo"; "FrameSystemLimitsBlockLength";
  "FrameSystemLimitsBlockWeights"; "FrameSystemLimitsWeightsPerClass"; "FrameSystemPhase"; "FullIdentification";
  "FunctionArgumentMetadataLatest"; "FunctionArgumentMetadataV10"; "FunctionArgumentMetadataV11";
  "FunctionArgumentMetadataV12"; "FunctionArgumentMetadataV13"; "FunctionArgumentMetadataV14";
  "FunctionArgumentMetadataV9"; "FunctionMetadataLatest"; "FunctionMetadataV10"; "FunctionMetadataV11";
  "FunctionMetadataV12"; "FunctionMetadataV13"; "FunctionMetadataV14"; "FunctionMetadataV9"; "FundIndex";
  "FundInfo"; "Fungibility"; "FungibilityV0"; "FungibilityV1"; "FungibilityV2"; "FungibilityV3";
  "FungibilityV4"; "FungiblesAccessError"].

Definition names_G : list string := [
  "Gas"; "GenesisBuildErr"; "GiltBid"; "GlobalValidationData"; "GlobalValidationSchedule"; "GrandpaCommit";
  "GrandpaEquivocation"; "GrandpaEquivocationProof"; "GrandpaEquivocationValue"; "GrandpaJustification";
  "GrandpaPrecommit"; "GrandpaPrevote"; "GrandpaSignedPrecommit"; "GroupIndex"; "GroupRotationInfo"].

Definition names_H : list string := [
  "H1024"; "H128"; "H160"; "H2048"; "H256"; "H32"; "H512"; "H64"; "Hash"; "HeadData"; "Header"; "HeaderPartial";
  "Health"; "Heartbeat"; "HeartbeatTo244"; "HostConfiguration"; "HostFnWeights"; "HostFnWeightsTo264";
  "HrmpChannel"; "HrmpChannelId"; "HrmpOpenChannelRequest"].

Definition names_I : list string := [
  "i128"; "I128"; "i16"; "I16"; "i256"; "I256"; "i32"; "I32"; "I32F32"; "i64"; "I64"; "i8"; "I8";
  "IdentificationTuple"; "IdentityFields"; "IdentityInfo"; "IdentityInfoAdditional"; "IdentityInfoTo198";
  "IdentityJudgement"; "ImmortalEra"; "ImportedAux"; "InboundDownwardMessage"; "InboundHrmpLimitations";
  "InboundHrmpMessage"; "InboundHrmpMessages"; "InboundLaneData"; "InboundRelayer"; "InboundStatus";
  "IncludedBlocks"; "InclusionFee"; "IncomingParachain"; "IncomingParachainDeploy"; "IncomingParachainFixed";
  "Index"; "IndicesLookupSource"; "IndividualExposure"; "InherentData"; "InherentIdentifier";
  "InitializationData"; "InstanceDetails"; "InstanceId"; "InstanceMetadata"; "InstantiateRequest";
  "InstantiateRequestV1"; "InstantiateRequestV2"; "InstantiateReturnValue"; "InstantiateReturnValueOk";
  "InstantiateReturnValueTo267"; "InstructionV2"; "InstructionV3"; "InstructionV4"; "InstructionWeights";
  "InteriorMultiLocation"; "InteriorMultiLocationV2"; "InteriorMultiLocationV3"; "InvalidDisputeStatementKind";
  "InvalidTransaction"; "isize"; "ISize"].

Definition names_J : list string := [
  "Json"; "Junction"; "Junctions"; "JunctionsV1"; "JunctionsV2"; "JunctionsV3"; "JunctionsV4"; "JunctionV0";
  "JunctionV1"; "JunctionV2"; "JunctionV3"; "JunctionV4"; "Justification"; "JustificationNotification";
  "Justifications"].

Definition names_K : list string := [
  "Key"; "KeyOwnerProof"; "Keys"; "KeyType"; "KeyTypeId"; "KeyValue"; "KeyValueOption"; "Kind"].

Definition names_L : list string := [
  "LaneId"; "LastContribution"; "LastRuntimeUpgradeInfo"; "LeasePeriod"; "LeasePeriodOf"; "LegacyTransaction";
  "Limits"; "LimitsTo264"; "LocalValidationData"; "LockIdentifier"; "LookupSource"; "LookupTarget";
  "LotteryConfig"].

Definition names_M : list string := [
  "MaxPalletNameLen"; "MaxPalletsInfo"; "MaybeErrorCodeV3"; "MaybeRandomness"; "MaybeVrf"; "MemberCount";
  "MembershipProof"; "MessageData"; "MessageId"; "MessageIngestionType"; "MessageKey"; "MessageNonce";
  "MessageQueueChain"; "MessagesDeliveryProofOf"; "MessagesProofOf"; "MessagingStateSnapshot";
  "MessagingStateSnapshotEgressEntry"; "MetadataAll"; "MetadataLatest"; "MetadataV10"; "MetadataV11";
  "MetadataV12"; "MetadataV13"; "MetadataV14"; "MetadataV15"; "MetadataV9"; "MigrationStatusResult"; "Mixnode";
  "MixnodesErr"; "MmrBatchProof"; "MmrEncodableOpaqueLeaf"; "MmrError"; "MmrHash"; "MmrLeafBatchProof";
  "MmrLeafIndex"; "MmrLeafProof"; "MmrNodeIndex"; "MmrProof"; "MmrRootHash"; "ModuleConstantMetadataV10";
  "ModuleConstantMetadataV11"; "ModuleConstantMetadataV12"; "ModuleConstantMetadataV13";
  "ModuleConstantMetadataV9"; "ModuleId"; "ModuleMetadataV10"; "ModuleMetadataV11"; "ModuleMetadataV12";
  "ModuleMetadataV13"; "ModuleMetadataV9"; "Moment"; "MomentOf"; "MoreAttestations"; "MortalEra";
  "MultiAddress"; "MultiAsset"; "MultiAssetFilter"; "MultiAssetFilterV1"; "MultiAssetFilterV2";
  "MultiAssetFilterV3"; "MultiAssetFilterV4"; "MultiAssets"; "MultiAssetsV1"; "MultiAssetsV2"; "MultiAssetsV3";
  "MultiAssetsV4"; "MultiAssetV0"; "MultiAssetV1"; "MultiAssetV2"; "MultiAssetV3"; "MultiAssetV4";
  "MultiDisputeStatementSet"; "MultiLocation"; "MultiLocationV0"; "MultiLocationV1"; "MultiLocationV2";
  "MultiLocationV3"; "MultiLocationV4"; "Multiplier"; "Multisig"; "MultiSignature"; "MultiSigner"].

Definition names_N : list string := [
  "NetworkId"; "NetworkIdV2"; "NetworkIdV3"; "NetworkIdV4"; "NetworkState"; "NetworkStatePeerset";
  "NetworkStatePeersetInfo"; "NewBidder"; "NextAuthority"; "NextConfigDescriptor"; "NextConfigDescriptorV1";
  "NftCollectionId"; "NftItemId"; "NodeFeatures"; "NodeRole"; "Nominations"; "NominatorIndex";
  "NominatorIndexCompact"; "NotConnectedPeer"; "NpApiError"; "NpPoolId"; "Null"].

Definition names_O : list string := [
  "OccupiedCore"; "OccupiedCoreAssumption"; "OffchainAccuracy"; "OffchainAccuracyCompact"; "OffenceDetails";
  "Offender"; "OldV1SessionInfo"; "OpalRuntimeOriginCaller"; "OpalRuntimeRuntime";
  "OpalRuntimeRuntimeCommonFeeCoefficientCalculator"; "OpalRuntimeRuntimeCommonIdentityDisableIdentityCalls";
  "OpalRuntimeRuntimeCommonMaintenanceCheckMaintenance"; "OpalRuntimeRuntimeCommonSessionKeys";
  "OpalRuntimeRuntimeHoldReason"; "OpaqueCall"; "OpaqueKeyOwnershipProof"; "OpaqueMetadata"; "OpaqueMultiaddr";
  "OpaqueNetworkState"; "OpaquePeerId"; "OpaqueTimeSlot"; "OpenTip"; "OpenTipFinderTo225"; "OpenTipTip";
  "OpenTipTo225"; "OperatingMode"; "OptionBool"; "Origin"; "OriginCaller"; "OriginKindV0"; "OriginKindV1";
  "OriginKindV2"; "OriginKindV3"; "OriginKindV4"; "OrmlVestingModuleCall"; "OrmlVestingModuleError";
  "OrmlVestingModuleEvent"; "OrmlVestingVestingSchedule"; "OrmlXtokensModuleCall"; "OrmlXtokensModuleError";
  "OrmlXtokensModuleEvent"; "OutboundHrmpChannelLimitations"; "OutboundHrmpMessage"; "OutboundLaneData";
  "OutboundMessageFee"; "OutboundPayload"; "OutboundStatus"; "Outcome"; "OutcomeV4"; "OuterEnums15";
  "OverweightIndex"; "Owner"].

Definition names_P_1 : list string := [
  "PageCounter"; "PageIndexData"; "PalletAppPromotionCall"; "PalletAppPromotionError";
  "PalletAppPromotionEvent"; "PalletBalancesAccountData"; "PalletBalancesAdjustmentDirection";
  "PalletBalancesBalanceLock"; "PalletBalancesCall"; "PalletBalancesError"; "PalletBalancesEvent";
  "PalletBalancesReasons"; "PalletBalancesReserveData"; "PalletCallMetadataLatest"; "PalletCallMetadataV14";
  "PalletCollatorSelectionCall"; "PalletCollatorSelectionError"; "PalletCollatorSelectionEvent";
  "PalletCollatorSelectionHoldReason"; "PalletCollectiveCall"; "PalletCollectiveError"; "PalletCollectiveEvent";
  "PalletCollectiveHoldReason"; "PalletCollectiveRawOrigin"; "PalletCollectiveVotes"; "PalletCommonError";
  "PalletCommonEvent"; "PalletConfigurationAppPromotionConfiguration"; "PalletConfigurationCall";
  "PalletConfigurationError"; "PalletConfigurationEvent"; "PalletConstantMetadataLatest";
  "PalletConstantMetadataV14"; "PalletDemocracyCall"; "PalletDemocracyConviction"; "PalletDemocracyDelegations";
  "PalletDemocracyError"; "PalletDemocracyEvent"; "PalletDemocracyMetadataOwner";
  "PalletDemocracyReferendumInfo"; "PalletDemocracyReferendumStatus"; "PalletDemocracyTally";
  "PalletDemocracyVoteAccountVote"; "PalletDemocracyVotePriorLock"; "PalletDemocracyVoteThreshold";
  "PalletDemocracyVoteVoting"; "PalletErrorMetadataLatest"; "PalletErrorMetadataV14"; "PalletEthereumCall";
  "PalletEthereumError"; "PalletEthereumEvent"; "PalletEthereumFakeTransactionFinalizer";
  "PalletEthereumRawOrigin"; "PalletEventMetadataLatest"; "PalletEventMetadataV14";
  "PalletEvmAccountBasicCrossAccountIdRepr"; "PalletEvmCall"; "PalletEvmCodeMetadata";
  "PalletEvmCoderSubstrateError"; "PalletEvmContractHelpersCall"; "PalletEvmContractHelpersError";
  "PalletEvmContractHelpersEvent"; "PalletEvmContractHelpersSponsoringModeT"; "PalletEvmError";
  "PalletEvmEvent"; "PalletEvmMigrationCall"; "PalletEvmMigrationError"; "PalletEvmMigrationEvent";
  "PalletForeignAssetsForeignCollectionMode"; "PalletForeignAssetsMigrationStatus";
  "PalletForeignAssetsMigrationStatusV3ToV5"; "PalletForeignAssetsModuleCall"; "PalletForeignAssetsModuleError";
  "PalletForeignAssetsModuleEvent"; "PalletFungibleError"; "PalletGovOriginsOrigin"; "PalletId";
  "PalletIdentityBitFlags"; "PalletIdentityCall"; "PalletIdentityError"; "PalletIdentityEvent";
  "PalletIdentityIdentityField"; "PalletIdentityIdentityInfo"; "PalletIdentityJudgement";
  "PalletIdentityRegistrarInfo"; "PalletIdentityRegistration"; "PalletInflationCall"; "PalletInfoV3";
  "PalletInfoV4"; "PalletMaintenanceCall"; "PalletMaintenanceError"; "PalletMaintenanceEvent";
  "PalletMembershipCall"; "PalletMembershipError"; "PalletMembershipEvent"; "PalletMessageQueueBookState";
  "PalletMessageQueueCall"; "PalletMessageQueueError"; "PalletMessageQueueEvent";
  "PalletMessageQueueNeighbours"; "PalletMessageQueuePage"; "PalletMetadataLatest"; "PalletMetadataV14";
  "PalletMetadataV15"; "PalletNonfungibleError"; "PalletNonfungibleItemData"; "PalletPreimageCall";
  "PalletPreimageError"; "PalletPreimageEvent"; "PalletPreimageHoldReason"; "PalletPreimageOldRequestStatus";
  "PalletPreimageRequestStatus"; "PalletRankedCollectiveCall"; "PalletRankedCollectiveError";
  "PalletRankedCollectiveEvent"; "PalletRankedCollectiveMemberRecord"; "PalletRankedCollectiveTally";
  "PalletRankedCollectiveVoteRecord"; "PalletReferendaCall"; "PalletReferendaCurve";
  "PalletReferendaDecidingStatus"; "PalletReferendaDeposit"; "PalletReferendaError"; "PalletReferendaEvent";
  "PalletReferendaReferendumInfo"; "PalletReferendaReferendumStatus"; "PalletReferendaTrackDetails";
  "PalletRefungibleError"; "PalletSchedulerCall"; "PalletSchedulerError"; "PalletSchedulerEvent";
  "PalletSchedulerRetryConfig"; "PalletSchedulerScheduled"; "PalletSessionCall"; "PalletSessionError";
  "PalletSessionEvent"; "PalletsOrigin"; "PalletSponsoringChargeTransactionPayment";
  "PalletSponsoringCheckNonce"; "PalletStateTrieMigrationCall"; "PalletStateTrieMigrationError";
  "PalletStateTrieMigrationEvent"; "PalletStateTrieMigrationHoldReason";
  "PalletStateTrieMigrationMigrationCompute"; "PalletStateTrieMigrationMigrationLimits";
  "PalletStateTrieMigrationMigrationTask"; "PalletStateTrieMigrationProgress"; "PalletStorageMetadataLatest";
  "PalletStorageMetadataV14"; "PalletStructureCall"].

Definition names_P_2 : list string := [
  "PalletStructureError"; "PalletStructureEvent"; "PalletSudoCall"; "PalletSudoError"; "PalletSudoEvent";
  "PalletTestUtilsCall"; "PalletTestUtilsError"; "PalletTestUtilsEvent"; "PalletTimestampCall";
  "PalletTransactionPaymentEvent"; "PalletTransactionPaymentReleases"; "PalletTreasuryCall";
  "PalletTreasuryError"; "PalletTreasuryEvent"; "PalletTreasuryPaymentState"; "PalletTreasuryProposal";
  "PalletTreasurySpendStatus"; "PalletUniqueCall"; "PalletUniqueError"; "PalletUtilityCall";
  "PalletUtilityError"; "PalletUtilityEvent"; "PalletVersion"; "PalletXcmAuthorizedAliasesEntry";
  "PalletXcmCall"; "PalletXcmError"; "PalletXcmEvent"; "PalletXcmHoldReason"; "PalletXcmMaxAuthorizedAliases";
  "PalletXcmOrigin"; "PalletXcmQueryStatus"; "PalletXcmRemoteLockedFungibleRecord";
  "PalletXcmVersionMigrationStage"; "ParachainDispatchOrigin"; "ParachainInherentData"; "ParachainProposal";
  "ParachainsInherentData"; "ParaGenesisArgs"; "ParaId"; "ParaInfo"; "ParaLifecycle"; "Parameter";
  "ParaPastCodeMeta"; "ParaScheduling"; "ParathreadClaim"; "ParathreadClaimQueue"; "ParathreadEntry";
  "ParaValidatorIndex"; "Pays"; "Peer"; "PeerEndpoint"; "PeerEndpointAddr"; "PeerInfo"; "PeerPing";
  "PendingChange"; "PendingPause"; "PendingResume"; "PendingSlashes"; "Perbill"; "Percent";
  "PerDispatchClassU32"; "PerDispatchClassWeight"; "PerDispatchClassWeightsPerClass"; "Period"; "Permill";
  "PermissionLatest"; "PermissionsV1"; "PermissionVersions"; "Perquintill"; "PersistedValidationData"; "PerU16";
  "Phantom"; "PhantomData"; "PhantomTypeUpDataStructs"; "Phase"; "PhragmenScore"; "Points";
  "PolkadotCorePrimitivesInboundDownwardMessage"; "PolkadotCorePrimitivesInboundHrmpMessage";
  "PolkadotCorePrimitivesOutboundHrmpMessage"; "PolkadotPrimitivesV8AbridgedHostConfiguration";
  "PolkadotPrimitivesV8AbridgedHrmpChannel"; "PolkadotPrimitivesV8AsyncBackingAsyncBackingParams";
  "PolkadotPrimitivesV8PersistedValidationData"; "PolkadotPrimitivesV8UpgradeGoAhead";
  "PolkadotPrimitivesV8UpgradeRestriction"; "PortableType"; "PortableTypeV14"; "PostDispatchInfo"; "Precommits";
  "PrefabWasmModule"; "PrefixedStorageKey"; "PreimageStatus"; "PreimageStatusAvailable"; "PreRuntime";
  "Prevotes"; "Priority"; "PriorLock"; "PropIndex"; "Proposal"; "ProposalIndex"; "ProxyAnnouncement";
  "ProxyDefinition"; "ProxyState"; "ProxyType"; "PvfCheckStatement"; "PvfExecTimeoutKind"; "PvfPrepTimeoutKind"].

Definition names_Q : list string := [
  "QueryId"; "QueryResponseInfoV3"; "QueryResponseInfoV4"; "QueryStatus"; "QueueConfigData"; "QueuedParathread"].

Definition names_R : list string := [
  "Randomness"; "Raw"; "RawAuraPreDigest"; "RawBabePreDigest"; "RawBabePreDigestCompat";
  "RawBabePreDigestPrimary"; "RawBabePreDigestPrimaryTo159"; "RawBabePreDigestSecondaryPlain";
  "RawBabePreDigestSecondaryTo159"; "RawBabePreDigestSecondaryVRF"; "RawBabePreDigestTo159"; "RawOrigin";
  "RawSolution"; "RawSolutionTo265"; "RawSolutionWith16"; "RawSolutionWith24"; "RawVRFOutput"; "ReadProof";
  "ReadySolution"; "Reasons"; "RecoveryConfig"; "RefCount"; "RefCountTo259"; "ReferendumIndex";
  "ReferendumInfo"; "ReferendumInfoFinished"; "ReferendumInfoTo239"; "ReferendumStatus";
  "RegisteredParachainInfo"; "RegistrarIndex"; "RegistrarInfo"; "Registration"; "RegistrationJudgement";
  "RegistrationTo198"; "RelayBlockNumber"; "RelayChainBlockNumber"; "RelayChainHash"; "RelayerId"; "RelayHash";
  "Releases"; "Remark"; "Renouncing"; "RentProjection"; "ReplacementTimes"; "ReportedRoundStates"; "Reporter";
  "ReportIdOf"; "ReserveData"; "ReserveIdentifier"; "Response"; "ResponseV0"; "ResponseV1"; "ResponseV2";
  "ResponseV2Error"; "ResponseV3"; "ResponseV3Error"; "ResponseV3Result"; "ResponseV4"; "Retriable";
  "RewardDestination"; "RewardPoint"; "RoundSnapshot"; "RoundState"; "RpcMethods"; "RuntimeApiMetadataLatest";
  "RuntimeApiMetadataV15"; "RuntimeApiMethodMetadataV15"; "RuntimeApiMethodParamMetadataV15"; "RuntimeCall";
  "RuntimeDbWeight"; "RuntimeDispatchInfo"; "RuntimeDispatchInfoV1"; "RuntimeDispatchInfoV2"; "RuntimeEvent";
  "RuntimeVersion"; "RuntimeVersionApi"; "RuntimeVersionPartial"; "RuntimeVersionPre3"; "RuntimeVersionPre4"].

Definition names_S_1 : list string := [
  "Schedule"; "Scheduled"; "ScheduledCore"; "ScheduledTo254"; "SchedulePeriod"; "SchedulePriority";
  "ScheduleTo212"; "ScheduleTo258"; "ScheduleTo264"; "Scheduling"; "ScrapedOnChainVotes"; "Seal"; "SealV0";
  "SeatHolder"; "SeedOf"; "ServiceQuality"; "SessionIndex"; "SessionInfo"; "SessionInfoValidatorGroup";
  "SessionKeys1"; "SessionKeys10"; "SessionKeys10B"; "SessionKeys2"; "SessionKeys3"; "SessionKeys4";
  "SessionKeys5"; "SessionKeys6"; "SessionKeys6B"; "SessionKeys7"; "SessionKeys7B"; "SessionKeys8";
  "SessionKeys8B"; "SessionKeys9"; "SessionKeys9B"; "SessionPhase"; "SessionStatus"; "SetId"; "SetIndex";
  "Si0Field"; "Si0LookupTypeId"; "Si0Path"; "Si0Type"; "Si0TypeDef"; "Si0TypeDefArray"; "Si0TypeDefBitSequence";
  "Si0TypeDefCompact"; "Si0TypeDefComposite"; "Si0TypeDefPhantom"; "Si0TypeDefPrimitive"; "Si0TypeDefSequence";
  "Si0TypeDefTuple"; "Si0TypeDefVariant"; "Si0TypeParameter"; "Si0Variant"; "Si1Field"; "Si1LookupTypeId";
  "Si1Path"; "Si1Type"; "Si1TypeDef"; "Si1TypeDefArray"; "Si1TypeDefBitSequence"; "Si1TypeDefCompact";
  "Si1TypeDefComposite"; "Si1TypeDefPrimitive"; "Si1TypeDefSequence"; "Si1TypeDefTuple"; "Si1TypeDefVariant";
  "Si1TypeParameter"; "Si1Variant"; "SiField"; "Signature"; "SignedAvailabilityBitfield";
  "SignedAvailabilityBitfields"; "SignedBlock"; "SignedBlockWithJustification"; "SignedBlockWithJustifications";
  "SignedExtensionMetadataLatest"; "SignedExtensionMetadataV14"; "SignedSubmission"; "SignedSubmissionOf";
  "SignedSubmissionTo276"; "SignerPayload"; "SigningContext"; "SiLookupTypeId"; "SiPath"; "SiType"; "SiTypeDef";
  "SiTypeDefArray"; "SiTypeDefBitSequence"; "SiTypeDefCompact"; "SiTypeDefComposite"; "SiTypeDefPrimitive";
  "SiTypeDefSequence"; "SiTypeDefTuple"; "SiTypeDefVariant"; "SiTypeParameter"; "SiVariant";
  "SlashingOffenceKind"; "SlashingSpans"; "SlashingSpansTo204"; "SlashJournalEntry"; "Slot"; "SlotDuration";
  "SlotNumber"; "SlotRange"; "SlotRange10"; "SocietyJudgement"; "SocietyVote"; "SolutionOrSnapshotSize";
  "SolutionSupport"; "SolutionSupports"; "SpanIndex"; "SpanRecord"; "SpArithmeticArithmeticError";
  "SpConsensusAuraSr25519AppSr25519Public"; "SpCoreCryptoKeyTypeId"; "SpecVersion"; "SpRuntimeBlakeTwo256";
  "SpRuntimeDigest"; "SpRuntimeDigestDigestItem"; "SpRuntimeDispatchError"; "SpRuntimeModuleError";
  "SpRuntimeMultiSignature"; "SpRuntimeProvingTrieTrieError"; "SpRuntimeTokenError";
  "SpRuntimeTransactionalError"; "SpRuntimeTransactionValidityInvalidTransaction";
  "SpRuntimeTransactionValidityTransactionValidityError"; "SpRuntimeTransactionValidityUnknownTransaction";
  "SpTrieStorageProof"; "SpVersionRuntimeVersion"; "SpWeightsRuntimeDbWeight"; "SpWeightsWeightV2Weight";
  "Sr25519Signature"; "StagingParachainInfoCall"; "StagingXcmExecutorAssetTransferTransferType";
  "StagingXcmV3MultiLocation"; "StagingXcmV4Asset"; "StagingXcmV4AssetAssetFilter"; "StagingXcmV4AssetAssetId";
  "StagingXcmV4AssetAssetInstance"; "StagingXcmV4AssetAssets"; "StagingXcmV4AssetFungibility";
  "StagingXcmV4AssetWildAsset"; "StagingXcmV4AssetWildFungibility"; "StagingXcmV4Instruction";
  "StagingXcmV4Junction"; "StagingXcmV4JunctionNetworkId"; "StagingXcmV4Junctions"; "StagingXcmV4Location"].

Definition names_S_2 : list string := [
  "StagingXcmV4PalletInfo"; "StagingXcmV4QueryResponseInfo"; "StagingXcmV4Response"; "StagingXcmV4Xcm";
  "StagingXcmV5Asset"; "StagingXcmV5AssetAssetFilter"; "StagingXcmV5AssetAssetId";
  "StagingXcmV5AssetAssetInstance"; "StagingXcmV5AssetAssets"; "StagingXcmV5AssetAssetTransferFilter";
  "StagingXcmV5AssetFungibility"; "StagingXcmV5AssetWildAsset"; "StagingXcmV5AssetWildFungibility";
  "StagingXcmV5Hint"; "StagingXcmV5Instruction"; "StagingXcmV5Junction"; "StagingXcmV5JunctionNetworkId";
  "StagingXcmV5Junctions"; "StagingXcmV5Location"; "StagingXcmV5PalletInfo"; "StagingXcmV5QueryResponseInfo";
  "StagingXcmV5Response"; "StagingXcmV5TraitsOutcome"; "StagingXcmV5Xcm"; "StakingLedger"; "StakingLedgerTo223";
  "StakingLedgerTo240"; "Statement"; "StatementKind"; "StatementStoreInvalidStatement";
  "StatementStoreStatementSource"; "StatementStoreValidStatement"; "StorageChangeSet"; "StorageData";
  "StorageDeposit"; "StorageEntryMetadataLatest"; "StorageEntryMetadataV10"; "StorageEntryMetadataV11";
  "StorageEntryMetadataV12"; "StorageEntryMetadataV13"; "StorageEntryMetadataV14"; "StorageEntryMetadataV9";
  "StorageEntryModifierLatest"; "StorageEntryModifierV10"; "StorageEntryModifierV11"; "StorageEntryModifierV12";
  "StorageEntryModifierV13"; "StorageEntryModifierV14"; "StorageEntryModifierV9"; "StorageEntryTypeLatest";
  "StorageEntryTypeV10"; "StorageEntryTypeV11"; "StorageEntryTypeV12"; "StorageEntryTypeV13";
  "StorageEntryTypeV14"; "StorageEntryTypeV9"; "StorageHasher"; "StorageHasherV10"; "StorageHasherV11";
  "StorageHasherV12"; "StorageHasherV13"; "StorageHasherV14"; "StorageHasherV9"; "StorageInfo"; "StorageKey";
  "StorageKind"; "StorageMetadataV10"; "StorageMetadataV11"; "StorageMetadataV12"; "StorageMetadataV13";
  "StorageMetadataV9"; "StorageProof"; "StoredPendingChange"; "StoredState"; "StrikeCount"; "SubId";
  "SubmissionIndicesOf"; "Supports"; "SyncState"; "SystemInherentData"; "SystemOrigin"].

Definition names_T : list string := [
  "Tally"; "TaskAddress"; "TAssetBalance"; "TAssetConversion"; "TAssetDepositBalance"; "Text"; "Timepoint";
  "TokenError"; "TombstoneContractInfo"; "TraceBlockResponse"; "TraceError"; "TransactionalError";
  "TransactionInfo"; "TransactionLongevity"; "TransactionPriority"; "TransactionSource";
  "TransactionStorageProof"; "TransactionTag"; "TransactionV0"; "TransactionV1"; "TransactionV2";
  "TransactionValidity"; "TransactionValidityError"; "TransientValidationData"; "TreasuryProposal"; "TrieId";
  "TrieIndex"; "Type"].

Definition names_U : list string := [
  "u128"; "U128"; "u16"; "U16"; "u256"; "U256"; "u32"; "U32"; "U32F32"; "u64"; "U64"; "u8"; "U8";
  "UnappliedSlash"; "UnappliedSlashOther"; "UncheckedFungibilityV4"; "UncleEntryItem"; "UnknownTransaction";
  "UnlockChunk"; "UnrewardedRelayer"; "UnrewardedRelayersState"; "UpDataStructsAccessMode";
  "UpDataStructsCollection"; "UpDataStructsCollectionLimits"; "UpDataStructsCollectionMode";
  "UpDataStructsCollectionPermissions"; "UpDataStructsCollectionStats"; "UpDataStructsCreateCollectionData";
  "UpDataStructsCreateFungibleData"; "UpDataStructsCreateItemData"; "UpDataStructsCreateItemExData";
  "UpDataStructsCreateNftData"; "UpDataStructsCreateNftExData"; "UpDataStructsCreateReFungibleData";
  "UpDataStructsCreateRefungibleExMultipleOwners"; "UpDataStructsCreateRefungibleExSingleOwner";
  "UpDataStructsNestingPermissions"; "UpDataStructsOwnerRestrictedSet"; "UpDataStructsProperties";
  "UpDataStructsPropertiesMapBoundedVec"; "UpDataStructsPropertiesMapPropertyPermission";
  "UpDataStructsProperty"; "UpDataStructsPropertyKeyPermission"; "UpDataStructsPropertyPermission";
  "UpDataStructsPropertyScope"; "UpDataStructsRpcCollection"; "UpDataStructsRpcCollectionFlags";
  "UpDataStructsSponsoringRateLimit"; "UpDataStructsSponsorshipStateAccountId32";
  "UpDataStructsSponsorshipStateBasicCrossAccountIdRepr"; "UpDataStructsTokenChild"; "UpDataStructsTokenData";
  "UpgradeGoAhead"; "UpgradeRestriction"; "UpPovEstimateRpcPovInfo"; "UpPovEstimateRpcTrieKeyValue";
  "UpwardMessage"; "usize"; "USize"].

Definition names_V : list string := [
  "ValidationCode"; "ValidationCodeHash"; "ValidationData"; "ValidationDataType"; "ValidationFunctionParams";
  "ValidatorCount"; "ValidatorId"; "ValidatorIdOf"; "ValidatorIndex"; "ValidatorIndexCompact"; "ValidatorPrefs";
  "ValidatorPrefsTo145"; "ValidatorPrefsTo196"; "ValidatorPrefsWithBlocked"; "ValidatorPrefsWithCommission";
  "ValidatorSet"; "ValidatorSetId"; "ValidatorSignature"; "ValidDisputeStatementKind"; "ValidityAttestation";
  "ValidTransaction"; "VecInboundHrmpMessage"; "VersionedMultiAsset"; "VersionedMultiAssets";
  "VersionedMultiLocation"; "VersionedResponse"; "VersionedXcm"; "VersionMigrationStage"; "VersionV3";
  "VersionV4"; "VestingInfo"; "VestingSchedule"; "Vote"; "VoteIndex"; "Voter"; "VoterInfo"; "Votes";
  "VotesTo230"; "VoteThreshold"; "VoteWeight"; "Voting"; "VotingDelegating"; "VotingDirect"; "VotingDirectVote";
  "VouchingStatus"; "VrfData"; "VrfOutput"; "VrfProof"].

Definition names_W : list string := [
  "Weight"; "WeightLimitV2"; "WeightLimitV3"; "WeightMultiplier"; "WeightPerClass"; "WeightToFeeCoefficient";
  "WeightV0"; "WeightV1"; "WeightV2"; "WildFungibility"; "WildFungibilityV0"; "WildFungibilityV1";
  "WildFungibilityV2"; "WildFungibilityV3"; "WildFungibilityV4"; "WildMultiAsset"; "WildMultiAssetV1";
  "WildMultiAssetV2"; "WildMultiAssetV3"; "WildMultiAssetV4"; "WinnersData"; "WinnersData10";
  "WinnersDataTuple"; "WinnersDataTuple10"; "WinningData"; "WinningData10"; "WinningDataEntry";
  "WithdrawReasons"].

Definition names_X : list string := [
  "Xcm"; "XcmAssetId"; "XcmDoubleEncoded"; "XcmDryRunApiError"; "XcmDryRunEffects"; "XcmError"; "XcmErrorV0";
  "XcmErrorV1"; "XcmErrorV2"; "XcmErrorV3"; "XcmErrorV4"; "XcmOrderV0"; "XcmOrderV1"; "XcmOrigin";
  "XcmOriginKind"; "XcmPaymentApiError"; "XcmpMessageFormat"; "XcmRuntimeApisAuthorizedAliasesOriginAliaser";
  "XcmV0"; "XcmV1"; "XcmV2"; "XcmV3"; "XcmV3Instruction"; "XcmV3Junction"; "XcmV3JunctionBodyId";
  "XcmV3JunctionBodyPart"; "XcmV3JunctionNetworkId"; "XcmV3Junctions"; "XcmV3MaybeErrorCode"; "XcmV3MultiAsset";
  "XcmV3MultiassetAssetId"; "XcmV3MultiassetAssetInstance"; "XcmV3MultiassetFungibility";
  "XcmV3MultiassetMultiAssetFilter"; "XcmV3MultiassetMultiAssets"; "XcmV3MultiassetWildFungibility";
  "XcmV3MultiassetWildMultiAsset"; "XcmV3OriginKind"; "XcmV3PalletInfo"; "XcmV3QueryResponseInfo";
  "XcmV3Response"; "XcmV3TraitsError"; "XcmV3TraitsSendError"; "XcmV3WeightLimit"; "XcmV3Xcm"; "XcmV4";
  "XcmV5TraitsError"; "XcmVersion"; "XcmVersionedAsset"; "XcmVersionedAssetId"; "XcmVersionedAssets";
  "XcmVersionedLocation"; "XcmVersionedResponse"; "XcmVersionedXcm"].

End Registry.

(** [InterfaceTypes] *)
Definition registered : list string := List.concat [
  Registry.names_A; Registry.names_B; Registry.names_C_1; Registry.names_C_2; Registry.names_D;
  Registry.names_E; Registry.names_F; Registry.names_G; Registry.names_H; Registry.names_I; Registry.names_J;
  Registry.names_K; Registry.names_L; Registry.names_M; Registry.names_N; Registry.names_O; Registry.names_P_1;
  Registry.names_P_2; Registry.names_Q; Registry.names_R; Registry.names_S_1; Registry.names_S_2;
  Registry.names_T; Registry.names_U; Registry.names_V; Registry.names_W; Registry.names_X].
