(* ===== verification/ImportDefs.v ===== *)
(** * The imports of the generated declarations

    The types that each generated file under types/ imports, by the module that
    they come from. An import without names, which only has a module loaded, is
    left out. *)

From Stdlib Require Import String.
From stdpp Require Import list.

#[local] Open Scope string_scope.

Module Imports.

Definition tx : list (string * list string) := [
  ("@polkadot/api-base/types", ["ApiTypes"; "AugmentedSubmittable"; "SubmittableExtrinsic"; "SubmittableExtrinsicFunction"]);
  ("@polkadot/types", ["Data"]);
  ("@polkadot/types-codec", [
    "Bytes"; "Compact"; "Null"; "Option"; "U256"; "U8aFixed"; "Vec"; "bool"; "u128"; "u16"; "u32"; "u64"; "u8"]);
  ("@polkadot/types-codec/types", ["AnyNumber"; "IMethod"; "ITuple"]);
  ("@polkadot/types/interfaces/runtime", [
    "AccountId32"; "Call"; "H160"; "H256"; "MultiAddress"]);
  ("@polkadot/types/lookup", [
    "CumulusPrimitivesCoreAggregateMessageOrigin"; "CumulusPrimitivesParachainInherentParachainInherentData";
    "EthereumLog"; "EthereumTransactionTransactionV2"; "FrameSupportPreimagesBounded";
    "FrameSupportScheduleDispatchTime"; "OpalRuntimeOriginCaller"; "OpalRuntimeRuntimeCommonSessionKeys";
    "OrmlVestingVestingSchedule"; "PalletBalancesAdjustmentDirection";
    "PalletConfigurationAppPromotionConfiguration"; "PalletDemocracyConviction"; "PalletDemocracyMetadataOwner";
    "PalletDemocracyVoteAccountVote"; "PalletEvmAccountBasicCrossAccountIdRepr";
    "PalletForeignAssetsForeignCollectionMode"; "PalletIdentityBitFlags"; "PalletIdentityIdentityInfo";
    "PalletIdentityJudgement"; "PalletIdentityRegistration"; "PalletStateTrieMigrationMigrationLimits";
    "PalletStateTrieMigrationMigrationTask"; "PalletStateTrieMigrationProgress"; "SpWeightsWeightV2Weight";
    "StagingXcmExecutorAssetTransferTransferType"; "StagingXcmV5Location"; "UpDataStructsCollectionLimits";
    "UpDataStructsCollectionMode"; "UpDataStructsCollectionPermissions"; "UpDataStructsCreateCollectionData";
    "UpDataStructsCreateItemData"; "UpDataStructsCreateItemExData"; "UpDataStructsProperty";
    "UpDataStructsPropertyKeyPermission"; "XcmV3WeightLimit"; "XcmVersionedAsset"; "XcmVersionedAssetId";
    "XcmVersionedAssets"; "XcmVersionedLocation"; "XcmVersionedXcm"])].

Definition query : list (string * list string) := [
  ("@polkadot/api-base/types", ["ApiTypes"; "AugmentedQuery"; "QueryableStorageEntry"]);
  ("@polkadot/types", ["Data"]);
  ("@polkadot/types-codec", [
    "BTreeMap"; "BTreeSet"; "Bytes"; "Option"; "Struct"; "U256"; "U8aFixed"; "Vec"; "bool"; "u128"; "u16";
    "u32"; "u64"; "u8"]);
  ("@polkadot/types-codec/types", ["AnyNumber"; "ITuple"]);
  ("@polkadot/types/interfaces/runtime", [
    "AccountId32"; "Call"; "H160"; "H256"; "Perbill"]);
  ("@polkadot/types/lookup", [
    "CumulusPalletDmpQueueMigrationState";
    "CumulusPalletParachainSystemRelayStateSnapshotMessagingStateSnapshot";
    "CumulusPalletParachainSystemUnincludedSegmentAncestor";
    "CumulusPalletParachainSystemUnincludedSegmentSegmentTracker";
    "CumulusPalletXcmpQueueOutboundChannelDetails"; "CumulusPalletXcmpQueueQueueConfigData";
    "CumulusPrimitivesCoreAggregateMessageOrigin"; "EthereumBlock"; "EthereumLog"; "EthereumReceiptReceiptV3";
    "EthereumTransactionTransactionV2"; "FpRpcTransactionStatus"; "FrameSupportDispatchPerDispatchClassWeight";
    "FrameSupportPreimagesBounded"; "FrameSupportTokensMiscIdAmount"; "FrameSystemAccountInfo";
    "FrameSystemCodeUpgradeAuthorization"; "FrameSystemEventRecord"; "FrameSystemLastRuntimeUpgradeInfo";
    "FrameSystemPhase"; "OpalRuntimeRuntimeCommonSessionKeys"; "OpalRuntimeRuntimeHoldReason";
    "OrmlVestingVestingSchedule"; "PalletBalancesAccountData"; "PalletBalancesBalanceLock";
    "PalletBalancesReserveData"; "PalletCollectiveVotes"; "PalletConfigurationAppPromotionConfiguration";
    "PalletDemocracyMetadataOwner"; "PalletDemocracyReferendumInfo"; "PalletDemocracyVoteThreshold";
    "PalletDemocracyVoteVoting"; "PalletEvmAccountBasicCrossAccountIdRepr"; "PalletEvmCodeMetadata";
    "PalletEvmContractHelpersSponsoringModeT"; "PalletIdentityRegistrarInfo"; "PalletIdentityRegistration";
    "PalletMessageQueueBookState"; "PalletMessageQueuePage"; "PalletNonfungibleItemData";
    "PalletPreimageOldRequestStatus"; "PalletPreimageRequestStatus"; "PalletRankedCollectiveMemberRecord";
    "PalletRankedCollectiveVoteRecord"; "PalletReferendaReferendumInfo"; "PalletSchedulerRetryConfig";
    "PalletSchedulerScheduled"; "PalletStateTrieMigrationMigrationLimits";
    "PalletStateTrieMigrationMigrationTask"; "PalletTransactionPaymentReleases"; "PalletTreasuryProposal";
    "PalletTreasurySpendStatus"; "PalletXcmAuthorizedAliasesEntry"; "PalletXcmQueryStatus";
    "PalletXcmRemoteLockedFungibleRecord"; "PalletXcmVersionMigrationStage"; "PhantomTypeUpDataStructs";
    "PolkadotCorePrimitivesOutboundHrmpMessage"; "PolkadotPrimitivesV8AbridgedHostConfiguration";
    "PolkadotPrimitivesV8PersistedValidationData"; "PolkadotPrimitivesV8UpgradeGoAhead";
    "PolkadotPrimitivesV8UpgradeRestriction"; "SpConsensusAuraSr25519AppSr25519Public"; "SpCoreCryptoKeyTypeId";
    "SpRuntimeDigest"; "SpTrieStorageProof"; "SpWeightsWeightV2Weight"; "StagingXcmV5AssetAssetId";
    "StagingXcmV5AssetAssetInstance"; "StagingXcmV5Instruction"; "UpDataStructsCollection";
    "UpDataStructsCollectionStats"; "UpDataStructsProperties"; "UpDataStructsPropertiesMapPropertyPermission";
    "UpDataStructsPropertyScope"; "UpDataStructsSponsorshipStateBasicCrossAccountIdRepr";
    "UpDataStructsTokenChild"; "XcmVersionedAssetId"; "XcmVersionedLocation"]);
  ("@polkadot/types/types", ["Observable"])].

Definition events : list (string * list string) := [
  ("@polkadot/api-base/types", ["ApiTypes"; "AugmentedEvent"]);
  ("@polkadot/types-codec", [
    "Bytes"; "Null"; "Option"; "Result"; "U8aFixed"; "bool"; "u128"; "u16"; "u32"; "u64"; "u8"]);
  ("@polkadot/types-codec/types", ["ITuple"]);
  ("@polkadot/types/interfaces/runtime", ["AccountId32"; "H160"; "H256"]);
  ("@polkadot/types/lookup", [
    "CumulusPrimitivesCoreAggregateMessageOrigin"; "EthereumLog"; "EvmCoreErrorExitReason";
    "FrameSupportMessagesProcessMessageError"; "FrameSupportPreimagesBounded";
    "FrameSupportTokensMiscBalanceStatus"; "FrameSystemDispatchEventInfo"; "OrmlVestingVestingSchedule";
    "PalletDemocracyMetadataOwner"; "PalletDemocracyVoteAccountVote"; "PalletDemocracyVoteThreshold";
    "PalletEvmAccountBasicCrossAccountIdRepr"; "PalletForeignAssetsMigrationStatus";
    "PalletRankedCollectiveTally"; "PalletRankedCollectiveVoteRecord"; "PalletStateTrieMigrationError";
    "PalletStateTrieMigrationMigrationCompute"; "SpRuntimeDispatchError"; "SpWeightsWeightV2Weight";
    "StagingXcmV5Asset"; "StagingXcmV5AssetAssets"; "StagingXcmV5Location"; "StagingXcmV5Response";
    "StagingXcmV5TraitsOutcome"; "StagingXcmV5Xcm"; "XcmV3TraitsSendError"; "XcmV5TraitsError";
    "XcmVersionedAssetId"; "XcmVersionedAssets"; "XcmVersionedLocation"])].

Definition consts : list (string * list string) := [
  ("@polkadot/api-base/types", ["ApiTypes"; "AugmentedConst"]);
  ("@polkadot/types-codec", [
    "Null"; "Option"; "U8aFixed"; "Vec"; "bool"; "u128"; "u16"; "u32"; "u64"; "u8"]);
  ("@polkadot/types-codec/types", ["Codec"; "ITuple"]);
  ("@polkadot/types/interfaces/runtime", ["AccountId32"; "H160"; "Perbill"; "Permill"]);
  ("@polkadot/types/lookup", [
    "FrameSupportPalletId"; "FrameSystemLimitsBlockLength"; "FrameSystemLimitsBlockWeights";
    "PalletReferendaTrackDetails"; "SpVersionRuntimeVersion"; "SpWeightsRuntimeDbWeight";
    "SpWeightsWeightV2Weight"; "StagingXcmV5Location"; "UpDataStructsCollectionLimits"])].

Definition rpc : list (string * list string) := [
  ("./default", [
    "PalletEvmAccountBasicCrossAccountIdRepr"; "UpDataStructsCollectionLimits"; "UpDataStructsCollectionStats";
    "UpDataStructsProperty"; "UpDataStructsPropertyKeyPermission"; "UpDataStructsRpcCollection";
    "UpDataStructsTokenChild"; "UpDataStructsTokenData"; "UpPovEstimateRpcPovInfo"]);
  ("@polkadot/rpc-core/types", ["AugmentedRpc"]);
  ("@polkadot/types", ["Metadata"; "StorageKey"]);
  ("@polkadot/types-codec", [
    "Bytes"; "HashMap"; "Json"; "Null"; "Option"; "Text"; "U256"; "U64"; "Vec"; "bool"; "f64"; "u128"; "u32";
    "u64"]);
  ("@polkadot/types-codec/types", ["AnyNumber"; "Codec"; "ITuple"]);
  ("@polkadot/types/interfaces/author", ["ExtrinsicOrHash"; "ExtrinsicStatus"]);
  ("@polkadot/types/interfaces/babe", ["EpochAuthorship"]);
  ("@polkadot/types/interfaces/beefy", ["BeefyVersionedFinalityProof"]);
  ("@polkadot/types/interfaces/chain", ["BlockHash"]);
  ("@polkadot/types/interfaces/childstate", ["PrefixedStorageKey"]);
  ("@polkadot/types/interfaces/consensus", ["AuthorityId"]);
  ("@polkadot/types/interfaces/contracts", [
    "CodeUploadRequest"; "CodeUploadResult"; "ContractCallRequest"; "ContractExecResult";
    "ContractInstantiateResult"; "InstantiateRequestV1"]);
  ("@polkadot/types/interfaces/dev", ["BlockStats"]);
  ("@polkadot/types/interfaces/engine", ["CreatedBlock"]);
  ("@polkadot/types/interfaces/eth", [
    "EthAccount"; "EthCallRequest"; "EthFeeHistory"; "EthFilter"; "EthFilterChanges"; "EthLog"; "EthReceipt";
    "EthRichBlock"; "EthSubKind"; "EthSubParams"; "EthSyncStatus"; "EthTransaction"; "EthTransactionRequest";
    "EthWork"]);
  ("@polkadot/types/interfaces/extrinsics", ["Extrinsic"]);
  ("@polkadot/types/interfaces/grandpa", ["EncodedFinalityProofs"; "JustificationNotification"; "ReportedRoundStates"]);
  ("@polkadot/types/interfaces/mmr", ["MmrHash"; "MmrLeafBatchProof"]);
  ("@polkadot/types/interfaces/offchain", ["StorageKind"]);
  ("@polkadot/types/interfaces/payment", ["FeeDetails"; "RuntimeDispatchInfoV1"]);
  ("@polkadot/types/interfaces/rpc", ["RpcMethods"]);
  ("@polkadot/types/interfaces/runtime", [
    "AccountId"; "BlockNumber"; "H160"; "H256"; "H64"; "Hash"; "Header"; "Index"; "Justification"; "KeyValue";
    "SignedBlock"; "StorageData"]);
  ("@polkadot/types/interfaces/state", ["MigrationStatusResult"; "ReadProof"; "RuntimeVersion"; "TraceBlockResponse"]);
  ("@polkadot/types/interfaces/system", [
    "ApplyExtrinsicResult"; "ChainProperties"; "ChainType"; "Health"; "NetworkState"; "NodeRole"; "PeerInfo";
    "SyncState"]);
  ("@polkadot/types/types", ["IExtrinsic"; "Observable"])].

Definition runtime : list (string * list string) := [
  ("@polkadot/api-base/types", ["ApiTypes"; "AugmentedCall"; "DecoratedCallBase"]);
  ("@polkadot/types-codec", [
    "Bytes"; "Null"; "Option"; "Result"; "U256"; "Vec"; "bool"; "u256"; "u32"; "u64"]);
  ("@polkadot/types-codec/types", ["AnyNumber"; "ITuple"]);
  ("@polkadot/types/interfaces/blockbuilder", ["CheckInherentsResult"; "InherentData"]);
  ("@polkadot/types/interfaces/chain", ["BlockHash"]);
  ("@polkadot/types/interfaces/consensus", ["AuthorityId"]);
  ("@polkadot/types/interfaces/cumulus", ["CollationInfo"]);
  ("@polkadot/types/interfaces/eth", ["BlockV2"; "EthReceiptV3"; "EthTransactionStatus"; "TransactionV2"]);
  ("@polkadot/types/interfaces/evm", ["EvmAccount"; "EvmCallInfoV2"; "EvmCreateInfoV2"]);
  ("@polkadot/types/interfaces/extrinsics", ["Extrinsic"]);
  ("@polkadot/types/interfaces/genesisBuilder", ["GenesisBuildErr"]);
  ("@polkadot/types/interfaces/metadata", ["OpaqueMetadata"]);
  ("@polkadot/types/interfaces/payment", ["FeeDetails"; "RuntimeDispatchInfo"]);
  ("@polkadot/types/interfaces/runtime", [
    "AccountId"; "Balance"; "Block"; "ExtrinsicInclusionMode"; "H160"; "H256"; "Header"; "Index"; "KeyTypeId";
    "Permill"; "SlotDuration"; "Weight"]);
  ("@polkadot/types/interfaces/state", ["RuntimeVersion"]);
  ("@polkadot/types/interfaces/system", ["ApplyExtrinsicResult"; "DispatchError"]);
  ("@polkadot/types/interfaces/txqueue", ["TransactionSource"; "TransactionValidity"]);
  ("@polkadot/types/types", ["IExtrinsic"; "Observable"])].

Definition types_lookup : list (string * list string) := [
  ("@polkadot/types", ["Data"]);
  ("@polkadot/types-codec", [
    "BTreeMap"; "BTreeSet"; "Bytes"; "Compact"; "Enum"; "Null"; "Option"; "Result"; "Set"; "Struct"; "Text";
    "U256"; "U8aFixed"; "Vec"; "bool"; "i64"; "u128"; "u16"; "u32"; "u64"; "u8"]);
  ("@polkadot/types-codec/types", ["ITuple"]);
  ("@polkadot/types/interfaces/elections", ["Vote"]);
  ("@polkadot/types/interfaces/runtime", [
    "AccountId32"; "Call"; "H160"; "H256"; "MultiAddress"; "Perbill"]);
  ("@polkadot/types/interfaces/system", ["Event"])].

Definition default_types : list (string * list string) := [
  ("@polkadot/types", ["Data"]);
  ("@polkadot/types-codec", [
    "BTreeMap"; "BTreeSet"; "Bytes"; "Compact"; "Enum"; "Null"; "Option"; "Result"; "Struct"; "Text"; "U256";
    "U8aFixed"; "Vec"; "bool"; "i64"; "u128"; "u16"; "u32"; "u64"; "u8"]);
  ("@polkadot/types-codec/types", ["ITuple"]);
  ("@polkadot/types/interfaces/elections", ["Vote"]);
  ("@polkadot/types/interfaces/runtime", [
    "AccountId32"; "Call"; "H160"; "H256"; "MultiAddress"; "Perbill"]);
  ("@polkadot/types/interfaces/system", ["Event"])].

Definition augment_types : list (string * list string) := [
  ("./default", [
    "CumulusPalletDmpQueueCall"; "CumulusPalletDmpQueueEvent"; "CumulusPalletDmpQueueMigrationState";
    "CumulusPalletParachainSystemCall"; "CumulusPalletParachainSystemError";
    "CumulusPalletParachainSystemEvent"; "CumulusPalletParachainSystemRelayStateSnapshotMessagingStateSnapshot";
    "CumulusPalletParachainSystemRelayStateSnapshotRelayDispatchQueueRemainingCapacity";
    "CumulusPalletParachainSystemUnincludedSegmentAncestor";
    "CumulusPalletParachainSystemUnincludedSegmentHrmpChannelUpdate";
    "CumulusPalletParachainSystemUnincludedSegmentSegmentTracker";
    "CumulusPalletParachainSystemUnincludedSegmentUsedBandwidth"; "CumulusPalletXcmCall";
    "CumulusPalletXcmEvent"; "CumulusPalletXcmOrigin"; "CumulusPalletXcmpQueueCall";
    "CumulusPalletXcmpQueueError"; "CumulusPalletXcmpQueueEvent";
    "CumulusPalletXcmpQueueOutboundChannelDetails"; "CumulusPalletXcmpQueueOutboundState";
    "CumulusPalletXcmpQueueQueueConfigData"; "CumulusPrimitivesCoreAggregateMessageOrigin";
    "CumulusPrimitivesParachainInherentParachainInherentData";
    "CumulusPrimitivesStorageWeightReclaimAllowDeprecatedStorageWeightReclaim"; "EthbloomBloom";
    "EthereumBlock"; "EthereumHeader"; "EthereumLog"; "EthereumReceiptEip658ReceiptData";
    "EthereumReceiptReceiptV3"; "EthereumTransactionEip1559Eip1559Transaction";
    "EthereumTransactionEip2930AccessListItem"; "EthereumTransactionEip2930Eip2930Transaction";
    "EthereumTransactionLegacyLegacyTransaction"; "EthereumTransactionLegacyTransactionAction";
    "EthereumTransactionLegacyTransactionSignature"; "EthereumTransactionTransactionV2"; "EthereumTypesHashH64";
    "EvmCoreErrorExitError"; "EvmCoreErrorExitFatal"; "EvmCoreErrorExitReason"; "EvmCoreErrorExitRevert";
    "EvmCoreErrorExitSucceed"; "FpRpcTransactionStatus"; "FrameMetadataHashExtensionCheckMetadataHash";
    "FrameMetadataHashExtensionMode"; "FrameSupportDispatchDispatchClass"; "FrameSupportDispatchPays";
    "FrameSupportDispatchPerDispatchClassU32"; "FrameSupportDispatchPerDispatchClassWeight";
    "FrameSupportDispatchPerDispatchClassWeightsPerClass"; "FrameSupportDispatchRawOrigin";
    "FrameSupportMessagesProcessMessageError"; "FrameSupportPalletId"; "FrameSupportPreimagesBounded";
    "FrameSupportScheduleDispatchTime"; "FrameSupportStorageDisabled"; "FrameSupportTokensMiscBalanceStatus";
    "FrameSupportTokensMiscIdAmount"; "FrameSystemAccountInfo"; "FrameSystemCall";
    "FrameSystemCodeUpgradeAuthorization"; "FrameSystemDispatchEventInfo"; "FrameSystemError";
    "FrameSystemEvent"; "FrameSystemEventRecord"; "FrameSystemExtensionsCheckGenesis";
    "FrameSystemExtensionsCheckSpecVersion"; "FrameSystemExtensionsCheckTxVersion";
    "FrameSystemExtensionsCheckWeight"; "FrameSystemLastRuntimeUpgradeInfo"; "FrameSystemLimitsBlockLength";
    "FrameSystemLimitsBlockWeights"; "FrameSystemLimitsWeightsPerClass"; "FrameSystemPhase";
    "OpalRuntimeOriginCaller"; "OpalRuntimeRuntime"; "OpalRuntimeRuntimeCommonFeeCoefficientCalculator";
    "OpalRuntimeRuntimeCommonIdentityDisableIdentityCalls";
    "OpalRuntimeRuntimeCommonMaintenanceCheckMaintenance"; "OpalRuntimeRuntimeCommonSessionKeys";
    "OpalRuntimeRuntimeHoldReason"; "OrmlVestingModuleCall"; "OrmlVestingModuleError"; "OrmlVestingModuleEvent";
    "OrmlVestingVestingSchedule"; "OrmlXtokensModuleCall"; "OrmlXtokensModuleError"; "OrmlXtokensModuleEvent";
    "PalletAppPromotionCall"; "PalletAppPromotionError"; "PalletAppPromotionEvent"; "PalletBalancesAccountData";
    "PalletBalancesAdjustmentDirection"; "PalletBalancesBalanceLock"; "PalletBalancesCall";
    "PalletBalancesError"; "PalletBalancesEvent"; "PalletBalancesReasons"; "PalletBalancesReserveData";
    "PalletCollatorSelectionCall"; "PalletCollatorSelectionError"; "PalletCollatorSelectionEvent";
    "PalletCollatorSelectionHoldReason"; "PalletCollectiveCall"; "PalletCollectiveError";
    "PalletCollectiveEvent"; "PalletCollectiveHoldReason"; "PalletCollectiveRawOrigin"; "PalletCollectiveVotes";
    "PalletCommonError"; "PalletCommonEvent"; "PalletConfigurationAppPromotionConfiguration";
    "PalletConfigurationCall"; "PalletConfigurationError"; "PalletConfigurationEvent"; "PalletDemocracyCall";
    "PalletDemocracyConviction"; "PalletDemocracyDelegations"; "PalletDemocracyError"; "PalletDemocracyEvent";
    "PalletDemocracyMetadataOwner"; "PalletDemocracyReferendumInfo"; "PalletDemocracyReferendumStatus";
    "PalletDemocracyTally"; "PalletDemocracyVoteAccountVote"; "PalletDemocracyVotePriorLock";
    "PalletDemocracyVoteThreshold"; "PalletDemocracyVoteVoting"; "PalletEthereumCall"; "PalletEthereumError";
    "PalletEthereumEvent"; "PalletEthereumFakeTransactionFinalizer"; "PalletEthereumRawOrigin";
    "PalletEvmAccountBasicCrossAccountIdRepr"; "PalletEvmCall"; "PalletEvmCodeMetadata";
    "PalletEvmCoderSubstrateError"; "PalletEvmContractHelpersCall"; "PalletEvmContractHelpersError";
    "PalletEvmContractHelpersEvent"; "PalletEvmContractHelpersSponsoringModeT"; "PalletEvmError";
    "PalletEvmEvent"; "PalletEvmMigrationCall"; "PalletEvmMigrationError"; "PalletEvmMigrationEvent";
    "PalletForeignAssetsForeignCollectionMode"; "PalletForeignAssetsMigrationStatus";
    "PalletForeignAssetsMigrationStatusV3ToV5"; "PalletForeignAssetsModuleCall";
    "PalletForeignAssetsModuleError"; "PalletForeignAssetsModuleEvent"; "PalletFungibleError";
    "PalletGovOriginsOrigin"; "PalletIdentityBitFlags"; "PalletIdentityCall"; "PalletIdentityError";
    "PalletIdentityEvent"; "PalletIdentityIdentityField"; "PalletIdentityIdentityInfo";
    "PalletIdentityJudgement"; "PalletIdentityRegistrarInfo"; "PalletIdentityRegistration";
    "PalletInflationCall"; "PalletMaintenanceCall"; "PalletMaintenanceError"; "PalletMaintenanceEvent";
    "PalletMembershipCall"; "PalletMembershipError"; "PalletMembershipEvent"; "PalletMessageQueueBookState";
    "PalletMessageQueueCall"; "PalletMessageQueueError"; "PalletMessageQueueEvent";
    "PalletMessageQueueNeighbours"; "PalletMessageQueuePage"; "PalletNonfungibleError";
    "PalletNonfungibleItemData"; "PalletPreimageCall"; "PalletPreimageError"; "PalletPreimageEvent";
    "PalletPreimageHoldReason"; "PalletPreimageOldRequestStatus"; "PalletPreimageRequestStatus";
    "PalletRankedCollectiveCall"; "PalletRankedCollectiveError"; "PalletRankedCollectiveEvent";
    "PalletRankedCollectiveMemberRecord"; "PalletRankedCollectiveTally"; "PalletRankedCollectiveVoteRecord";
    "PalletReferendaCall"; "PalletReferendaCurve"; "PalletReferendaDecidingStatus"; "PalletReferendaDeposit";
    "PalletReferendaError"; "PalletReferendaEvent"; "PalletReferendaReferendumInfo";
    "PalletReferendaReferendumStatus"; "PalletReferendaTrackDetails"; "PalletRefungibleError";
    "PalletSchedulerCall"; "PalletSchedulerError"; "PalletSchedulerEvent"; "PalletSchedulerRetryConfig";
    "PalletSchedulerScheduled"; "PalletSessionCall"; "PalletSessionError"; "PalletSessionEvent";
    "PalletSponsoringChargeTransactionPayment"; "PalletSponsoringCheckNonce"; "PalletStateTrieMigrationCall";
    "PalletStateTrieMigrationError"; "PalletStateTrieMigrationEvent"; "PalletStateTrieMigrationHoldReason";
    "PalletStateTrieMigrationMigrationCompute"; "PalletStateTrieMigrationMigrationLimits";
    "PalletStateTrieMigrationMigrationTask"; "PalletStateTrieMigrationProgress"; "PalletStructureCall";
    "PalletStructureError"; "PalletStructureEvent"; "PalletSudoCall"; "PalletSudoError"; "PalletSudoEvent";
    "PalletTestUtilsCall"; "PalletTestUtilsError"; "PalletTestUtilsEvent"; "PalletTimestampCall";
    "PalletTransactionPaymentEvent"; "PalletTransactionPaymentReleases"; "PalletTreasuryCall";
    "PalletTreasuryError"; "PalletTreasuryEvent"; "PalletTreasuryPaymentState"; "PalletTreasuryProposal";
    "PalletTreasurySpendStatus"; "PalletUniqueCall"; "PalletUniqueError"; "PalletUtilityCall";
    "PalletUtilityError"; "PalletUtilityEvent"; "PalletXcmAuthorizedAliasesEntry"; "PalletXcmCall";
    "PalletXcmError"; "PalletXcmEvent"; "PalletXcmHoldReason"; "PalletXcmMaxAuthorizedAliases";
    "PalletXcmOrigin"; "PalletXcmQueryStatus"; "PalletXcmRemoteLockedFungibleRecord";
    "PalletXcmVersionMigrationStage"; "PhantomTypeUpDataStructs";
    "PolkadotCorePrimitivesInboundDownwardMessage"; "PolkadotCorePrimitivesInboundHrmpMessage";
    "PolkadotCorePrimitivesOutboundHrmpMessage"; "PolkadotPrimitivesV8AbridgedHostConfiguration";
    "PolkadotPrimitivesV8AbridgedHrmpChannel"; "PolkadotPrimitivesV8AsyncBackingAsyncBackingParams";
    "PolkadotPrimitivesV8PersistedValidationData"; "PolkadotPrimitivesV8UpgradeGoAhead";
    "PolkadotPrimitivesV8UpgradeRestriction"; "SpArithmeticArithmeticError";
    "SpConsensusAuraSr25519AppSr25519Public"; "SpCoreCryptoKeyTypeId"; "SpRuntimeBlakeTwo256";
    "SpRuntimeDigest"; "SpRuntimeDigestDigestItem"; "SpRuntimeDispatchError"; "SpRuntimeModuleError";
    "SpRuntimeMultiSignature"; "SpRuntimeProvingTrieTrieError"; "SpRuntimeTokenError";
    "SpRuntimeTransactionValidityInvalidTransaction"; "SpRuntimeTransactionValidityTransactionValidityError";
    "SpRuntimeTransactionValidityUnknownTransaction"; "SpRuntimeTransactionalError"; "SpTrieStorageProof";
    "SpVersionRuntimeVersion"; "SpWeightsRuntimeDbWeight"; "SpWeightsWeightV2Weight";
    "StagingParachainInfoCall"; "StagingXcmExecutorAssetTransferTransferType"; "StagingXcmV3MultiLocation";
    "StagingXcmV4Asset"; "StagingXcmV4AssetAssetFilter"; "StagingXcmV4AssetAssetId";
    "StagingXcmV4AssetAssetInstance"; "StagingXcmV4AssetAssets"; "StagingXcmV4AssetFungibility";
    "StagingXcmV4AssetWildAsset"; "StagingXcmV4AssetWildFungibility"; "StagingXcmV4Instruction";
    "StagingXcmV4Junction"; "StagingXcmV4JunctionNetworkId"; "StagingXcmV4Junctions"; "StagingXcmV4Location";
    "StagingXcmV4PalletInfo"; "StagingXcmV4QueryResponseInfo"; "StagingXcmV4Response"; "StagingXcmV4Xcm";
    "StagingXcmV5Asset"; "StagingXcmV5AssetAssetFilter"; "StagingXcmV5AssetAssetId";
    "StagingXcmV5AssetAssetInstance"; "StagingXcmV5AssetAssetTransferFilter"; "StagingXcmV5AssetAssets";
    "StagingXcmV5AssetFungibility"; "StagingXcmV5AssetWildAsset"; "StagingXcmV5AssetWildFungibility";
    "StagingXcmV5Hint"; "StagingXcmV5Instruction"; "StagingXcmV5Junction"; "StagingXcmV5JunctionNetworkId";
    "StagingXcmV5Junctions"; "StagingXcmV5Location"; "StagingXcmV5PalletInfo"; "StagingXcmV5QueryResponseInfo";
    "StagingXcmV5Response"; "StagingXcmV5TraitsOutcome"; "StagingXcmV5Xcm"; "UpDataStructsAccessMode";
    "UpDataStructsCollection"; "UpDataStructsCollectionLimits"; "UpDataStructsCollectionMode";
    "UpDataStructsCollectionPermissions"; "UpDataStructsCollectionStats"; "UpDataStructsCreateCollectionData";
    "UpDataStructsCreateFungibleData"; "UpDataStructsCreateItemData"; "UpDataStructsCreateItemExData";
    "UpDataStructsCreateNftData"; "UpDataStructsCreateNftExData"; "UpDataStructsCreateReFungibleData";
    "UpDataStructsCreateRefungibleExMultipleOwners"; "UpDataStructsCreateRefungibleExSingleOwner";
    "UpDataStructsNestingPermissions"; "UpDataStructsOwnerRestrictedSet"; "UpDataStructsProperties";
    "UpDataStructsPropertiesMapBoundedVec"; "UpDataStructsPropertiesMapPropertyPermission";
    "UpDataStructsProperty"; "UpDataStructsPropertyKeyPermission"; "UpDataStructsPropertyPermission";
    "UpDataStructsPropertyScope"; "UpDataStructsRpcCollection"; "UpDataStructsRpcCollectionFlags";
    "UpDataStructsSponsoringRateLimit"; "UpDataStructsSponsorshipStateAccountId32";
    "UpDataStructsSponsorshipStateBasicCrossAccountIdRepr"; "UpDataStructsTokenChild"; "UpDataStructsTokenData";
    "UpPovEstimateRpcPovInfo"; "UpPovEstimateRpcTrieKeyValue"; "XcmDoubleEncoded";
    "XcmRuntimeApisAuthorizedAliasesOriginAliaser"; "XcmV3Instruction"; "XcmV3Junction"; "XcmV3JunctionBodyId";
    "XcmV3JunctionBodyPart"; "XcmV3JunctionNetworkId"; "XcmV3Junctions"; "XcmV3MaybeErrorCode";
    "XcmV3MultiAsset"; "XcmV3MultiassetAssetId"; "XcmV3MultiassetAssetInstance"; "XcmV3MultiassetFungibility";
    "XcmV3MultiassetMultiAssetFilter"; "XcmV3MultiassetMultiAssets"; "XcmV3MultiassetWildFungibility";
    "XcmV3MultiassetWildMultiAsset"; "XcmV3OriginKind"; "XcmV3PalletInfo"; "XcmV3QueryResponseInfo";
    "XcmV3Response"; "XcmV3TraitsError"; "XcmV3TraitsSendError"; "XcmV3WeightLimit"; "XcmV3Xcm";
    "XcmV5TraitsError"; "XcmVersionedAsset"; "XcmVersionedAssetId"; "XcmVersionedAssets";
    "XcmVersionedLocation"; "XcmVersionedResponse"; "XcmVersionedXcm"]);
  ("@polkadot/types", ["Data"; "StorageKey"]);
  ("@polkadot/types-codec", [
    "BitVec"; "Bool"; "Bytes"; "F32"; "F64"; "I128"; "I16"; "I256"; "I32"; "I64"; "I8"; "ISize"; "Json"; "Null";
    "OptionBool"; "Raw"; "Text"; "Type"; "U128"; "U16"; "U256"; "U32"; "U64"; "U8"; "USize"; "bool"; "f32";
    "f64"; "i128"; "i16"; "i256"; "i32"; "i64"; "i8"; "isize"; "u128"; "u16"; "u256"; "u32"; "u64"; "u8";
    "usize"]);
  ("@polkadot/types/interfaces/assetConversion", ["TAssetConversion"]);
  ("@polkadot/types/interfaces/assets", [
    "AssetApproval"; "AssetApprovalKey"; "AssetBalance"; "AssetDestroyWitness"; "AssetDetails"; "AssetMetadata";
    "TAssetBalance"; "TAssetDepositBalance"]);
  ("@polkadot/types/interfaces/attestations", ["BlockAttestations"; "IncludedBlocks"; "MoreAttestations"]);
  ("@polkadot/types/interfaces/aura", ["RawAuraPreDigest"]);
  ("@polkadot/types/interfaces/author", ["ExtrinsicOrHash"; "ExtrinsicStatus"]);
  ("@polkadot/types/interfaces/authorship", ["UncleEntryItem"]);
  ("@polkadot/types/interfaces/babe", [
    "AllowedSlots"; "BabeAuthorityWeight"; "BabeBlockWeight"; "BabeEpochConfiguration"; "BabeEquivocationProof";
    "BabeGenesisConfiguration"; "BabeGenesisConfigurationV1"; "BabeWeight"; "Epoch"; "EpochAuthorship";
    "MaybeRandomness"; "MaybeVrf"; "NextConfigDescriptor"; "NextConfigDescriptorV1"; "OpaqueKeyOwnershipProof";
    "Randomness"; "RawBabePreDigest"; "RawBabePreDigestCompat"; "RawBabePreDigestPrimary";
    "RawBabePreDigestPrimaryTo159"; "RawBabePreDigestSecondaryPlain"; "RawBabePreDigestSecondaryTo159";
    "RawBabePreDigestSecondaryVRF"; "RawBabePreDigestTo159"; "SlotNumber"; "VrfData"; "VrfOutput"; "VrfProof"]);
  ("@polkadot/types/interfaces/balances", [
    "AccountData"; "BalanceLock"; "BalanceLockTo212"; "BalanceStatus"; "Reasons"; "ReserveData";
    "ReserveIdentifier"; "VestingSchedule"; "WithdrawReasons"]);
  ("@polkadot/types/interfaces/beefy", [
    "BeefyAuthoritySet"; "BeefyCommitment"; "BeefyCompactSignedCommitment"; "BeefyEquivocationProof"; "BeefyId";
    "BeefyNextAuthoritySet"; "BeefyPayload"; "BeefyPayloadId"; "BeefySignedCommitment";
    "BeefyVersionedFinalityProof"; "BeefyVoteMessage"; "MmrRootHash"; "ValidatorSet"; "ValidatorSetId"]);
  ("@polkadot/types/interfaces/benchmark", [
    "BenchmarkBatch"; "BenchmarkConfig"; "BenchmarkList"; "BenchmarkMetadata"; "BenchmarkParameter";
    "BenchmarkResult"]);
  ("@polkadot/types/interfaces/blockbuilder", ["CheckInherentsResult"; "InherentData"; "InherentIdentifier"]);
  ("@polkadot/types/interfaces/bridges", [
    "BridgeMessageId"; "BridgedBlockHash"; "BridgedBlockNumber"; "BridgedHeader"; "CallOrigin"; "ChainId";
    "DeliveredMessages"; "DispatchFeePayment"; "InboundLaneData"; "InboundRelayer"; "InitializationData";
    "LaneId"; "MessageData"; "MessageKey"; "MessageNonce"; "MessagesDeliveryProofOf"; "MessagesProofOf";
    "OperatingMode"; "OutboundLaneData"; "OutboundMessageFee"; "OutboundPayload"; "Parameter"; "RelayerId";
    "UnrewardedRelayer"; "UnrewardedRelayersState"]);
  ("@polkadot/types/interfaces/chain", ["BlockHash"]);
  ("@polkadot/types/interfaces/childstate", ["PrefixedStorageKey"]);
  ("@polkadot/types/interfaces/claims", ["StatementKind"]);
  ("@polkadot/types/interfaces/collective", [
    "CollectiveOrigin"; "MemberCount"; "ProposalIndex"; "Votes"; "VotesTo230"]);
  ("@polkadot/types/interfaces/consensus", ["AuthorityId"; "RawVRFOutput"]);
  ("@polkadot/types/interfaces/contracts", [
    "AliveContractInfo"; "CodeHash"; "CodeSource"; "CodeUploadRequest"; "CodeUploadResult";
    "CodeUploadResultValue"; "ContractCallFlags"; "ContractCallRequest"; "ContractExecResult";
    "ContractExecResultOk"; "ContractExecResultResult"; "ContractExecResultSuccessTo255";
    "ContractExecResultSuccessTo260"; "ContractExecResultTo255"; "ContractExecResultTo260";
    "ContractExecResultTo267"; "ContractExecResultU64"; "ContractInfo"; "ContractInstantiateResult";
    "ContractInstantiateResultTo267"; "ContractInstantiateResultTo299"; "ContractInstantiateResultU64";
    "ContractReturnFlags"; "ContractStorageKey"; "DeletedContract"; "ExecReturnValue"; "Gas"; "HostFnWeights";
    "HostFnWeightsTo264"; "InstantiateRequest"; "InstantiateRequestV1"; "InstantiateRequestV2";
    "InstantiateReturnValue"; "InstantiateReturnValueOk"; "InstantiateReturnValueTo267"; "InstructionWeights";
    "Limits"; "LimitsTo264"; "PrefabWasmModule"; "RentProjection"; "Schedule"; "ScheduleTo212"; "ScheduleTo258";
    "ScheduleTo264"; "SeedOf"; "StorageDeposit"; "TombstoneContractInfo"; "TrieId"]);
  ("@polkadot/types/interfaces/contractsAbi", [
    "ContractConstructorSpecLatest"; "ContractConstructorSpecV0"; "ContractConstructorSpecV1";
    "ContractConstructorSpecV2"; "ContractConstructorSpecV3"; "ContractConstructorSpecV4";
    "ContractContractSpecV0"; "ContractContractSpecV1"; "ContractContractSpecV2"; "ContractContractSpecV3";
    "ContractContractSpecV4"; "ContractContractSpecV5"; "ContractCryptoHasher"; "ContractDiscriminant";
    "ContractDisplayName"; "ContractEnvironmentV4"; "ContractEventParamSpecLatest"; "ContractEventParamSpecV0";
    "ContractEventParamSpecV2"; "ContractEventSpecLatest"; "ContractEventSpecV0"; "ContractEventSpecV1";
    "ContractEventSpecV2"; "ContractEventSpecV3"; "ContractLayoutArray"; "ContractLayoutCell";
    "ContractLayoutEnum"; "ContractLayoutHash"; "ContractLayoutHashingStrategy"; "ContractLayoutKey";
    "ContractLayoutStruct"; "ContractLayoutStructField"; "ContractMessageParamSpecLatest";
    "ContractMessageParamSpecV0"; "ContractMessageParamSpecV2"; "ContractMessageSpecLatest";
    "ContractMessageSpecV0"; "ContractMessageSpecV1"; "ContractMessageSpecV2"; "ContractMessageSpecV3";
    "ContractMetadata"; "ContractMetadataLatest"; "ContractMetadataV0"; "ContractMetadataV1";
    "ContractMetadataV2"; "ContractMetadataV3"; "ContractMetadataV4"; "ContractMetadataV5"; "ContractProject";
    "ContractProjectContract"; "ContractProjectInfo"; "ContractProjectSource"; "ContractProjectV0";
    "ContractSelector"; "ContractStorageLayout"; "ContractTypeSpec"]);
  ("@polkadot/types/interfaces/crowdloan", ["FundIndex"; "FundInfo"; "LastContribution"; "TrieIndex"]);
  ("@polkadot/types/interfaces/cumulus", [
    "CollationInfo"; "CollationInfoV1"; "ConfigData"; "MessageId"; "OverweightIndex"; "PageCounter";
    "PageIndexData"]);
  ("@polkadot/types/interfaces/democracy", [
    "AccountVote"; "AccountVoteSplit"; "AccountVoteStandard"; "Conviction"; "Delegations"; "PreimageStatus";
    "PreimageStatusAvailable"; "PriorLock"; "PropIndex"; "Proposal"; "ProxyState"; "ReferendumIndex";
    "ReferendumInfo"; "ReferendumInfoFinished"; "ReferendumInfoTo239"; "ReferendumStatus"; "Tally"; "Voting";
    "VotingDelegating"; "VotingDirect"; "VotingDirectVote"]);
  ("@polkadot/types/interfaces/dev", ["BlockStats"]);
  ("@polkadot/types/interfaces/dryRunApi", [
    "CallDryRunEffects"; "DispatchResultWithPostInfo"; "PostDispatchInfo"; "XcmDryRunApiError";
    "XcmDryRunEffects"]);
  ("@polkadot/types/interfaces/elections", [
    "ApprovalFlag"; "DefunctVoter"; "Renouncing"; "SetIndex"; "Vote"; "VoteIndex"; "VoteThreshold"; "VoterInfo"]);
  ("@polkadot/types/interfaces/engine", ["CreatedBlock"; "ImportedAux"]);
  ("@polkadot/types/interfaces/eth", [
    "BlockV0"; "BlockV1"; "BlockV2"; "EIP1559Transaction"; "EIP2930Transaction"; "EthAccessList";
    "EthAccessListItem"; "EthAccount"; "EthAddress"; "EthBlock"; "EthBloom"; "EthCallRequest"; "EthFeeHistory";
    "EthFilter"; "EthFilterAddress"; "EthFilterChanges"; "EthFilterTopic"; "EthFilterTopicEntry";
    "EthFilterTopicInner"; "EthHeader"; "EthLog"; "EthReceipt"; "EthReceiptV0"; "EthReceiptV3"; "EthRichBlock";
    "EthRichHeader"; "EthStorageProof"; "EthSubKind"; "EthSubParams"; "EthSubResult"; "EthSyncInfo";
    "EthSyncStatus"; "EthTransaction"; "EthTransactionAction"; "EthTransactionCondition";
    "EthTransactionRequest"; "EthTransactionSignature"; "EthTransactionStatus"; "EthWork"; "EthereumAccountId";
    "EthereumAddress"; "EthereumLookupSource"; "EthereumSignature"; "LegacyTransaction"; "TransactionV0";
    "TransactionV1"; "TransactionV2"]);
  ("@polkadot/types/interfaces/evm", [
    "EvmAccount"; "EvmCallInfo"; "EvmCallInfoV2"; "EvmCreateInfo"; "EvmCreateInfoV2"; "EvmLog"; "EvmVicinity";
    "EvmWeightInfo"; "ExitError"; "ExitFatal"; "ExitReason"; "ExitRevert"; "ExitSucceed"]);
  ("@polkadot/types/interfaces/extrinsics", [
    "AnySignature"; "EcdsaSignature"; "Ed25519Signature"; "Era"; "Extrinsic"; "ExtrinsicEra";
    "ExtrinsicPayload"; "ExtrinsicPayloadUnknown"; "ExtrinsicPayloadV4"; "ExtrinsicPayloadV5";
    "ExtrinsicSignature"; "ExtrinsicSignatureV4"; "ExtrinsicSignatureV5"; "ExtrinsicUnknown"; "ExtrinsicV4";
    "ExtrinsicV5"; "ImmortalEra"; "MortalEra"; "MultiSignature"; "Signature"; "SignerPayload";
    "Sr25519Signature"]);
  ("@polkadot/types/interfaces/fungibles", ["FungiblesAccessError"]);
  ("@polkadot/types/interfaces/genericAsset", [
    "AssetOptions"; "Owner"; "PermissionLatest"; "PermissionVersions"; "PermissionsV1"]);
  ("@polkadot/types/interfaces/genesisBuilder", ["GenesisBuildErr"]);
  ("@polkadot/types/interfaces/gilt", ["ActiveGilt"; "ActiveGiltsTotal"; "ActiveIndex"; "GiltBid"]);
  ("@polkadot/types/interfaces/grandpa", [
    "AuthorityIndex"; "AuthorityList"; "AuthoritySet"; "AuthoritySetChange"; "AuthoritySetChanges";
    "AuthorityWeight"; "DelayKind"; "DelayKindBest"; "EncodedFinalityProofs"; "ForkTreePendingChange";
    "ForkTreePendingChangeNode"; "GrandpaCommit"; "GrandpaEquivocation"; "GrandpaEquivocationProof";
    "GrandpaEquivocationValue"; "GrandpaJustification"; "GrandpaPrecommit"; "GrandpaPrevote";
    "GrandpaSignedPrecommit"; "JustificationNotification"; "KeyOwnerProof"; "NextAuthority"; "PendingChange";
    "PendingPause"; "PendingResume"; "Precommits"; "Prevotes"; "ReportedRoundStates"; "RoundState"; "SetId";
    "StoredPendingChange"; "StoredState"]);
  ("@polkadot/types/interfaces/identity", [
    "IdentityFields"; "IdentityInfo"; "IdentityInfoAdditional"; "IdentityInfoTo198"; "IdentityJudgement";
    "RegistrarIndex"; "RegistrarInfo"; "Registration"; "RegistrationJudgement"; "RegistrationTo198"]);
  ("@polkadot/types/interfaces/imOnline", [
    "AuthIndex"; "AuthoritySignature"; "Heartbeat"; "HeartbeatTo244"; "OpaqueMultiaddr"; "OpaqueNetworkState";
    "OpaquePeerId"]);
  ("@polkadot/types/interfaces/lottery", ["CallIndex"; "LotteryConfig"]);
  ("@polkadot/types/interfaces/metadata", [
    "CustomMetadata15"; "CustomValueMetadata15"; "ErrorMetadataLatest"; "ErrorMetadataV10"; "ErrorMetadataV11";
    "ErrorMetadataV12"; "ErrorMetadataV13"; "ErrorMetadataV14"; "ErrorMetadataV9"; "EventMetadataLatest";
    "EventMetadataV10"; "EventMetadataV11"; "EventMetadataV12"; "EventMetadataV13"; "EventMetadataV14";
    "EventMetadataV9"; "ExtrinsicMetadataLatest"; "ExtrinsicMetadataV11"; "ExtrinsicMetadataV12";
    "ExtrinsicMetadataV13"; "ExtrinsicMetadataV14"; "ExtrinsicMetadataV15"; "FunctionArgumentMetadataLatest";
    "FunctionArgumentMetadataV10"; "FunctionArgumentMetadataV11"; "FunctionArgumentMetadataV12";
    "FunctionArgumentMetadataV13"; "FunctionArgumentMetadataV14"; "FunctionArgumentMetadataV9";
    "FunctionMetadataLatest"; "FunctionMetadataV10"; "FunctionMetadataV11"; "FunctionMetadataV12";
    "FunctionMetadataV13"; "FunctionMetadataV14"; "FunctionMetadataV9"; "MetadataAll"; "MetadataLatest";
    "MetadataV10"; "MetadataV11"; "MetadataV12"; "MetadataV13"; "MetadataV14"; "MetadataV15"; "MetadataV9";
    "ModuleConstantMetadataV10"; "ModuleConstantMetadataV11"; "ModuleConstantMetadataV12";
    "ModuleConstantMetadataV13"; "ModuleConstantMetadataV9"; "ModuleMetadataV10"; "ModuleMetadataV11";
    "ModuleMetadataV12"; "ModuleMetadataV13"; "ModuleMetadataV9"; "OpaqueMetadata"; "OuterEnums15";
    "PalletCallMetadataLatest"; "PalletCallMetadataV14"; "PalletConstantMetadataLatest";
    "PalletConstantMetadataV14"; "PalletErrorMetadataLatest"; "PalletErrorMetadataV14";
    "PalletEventMetadataLatest"; "PalletEventMetadataV14"; "PalletMetadataLatest"; "PalletMetadataV14";
    "PalletMetadataV15"; "PalletStorageMetadataLatest"; "PalletStorageMetadataV14"; "PortableType";
    "PortableTypeV14"; "RuntimeApiMetadataLatest"; "RuntimeApiMetadataV15"; "RuntimeApiMethodMetadataV15";
    "RuntimeApiMethodParamMetadataV15"; "SignedExtensionMetadataLatest"; "SignedExtensionMetadataV14";
    "StorageEntryMetadataLatest"; "StorageEntryMetadataV10"; "StorageEntryMetadataV11";
    "StorageEntryMetadataV12"; "StorageEntryMetadataV13"; "StorageEntryMetadataV14"; "StorageEntryMetadataV9";
    "StorageEntryModifierLatest"; "StorageEntryModifierV10"; "StorageEntryModifierV11";
    "StorageEntryModifierV12"; "StorageEntryModifierV13"; "StorageEntryModifierV14"; "StorageEntryModifierV9";
    "StorageEntryTypeLatest"; "StorageEntryTypeV10"; "StorageEntryTypeV11"; "StorageEntryTypeV12";
    "StorageEntryTypeV13"; "StorageEntryTypeV14"; "StorageEntryTypeV9"; "StorageHasher"; "StorageHasherV10";
    "StorageHasherV11"; "StorageHasherV12"; "StorageHasherV13"; "StorageHasherV14"; "StorageHasherV9";
    "StorageMetadataV10"; "StorageMetadataV11"; "StorageMetadataV12"; "StorageMetadataV13"; "StorageMetadataV9"]);
  ("@polkadot/types/interfaces/mixnet", ["Mixnode"; "MixnodesErr"; "SessionPhase"; "SessionStatus"]);
  ("@polkadot/types/interfaces/mmr", [
    "MmrBatchProof"; "MmrEncodableOpaqueLeaf"; "MmrError"; "MmrHash"; "MmrLeafBatchProof"; "MmrLeafIndex";
    "MmrLeafProof"; "MmrNodeIndex"; "MmrProof"]);
  ("@polkadot/types/interfaces/nfts", ["NftCollectionId"; "NftItemId"]);
  ("@polkadot/types/interfaces/nompools", ["NpApiError"; "NpPoolId"]);
  ("@polkadot/types/interfaces/offchain", ["StorageKind"]);
  ("@polkadot/types/interfaces/offences", [
    "DeferredOffenceOf"; "Kind"; "OffenceDetails"; "Offender"; "OpaqueTimeSlot"; "ReportIdOf"; "Reporter"]);
  ("@polkadot/types/interfaces/parachains", [
    "AbridgedCandidateReceipt"; "AbridgedHostConfiguration"; "AbridgedHrmpChannel"; "ApprovalVotingParams";
    "AssignmentId"; "AssignmentKind"; "AsyncBackingParams"; "AttestedCandidate"; "AuctionIndex";
    "AuthorityDiscoveryId"; "AvailabilityBitfield"; "AvailabilityBitfieldRecord"; "BackedCandidate";
    "BackingState"; "Bidder"; "BufferedSessionChange"; "CandidateCommitments"; "CandidateDescriptor";
    "CandidateEvent"; "CandidateHash"; "CandidateInfo"; "CandidatePendingAvailability"; "CandidateReceipt";
    "CollatorId"; "CollatorSignature"; "CommittedCandidateReceipt"; "Constraints"; "CoreAssignment";
    "CoreIndex"; "CoreOccupied"; "CoreState"; "DisputeLocation"; "DisputeProof"; "DisputeResult";
    "DisputeState"; "DisputeStatement"; "DisputeStatementSet"; "DisputesTimeSlot"; "DoubleVoteReport";
    "DownwardMessage"; "ExecutorParam"; "ExecutorParams"; "ExecutorParamsHash"; "ExplicitDisputeStatement";
    "GlobalValidationData"; "GlobalValidationSchedule"; "GroupIndex"; "GroupRotationInfo"; "HeadData";
    "HostConfiguration"; "HrmpChannel"; "HrmpChannelId"; "HrmpOpenChannelRequest"; "InboundDownwardMessage";
    "InboundHrmpLimitations"; "InboundHrmpMessage"; "InboundHrmpMessages"; "IncomingParachain";
    "IncomingParachainDeploy"; "IncomingParachainFixed"; "InvalidDisputeStatementKind"; "LeasePeriod";
    "LeasePeriodOf"; "LocalValidationData"; "MessageIngestionType"; "MessageQueueChain";
    "MessagingStateSnapshot"; "MessagingStateSnapshotEgressEntry"; "MultiDisputeStatementSet"; "NewBidder";
    "NodeFeatures"; "OccupiedCore"; "OccupiedCoreAssumption"; "OldV1SessionInfo";
    "OutboundHrmpChannelLimitations"; "OutboundHrmpMessage"; "ParaGenesisArgs"; "ParaId"; "ParaInfo";
    "ParaLifecycle"; "ParaPastCodeMeta"; "ParaScheduling"; "ParaValidatorIndex"; "ParachainDispatchOrigin";
    "ParachainInherentData"; "ParachainProposal"; "ParachainsInherentData"; "ParathreadClaim";
    "ParathreadClaimQueue"; "ParathreadEntry"; "PendingSlashes"; "PersistedValidationData"; "PvfCheckStatement";
    "PvfExecTimeoutKind"; "PvfPrepTimeoutKind"; "QueuedParathread"; "RegisteredParachainInfo";
    "RelayBlockNumber"; "RelayChainBlockNumber"; "RelayChainHash"; "RelayHash"; "Remark"; "ReplacementTimes";
    "Retriable"; "ScheduledCore"; "Scheduling"; "ScrapedOnChainVotes"; "ServiceQuality"; "SessionInfo";
    "SessionInfoValidatorGroup"; "SignedAvailabilityBitfield"; "SignedAvailabilityBitfields"; "SigningContext";
    "SlashingOffenceKind"; "SlotRange"; "SlotRange10"; "Statement"; "SubId"; "SystemInherentData";
    "TransientValidationData"; "UpgradeGoAhead"; "UpgradeRestriction"; "UpwardMessage";
    "ValidDisputeStatementKind"; "ValidationCode"; "ValidationCodeHash"; "ValidationData"; "ValidationDataType";
    "ValidationFunctionParams"; "ValidatorSignature"; "ValidityAttestation"; "VecInboundHrmpMessage";
    "WinnersData"; "WinnersData10"; "WinnersDataTuple"; "WinnersDataTuple10"; "WinningData"; "WinningData10";
    "WinningDataEntry"]);
  ("@polkadot/types/interfaces/payment", [
    "FeeDetails"; "InclusionFee"; "RuntimeDispatchInfo"; "RuntimeDispatchInfoV1"; "RuntimeDispatchInfoV2"]);
  ("@polkadot/types/interfaces/poll", ["Approvals"]);
  ("@polkadot/types/interfaces/proxy", ["ProxyAnnouncement"; "ProxyDefinition"; "ProxyType"]);
  ("@polkadot/types/interfaces/purchase", ["AccountStatus"; "AccountValidity"]);
  ("@polkadot/types/interfaces/recovery", ["ActiveRecovery"; "RecoveryConfig"]);
  ("@polkadot/types/interfaces/rpc", ["RpcMethods"]);
  ("@polkadot/types/interfaces/runtime", [
    "AccountId"; "AccountId20"; "AccountId32"; "AccountId33"; "AccountIdOf"; "AccountIndex"; "Address";
    "AssetId"; "Balance"; "BalanceOf"; "Block"; "BlockNumber"; "BlockNumberFor"; "BlockNumberOf"; "Call";
    "CallHash"; "CallHashOf"; "ChangesTrieConfiguration"; "ChangesTrieSignal"; "CodecHash"; "Consensus";
    "ConsensusEngineId"; "CrateVersion"; "Digest"; "DigestItem"; "EncodedJustification";
    "ExtrinsicInclusionMode"; "ExtrinsicsWeight"; "Fixed128"; "Fixed64"; "FixedI128"; "FixedI64"; "FixedU128";
    "FixedU64"; "H1024"; "H128"; "H160"; "H2048"; "H256"; "H32"; "H512"; "H64"; "Hash"; "Header";
    "HeaderPartial"; "I32F32"; "Index"; "IndicesLookupSource"; "Justification"; "Justifications"; "KeyTypeId";
    "KeyValue"; "LockIdentifier"; "LookupSource"; "LookupTarget"; "ModuleId"; "Moment"; "MultiAddress";
    "MultiSigner"; "OpaqueCall"; "Origin"; "OriginCaller"; "PalletId"; "PalletVersion"; "PalletsOrigin"; "Pays";
    "PerU16"; "Perbill"; "Percent"; "Permill"; "Perquintill"; "Phantom"; "PhantomData"; "PreRuntime";
    "Releases"; "RuntimeCall"; "RuntimeDbWeight"; "RuntimeEvent"; "Seal"; "SealV0"; "SignedBlock";
    "SignedBlockWithJustification"; "SignedBlockWithJustifications"; "Slot"; "SlotDuration"; "StorageData";
    "StorageInfo"; "StorageProof"; "TransactionInfo"; "TransactionLongevity"; "TransactionPriority";
    "TransactionStorageProof"; "TransactionTag"; "U32F32"; "ValidatorId"; "ValidatorIdOf"; "Weight";
    "WeightMultiplier"; "WeightV0"; "WeightV1"; "WeightV2"]);
  ("@polkadot/types/interfaces/scaleInfo", [
    "Si0Field"; "Si0LookupTypeId"; "Si0Path"; "Si0Type"; "Si0TypeDef"; "Si0TypeDefArray";
    "Si0TypeDefBitSequence"; "Si0TypeDefCompact"; "Si0TypeDefComposite"; "Si0TypeDefPhantom";
    "Si0TypeDefPrimitive"; "Si0TypeDefSequence"; "Si0TypeDefTuple"; "Si0TypeDefVariant"; "Si0TypeParameter";
    "Si0Variant"; "Si1Field"; "Si1LookupTypeId"; "Si1Path"; "Si1Type"; "Si1TypeDef"; "Si1TypeDefArray";
    "Si1TypeDefBitSequence"; "Si1TypeDefCompact"; "Si1TypeDefComposite"; "Si1TypeDefPrimitive";
    "Si1TypeDefSequence"; "Si1TypeDefTuple"; "Si1TypeDefVariant"; "Si1TypeParameter"; "Si1Variant"; "SiField";
    "SiLookupTypeId"; "SiPath"; "SiType"; "SiTypeDef"; "SiTypeDefArray"; "SiTypeDefBitSequence";
    "SiTypeDefCompact"; "SiTypeDefComposite"; "SiTypeDefPrimitive"; "SiTypeDefSequence"; "SiTypeDefTuple";
    "SiTypeDefVariant"; "SiTypeParameter"; "SiVariant"]);
  ("@polkadot/types/interfaces/scheduler", [
    "Period"; "Priority"; "SchedulePeriod"; "SchedulePriority"; "Scheduled"; "ScheduledTo254"; "TaskAddress"]);
  ("@polkadot/types/interfaces/session", [
    "BeefyKey"; "FullIdentification"; "IdentificationTuple"; "Keys"; "MembershipProof"; "SessionIndex";
    "SessionKeys1"; "SessionKeys10"; "SessionKeys10B"; "SessionKeys2"; "SessionKeys3"; "SessionKeys4";
    "SessionKeys5"; "SessionKeys6"; "SessionKeys6B"; "SessionKeys7"; "SessionKeys7B"; "SessionKeys8";
    "SessionKeys8B"; "SessionKeys9"; "SessionKeys9B"; "ValidatorCount"]);
  ("@polkadot/types/interfaces/society", [
    "Bid"; "BidKind"; "SocietyJudgement"; "SocietyVote"; "StrikeCount"; "VouchingStatus"]);
  ("@polkadot/types/interfaces/staking", [
    "ActiveEraInfo"; "CompactAssignments"; "CompactAssignmentsTo257"; "CompactAssignmentsTo265";
    "CompactAssignmentsWith16"; "CompactAssignmentsWith24"; "CompactScore"; "CompactScoreCompact";
    "ElectionCompute"; "ElectionPhase"; "ElectionResult"; "ElectionResultToSpec10"; "ElectionScore";
    "ElectionSize"; "ElectionStatus"; "EraIndex"; "EraPoints"; "EraRewardPoints"; "EraRewards"; "Exposure";
    "ExtendedBalance"; "Forcing"; "IndividualExposure"; "KeyType"; "MomentOf"; "Nominations"; "NominatorIndex";
    "NominatorIndexCompact"; "OffchainAccuracy"; "OffchainAccuracyCompact"; "PhragmenScore"; "Points";
    "RawSolution"; "RawSolutionTo265"; "RawSolutionWith16"; "RawSolutionWith24"; "ReadySolution";
    "RewardDestination"; "RewardPoint"; "RoundSnapshot"; "SeatHolder"; "SignedSubmission"; "SignedSubmissionOf";
    "SignedSubmissionTo276"; "SlashJournalEntry"; "SlashingSpans"; "SlashingSpansTo204";
    "SolutionOrSnapshotSize"; "SolutionSupport"; "SolutionSupports"; "SpanIndex"; "SpanRecord"; "StakingLedger";
    "StakingLedgerTo223"; "StakingLedgerTo240"; "SubmissionIndicesOf"; "Supports"; "UnappliedSlash";
    "UnappliedSlashOther"; "UnlockChunk"; "ValidatorIndex"; "ValidatorIndexCompact"; "ValidatorPrefs";
    "ValidatorPrefsTo145"; "ValidatorPrefsTo196"; "ValidatorPrefsWithBlocked"; "ValidatorPrefsWithCommission";
    "VoteWeight"; "Voter"]);
  ("@polkadot/types/interfaces/state", [
    "ApiId"; "BlockTrace"; "BlockTraceEvent"; "BlockTraceEventData"; "BlockTraceSpan"; "KeyValueOption";
    "MigrationStatusResult"; "ReadProof"; "RuntimeVersion"; "RuntimeVersionApi"; "RuntimeVersionPartial";
    "RuntimeVersionPre3"; "RuntimeVersionPre4"; "SpecVersion"; "StorageChangeSet"; "TraceBlockResponse";
    "TraceError"]);
  ("@polkadot/types/interfaces/statement", ["StatementStoreInvalidStatement"; "StatementStoreStatementSource"; "StatementStoreValidStatement"]);
  ("@polkadot/types/interfaces/support", ["WeightToFeeCoefficient"]);
  ("@polkadot/types/interfaces/system", [
    "AccountInfo"; "AccountInfoWithDualRefCount"; "AccountInfoWithProviders"; "AccountInfoWithRefCount";
    "AccountInfoWithRefCountU8"; "AccountInfoWithTripleRefCount"; "ApplyExtrinsicResult";
    "ApplyExtrinsicResultPre6"; "ArithmeticError"; "BlockLength"; "BlockWeights"; "ChainProperties";
    "ChainType"; "ConsumedWeight"; "DigestOf"; "DispatchClass"; "DispatchError"; "DispatchErrorModule";
    "DispatchErrorModulePre6"; "DispatchErrorModuleU8"; "DispatchErrorModuleU8a"; "DispatchErrorPre6";
    "DispatchErrorPre6First"; "DispatchErrorTo198"; "DispatchInfo"; "DispatchInfoTo190"; "DispatchInfoTo244";
    "DispatchOutcome"; "DispatchOutcomePre6"; "DispatchResult"; "DispatchResultOf"; "DispatchResultTo198";
    "Event"; "EventId"; "EventIndex"; "EventRecord"; "Health"; "InvalidTransaction"; "Key";
    "LastRuntimeUpgradeInfo"; "NetworkState"; "NetworkStatePeerset"; "NetworkStatePeersetInfo"; "NodeRole";
    "NotConnectedPeer"; "Peer"; "PeerEndpoint"; "PeerEndpointAddr"; "PeerInfo"; "PeerPing";
    "PerDispatchClassU32"; "PerDispatchClassWeight"; "PerDispatchClassWeightsPerClass"; "Phase"; "RawOrigin";
    "RefCount"; "RefCountTo259"; "SyncState"; "SystemOrigin"; "TokenError"; "TransactionValidityError";
    "TransactionalError"; "UnknownTransaction"; "WeightPerClass"]);
  ("@polkadot/types/interfaces/treasury", [
    "Bounty"; "BountyIndex"; "BountyStatus"; "BountyStatusActive"; "BountyStatusCuratorProposed";
    "BountyStatusPendingPayout"; "OpenTip"; "OpenTipFinderTo225"; "OpenTipTip"; "OpenTipTo225";
    "TreasuryProposal"]);
  ("@polkadot/types/interfaces/txpayment", ["Multiplier"]);
  ("@polkadot/types/interfaces/txqueue", ["TransactionSource"; "TransactionValidity"; "ValidTransaction"]);
  ("@polkadot/types/interfaces/uniques", [
    "ClassDetails"; "ClassId"; "ClassMetadata"; "DepositBalance"; "DepositBalanceOf"; "DestroyWitness";
    "InstanceDetails"; "InstanceId"; "InstanceMetadata"]);
  ("@polkadot/types/interfaces/utility", ["Multisig"; "Timepoint"]);
  ("@polkadot/types/interfaces/vesting", ["VestingInfo"]);
  ("@polkadot/types/interfaces/xcm", [
    "AssetIdV2"; "AssetIdV3"; "AssetIdV4"; "AssetInstance"; "AssetInstanceV0"; "AssetInstanceV1";
    "AssetInstanceV2"; "AssetInstanceV3"; "AssetInstanceV4"; "BodyId"; "BodyIdV2"; "BodyIdV3"; "BodyPart";
    "BodyPartV2"; "BodyPartV3"; "DoubleEncodedCall"; "Fungibility"; "FungibilityV0"; "FungibilityV1";
    "FungibilityV2"; "FungibilityV3"; "FungibilityV4"; "InboundStatus"; "InstructionV2"; "InstructionV3";
    "InstructionV4"; "InteriorMultiLocation"; "InteriorMultiLocationV2"; "InteriorMultiLocationV3"; "Junction";
    "JunctionV0"; "JunctionV1"; "JunctionV2"; "JunctionV3"; "JunctionV4"; "Junctions"; "JunctionsV1";
    "JunctionsV2"; "JunctionsV3"; "JunctionsV4"; "MaxPalletNameLen"; "MaxPalletsInfo"; "MaybeErrorCodeV3";
    "MultiAsset"; "MultiAssetFilter"; "MultiAssetFilterV1"; "MultiAssetFilterV2"; "MultiAssetFilterV3";
    "MultiAssetFilterV4"; "MultiAssetV0"; "MultiAssetV1"; "MultiAssetV2"; "MultiAssetV3"; "MultiAssetV4";
    "MultiAssets"; "MultiAssetsV1"; "MultiAssetsV2"; "MultiAssetsV3"; "MultiAssetsV4"; "MultiLocation";
    "MultiLocationV0"; "MultiLocationV1"; "MultiLocationV2"; "MultiLocationV3"; "MultiLocationV4"; "NetworkId";
    "NetworkIdV2"; "NetworkIdV3"; "NetworkIdV4"; "OriginKindV0"; "OriginKindV1"; "OriginKindV2"; "OriginKindV3";
    "OriginKindV4"; "OutboundStatus"; "Outcome"; "OutcomeV4"; "PalletInfoV3"; "PalletInfoV4"; "QueryId";
    "QueryResponseInfoV3"; "QueryResponseInfoV4"; "QueryStatus"; "QueueConfigData"; "Response"; "ResponseV0";
    "ResponseV1"; "ResponseV2"; "ResponseV2Error"; "ResponseV3"; "ResponseV3Error"; "ResponseV3Result";
    "ResponseV4"; "UncheckedFungibilityV4"; "VersionMigrationStage"; "VersionV3"; "VersionV4";
    "VersionedMultiAsset"; "VersionedMultiAssets"; "VersionedMultiLocation"; "VersionedResponse";
    "VersionedXcm"; "WeightLimitV2"; "WeightLimitV3"; "WildFungibility"; "WildFungibilityV0";
    "WildFungibilityV1"; "WildFungibilityV2"; "WildFungibilityV3"; "WildFungibilityV4"; "WildMultiAsset";
    "WildMultiAssetV1"; "WildMultiAssetV2"; "WildMultiAssetV3"; "WildMultiAssetV4"; "Xcm"; "XcmAssetId";
    "XcmError"; "XcmErrorV0"; "XcmErrorV1"; "XcmErrorV2"; "XcmErrorV3"; "XcmErrorV4"; "XcmOrderV0";
    "XcmOrderV1"; "XcmOrigin"; "XcmOriginKind"; "XcmV0"; "XcmV1"; "XcmV2"; "XcmV3"; "XcmV4"; "XcmVersion";
    "XcmpMessageFormat"]);
  ("@polkadot/types/interfaces/xcmPaymentApi", ["XcmPaymentApiError"]);
  ("@polkadot/types/interfaces/xcmRuntimeApi", ["Error"])].

End Imports.

(** The types of types-lookup.ts that are another name for a type, as an empty
    type is. *)
Module Aliases.

Definition StagingParachainInfoCall : string * string := ("StagingParachainInfoCall", "Null").

Definition CumulusPalletXcmCall : string * string := ("CumulusPalletXcmCall", "Null").

Definition CumulusPalletDmpQueueCall : string * string := ("CumulusPalletDmpQueueCall", "Null").

Definition PalletStructureCall : string * string := ("PalletStructureCall", "Null").

Definition SpRuntimeBlakeTwo256 : string * string := ("SpRuntimeBlakeTwo256", "Null").

Definition FrameSupportStorageDisabled : string * string := ("FrameSupportStorageDisabled", "Null").

Definition PalletXcmMaxAuthorizedAliases : string * string := ("PalletXcmMaxAuthorizedAliases", "Null").

Definition PalletMaintenanceError : string * string := ("PalletMaintenanceError", "Null").

Definition FrameSystemExtensionsCheckSpecVersion : string * string := ("FrameSystemExtensionsCheckSpecVersion", "Null").

Definition FrameSystemExtensionsCheckTxVersion : string * string := ("FrameSystemExtensionsCheckTxVersion", "Null").

Definition FrameSystemExtensionsCheckGenesis : string * string := ("FrameSystemExtensionsCheckGenesis", "Null").

Definition FrameSystemExtensionsCheckWeight : string * string := ("FrameSystemExtensionsCheckWeight", "Null").

Definition OpalRuntimeRuntimeCommonMaintenanceCheckMaintenance : string * string := ("OpalRuntimeRuntimeCommonMaintenanceCheckMaintenance", "Null").

Definition OpalRuntimeRuntimeCommonIdentityDisableIdentityCalls : string * string := ("OpalRuntimeRuntimeCommonIdentityDisableIdentityCalls", "Null").

Definition OpalRuntimeRuntime : string * string := ("OpalRuntimeRuntime", "Null").

Definition OpalRuntimeRuntimeCommonFeeCoefficientCalculator : string * string := ("OpalRuntimeRuntimeCommonFeeCoefficientCalculator", "Null").

Definition PalletEthereumFakeTransactionFinalizer : string * string := ("PalletEthereumFakeTransactionFinalizer", "Null").

Definition CumulusPrimitivesStorageWeightReclaimAllowDeprecatedStorageWeightReclaim : string * string := ("CumulusPrimitivesStorageWeightReclaimAllowDeprecatedStorageWeightReclaim", "Null").

End Aliases.

Definition type_aliases : list (string * string) := [
  Aliases.StagingParachainInfoCall; Aliases.CumulusPalletXcmCall; Aliases.CumulusPalletDmpQueueCall;
  Aliases.PalletStructureCall; Aliases.SpRuntimeBlakeTwo256; Aliases.FrameSupportStorageDisabled;
  Aliases.PalletXcmMaxAuthorizedAliases; Aliases.PalletMaintenanceError;
  Aliases.FrameSystemExtensionsCheckSpecVersion; Aliases.FrameSystemExtensionsCheckTxVersion;
  Aliases.FrameSystemExtensionsCheckGenesis; Aliases.FrameSystemExtensionsCheckWeight;
  Aliases.OpalRuntimeRuntimeCommonMaintenanceCheckMaintenance;
  Aliases.OpalRuntimeRuntimeCommonIdentityDisableIdentityCalls; Aliases.OpalRuntimeRuntime;
  Aliases.OpalRuntimeRuntimeCommonFeeCoefficientCalculator; Aliases.PalletEthereumFakeTransactionFinalizer;
  Aliases.CumulusPrimitivesStorageWeightReclaimAllowDeprecatedStorageWeightReclaim].
