(* ===== verification/Interface.v ===== *)
(** * Calls that fit the chain's interface

    When an extrinsic, a storage query or an RPC call fits its declaration in
    [TxDefs], [QueryDefs] or [RpcInterface]: it is declared, and each parameter
    of an extrinsic is a value of the declared type, down to the fields of
    structures and the variants of enumerations that [LookupDefs] describes; a
    parameter of a query has the outer shape of its type. The fields of an event
    are looked up in [EventDefs]. *)

From Stdlib Require Import Ascii String.
From stdpp Require Import list.
From S2P Require Import Prelude JsString JsValue Chain RpcDefs RpcInterface TxDefs QueryDefs EventDefs Types LookupDefs.

Open Scope Z_scope.
Open Scope js_scope.

(** ** Shapes of values *)

(** [inner] for a type [Wrapper<inner>]. *)
Definition inside (wrapper type : jsstr) : option jsstr :=
  if startsWith (wrapper ++ js "<") type
  then Some (take (length type - length wrapper - 2) (drop (length wrapper + 1) type))
  else None.

Definition integer_types : list jsstr := map js ["u8"; "u16"; "u32"; "u64"; "u128"; "BlockNumber"]%string.

(** Types that are written as a text: addresses, hashes and identifiers. *)
Definition text_types : list jsstr :=
  map js ["AccountId32"; "H160"; "H256"; "Hash"; "BlockHash"; "U8aFixed"; "MultiAddress"]%string.

Definition is_text (v : jsval) : bool := match v with JStr _ => true | _ => false end.
Definition is_array (v : jsval) : bool := match v with JArr _ => true | _ => false end.
Definition is_bool (v : jsval) : bool := match v with JBool _ => true | _ => false end.

Definition one_of (s : jsstr) (l : list jsstr) : bool := existsb (jseq s) l.

(** A number, a text of digits, or [null], which the library reads as zero. *)
Definition is_integer (v : jsval) : bool :=
  match v with JNum _ | JBig _ | JStr _ | JNull => true | _ => false end.

(** Bytes may be given as a text or an array; structures and enumerations are
    not restricted. *)
Definition plain_shape (type : jsstr) (v : jsval) : bool :=
  if one_of type integer_types || jseq type (js "U256") then is_integer v
  else if one_of type text_types then is_text v
  else if jseq type (js "bool") then is_bool v
  else if jseq type (js "Bytes") then is_text v || is_array v
  else if jseq type (js "PalletEvmAccountBasicCrossAccountIdRepr") then is_cross v
  else if startsWith (js "Vec<") type then is_array v
  else true.

Definition shape (type : jsstr) (v : jsval) : bool :=
  match inside (js "Compact") type with
  | Some type' => plain_shape type' v
  | None =>
      match inside (js "Option") type with
      | Some type' => nullish v || plain_shape type' v
      | None => plain_shape type v
      end
  end.

Fixpoint shapes (types : list string) (vs : list jsval) : bool :=
  match types, vs with
  | [], [] => true
  | t :: types', v :: vs' => shape (js t) v && shapes types' vs'
  | _, _ => false
  end.

(** ** Values of the described types *)

(** The numbers of the described types, by which some types refer to others. *)
Definition numbers : list (string * string) := map (fun e => (e.2.1, e.1)) lookup.

Definition by_number (name : string) : string :=
  if String.prefix "Lookup" name then default name (named name numbers) else name.

Definition described (name : string) : option type_def := snd <$> named (by_number name) lookup.

(** Types of the library of which a text or an object is decoded in a way of
    its own. *)
Definition open_types : list string := ["Call"; "Event"; "Data"; "Vote"]%string.

Definition basic (name : string) (v : jsval) : bool :=
  let n := js name in
  if one_of n integer_types || one_of n (map js ["u16"; "i64"; "U256"; "Perbill"; "Permill"]%string) then is_integer v
  else if one_of n text_types || jseq n (js "Text") then is_text v
  else if jseq n (js "bool") then is_bool v
  else if jseq n (js "Bytes") then is_text v || is_array v
  else if jseq n (js "Null") then nullish v
  else one_of n (map js open_types).

(** A key of an object literal names a field, or the name that a field has in
    the runtime, up to the case of its first letter. *)
Definition lower_first (k : jsstr) : jsstr := match k with c :: k' => lower_unit c :: k' | [] => [] end.

Fixpoint field_type (alias : list (string * string)) (k : jsstr) (fs : list (string * string)) : option ty :=
  match fs with
  | [] => None
  | (f, t) :: fs' =>
      if jseq (lower_first k) (js f) || jseq (lower_first k) (js (default f (named f alias))) then parse t
      else field_type alias k fs'
  end.

(** A variant is named without regard to case. *)
Fixpoint variant_at {A} (k : jsstr) (vs : list (string * A)) : option A :=
  match vs with
  | [] => None
  | (n, a) :: vs' =>
      if jseq (toLowerCase k) (toLowerCase (js n)) && negb (unused n) then Some a else variant_at k vs'
  end.

Definition fields_of (d : type_def) : option (list (string * string) * list (string * string)) :=
  match d with
  | Struct fs => Some ([], fs)
  | AliasedStruct al fs => Some (al, fs)
  | _ => None
  end.

Definition payload_fields (p : payload) : option (list (string * string) * list (string * string)) :=
  match p with
  | Fields fs => Some ([], fs)
  | AliasedFields al fs => Some (al, fs)
  | Of _ => None
  end.

(** [Fits t v]: the library takes [v] for a value of type [t] and drops
    nothing that [v] says. An integer may be a text of digits, bytes and
    addresses are texts, a whole structure may be given as the text of its
    encoding, and a missing field has the default of its type. *)
Inductive Fits : ty -> jsval -> Prop :=
  | fits_basic n v : described n = None -> basic n v = true -> Fits (Name n) v
  | fits_alias n text t v : described n = Some (Alias text) -> parse text = Some t -> Fits t v -> Fits (Name n) v
  | fits_compact t v : Fits t v -> Fits (App "Compact" [t]) v
  | fits_none t v : nullish v = true -> Fits (App "Option" [t]) v
  | fits_some t v : Fits t v -> Fits (App "Option" [t]) v
  | fits_list f t l : f = "Vec"%string \/ f = "BTreeSet"%string -> Forall (Fits t) l -> Fits (App f [t]) (JArr l)
  | fits_tuple ts l : Forall2 Fits ts l -> Fits (Tuple ts) (JArr l)
  | fits_ituple t v : Fits t v -> Fits (App "ITuple" [t]) v
  | fits_bytes n v : is_text v = true -> Fits (Fixed (Name "u8") n) v
  | fits_array t n l : js n = number_toString (Z.of_nat (length l)) -> Forall (Fits t) l -> Fits (Fixed t n) (JArr l)
  | fits_encoded n d al s : described n = Some d -> fields_of d = Some al -> Fits (Name n) (JStr s)
  | fits_struct n d al fs ps : described n = Some d -> fields_of d = Some (al, fs) ->
      Forall (FitsField al fs) ps -> Fits (Name n) (obj ps)
  | fits_variant n vs k text t v : described n = Some (Enum vs) -> variant_at k vs = Some (Of text) ->
      parse text = Some t -> Fits t v -> Fits (Name n) (obj [(k, v)])
  | fits_variant_struct n vs k p al fs ps : described n = Some (Enum vs) -> variant_at k vs = Some p ->
      payload_fields p = Some (al, fs) -> Forall (FitsField al fs) ps -> Fits (Name n) (obj [(k, obj ps)])
  | fits_variant_encoded n vs k p al v : described n = Some (Enum vs) -> variant_at k vs = Some p ->
      payload_fields p = Some al -> is_text v = true -> Fits (Name n) (obj [(k, v)])
  | fits_unit n vs k : described n = Some (Enum vs) -> variant_at k vs = Some (Of "Null") -> Fits (Name n) (JStr k)
  | fits_name n ns k : described n = Some (Names ns) -> is_Some (variant_at k (map (fun x => (x, x)) ns)) ->
      Fits (Name n) (JStr k)
with FitsField : list (string * string) -> list (string * string) -> jsstr * jsval -> Prop :=
  | fits_missing al fs k : is_Some (field_type al k fs) -> FitsField al fs (k, JUndef)
  | fits_field al fs k t v : field_type al k fs = Some t -> Fits t v -> FitsField al fs (k, v).

(** The same, decided for types nested at most [fuel] deep. *)
Section Decision.
Variable fits : ty -> jsval -> bool.

Definition fits_fieldb (al fs : list (string * string)) (kv : jsstr * jsval) : bool :=
  match field_type al kv.1 fs with
  | Some t => (match kv.2 with JUndef => true | _ => false end) || fits t kv.2
  | None => false
  end.

Fixpoint fits_all2 (ts : list ty) (l : list jsval) : bool :=
  match ts, l with
  | [], [] => true
  | t :: ts', v :: l' => fits t v && fits_all2 ts' l'
  | _, _ => false
  end.

Definition fits_variantb (p : payload) (v : jsval) : bool :=
  match p with
  | Of text => match parse text with Some t => fits t v | None => false end
  | _ =>
      match payload_fields p, v with
      | Some (al, fs), JObj ps [] => forallb (fits_fieldb al fs) ps
      | Some _, JStr _ => true
      | _, _ => false
      end
  end.

Definition fits_described (d : type_def) (v : jsval) : bool :=
  match d, v with
  | Alias text, _ => match parse text with Some t => fits t v | None => false end
  | Enum vs, JObj [(k, v')] [] =>
      match variant_at k vs with Some p => fits_variantb p v' | None => false end
  | Enum vs, JStr k =>
      match variant_at k vs with Some (Of text) => String.eqb text "Null" | _ => false end
  | Names ns, JStr k => match variant_at k (map (fun x => (x, x)) ns) with Some _ => true | None => false end
  | _, _ =>
      match fields_of d, v with
      | Some (al, fs), JObj ps [] => forallb (fits_fieldb al fs) ps
      | Some _, JStr _ => true
      | _, _ => false
      end
  end.
End Decision.

Fixpoint fitsb (fuel : nat) (t : ty) (v : jsval) : bool :=
  match fuel with
  | O => false
  | S fuel =>
      match t with
      | Name n =>
          match described n with
          | None => basic n v
          | Some d => fits_described (fitsb fuel) d v
          end
      | App f [t'] =>
          if (f =? "Compact")%string || (f =? "ITuple")%string then fitsb fuel t' v
          else if (f =? "Option")%string then nullish v || fitsb fuel t' v
          else if (f =? "Vec")%string || (f =? "BTreeSet")%string then
            match v with JArr l => forallb (fitsb fuel t') l | _ => false end
          else false
      | App _ _ => false
      | Tuple ts => match v with JArr l => fits_all2 (fitsb fuel) ts l | _ => false end
      | Fixed t' n =>
          match v with
          | JStr _ => match t' with Name item => (item =? "u8")%string | _ => false end
          | JArr l => jseq (js n) (number_toString (Z.of_nat (length l))) && forallb (fitsb fuel t') l
          | _ => false
          end
      end
  end.

(** ** Calls *)

(** [section] and [name] of [api.<kind>.<section>.<name>] *)
Definition parts_of (kind call : jsstr) : option (jsstr * jsstr) :=
  match split_unit 46 call with
  | [a; k; sec; name] => if jseq a (js "api") && jseq k kind then Some (sec, name) else None
  | _ => None
  end.

Definition extrinsic_at (sec name : jsstr) : option (list (string * string)) :=
  entry sec extrinsics ≫= entry name.

Definition storage_at (sec name : jsstr) : option (list string * string) :=
  entry sec storage ≫= entry name.

(** A parameter of an extrinsic is of the declared type. *)
Definition fits_param (p : string * string) (v : jsval) : Prop :=
  exists t, parse p.2 = Some t /\ Fits t v.

(** An extrinsic must be declared. *)
Definition tx_fits (call : jsstr) (params : list jsval) : Prop :=
  exists sec name ps, parts_of (js "tx") call = Some (sec, name) /\ extrinsic_at sec name = Some ps
  /\ Forall2 fits_param ps params.

Definition rpc_at (ns name : jsstr) : option (list (string * bool * string) * string) :=
  entry ns rpc_interface ≫= entry name.

(** Parameters of an RPC call: the optional ones may be missing or nullish. *)
Fixpoint rpc_shapes (ps : list (string * bool * string)) (vs : list jsval) : bool :=
  match ps, vs with
  | [], [] => true
  | [], _ :: _ => false
  | (_, optional, _) :: ps', [] => optional && rpc_shapes ps' []
  | (_, optional, type) :: ps', v :: vs' =>
      (shape (js type) v || (optional && nullish v)) && rpc_shapes ps' vs'
  end.

(** A read of storage or an RPC call must be declared. *)
Definition query_fits (call : jsstr) (params : list jsval) : bool :=
  match parts_of (js "query") call, parts_of (js "rpc") call with
  | Some (sec, name), _ =>
      match storage_at sec name with
      | Some item => shapes item.1 params
      | None => false
      end
  | None, Some (ns, name) =>
      match rpc_at ns name with
      | Some m => rpc_shapes m.1 params
      | None => false
      end
  | None, None => false
  end.

(** ** Events *)

Definition event_at (sec method : jsstr) : option (list (string * string)) :=
  entry sec EventDefs.events ≫= entry method.
