(* ===== verification/Util.v ===== *)
(** * UniqueUtil and UniqueEventHelper

    The static helpers of js-packages/playgrounds/unique.ts that read the
    events of a finished extrinsic and convert strings, amounts and addresses. *)

From Stdlib Require Import Ascii String.
From stdpp Require Import list.
From S2P Require Import Prelude JsString JsValue Chain Address.

Open Scope Z_scope.
Open Scope js_scope.

Record IToken : Type := mkToken {
  collectionId : number;
  tokenId : number }.

(** A token as read off a creation or destruction event. *)
Record EventToken : Type := mkEventToken {
  et_collectionId : number;
  et_tokenId : number;
  et_owner : jsval;
  et_amount : jsval }.

Record CreationResult : Type := mkCreation {
  success : bool;
  tokens : list EventToken }.

(** [section === s && method === m] *)
Definition is_event (s m : jsstr) (e : EventRecord) : bool :=
  jseq (section e) s && jseq (method e) m.

(** [data[i]] *)
Definition datum (e : EventRecord) (i : nat) : jsval := default JUndef (data e !! i).

(** [parseInt(data[i].toString(), 10)] *)
Definition datum_int (e : EventRecord) (i : nat) : Res number :=
  v ← call0 (datum e i) (js "toString"); Ret (parseInt10 (to_string v)).

Module UniqueUtil.
Section UniqueUtil.
Context {N : NodeApi} {C : Crypto}.

Definition getTokenAddress (token : IToken) : Res jsstr :=
  nesting.tokenIdToAddress (collectionId token) (tokenId token).

Definition getTokenAccount (token : IToken) : Res ICrossAccountId :=
  Ethereum <$> getTokenAddress token.

(** [String.fromCharCode] of one number. *)
Definition fromCharCode (n : number) : Z :=
  match n with Int z => z mod 65536 | NaN => 0 end.

Definition vec2str (arr : list jsval) : Res jsstr :=
  map_out (fun x => v ← call0 x (js "toString"); Ret (fromCharCode (parseInt (to_string v)))) arr.

(** The first code units of the code points of a string: [Array.from] cuts a
    string into code points and [charCodeAt(0)] keeps one unit of each. *)
Fixpoint code_point_heads (s : jsstr) : jsstr :=
  match s with
  | [] => []
  | a :: s1 =>
      match s1 with
      | b :: s2 =>
          if is_lead a && is_trail b then a :: code_point_heads s2
          else a :: code_point_heads s1
      | [] => [a]
      end
  end.

Definition str2vec (string : jsval) : jsval :=
  match string with
  | JStr s => JArr (map (fun c => JNum (Int c)) (code_point_heads s))
  | _ => string
  end.

Definition fromSeed (seed : jsstr) (ss58Format : Z) : TSigner := addFromUri seed ss58Format.

Definition extractCollectionIdFromCreationResult (creationResult : ITransactionResult) : Res number :=
  match tr_status creationResult with
  | SUCCESS =>
      collectionId ← for_each (fun acc e =>
          if is_event (js "common") (js "CollectionCreated") e then
            n ← datum_int e 0; Ret (Some n)
          else Ret acc)
        None (tr_events creationResult);
      match collectionId with
      | None => Throw (JSError (js "No CollectionCreated event was found!"))
      | Some n => Ret n
      end
  | _ =>
      status ← json_stringify (status_toHuman (tu_status (tr_result creationResult)));
      Throw (JSError (js "Unable to create collection! Status: " ++ default (js "undefined") status))
  end.

(** The token of an [ItemCreated] or [ItemDestroyed] event. *)
Definition event_token (e : EventRecord) : Res EventToken :=
  c ← datum_int e 0;
  t ← datum_int e 1;
  o ← call0 (datum e 2) (js "toHuman");
  a ← call0 (datum e 3) (js "toBigInt");
  Ret (mkEventToken c t o a).

(** The loop shared by the two extraction functions below, which differ in the
    name of the event they collect. *)
Definition extract_tokens (name : jsstr) (events : list EventRecord) : Res CreationResult :=
  for_each (fun acc e =>
      if jseq (method e) (js "ExtrinsicSuccess") then Ret (mkCreation true (tokens acc))
      else if is_event (js "common") name e then
        t ← event_token e; Ret (mkCreation (success acc) (tokens acc ++ [t]))
      else Ret acc)
    (mkCreation false []) events.

Definition extractTokensFromCreationResult (creationResult : ITransactionResult) : Res CreationResult :=
  match tr_status creationResult with
  | SUCCESS => extract_tokens (js "ItemCreated") (tr_events creationResult)
  | _ => Throw (JSError (js "Unable to create tokens!"))
  end.

Definition extractTokensFromBurnResult (burnResult : ITransactionResult) : Res CreationResult :=
  match tr_status burnResult with
  | SUCCESS => extract_tokens (js "ItemDestroyed") (tr_events burnResult)
  | _ => Throw (JSError (js "Unable to burn tokens!"))
  end.

Definition findCollectionInEvents (events : list EventRecord) (collectionId : number)
  (expectedSection expectedMethod : jsstr) : Res bool :=
  eventId ← for_each (fun acc e =>
      if is_event expectedSection expectedMethod e then
        n ← datum_int e 0; Ret (Some n)
      else Ret acc)
    None events;
  match eventId with
  | None => Throw (JSError (js "No " ++ expectedMethod ++ js " event was found!"))
  | Some n => Ret (num_eqb n collectionId)
  end.

Definition normalizeAddress (address : jsval) : Res jsval :=
  match address with
  | JStr _ => Ret address
  | _ =>
      s ← has_prop address (js "Substrate");
      if (s : bool) then CrossAccountId.withNormalizedSubstrate_js address 42
      else
        e ← has_prop address (js "Ethereum");
        if (e : bool) then CrossAccountId.toLowerCase_js address else Ret address
  end.

(** The variable [transfer] of [isTokenTransferSuccess]. *)
Record Transfer : Type := mkTransfer {
  tf_collectionId : jsval;
  tf_tokenId : jsval;
  tf_from : jsval;
  tf_to : jsval;
  tf_amount : jsval }.

Definition no_transfer : Transfer := mkTransfer JNull JNull JNull JNull (JNum (Int 1)).

Definition event_transfer (e : EventRecord) : Res Transfer :=
  c ← call0 (datum e 0) (js "toJSON");
  t ← call0 (datum e 1) (js "toJSON");
  f ← call0 (datum e 2) (js "toHuman");
  f ← normalizeAddress f;
  o ← call0 (datum e 3) (js "toHuman");
  o ← normalizeAddress o;
  a ← call0 (datum e 4) (js "toJSON");
  a ← to_bigint a;
  Ret (mkTransfer c t f o (JBig a)).

(** [JSON.stringify(a) === JSON.stringify(b)] *)
Definition json_eq (a b : jsval) : Res bool :=
  x ← json_stringify a; y ← json_stringify b; Ret (bool_decide (x = y)).

Definition isTokenTransferSuccess (events : list EventRecord) (collectionId tokenId : number)
  (fromAddressObj toAddressObj : ICrossAccountId) (amount : Z) : Res bool :=
  transfer ← for_each (fun acc e =>
      if is_event (js "common") (js "Transfer") e then event_transfer e else Ret acc)
    no_transfer events;
  if strict_eq (JNum (parseInt (num_toString 10 collectionId))) (tf_collectionId transfer)
     && strict_eq (JNum (parseInt (num_toString 10 tokenId))) (tf_tokenId transfer) then
    f ← normalizeAddress (cross_js fromAddressObj);
    b ← json_eq f (tf_from transfer);
    if (b : bool) then
      o ← normalizeAddress (cross_js toAddressObj);
      b ← json_eq o (tf_to transfer);
      if (b : bool) then Ret (strict_eq (JBig amount) (tf_amount transfer)) else Ret false
    else Ret false
  else Ret false.

Definition bigIntToDecimals (number : Z) (decimals : Z) : jsstr :=
  let numberStr := number_toString number in
  let dotPos := Z.of_nat (length numberStr) - decimals in
  if dotPos <=? 0 then
    js "0." ++ replicate (Z.to_nat (Z.abs dotPos)) 48 ++ numberStr
  else
    let intPart := take (Z.to_nat dotPos) numberStr in
    let fractPart := drop (Z.to_nat dotPos) numberStr in
    intPart ++ js "." ++ fractPart.

End UniqueUtil.
End UniqueUtil.

Module UniqueEventHelper.

Definition extractIndex (index : jsval) : Res jsval :=
  t ← call0 index (js "toRawType");
  if strict_eq t (JStr (js "[u8;2]")) then
    a ← get_prop index (js "0"); b ← get_prop index (js "1"); Ret (JArr [a; b])
  else call0 index (js "toJSON").

Definition toHuman (data : jsval) : Res jsval :=
  match data with
  | JObj _ ms =>
      match assoc (js "toHuman") ms with
      | Some r => Ret r
      | None => Ret (JStr (to_string data))
      end
  | _ => Ret (JStr (to_string data))
  end.

(** [data.entries ? [...data.entries()] : undefined], as key and value pairs. *)
Definition entries (data : jsval) : Res (option (list (jsstr * jsval))) :=
  match data with
  | JUndef | JNull => Throw EngineError
  | JArr l => Ret (Some (imap (fun i v => (number_toString (Z.of_nat i), v)) l))
  | JObj _ ms =>
      match assoc (js "entries") ms with
      | Some (JArr es) =>
          ps ← map_out (fun e => k ← get_index e 0; v ← get_index e 1; Ret (to_string k, v)) es;
          Ret (Some ps)
      | Some _ => Throw EngineError
      | None => Ret None
      end
  | _ => Ret None
  end.

(** [obj[key] = value] for each pair in turn. *)
Definition build_obj (ps : list (jsstr * jsval)) : jsval :=
  obj (fold_left (fun acc kv => assoc_set kv.1 kv.2 acc) ps []).

Section Sub.
Variable extract : jsval -> jsval -> Res jsval.

(** The loop of [extractSub]: the i-th entry is read at the i-th type, and an
    entry past the last type at no type. *)
Fixpoint sub_entries (types : list jsval) (es : list (jsstr * jsval)) {struct types}
  : Res (list (jsstr * jsval)) :=
  match types, es with
  | _, [] => Ret []
  | [], _ => map_out (fun kv => v ← toHuman kv.2; Ret (kv.1, v)) es
  | t :: types', (k, v) :: es' =>
      v' ← extract t v;
      r ← sub_entries types' es';
      Ret ((k, v') :: r)
  end.

Definition extractSub (subTypes data : jsval) : Res jsval :=
  es ← entries data;
  match es with
  | None => call0 data (js "toJSON")
  | Some es =>
      build_obj <$> match subTypes with
                    | JArr types => sub_entries types es
                    | _ => sub_entries [] es
                    end
  end.
End Sub.

(** [extractData(data, type)], by recursion on the type description. *)
Fixpoint extractData (type : jsval) (data : jsval) {struct type} : Res jsval :=
  match type with
  | JObj props _ =>
      let t := default JUndef (assoc (js "type") props) in
      if strict_eq t (JStr (js "u16")) || strict_eq t (JStr (js "u32")) then
        call0 data (js "toNumber")
      else if strict_eq t (JStr (js "u64")) || strict_eq t (JStr (js "u128"))
              || strict_eq t (JStr (js "u256")) then
        call0 data (js "toBigInt")
      else
        (fix find (l : list (jsstr * jsval)) : Res jsval :=
           match l with
           | [] => toHuman data
           | (k, v) :: l' => if jseq k (js "sub") then extractSub extractData v data else find l'
           end) props
  | _ => toHuman data
  end.

Definition extractEvent (record : EventRecord) : Res IEvent :=
  i ← extractIndex (index record);
  ph ← call0 (phase record) (js "toJSON");
  ds ← map_out (fun iv => extractData (default JUndef (typeDef record !! iv.1)) iv.2)
         (imap pair (data record));
  Ret (mkIEvent (section record) (method record) i ds ph).

Definition extractEvents (events : list EventRecord) : Res (list IEvent) :=
  map_out extractEvent events.

(** An [IPhasicEvent] of the client: its data are left as the library gave
    them. *)
Definition extractPhasicEvent (record : EventRecord) : Res (jsval * IEvent) :=
  i ← extractIndex (index record);
  ph ← call0 (phase record) (js "toJSON");
  Ret (phase record, mkIEvent (section record) (method record) i (data record) ph).

Definition extractPhasicEvents (events : list EventRecord) : Res (list (jsval * IEvent)) :=
  map_out extractPhasicEvent events.

End UniqueEventHelper.

(** * Lemmas *)

(** Reading an event fails only as the engine fails. *)
Section Engine.
Import UniqueEventHelper.

Lemma engine_toHuman v : engine_only (toHuman v).
Proof. destruct v; cbn; repeat case_match; auto with engine. Qed.

Lemma engine_entries v : engine_only (entries v).
Proof.
  destruct v; cbn [entries]; repeat case_match; auto 6 with engine.
Qed.

#[local] Hint Resolve engine_toHuman engine_entries : engine.

Lemma engine_sub_entries f types : Forall (fun t => forall d, engine_only (f t d)) types ->
  forall es, engine_only (sub_entries f types es).
Proof.
  induction 1 as [|t types Ht _ IH]; intros [|[k v] es]; cbn [sub_entries]; auto with engine.
Qed.

Lemma engine_extractSub f v :
  match v with JArr types => Forall (fun t => forall d, engine_only (f t d)) types | _ => True end ->
  forall d, engine_only (extractSub f v d).
Proof.
  intros Hv d. unfold extractSub. apply engine_bind; [auto with engine|]. intros [es|]; [|auto with engine].
  apply engine_fmap. destruct v; apply engine_sub_entries; done.
Qed.

Lemma engine_extractData type : forall d, engine_only (extractData type d).
Proof.
  cut ((forall d, engine_only (extractData type d)) /\
       match type with JArr l => Forall (fun t => forall d, engine_only (extractData t d)) l | _ => True end);
    [by intros []|].
  induction type as [v Hv|l IH|ps ms IH _] using jsval_nested.
  - destruct v; try done; cbn [extractData]; auto with engine.
  - split; [cbn [extractData]; auto with engine|]. eapply Forall_impl; [exact IH|]. by intros ? [].
  - split; [|done]. intros d. cbn [extractData].
    do 2 (match goal with |- engine_only (if ?b then _ else _) => destruct b end; [auto with engine|]).
    induction IH as [|[k v] ps [_ Hv] _ IHps]; [auto with engine|].
    destruct (jseq k _); [|apply IHps]. by apply engine_extractSub.
Qed.

Lemma engine_extractEvents events : engine_only (extractEvents events).
Proof.
  apply engine_map_out. intros r. unfold extractEvent, extractIndex.
  apply engine_bind.
  - apply engine_bind; [auto with engine|]. intros t. case_match; auto with engine.
  - intros. apply engine_bind; [auto with engine|]. intros. apply engine_bind; [|auto with engine].
    apply engine_map_out. intros. apply engine_extractData.
Qed.

End Engine.

Section UtilLemmas.
Context {N : NodeApi} {C : Crypto}.
Import UniqueUtil.

(** The first datum of every event of a kind can be read as a number. *)
Definition ids_readable (s m : jsstr) (events : list EventRecord) : Prop :=
  Forall (fun e => is_event s m e = true -> exists n, datum_int e 0 = Ret n) events.

Lemma last_id_loop s m events acc :
  for_each (fun acc e => if is_event s m e then n ← datum_int e 0; Ret (Some n) else Ret acc) acc events
  = (fun ns => default acc (last ns)) <$>
      map_out (fun e => n ← datum_int e 0; Ret (Some n)) (filterb (is_event s m) events).
Proof. apply for_each_overwrite. Qed.

Lemma readable_map s m events : ids_readable s m events ->
  exists ns, map_out (fun e => n ← datum_int e 0; Ret (Some n)) (filterb (is_event s m) events) = Ret ns
    /\ Forall2 (fun e o => exists n, datum_int e 0 = Ret n /\ o = Some n) (filterb (is_event s m) events) ns.
Proof.
  induction 1 as [|e events He Hes (ns & IH & IH2)]; simpl; [by exists []|].
  destruct (is_event s m e) eqn:E; [|by exists ns].
  destruct (He eq_refl) as [n Hn]. simpl. rewrite Hn. simpl in *. rewrite IH.
  exists (Some n :: ns). split; [done|]. constructor; eauto.
Qed.

(** What the loop that remembers the id of the last matching event ends with. *)
Lemma last_id_spec s m events : ids_readable s m events ->
  for_each (fun acc e => if is_event s m e then n ← datum_int e 0; Ret (Some n) else Ret acc) None events
  = Ret (last (filterb (is_event s m) events) ≫= fun e =>
           match datum_int e 0 with Ret n => Some n | _ => None end).
Proof.
  intros H. rewrite last_id_loop. destruct (readable_map s m events H) as (ns & -> & Hns).
  simpl. f_equal. apply Forall2_last in Hns. destruct Hns as [e o (n & Hn & ->)|]; simpl; [|done].
  by rewrite Hn.
Qed.

Lemma findCollectionInEvents_spec events c s m : ids_readable s m events ->
  findCollectionInEvents events c s m =
  match last (filterb (is_event s m) events) with
  | None => Throw (JSError (js "No " ++ m ++ js " event was found!"))
  | Some e => n ← datum_int e 0; Ret (num_eqb n c)
  end.
Proof.
  intros H. unfold findCollectionInEvents. rewrite last_id_spec by done. simpl.
  destruct (last _) as [e|] eqn:He; simpl; [|done].
  assert (exists n, datum_int e 0 = Ret n) as [n ->]; [|done].
  apply last_filterb in He as (l1 & l2 & -> & Hp & _).
  apply Forall_app in H as [_ [H _]%Forall_cons]. auto.
Qed.

(** The loop throws only on an event that cannot be read, so a returned value
    shows that all could. *)
Lemma last_id_Ret s m events o acc :
  for_each (fun acc e => if is_event s m e then n ← datum_int e 0; Ret (Some n) else Ret acc) acc events = Ret o ->
  ids_readable s m events.
Proof.
  revert acc. induction events as [|e events IH]; intros acc; simpl; [constructor|].
  destruct (is_event s m e) eqn:E.
  - destruct (datum_int e 0) as [n| |] eqn:Hn; simpl; [|discriminate..].
    intros H%IH. constructor; eauto.
  - intros H%IH. constructor; [congruence|done].
Qed.

Lemma findCollectionInEvents_true events (c : Z) s m :
  findCollectionInEvents events c s m = Ret true <->
  ids_readable s m events /\
  exists e, last_match (is_event s m) events e /\ datum_int e 0 = Ret (Int c).
Proof.
  split.
  - intros H. assert (ids_readable s m events) as Hr.
    { unfold findCollectionInEvents in H.
      destruct (for_each _ _ _) as [o| |] eqn:Ho; simpl in H; [|discriminate..].
      by apply last_id_Ret in Ho. }
    split; [done|]. rewrite findCollectionInEvents_spec in H by done.
    destruct (last _) as [e|] eqn:He; [|done]. exists e. split; [by apply last_filterb|].
    destruct (datum_int e 0) as [n| |]; simpl in H; [|discriminate..].
    injection H as H. destruct n as [|z]; [done|]. apply Z.eqb_eq in H. by subst.
  - intros [Hr (e & He & Hn)]. rewrite findCollectionInEvents_spec by done.
    apply last_filterb in He as ->. rewrite Hn. simpl. by rewrite Z.eqb_refl.
Qed.

(** ** Addresses and their JSON *)

Definition cross_units (a : ICrossAccountId) : Prop :=
  match a with Substrate s | Ethereum s => units s end.

Definition cross_json (a : ICrossAccountId) : jsstr :=
  match a with
  | Substrate s => js "{" ++ (json_quote (js "Substrate") ++ js ":" ++ json_quote s) ++ js "}"
  | Ethereum s => js "{" ++ (json_quote (js "Ethereum") ++ js ":" ++ json_quote s) ++ js "}"
  end.

Lemma json_stringify_cross a : json_stringify (cross_js a) = Ret (Some (cross_json a)).
Proof. by destruct a. Qed.

Lemma json_object_inj k s t : units s -> units t ->
  js "{" ++ (json_quote k ++ js ":" ++ json_quote s) ++ js "}"
  = js "{" ++ (json_quote k ++ js ":" ++ json_quote t) ++ js "}" -> s = t.
Proof.
  intros Hs Ht H. apply app_inv_head in H. apply app_inv_tail in H.
  apply app_inv_head in H. apply app_inv_head in H. by apply json_quote_inj.
Qed.

Lemma cross_json_inj a b : cross_units a -> cross_units b -> cross_json a = cross_json b -> a = b.
Proof.
  destruct a as [s|s], b as [t|t]; intros Hs Ht H; try discriminate H;
    f_equal; by apply json_object_inj in H.
Qed.

Lemma json_eq_cross a b : cross_units a -> cross_units b ->
  json_eq (cross_js a) (cross_js b) = Ret (bool_decide (a = b)).
Proof.
  intros Ha Hb. unfold json_eq. rewrite !json_stringify_cross. simpl. f_equal.
  apply bool_decide_ext. split; [|by intros ->]. intros [= H]. by apply cross_json_inj.
Qed.

(** What [normalizeAddress] compares accounts by. *)
Definition normalized (a : ICrossAccountId) : Res ICrossAccountId :=
  match a with
  | Substrate _ => CrossAccountId.withNormalizedSubstrate a 42
  | Ethereum _ => Ret (CrossAccountId.toLowerCase a)
  end.

Lemma normalizeAddress_cross a : normalizeAddress (cross_js a) = cross_js <$> normalized a.
Proof.
  destruct a as [s|s]; [|done].
  change (normalizeAddress (cross_js (Substrate s))) with
    (r ← CrossAccountId.normalizeSubstrateAddress s 42; Ret (obj [(js "Substrate", JStr r)])).
  simpl. unfold CrossAccountId.normalizeSubstrateAddress. simpl.
  by destruct (decodeAddress s) as [bs| |]; simpl; [destruct (encodeAddress bs 42)|..].
Qed.

End UtilLemmas.

Section TokenLemmas.
Context {N : NodeApi} {C : Crypto}.
Import UniqueUtil.

Definition extrinsic_succeeded (events : list EventRecord) : bool :=
  existsb (fun e => jseq (method e) (js "ExtrinsicSuccess")) events.

Lemma extract_tokens_loop name events toks b ts :
  name <> js "ExtrinsicSuccess" ->
  Forall2 (fun e t => event_token e = Ret t) (filterb (is_event (js "common") name) events) toks ->
  for_each (fun acc e =>
      if jseq (method e) (js "ExtrinsicSuccess") then Ret (mkCreation true (tokens acc))
      else if is_event (js "common") name e then
        t ← event_token e; Ret (mkCreation (success acc) (tokens acc ++ [t]))
      else Ret acc) (mkCreation b ts) events
  = Ret (mkCreation (b || extrinsic_succeeded events) (ts ++ toks)).
Proof.
  intros Hname. revert toks b ts. induction events as [|e events IH]; intros toks b ts H; simpl in *.
  - inversion H; subst. by rewrite orb_false_r, app_nil_r.
  - destruct (jseq (method e) (js "ExtrinsicSuccess")) eqn:Es; simpl.
    + rewrite (IH toks); [by rewrite orb_true_r|].
      assert (is_event (js "common") name e = false) as E; [|by rewrite E in H].
      unfold is_event. apply andb_false_iff. right. apply jseq_true in Es. rewrite Es.
      unfold jseq. rewrite bool_decide_false; congruence.
    + destruct (is_event (js "common") name e) eqn:E.
      * inversion H as [|? t ? toks' Ht Hts]; subst. rewrite Ht. simpl.
        rewrite (IH toks' _ _ Hts). by rewrite <- app_assoc.
      * by rewrite (IH toks _ _ H).
Qed.

Lemma extract_tokens_spec name events toks :
  name <> js "ExtrinsicSuccess" ->
  Forall2 (fun e t => event_token e = Ret t) (filterb (is_event (js "common") name) events) toks ->
  extract_tokens name events = Ret (mkCreation (extrinsic_succeeded events) toks).
Proof. intros Hn H. unfold extract_tokens. by rewrite (extract_tokens_loop _ _ toks). Qed.

(** The last [Transfer] event that the check of a transfer looks at. *)
Lemma transfer_loop events : Forall (fun e => is_event (js "common") (js "Transfer") e = true ->
    exists t, event_transfer e = Ret t) events ->
  for_each (fun acc e => if is_event (js "common") (js "Transfer") e then event_transfer e else Ret acc)
    no_transfer events
  = match last (filterb (is_event (js "common") (js "Transfer")) events) with
    | Some e => event_transfer e
    | None => Ret no_transfer
    end.
Proof.
  intros H. rewrite for_each_overwrite.
  assert (exists ts, map_out event_transfer (filterb (is_event (js "common") (js "Transfer")) events) = Ret ts
     /\ Forall2 (fun e t => event_transfer e = Ret t)
          (filterb (is_event (js "common") (js "Transfer")) events) ts) as (ts & -> & Hts).
  { induction H as [|e events He Hes (ts & IH & IH2)]; simpl; [by exists []|].
    destruct (is_event _ _ e) eqn:E; [|by exists ts].
    destruct (He eq_refl) as [t Ht]. exists (t :: ts). split; [|by constructor].
    simpl in *. by rewrite Ht, IH. }
  simpl. apply Forall2_last in Hts. by destruct Hts as [e t ->|].
Qed.

(** A transfer of [amount] pieces of the token between two accounts, as the
    node reports it. *)
Definition reports_transfer (e : EventRecord) (c t : Z) (from to : ICrossAccountId) (amount : Z) : Prop :=
  exists raw,
    call0 (datum e 0) (js "toJSON") = Ret (JNum (Int c))
    /\ call0 (datum e 1) (js "toJSON") = Ret (JNum (Int t))
    /\ call0 (datum e 2) (js "toHuman") = Ret (cross_js from)
    /\ call0 (datum e 3) (js "toHuman") = Ret (cross_js to)
    /\ call0 (datum e 4) (js "toJSON") = Ret raw /\ to_bigint raw = Ret amount.

Lemma event_transfer_spec e c t from to amount f o :
  reports_transfer e c t from to amount ->
  normalized from = Ret f -> normalized to = Ret o ->
  event_transfer e = Ret (mkTransfer (JNum (Int c)) (JNum (Int t)) (cross_js f) (cross_js o) (JBig amount)).
Proof.
  intros (raw & H0 & H1 & H2 & H3 & H4 & H5) Hf Ho. unfold event_transfer.
  rewrite H0, H1, H2. cbn [bind outcome_monad]. rewrite normalizeAddress_cross, Hf. cbn [bind outcome_monad fmap outcome_fmap].
  rewrite H3. cbn [bind outcome_monad]. rewrite normalizeAddress_cross, Ho. cbn [bind outcome_monad fmap outcome_fmap].
  rewrite H4. cbn [bind outcome_monad]. by rewrite H5.
Qed.

Lemma parseInt_num_toString n : 0 <= n -> parseInt (num_toString 10 n) = Int n.
Proof.
  intros Hn. pose proof (parseInt10_number_toString n) as H.
  unfold parseInt, parseInt10, num_toString in *. unfold number_toString in H.
  destruct (digits_spec 10 n) as (_ & Hf & Hl & _); [lia..|].
  rewrite toString_radix_nonneg in * by done.
  destruct (digits 10 n) as [|d ds] eqn:E; [simpl in Hl; lia|].
  rewrite skip_spaces_units in * by (eapply Forall_impl; [exact Hf|cbn; lia]).
  rewrite !read_signed_units in * by (inversion Hf; lia).
  rewrite bool_decide_true; [done|].
  destruct ds as [|d2 ds]; [done|]. cbn [map strip_0x].
  inversion Hf as [|? ? _ Hf2]; subst. inversion Hf2; subst.
  unfold digit_unit at 2 3. destruct (Z.ltb_spec d2 10); [|lia].
  replace ((48 + d2 =? 120) || (48 + d2 =? 88)) with false by lia. by rewrite andb_false_r.
Qed.

End TokenLemmas.

(** ** Amounts and strings *)

Section ConversionLemmas.
Context {N : NodeApi} {C : Crypto}.
Import UniqueUtil.

Lemma number_toString_digits n : 0 <= n -> exists ds, number_toString n = map digit_unit ds
  /\ Forall (fun d => 0 <= d < 10) ds /\ undigits 10 ds = n /\ (0 < length ds)%nat.
Proof.
  intros Hn. exists (digits 10 n). destruct (digits_spec 10 n) as (H1 & H2 & H3 & _); [lia..|].
  split_and!; try done. by apply toString_radix_nonneg.
Qed.

(** A string without surrogate pairs. *)
Fixpoint no_pair (s : jsstr) : bool :=
  match s with
  | [] => true
  | a :: s1 => negb (is_lead a && match s1 with b :: _ => is_trail b | [] => false end) && no_pair s1
  end.

Lemma code_point_heads_length s : (length (code_point_heads s) <= length s)%nat.
Proof.
  assert (forall n s, (length s <= n)%nat -> (length (code_point_heads s) <= length s)%nat) as H.
  { induction n as [|n IH]; intros [|a [|b t]] Hs; simpl in *; try lia.
    case_match; simpl.
    - specialize (IH t). lia.
    - specialize (IH (b :: t)). simpl in IH. lia. }
  by apply (H (length s)).
Qed.

Lemma code_point_heads_id s : code_point_heads s = s <-> no_pair s = true.
Proof.
  induction s as [|a s IH]; [done|]. destruct s as [|b s].
  - simpl. by rewrite andb_false_r.
  - change (code_point_heads (a :: b :: s)) with
      (if is_lead a && is_trail b then a :: code_point_heads s else a :: code_point_heads (b :: s)).
    change (no_pair (a :: b :: s)) with (negb (is_lead a && is_trail b) && no_pair (b :: s)).
    destruct (is_lead a && is_trail b); simpl negb; simpl andb.
    + split; [|done]. intros [= H]. exfalso. apply (f_equal length) in H.
      pose proof (code_point_heads_length s). simpl in H. lia.
    + rewrite <- IH. split; [by intros [= H]|]. by intros ->.
Qed.

Lemma vec2str_number c : 0 <= c < 65536 ->
  (v ← call0 (JNum (Int c)) (js "toString"); Ret (E := exn) (fromCharCode (parseInt (to_string v)))) = Ret c.
Proof.
  intros Hc.
  change (Ret (E := exn) (fromCharCode (parseInt (num_toString 10 c))) = Ret c).
  rewrite parseInt_num_toString by lia. cbn [fromCharCode]. by rewrite Z.mod_small by lia.
Qed.

Lemma vec2str_numbers l : Forall (fun c => 0 <= c < 65536) l ->
  vec2str (map (fun c => JNum (Int c)) l) = Ret l.
Proof.
  unfold vec2str. induction 1 as [|c l Hc Hl IH]; [done|].
  cbn [map map_out]. by rewrite vec2str_number, IH.
Qed.

Lemma units_heads s : units s -> units (code_point_heads s).
Proof.
  assert (forall n s, (length s <= n)%nat -> units s -> units (code_point_heads s)) as H.
  { unfold units. induction n as [|n IH]; intros [|a [|b t]] Hs Hu; simpl in Hs;
      try (constructor; done); try lia; try exact Hu.
    inversion Hu as [|? ? Ha Hb]; subst. inversion Hb as [|? ? Hb0 Ht]; subst.
    change (code_point_heads (a :: b :: t)) with
      (if is_lead a && is_trail b then a :: code_point_heads t else a :: code_point_heads (b :: t)).
    case_match; constructor; try done; apply IH; simpl; try lia; done. }
  by apply (H (length s)).
Qed.

End ConversionLemmas.
