(* ===== verification/UtilFacts.v ===== *)
(** * Properties of UniqueUtil

    What the event readers conclude from the events of an extrinsic, and the
    conversions of amounts and strings. *)

From Stdlib Require Import Ascii String.
From stdpp Require Import sorting list.
From S2P Require Import Prelude JsString JsValue Chain Address Util.

Open Scope Z_scope.
Open Scope js_scope.

Lemma units_toLowerCase s : units s -> units (toLowerCase s).
Proof.
  intros Hs. unfold units, toLowerCase. apply Forall_map. eapply Forall_impl; [exact Hs|].
  intros x Hx. cbn in *. unfold lower_unit, is_upper.
  destruct (Z.leb_spec 65 x), (Z.leb_spec x 90); cbn; lia.
Qed.

Section EventProperties.
Context {N : NodeApi} {C : Crypto}.
Import UniqueUtil.

(** C7: The verdict of [findCollectionInEvents] is that of the last event of the
    asked kind: [true] when it carries the collection's number, [false] when it
    carries another one, and an error naming the event exactly when there is no
    such event. *)
Theorem findCollectionInEvents_verdict events (c : Z) sec met :
  ids_readable sec met events ->
  (findCollectionInEvents events c sec met = Ret true <->
     exists e, last_match (is_event sec met) events e /\ datum_int e 0 = Ret (Int c))
  /\ (findCollectionInEvents events c sec met = Ret false <->
        exists e n, last_match (is_event sec met) events e /\ datum_int e 0 = Ret n /\ n <> Int c)
  /\ (findCollectionInEvents events c sec met = Throw (JSError (js "No " ++ met ++ js " event was found!")) <->
        Forall (fun e => is_event sec met e = false) events).
Proof.
  intros Hr. rewrite <- last_filterb_None. rewrite findCollectionInEvents_spec by done.
  destruct (last (filterb (is_event sec met) events)) as [e|] eqn:He.
  - pose proof He as Hm. apply last_filterb in Hm.
    assert (exists n, datum_int e 0 = Ret n) as [n Hn].
    { destruct Hm as (l1 & l2 & -> & Hp & _). apply Forall_app in Hr as [_ [H _]%Forall_cons]. auto. }
    assert (forall e', last_match (is_event sec met) events e' -> e' = e) as Huniq.
    { intros e' H. apply last_filterb in H. congruence. }
    rewrite Hn. cbn [bind outcome_monad]. assert (num_eqb n c = true <-> n = Int c) as Hnc.
    { destruct n; cbn; [done|]. rewrite Z.eqb_eq. split; [by intros ->|by intros [= ->]]. }
    split_and!.
    + split; [intros [= H]; exists e; split; [done|]; by rewrite Hn, (proj1 Hnc H)|].
      intros (e' & He' & Hd). apply Huniq in He' as ->. rewrite Hn in Hd. injection Hd as ->.
      by rewrite (proj2 Hnc).
    + split.
      * intros [= H]. exists e, n. split_and!; [done..|]. intros Heq. by rewrite (proj2 Hnc) in H.
      * intros (e' & n' & He' & Hd & Hne). apply Huniq in He' as ->. rewrite Hn in Hd. injection Hd as ->.
        destruct (num_eqb n' c); [|done]. by destruct Hne; apply Hnc.
    + done.
  - split_and!.
    + split; [done|]. intros (e & H & _). apply last_filterb in H. congruence.
    + split; [done|]. intros (e & n & H & _). apply last_filterb in H. congruence.
    + done.
Qed.

(** C26: The tokens read off a finished mint or burn are those of its
    [ItemCreated] (or [ItemDestroyed]) events, each once and in order; the
    success flag says whether an [ExtrinsicSuccess] event is among the events;
    and a result that is not successful is an error. *)
Theorem extracted_tokens r created destroyed :
  Forall2 (fun e t => event_token e = Ret t) (filterb (is_event (js "common") (js "ItemCreated")) (tr_events r)) created ->
  Forall2 (fun e t => event_token e = Ret t) (filterb (is_event (js "common") (js "ItemDestroyed")) (tr_events r)) destroyed ->
  extractTokensFromCreationResult r =
    (if decide (tr_status r = SUCCESS) then Ret (mkCreation (extrinsic_succeeded (tr_events r)) created)
     else Throw (JSError (js "Unable to create tokens!")))
  /\ extractTokensFromBurnResult r =
    (if decide (tr_status r = SUCCESS) then Ret (mkCreation (extrinsic_succeeded (tr_events r)) destroyed)
     else Throw (JSError (js "Unable to burn tokens!"))).
Proof.
  intros Hc Hd. unfold extractTokensFromCreationResult, extractTokensFromBurnResult.
  rewrite (extract_tokens_spec (js "ItemCreated") _ _ ltac:(done) Hc).
  rewrite (extract_tokens_spec (js "ItemDestroyed") _ _ ltac:(done) Hd).
  by destruct (tr_status r).
Qed.

(** What the events of a transfer say: the last [Transfer] event is [e], it
    reports [amount] pieces of a token moved between two accounts, and all
    accounts involved have a normal form. *)
Record reports_last (events : list EventRecord) (c t : Z) (from to : ICrossAccountId) (amount : Z)
  (f o : ICrossAccountId) : Prop := {
  rl_readable : Forall (fun e => is_event (js "common") (js "Transfer") e = true ->
                          exists tr, event_transfer e = Ret tr) events;
  rl_event : exists e, last_match (is_event (js "common") (js "Transfer")) events e
                       /\ reports_transfer e c t from to amount;
  rl_from : normalized from = Ret f; rl_to : normalized to = Ret o;
  rl_units : cross_units f /\ cross_units o }.

Lemma transfer_verdict events c' t' from' to' amount' f' o' (c t : Z) from to amount f o :
  reports_last events c' t' from' to' amount' f' o' -> 0 <= c -> 0 <= t ->
  normalized from = Ret f -> normalized to = Ret o -> cross_units f -> cross_units o ->
  isTokenTransferSuccess events c t from to amount
  = Ret (bool_decide (c = c' /\ t = t' /\ f = f' /\ o = o' /\ amount = amount')).
Proof.
  intros [Hr (e & He & Hrep) Hf' Ho' [Uf' Uo']] Hc Ht Hf Ho Uf Uo.
  unfold isTokenTransferSuccess. rewrite transfer_loop by done. apply last_filterb in He as ->.
  rewrite (event_transfer_spec _ _ _ _ _ _ _ _ Hrep Hf' Ho'). cbn [bind outcome_monad].
  rewrite !parseInt_num_toString by done. rewrite !normalizeAddress_cross, Hf, Ho.
  cbn [fmap outcome_fmap bind outcome_monad tf_collectionId tf_tokenId tf_from tf_to tf_amount].
  rewrite !json_eq_cross by done. cbn [bind outcome_monad strict_eq num_eqb].
  destruct (Z.eqb_spec c c') as [->|]; cbn [andb]; [|by rewrite bool_decide_false by tauto].
  destruct (Z.eqb_spec t t') as [->|]; cbn [andb]; [|by rewrite bool_decide_false by tauto].
  case_bool_decide; [|by rewrite bool_decide_false by tauto].
  case_bool_decide; [|by rewrite bool_decide_false by tauto].
  destruct (Z.eqb_spec amount amount'); [by rewrite bool_decide_true|by rewrite bool_decide_false by tauto].
Qed.

(** C8: [isTokenTransferSuccess] holds exactly when the last [Transfer] event
    reports the asked collection, token and amount between the asked accounts,
    where Substrate addresses count as equal when they are the same key in any
    network's format and Ethereum addresses are compared without case. *)
Theorem isTokenTransferSuccess_exact events c' t' from' to' amount' f' o' (c t : Z) from to amount f o :
  reports_last events c' t' from' to' amount' f' o' -> 0 <= c -> 0 <= t ->
  normalized from = Ret f -> normalized to = Ret o -> cross_units f -> cross_units o ->
  isTokenTransferSuccess events c t from to amount
  = Ret (bool_decide (c = c' /\ t = t' /\ f = f' /\ o = o' /\ amount = amount')).
Proof. apply transfer_verdict. Qed.

(** Without any [Transfer] event no transfer is reported as successful. *)
Theorem isTokenTransferSuccess_no_event events c t from to amount :
  Forall (fun e => is_event (js "common") (js "Transfer") e = false) events ->
  isTokenTransferSuccess events c t from to amount = Ret false.
Proof.
  intros H. unfold isTokenTransferSuccess. rewrite transfer_loop.
  - rewrite <- last_filterb_None in H. rewrite H. cbn [bind outcome_monad no_transfer tf_collectionId].
    by destruct (parseInt (num_toString 10 c)).
  - eapply Forall_impl; [exact H|]. cbn. congruence.
Qed.

End EventProperties.

Section Conversions.
Context {N : NodeApi} {C : Crypto}.
Import UniqueUtil.

(** C35: [bigIntToDecimals] prints a whole part, a point and exactly [decimals]
    digits, and read back the two parts give the amount again: no digit is lost
    or shifted, whatever the size of the amount. *)
Theorem bigIntToDecimals_value n decimals : 0 <= n -> 0 <= decimals ->
  exists ip fp,
    bigIntToDecimals n decimals = map digit_unit ip ++ js "." ++ map digit_unit fp
    /\ Forall (fun d => 0 <= d < 10) ip /\ Forall (fun d => 0 <= d < 10) fp
    /\ ip <> [] /\ Z.of_nat (length fp) = decimals
    /\ undigits 10 ip * 10 ^ decimals + undigits 10 fp = n.
Proof.
  intros Hn Hd. destruct (number_toString_digits n Hn) as (ds & Hs & Hf & Hv & Hl).
  unfold bigIntToDecimals. rewrite Hs, length_map.
  destruct (Z.leb_spec (Z.of_nat (length ds) - decimals) 0) as [Hle|Hgt].
  - set (k := Z.to_nat (Z.abs (Z.of_nat (length ds) - decimals))).
    exists [0], (replicate k 0 ++ ds). split_and!.
    + assert (forall j, map digit_unit (replicate j 0) = replicate j 48) as Hz.
      { induction j as [|j IH]; [done|]. cbn [replicate map]. by rewrite IH. }
      rewrite map_app, Hz. done.
    + by repeat constructor.
    + apply Forall_app. split; [|done]. by apply Forall_replicate.
    + done.
    + rewrite length_app, length_replicate. lia.
    + rewrite undigits_app. rewrite Hv. replace (undigits 10 (replicate k 0)) with 0; [cbn; lia|].
      clear. induction k as [|k IH]; [done|]. cbn [replicate]. rewrite undigits_cons. lia.
  - set (k := Z.to_nat (Z.of_nat (length ds) - decimals)).
    exists (take k ds), (drop k ds). split_and!.
    + by rewrite firstn_map, skipn_map.
    + by apply Forall_take.
    + by apply Forall_drop.
    + intros H. apply (f_equal length) in H. rewrite length_take in H. cbn in H. lia.
    + rewrite length_drop. lia.
    + pose proof (undigits_app 10 (take k ds) (drop k ds)) as Ha.
      rewrite take_drop, Hv, length_drop in Ha. rewrite Ha.
      replace (Z.of_nat (length ds - k)) with decimals by lia. done.
Qed.

(** A string survives [str2vec] and [vec2str] exactly when it has no
    surrogate pair: [str2vec] walks code points but keeps the first unit of
    each, so a character outside the basic plane loses its second half. *)
Theorem str2vec_vec2str s : units s ->
  (str2vec (JStr s) = JArr (map (fun c => JNum (Int c)) (code_point_heads s)))
  /\ vec2str (map (fun c => JNum (Int c)) (code_point_heads s)) = Ret (code_point_heads s)
  /\ (code_point_heads s = s <-> no_pair s = true).
Proof.
  intros Hs. split_and!; [done| |apply code_point_heads_id].
  apply vec2str_numbers. by apply units_heads.
Qed.

End Conversions.

Section HumanNumbers.
Context {N : NodeApi} {C : Crypto}.
Import UniqueUtil.

Lemma take_digits_stop ds rest : Forall (fun d => 0 <= d < 10) ds ->
  take_digits 10 (map digit_unit ds ++ 44 :: rest) = ds.
Proof.
  induction 1 as [|d ds Hd Hds IH]; [done|]. cbn [map app take_digits].
  rewrite digit_value_unit by lia. destruct (Z.ltb_spec d 10); [|lia]. by rewrite IH.
Qed.

Lemma parseInt_stops_at_comma d ds rest : Forall (fun d => 0 <= d < 10) (d :: ds) ->
  parseInt (map digit_unit (d :: ds) ++ 44 :: rest) = Int (undigits 10 (d :: ds)).
Proof.
  intros Hf. inversion Hf as [|? ? Hd Hds]; subst. unfold parseInt. cbn [map app].
  assert (48 <= digit_unit d <= 57) as Hr.
  { unfold digit_unit. destruct (Z.ltb_spec d 10); lia. }
  cbn [skip_spaces]. rewrite digit_unit_not_space by lia. cbn [read_signed].
  destruct (Z.eqb_spec (digit_unit d) 45); [lia|]. destruct (Z.eqb_spec (digit_unit d) 43); [lia|].
  assert (strip_0x (digit_unit d :: map digit_unit ds ++ 44 :: rest)
          = digit_unit d :: map digit_unit ds ++ 44 :: rest) as Hs.
  { destruct ds as [|d2 ds]; [cbn; by rewrite andb_false_r|]. cbn [map app strip_0x].
    inversion Hds; subst. assert (48 <= digit_unit d2 <= 57) by (unfold digit_unit; destruct (Z.ltb_spec d2 10); lia).
    destruct (Z.eqb_spec (digit_unit d2) 120); [lia|]. destruct (Z.eqb_spec (digit_unit d2) 88); [lia|].
    by rewrite andb_false_r. }
  rewrite bool_decide_true by done. unfold read_digits.
  change (digit_unit d :: map digit_unit ds ++ 44 :: rest) with (map digit_unit (d :: ds) ++ 44 :: rest).
  by rewrite take_digits_stop.
Qed.

(** [vec2str] does not read numbers as people write them: a unit given with a
    thousands separator, as [toHuman] prints every unit from 1000 on, is cut at
    the separator, so the character that comes out is that of the thousands. *)
Theorem vec2str_thousands_separator n rest : 0 < n < 65536 ->
  vec2str [JStr (number_toString n ++ js "," ++ rest)] = Ret [n].
Proof.
  intros Hn. destruct (number_toString_digits n) as (ds & Hs & Hf & Hv & Hl); [lia|].
  destruct ds as [|d ds]; [cbn in Hl; lia|]. unfold vec2str. cbn [map_out].
  change (call0 (JStr (number_toString n ++ js "," ++ rest)) (js "toString"))
    with (Ret (E := exn) (JStr (number_toString n ++ js "," ++ rest))).
  cbn [bind outcome_monad to_string]. rewrite Hs.
  change (js "," ++ rest) with (44 :: rest). rewrite parseInt_stops_at_comma by done. rewrite Hv.
  cbn [fromCharCode]. by rewrite Z.mod_small by lia.
Qed.

End HumanNumbers.
