(* ===== verification/Helper.v ===== *)
(** * ChainHelperBase

    The base class of every helper (js-packages/playgrounds/unique.ts): the
    connection and its clones, calls by path, RPC calls and signed extrinsics
    with their chain log; [ChainGroup], whose [getNonce] the signing code
    calls; and the two mixins that override [executeExtrinsic]
    (js-packages/test-utils/index.ts). *)

From Stdlib Require Import Ascii String.
From stdpp Require Import sorting list.
From S2P Require Import Prelude JsString JsValue Chain Address Util.

Open Scope Z_scope.
Open Scope js_scope.

Definition jstrue : jsval := JBool true.
Definition jsfalse : jsval := JBool false.

(** ** Calls into the node *)

Module ChainCalls.
Section ChainCalls.
Context {N : NodeApi}.
Implicit Types this : nat.

Definition getApi this : M Api :=
  h ← get_this this;
  match hs_api h with
  | None => throw (JSError (js "API not initialized"))
  | Some api => mreturn api
  end.

(** [api.a.b.c(...params)] written out in the source, without a log entry. *)
Definition api_call (api : Api) (path : jsstr) (params : list jsval) : M jsval :=
  world_call (api_apply api (split_unit 46 path) params).

(** The loop over the parts of a call: every prefix must be there. *)
Fixpoint find_call (api : Api) (apiCall : jsstr) (seen parts : list jsstr) : Res unit :=
  match parts with
  | [] => Ret tt
  | part :: parts' =>
      if api_has api (seen ++ [part]) then find_call api apiCall (seen ++ [part]) parts'
      else
        let advice :=
          if includes (js "_") part
          then js " Looks like it needs to be converted to camel case." else [] in
        Throw (JSError (js "Function " ++ part ++ js " of api call " ++ apiCall ++ js " not found." ++ advice))
  end.

Definition constructApiCall this (apiCall : jsstr) (params : list jsval) : M jsval :=
  if negb (startsWith (js "api.") apiCall) then
    throw (JSError (js "Invalid api call: " ++ apiCall))
  else
    api ← getApi this;
    let parts := split_unit 46 (drop 4 apiCall) in
    lift (find_call api apiCall [] parts);;
    world_call (api_apply api parts params).

(** [call.method.toHex()] *)
Definition encodeApiCall this (apiCall : jsstr) (params : list jsval) : M jsval :=
  call ← constructApiCall this apiCall params;
  m ← lift (get_prop call (js "method"));
  lift (call0 m (js "toHex")).

Definition is_rpc_call (rpc : jsstr) : bool :=
  startsWith (js "api.rpc.") rpc || startsWith (js "api.query.") rpc.

(** [try { result = await m } catch(e) { error = e }] *)
Definition attempt {A} (m : M A) : M (A + exn) :=
  catch (a ← m; mreturn (inl a)) (fun e => mreturn (inr e)).

Definition callRpc this (rpc : jsstr) (params : list jsval) : M jsval :=
  h ← get_this this;
  match hs_api h with
  | None => throw (JSError (js "API not initialized"))
  | Some _ =>
      if negb (is_rpc_call rpc) then throw (JSError (rpc ++ js " is not RPC call"))
      else
        startTime ← current_time;
        r ← attempt (constructApiCall this rpc params);
        endTime ← current_time;
        push_log this (mkLog endTime (endTime - startTime) RPC
          (match r with inl _ => SUCCESS | inr _ => FAIL end) rpc None params None None None);;
        match r with
        | inl v => mreturn v
        | inr e => throw e
        end
  end.

End ChainCalls.
End ChainCalls.
Export ChainCalls.

(** ** ChainGroup *)

Record IChainProperties : Type := mkProperties {
  ss58Format : jsval;
  tokenDecimals : jsval;
  tokenSymbol : jsval }.

Module ChainGroup.
Section ChainGroup.
Context {N : NodeApi}.
Implicit Types this : nat.

Definition getChainProperties this : M IChainProperties :=
  api ← getApi this;
  let properties := chain_properties api in
  let field k := p ← lift (get_prop properties k); lift (call0 p (js "toJSON")) in
  f ← field (js "ss58Format");
  d ← field (js "tokenDecimals");
  s ← field (js "tokenSymbol");
  mreturn (mkProperties f d s).

Definition getLatestBlockNumber this : M jsval :=
  r ← callRpc this (js "api.rpc.chain.getHeader") [];
  n ← lift (get_prop r (js "number"));
  lift (call0 n (js "toNumber")).

Definition zero_hash : jsstr := js "0x" ++ replicate 64 48.

Definition getBlockHashByNumber this (blockNumber : jsval) : M jsval :=
  r ← callRpc this (js "api.rpc.chain.getBlockHash") [blockNumber];
  blockHash ← lift (call0 r (js "toJSON"));
  if strict_eq blockHash (JStr zero_hash) then mreturn JNull else mreturn blockHash.

Definition getBlock this (blockHashOrNumber : jsval) : M jsval :=
  blockHash ← match blockHashOrNumber with
              | JStr _ => mreturn blockHashOrNumber
              | _ => getBlockHashByNumber this blockHashOrNumber
              end;
  if negb (truthy blockHash) then mreturn JNull
  else
    r ← callRpc this (js "api.rpc.chain.getBlock") [blockHash];
    h ← lift (call0 r (js "toHuman"));
    lift (get_prop h (js "block")).

Definition getRelayBlockNumber this : M Z :=
  r ← callRpc this (js "api.query.parachainSystem.validationData") [];
  j ← lift (call0 r (js "toJSON"));
  blockNumber ← lift (get_prop j (js "relayParentNumber"));
  lift (to_bigint blockNumber).

Definition getNonce this (address : jsstr) : M jsval :=
  r ← callRpc this (js "api.query.system.account") [JStr address];
  n ← lift (get_prop r (js "nonce"));
  lift (call0 n (js "toNumber")).

End ChainGroup.
End ChainGroup.

(** ** ChainHelperBase *)

Module ChainHelperBase.
Section ChainHelperBase.
Context {N : NodeApi}.
Implicit Types this : nat.

(** *** Construction and connection *)

(** The fields a new helper object starts with. *)
Definition new_helper (cls : HelperClass) : HelperState :=
  mkHelper cls None None None None [] [].

Definition with_api (api : option Api) (h : HelperState) : HelperState :=
  mkHelper (hs_class h) api (hs_forcedNetwork h) (hs_network h) (hs_wsEndpoint h)
    (hs_chainLog h) (hs_children h).
Definition with_network (n : option jsstr) (h : HelperState) : HelperState :=
  mkHelper (hs_class h) (hs_api h) (hs_forcedNetwork h) n (hs_wsEndpoint h)
    (hs_chainLog h) (hs_children h).
Definition with_forcedNetwork (n : option jsstr) (h : HelperState) : HelperState :=
  mkHelper (hs_class h) (hs_api h) n (hs_network h) (hs_wsEndpoint h)
    (hs_chainLog h) (hs_children h).
Definition with_wsEndpoint (e : option jsstr) (h : HelperState) : HelperState :=
  mkHelper (hs_class h) (hs_api h) (hs_forcedNetwork h) (hs_network h) e
    (hs_chainLog h) (hs_children h).
Definition with_chainLog (l : list IUniqueHelperLog) (h : HelperState) : HelperState :=
  mkHelper (hs_class h) (hs_api h) (hs_forcedNetwork h) (hs_network h) (hs_wsEndpoint h)
    l (hs_children h).
Definition push_child (c : nat) (h : HelperState) : HelperState :=
  mkHelper (hs_class h) (hs_api h) (hs_forcedNetwork h) (hs_network h) (hs_wsEndpoint h)
    (hs_chainLog h) (hs_children h ++ [c]).

(** [new helperCls(logger, options)]: the location of the new object. *)
Definition constructor (cls : HelperClass) : M nat := fun s =>
  let l := length (st_helpers s) in
  (Ret l, mkState (st_helpers s ++ [new_helper cls]) (st_logger s) (st_world s)).

(** [clone(helperCls)]; [mixin] is [helperCls] as a function of the class it
    extends, which is the class of the cloned object. The line
    [newHelper.forceNetwork = this.forceNetwork] assigns a method, so it
    changes no field. *)
Definition clone this (mixin : HelperClass -> HelperClass) : M nat :=
  h ← get_this this;
  newHelper ← constructor (mixin (hs_class h));
  modify_this newHelper (with_api (hs_api h));;
  modify_this newHelper (with_network (hs_network h));;
  modify_this this (push_child newHelper);;
  mreturn newHelper.

Definition getEndpoint this : M jsstr :=
  h ← get_this this;
  match hs_wsEndpoint h with
  | None => throw (JSError (js "No connection was established"))
  | Some e => mreturn e
  end.

Definition clearChainLog this : M unit := modify_this this (with_chainLog []).

Definition forceNetwork this (value : jsstr) : M unit :=
  modify_this this (with_forcedNetwork (Some value)).

Definition clearApi this : M unit :=
  modify_this this (with_api None);;
  modify_this this (with_network None).

Definition disconnect this : M unit :=
  h ← get_this this;
  for_each_M (fun _ child => clearApi child) tt (hs_children h);;
  h ← get_this this;
  match hs_api h with
  | None => mreturn tt
  | Some api => world_call (api_disconnect api);; clearApi this
  end.

Definition xcmChains : list jsstr :=
  map js ["rococo"; "westend"; "westmint"; "acala"; "karura"; "moonbeam"; "moonriver"]%string.

Definition uniqueChains : list jsstr := map js ["quartz"; "unique"; "sapphire"]%string.

Definition in_list (s : jsstr) (l : list jsstr) : bool := existsb (jseq s) l.

Definition detectNetwork (api : Api) : M jsval :=
  u ← api_call api (js "query.system.lastRuntimeUpgrade") [];
  spec ← lift (call0 u (js "toJSON"));
  specName ← lift (get_prop spec (js "specName"));
  let known l := match specName with JStr s => in_list s l | _ => false end in
  if known xcmChains then mreturn specName
  else if known uniqueChains then mreturn specName
  else mreturn (JStr (js "opal")).

(** [await api.isReady] of a new connection: unlike [isReadyOrError] it does
    not reject. *)
Definition await_isReady (api : Api) : M unit :=
  catch (world_call (isReadyOrError api)) (fun _ => never).

Definition detectNetworkByWsEndpoint (wsEndpoint : jsstr) : M jsval :=
  if bool_decide (wsEndpoint = []) then throw (JSError (js "wsEndpoint was not set"))
  else
    api ← world_new (new_ApiPromise wsEndpoint None);
    await_isReady api;;
    network ← detectNetwork api;
    world_call (api_disconnect api);;
    mreturn network.

(** The keys of [supportedRPC], and those with a [unique] RPC definition. *)
Definition supportedRPC : list jsstr :=
  map js ["opal"; "quartz"; "unique"; "rococo"; "westend"; "moonbeam"; "moonriver";
          "acala"; "karura"; "westmint"]%string.

Definition listener_events : list jsstr :=
  map js ["connected"; "disconnected"; "error"; "ready"; "decorated"]%string.

Definition register (api : Api) (event : jsstr) (l : jsval) : M unit :=
  world_call (fun w => (Ret tt, api_on api event l w)).

Definition createConnection (wsEndpoint : jsstr) (listeners : list (jsstr * jsval))
  (network : option jsstr) : M (Api * jsval) :=
  let network := default (js "opal") network in
  if bool_decide (wsEndpoint = []) then throw (JSError (js "wsEndpoint was not set"))
  else
    network ← (if in_list network supportedRPC then mreturn (JStr network)
               else detectNetworkByWsEndpoint wsEndpoint);
    let rpc := match network with
               | JStr n => if in_list n supportedRPC then Some n else None
               | _ => None
               end in
    api ← world_new (new_ApiPromise wsEndpoint rpc);
    world_call (isReadyOrError api);;
    for_each_M (fun _ event =>
        match assoc event listeners with
        | None | Some JUndef => mreturn tt
        | Some l => register api event l
        end) tt listener_events;;
    mreturn (api, network).

Definition connect this (wsEndpoint : jsstr) (listeners : list (jsstr * jsval)) : M unit :=
  h ← get_this this;
  match hs_api h with
  | Some _ => throw (JSError (js "Already connected"))
  | None =>
      ' (api, network) ← createConnection wsEndpoint listeners (hs_forcedNetwork h);
      modify_this this (with_wsEndpoint (Some wsEndpoint));;
      modify_this this (with_api (Some api));;
      modify_this this (with_network (match network with JStr n => Some n | _ => None end))
  end.

(** What the array returned by [subscribeEvents] holds after the given blocks. *)
Definition collect_events (expected : list (jsstr * list jsstr)) (blocks : list (list EventRecord))
  : list IEvent :=
  flat_map (fun events =>
    match UniqueEventHelper.extractEvents events with
    | Ret ievents =>
        flat_map (fun event =>
          flat_map (fun e =>
            if jseq (ie_section event) e.1 && in_list (ie_method event) e.2 then [event] else [])
          expected) ievents
    | _ => []
    end) blocks.

Definition subscribeEvents this (expectedEvents : list (jsstr * list jsstr)) : M (list IEvent) :=
  api ← getApi this;
  blocks ← world_call (system_events api);
  mreturn (collect_events expectedEvents blocks).

(** *** Signed transactions *)

Definition has_method (m : jsstr) (events : list EventRecord) : bool :=
  existsb (fun e => jseq (method e) m) events.

Definition getTransactionStatus (data : TxUpdate) : TransactionStatus :=
  let status := tu_status data in
  if JsValue.isReady status then NOT_READY
  else if isBroadcast status then NOT_READY
  else if isFuture status then NOT_READY
  else if isRetracted status then NOT_READY
  else if isInBlock status || isFinalized status then
    if has_method (js "ExtrinsicFailed") (tu_events data) then FAIL
    else if has_method (js "ExtrinsicSuccess") (tu_events data) then SUCCESS
    else FAIL
  else FAIL.

Definition getFeePaid (data : TxUpdate) : Res (option Z) :=
  let status := tu_status data in
  if isInBlock status || isFinalized status then
    match findb (is_event (js "balances") (js "Withdraw")) (tu_events data) with
    | Some withdrawEvent => Some <$> to_bigint (datum withdrawEvent 1)
    | None => Ret None
    end
  else Ret None.

Definition status_string (s : TransactionStatus) : jsstr :=
  js match s with NOT_READY => "NotReady" | FAIL => "Fail" | SUCCESS => "Success" end.

(** The message for a dispatch error of a failed extrinsic. *)
Definition dispatch_message (d : DispatchError) : jsstr :=
  match de_kind d with
  | DEModule modErr => let '(section, name) := findMetaError modErr in section ++ js "." ++ name
  | DEToken t => js "Token: " ++ t
  | DEOther human => js "Misc: " ++ to_string human
  end.

Definition failed_module_error (result : TxUpdate) : M jsval :=
  match tu_dispatchError result with
  | None => mreturn JNull
  | Some None => logger_log (LogResult result) LERROR;; mreturn JNull
  | Some (Some d) => mreturn (JStr (dispatch_message d))
  end.

(** The callback given to [signAndSend], applied to the status reports in
    order. It settles the promise at the first decisive report and then
    unsubscribes; an exception inside it is lost, and the next report is
    awaited. *)
Fixpoint on_updates (label : jsstr) (results : list TxUpdate) : M ITransactionResult :=
  match results with
  | [] => never
  | result :: results' =>
      match getTransactionStatus result with
      | NOT_READY => on_updates label results'
      | SUCCESS =>
          if negb (isFinalized (tu_status result)) then on_updates label results'
          else
            match getFeePaid result with
            | Ret fee =>
                logger_log (LogText (label ++ js " successful")) LINFO;;
                match get_prop (status_toHuman (tu_status result)) (js "Finalized") with
                | Ret blockHash => mreturn (mkResult SUCCESS result blockHash fee JUndef)
                | _ => never
                end
            | _ => on_updates label results'
            end
      | FAIL =>
          moduleError ← failed_module_error result;
          logger_log (LogText (js "Something went wrong with " ++ label ++ js ". Status: "
                               ++ status_string FAIL)) LERROR;;
          throw (TxRejected (mkResult FAIL result JUndef None moduleError))
      end
  end.

(** [options || {nonce: 0}], with the account's nonce when it is falsy. *)
Definition with_nonce this (sender : TSigner) (options : option (list (jsstr * jsval)))
  : M (list (jsstr * jsval)) :=
  let options := default [(js "nonce", JNum (Int 0))] options in
  if negb (truthy (default JUndef (assoc (js "nonce") options))) then
    nonce ← ChainGroup.getNonce this (address sender);
    mreturn (assoc_set (js "nonce") nonce options)
  else mreturn options.

Definition signTransaction this (sender : TSigner) (transaction : jsval)
  (options : option (list (jsstr * jsval))) (label : jsstr) : M ITransactionResult :=
  options ← with_nonce this sender options;
  updates ← catch (world_call (sign_and_send sender (obj options) transaction))
              (fun e => logger_log (LogExn e) LERROR;; throw e);
  on_updates label updates.

Definition signing_options (api : Api) (signingInfo : jsval) : Res jsval :=
  nonce ← get_prop signingInfo (js "nonce");
  Ret (obj [(js "blockHash", genesisHash api); (js "genesisHash", genesisHash api);
            (js "runtimeVersion", runtimeVersion api); (js "nonce", nonce)]).

Definition signTransactionWithoutSending this (signer : TSigner) (tx : jsval) : M jsval :=
  api ← getApi this;
  signingInfo ← api_call api (js "derive.tx.signingInfo") [JStr (address signer)];
  o ← lift (signing_options api signingInfo);
  world_call (sign_tx signer o tx).

Definition getPaymentInfo this (signer : TSigner) (tx : jsval) (len : option Z) : M jsval :=
  api ← getApi this;
  signingInfo ← api_call api (js "derive.tx.signingInfo") [JStr (address signer)];
  o ← lift (signing_options api signingInfo);
  signed ← world_call (sign_tx signer o tx);
  match len with
  | None => callRpc this (js "api.rpc.payment.queryInfo") [signed]
  | Some n => api_call api (js "call.transactionPaymentApi.queryInfo") [tx; JNum (Int n)]
  end.

Definition getSignerAddress (signer : TSigner) : jsstr := address signer.

(** The message of a failed result and the fields of its log entry. *)
Definition first_entry (v : jsval) : jsstr :=
  match v with
  | JObj ((k, x) :: _) _ => k ++ js ": " ++ to_string x
  | _ => js "undefined: undefined"
  end.

Definition error_message (moduleError : jsval) : jsstr :=
  match moduleError with JStr s => s | _ => first_entry moduleError end.

Definition dispatch_error (r : ITransactionResult) : option DispatchError :=
  default None (tu_dispatchError (tr_result r)).

Definition is_success (s : TransactionStatus) : bool :=
  match s with SUCCESS => true | _ => false end.

(** The log entry of an extrinsic. *)
Definition extrinsic_log (startTime endTime : Z) (sender : TSigner) (extrinsic : jsstr)
  (params : list jsval) (result : ITransactionResult) (events : list IEvent) : IUniqueHelperLog :=
  let failed := negb (is_success (tr_status result)) in
  let modErr := failed && truthy (tr_moduleError result) in
  mkLog endTime (endTime - startTime) EXTRINSIC (tr_status result) extrinsic
    (Some (getSignerAddress sender)) params
    (if modErr then Some (error_message (tr_moduleError result)) else None)
    (if failed && negb modErr then dispatch_error result else None)
    (match events with [] => None | _ => Some events end).

(** A failed result is thrown when success was expected, if it has an error to
    show. *)
Definition check_success (expectSuccess : bool) (result : ITransactionResult) : Res ITransactionResult :=
  if expectSuccess && negb (is_success (tr_status result)) then
    if truthy (tr_moduleError result) then Throw (JSError (error_message (tr_moduleError result)))
    else match dispatch_error result with
         | Some d => s ← json_stringify (de_json d); Throw (JSError (default [] s))
         | None => Ret result
         end
  else Ret result.

(** [method == 'ExecutedFailed' || method == 'CreatedFailed'] *)
Definition is_error_event (event : IEvent) : bool :=
  jseq (ie_method event) (js "ExecutedFailed") || jseq (ie_method event) (js "CreatedFailed").

(** The [try] block of [executeExtrinsic] and its [catch]. *)
Definition submit this (sender : TSigner) (extrinsic : jsstr) (params : list jsval)
  (options : option (list (jsstr * jsval))) : M (ITransactionResult * list IEvent) :=
  catch
    (tx ← constructApiCall this extrinsic params;
     result ← signTransaction this sender tx options extrinsic;
     events ← lift (UniqueEventHelper.extractEvents (tr_events result));
     match findb is_error_event events with
     | Some errorEvent => throw (JSError (ie_method errorEvent ++ js ": " ++ extrinsic))
     | None => mreturn (result, events)
     end)
    (fun e => match e with TxRejected r => mreturn (r, []) | _ => throw e end).

Definition base_executeExtrinsic this (sender : TSigner) (extrinsic : jsstr) (params : list jsval)
  (expectSuccess : bool) (options : option (list (jsstr * jsval))) : M ITransactionResult :=
  h ← get_this this;
  match hs_api h with
  | None => throw (JSError (js "API not initialized"))
  | Some _ =>
      startTime ← current_time;
      ' (result, events) ← submit this sender extrinsic params options;
      endTime ← current_time;
      push_log this (extrinsic_log startTime endTime sender extrinsic params result events);;
      lift (check_success expectSuccess result)
  end.

Definition base_executeExtrinsicUncheckedWeight : M ITransactionResult :=
  throw (JSError (js "executeExtrinsicUncheckedWeight only supported in sudo")).

(** *** Metadata and blocks *)

Definition fetchAllPalletNames this : M (list jsstr) :=
  h ← get_this this;
  match hs_api h with
  | None => throw (JSError (js "API not initialized"))
  | Some api => mreturn (sort_strings (map toLowerCase (metadata_pallets api)))
  end.

Definition fetchMissingPalletNames this (requiredPallets : list jsstr) : M (list jsstr) :=
  palletNames ← fetchAllPalletNames this;
  mreturn (filterb (fun p => negb (in_list p palletNames)) requiredPallets).

Definition fetchPhasicEventsFromBlock this (blockHash : jsval) : M (list (jsval * IEvent)) :=
  api ← getApi this;
  apiAt ← world_call (api_at api blockHash);
  eventRecords ← world_call (events_at apiAt);
  lift (UniqueEventHelper.extractPhasicEvents eventRecords).

End ChainHelperBase.
End ChainHelperBase.

(** ** Mixins that override [executeExtrinsic] *)

(** An [executeExtrinsic] as a function of its sender, extrinsic, parameters,
    [expectSuccess] and options. *)
Definition Executor {N : NodeApi} : Type :=
  TSigner -> jsstr -> list jsval -> bool -> option (list (jsstr * jsval)) -> M ITransactionResult.

Module SudoHelper.
Section SudoHelper.
Context {N : NodeApi}.
Variable this : nat.
Variable super_executeExtrinsic : Executor.

(** The first [sudo.Sudid] event and its field [sudoResult], which is its only
    datum. *)
Definition sudoResult (result : ITransactionResult) : Res jsval :=
  match findb (is_event (js "sudo") (js "Sudid")) (tr_events result) with
  | Some event => Ret (datum event 0)
  | None => Throw EngineError
  end.

(** [event.data.sudoResult] of an arbitrary event; only [Sudid] has it. *)
Definition event_sudoResult (e : option EventRecord) : Res jsval :=
  match e with
  | None => Throw EngineError
  | Some e => Ret (if is_event (js "sudo") (js "Sudid") e then datum e 0 else JUndef)
  end.

(** The error a failed sudo call is reported with; [moduleError] finds the
    module error. *)
Definition raise {A} (eventData : jsval) (moduleError : Res jsval) : M A :=
  asErr ← lift (get_prop eventData (js "asErr"));
  isModule ← lift (get_prop asErr (js "isModule"));
  if truthy isModule then
    error ← lift moduleError;
    _ ← getApi this;
    let '(section, name) := findMetaError error in
    throw (JSError (section ++ js "." ++ name))
  else
    isToken ← lift (get_prop asErr (js "isToken"));
    if truthy isToken then
      t ← lift (get_prop asErr (js "asToken"));
      throw (JSError (js "Token: " ++ to_string t))
    else
      h ← lift (call0 asErr (js "toHuman"));
      throw (JSError (js "Misc: " ++ to_string h)).

(** The rest of both overrides: a failed result is handed through, otherwise
    the result of the wrapped call is looked at. *)
Definition check_sudo (result : ITransactionResult) (moduleError : jsval -> Res jsval) : M ITransactionResult :=
  match tr_status result with
  | FAIL => mreturn result
  | _ =>
      eventData ← lift (sudoResult result);
      isErr ← lift (get_prop eventData (js "isErr"));
      if truthy isErr then raise eventData (moduleError eventData) else mreturn result
  end.

Definition executeExtrinsic : Executor := fun sender extrinsic params expectSuccess options =>
  call ← constructApiCall this extrinsic params;
  result ← super_executeExtrinsic sender (js "api.tx.sudo.sudo") [call] expectSuccess options;
  check_sudo result (fun eventData =>
    asErr ← get_prop eventData (js "asErr"); get_prop asErr (js "asModule")).

Definition zero_weight : jsval :=
  obj [(js "refTime", JNum (Int 0)); (js "proofSize", JNum (Int 0))].

(** The module error is looked up in the second event, not in the [Sudid]
    event that was found. *)
Definition executeExtrinsicUncheckedWeight : Executor := fun sender extrinsic params expectSuccess options =>
  call ← constructApiCall this extrinsic params;
  result ← super_executeExtrinsic sender (js "api.tx.sudo.sudoUncheckedWeight") [call; zero_weight]
             expectSuccess options;
  check_sudo result (fun _ =>
    data ← event_sudoResult (tr_events result !! 1%nat);
    asErr ← get_prop data (js "asErr"); get_prop asErr (js "asModule")).

End SudoHelper.
End SudoHelper.

Module ScheduledUniqueHelper.
Section ScheduledUniqueHelper.
Context {N : NodeApi}.
Variable this : nat.
Variables (sched : ScheduleFn) (blocksNum : Z) (options : ISchedulerOptions).
Variable super_executeExtrinsic : Executor.

Definition mandatorySchedArgs (scheduledTx : jsval) : list jsval :=
  [JNum (Int blocksNum);
   match periodic options with
   | Some (period, repetitions) => JArr [JNum (Int period); JNum (Int repetitions)]
   | None => JNull
   end;
   match priority options with Some p => JNum (Int p) | None => JNull end;
   scheduledTx].

(** The scheduler's extrinsic and its arguments; an empty identifier counts as
    none. *)
Definition schedule_call (scheduledTx : jsval) : jsstr * list jsval :=
  match scheduledId options with
  | Some (c :: id) =>
      (js match sched with Schedule => "scheduleNamed" | ScheduleAfter => "scheduleNamedAfter" end,
       JStr (c :: id) :: mandatorySchedArgs scheduledTx)
  | _ =>
      (js match sched with Schedule => "schedule" | ScheduleAfter => "scheduleAfter" end,
       mandatorySchedArgs scheduledTx)
  end.

Definition executeExtrinsic : Executor :=
  fun sender scheduledExtrinsic scheduledParams expectSuccess _ =>
  scheduledTx ← constructApiCall this scheduledExtrinsic scheduledParams;
  let '(scheduleFn, schedArgs) := schedule_call scheduledTx in
  super_executeExtrinsic sender (js "api.tx.scheduler." ++ scheduleFn) schedArgs expectSuccess None.

End ScheduledUniqueHelper.
End ScheduledUniqueHelper.

(** ** Virtual dispatch *)

Section Dispatch.
Context {N : NodeApi}.

(** [this.executeExtrinsic] of an object of class [cls]; [super] is the class
    of the object it was cloned from, run on the same [this]. *)
Fixpoint class_executeExtrinsic (cls : HelperClass) (this : nat) : Executor :=
  match cls with
  | PlainHelper => ChainHelperBase.base_executeExtrinsic this
  | SudoHelper super => SudoHelper.executeExtrinsic this (class_executeExtrinsic super this)
  | ScheduledHelper sched n opts super =>
      ScheduledUniqueHelper.executeExtrinsic this sched n opts (class_executeExtrinsic super this)
  end.

Fixpoint class_executeExtrinsicUncheckedWeight (cls : HelperClass) (this : nat) : Executor :=
  match cls with
  | PlainHelper => fun _ _ _ _ _ => ChainHelperBase.base_executeExtrinsicUncheckedWeight
  | SudoHelper super =>
      SudoHelper.executeExtrinsicUncheckedWeight this (class_executeExtrinsic super this)
  | ScheduledHelper _ _ _ super => class_executeExtrinsicUncheckedWeight super this
  end.

Definition executeExtrinsic (this : nat) : Executor := fun sender extrinsic params expectSuccess options =>
  h ← get_this this;
  class_executeExtrinsic (hs_class h) this sender extrinsic params expectSuccess options.

Definition executeExtrinsicUncheckedWeight (this : nat) : Executor :=
  fun sender extrinsic params expectSuccess options =>
  h ← get_this this;
  class_executeExtrinsicUncheckedWeight (hs_class h) this sender extrinsic params expectSuccess options.

(** A call with the default [expectSuccess] and options. *)
Definition exec (this : nat) (signer : TSigner) (extrinsic : jsstr) (params : list jsval)
  : M ITransactionResult :=
  executeExtrinsic this signer extrinsic params true None.

End Dispatch.
