(* ===== verification/HelperFacts.v ===== *)
(** * Facts about ChainHelperBase

    Frames of the base operations, what a run of them returns, the chain log,
    the mixins, and the life of a connection and its clones. *)

From Stdlib Require Import Ascii String.
From stdpp Require Import sorting list.
From S2P Require Import Prelude JsString JsValue Chain Address Util Helper.

Open Scope Z_scope.
Open Scope js_scope.

(** ** Frames *)

Section Frames.
Context {N : NodeApi}.
Implicit Types this : nat.

#[export] Instance framed_attempt this P {A} (m : M A) : Framed this P m -> Framed this P (attempt m).
Proof. intros H. unfold attempt. solve_frame. Qed.

#[export] Instance framed_getApi this P : Framed this P (getApi this).
Proof. unfold getApi. solve_frame. Qed.

#[export] Instance framed_api_call this P api path ps : Framed this P (api_call api path ps).
Proof. unfold api_call. apply _. Qed.

#[export] Instance framed_constructApiCall this P c ps : Framed this P (constructApiCall this c ps).
Proof. unfold constructApiCall. solve_frame. Qed.

#[export] Instance framed_encodeApiCall this P c ps : Framed this P (encodeApiCall this c ps).
Proof. unfold encodeApiCall. solve_frame. Qed.

#[export] Instance framed_callRpc this P c ps `{!AllowsCall P c ps} : Framed this P (callRpc this c ps).
Proof. unfold callRpc. solve_frame; apply framed_push; by apply allows_call. Qed.

(** Predicates that allow the lookup of an account, with which the nonce of an
    extrinsic is found. *)
Class AllowsNonce (P : LogPred) : Prop :=
  allows_nonce :: forall a, AllowsCall P (js "api.query.system.account") [JStr a].

#[export] Instance rpc_allows_nonce P : AllowsRpc P -> AllowsNonce P.
Proof. intros H a. apply _. Qed.

#[export] Instance framed_getNonce this P `{!AllowsNonce P} a : Framed this P (ChainGroup.getNonce this a).
Proof. unfold ChainGroup.getNonce. solve_frame. Qed.

#[export] Instance framed_getChainProperties this P : Framed this P (ChainGroup.getChainProperties this).
Proof. unfold ChainGroup.getChainProperties. solve_frame. Qed.

#[export] Instance framed_on_updates this P label us : Framed this P (ChainHelperBase.on_updates label us).
Proof.
  induction us as [|u us IH]; cbn [ChainHelperBase.on_updates]; [apply _|].
  unfold ChainHelperBase.failed_module_error. solve_frame.
Qed.

#[export] Instance framed_signTransaction this P `{!AllowsNonce P} sender tx o label :
  Framed this P (ChainHelperBase.signTransaction this sender tx o label).
Proof.
  unfold ChainHelperBase.signTransaction, ChainHelperBase.with_nonce. solve_frame.
Qed.

#[export] Instance framed_base this P ext ps `{!AllowsNonce P} `{!AllowsTx P ext ps} sender es o :
  Framed this P (ChainHelperBase.base_executeExtrinsic this sender ext ps es o).
Proof.
  unfold ChainHelperBase.base_executeExtrinsic, ChainHelperBase.submit.
  solve_frame; apply framed_push; by apply allows_tx.
Qed.

(** A call that [constructApiCall] has made from an extrinsic. *)
Definition constructed (ext : jsstr) (ps : list jsval) (call : jsval) : Prop :=
  exists this s s', constructApiCall this ext ps s = (Ret call, s').

(** Predicates that allow the extrinsics in which the mixins wrap the call of an
    extrinsic that they allow. *)
Class AllowsWrapped (P : LogPred) : Prop := {
  allows_sudo : forall ext ps call, AllowsTx P ext ps -> constructed ext ps call ->
    AllowsTx P (js "api.tx.sudo.sudo") [call];
  allows_scheduled : forall f n o ext ps tx, AllowsTx P ext ps -> constructed ext ps tx ->
    let '(fn, args) := ScheduledUniqueHelper.schedule_call f n o tx in
    AllowsTx P (js "api.tx.scheduler." ++ fn) args }.

#[export] Instance extrinsics_allow_wrapped P : AllowsExtrinsics P -> AllowsWrapped P.
Proof. split; intros; [|destruct (ScheduledUniqueHelper.schedule_call _ _ _ _)]; apply _. Qed.

#[export] Instance framed_check_sudo this P r f : Framed this P (SudoHelper.check_sudo this r f).
Proof. unfold SudoHelper.check_sudo, SudoHelper.raise. solve_frame. Qed.

#[export] Instance framed_class_exec this P `{!AllowsNonce P} `{!AllowsWrapped P} cls :
  forall ext ps `{!AllowsTx P ext ps} sender es o,
    Framed this P (class_executeExtrinsic cls this sender ext ps es o).
Proof.
  induction cls as [|super IH|f n opts super IH]; intros; cbn [class_executeExtrinsic]; [apply _|..].
  - unfold SudoHelper.executeExtrinsic. apply framed_bind_value; [apply _|]. intros call s s' Hc.
    assert (AllowsTx P (js "api.tx.sudo.sudo") [call]) by (eapply allows_sudo; [eassumption|by do 3 eexists]).
    solve_frame.
  - unfold ScheduledUniqueHelper.executeExtrinsic. apply framed_bind_value; [apply _|]. intros tx s s' Hc.
    assert (constructed ext ps tx) as Htx by by do 3 eexists.
    pose proof (allows_scheduled f n opts ext ps tx _ Htx) as Hs.
    destruct (ScheduledUniqueHelper.schedule_call f n opts tx). apply _.
Qed.

#[export] Instance framed_class_unchecked this cls : forall sender ext ps es o,
  Framed this any_entry (class_executeExtrinsicUncheckedWeight cls this sender ext ps es o).
Proof.
  induction cls as [|super IH|f n opts super IH]; intros;
    cbn [class_executeExtrinsicUncheckedWeight]; [unfold ChainHelperBase.base_executeExtrinsicUncheckedWeight; apply _| |apply IH].
  unfold SudoHelper.executeExtrinsicUncheckedWeight. solve_frame.
Qed.

#[export] Instance framed_executeExtrinsic this P ext ps `{!AllowsNonce P} `{!AllowsWrapped P} `{!AllowsTx P ext ps}
  sender es o :
  Framed this P (executeExtrinsic this sender ext ps es o).
Proof. unfold executeExtrinsic. solve_frame. Qed.

#[export] Instance framed_executeExtrinsicUncheckedWeight this sender ext ps es o :
  Framed this any_entry (executeExtrinsicUncheckedWeight this sender ext ps es o).
Proof. unfold executeExtrinsicUncheckedWeight. solve_frame. Qed.

(** Every entry in the chain logs satisfies [P]; a run that logs only such
    entries keeps it so. *)
Definition all_logged (P : LogPred) (s : State) : Prop :=
  forall l h, st_helpers s !! l = Some h -> Forall P (hs_chainLog h).

Lemma framed_all_logged this P {A} (m : M A) s o s' :
  Framed this P m -> m s = (o, s') -> all_logged P s -> all_logged P s'.
Proof.
  intros Hm Hr Hs l h Hl. destruct (framed_run _ _ _ _ _ _ Hm Hr) as (es & lines & He & Hh & _).
  rewrite Hh in Hl. destruct (decide (l = this)) as [->|Hne].
  - rewrite list_lookup_alter_eq in Hl. destruct (st_helpers s !! this) as [h0|] eqn:E; [|done].
    injection Hl as <-. apply Forall_app. split; [by apply (Hs this)|done].
  - rewrite list_lookup_alter_ne in Hl by done. by apply (Hs l).
Qed.

End Frames.

(** ** Transactions *)

Section Transactions.
Context {N : NodeApi}.
Import ChainHelperBase.

(** A report at which [signTransaction] settles. *)
Definition decisive (u : TxUpdate) : bool :=
  match getTransactionStatus u with
  | NOT_READY => false
  | FAIL => true
  | SUCCESS =>
      isFinalized (tu_status u) && match getFeePaid u with Ret _ => true | _ => false end
  end.

(** What it settles with. *)
Definition settlement (u : TxUpdate) : Res ITransactionResult :=
  match getTransactionStatus u with
  | SUCCESS =>
      fee ← getFeePaid u;
      match get_prop (status_toHuman (tu_status u)) (js "Finalized") with
      | Ret blockHash => Ret (mkResult SUCCESS u blockHash fee JUndef)
      | _ => Pending
      end
  | _ =>
      Throw (TxRejected (mkResult FAIL u JUndef None
        match dispatch_error (mkResult FAIL u JUndef None JUndef) with
        | Some d => JStr (dispatch_message d)
        | None => JNull
        end))
  end.

Lemma on_updates_outcome label us s :
  (on_updates label us s).1 =
  match findb decisive us with
  | Some u => settlement u
  | None => Pending
  end.
Proof.
  revert s. induction us as [|u us IH]; intros s; [done|]. cbn [on_updates].
  unfold findb, decisive, settlement in *. cbn [List.find].
  destruct (getTransactionStatus u) eqn:E; [apply IH|..].
  - rewrite E. unfold failed_module_error, dispatch_error. cbn.
    by destruct (tu_dispatchError u) as [[d|]|].
  - destruct (isFinalized (tu_status u)); cbn [negb andb]; [|apply IH].
    destruct (getFeePaid u) as [fee|e|] eqn:Ef; [|apply IH..]. rewrite E, Ef.
    cbn. by destruct (get_prop _ _).
Qed.

(** The two verdicts on a report of an extrinsic that has left the pool. *)
Lemma status_success u : getTransactionStatus u = SUCCESS <->
  (isInBlock (tu_status u) || isFinalized (tu_status u) = true)
  /\ has_method (js "ExtrinsicFailed") (tu_events u) = false
  /\ has_method (js "ExtrinsicSuccess") (tu_events u) = true.
Proof.
  unfold getTransactionStatus. destruct (tu_status u) eqn:E; cbn; try (split; [discriminate|by intros (? & ? & ?)]).
  all: destruct (has_method (js "ExtrinsicFailed") _); [split; [discriminate|by intros (? & ? & ?)]|].
  all: destruct (has_method (js "ExtrinsicSuccess") _); split; try done; by intros (? & ? & ?).
Qed.

(** A settled success is a finalized block whose events say so. *)
Record finalized_success (r : ITransactionResult) : Prop := {
  fs_status : tr_status r = SUCCESS;
  fs_finalized : exists h, tu_status (tr_result r) = StFinalized h;
  fs_success : has_method (js "ExtrinsicSuccess") (tr_events r) = true;
  fs_failed : has_method (js "ExtrinsicFailed") (tr_events r) = false }.

Lemma settlement_Ret u r : settlement u = Ret r -> decisive u = true ->
  finalized_success r /\ tr_result r = u.
Proof.
  unfold settlement, decisive. destruct (getTransactionStatus u) eqn:E; [discriminate..|].
  intros H Hd. apply andb_prop in Hd as [Hf _].
  destruct (getFeePaid u); cbn in H; [|discriminate..].
  destruct (get_prop _ _); [|discriminate..]. injection H as <-.
  apply status_success in E as (_ & H1 & H2). split; [|done].
  constructor; try done. cbn. destruct (tu_status u) eqn:Es; try done. by eexists.
Qed.

Lemma findb_Some_last {A} (p : A -> bool) l a : findb p l = Some a ->
  exists l1 l2, l = l1 ++ a :: l2 /\ p a = true /\ Forall (fun b => p b = false) l1.
Proof.
  induction l as [|b l IH]; cbn; [discriminate|]. destruct (p b) eqn:E.
  - intros [= <-]. by exists [], l.
  - intros (l1 & l2 & -> & Ha & Hl)%IH. exists (b :: l1), l2. by repeat constructor.
Qed.

(** The result with which a failed extrinsic is reported. *)
Record rejected (r : ITransactionResult) : Prop := {
  rj_status : tr_status r = FAIL;
  rj_decisive : getTransactionStatus (tr_result r) = FAIL;
  rj_module : tr_moduleError r = match dispatch_error r with
                                 | Some d => JStr (dispatch_message d)
                                 | None => JNull
                                 end }.

Lemma settlement_Throw u e : settlement u = Throw e -> decisive u = true ->
  exists r, e = TxRejected r /\ rejected r /\ tr_result r = u.
Proof.
  unfold settlement, decisive. destruct (getTransactionStatus u) eqn:E; intros H Hd; [discriminate|..].
  - injection H as <-. eexists. split; [done|]. split; [|done]. by constructor.
  - exfalso. apply andb_prop in Hd as [_ Hd].
    destruct (getFeePaid u); cbn in H; [|discriminate..]. by destruct (get_prop _ _).
Qed.

Lemma on_updates_Ret label us s r s' : on_updates label us s = (Ret r, s') -> finalized_success r.
Proof.
  intros H. pose proof (on_updates_outcome label us s) as Ho. rewrite H in Ho. cbn in Ho.
  destruct (findb decisive us) as [u|] eqn:Hu; [|discriminate].
  apply findb_Some_last in Hu as (_ & _ & _ & Hu & _). symmetry in Ho.
  by apply settlement_Ret in Ho as [? _].
Qed.

Lemma on_updates_Throw label us s e s' : on_updates label us s = (Throw e, s') ->
  exists r, e = TxRejected r /\ rejected r.
Proof.
  intros H. pose proof (on_updates_outcome label us s) as Ho. rewrite H in Ho. cbn in Ho.
  destruct (findb decisive us) as [u|] eqn:Hu; [|discriminate].
  apply findb_Some_last in Hu as (_ & _ & _ & Hu & _). symmetry in Ho.
  apply settlement_Throw in Ho as (r & -> & ? & _); [|done]. by exists r.
Qed.

End Transactions.

(** ** Exceptions other than a rejected transaction *)

Section NoReject.
Context {N : NodeApi}.
Implicit Types this : nat.

Definition no_reject (e : exn) : Prop := match e with TxRejected _ => False | _ => True end.

Class NoReject {A} (m : M A) : Prop :=
  noreject : forall s e s', m s = (Throw e, s') -> no_reject e.

#[export] Instance noreject_ret {A} (a : A) : NoReject (mreturn a).
Proof. by intros s e s'. Qed.

#[export] Instance noreject_message {A} m : NoReject (throw (JSError m) : M A).
Proof. by intros s e s' [= <- _]. Qed.

#[export] Instance noreject_get this : NoReject (get_this this).
Proof. intros s e s'. unfold get_this. case_match; [done|]. by intros [= <- _]. Qed.

#[export] Instance noreject_world {A} (f : World -> Lib A * World) : NoReject (world_call f).
Proof. intros s e s'. unfold world_call. destruct (f _) as [[] ?]; cbn; [done| |done]. by intros [= <- _]. Qed.

#[export] Instance noreject_time : NoReject current_time.
Proof. intros s e s'. unfold current_time. by destruct (now _). Qed.

#[export] Instance noreject_push this e : NoReject (push_log this e).
Proof. by intros s x s'. Qed.

#[export] Instance noreject_bind {A B} (m : M A) (k : A -> M B) :
  NoReject m -> (forall a, NoReject (k a)) -> NoReject (bind m k).
Proof.
  intros Hm Hk s e s' [(a & s1 & _ & H)|[(e' & H & [= ->])|[_ [=]]]]%bind_inv; [by eapply Hk|by eapply Hm].
Qed.

Lemma noreject_lift {A} (o : Res A) : engine_only o -> NoReject (lift o).
Proof. intros Ho s e s' [= -> _]. by rewrite (Ho e). Qed.

Lemma find_call_message api c parts : forall seen e,
  find_call api c seen parts = Throw e -> exists m, e = JSError m.
Proof.
  induction parts as [|p parts IH]; intros seen e; cbn [find_call]; [done|].
  destruct (api_has _ _); [apply IH|]. intros [= <-]. eauto.
Qed.

#[export] Instance noreject_getApi this : NoReject (getApi this).
Proof. unfold getApi. apply _ || (apply noreject_bind; [apply _|]; intros h; case_match; apply _). Qed.

#[export] Instance noreject_constructApiCall this c ps : NoReject (constructApiCall this c ps).
Proof.
  unfold constructApiCall. case_match; [apply _|].
  repeat (apply noreject_bind; [try apply _|intros; try apply _]).
  intros s e s' [= Hf _]. by apply find_call_message in Hf as [m ->].
Qed.

#[export] Instance noreject_callRpc this c ps : NoReject (callRpc this c ps).
Proof.
  unfold callRpc. apply noreject_bind; [apply _|]. intros h. destruct (hs_api h); [|apply _].
  destruct (negb _); [apply _|]. intros s e s' H.
  apply bind_inv in H as [(t0 & s1 & _ & H)|[(e' & H & [= ->])|[_ [=]]]]; [|by eapply noreject_time].
  apply bind_inv in H as [([v|e0] & s2 & H2 & H)|[(e' & H & [= ->])|[_ [=]]]].
  - revert H. apply noreject_bind; [apply _|]. intros. apply noreject_bind; apply _.
  - unfold attempt, catch in H2.
    destruct (bind (constructApiCall this c ps) _ s1) as [[x|e1|] s3] eqn:E; try done.
    + apply bind_Ret_inv in E as (v & s4 & _ & E). injection E as <- <-. by injection H2.
    + apply bind_inv in E as [(v & s4 & _ & [=])|[(e' & E & [= ->])|[_ [=]]]].
      injection H2 as <- <-.
      apply noreject_constructApiCall in E.
      apply bind_inv in H as [(t1 & s5 & _ & H)|[(e1 & H & [= ->])|[_ [=]]]];
        [|by eapply noreject_time].
      apply bind_inv in H as [([] & s6 & _ & H)|[(e1 & H & [= ->])|[_ [=]]]]; [|done].
      by injection H as <- _.
  - unfold attempt, catch in H.
    destruct (bind (constructApiCall this c ps) _ s1) as [[x|e1|] s3]; try done.
Qed.

#[export] Instance noreject_with_nonce this sender o : NoReject (ChainHelperBase.with_nonce this sender o).
Proof.
  unfold ChainHelperBase.with_nonce, ChainGroup.getNonce. case_match; [|apply _].
  repeat (apply noreject_bind; [try apply _|intros; try apply _]);
    apply noreject_lift; auto with engine.
Qed.

End NoReject.

(** ** What [executeExtrinsic] returns *)

Section Executions.
Context {N : NodeApi}.
Implicit Types this : nat.
Import ChainHelperBase.

Lemma signTransaction_Ret this sender tx o label s r s' :
  signTransaction this sender tx o label s = (Ret r, s') -> finalized_success r.
Proof.
  unfold signTransaction. intros H. run_inv. by eapply on_updates_Ret.
Qed.

Lemma signTransaction_Throw this sender tx o label s r s' :
  signTransaction this sender tx o label s = (Throw (TxRejected r), s') -> rejected r.
Proof.
  unfold signTransaction. intros [(o' & s1 & _ & H)|[(e & H & [= <-])|[_ [=]]]]%bind_inv;
    [|by apply noreject_with_nonce in H].
  apply bind_inv in H as [(us & s2 & _ & H)|[(e & H & [= <-])|[_ [=]]]].
  - by apply on_updates_Throw in H as (r' & [= ->] & ?).
  - unfold catch in H. destruct (world_call _ s1) as [[us|e|] s2] eqn:E; [done| |done].
    apply noreject_world in E. cbn in H. injection H as -> _. done.
Qed.

(** What [submit] hands on: the result of a finalized success with its events,
    or that of a rejected transaction without events. *)
Lemma submit_cases this sender ext ps o s r evs s' :
  submit this sender ext ps o s = (Ret (r, evs), s') ->
  (finalized_success r /\ UniqueEventHelper.extractEvents (tr_events r) = Ret evs
   /\ Forall (fun e => is_error_event e = false) evs)
  \/ (rejected r /\ evs = []).
Proof.
  unfold submit, catch. set (body := bind _ _).
  destruct (body s) as [[x|e|] s1] eqn:E; subst body; [|destruct e as [| | | |r']; try done|done].
  - intros [= -> ->]. left. run_inv. destruct (findb is_error_event _) eqn:Ef; run_inv.
    split_and!; [by eapply signTransaction_Ret|done|].
    rewrite Forall_forall. intros e He. by apply (List.find_none _ _ Ef), list_elem_of_In.
  - intros [= -> <- _]. right. split; [|done].
    apply bind_inv in E as [(tx & s2 & _ & E)|[(e & E & [= <-])|[_ [=]]]];
      [|by apply noreject_constructApiCall in E].
    apply bind_inv in E as [(r0 & s3 & _ & E)|[(e & E & [= <-])|[_ [=]]]];
      [|by apply signTransaction_Throw in E].
    apply bind_inv in E as [(evs' & s4 & _ & E)|[(e & E & [= <-])|[_ [=]]]].
    + by destruct (findb _ _).
    + injection E as E _. by apply engine_extractEvents in E.
Qed.

Lemma dispatch_message_nonempty d : dispatch_message d <> [].
Proof.
  unfold dispatch_message. destruct (de_kind d); try done.
  destruct (findMetaError err) as [s n]. by destruct s.
Qed.

Lemma rejected_truthy r : rejected r ->
  truthy (tr_moduleError r) = bool_decide (is_Some (dispatch_error r)).
Proof.
  intros [_ _ ->]. destruct (dispatch_error r) as [d|]; [|done].
  pose proof (dispatch_message_nonempty d). cbn. by rewrite bool_decide_false.
Qed.

(** A result that is returned, given [expectSuccess]. *)
Definition returned (expectSuccess : bool) (r : ITransactionResult) : Prop :=
  finalized_success r \/ (rejected r /\ (expectSuccess = true -> dispatch_error r = None)).

Lemma check_success_Ret es r r' : finalized_success r \/ rejected r ->
  check_success es r = Ret r' -> r' = r /\ returned es r.
Proof.
  intros [H|H]; unfold check_success.
  - rewrite (fs_status _ H), andb_false_r. intros [= <-]. by split; [|left].
  - rewrite (rj_status _ H), andb_true_r, rejected_truthy by done.
    destruct es; [|intros [= <-]; split; [done|by right]].
    case_bool_decide as Hd; [done|]. apply eq_None_not_Some in Hd. rewrite Hd.
    intros [= <-]. split; [done|]. by right.
Qed.

Lemma base_Ret this sender ext ps es o s r s' :
  base_executeExtrinsic this sender ext ps es o s = (Ret r, s') -> returned es r.
Proof.
  unfold base_executeExtrinsic. intros H. run_inv. destruct (hs_api _); [|run_inv].
  run_inv. match goal with x : (ITransactionResult * list IEvent)%type |- _ => destruct x as [r0 evs] end. run_inv.
  match goal with Hs : submit _ _ _ _ _ _ = _ |- _ => apply submit_cases in Hs end.
  assert (finalized_success r0 \/ rejected r0) as Hr by tauto.
  match goal with Hc : check_success _ _ = _ |- _ => by apply check_success_Ret in Hc as [-> ?] end.
Qed.

Lemma check_sudo_Ret this r0 f s r s' : SudoHelper.check_sudo this r0 f s = (Ret r, s') -> r = r0.
Proof.
  unfold SudoHelper.check_sudo, SudoHelper.raise. intros H.
  destruct (tr_status r0); [|by injection H|];
    run_inv; destruct (truthy _); run_inv; try done;
    destruct (truthy _); run_inv; try done.
  all: try (destruct (findMetaError _)); run_inv; destruct (truthy _); run_inv.
Qed.

Lemma class_Ret cls this sender ext ps es o s r s' :
  class_executeExtrinsic cls this sender ext ps es o s = (Ret r, s') -> returned es r.
Proof.
  revert sender ext ps es o s r s'. induction cls as [|super IH|fn n opts super IH];
    intros sender ext ps es o s r s' H; cbn [class_executeExtrinsic] in H.
  - by eapply base_Ret.
  - unfold SudoHelper.executeExtrinsic in H. run_inv. apply check_sudo_Ret in H as ->. by eapply IH.
  - unfold ScheduledUniqueHelper.executeExtrinsic in H. run_inv.
    destruct (ScheduledUniqueHelper.schedule_call _ _ _ _). by eapply IH.
Qed.

Lemma executeExtrinsic_Ret this sender ext ps es o s r s' :
  executeExtrinsic this sender ext ps es o s = (Ret r, s') -> returned es r.
Proof. unfold executeExtrinsic. intros H. run_inv. by eapply class_Ret. Qed.

End Executions.

(** ** The chain log *)

Section ChainLog.
Context {N : NodeApi}.
Implicit Types this : nat.
Import ChainHelperBase.

(** The extrinsic that a helper of a class submits for [extrinsic]. *)
Fixpoint outer_call (cls : HelperClass) (extrinsic : jsstr) : jsstr :=
  match cls with
  | PlainHelper => extrinsic
  | SudoHelper super => outer_call super (js "api.tx.sudo.sudo")
  | ScheduledHelper f n o super =>
      outer_call super (js "api.tx.scheduler." ++ (ScheduledUniqueHelper.schedule_call f n o JUndef).1)
  end.

Lemma schedule_call_name f n o tx tx' :
  (ScheduledUniqueHelper.schedule_call f n o tx).1 = (ScheduledUniqueHelper.schedule_call f n o tx').1.
Proof. unfold ScheduledUniqueHelper.schedule_call. by destruct (scheduledId o) as [[|]|]. Qed.

#[export] Instance framed_submit this P `{!AllowsNonce P} sender ext ps o :
  Framed this P (submit this sender ext ps o).
Proof. unfold submit. solve_frame. Qed.

(** The entries that one extrinsic adds to the log. *)
Definition logs_extrinsic this (sender : TSigner) (call : jsstr) (r : ITransactionResult)
  (s s' : State) : Prop :=
  exists rpcs e,
    Forall rpc_entry rpcs
    /\ st_helpers s' = alter (push_entries (rpcs ++ [e])) this (st_helpers s)
    /\ log_type e = EXTRINSIC /\ log_call e = call /\ log_status e = tr_status r
    /\ log_signer e = Some (address sender).

Lemma alter_push l1 l2 this (hs : list HelperState) :
  alter (push_entries l2) this (alter (push_entries l1) this hs) = alter (push_entries (l1 ++ l2)) this hs.
Proof.
  rewrite list_alter_alter_eq. apply list_alter_ext; [|done]. intros h _. apply push_entries_app.
Qed.

Lemma base_log this sender ext ps es o s r s' :
  base_executeExtrinsic this sender ext ps es o s = (Ret r, s') ->
  logs_extrinsic this sender ext r s s'.
Proof.
  unfold base_executeExtrinsic. intros H. apply bind_Ret_inv in H as (h & s0 & H0 & H).
  apply get_this_inv in H0 as [-> _]. destruct (hs_api h); [|done].
  apply bind_Ret_inv in H as (t0 & s1 & H1 & H).
  apply bind_Ret_inv in H as ([r0 evs] & s2 & H2 & H).
  apply bind_Ret_inv in H as (t1 & s3 & H3 & H).
  apply bind_Ret_inv in H as ([] & s4 & H4 & H). apply lift_Ret_inv in H as [H ->].
  pose proof (quiet_run this _ _ _ _ (framed_time _ _) H1) as Q1.
  pose proof (quiet_run this _ _ _ _ (framed_time _ _) H3) as Q3.
  pose proof (framed_run this rpc_entry _ _ _ _ _ H2) as (rpcs & _ & Hrpc & Q2 & _).
  apply submit_cases in H2. assert (finalized_success r0 \/ rejected r0) as Hr by tauto.
  apply check_success_Ret in H as [-> _]; [|done].
  injection H4 as <-. cbn. rewrite Q3, Q2, Q1, alter_push.
  by exists rpcs, (extrinsic_log t0 t1 sender ext ps r0 evs).
Qed.

Lemma class_log cls this sender ext ps es o s r s' :
  class_executeExtrinsic cls this sender ext ps es o s = (Ret r, s') ->
  logs_extrinsic this sender (outer_call cls ext) r s s'.
Proof.
  revert sender ext ps es o s r s'. induction cls as [|super IH|fn n opts super IH];
    intros sender ext ps es o s r s' H; cbn [class_executeExtrinsic outer_call] in *.
  - by eapply base_log.
  - apply bind_Ret_inv in H as (call & s1 & H1 & H). apply bind_Ret_inv in H as (r0 & s2 & H2 & H).
    pose proof (check_sudo_Ret _ _ _ _ _ _ H) as ->.
    apply quiet_run with (this := this) in H1; [|apply _].
    apply quiet_run with (this := this) in H; [|apply _].
    apply IH in H2 as (rpcs & e & He & Hs & ?). exists rpcs, e. by rewrite H, Hs, H1.
  - apply bind_Ret_inv in H as (call & s1 & H1 & H).
    apply quiet_run with (this := this) in H1; [|apply _].
    rewrite (schedule_call_name _ _ _ _ call).
    destruct (ScheduledUniqueHelper.schedule_call fn n opts call) as [name args].
    apply IH in H as (rpcs & e & He & Hs & ?). exists rpcs, e. by rewrite Hs, H1.
Qed.

End ChainLog.

(** ** Properties *)

Section Properties.
Context {N : NodeApi}.
Implicit Types this : nat.
Import ChainHelperBase.

(** C2: [signTransaction] settles according to the first decisive status
    report and to no later one: reports of an extrinsic that is ready,
    broadcast, retracted or only in a block are passed over, and when no report
    is decisive the promise never settles. *)
Theorem signTransaction_first_decisive this sender tx options label s opts s1 updates w :
  with_nonce this sender options s = (Ret opts, s1) ->
  sign_and_send sender (obj opts) tx (st_world s1) = (Ret updates, w) ->
  (signTransaction this sender tx options label s).1
  = match findb decisive updates with
    | Some u => settlement u
    | None => Pending
    end.
Proof.
  intros H1 H2. unfold signTransaction. rewrite (bind_Ret _ _ _ _ _ H1).
  set (s2 := mkState (st_helpers s1) (st_logger s1) w).
  assert (catch (world_call (sign_and_send sender (obj opts) tx))
            (fun e => logger_log (LogExn e) LERROR;; throw e) s1 = (Ret updates, s2)) as H3.
  { unfold catch, world_call. by rewrite H2. }
  rewrite (bind_Ret _ _ _ _ _ H3). apply on_updates_outcome.
Qed.

(** C1: Whatever mixins the helper is stacked from, [executeExtrinsic] with
    [expectSuccess] returns only the result of an extrinsic that was finalized
    with an [ExtrinsicSuccess] and no [ExtrinsicFailed] event, or that of an
    extrinsic which left the pool without any dispatch error (dropped, invalid,
    usurped); the latter comes back as an ordinary value with status [Fail]. *)
Theorem executeExtrinsic_returns this sender extrinsic params options s r s' :
  executeExtrinsic this sender extrinsic params true options s = (Ret r, s') ->
  finalized_success r
  \/ (tr_status r = FAIL /\ dispatch_error r = None
      /\ getTransactionStatus (tr_result r) = FAIL).
Proof.
  intros [H|[H1 H2]]%executeExtrinsic_Ret; [by left|right].
  split_and!; [apply H1|by apply H2|apply H1].
Qed.

(** An extrinsic that the node drops, invalidates or replaces is handed back
    to the caller as a value, not thrown, although success was expected: the
    promise of [expectSuccess] does not cover it. *)
Theorem dropped_extrinsic_is_returned this h sender extrinsic params options s t0 s0 r s1 t1 s2 :
  st_helpers s !! this = Some h -> hs_class h = PlainHelper -> is_Some (hs_api h) ->
  current_time s = (Ret t0, s0) ->
  submit this sender extrinsic params options s0 = (Ret (r, []), s1) ->
  tr_status r = FAIL -> dispatch_error r = None ->
  current_time s1 = (Ret t1, s2) ->
  (executeExtrinsic this sender extrinsic params true options s).1 = Ret r.
Proof.
  intros Hh Hc [api Ha] Ht0 Hsub Hst Hd Ht1. unfold executeExtrinsic.
  rewrite (bind_Ret _ _ _ _ _ (get_this_Some _ _ _ Hh)), Hc. cbn [class_executeExtrinsic].
  unfold base_executeExtrinsic.
  rewrite (bind_Ret _ _ _ _ _ (get_this_Some _ _ _ Hh)), Ha.
  rewrite (bind_Ret _ _ _ _ _ Ht0), (bind_Ret _ _ _ _ _ Hsub), (bind_Ret _ _ _ _ _ Ht1).
  assert (truthy (tr_moduleError r) = false) as Ht.
  { apply submit_cases in Hsub as [[H _]|[H _]]; [by rewrite (fs_status _ H) in Hst|].
    rewrite rejected_truthy, Hd by done. by apply bool_decide_false; intros []. }
  cbn. unfold lift, check_success. by rewrite Hst, Ht, Hd.
Qed.

(** C3: Every extrinsic that [executeExtrinsic] returns leaves exactly one
    extrinsic entry in the helper's chain log, under the name of the outermost
    call that was submitted, with the signer and the status of the result;
    before it stand only the entries of RPC calls made on the way, and no other
    helper object changes. *)
Theorem executeExtrinsic_logged_once this h sender extrinsic params expectSuccess options s r s' :
  st_helpers s !! this = Some h ->
  executeExtrinsic this sender extrinsic params expectSuccess options s = (Ret r, s') ->
  exists rpcs e,
    st_helpers s' !! this = Some (push_entries (rpcs ++ [e]) h)
    /\ Forall (fun e => log_type e = RPC) rpcs
    /\ log_type e = EXTRINSIC /\ log_call e = outer_call (hs_class h) extrinsic
    /\ log_status e = tr_status r /\ log_signer e = Some (address sender)
    /\ forall l, l <> this -> st_helpers s' !! l = st_helpers s !! l.
Proof.
  intros Hh H. unfold executeExtrinsic in H.
  rewrite (bind_Ret _ _ _ _ _ (get_this_Some _ _ _ Hh)) in H.
  apply class_log in H as (rpcs & e & Hr & Hs & ? & ? & ? & ?). exists rpcs, e.
  split_and!; try done.
  - by rewrite Hs, list_lookup_alter_eq, Hh.
  - intros l Hl. by rewrite Hs, list_lookup_alter_ne.
Qed.

(** C27: [callRpc] on a connected helper logs exactly one RPC entry per call,
    whether the call answers or throws; the entry has status [Success] exactly
    when the call answered. A name outside [api.rpc] and [api.query] is refused
    and leaves no trace. *)
Theorem callRpc_logged this h rpc params s o s' :
  st_helpers s !! this = Some h -> is_Some (hs_api h) ->
  callRpc this rpc params s = (o, s') -> o <> Pending ->
  if is_rpc_call rpc then
    exists e, st_helpers s' !! this = Some (push_entries [e] h)
      /\ log_type e = RPC /\ log_call e = rpc /\ log_params e = params
      /\ log_status e = match o with Ret _ => SUCCESS | _ => FAIL end
  else s' = s /\ o = Throw (JSError (rpc ++ js " is not RPC call")).
Proof.
  intros Hh [api Ha] H Hp. unfold callRpc in H.
  rewrite (bind_Ret _ _ _ _ _ (get_this_Some _ _ _ Hh)), Ha in H.
  destruct (is_rpc_call rpc); cbn [negb] in H; [|by injection H as <- <-].
  apply bind_inv in H as [(t0 & s1 & H1 & H)|[(e & H & ->)|[H ->]]];
    [|by unfold current_time in H; destruct (now _)..].
  apply bind_inv in H as [(r & s2 & H2 & H)|[(e & H2 & ->)|[_ ->]]]; [|exfalso|done].
  2:{ unfold attempt, catch in H2. by match type of H2 with match ?x with _ => _ end = _ => destruct x as [[]] end. }
  apply bind_inv in H as [(t1 & s3 & H3 & H)|[(e & H & ->)|[H ->]]];
    [|by unfold current_time in H; destruct (now _)..].
  apply (quiet_run this) in H1; [|apply _]. apply (quiet_run this) in H2; [|apply _].
  apply (quiet_run this) in H3; [|apply _].
  assert (st_helpers s3 !! this = Some h) as Hh3 by by rewrite H3, H2, H1.
  unfold push_log, modify_this, modify_helpers in H. cbn in H.
  destruct r; injection H as <- <-; eexists; cbn;
    (split; [by rewrite list_lookup_alter_eq, Hh3|done]).
Qed.

(** C9: Through a sudo helper, a result with status [Success] means that the
    wrapped call itself succeeded: the submitted extrinsic was finalized and the
    [sudoResult] of the first [Sudid] event is not an error. *)
Theorem sudo_success_is_inner_success this super sender extrinsic params expectSuccess options s r s' :
  class_executeExtrinsic (SudoHelper super) this sender extrinsic params expectSuccess options s = (Ret r, s') ->
  tr_status r <> FAIL ->
  finalized_success r
  /\ exists event isErr,
       findb (is_event (js "sudo") (js "Sudid")) (tr_events r) = Some event
       /\ get_prop (datum event 0) (js "isErr") = Ret isErr /\ truthy isErr = false.
Proof.
  intros H Hst. split.
  - apply class_Ret in H as [H|[H _]]; [done|]. by destruct Hst; apply H.
  - cbn [class_executeExtrinsic] in H. unfold SudoHelper.executeExtrinsic in H. run_inv.
    pose proof (check_sudo_Ret _ _ _ _ _ _ H) as ->. unfold SudoHelper.check_sudo, SudoHelper.sudoResult in H.
    destruct (tr_status _); try done; run_inv;
    destruct (findb _ _) as [event|]; try done; simplify_eq; (eexists _, _; split_and!; [done|done|]);
    (destruct (truthy _); [|done]); exfalso; unfold SudoHelper.raise in H; run_inv;
      destruct (truthy _); run_inv; try (destruct (findMetaError _)); run_inv;
      destruct (truthy _); run_inv.
Qed.

(** A sudo helper made from a scheduled one cannot succeed: the scheduler
    accepts the wrapped call without running it, so unless a [Sudid] event
    happens to be there, a submitted and finalized extrinsic ends in an engine
    error. *)
Theorem sudo_over_scheduled_throws this f n opts super sender extrinsic params expectSuccess options
  s call s1 r s2 :
  constructApiCall this extrinsic params s = (Ret call, s1) ->
  class_executeExtrinsic (ScheduledHelper f n opts super) this sender
    (js "api.tx.sudo.sudo") [call] expectSuccess options s1 = (Ret r, s2) ->
  tr_status r <> FAIL ->
  Forall (fun e => is_event (js "sudo") (js "Sudid") e = false) (tr_events r) ->
  class_executeExtrinsic (SudoHelper (ScheduledHelper f n opts super)) this sender
    extrinsic params expectSuccess options s = (Throw EngineError, s2).
Proof.
  intros H1 H2 Hst Hno. cbn [class_executeExtrinsic] in *. unfold SudoHelper.executeExtrinsic.
  rewrite (bind_Ret _ _ _ _ _ H1), (bind_Ret _ _ _ _ _ H2).
  unfold SudoHelper.check_sudo, SudoHelper.sudoResult.
  assert (findb (is_event (js "sudo") (js "Sudid")) (tr_events r) = None) as ->.
  { clear -Hno. induction Hno as [|e l He _ IH]; [done|]. unfold findb in *. cbn. by rewrite He. }
  by destruct (tr_status r).
Qed.

End Properties.
