(* ===== verification/Collections.v ===== *)
(** * CollectionGroup and NFTnRFT

    The commands and queries on collections and, shared by NFT and RFT, on
    their tokens (js-packages/playgrounds/unique.ts). *)

From Stdlib Require Import Ascii String.
From stdpp Require Import list.
From S2P Require Import Prelude JsString JsValue Chain Address Util Helper.

Open Scope Z_scope.
Open Scope js_scope.

(** [v.k = x] on an object. *)
Definition set_prop (v : jsval) (k : jsstr) (x : jsval) : Res jsval :=
  match v with
  | JObj ps ms => Ret (JObj (assoc_set k x ps) ms)
  | _ => Throw EngineError
  end.

Definition num_js (n : number) : jsval := JNum n.

(** An owner given as an account or as a bare Substrate address. *)
Inductive Owner : Type :=
  | OwnerCross (a : ICrossAccountId)
  | OwnerString (s : jsstr).

Definition owner_js (o : Owner) : jsval :=
  match o with
  | OwnerString s => obj [(js "Substrate", JStr s)]
  | OwnerCross a => cross_js a
  end.

Section Shared.
Context {N : NodeApi} {C : Crypto}.
Variable helper : nat.

(** [(await this.helper.callRpc(rpc, params)).m()] *)
Definition query (rpc : jsstr) (params : list jsval) (m : jsstr) : M jsval :=
  r ← callRpc helper rpc params;
  lift (call0 r m).

(** The body that the commands on a collection share: submit, then look for the
    event of the collection. *)
Definition collection_command (signer : TSigner) (extrinsic : jsstr) (params : list jsval)
  (collectionId : number) (event : jsstr) : M bool :=
  result ← exec helper signer extrinsic params;
  lift (UniqueUtil.findCollectionInEvents (tr_events result) collectionId (js "common") event).

End Shared.

Module CollectionGroup.
Section CollectionGroup.
Context {N : NodeApi} {C : Crypto}.
Variable helper : nat.

Definition getTokenNextSponsored (collectionId tokenId : number) (addressObj : ICrossAccountId) : M jsval :=
  query helper (js "api.rpc.unique.nextSponsored")
    [num_js collectionId; cross_js addressObj; num_js tokenId] (js "toJSON").

Definition getTotalCount : M jsval :=
  r ← callRpc helper (js "api.rpc.unique.collectionStats") [];
  c ← lift (get_prop r (js "created"));
  lift (call0 c (js "toNumber")).

(** [addresses.map(a => CrossAccountId.withNormalizedSubstrate(a))] when asked. *)
Definition normalize_all (normalize : bool) (addresses : jsval) : Res jsval :=
  if normalize then
    l ← elements addresses;
    JArr <$> map_out (fun a => CrossAccountId.withNormalizedSubstrate_js a 42) l
  else Ret addresses.

Definition getAdmins (collectionId : number) (normalize : bool) : M jsval :=
  admins ← query helper (js "api.rpc.unique.adminlist") [num_js collectionId] (js "toHuman");
  lift (normalize_all normalize admins).

Definition getAllowList (collectionId : number) (normalize : bool) : M jsval :=
  allowListed ← query helper (js "api.rpc.unique.allowlist") [num_js collectionId] (js "toHuman");
  lift (normalize_all normalize allowListed).

Definition getLastTokenId (collectionId : number) : M jsval :=
  query helper (js "api.rpc.unique.lastTokenId") [num_js collectionId] (js "toNumber").

(** What [getData] returns. *)
Record CollectionData : Type := mkCollectionData {
  cd_id : number;
  cd_name : jsstr;
  cd_description : jsstr;
  cd_tokensCount : jsval;
  cd_admins : jsval;
  cd_normalizedOwner : jsstr;
  cd_raw : jsval }.

(** [vec2str(humanCollection[key])] *)
Definition human_string (humanCollection : jsval) (key : jsstr) : Res jsstr :=
  v ← get_prop humanCollection key;
  l ← elements v;
  UniqueUtil.vec2str l.

Definition getData (collectionId : number) : M (option CollectionData) :=
  collection ← callRpc helper (js "api.rpc.unique.collectionById") [num_js collectionId];
  humanCollection ← lift (call0 collection (js "toHuman"));
  jsonCollection ← lift (call0 collection (js "toJSON"));
  if strict_eq humanCollection JNull then mreturn None
  else
    limits ← lift (get_prop jsonCollection (js "limits"));
    raw ← lift (set_prop humanCollection (js "limits") limits);
    permissions ← lift (get_prop jsonCollection (js "permissions"));
    raw ← lift (set_prop raw (js "permissions") permissions);
    owner ← lift (get_prop raw (js "owner"));
    normalizedOwner ← lift match owner with
                           | JStr s => AddressGroup.normalizeSubstrate s 42
                           | _ => Throw EngineError
                           end;
    name ← lift (human_string raw (js "name"));
    description ← lift (human_string raw (js "description"));
    mode ← lift (get_prop raw (js "mode"));
    tokensCount ← (if strict_eq mode (JStr (js "RFT")) || strict_eq mode (JStr (js "NFT"))
                   then getLastTokenId collectionId
                   else mreturn (JNum (Int 0)));
    admins ← getAdmins collectionId false;
    mreturn (Some (mkCollectionData collectionId name description tokensCount admins normalizedOwner raw)).

Definition getEffectiveLimits (collectionId : number) : M jsval :=
  query helper (js "api.rpc.unique.effectiveCollectionLimits") [num_js collectionId] (js "toJSON").

Definition burn (signer : TSigner) (collectionId : number) : M bool :=
  collection_command helper signer (js "api.tx.unique.destroyCollection") [num_js collectionId]
    collectionId (js "CollectionDestroyed").

Definition setSponsor (signer : TSigner) (collectionId : number) (sponsorAddress : jsstr) : M bool :=
  collection_command helper signer (js "api.tx.unique.setCollectionSponsor")
    [num_js collectionId; JStr sponsorAddress] collectionId (js "CollectionSponsorSet").

Definition confirmSponsorship (signer : TSigner) (collectionId : number) : M bool :=
  collection_command helper signer (js "api.tx.unique.confirmSponsorship") [num_js collectionId]
    collectionId (js "SponsorshipConfirmed").

Definition removeSponsor (signer : TSigner) (collectionId : number) : M bool :=
  collection_command helper signer (js "api.tx.unique.removeCollectionSponsor") [num_js collectionId]
    collectionId (js "CollectionSponsorRemoved").

Definition setLimits (signer : TSigner) (collectionId : number) (limits : jsval) : M bool :=
  collection_command helper signer (js "api.tx.unique.setCollectionLimits")
    [num_js collectionId; limits] collectionId (js "CollectionLimitSet").

Definition changeOwner (signer : TSigner) (collectionId : number) (ownerAddress : jsstr) : M bool :=
  collection_command helper signer (js "api.tx.unique.changeCollectionOwner")
    [num_js collectionId; JStr ownerAddress] collectionId (js "CollectionOwnerChanged").

Definition addAdmin (signer : TSigner) (collectionId : number) (adminAddressObj : ICrossAccountId) : M bool :=
  collection_command helper signer (js "api.tx.unique.addCollectionAdmin")
    [num_js collectionId; cross_js adminAddressObj] collectionId (js "CollectionAdminAdded").

Definition removeAdmin (signer : TSigner) (collectionId : number) (adminAddressObj : ICrossAccountId) : M bool :=
  collection_command helper signer (js "api.tx.unique.removeCollectionAdmin")
    [num_js collectionId; cross_js adminAddressObj] collectionId (js "CollectionAdminRemoved").

Definition allowed (collectionId : number) (user : ICrossAccountId) : M jsval :=
  query helper (js "api.rpc.unique.allowed") [num_js collectionId; cross_js user] (js "toJSON").

Definition addToAllowList (signer : TSigner) (collectionId : number) (addressObj : ICrossAccountId) : M bool :=
  collection_command helper signer (js "api.tx.unique.addToAllowList")
    [num_js collectionId; cross_js addressObj] collectionId (js "AllowListAddressAdded").

Definition removeFromAllowList (signer : TSigner) (collectionId : number) (addressObj : ICrossAccountId) : M bool :=
  collection_command helper signer (js "api.tx.unique.removeFromAllowList")
    [num_js collectionId; cross_js addressObj] collectionId (js "AllowListAddressRemoved").

Definition setPermissions (signer : TSigner) (collectionId : number) (permissions : jsval) : M bool :=
  collection_command helper signer (js "api.tx.unique.setCollectionPermissions")
    [num_js collectionId; permissions] collectionId (js "CollectionPermissionSet").

Definition enableNesting (signer : TSigner) (collectionId : number) (permissions : jsval) : M bool :=
  setPermissions signer collectionId (obj [(js "nesting", permissions)]).

Definition disableNesting (signer : TSigner) (collectionId : number) : M bool :=
  setPermissions signer collectionId
    (obj [(js "nesting", obj [(js "tokenOwner", jsfalse); (js "collectionAdmin", jsfalse)])]).

Definition setProperties (signer : TSigner) (collectionId : number) (properties : jsval) : M bool :=
  collection_command helper signer (js "api.tx.unique.setCollectionProperties")
    [num_js collectionId; properties] collectionId (js "CollectionPropertySet").

Definition getProperties (collectionId : number) (propertyKeys : jsval) : M jsval :=
  query helper (js "api.rpc.unique.collectionProperties") [num_js collectionId; propertyKeys] (js "toHuman").

Definition getPropertiesConsumedSpace (collectionId : number) : M jsval :=
  api ← getApi helper;
  r ← api_call api (js "query.common.collectionProperties") [num_js collectionId];
  props ← lift (call0 r (js "toJSON"));
  lift (get_prop props (js "consumedSpace")).

Definition getCollectionOptions (collectionId : number) : M jsval :=
  query helper (js "api.rpc.unique.collectionById") [num_js collectionId] (js "toHuman").

Definition deleteProperties (signer : TSigner) (collectionId : number) (propertyKeys : jsval) : M bool :=
  collection_command helper signer (js "api.tx.unique.deleteCollectionProperties")
    [num_js collectionId; propertyKeys] collectionId (js "CollectionPropertyDeleted").

Definition transferToken (signer : TSigner) (collectionId tokenId : number) (addressObj : ICrossAccountId)
  (amount : Z) : M bool :=
  result ← exec helper signer (js "api.tx.unique.transfer")
             [cross_js addressObj; num_js collectionId; num_js tokenId; JBig amount];
  lift (UniqueUtil.isTokenTransferSuccess (tr_events result) collectionId tokenId
          (Substrate (address signer)) addressObj amount).

Definition transferTokenFrom (signer : TSigner) (collectionId tokenId : number)
  (fromAddressObj toAddressObj : ICrossAccountId) (amount : Z) : M bool :=
  result ← exec helper signer (js "api.tx.unique.transferFrom")
             [cross_js fromAddressObj; cross_js toAddressObj; num_js collectionId; num_js tokenId; JBig amount];
  lift (UniqueUtil.isTokenTransferSuccess (tr_events result) collectionId tokenId
          fromAddressObj toAddressObj amount).

Definition burnToken (signer : TSigner) (collectionId tokenId : number) (amount : Z) : M bool :=
  burnResult ← exec helper signer (js "api.tx.unique.burnItem")
                 [num_js collectionId; num_js tokenId; JBig amount];
  burnedTokens ← lift (UniqueUtil.extractTokensFromBurnResult burnResult);
  if bool_decide (1 < length (tokens burnedTokens))%nat then
    throw (JSError (js "Burned multiple tokens"))
  else mreturn (success burnedTokens).

Definition burnTokenFrom (signer : TSigner) (collectionId tokenId : number)
  (fromAddressObj : ICrossAccountId) (amount : Z) : M bool :=
  burnResult ← exec helper signer (js "api.tx.unique.burnFrom")
                 [num_js collectionId; cross_js fromAddressObj; num_js tokenId; JBig amount];
  burnedTokens ← lift (UniqueUtil.extractTokensFromBurnResult burnResult);
  mreturn (success burnedTokens && bool_decide (0 < length (tokens burnedTokens))%nat).

Definition approveToken (signer : TSigner) (collectionId tokenId : number) (toAddressObj : ICrossAccountId)
  (amount : Z) : M bool :=
  collection_command helper signer (js "api.tx.unique.approve")
    [cross_js toAddressObj; num_js collectionId; num_js tokenId; JBig amount]
    collectionId (js "Approved").

Definition approveTokenFrom (signer : TSigner) (collectionId tokenId : number)
  (fromAddressObj toAddressObj : ICrossAccountId) (amount : Z) : M bool :=
  collection_command helper signer (js "api.tx.unique.approveFrom")
    [cross_js fromAddressObj; cross_js toAddressObj; num_js collectionId; num_js tokenId; JBig amount]
    collectionId (js "Approved").

Definition approveTokenFromEth (signer : TSigner) (collectionId tokenId : number)
  (toAddressObj : ICrossAccountId) (amount : Z) : M bool :=
  account ← lift (CrossAccountId.fromKeyring signer CrossAccountId.DSubstrate);
  ethMirror ← lift (CrossAccountId.toEthereum account);
  approveTokenFrom signer collectionId tokenId (CrossAccountId.toICrossAccountId ethMirror) toAddressObj amount.

Definition getTokenApprovedPieces (collectionId tokenId : number) (toAccountObj : ICrossAccountId)
  (fromAccountObj : jsval) : M jsval :=
  query helper (js "api.rpc.unique.allowance")
    [num_js collectionId; fromAccountObj; cross_js toAccountObj; num_js tokenId] (js "toBigInt").

Definition doesTokenExist (collectionId tokenId : number) : M jsval :=
  query helper (js "api.rpc.unique.tokenExists") [num_js collectionId; num_js tokenId] (js "toJSON").

End CollectionGroup.
End CollectionGroup.

(** ** Collection options *)

(** [ToInt32] and [|] on numbers. The flags of a collection are numbers by
    their type; any other value counts as [0] here. *)
Definition to_int32 (v : jsval) : Z :=
  match v with
  | JNum (Int z) => (z + 2 ^ 31) mod 2 ^ 32 - 2 ^ 31
  | _ => 0
  end.

Definition bit_or (a : Z) (v : jsval) : Z :=
  to_int32 (JNum (Int (Z.lor (to_int32 (JNum (Int a))) (to_int32 v)))).

(** The loop that joins the flags into one number. *)
Definition join_flags (flags : list jsval) : Z := fold_left bit_or flags 0.

(** [JSON.parse(JSON.stringify(options))], which must be an object. *)
Definition clone_options (options : jsval) : Res (list (jsstr * jsval)) :=
  o ← json_clone options;
  match o with
  | Some (JObj ps _) => Ret ps
  | _ => Throw EngineError
  end.

(** [if(typeof options[key] === 'string') options[key] = str2vec(options[key])]
    for the three keys. *)
Definition encode_strings (options : list (jsstr * jsval)) : list (jsstr * jsval) :=
  fold_left (fun o key =>
      match assoc key o with
      | Some (JStr s) => assoc_set key (UniqueUtil.str2vec (JStr s)) o
      | _ => o
      end) (map js ["name"; "description"; "tokenPrefix"]%string) options.

Definition option_flags (options : list (jsstr * jsval)) : list jsval :=
  match assoc (js "flags") options with
  | Some (JArr l) => l
  | _ => []
  end.

Inductive Mode : Type := NFT | RFT.

(** ** NFTnRFT *)

Module NFTnRFT.
Section NFTnRFT.
Context {N : NodeApi} {C : Crypto}.
Variable helper : nat.

Definition getTokensByAddress (collectionId : number) (addressObj : ICrossAccountId) : M jsval :=
  query helper (js "api.rpc.unique.accountTokens") [num_js collectionId; cross_js addressObj] (js "toJSON").

(** The keys a token is read with at a block; [None] when the collection does
    not exist. *)
Definition token_keys (collectionId : number) (propertyKeys : list jsstr) : M (option jsval) :=
  if bool_decide (length propertyKeys = 0)%nat then
    collection ← query helper (js "api.rpc.unique.collectionById") [num_js collectionId] (js "toHuman");
    if negb (truthy collection) then mreturn None
    else
      permissions ← lift (get_prop collection (js "tokenPropertyPermissions"));
      l ← lift (elements permissions);
      keys ← lift (map_out (fun x => get_prop x (js "key")) l);
      mreturn (Some (JArr keys))
  else mreturn (Some (JArr (map JStr propertyKeys))).

Definition read_token (args : list jsval) : M jsval :=
  tokenData ← query helper (js "api.rpc.unique.tokenData") args (js "toHuman");
  if strict_eq tokenData JNull then mreturn JNull
  else
    owner ← lift (get_prop tokenData (js "owner"));
    if strict_eq owner JNull then mreturn JNull
    else
      normalizedOwner ← lift (CrossAccountId.withNormalizedSubstrate_js owner 42);
      lift (set_prop tokenData (js "normalizedOwner") normalizedOwner).

Definition getToken (collectionId tokenId : number) (propertyKeys : list jsstr) (blockHashAt : option jsstr)
  : M jsval :=
  match blockHashAt with
  | None => read_token [num_js collectionId; num_js tokenId]
  | Some hash =>
      keys ← token_keys collectionId propertyKeys;
      match keys with
      | None => mreturn JNull
      | Some keys => read_token [num_js collectionId; num_js tokenId; keys; JStr hash]
      end
  end.

(** The parameters of a query that may be made at a block. *)
Definition at_block (collectionId tokenId : number) (blockHashAt : option jsstr) : list jsval :=
  match blockHashAt with
  | None => [num_js collectionId; num_js tokenId]
  | Some hash => [num_js collectionId; num_js tokenId; JStr hash]
  end.

Definition getTokenOwner (collectionId tokenId : number) (blockHashAt : option jsstr) : M jsval :=
  owner ← callRpc helper (js "api.rpc.unique.tokenOwner") (at_block collectionId tokenId blockHashAt);
  j ← lift (call0 owner (js "toJSON"));
  lift (CrossAccountId.fromLowerCaseKeys_js j).

Definition getTokenTopmostOwner (collectionId tokenId : number) (blockHashAt : option jsstr) : M jsval :=
  owner ← callRpc helper (js "api.rpc.unique.topmostTokenOwner") (at_block collectionId tokenId blockHashAt);
  if strict_eq owner JNull then mreturn JNull else lift (call0 owner (js "toHuman")).

(** [this.transferToken] and [this.transferTokenFrom] with the default amount:
    the overrides of NFTGroup and RFTGroup agree on it. *)
Definition nestToken (signer : TSigner) (tokenObj rootTokenObj : IToken) : M bool :=
  rootTokenAddress ← lift (UniqueUtil.getTokenAccount rootTokenObj);
  result ← CollectionGroup.transferToken helper signer (collectionId tokenObj) (tokenId tokenObj)
             rootTokenAddress 1;
  if negb result then throw (JSError (js "Unable to nest token!")) else mreturn result.

Definition unnestToken (signer : TSigner) (tokenObj rootTokenObj : IToken) (toAddressObj : ICrossAccountId)
  : M bool :=
  rootTokenAddress ← lift (UniqueUtil.getTokenAccount rootTokenObj);
  result ← CollectionGroup.transferTokenFrom helper signer (collectionId tokenObj) (tokenId tokenObj)
             rootTokenAddress toAddressObj 1;
  if negb result then throw (JSError (js "Unable to unnest token!")) else mreturn result.

Definition setTokenPropertyPermissions (signer : TSigner) (collectionId : number) (permissions : jsval) : M bool :=
  collection_command helper signer (js "api.tx.unique.setTokenPropertyPermissions")
    [num_js collectionId; permissions] collectionId (js "PropertyPermissionSet").

Definition getPropertyPermissions (collectionId : number) (propertyKeys : option jsval) : M jsval :=
  query helper (js "api.rpc.unique.propertyPermissions")
    (num_js collectionId :: match propertyKeys with None => [] | Some k => [k] end) (js "toHuman").

Definition setTokenProperties (signer : TSigner) (collectionId tokenId : number) (properties : jsval) : M bool :=
  collection_command helper signer (js "api.tx.unique.setTokenProperties")
    [num_js collectionId; num_js tokenId; properties] collectionId (js "TokenPropertySet").

Definition getTokenProperties (collectionId tokenId : number) (propertyKeys : jsval) : M jsval :=
  query helper (js "api.rpc.unique.tokenProperties")
    [num_js collectionId; num_js tokenId; propertyKeys] (js "toHuman").

Definition deleteTokenProperties (signer : TSigner) (collectionId tokenId : number) (propertyKeys : jsval) : M bool :=
  collection_command helper signer (js "api.tx.unique.deleteTokenProperties")
    [num_js collectionId; num_js tokenId; propertyKeys] collectionId (js "TokenPropertyDeleted").

(** The options with which [mintCollection] calls the node. *)
Definition mint_options (collectionOptions : jsval) (mode : Mode) : Res (list (jsstr * jsval)) :=
  o ← clone_options collectionOptions;
  let o := assoc_set (js "mode")
             match mode with
             | NFT => obj [(js "nft", JNull)]
             | RFT => obj [(js "refungible", JNull)]
             end o in
  let o := encode_strings o in
  Ret (assoc_set (js "flags") (JArr [JNum (Int (join_flags (option_flags o)))]) o).

(** [mintCollection], up to the collection object that [getCollectionObject]
    of the subclass makes from the number. *)
Definition mintCollection (signer : TSigner) (collectionOptions : jsval) (mode : Mode) : M number :=
  o ← lift (mint_options collectionOptions mode);
  creationResult ← exec helper signer (js "api.tx.unique.createCollectionEx") [obj o];
  lift (UniqueUtil.extractCollectionIdFromCreationResult creationResult).

Definition allowanceForAll (collectionId : number) (owner operator : ICrossAccountId) : M jsval :=
  query helper (js "api.rpc.unique.allowanceForAll")
    [num_js collectionId; cross_js owner; cross_js operator] (js "toJSON").

Definition setAllowanceForAll (signer : TSigner) (collectionId : number) (operator : ICrossAccountId)
  (approved : bool) : M bool :=
  collection_command helper signer (js "api.tx.unique.setAllowanceForAll")
    [num_js collectionId; cross_js operator; JBool approved] collectionId (js "ApprovedForAll").

(** The token a single mint created. *)
Definition single_token (creationResult : ITransactionResult) : Res EventToken :=
  createdTokens ← UniqueUtil.extractTokensFromCreationResult creationResult;
  if bool_decide (1 < length (tokens createdTokens))%nat then
    Throw (JSError (js "Minted multiple tokens"))
  else
    match tokens createdTokens with
    | t :: _ => Ret t
    | [] => Throw (JSError (js "No tokens minted"))
    end.

End NFTnRFT.
End NFTnRFT.
