(* ===== verification/Tokens.v ===== *)
(** * NFTGroup, RFTGroup and FTGroup

    Minting, transfers and queries of the three kinds of tokens
    (js-packages/playgrounds/unique.ts), and the collection and token objects
    they return. *)

From Stdlib Require Import Ascii String.
From stdpp Require Import list.
From S2P Require Import Prelude JsString JsValue Chain Address Util Helper Collections.

Open Scope Z_scope.
Open Scope js_scope.

(** [UniqueBaseCollection] and [UniqueBaseToken], and their subclasses: an
    identifier with the helper, or the collection, it belongs to. *)
Record Collection : Type := mkCollection {
  col_helper : nat;
  col_id : number }.

Record Token : Type := mkTokenObject {
  tok_collection : Collection;
  tok_id : number }.

(** [undefined] for a missing optional property. *)
Definition or_undefined (o : option jsval) : jsval := default JUndef o.

(** [token[k]] of each of the tokens to mint, wrapped by [f]. *)
Definition raw_tokens (f : jsval -> Res jsval) (tokens : list jsval) : Res (list jsval) :=
  map_out f tokens.

Module NFTGroup.
Section NFTGroup.
Context {N : NodeApi} {C : Crypto}.
Variable helper : nat.

Definition getCollectionObject (collectionId : number) : Collection := mkCollection helper collectionId.

Definition getTokenObject (collectionId tokenId : number) : Token :=
  mkTokenObject (getCollectionObject collectionId) tokenId.

Definition isTokenApproved (collectionId tokenId : number) (toAccountObj : ICrossAccountId) : M bool :=
  owner ← NFTnRFT.getTokenOwner helper collectionId tokenId None;
  n ← CollectionGroup.getTokenApprovedPieces helper collectionId tokenId toAccountObj owner;
  mreturn (strict_eq n (JBig 1)).

Definition transferToken (signer : TSigner) (collectionId tokenId : number) (addressObj : ICrossAccountId) : M bool :=
  CollectionGroup.transferToken helper signer collectionId tokenId addressObj 1.

Definition transferTokenFrom (signer : TSigner) (collectionId tokenId : number)
  (fromAddressObj toAddressObj : ICrossAccountId) : M bool :=
  CollectionGroup.transferTokenFrom helper signer collectionId tokenId fromAddressObj toAddressObj 1.

Definition getTokenChildren (collectionId tokenId : number) (blockHashAt : option jsstr) : M (list (jsval * jsval)) :=
  children ← callRpc helper (js "api.rpc.unique.tokenChildren")
               (NFTnRFT.at_block collectionId tokenId blockHashAt);
  j ← lift (call0 children (js "toJSON"));
  l ← lift (elements j);
  lift (map_out (fun x =>
          c ← get_prop x (js "collection"); t ← get_prop x (js "token"); Ret (c, t)) l).

Definition mintCollection (signer : TSigner) (collectionOptions : jsval) : M Collection :=
  collectionId ← NFTnRFT.mintCollection helper signer collectionOptions NFT;
  mreturn (getCollectionObject collectionId).

Definition mintToken (signer : TSigner) (collectionId : number) (owner : Owner) (properties : option jsval)
  : M Token :=
  creationResult ← exec helper signer (js "api.tx.unique.createItem")
    [num_js collectionId; owner_js owner;
     obj [(js "NFT", obj [(js "properties", or_undefined properties)])]];
  token ← lift (NFTnRFT.single_token creationResult);
  mreturn (getTokenObject collectionId (et_tokenId token)).

(** [extractTokensFromCreationResult(result).tokens.map(x => collection.getTokenObject(x.tokenId))] *)
Definition token_objects (collectionId : number) (creationResult : ITransactionResult) : Res (list Token) :=
  r ← UniqueUtil.extractTokensFromCreationResult creationResult;
  Ret (map (fun x => mkTokenObject (getCollectionObject collectionId) (et_tokenId x)) (tokens r)).

Definition mintMultipleTokens (signer : TSigner) (collectionId : number) (tokens : list jsval) : M (list Token) :=
  creationResult ← exec helper signer (js "api.tx.unique.createMultipleItemsEx")
    [num_js collectionId; obj [(js "NFT", JArr tokens)]];
  lift (token_objects collectionId creationResult).

Definition mintMultipleTokensWithOneOwner (signer : TSigner) (collectionId : number) (owner : ICrossAccountId)
  (tokens : list jsval) : M (list Token) :=
  rawTokens ← lift (raw_tokens (fun token =>
      p ← get_prop token (js "properties");
      Ret (obj [(js "NFT", obj [(js "properties", p)])])) tokens);
  creationResult ← exec helper signer (js "api.tx.unique.createMultipleItems")
    [num_js collectionId; cross_js owner; JArr rawTokens];
  lift (token_objects collectionId creationResult).

Definition approveToken (signer : TSigner) (collectionId tokenId : number) (toAddressObj : ICrossAccountId)
  (amount : Z) : M bool :=
  CollectionGroup.approveToken helper signer collectionId tokenId toAddressObj amount.

End NFTGroup.
End NFTGroup.

(** [(await callRpc(...)).unwrap().toBigInt()] *)
Definition unwrap_bigint {N : NodeApi} (r : jsval) : M jsval :=
  v ← lift (call0 r (js "unwrap"));
  lift (call0 v (js "toBigInt")).

(** [owners.map(fromLowerCaseKeys).map(a => a.toICrossAccountId())] *)
Definition cross_accounts (owners : jsval) : Res jsval :=
  l ← elements owners;
  JArr <$> map_out CrossAccountId.fromLowerCaseKeys_js l.

Module RFTGroup.
Section RFTGroup.
Context {N : NodeApi} {C : Crypto}.
Variable helper : nat.

Definition getCollectionObject (collectionId : number) : Collection := mkCollection helper collectionId.

Definition getTokenObject (collectionId tokenId : number) : Token :=
  mkTokenObject (getCollectionObject collectionId) tokenId.

Definition getTokenTop10Owners (collectionId tokenId : number) : M jsval :=
  j ← query helper (js "api.rpc.unique.tokenOwners") [num_js collectionId; num_js tokenId] (js "toJSON");
  lift (cross_accounts j).

Definition getTokenBalance (collectionId tokenId : number) (addressObj : ICrossAccountId) : M jsval :=
  query helper (js "api.rpc.unique.balance")
    [num_js collectionId; cross_js addressObj; num_js tokenId] (js "toBigInt").

Definition transferToken (signer : TSigner) (collectionId tokenId : number) (addressObj : ICrossAccountId)
  (amount : Z) : M bool :=
  CollectionGroup.transferToken helper signer collectionId tokenId addressObj amount.

Definition transferTokenFrom (signer : TSigner) (collectionId tokenId : number)
  (fromAddressObj toAddressObj : ICrossAccountId) (amount : Z) : M bool :=
  CollectionGroup.transferTokenFrom helper signer collectionId tokenId fromAddressObj toAddressObj amount.

Definition mintCollection (signer : TSigner) (collectionOptions : jsval) : M Collection :=
  collectionId ← NFTnRFT.mintCollection helper signer collectionOptions RFT;
  mreturn (getCollectionObject collectionId).

Definition mintToken (signer : TSigner) (collectionId : number) (owner : Owner) (pieces : Z)
  (properties : option jsval) : M Token :=
  creationResult ← exec helper signer (js "api.tx.unique.createItem")
    [num_js collectionId; owner_js owner;
     obj [(js "ReFungible", obj [(js "pieces", JBig pieces); (js "properties", or_undefined properties)])]];
  token ← lift (NFTnRFT.single_token creationResult);
  mreturn (getTokenObject collectionId (et_tokenId token)).

Definition mintMultipleTokens (signer : TSigner) (collectionId : number) (tokens : list jsval) : M (list Token) :=
  throw (JSError (js "Not implemented")).

Definition mintMultipleTokensWithOneOwner (signer : TSigner) (collectionId : number) (owner : ICrossAccountId)
  (tokens : list jsval) : M (list Token) :=
  rawTokens ← lift (raw_tokens (fun token =>
      n ← get_prop token (js "pieces");
      p ← get_prop token (js "properties");
      Ret (obj [(js "ReFungible", obj [(js "pieces", n); (js "properties", p)])])) tokens);
  creationResult ← exec helper signer (js "api.tx.unique.createMultipleItems")
    [num_js collectionId; cross_js owner; JArr rawTokens];
  lift (NFTGroup.token_objects helper collectionId creationResult).

Definition burnToken (signer : TSigner) (collectionId tokenId : number) (amount : Z) : M bool :=
  CollectionGroup.burnToken helper signer collectionId tokenId amount.

Definition burnTokenFrom (signer : TSigner) (collectionId tokenId : number) (fromAddressObj : ICrossAccountId)
  (amount : Z) : M bool :=
  CollectionGroup.burnTokenFrom helper signer collectionId tokenId fromAddressObj amount.

Definition approveToken (signer : TSigner) (collectionId tokenId : number) (toAddressObj : ICrossAccountId)
  (amount : Z) : M bool :=
  CollectionGroup.approveToken helper signer collectionId tokenId toAddressObj amount.

Definition getTokenTotalPieces (collectionId tokenId : number) : M jsval :=
  r ← callRpc helper (js "api.rpc.unique.totalPieces") [num_js collectionId; num_js tokenId];
  unwrap_bigint r.

Definition repartitionToken (signer : TSigner) (collectionId tokenId : number) (amount : Z) : M bool :=
  currentAmount ← getTokenTotalPieces collectionId tokenId;
  repartitionResult ← exec helper signer (js "api.tx.unique.repartition")
    [num_js collectionId; num_js tokenId; JBig amount];
  if js_lt currentAmount (JBig amount) then
    lift (UniqueUtil.findCollectionInEvents (tr_events repartitionResult) collectionId
            (js "common") (js "ItemCreated"))
  else
    lift (UniqueUtil.findCollectionInEvents (tr_events repartitionResult) collectionId
            (js "common") (js "ItemDestroyed")).

End RFTGroup.
End RFTGroup.

Module FTGroup.
Section FTGroup.
Context {N : NodeApi} {C : Crypto}.
Variable helper : nat.

Definition getCollectionObject (collectionId : number) : Collection := mkCollection helper collectionId.

Definition mint_options (collectionOptions : jsval) (decimalPoints : number) : Res (list (jsstr * jsval)) :=
  o ← clone_options collectionOptions;
  if truthy (default JUndef (assoc (js "tokenPropertyPermissions") o)) then
    Throw (JSError (js "Fungible collections has no tokenPropertyPermissions"))
  else
    Ret (encode_strings (assoc_set (js "mode") (obj [(js "fungible", num_js decimalPoints)]) o)).

Definition mintCollection (signer : TSigner) (collectionOptions : jsval) (decimalPoints : number) : M Collection :=
  o ← lift (mint_options collectionOptions decimalPoints);
  creationResult ← exec helper signer (js "api.tx.unique.createCollectionEx") [obj o];
  collectionId ← lift (UniqueUtil.extractCollectionIdFromCreationResult creationResult);
  mreturn (getCollectionObject collectionId).

Definition mintTokens (signer : TSigner) (collectionId : number) (amount : Z) (owner : Owner) : M bool :=
  collection_command helper signer (js "api.tx.unique.createItem")
    [num_js collectionId; owner_js owner; obj [(js "Fungible", obj [(js "value", JBig amount)])]]
    collectionId (js "ItemCreated").

Definition mintMultipleTokensWithOneOwner (signer : TSigner) (collectionId : number) (tokens : list jsval)
  (owner : ICrossAccountId) : M bool :=
  rawTokens ← lift (raw_tokens (fun token =>
      v ← get_prop token (js "value");
      Ret (obj [(js "Fungible", obj [(js "Value", v)])])) tokens);
  collection_command helper signer (js "api.tx.unique.createMultipleItems")
    [num_js collectionId; cross_js owner; JArr rawTokens] collectionId (js "ItemCreated").

Definition getTop10Owners (collectionId : number) : M jsval :=
  j ← query helper (js "api.rpc.unique.tokenOwners") [num_js collectionId; num_js (Int 0)] (js "toJSON");
  lift (cross_accounts j).

Definition getBalance (collectionId : number) (addressObj : ICrossAccountId) : M jsval :=
  query helper (js "api.rpc.unique.balance")
    [num_js collectionId; cross_js addressObj; num_js (Int 0)] (js "toBigInt").

Definition transfer (signer : TSigner) (collectionId : number) (toAddressObj : ICrossAccountId) (amount : Z) : M bool :=
  CollectionGroup.transferToken helper signer collectionId (Int 0) toAddressObj amount.

Definition transferFrom (signer : TSigner) (collectionId : number) (fromAddressObj toAddressObj : ICrossAccountId)
  (amount : Z) : M bool :=
  CollectionGroup.transferTokenFrom helper signer collectionId (Int 0) fromAddressObj toAddressObj amount.

Definition burnTokens (signer : TSigner) (collectionId : number) (amount : Z) : M bool :=
  CollectionGroup.burnToken helper signer collectionId (Int 0) amount.

Definition burnTokensFrom (signer : TSigner) (collectionId : number) (fromAddressObj : ICrossAccountId)
  (amount : Z) : M bool :=
  CollectionGroup.burnTokenFrom helper signer collectionId (Int 0) fromAddressObj amount.

Definition getTotalPieces (collectionId : number) : M jsval :=
  r ← callRpc helper (js "api.rpc.unique.totalPieces") [num_js collectionId; num_js (Int 0)];
  unwrap_bigint r.

Definition approveTokens (signer : TSigner) (collectionId : number) (toAddressObj : ICrossAccountId)
  (amount : Z) : M bool :=
  CollectionGroup.approveToken helper signer collectionId (Int 0) toAddressObj amount.

Definition getApprovedTokens (collectionId : number) (fromAddressObj toAddressObj : ICrossAccountId) : M jsval :=
  CollectionGroup.getTokenApprovedPieces helper collectionId (Int 0) toAddressObj (cross_js fromAddressObj).

End FTGroup.
End FTGroup.
