(* ===== verification/Objects.v ===== *)
(** * Collection and token objects

    [UniqueBaseCollection], [UniqueNFTCollection], [UniqueRFTCollection],
    [UniqueFTCollection], [UniqueBaseToken], [UniqueNFToken] and [UniqueRFToken]
    (js-packages/playgrounds/unique.ts): an identifier together with the helper
    on which the groups' methods are run. *)

From Stdlib Require Import Ascii String.
From stdpp Require Import list.
From S2P Require Import Prelude JsString JsValue Chain Address Util Helper Collections Tokens.

Open Scope Z_scope.
Open Scope js_scope.

(** [props?.consumedSpace ?? 0] *)
Definition consumed_space (props : jsval) : Res jsval :=
  match props with
  | JUndef | JNull => Ret (JNum (Int 0))
  | _ =>
      v ← get_prop props (js "consumedSpace");
      match v with
      | JUndef | JNull => Ret (JNum (Int 0))
      | _ => Ret v
      end
  end.

Module UniqueBaseCollection.
Section UniqueBaseCollection.
Context {N : NodeApi} {C : Crypto}.
Variable c : Collection.
Let helper := col_helper c.
Let id := col_id c.

Definition getData : M (option CollectionGroup.CollectionData) := CollectionGroup.getData helper id.
Definition getLastTokenId : M jsval := CollectionGroup.getLastTokenId helper id.
Definition doesTokenExist (tokenId : number) : M jsval := CollectionGroup.doesTokenExist helper id tokenId.
Definition getAdmins : M jsval := CollectionGroup.getAdmins helper id false.
Definition getAllowList : M jsval := CollectionGroup.getAllowList helper id false.
Definition getEffectiveLimits : M jsval := CollectionGroup.getEffectiveLimits helper id.
Definition getProperties (propertyKeys : jsval) : M jsval := CollectionGroup.getProperties helper id propertyKeys.
Definition getPropertiesConsumedSpace : M jsval := CollectionGroup.getPropertiesConsumedSpace helper id.
Definition getTokenNextSponsored (tokenId : number) (addressObj : ICrossAccountId) : M jsval :=
  CollectionGroup.getTokenNextSponsored helper id tokenId addressObj.
Definition getOptions : M jsval := CollectionGroup.getCollectionOptions helper id.
Definition setSponsor (signer : TSigner) (sponsorAddress : jsstr) : M bool :=
  CollectionGroup.setSponsor helper signer id sponsorAddress.
Definition confirmSponsorship (signer : TSigner) : M bool := CollectionGroup.confirmSponsorship helper signer id.
Definition removeSponsor (signer : TSigner) : M bool := CollectionGroup.removeSponsor helper signer id.
Definition setLimits (signer : TSigner) (limits : jsval) : M bool := CollectionGroup.setLimits helper signer id limits.
Definition changeOwner (signer : TSigner) (ownerAddress : jsstr) : M bool :=
  CollectionGroup.changeOwner helper signer id ownerAddress.
Definition addAdmin (signer : TSigner) (adminAddressObj : ICrossAccountId) : M bool :=
  CollectionGroup.addAdmin helper signer id adminAddressObj.
Definition addToAllowList (signer : TSigner) (addressObj : ICrossAccountId) : M bool :=
  CollectionGroup.addToAllowList helper signer id addressObj.
Definition removeFromAllowList (signer : TSigner) (addressObj : ICrossAccountId) : M bool :=
  CollectionGroup.removeFromAllowList helper signer id addressObj.
Definition removeAdmin (signer : TSigner) (adminAddressObj : ICrossAccountId) : M bool :=
  CollectionGroup.removeAdmin helper signer id adminAddressObj.
Definition setProperties (signer : TSigner) (properties : jsval) : M bool :=
  CollectionGroup.setProperties helper signer id properties.
Definition deleteProperties (signer : TSigner) (propertyKeys : jsval) : M bool :=
  CollectionGroup.deleteProperties helper signer id propertyKeys.
Definition setPermissions (signer : TSigner) (permissions : jsval) : M bool :=
  CollectionGroup.setPermissions helper signer id permissions.
Definition enableNesting (signer : TSigner) (permissions : jsval) : M bool :=
  CollectionGroup.enableNesting helper signer id permissions.
Definition disableNesting (signer : TSigner) : M bool := CollectionGroup.disableNesting helper signer id.
Definition burn (signer : TSigner) : M bool := CollectionGroup.burn helper signer id.

End UniqueBaseCollection.
End UniqueBaseCollection.

(** The owner a mint defaults to: the signer. *)
Definition owner_or_signer (signer : TSigner) (owner : option ICrossAccountId) : ICrossAccountId :=
  default (Substrate (address signer)) owner.

Module UniqueNFTCollection.
Section UniqueNFTCollection.
Context {N : NodeApi} {C : Crypto}.
Variable c : Collection.
Let helper := col_helper c.
Let id := col_id c.

Definition getTokenObject (tokenId : number) : Token := mkTokenObject c tokenId.
Definition getTokensByAddress (addressObj : ICrossAccountId) : M jsval :=
  NFTnRFT.getTokensByAddress helper id addressObj.
Definition getToken (tokenId : number) (blockHashAt : option jsstr) : M jsval :=
  NFTnRFT.getToken helper id tokenId [] blockHashAt.
Definition getTokenOwner (tokenId : number) (blockHashAt : option jsstr) : M jsval :=
  NFTnRFT.getTokenOwner helper id tokenId blockHashAt.
Definition getTokenTopmostOwner (tokenId : number) (blockHashAt : option jsstr) : M jsval :=
  NFTnRFT.getTokenTopmostOwner helper id tokenId blockHashAt.
Definition getTokenChildren (tokenId : number) (blockHashAt : option jsstr) : M (list (jsval * jsval)) :=
  NFTGroup.getTokenChildren helper id tokenId blockHashAt.
Definition getPropertyPermissions (propertyKeys : option jsval) : M jsval :=
  NFTnRFT.getPropertyPermissions helper id propertyKeys.
Definition getTokenProperties (tokenId : number) (propertyKeys : jsval) : M jsval :=
  NFTnRFT.getTokenProperties helper id tokenId propertyKeys.

Definition getTokenPropertiesConsumedSpace (tokenId : number) : M jsval :=
  api ← getApi helper;
  r ← api_call api (js "query.nonfungible.tokenProperties") [num_js id; num_js tokenId];
  props ← lift (call0 r (js "toJSON"));
  lift (consumed_space props).

Definition transferToken (signer : TSigner) (tokenId : number) (addressObj : ICrossAccountId) : M bool :=
  NFTGroup.transferToken helper signer id tokenId addressObj.
Definition transferTokenFrom (signer : TSigner) (tokenId : number) (fromAddressObj toAddressObj : ICrossAccountId)
  : M bool := NFTGroup.transferTokenFrom helper signer id tokenId fromAddressObj toAddressObj.
Definition approveToken (signer : TSigner) (tokenId : number) (toAddressObj : ICrossAccountId) : M bool :=
  NFTGroup.approveToken helper signer id tokenId toAddressObj 1.
Definition isTokenApproved (tokenId : number) (toAddressObj : ICrossAccountId) : M bool :=
  NFTGroup.isTokenApproved helper id tokenId toAddressObj.
Definition mintToken (signer : TSigner) (owner : option ICrossAccountId) (properties : option jsval) : M Token :=
  NFTGroup.mintToken helper signer id (OwnerCross (owner_or_signer signer owner)) properties.
Definition mintMultipleTokens (signer : TSigner) (tokens : list jsval) : M (list Token) :=
  NFTGroup.mintMultipleTokens helper signer id tokens.
Definition burnToken (signer : TSigner) (tokenId : number) : M bool :=
  CollectionGroup.burnToken helper signer id tokenId 1.
Definition burnTokenFrom (signer : TSigner) (tokenId : number) (fromAddressObj : ICrossAccountId) : M bool :=
  CollectionGroup.burnTokenFrom helper signer id tokenId fromAddressObj 1.
Definition setTokenProperties (signer : TSigner) (tokenId : number) (properties : jsval) : M bool :=
  NFTnRFT.setTokenProperties helper signer id tokenId properties.
Definition deleteTokenProperties (signer : TSigner) (tokenId : number) (propertyKeys : jsval) : M bool :=
  NFTnRFT.deleteTokenProperties helper signer id tokenId propertyKeys.
Definition setTokenPropertyPermissions (signer : TSigner) (permissions : jsval) : M bool :=
  NFTnRFT.setTokenPropertyPermissions helper signer id permissions.
Definition nestToken (signer : TSigner) (tokenId : number) (toTokenObj : IToken) : M bool :=
  NFTnRFT.nestToken helper signer (mkToken id tokenId) toTokenObj.
Definition unnestToken (signer : TSigner) (tokenId : number) (fromTokenObj : IToken)
  (toAddressObj : ICrossAccountId) : M bool :=
  NFTnRFT.unnestToken helper signer (mkToken id tokenId) fromTokenObj toAddressObj.

End UniqueNFTCollection.
End UniqueNFTCollection.

Module UniqueRFTCollection.
Section UniqueRFTCollection.
Context {N : NodeApi} {C : Crypto}.
Variable c : Collection.
Let helper := col_helper c.
Let id := col_id c.

Definition getTokenObject (tokenId : number) : Token := mkTokenObject c tokenId.
Definition getToken (tokenId : number) (blockHashAt : option jsstr) : M jsval :=
  NFTnRFT.getToken helper id tokenId [] blockHashAt.
Definition getTokenOwner (tokenId : number) (blockHashAt : option jsstr) : M jsval :=
  NFTnRFT.getTokenOwner helper id tokenId blockHashAt.
Definition getTokensByAddress (addressObj : ICrossAccountId) : M jsval :=
  NFTnRFT.getTokensByAddress helper id addressObj.
Definition getTop10TokenOwners (tokenId : number) : M jsval := RFTGroup.getTokenTop10Owners helper id tokenId.
Definition getTokenTopmostOwner (tokenId : number) (blockHashAt : option jsstr) : M jsval :=
  NFTnRFT.getTokenTopmostOwner helper id tokenId blockHashAt.
Definition getTokenBalance (tokenId : number) (addressObj : ICrossAccountId) : M jsval :=
  RFTGroup.getTokenBalance helper id tokenId addressObj.
Definition getTokenTotalPieces (tokenId : number) : M jsval := RFTGroup.getTokenTotalPieces helper id tokenId.
Definition getTokenApprovedPieces (tokenId : number) (fromAddressObj toAddressObj : ICrossAccountId) : M jsval :=
  CollectionGroup.getTokenApprovedPieces helper id tokenId toAddressObj (cross_js fromAddressObj).
Definition getPropertyPermissions (propertyKeys : option jsval) : M jsval :=
  NFTnRFT.getPropertyPermissions helper id propertyKeys.
Definition getTokenProperties (tokenId : number) (propertyKeys : jsval) : M jsval :=
  NFTnRFT.getTokenProperties helper id tokenId propertyKeys.

Definition getTokenPropertiesConsumedSpace (tokenId : number) : M jsval :=
  api ← getApi helper;
  r ← api_call api (js "query.refungible.tokenProperties") [num_js id; num_js tokenId];
  props ← lift (call0 r (js "toJSON"));
  lift (consumed_space props).

Definition transferToken (signer : TSigner) (tokenId : number) (addressObj : ICrossAccountId) (amount : Z) : M bool :=
  RFTGroup.transferToken helper signer id tokenId addressObj amount.
Definition transferTokenFrom (signer : TSigner) (tokenId : number) (fromAddressObj toAddressObj : ICrossAccountId)
  (amount : Z) : M bool := RFTGroup.transferTokenFrom helper signer id tokenId fromAddressObj toAddressObj amount.
Definition approveToken (signer : TSigner) (tokenId : number) (toAddressObj : ICrossAccountId) (amount : Z) : M bool :=
  RFTGroup.approveToken helper signer id tokenId toAddressObj amount.
Definition repartitionToken (signer : TSigner) (tokenId : number) (amount : Z) : M bool :=
  RFTGroup.repartitionToken helper signer id tokenId amount.
Definition mintToken (signer : TSigner) (pieces : Z) (owner : option ICrossAccountId) (properties : option jsval)
  : M Token :=
  RFTGroup.mintToken helper signer id (OwnerCross (owner_or_signer signer owner)) pieces properties.
Definition mintMultipleTokens (signer : TSigner) (tokens : list jsval) : M (list Token) :=
  RFTGroup.mintMultipleTokens signer id tokens.
Definition burnToken (signer : TSigner) (tokenId : number) (amount : Z) : M bool :=
  RFTGroup.burnToken helper signer id tokenId amount.
Definition burnTokenFrom (signer : TSigner) (tokenId : number) (fromAddressObj : ICrossAccountId) (amount : Z)
  : M bool := RFTGroup.burnTokenFrom helper signer id tokenId fromAddressObj amount.
Definition setTokenProperties (signer : TSigner) (tokenId : number) (properties : jsval) : M bool :=
  NFTnRFT.setTokenProperties helper signer id tokenId properties.
Definition deleteTokenProperties (signer : TSigner) (tokenId : number) (propertyKeys : jsval) : M bool :=
  NFTnRFT.deleteTokenProperties helper signer id tokenId propertyKeys.
Definition setTokenPropertyPermissions (signer : TSigner) (permissions : jsval) : M bool :=
  NFTnRFT.setTokenPropertyPermissions helper signer id permissions.
Definition nestToken (signer : TSigner) (tokenId : number) (toTokenObj : IToken) : M bool :=
  NFTnRFT.nestToken helper signer (mkToken id tokenId) toTokenObj.
Definition unnestToken (signer : TSigner) (tokenId : number) (fromTokenObj : IToken)
  (toAddressObj : ICrossAccountId) : M bool :=
  NFTnRFT.unnestToken helper signer (mkToken id tokenId) fromTokenObj toAddressObj.

End UniqueRFTCollection.
End UniqueRFTCollection.

Module UniqueFTCollection.
Section UniqueFTCollection.
Context {N : NodeApi} {C : Crypto}.
Variable c : Collection.
Let helper := col_helper c.
Let id := col_id c.

Definition getBalance (addressObj : ICrossAccountId) : M jsval := FTGroup.getBalance helper id addressObj.
Definition getTotalPieces : M jsval := FTGroup.getTotalPieces helper id.
Definition getApprovedTokens (fromAddressObj toAddressObj : ICrossAccountId) : M jsval :=
  FTGroup.getApprovedTokens helper id fromAddressObj toAddressObj.
Definition getTop10Owners : M jsval := FTGroup.getTop10Owners helper id.
Definition mint (signer : TSigner) (amount : Z) (owner : option ICrossAccountId) : M bool :=
  FTGroup.mintTokens helper signer id amount (OwnerCross (owner_or_signer signer owner)).
Definition mintWithOneOwner (signer : TSigner) (tokens : list jsval) (owner : option ICrossAccountId) : M bool :=
  FTGroup.mintMultipleTokensWithOneOwner helper signer id tokens (owner_or_signer signer owner).
Definition transfer (signer : TSigner) (toAddressObj : ICrossAccountId) (amount : Z) : M bool :=
  FTGroup.transfer helper signer id toAddressObj amount.
Definition transferFrom (signer : TSigner) (fromAddressObj toAddressObj : ICrossAccountId) (amount : Z) : M bool :=
  FTGroup.transferFrom helper signer id fromAddressObj toAddressObj amount.
Definition burnTokens (signer : TSigner) (amount : Z) : M bool := FTGroup.burnTokens helper signer id amount.
Definition burnTokensFrom (signer : TSigner) (fromAddressObj : ICrossAccountId) (amount : Z) : M bool :=
  FTGroup.burnTokensFrom helper signer id fromAddressObj amount.
Definition approveTokens (signer : TSigner) (toAddressObj : ICrossAccountId) (amount : Z) : M bool :=
  FTGroup.approveTokens helper signer id toAddressObj amount.

End UniqueFTCollection.
End UniqueFTCollection.

(** ** Token objects *)

Module UniqueBaseToken.
Section UniqueBaseToken.
Context {N : NodeApi} {C : Crypto}.
(** the class of the collection the token belongs to *)
Variable mode : Mode.
Variable t : Token.
Let collection := tok_collection t.

Definition getNextSponsored (addressObj : ICrossAccountId) : M jsval :=
  UniqueBaseCollection.getTokenNextSponsored collection (tok_id t) addressObj.

Definition getProperties (propertyKeys : jsval) : M jsval :=
  match mode with
  | NFT => UniqueNFTCollection.getTokenProperties collection (tok_id t) propertyKeys
  | RFT => UniqueRFTCollection.getTokenProperties collection (tok_id t) propertyKeys
  end.

Definition getTokenPropertiesConsumedSpace : M jsval :=
  match mode with
  | NFT => UniqueNFTCollection.getTokenPropertiesConsumedSpace collection (tok_id t)
  | RFT => UniqueRFTCollection.getTokenPropertiesConsumedSpace collection (tok_id t)
  end.

Definition setProperties (signer : TSigner) (properties : jsval) : M bool :=
  match mode with
  | NFT => UniqueNFTCollection.setTokenProperties collection signer (tok_id t) properties
  | RFT => UniqueRFTCollection.setTokenProperties collection signer (tok_id t) properties
  end.

Definition deleteProperties (signer : TSigner) (propertyKeys : jsval) : M bool :=
  match mode with
  | NFT => UniqueNFTCollection.deleteTokenProperties collection signer (tok_id t) propertyKeys
  | RFT => UniqueRFTCollection.deleteTokenProperties collection signer (tok_id t) propertyKeys
  end.

Definition doesExist : M jsval := UniqueBaseCollection.doesTokenExist collection (tok_id t).

Definition nestingAccount : Res ICrossAccountId :=
  UniqueUtil.getTokenAccount (mkToken (col_id collection) (tok_id t)).

End UniqueBaseToken.
End UniqueBaseToken.

Module UniqueNFToken.
Section UniqueNFToken.
Context {N : NodeApi} {C : Crypto}.
Variable t : Token.
Let collection := tok_collection t.
Let id := tok_id t.

Definition getData (blockHashAt : option jsstr) : M jsval := UniqueNFTCollection.getToken collection id blockHashAt.
Definition getOwner (blockHashAt : option jsstr) : M jsval := UniqueNFTCollection.getTokenOwner collection id blockHashAt.
Definition getTopmostOwner (blockHashAt : option jsstr) : M jsval :=
  UniqueNFTCollection.getTokenTopmostOwner collection id blockHashAt.
Definition getChildren (blockHashAt : option jsstr) : M (list (jsval * jsval)) :=
  UniqueNFTCollection.getTokenChildren collection id blockHashAt.
Definition nest (signer : TSigner) (toTokenObj : IToken) : M bool :=
  UniqueNFTCollection.nestToken collection signer id toTokenObj.
Definition unnest (signer : TSigner) (fromTokenObj : IToken) (toAddressObj : ICrossAccountId) : M bool :=
  UniqueNFTCollection.unnestToken collection signer id fromTokenObj toAddressObj.
Definition transfer (signer : TSigner) (addressObj : ICrossAccountId) : M bool :=
  UniqueNFTCollection.transferToken collection signer id addressObj.
Definition transferFrom (signer : TSigner) (fromAddressObj toAddressObj : ICrossAccountId) : M bool :=
  UniqueNFTCollection.transferTokenFrom collection signer id fromAddressObj toAddressObj.
Definition approve (signer : TSigner) (toAddressObj : ICrossAccountId) : M bool :=
  UniqueNFTCollection.approveToken collection signer id toAddressObj.
Definition isApproved (toAddressObj : ICrossAccountId) : M bool :=
  UniqueNFTCollection.isTokenApproved collection id toAddressObj.
Definition burn (signer : TSigner) : M bool := UniqueNFTCollection.burnToken collection signer id.
Definition burnFrom (signer : TSigner) (fromAddressObj : ICrossAccountId) : M bool :=
  UniqueNFTCollection.burnTokenFrom collection signer id fromAddressObj.

End UniqueNFToken.
End UniqueNFToken.

Module UniqueRFToken.
Section UniqueRFToken.
Context {N : NodeApi} {C : Crypto}.
Variable t : Token.
Let collection := tok_collection t.
Let id := tok_id t.

Definition getData (blockHashAt : option jsstr) : M jsval := UniqueRFTCollection.getToken collection id blockHashAt.
Definition getOwner (blockHashAt : option jsstr) : M jsval := UniqueRFTCollection.getTokenOwner collection id blockHashAt.
Definition getTop10Owners : M jsval := UniqueRFTCollection.getTop10TokenOwners collection id.
Definition getTopmostOwner (blockHashAt : option jsstr) : M jsval :=
  UniqueRFTCollection.getTokenTopmostOwner collection id blockHashAt.
Definition nest (signer : TSigner) (toTokenObj : IToken) : M bool :=
  UniqueRFTCollection.nestToken collection signer id toTokenObj.
Definition unnest (signer : TSigner) (fromTokenObj : IToken) (toAddressObj : ICrossAccountId) : M bool :=
  UniqueRFTCollection.unnestToken collection signer id fromTokenObj toAddressObj.
Definition getBalance (addressObj : ICrossAccountId) : M jsval :=
  UniqueRFTCollection.getTokenBalance collection id addressObj.
Definition getTotalPieces : M jsval := UniqueRFTCollection.getTokenTotalPieces collection id.
Definition getApprovedPieces (fromAddressObj toAccountObj : ICrossAccountId) : M jsval :=
  UniqueRFTCollection.getTokenApprovedPieces collection id fromAddressObj toAccountObj.
Definition transfer (signer : TSigner) (addressObj : ICrossAccountId) (amount : Z) : M bool :=
  UniqueRFTCollection.transferToken collection signer id addressObj amount.
Definition transferFrom (signer : TSigner) (fromAddressObj toAddressObj : ICrossAccountId) (amount : Z) : M bool :=
  UniqueRFTCollection.transferTokenFrom collection signer id fromAddressObj toAddressObj amount.
Definition approve (signer : TSigner) (toAddressObj : ICrossAccountId) (amount : Z) : M bool :=
  UniqueRFTCollection.approveToken collection signer id toAddressObj amount.
Definition repartition (signer : TSigner) (amount : Z) : M bool :=
  UniqueRFTCollection.repartitionToken collection signer id amount.
Definition burn (signer : TSigner) (amount : Z) : M bool :=
  UniqueRFTCollection.burnToken collection signer id amount.
Definition burnFrom (signer : TSigner) (fromAddressObj : ICrossAccountId) (amount : Z) : M bool :=
  UniqueRFTCollection.burnTokenFrom collection signer id fromAddressObj amount.

End UniqueRFToken.
End UniqueRFToken.
