(* ===== verification/Balance.v ===== *)
(** * Balances, addresses, staking, preimages and batches

    [SubstrateBalanceGroup], [EthereumBalanceGroup], [BalanceGroup], the parts
    of [AddressGroup] that need a connection, [StakingGroup], [PreimageGroup]
    and [UtilityGroup] (js-packages/playgrounds/unique.ts). *)

From Stdlib Require Import Ascii String.
From stdpp Require Import list.
From S2P Require Import Prelude JsString JsValue Chain Address Util Helper Collections.

Open Scope Z_scope.
Open Scope js_scope.

(** [bigint | string] *)
Inductive Amount : Type :=
  | AmountBig (z : Z)
  | AmountStr (s : jsstr).

Definition amount_js (a : Amount) : jsval :=
  match a with AmountBig z => JBig z | AmountStr s => JStr s end.

(** The variable [transfer] of the three transfer methods, [None] standing for
    [null]. *)
Record BalanceTransfer : Type := mkBalanceTransfer {
  bt_from : option jsstr;
  bt_to : option jsstr;
  bt_amount : Z }.

Definition no_balance_transfer : BalanceTransfer := mkBalanceTransfer None None 0.

Definition opt_eqb (a b : option jsstr) : bool := bool_decide (a = b).

Section Transfers.
Context {N : NodeApi} {C : Crypto}.

(** The loop of the three methods: the last [balances.Transfer] event, its
    parties read by [account]. *)
Definition last_transfer (account : jsval -> Res jsstr) (events : list EventRecord) : Res BalanceTransfer :=
  for_each (fun acc e =>
      if is_event (js "balances") (js "Transfer") e then
        f ← account (datum e 0);
        t ← account (datum e 1);
        a ← to_bigint (datum e 2);
        Ret (mkBalanceTransfer (Some f) (Some t) a)
      else Ret acc)
    no_balance_transfer events.

(** [this.helper.address.normalizeSubstrate(data[i])] on an account of the
    library. *)
Definition normalize_account (v : jsval) : Res jsstr :=
  bytes ← decodeAccount v;
  encodeAddress bytes 42.

(** [data[i].toString()] *)
Definition account_string (v : jsval) : Res jsstr :=
  s ← call0 v (js "toString"); Ret (to_string s).

(** [normalizeSubstrate(from) === transfer.from && normalizeSubstrate(to) === transfer.to
    && BigInt(amount) === transfer.amount] *)
Definition is_substrate_transfer (from to : jsstr) (amount : Amount) (transfer : BalanceTransfer) : Res bool :=
  f ← AddressGroup.normalizeSubstrate from 42;
  if opt_eqb (Some f) (bt_from transfer) then
    t ← AddressGroup.normalizeSubstrate to 42;
    if opt_eqb (Some t) (bt_to transfer) then
      a ← to_bigint (amount_js amount);
      Ret (a =? bt_amount transfer)
    else Ret false
  else Ret false.

End Transfers.

Record ISubstrateBalance : Type := mkSubstrateBalance {
  sb_free : jsval;
  sb_frozen : jsval;
  sb_reserved : jsval }.

Module SubstrateBalanceGroup.
Section SubstrateBalanceGroup.
Context {N : NodeApi} {C : Crypto}.
Variable helper : nat.

Definition account_data (address : jsstr) : M jsval :=
  r ← callRpc helper (js "api.query.system.account") [JStr address];
  lift (get_prop r (js "data")).

(** [v.k.toBigInt()] *)
Definition field_bigint (v : jsval) (k : jsstr) : Res jsval :=
  x ← get_prop v k; call0 x (js "toBigInt").

Definition getSubstrate (address : jsstr) : M jsval :=
  d ← account_data address;
  lift (field_bigint d (js "free")).

Definition transferToSubstrate (signer : TSigner) (to : jsstr) (amount : Amount) : M bool :=
  result ← exec helper signer (js "api.tx.balances.transferKeepAlive") [JStr to; amount_js amount];
  transfer ← lift (last_transfer normalize_account (tr_events result));
  lift (is_substrate_transfer (address signer) to amount transfer).

Definition getSubstrateFull (address : jsstr) : M ISubstrateBalance :=
  accountInfo ← account_data address;
  free ← lift (field_bigint accountInfo (js "free"));
  frozen ← lift (field_bigint accountInfo (js "frozen"));
  reserved ← lift (field_bigint accountInfo (js "reserved"));
  mreturn (mkSubstrateBalance free frozen reserved).

Definition getTotalIssuance : M jsval :=
  total ← callRpc helper (js "api.query.balances.totalIssuance") [];
  lift (call0 total (js "toBigInt")).

(** A lock: identifier, amount and reasons. *)
Record Lock : Type := mkLock {
  lock_id : jsval;
  lock_amount : Z;
  lock_reasons : jsval }.

(** [BigInt(lock.amount.replace(/,/g, ''))] *)
Definition human_amount (v : jsval) : Res Z :=
  match v with
  | JStr s => bigint_of_string (remove_commas s)
  | _ => Throw EngineError
  end.

Definition read_lock (lock : jsval) : Res Lock :=
  id ← get_prop lock (js "id");
  a ← get_prop lock (js "amount");
  amount ← human_amount a;
  reasons ← get_prop lock (js "reasons");
  Ret (mkLock id amount reasons).

Definition getLocked (address : jsstr) : M (list Lock) :=
  locks ← query helper (js "api.query.balances.locks") [JStr address] (js "toHuman");
  l ← lift (elements locks);
  lift (map_out read_lock l).

Definition getFrozen (address : jsstr) : M (list (jsval * jsval)) :=
  h ← get_this helper;
  match hs_api h with
  | None => throw EngineError
  | Some api =>
      locks ← api_call api (js "query.balances.freezes") [JStr address];
      l ← lift (elements locks);
      lift (map_out (fun lock =>
          id ← get_prop lock (js "id");
          id ← call0 id (js "toUtf8");
          a ← field_bigint lock (js "amount");
          Ret (id, a)) l)
  end.

End SubstrateBalanceGroup.
End SubstrateBalanceGroup.

Module EthereumBalanceGroup.
Section EthereumBalanceGroup.
Context {N : NodeApi} {C : Crypto}.
Variable helper : nat.

Definition getEthereum (address : jsstr) : M jsval :=
  query helper (js "api.rpc.eth.getBalance") [JStr address] (js "toBigInt").

Definition transferToEthereum (signer : TSigner) (to : jsstr) (amount : Amount) : M bool :=
  result ← exec helper signer (js "api.tx.balances.transferKeepAlive") [JStr to; amount_js amount];
  transfer ← lift (last_transfer account_string (tr_events result));
  if opt_eqb (Some (address signer)) (bt_from transfer) && opt_eqb (Some to) (bt_to transfer) then
    a ← lift (to_bigint (amount_js amount));
    mreturn (a =? bt_amount transfer)
  else mreturn false.

End EthereumBalanceGroup.
End EthereumBalanceGroup.

Record VestingSchedule : Type := mkVesting {
  vs_start : Z;
  vs_period : Z;
  vs_periodCount : Z;
  vs_perPeriod : Z }.

Definition vesting_js (v : VestingSchedule) : jsval :=
  obj [(js "start", JBig (vs_start v)); (js "period", JBig (vs_period v));
       (js "periodCount", JBig (vs_periodCount v)); (js "perPeriod", JBig (vs_perPeriod v))].

Module BalanceGroup.
Section BalanceGroup.
Context {N : NodeApi} {C : Crypto}.
Variable helper : nat.

(** [10n ** BigInt((chainProperties.tokenDecimals || [18])[0])] *)
Definition nominal (tokenDecimals : jsval) : Res Z :=
  d ← get_index (if truthy tokenDecimals then tokenDecimals else JArr [JNum (Int 18)]) 0;
  e ← to_bigint d;
  if e <? 0 then Throw EngineError else Ret (10 ^ e).

Definition getOneTokenNominal : M Z :=
  chainProperties ← ChainGroup.getChainProperties helper;
  lift (nominal (tokenDecimals chainProperties)).

Definition getCollectionCreationPrice : M Z :=
  n ← getOneTokenNominal; mreturn (2 * n).

Definition getSubstrate (address : jsstr) : M jsval := SubstrateBalanceGroup.getSubstrate helper address.
Definition getSubstrateFull (address : jsstr) : M ISubstrateBalance :=
  SubstrateBalanceGroup.getSubstrateFull helper address.
Definition getTotalIssuance : M jsval := SubstrateBalanceGroup.getTotalIssuance helper.
Definition getLocked (address : jsstr) : M (list SubstrateBalanceGroup.Lock) :=
  SubstrateBalanceGroup.getLocked helper address.
Definition getFrozen (address : jsstr) : M (list (jsval * jsval)) :=
  SubstrateBalanceGroup.getFrozen helper address.

(** The account may be given as a wallet, of which the address is used. *)
Definition getEthereum (ethAccount : jsstr) : M jsval := EthereumBalanceGroup.getEthereum helper ethAccount.

Definition setBalanceSubstrate (signer : TSigner) (address : jsstr) (amount : Z) : M unit :=
  exec helper signer (js "api.tx.balances.forceSetBalance") [JStr address; JBig amount];;
  mreturn tt.

Definition transferToSubstrate (signer : TSigner) (address : jsstr) (amount : Amount) : M bool :=
  SubstrateBalanceGroup.transferToSubstrate helper signer address amount.

Definition forceTransferToSubstrate (signer : TSigner) (from to : jsstr) (amount : Amount) : M bool :=
  result ← exec helper signer (js "api.tx.balances.forceTransfer") [JStr from; JStr to; amount_js amount];
  transfer ← lift (last_transfer normalize_account (tr_events result));
  lift (is_substrate_transfer from to amount transfer).

(** The event with which the vesting pallet answers [signer]. *)
Definition vesting_event (method : jsstr) (signer : TSigner) (e : EventRecord) : Res bool :=
  if is_event (js "vesting") method e then
    h ← call0 (datum e 0) (js "toHuman");
    Ret (strict_eq h (JStr (address signer)))
  else Ret false.

Definition vestedTransfer (signer : TSigner) (to : jsstr) (schedule : VestingSchedule) : M unit :=
  result ← exec helper signer (js "api.tx.vesting.vestedTransfer") [JStr to; vesting_js schedule];
  event ← lift (find_out (vesting_event (js "VestingScheduleAdded") signer) (tr_events result));
  match event with
  | None => throw (JSError (js "Cannot find transfer in events"))
  | Some _ => mreturn tt
  end.

Definition read_schedule (schedule : jsval) : Res VestingSchedule :=
  let field k := x ← get_prop schedule k; to_bigint x in
  start ← field (js "start");
  period ← field (js "period");
  periodCount ← field (js "periodCount");
  perPeriod ← field (js "perPeriod");
  Ret (mkVesting start period periodCount perPeriod).

Definition getVestingSchedules (address : jsstr) : M (list VestingSchedule) :=
  schedule ← query helper (js "api.query.vesting.vestingSchedules") [JStr address] (js "toJSON");
  l ← lift (elements schedule);
  lift (map_out read_schedule l).

Definition claim (signer : TSigner) : M unit :=
  result ← exec helper signer (js "api.tx.vesting.claim") [];
  event ← lift (find_out (vesting_event (js "Claimed") signer) (tr_events result));
  match event with
  | None => throw (JSError (js "Cannot find claim in events"))
  | Some _ => mreturn tt
  end.

End BalanceGroup.
End BalanceGroup.

(** ** AddressGroup on a connected helper *)

(** [v == '0'] *)
Definition loose_zero (v : jsval) : bool :=
  match v with
  | JUndef | JNull | JNum NaN => false
  | JBool b => negb b
  | JNum (Int z) | JBig z => z =? 0
  | _ => jseq (to_string v) (js "0")
  end.

(** [v.k ?? v[i]] *)
Definition named_or_indexed (v : jsval) (k : jsstr) (i : nat) : Res jsval :=
  x ← get_prop v k;
  match x with
  | JUndef | JNull =>
      match v with
      | JArr _ => get_index v i
      | _ => get_prop v (number_toString (Z.of_nat i))
      end
  | _ => Ret x
  end.

Module ConnectedAddressGroup.
Section ConnectedAddressGroup.
Context {N : NodeApi} {C : Crypto}.
Variable helper : nat.

Definition normalizeSubstrateToChainFormat (address : jsstr) : M jsstr :=
  p ← ChainGroup.getChainProperties helper;
  bytes ← lift (decodeAddress address);
  lift (encodeAddressChain bytes (ss58Format p)).

Definition ethToSubstrate (ethAccount : jsstr) (toChainFormat : bool) : M jsstr :=
  if toChainFormat then
    p ← ChainGroup.getChainProperties helper;
    lift (evmToAddressChain ethAccount (ss58Format p))
  else lift (CrossAccountId.translateEthToSub ethAccount None).

(** ['0x' + number.toString(16).padStart(64, '0')] *)
Definition account_hex (number : Z) : jsstr := js "0x" ++ padStart 64 48 (toString_radix 16 number).

Definition restoreCrossAccountFromBigInt (number : Z) : M jsstr :=
  h ← get_this helper;
  match hs_api h with
  | None => throw (JSThrown (js "Not connected"))
  | Some api =>
      a ← lift (of_lib (createType api (js "AccountId") (JStr (account_hex number))));
      res ← lift (call0 a (js "toJSON"));
      match res with
      | JUndef | JNull => throw (JSThrown (js "Restore address error"))
      | _ => mreturn (to_string res)
      end
  end.

Definition convertCrossAccountFromEthCrossAccount (ethCrossAccount : jsval) : M ICrossAccountId :=
  eth ← lift (named_or_indexed ethCrossAccount (js "eth") 0);
  sub ← lift (named_or_indexed ethCrossAccount (js "sub") 1);
  if loose_zero sub then
    match eth with
    | JStr s => mreturn (Ethereum (JsString.toLowerCase s))
    | _ => throw EngineError
    end
  else
    n ← lift (to_bigint sub);
    a ← restoreCrossAccountFromBigInt n;
    mreturn (Substrate a).

Definition siblingPrefix : jsstr := js "0x7369626c".

Definition paraSiblingSovereignAccount (paraid : Z) : M jsstr :=
  api ← getApi helper;
  n ← lift (of_lib (createType api (js "u32") (JNum (Int paraid))));
  h ← lift (call0 n (js "toHex(true)"));
  match h with
  | JStr s => mreturn (siblingPrefix ++ drop 2 s ++ replicate 48 48)
  | _ => throw EngineError
  end.

End ConnectedAddressGroup.
End ConnectedAddressGroup.

(** ** Staking, preimages, batches *)

Module StakingGroup.
Section StakingGroup.
Context {N : NodeApi} {C : Crypto}.
Variable helper : nat.

(** The label only names the call for the reader of the source. *)
Definition stake (signer : TSigner) (amountToStake : Z) : M bool :=
  exec helper signer (js "api.tx.appPromotion.stake") [JBig amountToStake];;
  mreturn true.

Definition unstakeAll (signer : TSigner) : M jsval :=
  unstakeResult ← exec helper signer (js "api.tx.appPromotion.unstakeAll") [];
  mreturn (tr_blockHash unstakeResult).

Definition unstakePartial (signer : TSigner) (amount : Z) : M jsval :=
  unstakeResult ← exec helper signer (js "api.tx.appPromotion.unstakePartial") [JBig amount];
  mreturn (tr_blockHash unstakeResult).

Definition getStakesNumber (address : ICrossAccountId) : M jsval :=
  match address with
  | Ethereum _ => throw (JSError (js "only substrate address"))
  | Substrate s =>
      query helper (js "api.query.appPromotion.stakesPerAccount") [JStr s] (js "toNumber")
  end.

Definition getTotalStaked (address : option ICrossAccountId) : M jsval :=
  query helper (js "api.rpc.appPromotion.totalStaked")
    match address with Some a => [cross_js a] | None => [] end (js "toBigInt").

(** [([block, amount]) => ({block: block.toBigInt(), amount: amount.toBigInt()})] *)
Definition staking_info (v : jsval) : Res (jsval * jsval) :=
  block ← get_index v 0;
  amount ← get_index v 1;
  b ← call0 block (js "toBigInt");
  a ← call0 amount (js "toBigInt");
  Ret (b, a).

Definition per_block (rpc : jsstr) (address : ICrossAccountId) : M (list (jsval * jsval)) :=
  raw ← callRpc helper rpc [cross_js address];
  l ← lift (elements raw);
  lift (map_out staking_info l).

Definition getTotalStakedPerBlock (address : ICrossAccountId) : M (list (jsval * jsval)) :=
  per_block (js "api.rpc.appPromotion.totalStakedPerBlock") address.

Definition getPendingUnstake (address : ICrossAccountId) : M jsval :=
  query helper (js "api.rpc.appPromotion.pendingUnstake") [cross_js address] (js "toBigInt").

Definition getPendingUnstakePerBlock (address : ICrossAccountId) : M (list (jsval * jsval)) :=
  per_block (js "api.rpc.appPromotion.pendingUnstakePerBlock") address.

End StakingGroup.
End StakingGroup.

Module PreimageGroup.
Section PreimageGroup.
Context {N : NodeApi} {C : Crypto}.
Variable helper : nat.

Definition getPreimageInfo (h256 : jsstr) : M jsval :=
  query helper (js "api.query.preimage.statusFor") [JStr h256] (js "toJSON").

(** Either the result of the extrinsic or, when asked, the hash that the node
    noted. *)
Definition notePreimage (signer : TSigner) (bytes : jsval) (returnPreimageHash : bool)
  : M (ITransactionResult + jsval) :=
  result ← exec helper signer (js "api.tx.preimage.notePreimage") [bytes];
  if returnPreimageHash then
    match filterb (is_event (js "preimage") (js "Noted")) (tr_events result) with
    | [] => throw EngineError
    | event :: _ =>
        preimageHash ← lift (call0 (datum event 0) (js "toHuman"));
        mreturn (inr preimageHash)
    end
  else mreturn (inl result).

Definition notePreimageFromCall (signer : TSigner) (call : jsval) (returnPreimageHash : bool)
  : M (ITransactionResult + jsval) :=
  m ← lift (get_prop call (js "method"));
  bytes ← lift (call0 m (js "toHex"));
  notePreimage signer bytes returnPreimageHash.

Definition unnotePreimage (signer : TSigner) (h256 : jsstr) : M ITransactionResult :=
  exec helper signer (js "api.tx.preimage.unnotePreimage") [JStr h256].

Definition requestPreimage (signer : TSigner) (h256 : jsstr) : M ITransactionResult :=
  exec helper signer (js "api.tx.preimage.requestPreimage") [JStr h256].

Definition unrequestPreimage (signer : TSigner) (h256 : jsstr) : M ITransactionResult :=
  exec helper signer (js "api.tx.preimage.unrequestPreimage") [JStr h256].

End PreimageGroup.
End PreimageGroup.

Module UtilityGroup.
Section UtilityGroup.
Context {N : NodeApi} {C : Crypto}.
Variable helper : nat.

Definition batch (signer : TSigner) (txs : list jsval) : M ITransactionResult :=
  exec helper signer (js "api.tx.utility.batch") [JArr txs].

Definition batchAll (signer : TSigner) (txs : list jsval) : M ITransactionResult :=
  exec helper signer (js "api.tx.utility.batchAll") [JArr txs].

Definition batchAllCall (txs : list jsval) : M jsval :=
  constructApiCall helper (js "api.tx.utility.batchAll") [JArr txs].

End UtilityGroup.
End UtilityGroup.
