(* ===== verification/Governance.v ===== *)
(** * Governance

    [CollectiveGroup], [CollectiveMembershipGroup], [RankedCollectiveGroup],
    [ReferendaGroup] and [DemocracyGroup]
    (js-packages/test-utils/governance.ts). *)

From Stdlib Require Import Ascii String.
From stdpp Require Import list.
From S2P Require Import Prelude JsString JsValue Chain Address Util Helper Collections.

Open Scope Z_scope.
Open Scope js_scope.

(** [`api.tx.${pallet}.${call}`] and [`api.query.${pallet}.${item}`] *)
Definition tx_of (pallet : jsstr) (call : string) : jsstr := js "api.tx." ++ pallet ++ js "." ++ js call.
Definition query_of (pallet : jsstr) (item : string) : jsstr := js "api.query." ++ pallet ++ js "." ++ js item.

Module CollectiveGroup.
Section CollectiveGroup.
Context {N : NodeApi} {C : Crypto}.
Variable helper : nat.
Variable collective : jsstr.

Definition is_execution (x : EventRecord) : bool :=
  jseq (section x) collective
  && (jseq (method x) (js "Executed") || jseq (method x) (js "MemberExecuted")).

(** The fields of [Executed] and [MemberExecuted]: the hash of the proposal and
    the result of its call. *)
Definition proposalHash (e : EventRecord) : jsval := datum e 0.
Definition execution_result (e : EventRecord) : jsval := datum e 1.

Definition checkExecutedEvent (events : list EventRecord) : M jsval :=
  match filterb is_execution events with
  | [execution] =>
      let result := execution_result execution in
      isErr ← lift (get_prop result (js "isErr"));
      if truthy isErr then
        asErr ← lift (get_prop result (js "asErr"));
        isModule ← lift (get_prop asErr (js "isModule"));
        if truthy isModule then
          error ← lift (get_prop asErr (js "asModule"));
          _ ← getApi helper;
          let '(section, name) := findMetaError error in
          throw (JSError (js "Proposal execution failed with " ++ section ++ js "." ++ name))
        else
          h ← lift (call0 asErr (js "toHuman"));
          throw (JSError (js "Proposal execution failed with " ++ to_string h))
      else mreturn (proposalHash execution)
  | _ =>
      if existsb (is_event collective (js "Disapproved")) events then
        throw (JSError (js "Disapproved by " ++ collective))
      else
        throw (JSError (js "Expected one 'Executed' or 'MemberExecuted' event for " ++ collective))
  end.

Definition getMembers : M jsval := query helper (query_of collective "members") [] (js "toHuman").
Definition getPrimeMember : M jsval := query helper (query_of collective "prime") [] (js "toHuman").
Definition getProposals : M jsval := query helper (query_of collective "proposals") [] (js "toHuman").
Definition getProposalCallOf (hash : jsstr) : M jsval :=
  query helper (query_of collective "proposalOf") [JStr hash] (js "toHuman").
Definition getTotalProposalsCount : M jsval :=
  query helper (query_of collective "proposalCount") [] (js "toNumber").

Definition propose (signer : TSigner) (proposal : jsval) (voteThreshold lengthBound : Z) : M ITransactionResult :=
  exec helper signer (tx_of collective "propose") [JNum (Int voteThreshold); proposal; JNum (Int lengthBound)].

Definition vote (signer : TSigner) (proposalHash : jsstr) (proposalIndex : Z) (approve : bool)
  : M ITransactionResult :=
  exec helper signer (tx_of collective "vote") [JStr proposalHash; JNum (Int proposalIndex); JBool approve].

Definition execute (signer : TSigner) (proposal : jsval) (lengthBound : Z) : M ITransactionResult :=
  result ← exec helper signer (tx_of collective "execute") [proposal; JNum (Int lengthBound)];
  checkExecutedEvent (tr_events result);;
  mreturn result.

Definition close (signer : TSigner) (proposalHash : jsstr) (proposalIndex : Z) (weightBound : jsval)
  (lengthBound : Z) : M ITransactionResult :=
  result ← exec helper signer (tx_of collective "close")
    [JStr proposalHash; JNum (Int proposalIndex); weightBound; JNum (Int lengthBound)];
  checkExecutedEvent (tr_events result);;
  mreturn result.

Definition disapproveProposal (signer : TSigner) (proposalHash : jsstr) : M ITransactionResult :=
  exec helper signer (tx_of collective "disapproveProposal") [JStr proposalHash].

End CollectiveGroup.
End CollectiveGroup.

Module CollectiveMembershipGroup.
Section CollectiveMembershipGroup.
Context {N : NodeApi} {C : Crypto}.
Variable helper : nat.
Variable membership : jsstr.

Definition getMembers : M jsval := query helper (query_of membership "members") [] (js "toHuman").
Definition getPrimeMember : M jsval := query helper (query_of membership "prime") [] (js "toHuman").
Definition addMember (signer : TSigner) (member : jsstr) : M ITransactionResult :=
  exec helper signer (tx_of membership "addMember") [JStr member].
Definition addMemberCall (member : jsstr) : M jsval :=
  constructApiCall helper (tx_of membership "addMember") [JStr member].
Definition removeMember (signer : TSigner) (member : jsstr) : M ITransactionResult :=
  exec helper signer (tx_of membership "removeMember") [JStr member].
Definition removeMemberCall (member : jsstr) : M jsval :=
  constructApiCall helper (tx_of membership "removeMember") [JStr member].
Definition resetMembers (signer : TSigner) (members : list jsstr) : M ITransactionResult :=
  exec helper signer (tx_of membership "resetMembers") [JArr (map JStr members)].
Definition setPrime (signer : TSigner) (prime : jsstr) : M ITransactionResult :=
  exec helper signer (tx_of membership "setPrime") [JStr prime].
Definition setPrimeCall (member : jsstr) : M jsval :=
  constructApiCall helper (tx_of membership "setPrime") [JStr member].
Definition clearPrime (signer : TSigner) : M ITransactionResult :=
  exec helper signer (tx_of membership "clearPrime") [].
Definition clearPrimeCall : M jsval := constructApiCall helper (tx_of membership "clearPrime") [].

End CollectiveMembershipGroup.
End CollectiveMembershipGroup.

Module RankedCollectiveGroup.
Section RankedCollectiveGroup.
Context {N : NodeApi} {C : Crypto}.
Variable helper : nat.
Variable collective : jsstr.

Definition addMember (signer : TSigner) (newMember : jsstr) : M ITransactionResult :=
  exec helper signer (tx_of collective "addMember") [JStr newMember].
Definition addMemberCall (newMember : jsstr) : M jsval :=
  constructApiCall helper (tx_of collective "addMember") [JStr newMember].
Definition removeMember (signer : TSigner) (member : jsstr) (minRank : Z) : M ITransactionResult :=
  exec helper signer (tx_of collective "removeMember") [JStr member; JNum (Int minRank)].
Definition removeMemberCall (newMember : jsstr) (minRank : Z) : M jsval :=
  constructApiCall helper (tx_of collective "removeMember") [JStr newMember; JNum (Int minRank)].
Definition promote (signer : TSigner) (member : jsstr) : M ITransactionResult :=
  exec helper signer (tx_of collective "promoteMember") [JStr member].
Definition promoteCall (member : jsstr) : M jsval :=
  constructApiCall helper (tx_of collective "promoteMember") [JStr member].
Definition demote (signer : TSigner) (member : jsstr) : M ITransactionResult :=
  exec helper signer (tx_of collective "demoteMember") [JStr member].
Definition demoteCall (newMember : jsstr) : M jsval :=
  constructApiCall helper (tx_of collective "demoteMember") [JStr newMember].
Definition vote (signer : TSigner) (pollIndex : Z) (aye : bool) : M ITransactionResult :=
  exec helper signer (tx_of collective "vote") [JNum (Int pollIndex); JBool aye].

Definition getMembers : M (list jsval) :=
  api ← getApi helper;
  keys ← api_call api (js "query.fellowshipCollective.members.keys") [];
  l ← lift (elements keys);
  lift (map_out (fun key =>
      args ← get_prop key (js "args"); a ← get_index args 0; call0 a (js "toString")) l).

Definition getMemberRank (member : jsstr) : M jsval :=
  j ← query helper (js "api.query.fellowshipCollective.members") [JStr member] (js "toJSON");
  lift (get_prop j (js "rank")).

End RankedCollectiveGroup.
End RankedCollectiveGroup.

Module ReferendaGroup.
Section ReferendaGroup.
Context {N : NodeApi} {C : Crypto}.
Variable helper : nat.
Variable referenda : jsstr.

Definition submit (signer : TSigner) (proposalOrigin : jsstr) (proposal enactmentMoment : jsval)
  : M ITransactionResult :=
  exec helper signer (tx_of referenda "submit")
    [obj [(js "Origins", JStr proposalOrigin)]; proposal; enactmentMoment].
Definition placeDecisionDeposit (signer : TSigner) (referendumIndex : Z) : M ITransactionResult :=
  exec helper signer (tx_of referenda "placeDecisionDeposit") [JNum (Int referendumIndex)].
Definition cancel (signer : TSigner) (referendumIndex : Z) : M ITransactionResult :=
  exec helper signer (tx_of referenda "cancel") [JNum (Int referendumIndex)].
Definition cancelCall (referendumIndex : Z) : M jsval :=
  constructApiCall helper (tx_of referenda "cancel") [JNum (Int referendumIndex)].
Definition referendumInfo (referendumIndex : Z) : M jsval :=
  query helper (query_of referenda "referendumInfoFor") [JNum (Int referendumIndex)] (js "toJSON").

Definition enactmentEventId (referendumIndex : Z) : M jsstr :=
  api ← getApi helper;
  t ← lift (of_lib (createType api (js "([u8;8], Text, u32)")
                      (JArr [JStr (js "assembly"); JStr (js "enactment"); JNum (Int referendumIndex)])));
  bytes ← lift (call0 t (js "toU8a"));
  mreturn (blake2AsHex256 bytes).

End ReferendaGroup.
End ReferendaGroup.

(** [{Inline: call.method.toHex()}] *)
Definition inline_call (call : jsval) : Res jsval :=
  m ← get_prop call (js "method");
  h ← call0 m (js "toHex");
  Ret (obj [(js "Inline", h)]).

Definition legacy_preimage (preimage : jsstr) : jsval := obj [(js "Legacy", JStr preimage)].

(** [v == n] for a number [n]. *)
Definition loose_num (v : jsval) (n : Z) : bool :=
  match v with
  | JNum (Int z) | JBig z => z =? n
  | JBool b => (if b then 1 else 0) =? n
  | JStr s => match string_toBigInt s with Some z => z =? n | None => false end
  | JNum NaN | JUndef | JNull => false
  | JArr _ | JObj _ _ => match string_toBigInt (to_string v) with Some z => z =? n | None => false end
  end.

(** A referendum given or left out. *)
Definition optional_index (i : option Z) : jsval :=
  match i with Some z => JNum (Int z) | None => JNull end.

Module DemocracyGroup.
Section DemocracyGroup.
Context {N : NodeApi} {C : Crypto}.
Variable helper : nat.

Definition propose (signer : TSigner) (call : jsval) (deposit : Z) : M ITransactionResult :=
  p ← lift (inline_call call); exec helper signer (js "api.tx.democracy.propose") [p; JBig deposit].
Definition proposeWithPreimage (signer : TSigner) (preimage : jsstr) (deposit : Z) : M ITransactionResult :=
  exec helper signer (js "api.tx.democracy.propose") [legacy_preimage preimage; JBig deposit].
Definition proposeCall (call : jsval) (deposit : Z) : M jsval :=
  p ← lift (inline_call call); constructApiCall helper (js "api.tx.democracy.propose") [p; JBig deposit].
Definition second (signer : TSigner) (proposalIndex : Z) : M ITransactionResult :=
  exec helper signer (js "api.tx.democracy.second") [JNum (Int proposalIndex)].
Definition externalPropose (signer : TSigner) (proposalCall : jsval) : M ITransactionResult :=
  p ← lift (inline_call proposalCall); exec helper signer (js "api.tx.democracy.externalPropose") [p].
Definition externalProposeMajority (signer : TSigner) (proposalCall : jsval) : M ITransactionResult :=
  p ← lift (inline_call proposalCall); exec helper signer (js "api.tx.democracy.externalProposeMajority") [p].
Definition externalProposeDefault (signer : TSigner) (proposalCall : jsval) : M ITransactionResult :=
  p ← lift (inline_call proposalCall); exec helper signer (js "api.tx.democracy.externalProposeDefault") [p].
Definition externalProposeDefaultWithPreimage (signer : TSigner) (preimage : jsstr) : M ITransactionResult :=
  exec helper signer (js "api.tx.democracy.externalProposeDefault") [legacy_preimage preimage].
Definition externalProposeCall (proposalCall : jsval) : M jsval :=
  p ← lift (inline_call proposalCall); constructApiCall helper (js "api.tx.democracy.externalPropose") [p].
Definition externalProposeMajorityCall (proposalCall : jsval) : M jsval :=
  p ← lift (inline_call proposalCall); constructApiCall helper (js "api.tx.democracy.externalProposeMajority") [p].
Definition externalProposeDefaultCall (proposalCall : jsval) : M jsval :=
  p ← lift (inline_call proposalCall); constructApiCall helper (js "api.tx.democracy.externalProposeDefault") [p].
Definition externalProposeDefaultWithPreimageCall (preimage : jsstr) : M jsval :=
  constructApiCall helper (js "api.tx.democracy.externalProposeDefault") [legacy_preimage preimage].
Definition vetoExternal (signer : TSigner) (proposalHash : jsstr) : M ITransactionResult :=
  exec helper signer (js "api.tx.democracy.vetoExternal") [JStr proposalHash].
Definition vetoExternalCall (proposalHash : jsstr) : M jsval :=
  constructApiCall helper (js "api.tx.democracy.vetoExternal") [JStr proposalHash].
Definition blacklist (signer : TSigner) (proposalHash : jsstr) (referendumIndex : option Z) : M ITransactionResult :=
  exec helper signer (js "api.tx.democracy.blacklist") [JStr proposalHash; optional_index referendumIndex].
Definition blacklistCall (proposalHash : jsstr) (referendumIndex : option Z) : M jsval :=
  constructApiCall helper (js "api.tx.democracy.blacklist") [JStr proposalHash; optional_index referendumIndex].
Definition cancelProposal (signer : TSigner) (proposalIndex : Z) : M ITransactionResult :=
  exec helper signer (js "api.tx.democracy.cancelProposal") [JNum (Int proposalIndex)].
Definition cancelProposalCall (proposalIndex : Z) : M jsval :=
  constructApiCall helper (js "api.tx.democracy.cancelProposal") [JNum (Int proposalIndex)].
Definition clearPublicProposals (signer : TSigner) : M ITransactionResult :=
  exec helper signer (js "api.tx.democracy.clearPublicProposals") [].
Definition fastTrack (signer : TSigner) (proposalHash : jsstr) (votingPeriod delayPeriod : Z) : M ITransactionResult :=
  exec helper signer (js "api.tx.democracy.fastTrack")
    [JStr proposalHash; JNum (Int votingPeriod); JNum (Int delayPeriod)].
Definition fastTrackCall (proposalHash : jsstr) (votingPeriod delayPeriod : Z) : M jsval :=
  constructApiCall helper (js "api.tx.democracy.fastTrack")
    [JStr proposalHash; JNum (Int votingPeriod); JNum (Int delayPeriod)].
Definition emergencyCancel (signer : TSigner) (referendumIndex : Z) : M ITransactionResult :=
  exec helper signer (js "api.tx.democracy.emergencyCancel") [JNum (Int referendumIndex)].
Definition emergencyCancelCall (referendumIndex : Z) : M jsval :=
  constructApiCall helper (js "api.tx.democracy.emergencyCancel") [JNum (Int referendumIndex)].
Definition vote (signer : TSigner) (referendumIndex : Z) (vote : jsval) : M ITransactionResult :=
  exec helper signer (js "api.tx.democracy.vote") [JNum (Int referendumIndex); vote].

(** An empty target account counts as none. *)
Definition removeVote (signer : TSigner) (referendumIndex : Z) (targetAccount : option jsstr) : M ITransactionResult :=
  match targetAccount with
  | Some (c :: a) =>
      exec helper signer (js "api.tx.democracy.removeOtherVote") [JStr (c :: a); JNum (Int referendumIndex)]
  | _ => exec helper signer (js "api.tx.democracy.removeVote") [JNum (Int referendumIndex)]
  end.

Definition unlock (signer : TSigner) (targetAccount : jsstr) : M ITransactionResult :=
  exec helper signer (js "api.tx.democracy.unlock") [JStr targetAccount].
Definition delegate (signer : TSigner) (toAccount : jsstr) (conviction : jsval) (balance : Z) : M ITransactionResult :=
  exec helper signer (js "api.tx.democracy.delegate") [JStr toAccount; conviction; JBig balance].
Definition undelegate (signer : TSigner) : M ITransactionResult :=
  exec helper signer (js "api.tx.democracy.undelegate") [].
Definition referendumInfo (referendumIndex : Z) : M jsval :=
  query helper (js "api.query.democracy.referendumInfoOf") [JNum (Int referendumIndex)] (js "toJSON").
Definition publicProposals : M jsval :=
  query helper (js "api.query.democracy.publicProps") [] (js "toJSON").

(** The first of the public proposals with the index asked for. *)
Fixpoint find_proposal (proposalIndex : Z) (l : list jsval) : Res jsval :=
  match l with
  | [] => Ret JNull
  | proposalInfo :: l' =>
      i ← get_index proposalInfo 0;
      if loose_num i proposalIndex then get_index proposalInfo 1 else find_proposal proposalIndex l'
  end.

Definition findPublicProposal (proposalIndex : Z) : M jsval :=
  props ← publicProposals;
  l ← lift (elements props);
  lift (find_proposal proposalIndex l).

Definition expectPublicProposal (proposalIndex : Z) : M jsval :=
  proposal ← findPublicProposal proposalIndex;
  if truthy proposal then mreturn proposal
  else throw (JSError (js "Proposal #" ++ number_toString proposalIndex ++ js " is expected to exist")).

Definition getExternalProposal : M jsval := callRpc helper (js "api.query.democracy.nextExternal") [].

Definition expectExternalProposal : M jsval :=
  proposal ← getExternalProposal;
  if truthy proposal then mreturn proposal
  else throw (JSError (js "An external proposal is expected to exist")).

End DemocracyGroup.
End DemocracyGroup.
