(* ===== verification/Xcm.v ===== *)
(** * Helpers for other chains

    [XcmChainHelper] and the groups of js-packages/test-utils/xcm/index.ts:
    asset registries, democracy and collectives of other chains, foreign
    assets, XCM transfers and teleports, [xTokens], [tokens] and [assets]. *)

From Stdlib Require Import Ascii String.
From stdpp Require Import list.
From S2P Require Import Prelude JsString JsValue Chain Address Util Helper Collections Governance.

Open Scope Z_scope.
Open Scope js_scope.

(** A number of the node: [Number(v)], on integers. *)
Definition to_number (v : jsval) : number :=
  match v with
  | JUndef => NaN
  | JNull => Int 0
  | JBool b => Int (if b then 1 else 0)
  | JNum n => n
  | JBig z => Int z
  | JStr _ | JArr _ | JObj _ _ =>
      match string_toBigInt (to_string v) with Some z => Int z | None => NaN end
  end.

Section Shared.
Context {N : NodeApi} {C : Crypto}.

(** [await this.helper.executeExtrinsic(signer, call, params, true)], its result
    dropped. *)
Definition run (helper : nat) (signer : TSigner) (call : jsstr) (params : list jsval) : M unit :=
  exec helper signer call params;; mreturn tt.

End Shared.

Module XcmChainHelper.
Section XcmChainHelper.
Context {N : NodeApi}.
Implicit Types this : nat.
Import ChainHelperBase.

(** Unlike [ChainHelperBase.connect], this one neither refuses an object that is
    connected nor records the endpoint, and the object holds the new connection
    before it is ready. *)
Definition connect this (wsEndpoint : jsstr) : M unit :=
  api ← world_new (new_ApiPromise wsEndpoint None);
  modify_this this (with_api (Some api));;
  world_call (isReadyOrError api);;
  network ← detectNetwork api;
  modify_this this (with_network (match network with JStr n => Some n | _ => None end)).

End XcmChainHelper.
End XcmChainHelper.

Module AcalaAssetRegistryGroup.
Section AcalaAssetRegistryGroup.
Context {N : NodeApi} {C : Crypto}.
Variable helper : nat.

Definition registerForeignAsset (signer : TSigner) (location metadata : jsval) : M unit :=
  run helper signer (js "api.tx.assetRegistry.registerForeignAsset") [location; metadata].

End AcalaAssetRegistryGroup.
End AcalaAssetRegistryGroup.

Record MoonbeamAssetInfo : Type := mkMoonbeamAsset {
  location : jsval;
  metadata : jsval;
  existentialDeposit : Z;
  isSufficient : bool;
  unitsPerSecond : Z;
  numAssetsWeightHint : Z }.

Module MoonbeamAssetManagerGroup.
Section MoonbeamAssetManagerGroup.
Context {N : NodeApi} {C : Crypto}.
Variable helper : nat.

(** [batchCall?.method.toHex() || ''] *)
Definition encoded (batchCall : jsval) : Res jsval :=
  match batchCall with
  | JUndef | JNull => Ret (JStr [])
  | _ =>
      m ← get_prop batchCall (js "method");
      h ← call0 m (js "toHex");
      Ret (if truthy h then h else JStr [])
  end.

Definition makeRegisterForeignAssetProposal (assetInfo : MoonbeamAssetInfo) : M jsval :=
  registerTx ← constructApiCall helper (js "api.tx.assetManager.registerForeignAsset")
    [location assetInfo; metadata assetInfo; JBig (existentialDeposit assetInfo);
     JBool (isSufficient assetInfo)];
  setUnitsTx ← constructApiCall helper (js "api.tx.assetManager.setAssetUnitsPerSecond")
    [location assetInfo; JBig (unitsPerSecond assetInfo); JNum (Int (numAssetsWeightHint assetInfo))];
  api ← getApi helper;
  batchCall ← api_call api (js "tx.utility.batchAll") [JArr [registerTx; setUnitsTx]];
  lift (encoded batchCall).

Definition assetTypeId (location : jsval) : M jsval :=
  callRpc helper (js "api.query.assetManager.assetTypeId") [location].

End MoonbeamAssetManagerGroup.
End MoonbeamAssetManagerGroup.

(** A standard vote on a referendum. *)
Record DemocracyStandardAccountVote : Type := mkAccountVote {
  av_balance : Z;
  av_aye : bool;
  av_conviction : Z }.

Definition standard_vote (v : DemocracyStandardAccountVote) : jsval :=
  obj [(js "Standard",
        obj [(js "balance", JBig (av_balance v));
             (js "vote", obj [(js "aye", JBool (av_aye v));
                              (js "conviction", JNum (Int (av_conviction v)))])])].

(** The democracy groups; an option that was not given interpolates as
    [undefined]. *)
Module MoonbeamDemocracyGroup.
Section MoonbeamDemocracyGroup.
Context {N : NodeApi} {C : Crypto}.
Variable helper : nat.
Variable notePreimagePallet : jsval.

Definition notePreimage (signer : TSigner) (encodedProposal : jsstr) : M unit :=
  run helper signer (tx_of (to_string notePreimagePallet) "notePreimage") [JStr encodedProposal].

Definition externalProposeMajority (proposal : jsval) : M jsval :=
  constructApiCall helper (js "api.tx.democracy.externalProposeMajority") [proposal].

Definition fastTrack (proposalHash : jsstr) (votingPeriod delayPeriod : Z) : M jsval :=
  constructApiCall helper (js "api.tx.democracy.fastTrack")
    [JStr proposalHash; JNum (Int votingPeriod); JNum (Int delayPeriod)].

Definition referendumVote (signer : TSigner) (referendumIndex : jsval) (accountVote : DemocracyStandardAccountVote)
  : M unit :=
  run helper signer (js "api.tx.democracy.vote") [referendumIndex; standard_vote accountVote].

End MoonbeamDemocracyGroup.
End MoonbeamDemocracyGroup.

Module DemocracyGroup.
Section DemocracyGroup.
Context {N : NodeApi} {C : Crypto}.
Variable helper : nat.
Variable notePreimagePallet : jsval.

Definition notePreimage (signer : TSigner) (encodedProposal : jsstr) : M unit :=
  run helper signer (tx_of (to_string notePreimagePallet) "notePreimage") [JStr encodedProposal].

Definition externalProposeMajority (proposal : jsval) : M jsval :=
  constructApiCall helper (js "api.tx.democracy.externalProposeMajority") [proposal].

Definition fastTrack (proposalHash : jsstr) (votingPeriod delayPeriod : Z) : M jsval :=
  constructApiCall helper (js "api.tx.democracy.fastTrack")
    [JStr proposalHash; JNum (Int votingPeriod); JNum (Int delayPeriod)].

Definition referendumVote (signer : TSigner) (referendumIndex : jsval) (accountVote : DemocracyStandardAccountVote)
  : M ITransactionResult :=
  exec helper signer (js "api.tx.democracy.vote") [referendumIndex; standard_vote accountVote].

End DemocracyGroup.
End DemocracyGroup.

Module MoonbeamCollectiveGroup.
Section MoonbeamCollectiveGroup.
Context {N : NodeApi} {C : Crypto}.
Variable helper : nat.
Variable collective : jsstr.

Definition propose (signer : TSigner) (threshold : Z) (proposalHash lengthBound : jsval) : M unit :=
  run helper signer (tx_of collective "propose") [JNum (Int threshold); proposalHash; lengthBound].

Definition vote (signer : TSigner) (proposalHash : jsstr) (proposalIndex : number) (approve : bool) : M unit :=
  run helper signer (tx_of collective "vote")
    [JStr proposalHash; JNum proposalIndex; JBool approve].

Definition close (signer : TSigner) (proposalHash : jsstr) (proposalIndex : number)
  (weightBound lengthBound : jsval) : M ITransactionResult :=
  exec helper signer (tx_of collective "close")
    [JStr proposalHash; JNum proposalIndex; weightBound; lengthBound].

Definition proposalCount : M number :=
  v ← callRpc helper (query_of collective "proposalCount") [];
  mreturn (to_number v).

End MoonbeamCollectiveGroup.
End MoonbeamCollectiveGroup.

Module CollectiveGroup.
Section CollectiveGroup.
Context {N : NodeApi} {C : Crypto}.
Variable helper : nat.
Variable collective : jsstr.

Definition propose (signer : TSigner) (threshold : Z) (proposalHash lengthBound : jsval) : M unit :=
  run helper signer (tx_of collective "propose") [JNum (Int threshold); proposalHash; lengthBound].

Definition vote (signer : TSigner) (proposalHash : jsstr) (proposalIndex : number) (approve : bool) : M unit :=
  run helper signer (tx_of collective "vote")
    [JStr proposalHash; JNum proposalIndex; JBool approve].

Definition close (signer : TSigner) (proposalHash : jsstr) (proposalIndex : number)
  (weightBound lengthBound : jsval) : M ITransactionResult :=
  exec helper signer (tx_of collective "close")
    [JStr proposalHash; JNum proposalIndex; weightBound; lengthBound].

Definition proposalCount : M number :=
  v ← callRpc helper (query_of collective "proposalCount") [];
  mreturn (to_number v).

End CollectiveGroup.
End CollectiveGroup.

Module ForeignAssetsGroup.
Section ForeignAssetsGroup.
Context {N : NodeApi} {C : Crypto}.
Variable helper : nat.

Definition register (signer : TSigner) (assetId : jsval) (name tokenPrefix : jsstr) (mode : jsval) : M unit :=
  run helper signer (js "api.tx.foreignAssets.forceRegisterForeignAsset")
    [obj [(js "V4", assetId)]; UniqueUtil.str2vec (JStr name);
     JStr tokenPrefix; mode].

Definition foreignCollectionId (assetId : jsval) : M jsval :=
  query helper (js "api.query.foreignAssets.foreignAssetToCollection") [assetId] (js "toJSON").

End ForeignAssetsGroup.
End ForeignAssetsGroup.

Module XcmGroup.
Section XcmGroup.
Context {N : NodeApi} {C : Crypto}.
Variable helper : nat.
Variable palletName : jsstr.

Definition transferAssets (signer : TSigner) (destination beneficiary assets : jsval) (feeAssetItem : Z)
  (weightLimit : jsval) : M ITransactionResult :=
  exec helper signer (tx_of palletName "transferAssets")
    [destination; beneficiary; assets; JNum (Int feeAssetItem); weightLimit].

Definition limitedReserveTransferAssets (signer : TSigner) (destination beneficiary assets : jsval)
  (feeAssetItem : Z) (weightLimit : jsval) : M ITransactionResult :=
  exec helper signer (tx_of palletName "limitedReserveTransferAssets")
    [destination; beneficiary; assets; JNum (Int feeAssetItem); weightLimit].

Definition setSafeXcmVersion (signer : TSigner) (version : Z) : M unit :=
  run helper signer (tx_of palletName "forceDefaultXcmVersion") [JNum (Int version)].

Definition teleportAssets (signer : TSigner) (destination beneficiary assets : jsval) (feeAssetItem : Z)
  : M unit :=
  run helper signer (tx_of palletName "teleportAssets")
    [destination; beneficiary; assets; JNum (Int feeAssetItem)].

(** [{parents: 0, interior: {X1: junction}}] *)
Definition one_junction (junction : jsval) : jsval :=
  obj [(js "parents", JNum (Int 0)); (js "interior", obj [(js "X1", junction)])].

Definition destinationContent (destinationParaId : Z) : jsval :=
  one_junction (obj [(js "Parachain", JNum (Int destinationParaId))]).

Definition beneficiaryContent (targetAccount : jsval) : jsval :=
  one_junction (obj [(js "AccountId32", obj [(js "network", JStr (js "Any")); (js "id", targetAccount)])]).

Definition assetsContent (amount : Z) : jsval :=
  JArr [obj [(js "id", obj [(js "Concrete", obj [(js "parents", JNum (Int 0));
                                                 (js "interior", JStr (js "Here"))])]);
             (js "fun", obj [(js "Fungible", JBig amount)])]].

(** The version tag the contents are wrapped in. *)
Definition version_tag (xcmVersion : Z) : option jsstr :=
  if xcmVersion =? 2 then Some (js "V1")
  else if xcmVersion =? 3 then Some (js "V2")
  else None.

Definition teleportNativeAsset (signer : TSigner) (destinationParaId : Z) (targetAccount : jsval)
  (amount xcmVersion : Z) : M unit :=
  match version_tag xcmVersion with
  | None => throw (JSError (js "Unknown XCM version: " ++ number_toString xcmVersion))
  | Some tag =>
      teleportAssets signer (obj [(tag, destinationContent destinationParaId)])
        (obj [(tag, beneficiaryContent targetAccount)]) (obj [(tag, assetsContent amount)]) 0
  end.

Definition send (signer : TSigner) (destination message : jsval) : M unit :=
  run helper signer (tx_of palletName "send") [destination; message].

End XcmGroup.
End XcmGroup.

Module XTokensGroup.
Section XTokensGroup.
Context {N : NodeApi} {C : Crypto}.
Variable helper : nat.

Definition transfer (signer : TSigner) (currencyId : jsval) (amount : Z) (destination destWeight : jsval)
  : M unit :=
  run helper signer (js "api.tx.xTokens.transfer") [currencyId; JBig amount; destination; destWeight].

Definition transferMultiasset (signer : TSigner) (asset destination destWeight : jsval) : M unit :=
  run helper signer (js "api.tx.xTokens.transferMultiasset") [asset; destination; destWeight].

Definition transferMultiassets (signer : TSigner) (assets : jsval) (feeItem : Z)
  (destination destWeight : jsval) : M ITransactionResult :=
  exec helper signer (js "api.tx.xTokens.transferMultiassets")
    [assets; JNum (Int feeItem); destination; destWeight].

Definition transferMulticurrencies (signer : TSigner) (currencies : list jsval) (feeItem : Z)
  (destLocation destWeight : jsval) : M unit :=
  run helper signer (js "api.tx.xTokens.transferMulticurrencies")
    [JArr currencies; JNum (Int feeItem); destLocation; destWeight].

End XTokensGroup.
End XTokensGroup.

Module TokensGroup.
Section TokensGroup.
Context {N : NodeApi} {C : Crypto}.
Variable helper : nat.

Definition accounts (address : jsstr) (currencyId : jsval) : M Z :=
  account ← query helper (js "api.query.tokens.accounts") [JStr address; currencyId] (js "toJSON");
  free ← lift (get_prop account (js "free"));
  lift (to_bigint free).

End TokensGroup.
End TokensGroup.

Module AssetsGroup.
Section AssetsGroup.
Context {N : NodeApi} {C : Crypto}.
Variable helper : nat.

Definition create (signer : TSigner) (assetId : jsval) (admin : jsstr) (minimalBalance : Z) : M unit :=
  run helper signer (js "api.tx.assets.create") [assetId; JStr admin; JBig minimalBalance].

Definition forceCreate (signer : TSigner) (assetId : jsval) (admin : jsstr) (minimalBalance : Z)
  (isSufficient : bool) : M unit :=
  run helper signer (js "api.tx.assets.forceCreate")
    [assetId; JStr admin; JBool isSufficient; JBig minimalBalance].

Definition setMetadata (signer : TSigner) (assetId : jsval) (name symbol : jsstr) (decimals : Z) : M unit :=
  run helper signer (js "api.tx.assets.setMetadata")
    [assetId; JStr name; JStr symbol; JNum (Int decimals)].

Definition mint (signer : TSigner) (assetId : jsval) (beneficiary : jsstr) (amount : Z) : M unit :=
  run helper signer (js "api.tx.assets.mint") [assetId; JStr beneficiary; JBig amount].

Definition assetInfo (assetId : jsval) : M jsval :=
  query helper (js "api.query.assets.asset") [assetId] (js "toJSON").

Definition account (assetId : jsval) (address : jsstr) : M (option Z) :=
  accountAsset ← query helper (js "api.query.assets.account") [assetId; JStr address] (js "toJSON");
  if strict_eq accountAsset JNull then mreturn None
  else
    balance ← lift (get_prop accountAsset (js "balance"));
    lift (Some <$> to_bigint balance).

End AssetsGroup.
End AssetsGroup.

(** The classes of the chains: the pallets their groups are made with. *)

Record CollectivePallets : Type := mkCollectives {
  council : jsstr;
  techCommittee : jsstr }.

Module RelayHelper.

Definition xcm : jsstr := js "xcmPallet".

End RelayHelper.

Module WestmintHelper.

Definition xcm : jsstr := js "polkadotXcm".

End WestmintHelper.

(** The democracy group of Moonbeam gets [options.notePreimagePallet] as it is. *)
Module MoonbeamHelper.

Definition xcm : jsstr := js "polkadotXcm".
Definition notePreimagePallet (option : jsval) : jsval := option.
Definition collective : CollectivePallets :=
  mkCollectives (js "councilCollective") (js "techCommitteeCollective").

End MoonbeamHelper.

Module AstarHelper.

Definition xcm : jsstr := js "polkadotXcm".

End AstarHelper.

Module AcalaHelper.

Definition xcm : jsstr := js "polkadotXcm".

End AcalaHelper.

(** [options.notePreimagePallet ?? 'preimage'] *)
Definition preimage_pallet (option : jsval) : jsval :=
  match option with
  | JUndef | JNull => JStr (js "preimage")
  | _ => option
  end.

Module HydraDxHelper.

Definition xcm : jsstr := js "polkadotXcm".
Definition notePreimagePallet (option : jsval) : jsval := preimage_pallet option.
Definition collective : CollectivePallets :=
  mkCollectives (js "council") (js "technicalCommittee").

End HydraDxHelper.
