(* ===== verification/Dev.v ===== *)
(** * The test helper

    What js-packages/test-utils/index.ts adds to [UniqueHelper]: typed events
    ([EventHelper], [EventSection], [Event]), the console filter, the event
    capture, and the groups of [DevUniqueHelper] that submit and query.  Waiting
    is in [Wait], accounts and fees in [Arrange]. *)

From Stdlib Require Import Ascii String.
From stdpp Require Import list.
From S2P Require Import Prelude JsString JsValue Chain Address Util Helper Collections Governance Xcm.

Open Scope Z_scope.
Open Scope js_scope.

(** ** SilentConsole *)

Module SilentConsole.

(** A printing function of the console: the native one, or the filter of
    [outFn] before another. *)
Inductive Printer : Type :=
  | Native
  | OutFn (printer : Printer).

Record Console : Type := mkConsole {
  con_error : Printer;
  con_log : Printer;
  con_warn : Printer }.

Definition skippedWarnings : list jsstr :=
  map js ["1000:: Normal connection closure"; "Not decorating unknown runtime apis:";
          "RPC methods not decorated:"; "Not decorating runtime apis";
          "Bad input data provided to validate_transaction"; "account balance too low";
          "1006:: Abnormal Closure"]%string.

(** An argument that silences the whole call. *)
Definition silences (arg : jsval) : bool :=
  match arg with
  | JStr s =>
      existsb (fun b => includes b s) skippedWarnings || jseq s (js "Normal connection closure")
  | _ => false
  end.

(** Whether [printer(...args)] prints. *)
Fixpoint prints (printer : Printer) (args : list jsval) : bool :=
  match printer with
  | Native => true
  | OutFn p => negb (existsb silences args) && prints p args
  end.

(** The fields hold the printers found at construction. *)
Definition constructor (console : Console) : Console := console.

Definition enable (this : Console) (_ : Console) : Console :=
  mkConsole (OutFn (con_error this)) (OutFn (con_log this)) (OutFn (con_warn this)).

Definition disable (this : Console) (_ : Console) : Console :=
  mkConsole (con_error this) (con_log this) (con_warn this).

End SilentConsole.

(** ** Typed events *)

(** The object that [EventHelper(section, method, wrapEvent)] makes. *)
Record IEventHelper : Type := mkEventHelper {
  eh_section : jsstr;
  eh_method : jsstr;
  wrapEvent : list jsval -> Res jsval }.

Module EventHelper.
Section EventHelper.
Variable this : IEventHelper.

Definition selects (e : EventRecord) : bool := is_event (eh_section this) (eh_method this) e.

Definition filter (txres : ITransactionResult) : Res (list jsval) :=
  map_out (fun e => wrapEvent this (data e)) (filterb selects (tr_events txres)).

Definition find (txres : ITransactionResult) : Res jsval :=
  match findb selects (tr_events txres) with
  | Some e => wrapEvent this (data e)
  | None => Ret JNull
  end.

Definition expect (txres : ITransactionResult) : Res jsval :=
  e ← find txres;
  if truthy e then Ret e
  else Throw (JSError (js "Expected event " ++ eh_section this ++ js "." ++ eh_method this)).

End EventHelper.
End EventHelper.

Definition eventData (index : nat) (data : list jsval) : Res jsval := Ret (default JUndef (data !! index)).

Definition eventJsonData (index : nat) (data : list jsval) : Res jsval :=
  call0 (default JUndef (data !! index)) (js "toJSON").

Definition eventHumanData (index : nat) (data : list jsval) : Res jsval :=
  call0 (default JUndef (data !! index)) (js "toHuman").

(** An object literal whose fields are read from the data. *)
Definition wrap (fields : list (string * (list jsval -> Res jsval))) (data : list jsval) : Res jsval :=
  obj <$> map_out (fun kr => v ← kr.2 data; Ret (js kr.1, v)) fields.

(** The default [() => {}]. *)
Definition no_wrap (data : list jsval) : Res jsval := Ret JUndef.

(** [EventSection(section).Method(name, wrapEvent)] *)
Definition Method (section name : string) (w : list jsval -> Res jsval) : IEventHelper :=
  mkEventHelper (js section) (js name) w.

Module Democracy.
Definition Proposed := Method "democracy" "Proposed" (wrap [("proposalIndex"%string, eventJsonData 0)]).
Definition ExternalTabled := Method "democracy" "ExternalTabled" no_wrap.
Definition Started := Method "democracy" "Started"
  (wrap [("referendumIndex"%string, eventJsonData 0); ("threshold"%string, eventHumanData 1)]).
Definition Voted := Method "democracy" "Voted"
  (wrap [("voter"%string, eventJsonData 0); ("referendumIndex"%string, eventJsonData 1);
         ("vote"%string, eventJsonData 2)]).
Definition Passed := Method "democracy" "Passed" (wrap [("referendumIndex"%string, eventJsonData 0)]).
Definition ProposalCanceled := Method "democracy" "ProposalCanceled"
  (wrap [("propIndex"%string, eventJsonData 0)]).
Definition Cancelled := Method "democracy" "Cancelled" (wrap [("propIndex"%string, eventJsonData 0)]).
(** [until] is read at the index of the proposal hash. *)
Definition Vetoed := Method "democracy" "Vetoed"
  (wrap [("who"%string, eventHumanData 0); ("proposalHash"%string, eventHumanData 1);
         ("until"%string, eventJsonData 1)]).
End Democracy.

(** The events that the three collectives share. *)
Definition collective_proposed (section : string) : IEventHelper := Method section "Proposed"
  (wrap [("account"%string, eventHumanData 0); ("proposalIndex"%string, eventJsonData 1);
         ("proposalHash"%string, eventHumanData 2); ("threshold"%string, eventJsonData 3)]).
Definition collective_closed (section : string) : IEventHelper := Method section "Closed"
  (wrap [("proposalHash"%string, eventHumanData 0); ("yes"%string, eventJsonData 1);
         ("no"%string, eventJsonData 2)]).
Definition collective_hash (section name : string) : IEventHelper := Method section name
  (wrap [("proposalHash"%string, eventHumanData 0)]).

Module Council.
Definition Proposed := collective_proposed "council".
Definition Closed := collective_closed "council".
Definition Executed := collective_hash "council" "Executed".
End Council.

Module FinCouncil.
Definition Proposed := collective_proposed "financialCouncil".
Definition Closed := collective_closed "financialCouncil".
Definition Executed := collective_hash "financialCouncil" "Executed".
End FinCouncil.

Module TechnicalCommittee.
Definition Proposed := collective_proposed "technicalCommittee".
Definition Closed := collective_closed "technicalCommittee".
Definition Approved := collective_hash "technicalCommittee" "Approved".
Definition Executed := Method "technicalCommittee" "Executed"
  (wrap [("proposalHash"%string, eventHumanData 0); ("result"%string, eventHumanData 1)]).
End TechnicalCommittee.

Module FellowshipReferenda.
Definition Submitted := Method "fellowshipReferenda" "Submitted"
  (wrap [("referendumIndex"%string, eventJsonData 0); ("trackId"%string, eventJsonData 1);
         ("proposal"%string, eventJsonData 2)]).
Definition Cancelled := Method "fellowshipReferenda" "Cancelled"
  (wrap [("index"%string, eventJsonData 0); ("tally"%string, eventJsonData 1)]).
End FellowshipReferenda.

Module Scheduler.
Definition Dispatched := Method "scheduler" "Dispatched"
  (wrap [("task"%string, eventJsonData 0); ("id"%string, eventHumanData 1);
         ("result"%string, eventData 2)]).
Definition PriorityChanged := Method "scheduler" "PriorityChanged"
  (wrap [("task"%string, eventJsonData 0); ("priority"%string, eventJsonData 1)]).
End Scheduler.

Module XcmpQueue.
Definition XcmpMessageSent := Method "xcmpQueue" "XcmpMessageSent"
  (wrap [("messageHash"%string, eventJsonData 0)]).
Definition Success := Method "xcmpQueue" "Success" (wrap [("messageHash"%string, eventJsonData 0)]).
Definition Fail := Method "xcmpQueue" "Fail"
  (wrap [("messageHash"%string, eventJsonData 0); ("outcome"%string, eventData 2)]).
End XcmpQueue.

Module XcmPallet.
Definition Sent := Method "xcmPallet" "Sent" (wrap [("messageId"%string, eventJsonData 3)]).
End XcmPallet.

Module PolkadotXcm.
Definition Sent := Method "polkadotXcm" "Sent" (wrap [("messageId"%string, eventJsonData 3)]).
End PolkadotXcm.

Module DmpQueue.
Definition ExecutedDownward := Method "dmpQueue" "ExecutedDownward"
  (wrap [("outcome"%string, eventData 2)]).
End DmpQueue.

Module MessageQueue.
Definition Processed := Method "messageQueue" "Processed"
  (wrap [("id"%string, eventJsonData 0); ("origin"%string, eventJsonData 1);
         ("weightUsed"%string, eventJsonData 2); ("success"%string, eventJsonData 3)]).
End MessageQueue.

(** ** EventCapture *)

Module EventCapture.

(** [ec_subscription] is [unsubscribe]: [None] before the first start, and
    whether the subscription it ends is still alive. *)
Record EventCapture : Type := mkCapture {
  eventSection : jsstr;
  eventMethod : jsstr;
  events : list EventRecord;
  ec_subscription : option bool }.

Definition constructor (section method : jsstr) : EventCapture := mkCapture section method [] None.

Definition stopCapture (c : EventCapture) : EventCapture :=
  match ec_subscription c with
  | Some _ => mkCapture (eventSection c) (eventMethod c) (events c) (Some false)
  | None => c
  end.

Definition startCapture (c : EventCapture) : EventCapture :=
  let c := stopCapture c in
  mkCapture (eventSection c) (eventMethod c) (events c) (Some true).

(** The events of a block arrive; the callback runs while the subscription
    lives. *)
Definition on_events (eventRecords : list EventRecord) (c : EventCapture) : EventCapture :=
  match ec_subscription c with
  | Some true =>
      let newEvents := filterb (is_event (eventSection c) (eventMethod c)) eventRecords in
      mkCapture (eventSection c) (eventMethod c) (events c ++ newEvents) (Some true)
  | _ => c
  end.

Definition extractCapturedEvents (c : EventCapture) : list EventRecord := events c.

End EventCapture.

(** ** Groups that submit and query *)

Module SchedulerGroup.
Section SchedulerGroup.
Context {N : NodeApi} {C : Crypto}.
Variable helper : nat.

Definition cancelScheduled (signer : TSigner) (scheduledId : jsstr) : M ITransactionResult :=
  exec helper signer (js "api.tx.scheduler.cancelNamed") [JStr scheduledId].
Definition changePriority (signer : TSigner) (scheduledId : jsstr) (priority : Z) : M ITransactionResult :=
  exec helper signer (js "api.tx.scheduler.changeNamedPriority") [JStr scheduledId; JNum (Int priority)].
Definition schedule (scheduleFn : ScheduleFn) (blocksNum : Z) (options : ISchedulerOptions) : M nat :=
  ChainHelperBase.clone helper (Chain.ScheduledHelper scheduleFn blocksNum options).
Definition scheduleAt (executionBlockNumber : Z) (options : ISchedulerOptions) : M nat :=
  schedule Schedule executionBlockNumber options.
Definition scheduleAfter (blocksBeforeExecution : Z) (options : ISchedulerOptions) : M nat :=
  schedule ScheduleAfter blocksBeforeExecution options.

End SchedulerGroup.
End SchedulerGroup.

Module CollatorSelectionGroup.
Section CollatorSelectionGroup.
Context {N : NodeApi} {C : Crypto}.
Variable helper : nat.

(** [(await callRpc(rpc)).map(x => x.toHuman())] *)
Definition human_list (rpc : jsstr) : M (list jsval) :=
  r ← callRpc helper rpc [];
  l ← lift (elements r);
  lift (map_out (fun x => call0 x (js "toHuman")) l).

Definition addInvulnerable (signer : TSigner) (address : jsstr) : M ITransactionResult :=
  exec helper signer (js "api.tx.collatorSelection.addInvulnerable") [JStr address].
Definition removeInvulnerable (signer : TSigner) (address : jsstr) : M ITransactionResult :=
  exec helper signer (js "api.tx.collatorSelection.removeInvulnerable") [JStr address].
Definition getInvulnerables : M (list jsval) :=
  human_list (js "api.query.collatorSelection.invulnerables").
Definition maxCollators : M jsval :=
  api ← getApi helper;
  lift (call0 (consts api (map js ["configuration"; "defaultCollatorSelectionMaxCollators"]%string)) (js "toJSON")).
Definition getDesiredCollators : M jsval :=
  query helper (js "api.query.configuration.collatorSelectionDesiredCollatorsOverride") [] (js "toNumber").
Definition setLicenseBond (signer : TSigner) (amount : Z) : M ITransactionResult :=
  exec helper signer (js "api.tx.configuration.setCollatorSelectionLicenseBond") [JBig amount].
Definition getLicenseBond : M jsval :=
  query helper (js "api.query.configuration.collatorSelectionLicenseBondOverride") [] (js "toBigInt").
Definition obtainLicense (signer : TSigner) : M ITransactionResult :=
  exec helper signer (js "api.tx.collatorSelection.getLicense") [].
Definition releaseLicense (signer : TSigner) : M ITransactionResult :=
  exec helper signer (js "api.tx.collatorSelection.releaseLicense") [].
Definition forceReleaseLicense (signer : TSigner) (released : jsstr) : M ITransactionResult :=
  exec helper signer (js "api.tx.collatorSelection.forceReleaseLicense") [JStr released].
Definition hasLicense (address : jsstr) : M jsval :=
  query helper (js "api.query.collatorSelection.licenseDepositOf") [JStr address] (js "toBigInt").
Definition onboard (signer : TSigner) : M ITransactionResult :=
  exec helper signer (js "api.tx.collatorSelection.onboard") [].
Definition offboard (signer : TSigner) : M ITransactionResult :=
  exec helper signer (js "api.tx.collatorSelection.offboard") [].
Definition getCandidates : M (list jsval) :=
  human_list (js "api.query.collatorSelection.candidates").

End CollatorSelectionGroup.
End CollatorSelectionGroup.

Module SessionGroup.
Section SessionGroup.
Context {N : NodeApi} {C : Crypto}.
Variable helper : nat.

Definition getIndex : M jsval := query helper (js "api.query.session.currentIndex") [] (js "toNumber").
Definition setOwnKeys (signer : TSigner) (key : jsstr) : M ITransactionResult :=
  exec helper signer (js "api.tx.session.setKeys") [JStr key; JStr (js "0x0")].
Definition setOwnKeysFromAddress (signer : TSigner) : M ITransactionResult :=
  setOwnKeys signer (mapping.hex_literal (addressRaw signer)).

End SessionGroup.
End SessionGroup.

(** ** DevUniqueHelper *)

(** The pallets behind a collective and its membership, and behind a ranked
    collective and its referenda. *)
Record ICollectiveGroup : Type := mkICollective {
  collective : jsstr;
  membership : jsstr }.

Record IFellowshipGroup : Type := mkIFellowship {
  fellowship_collective : jsstr;
  fellowship_referenda : jsstr }.

Module DevUniqueHelper.
Section DevUniqueHelper.
Context {N : NodeApi}.
Implicit Types this : nat.
Import ChainHelperBase.

Definition council : ICollectiveGroup := mkICollective (js "council") (js "councilMembership").
Definition finCouncil : ICollectiveGroup :=
  mkICollective (js "financialCouncil") (js "financialCouncilMembership").
Definition technicalCommittee : ICollectiveGroup :=
  mkICollective (js "technicalCommittee") (js "technicalCommitteeMembership").
Definition fellowship : IFellowshipGroup :=
  mkIFellowship (js "fellowshipCollective") (js "fellowshipReferenda").
Definition xcm : jsstr := js "polkadotXcm".

(** The connection is stored before it is ready, and over an existing one; its
    RPC definitions are those written out in the source. *)
Definition connect this (wsEndpoint : jsstr) : M unit :=
  if bool_decide (wsEndpoint = []) then throw (JSError (js "wsEndpoint was not set"))
  else
    api ← world_new (new_ApiPromise wsEndpoint (Some (js "dev")));
    modify_this this (with_api (Some api));;
    world_call (isReadyOrError api);;
    network ← detectNetwork api;
    modify_this this (with_network (match network with JStr n => Some n | _ => None end));;
    modify_this this (with_wsEndpoint (Some wsEndpoint)).

Definition getSudo this : M nat := clone this Chain.SudoHelper.

End DevUniqueHelper.
End DevUniqueHelper.

Module DevRelayHelper.
Section DevRelayHelper.
Context {N : NodeApi}.

Definition getSudo (this : nat) : M nat := ChainHelperBase.clone this Chain.SudoHelper.

End DevRelayHelper.
End DevRelayHelper.

Module DevAstarHelper.
Section DevAstarHelper.
Context {N : NodeApi}.

Definition getSudo (this : nat) : M nat := ChainHelperBase.clone this Chain.SudoHelper.

End DevAstarHelper.
End DevAstarHelper.

Module DevAcalaHelper.
Section DevAcalaHelper.
Context {N : NodeApi}.

Definition getSudo (this : nat) : M nat := ChainHelperBase.clone this Chain.SudoHelper.

End DevAcalaHelper.
End DevAcalaHelper.

Module DevMoonbeamHelper.

Definition notePreimagePallet (option : jsval) : jsval :=
  MoonbeamHelper.notePreimagePallet (preimage_pallet option).

End DevMoonbeamHelper.

Module DevMoonriverHelper.

Definition notePreimagePallet (option : jsval) : jsval :=
  DevMoonbeamHelper.notePreimagePallet (preimage_pallet option).

End DevMoonriverHelper.

Module TestUtilGroup.
Section TestUtilGroup.
Context {N : NodeApi} {C : Crypto}.
Variable helper : nat.

(** A transaction whose result is dropped. *)
Definition run (signer : TSigner) (call : jsstr) (params : list jsval) : M unit :=
  exec helper signer call params;; mreturn tt.

Definition enable (testUtilsPalletName : jsstr) : M unit :=
  missing ← ChainHelperBase.fetchMissingPalletNames helper [testUtilsPalletName];
  match missing with
  | [] =>
      let signer := UniqueUtil.fromSeed (js "//Alice") 42 in
      sudo ← DevUniqueHelper.getSudo helper;
      exec sudo signer (js "api.tx.testUtils.enable") [];;
      mreturn tt
  | _ => mreturn tt
  end.

Definition setTestValue (signer : TSigner) (testVal : Z) : M unit :=
  run signer (js "api.tx.testUtils.setTestValue") [JNum (Int testVal)].
Definition incTestValue (signer : TSigner) : M unit := run signer (js "api.tx.testUtils.incTestValue") [].
Definition setTestValueAndRollback (signer : TSigner) (testVal : Z) : M unit :=
  run signer (js "api.tx.testUtils.setTestValueAndRollback") [JNum (Int testVal)].

(** A block index that is missing or 0 means the latest block. *)
Definition testValue (blockIdx : option Z) : M jsval :=
  api ← match blockIdx with
        | None | Some 0 => getApi helper
        | Some b =>
            api ← getApi helper;
            h ← callRpc helper (js "api.rpc.chain.getBlockHash") [JNum (Int b)];
            world_call (api_at api h)
        end;
  v ← api_call api (js "query.testUtils.testValue") [];
  lift (call0 v (js "toJSON")).

Definition justTakeFee (signer : TSigner) : M unit := run signer (js "api.tx.testUtils.justTakeFee") [].
Definition selfCancelingInc (signer : TSigner) (scheduledId : jsstr) (maxTestVal : Z) : M unit :=
  run signer (js "api.tx.testUtils.selfCancelingInc") [JStr scheduledId; JNum (Int maxTestVal)].

End TestUtilGroup.
End TestUtilGroup.

Record StakerPayout : Type := mkPayout {
  po_staker : jsval;
  po_stake : jsval;
  po_payout : jsval }.

Module AdminGroup.
Section AdminGroup.
Context {N : NodeApi} {C : Crypto}.
Variable helper : nat.

Definition read_payout (e : EventRecord) : Res StakerPayout :=
  staker ← call0 (datum e 0) (js "toString");
  stake ← call0 (datum e 1) (js "toBigInt");
  payout ← call0 (datum e 2) (js "toBigInt");
  Ret (mkPayout staker stake payout).

Definition payoutStakers (signer : TSigner) (stakersToPayout : Z) : M (list StakerPayout) :=
  payoutResult ← exec helper signer (js "api.tx.appPromotion.payoutStakers") [JNum (Int stakersToPayout)];
  lift (map_out read_payout
    (filterb (fun e => jseq (method e) (js "StakingRecalculation")) (tr_events payoutResult))).

End AdminGroup.
End AdminGroup.
