(* ===== verification/Lifecycle.v ===== *)
(** * The life of a helper object

    What [clone], [connect] with its overrides, [disconnect] and [clearApi] do to
    the store of helper objects, and what holds of every store a client can
    reach. *)

From Stdlib Require Import Ascii String.
From stdpp Require Import sorting relations list.
From S2P Require Import Prelude JsString JsValue Chain Address Util Helper HelperFacts Xcm Dev.

Open Scope Z_scope.
Open Scope js_scope.

Section Lifecycle.
Context {N : NodeApi}.
Implicit Types this l c : nat.
Import ChainHelperBase.

(** ** Effects of the operations *)

(** A call that returned, rather than thrown or stayed open. *)
Definition completes {A} (o : Res A) : bool := match o with Ret _ => true | _ => false end.

Definition cleared (h : HelperState) : HelperState := with_network None (with_api None h).

Lemma cleared_idem h : cleared (cleared h) = cleared h.
Proof. done. Qed.

Lemma alter_compose_same (f g : HelperState -> HelperState) l (hs : list HelperState) :
  alter f l (alter g l hs) = alter (fun h => f (g h)) l hs.
Proof. apply list_alter_alter_eq. Qed.

Lemma clearApi_run l s :
  clearApi l s = (Ret tt, mkState (alter cleared l (st_helpers s)) (st_logger s) (st_world s)).
Proof. unfold clearApi, modify_this, modify_helpers. cbn. by rewrite alter_compose_same. Qed.

Lemma clear_children_run cs s :
  for_each_M (fun _ child => clearApi child) tt cs s
  = (Ret tt, mkState (fold_left (fun hs c => alter cleared c hs) cs (st_helpers s)) (st_logger s) (st_world s)).
Proof.
  revert s. induction cs as [|c cs IH]; intros s; cbn [for_each_M fold_left].
  - by destruct s.
  - rewrite (bind_Ret _ _ _ _ _ (clearApi_run c s)). by rewrite IH.
Qed.

Lemma fold_cleared_lookup cs (hs : list HelperState) l :
  fold_left (fun hs c => alter cleared c hs) cs hs !! l
  = (fun h => if bool_decide (l ∈ cs) then cleared h else h) <$> hs !! l.
Proof.
  revert hs. induction cs as [|c cs IH]; intros hs; cbn [fold_left].
  - rewrite bool_decide_false by apply not_elem_of_nil. by destruct (hs !! l).
  - rewrite IH. destruct (decide (l = c)) as [->|Hne].
    + rewrite list_lookup_alter_eq. rewrite (bool_decide_true (c ∈ c :: cs)) by left.
      destruct (hs !! c); cbn; [|done]. by destruct (bool_decide _).
    + rewrite list_lookup_alter_ne by done. destruct (hs !! l); cbn; [|done].
      by rewrite (bool_decide_ext (l ∈ c :: cs) (l ∈ cs)) by (rewrite elem_of_cons; tauto).
Qed.

Lemma fold_cleared_length cs (hs : list HelperState) :
  length (fold_left (fun hs c => alter cleared c hs) cs hs) = length hs.
Proof.
  revert hs. induction cs as [|c cs IH]; intros hs; cbn [fold_left]; [done|].
  by rewrite IH, length_alter.
Qed.

(** The frame of opening a connection: no helper object changes. *)
Lemma framed_createConnection this P ep ls n : Framed this P (createConnection ep ls n).
Proof.
  unfold createConnection, detectNetworkByWsEndpoint, await_isReady, detectNetwork, register. solve_frame.
Qed.

(** ** Clones *)

Lemma clone_run this mixin s h : st_helpers s !! this = Some h ->
  clone this mixin s =
  (Ret (length (st_helpers s)),
   mkState (alter (push_child (length (st_helpers s))) this (st_helpers s)
            ++ [mkHelper (mixin (hs_class h)) (hs_api h) None (hs_network h) None [] []])
     (st_logger s) (st_world s)).
Proof.
  intros Hh. unfold clone. rewrite (bind_Ret _ _ _ _ _ (get_this_Some _ _ _ Hh)).
  unfold constructor, modify_this, modify_helpers. cbn. do 2 f_equal.
  assert (this < length (st_helpers s))%nat as Hlt by by eapply lookup_lt_Some.
  rewrite alter_compose_same. rewrite alter_app_r_alt by done.
  rewrite Nat.sub_diag. cbn. by rewrite alter_app_l.
Qed.

(** ** Connections *)

(** The network detected for a connection is always a string. *)
Lemma detectNetwork_string api s v s' : detectNetwork api s = (Ret v, s') -> exists n, v = JStr n.
Proof.
  unfold detectNetwork. intros H. run_inv.
  match goal with H : context [in_list _ xcmChains] |- _ => revert H end.
  match goal with |- context [match ?x with JUndef => _ | _ => _ end] => destruct x end; cbn;
    repeat case_match; intros [= <- _]; eauto.
Qed.

Lemma createConnection_string ep ls n s a v s' :
  createConnection ep ls n s = (Ret (a, v), s') -> exists n, v = JStr n.
Proof.
  unfold createConnection. destruct (bool_decide _); [done|]. intros H.
  apply bind_Ret_inv in H as (v' & s1 & Hv & H). run_inv. simplify_eq.
  destruct (in_list _ _); [run_inv; eauto|].
  unfold detectNetworkByWsEndpoint in Hv. destruct (bool_decide _); [done|]. run_inv.
  by eapply detectNetwork_string.
Qed.

Definition connected (ep : jsstr) (api : Api) (n : jsstr) (h : HelperState) : HelperState :=
  with_network (Some n) (with_api (Some api) (with_wsEndpoint (Some ep) h)).

(** [connect] either opens a connection of [this], or changes no helper. *)
Lemma connect_cases this ep ls s o s' : connect this ep ls s = (o, s') ->
  st_helpers s' = st_helpers s
  \/ exists h api n, o = Ret tt /\ st_helpers s !! this = Some h /\ hs_api h = None
       /\ st_helpers s' = alter (connected ep api n) this (st_helpers s).
Proof.
  unfold connect. intros [(h & s1 & H1 & H)|[(e & H & ->)|[H ->]]]%bind_inv;
    [|left; by eapply (quiet_run this), H; apply _..].
  apply get_this_inv in H1 as [-> Hh].
  destruct (hs_api h) as [a0|] eqn:Ea; [left; by injection H as <- <-|].
  apply bind_inv in H as [([api v] & s2 & H2 & H)|[(e & H & ->)|[H ->]]];
    [|left; by eapply (quiet_run this), H; apply framed_createConnection..].
  right. pose proof (createConnection_string _ _ _ _ _ _ _ H2) as [n ->].
  eapply (quiet_run this) in H2; [|apply framed_createConnection].
  unfold modify_this, modify_helpers in H. cbn in H. injection H as <- <-.
  exists h, api, n. cbn. rewrite !alter_compose_same, H2. done.
Qed.

(** What an override of [connect] does to the object: the new connection is
    kept also when it does not become ready; only when the call returns is
    there a network for it. *)
Record attaches (o : Res unit) (f : HelperState -> HelperState) : Prop := {
  at_children : forall h, hs_children (f h) = hs_children h;
  at_network : forall h, is_Some (hs_network (f h)) -> is_Some (hs_network h) \/ is_Some (hs_api (f h));
  at_api : forall h, is_Some (hs_api h) -> is_Some (hs_api (f h));
  at_completed : forall h, completes o = true -> is_Some (hs_api (f h)) /\ is_Some (hs_network (f h)) }.

Lemma attaches_nothing o : completes o = false -> attaches o (fun h => h).
Proof. intros Ho. split; try done; [by left|]. by rewrite Ho. Qed.

(** The rest of both overrides, from where the connection is stored. *)
Lemma await_network_attaches this api (rest : jsval -> M unit) (g : jsstr -> HelperState -> HelperState) s o s' :
  (forall n s, rest (JStr n) s
    = (Ret tt, mkState (alter (g n) this (st_helpers s)) (st_logger s) (st_world s))) ->
  (forall n h, hs_children (g n h) = hs_children h /\ hs_api (g n h) = hs_api h /\ is_Some (hs_network (g n h))) ->
  (modify_this this (with_api (Some api));;
   world_call (isReadyOrError api);;
   network ← detectNetwork api; rest network) s = (o, s') ->
  exists f, st_helpers s' = alter f this (st_helpers s) /\ attaches o f.
Proof.
  intros Hrest Hg H. set (s1 := mkState (alter (with_api (Some api)) this (st_helpers s)) (st_logger s) (st_world s)).
  assert ((world_call (isReadyOrError api);; network ← detectNetwork api; rest network) s1 = (o, s')) as H1 by exact H.
  assert (forall o' : Res unit, completes o' = false -> attaches o' (with_api (Some api))) as Hopen.
  { intros o' Ho'. split; try done; [by left|by rewrite Ho']. }
  apply bind_inv in H1 as [([] & s2 & H2 & H1)|[(e & H1 & ->)|[H1 ->]]];
    [|apply (quiet_run this) in H1; [|apply _]; exists (with_api (Some api)); split; [exact H1|by apply Hopen]..].
  apply (quiet_run this) in H2; [|apply _].
  assert (Framed this no_entry (detectNetwork api)) as Hd by (unfold detectNetwork; solve_frame).
  apply bind_inv in H1 as [(v & s3 & H3 & H1)|[(e & H1 & ->)|[H1 ->]]];
    [|apply (quiet_run this _ _ _ _ Hd) in H1; exists (with_api (Some api)); split; [by rewrite H1|by apply Hopen]..].
  pose proof (detectNetwork_string _ _ _ _ H3) as [n ->]. apply (quiet_run this _ _ _ _ Hd) in H3.
  rewrite Hrest in H1. injection H1 as <- <-. exists (fun h => g n (with_api (Some api) h)).
  split; [by cbn; rewrite H3, H2; cbn; rewrite alter_compose_same|].
  split; intros h; destruct (Hg n (with_api (Some api) h)) as (Hc & Ha & Hn); [done|right|intros _|intros _];
    rewrite ?Ha; by eauto.
Qed.

Lemma dev_connect_attaches this ep s o s' : DevUniqueHelper.connect this ep s = (o, s') ->
  exists f, st_helpers s' = alter f this (st_helpers s) /\ attaches o f.
Proof.
  unfold DevUniqueHelper.connect. case_bool_decide as Hep.
  { intros [= <- <-]. exists (fun h => h). rewrite list_alter_id by done. split; [done|by apply attaches_nothing]. }
  intros H. cbn [bind M_monad] in H. unfold world_new at 1 in H.
  destruct (new_ApiPromise ep _ (st_world s)) as [api w].
  refine (await_network_attaches this api (fun network =>
    modify_this this (with_network (match network with JStr n => Some n | _ => None end));;
    modify_this this (with_wsEndpoint (Some ep)))
    (fun n h => with_wsEndpoint (Some ep) (with_network (Some n) h)) _ o s' _ _ H).
  - intros n s1. unfold modify_this, modify_helpers. cbn. by rewrite alter_compose_same.
  - intros n h. cbn. eauto.
Qed.

Lemma xcm_connect_attaches this ep s o s' : XcmChainHelper.connect this ep s = (o, s') ->
  exists f, st_helpers s' = alter f this (st_helpers s) /\ attaches o f.
Proof.
  unfold XcmChainHelper.connect. intros H. cbn [bind M_monad] in H. unfold world_new at 1 in H.
  destruct (new_ApiPromise ep _ (st_world s)) as [api w].
  refine (await_network_attaches this api (fun network =>
    modify_this this (with_network (match network with JStr n => Some n | _ => None end)))
    (fun n h => with_network (Some n) h) _ o s' _ _ H).
  - done.
  - intros n h. cbn. eauto.
Qed.

(** [disconnect]: the direct children are cleared, then [this] when its own
    connection could be closed. *)
Lemma disconnect_run this s h o s' : st_helpers s !! this = Some h -> this ∉ hs_children h ->
  disconnect this s = (o, s') ->
  forall l hl, st_helpers s !! l = Some hl ->
  st_helpers s' !! l = Some
    (if bool_decide (l ∈ hs_children h) then cleared hl
     else if bool_decide (l = this) && match o with Ret _ => bool_decide (is_Some (hs_api h)) | _ => false end
     then cleared hl else hl).
Proof.
  intros Hh Hnot. unfold disconnect. rewrite (bind_Ret _ _ _ _ _ (get_this_Some _ _ _ Hh)).
  rewrite (bind_Ret _ _ _ _ _ (clear_children_run _ _)). set (s1 := mkState _ _ _).
  assert (st_helpers s1 !! this = Some h) as Hh1.
  { cbn. rewrite fold_cleared_lookup, Hh. cbn. by rewrite bool_decide_false. }
  rewrite (bind_Ret _ _ _ _ _ (get_this_Some _ _ _ Hh1)).
  assert (forall l hl, st_helpers s !! l = Some hl -> st_helpers s1 !! l =
            Some (if bool_decide (l ∈ hs_children h) then cleared hl else hl)) as H1.
  { intros l hl Hl. cbn. by rewrite fold_cleared_lookup, Hl. }
  destruct (hs_api h) as [api|]; intros H l hl Hl.
  - apply bind_inv in H as [([] & s2 & H2 & H)|[(e & H & ->)|[H ->]]].
    + rewrite clearApi_run in H. injection H as <- <-. cbn.
      apply (quiet_run this) in H2; [|apply _]. rewrite H2. destruct (decide (l = this)) as [->|Hne].
      * rewrite list_lookup_alter_eq, (H1 this hl Hl). cbn.
        rewrite (bool_decide_false (this ∈ _)) by done. by rewrite !bool_decide_true by done.
      * rewrite list_lookup_alter_ne by done. rewrite (H1 l hl Hl).
        by rewrite (bool_decide_false (l = this)) by done.
    + apply (quiet_run this) in H; [|apply _]. rewrite H, (H1 l hl Hl), andb_false_r. done.
    + apply (quiet_run this) in H; [|apply _]. rewrite H, (H1 l hl Hl), andb_false_r. done.
  - injection H as <- <-. rewrite (H1 l hl Hl). rewrite (bool_decide_false (is_Some None)) by by intros [].
    by rewrite andb_false_r.
Qed.

(** When connections can always be closed, [disconnect] of a helper completes
    and leaves it without one, whatever its children are. *)
Lemma disconnect_closes this s h :
  (forall api w, (api_disconnect api w).1 = Ret tt) -> st_helpers s !! this = Some h ->
  exists s' h', disconnect this s = (Ret tt, s') /\ st_helpers s' !! this = Some h' /\ hs_api h' = None.
Proof.
  intros Hd Hh. unfold disconnect. rewrite (bind_Ret _ _ _ _ _ (get_this_Some _ _ _ Hh)).
  rewrite (bind_Ret _ _ _ _ _ (clear_children_run _ _)). set (s1 := mkState _ _ _).
  assert (exists h1, st_helpers s1 !! this = Some h1) as [h1 Hh1].
  { cbn. rewrite fold_cleared_lookup, Hh. by eexists. }
  rewrite (bind_Ret _ _ _ _ _ (get_this_Some _ _ _ Hh1)).
  destruct (hs_api h1) as [api|] eqn:Ea; [|by exists s1, h1].
  destruct (world_call (api_disconnect api) s1) as [o s2] eqn:E.
  assert (o = Ret tt /\ st_helpers s2 = st_helpers s1) as [-> H2].
  { specialize (Hd api (st_world s1)). revert E. unfold world_call. destruct (api_disconnect api (st_world s1)).
    cbn in Hd. subst. cbn. by intros [= <- <-]. }
  rewrite (bind_Ret _ _ _ _ _ E), clearApi_run. do 2 eexists. split; [done|].
  cbn [st_helpers]. by rewrite list_lookup_alter_eq, H2, Hh1.
Qed.

End Lifecycle.

(** ** Reachable stores *)

Section Reachable.
Context {N : NodeApi}.
Implicit Types (this l c i j : nat) (hs : list HelperState).
Import ChainHelperBase.

(** One operation of a client on one helper object, [connect] of
    [DevUniqueHelper] and of [XcmChainHelper] among them; when [settled] is set,
    only calls of these two that complete. The last constructor covers every
    method that keeps within its frame: calls, transactions and all that is
    built on them. *)
Inductive client_step (settled : bool) : State -> State -> Prop :=
  | step_construct cls s : client_step settled s (constructor cls s).2
  | step_clone this mixin s : client_step settled s (clone this mixin s).2
  | step_connect this ep ls s : client_step settled s (connect this ep ls s).2
  | step_dev_connect this ep s :
      (settled = true -> completes (DevUniqueHelper.connect this ep s).1 = true) ->
      client_step settled s (DevUniqueHelper.connect this ep s).2
  | step_xcm_connect this ep s :
      (settled = true -> completes (XcmChainHelper.connect this ep s).1 = true) ->
      client_step settled s (XcmChainHelper.connect this ep s).2
  | step_disconnect this s : client_step settled s (disconnect this s).2
  | step_clearApi this s : client_step settled s (clearApi this s).2
  | step_forceNetwork this n s : client_step settled s (forceNetwork this n s).2
  | step_clearChainLog this s : client_step settled s (clearChainLog this s).2
  | step_method this {A} (m : M A) s : Framed this any_entry m -> client_step settled s (m s).2.

Definition initial (w : World) : State := mkState [] [] w.

Definition reachable_by (settled : bool) (s : State) : Prop :=
  exists w, rtc (client_step settled) (initial w) s.

(** The stores that a client can reach at all. *)
Definition reachable (s : State) : Prop := reachable_by false s.

(** A connection and its network come and go together. *)
Definition consistent (h : HelperState) : Prop := is_Some (hs_api h) <-> is_Some (hs_network h).

(** The network is that of a connection; when [settled] is set, every
    connection has one. *)
Definition linked (settled : bool) (h : HelperState) : Prop :=
  (is_Some (hs_network h) -> is_Some (hs_api h))
  /\ (settled = true -> is_Some (hs_api h) -> is_Some (hs_network h)).

Lemma linked_consistent h : linked true h <-> consistent h.
Proof. split; intros [H1 H2]; split; auto. Qed.

Lemma linked_both settled h : is_Some (hs_api h) -> is_Some (hs_network h) -> linked settled h.
Proof. by split. Qed.

Lemma linked_neither settled h : hs_api h = None -> hs_network h = None -> linked settled h.
Proof. intros Ha Hn. split; [rewrite Hn|rewrite Ha]; intros; by destruct_and?; match goal with H : is_Some None |- _ => destruct H end. Qed.

(** Clones come after the object they were made from, so the objects form a
    forest; each clone is the child of one object. *)
Record well_formed (settled : bool) (hs : list HelperState) : Prop := {
  wf_children : forall i h c, hs !! i = Some h -> c ∈ hs_children h -> (i < c < length hs)%nat;
  wf_parent : forall i j hi hj c, hs !! i = Some hi -> hs !! j = Some hj ->
    c ∈ hs_children hi -> c ∈ hs_children hj -> i = j;
  wf_linked : forall i h, hs !! i = Some h -> linked settled h }.

Lemma alter_lookup_inv (f : HelperState -> HelperState) this hs i h :
  alter f this hs !! i = Some h -> exists h0, hs !! i = Some h0 /\ h = (if decide (i = this) then f h0 else h0).
Proof.
  destruct (decide (i = this)) as [->|Hne].
  - rewrite list_lookup_alter_eq. destruct (hs !! this); [|done]. intros [= <-]. eauto.
  - rewrite list_lookup_alter_ne by done. eauto.
Qed.

Section WellFormed.
Variable settled : bool.

Lemma wf_alter (f : HelperState -> HelperState) this hs :
  (forall h, hs_children (f h) = hs_children h) -> (forall h, linked settled h -> linked settled (f h)) ->
  well_formed settled hs -> well_formed settled (alter f this hs).
Proof.
  intros Hc Hn [W1 W2 W3].
  assert (forall i h, alter f this hs !! i = Some h -> exists h0, hs !! i = Some h0
            /\ hs_children h = hs_children h0 /\ (linked settled h0 -> linked settled h)) as Hinv.
  { intros i h (h0 & H0 & ->)%alter_lookup_inv. exists h0. destruct (decide _); auto. }
  split.
  - intros i h c (h0 & H0 & -> & _)%Hinv Hin. rewrite length_alter. by eapply W1.
  - intros i j hi hj c (h0 & H0 & -> & _)%Hinv (h1 & H1 & -> & _)%Hinv. by eapply W2.
  - intros i h (h0 & H0 & _ & Hc0)%Hinv. by eapply Hc0, W3.
Qed.

Lemma wf_construct cls hs : well_formed settled hs -> well_formed settled (hs ++ [new_helper cls]).
Proof.
  intros [W1 W2 W3].
  assert (forall i h, (hs ++ [new_helper cls]) !! i = Some h -> hs !! i = Some h \/ h = new_helper cls) as Hinv.
  { intros i h [H|[_ H]]%lookup_app_Some; [by left|right]. by apply list_lookup_singleton_Some in H as [_ <-]. }
  split.
  - intros i h c [H| ->]%Hinv Hc; [|by apply not_elem_of_nil in Hc].
    rewrite length_app. specialize (W1 i h c H Hc). cbn. lia.
  - intros i j hi hj c [Hi| ->]%Hinv [Hj| ->]%Hinv Hci Hcj;
      try (by apply not_elem_of_nil in Hci); try (by apply not_elem_of_nil in Hcj). by eapply W2.
  - intros i h [H| ->]%Hinv; [by eapply W3|]. by apply linked_neither.
Qed.

Lemma wf_clone this h mixin hs : hs !! this = Some h -> well_formed settled hs ->
  well_formed settled (alter (push_child (length hs)) this hs
               ++ [mkHelper (mixin (hs_class h)) (hs_api h) None (hs_network h) None [] []]).
Proof.
  intros Hh [W1 W2 W3]. set (new := mkHelper _ _ _ _ _ _ _).
  assert (this < length hs)%nat as Hlt by by eapply lookup_lt_Some.
  assert (forall i x, (alter (push_child (length hs)) this hs ++ [new]) !! i = Some x ->
    (exists x0, hs !! i = Some x0 /\ (linked settled x0 -> linked settled x)
       /\ forall c, c ∈ hs_children x -> (c ∈ hs_children x0 \/ (i = this /\ c = length hs)))
    \/ x = new) as Hinv.
  { intros i x [H|[_ H]]%lookup_app_Some.
    - left. apply alter_lookup_inv in H as (x0 & H0 & ->). exists x0. split; [done|].
      destruct (decide (i = this)) as [->|]; [|by auto]. split; [by auto|].
      intros c. cbn. rewrite elem_of_app, list_elem_of_singleton. tauto.
    - right. by apply list_lookup_singleton_Some in H as [_ <-]. }
  split.
  - intros i x c [(x0 & H0 & _ & Hc)| ->]%Hinv Hin; [|by apply not_elem_of_nil in Hin].
    rewrite length_app, length_alter. cbn.
    destruct (Hc c Hin) as [H1|[-> ->]]; [specialize (W1 i x0 c H0 H1)|]; lia.
  - intros i j xi xj c [(y & Hy & _ & Hyc)| ->]%Hinv [(z & Hz & _ & Hzc)| ->]%Hinv Hi Hj;
      try (by apply not_elem_of_nil in Hi); try (by apply not_elem_of_nil in Hj).
    apply Hyc in Hi as [Hi|[-> ->]]; apply Hzc in Hj as [Hj|[-> ?]]; try done.
    + by eapply W2.
    + subst c. specialize (W1 i y _ Hy Hi). lia.
    + specialize (W1 j z _ Hz Hj). lia.
  - intros i x [(x0 & H0 & Hc & _)| ->]%Hinv; [by eapply Hc, W3|]. by apply (W3 this h).
Qed.

Lemma wf_cleared_all cs hs : well_formed settled hs ->
  well_formed settled (fold_left (fun hs c => alter cleared c hs) cs hs).
Proof.
  revert hs. induction cs as [|c cs IH]; intros hs Hw; cbn [fold_left]; [done|].
  apply IH, wf_alter; [done| |done]. intros h _. by apply linked_neither.
Qed.

Lemma wf_disconnect this s : well_formed settled (st_helpers s) ->
  well_formed settled (st_helpers (disconnect this s).2).
Proof.
  intros Hw. unfold disconnect. destruct (st_helpers s !! this) as [h|] eqn:Hh.
  2:{ cbn. unfold get_this. by rewrite Hh. }
  rewrite (bind_Ret _ _ _ _ _ (get_this_Some _ _ _ Hh)).
  rewrite (bind_Ret _ _ _ _ _ (clear_children_run _ _)).
  apply (wf_cleared_all (hs_children h)) in Hw. set (s1 := mkState _ _ _).
  change (well_formed settled (st_helpers s1)) in Hw.
  match goal with |- well_formed settled (st_helpers ?r.2) => destruct r as [o s'] eqn:H end. cbn.
  apply bind_inv in H as [(h1 & s2 & H1 & H)|[(e & H & _)|[H _]]];
    [|by apply (quiet_run this) in H as ->; [|apply _]..].
  apply get_this_inv in H1 as [-> H1].
  destruct (hs_api h1) as [api|]; [|by injection H as _ <-].
  apply bind_inv in H as [([] & s3 & H3 & H)|[(e & H & _)|[H _]]];
    [|by apply (quiet_run this) in H as ->; [|apply _]..].
  apply (quiet_run this) in H3; [|apply _]. rewrite clearApi_run in H. injection H as _ <-. cbn.
  rewrite H3. apply wf_alter; [done| |done]. intros x _. by apply linked_neither.
Qed.

Lemma wf_attaches this o f hs :
  attaches o f -> (settled = true -> completes o = true) -> well_formed settled hs -> well_formed settled (alter f this hs).
Proof.
  intros Hf Ho. apply wf_alter; [apply Hf|]. intros h [H1 H2]. split.
  - intros [Hn|Ha]%(at_network _ _ Hf); [by apply (at_api _ _ Hf), H1|done].
  - intros Hs _. by apply (at_completed _ _ Hf h), Ho.
Qed.

Lemma client_step_wf s s' : client_step settled s s' -> well_formed settled (st_helpers s) -> well_formed settled (st_helpers s').
Proof.
  destruct 1 as [cls s|this mixin s|this ep ls s|this ep s Ho|this ep s Ho|this s|this s|this n s|this s|this A m s Hm]; intros Hw.
  - by apply wf_construct.
  - destruct (st_helpers s !! this) as [h|] eqn:Hh.
    + rewrite (clone_run _ _ _ _ Hh). by apply wf_clone.
    + unfold clone. cbn. unfold get_this. by rewrite Hh.
  - destruct (connect this ep ls s) as [o s'] eqn:H. cbn.
    apply connect_cases in H as [->|(h & api & n & _ & _ & _ & ->)]; [done|].
    apply wf_alter; [done| |done]. intros x _. apply linked_both; by eexists.
  - destruct (dev_connect_attaches this ep s _ _ (surjective_pairing _)) as (f & -> & Hf). by eapply wf_attaches.
  - destruct (xcm_connect_attaches this ep s _ _ (surjective_pairing _)) as (f & -> & Hf). by eapply wf_attaches.
  - by apply wf_disconnect.
  - rewrite clearApi_run. cbn. apply wf_alter; [done| |done]. intros h _. by apply linked_neither.
  - apply wf_alter; [done|by intros|done].
  - apply wf_alter; [done|by intros|done].
  - destruct (Hm s) as (es & lines & _ & -> & _). apply wf_alter; [done|by intros|done].
Qed.

Lemma reachable_wf s : reachable_by settled s -> well_formed settled (st_helpers s).
Proof.
  intros [w Hs]. revert Hs. cut (well_formed settled (st_helpers (initial w))).
  - intros Hw. induction 1 as [|x y z Hxy _ IH]; [done|]. by eapply IH, client_step_wf.
  - split; cbn; intros i; intros * H; by rewrite ?lookup_nil in H.
Qed.

End WellFormed.

End Reachable.

(** ** What [clone] and [disconnect] leave behind *)

Section Effects.
Context {N : NodeApi}.
Implicit Types this l c : nat.
Import ChainHelperBase.

Lemma clone_effect this mixin s h :
  st_helpers s !! this = Some h ->
  exists s' c,
    clone this mixin s = (Ret c, s')
    /\ st_helpers s !! c = None
    /\ st_helpers s' !! c = Some (mkHelper (mixin (hs_class h)) (hs_api h) None (hs_network h) None [] [])
    /\ st_helpers s' !! this = Some (push_child c h)
    /\ forall l, l <> this -> l <> c -> st_helpers s' !! l = st_helpers s !! l.
Proof.
  intros Hh. eexists _, _. split; [by apply clone_run|]. cbn.
  assert (this < length (st_helpers s))%nat as Hlt by by eapply lookup_lt_Some.
  split_and!.
  - by apply lookup_ge_None.
  - rewrite lookup_app_r by by rewrite length_alter. by rewrite length_alter, Nat.sub_diag.
  - rewrite lookup_app_l by by rewrite length_alter. by rewrite list_lookup_alter_eq, Hh.
  - intros l Hl Hc. destruct (decide (l < length (st_helpers s))%nat).
    + rewrite lookup_app_l by by rewrite length_alter. by rewrite list_lookup_alter_ne.
    + rewrite !(proj2 (lookup_ge_None _ _)); [done|lia|]. rewrite length_app, length_alter. cbn. lia.
Qed.

Lemma disconnect_effect this s s' h :
  reachable s -> st_helpers s !! this = Some h ->
  disconnect this s = (Ret tt, s') ->
  forall l hl, st_helpers s !! l = Some hl ->
  exists hl', st_helpers s' !! l = Some hl'
    /\ hs_wsEndpoint hl' = hs_wsEndpoint hl
    /\ (l = this \/ l ∈ hs_children h -> hs_api hl' = None /\ hs_network hl' = None)
    /\ (l <> this -> l ∉ hs_children h -> hl' = hl).
Proof.
  intros Hr Hh Hd l hl Hl. pose proof (reachable_wf _ _ Hr) as [W1 _ W3].
  assert (this ∉ hs_children h) as Hnot by (intros Hin; specialize (W1 _ _ _ Hh Hin); lia).
  rewrite (disconnect_run _ _ _ _ _ Hh Hnot Hd l hl Hl). eexists. split; [done|].
  destruct (decide (l ∈ hs_children h)) as [Hin|Hnin].
  - rewrite bool_decide_true by done. split_and!; [done|done|]. by intros _ [].
  - rewrite bool_decide_false by done. destruct (decide (l = this)) as [->|Hne].
    + rewrite (bool_decide_true (this = this)) by done. cbn. rewrite Hh in Hl. injection Hl as <-.
      specialize (W3 _ _ Hh). destruct (hs_api h) as [api|] eqn:Ea.
      * rewrite bool_decide_true by done. split_and!; [done|done|]. by intros [].
      * rewrite bool_decide_false by by intros []. split_and!; [done| |by intros []].
        intros _. split; [done|]. apply eq_None_not_Some. intros Hn. apply W3 in Hn as [? ?]. congruence.
    + rewrite (bool_decide_false (l = this)) by done. cbn. split_and!; [done| |done].
      by intros [?|?].
Qed.

End Effects.

(** ** Properties *)

Section Properties.
Context {N : NodeApi}.
Implicit Types this l c : nat.
Import ChainHelperBase.

(** C5: In every store a client can reach, whatever it called on its helpers in
    whatever order, [connect] of the test helpers and of the helpers for other
    chains included, the helpers form a forest in which clones come after their
    origin and have one parent, and a helper with a detected network has a
    connection. The converse holds as well in every store that is reached
    without a call of these two overrides that failed or stayed open, since
    they keep a connection that does not become ready. *)
Theorem reachable_well_formed settled s : reachable_by settled s -> well_formed settled (st_helpers s).
Proof. apply reachable_wf. Qed.

(** [clone] hands the connection and the network on to a fresh object and
    registers it as a child; the clone starts with an empty log, no endpoint and
    no forced network, whatever the origin was forced to. *)
Theorem clone_inherits_connection this mixin s h :
  st_helpers s !! this = Some h ->
  exists s' c,
    clone this mixin s = (Ret c, s')
    /\ st_helpers s !! c = None
    /\ st_helpers s' !! c = Some (mkHelper (mixin (hs_class h)) (hs_api h) None (hs_network h) None [] [])
    /\ st_helpers s' !! this = Some (push_child c h)
    /\ forall l, l <> this -> l <> c -> st_helpers s' !! l = st_helpers s !! l.
Proof. apply clone_effect. Qed.

(** C28: After a [disconnect] that completes, the helper and each of its direct
    children have neither a connection nor a network, and every other helper,
    grandchildren included, is as before; the endpoint is kept. *)
Theorem disconnect_clears_children this s s' h :
  reachable s -> st_helpers s !! this = Some h ->
  disconnect this s = (Ret tt, s') ->
  forall l hl, st_helpers s !! l = Some hl ->
  exists hl', st_helpers s' !! l = Some hl'
    /\ hs_wsEndpoint hl' = hs_wsEndpoint hl
    /\ (l = this \/ l ∈ hs_children h -> hs_api hl' = None /\ hs_network hl' = None)
    /\ (l <> this -> l ∉ hs_children h -> hl' = hl).
Proof. apply disconnect_effect. Qed.

(** A clone of a clone outlives its root: after the root disconnects, the
    grandchild still holds the connection that was closed. *)
Theorem grandchild_survives_disconnect this mixin1 mixin2 h api s s1 s2 s3 child grandchild :
  reachable s -> st_helpers s !! this = Some h -> hs_api h = Some api ->
  clone this mixin1 s = (Ret child, s1) ->
  clone child mixin2 s1 = (Ret grandchild, s2) ->
  disconnect this s2 = (Ret tt, s3) ->
  exists g, st_helpers s3 !! grandchild = Some g /\ hs_api g = Some api.
Proof.
  intros Hr Hh Ha H1 H2 H3.
  assert (reachable s2) as Hr2.
  { destruct Hr as [w Hr]. exists w. etrans; [exact Hr|].
    eapply rtc_l with s1; [|eapply rtc_once].
    - change s1 with (@pair (Res nat) State (Ret child) s1).2. rewrite <- H1. constructor.
    - change s2 with (@pair (Res nat) State (Ret grandchild) s2).2. rewrite <- H2. constructor. }
  destruct (clone_effect this mixin1 s h Hh) as (s1' & c & E1 & Hfc & Hc & Ht & _).
  rewrite H1 in E1. injection E1 as <- <-.
  destruct (clone_effect child mixin2 s1 _ Hc) as (s2' & g & E2 & Hfg & Hg & _ & Hrest).
  rewrite H2 in E2. injection E2 as <- <-.
  assert (this <> child) as Hne by (intros ->; congruence).
  assert (this <> grandchild) as Hne2 by (intros ->; congruence).
  assert (child <> grandchild) as Hne3 by (intros ->; congruence).
  assert (st_helpers s2 !! this = Some (push_child child h)) as Ht2 by by rewrite Hrest.
  destruct (disconnect_effect this s2 s3 _ Hr2 Ht2 H3 grandchild _ Hg) as (g & Hg3 & _ & _ & Hsame).
  exists g. split; [done|]. rewrite Hsame; [done|done|].
  cbn. rewrite elem_of_app, list_elem_of_singleton. intros [Hin|Hin]; [|congruence].
  pose proof (reachable_wf _ _ Hr) as [W1 _ _]. specialize (W1 _ _ _ Hh Hin).
  assert (child < length (st_helpers s1))%nat by by eapply lookup_lt_Some.
  apply lookup_ge_None in Hfg. apply lookup_ge_None in Hfc. lia.
Qed.

End Properties.
