(* ===== verification/Wait.v ===== *)
(** * Waiting

    [WaitGroup] of js-packages/test-utils/index.ts.  A subscription delivers
    values at times counted in milliseconds; a promise settles at a time or
    never.  The callbacks of one subscription are taken to run one after the
    other, each to its end before the next value arrives.  An exception in a
    callback, or in an asynchronous executor handed to [new Promise], rejects no
    promise anybody looks at: the promise it should have settled stays open. *)

From Stdlib Require Import Ascii String.
From stdpp Require Import list.
From S2P Require Import Prelude JsString JsValue Chain Address Util Helper Collections Dev.

Open Scope Z_scope.
Open Scope js_scope.

(** The time at which a promise settles, and how. *)
Definition Promise (A : Type) : Type := option (Z * Res A).

(** Comparison of numbers and bigints. *)
Definition int_value (v : jsval) : option Z :=
  match v with JNum (Int z) | JBig z => Some z | _ => None end.

Definition js_ge (a b : jsval) : bool :=
  match int_value a, int_value b with Some x, Some y => y <=? x | _, _ => false end.

Section Time.
Context {N : NodeApi}.

(** The client idles for some milliseconds. *)
Definition pass (milliseconds : Z) : M unit := fun s =>
  (Ret tt, mkState (st_helpers s) (st_logger s) (elapse milliseconds (st_world s))).

(** A computation whose failure nobody observes. *)
Definition unobserved {A} (m : M A) (d : A) : M A := fun s =>
  match m s with
  | (Ret a, s') => (Ret a, s')
  | (_, s') => (Ret d, s')
  end.

(** What a subscription made inside a promise's executor delivers. *)
Definition subscription (this : nat) (path : jsstr) : M (list (Z * jsval)) :=
  unobserved (api ← getApi this; world_call (api_subscribe api (split_unit 46 path))) [].

Definition new_heads : jsstr := js "rpc.chain.subscribeNewHeads".

End Time.

Module WaitGroup.

Section Polling.

(** The flag that the handlers of [promise] set; the first check of the loop
    comes before any handler can run. *)
Definition isBlock {A} (promise : Promise A) (totalTime : Z) : bool :=
  match promise with
  | Some (t, _) => (0 <? totalTime) && (t <=? totalTime)
  | None => false
  end.

Definition step : Z := 100.

(** The loop of [waitWithTimeout]: the time it stops at, and whether the promise
    had settled then. *)
Fixpoint poll {A} (fuel : nat) (promise : Promise A) (timeout totalTime : Z) : option (Z * bool) :=
  if isBlock promise totalTime then Some (totalTime, true)
  else
    match fuel with
    | O => None
    | S fuel' =>
        if timeout <=? totalTime + step then Some (totalTime + step, false)
        else poll fuel' promise timeout (totalTime + step)
    end.

(** Steps enough to reach any timeout. *)
Definition poll_fuel (timeout : Z) : nat := S (Z.to_nat (timeout / step)).

Definition watch {A} (promise : Promise A) (timeout : Z) : Z * bool :=
  default (0, false) (poll (poll_fuel timeout) promise timeout 0).

End Polling.

Section WaitGroup.
Context {N : NodeApi} {C : Crypto}.
Variable helper : nat.

Definition sleep (milliseconds : Z) : M unit := pass milliseconds.

Definition waitWithTimeout {A} (promise : Promise A) (timeout : Z) : M A :=
  let '(totalTime, settled) := watch promise timeout in
  pass totalTime;;
  match settled, promise with
  | true, Some (_, o) => lift o
  | _, _ => throw (JSError (js "Timeout " ++ number_toString timeout ++ js " ms"))
  end.

(** [new Error(e)]: the message is [String(e)]; that of an engine error is not
    modelled. *)
Definition rewrapped (e : exn) : exn :=
  match e with
  | JSError m => JSError (js "Error: " ++ m)
  | JSThrown s => JSError s
  | JSValue v => JSError (to_string v)
  | TxRejected _ => JSError (js "[object Object]")
  | EngineError => EngineError
  end.

(** The race of a promise against a timer; a tie goes to the timer. The time
    has passed when the promise is given by the time it took. *)
Definition withTimeout {A} (promise : Promise A) (timeoutMS : Z) (timeoutError : jsstr) : M A :=
  catch
    (match promise with
     | Some (t, o) => if t <? timeoutMS then lift o else throw (JSError timeoutError)
     | None => throw (JSError timeoutError)
     end)
    (fun e => throw (rewrapped e)).

(** The counting callback: the head at which it settles the promise, and what
    is left of the count at a time. *)
Fixpoint counted (blocksCount : Z) (heads : list (Z * jsval)) : option Z :=
  match heads with
  | [] => None
  | (t, _) :: heads' => if 0 <? blocksCount then counted (blocksCount - 1) heads' else Some t
  end.

Fixpoint blocks_left (blocksCount : Z) (heads : list (Z * jsval)) (time : Z) : Z :=
  match heads with
  | (t, _) :: heads' =>
      if (t <=? time) && (0 <? blocksCount) then blocks_left (blocksCount - 1) heads' time
      else blocksCount
  | [] => blocksCount
  end.

(** [newBlocks], with the time it took. *)
Definition newBlocks_timed (blocksCount : Z) (timeout : option Z) : M Z :=
  let timeout := default (blocksCount * 60000) timeout in
  heads ← subscription helper new_heads;
  let promise := (fun t => (t, Ret tt)) <$> counted blocksCount heads in
  let time := (watch promise timeout).1 in
  catch (waitWithTimeout promise timeout) (fun _ => throw (JSError (
    js "Failed to wait for " ++ number_toString blocksCount ++ js " new blocks within "
    ++ number_toString timeout ++ js " ms. "
    ++ number_toString (blocks_left blocksCount heads time) ++ js " blocks left")));;
  mreturn time.

Definition newBlocks (blocksCount : Z) (timeout : option Z) : M unit :=
  newBlocks_timed blocksCount timeout;; mreturn tt.

(** [session.getIndex()], which is a number. *)
Definition session_index : M Z :=
  v ← SessionGroup.getIndex helper;
  match v with JNum (Int z) => mreturn z | _ => throw EngineError end.

(** The promise raced against [blockTimeout]: a new block, then the index. *)
Definition next_session_index : M (Promise Z) :=
  unobserved (t ← newBlocks_timed 1 None; i ← session_index; mreturn (Some (t, Ret i))) None.

(** The loop of [newSessions], for at most [fuel] rounds. *)
Fixpoint await_session (fuel : nat) (expectedSessionIndex blockTimeout currentSessionIndex : Z) : M unit :=
  if expectedSessionIndex <=? currentSessionIndex then mreturn tt
  else
    match fuel with
    | O => never
    | S fuel' =>
        promise ← next_session_index;
        i ← withTimeout promise blockTimeout (js "The chain has stopped producing blocks!");
        await_session fuel' expectedSessionIndex blockTimeout i
    end.

Definition newSessions (fuel : nat) (sessionCount blockTimeout : Z) : M unit :=
  index ← session_index;
  await_session fuel (index + sessionCount) blockTimeout (-1).

(** The callback that waits for a block number: when it is reached, and the last
    number seen by a time. *)
Section Reaching.
Variable read : jsval -> Res jsval.
Variable blockNumber : jsval.

Fixpoint reached (heads : list (Z * jsval)) : option Z :=
  match heads with
  | [] => None
  | (t, v) :: heads' =>
      match read v with
      | Ret b => if js_ge b blockNumber then Some t else reached heads'
      | _ => reached heads'
      end
  end.

Fixpoint last_block (heads : list (Z * jsval)) (time : Z) (lastBlock : jsval) : jsval :=
  match heads with
  | (t, v) :: heads' =>
      if t <=? time then
        match read v with
        | Ret b => if js_ge b blockNumber then b else last_block heads' time b
        | _ => last_block heads' time lastBlock
        end
      else lastBlock
  | [] => lastBlock
  end.

Definition for_block (path : jsstr) (chain : string) (timeout : option Z) : M unit :=
  let timeout := default (30 * 60 * 1000) timeout in
  heads ← subscription helper path;
  let promise := (fun t => (t, Ret tt)) <$> reached heads in
  catch (waitWithTimeout promise timeout) (fun _ => throw (JSError (
    js "Failed to wait for block " ++ to_string blockNumber ++ js " on " ++ js chain ++ js " within "
    ++ number_toString timeout ++ js " ms. Last block from " ++ js chain ++ js " is "
    ++ to_string (last_block heads (watch promise timeout).1 JNull)))).
End Reaching.

(** [data.number.toNumber()] and [data.value.relayParentNumber.toNumber()] *)
Definition head_number (v : jsval) : Res jsval :=
  n ← get_prop v (js "number"); call0 n (js "toNumber").

Definition relay_parent_number (v : jsval) : Res jsval :=
  d ← get_prop v (js "value"); n ← get_prop d (js "relayParentNumber"); call0 n (js "toNumber").

Definition forParachainBlockNumber (blockNumber : jsval) (timeout : option Z) : M unit :=
  for_block head_number blockNumber new_heads "parachain" timeout.

Definition forRelayBlockNumber (blockNumber : jsval) (timeout : option Z) : M unit :=
  for_block relay_parent_number blockNumber (js "query.parachainSystem.validationData") "relay" timeout.

(** Run an asynchronous callback on the heads until it settles the promise;
    [before] is the time of the previous head. *)
Fixpoint each_head {A B} (callback : B -> jsval -> M (A + B)) (b : B) (before : Z)
  (heads : list (Z * jsval)) : M A :=
  match heads with
  | [] => never
  | (t, header) :: heads' =>
      pass (t - before);;
      r ← unobserved (callback b header) (inr b);
      match r with
      | inl a => mreturn a
      | inr b' => each_head callback b' t heads'
      end
  end.

Definition noScheduledTasks : M unit :=
  api ← getApi helper;
  heads ← subscription helper new_heads;
  each_head (fun _ _ =>
      tasks ← api_call api (js "query.scheduler.lookup.entries") [];
      n ← lift (get_prop tasks (js "length"));
      mreturn (if strict_eq n (JNum (Int 0)) then inl tt else inr tt)) tt 0 heads.

(** [data.number.toBigInt() % val == 0n] *)
Definition is_multiple (val : Z) (header : jsval) : Res bool :=
  n ← get_prop header (js "number");
  b ← call0 n (js "toBigInt");
  match b with
  | JBig z => if val =? 0 then Throw EngineError else Ret (Z.rem z val =? 0)
  | _ => Throw EngineError
  end.

Definition parachainBlockMultiplesOf (val : Z) : M unit :=
  heads ← subscription helper new_heads;
  each_head (fun _ header =>
      b ← lift (is_multiple val header);
      mreturn (if (b : bool) then inl tt else inr tt)) tt 0 heads.

(** The callback of [event]: the value found, or the blocks that may still be
    waited for. *)
Definition on_head (eventHelper : IEventHelper) (filter : jsval -> Res bool) (maxBlocksToWait : Z)
  (header : jsval) : M (jsval + Z) :=
  n ← lift (get_prop header (js "number"));
  blockNumber ← lift (call0 n (js "toJSON"));
  blockHash ← lift (get_prop header (js "hash"));
  let eventIdStr := eh_section eventHelper ++ js "." ++ eh_method eventHelper in
  logger_log (LogText (js "[Block #" ++ to_string blockNumber ++ js "] Waiting for event `" ++ eventIdStr
    ++ js "` (wait blocks remaining: " ++ number_toString maxBlocksToWait ++ js ")")) LINFO;;
  api ← getApi helper;
  apiAt ← world_call (api_at api blockHash);
  eventRecords ← world_call (events_at apiAt);
  wrapped ← lift (map_out (fun r => wrapEvent eventHelper (data r))
                    (filterb (EventHelper.selects eventHelper) eventRecords));
  neededEvent ← lift (find_out filter wrapped);
  let found := default JUndef neededEvent in
  if truthy found then mreturn (inl found)
  else if 0 <? maxBlocksToWait then mreturn (inr (maxBlocksToWait - 1))
  else
    logger_log (LogText (js "Eligible event `" ++ eventIdStr ++ js "` is NOT found." ++ [10]
      ++ js "          The wait lasted until block " ++ to_string blockNumber ++ js " inclusive")) LINFO;;
    mreturn (inl JNull).

Definition event (maxBlocksToWait : Z) (eventHelper : IEventHelper) (filter : jsval -> Res bool) : M jsval :=
  heads ← subscription helper new_heads;
  each_head (on_head eventHelper filter) maxBlocksToWait 0 heads.

Definition expectEvent (maxBlocksToWait : Z) (eventHelper : IEventHelper) (filter : jsval -> Res bool)
  : M jsval :=
  e ← event maxBlocksToWait eventHelper filter;
  match e with
  | JNull | JUndef =>
      throw (JSError (js "The event '" ++ eh_section eventHelper ++ js "." ++ eh_method eventHelper
        ++ js "' is expected"))
  | _ => mreturn e
  end.

(** The default filter. *)
Definition accept_all (_ : jsval) : Res bool := Ret true.

End WaitGroup.
End WaitGroup.

(** [SessionGroup.newSessions] *)
Module SessionWait.

Definition newSessions {N : NodeApi} (helper : nat) (fuel : nat) (sessionCount blockTimeout : Z) : M unit :=
  WaitGroup.newSessions helper fuel sessionCount blockTimeout.

End SessionWait.
