(* ===== verification/Arrange.v ===== *)
(** * Accounts, fees and governance by script

    [ArrangeGroup], [MoonbeamAccountGroup], [MoonbeamFastDemocracyGroup] and
    [HydraFastDemocracyGroup] of js-packages/test-utils/index.ts.  Transactions
    that the source starts without awaiting them are run one after the other, in
    the order in which they are started, which is that of their nonces. *)

From Stdlib Require Import Ascii String.
From stdpp Require Import list.
From S2P Require Import Prelude JsString JsValue Chain Address Util Helper Collections Balance.
From S2P Require Import Governance Xcm Dev Wait.

Open Scope Z_scope.
Open Scope js_scope.

Section Promises.
Context {N : NodeApi}.

(** How each of the promises ends. *)
Fixpoint outcomes {A} (promises : list (M A)) : M (list (Res A)) := fun s =>
  match promises with
  | [] => (Ret [], s)
  | p :: promises' =>
      let '(o, s1) := p s in
      (os ← outcomes promises'; mreturn (o :: os)) s1
  end.

Definition is_pending {A} (o : Res A) : bool := match o with Pending => true | _ => false end.
Definition is_throw {A} (o : Res A) : bool := match o with Throw _ => true | _ => false end.

(** [await Promise.allSettled(promises)] *)
Definition allSettled {A} (promises : list (M A)) : M unit :=
  os ← outcomes promises;
  if existsb is_pending os then never else mreturn tt.

(** [await Promise.all(promises).catch(_e => {})]: a rejection ends the wait. *)
Definition all_caught {A} (promises : list (M A)) : M unit :=
  os ← outcomes promises;
  if negb (existsb is_throw os) && existsb is_pending os then never else mreturn tt.

End Promises.

(** [nonce++] *)
Definition increment (v : jsval) : jsval :=
  match v with
  | JNum (Int z) => JNum (Int (z + 1))
  | JBig z => JBig (z + 1)
  | _ => JNum NaN
  end.

(** [v == w], one of them a number or both of one type. *)
Definition loose_eq (v w : jsval) : bool :=
  match v, w with
  | (JUndef | JNull), (JUndef | JNull) => true
  | _, JNum (Int n) => loose_num v n
  | JNum (Int n), _ => loose_num w n
  | _, _ => strict_eq v w
  end.

Module ArrangeGroup.
Section ArrangeGroup.
Context {N : NodeApi} {C : Crypto}.
Variable helper : nat.

(** [this.helper.chain.getChainProperties().ss58Format] *)
Definition chain_format : M jsval :=
  p ← ChainGroup.getChainProperties helper; mreturn (ss58Format p).

(** [this.helper.util.fromSeed(mnemonicGenerate(), ss58Format)] *)
Definition new_account (format : jsval) : M TSigner :=
  seed ← world_new mnemonicGenerate; mreturn (addFromUriChain seed format).

Definition createEmptyAccount : M TSigner :=
  format ← chain_format; new_account format.

(** The transfer of a balance, signed with a nonce. *)
Definition funding (donor : TSigner) (recipient : TSigner) (amount : Z) (nonce : jsval)
  : M (M ITransactionResult) :=
  tx ← constructApiCall helper (js "api.tx.balances.transferKeepAlive")
    [obj [(js "Id", JStr (address recipient))]; JBig amount];
  mreturn (ChainHelperBase.signTransaction helper donor tx (Some [(js "nonce", nonce)])
             (js "account generation")).

(** The loop that makes the accounts: the accounts and the transactions. *)
Fixpoint fund_all (donor : TSigner) (format : jsval) (tokenNominal : Z) (nonce : jsval) (balances : list Z)
  : M (list TSigner * list (M ITransactionResult)) :=
  match balances with
  | [] => mreturn ([], [])
  | balance :: balances' =>
      recipient ← new_account format;
      if balance =? 0 then
        ' (accounts, transactions) ← fund_all donor format tokenNominal nonce balances';
        mreturn (recipient :: accounts, transactions)
      else
        tx ← funding donor recipient (balance * tokenNominal) nonce;
        ' (accounts, transactions) ← fund_all donor format tokenNominal (increment nonce) balances';
        mreturn (recipient :: accounts, tx :: transactions)
  end.

Definition has_balance (account : TSigner) (amount : Z) : M bool :=
  balance ← SubstrateBalanceGroup.getSubstrate helper (address account);
  mreturn (strict_eq balance (JBig amount)).

Fixpoint checkBalances (tokenNominal : Z) (expected : list (TSigner * Z)) : M bool :=
  match expected with
  | [] => mreturn true
  | (account, balance) :: expected' =>
      b ← has_balance account (balance * tokenNominal);
      if (b : bool) then checkBalances tokenNominal expected' else mreturn false
  end.

(** Check, and wait for another block, for a number of rounds. *)
Fixpoint await_balances (rounds : nat) (tokenNominal : Z) (expected : list (TSigner * Z)) : M bool :=
  match rounds with
  | O => mreturn false
  | S rounds' =>
      accountsCreated ← checkBalances tokenNominal expected;
      if (accountsCreated : bool) then mreturn true
      else
        WaitGroup.newBlocks helper 1 None;;
        await_balances rounds' tokenNominal expected
  end.

(** The timestamp of a block. *)
Definition findCreationDate (block : jsval) : Res jsval :=
  b ← get_prop block (js "block");
  extrinsics ← get_prop b (js "extrinsics");
  l ← elements extrinsics;
  methods ← map_out (fun ext => m ← get_prop ext (js "method"); call0 m (js "toHuman")) l;
  for_each (fun date method =>
    section ← get_prop method (js "section");
    if strict_eq section (JStr (js "timestamp")) then
      args ← get_prop method (js "args");
      now ← get_prop args (js "now");
      match now with
      | JStr s => Ret (JNum (to_number (JStr (remove_commas s))))
      | _ => Throw EngineError
      end
    else Ret date) JUndef methods.

Definition get_block (blockNumber : jsval) : M jsval :=
  h ← callRpc helper (js "api.rpc.chain.getBlockHash") [blockNumber];
  callRpc helper (js "api.rpc.chain.getBlock") [h].

Definition current_block : M jsval := query helper (js "api.query.system.number") [] (js "toJSON").

Definition isDevNode : M bool :=
  blockNumber ← current_block;
  blockNumber ← (if loose_num blockNumber 0 then
                   WaitGroup.newBlocks helper 1 None;; current_block
                 else mreturn blockNumber);
  block2 ← get_block blockNumber;
  previous ← lift (js_sub blockNumber (JNum (Int 1)));
  block1 ← get_block previous;
  block1date ← lift (findCreationDate block1);
  block2date ← lift (findCreationDate block2);
  d ← lift (js_sub block2date block1date);
  mreturn (js_lt d (JNum (Int 9000))).

Definition createAccounts (balances : list Z) (donor : TSigner) : M (list TSigner) :=
  nonce ← ChainGroup.getNonce helper (address donor);
  format ← chain_format;
  tokenNominal ← BalanceGroup.getOneTokenNominal helper;
  ' (accounts, transactions) ← fund_all donor format tokenNominal nonce balances;
  all_caught transactions;;
  dev ← isDevNode;
  accountsCreated ← await_balances (if (dev : bool) then 50 else 5)%nat tokenNominal
                      (combine accounts balances);
  if (accountsCreated : bool) then mreturn accounts
  else throw (JSError (js "Accounts generation failed")).

(** One attempt at the accounts [i], ..., [i + count - 1] of a crowd: at account
    500 the transactions so far are awaited and the nonce is read again. *)
Fixpoint crowd_loop (donor : TSigner) (format : jsval) (withBalance tokenNominal : Z) (count : nat) (i : Z) (nonce : jsval)
  (transactions : list (M ITransactionResult)) (accounts : list TSigner)
  : M (list TSigner * list (M ITransactionResult)) :=
  match count with
  | O => mreturn (accounts, transactions)
  | S count' =>
      ' (nonce, transactions) ←
        (if i =? 500 then
           allSettled transactions;;
           nonce ← ChainGroup.getNonce helper (address donor);
           mreturn (nonce, [])
         else mreturn (nonce, transactions));
      recipient ← new_account format;
      if withBalance =? 0 then
        crowd_loop donor format withBalance tokenNominal count' (i + 1) nonce transactions (accounts ++ [recipient])
      else
        tx ← funding donor recipient (withBalance * tokenNominal) nonce;
        crowd_loop donor format withBalance tokenNominal count' (i + 1) (increment nonce) (transactions ++ [tx])
          (accounts ++ [recipient])
  end.

(** The accounts that have their balance. *)
Fixpoint fulfilled (amount : Z) (accounts : list TSigner) : M (list TSigner) :=
  match accounts with
  | [] => mreturn []
  | account :: accounts' =>
      b ← has_balance account amount;
      rest ← fulfilled amount accounts';
      mreturn (if (b : bool) then account :: rest else rest)
  end.

Definition createAsManyAsCan (accountsToCreate withBalance : Z) (donor : TSigner) : M (list TSigner) :=
  nonce ← ChainGroup.getNonce helper (address donor);
  tokenNominal ← BalanceGroup.getOneTokenNominal helper;
  format ← chain_format;
  ' (accounts, transactions) ←
    crowd_loop donor format withBalance tokenNominal (Z.to_nat accountsToCreate) 0 nonce [] [];
  allSettled transactions;;
  fulfilled (withBalance * tokenNominal) accounts.

Fixpoint crowd_tries (tries : nat) (accountsToCreate withBalance : Z) (donor : TSigner) (crowd : list TSigner)
  : M (list TSigner) :=
  let finish :=
    if accountsToCreate =? 0 then mreturn crowd
    else throw (JSError (js "Crowd generation failed: " ++ number_toString accountsToCreate
                         ++ js " accounts left")) in
  match tries with
  | O => finish
  | S tries' =>
      if accountsToCreate =? 0 then finish
      else
        asManyAsCan ← createAsManyAsCan accountsToCreate withBalance donor;
        crowd_tries tries' (accountsToCreate - Z.of_nat (length asManyAsCan)) withBalance donor
          (crowd ++ asManyAsCan)
  end.

Definition createCrowd (accountsToCreate withBalance : Z) (donor : TSigner) : M (list TSigner) :=
  crowd_tries 5 accountsToCreate withBalance donor [].

(** What running [promise] cost the payer. *)
Definition calculcateFee (payer : ICrossAccountId) (promise : M unit) : M jsval :=
  address ← match payer with
            | Substrate s => mreturn s
            | Ethereum e => ConnectedAddressGroup.ethToSubstrate helper e false
            end;
  balance ← SubstrateBalanceGroup.getSubstrate helper address;
  promise;;
  after ← SubstrateBalanceGroup.getSubstrate helper address;
  lift (js_sub balance after).

(** [encodeAddress(stringToU8a(('modl' + palletId).padEnd(32, '\0')), ss58Format)] *)
Definition calculatePalletAddress (palletId : jsval) : M jsstr :=
  let address := stringToU8a (padEnd 32 0 (js "modl" ++ to_string palletId)) in
  format ← chain_format;
  lift (encodeAddressChain address format).

(** The local [makeId]; [String.prototype.repeat] throws on a negative count. *)
Definition makeId (slider : Z) : Res jsstr :=
  let hexId := toString_radix 16 slider in
  let prefixSize := 64 - Z.of_nat (length hexId) in
  if prefixSize <? 0 then Throw EngineError
  else Ret (js "0x" ++ repeat_unit 48 (Z.to_nat prefixSize) ++ hexId).

(** The identifiers made and the new value of [scheduledIdSlider]. *)
Fixpoint make_ids (num : nat) (scheduledIdSlider : Z) : Res (list jsstr) * Z :=
  match num with
  | O => (Ret [], scheduledIdSlider)
  | S num' =>
      match makeId scheduledIdSlider with
      | Ret id =>
          let '(ids, slider) := make_ids num' (scheduledIdSlider + 1) in
          (cons id <$> ids, slider)
      | Throw e => (Throw e, scheduledIdSlider)
      | Pending => (Pending, scheduledIdSlider)
      end
  end.

Definition makeScheduledIds (num : Z) (scheduledIdSlider : Z) : Res (list jsstr) * Z :=
  make_ids (Z.to_nat num) scheduledIdSlider.

Definition makeScheduledId (scheduledIdSlider : Z) : Res (option jsstr) * Z :=
  let '(ids, slider) := makeScheduledIds 1 scheduledIdSlider in
  (head <$> ids, slider).

Definition captureEvents (eventSection eventMethod : jsstr) : M EventCapture.EventCapture :=
  api ← getApi helper;
  world_call (api_subscribe api (map js ["query"; "system"; "events"]%string));;
  mreturn (EventCapture.startCapture (EventCapture.constructor eventSection eventMethod)).

(** *** XCM programs *)

Definition xcm_program (instructions : list (string * jsval)) : jsval :=
  obj [(js "V4", JArr (map (fun kv => obj [(js kv.1, kv.2)]) instructions))].

Definition fungible_asset (id : jsval) (amount : Z) : jsval :=
  obj [(js "id", id); (js "fun", obj [(js "Fungible", JBig amount)])].

(** [BuyExecution] and [DepositAsset], which both programs end with. *)
Definition buy_execution (id : jsval) (amount : Z) : string * jsval :=
  ("BuyExecution"%string,
   obj [(js "fees", fungible_asset id amount); (js "weightLimit", JStr (js "Unlimited"))]).

Definition deposit_asset (beneficiary : jsval) : string * jsval :=
  ("DepositAsset"%string,
   obj [(js "assets", obj [(js "Wild", JStr (js "All"))]);
        (js "beneficiary",
         obj [(js "parents", JNum (Int 0));
              (js "interior",
               obj [(js "X1", JArr [obj [(js "AccountId32",
                       obj [(js "network", JNull); (js "id", beneficiary)])]])])])]).

Definition makeXcmProgramWithdrawDeposit (beneficiary id : jsval) (amount : Z) : jsval :=
  xcm_program [("WithdrawAsset"%string, JArr [fungible_asset id amount]);
               buy_execution id amount; deposit_asset beneficiary].

Definition makeXcmProgramReserveAssetDeposited (beneficiary id : jsval) (amount : Z) : jsval :=
  xcm_program [("ReserveAssetDeposited"%string, JArr [fungible_asset id amount]);
               buy_execution id amount; deposit_asset beneficiary].

Definition makeUnpaidSudoTransactProgram (weightMultiplier : Z) (call : jsstr) : jsval :=
  xcm_program
    [("UnpaidExecution"%string,
      obj [(js "weightLimit", JStr (js "Unlimited")); (js "checkOrigin", JNull)]);
     ("Transact"%string,
      obj [(js "originKind", JStr (js "Superuser"));
           (js "requireWeightAtMost",
            obj [(js "refTime", JNum (Int (weightMultiplier * 200000000)));
                 (js "proofSize", JNum (Int (weightMultiplier * 3000)))]);
           (js "call", obj [(js "encoded", JStr call)])])].

End ArrangeGroup.
End ArrangeGroup.

(** ** Proposals on other chains *)

Module MoonbeamAccountGroup.
Section MoonbeamAccountGroup.
Context {N : NodeApi} {C : Crypto}.

Definition alithAccount : TSigner :=
  addFromUriEthereum (js "0x5fb92d6e98884f76de468fa3f6278f8807c48bebc13595d45af5bdc4da702133").
Definition baltatharAccount : TSigner :=
  addFromUriEthereum (js "0x8075991ce870b93a8870eca0c0f91913d12f47948ca0fd25b49c6fa7cdbeee8b").
Definition dorothyAccount : TSigner :=
  addFromUriEthereum (js "0x39539ab1876910bbf3a223d84a29e28f1cb4e2e456503e7e91ed39b2e7223d68").
Definition create : M TSigner := seed ← world_new mnemonicGenerate; mreturn (addFromUriEthereum seed).

End MoonbeamAccountGroup.
End MoonbeamAccountGroup.

Section Proposals.
Context {N : NodeApi} {C : Crypto}.
Variable helper : nat.

(** A call, its hash and its encoded length. *)
Definition hashed_call (call : jsval) : Res (jsstr * jsval) :=
  encodedCall ← MoonbeamAssetManagerGroup.encoded call;
  encodedLength ← get_prop call (js "encodedLength");
  Ret (blake2AsHex (to_string encodedCall), encodedLength).

(** [await proposalCount() - 1] *)
Definition before_number (n : number) : number :=
  match n with Int z => Int (z - 1) | NaN => NaN end.

Definition closing_weight : jsval :=
  obj [(js "refTime", JNum (Int 1000000000)); (js "proofSize", JNum (Int 1000000))].

Definition full_vote : DemocracyStandardAccountVote := mkAccountVote 10000000000000000000 true 1.

(** [event => event.referendumIndex == referendumIndex] *)
Definition same_referendum (referendumIndex event : jsval) : Res bool :=
  r ← get_prop event (js "referendumIndex"); Ret (loose_eq r referendumIndex).

End Proposals.

Module MoonbeamFastDemocracyGroup.
Section MoonbeamFastDemocracyGroup.
Context {N : NodeApi} {C : Crypto}.
Variable helper : nat.
Import MoonbeamAccountGroup.

Definition council : jsstr := Xcm.council MoonbeamHelper.collective.
Definition techCommittee : jsstr := Xcm.techCommittee MoonbeamHelper.collective.

Definition executeProposal (encodedProposal : jsstr) : M unit :=
  let proposalHash := blake2AsHex encodedProposal in
  externalMotion ← Xcm.MoonbeamDemocracyGroup.externalProposeMajority helper
    (obj [(js "Inline", JStr encodedProposal)]);
  ' (motionHash, motionLength) ← lift (hashed_call externalMotion);
  MoonbeamCollectiveGroup.propose helper council baltatharAccount 2 externalMotion motionLength;;
  n ← MoonbeamCollectiveGroup.proposalCount helper council;
  let councilProposalIdx := before_number n in
  MoonbeamCollectiveGroup.vote helper council dorothyAccount motionHash councilProposalIdx true;;
  MoonbeamCollectiveGroup.vote helper council baltatharAccount motionHash councilProposalIdx true;;
  MoonbeamCollectiveGroup.close helper council dorothyAccount motionHash councilProposalIdx
    closing_weight motionLength;;
  fastTrack ← Xcm.MoonbeamDemocracyGroup.fastTrack helper proposalHash 3 0;
  ' (fastTrackHash, fastTrackLength) ← lift (hashed_call fastTrack);
  MoonbeamCollectiveGroup.propose helper techCommittee alithAccount 2 fastTrack fastTrackLength;;
  n ← MoonbeamCollectiveGroup.proposalCount helper techCommittee;
  let techProposalIdx := before_number n in
  MoonbeamCollectiveGroup.vote helper techCommittee baltatharAccount fastTrackHash techProposalIdx true;;
  MoonbeamCollectiveGroup.vote helper techCommittee alithAccount fastTrackHash techProposalIdx true;;
  MoonbeamCollectiveGroup.close helper techCommittee baltatharAccount fastTrackHash techProposalIdx
    closing_weight fastTrackLength;;
  democracyStarted ← WaitGroup.expectEvent helper 3 Democracy.Started WaitGroup.accept_all;
  referendumIndex ← lift (get_prop democracyStarted (js "referendumIndex"));
  Xcm.MoonbeamDemocracyGroup.referendumVote helper dorothyAccount referendumIndex full_vote;;
  WaitGroup.expectEvent helper 3 Democracy.Passed (same_referendum referendumIndex);;
  WaitGroup.newBlocks helper 1 None.

End MoonbeamFastDemocracyGroup.
End MoonbeamFastDemocracyGroup.

Module HydraFastDemocracyGroup.
Section HydraFastDemocracyGroup.
Context {N : NodeApi} {C : Crypto}.
Variable helper : nat.

Definition council : jsstr := Xcm.council HydraDxHelper.collective.
Definition techCommittee : jsstr := Xcm.techCommittee HydraDxHelper.collective.

Definition executeProposal (encodedProposal : jsstr) : M unit :=
  let proposalHash := blake2AsHex encodedProposal in
  let aliceAccount := UniqueUtil.fromSeed (js "//Alice") 42 in
  let bobAccount := UniqueUtil.fromSeed (js "//Bob") 42 in
  let eveAccount := UniqueUtil.fromSeed (js "//Eve") 42 in
  externalMotion ← Xcm.DemocracyGroup.externalProposeMajority helper
    (obj [(js "Inline", JStr encodedProposal)]);
  ' (_, motionLength) ← lift (hashed_call externalMotion);
  Xcm.CollectiveGroup.propose helper council aliceAccount 1 externalMotion motionLength;;
  fastTrack ← Xcm.DemocracyGroup.fastTrack helper proposalHash 10 0;
  ' (fastTrackHash, fastTrackLength) ← lift (hashed_call fastTrack);
  Xcm.CollectiveGroup.propose helper techCommittee aliceAccount 3 fastTrack fastTrackLength;;
  n ← Xcm.CollectiveGroup.proposalCount helper techCommittee;
  let techProposalIdx := before_number n in
  Xcm.CollectiveGroup.vote helper techCommittee aliceAccount fastTrackHash techProposalIdx true;;
  Xcm.CollectiveGroup.vote helper techCommittee bobAccount fastTrackHash techProposalIdx true;;
  Xcm.CollectiveGroup.vote helper techCommittee eveAccount fastTrackHash techProposalIdx true;;
  closeResult ← Xcm.CollectiveGroup.close helper techCommittee bobAccount fastTrackHash techProposalIdx
    closing_weight fastTrackLength;
  democracyStarted ← lift (EventHelper.expect Democracy.Started closeResult);
  referendumIndex ← lift (get_prop democracyStarted (js "referendumIndex"));
  Xcm.DemocracyGroup.referendumVote helper eveAccount referendumIndex full_vote;;
  WaitGroup.expectEvent helper 10 Democracy.Passed (same_referendum referendumIndex);;
  WaitGroup.newBlocks helper 1 None.

End HydraFastDemocracyGroup.
End HydraFastDemocracyGroup.
