(* ===== verification/GovernanceFacts.v ===== *)
(** * What the governance helpers and the typed events guarantee *)

From Stdlib Require Import Ascii String.
From stdpp Require Import list.
From S2P Require Import Prelude JsString JsValue Chain Address Util Helper HelperFacts Collections.
From S2P Require Import Governance Dev.

Open Scope Z_scope.
Open Scope js_scope.

Section Collective.
Context {N : NodeApi} {C : Crypto}.
Variables (helper : nat) (collective : jsstr).
Import CollectiveGroup.
Implicit Types (e : EventRecord) (events : list EventRecord).

(** [e] is the only execution event of the collective. *)
Definition sole_execution events e : Prop := filterb (is_execution collective) events = [e].

(** The call of the proposal went through. *)
Definition executed_well e : Prop :=
  exists isErr, get_prop (execution_result e) (js "isErr") = Ret isErr /\ truthy isErr = false.

Lemma checkExecutedEvent_Ret events p s s' :
  checkExecutedEvent helper collective events s = (Ret p, s')
  <-> s' = s /\ exists e, sole_execution events e /\ executed_well e /\ p = proposalHash e.
Proof.
  unfold checkExecutedEvent, sole_execution, executed_well.
  destruct (filterb (is_execution collective) events) as [|e [|e' l]] eqn:E.
  - split; [by destruct (existsb _ _)|intros (_ & e & ? & _); discriminate].
  - split.
    + intros H. run_inv. destruct (truthy a) eqn:Ht.
      * run_inv. destruct (truthy a1); run_inv; repeat case_match; by run_inv.
      * run_inv. split; [done|]. exists e. eauto.
    + intros (-> & e1 & [= <-] & (isErr & Hi & Ht) & ->).
      rewrite (bind_Ret _ _ s isErr s) by (unfold lift; by rewrite Hi). by rewrite Ht.
  - split; [by destruct (existsb _ _)|intros (_ & e1 & ? & _); discriminate].
Qed.

Lemma checkExecutedEvent_disapproved events s :
  (forall e, ~ sole_execution events e) ->
  existsb (is_event collective (js "Disapproved")) events = true ->
  checkExecutedEvent helper collective events s
  = (Throw (JSError (js "Disapproved by " ++ collective)), s).
Proof.
  unfold checkExecutedEvent, sole_execution. intros Hn ->.
  destruct (filterb _ events) as [|e [|e' l]]; [done| |done]. by destruct (Hn e).
Qed.

(** C29: [close] returns only when the transaction's events hold exactly one
    [Executed] or [MemberExecuted] event of this collective and the proposal's
    call succeeded, and it returns the transaction's result unchanged; a closing
    that reports a disapproval instead throws. *)
Theorem close_verdict signer hash idx weight len s :
  (forall r s', close helper collective signer hash idx weight len s = (Ret r, s') ->
     exec helper signer (tx_of collective "close")
       [JStr hash; JNum (Int idx); weight; JNum (Int len)] s = (Ret r, s')
     /\ exists e, sole_execution (tr_events r) e /\ executed_well e)
  /\ (forall r s1, exec helper signer (tx_of collective "close")
                     [JStr hash; JNum (Int idx); weight; JNum (Int len)] s = (Ret r, s1) ->
      (forall e, sole_execution (tr_events r) e -> executed_well e ->
         close helper collective signer hash idx weight len s = (Ret r, s1))
      /\ ((forall e, ~ sole_execution (tr_events r) e) ->
          existsb (is_event collective (js "Disapproved")) (tr_events r) = true ->
          close helper collective signer hash idx weight len s
          = (Throw (JSError (js "Disapproved by " ++ collective)), s1))).
Proof.
  unfold close. split.
  - intros r s' H. apply bind_Ret_inv in H as (r0 & s1 & Hx & H).
    apply bind_Ret_inv in H as (p & s2 & Hc & H).
    apply checkExecutedEvent_Ret in Hc as (-> & e & ? & ? & _). run_inv. eauto.
  - intros r s1 Hx. rewrite (bind_Ret _ _ _ _ _ Hx). split.
    + intros e He Hw.
      assert (checkExecutedEvent helper collective (tr_events r) s1 = (Ret (proposalHash e), s1)) as Hc
        by (apply checkExecutedEvent_Ret; eauto).
      by rewrite (bind_Ret _ _ _ _ _ Hc).
    + intros Hn Hd. by rewrite (bind_Throw _ _ _ _ _ (checkExecutedEvent_disapproved _ _ Hn Hd)).
Qed.

End Collective.

(** ** Public proposals *)

Section Democracy.
Context {N : NodeApi} {C : Crypto}.
Variable helper : nat.
Import DemocracyGroup.

(** A public proposal as the node lists it: index, call and proposer. *)
Definition public_proposal (p : Z * jsval * jsval) : jsval :=
  JArr [JNum (Int p.1.1); p.1.2; p.2].

Lemma find_proposal_spec i (l : list (Z * jsval * jsval)) :
  find_proposal i (map public_proposal l)
  = Ret match List.find (fun p => p.1.1 =? i) l with Some p => p.1.2 | None => JNull end.
Proof.
  induction l as [|[[j c] who] l IH]; [done|].
  cbn [map find_proposal List.find public_proposal fst snd]. cbn.
  destruct (j =? i); [done|]. exact IH.
Qed.

(** [expectPublicProposal] returns the call of the first listed public
    proposal that carries the index, and throws when no proposal does. *)
Theorem expectPublicProposal_first s s' i (l : list (Z * jsval * jsval)) :
  query helper (js "api.query.democracy.publicProps") [] (js "toJSON") s
    = (Ret (JArr (map public_proposal l)), s') ->
  Forall (fun p => truthy p.1.2 = true) l ->
  expectPublicProposal helper i s
  = (match List.find (fun p => p.1.1 =? i) l with
     | Some p => Ret p.1.2
     | None => Throw (JSError (js "Proposal #" ++ number_toString i ++ js " is expected to exist"))
     end, s').
Proof.
  intros Hq Ht. unfold expectPublicProposal, findPublicProposal, publicProposals.
  assert ((props ← query helper (js "api.query.democracy.publicProps") [] (js "toJSON");
           l ← lift (elements props); lift (find_proposal i l)) s
          = (Ret match List.find (fun p => p.1.1 =? i) l with Some p => p.1.2 | None => JNull end, s')) as Hf.
  { rewrite (bind_Ret _ _ _ _ _ Hq). cbn [elements].
    rewrite (bind_Ret _ _ s' (map public_proposal l) s') by done.
    unfold lift. by rewrite find_proposal_spec. }
  rewrite (bind_Ret _ _ _ _ _ Hf).
  destruct (List.find _ l) as [p|] eqn:E; [|done].
  apply List.find_some in E as [Hin _]. apply list_elem_of_In in Hin.
  rewrite Forall_forall in Ht. by rewrite (Ht p Hin).
Qed.

End Democracy.

(** ** Typed events *)

Section Events.
Implicit Types (h : IEventHelper) (r : ITransactionResult).

Lemma expect_Ret h r v : EventHelper.expect h r = Ret v ->
  truthy v = true
  /\ exists e, findb (EventHelper.selects h) (tr_events r) = Some e /\ wrapEvent h (data e) = Ret v.
Proof.
  unfold EventHelper.expect, EventHelper.find.
  destruct (findb _ _) as [e|]; cbn; [|done].
  destruct (wrapEvent h (data e)) as [w|x|] eqn:Hw; cbn; [|done..].
  destruct (truthy w) eqn:Ht; [|done]. intros [= <-]. eauto.
Qed.

Lemma wrap_no_undefined fields d v : wrap fields d = Ret v -> truthy v = true.
Proof. unfold wrap. destruct (map_out _ _); cbn; [|done..]. by intros [= <-]. Qed.

(** An event type declared without a wrapper can never be expected: whatever
    the transaction's events are, [Event.Democracy.ExternalTabled.expect] throws
    that the event is missing, even when it is there; the types with a wrapper
    return the wrapped first event. *)
Theorem external_tabled_never_expected r :
  EventHelper.expect Democracy.ExternalTabled r
  = Throw (JSError (js "Expected event democracy.ExternalTabled"))
  /\ forall section name fields v,
       EventHelper.expect (Method section name (wrap fields)) r = Ret v <->
       exists e, findb (is_event (js section) (js name)) (tr_events r) = Some e
         /\ wrap fields (data e) = Ret v.
Proof.
  split.
  - unfold EventHelper.expect, EventHelper.find. by destruct (findb _ _).
  - intros section name fields v. split.
    + by intros [_ H]%expect_Ret.
    + intros (e & He & Hw). unfold EventHelper.expect, EventHelper.find.
      change (findb (EventHelper.selects _) (tr_events r)) with (findb (is_event (js section) (js name)) (tr_events r)).
      rewrite He. cbn [Method wrapEvent]. rewrite Hw. cbn.
      by rewrite (wrap_no_undefined _ _ _ Hw).
Qed.

End Events.
