(* ===== verification/WaitFacts.v ===== *)
(** * What waiting guarantees *)

From Stdlib Require Import Ascii String.
From stdpp Require Import list.
From S2P Require Import Prelude JsString JsValue Chain Address Util Helper HelperFacts Collections Dev Wait.

Open Scope Z_scope.
Open Scope js_scope.

Import WaitGroup.

(** ** The polling loop *)

Section Polling.
Implicit Types (t timeout totalTime : Z) (fuel : nat).

(** The first check of the loop at or after a time; the check at 0 does not
    count. *)
Definition tick t : Z := step * Z.max 1 ((t + (step - 1)) / step).

Lemma tick_mult t : exists k, tick t = step * k /\ 1 <= k.
Proof. eexists. split; [reflexivity|lia]. Qed.

Lemma tick_spec t k : 1 <= k -> (t <= step * k <-> tick t <= step * k).
Proof.
  unfold tick, step. intros Hk.
  pose proof (Z.div_mod (t + (100 - 1)) 100 ltac:(lia)).
  pose proof (Z.mod_pos_bound (t + (100 - 1)) 100 ltac:(lia)). lia.
Qed.

Lemma tick_ge t : t <= tick t.
Proof. destruct (tick_mult t) as (k & E & Hk). rewrite E. apply tick_spec; lia. Qed.

(** A round that starts before the deadline reaches it or has another one to
    go. *)
Lemma next_round timeout k : 0 <= k -> step * k < tick timeout ->
  if timeout <=? step * k + step then tick timeout = step * (k + 1) else step * (k + 1) < tick timeout.
Proof.
  intros Hk Hd. pose proof (tick_spec timeout (k + 1) ltac:(lia)) as Hs.
  destruct (tick_mult timeout) as (d & E & Hd1). rewrite E in *. unfold step in *.
  destruct (Z.leb_spec timeout (100 * k + 100)); lia.
Qed.

(** The check at a round. *)
Lemma isBlock_round {A} t (o : Res A) k : 0 <= k -> step * k <= tick t ->
  isBlock (Some (t, o)) (step * k) = (step * k =? tick t).
Proof.
  intros Hk Ht. unfold isBlock. destruct (tick_mult t) as (d & E & Hd).
  destruct (decide (k = 0)) as [->|Hne].
  - rewrite E. unfold step. symmetry. rewrite Z.mul_0_r. cbn [Z.ltb andb]. apply Z.eqb_neq. lia.
  - pose proof (tick_spec t k ltac:(lia)) as Hs. rewrite E in *. unfold step in *.
    rewrite (proj2 (Z.ltb_lt _ _)) by lia. cbn [andb].
    destruct (Z.leb_spec t (100 * k)), (Z.eqb_spec (100 * k) (100 * d)); lia || done.
Qed.

(** From any round up to the promise's, the loop ends at the promise's first
    check when that lies before the timeout, and at the deadline otherwise. *)
Lemma poll_settled {A} fuel t (o : Res A) timeout : forall k, 0 <= k ->
  step * k <= tick t -> step * k < tick timeout -> tick timeout <= step * k + step * Z.of_nat fuel ->
  poll fuel (Some (t, o)) timeout (step * k)
  = Some (if tick t <? tick timeout then (tick t, true) else (tick timeout, false)).
Proof.
  induction fuel as [|fuel IH]; intros k Hk Ht Hd Hf; [lia|]. cbn [poll].
  rewrite isBlock_round by done. destruct (Z.eqb_spec (step * k) (tick t)) as [E|Hne].
  - rewrite <- E. by rewrite (proj2 (Z.ltb_lt _ _)).
  - pose proof (next_round timeout k Hk Hd) as Hn.
    assert (step * (k + 1) <= tick t) as Ht'.
    { destruct (tick_mult t) as (d & E & _). rewrite E in *. unfold step in *. lia. }
    replace (step * k + step) with (step * (k + 1)) in * by lia.
    destruct (timeout <=? step * (k + 1)).
    + rewrite Hn. by rewrite (proj2 (Z.ltb_ge _ _)).
    + apply IH; unfold step in *; lia.
Qed.

Lemma poll_open {A} fuel timeout : forall k, 0 <= k ->
  step * k < tick timeout -> tick timeout <= step * k + step * Z.of_nat fuel ->
  poll fuel (None : Promise A) timeout (step * k) = Some (tick timeout, false).
Proof.
  induction fuel as [|fuel IH]; intros k Hk Hd Hf; [lia|]. cbn [poll isBlock].
  pose proof (next_round timeout k Hk Hd) as Hn.
  replace (step * k + step) with (step * (k + 1)) in * by lia.
  destruct (timeout <=? step * (k + 1)); [by rewrite Hn|]. apply IH; unfold step in *; lia.
Qed.

Lemma fuel_enough timeout : tick timeout <= step * Z.of_nat (poll_fuel timeout).
Proof.
  unfold poll_fuel. rewrite Nat2Z.inj_succ. destruct (tick_mult timeout) as (d & E & Hd).
  pose proof (tick_spec timeout (Z.succ (Z.of_nat (Z.to_nat (timeout / step))))) as Hs.
  apply Hs; [lia|]. unfold step.
  pose proof (Z.div_mod timeout 100 ltac:(lia)). pose proof (Z.mod_pos_bound timeout 100 ltac:(lia)). lia.
Qed.

Lemma tick_pos t : 0 < tick t.
Proof. destruct (tick_mult t) as (k & E & Hk). rewrite E. unfold step. lia. Qed.

Lemma watch_spec {A} (p : Promise A) timeout :
  watch p timeout =
  match p with
  | Some (t, _) => if tick t <? tick timeout then (tick t, true) else (tick timeout, false)
  | None => (tick timeout, false)
  end.
Proof.
  unfold watch. pose proof (fuel_enough timeout) as Hf. pose proof (tick_pos timeout).
  change 0 with (step * 0). destruct p as [[t o]|].
  - rewrite poll_settled; [done|lia|pose proof (tick_pos t); lia|lia|lia].
  - by rewrite poll_open by lia.
Qed.

End Polling.

Section Waiting.
Context {N : NodeApi} {C : Crypto}.
Variable helper : nat.

(** The state after some time. *)
Definition later (milliseconds : Z) (s : State) : State :=
  mkState (st_helpers s) (st_logger s) (elapse milliseconds (st_world s)).

Lemma pass_run ms s : pass ms s = (Ret tt, later ms s).
Proof. done. Qed.

Lemma waitWithTimeout_run {A} (p : Promise A) timeout s :
  waitWithTimeout p timeout s =
  match p with
  | Some (t, o) =>
      if tick t <? tick timeout then (o, later (tick t) s)
      else (Throw (JSError (js "Timeout " ++ number_toString timeout ++ js " ms")), later (tick timeout) s)
  | None => (Throw (JSError (js "Timeout " ++ number_toString timeout ++ js " ms")), later (tick timeout) s)
  end.
Proof.
  unfold waitWithTimeout. rewrite watch_spec. destruct p as [[t o]|]; [|done].
  by destruct (tick t <? tick timeout).
Qed.

(** C11: [waitWithTimeout] looks at the promise every 100 ms, first after 100 ms:
    it hands the promise's outcome on at the first look at or after its
    settlement when that look comes before the first multiple of 100 ms that
    reaches the timeout; in every other case, also when the promise settled in
    the last 100 ms before the timeout, it ends there with the timeout error. It
    never stays open. *)
Theorem waitWithTimeout_exact {A} (p : Promise A) timeout s :
  let look ms := 100 * Z.max 1 ((ms + 99) / 100) in
  waitWithTimeout p timeout s =
  match p with
  | Some (t, o) =>
      if look t <? look timeout then (o, later (look t) s)
      else (Throw (JSError (js "Timeout " ++ number_toString timeout ++ js " ms")), later (look timeout) s)
  | None => (Throw (JSError (js "Timeout " ++ number_toString timeout ++ js " ms")), later (look timeout) s)
  end.
Proof. apply waitWithTimeout_run. Qed.

(** ** Blocks *)

Lemma counted_lookup (heads : list (Z * jsval)) : forall n, 0 <= n ->
  counted n heads = fst <$> heads !! Z.to_nat n.
Proof.
  induction heads as [|[t v] heads IH]; intros n Hn; cbn [counted]; [by rewrite lookup_nil|].
  destruct (Z.ltb_spec 0 n) as [Hp|Hp].
  - rewrite IH by lia. by replace (Z.to_nat n) with (S (Z.to_nat (n - 1))) by lia.
  - by replace n with 0 by lia.
Qed.

Lemma subscription_Ret path s : exists heads s', subscription helper path s = (Ret heads, s').
Proof.
  unfold subscription, unobserved.
  match goal with |- context [match ?m with (_, _) => _ end] => destruct m as [[] ?] end; eauto.
Qed.

(** The run of [newBlocks], with the time it took. *)
Lemma newBlocks_timed_run n timeout s heads s1 :
  0 <= n -> subscription helper new_heads s = (Ret heads, s1) ->
  let limit := default (n * 60000) timeout in
  match heads !! Z.to_nat n with
  | Some (t, _) =>
      if tick t <? tick limit then newBlocks_timed helper n timeout s = (Ret (tick t), later (tick t) s1)
      else exists e, newBlocks_timed helper n timeout s = (Throw (JSError e), later (tick limit) s1)
  | None => exists e, newBlocks_timed helper n timeout s = (Throw (JSError e), later (tick limit) s1)
  end.
Proof.
  intros Hn Hs limit. unfold newBlocks_timed. fold limit. rewrite (bind_Ret _ _ _ _ _ Hs).
  unfold catch. cbn [bind M_monad]. rewrite waitWithTimeout_run, counted_lookup, watch_spec by done.
  destruct (heads !! Z.to_nat n) as [[t v]|]; cbn; [destruct (tick t <? tick limit)|]; cbn; eauto.
Qed.

(** C12: [newBlocks] of [n] blocks waits for [n + 1] new heads: it returns exactly
    when the subscription delivers the head number [n + 1] in time, at the first
    100 ms look after that head, and it throws in every other case; it never
    stays open, not even when the client is not connected. *)
Theorem newBlocks_waits_one_more n timeout s heads s1 :
  0 <= n -> subscription helper new_heads s = (Ret heads, s1) ->
  let limit := default (n * 60000) timeout in
  match heads !! Z.to_nat n with
  | Some (t, _) =>
      if tick t <? tick limit then newBlocks helper n timeout s = (Ret tt, later (tick t) s1)
      else exists e, newBlocks helper n timeout s = (Throw (JSError e), later (tick limit) s1)
  | None => exists e, newBlocks helper n timeout s = (Throw (JSError e), later (tick limit) s1)
  end.
Proof.
  intros Hn Hs limit. pose proof (newBlocks_timed_run n timeout s heads s1 Hn Hs) as H. cbv zeta in H. fold limit in H.
  unfold newBlocks. destruct (heads !! Z.to_nat n) as [[t v]|]; [destruct (tick t <? tick limit)|].
  - by rewrite (bind_Ret _ _ _ _ _ H).
  - destruct H as [e H]. rewrite (bind_Throw _ _ _ _ _ H). eauto.
  - destruct H as [e H]. rewrite (bind_Throw _ _ _ _ _ H). eauto.
Qed.

(** ** Events *)

(** A record of the block whose head a subscription delivered: an event of the
    library's view of the chain at the head's hash. *)
Definition in_block_of (header : jsval) (r : EventRecord) : Prop :=
  exists hash api w0 apiAt w1 w2 records w3,
    get_prop header (js "hash") = Ret hash /\ api_at api hash w0 = (Ret apiAt, w1)
    /\ events_at apiAt w2 = (Ret records, w3) /\ r ∈ records.

Lemma world_call_Ret {A} (f : World -> Lib A * World) s a s' :
  world_call f s = (Ret a, s') -> exists w w', f w = (Ret a, w').
Proof.
  unfold world_call. destruct (f (st_world s)) as [[x|e|] w] eqn:E; [|done..].
  intros [= -> <-]. eauto.
Qed.

Lemma find_out_Some {A} (p : A -> Res bool) l a : find_out p l = Ret (Some a) -> a ∈ l /\ p a = Ret true.
Proof.
  induction l as [|x l IH]; cbn; [done|]. destruct (p x) as [[]|e|] eqn:Hx; cbn; [|intros H|done..].
  - intros [= <-]. split; [left|done].
  - destruct (IH H). split; [by right|done].
Qed.

(** The callback of [event] finds only wrapped records of the head's block that
    the filter accepts. *)
Lemma on_head_found eh filter max header s v s' :
  on_head helper eh filter max header s = (Ret (inl v), s') -> v <> JNull ->
  exists r, in_block_of header r /\ EventHelper.selects eh r = true /\ wrapEvent eh (data r) = Ret v
    /\ filter v = Ret true /\ truthy v = true.
Proof.
  intros H Hv. unfold on_head in H. run_inv.
  repeat match goal with H : world_call _ _ = (Ret _, _) |- _ => apply world_call_Ret in H as (? & ? & ?) end.
  match goal with H : find_out filter ?l = Ret ?o |- _ => rename H into Hf; rename o into found; rename l into wrapped end.
  match goal with H : map_out _ _ = Ret wrapped |- _ => rename H into Hm end.
  destruct (truthy (default JUndef found)) eqn:Ht; run_inv; simplify_eq.
  2:{ destruct (0 <? max); run_inv; simplify_eq. }
  destruct found as [v|]; [|done]. cbn [default from_option id] in *.
  apply find_out_Some in Hf as [Hin Hfv]. apply map_out_Ret_Forall2 in Hm.
  apply list_elem_of_lookup in Hin as [i Hi].
  destruct (Forall2_lookup_r _ _ _ _ _ Hm Hi) as (r & Hr & Hw).
  apply list_elem_of_lookup_2, list_elem_of_In, List.filter_In in Hr as [Hr Hs].
  exists r. split_and!; [|done..]. apply list_elem_of_In in Hr.
  unfold in_block_of. do 8 eexists. eauto.
Qed.

Lemma each_head_inv {A B} (cb : B -> jsval -> M (A + B)) heads : forall b t0 s a s',
  each_head cb b t0 heads s = (Ret a, s') ->
  exists b1 header s1 s2, header ∈ heads.*2 /\ cb b1 header s1 = (Ret (inl a), s2).
Proof.
  induction heads as [|[t header] heads IH]; intros b t0 s a s' H; cbn [each_head] in H; [done|].
  apply bind_Ret_inv in H as ([] & s1 & _ & H). apply bind_Ret_inv in H as (r & s2 & Hu & H).
  unfold unobserved in Hu. destruct (cb b header s1) as [[x|e|] s3] eqn:Hc; cbn in Hu; injection Hu as <- ->.
  2,3: apply IH in H as (b1 & h & u1 & u2 & Hin & Hh); exists b1, h, u1, u2; split; [by right|done].
  destruct x as [a'|b'].
  - injection H as ->  ->. exists b, header, s1, s'. split; [left|done].
  - apply IH in H as (b1 & h & u1 & u2 & Hin & Hh). exists b1, h, u1, u2. split; [by right|done].
Qed.

(** C32: What [expectEvent] returns is the wrapped data of a record of the awaited
    type that the filter accepts, from the events of the block of one of the heads
    that its subscription delivered; an absent event is never returned. *)
Theorem expectEvent_sound max eh filter s v s' :
  expectEvent helper max eh filter s = (Ret v, s') ->
  exists heads s1 header r,
    subscription helper new_heads s = (Ret heads, s1) /\ header ∈ heads.*2 /\ in_block_of header r
    /\ EventHelper.selects eh r = true /\ wrapEvent eh (data r) = Ret v
    /\ filter v = Ret true /\ truthy v = true.
Proof.
  intros H. unfold expectEvent in H. apply bind_Ret_inv in H as (e & s1 & He & H).
  assert (e = v /\ e <> JNull) as [-> Hv] by (destruct e; run_inv; done).
  unfold event in He. apply bind_Ret_inv in He as (heads & s2 & Hs & He).
  apply each_head_inv in He as (b & header & u1 & u2 & Hh & Hc).
  destruct (on_head_found _ _ _ _ _ _ _ Hc Hv) as (r & Hr). by exists heads, s2, header, r.
Qed.

(** ** Sessions *)

(** One round of [newSessions]: the second of the heads that a new subscription
    delivers is seen, at a look before the 60 seconds that [newBlocks] allows for
    one block and before the block timeout, and the session index is read then. *)
Definition session_round (blockTimeout : Z) (s : State) (i : Z) (s2 : State) : Prop :=
  exists heads s1 t head,
    subscription helper new_heads s = (Ret heads, s1) /\ heads !! 1%nat = Some (t, head)
    /\ tick t < 60000 /\ tick t < blockTimeout
    /\ session_index helper (later (tick t) s1) = (Ret i, s2).

(** Successive rounds and the indexes they read. *)
Inductive session_rounds (blockTimeout : Z) : State -> list Z -> State -> Prop :=
  | rounds_none s : session_rounds blockTimeout s [] s
  | rounds_next s i s1 l s2 :
      session_round blockTimeout s i s1 -> session_rounds blockTimeout s1 l s2 ->
      session_rounds blockTimeout s (i :: l) s2.

(** The last index is the first that is far enough. *)
Definition first_reached (expected : Z) (l : list Z) : Prop :=
  exists before last, l = before ++ [last] /\ Forall (fun i => i < expected) before /\ expected <= last.

Definition stopped : exn := JSError (js "Error: The chain has stopped producing blocks!").

#[local] Ltac determined :=
  repeat match goal with
  | H1 : ?a = _, H2 : ?a = _ |- _ => rewrite H1 in H2; injection H2 as ?; simplify_eq
  end.

Lemma session_round_det bt s i s2 i' s2' :
  session_round bt s i s2 -> session_round bt s i' s2' -> i = i' /\ s2 = s2'.
Proof. intros (h & s1 & t & v & Hs & Hh & _ & _ & Hi) (h' & s1' & t' & v' & Hs' & Hh' & _ & _ & Hi'). by determined. Qed.

(** The race of a round against the block timeout. *)
Lemma round_outcome bt s :
  exists o s2,
    (p ← next_session_index helper; withTimeout p bt (js "The chain has stopped producing blocks!")) s = (o, s2)
    /\ ((exists i, o = Ret i /\ session_round bt s i s2)
        \/ (o = Throw stopped /\ forall i s3, ~ session_round bt s i s3)).
Proof.
  destruct (subscription_Ret new_heads s) as (heads & s1 & Hs).
  pose proof (newBlocks_timed_run 1 None s heads s1 ltac:(lia) Hs) as H. change (Z.to_nat 1) with 1%nat in H.
  cbv zeta in H. cbn [default from_option] in H. change (tick (1 * 60000)) with 60000 in H.
  assert ((exists e, newBlocks_timed helper 1 None s = (Throw (JSError e), later 60000 s1)) ->
    exists o s2,
      (p ← next_session_index helper; withTimeout p bt (js "The chain has stopped producing blocks!")) s = (o, s2)
      /\ o = Throw stopped) as Hlate.
  { intros [e He]. cbn [bind M_monad]. unfold next_session_index, unobserved.
    rewrite (bind_Throw _ _ _ _ _ He). eauto. }
  destruct (heads !! 1%nat) as [[t v]|] eqn:Eh.
  2:{ destruct (Hlate H) as (o & s2 & E & ->). exists (Throw stopped), s2. split; [done|]. right. split; [done|].
      intros i s3 (? & ? & ? & ? & ? & ? & _). determined. }
  destruct (Z.ltb_spec (tick t) 60000) as [Ht|Ht].
  2:{ destruct (Hlate H) as (o & s2 & E & ->). exists (Throw stopped), s2. split; [done|]. right. split; [done|].
      intros i s3 (? & ? & ? & ? & ? & ? & ? & _). determined. lia. }
  cbn [bind M_monad]. unfold next_session_index, unobserved. rewrite (bind_Ret _ _ _ _ _ H). cbn [bind M_monad].
  destruct (session_index helper (later (tick t) s1)) as [[i|e|] s2] eqn:Ei; cbn.
  2,3: eexists _, s2; split; [reflexivity|]; right; split; [done|];
    intros i s3 (? & ? & ? & ? & ? & ? & ? & ? & ?); by determined.
  unfold withTimeout, catch. destruct (Z.ltb_spec (tick t) bt) as [Hb|Hb]; cbn; eexists _, s2; (split; [reflexivity|]).
  - left. exists i. split; [done|]. by exists heads, s1, t, v.
  - right. split; [done|]. intros j s3 (? & ? & ? & ? & ? & ? & _ & ? & _). determined. lia.
Qed.

Lemma bind_bind {A B D} (m : M A) (k : A -> M B) (h : B -> M D) s :
  (bind m (fun a => bind (k a) h)) s = (bind (bind m k) h) s.
Proof. cbn [bind M_monad]. by destruct (m s) as [[]]. Qed.

(** How the loop ends, with the rounds it made. *)
Lemma await_session_outcome expected bt fuel : forall i s o s',
  await_session helper fuel expected bt i s = (o, s') ->
  exists l s1, session_rounds bt s l s1 /\
    match o with
    | Ret _ => s' = s1 /\ first_reached expected (i :: l) /\ (length l <= fuel)%nat
    | Throw e => e = stopped /\ Forall (fun j => j < expected) (i :: l) /\ (length l < fuel)%nat
                 /\ forall j s2, ~ session_round bt s1 j s2
    | Pending => Forall (fun j => j < expected) (i :: l) /\ length l = fuel
    end.
Proof.
  induction fuel as [|fuel IH]; intros i s o s' H; cbn [await_session] in H;
    destruct (Z.leb_spec expected i) as [Hi|Hi].
  1,3: injection H as <- <-; exists [], s; (split; [apply rounds_none|]); cbn; (split; [done|]);
    (split; [|lia]); exists [], i; (split; [done|]); split; [constructor|done].
  - injection H as <- <-. exists [], s. split; [apply rounds_none|]. split; [by repeat constructor|done].
  - destruct (round_outcome bt s) as (r & s1 & Hr & Hround). rewrite bind_bind in H.
    destruct Hround as [(j & -> & Hj)|[-> Hn]].
    + rewrite (bind_Ret _ _ _ _ _ Hr) in H. apply IH in H as (l & s2 & Hl & Ho). exists (j :: l), s2. split; [by eapply rounds_next|].
      destruct o as [[]|e|].
      * destruct Ho as (-> & (before & last & E & Hb & He) & Hlen). split; [done|]. split; [|cbn; lia].
        exists (i :: before), last. rewrite E. by repeat constructor.
      * destruct Ho as (-> & Hf & Hlen & Hn). split; [done|]. split; [by constructor|]. split; [cbn; lia|done].
      * destruct Ho as (Hf & Hlen). split; [by constructor|cbn; lia].
    + rewrite (bind_Throw _ _ _ _ _ Hr) in H. injection H as <- <-. exists [], s. split; [apply rounds_none|]. split; [done|].
      split; [by repeat constructor|]. split; [cbn; lia|done].
Qed.

(** The loop makes the rounds there are. *)
Lemma await_session_reached expected bt l : forall fuel i s s1,
  session_rounds bt s l s1 -> first_reached expected (i :: l) -> (length l <= fuel)%nat ->
  await_session helper fuel expected bt i s = (Ret tt, s1).
Proof.
  induction l as [|j l IH]; intros fuel i s s1 Hl Hf Hlen; inversion Hl as [|? ? u ? ? Hj Hl']; subst.
  - destruct Hf as ([|? []] & last & E & _ & He); try discriminate E. injection E as ->.
    destruct fuel; cbn [await_session]; by rewrite (proj2 (Z.leb_le _ _)).
  - cbn in Hlen. destruct fuel as [|fuel]; [lia|]. cbn [await_session].
    destruct Hf as ([|i' before] & last & E & Hb & He); [discriminate E|]. injection E as <- E.
    apply Forall_cons in Hb as [Hi Hb]. rewrite (proj2 (Z.leb_gt _ _)) by done.
    destruct (round_outcome bt s) as (r & u' & Hr & Hround).
    destruct Hround as [(j' & -> & Hj')|[_ Hn]]; [|by apply Hn in Hj].
    destruct (session_round_det _ _ _ _ _ _ Hj Hj') as [<- <-].
    rewrite bind_bind, (bind_Ret _ _ _ _ _ Hr). apply IH; [done| |lia]. rewrite E. by exists before, last.
Qed.

(** C33: How [newSessions] ends. A round is a new subscription to the heads, its
    second head, seen before the 60 seconds for one block and before the block
    timeout, and a reading of the session index then. [newSessions] returns when,
    after the index read at the start, the rounds have led to the first index that
    is [sessionCount] further, and it does return when the chain gives such rounds
    and the bound on the rounds leaves room for them. It throws what the first
    reading throws, and otherwise only that the chain has stopped producing
    blocks, after rounds whose indexes are all short of the expected one and
    after which no further round is possible. It stays open only when the first
    reading does, or when as many rounds as the bound were all short. *)
Theorem newSessions_ends sessionCount bt fuel s :
  match newSessions helper fuel sessionCount bt s with
  | (Ret _, s') =>
      exists i0 s0 l, session_index helper s = (Ret i0, s0) /\ session_rounds bt s0 l s'
        /\ first_reached (i0 + sessionCount) (-1 :: l) /\ (length l <= fuel)%nat
  | (Throw e, s') =>
      session_index helper s = (Throw e, s')
      \/ exists i0 s0 l s1, session_index helper s = (Ret i0, s0) /\ session_rounds bt s0 l s1
           /\ Forall (fun i => i < i0 + sessionCount) (-1 :: l) /\ (length l < fuel)%nat
           /\ (forall i s2, ~ session_round bt s1 i s2)
           /\ e = JSError (js "Error: The chain has stopped producing blocks!")
  | (Pending, s') =>
      session_index helper s = (Pending, s')
      \/ exists i0 s0 l s1, session_index helper s = (Ret i0, s0) /\ session_rounds bt s0 l s1
           /\ Forall (fun i => i < i0 + sessionCount) (-1 :: l) /\ length l = fuel
  end
  /\ forall i0 s0 l s1,
       session_index helper s = (Ret i0, s0) -> session_rounds bt s0 l s1 ->
       first_reached (i0 + sessionCount) (-1 :: l) -> (length l <= fuel)%nat ->
       newSessions helper fuel sessionCount bt s = (Ret tt, s1).
Proof.
  unfold newSessions. split.
  - destruct (session_index helper s) as [[i0|e|] s0] eqn:Ei.
    2: rewrite (bind_Throw _ _ _ _ _ Ei); by left.
    2: cbn [bind M_monad]; rewrite Ei; by left.
    rewrite (bind_Ret _ _ _ _ _ Ei).
    destruct (await_session helper fuel (i0 + sessionCount) bt (-1) s0) as [o s'] eqn:E.
    apply await_session_outcome in E as (l & s1 & Hl & Ho). destruct o as [[]|e|].
    + destruct Ho as (-> & Hf & Hlen). eauto 8.
    + destruct Ho as (-> & Hf & Hlen & Hn). right. by exists i0, s0, l, s1.
    + destruct Ho as (Hf & Hlen). right. by exists i0, s0, l, s1.
  - intros i0 s0 l s1 Hi Hl Hf Hlen. rewrite (bind_Ret _ _ _ _ _ Hi). by eapply await_session_reached.
Qed.

End Waiting.
