(* ===== verification/ArrangeFacts.v ===== *)
(** * What the account, identifier and connection helpers guarantee *)

From Stdlib Require Import Ascii String.
From stdpp Require Import list list_numbers.
From S2P Require Import Prelude JsString JsValue Chain Address Util Helper HelperFacts Lifecycle.
From S2P Require Import Collections Balance Governance Xcm Dev Wait WaitFacts Arrange.

Open Scope Z_scope.
Open Scope js_scope.

Import ArrangeGroup.

(** ** Accounts *)

Section Accounts.
Context {N : NodeApi} {C : Crypto}.
Variable helper : nat.

(** The node answered that the account has exactly an amount. *)
Definition seen_with (amount : Z) (account : TSigner) : Prop :=
  exists s s', SubstrateBalanceGroup.getSubstrate helper (address account) s = (Ret (JBig amount), s').

Lemma has_balance_true account amount s s' :
  has_balance helper account amount s = (Ret true, s') -> seen_with amount account.
Proof.
  unfold has_balance. intros H. apply bind_Ret_inv in H as (v & s1 & Hv & H). injection H as H _.
  destruct v; try done. apply Z.eqb_eq in H as ->. by exists s, s1.
Qed.

Lemma checkBalances_true nominal l : forall s s',
  checkBalances helper nominal l s = (Ret true, s') -> Forall (fun p => seen_with (p.2 * nominal) p.1) l.
Proof.
  induction l as [|[account balance] l IH]; intros s s' H; [done|]. cbn [checkBalances] in H.
  apply bind_Ret_inv in H as (b & s1 & Hb & H). destruct b; [|by run_inv].
  constructor; [by eapply has_balance_true|by eapply IH].
Qed.

(** The wait ends with a complete check. *)
Lemma await_balances_true n nominal l : forall s s',
  await_balances helper n nominal l s = (Ret true, s') ->
  exists s1, checkBalances helper nominal l s1 = (Ret true, s').
Proof.
  induction n as [|n IH]; intros s s' H; cbn [await_balances] in H; [by run_inv|].
  apply bind_Ret_inv in H as (b & s1 & Hb & H). destruct b; [injection H as <-; eauto|].
  apply bind_Ret_inv in H as (u & s2 & _ & H). by eapply IH.
Qed.

Lemma fund_all_length donor format nominal balances : forall nonce s accounts txs s',
  fund_all helper donor format nominal nonce balances s = (Ret (accounts, txs), s') ->
  length accounts = length balances.
Proof.
  induction balances as [|b balances IH]; intros nonce s accounts txs s' H; cbn [fund_all] in H.
  - by run_inv; simplify_eq.
  - apply bind_Ret_inv in H as (r & s1 & _ & H). destruct (b =? 0).
    + apply bind_Ret_inv in H as ([as1 t1] & s2 & Hr & H). run_inv. simplify_eq.
      cbn. f_equal. by eapply IH.
    + apply bind_Ret_inv in H as (t & s2 & _ & H).
      apply bind_Ret_inv in H as ([as1 t1] & s3 & Hr & H). run_inv. simplify_eq.
      cbn. f_equal. by eapply IH.
Qed.

(** The power of ten that the properties of the chain give to a helper that is
    connected in this state. *)
Definition chain_nominal (s : State) (n : Z) : Prop :=
  exists h api d, st_helpers s !! helper = Some h /\ hs_api h = Some api
    /\ (decimals ← get_prop (chain_properties api) (js "tokenDecimals"); call0 decimals (js "toJSON")) = Ret d
    /\ BalanceGroup.nominal d = Ret n /\ exists e, 0 <= e /\ n = 10 ^ e.

Lemma nominal_power d n : BalanceGroup.nominal d = Ret n -> exists e, 0 <= e /\ n = 10 ^ e.
Proof.
  unfold BalanceGroup.nominal. intros H.
  repeat match type of H with
  | context [match ?x with _ => _ end] => destruct x eqn:?; try discriminate H
  | context [bind ?x _] => destruct x eqn:?; cbn in H; try discriminate H
  end; injection H as <-; eexists; (split; [|reflexivity]); by apply Z.ltb_ge.
Qed.

(** [getOneTokenNominal] answers it, also after other calls of the helper. *)
Lemma getOneTokenNominal_chain P s s1 n s2 :
  evolves helper P s s1 -> BalanceGroup.getOneTokenNominal helper s1 = (Ret n, s2) -> chain_nominal s n.
Proof.
  intros (es & lines & _ & Hh & _) H. unfold BalanceGroup.getOneTokenNominal in H.
  apply bind_Ret_inv in H as (p & s3 & Hp & H). apply lift_Ret_inv in H as [Hn _].
  unfold ChainGroup.getChainProperties, getApi in Hp. run_inv. rewrite Hh, list_lookup_alter_eq in *.
  destruct (st_helpers s !! helper) as [h|] eqn:E; [|done]. simplify_eq/=.
  destruct (hs_api h) as [api|] eqn:Ea; [|run_inv]. run_inv. subst. exists h, api. eexists.
  split_and!; [done..| |exact Hn|by eapply nominal_power].
  simplify_eq. match goal with Hg : get_prop _ (js "tokenDecimals") = Ret _ |- _ => by rewrite Hg end.
Qed.

(** C31: The accounts that [createAccounts] returns are one per requested balance,
    in order, and its run ended with a check in which the node answered for each
    of them exactly the requested multiple of the token's nominal, even when some
    of the funding transactions were rejected; the nominal is the power of ten
    that the properties of the chain give to the helper the call started with. *)
Theorem createAccounts_funded balances donor s accounts s' :
  createAccounts helper balances donor s = (Ret accounts, s') ->
  exists nominal s1,
    chain_nominal s nominal
    /\ checkBalances helper nominal (combine accounts balances) s1 = (Ret true, s')
    /\ Forall2 (fun account balance => seen_with (balance * nominal) account) accounts balances.
Proof.
  intros H. unfold createAccounts in H.
  apply bind_Ret_inv in H as (nonce & s1 & H1 & H). apply bind_Ret_inv in H as (format & s2 & H2 & H).
  apply bind_Ret_inv in H as (nominal & s3 & Hn & H).
  apply (framed_run helper any_entry) in H1; [|apply _].
  apply (framed_run helper any_entry) in H2; [|unfold chain_format; solve_frame].
  apply (getOneTokenNominal_chain any_entry s) in Hn; [|by etrans].
  apply bind_Ret_inv in H as ([accs txs] & s4 & Hf & H). apply bind_Ret_inv in H as ([] & s5 & _ & H).
  apply bind_Ret_inv in H as (dev & s6 & _ & H). apply bind_Ret_inv in H as (ok & s7 & Hok & H).
  destruct ok; [|by run_inv]. run_inv.
  apply fund_all_length in Hf. apply await_balances_true in Hok as [u Hok].
  exists nominal, u. split_and!; [done..|]. apply checkBalances_true in Hok.
  clear -Hf Hok. revert balances Hf Hok. induction accounts as [|a accs IH]; intros [|b balances] Hl Hall;
    [constructor|done|done|]. cbn in Hall. apply Forall_cons in Hall as [H1 H2].
  constructor; [done|]. apply IH; [by injection Hl|done].
Qed.

Lemma fulfilled_seen amount l : forall s accounts s',
  fulfilled helper amount l s = (Ret accounts, s') -> Forall (seen_with amount) accounts.
Proof.
  induction l as [|a l IH]; intros s accounts s' H; cbn [fulfilled] in H; [by run_inv; simplify_eq|].
  apply bind_Ret_inv in H as (b & s1 & Hb & H). apply bind_Ret_inv in H as (rest & s2 & Hr & H).
  run_inv. simplify_eq. apply IH in Hr. destruct b; [|done].
  constructor; [by eapply has_balance_true|done].
Qed.

Lemma createAsManyAsCan_seen n withBalance donor s l s' :
  createAsManyAsCan helper n withBalance donor s = (Ret l, s') ->
  exists nominal, Forall (seen_with (withBalance * nominal)) l.
Proof.
  intros H. unfold createAsManyAsCan in H.
  apply bind_Ret_inv in H as (nonce & u1 & _ & H). apply bind_Ret_inv in H as (nominal & u2 & _ & H).
  apply bind_Ret_inv in H as (f & u3 & _ & H). apply bind_Ret_inv in H as ([accs txs] & u4 & _ & H).
  apply bind_Ret_inv in H as ([] & u5 & _ & H). apply fulfilled_seen in H. eauto.
Qed.

(** At most [tries] attempts, one after the other, each asking for what the
    previous ones left, until nothing is left. *)
Inductive crowd_attempts (withBalance : Z) (donor : TSigner) : nat -> Z -> list TSigner -> State -> State -> Prop :=
  | attempts_done tries s : crowd_attempts withBalance donor tries 0 [] s s
  | attempts_more tries n l crowd s s1 s2 :
      n <> 0 -> createAsManyAsCan helper n withBalance donor s = (Ret l, s1) ->
      crowd_attempts withBalance donor tries (n - Z.of_nat (length l)) crowd s1 s2 ->
      crowd_attempts withBalance donor (S tries) n (l ++ crowd) s s2.

Lemma crowd_tries_attempts withBalance donor tries : forall n crowd s crowd' s',
  crowd_tries helper tries n withBalance donor crowd s = (Ret crowd', s')
  <-> exists more, crowd' = crowd ++ more /\ crowd_attempts withBalance donor tries n more s s'.
Proof.
  induction tries as [|tries IH]; intros n crowd s crowd' s'; cbn [crowd_tries];
    destruct (Z.eqb_spec n 0) as [->|Hn].
  1,3: split; [intros [= <- <-]; exists []; split; [by rewrite app_nil_r|apply attempts_done]
              |intros (more & -> & Ha); inversion Ha; subst; by rewrite ?app_nil_r].
  - split; [done|]. intros (more & _ & Ha). inversion Ha; by subst.
  - split.
    + intros H. apply bind_Ret_inv in H as (l & s1 & Hl & H). apply IH in H as (more & -> & Ha).
      exists (l ++ more). split; [by rewrite app_assoc|]. by econstructor.
    + intros (more & -> & Ha). inversion Ha as [|? ? l more' ? s1 ? _ Hl Ha']; subst; [done|].
      rewrite (bind_Ret _ _ _ _ _ Hl). apply IH. exists more'. by rewrite app_assoc.
Qed.

Lemma attempts_members withBalance donor tries n crowd s s' :
  crowd_attempts withBalance donor tries n crowd s s' ->
  Z.of_nat (length crowd) = n /\ Forall (fun a => exists nominal, seen_with (withBalance * nominal) a) crowd.
Proof.
  induction 1 as [|tries n l crowd s s1 s2 _ Hl _ [IHn IHc]]; [done|]. split; [rewrite length_app; lia|].
  apply Forall_app. split; [|done]. apply createAsManyAsCan_seen in Hl as [nominal Hl].
  eapply Forall_impl; [exact Hl|]. eauto.
Qed.

(** [createCrowd] returns exactly what at most five attempts add up to, each
    for the accounts the earlier ones left and the last leaving none: a crowd of
    the requested size, each member of which the node reported to hold the
    requested number of tokens. *)
Theorem createCrowd_complete n withBalance donor s crowd s' :
  createCrowd helper n withBalance donor s = (Ret crowd, s') ->
  crowd_attempts withBalance donor 5 n crowd s s'
  /\ Z.of_nat (length crowd) = n
  /\ Forall (fun a => exists nominal, seen_with (withBalance * nominal) a) crowd.
Proof.
  intros (more & -> & Ha)%crowd_tries_attempts. split; [done|]. by apply (attempts_members _ _ _ _ _ _ _ Ha).
Qed.

End Accounts.

(** ** Identifiers of scheduled calls *)

Section Identifiers.

Lemma makeId_Ret n id : 0 <= n -> makeId n = Ret id ->
  n < 16 ^ Z.of_nat 64 /\ id = js "0x" ++ padStart 64 48 (toString_radix 16 n).
Proof.
  intros Hn. unfold makeId. destruct (Z.ltb_spec (64 - Z.of_nat (length (toString_radix 16 n))) 0) as [|Hl];
    [done|]. intros [= <-]. split.
  - rewrite toString_radix_nonneg in Hl by lia. rewrite length_map in Hl.
    destruct (digits_spec 16 n) as (Hu & Hf & _ & _); [lia..|].
    apply undigits_bound in Hf; [|lia]. rewrite Hu in Hf.
    eapply Z.lt_le_trans; [apply Hf|]. apply Z.pow_le_mono_r; lia.
  - change (js "0x") with [48; 120]. unfold padStart, repeat_unit. cbn [app]. do 2 f_equal.
    f_equal. f_equal. lia.
Qed.

Lemma make_ids_Ret num : forall slider ids slider', make_ids num slider = (Ret ids, slider') ->
  slider' = slider + Z.of_nat num /\ Forall2 (fun i id => makeId i = Ret id) (seqZ slider (Z.of_nat num)) ids.
Proof.
  induction num as [|num IH]; intros slider ids slider' H; cbn [make_ids] in H.
  - injection H as <- <-. split; [lia|]. constructor.
  - destruct (makeId slider) as [id|e|] eqn:Hi; [|done..].
    destruct (make_ids num (slider + 1)) as [o sl] eqn:Hm. injection H as H ->.
    destruct o as [ids0|e|]; cbn in H; [|done..]. injection H as <-.
    apply IH in Hm as [-> Hf]. split; [lia|]. rewrite seqZ_cons by lia.
    replace (Z.pred (Z.of_nat (S num))) with (Z.of_nat num) by lia. by constructor.
Qed.

Lemma Forall2_NoDup {A B} (R : A -> B -> Prop) l k :
  (forall a a' b, a ∈ l -> a' ∈ l -> R a b -> R a' b -> a = a') -> Forall2 R l k -> NoDup l -> NoDup k.
Proof.
  intros Hinj Hf. revert Hinj. induction Hf as [|a b l k Hab Hf IH]; intros Hinj Hnd; [constructor|].
  apply NoDup_cons in Hnd as [Hn Hnd]. constructor.
  - intros Hin. apply list_elem_of_lookup in Hin as [i Hi].
    destruct (Forall2_lookup_r _ _ _ _ _ Hf Hi) as (a' & Ha' & HR).
    apply list_elem_of_lookup_2 in Ha'.
    assert (a = a') as <- by (eapply Hinj; [left|by right|done..]). done.
  - apply IH; [|done]. intros x y c Hx Hy. apply Hinj; by right.
Qed.

(** The identifiers of scheduled calls never repeat: those of one call to
    [makeScheduledIds] and of the next are pairwise distinct, as many as asked
    for, each a [0x] literal of 64 digits. *)
Theorem scheduled_ids_distinct n m slider ids1 slider1 ids2 slider2 :
  0 <= slider -> 0 <= n -> 0 <= m ->
  makeScheduledIds n slider = (Ret ids1, slider1) -> makeScheduledIds m slider1 = (Ret ids2, slider2) ->
  NoDup (ids1 ++ ids2)
  /\ Z.of_nat (length ids1) = n /\ Z.of_nat (length ids2) = m
  /\ Forall (fun id => length id = 66%nat) (ids1 ++ ids2).
Proof.
  intros Hs Hn Hm [-> H1]%make_ids_Ret [_ H2]%make_ids_Ret.
  pose proof (Forall2_length _ _ _ H1) as L1. pose proof (Forall2_length _ _ _ H2) as L2.
  rewrite length_seqZ in L1, L2.
  pose proof (Forall2_app H1 H2) as H. rewrite <- seqZ_app in H by lia.
  assert (forall i, i ∈ seqZ slider (Z.of_nat (Z.to_nat n) + Z.of_nat (Z.to_nat m)) -> 0 <= i) as Hpos
    by (intros i Hi%elem_of_seqZ; lia).
  split_and!; [|lia..|].
  - eapply Forall2_NoDup; [|exact H|apply NoDup_seqZ]. intros i j id Hi%Hpos Hj%Hpos Ei Ej.
    apply makeId_Ret in Ei as [Bi ->]; [|done]. apply makeId_Ret in Ej as [Bj Ej]; [|done].
    apply app_inv_head in Ej. by apply padStart_radix_inj in Ej; [|lia..].
  - rewrite Forall_lookup. intros k id Hk. destruct (Forall2_lookup_r _ _ _ _ _ H Hk) as (i & Hi & E).
    apply list_elem_of_lookup_2, Hpos in Hi. apply makeId_Ret in E as [Bi ->]; [|done].
    destruct (padStart_radix 16 i 64) as (ds & E & Hl & _); [lia|done|lia|].
    by rewrite E, length_app, length_map, Hl.
Qed.

End Identifiers.

(** ** Connections of the test helpers *)

Section Connections.
Context {N : NodeApi}.
Import ChainHelperBase.

(** When the connection that [DevUniqueHelper.connect] opens does not become
    ready, the call throws but the helper keeps the dead connection, over
    whatever it was connected to before, while its network and endpoint stay
    those of before; so a helper that was not connected ends up with a connection
    and no network, and a retry through [ChainHelperBase.connect] is refused. *)
Theorem dev_connect_keeps_dead_connection this ep s h api w1 m w2 :
  st_helpers s !! this = Some h -> ep <> [] ->
  new_ApiPromise ep (Some (js "dev")) (st_world s) = (api, w1) ->
  isReadyOrError api w1 = (Throw m, w2) ->
  exists s',
    DevUniqueHelper.connect this ep s = (Throw (JSError m), s')
    /\ st_helpers s' !! this = Some (with_api (Some api) h)
    /\ (hs_network h = None -> ~ consistent (with_api (Some api) h))
    /\ connect this ep [] s' = (Throw (JSError (js "Already connected")), s').
Proof.
  intros Hh Hep Ha Hr. unfold DevUniqueHelper.connect. rewrite bool_decide_false by done.
  eexists. split.
  { cbn. unfold world_new. rewrite Ha. cbn. unfold world_call. cbn. rewrite Hr. reflexivity. }
  split_and!; cbn.
  - by rewrite list_lookup_alter_eq, Hh.
  - intros Hn [Hc _]. cbn in Hc. rewrite Hn in Hc. by destruct Hc as [? ?].
  - unfold get_this. cbn. by rewrite list_lookup_alter_eq, Hh.
Qed.

End Connections.
