(* ===== verification/CollectionFacts.v ===== *)
(** * Properties of the collection, token and balance groups

    What a value returned by a command says about the extrinsic that was run
    and the events it left. *)

From Stdlib Require Import Ascii String.
From stdpp Require Import sorting list.
From S2P Require Import Prelude JsString JsValue Chain Address Util UtilFacts Helper HelperFacts.
From S2P Require Import Collections Tokens Objects Balance.

Open Scope Z_scope.
Open Scope js_scope.

(** ** Frames of the groups *)

Section Frames.
Context {N : NodeApi} {C : Crypto}.
Implicit Types helper : nat.

#[export] Instance framed_query helper P rpc ps m `{!AllowsCall P rpc ps} : Framed helper P (query helper rpc ps m).
Proof. unfold query. solve_frame. Qed.

#[export] Instance framed_exec helper P ext ps `{!AllowsNonce P} `{!AllowsWrapped P} `{!AllowsTx P ext ps} signer :
  Framed helper P (exec helper signer ext ps).
Proof. unfold exec. apply _. Qed.

#[export] Instance framed_command helper P ext ps `{!AllowsNonce P} `{!AllowsWrapped P} `{!AllowsTx P ext ps} signer c ev :
  Framed helper P (collection_command helper signer ext ps c ev).
Proof. unfold collection_command. solve_frame. Qed.

End Frames.

(** ** Commands on a collection *)

Section Commands.
Context {N : NodeApi} {C : Crypto}.
Implicit Types helper : nat.

(** The methods of CollectionGroup, NFTnRFT and FTGroup whose verdict is read
    off an event of the collection, with the extrinsic each submits, its
    parameters, the collection and the event. *)
Inductive collection_method helper (signer : TSigner) :
  M bool -> jsstr -> list jsval -> Z -> jsstr -> Prop :=
  | cm_burn c : collection_method helper signer
      (CollectionGroup.burn helper signer (Int c))
      (js "api.tx.unique.destroyCollection") [num_js c] c (js "CollectionDestroyed")
  | cm_setSponsor c a : collection_method helper signer
      (CollectionGroup.setSponsor helper signer (Int c) a)
      (js "api.tx.unique.setCollectionSponsor") [num_js c; JStr a] c (js "CollectionSponsorSet")
  | cm_confirmSponsorship c : collection_method helper signer
      (CollectionGroup.confirmSponsorship helper signer (Int c))
      (js "api.tx.unique.confirmSponsorship") [num_js c] c (js "SponsorshipConfirmed")
  | cm_removeSponsor c : collection_method helper signer
      (CollectionGroup.removeSponsor helper signer (Int c))
      (js "api.tx.unique.removeCollectionSponsor") [num_js c] c (js "CollectionSponsorRemoved")
  | cm_setLimits c l : collection_method helper signer
      (CollectionGroup.setLimits helper signer (Int c) l)
      (js "api.tx.unique.setCollectionLimits") [num_js c; l] c (js "CollectionLimitSet")
  | cm_changeOwner c a : collection_method helper signer
      (CollectionGroup.changeOwner helper signer (Int c) a)
      (js "api.tx.unique.changeCollectionOwner") [num_js c; JStr a] c (js "CollectionOwnerChanged")
  | cm_addAdmin c a : collection_method helper signer
      (CollectionGroup.addAdmin helper signer (Int c) a)
      (js "api.tx.unique.addCollectionAdmin") [num_js c; cross_js a] c (js "CollectionAdminAdded")
  | cm_removeAdmin c a : collection_method helper signer
      (CollectionGroup.removeAdmin helper signer (Int c) a)
      (js "api.tx.unique.removeCollectionAdmin") [num_js c; cross_js a] c (js "CollectionAdminRemoved")
  | cm_addToAllowList c a : collection_method helper signer
      (CollectionGroup.addToAllowList helper signer (Int c) a)
      (js "api.tx.unique.addToAllowList") [num_js c; cross_js a] c (js "AllowListAddressAdded")
  | cm_removeFromAllowList c a : collection_method helper signer
      (CollectionGroup.removeFromAllowList helper signer (Int c) a)
      (js "api.tx.unique.removeFromAllowList") [num_js c; cross_js a] c (js "AllowListAddressRemoved")
  | cm_setPermissions c p : collection_method helper signer
      (CollectionGroup.setPermissions helper signer (Int c) p)
      (js "api.tx.unique.setCollectionPermissions") [num_js c; p] c (js "CollectionPermissionSet")
  | cm_enableNesting c p : collection_method helper signer
      (CollectionGroup.enableNesting helper signer (Int c) p)
      (js "api.tx.unique.setCollectionPermissions") [num_js c; obj [(js "nesting", p)]] c
      (js "CollectionPermissionSet")
  | cm_setProperties c p : collection_method helper signer
      (CollectionGroup.setProperties helper signer (Int c) p)
      (js "api.tx.unique.setCollectionProperties") [num_js c; p] c (js "CollectionPropertySet")
  | cm_deleteProperties c p : collection_method helper signer
      (CollectionGroup.deleteProperties helper signer (Int c) p)
      (js "api.tx.unique.deleteCollectionProperties") [num_js c; p] c (js "CollectionPropertyDeleted")
  | cm_approveToken c t a n : collection_method helper signer
      (CollectionGroup.approveToken helper signer (Int c) t a n)
      (js "api.tx.unique.approve") [cross_js a; num_js c; num_js t; JBig n] c (js "Approved")
  | cm_approveTokenFrom c t a b n : collection_method helper signer
      (CollectionGroup.approveTokenFrom helper signer (Int c) t a b n)
      (js "api.tx.unique.approveFrom") [cross_js a; cross_js b; num_js c; num_js t; JBig n] c (js "Approved")
  | cm_setTokenPropertyPermissions c p : collection_method helper signer
      (NFTnRFT.setTokenPropertyPermissions helper signer (Int c) p)
      (js "api.tx.unique.setTokenPropertyPermissions") [num_js c; p] c (js "PropertyPermissionSet")
  | cm_setTokenProperties c t p : collection_method helper signer
      (NFTnRFT.setTokenProperties helper signer (Int c) t p)
      (js "api.tx.unique.setTokenProperties") [num_js c; num_js t; p] c (js "TokenPropertySet")
  | cm_deleteTokenProperties c t p : collection_method helper signer
      (NFTnRFT.deleteTokenProperties helper signer (Int c) t p)
      (js "api.tx.unique.deleteTokenProperties") [num_js c; num_js t; p] c (js "TokenPropertyDeleted")
  | cm_setAllowanceForAll c a b : collection_method helper signer
      (NFTnRFT.setAllowanceForAll helper signer (Int c) a b)
      (js "api.tx.unique.setAllowanceForAll") [num_js c; cross_js a; JBool b] c (js "ApprovedForAll")
  | cm_mintTokens c n o : collection_method helper signer
      (FTGroup.mintTokens helper signer (Int c) n o)
      (js "api.tx.unique.createItem")
      [num_js c; owner_js o; obj [(js "Fungible", obj [(js "value", JBig n)])]] c (js "ItemCreated").

Lemma command_true helper signer ext ps (c : Z) ev s s' :
  collection_command helper signer ext ps c ev s = (Ret true, s') <->
  exists r, exec helper signer ext ps s = (Ret r, s')
    /\ UniqueUtil.findCollectionInEvents (tr_events r) c (js "common") ev = Ret true.
Proof.
  unfold collection_command. split.
  - intros H. run_inv. eauto.
  - intros (r & H & Hf). rewrite (bind_Ret _ _ _ _ _ H). unfold lift. by rewrite Hf.
Qed.

Lemma exec_returned helper signer ext ps s r s' :
  exec helper signer ext ps s = (Ret r, s') -> returned true r.
Proof. apply executeExtrinsic_Ret. Qed.

(** C4: A command on a collection returns [true] exactly when its extrinsic comes
    back, the first datum of every event of its kind is readable, and the last
    such event names the collection; the extrinsic was then finalized
    successfully, or it left the pool without a dispatch error. *)
Theorem collection_method_true helper signer m ext ps c ev s s' :
  collection_method helper signer m ext ps c ev ->
  (m s = (Ret true, s') <->
     exists r e,
       exec helper signer ext ps s = (Ret r, s')
       /\ ids_readable (js "common") ev (tr_events r)
       /\ last_match (is_event (js "common") ev) (tr_events r) e
       /\ datum_int e 0 = Ret (Int c)
       /\ (finalized_success r \/ (rejected r /\ ChainHelperBase.dispatch_error r = None))).
Proof.
  intros Hm.
  assert (m s = (Ret true, s') <-> collection_command helper signer ext ps c ev s = (Ret true, s')) as ->
    by by destruct Hm.
  rewrite command_true. split.
  - intros (r & Hr & (Hi & e & He & Hd)%findCollectionInEvents_true). exists r, e.
    split_and!; try done. apply exec_returned in Hr as [?|[? ?]]; [by left|right]. auto.
  - intros (r & e & Hr & Hi & He & Hd & _). exists r. split; [done|].
    apply findCollectionInEvents_true. eauto.
Qed.

(** When the extrinsic of a command comes back without the event the command
    looks for, the command throws an error naming the event, after the extrinsic
    was run: it never answers [false] for a missing event. *)
Theorem collection_method_no_event helper signer m ext ps c ev s r s' :
  collection_method helper signer m ext ps c ev ->
  exec helper signer ext ps s = (Ret r, s') ->
  Forall (fun e => is_event (js "common") ev e = false) (tr_events r) ->
  m s = (Throw (JSError (js "No " ++ ev ++ js " event was found!")), s').
Proof.
  intros Hm Hr Hno.
  assert (m s = collection_command helper signer ext ps c ev s) as -> by by destruct Hm.
  unfold collection_command. rewrite (bind_Ret _ _ _ _ _ Hr). unfold lift.
  rewrite findCollectionInEvents_spec.
  - apply last_filterb_None in Hno. by rewrite Hno.
  - eapply Forall_impl; [exact Hno|]. cbn. congruence.
Qed.

End Commands.

(** ** Transfers, burns and mints *)

Section Tokens.
Context {N : NodeApi} {C : Crypto}.
Implicit Types helper : nat.
Import UniqueUtil.

(** [nestToken] succeeds exactly when the node reports that one piece of the
    token went from the signer to the Ethereum address that belongs to the root
    token, and throws otherwise: it never answers [false]. *)
Theorem nestToken_outcome helper signer (c t : Z) root a s r s' c' t' from' to' amount' f' o' f :
  0 <= c -> 0 <= t ->
  getTokenAddress root = Ret a ->
  exec helper signer (js "api.tx.unique.transfer")
    [cross_js (Ethereum a); num_js c; num_js t; JBig 1] s = (Ret r, s') ->
  reports_last (tr_events r) c' t' from' to' amount' f' o' ->
  normalized (Substrate (address signer)) = Ret f -> cross_units f -> units a ->
  NFTnRFT.nestToken helper signer (mkToken c t) root s
  = (if bool_decide (c = c' /\ t = t' /\ f = f' /\ Ethereum (toLowerCase a) = o' /\ 1 = amount')
     then Ret true else Throw (JSError (js "Unable to nest token!")), s').
Proof.
  intros Hc Ht Ha Hex Hrep Hf Uf Ua. unfold NFTnRFT.nestToken, getTokenAccount. rewrite Ha.
  unfold lift at 1. cbn [fmap outcome_fmap].
  rewrite (bind_Ret _ _ s (Ethereum a) s) by done. cbn [collectionId tokenId].
  assert (cross_units (Ethereum (toLowerCase a))) as Ul by by apply units_toLowerCase.
  pose proof (transfer_verdict _ _ _ _ _ _ _ _ c t (Substrate (address signer)) (Ethereum a) 1 f
                (Ethereum (toLowerCase a)) Hrep Hc Ht Hf ltac:(done) Uf Ul) as Hv.
  match type of Hv with _ = Ret ?b => assert
    (CollectionGroup.transferToken helper signer c t (Ethereum a) 1 s = (Ret b, s')) as Htr end.
  { unfold CollectionGroup.transferToken. rewrite (bind_Ret _ _ _ _ _ Hex). unfold lift. by rewrite Hv. }
  rewrite (bind_Ret _ _ _ _ _ Htr). by case_bool_decide.
Qed.

(** [burnToken] on a finalized burn answers with the success flag and throws
    when more than one token was destroyed; [burnTokenFrom] also wants a
    destroyed token to be reported. A result that is not successful makes both
    throw. *)
Theorem burn_outcomes helper signer (c t : number) from amount s r s' r2 s2 toks toks2 :
  exec helper signer (js "api.tx.unique.burnItem") [num_js c; num_js t; JBig amount] s = (Ret r, s') ->
  exec helper signer (js "api.tx.unique.burnFrom") [num_js c; cross_js from; num_js t; JBig amount] s = (Ret r2, s2) ->
  Forall2 (fun e k => event_token e = Ret k) (filterb (is_event (js "common") (js "ItemDestroyed")) (tr_events r)) toks ->
  Forall2 (fun e k => event_token e = Ret k) (filterb (is_event (js "common") (js "ItemDestroyed")) (tr_events r2)) toks2 ->
  (CollectionGroup.burnToken helper signer c t amount s).1
    = (if decide (tr_status r <> SUCCESS) then Throw (JSError (js "Unable to burn tokens!"))
       else if decide (1 < length toks)%nat then Throw (JSError (js "Burned multiple tokens"))
       else Ret (extrinsic_succeeded (tr_events r)))
  /\ (CollectionGroup.burnTokenFrom helper signer c t from amount s).1
    = (if decide (tr_status r2 <> SUCCESS) then Throw (JSError (js "Unable to burn tokens!"))
       else Ret (extrinsic_succeeded (tr_events r2) && bool_decide (toks2 <> []))).
Proof.
  intros H1 H2 Ht1 Ht2. unfold CollectionGroup.burnToken, CollectionGroup.burnTokenFrom.
  rewrite (bind_Ret _ _ _ _ _ H1), (bind_Ret _ _ _ _ _ H2). unfold extractTokensFromBurnResult.
  rewrite (extract_tokens_spec (js "ItemDestroyed") _ _ ltac:(done) Ht1).
  rewrite (extract_tokens_spec (js "ItemDestroyed") _ _ ltac:(done) Ht2). split.
  - destruct (tr_status r); try done. cbn [bind M_monad lift success tokens].
    destruct (decide (SUCCESS <> SUCCESS)); [done|]. case_bool_decide; by destruct (decide _).
  - destruct (tr_status r2); try done. cbn [bind M_monad lift success tokens mreturn fst].
    destruct (decide (SUCCESS <> SUCCESS)); [done|]. do 2 f_equal. destruct toks2; [done|].
    apply bool_decide_ext. cbn. split; [done|lia].
Qed.

(** Minting a single token, NFT or RFT, gives the object of the one token the
    node reports as created, and throws when it reports none or several. *)
Theorem mintToken_single helper signer (c : number) owner pieces props s r s' r2 s2 toks toks2 :
  exec helper signer (js "api.tx.unique.createItem")
    [num_js c; owner_js owner; obj [(js "NFT", obj [(js "properties", or_undefined props)])]] s = (Ret r, s') ->
  exec helper signer (js "api.tx.unique.createItem")
    [num_js c; owner_js owner; obj [(js "ReFungible", obj [(js "pieces", JBig pieces);
       (js "properties", or_undefined props)])]] s = (Ret r2, s2) ->
  tr_status r = SUCCESS -> tr_status r2 = SUCCESS ->
  Forall2 (fun e k => event_token e = Ret k) (filterb (is_event (js "common") (js "ItemCreated")) (tr_events r)) toks ->
  Forall2 (fun e k => event_token e = Ret k) (filterb (is_event (js "common") (js "ItemCreated")) (tr_events r2)) toks2 ->
  let outcome_of l :=
    match l with
    | [k] => Ret (mkTokenObject (mkCollection helper c) (et_tokenId k))
    | [] => Throw (JSError (js "No tokens minted"))
    | _ => Throw (JSError (js "Minted multiple tokens"))
    end in
  (NFTGroup.mintToken helper signer c owner props s).1 = outcome_of toks
  /\ (RFTGroup.mintToken helper signer c owner pieces props s).1 = outcome_of toks2.
Proof.
  intros H1 H2 S1 S2 Ht1 Ht2 outcome_of. unfold NFTGroup.mintToken, RFTGroup.mintToken.
  rewrite (bind_Ret _ _ _ _ _ H1), (bind_Ret _ _ _ _ _ H2).
  unfold NFTnRFT.single_token, extractTokensFromCreationResult. rewrite S1, S2.
  rewrite (extract_tokens_spec (js "ItemCreated") _ _ ltac:(done) Ht1).
  rewrite (extract_tokens_spec (js "ItemCreated") _ _ ltac:(done) Ht2).
  split; [destruct toks as [|k [|k2 l]]|destruct toks2 as [|k [|k2 l]]]; done.
Qed.

(** [repartitionToken] looks for [ItemCreated] when the number of pieces grows
    and for [ItemDestroyed] otherwise, also when it stays the same. *)
Theorem repartition_event helper signer (c t : Z) amount current s s0 r s' :
  RFTGroup.getTokenTotalPieces helper c t s = (Ret (JBig current), s0) ->
  exec helper signer (js "api.tx.unique.repartition") [num_js c; num_js t; JBig amount] s0 = (Ret r, s') ->
  RFTGroup.repartitionToken helper signer c t amount s = (Ret true, s') <->
  findCollectionInEvents (tr_events r) c (js "common")
    (if decide (current < amount) then js "ItemCreated" else js "ItemDestroyed") = Ret true.
Proof.
  intros H1 H2. unfold RFTGroup.repartitionToken.
  rewrite (bind_Ret _ _ _ _ _ H1), (bind_Ret _ _ _ _ _ H2). cbn [js_lt].
  destruct (Z.ltb_spec current amount), (decide (current < amount)); try lia; unfold lift;
    (split; [by intros [= ->]|by intros ->]).
Qed.

End Tokens.

(** ** Options of a new collection *)

Section Options.
Context {N : NodeApi} {C : Crypto}.

(** A flag as a number that fits the positive half of an [int32]. *)
Definition is_flag (v : jsval) : Prop := exists z, v = JNum (Int z) /\ 0 <= z < 2 ^ 31.

Definition flag_bit (i : Z) (v : jsval) : bool :=
  match v with JNum (Int z) => Z.testbit z i | _ => false end.

Lemma to_int32_small z : 0 <= z < 2 ^ 31 -> to_int32 (JNum (Int z)) = z.
Proof. intros Hz. cbn [to_int32]. rewrite Z.mod_small by lia. lia. Qed.

Lemma lor_bound a b n : 0 < n -> 0 <= a < 2 ^ n -> 0 <= b < 2 ^ n -> 0 <= Z.lor a b < 2 ^ n.
Proof.
  intros Hn Ha Hb. assert (0 <= Z.lor a b) by (apply Z.lor_nonneg; lia). split; [done|].
  destruct (Z.eq_dec (Z.lor a b) 0) as [->|Hne]; [lia|].
  assert (forall x, 0 <= x < 2 ^ n -> Z.log2 x < n) as Hlog.
  { intros x Hx. destruct (Z.eq_dec x 0) as [->|]; [done|]. apply Z.log2_lt_pow2; lia. }
  apply Z.log2_lt_pow2; [lia|]. rewrite Z.log2_lor by lia. by apply Z.max_lub_lt; apply Hlog.
Qed.

Lemma bit_or_flag a v : 0 <= a < 2 ^ 31 -> is_flag v ->
  0 <= bit_or a v < 2 ^ 31 /\ forall i, Z.testbit (bit_or a v) i = Z.testbit a i || flag_bit i v.
Proof.
  intros Ha (z & -> & Hz). unfold bit_or. rewrite !(to_int32_small z), (to_int32_small a) by done.
  pose proof (lor_bound a z 31 ltac:(lia) Ha Hz) as Hl. rewrite to_int32_small by done.
  split; [done|]. intros i. by rewrite Z.lor_spec.
Qed.

(** The flags of a new collection are joined into the one number whose bits
    are those set in any of them. *)
Theorem join_flags_bits flags : Forall is_flag flags ->
  0 <= join_flags flags < 2 ^ 31
  /\ forall i, Z.testbit (join_flags flags) i = existsb (flag_bit i) flags.
Proof.
  unfold join_flags. intros Hf.
  cut (forall a, 0 <= a < 2 ^ 31 -> 0 <= fold_left bit_or flags a < 2 ^ 31
         /\ forall i, Z.testbit (fold_left bit_or flags a) i = Z.testbit a i || existsb (flag_bit i) flags).
  - intros H. destruct (H 0 ltac:(lia)) as [H1 H2]. split; [done|]. intros i. by rewrite H2, Z.testbit_0_l.
  - induction Hf as [|v l Hv Hl IH]; intros a Ha; cbn [fold_left existsb].
    + split; [done|]. intros i. by rewrite orb_false_r.
    + destruct (bit_or_flag a v Ha Hv) as [H1 H2]. destruct (IH _ H1) as [H3 H4].
      split; [done|]. intros i. by rewrite H4, H2, orb_assoc.
Qed.

Definition encoded_keys : list jsstr := map js ["name"; "description"; "tokenPrefix"]%string.

(** What happens to the value of one of these keys. *)
Definition encoded (v : option jsval) : option jsval :=
  match v with
  | Some (JStr s) => Some (UniqueUtil.str2vec (JStr s))
  | _ => v
  end.

Lemma encode_one key k (o : list (jsstr * jsval)) :
  assoc k match assoc key o with
          | Some (JStr s) => assoc_set key (UniqueUtil.str2vec (JStr s)) o
          | _ => o
          end
  = if decide (k = key) then encoded (assoc k o) else assoc k o.
Proof.
  destruct (decide (k = key)) as [->|Hne].
  - destruct (assoc key o) as [[]|] eqn:E; cbn [encoded]; try done. by rewrite assoc_set_eq.
  - destruct (assoc key o) as [[]|]; try done. by rewrite assoc_set_ne by congruence.
Qed.

Lemma encode_strings_assoc k o :
  assoc k (encode_strings o) = if decide (k ∈ encoded_keys) then encoded (assoc k o) else assoc k o.
Proof.
  unfold encode_strings. change (map js ["name"; "description"; "tokenPrefix"]%string) with encoded_keys.
  assert (forall v, encoded (encoded v) = encoded v) as Hidem by (by intros [[]|]).
  generalize encoded_keys. intros keys. revert o.
  induction keys as [|key keys IH]; intros o; cbn [fold_left].
  - by destruct (decide (k ∈ [])) as [H|_]; [apply not_elem_of_nil in H|].
  - rewrite IH, encode_one. destruct (decide (k = key)) as [->|Hne].
    + destruct (decide (key ∈ key :: keys)) as [_|H]; [|by destruct H; left].
      destruct (decide _); [apply Hidem|done].
    + destruct (decide (k ∈ keys)) as [H1|H1], (decide (k ∈ key :: keys)) as [H2|H2]; try done.
      * by destruct H2; right.
      * by apply elem_of_cons in H2 as [?|?].
Qed.

(** The options with which an NFT or RFT collection is created are a deep copy
    of the caller's, with the mode and the joined flags set, the three texts
    turned into arrays of units, and every other option kept. *)
Theorem mint_options_spec options mode o ps :
  clone_options options = Ret ps ->
  NFTnRFT.mint_options options mode = Ret o ->
  assoc (js "mode") o = Some (match mode with
                              | NFT => obj [(js "nft", JNull)]
                              | RFT => obj [(js "refungible", JNull)]
                              end)
  /\ assoc (js "flags") o = Some (JArr [JNum (Int (join_flags (option_flags ps)))])
  /\ (forall k, k ∈ encoded_keys -> assoc k o = encoded (assoc k ps))
  /\ (forall k, k ∉ encoded_keys -> k <> js "mode" -> k <> js "flags" -> assoc k o = assoc k ps).
Proof.
  intros Hc. unfold NFTnRFT.mint_options. rewrite Hc. cbn [bind outcome_monad].
  intros Ho%Ret_inj. subst o. set (m := match mode with NFT => _ | RFT => _ end).
  assert ((js "mode" ∉ encoded_keys) /\ (js "flags" ∉ encoded_keys)) as [Hm Hf].
  { split; apply (bool_decide_unpack _); by vm_compute. }
  assert (option_flags (encode_strings (assoc_set (js "mode") m ps)) = option_flags ps) as ->.
  { unfold option_flags. rewrite encode_strings_assoc. destruct (decide _); [done|].
    by rewrite assoc_set_ne by done. }
  split_and!.
  - rewrite assoc_set_ne by done. rewrite encode_strings_assoc. destruct (decide _); [done|].
    apply assoc_set_eq.
  - apply assoc_set_eq.
  - intros k Hk. rewrite assoc_set_ne by (intros <-; done). rewrite encode_strings_assoc.
    destruct (decide _); [|done]. by rewrite assoc_set_ne by (intros <-; done).
  - intros k Hk Hk1 Hk2. rewrite assoc_set_ne by done. rewrite encode_strings_assoc.
    destruct (decide _); [done|]. by rewrite assoc_set_ne by done.
Qed.

(** A fungible collection is refused when its options carry token property
    permissions, before anything is sent to the node. *)
Theorem fungible_refuses_permissions helper signer options decimals ps p s :
  clone_options options = Ret ps -> assoc (js "tokenPropertyPermissions") ps = Some p -> truthy p = true ->
  FTGroup.mintCollection helper signer options decimals s
  = (Throw (JSError (js "Fungible collections has no tokenPropertyPermissions")), s).
Proof.
  intros Hc Hp Ht. unfold FTGroup.mintCollection, FTGroup.mint_options. rewrite Hc.
  cbn [bind outcome_monad]. rewrite Hp. unfold lift. cbn. by rewrite Ht.
Qed.

(** [getData] counts the tokens only of collections whose mode reads [NFT] or
    [RFT]; for the mode name the runtime gives to re-fungible collections,
    [ReFungible], the count is always zero. *)
Theorem getData_refungible_count helper (c : number) s d s' :
  CollectionGroup.getData helper c s = (Ret (Some d), s') ->
  get_prop (CollectionGroup.cd_raw d) (js "mode") = Ret (JStr (js "ReFungible")) ->
  CollectionGroup.cd_tokensCount d = JNum (Int 0).
Proof.
  unfold CollectionGroup.getData. intros H Hm. run_inv.
  destruct (strict_eq _ JNull); run_inv; [done|].
  cbn in Hm |- *. repeat match goal with H : ?x = Ret _, H' : ?x = Ret _ |- _ => rewrite H in H'; injection H' as <- end.
  simplify_eq.
  match goal with H : (if _ then _ else _) _ = _ |- _ => cbn in H; by injection H as <- end.
Qed.

End Options.

(** ** Balances *)

Section Balances.
Context {N : NodeApi} {C : Crypto}.
Implicit Types helper : nat.

(** A [balances.Transfer] event that moves [a] from the account [f] to [t]. *)
Definition moves (e : EventRecord) (f t : jsstr) (a : Z) : Prop :=
  normalize_account (datum e 0) = Ret f /\ normalize_account (datum e 1) = Ret t
  /\ to_bigint (datum e 2) = Ret a.

Lemma last_transfer_spec events e f t a :
  Forall (fun e => is_event (js "balances") (js "Transfer") e = true -> exists f t a, moves e f t a) events ->
  last_match (is_event (js "balances") (js "Transfer")) events e -> moves e f t a ->
  last_transfer normalize_account events = Ret (mkBalanceTransfer (Some f) (Some t) a).
Proof.
  intros H Hlast (Hf & Ht & Ha). unfold last_transfer. rewrite for_each_overwrite.
  apply last_filterb in Hlast. set (g := fun e : EventRecord => _).
  assert (exists ts, map_out g (filterb (is_event (js "balances") (js "Transfer")) events) = Ret ts
     /\ Forall2 (fun e x => g e = Ret x) (filterb (is_event (js "balances") (js "Transfer")) events) ts)
    as (ts & -> & Hts).
  { clear Hlast. induction H as [|x events Hx Hes (ts & IH & IH2)]; [by exists []|]. cbn [filterb List.filter].
    unfold filterb in *. cbn [List.filter]. destruct (is_event _ _ x); [|by exists ts].
    destruct (Hx eq_refl) as (f0 & t0 & a0 & H1 & H2 & H3).
    exists (mkBalanceTransfer (Some f0) (Some t0) a0 :: ts).
    assert (g x = Ret (mkBalanceTransfer (Some f0) (Some t0) a0)) as Hgx.
    { unfold g. by rewrite H1, H2, H3. }
    split; [|by constructor]. cbn [map_out]. by rewrite Hgx, IH. }
  cbn [fmap outcome_fmap]. apply Forall2_last in Hts. rewrite Hlast in Hts. inversion Hts as [? x Hx|]; subst.
  cbn [default]. f_equal. assert (g e = Ret (mkBalanceTransfer (Some f) (Some t) a)) as Hg.
  { unfold g. by rewrite Hf, Ht, Ha. }
  rewrite Hx in Hg. by injection Hg.
Qed.

(** All [balances.Transfer] events among these can be read. *)
Definition readable (events : list EventRecord) : Prop :=
  Forall (fun e => is_event (js "balances") (js "Transfer") e = true -> exists f t a, moves e f t a) events.

Lemma last_transfer_none events :
  Forall (fun e => is_event (js "balances") (js "Transfer") e = false) events ->
  last_transfer normalize_account events = Ret (mkBalanceTransfer None None 0).
Proof.
  intros H%filterb_nil. unfold last_transfer. by rewrite for_each_overwrite, H.
Qed.

Lemma is_transfer_decide from to amount f t n y z a :
  AddressGroup.normalizeSubstrate from 42 = Ret f -> AddressGroup.normalizeSubstrate to 42 = Ret t ->
  to_bigint (amount_js amount) = Ret n ->
  is_substrate_transfer from to amount (mkBalanceTransfer (Some y) (Some z) a)
  = Ret (bool_decide (f = y /\ t = z /\ n = a)).
Proof.
  intros Hf Ht Hn. unfold is_substrate_transfer. rewrite Hf, Ht, Hn.
  cbn [bind outcome_monad bt_from bt_to bt_amount]. unfold opt_eqb.
  destruct (decide (f = y)) as [->|]; [rewrite bool_decide_true by done|];
    [|by rewrite !bool_decide_false by (tauto || congruence)].
  destruct (decide (t = z)) as [->|]; [rewrite bool_decide_true by done|];
    [|by rewrite !bool_decide_false by (tauto || congruence)].
  f_equal. destruct (Z.eqb_spec n a); [by rewrite bool_decide_true|by rewrite bool_decide_false by tauto].
Qed.

(** The verdict on the events of a transfer that was asked for. *)
Lemma balance_verdict events from to amount f t n :
  readable events -> AddressGroup.normalizeSubstrate from 42 = Ret f ->
  AddressGroup.normalizeSubstrate to 42 = Ret t -> to_bigint (amount_js amount) = Ret n ->
  exists transfer b, last_transfer normalize_account events = Ret transfer
    /\ is_substrate_transfer from to amount transfer = Ret b
    /\ (b = true <-> exists e, last_match (is_event (js "balances") (js "Transfer")) events e /\ moves e f t n).
Proof.
  intros Hr Hf Ht Hn. destruct (last (filterb (is_event (js "balances") (js "Transfer")) events)) as [e|] eqn:Hl.
  - apply last_filterb in Hl. assert (exists f0 t0 a, moves e f0 t0 a) as (f0 & t0 & a & Hm).
    { destruct Hl as (l1 & l2 & -> & He & _). apply Forall_app in Hr as [_ [Hr _]%Forall_cons]. by apply Hr. }
    eexists _, _. split; [by eapply last_transfer_spec|]. split; [by eapply is_transfer_decide|].
    rewrite bool_decide_eq_true. split.
    + intros (-> & -> & ->). by exists e.
    + intros (e' & Hl' & H1 & H2 & H3). apply last_filterb in Hl, Hl'. rewrite Hl in Hl'. injection Hl' as <-.
      destruct Hm as (M1 & M2 & M3). rewrite M1 in H1. rewrite M2 in H2. rewrite M3 in H3.
      apply Ret_inj in H1, H2, H3. by subst.
  - apply last_filterb_None in Hl. exists (mkBalanceTransfer None None 0). eexists.
    split; [by apply last_transfer_none|]. unfold is_substrate_transfer. rewrite Hf, Ht, Hn.
    split; [reflexivity|]. cbn. split; [done|]. intros (e & (l1 & l2 & -> & He & _) & _).
    apply Forall_app in Hl as [_ [Hl _]%Forall_cons]. congruence.
Qed.

(** C30: A transfer of balance answers [true] exactly when the last
    [balances.Transfer] event of its extrinsic moves the asked amount between
    the asked accounts, compared by their keys whatever network format they are
    written in, and [false] otherwise, also when there is no such event: a
    transfer of the signer after [transferKeepAlive], and a forced one after
    [forceTransfer], each in its own run. *)
Theorem balance_transfer_exact helper signer from to amount fs ff ft n :
  AddressGroup.normalizeSubstrate (address signer) 42 = Ret fs ->
  AddressGroup.normalizeSubstrate from 42 = Ret ff ->
  AddressGroup.normalizeSubstrate to 42 = Ret ft ->
  to_bigint (amount_js amount) = Ret n ->
  (forall s r s',
    exec helper signer (js "api.tx.balances.transferKeepAlive") [JStr to; amount_js amount] s = (Ret r, s') ->
    readable (tr_events r) ->
    exists b, SubstrateBalanceGroup.transferToSubstrate helper signer to amount s = (Ret b, s')
      /\ (b = true <-> exists e,
           last_match (is_event (js "balances") (js "Transfer")) (tr_events r) e /\ moves e fs ft n))
  /\ (forall s r s',
    exec helper signer (js "api.tx.balances.forceTransfer") [JStr from; JStr to; amount_js amount] s = (Ret r, s') ->
    readable (tr_events r) ->
    exists b, BalanceGroup.forceTransferToSubstrate helper signer from to amount s = (Ret b, s')
      /\ (b = true <-> exists e,
           last_match (is_event (js "balances") (js "Transfer")) (tr_events r) e /\ moves e ff ft n)).
Proof.
  intros Hs Hf Ht Hn. split; intros s r s' H Hr.
  - destruct (balance_verdict _ _ _ _ _ _ _ Hr Hs Ht Hn) as (tr & b & Hl & Hb & Hv). exists b. split; [|done].
    unfold SubstrateBalanceGroup.transferToSubstrate. rewrite (bind_Ret _ _ _ _ _ H), Hl. cbn [bind M_monad lift]. by rewrite Hb.
  - destruct (balance_verdict _ _ _ _ _ _ _ Hr Hf Ht Hn) as (tr & b & Hl & Hb & Hv). exists b. split; [|done].
    unfold BalanceGroup.forceTransferToSubstrate. rewrite (bind_Ret _ _ _ _ _ H), Hl. cbn [bind M_monad lift]. by rewrite Hb.
Qed.

End Balances.

(** ** Numbers and vesting *)

Section Amounts.
Context {N : NodeApi} {C : Crypto}.
Implicit Types helper : nat.

Lemma take_digits_all ds : Forall (fun d => 0 <= d < 10) ds -> take_digits 10 (map digit_unit ds) = ds.
Proof. apply take_digits_units. lia. Qed.

Lemma bigint_number_toString n : 0 <= n -> string_toBigInt (number_toString n) = Some n.
Proof.
  intros Hn. destruct (number_toString_digits n Hn) as (ds & -> & Hf & Hv & Hl).
  destruct ds as [|d ds]; [cbn in Hl; lia|]. unfold string_toBigInt. cbn [map].
  rewrite bool_decide_true.
  - change (digit_unit d :: map digit_unit ds) with (map digit_unit (d :: ds)).
    rewrite read_signed_units by (inversion Hf; lia). cbn [map].
    unfold read_all. change (digit_unit d :: map digit_unit ds) with (map digit_unit (d :: ds)).
    rewrite take_digits_all by done. rewrite length_map, Hv. by rewrite bool_decide_true.
  - destruct ds as [|d2 ds]; [done|]. cbn [map strip_0x].
    inversion Hf as [|? ? _ Hf2]; subst. inversion Hf2 as [|? ? Hd2 _]; subst.
    assert (48 <= digit_unit d2 <= 57) by (unfold digit_unit; destruct (Z.ltb_spec d2 10); lia).
    destruct (Z.eqb_spec (digit_unit d2) 120); [lia|]. destruct (Z.eqb_spec (digit_unit d2) 88); [lia|].
    by rewrite andb_false_r.
Qed.

(** A locked amount is read right however the node groups its digits: any
    string that is the decimal form of the amount with commas put in, at any
    place, gives the amount. *)
Theorem lock_amount_with_commas n s lock id reasons :
  0 <= n -> remove_commas s = number_toString n ->
  get_prop lock (js "id") = Ret id -> get_prop lock (js "amount") = Ret (JStr s) ->
  get_prop lock (js "reasons") = Ret reasons ->
  SubstrateBalanceGroup.read_lock lock = Ret (SubstrateBalanceGroup.mkLock id n reasons).
Proof.
  intros Hn Hs Hi Ha Hr. unfold SubstrateBalanceGroup.read_lock. rewrite Hi, Ha, Hr.
  cbn [bind outcome_monad SubstrateBalanceGroup.human_amount]. unfold bigint_of_string.
  by rewrite Hs, bigint_number_toString.
Qed.

Lemma find_out_spec {A} (p : A -> Res bool) l : (forall a, a ∈ l -> exists b, p a = Ret b) ->
  find_out p l = Ret (findb (fun a => match p a with Ret b => b | _ => false end) l).
Proof.
  unfold findb. induction l as [|a l IH]; intros Hp; [done|]. cbn [find_out List.find].
  destruct (Hp a ltac:(left)) as [b Hb]. rewrite Hb. cbn [bind outcome_monad].
  destruct b; [done|]. apply IH. intros x Hx. apply Hp. by right.
Qed.

(** The event with which the vesting pallet names the account of [signer]. *)
Definition vesting_for (m : jsstr) (signer : TSigner) (e : EventRecord) : Prop :=
  is_event (js "vesting") m e = true /\ call0 (datum e 0) (js "toHuman") = Ret (JStr (address signer)).

Lemma vesting_found m signer events :
  (forall e, e ∈ events -> is_event (js "vesting") m e = true ->
     exists v, call0 (datum e 0) (js "toHuman") = Ret v) ->
  exists o, find_out (BalanceGroup.vesting_event m signer) events = Ret o
    /\ (is_Some o <-> exists e, e ∈ events /\ vesting_for m signer e).
Proof.
  intros Hr. eexists. split.
  - apply find_out_spec. intros e He. unfold BalanceGroup.vesting_event.
    destruct (is_event _ _ e) eqn:E; [|eauto]. destruct (Hr e He E) as [v ->]. eexists. done.
  - set (p := fun e : EventRecord => _). split.
    + intros [e He]. unfold findb in He. apply List.find_some in He as [Hin Hp].
      exists e. split; [by apply list_elem_of_In|]. unfold p, BalanceGroup.vesting_event in Hp.
      destruct (is_event _ _ e) eqn:E; [|done].
      destruct (call0 (datum e 0) (js "toHuman")) as [v|x|] eqn:Ev; cbn in Hp; try done.
      destruct v; try done. apply jseq_true in Hp. subst. by split.
    + intros (e & He & Hev & Hc). destruct (findb p events) eqn:E; [done|].
      exfalso. unfold findb in E. pose proof (List.find_none _ _ E e) as Hn.
      rewrite <- list_elem_of_In in Hn. specialize (Hn He). unfold p, BalanceGroup.vesting_event in Hn.
      rewrite Hev, Hc in Hn. cbn in Hn. by rewrite jseq_refl in Hn.
Qed.

(** [vestedTransfer] and [claim] complete exactly when the vesting pallet
    answered with its event for the signer's own account, and throw otherwise,
    although the extrinsic has then been run. *)
Theorem vesting_answered helper signer to schedule s r s' r2 s2 :
  exec helper signer (js "api.tx.vesting.vestedTransfer") [JStr to; vesting_js schedule] s = (Ret r, s') ->
  exec helper signer (js "api.tx.vesting.claim") [] s = (Ret r2, s2) ->
  (forall e, e ∈ tr_events r ++ tr_events r2 -> section e = js "vesting" ->
     exists v, call0 (datum e 0) (js "toHuman") = Ret v) ->
  ((BalanceGroup.vestedTransfer helper signer to schedule s = (Ret tt, s') <->
      exists e, e ∈ tr_events r /\ vesting_for (js "VestingScheduleAdded") signer e)
   /\ (BalanceGroup.vestedTransfer helper signer to schedule s
         = (Throw (JSError (js "Cannot find transfer in events")), s') <->
       ~ exists e, e ∈ tr_events r /\ vesting_for (js "VestingScheduleAdded") signer e))
  /\ (BalanceGroup.claim helper signer s = (Ret tt, s2) <->
      exists e, e ∈ tr_events r2 /\ vesting_for (js "Claimed") signer e).
Proof.
  intros H1 H2 Hr. unfold BalanceGroup.vestedTransfer, BalanceGroup.claim.
  rewrite (bind_Ret _ _ _ _ _ H1), (bind_Ret _ _ _ _ _ H2).
  assert (forall m e, is_event (js "vesting") m e = true -> section e = js "vesting") as Hsec.
  { intros m e [H _]%andb_prop. by apply jseq_true. }
  destruct (vesting_found (js "VestingScheduleAdded") signer (tr_events r)) as (o1 & E1 & S1).
  { intros e He Hev. apply Hr; [apply elem_of_app; by left|by eapply Hsec]. }
  destruct (vesting_found (js "Claimed") signer (tr_events r2)) as (o2 & E2 & S2).
  { intros e He Hev. apply Hr; [apply elem_of_app; by right|by eapply Hsec]. }
  rewrite E1, E2, <- S1, <- S2. cbn [bind M_monad lift].
  split; [split|]; [destruct o1..|destruct o2]; split; try done; try (by intros []); try (by intros H; destruct H; eauto).
Qed.

(** The nominal of the native token is ten to the power of the first of the
    chain's decimals, and [10 ^ 18] when the chain gives none; a collection
    costs twice as much. *)
Theorem nominal_value helper s p s' :
  ChainGroup.getChainProperties helper s = (Ret p, s') ->
  (forall d rest, tokenDecimals p = JArr (JNum (Int d) :: rest) -> 0 <= d ->
     BalanceGroup.getCollectionCreationPrice helper s = (Ret (2 * 10 ^ d), s'))
  /\ (tokenDecimals p = JNull ->
     BalanceGroup.getCollectionCreationPrice helper s = (Ret (2 * 10 ^ 18), s')).
Proof.
  intros H. unfold BalanceGroup.getCollectionCreationPrice.
  assert (forall n, BalanceGroup.nominal (tokenDecimals p) = Ret n ->
            BalanceGroup.getOneTokenNominal helper s = (Ret n, s')) as Hn.
  { intros n Hn. unfold BalanceGroup.getOneTokenNominal. rewrite (bind_Ret _ _ _ _ _ H).
    unfold lift. by rewrite Hn. }
  split.
  - intros d rest Hd Hpos. specialize (Hn (10 ^ d)). rewrite (bind_Ret _ _ _ _ _ (Hn ltac:(
      rewrite Hd; unfold BalanceGroup.nominal; cbn; by destruct (Z.ltb_spec d 0); [lia|]))). done.
  - intros Hd. specialize (Hn (10 ^ 18)). rewrite (bind_Ret _ _ _ _ _ (Hn ltac:(by rewrite Hd))). done.
Qed.

(** The hexadecimal form in which an account number is handed to the registry
    has 64 digits and determines the number: no account of 256 bits is mistaken
    for another. *)
Theorem account_hex_injective m n :
  0 <= m < 2 ^ 256 -> 0 <= n < 2 ^ 256 ->
  length (ConnectedAddressGroup.account_hex m) = 66%nat
  /\ (ConnectedAddressGroup.account_hex m = ConnectedAddressGroup.account_hex n <-> m = n).
Proof.
  intros Hm Hn. change (2 ^ 256) with (16 ^ Z.of_nat 64) in *. unfold ConnectedAddressGroup.account_hex.
  split.
  - destruct (padStart_radix 16 m 64) as (ds & E & Hl & _); [lia|done|lia|].
    by rewrite E, length_app, length_map, Hl.
  - split; [|by intros ->]. intros H%app_inv_head. by eapply padStart_radix_inj in H; [|lia..].
Qed.

End Amounts.
