(* ===== verification/Mock.v ===== *)
(** * A concrete node and concrete cryptography

    Instances of the interfaces [NodeApi] and [Crypto] that compute, so that the
    theorems can be applied at concrete inputs.  The node answers RPC calls,
    transactions and subscriptions from tables; its state is the clock, which advances by one
    at every reading; an endpoint of one unit is down.  The cryptography writes a key as its bytes in
    hexadecimal. *)

From Stdlib Require Import Ascii String.
From stdpp Require Import sorting list.
From S2P Require Import Prelude JsString JsValue Chain Address Util Helper.

Open Scope Z_scope.
Open Scope js_scope.

(** A codec that answers the methods given. *)
Definition answers (l : list (string * jsval)) : jsval :=
  codec (map (fun kv => (js kv.1, kv.2)) l).

Definition fields (l : list (string * jsval)) : jsval :=
  obj (map (fun kv => (js kv.1, kv.2)) l).

Section Node.
(** which parts of the interface there are *)
Variable offered : list jsstr -> bool.
(** what an RPC call or query answers, by its path *)
Variable reply : jsstr -> jsval.
(** the reports on a transaction *)
Variable script : jsval -> list TxUpdate.
(** what a subscription delivers, by its path *)
Variable heads : list jsstr -> list (Z * jsval).
(** the events of a block, by its hash *)
Variable block_events : jsstr -> list EventRecord.

Definition mock_apply (path : list jsstr) (params : list jsval) : Lib jsval :=
  match path with
  | p :: _ =>
      if jseq p (js "tx") then
        Ret (obj [(js "call", JStr (join (js ".") path)); (js "args", JArr params)])
      else
        match reply (join (js ".") path) with
        | JUndef => Throw (js "no answer")
        | v => Ret v
        end
  | [] => Throw (js "no path")
  end.

#[local] Instance offering_node : NodeApi := {|
  World := Z;
  Api := jsstr;
  api_has _ := offered;
  api_apply _ path params w := (mock_apply path params, w);
  new_ApiPromise endpoint _ w := (endpoint, w);
  isReadyOrError api w := (match api with [_] => Throw (js "down") | _ => Ret tt end, w);
  api_on _ _ _ w := w;
  api_disconnect _ w := (Ret tt, w);
  api_at _ blockHash w := (Ret match blockHash with JStr h => h | _ => [] end, w);
  sign_and_send _ _ tx w := (Ret (script tx), w);
  sign_tx _ _ tx w := (Ret tx, w);
  genesisHash _ := JStr (js "0x00");
  runtimeVersion _ := JNull;
  system_events _ w := (Ret [], w);
  events_at block w := (Ret (block_events block), w);
  api_subscribe _ path w := (Ret (heads path), w);
  elapse ms w := w + ms;
  mnemonicGenerate w := ([w], w + 1);
  consts _ _ := JStr (js "0x6c");
  status_toHuman s :=
    match s with
    | StFinalized h => fields [("Finalized"%string, JStr h)]
    | StInBlock h => fields [("InBlock"%string, JStr h)]
    | _ => JStr (js "Ready")
    end;
  now w := (w, w + 1);
  chain_properties _ :=
    fields [("ss58Format"%string, answers [("toJSON"%string, JNum (Int 42))]);
            ("tokenDecimals"%string, answers [("toJSON"%string, JArr [JNum (Int 18)])]);
            ("tokenSymbol"%string, answers [("toJSON"%string, JArr [JStr (js "UNQ")])])];
  findMetaError _ := (js "common", js "NoPermission");
  metadata_pallets _ := [js "Unique"; js "Common"];
  createType _ _ v := Ret (answers [("toJSON"%string, v)]) |}.

End Node.

(** A node that has everything asked for. *)
Abbreviation timed_node := (offering_node (fun _ => true)).

(** A node without new blocks. *)
Abbreviation mock_node reply script := (timed_node reply script (fun _ => []) (fun _ => [])).

(** Bytes as two hexadecimal digits each, and back. *)
Definition hex_of (bs : list Z) : jsstr :=
  flat_map (fun b => [digit_unit (b / 16); digit_unit (b mod 16)]) bs.

Fixpoint bytes_of (s : jsstr) : list Z :=
  match s with
  | a :: b :: s' => (16 * default 0 (digit_value a) + default 0 (digit_value b)) :: bytes_of s'
  | _ => []
  end.

(** The account [encodeAddress] writes carries its network, so that equal keys
    of two networks differ as strings. *)
Definition mock_encode (bs : list Z) (format : Z) : jsstr := hex_of [format] ++ hex_of bs.
Definition mock_decode (s : jsstr) : list Z := bytes_of (drop 2 s).

#[export] Instance mock_crypto : Crypto := {|
  encodeAddress bs f := Ret (mock_encode bs f);
  decodeAddress s := Ret (mock_decode s);
  decodeAccount v := Ret (mock_decode (to_string v));
  encodeAddressChain bs _ := Ret (mock_encode bs 42);
  evmToAddressChain s _ := Ret s;
  keccakAsHex s := js "0x" ++ replicate 64 48;
  addressToEvm s := Ret (mock_decode s);
  evmToAddress s _ := Ret s;
  base58Encode bs := hex_of bs;
  blake2AsU8a bs := [1; 2; 3];
  hexToU8a s := Ret (bytes_of s);
  blake2AsHex s := s;
  blake2AsHex256 v := to_string v;
  addFromUri seed f := mkSigner seed [];
  addFromUriChain seed f := mkSigner seed [];
  addFromUriEthereum seed := mkSigner seed [];
  stringToU8a s := s |}.

(** ** Events and reports *)

(** A datum that reads as a number. *)
Definition num_datum (n : Z) : jsval :=
  answers [("toString"%string, JStr (number_toString n)); ("toJSON"%string, JNum (Int n));
           ("toBigInt"%string, JBig n)].

Definition human_datum (v : jsval) : jsval :=
  answers [("toHuman"%string, v); ("toString"%string, v)].

Definition event (s m : string) (d : list jsval) : EventRecord :=
  mkEvent (js s) (js m) (answers [("toRawType"%string, JStr (js "u16")); ("toJSON"%string, JNum (Int 0))])
    [] d (answers [("toJSON"%string, JNull)]).

Definition succeeded : EventRecord := event "system" "ExtrinsicSuccess" [].
Definition failed : EventRecord := event "system" "ExtrinsicFailed" [].

(** The reports on an extrinsic that ends in a finalized block with [events]. *)
Definition finalized (events : list EventRecord) : list TxUpdate :=
  [mkTxUpdate StReady [] (Some None); mkTxUpdate (StInBlock (js "0x01")) events (Some None);
   mkTxUpdate (StFinalized (js "0x01")) events (Some None)].

Definition dropped : list TxUpdate :=
  [mkTxUpdate StReady [] (Some None); mkTxUpdate StDropped [] (Some None)].

Definition alice : TSigner := mkSigner (js "2a01") [1].

(** A nonce to every account. *)
Definition account_reply (path : jsstr) : jsval :=
  if jseq path (js "query.system.account") then
    fields [("nonce"%string, answers [("toNumber"%string, JNum (Int 7))])]
  else JUndef.

(** A store of one connected helper of a class. *)
Definition store (N : NodeApi) (api : Api) (w : World) (cls : HelperClass) : State :=
  mkState [mkHelper cls (Some api) None (Some (js "opal")) (Some (js "ws://node")) [] []] [] w.

(** The value of a run that returns one. *)
Definition value {E A B} (d : A) (r : outcome E A * B) : A :=
  match r.1 with Ret a => a | _ => d end.

Definition no_result : ITransactionResult :=
  mkResult FAIL (mkTxUpdate StDropped [] None) JUndef None JUndef.
