(* ===== verification/Witnesses.v ===== *)
(** * The theorems at concrete inputs

    Each lemma applies one theorem to a run of the concrete node, where its
    hypotheses are checked by computation. *)

From Stdlib Require Import Ascii String.
From stdpp Require Import sorting relations list.
From S2P Require Import Prelude JsString JsValue Chain Address Util UtilFacts Helper HelperFacts Lifecycle.
From S2P Require Import Collections Tokens Objects Balance Dev CollectionFacts Mock.

Open Scope Z_scope.
Open Scope js_scope.

Ltac by_computation := vm_compute; reflexivity.

(** A decidable statement about concrete strings. *)
Ltac by_decision := apply (bool_decide_unpack _); vm_compute; exact I.

(** ** Addresses *)

(** Accounts that are an Ethereum address with a mark. *)
#[local] Instance marked_accounts : mapping.CrossAccountEvm (list Z * bool) :=
  {| mapping.from_eth eth := (eth, true); mapping.as_eth := fst |}.

Lemma token_address_agrees_with_runtime_witness :
  mapping.cross.address_to_token (mapping.cross.token_to_address (A := list Z * bool) 5 7) = Some (5, 7).
Proof.
  refine (proj1 (proj2 (proj2 (token_address_agrees_with_runtime 5 7)) _ marked_accounts _ _ _));
    [reflexivity|split; [discriminate|reflexivity]..].
Defined.

Lemma token_address_injective_witness :
  exists r, nesting.tokenIdToAddress 5 7 = Ret r /\ (5 = 5 /\ 7 = 7).
Proof.
  eexists (value [] (nesting.tokenIdToAddress 5 7, tt)). split; [by_computation|].
  eapply (token_address_injective 5 7 5 7); [by_computation|by_computation|reflexivity].
Defined.

(** ** Events *)

Definition created5 : EventRecord := event "common" "CollectionCreated" [num_datum 5].

Definition item (m : string) (c t : Z) : EventRecord :=
  event "common" m [num_datum c; num_datum t; human_datum (JStr (js "2a01")); num_datum 1].

Section Plain.
#[local] Instance plain_node : NodeApi := mock_node account_reply (fun _ => finalized [succeeded]).

Lemma findCollectionInEvents_verdict_witness :
  UniqueUtil.findCollectionInEvents [succeeded; created5] 5 (js "common") (js "CollectionCreated") = Ret true.
Proof.
  apply (findCollectionInEvents_verdict [succeeded; created5] 5).
  - constructor; [by_computation || discriminate|]. constructor; [|constructor].
    intros _. exists (Int 5). by_computation.
  - exists created5. split; [|by_computation]. exists [succeeded], []. split; [reflexivity|].
    split; [by_computation|constructor].
Defined.

Definition minted : ITransactionResult :=
  mkResult SUCCESS (mkTxUpdate (StFinalized (js "0x01")) [item "ItemCreated" 5 1; item "ItemDestroyed" 5 2; succeeded] (Some None))
    JUndef None JUndef.

Definition token_of (c t : Z) : EventToken := mkEventToken (Int c) (Int t) (JStr (js "2a01")) (JBig 1).

Lemma extracted_tokens_witness :
  UniqueUtil.extractTokensFromCreationResult minted = Ret (mkCreation true [token_of 5 1])
  /\ UniqueUtil.extractTokensFromBurnResult minted = Ret (mkCreation true [token_of 5 2]).
Proof.
  apply (extracted_tokens minted [token_of 5 1] [token_of 5 2]).
  - constructor; [by_computation|constructor].
  - constructor; [by_computation|constructor].
Defined.

Definition transfer_event (c t : Z) (from to : ICrossAccountId) (amount : Z) : EventRecord :=
  event "common" "Transfer"
    [num_datum c; num_datum t; human_datum (cross_js from); human_datum (cross_js to); num_datum amount].

Definition key1 : jsstr := js "2a01".
Definition key1_kusama : jsstr := js "0201".
Definition key2 : jsstr := js "2a02".

(** The same key in another network's format. *)
Lemma reports_key1 amount :
  reports_last [succeeded; transfer_event 5 1 (Substrate key1_kusama) (Substrate key2) amount] 5 1
    (Substrate key1_kusama) (Substrate key2) amount (Substrate key1) (Substrate key2).
Proof.
  split.
  - constructor; [by_computation || discriminate|]. constructor; [|constructor].
    intros _. eexists. by_computation.
  - eexists. split.
    + exists [succeeded], []. split; [reflexivity|]. split; [by_computation|constructor].
    + exists (JNum (Int amount)). split_and!; by_computation.
  - by_computation.
  - by_computation.
  - split; by_decision.
Defined.

Lemma isTokenTransferSuccess_exact_witness :
  UniqueUtil.isTokenTransferSuccess
    [succeeded; transfer_event 5 1 (Substrate key1_kusama) (Substrate key2) 3] 5 1
    (Substrate key1) (Substrate key2) 3 = Ret true.
Proof.
  etransitivity.
  - eapply (isTokenTransferSuccess_exact _ 5 1 _ _ 3 _ _ 5 1 (Substrate key1) (Substrate key2) 3
              (Substrate key1) (Substrate key2) (reports_key1 3));
      [lia|lia|by_computation|by_computation|by_decision|by_decision].
  - by_computation.
Defined.

Lemma isTokenTransferSuccess_no_event_witness :
  UniqueUtil.isTokenTransferSuccess [succeeded] 5 1 (Substrate key1) (Substrate key2) 3 = Ret false.
Proof. apply isTokenTransferSuccess_no_event. repeat constructor. Defined.

Lemma bigIntToDecimals_value_witness :
  exists ip fp,
    UniqueUtil.bigIntToDecimals 1234567 3 = map digit_unit ip ++ js "." ++ map digit_unit fp
    /\ Forall (fun d => 0 <= d < 10) ip /\ Forall (fun d => 0 <= d < 10) fp
    /\ ip <> [] /\ Z.of_nat (length fp) = 3 /\ undigits 10 ip * 10 ^ 3 + undigits 10 fp = 1234567.
Proof. apply (bigIntToDecimals_value 1234567 3); lia. Defined.

Lemma str2vec_vec2str_witness :
  UniqueUtil.code_point_heads (js "token") = js "token" <-> no_pair (js "token") = true.
Proof. apply (str2vec_vec2str (js "token")). by_decision. Defined.

Lemma vec2str_thousands_separator_witness :
  UniqueUtil.vec2str [JStr (number_toString 1 ++ js "," ++ js "058")] = Ret [1].
Proof. apply (vec2str_thousands_separator 1 (js "058")). lia. Defined.

End Plain.

(** ** Transactions *)

Definition lbl : jsstr := js "api.tx.unique.destroyCollection".
Definition destroy_tx : jsval :=
  obj [(js "call", JStr (js "tx.unique.destroyCollection")); (js "args", JArr [JNum (Int 5)])].

Section Finalized.
#[local] Instance final_node : NodeApi :=
  mock_node account_reply (fun _ => finalized [event "common" "CollectionDestroyed" [num_datum 5]; succeeded]).

Definition final_store : State := store final_node (js "ws://node") 100 PlainHelper.

Definition final_nonce := ChainHelperBase.with_nonce 0 alice None final_store.

Lemma signTransaction_first_decisive_witness :
  exists u, findb decisive (finalized [event "common" "CollectionDestroyed" [num_datum 5]; succeeded]) = Some u
  /\ (ChainHelperBase.signTransaction 0 alice destroy_tx None lbl final_store).1 = settlement u.
Proof.
  eexists. split; [by_computation|].
  rewrite (signTransaction_first_decisive 0 alice destroy_tx None lbl final_store (value [] final_nonce)
    final_nonce.2 (finalized [event "common" "CollectionDestroyed" [num_datum 5]; succeeded])
    (st_world final_nonce.2)); [by_computation|by_computation|by_computation].
Defined.

Definition destroy_run := executeExtrinsic 0 alice lbl [JNum (Int 5)] true None final_store.
Definition destroy_result : ITransactionResult := value no_result destroy_run.

Lemma executeExtrinsic_returns_witness :
  finalized_success destroy_result
  \/ (tr_status destroy_result = FAIL /\ ChainHelperBase.dispatch_error destroy_result = None
      /\ ChainHelperBase.getTransactionStatus (tr_result destroy_result) = FAIL).
Proof.
  apply (executeExtrinsic_returns 0 alice lbl [JNum (Int 5)] None final_store destroy_result destroy_run.2).
  by_computation.
Defined.

Definition final_helper : HelperState :=
  mkHelper PlainHelper (Some (js "ws://node")) None (Some (js "opal")) (Some (js "ws://node")) [] [].

Lemma executeExtrinsic_logged_once_witness :
  exists rpcs e,
    st_helpers destroy_run.2 !! 0%nat = Some (push_entries (rpcs ++ [e]) final_helper)
    /\ Forall (fun e => log_type e = RPC) rpcs
    /\ log_type e = EXTRINSIC /\ log_call e = outer_call (hs_class final_helper) lbl
    /\ log_status e = tr_status destroy_result /\ log_signer e = Some (address alice)
    /\ forall l, l <> 0%nat -> st_helpers destroy_run.2 !! l = st_helpers final_store !! l.
Proof.
  apply (executeExtrinsic_logged_once 0 final_helper alice lbl [JNum (Int 5)] true None final_store
    destroy_result destroy_run.2); [by_computation|by_computation].
Defined.

Definition nonce_run := callRpc 0 (js "api.query.system.account") [JStr (js "2a01")] final_store.

Lemma callRpc_logged_witness :
  exists e, st_helpers nonce_run.2 !! 0%nat = Some (push_entries [e] final_helper)
    /\ log_type e = RPC /\ log_call e = js "api.query.system.account"
    /\ log_params e = [JStr (js "2a01")] /\ log_status e = SUCCESS.
Proof.
  apply (callRpc_logged 0 final_helper (js "api.query.system.account") [JStr (js "2a01")] final_store
    nonce_run.1 nonce_run.2); [by_computation|by eexists|by_computation|by vm_compute].
Defined.

Definition burn_run := CollectionGroup.burn 0 alice (Int 5) final_store.

Lemma collection_method_true_witness :
  exists r e,
    exec 0 alice lbl [num_js (Int 5)] final_store = (Ret r, burn_run.2)
    /\ ids_readable (js "common") (js "CollectionDestroyed") (tr_events r)
    /\ last_match (is_event (js "common") (js "CollectionDestroyed")) (tr_events r) e
    /\ datum_int e 0 = Ret (Int 5)
    /\ (finalized_success r \/ (rejected r /\ ChainHelperBase.dispatch_error r = None)).
Proof.
  apply (collection_method_true 0 alice _ _ _ _ _ final_store burn_run.2 (cm_burn 0 alice 5)).
  by_computation.
Defined.

Lemma collection_method_no_event_witness :
  CollectionGroup.confirmSponsorship 0 alice (Int 5) final_store
  = (Throw (JSError (js "No SponsorshipConfirmed event was found!")),
     (exec 0 alice (js "api.tx.unique.confirmSponsorship") [num_js (Int 5)] final_store).2).
Proof.
  apply (collection_method_no_event 0 alice _ _ _ _ _ final_store
    (value no_result (exec 0 alice (js "api.tx.unique.confirmSponsorship") [num_js (Int 5)] final_store))
    _ (cm_confirmSponsorship 0 alice 5)); [by_computation|].
  repeat constructor.
Defined.

End Finalized.

Section Dropped.
#[local] Instance dropped_node : NodeApi := mock_node account_reply (fun _ => dropped).

Definition dropped_store : State := store dropped_node (js "ws://node") 100 PlainHelper.
Definition dropped_helper : HelperState :=
  mkHelper PlainHelper (Some (js "ws://node")) None (Some (js "opal")) (Some (js "ws://node")) [] [].
Definition stake_call : jsstr := js "api.tx.appPromotion.stake".
Definition dropped_time := current_time dropped_store.
Definition dropped_submit := ChainHelperBase.submit 0 alice stake_call [JBig 5] None dropped_time.2.
Definition dropped_result : ITransactionResult := (value (no_result, []) dropped_submit).1.

Lemma dropped_extrinsic_is_returned_witness :
  tr_status dropped_result = FAIL
  /\ (executeExtrinsic 0 alice stake_call [JBig 5] true None dropped_store).1 = Ret dropped_result.
Proof.
  split; [by_computation|].
  apply (dropped_extrinsic_is_returned 0 dropped_helper alice stake_call [JBig 5] None dropped_store 100
    dropped_time.2 dropped_result dropped_submit.2 103 (current_time dropped_submit.2).2);
    try by_computation.
  by eexists.
Defined.

End Dropped.

Section Sudo.
Definition sudid : EventRecord := event "sudo" "Sudid" [fields [("isErr"%string, JBool false)]].

#[local] Instance sudo_node : NodeApi := mock_node account_reply (fun _ => finalized [sudid; succeeded]).

Definition sudo_store : State := store sudo_node (js "ws://node") 100 (SudoHelper PlainHelper).
Definition sudo_run :=
  class_executeExtrinsic (SudoHelper PlainHelper) 0 alice lbl [JNum (Int 5)] true None sudo_store.

Lemma sudo_success_is_inner_success_witness :
  finalized_success (value no_result sudo_run)
  /\ exists event isErr,
       findb (is_event (js "sudo") (js "Sudid")) (tr_events (value no_result sudo_run)) = Some event
       /\ get_prop (datum event 0) (js "isErr") = Ret isErr /\ truthy isErr = false.
Proof.
  apply (sudo_success_is_inner_success 0 PlainHelper alice lbl [JNum (Int 5)] true None sudo_store
    (value no_result sudo_run) sudo_run.2); [by_computation|by vm_compute].
Defined.

End Sudo.

Section SudoScheduled.
#[local] Instance sched_node : NodeApi := mock_node account_reply (fun _ => finalized [succeeded]).

Definition sched_options : ISchedulerOptions := mkSched None None None.
Definition sched_class : HelperClass := ScheduledHelper ScheduleAfter 3 sched_options PlainHelper.
Definition sched_store : State := store sched_node (js "ws://node") 100 (SudoHelper sched_class).
Definition sched_call := constructApiCall 0 lbl [JNum (Int 5)] sched_store.
Definition sched_run :=
  class_executeExtrinsic sched_class 0 alice (js "api.tx.sudo.sudo") [value JUndef sched_call] true None sched_call.2.

Lemma sudo_over_scheduled_throws_witness :
  class_executeExtrinsic (SudoHelper sched_class) 0 alice lbl [JNum (Int 5)] true None sched_store
  = (Throw EngineError, sched_run.2).
Proof.
  apply (sudo_over_scheduled_throws 0 ScheduleAfter 3 sched_options PlainHelper alice lbl [JNum (Int 5)]
    true None sched_store (value JUndef sched_call) sched_call.2 (value no_result sched_run) sched_run.2);
    [by_computation|by_computation|by vm_compute|].
  vm_compute. repeat constructor.
Defined.

End SudoScheduled.

(** ** Connections *)

Section Connections.
#[local] Instance conn_node : NodeApi :=
  mock_node (fun path => if jseq path (js "query.system.lastRuntimeUpgrade")
                         then answers [("toJSON"%string, fields [("specName"%string, JStr (js "quartz"))])]
                         else JUndef) (fun _ => []).

Definition no_store : State := initial (N := conn_node) 0.
Definition created_store : State := (ChainHelperBase.constructor PlainHelper no_store).2.
Definition connected_store : State := (ChainHelperBase.connect 0 (js "ws://node") [] created_store).2.

Lemma connected_reachable_by settled : reachable_by settled connected_store.
Proof.
  exists 0. eapply rtc_l; [apply (step_construct settled PlainHelper no_store)|]. eapply rtc_l; [|apply rtc_refl].
  exact (step_connect settled 0 (js "ws://node") [] created_store).
Defined.

Definition connected_reachable : reachable connected_store := connected_reachable_by false.

Definition connected_helper : HelperState :=
  mkHelper PlainHelper (Some (js "ws://node")) None (Some (js "opal")) (Some (js "ws://node")) [] [].

(** A second connection, over the first, through the override. *)
Definition reconnected_run := DevUniqueHelper.connect 0 (js "ws://other") connected_store.

Lemma reachable_well_formed_witness :
  well_formed true (st_helpers reconnected_run.2) /\ reconnected_run.1 = Ret tt.
Proof.
  split; [|by_computation]. apply (reachable_well_formed true reconnected_run.2).
  destruct (connected_reachable_by true) as [w Hw]. exists w. eapply rtc_r; [exact Hw|].
  apply (step_dev_connect true 0 (js "ws://other") connected_store). intros _. by_computation.
Defined.

Lemma clone_inherits_connection_witness :
  exists s' c,
    ChainHelperBase.clone 0 SudoHelper connected_store = (Ret c, s')
    /\ st_helpers connected_store !! c = None
    /\ st_helpers s' !! c =
         Some (mkHelper (SudoHelper PlainHelper) (Some (js "ws://node")) None (Some (js "opal")) None [] [])
    /\ st_helpers s' !! 0%nat = Some (ChainHelperBase.push_child c connected_helper)
    /\ forall l, l <> 0%nat -> l <> c -> st_helpers s' !! l = st_helpers connected_store !! l.
Proof. apply (clone_inherits_connection 0 SudoHelper connected_store connected_helper). by_computation. Defined.

Definition disconnected := ChainHelperBase.disconnect 0 connected_store.

Lemma disconnect_clears_children_witness :
  exists hl', st_helpers disconnected.2 !! 0%nat = Some hl'
    /\ hs_wsEndpoint hl' = hs_wsEndpoint connected_helper
    /\ (0%nat = 0%nat \/ 0%nat ∈ hs_children connected_helper -> hs_api hl' = None /\ hs_network hl' = None)
    /\ (0%nat <> 0%nat -> 0%nat ∉ hs_children connected_helper -> hl' = connected_helper).
Proof.
  apply (disconnect_clears_children 0 connected_store disconnected.2 connected_helper connected_reachable);
    by_computation.
Defined.

Definition child_run := ChainHelperBase.clone 0 SudoHelper connected_store.
Definition grandchild_run := ChainHelperBase.clone 1 SudoHelper child_run.2.
Definition closed_run := ChainHelperBase.disconnect 0 grandchild_run.2.

Lemma grandchild_survives_disconnect_witness :
  exists g, st_helpers closed_run.2 !! 2%nat = Some g /\ hs_api g = Some (js "ws://node").
Proof.
  apply (grandchild_survives_disconnect 0 SudoHelper SudoHelper connected_helper (js "ws://node")
    connected_store child_run.2 grandchild_run.2 closed_run.2 1 2 connected_reachable); by_computation.
Defined.

End Connections.

(** ** Tokens *)

Definition root_token : IToken := mkToken 5 1.

Section Nesting.
Definition root_address : jsstr := value [] (UniqueUtil.getTokenAddress root_token, tt).

Definition nest_events : list EventRecord :=
  [succeeded; transfer_event 5 2 (Substrate key1) (Ethereum root_address) 1].

#[local] Instance nest_node : NodeApi := mock_node account_reply (fun _ => finalized nest_events).
Definition nest_store : State := store nest_node (js "ws://node") 100 PlainHelper.
Definition nest_run :=
  exec 0 alice (js "api.tx.unique.transfer")
    [cross_js (Ethereum root_address); num_js 5; num_js 2; JBig 1] nest_store.

Lemma nest_reported :
  reports_last nest_events 5 2 (Substrate key1) (Ethereum root_address) 1 (Substrate key1)
    (Ethereum (toLowerCase root_address)).
Proof.
  split.
  - constructor; [by_computation || discriminate|]. constructor; [|constructor].
    intros _. eexists. by_computation.
  - eexists. split.
    + exists [succeeded], []. split; [reflexivity|]. split; [by_computation|constructor].
    + exists (JNum (Int 1)). split_and!; by_computation.
  - by_computation.
  - by_computation.
  - split; by_decision.
Defined.

Lemma nestToken_outcome_witness :
  (NFTnRFT.nestToken 0 alice (mkToken 5 2) root_token nest_store).1 = Ret true.
Proof.
  rewrite (nestToken_outcome 0 alice 5 2 root_token root_address nest_store (value no_result nest_run) nest_run.2
    5 2 (Substrate key1) (Ethereum root_address) 1 (Substrate key1) (Ethereum (toLowerCase root_address))
    (Substrate key1)); [by_computation|lia|lia|by_computation|by_computation| |by_computation|by_decision|by_decision].
  exact nest_reported.
Defined.

End Nesting.

(** The events of a kind among those of a run, when there is one. *)
Ltac one_item e :=
  match goal with
  | |- Forall2 _ ?l _ =>
      let H := fresh in
      assert (H : l = [e]) by by_computation; rewrite H; constructor; [by_computation|constructor]
  end.

Section Items.
#[local] Instance item_node : NodeApi :=
  mock_node account_reply (fun _ => finalized [item "ItemCreated" 5 1; item "ItemDestroyed" 5 2; succeeded]).
Definition item_store : State := store item_node (js "ws://node") 100 PlainHelper.

Definition burn_item_run :=
  exec 0 alice (js "api.tx.unique.burnItem") [num_js 5; num_js 2; JBig 1] item_store.
Definition burn_from_run :=
  exec 0 alice (js "api.tx.unique.burnFrom") [num_js 5; cross_js (Substrate key2); num_js 2; JBig 1] item_store.

Lemma burn_outcomes_witness :
  (CollectionGroup.burnToken 0 alice 5 2 1 item_store).1 = Ret true
  /\ (CollectionGroup.burnTokenFrom 0 alice 5 2 (Substrate key2) 1 item_store).1 = Ret true.
Proof.
  destruct (burn_outcomes 0 alice 5 2 (Substrate key2) 1 item_store
    (value no_result burn_item_run) burn_item_run.2 (value no_result burn_from_run) burn_from_run.2
    [token_of 5 2] [token_of 5 2]) as [H1 H2];
    [by_computation|by_computation|by one_item (item "ItemDestroyed" 5 2)|by one_item (item "ItemDestroyed" 5 2)|].
  split; [rewrite H1|rewrite H2]; by_computation.
Defined.

Definition mint_nft_run :=
  exec 0 alice (js "api.tx.unique.createItem")
    [num_js 5; owner_js (OwnerString key1); obj [(js "NFT", obj [(js "properties", JUndef)])]] item_store.
Definition mint_rft_run :=
  exec 0 alice (js "api.tx.unique.createItem")
    [num_js 5; owner_js (OwnerString key1);
     obj [(js "ReFungible", obj [(js "pieces", JBig 10); (js "properties", JUndef)])]] item_store.

Lemma mintToken_single_witness :
  (NFTGroup.mintToken 0 alice 5 (OwnerString key1) None item_store).1
    = Ret (mkTokenObject (mkCollection 0 5) 1)
  /\ (RFTGroup.mintToken 0 alice 5 (OwnerString key1) 10 None item_store).1
    = Ret (mkTokenObject (mkCollection 0 5) 1).
Proof.
  destruct (mintToken_single 0 alice 5 (OwnerString key1) 10 None item_store
    (value no_result mint_nft_run) mint_nft_run.2 (value no_result mint_rft_run) mint_rft_run.2
    [token_of 5 1] [token_of 5 1]) as [H1 H2];
    [by_computation..|by one_item (item "ItemCreated" 5 1)|by one_item (item "ItemCreated" 5 1)|].
  split; [rewrite H1|rewrite H2]; by_computation.
Defined.

End Items.

Section Repartition.
Definition pieces_reply (path : jsstr) : jsval :=
  if jseq path (js "rpc.unique.totalPieces") then
    answers [("unwrap"%string, answers [("toBigInt"%string, JBig 10)])]
  else account_reply path.

#[local] Instance pieces_node : NodeApi :=
  mock_node pieces_reply (fun _ => finalized [item "ItemCreated" 5 1; succeeded]).
Definition pieces_store : State := store pieces_node (js "ws://node") 100 PlainHelper.
Definition pieces_run := RFTGroup.getTokenTotalPieces 0 5 1 pieces_store.
Definition repartition_run :=
  exec 0 alice (js "api.tx.unique.repartition") [num_js 5; num_js 1; JBig 20] pieces_run.2.

Lemma repartition_event_witness :
  RFTGroup.repartitionToken 0 alice 5 1 20 pieces_store = (Ret true, repartition_run.2).
Proof.
  apply (repartition_event 0 alice 5 1 20 10 pieces_store pieces_run.2
    (value no_result repartition_run) repartition_run.2); by_computation.
Defined.

End Repartition.

(** ** Collections *)

Lemma join_flags_bits_witness : Z.testbit (join_flags [JNum (Int 1); JNum (Int 64)]) 6 = true.
Proof.
  rewrite (proj2 (join_flags_bits [JNum (Int 1); JNum (Int 64)] ltac:(
    constructor; [exists 1; split; [reflexivity|lia]|];
    constructor; [exists 64; split; [reflexivity|lia]|constructor])) 6). by_computation.
Defined.

Definition some_options : list (jsstr * jsval) :=
  [(js "name", JStr (js "abc")); (js "limits", JNull); (js "flags", JArr [JNum (Int 1); JNum (Int 64)])].

Definition minted_options : list (jsstr * jsval) :=
  value [] (NFTnRFT.mint_options (obj some_options) NFT, tt).

Lemma mint_options_spec_witness :
  assoc (js "mode") minted_options = Some (obj [(js "nft", JNull)])
  /\ assoc (js "flags") minted_options = Some (JArr [JNum (Int (join_flags (option_flags some_options)))])
  /\ (forall k, k ∈ encoded_keys -> assoc k minted_options = encoded (assoc k some_options))
  /\ (forall k, k ∉ encoded_keys -> k <> js "mode" -> k <> js "flags" ->
        assoc k minted_options = assoc k some_options).
Proof. apply (mint_options_spec (obj some_options) NFT minted_options some_options); by_computation. Defined.

Section FungibleOptions.
#[local] Instance fungible_node : NodeApi := mock_node account_reply (fun _ => dropped).

Definition fungible_store : State := store fungible_node (js "ws://node") 100 PlainHelper.
Definition permission_options : list (jsstr * jsval) := [(js "tokenPropertyPermissions", JArr [])].

Lemma fungible_refuses_permissions_witness :
  FTGroup.mintCollection 0 alice (obj permission_options) 0 fungible_store
  = (Throw (JSError (js "Fungible collections has no tokenPropertyPermissions")), fungible_store).
Proof.
  apply (fungible_refuses_permissions 0 alice (obj permission_options) 0 permission_options (JArr []) fungible_store);
    by_computation.
Defined.

End FungibleOptions.

Section Data.
Definition rft_collection : jsval :=
  answers [("toHuman"%string,
    fields [("owner"%string, JStr key1_kusama); ("mode"%string, JStr (js "ReFungible"));
            ("name"%string, JArr [JStr (js "97")]); ("description"%string, JArr [])]);
   ("toJSON"%string, fields [("limits"%string, JNull); ("permissions"%string, JNull)])].

Definition data_reply (path : jsstr) : jsval :=
  if jseq path (js "rpc.unique.collectionById") then rft_collection
  else if jseq path (js "rpc.unique.adminlist") then answers [("toHuman"%string, JArr [])]
  else JUndef.

#[local] Instance data_node : NodeApi := mock_node data_reply (fun _ => []).
Definition data_store : State := store data_node (js "ws://node") 100 PlainHelper.
Definition data_run := CollectionGroup.getData 0 5 data_store.
Definition no_data : CollectionGroup.CollectionData :=
  CollectionGroup.mkCollectionData 0 [] [] JNull JNull [] JNull.

Lemma getData_refungible_count_witness :
  CollectionGroup.cd_tokensCount (default no_data (value None data_run)) = JNum (Int 0).
Proof.
  apply (getData_refungible_count 0 5 data_store (default no_data (value None data_run)) data_run.2);
    by_computation.
Defined.

End Data.

(** ** Balances *)

Section Transfers.
Definition moved (from to : jsstr) (amount : Z) : EventRecord :=
  event "balances" "Transfer" [human_datum (JStr from); human_datum (JStr to);
                               answers [("toString"%string, JStr (number_toString amount))]].

(** Each transfer on a node that lets its signer do it. *)
Definition transfer_events : list EventRecord := [moved key1_kusama key2 500; succeeded].
Definition no_transfer : list EventRecord := [succeeded].

Lemma transfer_readable : readable transfer_events.
Proof.
  constructor; [|constructor; [|constructor]].
  - intros _. exists key1, key2, 500. split_and!; by_computation.
  - discriminate.
Defined.

Lemma no_transfer_readable : readable no_transfer.
Proof. constructor; [discriminate|constructor]. Defined.

Lemma transfer_last : last_match (is_event (js "balances") (js "Transfer")) transfer_events (moved key1_kusama key2 500).
Proof. exists [], [succeeded]. split; [reflexivity|]. split; [by_computation|]. repeat constructor. Defined.

#[local] Instance transfer_node : NodeApi :=
  mock_node account_reply (fun tx =>
    finalized (match get_prop tx (js "call") with
               | Ret (JStr call) => if jseq call (js "tx.balances.transferKeepAlive") then transfer_events else no_transfer
               | _ => []
               end)).
Definition transfer_store : State := store transfer_node (js "ws://node") 100 PlainHelper.
Definition keep_alive_run :=
  exec 0 alice (js "api.tx.balances.transferKeepAlive") [JStr key2; amount_js (AmountBig 500)] transfer_store.
Definition force_run :=
  exec 0 alice (js "api.tx.balances.forceTransfer") [JStr key1; JStr key2; amount_js (AmountBig 500)] transfer_store.

Lemma balance_transfer_exact_witness :
  (SubstrateBalanceGroup.transferToSubstrate 0 alice key2 (AmountBig 500) transfer_store).1 = Ret true
  /\ (BalanceGroup.forceTransferToSubstrate 0 alice key1 key2 (AmountBig 500) transfer_store).1 = Ret false.
Proof.
  destruct (balance_transfer_exact 0 alice key1 key2 (AmountBig 500) key1 key1 key2 500) as [H1 H2];
    [by_computation..|].
  assert (tr_events (value no_result keep_alive_run) = transfer_events) as E1 by by_computation.
  assert (tr_events (value no_result force_run) = no_transfer) as E2 by by_computation.
  destruct (H1 transfer_store (value no_result keep_alive_run) keep_alive_run.2) as (b1 & R1 & V1);
    [by_computation|rewrite E1; exact transfer_readable|].
  destruct (H2 transfer_store (value no_result force_run) force_run.2) as (b2 & R2 & V2);
    [by_computation|rewrite E2; exact no_transfer_readable|].
  rewrite R1, R2. rewrite E1 in V1. rewrite E2 in V2. split.
  - rewrite (proj2 V1); [reflexivity|]. exists (moved key1_kusama key2 500). split; [exact transfer_last|].
    split_and!; by_computation.
  - destruct b2; [|reflexivity]. destruct (proj1 V2 eq_refl) as (e & (l1 & l2 & E & He & _) & _).
    destruct l1 as [|x [|y l1]]; [|discriminate E..]. injection E as <- _. discriminate He.
Defined.

End Transfers.

Definition some_lock : jsval :=
  fields [("id"%string, JStr (js "vesting")); ("amount"%string, JStr (js "1,234,567"));
          ("reasons"%string, JStr (js "All"))].

Lemma lock_amount_with_commas_witness :
  SubstrateBalanceGroup.read_lock some_lock
  = Ret (SubstrateBalanceGroup.mkLock (JStr (js "vesting")) 1234567 (JStr (js "All"))).
Proof.
  apply (lock_amount_with_commas 1234567 (js "1,234,567") some_lock);
    [lia|by_computation|by_computation|by_computation|by_computation].
Defined.

Section Vesting.
Definition vesting_answer (m : string) : EventRecord :=
  event "vesting" m [human_datum (JStr (address alice))].

#[local] Instance vesting_node : NodeApi :=
  mock_node account_reply (fun _ =>
    finalized [vesting_answer "VestingScheduleAdded"; vesting_answer "Claimed"; succeeded]).
Definition vesting_store : State := store vesting_node (js "ws://node") 100 PlainHelper.
Definition some_schedule : VestingSchedule := mkVesting 1 2 3 4.
Definition vested_run :=
  exec 0 alice (js "api.tx.vesting.vestedTransfer") [JStr key2; vesting_js some_schedule] vesting_store.
Definition claim_run := exec 0 alice (js "api.tx.vesting.claim") [] vesting_store.

Lemma vesting_answered_witness :
  BalanceGroup.vestedTransfer 0 alice key2 some_schedule vesting_store = (Ret tt, vested_run.2)
  /\ BalanceGroup.claim 0 alice vesting_store = (Ret tt, claim_run.2).
Proof.
  destruct (vesting_answered 0 alice key2 some_schedule vesting_store
    (value no_result vested_run) vested_run.2 (value no_result claim_run) claim_run.2) as [[H1 _] H2];
    [by_computation|by_computation| |].
  - intros e He Hs. exists (JStr (address alice)).
    assert (tr_events (value no_result vested_run) ++ tr_events (value no_result claim_run)
            = [vesting_answer "VestingScheduleAdded"; vesting_answer "Claimed"; succeeded;
               vesting_answer "VestingScheduleAdded"; vesting_answer "Claimed"; succeeded]) as Hev
      by by_computation.
    rewrite Hev in He. rewrite !elem_of_cons, elem_of_nil in He.
    repeat destruct He as [->|He]; try by_computation; try discriminate; try destruct He.
  - split.
    + apply (proj2 H1). exists (vesting_answer "VestingScheduleAdded"). split; [|split; by_computation].
      assert (tr_events (value no_result vested_run)
              = [vesting_answer "VestingScheduleAdded"; vesting_answer "Claimed"; succeeded]) as -> by by_computation.
      left.
    + apply (proj2 H2). exists (vesting_answer "Claimed"). split; [|split; by_computation].
      assert (tr_events (value no_result claim_run)
              = [vesting_answer "VestingScheduleAdded"; vesting_answer "Claimed"; succeeded]) as -> by by_computation.
      right. left.
Defined.

Definition properties_run := ChainGroup.getChainProperties 0 vesting_store.
Definition no_properties : IChainProperties := mkProperties JNull JNull JNull.

Lemma nominal_value_witness :
  (BalanceGroup.getCollectionCreationPrice 0 vesting_store).1 = Ret (2 * 10 ^ 18).
Proof.
  destruct (nominal_value 0 vesting_store (value no_properties properties_run) properties_run.2) as [H _];
    [by_computation|].
  rewrite (H 18 []); [by_computation|by_computation|lia].
Defined.

End Vesting.

Lemma account_hex_injective_witness :
  ConnectedAddressGroup.account_hex 5 = ConnectedAddressGroup.account_hex 5 <-> 5 = 5.
Proof. apply (account_hex_injective 5 5); lia. Defined.
