(* ===== verification/DevWitnesses.v ===== *)
(** * The theorems on the test helpers at concrete inputs *)

From Stdlib Require Import Ascii String.
From stdpp Require Import sorting relations list list_numbers.
From S2P Require Import Prelude JsString JsValue Chain Address Util Helper HelperFacts Lifecycle.
From S2P Require Import Collections Balance Governance Xcm Dev Wait Arrange GovernanceFacts WaitFacts ArrangeFacts Mock Witnesses.

Open Scope Z_scope.
Open Scope js_scope.

(** ** Governance *)

Section Council.
Definition executed_event : EventRecord :=
  event "council" "Executed" [JStr (js "0xaa"); fields [("isErr"%string, JBool false)]].

#[local] Instance council_node : NodeApi :=
  mock_node account_reply (fun _ => finalized [executed_event; succeeded]).

Definition council_store : State := store council_node (js "ws://node") 100 PlainHelper.
Definition close_params : list jsval := [JStr (js "0xaa"); JNum (Int 3); JNull; JNum (Int 10000)].
Definition close_run := exec 0 alice (tx_of (js "council") "close") close_params council_store.

Lemma close_verdict_witness :
  Governance.CollectiveGroup.close 0 (js "council") alice (js "0xaa") 3 JNull 10000 council_store
  = (Ret (value no_result close_run), close_run.2).
Proof.
  destruct (close_verdict 0 (js "council") alice (js "0xaa") 3 JNull 10000 council_store) as [_ H].
  destruct (H (value no_result close_run) close_run.2) as [Hok _]; [by_computation|].
  apply (Hok executed_event); [by_computation|]. exists (JBool false). split; by_computation.
Defined.
End Council.

Section Proposals.
Definition listed : list (Z * jsval * jsval) :=
  [((4, JStr (js "0xcc")), JStr (js "2a01")); ((7, JStr (js "0xdd")), JStr (js "2a02"))].

Definition props_reply (path : jsstr) : jsval :=
  answers [("toJSON"%string, JArr (map public_proposal listed))].

#[local] Instance props_node : NodeApi := mock_node props_reply (fun _ => []).
Definition props_store : State := store props_node (js "ws://node") 100 PlainHelper.
Definition props_run := query 0 (js "api.query.democracy.publicProps") [] (js "toJSON") props_store.

Lemma expectPublicProposal_first_witness :
  Governance.DemocracyGroup.expectPublicProposal 0 7 props_store = (Ret (JStr (js "0xdd")), props_run.2).
Proof.
  rewrite (expectPublicProposal_first 0 props_store props_run.2 7 listed);
    [by_computation|by_computation|repeat constructor].
Defined.
End Proposals.

(** ** Blocks and events *)

Definition head_of (n : Z) (hash : string) : jsval :=
  fields [("number"%string, answers [("toJSON"%string, JNum (Int n)); ("toNumber"%string, JNum (Int n))]);
          ("hash"%string, JStr (js hash))].

Section Blocks.
Definition some_heads (_ : list jsstr) : list (Z * jsval) :=
  [(6000, head_of 11 "b1"); (12040, head_of 12 "b2")].

Definition passed_event : EventRecord := event "democracy" "Passed" [num_datum 7].
Definition some_block (hash : jsstr) : list EventRecord :=
  if jseq hash (js "b2") then [succeeded; passed_event] else [succeeded].

#[local] Instance blocks_node : NodeApi :=
  timed_node account_reply (fun _ => []) some_heads some_block.
Definition blocks_store : State := store blocks_node (js "ws://node") 100 PlainHelper.
Definition heads_run := subscription 0 new_heads blocks_store.

Lemma newBlocks_waits_one_more_witness :
  WaitGroup.newBlocks 0 1 None blocks_store = (Ret tt, later 12100 heads_run.2).
Proof.
  pose proof (newBlocks_waits_one_more 0 1 None blocks_store (value [] heads_run) heads_run.2
                ltac:(lia) ltac:(by_computation)) as H.
  assert (value [] heads_run !! Z.to_nat 1 = Some (12040, head_of 12 "b2")) as E by by_computation.
  cbv zeta in H. rewrite E in H. rewrite (proj2 (Z.ltb_lt _ _)) in H by by_computation.
  rewrite H. by_computation.
Defined.

Definition expect_run := WaitGroup.expectEvent 0 3 Dev.Democracy.Passed WaitGroup.accept_all blocks_store.

Lemma expectEvent_sound_witness : exists heads s1 header r,
  subscription 0 new_heads blocks_store = (Ret heads, s1) /\ header ∈ heads.*2 /\ in_block_of header r
  /\ EventHelper.selects Dev.Democracy.Passed r = true
  /\ wrapEvent Dev.Democracy.Passed (data r) = Ret (fields [("referendumIndex"%string, JNum (Int 7))])
  /\ WaitGroup.accept_all (fields [("referendumIndex"%string, JNum (Int 7))]) = Ret true
  /\ truthy (fields [("referendumIndex"%string, JNum (Int 7))]) = true.
Proof.
  apply (expectEvent_sound 0 3 Dev.Democracy.Passed WaitGroup.accept_all blocks_store _ expect_run.2).
  by_computation.
Defined.
End Blocks.

Section Sessions.
Definition session_reply (path : jsstr) : jsval :=
  if jseq path (js "query.session.currentIndex") then answers [("toNumber"%string, JNum (Int 4))]
  else account_reply path.
#[local] Instance sessions_node : NodeApi :=
  timed_node session_reply (fun _ => []) some_heads some_block.
Definition sessions_store : State := store sessions_node (js "ws://node") 100 PlainHelper.

Definition sessions_run (blockTimeout : Z) := WaitGroup.newSessions 0 3 0 blockTimeout sessions_store.

(** Waiting for no further session takes one round, unless the second head comes
    too late. *)
Lemma newSessions_ends_witness :
  (exists i0 s0 l, WaitGroup.session_index 0 sessions_store = (Ret i0, s0)
     /\ session_rounds 0 24000 s0 l (sessions_run 24000).2
     /\ first_reached (i0 + 0) (-1 :: l) /\ (length l <= 3)%nat)
  /\ (sessions_run 12000).1 = Throw (JSError (js "Error: The chain has stopped producing blocks!")).
Proof.
  split; [|by_computation].
  pose proof (newSessions_ends 0 0 24000 3 sessions_store) as H. fold (sessions_run 24000) in H.
  assert ((sessions_run 24000).1 = Ret tt) as E by by_computation.
  revert H E. generalize (sessions_run 24000). intros [o s'] [H _] E. change (o = Ret tt) in E. subst o. exact H.
Defined.
End Sessions.

(** ** Accounts *)

Section Accounts.
Definition block_json : jsval :=
  fields [("block"%string, fields [("extrinsics"%string, JArr [
    fields [("method"%string, answers [("toHuman"%string,
      fields [("section"%string, JStr (js "timestamp"));
              ("args"%string, fields [("now"%string, JStr (js "1,700,000,000,000"))])])])]])])].

Definition chain_reply (path : jsstr) : jsval :=
  if jseq path (js "query.system.account") then
    fields [("nonce"%string, answers [("toNumber"%string, JNum (Int 7))]);
            ("data"%string, fields [("free"%string, answers [("toBigInt"%string, JBig (10 * 10 ^ 18))])])]
  else if jseq path (js "query.system.number") then answers [("toJSON"%string, JNum (Int 5))]
  else if jseq path (js "rpc.chain.getBlockHash") then JStr (js "0xaa")
  else block_json.

#[local] Instance accounts_node : NodeApi := mock_node chain_reply (fun _ => finalized [succeeded]).
Definition accounts_store : State := store accounts_node (js "ws://node") 100 PlainHelper.
Definition accounts_run := ArrangeGroup.createAccounts 0 [10; 10] alice accounts_store.
Definition crowd_run := ArrangeGroup.createCrowd 0 3 10 alice accounts_store.

Lemma createAccounts_funded_witness :
  length (value [] accounts_run) = 2%nat
  /\ exists nominal s1,
       chain_nominal 0 accounts_store nominal
       /\ ArrangeGroup.checkBalances 0 nominal (combine (value [] accounts_run) [10; 10]) s1
       = (Ret true, accounts_run.2)
       /\ Forall2 (fun account balance => seen_with 0 (balance * nominal) account)
            (value [] accounts_run) [10; 10].
Proof.
  split; [by_computation|].
  apply (createAccounts_funded 0 [10; 10] alice accounts_store (value [] accounts_run) accounts_run.2).
  by_computation.
Defined.

Lemma createCrowd_complete_witness :
  crowd_attempts 0 10 alice 5 3 (value [] crowd_run) accounts_store crowd_run.2
  /\ Z.of_nat (length (value [] crowd_run)) = 3
  /\ Forall (fun a => exists nominal, seen_with 0 (10 * nominal) a) (value [] crowd_run).
Proof.
  apply (createCrowd_complete 0 3 10 alice accounts_store (value [] crowd_run) crowd_run.2).
  by_computation.
Defined.
End Accounts.

Definition ids_at (n slider : Z) : list jsstr := value [] (ArrangeGroup.makeScheduledIds n slider).

Lemma scheduled_ids_distinct_witness :
  NoDup (ids_at 2 254 ++ ids_at 1 256)
  /\ Z.of_nat (length (ids_at 2 254)) = 2 /\ Z.of_nat (length (ids_at 1 256)) = 1
  /\ Forall (fun id => length id = 66%nat) (ids_at 2 254 ++ ids_at 1 256).
Proof.
  apply (scheduled_ids_distinct 2 1 254 (ids_at 2 254) 256 (ids_at 1 256) 257);
    [lia|lia|lia|by_computation|by_computation].
Defined.

(** ** Connections *)

Section DeadConnection.
#[local] Instance down_node : NodeApi := mock_node account_reply (fun _ => []).
Definition fresh_store : State := (ChainHelperBase.constructor PlainHelper (initial (N := down_node) 0)).2.
Definition fresh_helper : HelperState := ChainHelperBase.new_helper PlainHelper.

Lemma dev_connect_keeps_dead_connection_witness :
  exists s',
    DevUniqueHelper.connect 0 [120] fresh_store = (Throw (JSError (js "down")), s')
    /\ st_helpers s' !! 0%nat = Some (ChainHelperBase.with_api (Some [120]) fresh_helper)
    /\ (hs_network fresh_helper = None -> ~ consistent (ChainHelperBase.with_api (Some [120]) fresh_helper))
    /\ ChainHelperBase.connect 0 [120] [] s' = (Throw (JSError (js "Already connected")), s').
Proof.
  apply (dev_connect_keeps_dead_connection 0 [120] fresh_store fresh_helper [120] 0 (js "down") 0);
    [by_computation|discriminate|by_computation|by_computation].
Defined.
End DeadConnection.
