(* ===== verification/Eth.v ===== *)
(** * Ethereum test helpers

    [test-utils/eth/index.ts] and [eth/types.ts]: the groups of
    [EthUniqueHelper] over the ethers library and a web3 provider.  The library
    and the Solidity compiler are parameters ([Ethers]); what the groups compute
    from their answers is defined here.  [EthUniqueHelper] adds the field [web3]
    to a helper object; the computations of this file run in [E], which passes
    the store of [Chain] and these fields. *)

From Stdlib Require Import Ascii String.
From stdpp Require Import list gmap.
From S2P Require Import Prelude JsString JsValue Utf8 Chain Address Util Helper Collections Balance Dev Wait Arrange.

Open Scope Z_scope.
Open Scope js_scope.

(** ** The ethers library, the compiler and the file system *)

(** An entry of [receipt.logs]: an [EventLog], whose arguments come with the
    parameter names of the event's fragment, or a [Log] without a known event. *)
Inductive EthLog : Type :=
  | EventLog (eventName address : jsstr) (args : list jsval) (inputs : list jsstr)
  | RawLog (address : jsstr).

Record ContractTransactionReceipt : Type := mkReceipt { logs : list EthLog }.

Class Ethers {N : NodeApi} := {
  (** [JsonRpcProvider] *)
  Provider : Type;
  (** [HDNodeWallet] *)
  Wallet : Type;
  (** [ContractTransactionResponse] *)
  TxResponse : Type;
  wallet_address : Wallet -> jsstr;
  (** a wallet object as a parameter of an RPC call *)
  wallet_param : Wallet -> jsval;
  new_JsonRpcProvider : jsstr -> World -> Provider * World;
  (** [provider.destroy()] *)
  provider_destroy : Provider -> World -> World;
  (** [(await provider.getFeeData()).gasPrice] *)
  fee_data_gasPrice : Provider -> World -> Lib (option Z) * World;
  (** [Wallet.createRandom(provider)] *)
  createRandom : Provider -> World -> Wallet * World;
  (** [getAddress(address)] *)
  getAddress : jsstr -> Lib jsstr;
  hexlify : list Z -> jsstr;
  (** [contract.method.send(...params, options)] on the contract of an address,
      an ABI and a runner *)
  contract_send : jsstr -> list jsval -> option Wallet -> jsstr -> list jsval -> jsval -> World -> Lib TxResponse * World;
  (** [contract.method()] of a view *)
  contract_view : jsstr -> list jsval -> option Wallet -> jsstr -> World -> Lib jsval * World;
  (** [response.wait(confirmations, timeout)] *)
  tx_wait : TxResponse -> list Z -> World -> Lib (option ContractTransactionReceipt) * World;
  (** [new ContractFactory(abi, bytecode, signer).deploy(...args, {gasLimit})]:
      the target and [deploymentTransaction()] *)
  factory_deploy : list jsval -> jsstr -> Wallet -> list jsval -> Z -> World -> Lib (jsstr * option TxResponse) * World;
  (** the imported ABI files of [@unique-nft/evm-abi], by their names *)
  abi_json : jsstr -> list jsval;
  (** [JSON.parse(solc.compile(JSON.stringify(input), {import}))], where an
      import is the content or the error of a path *)
  solc_compile : jsval -> (jsstr -> jsval) -> World -> Lib jsval * World;
  (** [(await readFile(path)).toString()] *)
  readFile : jsstr -> World -> Lib jsstr * World }.

(** ** Helper objects with a provider *)

Section Store.
Context {N : NodeApi} {W : Ethers}.

Record EState : Type := mkE {
  es_state : State;
  (** the field [web3] of the helpers for which it is not [null] *)
  es_web3 : gmap nat Provider }.

Definition E (A : Type) : Type := EState -> Res A * EState.

#[global] Instance E_monad : Monad E :=
  {| mreturn A a := fun s => (Ret a, s);
     bind A B m k := fun s =>
       match m s with
       | (Ret a, s') => k a s'
       | (Throw e, s') => (Throw e, s')
       | (Pending, s') => (Pending, s')
       end |}.

(** A method of [DevUniqueHelper] and its groups. *)
Definition of_M {A} (m : M A) : E A := fun s =>
  let '(o, s') := m (es_state s) in (o, mkE s' (es_web3 s)).

Definition ethrow {A} (e : exn) : E A := of_M (throw e).

Definition ecatch {A} (m : E A) (h : exn -> E A) : E A := fun s =>
  match m s with
  | (Throw e, s') => h e s'
  | r => r
  end.

Definition elift {A} (o : Res A) : E A := of_M (lift o).

(** A call into a library. *)
Definition eworld {A} (f : World -> Lib A * World) : E A := of_M (world_call f).

Definition eworld_new {A} (f : World -> A * World) : E A := of_M (world_new f).

Definition get_web3 (this : nat) : E (option Provider) := fun s => (Ret (es_web3 s !! this), s).

(** [this.web3 = provider]. *)
Definition set_web3 (this : nat) (p : option Provider) : E unit := fun s =>
  (Ret tt, mkE (es_state s) (partial_alter (fun _ => p) this (es_web3 s))).

Fixpoint for_each_E {A B} (f : B -> A -> E B) (b : B) (l : list A) : E B :=
  match l with
  | [] => mreturn b
  | a :: l' => b' ← f b a; for_each_E f b' l'
  end.

End Store.

Arguments E {N W} A.

(** [waitParams]: confirmations and a timeout in milliseconds. *)
Definition confirmations : Z := 4.
Definition timeout : Z := 2 * 60 * 1000.
Definition waitParams : list Z := [confirmations; timeout].

(** ** EthUniqueHelper *)

Module EthUniqueHelper.
Section EthUniqueHelper.
Context {N : NodeApi} {C : Crypto} {W : Ethers}.
Implicit Types this : nat.

Definition getWeb3 this : E Provider :=
  web3 ← get_web3 this;
  match web3 with
  | None => ethrow (JSError (js "Web3 not connected"))
  | Some p => mreturn p
  end.

(** [s.replace('ws://', 'http://')]: the first occurrence. *)
Fixpoint replace_ws (s : jsstr) : jsstr :=
  if startsWith (js "ws://") s then js "http://" ++ drop 5 s
  else match s with [] => [] | c :: s' => c :: replace_ws s' end.

Definition connectWeb3 this (httpEndpoint : jsstr) : E unit :=
  web3 ← get_web3 this;
  match web3 with
  | Some _ => mreturn tt
  | None =>
      p ← eworld_new (new_JsonRpcProvider (replace_ws httpEndpoint));
      set_web3 this (Some p)
  end.

Definition getGasPrice this : E Z :=
  p ← getWeb3 this;
  gasPrice ← eworld (fee_data_gasPrice p);
  match gasPrice with
  | None => ethrow (JSError (js "Gas price can not be null. Are you running test on Unique/Quartz/Opal Network?"))
  | Some g => mreturn g
  end.

(** The overrides of [clearApi], [disconnect] and [clone]; [super_disconnect] is
    [disconnect] of [ChainHelperBase], which calls the overridden [clearApi] on
    the children and on itself. *)
Definition clearApi this : E unit :=
  of_M (ChainHelperBase.clearApi this);;
  set_web3 this None.

Definition super_disconnect this : E unit :=
  h ← of_M (get_this this);
  for_each_E (fun _ child => clearApi child) tt (hs_children h);;
  h ← of_M (get_this this);
  match hs_api h with
  | None => mreturn tt
  | Some api => eworld (api_disconnect api);; clearApi this
  end.

Definition disconnect this : E unit :=
  web3 ← get_web3 this;
  match web3 with
  | None => mreturn tt
  | Some p =>
      eworld_new (fun w => (tt, provider_destroy p w));;
      super_disconnect this
  end.

Definition clone this (mixin : HelperClass -> HelperClass) : E nat :=
  newHelper ← of_M (ChainHelperBase.clone this mixin);
  web3 ← get_web3 this;
  set_web3 newHelper web3;;
  mreturn newHelper.

(** [new EthUniqueHelper(logger)]: the groups of the object hold no state but
    the gas price that [EthGroupBase] remembers. *)
Definition constructor : E nat :=
  l ← of_M (ChainHelperBase.constructor PlainHelper);
  set_web3 l None;;
  mreturn l.

End EthUniqueHelper.
End EthUniqueHelper.

(** ** EthGroupBase *)

Module EthGroupBase.
Section EthGroupBase.
Context {N : NodeApi} {C : Crypto} {W : Ethers}.

(** [getGasPrice] on a group whose field [gasPrice] is [gasPrice]: the result
    and the field after it. *)
Definition getGasPrice (helper : nat) (gasPrice : option Z) : E (Z * option Z) :=
  match gasPrice with
  | Some g =>
      if negb (g =? 0) then mreturn (g, gasPrice)
      else g ← EthUniqueHelper.getGasPrice helper; mreturn (g, Some g)
  | None => g ← EthUniqueHelper.getGasPrice helper; mreturn (g, Some g)
  end.

End EthGroupBase.
End EthGroupBase.

(** ** Addresses *)

(** [s.substring(a, b)]. *)
Definition substring (s : jsstr) (a b : Z) : jsstr :=
  let n := Z.of_nat (length s) in
  let clamp x := Z.max 0 (Z.min x n) in
  let lo := Z.min (clamp a) (clamp b) in
  let hi := Z.max (clamp a) (clamp b) in
  take (Z.to_nat (hi - lo)) (drop (Z.to_nat lo) s).

Fixpoint trim_end (s : jsstr) : jsstr :=
  match s with
  | [] => []
  | c :: s' =>
      match trim_end s' with
      | [] => if is_space c then [] else [c]
      | t => c :: t
      end
  end.

(** [Number('0x' + s)]: blanks at the end are skipped, anything else that is
    not a digit gives [NaN]. *)
Definition Number_hex (s : jsstr) : number :=
  of_option (match trim_end s with [] => None | t => read_all 16 t end).

(** [a >= b] on a number and a constant. *)
Definition num_ge (a : number) (b : Z) : bool := match a with Int z => b <=? z | NaN => false end.
Definition num_lt (a : number) (b : Z) : bool := match a with Int z => z <? b | NaN => false end.

Module EthAddressGroup.
Section EthAddressGroup.
Context {N : NodeApi} {C : Crypto} {W : Ethers}.

Definition extractCollectionId (address : jsstr) : Res number :=
  let n := length address in
  if negb ((n =? 42)%nat || (n =? 40)%nat) then Throw (JSError (js "address wrong format"))
  else Ret (parseInt16 (drop (n - 8) address)).

Definition fromCollectionId (collectionId : number) : Res jsstr :=
  if num_ge collectionId 0xffffffff || num_lt collectionId 0 then
    Throw (JSError (js "collectionId overflow"))
  else of_lib (getAddress (js "0x17c4e6453cc49aaaaeaca894e6d9683e" ++ padStart 8 48 (num_toString 16 collectionId))).

Definition extractTokenId (address : jsstr) : Res (number * number) :=
  let n := Z.of_nat (length address) in
  if negb (startsWith (js "0x") address) then Throw (JSThrown (js "address not starts with " ++ [34] ++ js "0x" ++ [34]))
  else if 42 <? n then Throw (JSThrown (js "address length is more than 20 bytes"))
  else Ret (Number_hex (substring address (n - 16) (n - 8)), Number_hex (substring address (n - 8) n)).

Definition fromTokenId (collectionId tokenId : number) : Res jsstr :=
  UniqueUtil.getTokenAddress (mkToken collectionId tokenId).

Definition normalizeAddress (address : jsstr) : jsstr :=
  js "0x" ++ drop (length address - 40) address.

End EthAddressGroup.
End EthAddressGroup.

Module EthPropertyGroup.

(** A key and the [0x] literal of the UTF-8 bytes of the value. *)
Definition property (key value : jsstr) : jsstr * jsstr := (key, js "0x" ++ hex_bytes (utf8 value)).

End EthPropertyGroup.

(** ** Contracts *)

(** [Contract]: the address, the interface and the runner of its calls. *)
Record Contract {N : NodeApi} {W : Ethers} : Type := mkContract {
  target : jsstr;
  interface : list jsval;
  runner : option Wallet }.

Arguments Contract N W : clear implicits.
Arguments Contract {N W}.
Arguments mkContract {N W} _ _ _.
Arguments target {N W} _.
Arguments interface {N W} _.
Arguments runner {N W} _.

Section Calls.
Context {N : NodeApi} {W : Ethers}.

Definition call_method (c : Contract) (method : jsstr) (params : list jsval) (options : jsval) : E TxResponse :=
  eworld (contract_send (target c) (interface c) (runner c) method params options).

Definition call_view (c : Contract) (method : jsstr) : E jsval :=
  eworld (contract_view (target c) (interface c) (runner c) method).

(** [response.wait(...waitParams)]. *)
Definition wait (response : TxResponse) : E (option ContractTransactionReceipt) :=
  eworld (tx_wait response waitParams).

End Calls.

(** ** Objects used as maps *)

(** The names every object inherits. *)
Definition inherited : list jsstr :=
  map js ["constructor"; "__defineGetter__"; "__defineSetter__"; "hasOwnProperty"; "__lookupGetter__";
          "__lookupSetter__"; "isPrototypeOf"; "propertyIsEnumerable"; "toString"; "valueOf";
          "__proto__"; "toLocaleString"]%string.

Fixpoint lookup_key {A} (k : jsstr) (l : list (jsstr * A)) : option A :=
  match l with
  | [] => None
  | (k', v) :: l' => if jseq k k' then Some v else lookup_key k l'
  end.

(** [k in o]. *)
Definition in_object {A} (k : jsstr) (o : list (jsstr * A)) : bool :=
  bool_decide (is_Some (lookup_key k o)) || ChainHelperBase.in_list k inherited.

(** [o[k] = v]. *)
Fixpoint set_key {A} (k : jsstr) (v : A) (o : list (jsstr * A)) : list (jsstr * A) :=
  match o with
  | [] => [(k, v)]
  | (k', v') :: o' => if jseq k k' then (k, v) :: o' else (k', v') :: set_key k v o'
  end.

(** The same for a string value, which the setter of [__proto__] ignores. *)
Definition set_string (k v : jsstr) (o : list (jsstr * jsstr)) : list (jsstr * jsstr) :=
  if jseq k (js "__proto__") then o else set_key k v o.

(** ** ContractGroup *)

Record ContractImports : Type := mkImport {
  solPath : jsstr;
  fsPath : jsstr }.

Record CompiledContract : Type := mkCompiled {
  cc_abi : jsval;
  bytecode : jsstr }.

(** [EthGroup.DEFAULT_GAS_LIMIT] *)
Definition DEFAULT_GAS_LIMIT : Z := 2500000.

Module ContractGroup.
Section ContractGroup.
Context {N : NodeApi} {C : Crypto} {W : Ethers}.

Definition not_found (path : jsstr) : jsval := obj [(js "error", JStr (js "File not found: " ++ path))].

(** An inherited name gives an inherited function. *)
Definition known (knownImports : list (jsstr * jsstr)) (path : jsstr) : jsval :=
  if in_object path knownImports then
    obj [(js "contents", match lookup_key path knownImports with Some s => JStr s | None => codec [] end)]
  else not_found path.

Definition findImports (imports : option (list ContractImports)) : E (jsstr -> jsval) :=
  match imports with
  | None => mreturn not_found
  | Some l =>
      knownImports ← for_each_E (fun acc imp =>
          content ← eworld (readFile (fsPath imp));
          mreturn (set_string (solPath imp) content acc)) [] l;
      mreturn (known knownImports)
  end.

(** The argument of the compiler. *)
Definition compiler_input (name src : jsstr) : jsval :=
  obj [(js "language", JStr (js "Solidity"));
       (js "sources", obj [(name ++ js ".sol", obj [(js "content", JStr src)])]);
       (js "settings", obj [(js "outputSelection", obj [(js "*", obj [(js "*", JArr [JStr (js "*")])])])])].

Definition is_error (err : jsval) : Res bool :=
  severity ← get_prop err (js "severity"); Ret (strict_eq severity (JStr (js "error"))).

Definition hasErrors (errors : jsval) : Res bool :=
  if truthy errors then
    n ← get_prop errors (js "length");
    if js_lt (JNum (Int 0)) n then
      l ← elements errors; o ← find_out is_error l; Ret (match o with Some _ => true | None => false end)
    else Ret false
  else Ret false.

Definition compile (name src : jsstr) (imports : option (list ContractImports)) : E CompiledContract :=
  importer ← findImports imports;
  compiled ← eworld (solc_compile (compiler_input name src) importer);
  errors ← elift (get_prop compiled (js "errors"));
  failed ← elift (hasErrors errors);
  if (failed : bool) then ethrow (JSValue errors)
  else
    contracts ← elift (get_prop compiled (js "contracts"));
    file ← elift (get_prop contracts (name ++ js ".sol"));
    out ← elift (get_prop file name);
    abi ← elift (get_prop out (js "abi"));
    evm ← elift (get_prop out (js "evm"));
    code ← elift (get_prop evm (js "bytecode"));
    object ← elift (get_prop code (js "object"));
    mreturn (mkCompiled abi (js "0x" ++ to_string object)).

Definition deployByAbi (signer : Wallet) (abi : jsval) (bytecode : jsstr) (gasLimit : option Z)
  (args : option (list jsval)) : E Contract :=
  fragments ← elift (elements abi);
  ' (address, deployTx) ← eworld (factory_deploy fragments bytecode signer (default [] args)
    (default DEFAULT_GAS_LIMIT gasLimit));
  match deployTx with
  | None => ethrow EngineError
  | Some tx => wait tx;; mreturn (mkContract address fragments (Some signer))
  end.

Definition deployByCode (signer : Wallet) (name src : jsstr) (imports : option (list ContractImports))
  (gasLimit : option Z) (args : option (list jsval)) : E Contract :=
  compiledContract ← compile name src imports;
  deployByAbi signer (cc_abi compiledContract) (bytecode compiledContract) gasLimit args.

End ContractGroup.
End ContractGroup.

(** ** NativeContractGroup *)

Inductive TCollectionMode : Type := nft | rft | ft.

Module NativeContractGroup.
Section NativeContractGroup.
Context {N : NodeApi} {C : Crypto} {W : Ethers}.
Variable helper : nat.

(** [this.helper.getApi().consts.<pallet>.contractAddress.toString()] *)
Definition contract_address (pallet : jsstr) : E jsstr :=
  api ← of_M (ChainCalls.getApi helper);
  v ← elift (call0 (consts api [pallet; js "contractAddress"]) (js "toString"));
  mreturn (to_string v).

Definition contractHelpers (signer : Wallet) : E Contract :=
  address ← contract_address (js "evmContractHelpers");
  mreturn (mkContract address (abi_json (js "contractHelpers")) (Some signer)).

Definition collectionHelpers (signer : Wallet) : E Contract :=
  address ← contract_address (js "common");
  mreturn (mkContract address (abi_json (js "collectionHelpers")) (Some signer)).

Definition collection_abi (mode : TCollectionMode) : jsstr :=
  match mode with nft => js "nonFungible" | rft => js "reFungible" | ft => js "fungible" end.

Definition deprecated_abi (mode : TCollectionMode) : jsstr :=
  match mode with
  | nft => js "nonFungibleDeprecated"
  | rft => js "reFungibleDeprecated"
  | ft => js "fungibleDeprecated"
  end.

Definition collection (address : jsstr) (mode : TCollectionMode) (signer : Wallet) (mergeDeprecated : bool)
  : Res Contract :=
  native ← EthAddressGroup.fromCollectionId 0;
  let abi := if jseq address native then abi_json (js "nativeFungible") else abi_json (collection_abi mode) in
  let abi := if mergeDeprecated then abi ++ abi_json (deprecated_abi mode) else abi in
  Ret (mkContract address abi (Some signer)).

Definition collectionById (collectionId : number) (mode : TCollectionMode) (signer : Wallet)
  (mergeDeprecated : bool) : Res Contract :=
  address ← EthAddressGroup.fromCollectionId collectionId;
  collection address mode signer mergeDeprecated.

Definition rftToken (address : jsstr) (signer : option Wallet) (mergeDeprecated : bool) : Contract :=
  mkContract address
    (if mergeDeprecated then abi_json (js "reFungibleToken") ++ abi_json (js "reFungibleTokenDeprecated")
     else abi_json (js "reFungibleToken")) signer.

Definition rftTokenById (collectionId tokenId : number) (signer : option Wallet) (mergeDeprecated : bool)
  : Res Contract :=
  address ← EthAddressGroup.fromTokenId collectionId tokenId;
  Ret (rftToken address signer mergeDeprecated).

End NativeContractGroup.
End NativeContractGroup.

(** ** Events of a receipt *)

Record NormalizedEvent : Type := mkNormalized {
  ne_address : jsstr;
  ne_event : jsstr;
  ne_args : list (jsstr * jsstr) }.

Module EthEvents.

(** The loop of [rebuildLog] from index [i] on: an unnamed argument goes under
    its index. *)
Fixpoint rebuild_args (i : nat) (args : list jsval) (inputs : list jsstr) (acc : list (jsstr * jsstr))
  : Res (list (jsstr * jsstr)) :=
  match args with
  | [] => Ret acc
  | argValue :: args' =>
      match inputs with
      | [] => Throw EngineError
      | argName :: inputs' =>
          v ← call0 argValue (js "toString");
          let key := match argName with [] => number_toString (Z.of_nat i) | _ => argName end in
          rebuild_args (S i) args' inputs' (set_string key (to_string v) acc)
      end
  end.

Definition rebuildLog (log : EthLog) : Res (option NormalizedEvent) :=
  match log with
  | RawLog _ => Ret None
  | EventLog eventName address args inputs =>
      l ← rebuild_args 0 args inputs []; Ret (Some (mkNormalized address eventName l))
  end.

Definition rebuildEvents (receipt : ContractTransactionReceipt) : Res (list NormalizedEvent) :=
  for_each (fun events log =>
    normalized ← rebuildLog log;
    match normalized with None => Ret events | Some e => Ret (events ++ [e]) end) [] (logs receipt).

Definition normalizeEvents (receipt : ContractTransactionReceipt) : Res (list (jsstr * NormalizedEvent)) :=
  for_each (fun events log =>
    normalized ← rebuildLog log;
    match normalized with
    | None => Ret events
    | Some e => if in_object (ne_event e) events then Ret events else Ret (set_key (ne_event e) e events)
    end) [] (logs receipt).

End EthEvents.

(** ** Creating collections *)

Record CreateCollectionData : Type := mkData {
  cd_name : jsstr;
  cd_description : jsstr;
  cd_tokenPrefix : jsstr;
  cd_collectionMode : TCollectionMode;
  cd_decimals : jsval;
  cd_properties : jsval;
  cd_tokenPropertyPermissions : jsval;
  cd_adminList : jsval;
  cd_nestingSettings : jsval;
  cd_limits : jsval;
  cd_pendingSponsor : jsval;
  cd_flags : jsval }.

Definition emptyAddress : jsval := JArr [JStr (js "0x0000000000000000000000000000000000000000"); JStr (js "0")].

(** [new CreateCollectionData(name, description, tokenPrefix, collectionMode, decimals)] *)
Definition new_CreateCollectionData (name description tokenPrefix : jsstr) (collectionMode : TCollectionMode)
  (decimals : option Z) : CreateCollectionData :=
  mkData name description tokenPrefix collectionMode
    (JNum (Int (match collectionMode with ft => default 18 decimals | _ => 0 end)))
    (JArr []) (JArr []) (JArr [])
    (obj [(js "token_owner", JBool false); (js "collection_admin", JBool false); (js "restricted", JArr [])])
    (JArr []) emptyAddress (JArr [JNum (Int 0)]).

Definition with_flags (flags : number) (d : CreateCollectionData) : CreateCollectionData :=
  mkData (cd_name d) (cd_description d) (cd_tokenPrefix d) (cd_collectionMode d) (cd_decimals d)
    (cd_properties d) (cd_tokenPropertyPermissions d) (cd_adminList d) (cd_nestingSettings d) (cd_limits d)
    (cd_pendingSponsor d) (JNum flags).

Record CreateCollectionResult {N : NodeApi} {W : Ethers} : Type := mkCreateResult {
  cr_collection : Contract;
  cr_collectionId : number;
  cr_collectionAddress : jsstr;
  cr_events : list (jsstr * NormalizedEvent) }.

Arguments CreateCollectionResult {N W}.
Arguments mkCreateResult {N W} _ _ _ _.
Arguments cr_collection {N W} _.
Arguments cr_collectionId {N W} _.
Arguments cr_collectionAddress {N W} _.
Arguments cr_events {N W} _.

Module CreateCollectionTransaction.
Section CreateCollectionTransaction.
Context {N : NodeApi} {C : Crypto} {W : Ethers}.
Variable helper : nat.

(** The flags as one number; they are a number or an array by their type. *)
Definition flag_number (flags : jsval) : number :=
  if negb (truthy flags) then 0
  else match flags with
       | JNum n => n
       | JArr l => join_flags l
       | _ => 0
       end.

(** The constructor writes the joined flags into the caller's data object:
    what that object, which the transaction shares, holds afterwards. *)
Definition constructor (data : CreateCollectionData) : CreateCollectionData :=
  with_flags (flag_number (cd_flags data)) data.

(** [CollectionMode] *)
Definition mode_number (mode : TCollectionMode) : Z :=
  match mode with nft => 0 | ft => 1 | rft => 2 end.

Definition call_data (d : CreateCollectionData) : jsval :=
  JArr [JStr (cd_name d); JStr (cd_description d); JStr (cd_tokenPrefix d);
        JNum (Int (mode_number (cd_collectionMode d))); cd_decimals d; cd_properties d;
        cd_tokenPropertyPermissions d; cd_adminList d; cd_nestingSettings d; cd_limits d;
        cd_pendingSponsor d; cd_flags d].

Definition createCollection (signer : Wallet) (data : CreateCollectionData) (value : Z)
  (options : list (jsstr * jsval)) : E (option ContractTransactionReceipt) :=
  collectionHelper ← NativeContractGroup.collectionHelpers helper signer;
  response ← call_method collectionHelper (js "createCollection") [call_data data]
    (obj (assoc_set (js "value") (JBig value) options));
  wait response.

(** The address in the [CollectionCreated] event. *)
Definition created_address (events : list (jsstr * NormalizedEvent)) : Res jsstr :=
  match lookup_key (js "CollectionCreated") events with
  | None => Throw EngineError
  | Some e =>
      match lookup_key (js "collectionId") (ne_args e) with
      | None => Throw EngineError
      | Some a => Ret (EthAddressGroup.normalizeAddress a)
      end
  end.

Definition send (signer : Wallet) (data : CreateCollectionData) (mergeDeprecated : bool)
  (options : list (jsstr * jsval)) : E CreateCollectionResult :=
  value ← of_M (BalanceGroup.getCollectionCreationPrice helper);
  receipt ← createCollection signer data value options;
  match receipt with
  | None => ethrow EngineError
  | Some receipt =>
      events ← elift (EthEvents.normalizeEvents receipt);
      collectionAddress ← elift (created_address events);
      collectionId ← elift (EthAddressGroup.extractCollectionId collectionAddress);
      collection ← elift (NativeContractGroup.collectionById collectionId (cd_collectionMode data) signer
        mergeDeprecated);
      mreturn (mkCreateResult collection collectionId collectionAddress events)
  end.

End CreateCollectionTransaction.
End CreateCollectionTransaction.

(** ** EthGroup *)

Module EthArrangeGroup.
Section EthArrangeGroup.
Context {N : NodeApi} {C : Crypto} {W : Ethers}.
Variable helper : nat.

(** [calculcateFee] of [ArrangeGroup] with code that may use the ethers
    library. *)
Definition calculcateFee (payer : ICrossAccountId) (promise : E unit) : E jsval :=
  address ← match payer with
            | Substrate s => mreturn s
            | Ethereum e => of_M (ConnectedAddressGroup.ethToSubstrate helper e false)
            end;
  balance ← of_M (SubstrateBalanceGroup.getSubstrate helper address);
  promise;;
  after ← of_M (SubstrateBalanceGroup.getSubstrate helper address);
  elift (js_sub balance after).

End EthArrangeGroup.
End EthArrangeGroup.

Module EthGroup.
Section EthGroup.
Context {N : NodeApi} {C : Crypto} {W : Ethers}.
Variable helper : nat.

Definition createAccount : E Wallet :=
  web3 ← EthUniqueHelper.getWeb3 helper;
  eworld_new (createRandom web3).

Definition changeContractCaller (contract : Contract) (from : Wallet) : Contract :=
  mkContract (target contract) (interface contract) (Some from).

(** The defaults of [amount] and [inTokens] are 100 and [true]. *)
Definition transferBalanceFromSubstrate (donor : TSigner) (recepient : jsstr) (amount : option Z)
  (inTokens : option bool) : E bool :=
  address ← elift (evmToAddress recepient None);
  nominal ← (if default true inTokens then of_M (BalanceGroup.getOneTokenNominal helper) else mreturn 1);
  of_M (BalanceGroup.transferToSubstrate helper donor address (AmountBig (default 100 amount * nominal))).

Definition createAccountWithBalance (donor : TSigner) (amount : option Z) : E Wallet :=
  account ← createAccount;
  transferBalanceFromSubstrate donor (wallet_address account) (Some (default 600 amount)) None;;
  mreturn account.

Definition getCollectionCreationFee (signer : Wallet) : E jsval :=
  collectionHelper ← NativeContractGroup.collectionHelpers helper signer;
  call_view collectionHelper (js "collectionCreationFee").

Definition sendEVM (signer : TSigner) (contractAddress abi value : jsstr) (gasLimit : option Z) : E unit :=
  let gasLimit := match gasLimit with
                  | Some g => if g =? 0 then DEFAULT_GAS_LIMIT else g
                  | None => DEFAULT_GAS_LIMIT
                  end in
  gasPrice ← EthUniqueHelper.getGasPrice helper;
  source ← elift (AddressGroup.substrateToEth (address signer));
  of_M (executeExtrinsic helper signer (js "api.tx.evm.call")
    [JStr source; JStr contractAddress; JStr abi; JStr value; JNum (Int gasLimit); JBig gasPrice;
     JNull; JNull; JArr []] true None);;
  mreturn tt.

Definition callEVM (signer : Wallet) (contractAddress abi : jsstr) : E jsval :=
  of_M (callRpc helper (js "api.rpc.eth.call")
    [obj [(js "from", wallet_param signer); (js "to", JStr contractAddress); (js "data", JStr abi)]]).

Definition createCollectionMethodName (mode : TCollectionMode) : jsstr :=
  match mode with
  | ft => js "createFTCollection"
  | nft => js "createNFTCollection"
  | rft => js "createRFTCollection"
  end.

(** [createCollection(signer, data, mergeDeprecated).send(options)]. *)
Definition createCollection (signer : Wallet) (data : CreateCollectionData) (mergeDeprecated : bool)
  (options : list (jsstr * jsval)) : E CreateCollectionResult :=
  CreateCollectionTransaction.send helper signer (CreateCollectionTransaction.constructor data)
    mergeDeprecated options.

Definition createNFTCollection (signer : Wallet) (name description tokenPrefix : jsstr) : E CreateCollectionResult :=
  createCollection signer (new_CreateCollectionData name description tokenPrefix nft None) false [].

Definition makeCollectionERC721MetadataCompatible (collectionHelper : Contract)
  (createCollectionResult : CreateCollectionResult) (baseUri : jsstr) : E CreateCollectionResult :=
  tx ← call_method collectionHelper (js "makeCollectionERC721MetadataCompatible")
    [JStr (cr_collectionAddress createCollectionResult); JStr baseUri] JUndef;
  wait tx;;
  mreturn createCollectionResult.

Definition createERC721MetadataCompatibleCollection (signer : Wallet) (data : CreateCollectionData)
  (baseUri : jsstr) : E CreateCollectionResult :=
  collectionHelper ← NativeContractGroup.collectionHelpers helper signer;
  createCollectionResult ← createCollection signer data false [];
  makeCollectionERC721MetadataCompatible collectionHelper createCollectionResult baseUri.

Definition createERC721MetadataCompatibleNFTCollection (signer : Wallet)
  (name description tokenPrefix baseUri : jsstr) : E CreateCollectionResult :=
  collectionHelper ← NativeContractGroup.collectionHelpers helper signer;
  let collectionData := new_CreateCollectionData name description tokenPrefix nft None in
  createCollectionResult ← createCollection signer collectionData false [];
  makeCollectionERC721MetadataCompatible collectionHelper createCollectionResult baseUri.

Definition createRFTCollection (signer : Wallet) (name description tokenPrefix : jsstr) : E CreateCollectionResult :=
  createCollection signer (new_CreateCollectionData name description tokenPrefix rft None) false [].

Definition createFungibleCollection (signer : Wallet) (name : jsstr) (_decimals : Z)
  (description tokenPrefix : jsstr) : E CreateCollectionResult :=
  createCollection signer (new_CreateCollectionData name description tokenPrefix ft None) false [].

Definition createERC721MetadataCompatibleRFTCollection (signer : Wallet)
  (name description tokenPrefix baseUri : jsstr) : E CreateCollectionResult :=
  collectionHelper ← NativeContractGroup.collectionHelpers helper signer;
  let collectionData := new_CreateCollectionData name description tokenPrefix rft None in
  createCollectionResult ← createCollection signer collectionData false [];
  makeCollectionERC721MetadataCompatible collectionHelper createCollectionResult baseUri.

Definition collector_source : string :=
"
      // SPDX-License-Identifier: UNLICENSED
      pragma solidity ^0.8.6;

      contract Collector {
        uint256 collected;
        fallback() external payable {
          giveMoney();
        }
        function giveMoney() public payable {
          collected += msg.value;
        }
        function getCollected() public view returns (uint256) {
          return collected;
        }
        function getUnaccounted() public view returns (uint256) {
          return address(this).balance - collected;
        }

        function withdraw(address payable target) public {
          target.transfer(collected);
          collected = 0;
        }
      }
      ".

Definition deployCollectorContract (signer : Wallet) : E Contract :=
  ContractGroup.deployByCode signer (js "Collector") (js collector_source) None None None.

Definition flipper_source : string :=
"
      // SPDX-License-Identifier: UNLICENSED
      pragma solidity ^0.8.6;

      contract Flipper {
        bool value = false;
        function flip() public {
          value = !value;
        }
        function getValue() public view returns (bool) {
          return value;
        }
      }
      ".

Definition deployFlipper (signer : Wallet) : E Contract :=
  ContractGroup.deployByCode signer (js "Flipper") (js flipper_source) None None None.

Definition recordCallFee (user : jsstr) (call : E unit) : E jsval :=
  before ← of_M (BalanceGroup.getEthereum helper user);
  call;;
  of_M (WaitGroup.newBlocks helper 1 None);;
  after ← of_M (BalanceGroup.getEthereum helper user);
  elift (js_sub before after).

Definition calculateFee (address : ICrossAccountId) (code : E unit) : E jsval :=
  EthArrangeGroup.calculcateFee helper address (code;; of_M (WaitGroup.newBlocks helper 1 None)).

End EthGroup.
End EthGroup.

(** ** Fees and gas *)

(** [fee] is the [number] of tokens, in thousandths: the code divides the
    integer held here by 1000. *)
Record FeeGas : Type := mkFeeGas {
  fee : Z;
  gas : Z }.

Module FeeGasOps.
Section FeeGasOps.
Context {N : NodeApi} {C : Crypto} {W : Ethers}.

Definition convertToTokens (value : Z) (nominal : option Z) : Res Z :=
  let nominal := default 1000000000000000000 nominal in
  if nominal =? 0 then Throw EngineError else Ret (Z.quot (value * 1000) nominal).

Definition convertToGas (fee : Z) (helper : nat) : E Z :=
  web3 ← EthUniqueHelper.getWeb3 helper;
  gasPrice ← eworld (fee_data_gasPrice web3);
  match gasPrice with
  | None => ethrow EngineError
  | Some g => if g =? 0 then ethrow EngineError else mreturn (Z.quot fee g)
  end.

Definition build (helper : nat) (fee : Z) : E FeeGas :=
  tokens ← elift (convertToTokens fee None);
  gas ← convertToGas fee helper;
  mreturn (mkFeeGas tokens gas).

(** [calculcateFeeGas] of [EthArrangeGroup]; the fee is a bigint. *)
Definition calculcateFeeGas (helper : nat) (payer : ICrossAccountId) (promise : E unit) : E FeeGas :=
  fee ← EthArrangeGroup.calculcateFee helper payer promise;
  match fee with
  | JBig z => build helper z
  | _ => ethrow EngineError
  end.

End FeeGasOps.
End FeeGasOps.

(** ** EthCrossAccountGroup *)

Record CrossAddress : Type := mkCrossAddress {
  eth : jsstr;
  sub : jsstr }.

Module EthCrossAccountGroup.
Section EthCrossAccountGroup.
Context {N : NodeApi} {C : Crypto} {W : Ethers}.
Variable helper : nat.

Definition address_of (account : jsstr + Wallet) : jsstr :=
  match account with inl s => s | inr w => wallet_address w end.

Definition fromAddress (account : jsstr + Wallet) : CrossAddress := mkCrossAddress (address_of account) (js "0").

Definition fromAddr (account : jsstr + Wallet) : jsstr * jsstr := (address_of account, js "0").

Definition createAccount : E CrossAddress :=
  account ← EthGroup.createAccount helper;
  mreturn (fromAddress (inl (wallet_address account))).

Definition createAccountWithBalance (donor : TSigner) (amount : option Z) : E CrossAddress :=
  account ← EthGroup.createAccountWithBalance helper donor (Some (default 100 amount));
  mreturn (fromAddress (inl (wallet_address account))).

Definition fromKeyringPair (keyring : TSigner) : CrossAddress :=
  mkCrossAddress (js "0x0000000000000000000000000000000000000000") (hexlify (addressRaw keyring)).

End EthCrossAccountGroup.
End EthCrossAccountGroup.
