(* ===== verification/EthFacts.v ===== *)
(** * Ethereum test helpers: theorems

    Addresses of collections and tokens read back to their ids, events of a
    receipt are collected by name, creation of a collection answers the id of
    its event, and the overrides of [EthUniqueHelper] on connections. *)

From Stdlib Require Import Ascii String.
From stdpp Require Import list gmap.
From S2P Require Import Prelude JsString JsValue Utf8 Chain Address Util Helper Lifecycle Collections Balance Dev Wait Arrange Eth.

Open Scope Z_scope.
Open Scope js_scope.

(** ** Hexadecimal text in either case *)

Lemma digit_value_lower c : digit_value (lower_unit c) = digit_value c.
Proof.
  unfold lower_unit, is_upper. destruct ((65 <=? c) && (c <=? 90)) eqn:E; [|done].
  unfold digit_value, is_digit. repeat case_match; try lia; f_equal; lia.
Qed.

Lemma take_digits_lower b s : take_digits b (toLowerCase s) = take_digits b s.
Proof.
  induction s as [|c s IH]; simpl; [done|]. rewrite digit_value_lower.
  destruct (digit_value c); [|done]. by rewrite IH.
Qed.

Lemma is_space_lower c : is_space (lower_unit c) = is_space c.
Proof.
  unfold lower_unit, is_upper. destruct ((65 <=? c) && (c <=? 90)) eqn:E; [|done].
  assert (65 <= c <= 90) by lia. rewrite !graphic_not_space by lia. done.
Qed.

Lemma skip_spaces_lower s : skip_spaces (toLowerCase s) = toLowerCase (skip_spaces s).
Proof. induction s as [|c s IH]; simpl; [done|]. rewrite is_space_lower. by destruct (is_space c). Qed.

Lemma lower_unit_eqb c d : (d < 65 \/ 90 < d) -> (d < 97 \/ 122 < d) -> (lower_unit c =? d) = (c =? d).
Proof. unfold lower_unit, is_upper. intros H1 H2. destruct ((65 <=? c) && (c <=? 90)) eqn:E; lia. Qed.

Lemma read_signed_lower rd s : (forall t, rd (toLowerCase t) = rd t) ->
  read_signed rd (toLowerCase s) = read_signed rd s.
Proof.
  intros H. destruct s as [|c s]; [done|]. cbn [toLowerCase map read_signed].
  rewrite !lower_unit_eqb by lia. fold (toLowerCase s). rewrite !H.
  destruct (c =? 45); [done|]. destruct (c =? 43); [done|]. apply (H (c :: s)).
Qed.

Lemma parseInt16_lower s : parseInt16 (toLowerCase s) = parseInt16 s.
Proof.
  unfold parseInt16. rewrite skip_spaces_lower, read_signed_lower; [done|].
  intros t. unfold read_digits. by rewrite strip_0x_lower, take_digits_lower.
Qed.

Lemma trim_end_lower s : trim_end (toLowerCase s) = toLowerCase (trim_end s).
Proof.
  induction s as [|c s IH]; simpl; [done|]. fold (toLowerCase s). rewrite IH, is_space_lower.
  destruct (trim_end s); simpl; [|done]. by destruct (is_space c).
Qed.

Lemma Number_hex_lower s : Number_hex (toLowerCase s) = Number_hex s.
Proof.
  unfold Number_hex. rewrite trim_end_lower. f_equal. destruct (trim_end s) as [|c t]; [done|].
  change (read_all 16 (toLowerCase (c :: t)) = read_all 16 (c :: t)).
  unfold read_all. rewrite take_digits_lower. unfold toLowerCase. by rewrite length_map.
Qed.

(** ** Digits *)

Lemma strip_0x_units ds : Forall (fun d => 0 <= d < 16) ds -> strip_0x (map digit_unit ds) = map digit_unit ds.
Proof.
  intros H. destruct H as [|a ds Ha H]; [done|]. destruct H as [|b ds Hb H]; [done|]. simpl.
  destruct (digit_unit a =? 48); [|done].
  assert (digit_unit b <> 120 /\ digit_unit b <> 88) as [H1 H2].
  { unfold digit_unit. destruct (Z.ltb_spec b 10); lia. }
  by rewrite (proj2 (Z.eqb_neq _ _) H1), (proj2 (Z.eqb_neq _ _) H2).
Qed.

Lemma parseInt16_units d ds : Forall (fun d => 0 <= d < 16) (d :: ds) ->
  parseInt16 (map digit_unit (d :: ds)) = Int (undigits 16 (d :: ds)).
Proof.
  intros H. unfold parseInt16. rewrite skip_spaces_units by done.
  rewrite read_signed_units by by inversion H. by rewrite strip_0x_units, read_digits_units.
Qed.

Lemma trim_end_units ds : Forall (fun d => 0 <= d < 16) ds -> trim_end (map digit_unit ds) = map digit_unit ds.
Proof.
  induction 1 as [|d ds Hd _ IH]; [done|]. simpl. rewrite IH, digit_unit_not_space by done.
  by destruct (map digit_unit ds).
Qed.

Lemma Number_hex_units d ds : Forall (fun d => 0 <= d < 16) (d :: ds) ->
  Number_hex (map digit_unit (d :: ds)) = Int (undigits 16 (d :: ds)).
Proof.
  intros H. unfold Number_hex. rewrite trim_end_units by done. cbn [map].
  change (digit_unit d :: map digit_unit ds) with (map digit_unit (d :: ds)).
  unfold read_all. rewrite take_digits_units by (done || lia).
  rewrite length_map, bool_decide_true by done. done.
Qed.

Lemma substring_lower s a b : substring (toLowerCase s) a b = toLowerCase (substring s a b).
Proof. unfold substring, toLowerCase. rewrite length_map. by rewrite skipn_map, firstn_map. Qed.

(** ** Collection and token addresses *)

Section Addresses.
Context {N : NodeApi} {C : Crypto} {W : Ethers}.

Lemma extractCollectionId_lower a :
  EthAddressGroup.extractCollectionId (toLowerCase a) = EthAddressGroup.extractCollectionId a.
Proof.
  unfold EthAddressGroup.extractCollectionId. unfold toLowerCase. rewrite length_map, skipn_map.
  fold (toLowerCase (drop (length a - 8) a)). by rewrite parseInt16_lower.
Qed.

(** The last eight digits of an address of the right length. *)
Lemma extractCollectionId_digits p id : 0 <= id < 2 ^ 32 -> (length p = 34 \/ length p = 32)%nat ->
  EthAddressGroup.extractCollectionId (p ++ padStart 8 48 (toString_radix 16 id)) = Ret (Int id).
Proof.
  intros Hid Hp. destruct (pad8 id) as (ds & -> & Hl & Hf & Hu); [done|].
  unfold EthAddressGroup.extractCollectionId. rewrite length_app, length_map, Hl.
  rewrite drop_app_length' by lia.
  destruct ds as [|d ds]; [done|]. rewrite parseInt16_units, Hu by done.
  by destruct Hp as [-> | ->].
Qed.

(** [extractTokenId] reads the last sixteen characters. *)
Lemma extractTokenId_digits p c t r : u32 c -> u32 t -> length p = 24%nat ->
  startsWith (js "0x") r = true ->
  toLowerCase r = js "0x" ++ p ++ padStart 8 48 (toString_radix 16 c) ++ padStart 8 48 (toString_radix 16 t) ->
  EthAddressGroup.extractTokenId r = Ret (Int c, Int t).
Proof.
  intros Hc Ht Hp Hs Hr.
  destruct (pad8 c Hc) as (ds & E1 & Hl1 & Hf1 & Hu1).
  destruct (pad8 t Ht) as (es & E2 & Hl2 & Hf2 & Hu2). rewrite E1, E2 in Hr.
  assert (length r = 42%nat) as Hlen.
  { apply (f_equal length) in Hr. unfold toLowerCase in Hr.
    rewrite length_map, !length_app, !length_map, Hl1, Hl2, Hp in Hr. exact Hr. }
  unfold EthAddressGroup.extractTokenId. rewrite Hs, Hlen. cbn [negb Z.of_nat].
  change (42 <? Z.of_nat 42) with false. cbv iota.
  change (Z.of_nat 42 - 16) with 26. change (Z.of_nat 42 - 8) with 34. change (Z.of_nat 42) with 42.
  rewrite <- (Number_hex_lower (substring r 26 34)), <- (Number_hex_lower (substring r 34 42)).
  rewrite <- !substring_lower, Hr. unfold substring.
  rewrite !length_app, !length_map, Hl1, Hl2, Hp.
  change (length (js "0x")) with 2%nat. cbn -[take drop js].
  rewrite !app_assoc. rewrite <- (app_assoc _ (map digit_unit ds)).
  rewrite drop_app_length' by (rewrite length_app; simpl; lia).
  rewrite take_app_length' by (by rewrite length_map).
  rewrite app_assoc, drop_app_length' by (rewrite !length_app, length_map; simpl; lia).
  rewrite take_ge by (rewrite length_map; lia).
  destruct ds as [|d ds]; [done|]. destruct es as [|e es]; [done|].
  by rewrite !Number_hex_units, Hu1, Hu2.
Qed.

End Addresses.

(** ** What the overrides add

    A computation of [E] implements one of [M] when it runs like it on the
    store of [DevUniqueHelper] and only differs in the fields [web3]. *)

Section Implements.
Context {N : NodeApi} {C : Crypto} {W : Ethers}.

Class Implements {A} (m : E A) (n : M A) : Prop :=
  implements : forall s, (m s).1 = (n (es_state s)).1 /\ es_state (m s).2 = (n (es_state s)).2.

#[global] Instance implements_of_M {A} (n : M A) : Implements (of_M n) n.
Proof. intros s. unfold of_M. by destruct (n (es_state s)). Qed.

#[global] Instance implements_ret {A} (a : A) : Implements (mreturn a) (mreturn a).
Proof. by intros s. Qed.

#[global] Instance implements_bind {A B} (m : E A) (n : M A) (k : A -> E B) (j : A -> M B) :
  Implements m n -> (forall a, Implements (k a) (j a)) -> Implements (bind m k) (bind n j).
Proof.
  intros Hm Hk s. destruct (Hm s) as [H1 H2]. simpl.
  destruct (m s) as [o1 s1], (n (es_state s)) as [o2 s2]. simpl in *. subst o2 s2.
  destruct o1 as [a| |]; [|done..]. apply (Hk a s1).
Qed.

(** Assigning [web3] is no step of the store. *)
Lemma implements_then {A} (m : E A) (n : M A) (k : A -> E A) :
  Implements m n -> (forall a, Implements (k a) (mreturn a)) -> Implements (bind m k) n.
Proof.
  intros Hm Hk s. destruct (Hm s) as [H1 H2]. simpl. destruct (m s) as [[a| |] s1]; simpl in *.
  - destruct (Hk a s1) as [K1 K2]. rewrite K1, K2. by rewrite <- H1.
  - done.
  - done.
Qed.

#[global] Instance implements_set_web3 this p : Implements (set_web3 this p) (mreturn tt).
Proof. by intros s. Qed.

#[global] Instance implements_for_each {A B} (f : B -> A -> E B) (g : B -> A -> M B) b l :
  (forall b a, Implements (f b a) (g b a)) -> Implements (for_each_E f b l) (for_each_M g b l).
Proof.
  intros H. revert b. induction l as [|a l IH]; intros b; cbn [for_each_E for_each_M]; [apply _|].
  apply implements_bind; [apply H|done].
Qed.

#[global] Instance implements_clearApi this :
  Implements (EthUniqueHelper.clearApi this) (ChainHelperBase.clearApi this).
Proof.
  unfold EthUniqueHelper.clearApi. intros s.
  destruct (implements_then (of_M (ChainHelperBase.clearApi this)) (ChainHelperBase.clearApi this)
    (fun _ => set_web3 this None) _) with (s := s) as [H1 H2]; [|by split].
  intros [] s'. by split.
Qed.

(** [super.disconnect()] with the overridden [clearApi] is [disconnect]. *)
#[global] Instance implements_super_disconnect this :
  Implements (EthUniqueHelper.super_disconnect this) (ChainHelperBase.disconnect this).
Proof.
  unfold EthUniqueHelper.super_disconnect, ChainHelperBase.disconnect.
  apply implements_bind; [apply _|]. intros h. apply implements_bind; [apply _|]. intros _.
  apply implements_bind; [apply _|]. intros h'. destruct (hs_api h') as [api|]; [|apply _].
  apply implements_bind; [|intros []; apply _]. apply implements_of_M.
Qed.

#[global] Instance implements_calculcateFee helper payer (p : E unit) (q : M unit) :
  Implements p q ->
  Implements (EthArrangeGroup.calculcateFee helper payer p) (ArrangeGroup.calculcateFee helper payer q).
Proof.
  intros Hp. unfold EthArrangeGroup.calculcateFee, ArrangeGroup.calculcateFee.
  apply implements_bind; [destruct payer; apply _|]. intros a.
  apply implements_bind; [apply _|]. intros b. apply implements_bind; [done|]. intros _.
  apply implements_bind; [apply _|]. intros c. apply implements_of_M.
Qed.

End Implements.

(** ** Stores of Ethereum helpers *)

Section Stores.
Context {N : NodeApi} {C : Crypto} {W : Ethers}.
Implicit Types this l c : nat.

(** The operations of a client on [EthUniqueHelper] objects. A method that does
    not touch [web3] is one of [M]. *)
Inductive eth_op : Type :=
  | op_construct
  | op_clone this (mixin : HelperClass -> HelperClass)
  | op_connect this (ep : jsstr)
  | op_connectWeb3 this (ep : jsstr)
  | op_clearApi this
  | op_disconnect this
  | op_getGasPrice this
  | op_forceNetwork this (n : jsstr)
  | op_clearChainLog this
  | op_method this {A} (m : M A) (framed : Framed this any_entry m).

(** The operation, its result dropped. *)
Definition run_op (op : eth_op) : E unit :=
  match op with
  | op_construct => EthUniqueHelper.constructor;; mreturn tt
  | op_clone this mixin => EthUniqueHelper.clone this mixin;; mreturn tt
  | op_connect this ep => of_M (DevUniqueHelper.connect this ep)
  | op_connectWeb3 this ep => EthUniqueHelper.connectWeb3 this ep
  | op_clearApi this => EthUniqueHelper.clearApi this
  | op_disconnect this => EthUniqueHelper.disconnect this
  | op_getGasPrice this => EthUniqueHelper.getGasPrice this;; mreturn tt
  | op_forceNetwork this n => of_M (ChainHelperBase.forceNetwork this n)
  | op_clearChainLog this => of_M (ChainHelperBase.clearChainLog this)
  | op_method this m _ => of_M m;; mreturn tt
  end.

Definition eth_initial (w : World) : EState := mkE (initial w) ∅.

Definition eth_reachable (s : EState) : Prop :=
  exists w, rtc (fun s s' => exists op, s' = (run_op op s).2) (eth_initial w) s.

(** *** The specification

    What an operation does to the store without providers, given the provider
    of the object it is called on. *)

(** [disconnect] of a helper with a provider. *)
Definition destroy_then_disconnect (p : Provider) this : M unit :=
  world_new (fun w => (tt, provider_destroy p w));; ChainHelperBase.disconnect this.

Definition receiver (op : eth_op) : nat :=
  match op with
  | op_construct => 0
  | op_clone this _ | op_connect this _ | op_connectWeb3 this _ | op_clearApi this | op_disconnect this
  | op_getGasPrice this | op_forceNetwork this _ | op_clearChainLog this | op_method this _ _ => this
  end.

Definition base_op (op : eth_op) (web3 : option Provider) : M unit :=
  match op with
  | op_construct => ChainHelperBase.constructor PlainHelper;; mreturn tt
  | op_clone this mixin => ChainHelperBase.clone this mixin;; mreturn tt
  | op_connect this ep => DevUniqueHelper.connect this ep
  | op_connectWeb3 this ep =>
      match web3 with
      | Some _ => mreturn tt
      | None => world_new (new_JsonRpcProvider (EthUniqueHelper.replace_ws ep));; mreturn tt
      end
  | op_clearApi this => ChainHelperBase.clearApi this
  | op_disconnect this => match web3 with Some p => destroy_then_disconnect p this | None => mreturn tt end
  | op_getGasPrice this =>
      match web3 with
      | Some p =>
          g ← world_call (fee_data_gasPrice p);
          if bool_decide (is_Some g) then mreturn tt
          else throw (JSError (js "Gas price can not be null. Are you running test on Unique/Quartz/Opal Network?"))
      | None => throw (JSError (js "Web3 not connected"))
      end
  | op_forceNetwork this n => ChainHelperBase.forceNetwork this n
  | op_clearChainLog this => ChainHelperBase.clearChainLog this
  | op_method this m _ => m;; mreturn tt
  end.

(** The provider of each object afterwards. *)
Definition web3_after (op : eth_op) (s : EState) (l : nat) : option Provider :=
  let helpers := st_helpers (es_state s) in
  let web3 := es_web3 s !! receiver op in
  match op with
  | op_construct => if decide (l = length helpers) then None else es_web3 s !! l
  | op_clone this _ =>
      match helpers !! this with
      | Some _ => if decide (l = length helpers) then web3 else es_web3 s !! l
      | None => es_web3 s !! l
      end
  | op_connectWeb3 this ep =>
      if decide (l = this)
      then Some (default (new_JsonRpcProvider (EthUniqueHelper.replace_ws ep) (st_world (es_state s))).1 web3)
      else es_web3 s !! l
  | op_clearApi this => if decide (l = this) then None else es_web3 s !! l
  | op_disconnect this =>
      match web3, helpers !! this with
      | Some p, Some h =>
          if decide (l ∈ hs_children h) then None
          else if decide (l = this) then
            match (destroy_then_disconnect p this (es_state s)).1, hs_api h with
            | Ret _, Some _ => None
            | _, _ => Some p
            end
          else es_web3 s !! l
      | _, _ => es_web3 s !! l
      end
  | _ => es_web3 s !! l
  end.

Lemma eth_disconnect_run this p s : es_web3 s !! this = Some p ->
  EthUniqueHelper.disconnect this s
  = (eworld_new (fun w => (tt, provider_destroy p w));; EthUniqueHelper.super_disconnect this) s.
Proof. intros Hp. unfold EthUniqueHelper.disconnect, get_web3. cbn -[EthUniqueHelper.super_disconnect]. by rewrite Hp. Qed.

#[local] Instance implements_destroy p this :
  Implements (eworld_new (fun w => (tt, provider_destroy p w));; EthUniqueHelper.super_disconnect this)
    (destroy_then_disconnect p this).
Proof. apply implements_bind; [apply implements_of_M|]. intros _. apply _. Qed.

(** *** The store *)

Lemma run_op_base op s : 
  (run_op op s).1 = (base_op op (es_web3 s !! receiver op) (es_state s)).1
  /\ es_state (run_op op s).2 = (base_op op (es_web3 s !! receiver op) (es_state s)).2.
Proof.
  destruct op as [|this mixin|this ep|this ep|this|this|this|this n|this|this A m Hm]; cbn [run_op base_op receiver].
  - done.
  - assert (Implements (EthUniqueHelper.clone this mixin) (ChainHelperBase.clone this mixin)) as Hi.
    { apply implements_then; [apply _|]. intros a s0. by split. }
    apply (implements_bind _ _ (fun _ => mreturn tt) (fun _ => mreturn tt) Hi _ s).
  - apply (implements_of_M (DevUniqueHelper.connect this ep) s).
  - unfold EthUniqueHelper.connectWeb3, get_web3. cbn. destruct (es_web3 s !! this) as [p|]; [done|].
    unfold eworld_new, of_M, world_new. cbn. by destruct (new_JsonRpcProvider _ _) as [p w].
  - apply (implements_clearApi this s).
  - destruct (es_web3 s !! this) as [p|] eqn:Hp.
    + rewrite (eth_disconnect_run _ _ _ Hp). apply (implements_destroy p this s).
    + unfold EthUniqueHelper.disconnect, get_web3. cbn. by rewrite Hp.
  - unfold EthUniqueHelper.getGasPrice, EthUniqueHelper.getWeb3, get_web3. cbn.
    destruct (es_web3 s !! this) as [p|]; [|done]. cbn. unfold eworld, of_M, world_call. cbn.
    by destruct (fee_data_gasPrice p _) as [[[g|]|e|] w].
  - done.
  - done.
  - apply (implements_bind _ _ (fun _ => mreturn tt) (fun _ => mreturn tt) (implements_of_M m) _ s).
Qed.

Lemma base_op_steps op web3 st : rtc (client_step false) st (base_op op web3 st).2.
Proof.
  assert (forall {A} (m : M A), Framed (receiver op) any_entry m -> rtc (client_step false) st (m st).2) as Hf.
  { intros A m Hm. apply rtc_once. by apply (step_method _ (receiver op)). }
  assert (forall {A} (m : M A) s', client_step false st (m st).2 -> s' = ((m;; mreturn tt) st).2 ->
    rtc (client_step false) st s') as Hs.
  { intros A m s' Hm ->. apply rtc_once. cbn. by destruct (m st) as [[a|e|] s1]. }
  destruct op as [|this mixin|this ep|this ep|this|this|this|this n|this|this A m Hm]; cbn [base_op].
  - by eapply Hs; [apply step_construct|].
  - by eapply Hs; [apply step_clone|].
  - by apply rtc_once, step_dev_connect.
  - destruct web3; apply Hf; apply _.
  - apply rtc_once, step_clearApi.
  - destruct web3 as [p|]; [|apply Hf; apply _]. unfold destroy_then_disconnect. cbn -[ChainHelperBase.disconnect].
    eapply rtc_l; [apply (step_method false this (world_new (fun w => (tt, provider_destroy p w))) st _)|].
    apply rtc_once, step_disconnect.
  - destruct web3 as [p|]; apply Hf; solve_frame.
  - apply rtc_once, step_forceNetwork.
  - apply rtc_once, step_clearChainLog.
  - apply Hf. solve_frame.
Qed.

Lemma eth_reachable_store s : eth_reachable s -> reachable (es_state s).
Proof.
  intros [w Hs]. exists w. change (initial w) with (es_state (eth_initial w)).
  induction Hs as [|x y z [op ->] _ IH]; [reflexivity|]. etrans; [|exact IH].
  rewrite (proj2 (run_op_base op x)). apply base_op_steps.
Qed.

End Stores.

(** ** What [disconnect] leaves of the providers *)

Section Disconnect.
Context {N : NodeApi} {C : Crypto} {W : Ethers}.
Implicit Types this l c : nat.

Lemma ebind_Ret {A B} (m : E A) (k : A -> E B) s a s1 : m s = (Ret a, s1) -> (bind m k) s = k a s1.
Proof. simpl. by intros ->. Qed.

Lemma eth_clearApi_run this s :
  EthUniqueHelper.clearApi this s
  = (Ret tt, mkE (ChainHelperBase.clearApi this (es_state s)).2 (partial_alter (fun _ => None) this (es_web3 s))).
Proof. unfold EthUniqueHelper.clearApi, of_M. cbn -[ChainHelperBase.clearApi]. by rewrite clearApi_run. Qed.

Lemma eth_children_run cs : forall s, exists s',
  for_each_E (fun _ child => EthUniqueHelper.clearApi child) tt cs s = (Ret tt, s')
  /\ es_state s' = (for_each_M (fun _ child => ChainHelperBase.clearApi child) tt cs (es_state s)).2
  /\ forall l, es_web3 s' !! l = if bool_decide (l ∈ cs) then None else es_web3 s !! l.
Proof.
  induction cs as [|c cs IH]; intros s.
  - exists s. split_and!; [done|done|]. intros l. by rewrite bool_decide_false by apply not_elem_of_nil.
  - cbn [for_each_E]. rewrite (ebind_Ret _ _ _ _ _ (eth_clearApi_run c s)).
    destruct (IH (mkE (ChainHelperBase.clearApi c (es_state s)).2 (partial_alter (fun _ => None) c (es_web3 s))))
      as (s' & -> & Hs & Hw).
    exists s'. split_and!; [done| |].
    + rewrite Hs. cbn [for_each_M es_state]. by rewrite (bind_Ret _ _ _ _ _ (clearApi_run c (es_state s))), clearApi_run.
    + intros l. rewrite Hw. cbn [es_web3]. destruct (decide (l = c)) as [->|Hne].
      * rewrite lookup_partial_alter_eq, (bool_decide_true (c ∈ c :: cs)) by left.
        by destruct (bool_decide (c ∈ cs)).
      * rewrite lookup_partial_alter_ne by done.
        rewrite (bool_decide_ext (l ∈ c :: cs) (l ∈ cs)); [done|]. rewrite elem_of_cons. split; [by intros [?|?]|by right].
Qed.

Lemma super_disconnect_web3 this s h o s' :
  st_helpers (es_state s) !! this = Some h -> this ∉ hs_children h ->
  EthUniqueHelper.super_disconnect this s = (o, s') ->
  (forall l, l ∈ hs_children h -> es_web3 s' !! l = None)
  /\ (forall l, l ∉ hs_children h -> l <> this -> es_web3 s' !! l = es_web3 s !! l)
  /\ es_web3 s' !! this = match o, hs_api h with Ret _, Some _ => None | _, _ => es_web3 s !! this end.
Proof.
  intros Hh Hnot H. unfold EthUniqueHelper.super_disconnect in H.
  assert (of_M (get_this this) s = (Ret h, s)) as H0.
  { unfold of_M. rewrite (get_this_Some _ _ _ Hh). by destruct s. }
  rewrite (ebind_Ret _ _ _ _ _ H0) in H.
  destruct (eth_children_run (hs_children h) s) as (s1 & H1 & Hs1 & Hw1).
  rewrite (ebind_Ret _ _ _ _ _ H1) in H.
  assert (st_helpers (es_state s1) !! this = Some h) as Hh1.
  { rewrite Hs1, clear_children_run. cbn [snd st_helpers].
    rewrite fold_cleared_lookup, Hh. cbn. by rewrite bool_decide_false. }
  assert (of_M (get_this this) s1 = (Ret h, s1)) as H2.
  { unfold of_M. rewrite (get_this_Some _ _ _ Hh1). by destruct s1. }
  rewrite (ebind_Ret _ _ _ _ _ H2) in H.
  assert (forall l, l ∈ hs_children h -> es_web3 s1 !! l = None) as A1
    by (intros l Hl; rewrite Hw1; by rewrite bool_decide_true).
  assert (forall l, l ∉ hs_children h -> es_web3 s1 !! l = es_web3 s !! l) as A2
    by (intros l Hl; rewrite Hw1; by rewrite bool_decide_false).
  destruct (hs_api h) as [api|].
  - unfold eworld, of_M, world_call in H. cbn -[EthUniqueHelper.clearApi] in H.
    destruct (api_disconnect api _) as [[[]|e|] w]; cbn -[EthUniqueHelper.clearApi] in H.
    + rewrite eth_clearApi_run in H. injection H as <- <-. cbn [es_web3].
      split_and!.
      * intros l Hl. rewrite lookup_partial_alter_ne by (intros ->; done). by apply A1.
      * intros l Hl Hne. rewrite lookup_partial_alter_ne by done. by apply A2.
      * by rewrite lookup_partial_alter_eq.
    + injection H as <- <-. cbn [es_web3]. split_and!; [done|auto|by apply A2].
    + injection H as <- <-. cbn [es_web3]. split_and!; [done|auto|by apply A2].
  - injection H as <- <-. split_and!; [done|auto|by apply A2].
Qed.

Lemma lookup_partial_alter_dec l this (f : option Provider -> option Provider) (m : gmap nat Provider) :
  partial_alter f this m !! l = if decide (l = this) then f (m !! this) else m !! l.
Proof.
  destruct (decide (l = this)) as [->|]; [by rewrite lookup_partial_alter_eq|by rewrite lookup_partial_alter_ne].
Qed.

(** *** The providers *)

Lemma run_op_web3 op s l : well_formed false (st_helpers (es_state s)) ->
  es_web3 (run_op op s).2 !! l = web3_after op s l.
Proof.
  intros Hw. destruct op as [|this mixin|this ep|this ep|this|this|this|this n|this|this A m Hm];
    cbn [run_op web3_after receiver].
  - cbn. apply lookup_partial_alter_dec.
  - destruct (st_helpers (es_state s) !! this) as [h|] eqn:Hh.
    + unfold EthUniqueHelper.clone, of_M. cbn -[ChainHelperBase.clone].
      rewrite (clone_run _ mixin _ _ Hh). cbn. apply lookup_partial_alter_dec.
    + unfold EthUniqueHelper.clone, of_M, ChainHelperBase.clone, get_this. cbn. by rewrite Hh.
  - unfold of_M. by destruct (DevUniqueHelper.connect this ep (es_state s)).
  - unfold EthUniqueHelper.connectWeb3, get_web3. cbn. destruct (es_web3 s !! this) as [p|] eqn:Hp.
    + by destruct (decide (l = this)) as [->|].
    + unfold eworld_new, of_M, world_new. cbn. destruct (new_JsonRpcProvider _ _) as [p w]. cbn.
      apply lookup_partial_alter_dec.
  - rewrite eth_clearApi_run. apply lookup_partial_alter_dec.
  - destruct (es_web3 s !! this) as [p|] eqn:Hp.
    2:{ unfold EthUniqueHelper.disconnect, get_web3. cbn. by rewrite Hp. }
    destruct (st_helpers (es_state s) !! this) as [h|] eqn:Hh.
    2:{ rewrite (eth_disconnect_run _ _ _ Hp). unfold EthUniqueHelper.super_disconnect, of_M, get_this. cbn.
        by rewrite Hh. }
    assert (this ∉ hs_children h) as Hnot by (intros Hin; pose proof (wf_children _ _ Hw _ _ _ Hh Hin); lia).
    pose proof (run_op_base (op_disconnect this) s) as [Ho _]. cbn [run_op base_op receiver] in Ho. rewrite Hp in Ho.
    rewrite <- Ho. rewrite (eth_disconnect_run _ _ _ Hp).
    set (s1 := mkE (mkState (st_helpers (es_state s)) (st_logger (es_state s))
      (provider_destroy p (st_world (es_state s)))) (es_web3 s)).
    change ((eworld_new (fun w => (tt, provider_destroy p w));; EthUniqueHelper.super_disconnect this) s)
      with (EthUniqueHelper.super_disconnect this s1).
    destruct (EthUniqueHelper.super_disconnect this s1) as [o s'] eqn:Hd.
    destruct (super_disconnect_web3 this s1 h o s') as (W1 & W2 & W3); [done..|]. cbn [fst snd].
    destruct (decide (l ∈ hs_children h)); [by apply W1|].
    destruct (decide (l = this)) as [->|]; [|by apply W2]. rewrite W3. cbn [es_web3 s1]. by rewrite Hp.
  - unfold EthUniqueHelper.getGasPrice, EthUniqueHelper.getWeb3, get_web3. cbn.
    destruct (es_web3 s !! this) as [p|]; [|done]. cbn. unfold eworld, of_M, world_call. cbn.
    by destruct (fee_data_gasPrice p _) as [[[g|]|e|] w].
  - done.
  - done.
  - unfold of_M. cbn. by destruct (m (es_state s)) as [[a|e|] st].
Qed.

End Disconnect.

(** ** Events by name *)

Lemma lookup_set_eq {A} k (v : A) o : lookup_key k (set_key k v o) = Some v.
Proof.
  induction o as [|[k' v'] o IH]; simpl; unfold jseq.
  - by rewrite bool_decide_true.
  - case_bool_decide as E; simpl; unfold jseq; [by rewrite bool_decide_true|]. by rewrite bool_decide_false.
Qed.

Lemma lookup_set_ne {A} k k' (v : A) o : k <> k' -> lookup_key k' (set_key k v o) = lookup_key k' o.
Proof.
  intros Hne. induction o as [|[j w] o IH]; simpl; unfold jseq.
  - by rewrite bool_decide_false.
  - case_bool_decide as E; simpl; unfold jseq.
    + subst j. by rewrite !(bool_decide_false (k' = k)).
    + by destruct (bool_decide (k' = j)).
Qed.

Definition named (k : jsstr) (e : NormalizedEvent) : bool := jseq (ne_event e) k.

Lemma findb_snoc {A} (p : A -> bool) l x :
  findb p (l ++ [x]) = match findb p l with Some a => Some a | None => if p x then Some x else None end.
Proof. unfold findb. induction l as [|a l IH]; simpl; [done|]. by destruct (p a). Qed.

Lemma normalize_loop ls : forall l o,
  (forall k, lookup_key k o = if ChainHelperBase.in_list k inherited then None else findb (named k) l) ->
  match for_each (fun events log =>
      normalized ← EthEvents.rebuildLog log;
      match normalized with None => Ret events | Some e => Ret (events ++ [e]) end) l ls with
  | Ret l' => exists o',
      for_each (fun events log =>
        normalized ← EthEvents.rebuildLog log;
        match normalized with
        | None => Ret events
        | Some e => if in_object (ne_event e) events then Ret events else Ret (set_key (ne_event e) e events)
        end) o ls = Ret o'
      /\ forall k, lookup_key k o' = if ChainHelperBase.in_list k inherited then None else findb (named k) l'
  | r => for_each (fun events log =>
        normalized ← EthEvents.rebuildLog log;
        match normalized with
        | None => Ret events
        | Some e => if in_object (ne_event e) events then Ret events else Ret (set_key (ne_event e) e events)
        end) o ls = match r with Ret _ => Pending | Throw x => Throw x | Pending => Pending end
  end.
Proof.
  induction ls as [|log ls IH]; intros l o Ho; cbn [for_each]; [by exists o|].
  destruct (EthEvents.rebuildLog log) as [[e|]|x|]; cbn [bind outcome_monad]; [|by apply IH|done|done].
  destruct (in_object (ne_event e) o) eqn:Ei; cbn [bind outcome_monad]; apply IH; intros k.
  - rewrite Ho, findb_snoc. destruct (ChainHelperBase.in_list k inherited) eqn:Ek; [done|].
    destruct (findb (named k) l) eqn:Ef; [done|]. unfold named, jseq. case_bool_decide as E; [|done].
    subst k. unfold in_object in Ei. by rewrite Ek, Ho, Ek, Ef in Ei.
  - unfold in_object in Ei. apply orb_false_iff in Ei as [Ei1 Ei2]. rewrite findb_snoc.
    destruct (decide (ne_event e = k)) as [<-|Hne].
    + rewrite lookup_set_eq, Ei2. rewrite Ho, Ei2 in Ei1.
      destruct (findb (named (ne_event e)) l); [done|]. unfold named, jseq. by rewrite bool_decide_true.
    + rewrite lookup_set_ne, Ho by done. destruct (ChainHelperBase.in_list k inherited); [done|].
      destruct (findb (named k) l); [done|]. unfold named, jseq. by rewrite bool_decide_false.
Qed.

Lemma normalizeEvents_Ret receipt o : EthEvents.normalizeEvents receipt = Ret o ->
  exists l, EthEvents.rebuildEvents receipt = Ret l
    /\ forall k, lookup_key k o = if ChainHelperBase.in_list k inherited then None else findb (named k) l.
Proof.
  intros H. pose proof (normalize_loop (logs receipt) [] []) as Hl.
  unfold EthEvents.normalizeEvents in H. unfold EthEvents.rebuildEvents.
  destruct (for_each _ [] (logs receipt)) as [l|x|] in Hl |- *.
  - destruct Hl as (o' & Ho' & Hk); [intros k; by destruct (ChainHelperBase.in_list k inherited)|].
    rewrite Ho' in H. injection H as ->. by exists l.
  - rewrite Hl in H; [done|]. intros k; by destruct (ChainHelperBase.in_list k inherited).
  - rewrite Hl in H; [done|]. intros k; by destruct (ChainHelperBase.in_list k inherited).
Qed.

(** ** Runs that return *)

Section Runs.
Context {N : NodeApi} {W : Ethers}.

Lemma ebind_Ret_inv {A B} (m : E A) (k : A -> E B) s b s' :
  (bind m k) s = (Ret b, s') -> exists a s1, m s = (Ret a, s1) /\ k a s1 = (Ret b, s').
Proof. simpl. destruct (m s) as [[a|e|] s1]; intros H; [eauto|done|done]. Qed.

Lemma of_M_Ret_inv {A} (m : M A) s a s' :
  of_M m s = (Ret a, s') -> m (es_state s) = (Ret a, es_state s') /\ es_web3 s' = es_web3 s.
Proof. unfold of_M. destruct (m (es_state s)) as [o st]. by intros [= -> <-]. Qed.

Lemma elift_Ret_inv {A} (o : Res A) s a s' : elift o s = (Ret a, s') -> o = Ret a /\ s' = s.
Proof. unfold elift, of_M, lift. destruct s. by intros [= -> <-]. Qed.

Lemma eworld_Ret_inv {A} (f : World -> Lib A * World) s a s' :
  eworld f s = (Ret a, s') -> exists w, f (st_world (es_state s)) = (Ret a, w).
Proof.
  unfold eworld, of_M, world_call. destruct (f _) as [[a'|e|] w]; cbn; intros [= -> _]. by exists w.
Qed.

End Runs.

(** Decompose a successful run of [E]. *)
Ltac erun_inv :=
  repeat match goal with
  | H : (bind _ _) _ = (Ret _, _) |- _ =>
      let a := fresh "a" in let s := fresh "s" in
      apply ebind_Ret_inv in H as (a & s & ? & H)
  | H : elift _ _ = (Ret _, _) |- _ => apply elift_Ret_inv in H as [? ->]
  end.

(** ** Properties *)

(** The documented behaviour of [getAddress] on a lower-case address: the
    checksum only changes the case of letters. *)
Class EthersLaws {M : NodeApi} (W : @Ethers M) : Prop :=
  getAddress_case : forall s, nesting.is_eth_address s = true -> toLowerCase s = s ->
    exists r, getAddress s = Ret r /\ toLowerCase r = s.

Section Properties.
Context {N : NodeApi} {C : Crypto} {W : Ethers}.
Implicit Types this : nat.

Definition collection_prefix : jsstr := js "0x17c4e6453cc49aaaaeaca894e6d9683e".

Lemma collection_literal id : u32 id ->
  let s := collection_prefix ++ padStart 8 48 (toString_radix 16 id) in
  nesting.is_eth_address s = true /\ toLowerCase s = s.
Proof.
  intros Hid s. destruct (pad8 id Hid) as (ds & E & Hl & Hf & _).
  destruct (hex_units ds Hf) as [Hx Hlo]. subst s. rewrite E. split.
  - apply is_eth_address_spec. split.
    + change (strip_0x (collection_prefix ++ map digit_unit ds))
        with (js "17c4e6453cc49aaaaeaca894e6d9683e" ++ map digit_unit ds).
      by rewrite length_app, length_map, Hl.
    + change (strip_0x (collection_prefix ++ map digit_unit ds))
        with (js "17c4e6453cc49aaaaeaca894e6d9683e" ++ map digit_unit ds).
      rewrite forallb_app, Hx. by vm_compute.
  - by rewrite toLowerCase_app, Hlo.
Qed.

(** Collection ids and their Ethereum addresses correspond: an id below
    [2^32 - 1] has an address, from which the id is read back; the largest id
    of the runtime's 32-bit range, every larger and every negative number are
    refused. *)
Theorem collection_address_roundtrip `{!EthersLaws W} (id : Z) :
  if (0 <=? id) && (id <? 2 ^ 32 - 1) then
    exists r, EthAddressGroup.fromCollectionId id = Ret r
      /\ toLowerCase r = collection_prefix ++ padStart 8 48 (toString_radix 16 id)
      /\ EthAddressGroup.extractCollectionId r = Ret (Int id)
  else EthAddressGroup.fromCollectionId id = Throw (JSError (js "collectionId overflow")).
Proof.
  unfold EthAddressGroup.fromCollectionId, num_ge, num_lt.
  destruct (Z.leb_spec 0xffffffff id), (Z.ltb_spec id 0), (Z.leb_spec 0 id), (Z.ltb_spec id (2 ^ 32 - 1));
    try lia; cbn [andb orb]; [done|done|].
  assert (u32 id) as Hid by (unfold u32; lia).
  destruct (collection_literal id Hid) as [Ha Hl].
  change (num_toString 16 (Int id)) with (toString_radix 16 id). fold collection_prefix.
  destruct (getAddress_case _ Ha Hl) as (r & -> & Hr). exists r. split_and!; [done|done|].
  rewrite <- extractCollectionId_lower, Hr. apply extractCollectionId_digits; [done|by left].
Qed.

(** [extractTokenId] reads back the ids of every token that has an
    address. *)
Theorem eth_token_address_roundtrip (c t : Z) :
  match EthAddressGroup.fromTokenId c t with
  | Ret r => EthAddressGroup.extractTokenId r = Ret (Int c, Int t)
  | _ => ~ (0 <= c < 2 ^ 32 /\ 0 <= t < 2 ^ 32)
  end.
Proof.
  change (EthAddressGroup.fromTokenId c t) with (nesting.tokenIdToAddress c t).
  pose proof (tokenIdToAddress_defined c t) as Hd.
  destruct (nesting.tokenIdToAddress c t) as [r|e|] eqn:E.
  - destruct (proj1 Hd ltac:(by exists r)) as [Hc Ht].
    apply (extractTokenId_digits (js "f8238ccfff8ed887463fd5e0")); [done|done|done| |].
    + rewrite tokenIdToAddress_unfold in E. apply toChecksumAddress_inv in E as [_ ->]. done.
    + by rewrite (tokenIdToAddress_lower _ _ _ E).
  - intros H. apply Hd in H as [r H]. done.
  - intros H. apply Hd in H as [r H]. done.
Qed.

(** [normalizeEvents] keeps, under each event name, the first event of that
    name among those [rebuildEvents] lists, in the order of the logs; logs
    without a known event do not count, and an event named like a property that
    every object inherits is lost. *)
Theorem normalizeEvents_first receipt o : EthEvents.normalizeEvents receipt = Ret o ->
  exists l, EthEvents.rebuildEvents receipt = Ret l
    /\ forall k, lookup_key k o =
         if ChainHelperBase.in_list k inherited then None else findb (fun e => jseq (ne_event e) k) l.
Proof. apply normalizeEvents_Ret. Qed.

(** The property an Ethereum call receives carries the value: reading the
    hexadecimal literal as bytes and the bytes as UTF-8 gives the value back,
    for every string without a lone surrogate. *)
Theorem property_roundtrip key value : Forall unit16 value -> well_formed_units value ->
  let p := EthPropertyGroup.property key value in
  p.1 = key /\ startsWith (js "0x") p.2 = true /\ utf8_decode (hex_decode (strip_0x p.2)) = value.
Proof.
  intros Hu Hw p. subst p. split_and!; [done|done|]. cbn [EthPropertyGroup.property snd].
  rewrite strip_0x_0x, hex_decode_bytes by by apply utf8_bytes. by apply utf8_decode_encode.
Qed.


(** [disconnect] of an Ethereum helper. Without a provider it does nothing,
    so an open connection to the node stays open. With one it destroys the
    provider and runs like [disconnect] of the node connection; afterwards the
    children have no provider, and the helper has none either if its node
    connection was closed, but keeps the destroyed one when there was no node
    connection. *)
Theorem eth_disconnect_effect this s h :
  st_helpers (es_state s) !! this = Some h -> this ∉ hs_children h ->
  match es_web3 s !! this with
  | None => EthUniqueHelper.disconnect this s = (Ret tt, s)
  | Some p =>
      let r := EthUniqueHelper.disconnect this s in
      let base := destroy_then_disconnect p this (es_state s) in
      r.1 = base.1 /\ es_state r.2 = base.2
      /\ (forall l, l ∈ hs_children h -> es_web3 r.2 !! l = None)
      /\ (forall l, l ∉ hs_children h -> l <> this -> es_web3 r.2 !! l = es_web3 s !! l)
      /\ es_web3 r.2 !! this = match r.1, hs_api h with Ret _, Some _ => None | _, _ => Some p end
  end.
Proof.
  intros Hh Hnot. destruct (es_web3 s !! this) as [p|] eqn:Hp.
  - cbv zeta. rewrite (eth_disconnect_run _ _ _ Hp).
    destruct (implements_destroy p this s) as [H1 H2].
    set (s1 := mkE (mkState (st_helpers (es_state s)) (st_logger (es_state s))
      (provider_destroy p (st_world (es_state s)))) (es_web3 s)).
    assert ((eworld_new (fun w => (tt, provider_destroy p w));; EthUniqueHelper.super_disconnect this) s
      = EthUniqueHelper.super_disconnect this s1) as E by done.
    rewrite E in *. destruct (EthUniqueHelper.super_disconnect this s1) as [o s'] eqn:Hd.
    destruct (super_disconnect_web3 this s1 h o s') as (W1 & W2 & W3); [done..|].
    split_and!; [done|done|done|done|]. cbn [fst snd]. rewrite W3. cbn [es_web3 s1]. by rewrite Hp.
  - unfold EthUniqueHelper.disconnect, get_web3. cbn. by rewrite Hp.
Qed.

(** C24: [createCollection] answers from the receipt of the transaction it sent:
    the transaction carries the data with its flags joined and the creation
    price; the collection is that of the first [CollectionCreated] event, its
    address the last forty digits of the event's [collectionId], its id the last
    eight; and the contract returned is bound to the address of that id and to
    the signer. *)
Theorem createCollection_reads_event this signer data mergeDeprecated options s r s' :
  EthGroup.createCollection this signer data mergeDeprecated options s = (Ret r, s') ->
  exists price address response receipt events e a w1 w2,
    (BalanceGroup.getCollectionCreationPrice this (es_state s)).1 = Ret price
    /\ (contract_send address (abi_json (js "collectionHelpers")) (Some signer) (js "createCollection")
         [CreateCollectionTransaction.call_data (CreateCollectionTransaction.constructor data)]
         (obj (assoc_set (js "value") (JBig price) options)) w1).1 = Ret response
    /\ (tx_wait response waitParams w2).1 = Ret (Some receipt)
    /\ EthEvents.rebuildEvents receipt = Ret events
    /\ findb (fun e => jseq (ne_event e) (js "CollectionCreated")) events = Some e
    /\ lookup_key (js "collectionId") (ne_args e) = Some a
    /\ cr_collectionAddress r = js "0x" ++ drop (length a - 40) a
    /\ EthAddressGroup.extractCollectionId (cr_collectionAddress r) = Ret (cr_collectionId r)
    /\ EthAddressGroup.fromCollectionId (cr_collectionId r) = Ret (target (cr_collection r))
    /\ runner (cr_collection r) = Some signer.
Proof.
  unfold EthGroup.createCollection, CreateCollectionTransaction.send. intros H.
  apply ebind_Ret_inv in H as (price & s1 & Hp & H).
  apply ebind_Ret_inv in H as (o & s2 & Hc & H). destruct o as [receipt|]; [|done].
  unfold CreateCollectionTransaction.createCollection in Hc.
  apply ebind_Ret_inv in Hc as (helper & s3 & Hh & Hc).
  apply ebind_Ret_inv in Hc as (response & s4 & Hs & Hw).
  unfold NativeContractGroup.collectionHelpers in Hh.
  apply ebind_Ret_inv in Hh as (address & s5 & _ & [= <- <-]).
  apply eworld_Ret_inv in Hs as [w1 Hs]. apply eworld_Ret_inv in Hw as [w2 Hw]. cbn in Hs.
  erun_inv. injection H as <- <-. cbn [cr_collection cr_collectionId cr_collectionAddress cr_events].
  match goal with HE : EthEvents.normalizeEvents _ = Ret _ |- _ =>
    apply normalizeEvents_Ret in HE as (l & Hl & Hk) end.
  match goal with HA : CreateCollectionTransaction.created_address _ = Ret _ |- _ =>
    unfold CreateCollectionTransaction.created_address in HA; rewrite Hk in HA;
    change (ChainHelperBase.in_list (js "CollectionCreated") inherited) with false in HA; cbv iota in HA;
    destruct (findb _ l) as [e|] eqn:Ef; [|done]; destruct (lookup_key _ (ne_args e)) as [a'|] eqn:El; [|done];
    injection HA as <- end.
  match goal with HB : NativeContractGroup.collectionById _ _ _ _ = Ret _ |- _ =>
    unfold NativeContractGroup.collectionById in HB;
    destruct (EthAddressGroup.fromCollectionId _) as [addr| |] eqn:Ea in HB; [|done..];
    cbn [bind outcome_monad] in HB; unfold NativeContractGroup.collection in HB;
    destruct (EthAddressGroup.fromCollectionId 0); [|done..]; injection HB as <- end.
  apply of_M_Ret_inv in Hp as [Hp _].
  exists price, address, response, receipt, l, e, a'. do 2 eexists.
  rewrite Hp, Hs, Hw. by split_and!.
Qed.

(** Fees in tokens are exact to the thousandth, rounded down, and gas is
    never rounded up; a price of zero or none is an error of the engine. *)
Theorem fee_gas_bounds this fee s s' r : 0 <= fee ->
  FeeGasOps.build this fee s = (Ret r, s') ->
  0 <= fee * 1000 - Eth.fee r * 10 ^ 18 < 10 ^ 18
  /\ exists p gasPrice, es_web3 s !! this = Some p
       /\ (fee_data_gasPrice p (st_world (es_state s))).1 = Ret (Some gasPrice)
       /\ gasPrice <> 0 /\ Eth.gas r = Z.quot fee gasPrice.
Proof.
  intros Hf H. unfold FeeGasOps.build, FeeGasOps.convertToTokens in H. cbn [default] in H.
  change (1000000000000000000 =? 0) with false in H. cbv iota in H.
  unfold elift, of_M, lift, FeeGasOps.convertToGas, EthUniqueHelper.getWeb3, get_web3 in H. cbn in H.
  destruct (es_web3 s !! this) as [p|]; [|done]. cbn in H.
  unfold eworld, of_M, world_call in H. cbn in H.
  destruct (fee_data_gasPrice p _) as [[[g|]| |] w] eqn:Eg; cbn in H; try done.
  destruct (Z.eqb_spec g 0) as [|Hg]; cbn in H; [done|]. injection H as <- _. cbn [Eth.fee Eth.gas].
  split; [|exists p, g; by rewrite Eg]. rewrite Z.quot_div_nonneg by lia.
  pose proof (Z.div_mod (fee * 1000) (10 ^ 18) ltac:(lia)).
  pose proof (Z.mod_pos_bound (fee * 1000) (10 ^ 18) ltac:(lia)).
  change 1000000000000000000 with (10 ^ 18). lia.
Qed.

End Properties.
