(* ===== verification/TestUtil.v ===== *)
(** * The test harness

    [test-utils/util.ts], [test-utils/globalSetup.ts] and the retry loop of
    [test-utils/eth/util.ts]: sizes of encoded values, the environment a test
    runs in (connection, keys, clean-up), how tests are registered, and what is
    set up before the suites. The console is not modelled. *)

From Stdlib Require Import Ascii String.
From stdpp Require Import list.
From S2P Require Import Prelude JsString JsValue Utf8 Chain Address Util Helper Collections Balance Xcm Dev Wait Arrange Eth.

Open Scope Z_scope.
Open Scope js_scope.

(** ** Sizes *)

Definition sizeOfInt (i : Z) : Res Z :=
  if (i <? 0) || (0xffffffff <? i) then Throw (JSError (js "out of range"))
  else if i <? 63 then Ret 1
  else if i <? 16383 then Ret 2
  else if i <? 1073741823 then Ret 4
  else Ret 5.

Definition sizeOfEncodedStr (v : jsstr) : Res Z :=
  let encoded := utf8 v in
  n ← sizeOfInt (Z.of_nat (length encoded));
  Ret (n + Z.of_nat (length encoded)).

Definition sizeOfProperty (key value : jsstr) : Res Z :=
  k ← sizeOfEncodedStr key;
  v ← sizeOfEncodedStr value;
  Ret (k + v).

(** ** Constants *)

Definition MINIMUM_DONOR_FUND : Z := 4000000.
Definition DONOR_FUNDING : Z := 4000000.
Definition LOCKING_PERIOD : Z := 12.
Definition UNLOCKING_PERIOD : Z := 24.
Definition INTERVAL_INCOME : Z := 453256.

(** [Pallets] *)
Inductive Pallets : Type :=
  | Inflation | ReFungible | FungiblePallet | NFTPallet | SchedulerPallet | AppPromotion | CollatorSelection
  | Session | Identity | Democracy | Council | TechnicalCommittee | Fellowship | Preimage | Maintenance | TestUtils.

Definition pallet_name (p : Pallets) : jsstr :=
  js match p with
     | Inflation => "inflation"
     | ReFungible => "refungible"
     | FungiblePallet => "fungible"
     | NFTPallet => "nonfungible"
     | SchedulerPallet => "scheduler"
     | AppPromotion => "apppromotion"
     | CollatorSelection => "collatorselection"
     | Session => "session"
     | Identity => "identity"
     | Democracy => "democracy"
     | Council => "council"
     | TechnicalCommittee => "technicalcommittee"
     | Fellowship => "fellowshipcollective"
     | Preimage => "preimage"
     | Maintenance => "maintenance"
     | TestUtils => "testutils"
     end.

(** [try { m } finally { f }]: an exception of [f] replaces the outcome. *)
Definition finally {N : NodeApi} {A} (m : M A) (f : M unit) : M A := fun s =>
  match m s with
  | (Ret a, s') => (f;; mreturn a) s'
  | (Throw e, s') => (f;; throw e) s'
  | (Pending, s') => (Pending, s')
  end.

Definition efinally {N : NodeApi} {W : Ethers} {A} (m : E A) (f : E unit) : E A := fun s =>
  match m s with
  | (Ret a, s') => (f;; mreturn a) s'
  | (Throw e, s') => (f;; ethrow e) s'
  | (Pending, s') => (Pending, s')
  end.

(** Node's [crypto], [url] and [path], and mocha's [test.skip()]. *)
Class Harness := {
  (** [crypto.createHash('md5').update(filename).digest('hex')] *)
  md5 : jsstr -> jsstr;
  (** [fileURLToPath(url)] *)
  fileURLToPath : jsstr -> Res jsstr;
  (** what [test.skip()] throws *)
  skip_exception : exn }.

(** The argument of [privateKey]. *)
Inductive Seed : Type :=
  | SeedText (seed : jsstr)
  | SeedFile (filename url : option jsstr) (ignoreFundsPresence : bool).

(** ** Registration of tests and suites *)

(** The options of a test, and how mocha is told about it. *)
Record TestOptions : Type := mkTestOptions {
  only : bool;
  skip : bool;
  requiredPallets : option (list jsstr) }.

Inductive Registration : Type := It | ItOnly | ItSkip.

Definition registration (opts : TestOptions) : Registration :=
  if only opts then ItOnly else if skip opts then ItSkip else It.

(** A test registered under a name; [B] is what its body computes in. *)
Record Test (B : Type) : Type := mkTest {
  test_name : jsstr;
  test_registration : Registration;
  test_body : B }.
Arguments mkTest {B} _ _ _.

(** [{requiredPallets: required, ...opts}] *)
Definition with_required (required : list jsstr) (opts : TestOptions) : TestOptions :=
  mkTestOptions (only opts) (skip opts) (Some (default required (requiredPallets opts))).

Inductive SchedKind : Type := anon | named.

(** The two tests that [itSched] registers, in order; [it] registers one. *)
Definition sched_tests {B K} (it : jsstr -> K -> TestOptions -> Test B) (name : jsstr) (cb : SchedKind -> K)
  (opts : TestOptions) : list (Test B) :=
  [it (name ++ js " (anonymous scheduling)") (cb anon) opts;
   it (name ++ js " (named scheduling)") (cb named) opts].

(** Whether a suite that depends on a variable of the environment runs; an
    empty variable counts as missing. *)
Definition suite_runs (variable : option jsstr) (skip : bool) : bool :=
  match variable with Some (_ :: _) => negb skip | _ => false end.

Definition describeXCM (env : jsstr -> option jsstr) (skip : bool) : bool :=
  suite_runs (env (js "RUN_XCM_TESTS")) skip.
Definition describeGov (env : jsstr -> option jsstr) (skip : bool) : bool :=
  suite_runs (env (js "RUN_GOV_TESTS")) skip.

Section Playgrounds.
Context {N : NodeApi} {C : Crypto} {X : Harness}.

Definition getTestSeed (filename : jsstr) : jsstr := js "//Alice+" ++ md5 filename.

(** [seed.filename] once [seed.url] is taken into account; an empty string is
    as good as none. *)
Definition seed_filename (filename url : option jsstr) : Res jsstr :=
  match url, filename with
  | Some (_ :: _ as u), _ => fileURLToPath u
  | _, Some (_ :: _ as f) => Ret f
  | _, _ => Throw (JSError (js "no url nor filename set"))
  end.

(** [privateKey] of a helper whose chain has the format [ss58Format];
    [has_balance] says that the helper has a group [balance]. *)
Definition privateKey (helper : nat) (has_balance : bool) (ss58Format : jsval) (seed : Seed) : M TSigner :=
  match seed with
  | SeedText s => mreturn (addFromUriChain s ss58Format)
  | SeedFile filename url ignoreFundsPresence =>
      f ← lift (seed_filename filename url);
      let account := addFromUriChain (getTestSeed f) ss58Format in
      if ignoreFundsPresence then mreturn account
      else
        poor ← (if negb has_balance then mreturn true
                else balance ← BalanceGroup.getSubstrate helper (address account);
                     mreturn (js_lt balance (JBig MINIMUM_DONOR_FUND)));
        mreturn (if (poor : bool) then addFromUriChain (js "//Alice") ss58Format else account)
  end.

(** [usingPlaygroundsGeneral(helperType, url, code)]: [connect] is the one of
    the class. *)
Definition usingPlaygroundsGeneral {R} (connect : nat -> jsstr -> M unit) (has_balance : bool) (url : jsstr)
  (code : nat -> (Seed -> M TSigner) -> M R) : M R :=
  helper ← ChainHelperBase.constructor PlainHelper;
  finally
    (connect helper url;;
     p ← ChainGroup.getChainProperties helper;
     code helper (privateKey helper has_balance (ss58Format p)))
    (ChainHelperBase.disconnect helper).

Definition usingPlaygrounds {R} (url : jsstr) (code : nat -> (Seed -> M TSigner) -> M R) : M R :=
  usingPlaygroundsGeneral DevUniqueHelper.connect true url code.

(** The variants for other chains differ in the class, whose [connect] is that
    of [XcmChainHelper], and in their default URL. *)
Definition usingOtherPlaygrounds {R} (has_balance : bool) (url : jsstr)
  (code : nat -> (Seed -> M TSigner) -> M R) : M R :=
  usingPlaygroundsGeneral XcmChainHelper.connect has_balance url code.

Definition requirePalletsOrSkip (helper : nat) (requiredPallets : list jsstr) : M unit :=
  missingPallets ← ChainHelperBase.fetchMissingPalletNames helper requiredPallets;
  match missingPallets with
  | [] => mreturn tt
  | _ => throw skip_exception
  end.

(** The body that [itSub] registers. *)
Definition itSub_body (url : jsstr) (requiredPallets : option (list jsstr))
  (cb : nat -> (Seed -> M TSigner) -> M unit) : M unit :=
  usingPlaygrounds url (fun helper privateKey =>
    match requiredPallets with
    | Some l => requirePalletsOrSkip helper l
    | None => mreturn tt
    end;;
    cb helper privateKey).

Definition itSub (url name : jsstr) (cb : nat -> (Seed -> M TSigner) -> M unit) (opts : TestOptions)
  : Test (M unit) :=
  mkTest name (registration opts) (itSub_body url (requiredPallets opts) cb).

Definition itSubIfWithPallet (url name : jsstr) (required : list jsstr)
  (cb : nat -> (Seed -> M TSigner) -> M unit) (opts : TestOptions) : Test (M unit) :=
  itSub url name cb (with_required required opts).

Definition itSched (url name : jsstr) (cb : SchedKind -> nat -> (Seed -> M TSigner) -> M unit)
  (opts : TestOptions) : list (Test (M unit)) :=
  sched_tests (itSub url) name cb opts.

Definition itSchedIfWithPallets (url name : jsstr) (required : list jsstr)
  (cb : SchedKind -> nat -> (Seed -> M TSigner) -> M unit) (opts : TestOptions) : list (Test (M unit)) :=
  itSched url name cb (with_required required opts).

End Playgrounds.

(** ** The Ethereum variant *)

Section EthPlaygrounds.
Context {N : NodeApi} {C : Crypto} {W : Ethers} {X : Harness}.

(** [eth/util.ts]: here [ignoreFundsPresence] does not exist. *)
Definition eth_privateKey (helper : nat) (ss58Format : jsval) (seed : Seed) : E TSigner :=
  of_M (match seed with
        | SeedText s => privateKey helper true ss58Format (SeedText s)
        | SeedFile filename url _ => privateKey helper true ss58Format (SeedFile filename url false)
        end).

Definition usingEthPlaygrounds (substrateUrl : jsstr) (code : nat -> (Seed -> E TSigner) -> E unit) : E unit :=
  helper ← EthUniqueHelper.constructor;
  efinally
    (of_M (DevUniqueHelper.connect helper substrateUrl);;
     EthUniqueHelper.connectWeb3 helper substrateUrl;;
     p ← of_M (ChainGroup.getChainProperties helper);
     code helper (eth_privateKey helper (ss58Format p)))
    (EthUniqueHelper.disconnect helper).

(** [error.message.startsWith('non-canonical s')]; a thrown value without a
    message makes the test itself throw. The messages of engine errors are not
    modelled; the library's error is a [TypeError] with a message. *)
Definition non_canonical (e : exn) : Res bool :=
  match e with
  | JSError m => Ret (startsWith (js "non-canonical s") m)
  | EngineError => Ret false
  | JSThrown _ | JSValue _ | TxRejected _ => Throw EngineError
  end.

(** The loop of [itEth], for at most [fuel] failures: [None] when it would go
    on. *)
Fixpoint retry (fuel : nat) (cb : E unit) (s : EState) : option (Res unit * EState) :=
  match cb s with
  | (Throw e, s') =>
      match non_canonical e with
      | Ret true =>
          match fuel with
          | O => None
          | S fuel' => retry fuel' cb (of_M (pass 1000) s').2
          end
      | Ret false => Some (Throw e, s')
      | r => Some ((fun _ => tt) <$> r, s')
      end
  | r => Some r
  end.

(** The body that [itEth] registers. A test that still fails with the same
    error after [fuel] retries goes on; it is then pending. *)
Definition itEth_body (fuel : nat) (url : jsstr) (requiredPallets : option (list jsstr))
  (cb : nat -> (Seed -> E TSigner) -> E unit) : E unit :=
  usingEthPlaygrounds url (fun helper privateKey =>
    match requiredPallets with
    | Some l => of_M (requirePalletsOrSkip helper l)
    | None => mreturn tt
    end;;
    fun s => match retry fuel (cb helper privateKey) s with Some r => r | None => (Pending, s) end).

Definition itEth (fuel : nat) (url name : jsstr) (cb : nat -> (Seed -> E TSigner) -> E unit)
  (opts : TestOptions) : Test (E unit) :=
  mkTest name (registration opts) (itEth_body fuel url (requiredPallets opts) cb).

Definition itEthIfWithPallet (fuel : nat) (url name : jsstr) (required : list jsstr)
  (cb : nat -> (Seed -> E TSigner) -> E unit) (opts : TestOptions) : Test (E unit) :=
  itEth fuel url name cb (with_required required opts).

Definition itSchedEth (fuel : nat) (url name : jsstr) (cb : SchedKind -> nat -> (Seed -> E TSigner) -> E unit)
  (opts : TestOptions) : list (Test (E unit)) :=
  sched_tests (itEth fuel url) name cb opts.

End EthPlaygrounds.

(** ** Before the suites *)

Section GlobalSetup.
Context {N : NodeApi} {C : Crypto} {X : Harness}.

Definition batchSize : Z := 300.

(** [helper.executeExtrinsic(...).then(() => true).catch(() => false)] *)
Definition try_extrinsic (helper : nat) (signer : TSigner) (extrinsic : jsstr) (params : list jsval)
  (options : list (jsstr * jsval)) : M bool :=
  catch (executeExtrinsic helper signer extrinsic params true (Some options);; mreturn true)
    (fun _ => mreturn false).

Definition endsWith (t s : jsstr) : bool := bool_decide (drop (length s - length t) s = t).

(** The files that get an account of their own. *)
Definition is_test_file (f : jsstr) : bool :=
  endsWith (js ".test.ts") f || endsWith (js "seqtest.ts") f || includes (js ".outdated") f.

(** [nonce + counter] *)
Definition next_nonce (nonce : jsval) (counter : Z) : jsval :=
  match nonce with
  | JNum (Int n) => JNum (Int (n + counter))
  | JNum NaN => JNum NaN
  | v => JStr (to_string v ++ number_toString counter)
  end.

(** The inner loop over the files from the start of the batch on: the counter
    of granted accounts and the results of the transactions. The code lets the
    transactions run while it goes on; here each runs where it is started. *)
Fixpoint fund_batch (helper : nat) (key : Seed -> M TSigner) (alice : TSigner) (oneToken : Z) (nonce : jsval)
  (files : list jsstr) (batchCounter counter : Z) (tx : list bool) : M (Z * list bool) :=
  match files with
  | [] => mreturn (counter, tx)
  | f :: files' =>
      if batchCounter <? batchSize then
        account ← key (SeedFile (Some f) None true);
        aliceBalance ← BalanceGroup.getSubstrate helper (address account);
        if js_lt aliceBalance (JBig (MINIMUM_DONOR_FUND * oneToken)) then
          ok ← try_extrinsic helper alice (js "api.tx.balances.transferKeepAlive")
            [JStr (address account); JBig (DONOR_FUNDING * oneToken)] [(js "nonce", next_nonce nonce counter)];
          fund_batch helper key alice oneToken nonce files' (batchCounter + 1) (counter + 1) (tx ++ [ok])
        else fund_batch helper key alice oneToken nonce files' batchCounter counter tx
      else mreturn (counter, tx)
  end.

(** The outer loop; [files] is what is left from index [b] on, and the next
    batch starts [batchSize] files later. *)
Fixpoint fund_batches (fuel : nat) (helper : nat) (key : Seed -> M TSigner) (alice : TSigner) (oneToken : Z)
  (nonce : jsval) (files : list jsstr) (counter : Z) : M Z :=
  match fuel, files with
  | S fuel', _ :: _ =>
      ' (counter, tx) ← fund_batch helper key alice oneToken nonce files 0 counter [];
      if forallb id tx then
        fund_batches fuel' helper key alice oneToken nonce (drop (Z.to_nat batchSize) files) counter
      else throw (JSError (js "The transactions actually probably succeeded, should check the balances."))
  | _, _ => mreturn counter
  end.

(** An entry of a directory as [fs.readdir] lists it. *)
Inductive Entry : Type :=
  | File (name : jsstr)
  | Directory (name : jsstr) (entries : list Entry).

(** [path.resolve(rootPath, name)] of an absolute path and a plain name. *)
Definition resolve (rootPath name : jsstr) : jsstr := rootPath ++ js "/" ++ name.

(** [getFiles(rootPath)], where [files] is the listing of [rootPath]. *)
Fixpoint entry_files (rootPath : jsstr) (e : Entry) : list jsstr :=
  match e with
  | File name => [resolve rootPath name]
  | Directory name entries => flat_map (entry_files (resolve rootPath name)) entries
  end.

Definition getFiles (rootPath : jsstr) (files : list Entry) : list jsstr := flat_map (entry_files rootPath) files.

(** [filenames] is what [getFiles] finds. *)
Definition fundFilenames (url : jsstr) (filenames : list jsstr) : M Z :=
  usingPlaygrounds url (fun helper key =>
    oneToken ← BalanceGroup.getOneTokenNominal helper;
    alice ← key (SeedText (js "//Alice"));
    nonce ← ChainGroup.getNonce helper (address alice);
    let filteredFilenames := filterb is_test_file filenames in
    fund_batches (length filteredFilenames) helper key alice oneToken nonce filteredFilenames 0).

Definition mintTokens (helper : nat) (key : Seed -> M TSigner) : M unit :=
  superuser ← key (SeedText (js "//Alice"));
  sudo ← DevUniqueHelper.getSudo helper;
  executeExtrinsic sudo superuser (js "api.tx.balances.forceSetBalance")
    [JStr (address superuser); JBig 1000000000000000000000000000000] true None;;
  mreturn tt.

Definition setupAppPromotion (helper : nat) (key : Seed -> M TSigner) : M unit :=
  missingPallets ← ChainHelperBase.fetchMissingPalletNames helper [pallet_name AppPromotion];
  match missingPallets with
  | _ :: _ => mreturn tt
  | [] =>
      superuser ← key (SeedText (js "//Alice"));
      palletAddress ← ArrangeGroup.calculatePalletAddress helper (JStr (js "appstake"));
      palletAdmin ← key (SeedText (js "//PromotionAdmin"));
      api ← getApi helper;
      inner ← api_call api (js "tx.appPromotion.setAdminAddress") [cross_js (Substrate (address palletAdmin))];
      call ← api_call api (js "tx.sudo.sudo") [inner];
      ChainHelperBase.signTransaction helper superuser call None (js "transaction");;
      nominal ← BalanceGroup.getOneTokenNominal helper;
      BalanceGroup.transferToSubstrate helper superuser (address palletAdmin) (AmountBig (10000 * nominal));;
      BalanceGroup.transferToSubstrate helper superuser palletAddress (AmountBig (10000 * nominal));;
      config ← api_call api (js "tx.configuration.setAppPromotionConfigurationOverride")
        [obj [(js "recalculationInterval", JBig LOCKING_PERIOD); (js "pendingInterval", JBig UNLOCKING_PERIOD);
              (js "intervalIncome", JBig INTERVAL_INCOME)]];
      executeExtrinsic helper superuser (js "api.tx.sudo.sudo") [config] true None;;
      mreturn tt
  end.

(** One attempt of [globalSetup]. *)
Definition setup_once (url : jsstr) (filenames : list jsstr) : M unit :=
  usingPlaygrounds url (fun helper key =>
    WaitGroup.newBlocks helper 1 (Some 600000);;
    mintTokens helper key;;
    fundFilenames url filenames;;
    setupAppPromotion helper key).

(** The loop of [globalSetup] with [left] attempts left. *)
Fixpoint attempts (left : nat) (once : M unit) : M unit :=
  match left with
  | O => throw (JSError (js "failed to global setup tests after 3 retries"))
  | S left' => catch once (fun _ => pass (10 * 6000);; attempts left' once)
  end.

Definition maxAttemps : nat := 3.

Definition globalSetup (url : jsstr) (filenames : list jsstr) : M unit :=
  attempts maxAttemps (setup_once url filenames).

End GlobalSetup.
