(* ===== verification/Scripts.v ===== *)
(** * Operation scripts

    The command-line scripts of [js-packages/scripts], one Module each: lease
    times, repair after maintenance, constants and environment files, the load
    generator, identities.  Proposals, channels and calibration are in files of
    their own.  A script's arguments are the arguments of its definition and what it prints is left
    out, except where a returned text is printed. *)

From Stdlib Require Import Ascii String.
From stdpp Require Import list.
From S2P Require Import Prelude JsString JsValue Chain Address Util Helper Collections Balance Dev Wait Arrange Eth TestUtil.

Open Scope Z_scope.
Open Scope js_scope.

(** ** leaseStatus.ts *)

Module LeaseStatus.

Definition RELAY_BLOCK_SECONDS : Z := 6.
Definition CORETIME_BLOCK_SECONDS : Z := 12.
Definition TIMESLICE_PERIOD : Z := 80.

(** The names and the seconds of the units. *)
Definition units : list (jsstr * Z) :=
  [(js "d", 24 * (60 * (60 * 1))); (js "h", 60 * (60 * 1)); (js "m", 60 * 1); (js "s", 1)].

(** The loop over the units: the values pushed; [%] keeps the sign of the
    dividend. *)
Fixpoint split_time (seconds : Z) (units : list (jsstr * Z)) : list (Z * jsstr) :=
  match units with
  | [] => []
  | (name, unit) :: units' =>
      let value := seconds / unit in
      (value, name) :: split_time (if 0 <? value then Z.rem seconds unit else seconds) units'
  end.

Definition secondsToTime (seconds : Z) : jsstr :=
  join (js ":") (map (fun vn => number_toString vn.1 ++ vn.2) (split_time seconds units)).

Definition relayBlockToSeconds (block : Z) : Z := RELAY_BLOCK_SECONDS * block.

Definition timesliceToRelayBlock (timeslice : Z) : Z := timeslice * TIMESLICE_PERIOD.

(** The seconds until a timeslice, from which the date is computed, and
    [remaining]. *)
Definition futureTimesliceTimeInfo (timeslice lastRelayChainBlock : Z) : Z * jsstr :=
  let untilRelayBlock := timesliceToRelayBlock timeslice in
  let relayBlocksRemaining := untilRelayBlock - lastRelayChainBlock in
  let secondsRemaining := relayBlockToSeconds relayBlocksRemaining in
  (secondsRemaining, secondsToTime secondsRemaining).

(** What the script finds out about a task. *)
Inductive LeaseReport : Type :=
  | NoLease
  | EndsInRegion (remaining : jsstr) (renewUntil : Z) (renewTimeRemaining : jsstr)
  | Valid (remaining regionRemaining : jsstr).

(** A lease: task and [until]; of the sale, [regionEnd] and [saleStart]. *)
Definition lease_report (taskId : number) (leases : list (Z * Z)) (regionEnd saleStart : Z)
  (currentCoreTimeBlock lastRelayChainBlock : Z) : LeaseReport :=
  match findb (fun lease : Z * Z => num_eqb (Int lease.1) taskId) leases with
  | None => NoLease
  | Some (task, until) =>
      let remaining := (futureTimesliceTimeInfo until lastRelayChainBlock).2 in
      if until <? regionEnd then
        let renewUntilBlock := saleStart - currentCoreTimeBlock in
        EndsInRegion remaining saleStart (secondsToTime (CORETIME_BLOCK_SECONDS * renewUntilBlock))
      else Valid remaining (futureTimesliceTimeInfo regionEnd lastRelayChainBlock).2
  end.

End LeaseStatus.

(** ** correctStateAfterMaintenance.ts *)

Module Maintenance.

(** [arr.slice(i * size, i * size + size)] for each [i] below the rounded-up
    quotient of the lengths. *)
Definition chunk {A} (arr : list A) (size : nat) : list (list A) :=
  map (fun i => take size (drop (i * size) arr)) (seq 0 ((length arr + (size - 1)) / size)).

Section Maintenance.
Context {N : NodeApi} {C : Crypto} {X : Harness}.

(** [(k.args[0] as u32).toNumber()] of the keys. *)
Definition pending_block (entry : jsval) : Res Z :=
  k ← get_index entry 0;
  args ← get_prop k (js "args");
  block ← get_index args 0;
  n ← call0 block (js "toNumber");
  match n with JNum (Int z) => Ret z | _ => Throw EngineError end.

(** The blocks whose unstaking is still pending. *)
Definition unprocessed (api : Api) (blocks : list Z) : M (list Z) :=
  for_each_M (fun failed b =>
    v ← api_call api (js "query.appPromotion.pendingUnstake") [JNum (Int b)];
    json ← lift (call0 v (js "toJSON"));
    l ← lift (elements json);
    mreturn (match l with [] => failed | _ => failed ++ [b] end)) [] blocks.

(** The transactions are sent one after another; nobody looks at how they end
    ([Promise.allSettled]). *)
Definition main (wsEndpoint donorSeed : jsstr) : M unit :=
  usingPlaygrounds wsEndpoint (fun helper key =>
    api ← getApi helper;
    enabled ← api_call api (js "query.maintenance.enabled") [];
    enabled ← lift (call0 enabled (js "valueOf"));
    if truthy enabled then throw (JSError (js "The network is still in maintenance mode"))
    else
      entries ← api_call api (js "query.appPromotion.pendingUnstake.entries") [];
      entries ← lift (elements entries);
      pendingBlocks ← lift (map_out pending_block entries);
      number ← api_call api (js "query.system.number") [];
      currentBlock ← lift (call0 number (js "toNumber"));
      let filteredBlocks := filterb (fun b => js_lt (JNum (Int b)) currentBlock) pendingBlocks in
      match filteredBlocks with
      | [] => mreturn tt
      | _ =>
          signer ← key (SeedText donorSeed);
          txs ← map_M (fun b => api_call api (js "tx.appPromotion.resolveSkippedBlocks")
            [JArr (map (fun z => JNum (Int z)) b)]) (chunk filteredBlocks 10);
          for_each_M (fun _ tx =>
            catch (ChainHelperBase.signTransaction helper signer tx None (js "transaction");; mreturn tt)
              (fun _ => mreturn tt)) tt txs;;
          failedBlocks ← unprocessed api filteredBlocks;
          match failedBlocks with
          | [] => mreturn tt
          | _ => throw (JSError (js "Something went wrong. Block(s) have not been processed: "
                   ++ join (js ",") (map number_toString failedBlocks)))
          end
      end).

End Maintenance.
End Maintenance.

(** ** calibrateApply.ts *)

Module CalibrateApply.

(** [s.replace(/([0-9]{3})/g, '$1_')] *)
Fixpoint mark_triples (s : jsstr) : jsstr :=
  match s with
  | a :: s1 =>
      match s1 with
      | b :: c :: s3 =>
          if is_digit a && is_digit b && is_digit c then a :: b :: c :: 95 :: mark_triples s3
          else a :: mark_triples s1
      | _ => a :: mark_triples s1
      end
  | [] => []
  end.

(** [s.replace(/^_/, '')] *)
Definition strip_mark (s : jsstr) : jsstr :=
  match s with c :: s' => if c =? 95 then s' else s | [] => [] end.

Definition formatNumber (num : jsstr) : jsstr := strip_mark (reverse (mark_triples (reverse num))).

(** [[0-9_]+] *)
Definition is_mark_char (c : Z) : bool := is_digit c || (c =? 95).

Fixpoint skip_number (s : jsstr) : jsstr :=
  match s with c :: s' => if is_mark_char c then skip_number s' else s | [] => [] end.

(** What follows a match of the marked number at the start of [s]. *)
Definition marked (open close s : jsstr) : option jsstr :=
  if startsWith open s then
    let t := drop (length open) s in
    let u := skip_number t in
    if (length u <? length t)%nat && startsWith close u then Some (drop (length close) u) else None
  else None.

(** The first match replaced, [None] when there is none. *)
Fixpoint replace_marked (open close value s : jsstr) : option jsstr :=
  match marked open close s with
  | Some rest => Some (open ++ value ++ close ++ rest)
  | None => match s with [] => None | c :: s' => cons c <$> replace_marked open close value s' end
  end.

(** The new text of the file of constants, given the two values on chain. *)
Definition apply (weightToFeeCoefficientOverride minGasPriceOverride : Z) (constants : jsstr) : Res jsstr :=
  match replace_marked (js "/*<weight2fee>*/") (js "/*</weight2fee>*/")
          (formatNumber (number_toString weightToFeeCoefficientOverride)) constants with
  | None => Throw (JSError (js "failed to find weight2fee marker in source code"))
  | Some constants =>
      match replace_marked (js "/*<mingasprice>*/") (js "/*</mingasprice>*/")
              (formatNumber (number_toString minGasPriceOverride)) constants with
      | None => Throw (JSError (js "failed to find mingasprice marker in source code"))
      | Some constants => Ret constants
      end
  end.

End CalibrateApply.

(** ** generateEnv.ts *)

Module GenerateEnv.

(** A character that [.] of a regular expression does not match. *)
Definition is_terminator (c : Z) : bool := (c =? 10) || (c =? 13) || (c =? 8232) || (c =? 8233).

(** [.+?\n] at the start of [s]: the text after the line. *)
Fixpoint rest_of_line (seen : bool) (s : jsstr) : option jsstr :=
  match s with
  | [] => None
  | c :: s' =>
      if c =? 10 then (if seen then Some s' else None)
      else if is_terminator c then None
      else rest_of_line true s'
  end.

Definition assigned (key s : jsstr) : option jsstr :=
  if startsWith (key ++ js "=") s then rest_of_line false (drop (length key + 1) s) else None.

(** The first match of [key=.+?\n] replaced; the keys are letters and
    underscores. *)
Fixpoint replace_var (key value env : jsstr) : option jsstr :=
  match assigned key env with
  | Some rest => Some (key ++ js "=" ++ value ++ [10] ++ rest)
  | None => match env with [] => None | c :: env' => cons c <$> replace_var key value env' end
  end.

Definition setVar (env key value : jsstr) : Res jsstr :=
  match replace_var key value env with
  | Some newEnv => Ret newEnv
  | None => Throw (JSError (js "env key " ++ [34] ++ key ++ [34] ++ js " is not found"))
  end.

(** The groups of a match of [^(..)(...)$] with groups of the given lengths. *)
Fixpoint split_lengths (lens : list nat) (s : jsstr) : list jsstr :=
  match lens with
  | [] => []
  | n :: lens' => take n s :: split_lengths lens' (drop n s)
  end.

Inductive Regex : Type :=
  | Groups (lens : list nat)
  | AnyText.

Definition match_version (r : Regex) (ver : jsstr) : option (list jsstr) :=
  if existsb is_terminator ver then None
  else match r with
       | Groups lens => if (length ver =? sum_list lens)%nat then Some (split_lengths lens ver) else None
       | AnyText => match ver with [] => None | _ => Some [ver] end
       end.

(** A source of a version: where it is read, how it is matched and written,
    and the variable it sets. *)
Record Target : Type := mkTarget {
  tg_url : jsstr;
  tg_regex : Regex;
  tg_source : jsstr;
  tg_rep : list jsstr -> Res jsstr;
  tg_key : jsstr }.

(** [ff] on a version that has been fetched. *)
Definition ff (t : Target) (ver : jsstr) : Res jsstr :=
  match match_version (tg_regex t) ver with
  | None => Throw (JSError (js "bad regex for " ++ tg_url t ++ js ", " ++ tg_source t
                            ++ js " had no matches for " ++ ver))
  | Some groups => tg_rep t groups
  end.

Definition fixupUnique (version : jsstr) : jsstr :=
  if jseq version (js "release-v930033") then js "release-v930033-fix-gas-price"
  else if jseq version (js "release-v930034") then js "release-v930034-fix-gas-price"
  else version.

(** [prefix$1.$2.$3], [prefix$1], and the tables of the last two. *)
Definition dotted (prefix : string) (groups : list jsstr) : Res jsstr := Ret (js prefix ++ join (js ".") groups).

Fixpoint version_table (chain : string) (l : list (string * string)) (groups : list jsstr) : Res jsstr :=
  match l with
  | [] => Throw (JSError (js "unknown " ++ js chain ++ js " branch for runtime " ++ mjoin groups))
  | (k, v) :: l' => if jseq (mjoin groups) (js k) then Ret (js v) else version_table chain l' groups
  end.

Definition unique_version (groups : list jsstr) : Res jsstr := v ← dotted "release-v" groups; Ret (fixupUnique v).

Definition target (url : string) (r : Regex) (source : string) (rep : list jsstr -> Res jsstr) (key : string) : Target :=
  mkTarget (js url) r (js source) rep (js key).

Definition three : Regex := Groups [1; 3; 3]%nat.
Definition acala : Regex := Groups [1; 2; 1]%nat.

Definition targets : list Target :=
  [target "wss://rococo-rpc.polkadot.io/" three "/^(.)(...)(...)$/" (dotted "v") "POLKADOT_MAINNET_BRANCH";
   target "wss://polkadot-asset-hub-rpc.polkadot.io/" (Groups [4]%nat) "/^(....)$/" (dotted "release-parachains-v")
     "POLKADOT_ASSETHUB_BUILD_BRANCH";
   target "wss://acala-rpc-0.aca-api.network/" acala "/^(.)(..)(.)$/" (dotted "") "ACALA_BUILD_BRANCH";
   target "wss://wss.api.moonbeam.network/" (Groups [4]%nat) "/^(....)$/" (dotted "runtime-") "MOONBEAM_BUILD_BRANCH";
   target "wss://ws.unique.network/" (Groups [8]%nat) "/^(........)$/" unique_version "MAINNET_BRANCH";
   target "wss://rococo-rpc.polkadot.io/" three "/^(.)(...)(...)$/" (dotted "v") "KUSAMA_MAINNET_BRANCH";
   target "wss://kusama-asset-hub-rpc.polkadot.io/" (Groups [4]%nat) "/^(....)$/" (dotted "release-parachains-v")
     "KUSAMA_ASSETHUB_BUILD_BRANCH";
   target "wss://karura-rpc-0.aca-api.network/" acala "/^(.)(..)(.)$/" (dotted "release-karura-") "KARURA_BUILD_BRANCH";
   target "wss://wss.api.moonriver.moonbeam.network/" (Groups [4]%nat) "/^(....)$/" (dotted "runtime-")
     "MOONRIVER_BUILD_BRANCH";
   target "wss://ws-quartz.unique.network/" (Groups [8]%nat) "/^(........)$/" unique_version "MAINNET_BRANCH";
   target "wss://eu-ws-westend.unique.network/" acala "/^(.)(..)(.)$/" (dotted "release-v") "UNIQUEWEST_MAINNET_BRANCH";
   target "wss://westend-asset-hub-rpc.polkadot.io/" (Groups [7]%nat) "/^(.......)$/" (dotted "bad-branch-v")
     "WESTEND_ASSETHUB_BUILD_BRANCH";
   target "wss://ws-opal.unique.network/" (Groups [8]%nat) "/^(........)$/" unique_version "MAINNET_BRANCH";
   target "wss://rpc.astar.network/" AnyText "/^(.+)$/"
     (version_table "astar" [("55", "v5.3.0"); ("57", "v5.4.0"); ("61", "v5.11.0"); ("66", "v5.18.0"); ("88", "v5.39.1")]%string)
     "ASTAR_BUILD_BRANCH";
   target "wss://shiden.api.onfinality.io/public-ws" AnyText "/^(.+)$/"
     (version_table "shiden" [("90", "v4.49.0"); ("96", "v5.4.0"); ("100", "v5.10.0"); ("104", "v5.15.0");
        ("106", "v5.18.0"); ("127", "v5.39.1")]%string)
     "SHIDEN_BUILD_BRANCH"].

Section GenerateEnv.
Context {N : NodeApi}.

(** [ApiPromise.create({provider: new WsProvider(url)})] *)
Definition create_api (url : jsstr) : M Api :=
  api ← world_new (new_ApiPromise url None);
  ChainHelperBase.await_isReady api;;
  mreturn api.

Definition fetchVersion (chain : jsstr) : M jsstr :=
  api ← create_api chain;
  last ← api_call api (js "query.system.lastRuntimeUpgrade") [];
  last ← lift (call0 last (js "toJSON"));
  world_call (api_disconnect api);;
  v ← lift (get_prop last (js "specVersion"));
  s ← lift (call0 v (js "toString"));
  mreturn (to_string s).

(** The versions arrive in some order, given by [order]; the variables are set
    as they do. *)
Definition update (env : jsstr) (order : list Target) : M jsstr :=
  for_each_M (fun env t =>
    ver ← fetchVersion (tg_url t);
    v ← lift (ff t ver);
    lift (setVar env (tg_key t) v)) env order.

End GenerateEnv.
End GenerateEnv.

(** ** transfer.nload.ts *)

Module TransferLoad.

Definition FEE : Z := 10 ^ 8.

Definition Counters : Type := list (jsstr * Z).

Fixpoint counter (name : jsstr) (counters : Counters) : Z :=
  match counters with
  | [] => 0
  | (k, v) :: l => if jseq name k then v else counter name l
  end.

(** A missing or zero counter is set to zero first. *)
Definition increaseCounter (name : jsstr) (amount : Z) (counters : Counters) : Counters :=
  set_key name (counter name counters + amount) counters.

(** What is sent to the master, and the counters left. *)
Definition flushCounterToMaster (counters : Counters) : option Counters * Counters :=
  match counters with [] => (None, []) | _ => (Some counters, []) end.

(** [accounts.splice(index, 1)] *)
Definition splice {A} (index : nat) (accounts : list A) : list A :=
  take index accounts ++ drop (S index) accounts.

(** [for(const account of failedAccounts.reverse()) accounts.splice(account, 1)] *)
Definition remove_failed {A} (accounts : list A) (failedAccounts : list nat) : list A :=
  fold_left (fun acc i => splice i acc) (reverse failedAccounts) accounts.

Definition stage_amount (totalAmount : Z) (stage : nat) : Z :=
  Z.quot totalAmount (2 ^ Z.of_nat stage) - FEE * Z.of_nat stage.

Section Distribute.
Context {N : NodeApi} {C : Crypto}.
Variable helper : nat.

(** [rolls] are the numbers below ten thousand that the random generator gives;
    [None] when it is asked for more. *)
Fixpoint findUnusedAddress (key : Seed -> M TSigner) (seedAddition : jsstr) (rolls : list Z) : M (option TSigner) :=
  match rolls with
  | [] => mreturn None
  | roll :: rolls' =>
      unused ← key (SeedText (js "//seed" ++ number_toString roll ++ seedAddition));
      bal ← BalanceGroup.getSubstrate helper (address unused);
      if strict_eq bal (JBig 0) then mreturn (Some unused) else findUnusedAddress key seedAddition rolls'
  end.

(** The transfers of a stage, in order: the receivers of those that fail. *)
Fixpoint stage_transfers (accounts : list TSigner) (usersWithBalance : nat) (amount : Z) (senders : list nat)
  (failed : list nat) : M (list nat) :=
  match senders with
  | [] => mreturn failed
  | i :: senders' =>
      match accounts !! i, accounts !! (i + usersWithBalance)%nat with
      | Some sender, Some newUser =>
          ok ← catch (BalanceGroup.transferToSubstrate helper sender (address newUser) (AmountBig amount);; mreturn true)
                 (fun _ => mreturn false);
          stage_transfers accounts usersWithBalance amount senders'
            (if (ok : bool) then failed else failed ++ [(i + usersWithBalance)%nat])
      | _, _ => throw EngineError
      end
  end.

(** The stages from [stage] on. The transfers of a stage run side by side and
    their failures are noted as they arrive: [settle] gives the order in which
    the failures of a stage arrive. *)
Fixpoint stages_from (settle : nat -> list nat -> list nat) (left stage : nat) (accounts : list TSigner)
  (totalAmount : Z) (failed : list nat) (counters : Counters) : M (list nat * Counters) :=
  match left with
  | O => mreturn (failed, counters)
  | S left' =>
      let usersWithBalance := (2 ^ stage)%nat in
      f ← stage_transfers accounts usersWithBalance (stage_amount totalAmount stage) (seq 0 usersWithBalance) [];
      let counters := increaseCounter (js "tx") (Z.of_nat usersWithBalance) counters in
      let counters := match f with
                      | [] => counters
                      | _ => increaseCounter (js "txFailed") (Z.of_nat (length f)) counters
                      end in
      stages_from settle left' (S stage) accounts totalAmount (failed ++ settle stage f) counters
  end.

(** [users] is what [findUnusedAddresses] finds: [2 ** stages - 1] of them. The
    result is the accounts left and the counters. *)
Definition distributeBalance (settle : nat -> list nat -> list nat) (source : TSigner) (users : list TSigner)
  (totalAmount : Z) (stages : nat) (counters : Counters) : M (list TSigner * Counters) :=
  let accounts := source :: users in
  let counters := increaseCounter (js "requests") (2 ^ Z.of_nat stages - 1) counters in
  ' (failedAccounts, counters) ← stages_from settle stages 0 accounts totalAmount [0%nat] counters;
  mreturn (remove_failed accounts failedAccounts, counters).

End Distribute.
End TransferLoad.

(** ** identitySetter.ts *)

Module Identities.
Section Identities.
Context {N : NodeApi} {C : Crypto} {X : Harness}.

(** [encodeAddress(account, prefix)] of a textual account; the prefix defaults
    to 42. *)
Definition reencode (account : jsval) (ss58 : jsval) : Res jsstr :=
  bytes ← decodeAddress (to_string account);
  match ss58 with
  | JUndef => encodeAddress bytes 42
  | f => encodeAddressChain bytes f
  end.

Definition extractAccountId (key : jsval) : Res jsval :=
  human ← call0 key (js "toHuman"); get_index human 0.

Definition extractIdentityInfo (value : jsval) : Res jsval :=
  heart ← call0 value (js "unwrap");
  known_identity ← call0 heart (js "toJSON");
  judgements ← get_prop heart (js "judgements");
  human ← call0 judgements (js "toHuman");
  set_prop known_identity (js "judgements") human.

Definition extractIdentity (key value : jsval) : Res (jsval * jsval) :=
  account ← extractAccountId key;
  info ← extractIdentityInfo value;
  Ret (account, info).

(** The pairs of [entries()] of a storage map. *)
Definition entry (kv : jsval) : Res (jsval * jsval) :=
  k ← get_index kv 0; v ← get_index kv 1; Ret (k, v).

Definition entries (helper : nat) (map : jsstr) : M (list (jsval * jsval)) :=
  api ← getApi helper;
  l ← api_call api (js "query.identity." ++ map ++ js ".entries") [];
  l ← lift (elements l);
  lift (map_out entry l).

(** The identities, and the keys handed to [noneCasePredicate]. *)
Definition getIdentities (helper : nat) : M (list (jsval * jsval) * list jsval) :=
  l ← entries helper (js "identityOf");
  lift (for_each (fun '(identities, nones) '(key, value) =>
    isNone ← get_prop value (js "isNone");
    if truthy isNone then Ret (identities, nones ++ [key])
    else i ← extractIdentity key value; Ret (identities ++ [i], nones)) ([], []) l).

(** [a == b] on two numbers. *)
Definition loose_num_eq (a b : jsval) : bool :=
  match a, b with JNum m, JNum n => num_eqb m n | _, _ => false end.

Definition isCurrentChainDataPriority (ss58Format : jsval) (currentChainId relayChainId : jsval) : bool :=
  if negb (truthy currentChainId) then false
  else if loose_num_eq currentChainId ss58Format then true
  else js_lt currentChainId relayChainId.

(** The super entry of an account: the first whose account is it. *)
Definition find_super (supers : list (jsval * jsval)) (sub : jsval) : option (jsval * jsval) :=
  findb (fun sup => strict_eq sup.1 sub) supers.

(** The sub-identities with their data; those without are left out. *)
Definition sub_identity (supers : list (jsval * jsval)) (ss58 : jsval) (sub : jsval) : Res (option jsval) :=
  match find_super supers sub with
  | None => Ret None
  | Some (_, value) =>
      account ← reencode sub ss58;
      json ← call0 value (js "toJSON");
      data ← get_index json 1;
      Ret (Some (JArr [JStr account; data]))
  end.

Definition somes {A} (l : list (option A)) : list A := omap id l.

Definition constructSubInfo (identityAccount subQuery : jsval) (supers : list (jsval * jsval)) (ss58 : jsval)
  : Res (jsval * jsval) :=
  json ← call0 subQuery (js "toJSON");
  deposit ← get_index json 0;
  human ← call0 subQuery (js "toHuman");
  subIdentities ← get_index human 1;
  subIdentities ← elements subIdentities;
  account ← reencode identityAccount ss58;
  subs ← map_out (sub_identity supers ss58) subIdentities;
  Ret (JStr account, JArr [deposit; JArr (somes subs)]).

(** [[extractAccountId(key), value]] of the entries. *)
Definition accounts_of (helper : nat) (map : jsstr) : M (list (jsval * jsval)) :=
  l ← entries helper map;
  lift (map_out (fun '(key, value) => a ← extractAccountId key; Ret (a, value)) l).

Definition getSubs (helper : nat) : M (list (jsval * jsval)) := accounts_of helper (js "subsOf").
Definition getSupers (helper : nat) : M (list (jsval * jsval)) := accounts_of helper (js "superOf").

(** An exception is only reported; reading [e.message] of a value without one
    throws. *)
Definition uploadPreimage (helper : nat) (preimageMaker : TSigner) (preimage : jsval) : M unit :=
  catch (executeExtrinsic helper preimageMaker (js "api.tx.preimage.notePreimage") [preimage] true None;; mreturn tt)
    (fun e => match e with
              | JSError _ | EngineError => mreturn tt
              | _ => throw EngineError
              end).

(** Which of the two good judgements an identity has. *)
Definition judge (acc : bool * bool) (j : jsval) : Res (bool * bool) :=
  judgement ← get_index j 1;
  Ret (acc.1 || strict_eq judgement (JStr (js "KnownGood")), acc.2 || strict_eq judgement (JStr (js "Reasonable"))).

(** The loop over the identities of the relay chain: those with a good
    judgement, which becomes their only one, given by the chain. *)
Definition keep_judged (ss58Format : jsval) (kept : list (jsval * jsval)) (i : jsval * jsval)
  : Res (list (jsval * jsval)) :=
  let '(key, value) := i in
  judgements ← get_prop value (js "judgements");
  judgements ← elements judgements;
  ' (knownGood, reasonable) ← for_each judge (false, false) judgements;
  if negb (reasonable || knownGood) then Ret kept
  else
    value ← set_prop value (js "judgements")
      (JArr [JArr [ss58Format; JStr (js (if knownGood then "KnownGood" else "Reasonable"))]]);
    Ret (kept ++ [(key, value)]).

(** The loop over the sub-identities; each identity is used once. *)
Fixpoint subs_of (supers : list (jsval * jsval)) (sublessIdentities subs : list (jsval * jsval))
  : Res (list (jsval * jsval)) :=
  match subs with
  | [] => Ret []
  | (key, value) :: subs' =>
      match list_find (fun x => strict_eq x.1 key = true) sublessIdentities with
      | None => subs_of supers sublessIdentities subs'
      | Some (i, _) =>
          info ← constructSubInfo key value supers JUndef;
          rest ← subs_of supers (TransferLoad.splice i sublessIdentities) subs';
          Ret (info :: rest)
      end
  end.

(** What is read on the relay chain: its format, identities, their subs, and
    the accounts without an identity. *)
Record RelayData : Type := mkRelay {
  relaySS58Prefix : jsval;
  identitiesOnRelay : list (jsval * jsval);
  subsOnRelay : list (jsval * jsval);
  identitiesToRemove : list jsval }.

Definition readRelay (helper : nat) : M RelayData :=
  catch
    (p ← ChainGroup.getChainProperties helper;
     ' (identities, nones) ← getIdentities helper;
     toRemove ← lift (map_out extractAccountId nones);
     kept ← lift (for_each (keep_judged (ss58Format p)) [] identities);
     supersOfSubs ← getSupers helper;
     subs ← getSubs helper;
     subs ← lift (subs_of supersOfSubs kept subs);
     mreturn (mkRelay (ss58Format p) kept subs toRemove))
    (fun _ => throw (JSError (js "Error during fetching identities"))).

(** [value.judgements[0][0]] *)
Definition registrator (value : jsval) : Res jsval :=
  js_ ← get_prop value (js "judgements");
  j ← get_index js_ 0;
  get_index j 0.

(** The loop that compares the identities: those to add, and the registrators of
    the accounts the parachain knows. *)
Definition compare_identity (ss58Format : jsval) (paraIdentities : list (jsval * jsval))
  (acc : list (jsval * jsval) * list (jsstr * jsval)) (i : jsval * jsval)
  : Res (list (jsval * jsval) * list (jsstr * jsval)) :=
  let '(toAdd, registrators) := acc in
  let '(key, value) := i in
  encodedKey ← reencode key ss58Format;
  match findb (fun i => strict_eq i.1 (JStr encodedKey)) paraIdentities with
  | None => Ret (toAdd ++ [(key, value)], registrators)
  | Some (_, known_identity) =>
      registratorId ← registrator known_identity;
      let registrators := set_key encodedKey registratorId registrators in
      relayId ← registrator value;
      skip ← (if isCurrentChainDataPriority ss58Format registratorId relayId then Ret true
              else
                a ← get_prop value (js "info");
                b ← get_prop known_identity (js "info");
                UniqueUtil.json_eq a b);
      if (skip : bool) then Ret (toAdd, registrators) else Ret (toAdd ++ [(key, value)], registrators)
  end.

(** The loop that compares the sub-identities. *)
Definition compare_subs (ss58Format : jsval) (relayPrefix : jsval) (registrators : list (jsstr * jsval))
  (paraSubs supersOfSubs : list (jsval * jsval)) (acc : list (jsval * jsval)) (i : jsval * jsval)
  : Res (list (jsval * jsval)) :=
  let '(key, value) := i in
  encodedKey ← reencode key ss58Format;
  match findb (fun i => strict_eq i.1 (JStr encodedKey)) paraSubs with
  | Some (account, query) =>
      skip ← (if isCurrentChainDataPriority ss58Format (default JUndef (lookup_key encodedKey registrators)) relayPrefix
              then Ret true
              else info ← constructSubInfo account query supersOfSubs JUndef; UniqueUtil.json_eq value info.2);
      if (skip : bool) then Ret acc else Ret (acc ++ [(key, value)])
  | None =>
      subs ← get_index value 1;
      l ← elements subs;
      match l with [] => Ret acc | _ => Ret (acc ++ [(key, value)]) end
  end.

Definition pair_js (i : jsval * jsval) : jsval := JArr [i.1; i.2].

Definition upload_unless_empty (helper : nat) (maker : TSigner) (call : string) (l : list jsval) : M unit :=
  match l with
  | [] => mreturn tt
  | _ => h ← encodeApiCall helper (js "api.tx.identity." ++ js call) [JArr l]; uploadPreimage helper maker h
  end.

(** [.length] of the keys of a map, which is only printed; the query may fail. *)
Definition count_keys (helper : nat) (map : jsstr) : M unit :=
  api ← getApi helper;
  keys ← api_call api (js "query.identity." ++ map ++ js ".keys") [];
  lift (get_prop keys (js "length"));;
  mreturn tt.

Definition writePara (relay : RelayData) (maker_seed : jsstr) (helper : nat) (key : Seed -> M TSigner) : M unit :=
  ChainHelperBase.fetchMissingPalletNames helper [pallet_name Identity];;
  ChainHelperBase.fetchMissingPalletNames helper [pallet_name Preimage];;
  catch
    (preimageMaker ← key (SeedText maker_seed);
     p ← ChainGroup.getChainProperties helper;
     ' (paraIdentities, _) ← getIdentities helper;
     ' (identitiesToAdd, registrators) ←
       lift (for_each (compare_identity (ss58Format p) paraIdentities) ([], []) (identitiesOnRelay relay));
     upload_unless_empty helper preimageMaker "forceRemoveIdentities" (identitiesToRemove relay);;
     upload_unless_empty helper preimageMaker "forceInsertIdentities" (map pair_js identitiesToAdd);;
     count_keys helper (js "identityOf");;
     paraSubs ← getSubs helper;
     supersOfSubs ← getSupers helper;
     subsToUpdate ← lift (for_each (compare_subs (ss58Format p) (relaySS58Prefix relay) registrators paraSubs supersOfSubs)
       [] (subsOnRelay relay));
     upload_unless_empty helper preimageMaker "forceSetSubs" (map pair_js subsToUpdate);;
     count_keys helper (js "subsOf"))
    (fun _ => throw (JSError (js "Error during setting identities"))).

Definition forceInsertIdentities (relayUrl paraUrl maker_seed : jsstr) : M unit :=
  relay ← usingPlaygrounds relayUrl (fun helper _ => readRelay helper);
  usingPlaygrounds paraUrl (fun helper key => writePara relay maker_seed helper key).

End Identities.
End Identities.
