(* ===== verification/Proposals.v ===== *)
(** * Channel and proposal scripts

    [scripts/hrmpchannel.ts], [councilproposal.ts], [proposeupgrade.ts],
    [proposefasttrack.ts], [createHrmp.ts], [setCode.ts],
    [authorizeEnactUpgrade.ts] and [relayIdentitiesChecker.ts]. *)

From Stdlib Require Import Ascii String.
From stdpp Require Import list.
From S2P Require Import Prelude JsString JsValue Chain Address Util Helper Collections Balance Dev Wait Arrange Eth TestUtil Scripts.

Open Scope Z_scope.
Open Scope js_scope.

(** [tx.method.toHex()] *)
Definition method_hex (tx : jsval) : Res jsval :=
  m ← get_prop tx (js "method"); call0 m (js "toHex").

(** ** Proposals to the council *)

Module CouncilProposal.
Section CouncilProposal.
Context {N : NodeApi} {C : Crypto}.

(** [Math.floor(councilMembers.length / 2) + 1] *)
Definition councilProposalThreshold (councilMembers : nat) : Z := Z.of_nat councilMembers / 2 + 1.

(** The batch of a preimage and of the council motion to propose its hash,
    encoded: the part that three scripts share. *)
Definition council_batch (api : Api) (proposal : jsval) : M jsval :=
  members ← api_call api (js "query.council.members") [];
  members ← lift (call0 members (js "toJSON"));
  councilMembers ← lift (elements members);
  let democracyProposalHash := blake2AsHex256 proposal in
  preimage ← api_call api (js "tx.preimage.notePreimage") [proposal];
  democracyProposalPreimage ← lift (method_hex preimage);
  democracyProposal ← api_call api (js "tx.democracy.externalProposeDefault")
    [obj [(js "Legacy", JStr democracyProposalHash)]];
  m ← lift (get_prop democracyProposal (js "method"));
  encodedLength ← lift (get_prop m (js "encodedLength"));
  motion ← api_call api (js "tx.council.propose")
    [JNum (Int (councilProposalThreshold (length councilMembers))); democracyProposal; encodedLength];
  councilProposal ← lift (method_hex motion);
  proposeBatch ← api_call api (js "tx.utility.batchAll") [JArr [democracyProposalPreimage; councilProposal]];
  lift (method_hex proposeBatch).

(** [councilproposal.ts] *)
Definition main (networkUrl democracyProposalContent : jsstr) : M jsval :=
  api ← GenerateEnv.create_api networkUrl;
  encodedCall ← council_batch api (JStr democracyProposalContent);
  world_call (api_disconnect api);;
  mreturn encodedCall.

End CouncilProposal.
End CouncilProposal.

Module ProposeUpgrade.
Section ProposeUpgrade.
Context {N : NodeApi} {C : Crypto}.

(** [wasmFileBytes] is the content of the file. *)
Definition main (networkUrl : jsstr) (wasmFileBytes : jsval) : M jsval :=
  api ← GenerateEnv.create_api networkUrl;
  let wasmFileHash := blake2AsHex256 wasmFileBytes in
  authorizeUpgrade ← api_call api (js "tx.system.authorizeUpgrade") [JStr wasmFileHash];
  democracyProposalContent ← lift (method_hex authorizeUpgrade);
  encodedCall ← CouncilProposal.council_batch api democracyProposalContent;
  world_call (api_disconnect api);;
  mreturn encodedCall.

End ProposeUpgrade.
End ProposeUpgrade.

Module ProposeFastTrack.
Section ProposeFastTrack.
Context {N : NodeApi} {C : Crypto}.

Definition voringPeriod : Z := 7200.
Definition delay : Z := 10.

(** The hash of the external proposal that is on the table. *)
Definition external_hash (externalDemocracyProposal : jsval) : Res jsval :=
  inline ← get_prop externalDemocracyProposal (js "isInline");
  if truthy inline then
    v ← get_prop externalDemocracyProposal (js "asInline"); Ret (JStr (blake2AsHex256 v))
  else
    legacy ← get_prop externalDemocracyProposal (js "isLegacy");
    v ← get_prop externalDemocracyProposal (js (if truthy legacy then "asLegacy" else "asLookup"));
    json ← call0 v (js "toJSON");
    get_prop json (js "hash").

Definition proposal_hash (api : Api) (proposal : jsstr) : M jsval :=
  if jseq proposal (js "existing-external-proposal") then
    next ← api_call api (js "query.democracy.nextExternal") [];
    pair ← lift (call0 next (js "unwrap"));
    externalDemocracyProposal ← lift (get_index pair 0);
    lift (external_hash externalDemocracyProposal)
  else mreturn (JStr proposal).

Definition main (networkUrl proposal : jsstr) : M jsval :=
  api ← GenerateEnv.create_api networkUrl;
  proposalHash ← proposal_hash api proposal;
  democracyFastTrack ← api_call api (js "tx.democracy.fastTrack")
    [proposalHash; JNum (Int voringPeriod); JNum (Int delay)];
  members ← api_call api (js "query.technicalCommittee.members") [];
  members ← lift (call0 members (js "toJSON"));
  techCommThreshold ← lift (get_prop members (js "length"));
  encoded ← lift (method_hex democracyFastTrack);
  encodedLength ← lift (get_prop democracyFastTrack (js "encodedLength"));
  techCommProposal ← api_call api (js "tx.technicalCommittee.propose") [techCommThreshold; encoded; encodedLength];
  encodedCall ← lift (method_hex techCommProposal);
  world_call (api_disconnect api);;
  mreturn encodedCall.

End ProposeFastTrack.
End ProposeFastTrack.

(** ** hrmpchannel.ts *)

Module HrmpChannel.
Section HrmpChannel.
Context {N : NodeApi} {C : Crypto}.

(** [createType('u32', paraid).toHex(true)] is the method [toHex] of the codec
    with its argument: little-endian. *)
Definition paraChildSovereignAccount (relayApi : Api) (paraid : jsval) : Res jsstr :=
  let childPrefix := js "70617261" in
  v ← of_lib (createType relayApi (js "u32") paraid);
  hex ← call0 v (js "toHex(true)");
  let encodedParaId := drop 2 (to_string hex) in
  Ret (js "0x" ++ padEnd (32 * 2) 48 (childPrefix ++ encodedParaId)).

(** [a < b] for a number, a bigint or the text of one. *)
Definition lt_bigint (a : jsval) (b : Z) : bool :=
  match a with
  | JStr s => match string_toBigInt s with Some z => z <? b | None => false end
  | _ => js_lt a (JBig b)
  end.

(** The configuration, and the balance of a sovereign account. *)
Definition active_config (relayApi : Api) : M jsval :=
  data ← api_call relayApi (js "query.configuration.activeConfig") [];
  lift (call0 data (js "toJSON")).

Definition free_balance (relayApi : Api) (account : jsstr) : M jsval :=
  accountInfo ← api_call relayApi (js "query.system.account") [JStr account];
  json ← lift (call0 accountInfo (js "toJSON"));
  data ← lift (get_prop json (js "data"));
  lift (get_prop data (js "free")).

Definition not_enough (whose : string) (balance : jsval) (requiredBalance : Z) : exn :=
  JSError (js "Not enough balance on the " ++ js whose ++ js "'s sovereign account: balance(" ++ to_string balance
           ++ js ") < requiredBalance(" ++ number_toString requiredBalance ++ js ")").

Definition proposeOpenChannel (relayApi : Api) (relayFee : Z) (senderParaId receiverParaId : jsval)
  (skipBalanceCheck : bool) : M jsval :=
  conf ← active_config relayApi;
  maxCapacity ← lift (get_prop conf (js "hrmpChannelMaxCapacity"));
  maxSize ← lift (get_prop conf (js "hrmpChannelMaxMessageSize"));
  deposit ← lift (get_prop conf (js "hrmpSenderDeposit"));
  senderDeposit ← lift (to_bigint deposit);
  let requiredBalance := relayFee + senderDeposit in
  sovereignAccount ← lift (paraChildSovereignAccount relayApi senderParaId);
  balance ← free_balance relayApi sovereignAccount;
  if negb skipBalanceCheck && lt_bigint balance requiredBalance then
    throw (not_enough "sender" balance requiredBalance)
  else
    call ← api_call relayApi (js "tx.hrmp.hrmpInitOpenChannel") [receiverParaId; maxCapacity; maxSize];
    lift (method_hex call).

Definition proposeAcceptChannel (relayApi : Api) (relayFee : Z) (senderParaId recipientParaId : jsval)
  (skipBalanceCheck : bool) : M jsval :=
  conf ← active_config relayApi;
  deposit ← lift (get_prop conf (js "hrmpRecipientDeposit"));
  recipientDeposit ← lift (to_bigint deposit);
  let requiredBalance := relayFee + recipientDeposit in
  sovereignAccount ← lift (paraChildSovereignAccount relayApi recipientParaId);
  balance ← free_balance relayApi sovereignAccount;
  if negb skipBalanceCheck && lt_bigint balance requiredBalance then
    throw (not_enough "recipient" balance requiredBalance)
  else
    call ← api_call relayApi (js "tx.hrmp.hrmpAcceptOpenChannel") [senderParaId];
    lift (method_hex call).

Definition parachain_id (api : Api) : M jsval :=
  data ← api_call api (js "query.parachainInfo.parachainId") [];
  lift (call0 data (js "toJSON")).

(** [2n * BigInt(10 ** relayDecimals)]; powers of ten are exact numbers up to
    22 decimals. *)
Definition relay_fee (relayApi : Api) : M Z :=
  data ← api_call relayApi (js "rpc.system.properties") [];
  tokenDecimals ← lift (get_prop data (js "tokenDecimals"));
  l ← lift (call0 tokenDecimals (js "unwrap"));
  d ← lift (get_index l 0);
  relayDecimals ← lift (call0 d (js "toNumber"));
  match relayDecimals with
  | JNum (Int d) => if d <? 0 then throw EngineError else mreturn (2 * 10 ^ d)
  | _ => throw EngineError
  end.

(** The XCM program that runs a call on the relay chain. *)
Definition fungible_relay (relayFee : Z) : jsval :=
  obj [(js "id", obj [(js "Concrete", obj [(js "parents", JNum (Int 0)); (js "interior", JStr (js "Here"))])]);
       (js "fun", obj [(js "Fungible", JBig relayFee)])].

Definition transact_program (relayFee : Z) (encodedRelayCall uniqueParaId : jsval) : jsval :=
  obj [(js "V3", JArr [
    obj [(js "WithdrawAsset", JArr [fungible_relay relayFee])];
    obj [(js "BuyExecution", obj [(js "fees", fungible_relay relayFee); (js "weightLimit", JStr (js "Unlimited"))])];
    obj [(js "Transact", obj [
      (js "originKind", JStr (js "Native"));
      (js "requireWeightAtMost", obj [(js "refTime", JNum (Int 1000000000)); (js "proofSize", JNum (Int 65536))]);
      (js "call", obj [(js "encoded", encodedRelayCall)])])];
    JStr (js "RefundSurplus");
    obj [(js "DepositAsset", obj [
      (js "assets", obj [(js "Wild", obj [(js "AllCounted", JNum (Int 1))])]);
      (js "beneficiary", obj [
        (js "parents", JNum (Int 0));
        (js "interior", obj [(js "X1", obj [(js "Parachain", uniqueParaId)])])])])]])].

Definition relay_destination : jsval :=
  obj [(js "V3", obj [(js "parents", JNum (Int 1)); (js "interior", JStr (js "Here"))])].

Definition main (relayUrl uniqueParachainUrl otherParachainUrl op : jsstr) (skipBalanceCheck : bool) : M jsval :=
  relayApi ← GenerateEnv.create_api relayUrl;
  uniqueApi ← GenerateEnv.create_api uniqueParachainUrl;
  otherApi ← GenerateEnv.create_api otherParachainUrl;
  uniqueParaId ← parachain_id uniqueApi;
  otherParaId ← parachain_id otherApi;
  relayFee ← relay_fee relayApi;
  encodedRelayCall ← (
    if jseq op (js "open") then proposeOpenChannel relayApi relayFee uniqueParaId otherParaId skipBalanceCheck
    else if jseq op (js "accept") then proposeAcceptChannel relayApi relayFee otherParaId uniqueParaId skipBalanceCheck
    else throw (JSError (js "Unknown hrmp channel operation: " ++ op)));
  send ← api_call uniqueApi (js "tx.polkadotXcm.send")
    [relay_destination; transact_program relayFee encodedRelayCall uniqueParaId];
  proposal ← lift (method_hex send);
  encodedCall ← CouncilProposal.council_batch uniqueApi proposal;
  world_call (api_disconnect relayApi);;
  world_call (api_disconnect uniqueApi);;
  world_call (api_disconnect otherApi);;
  mreturn encodedCall.

End HrmpChannel.
End HrmpChannel.

(** ** Scripts that act as the superuser *)

Module SuperuserScripts.
Section SuperuserScripts.
Context {N : NodeApi} {C : Crypto} {X : Harness}.
(** [u8aToHex(code)] *)
Variable u8aToHex : jsval -> jsstr.

Definition as_sudo (helper : nat) (signer : TSigner) (extrinsic : string) (params : list jsval) : M unit :=
  sudo ← DevUniqueHelper.getSudo helper;
  executeExtrinsic sudo signer (js "api.tx." ++ js extrinsic) params true None;;
  mreturn tt.

Definition as_sudo_unchecked (helper : nat) (signer : TSigner) (extrinsic : string) (params : list jsval) : M unit :=
  sudo ← DevUniqueHelper.getSudo helper;
  executeExtrinsicUncheckedWeight sudo signer (js "api.tx." ++ js extrinsic) params true None;;
  mreturn tt.

(** [createHrmp.ts] *)
Definition bidirOpen (helper : nat) (alice : TSigner) (a b : Z) : M unit :=
  as_sudo helper alice "hrmp.forceOpenHrmpChannel" [JNum (Int a); JNum (Int b); JNum (Int 8); JNum (Int 512)];;
  as_sudo helper alice "hrmp.forceOpenHrmpChannel" [JNum (Int b); JNum (Int a); JNum (Int 8); JNum (Int 512)].

Definition profile_channels (profile : jsstr) : option (list (Z * Z)) :=
  if jseq profile (js "quartz") then Some [(2095, 1000); (2095, 2000); (2095, 2023); (2095, 2007)]
  else if jseq profile (js "unique") then Some [(2037, 1000); (2037, 2000); (2037, 2004); (2037, 2006); (2037, 2034)]
  else None.

(** [fuel] bounds the rounds of [newSessions]. *)
Definition createHrmp (fuel : nat) (relayUrl profile : jsstr) : M unit :=
  usingPlaygrounds relayUrl (fun helper key =>
    alice ← key (SeedText (js "//Alice"));
    match profile_channels profile with
    | None => throw (JSError (js "unknown hrmp config profile: " ++ profile))
    | Some channels =>
        for_each_M (fun _ '(a, b) => bidirOpen helper alice a b) tt channels;;
        WaitGroup.newSessions helper fuel 1 60000
    end).

(** [setCode.ts] *)
Definition setCode (url : jsstr) (code : jsval) : M unit :=
  usingPlaygrounds url (fun helper key =>
    alice ← key (SeedText (js "//Alice"));
    as_sudo_unchecked helper alice "system.setCode" [JStr (u8aToHex code)]).

(** [authorizeEnactUpgrade.ts] *)
Definition authorizeEnactUpgrade (url : jsstr) (code : jsval) : M unit :=
  usingPlaygrounds url (fun helper key =>
    alice ← key (SeedText (js "//Alice"));
    let hex := blake2AsHex256 code in
    as_sudo helper alice "balances.forceSetBalance" [JStr (address alice); JBig 1000000000000000000000000000000];;
    BalanceGroup.getSubstrate helper (address alice);;
    as_sudo helper alice "system.authorizeUpgrade" [JStr hex];;
    as_sudo_unchecked helper alice "system.applyAuthorizedUpgrade" [JStr (u8aToHex code)]).

End SuperuserScripts.
End SuperuserScripts.

(** ** relayIdentitiesChecker.ts *)

Module RelayIdentities.
Section RelayIdentities.
Context {N : NodeApi} {C : Crypto} {X : Harness}.
Import Identities.

(** [value.toHuman().judgements.filter(...).length == 0], negated. *)
Definition well_judged (value : jsval) : Res bool :=
  human ← call0 value (js "toHuman");
  judgements ← get_prop human (js "judgements");
  l ← elements judgements;
  good ← map_out (fun x => j ← get_index x 1;
    Ret (strict_eq j (JStr (js "Reasonable")) || strict_eq j (JStr (js "KnownGood")))) l;
  Ret (existsb id good).

(** What [find] gives is an entry or [undefined], never [-1], so every
    sub-identity is kept. *)
Definition pull (helper : nat) : M (list (jsval * jsval) * list (jsval * jsval)) :=
  ' (all, _) ← getIdentities helper;
  identities ← lift (for_each (fun kept '(key, value) =>
    good ← well_judged value; Ret (if (good : bool) then kept ++ [(key, value)] else kept)) [] all);
  supersOfSubs ← getSupers helper;
  subs ← getSubs helper;
  subs ← lift (map_out (fun '(key, value) => constructSubInfo key value supersOfSubs JUndef) subs);
  mreturn (identities, subs).

Definition pullIdentities (relayUrl : jsstr) : M (list (jsval * jsval) * list (jsval * jsval)) :=
  usingPlaygrounds relayUrl (fun helper _ =>
    catch (pull helper)
      (fun _ => throw (JSError (js "Error during fetching identities on " ++ relayUrl)))).

(** The first entry of an account, accounts compared in the default format. *)
Fixpoint find_account (address : jsstr) (l : list (jsval * jsval)) : Res (option (jsval * jsval)) :=
  match l with
  | [] => Ret None
  | (key, value) :: l' =>
      a ← reencode key JUndef;
      if jseq address a then Ret (Some (key, value)) else find_account address l'
  end.

(** A key of an object, which is there once. *)
Definition add_key (k : jsstr) (l : list jsstr) : list jsstr :=
  if ChainHelperBase.in_list k l then l else l ++ [k].

(** The accounts with identities on both chains, and those of them whose
    [info] differs. *)
Definition compare_identities (identities1 identities2 : list (jsval * jsval))
  : Res (list jsstr * list jsstr) :=
  for_each (fun '(matching, unequal) '(key1, value1) =>
    address ← reencode key1 JUndef;
    o ← find_account address identities2;
    match o with
    | None => Ret (matching, unequal)
    | Some (_, value2) =>
        a ← get_prop value1 (js "info");
        b ← get_prop value2 (js "info");
        same ← UniqueUtil.json_eq a b;
        Ret (matching ++ [address], if (same : bool) then unequal else add_key address unequal)
    end) ([], []) identities1.

(** Of the matching accounts: how many have sub-identities on both chains, and
    on how many these differ. *)
Definition compare_sub_identities (matchingAddresses : list jsstr) (subs1 subs2 : list (jsval * jsval))
  : Res (Z * Z) :=
  for_each (fun '(matchesFound, unequal) address =>
    o1 ← find_account address subs1;
    match o1 with
    | None => Ret (matchesFound, unequal)
    | Some (_, value1) =>
        o2 ← find_account address subs2;
        match o2 with
        | None => Ret (matchesFound, unequal)
        | Some (_, value2) =>
            a ← get_index value1 1;
            b ← get_index value2 1;
            same ← UniqueUtil.json_eq a b;
            Ret (matchesFound + 1, if (same : bool) then unequal else unequal + 1)
        end
    end) (0, 0) matchingAddresses.

(** The numbers that are printed. *)
Definition checkRelayIdentities (relay1Url relay2Url : jsstr) : M (list jsstr * list jsstr * (Z * Z)) :=
  ' (identities1, subs1) ← pullIdentities relay1Url;
  ' (identities2, subs2) ← pullIdentities relay2Url;
  catch
    (' (matching, unequal) ← lift (compare_identities identities1 identities2);
     counts ← lift (compare_sub_identities matching subs1 subs2);
     mreturn (matching, unequal, counts))
    (fun _ => throw (JSError (js "Error during comparison"))).

End RelayIdentities.
End RelayIdentities.
