(* ===== verification/Measure.v ===== *)
(** * Measurements that involve other programs

    [ArrangeGroup.calculatePoVInfo] of [test-utils/index.ts], which hands the
    storage proof of an extrinsic to the program [chainql]; the tables of fees of
    [scripts/benchmarks/utils/types.ts]; and [scripts/fetchMetadata.ts], which
    asks a node for its metadata until it answers.  The program, the network and
    the files are parameters ([Process]). *)

From Stdlib Require Import Ascii String.
From stdpp Require Import list.
From S2P Require Import Prelude JsString JsValue Chain Address Util Helper Collections Wait Eth.

Open Scope Z_scope.
Open Scope js_scope.

Class Process {N : NodeApi} := {
  (** [spawnSync(program, args).stdout], as text; [None] when it is [null] *)
  spawnSync : jsstr -> list jsstr -> World -> option jsstr * World;
  (** [await (await fetch(url, {method: 'POST', body, ...})).json()] *)
  fetch_json : jsstr -> jsval -> World -> Lib jsval * World;
  writeFile : jsstr -> jsstr -> World -> Lib unit * World;
  (** [JSON.parse] *)
  JSON_parse : jsstr -> Res jsval }.

(** ** Proofs of validity *)

Module PovInfo.

Record IPovInfo : Type := mkPovInfo {
  proofSize : jsval;
  compactProofSize : jsval;
  compressedProofSize : jsval;
  results : jsval;
  kv : jsval }.

(** The text that [JSON.stringify] gives, [undefined] being left to the caller. *)
Definition stringify (v : jsval) : Res jsstr :=
  o ← json_stringify v; Ret (default (js "undefined") o).

(** The pairs of keys and values of the proof, as an object. *)
Definition kvJson (keyValues : list jsval) : Res (list (jsstr * jsstr)) :=
  for_each (fun acc kv =>
    key ← get_prop kv (js "key");
    k ← call0 key (js "toHex");
    value ← get_prop kv (js "value");
    v ← call0 value (js "toHex");
    Ret (set_string (to_string k) (to_string v) acc)) [] keyValues.

(** [raw.<name>.toNumber()] *)
Definition size_of (raw : jsval) (name : jsstr) : Res jsval :=
  v ← get_prop raw name; call0 v (js "toNumber").

Definition chainql_args (kvStr endpoint : jsstr) : list jsstr :=
  [js "--tla-code=data=" ++ kvStr; js "-e";
   js "function(data) cql.dump(cql.chain(" ++ [34] ++ endpoint ++ [34]
     ++ js ").latest._meta, data, {omit_empty:true})"].

Section PovInfo.
Context {N : NodeApi} {C : Crypto} {P : Process}.
Variable helper : nat.

Definition calculatePoVInfo (txs : list jsval) : M IPovInfo :=
  rawPovInfo ← callRpc helper (js "api.rpc.povinfo.estimateExtrinsicPoV") [JArr txs];
  keyValues ← lift (get_prop rawPovInfo (js "keyValues"));
  keyValues ← lift (elements keyValues);
  pairs ← lift (kvJson keyValues);
  kvStr ← lift (stringify (obj (map (fun p => (p.1, JStr p.2)) pairs)));
  endpoint ← ChainHelperBase.getEndpoint helper;
  stdout ← world_new (spawnSync (js "chainql") (chainql_args kvStr endpoint));
  match stdout with
  | None => throw (JSError (js "unable to get an output from the `chainql`"))
  | Some out =>
      p ← lift (size_of rawPovInfo (js "proofSize"));
      c ← lift (size_of rawPovInfo (js "compactProofSize"));
      z ← lift (size_of rawPovInfo (js "compressedProofSize"));
      r ← lift (get_prop rawPovInfo (js "results"));
      v ← lift (JSON_parse out);
      mreturn (mkPovInfo p c z r v)
  end.

End PovInfo.
End PovInfo.

(** ** Tables of fees *)

Module FunctionFeeVM.

(** A measured function: a field that is not there is [undefined]. *)
Record IFeeGas : Type := mkFeeGas {
  fee : jsval;
  gas : jsval;
  substrate : jsval;
  zeppelin : option (jsval * jsval) }.

(** A row of the table. *)
Record IFeeGasVm : Type := mkVm {
  ethFee : jsval;
  ethGas : jsval;
  vm_substrate : jsval;
  zeppelinFee : jsval;
  zeppelinGas : jsval }.

Definition row (m : IFeeGas) : IFeeGasVm :=
  let both := truthy (fee m) && truthy (gas m) in
  mkVm (if both then fee m else JUndef) (if both then gas m else JUndef)
    (if truthy (substrate m) then substrate m else JUndef)
    match zeppelin m with Some (f, _) => f | None => JUndef end
    match zeppelin m with Some (_, g) => g | None => JUndef end.

Definition fromModel (model : list (jsstr * IFeeGas)) : list (jsstr * IFeeGasVm) :=
  map (fun km => (km.1, row km.2)) model.

(** [IFeeGasCsv] *)
Definition toCsv (model : list (jsstr * IFeeGasVm)) : list (list (jsstr * jsval)) :=
  map (fun '(key, vm) =>
    [(js "function", JStr key); (js "ethFee", ethFee vm); (js "ethGas", ethGas vm);
     (js "substrate", vm_substrate vm); (js "zeppelinFee", zeppelinFee vm);
     (js "zeppelinGas", zeppelinGas vm)]) model.

End FunctionFeeVM.

(** ** fetchMetadata.ts *)

Module FetchMetadata.

(** The first of the variables that is set and not empty. *)
Fixpoint node_url (variables : list (option jsstr)) : jsstr :=
  match variables with
  | [] => js "http://127.0.0.1:9944"
  | Some (_ :: _ as u) :: _ => u
  | _ :: variables' => node_url variables'
  end.

Definition request : jsval :=
  obj [(js "jsonrpc", JStr (js "2.0")); (js "id", JStr (js "1")); (js "method", JStr (js "state_getMetadata"));
       (js "params", JArr [])].

Section FetchMetadata.
Context {N : NodeApi} {P : Process}.

(** One try: it ends the script with code 0. *)
Definition try_fetch (url output : jsstr) : M Z :=
  json ← world_call (fetch_json url request);
  text ← lift (PovInfo.stringify json);
  world_call (writeFile output text);;
  mreturn 0.

(** The loop with [left] tries left: the code the script ends with. *)
Fixpoint fetch (left : nat) (url output : jsstr) : M Z :=
  match left with
  | O => mreturn 1
  | S left' => catch (try_fetch url output) (fun _ => pass (60 * 1000);; fetch left' url output)
  end.

Definition fetchMetadata (variables : list (option jsstr)) (output : jsstr) : M Z :=
  fetch 10 (node_url variables) output.

End FetchMetadata.
End FetchMetadata.
