(* ===== verification/RpcFacts.v ===== *)
(** * Facts about the RPC definitions

    The tables against the traits of the node, and the calls of the client
    groups against the tables. *)

From Stdlib Require Import Ascii String.
From stdpp Require Import list.
From S2P Require Import Prelude JsString JsValue Chain Address RpcDefs RpcInterface Interface Util Helper HelperFacts.
From S2P Require Import Collections Tokens Objects Balance CollectionFacts Measure.

Open Scope Z_scope.
Open Scope js_scope.

(** ** Lookup *)

Lemma entry_find {A} k (l : list (string * A)) a :
  entry k l = Some a -> exists n, k = js n /\ (n, a) ∈ l.
Proof.
  induction l as [|[n b] l IH]; simpl; [done|]. case_bool_decide as E.
  - intros [= ->]. exists n. split; [done|]. by left.
  - intros H. destruct (IH H) as (m & -> & Hm). exists m. split; [done|]. by right.
Qed.

(** ** The tables and the traits *)

(** The methods that are declared and not served, and the one whose declared
    result is not the one served. *)
Definition not_served (ns name : jsstr) : Prop :=
  ns = js "unique" /\ (name = js "constMetadata" \/ name = js "variableMetadata").
Definition other_result (ns name : jsstr) : Prop := ns = js "unique" /\ name = js "allowanceForAll".

#[local] Instance not_served_dec ns name : Decision (not_served ns name).
Proof. unfold not_served. apply _. Defined.
#[local] Instance other_result_dec ns name : Decision (other_result ns name).
Proof. unfold other_result. apply _. Defined.

(** What the theorem below says of one declared method, as a check. *)
Definition agrees_with_node (ns name : jsstr) (f : RpcFun) : bool :=
  match method_of ns name with
  | None => bool_decide (not_served ns name)
  | Some m =>
      params_agree (rf_params f) (rm_params m)
      && Bool.eqb (result_agrees f m) (bool_decide (~ other_result ns name))
  end.

Lemma tables_agree :
  forallb (fun d => forallb (fun e => agrees_with_node (js d.1) (js e.1) e.2) d.2) definitions = true.
Proof. by vm_compute. Qed.

Lemma traits_declared :
  forallb (fun d => forallb (fun e => bool_decide (is_Some (declared (js d.1) (js e.1)))) d.2) served = true.
Proof. by vm_compute. Qed.

(** A check of all rows of a table of tables holds of what is found in it. *)
Lemma rows_checked {A} (check : jsstr -> jsstr -> A -> bool) (tables : list (string * list (string * A))) :
  forallb (fun d => forallb (fun e => check (js d.1) (js e.1) e.2) d.2) tables = true ->
  forall ns name a, entry ns tables ≫= entry name = Some a -> check ns name a = true.
Proof.
  intros H ns name a (rows & Hns & Hn)%bind_Some.
  destruct (entry_find _ _ _ Hns) as (n & -> & Hi). destruct (entry_find _ _ _ Hn) as (m & -> & Hj).
  rewrite forallb_forall in H. specialize (H _ (proj1 (list_elem_of_In _ _) Hi)).
  rewrite forallb_forall in H. exact (H _ (proj1 (list_elem_of_In _ _) Hj)).
Qed.

(** How the generator of the interface writes the types that it writes
    differently. *)
Definition generated_type (t : jsstr) : jsstr :=
  if jseq t (js "Vec<u8>") then js "Bytes"
  else if jseq t (js "Vec<(u32, u128)>") then js "Vec<ITuple<[u32, u128]>>"
  else if jseq t (js "Option<Vec<String>>") then js "Option<Vec<Text>>"
  else t.

Definition generated_param (p : RpcParam) : jsstr * bool * jsstr :=
  (rp_name p, rp_isOptional p, generated_type (rp_type p)).

(** The generated method has the parameters and the result of the declared
    one. *)
Definition generated_from (f : RpcFun) (g : list (string * bool * string) * string) : bool :=
  bool_decide (map (fun p => (js p.1.1, p.1.2, js p.2)) g.1 = map generated_param (rf_params f))
  && bool_decide (js g.2 = generated_type (rf_type f)).

Definition own_namespaces : list jsstr := map js ["unique"; "appPromotion"; "povinfo"]%string.

Definition is_generated (ns name : jsstr) (f : RpcFun) : bool :=
  match rpc_at ns name with Some g => generated_from f g | None => false end.

Lemma definitions_generated :
  forallb (fun d => forallb (fun e => is_generated (js d.1) (js e.1) e.2) d.2) definitions = true.
Proof. by vm_compute. Qed.

Lemma generated_declared :
  forallb (fun d => forallb (fun e =>
    negb (one_of (js d.1) own_namespaces) || bool_decide (is_Some (declared (js d.1) (js e.1)))) d.2) rpc_interface = true.
Proof. by vm_compute. Qed.

(** C16: The declarations of the client, the interface generated from them and
    the traits of the node fit together. A declared method is served by the
    node with the declared parameters, in number, order, type and optionality,
    except the two methods for const and variable metadata, which the node does
    not have; the declared result is the served one, with amounts sent as
    texts, except for allowanceForAll, declared as an option and served as a
    plain boolean; and every method that the node serves is declared. The
    generated interface has exactly the declared methods in the three
    namespaces, with the same parameters and results. *)
Theorem definitions_match_node :
  (forall ns name f, declared ns name = Some f ->
     match method_of ns name with
     | None => not_served ns name
     | Some m =>
         params_agree (rf_params f) (rm_params m) = true
         /\ (result_agrees f m = true <-> ~ other_result ns name)
     end)
  /\ (forall ns name m, method_of ns name = Some m -> is_Some (declared ns name))
  /\ (forall ns name f, declared ns name = Some f ->
        exists g, rpc_at ns name = Some g /\ generated_from f g = true)
  /\ (forall ns name g, one_of ns own_namespaces = true -> rpc_at ns name = Some g -> is_Some (declared ns name)).
Proof.
  split_and!; intros ns name.
  - intros f H. pose proof (rows_checked agrees_with_node _ tables_agree _ _ _ H) as Ha.
    unfold agrees_with_node in Ha. destruct (method_of ns name) as [m|].
    + apply andb_prop in Ha as [Hp Hr]. split; [done|]. apply Bool.eqb_prop in Hr.
      rewrite Hr. apply bool_decide_eq_true.
    + by apply bool_decide_eq_true in Ha.
  - intros m H. apply (bool_decide_eq_true (is_Some (declared ns name))).
    exact (rows_checked (fun ns name _ => bool_decide (is_Some (declared ns name))) _ traits_declared
             _ _ _ H).
  - intros f H. pose proof (rows_checked is_generated _ definitions_generated _ _ _ H) as Hg.
    unfold is_generated in Hg. destruct (rpc_at ns name) as [g|]; [by exists g|done].
  - intros g Hns H. apply (bool_decide_eq_true (is_Some (declared ns name))).
    pose proof (rows_checked (fun ns name _ => negb (one_of ns own_namespaces)
      || bool_decide (is_Some (declared ns name))) _ generated_declared _ _ _ H) as Hg.
    cbv beta in Hg. by rewrite Hns in Hg.
Qed.

(** ** The client's calls *)

(** A log entry whose call fits its declaration. *)
Definition typed_entry (e : IUniqueHelperLog) : Prop :=
  log_type e = RPC -> call_fits (log_call e) (log_params e) = true.

Section Calls.
Context {N : NodeApi} {C : Crypto} {P : Process}.
Implicit Types helper : nat.

Lemma allows_fitting call params : call_fits call params = true -> AllowsCall typed_entry call params.
Proof. intros H e _ <- <- _. exact H. Qed.

#[local] Instance typed_nonce : AllowsNonce typed_entry.
Proof. intros a. by apply allows_fitting. Qed.

#[local] Instance typed_extrinsics : AllowsExtrinsics typed_entry.
Proof. intros e He Hr. by rewrite He in Hr. Qed.

Lemma keys_are_array helper c ks s k s' :
  NFTnRFT.token_keys helper c ks s = (Ret (Some k), s') -> exists l, k = JArr l.
Proof.
  unfold NFTnRFT.token_keys. case_bool_decide; intros Hr.
  - apply bind_Ret_inv in Hr as (col & s1 & _ & Hr). destruct (truthy col); [|done]. cbn [negb] in Hr.
    run_inv. eauto.
  - injection Hr as <- _. eauto.
Qed.

Lemma fromLowerCaseKeys_shape v a : CrossAccountId.fromLowerCaseKeys_js v = Ret a -> is_cross a = true.
Proof.
  unfold CrossAccountId.fromLowerCaseKeys_js. destruct (has_prop v _) as [[]| |]; simpl; [..|done|done].
  - by destruct (get_prop v _); simpl; [intros [= <-]|..].
  - by destruct (get_prop v _); simpl; [intros [= <-]|..].
Qed.

Lemma owner_shape helper c t at_ s a s' :
  NFTnRFT.getTokenOwner helper c t at_ s = (Ret a, s') -> is_cross a = true.
Proof. unfold NFTnRFT.getTokenOwner. intros H. run_inv. by eapply fromLowerCaseKeys_shape. Qed.

(** The methods of the client that read through the declared namespaces. *)
Inductive reads_rpc helper : forall A, M A -> Prop :=
  | rr_getTokenNextSponsored c t a : reads_rpc helper _ (CollectionGroup.getTokenNextSponsored helper c t a)
  | rr_getTotalCount : reads_rpc helper _ (CollectionGroup.getTotalCount helper)
  | rr_getAdmins c n : reads_rpc helper _ (CollectionGroup.getAdmins helper c n)
  | rr_getAllowList c n : reads_rpc helper _ (CollectionGroup.getAllowList helper c n)
  | rr_getLastTokenId c : reads_rpc helper _ (CollectionGroup.getLastTokenId helper c)
  | rr_getData c : reads_rpc helper _ (CollectionGroup.getData helper c)
  | rr_getEffectiveLimits c : reads_rpc helper _ (CollectionGroup.getEffectiveLimits helper c)
  | rr_allowed c a : reads_rpc helper _ (CollectionGroup.allowed helper c a)
  | rr_getProperties c ks : has_shape (js "Option<Vec<String>>") ks = true ->
      reads_rpc helper _ (CollectionGroup.getProperties helper c ks)
  | rr_getCollectionOptions c : reads_rpc helper _ (CollectionGroup.getCollectionOptions helper c)
  | rr_getTokenApprovedPieces c t a f : is_cross f = true ->
      reads_rpc helper _ (CollectionGroup.getTokenApprovedPieces helper c t a f)
  | rr_doesTokenExist c t : reads_rpc helper _ (CollectionGroup.doesTokenExist helper c t)
  | rr_getTokensByAddress c a : reads_rpc helper _ (NFTnRFT.getTokensByAddress helper c a)
  | rr_getToken c t ks h : reads_rpc helper _ (NFTnRFT.getToken helper c t ks h)
  | rr_getTokenOwner c t h : reads_rpc helper _ (NFTnRFT.getTokenOwner helper c t h)
  | rr_getTokenTopmostOwner c t h : reads_rpc helper _ (NFTnRFT.getTokenTopmostOwner helper c t h)
  | rr_getPropertyPermissions c ks :
      (forall k, ks = Some k -> has_shape (js "Option<Vec<String>>") k = true) ->
      reads_rpc helper _ (NFTnRFT.getPropertyPermissions helper c ks)
  | rr_getTokenProperties c t ks : has_shape (js "Option<Vec<String>>") ks = true ->
      reads_rpc helper _ (NFTnRFT.getTokenProperties helper c t ks)
  | rr_allowanceForAll c a b : reads_rpc helper _ (NFTnRFT.allowanceForAll helper c a b)
  | rr_isTokenApproved c t a : reads_rpc helper _ (NFTGroup.isTokenApproved helper c t a)
  | rr_getTokenChildren c t h : reads_rpc helper _ (NFTGroup.getTokenChildren helper c t h)
  | rr_getTokenTop10Owners c t : reads_rpc helper _ (RFTGroup.getTokenTop10Owners helper c t)
  | rr_getTokenBalance c t a : reads_rpc helper _ (RFTGroup.getTokenBalance helper c t a)
  | rr_getTokenTotalPieces c t : reads_rpc helper _ (RFTGroup.getTokenTotalPieces helper c t)
  | rr_repartitionToken signer c t n : reads_rpc helper _ (RFTGroup.repartitionToken helper signer c t n)
  | rr_getTop10Owners c : reads_rpc helper _ (FTGroup.getTop10Owners helper c)
  | rr_getBalance c a : reads_rpc helper _ (FTGroup.getBalance helper c a)
  | rr_getTotalPieces c : reads_rpc helper _ (FTGroup.getTotalPieces helper c)
  | rr_getTotalStaked a : reads_rpc helper _ (StakingGroup.getTotalStaked helper a)
  | rr_getTotalStakedPerBlock a : reads_rpc helper _ (StakingGroup.getTotalStakedPerBlock helper a)
  | rr_getPendingUnstake a : reads_rpc helper _ (StakingGroup.getPendingUnstake helper a)
  | rr_getPendingUnstakePerBlock a : reads_rpc helper _ (StakingGroup.getPendingUnstakePerBlock helper a)
  | rr_calculatePoVInfo txs : reads_rpc helper _ (PovInfo.calculatePoVInfo helper txs)
  | rr_command signer extrinsic params c event :
      reads_rpc helper _ (collection_command helper signer extrinsic params c event).

(** Decide that a call with parameters of known shapes fits. *)
#[local] Ltac fits :=
  apply allows_fitting;
  repeat match goal with |- context [cross_js ?a] => is_var a; destruct a end;
  vm_compute; reflexivity.
#[local] Hint Extern 1 (AllowsCall typed_entry ?call ?params) =>
  tryif first [is_var call | has_evar call | has_evar params] then fail else fits : typeclass_instances.

#[local] Typeclasses Opaque js.

#[local] Instance framed_lastTokenId helper c :
  Framed helper typed_entry (CollectionGroup.getLastTokenId helper c).
Proof. unfold CollectionGroup.getLastTokenId. apply _. Qed.

#[local] Instance framed_admins helper c n : Framed helper typed_entry (CollectionGroup.getAdmins helper c n).
Proof. unfold CollectionGroup.getAdmins. solve_frame. Qed.

Lemma keys_shape ks : has_shape (js "Option<Vec<String>>") ks = true ->
  (exists l, ks = JArr l) \/ ks = JUndef \/ ks = JNull.
Proof. destruct ks; try discriminate; eauto. Qed.

Lemma cross_shape v : is_cross v = true ->
  exists k x ms, v = JObj [(k, x)] ms /\ (k = js "Substrate" \/ k = js "Ethereum").
Proof.
  destruct v as [| | | | | | |[|[k x] [|]] ms]; try discriminate. intros H.
  exists k, x, ms. split; [done|]. by apply orb_prop in H as [H%bool_decide_eq_true|H%bool_decide_eq_true]; auto.
Qed.

Lemma framed_getTokenOwner helper c t h : Framed helper typed_entry (NFTnRFT.getTokenOwner helper c t h).
Proof. unfold NFTnRFT.getTokenOwner. destruct h; solve_frame. Qed.

Lemma framed_approvedPieces helper c t a f : is_cross f = true ->
  Framed helper typed_entry (CollectionGroup.getTokenApprovedPieces helper c t a f).
Proof.
  intros (k & x & ms & -> & [-> | ->])%cross_shape;
    unfold CollectionGroup.getTokenApprovedPieces; solve_frame.
Qed.

Lemma framed_getToken helper c t ks h : Framed helper typed_entry (NFTnRFT.getToken helper c t ks h).
Proof.
  unfold NFTnRFT.getToken. destruct h as [h|]; [|unfold NFTnRFT.read_token; solve_frame].
  apply framed_bind_value; [unfold NFTnRFT.token_keys; solve_frame|].
  intros [k|] s s' H; [|apply _]. destruct (keys_are_array _ _ _ _ _ _ H) as [l ->].
  unfold NFTnRFT.read_token. solve_frame.
Qed.

Lemma framed_isTokenApproved helper c t a : Framed helper typed_entry (NFTGroup.isTokenApproved helper c t a).
Proof.
  apply framed_bind_value; [apply framed_getTokenOwner|]. intros o s s' Ho.
  apply framed_bind; [|apply _]. by eapply framed_approvedPieces, owner_shape.
Qed.

Lemma reads_rpc_framed helper A (m : M A) : reads_rpc helper A m -> Framed helper typed_entry m.
Proof.
  intros [].
  all: unfold CollectionGroup.getTokenNextSponsored, CollectionGroup.getTotalCount,
    CollectionGroup.getAllowList, CollectionGroup.getData, CollectionGroup.getEffectiveLimits,
    CollectionGroup.allowed, CollectionGroup.getCollectionOptions, CollectionGroup.doesTokenExist,
    NFTnRFT.getTokensByAddress, NFTnRFT.allowanceForAll, RFTGroup.getTokenTop10Owners,
    RFTGroup.getTokenBalance, RFTGroup.repartitionToken, RFTGroup.getTokenTotalPieces, unwrap_bigint,
    FTGroup.getTop10Owners, FTGroup.getBalance, FTGroup.getTotalPieces, StakingGroup.getTotalStakedPerBlock,
    StakingGroup.getPendingUnstake, StakingGroup.getPendingUnstakePerBlock, StakingGroup.per_block,
    PovInfo.calculatePoVInfo.
  all: try solve [solve_frame].
  - destruct (keys_shape ks) as [[l ->]|[-> | ->]]; [done|..]; unfold CollectionGroup.getProperties; solve_frame.
  - by apply framed_approvedPieces.
  - apply framed_getToken.
  - apply framed_getTokenOwner.
  - unfold NFTnRFT.getTokenTopmostOwner. destruct h; solve_frame.
  - unfold NFTnRFT.getPropertyPermissions. destruct ks as [ks|]; [|solve_frame].
    destruct (keys_shape ks) as [[l ->]|[-> | ->]]; [auto|..]; solve_frame.
  - destruct (keys_shape ks) as [[l ->]|[-> | ->]]; [done|..]; unfold NFTnRFT.getTokenProperties; solve_frame.
  - apply framed_isTokenApproved.
  - unfold NFTGroup.getTokenChildren. destruct h; solve_frame.
  - unfold StakingGroup.getTotalStaked. destruct a; solve_frame.
Qed.

(** C15: Every method of the collection, token and staking groups and of the
    PoV estimate that reads through the namespaces unique, appPromotion and
    povinfo, and every command on a collection, calls only declared methods
    with parameters that fit the declaration in number, order and shape: when
    all calls in the chain logs of the helpers fit, so they do after the
    method, however it ends. *)
Theorem client_calls_fit helper A (m : M A) s o s' :
  reads_rpc helper A m -> all_logged typed_entry s -> m s = (o, s') -> all_logged typed_entry s'.
Proof. intros Hm Hs H. exact (framed_all_logged _ _ _ _ _ _ (reads_rpc_framed _ _ _ Hm) H Hs). Qed.

End Calls.
