(* ===== verification/InterfaceFacts.v ===== *)
(** * Facts about values of the described types

    The decision of [Fits] is sound; objects whose fields are changed one by
    one; and a tactic that shows that a value fits. *)

From Stdlib Require Import Ascii String.
From stdpp Require Import list.
From S2P Require Import Prelude JsString JsValue Chain Types LookupDefs Interface.

Open Scope Z_scope.
Open Scope js_scope.

(** ** The decision *)

Section Soundness.
Variable fits : ty -> jsval -> bool.
Hypothesis sound : forall t v, fits t v = true -> Fits t v.

Lemma fits_list_sound t l : forallb (fits t) l = true -> Forall (Fits t) l.
Proof. intros H. apply List.Forall_forall. intros v Hv. apply sound. by apply (proj1 (List.forallb_forall _ _) H). Qed.

Lemma fits_all2_sound ts l : fits_all2 fits ts l = true -> Forall2 Fits ts l.
Proof.
  revert l. induction ts as [|t ts IH]; intros [|v l]; cbn [fits_all2]; try discriminate; [by constructor|].
  intros [Ht Hl]%andb_prop. constructor; auto.
Qed.

Lemma fits_fieldb_sound al fs kv : fits_fieldb fits al fs kv = true -> FitsField al fs kv.
Proof.
  destruct kv as [k v]. unfold fits_fieldb. cbn [fst snd].
  destruct (field_type al k fs) as [t|] eqn:E; [|done].
  intros [H|H]%orb_prop; [|eapply fits_field; eauto].
  destruct v; try discriminate. apply fits_missing. by eexists.
Qed.

Lemma fits_fields_sound al fs ps : forallb (fits_fieldb fits al fs) ps = true -> Forall (FitsField al fs) ps.
Proof.
  intros H. apply List.Forall_forall. intros kv Hk. apply fits_fieldb_sound.
  by apply (proj1 (List.forallb_forall _ _) H).
Qed.

Lemma payload_sound n vs k p al fs v : described n = Some (Enum vs) -> variant_at k vs = Some p ->
  payload_fields p = Some (al, fs) ->
  match v with JObj ps [] => forallb (fits_fieldb fits al fs) ps | JStr _ => true | _ => false end = true ->
  Fits (Name n) (obj [(k, v)]).
Proof.
  intros Hd Hk Hp H. destruct v as [| | | | |s| |ps [|]]; try discriminate H.
  - by eapply fits_variant_encoded.
  - eapply fits_variant_struct; [exact Hd|exact Hk|exact Hp|by apply fits_fields_sound].
Qed.

Lemma fits_variantb_sound n vs k p v : described n = Some (Enum vs) -> variant_at k vs = Some p ->
  fits_variantb fits p v = true -> Fits (Name n) (obj [(k, v)]).
Proof.
  intros Hd Hk H. destruct p as [text|fs|al fs]; cbn [fits_variantb payload_fields] in H.
  - destruct (parse text) as [t|] eqn:Et; [|done]. eapply fits_variant; eauto.
  - by eapply payload_sound; [..|exact H].
  - by eapply payload_sound; [..|exact H].
Qed.

Lemma fits_described_sound n d v : described n = Some d -> fits_described fits d v = true -> Fits (Name n) v.
Proof.
  intros Hd H. destruct d as [text|fs|al fs|vs|ns]; cbn [fits_described] in H.
  - destruct (parse text) as [t|] eqn:Et; [|done]. eapply fits_alias; eauto.
  - destruct v as [| | | | |s| |ps [|]]; try discriminate H; cbn [fields_of] in H.
    + by eapply fits_encoded; [exact Hd|].
    + eapply fits_struct; [exact Hd|reflexivity|by apply fits_fields_sound].
  - destruct v as [| | | | |s| |ps [|]]; try discriminate H; cbn [fields_of] in H.
    + by eapply fits_encoded; [exact Hd|].
    + eapply fits_struct; [exact Hd|reflexivity|by apply fits_fields_sound].
  - destruct v as [| | | | |s| |[|[k v] [|]] [|]]; try discriminate H.
    + destruct (variant_at s vs) as [[text| |]|] eqn:Ek; try discriminate H.
      apply String.eqb_eq in H as ->. eapply fits_unit; eauto.
    + destruct (variant_at k vs) as [p|] eqn:Ek; [|done]. by eapply fits_variantb_sound.
  - destruct v as [| | | | |s| |]; try discriminate H.
    eapply fits_name; [exact Hd|]. destruct (variant_at s _); [by eexists|done].
Qed.
End Soundness.

Lemma fitsb_sound fuel t v : fitsb fuel t v = true -> Fits t v.
Proof.
  revert t v. induction fuel as [|fuel IH]; intros t v H; [done|]. cbn [fitsb] in H.
  destruct t as [n|f [|t [|]]|ts|t n]; try discriminate H.
  - destruct (described n) as [d|] eqn:Ed; [by eapply fits_described_sound|by apply fits_basic].
  - destruct (String.eqb_spec f "Compact"%string) as [->|]; [by apply fits_compact, IH|].
    destruct (String.eqb_spec f "ITuple"%string) as [->|]; [by apply fits_ituple, IH|].
    destruct (String.eqb_spec f "Option"%string) as [->|].
    { cbn [orb] in H. apply orb_prop in H as [H|H]; [by apply fits_none|by apply fits_some, IH]. }
    destruct (String.eqb_spec f "Vec"%string), (String.eqb_spec f "BTreeSet"%string);
      cbn [orb] in H; try discriminate H; destruct v; try discriminate H;
      apply fits_list; auto; by apply (fits_list_sound _ IH).
  - destruct v; try discriminate H. apply fits_tuple. by apply (fits_all2_sound _ IH).
  - destruct v as [| | | | |s|l|]; try discriminate H.
    + destruct t as [item| | |]; try discriminate H. apply String.eqb_eq in H as ->. by apply fits_bytes.
    + apply andb_prop in H as [Hn Hl]. unfold jseq in Hn. apply bool_decide_eq_true in Hn.
      apply fits_array; [done|by apply (fits_list_sound _ IH)].
Qed.

(** ** Open types *)

Lemma fits_call v : Fits (Name "Call") v.
Proof. by apply fits_basic; [vm_compute|]. Qed.

Lemma fits_calls l : Forall (Fits (Name "Call")) l.
Proof. apply List.Forall_forall. intros v _. apply fits_call. Qed.

Lemma fits_texts n l : described n = None -> basic n (JStr []) = true ->
  (forall s, basic n (JStr s) = basic n (JStr [])) -> Forall (Fits (Name n)) (map JStr l).
Proof.
  intros Hn H0 Hs. apply List.Forall_map, List.Forall_forall. intros s _. apply fits_basic; [done|by rewrite Hs].
Qed.

Lemma fits_numbers n l : described n = None -> (forall c, basic n (JNum (Int c)) = true) ->
  Forall (Fits (Name n)) (map (fun c => JNum (Int c)) l).
Proof. intros Hn H. apply List.Forall_map, List.Forall_forall. intros c _. by apply fits_basic. Qed.

(** ** Showing that a value fits *)

(** Left out, or a value of the type. *)
Definition may_fit (t : ty) (v : jsval) : Prop := v = JUndef \/ Fits t v.

Lemma may_fit_field al fs k t v : field_type al k fs = Some t -> may_fit t v -> FitsField al fs (k, v).
Proof. intros Ht [->|H]; [apply fits_missing; by eexists|by eapply fits_field]. Qed.


(** No part of the value is unknown. *)
Ltac known v :=
  assert_fails (idtac; match v with context [?x] => is_var x;
                  lazymatch type of x with jsval => idtac | option jsval => idtac | list jsval => idtac | list (jsstr * jsval) => idtac end end).

Ltac decided := match goal with |- Fits _ ?v => known v end; apply (fitsb_sound 8); vm_compute; reflexivity.
Ltac computed := vm_compute; reflexivity.

(** By a hypothesis, by computation, or by the structure of the type. *)
Ltac fit :=
  first
    [ assumption
    | apply fits_call
    | decided
    | apply fits_basic; [computed|vm_compute; first [reflexivity|assumption]]
    | apply fits_list; [auto|fit_all]
    | apply fits_array; [computed|fit_all]
    | apply fits_none; reflexivity
    | apply fits_some; fit
    | apply fits_compact; fit
    | eapply fits_struct; [computed|computed|fit_fields]
    | eapply fits_variant_struct; [computed|computed|computed|fit_fields]
    | eapply fits_variant; [computed|computed|computed|fit] ]
with fit_all :=
  first [ assumption | apply fits_calls
        | apply fits_texts; [computed|computed|intros; computed]
        | apply fits_numbers; [computed|intros; computed] | apply List.Forall_nil | apply List.Forall_cons; [fit|fit_all] ]
with fit_fields :=
  first [ assumption | apply List.Forall_nil
        | apply List.Forall_cons; [first [assumption | eapply may_fit_field; [computed|assumption] | eapply fits_field; [computed|fit]]|fit_fields] ].

Ltac fit_params :=
  match goal with
  | |- Forall2 _ _ _ => first [ apply List.Forall2_nil | apply List.Forall2_cons; [eexists; split; [computed|fit]|fit_params] ]
  end.

Ltac fit_call := do 3 eexists; split; [computed|split; [computed|fit_params]].

(** ** Values that do not fit *)

(** The rules that apply to a described type. *)
Ltac by_description Hd :=
  repeat match goal with
         | Hn : described _ = _ |- _ =>
             lazymatch Hn with
             | Hd => fail
             | _ => rewrite Hd in Hn; first [discriminate Hn | injection Hn as Hn; try subst]
             end
         end.

(** An enumeration has no value with a variant that it does not list. *)
Lemma no_such_variant n vs k v : described n = Some (Enum vs) -> variant_at k vs = None ->
  ~ Fits (Name n) (obj [(k, v)]).
Proof.
  intros Hd Hk H. inversion H; subst; by_description Hd; try congruence.
  match goal with Hf : fields_of _ = Some _ |- _ => discriminate Hf end.
Qed.

(** An object of a structure has fields that fit. *)
Lemma fits_struct_inv n d al fs ps : described n = Some d -> fields_of d = Some (al, fs) ->
  Fits (Name n) (obj ps) -> Forall (FitsField al fs) ps.
Proof. intros Hd Hf H. inversion H; subst; by_description Hd; try discriminate Hf. by simplify_eq. Qed.

(** ** Objects changed field by field *)

Lemma assoc_set_fields al fs k v ps :
  Forall (FitsField al fs) ps -> FitsField al fs (k, v) -> Forall (FitsField al fs) (assoc_set k v ps).
Proof.
  intros Hps Hv. induction Hps as [|[k' v'] ps Hk Hps IH]; cbn [assoc_set]; [by repeat constructor|].
  destruct (jseq k k'); by constructor.
Qed.

Lemma assoc_set_in k v ps kv : NoDup (map fst ps) -> kv ∈ assoc_set k v ps ->
  kv = (k, v) \/ (kv ∈ ps /\ kv.1 <> k).
Proof.
  induction ps as [|[k' v'] ps IH]; cbn [assoc_set map fst]; intros Hn Hk.
  - apply elem_of_cons in Hk as [?|[]%elem_of_nil]. by left.
  - apply NoDup_cons in Hn as [Hk' Hn]. unfold jseq in Hk. case_bool_decide as E.
    + subst k'. apply elem_of_cons in Hk as [->|Hk]; [by left|right].
      split; [by apply elem_of_cons; right|]. intros Hf. apply Hk'. rewrite <- Hf. apply list_elem_of_fmap. by exists kv.
    + apply elem_of_cons in Hk as [->|Hk].
      * right. split; [by apply elem_of_cons; left|]. cbn. congruence.
      * destruct (IH Hn Hk) as [?|[? ?]]; [by left|right]. split; [by apply elem_of_cons; right|done].
Qed.

Lemma assoc_set_keys k v ps x : x ∈ map fst (assoc_set k v ps) -> x = k \/ x ∈ map fst ps.
Proof.
  induction ps as [|[k' v'] ps IH]; cbn [assoc_set map fst].
  - rewrite elem_of_cons, elem_of_nil. tauto.
  - unfold jseq. case_bool_decide as E; cbn [map fst]; rewrite !elem_of_cons; [subst; tauto|].
    intros [->|H]; [tauto|]. apply IH in H. tauto.
Qed.

Lemma assoc_set_nodup k v ps : NoDup (map fst ps) -> NoDup (map fst (assoc_set k v ps)).
Proof.
  induction ps as [|[k' v'] ps IH]; cbn [assoc_set map fst]; intros Hn; [apply NoDup_singleton|].
  apply NoDup_cons in Hn as [Hk' Hn]. unfold jseq. case_bool_decide as E; cbn [map fst]; constructor; auto; [by subst|].
  intros H%assoc_set_keys. destruct H as [->|H]; [by apply E|by apply Hk'].
Qed.

Lemma assoc_unique k v ps : NoDup (map fst ps) -> (k, v) ∈ ps -> assoc k ps = Some v.
Proof.
  induction ps as [|[k' v'] ps IH]; cbn [assoc map fst]; intros Hn Hk; [by apply elem_of_nil in Hk|].
  apply NoDup_cons in Hn as [Hk' Hn]. unfold jseq. apply elem_of_cons in Hk as [[= -> ->]|Hk].
  - by rewrite bool_decide_true.
  - rewrite bool_decide_false; [by apply IH|]. intros ->. apply Hk'. apply list_elem_of_fmap. by exists (k', v).
Qed.
