(* ===== verification/OptionFacts.v ===== *)
(** * Options of a new collection

    What the client makes of the options for [createCollectionEx] is a value of
    the chain's type for them. *)

From Stdlib Require Import Ascii String.
From stdpp Require Import list.
From S2P Require Import Prelude JsString JsValue Chain Types LookupDefs Interface InterfaceFacts Address Util.
From S2P Require Import Helper Collections Tokens CollectionFacts.

Open Scope Z_scope.
Open Scope js_scope.

Definition creation_fields : list (string * string) :=
  match described "UpDataStructsCreateCollectionData" with Some (Struct fs) => fs | _ => [] end.

Definition text_options : list jsstr := map js ["name"; "description"; "tokenPrefix"]%string.

(** An option of [ICollectionCreationOptions]: the texts of [texts] may be
    texts, and those that the client sets itself, [set], are free; the others
    are as the chain has them. *)
Definition option_fits (texts set : list jsstr) (kv : jsstr * jsval) : Prop :=
  (kv.1 ∈ texts /\ is_text kv.2 = true) \/ kv.1 ∈ set \/ FitsField [] creation_fields kv.

(** Options with such fields, none given twice. *)
Definition options_fit (texts set : list jsstr) (ps : list (jsstr * jsval)) : Prop :=
  NoDup (map fst ps) /\ Forall (option_fits texts set) ps.

Lemma options_fit_set texts set k v ps :
  options_fit texts (k :: set) ps -> FitsField [] creation_fields (k, v) ->
  options_fit texts set (assoc_set k v ps).
Proof.
  intros [Hn Hps] Hv. split; [by apply assoc_set_nodup|].
  apply Forall_forall. intros kv Hkv. apply assoc_set_in in Hkv as [->|[Hkv Hk]]; [by right; right| |done].
  destruct (proj1 (Forall_forall _ _) Hps _ Hkv) as [?|[Hs|?]]; [by left| |by right; right].
  apply elem_of_cons in Hs as [?|Hs]; [done|]. by right; left.
Qed.

Lemma str2vec_numbers s : exists l, UniqueUtil.str2vec (JStr s) = JArr (map (fun c => JNum (Int c)) l).
Proof. by eexists. Qed.

Lemma text_option_fits k s : k ∈ text_options -> FitsField [] creation_fields (k, UniqueUtil.str2vec (JStr s)).
Proof.
  intros Hk. destruct (str2vec_numbers s) as [l ->].
  assert (Hl : Forall (Fits (Name "u16")) (map (fun c => JNum (Int c)) l)).
  { by apply fits_numbers. }
  unfold text_options in Hk. cbn [map] in Hk. rewrite !elem_of_cons, elem_of_nil in Hk.
  destruct Hk as [->|[->|[->|[]]]]; (eapply fits_field; [vm_compute; reflexivity|]).
  - apply fits_list; [by left|exact Hl].
  - apply fits_list; [by left|exact Hl].
  - by apply fits_basic; vm_compute.
Qed.

(** One round of [encode_strings]. *)
Lemma options_fit_encode texts set k ps :
  k ∈ text_options -> options_fit (k :: texts) set ps ->
  options_fit texts set
    match assoc k ps with Some (JStr s) => assoc_set k (UniqueUtil.str2vec (JStr s)) ps | _ => ps end.
Proof.
  intros Hk [Hn Hps].
  assert (Hother : forall kv, kv ∈ ps -> (kv.1 = k -> is_text kv.2 = false) -> option_fits texts set kv).
  { intros kv Hkv Hne. destruct (proj1 (Forall_forall _ _) Hps _ Hkv) as [[Ht Hv]|?]; [|by right].
    apply elem_of_cons in Ht as [?|?]; [|by left]. by rewrite Hne in Hv. }
  assert (Hsame : (forall v, assoc k ps = Some v -> is_text v = false) -> options_fit texts set ps).
  { intros Hv. split; [done|]. apply Forall_forall. intros [k' v] Hkv. apply Hother; [done|].
    cbn. intros ->. by apply Hv, assoc_unique. }
  destruct (assoc k ps) as [[| | | | |s| |]|] eqn:E; try (apply Hsame; by intros ? [= <-]).
  split; [by apply assoc_set_nodup|]. apply Forall_forall. intros kv Hkv.
  apply assoc_set_in in Hkv as [->|[Hkv Hne]]; [right; right; by apply text_option_fits| |done]. by apply Hother.
Qed.

Lemma encode_strings_fit set ps : options_fit text_options set ps -> options_fit [] set (encode_strings ps).
Proof.
  intros H. unfold encode_strings. cbn [map fold_left].
  do 3 (apply options_fit_encode; [unfold text_options; cbn [map]; rewrite !elem_of_cons; tauto|]). exact H.
Qed.

Lemma options_fit_fields ps : options_fit [] [] ps -> Fits (Name "UpDataStructsCreateCollectionData") (obj ps).
Proof.
  intros [_ Hps]. eapply fits_struct; [vm_compute; reflexivity|reflexivity|].
  eapply List.Forall_impl; [|exact Hps]. intros kv [[Hk _]|[Hk|Hk]]; [by apply elem_of_nil in Hk..|exact Hk].
Qed.

(** ** The options of the three kinds of collections *)

(** Options as [ICollectionCreationOptions] types them; [set] are those that
    the client replaces. *)
Definition creation_options (set : list jsstr) (options : jsval) : Prop :=
  forall ps, clone_options options = Ret ps -> options_fit text_options set ps.

Definition mode_key : jsstr := js "mode".
Definition flags_key : jsstr := js "flags".

Lemma nft_options_fit options mode ps : creation_options [mode_key; flags_key] options ->
  NFTnRFT.mint_options options mode = Ret ps -> Fits (Name "UpDataStructsCreateCollectionData") (obj ps).
Proof.
  intros Ho H. unfold NFTnRFT.mint_options in H. destruct (clone_options options) as [o|e|] eqn:Hc; [|discriminate H..].
  apply Ret_inj in H as <-.
  apply options_fit_fields, options_fit_set; [|eapply fits_field; [vm_compute; reflexivity|fit]].
  apply encode_strings_fit, options_fit_set; [by apply Ho|].
  destruct mode; (eapply fits_field; [vm_compute; reflexivity|fit]).
Qed.

Lemma fungible_options_fit options decimals ps : creation_options [mode_key] options ->
  FTGroup.mint_options options decimals = Ret ps -> Fits (Name "UpDataStructsCreateCollectionData") (obj ps).
Proof.
  intros Ho H. unfold FTGroup.mint_options in H. destruct (clone_options options) as [o|e|] eqn:Hc; [|discriminate H..].
  simpl in H. destruct (truthy _) in H; [discriminate H|]. apply Ret_inj in H as <-.
  apply options_fit_fields, encode_strings_fit, options_fit_set; [by apply Ho|].
  eapply fits_field; [vm_compute; reflexivity|fit].
Qed.

(** ** Flags of fungible collections *)

Lemma assoc_in k v ps : assoc k ps = Some v -> (k, v) ∈ ps.
Proof.
  induction ps as [|[k' v'] ps IH]; [done|]. cbn [assoc]. unfold jseq. case_bool_decide as E.
  - intros [= ->]. subst. apply elem_of_cons. by left.
  - intros H. apply elem_of_cons. right. auto.
Qed.

(** Two flags do not fit the single byte of the chain. *)
Lemma two_flags_misfit a b : ~ FitsField [] creation_fields (flags_key, JArr [a; b]).
Proof.
  intros H. inversion H as [|? ? ? t v Ht Hf]; subst.
  vm_compute in Ht. injection Ht as <-. inversion Hf as [| | | | | | | |? ? Hx|? ? ? Hn _| | | | | | |]; subst.
  - discriminate Hx.
  - by vm_compute in Hn.
Qed.

(** Several flags are joined into one number for the other collections; those
    of a fungible collection are sent as they are, and two of them are not a
    value of the chain's type. *)
Theorem fungible_flags_not_joined options decimals o ps a b :
  clone_options options = Ret o -> assoc flags_key o = Some (JArr [a; b]) ->
  FTGroup.mint_options options decimals = Ret ps ->
  ~ Fits (Name "UpDataStructsCreateCollectionData") (obj ps).
Proof.
  intros Hc Hf H Hfit. unfold FTGroup.mint_options in H. rewrite Hc in H.
  simpl in H. destruct (truthy _) in H; [discriminate H|]. apply Ret_inj in H as <-.
  assert (Ha : assoc flags_key (encode_strings (assoc_set mode_key (obj [(js "fungible", num_js decimals)]) o))
               = Some (JArr [a; b])).
  { assert (Hk : flags_key ∉ encoded_keys) by (refine (proj1 (bool_decide_eq_false _) _); by vm_compute).
    rewrite encode_strings_assoc, decide_False by done.
    by rewrite assoc_set_ne by discriminate. }
  eapply fits_struct_inv in Hfit; [|vm_compute; reflexivity|reflexivity].
  by apply (two_flags_misfit a b), (proj1 (Forall_forall _ _) Hfit), assoc_in.
Qed.
