(* ===== verification/TypesFacts.v ===== *)
(** * The declarations of the chain agree

    The interfaces, extrinsics, events and errors that the generated files
    declare are those of the types that types/lookup.ts describes, and each of
    these files imports exactly the types that its declarations name. *)

From Stdlib Require Import Ascii String.
From stdpp Require Import list.
From S2P Require Import Prelude JsString JsValue TxDefs QueryDefs EventDefs Types LookupDefs TypesLookup DefaultTypes.
From S2P Require Import ErrorDefs ConstDefs RuntimeDefs RegistryDefs ImportDefs RpcInterface Interface.

#[local] Open Scope string_scope.

(** ** Tables *)

(** What holds of all entries of a table, decided. *)
Lemma forallb_In {A} (p : A -> bool) (P : A -> Prop) l :
  (forall a, p a = true -> P a) -> forallb p l = true -> forall a, In a l -> P a.
Proof. intros HP Hl a Ha. apply HP. by apply (proj1 (List.forallb_forall _ _) Hl). Qed.

Definition is_one_of (s : string) (l : list string) : bool := existsb (String.eqb s) l.

Lemma is_one_of_In s l : is_one_of s l = true -> In s l.
Proof. intros (x & Hx & He)%List.existsb_exists. by apply String.eqb_eq in He as ->. Qed.

Fixpoint distinct (l : list string) : bool :=
  match l with
  | [] => true
  | s :: l => negb (is_one_of s l) && distinct l
  end.

Lemma distinct_NoDup l : distinct l = true -> List.NoDup l.
Proof.
  induction l as [|s l IH]; simpl; [constructor|]. intros [Hs Hl]%andb_prop.
  constructor; [|by apply IH]. intros Hin. apply negb_true_iff in Hs.
  assert (is_one_of s l = true) by (apply List.existsb_exists; exists s; by rewrite String.eqb_refl). congruence.
Qed.

Definition given {A} (o : option A) : bool := match o with Some _ => true | None => false end.

Lemma given_is_Some {A} (o : option A) : given o = true -> is_Some o.
Proof. destruct o; [by eexists|done]. Qed.

(** ** Interfaces *)

(** The interface is that of the described type of its name. *)
Definition is_described (e : string * interface) : Prop :=
  exists d, described e.1 = Some d /\ same_interface (interface_of by_number d) e.2 = true.

Definition is_describedb (e : string * interface) : bool :=
  match described e.1 with Some d => same_interface (interface_of by_number d) e.2 | None => false end.

Lemma is_describedb_sound e : is_describedb e = true -> is_described e.
Proof. unfold is_describedb, is_described. destruct (described e.1); [eauto|done]. Qed.

Lemma is_describedb_complete e : is_described e -> is_describedb e = true.
Proof. intros (d & Hd & Hs). unfold is_describedb. by rewrite Hd. Qed.

(** The two interfaces of types-lookup.ts that are not. *)
Definition deviating : list string := ["StagingXcmV4Junctions"; "PalletIdentityBitFlags"].

(** A type with nothing in it has no interface of its own. *)
Definition empty_type (d : type_def) : bool := match d with Alias t => t =? "Null" | _ => false end.

(** C17: The interfaces that default/types.ts exports are those of the types that
    lookup.ts describes, all of them: a structure has its fields with their
    TypeScript types, an enumeration a test and a reader for each variant in
    use and the union of their names. The same holds of types-lookup.ts, which
    omits the empty types, but for two interfaces: one reads a fixed array of
    junctions as a single junction, the other is a set where lookup.ts has a
    structure with numbers for types. *)
Theorem interfaces_of_lookup :
  (forall e, In e default_interfaces -> is_described e)
  /\ (forall e, In e lookup -> is_Some (named e.1 default_interfaces))
  /\ (forall e, In e metadata_interfaces -> In e.1 deviating \/ is_described e)
  /\ (forall e, In e lookup -> empty_type e.2.2 = true \/ is_Some (named e.1 metadata_interfaces))
  /\ (forall name, In name deviating -> forall i, named name metadata_interfaces = Some i -> ~ is_described (name, i))
  /\ named "asX2" (snd ByMetadata.StagingXcmV4Junctions) = Some (Plain "StagingXcmV4Junction")
  /\ named "asX2" (interface_of by_number Lookup.StagingXcmV4Junctions).2 = Some (Plain "Vec<StagingXcmV4Junction>")
  /\ (ByMetadata.PalletIdentityBitFlags.1, (interface_of by_number Lookup.PalletIdentityBitFlags).1)
     = ("Set", "Struct").
Proof.
  split; [|split; [|split; [|split; [|split]]]].
  - apply (forallb_In is_describedb); [exact is_describedb_sound|by vm_compute].
  - apply (forallb_In (fun e => given (named e.1 default_interfaces))); [|by vm_compute].
    intros e. apply given_is_Some.
  - apply (forallb_In (fun e => is_one_of e.1 deviating || is_describedb e)); [|by vm_compute].
    intros e [H|H]%orb_prop; [left; by apply is_one_of_In|right; by apply is_describedb_sound].
  - apply (forallb_In (fun e => empty_type e.2.2 || given (named e.1 metadata_interfaces))); [|by vm_compute].
    intros e [H|H]%orb_prop; [by left|right; by apply given_is_Some].
  - intros name Hn i Hi Hd%is_describedb_complete.
    assert (match named name metadata_interfaces with Some j => is_describedb (name, j) | None => false end = false)
      as Hf by (destruct Hn as [<-|[<-|[]]]; by vm_compute).
    rewrite Hi, Hd in Hf. discriminate Hf.
  - by split; [|split]; vm_compute.
Qed.

(** ** Names *)

(** The names of types in a text: its words that begin with a letter, but for
    the fields of a structure that is written out in place. *)
Definition begins_name (word : string) : bool :=
  match word with
  | String c _ => is_word c && negb ((48 <=? N_of_ascii c) && (N_of_ascii c <=? 57))%N
  | EmptyString => false
  end.

Fixpoint words_of (ts : list string) : list string :=
  match ts with
  | "readonly" :: _ :: ":" :: ts => words_of ts
  | word :: ts => if begins_name word then word :: words_of ts else words_of ts
  | [] => []
  end.

Definition names_of (text : string) : list string := words_of (tokens text).

Definition texts_of (d : type_def) : list string :=
  match d with
  | Alias t => [t]
  | Struct fs | AliasedStruct _ fs => map snd fs
  | Enum vs =>
      concat (map (fun v => match v.2 with Of t => [t] | Fields fs | AliasedFields _ fs => map snd fs end) vs)
  | Names _ => []
  end.

Definition member_texts (m : member) : list string :=
  match m with
  | Plain t => [t]
  | Fielded fs => map snd fs
  | Union _ => []
  end.

Definition interface_texts (i : interface) : list string := i.1 :: concat (map (fun m => member_texts m.2) i.2).

(** *** The files *)

(** A generated file: its imports, the texts for types in its declarations, and
    the names that it declares itself or that need no declaration. *)
Record generated : Type := mkGenerated {
  imports : list (string * list string);
  texts : list string;
  own : list string }.

Definition imported (l : list (string * list string)) : list string := concat (map snd l).

Definition named_types (f : generated) : list string := concat (map names_of (texts f)).

(** The texts of [augment-api-tx.ts] and so on. *)
Definition tx_file : generated :=
  mkGenerated Imports.tx (concat (map (fun s => concat (map (fun row => map snd row.2) s.2)) extrinsics)) [].
Definition query_file : generated :=
  mkGenerated Imports.query (concat (map (fun s => concat (map (fun row => row.2.2 :: row.2.1) s.2)) storage)) [].
Definition events_file : generated :=
  mkGenerated Imports.events (concat (map (fun s => concat (map (fun row => map snd row.2) s.2)) EventDefs.events)) [].
Definition consts_file : generated :=
  mkGenerated Imports.consts (concat (map (fun s => map snd s.2) constants)) [].
(** Some RPC methods are generic in a type [T]. *)
Definition rpc_file : generated :=
  mkGenerated Imports.rpc
    (concat (map (fun s => concat (map (fun row => row.2.2 :: map snd row.2.1) s.2)) rpc_interface)) ["T"].
Definition runtime_file : generated :=
  mkGenerated Imports.runtime
    (concat (map (fun s => concat (map (fun row => row.2.2 :: map snd row.2.1) s.2)) runtime_calls)) [].
(** [boolean] is a type of TypeScript. *)
Definition metadata_file : generated :=
  mkGenerated Imports.types_lookup
    (concat (map (fun e => interface_texts e.2) metadata_interfaces) ++ map snd type_aliases)
    ("boolean" :: map fst metadata_interfaces ++ map fst type_aliases).
Definition default_file : generated :=
  mkGenerated Imports.default_types (concat (map (fun e => interface_texts e.2) default_interfaces))
    ("boolean" :: map fst default_interfaces).

Definition files : list generated :=
  [tx_file; query_file; events_file; consts_file; rpc_file; runtime_file; metadata_file; default_file].

(** The imports that serve the generic parts of the declarations, the kind of
    method and the values that a parameter may be given as, and name no type of
    the chain. *)
Definition generic : list string :=
  ["ApiTypes"; "AugmentedSubmittable"; "SubmittableExtrinsic"; "SubmittableExtrinsicFunction"; "AugmentedQuery";
   "QueryableStorageEntry"; "AugmentedEvent"; "AugmentedConst"; "AugmentedRpc"; "AugmentedCall"; "DecoratedCallBase";
   "AnyNumber"; "Codec"; "IMethod"; "IExtrinsic"; "Observable"].

(** The file names exactly the types that it imports or has itself. *)
Definition imports_exactly (f : generated) : Prop :=
  (forall n, In n (named_types f) -> In n (imported (imports f)) \/ In n (own f))
  /\ (forall n, In n (imported (imports f)) -> In n (named_types f) \/ In n generic).

Lemma one_of_either l l' n : is_one_of n l || is_one_of n l' = true -> In n l \/ In n l'.
Proof. intros [H|H]%orb_prop; [left|right]; by apply is_one_of_In. Qed.

(** Every name is in one of two lists. *)
Definition within (names l l' : list string) : bool := forallb (fun n => is_one_of n l || is_one_of n l') names.

Lemma within_In names l l' : within names l l' = true -> forall n, In n names -> In n l \/ In n l'.
Proof. intros H. refine (forallb_In _ _ _ _ H). intros n. apply one_of_either. Qed.

Lemma within_one names l : within names l [] = true -> forall n, In n names -> In n l.
Proof. intros H n Hn. by destruct (within_In _ _ _ H n Hn). Qed.

Definition imports_exactlyb (f : generated) : bool :=
  within (named_types f) (imported (imports f)) (own f) && within (imported (imports f)) (named_types f) generic.

Lemma imports_exactlyb_sound f : imports_exactlyb f = true -> imports_exactly f.
Proof. intros [H1 H2]%andb_prop. split; by apply within_In. Qed.

(** *** What is imported *)

(** A type from the metadata is an interface of types-lookup.ts, one from
    types/default is one of default/types.ts, and one of the library's own
    interfaces is registered as it comes from that module. *)
Definition resolves (m n : string) : Prop :=
  (m = "@polkadot/types/lookup" -> is_Some (named n metadata_interfaces))
  /\ (m = "./default" -> is_Some (named n default_interfaces))
  /\ (String.prefix "@polkadot/types/interfaces/" m = true ->
        In n registered /\ exists ns, In (m, ns) Imports.augment_types /\ In n ns).

Definition resolvesb (m n : string) : bool :=
  (negb (m =? "@polkadot/types/lookup") || given (named n metadata_interfaces))
  && (negb (m =? "./default") || given (named n default_interfaces))
  && (negb (String.prefix "@polkadot/types/interfaces/" m)
      || is_one_of n registered
         && existsb (fun e => (e.1 =? m) && is_one_of n e.2) Imports.augment_types).

Lemma resolvesb_sound m n : resolvesb m n = true -> resolves m n.
Proof.
  intros [[H1 H2]%andb_prop H3]%andb_prop. unfold resolves. split_and!; intros Hm.
  - subst m. rewrite String.eqb_refl in H1. by apply given_is_Some.
  - subst m. rewrite String.eqb_refl in H2. by apply given_is_Some.
  - rewrite Hm in H3. apply andb_prop in H3 as [Hr He]. split; [by apply is_one_of_In|].
    apply List.existsb_exists in He as ([m' ns] & He & [Hm' Hn]%andb_prop). apply String.eqb_eq in Hm'. cbn in *.
    subst m'. exists ns. split; [done|by apply is_one_of_In].
Qed.

(** *** Texts of lookup.ts *)

(** The text denotes a type, which is printed as this text, and its names are
    those of described types or, the library's types and constructors, imported
    by the interfaces. *)
Definition meaningful (text : string) : Prop :=
  (exists t, parse text = Some t /\ same_text text (print t) = true)
  /\ forall n, In n (names_of text) -> is_Some (described n) \/ In n (imported Imports.default_types).

Definition meaningfulb (library : list string) (text : string) : bool :=
  match parse text with Some t => same_text text (print t) | None => false end
  && forallb (fun n => is_one_of n library || given (described n)) (names_of text).

Lemma meaningfulb_sound text : meaningfulb (imported Imports.default_types) text = true -> meaningful text.
Proof.
  intros [H1 H2]%andb_prop. split.
  - destruct (parse text) as [t|]; [eauto|done].
  - refine (forallb_In _ _ _ _ H2). intros n [H|H]%orb_prop; [right; by apply is_one_of_In|left; by apply given_is_Some].
Qed.

Definition all_meaningful (library : list string) : bool :=
  forallb (fun e => forallb (meaningfulb library) (texts_of e.2.2)) lookup.

(** C19: Each generated file imports exactly the types that it names: every name
    in a text for a type, of an extrinsic, a storage item, an event, a constant,
    an RPC method, a runtime call or an interface, is imported or declared by the
    file itself (or is [boolean], or the parameter [T] of generic RPC methods),
    and every import is named, but for the listed ones that serve the generic
    parts of the declarations. An import from the metadata is an interface of
    types-lookup.ts, one from types/default of default/types.ts, and one from the
    library's interfaces is in the registry, from the same module. Every text of
    lookup.ts denotes a type that is printed as this text, up to spaces, over
    described types and what the interfaces import. The registry of augment-types.ts
    has no name twice, has exactly the names the file imports, and has all
    interfaces of default/types.ts. *)
Theorem declared_types_closed :
  (forall f, In f files -> imports_exactly f)
  /\ (forall f m ns n, In f files -> In (m, ns) (imports f) -> In n ns -> resolves m n)
  /\ (forall e text, In e lookup -> In text (texts_of e.2.2) -> meaningful text)
  /\ List.NoDup registered
  /\ (forall n, In n registered <-> In n (imported Imports.augment_types))
  /\ (forall e, In e default_interfaces -> In e.1 registered).
Proof.
  split; [|split; [|split; [|split; [|split]]]].
  - apply (forallb_In imports_exactlyb); [exact imports_exactlyb_sound|by vm_compute].
  - intros f m ns n Hf Hm Hn.
    enough (forallb (fun f => forallb (fun e => forallb (resolvesb e.1) e.2) (imports f)) files = true) as H.
    + apply resolvesb_sound. rewrite List.forallb_forall in H. specialize (H f Hf).
      rewrite List.forallb_forall in H. specialize (H _ Hm). rewrite List.forallb_forall in H. by apply (H n).
    + by vm_compute.
  - assert (all_meaningful (imported Imports.default_types) = true) as H by by vm_compute.
    intros e text He Ht. apply meaningfulb_sound. unfold all_meaningful in H.
    rewrite List.forallb_forall in H. specialize (H e He). rewrite List.forallb_forall in H. by apply H.
  - by apply distinct_NoDup; vm_compute.
  - split; revert n; apply within_one; by vm_compute.
  - apply (forallb_In (fun e => is_one_of e.1 registered)); [intros e; apply is_one_of_In|by vm_compute].
Qed.

(** ** Pallets *)

(** The prefix of the types [<prefix>Call], [<prefix>Event] and [<prefix>Error]
    of each pallet. *)
Definition pallets : list (string * string) := [
  ("appPromotion", "PalletAppPromotion"); ("balances", "PalletBalances");
  ("collatorSelection", "PalletCollatorSelection"); ("common", "PalletCommon");
  ("configuration", "PalletConfiguration"); ("council", "PalletCollective");
  ("councilMembership", "PalletMembership"); ("cumulusXcm", "CumulusPalletXcm");
  ("democracy", "PalletDemocracy"); ("dmpQueue", "CumulusPalletDmpQueue"); ("ethereum", "PalletEthereum");
  ("evm", "PalletEvm"); ("evmCoderSubstrate", "PalletEvmCoderSubstrate");
  ("evmContractHelpers", "PalletEvmContractHelpers"); ("evmMigration", "PalletEvmMigration");
  ("fellowshipCollective", "PalletRankedCollective"); ("fellowshipReferenda", "PalletReferenda");
  ("financialCouncil", "PalletCollective"); ("financialCouncilMembership", "PalletMembership");
  ("foreignAssets", "PalletForeignAssetsModule"); ("fungible", "PalletFungible"); ("identity", "PalletIdentity");
  ("inflation", "PalletInflation"); ("maintenance", "PalletMaintenance"); ("messageQueue", "PalletMessageQueue");
  ("nonfungible", "PalletNonfungible"); ("parachainInfo", "StagingParachainInfo");
  ("parachainSystem", "CumulusPalletParachainSystem");
  ("polkadotXcm", "PalletXcm"); ("preimage", "PalletPreimage"); ("refungible", "PalletRefungible");
  ("scheduler", "PalletScheduler"); ("session", "PalletSession");
  ("stateTrieMigration", "PalletStateTrieMigration"); ("structure", "PalletStructure"); ("sudo", "PalletSudo");
  ("system", "FrameSystem"); ("technicalCommittee", "PalletCollective");
  ("technicalCommitteeMembership", "PalletMembership"); ("testUtils", "PalletTestUtils");
  ("timestamp", "PalletTimestamp"); ("transactionPayment", "PalletTransactionPayment");
  ("treasury", "PalletTreasury"); ("unique", "PalletUnique"); ("utility", "PalletUtility");
  ("vesting", "OrmlVestingModule"); ("xcmpQueue", "CumulusPalletXcmpQueue"); ("xTokens", "OrmlXtokensModule")].

(** The variants in use with the names and the TypeScript types of their
    fields; the fields of a tuple have no names. *)
Definition payload_types (p : payload) : list (string * string) :=
  match p with
  | Of "Null" => []
  | Of text =>
      match parse text with
      | Some (Tuple ts) => map (fun t => (EventDefs.unnamed, typescript by_number t)) ts
      | Some t => [(EventDefs.unnamed, typescript by_number t)]
      | None => []
      end
  | Fields fs | AliasedFields _ fs => typed by_number fs
  end.

Definition variants_of (d : type_def) : list (string * list (string * string)) :=
  match d with
  | Enum vs => map (fun v => (v.1, payload_types v.2)) (List.filter (fun v => negb (unused v.1)) vs)
  | Names ns => map (fun n => (n, [])) (List.filter (fun n => negb (unused n)) ns)
  | _ => []
  end.

(** [new] is reserved in TypeScript: lookup.ts writes [new_], and a parameter
    with this name is called [updated]. *)
Definition same_parameter (s t : string) : bool := same_name s t || ((s =? "new_") && (t =? "updated")).

Fixpoint same_parameters (l l' : list (string * string)) : bool :=
  match l, l' with
  | [], [] => true
  | p :: l, p' :: l' =>
      same_parameter p.1 p'.1 && same_text p.2 p'.2 && same_parameters l l'
  | _, _ => false
  end.

Definition same_row (v row : string * list (string * string)) : bool :=
  same_name v.1 row.1 && same_parameters v.2 row.2.

(** The declared rows of a pallet are the variants of its type, in any order. *)
Definition declared_as (suffix : string) (pallet : string) (rows : list (string * list (string * string))) : Prop :=
  exists pre d, named pallet pallets = Some pre /\ described (pre ++ suffix) = Some d
  /\ length rows = length (variants_of d)
  /\ forall v, In v (variants_of d) -> exists row, In row rows /\ same_row v row = true.

Definition declared_asb (suffix pallet : string) (rows : list (string * list (string * string))) : bool :=
  match named pallet pallets with
  | Some pre =>
      match described (pre ++ suffix) with
      | Some d =>
          (length rows =? length (variants_of d))%nat
          && forallb (fun v => existsb (same_row v) rows) (variants_of d)
      | None => false
      end
  | None => false
  end.

Lemma declared_asb_sound suffix pallet rows : declared_asb suffix pallet rows = true -> declared_as suffix pallet rows.
Proof.
  unfold declared_asb, declared_as. destruct (named pallet pallets) as [pre|]; [|done].
  destruct (described (pre ++ suffix)) as [d|] eqn:Hd; [|done]. intros [Hl Hv]%andb_prop.
  exists pre, d. split; [done|]. split; [done|]. split; [by apply Nat.eqb_eq|].
  apply (forallb_In (fun v => existsb (same_row v) rows)); [|exact Hv].
  intros v (row & Hr & Hs)%List.existsb_exists. eauto.
Qed.

(** Names that end in [Call]. *)
Definition call_type (name : string) : bool := String.substring (String.length name - 4) 4 name =? "Call".

Definition calls_of (name : string) (p : string * string) : bool :=
  (p.2 ++ "Call" =? name) && given (named p.1 extrinsics).

(** C18: The extrinsics of a pallet, with the names and types of their
    parameters, its events with their fields, and its errors are the variants
    of its types for calls, events and errors. Every type of calls in use is
    that of a pallet whose extrinsics are declared. *)
Theorem pallets_of_lookup :
  (forall e, In e extrinsics -> declared_as "Call" e.1 e.2)
  /\ (forall e, In e EventDefs.events -> declared_as "Event" e.1 e.2)
  /\ (forall e, In e errors -> declared_as "Error" e.1 (map (fun n => (n, [])) e.2))
  /\ (forall e, In e lookup -> call_type e.1 = true ->
        empty_type e.2.2 = true
        \/ exists p, In p pallets /\ p.2 ++ "Call" = e.1 /\ is_Some (named p.1 extrinsics)).
Proof.
  split; [|split; [|split]].
  - apply (forallb_In (fun e => declared_asb "Call" e.1 e.2)); [intros e; apply declared_asb_sound|by vm_compute].
  - apply (forallb_In (fun e => declared_asb "Event" e.1 e.2)); [intros e; apply declared_asb_sound|by vm_compute].
  - apply (forallb_In (fun e => declared_asb "Error" e.1 (map (fun n => (n, [])) e.2)));
      [intros e; apply declared_asb_sound|by vm_compute].
  - intros e He. revert e He.
    apply (forallb_In (fun e => negb (call_type e.1) || empty_type e.2.2 || existsb (calls_of e.1) pallets)
      (fun e => call_type e.1 = true -> _)); [|by vm_compute].
    intros e H Hc. rewrite Hc in H. apply orb_prop in H as [H|H]; [by left|right].
    apply List.existsb_exists in H as (p & Hp & [Hn Hg]%andb_prop). exists p.
    split; [done|]. split; [by apply String.eqb_eq|by apply given_is_Some].
Qed.
