(* ===== verification/TxFacts.v ===== *)
(** * Facts about the chain's interface

    The extrinsics and storage reads of the client and of the test helper, and
    the events it decodes, against the declarations of the chain. *)

From Stdlib Require Import Ascii String.
From stdpp Require Import list.
From S2P Require Import Prelude JsString JsValue Chain Address RpcDefs TxDefs QueryDefs EventDefs Types LookupDefs.
From S2P Require Import Interface InterfaceFacts Util Helper OptionFacts.
From S2P Require Import HelperFacts Lifecycle Collections Tokens Objects Balance Xcm Governance Dev CollectionFacts RpcFacts.

Open Scope Z_scope.
Open Scope js_scope.

(** The call that an extrinsic of the sudo or the scheduler pallet wraps. *)
Definition wrapping (call : jsstr) : bool :=
  jseq call (js "api.tx.sudo.sudo") || startsWith (js "api.tx.scheduler.schedule") call.

Definition wrapped_call (call : jsstr) (params : list jsval) : option jsval :=
  if jseq call (js "api.tx.sudo.sudo") then head params
  else if startsWith (js "api.tx.scheduler.schedule") call then last params
  else None.

(** A call that [constructApiCall] made, on some connection, from an extrinsic
    that fits the interface of the chain and itself wraps such calls only. *)
Inductive sound_call {N : NodeApi} : jsval -> Prop :=
  | sound_constructed ext ps call :
      constructed ext ps call -> tx_fits ext ps ->
      (forall inner, wrapped_call ext ps = Some inner -> sound_call inner) -> sound_call call.

(** A log entry whose call fits the interface of the chain, and so does the call
    that it wraps. *)
Definition conforms {N : NodeApi} (e : IUniqueHelperLog) : Prop :=
  match log_type e with
  | EXTRINSIC =>
      tx_fits (log_call e) (log_params e)
      /\ forall inner, wrapped_call (log_call e) (log_params e) = Some inner -> sound_call inner
  | RPC => query_fits (log_call e) (log_params e) = true
  end.

Section Calls.
Context {N : NodeApi} {C : Crypto}.
Implicit Types helper : nat.

Lemma allows_query call params : query_fits call params = true -> AllowsCall conforms call params.
Proof. intros H e He <- <-. unfold conforms. by rewrite He. Qed.

Lemma allows_wrapper call params :
  tx_fits call params -> (forall inner, wrapped_call call params = Some inner -> sound_call inner) ->
  AllowsTx conforms call params.
Proof. intros H Hw e He <- <-. unfold conforms. by rewrite He. Qed.

Lemma allows_fitting_tx call params : wrapping call = false -> tx_fits call params -> AllowsTx conforms call params.
Proof.
  intros Hw H. apply allows_wrapper; [done|]. unfold wrapping, wrapped_call in *.
  by apply orb_false_elim in Hw as [-> ->].
Qed.

(** The call of an extrinsic that is allowed is sound. *)
Lemma allowed_sound ext ps call : AllowsTx conforms ext ps -> constructed ext ps call -> sound_call call.
Proof.
  intros Ha Hc. destruct (Ha (mkLog 0 0 EXTRINSIC SUCCESS ext None ps None None None)) as [Hf Hw]; [done..|].
  by eapply sound_constructed.
Qed.

#[local] Instance conforms_nonce : AllowsNonce conforms.
Proof. intros a. apply allows_query. by vm_compute. Qed.

#[local] Instance conforms_wrapped : AllowsWrapped conforms.
Proof.
  split.
  - intros ext ps call Ha Hc. apply allows_wrapper; [fit_call|]. intros inner [= <-]. by eapply allowed_sound.
  - intros f n o ext ps tx Ha Hc.
    unfold ScheduledUniqueHelper.schedule_call, ScheduledUniqueHelper.mandatorySchedArgs.
    destruct (scheduledId o) as [[|c i]|], f, (priority o), (periodic o) as [[]|];
      (apply allows_wrapper; [fit_call|intros inner [= <-]; by eapply allowed_sound]).
Qed.

(** ** Arguments *)

Abbreviation Property := (Name "UpDataStructsProperty").
Abbreviation Properties := (App "Vec" [Property]).

(** [token[k]], if the token is an object, may be left out or is of type [t]. *)
Definition token_fits (k : string) (t : ty) (token : jsval) : Prop :=
  forall v, get_prop token (js k) = Ret v -> may_fit t v.

(** A call that encodes itself as a text. *)
Definition hex_call (call : jsval) : Prop :=
  forall m h, get_prop call (js "method") = Ret m -> call0 m (js "toHex") = Ret h -> is_text h = true.

Lemma inline_call_fits call v : hex_call call -> inline_call call = Ret v ->
  Fits (Name "FrameSupportPreimagesBounded") v.
Proof.
  intros Hc H. unfold inline_call in H. destruct (get_prop call _) as [m|e|] eqn:Em; [|discriminate H..].
  simpl in H. destruct (call0 m _) as [h|e|] eqn:Eh; [|discriminate H..]. apply Ret_inj in H as <-.
  pose proof (Hc _ _ Em Eh) as Hh. destruct h; try discriminate Hh. fit.
Qed.

Lemma raw_tokens_fit t f l raw : raw_tokens f l = Ret raw ->
  Forall (fun token => forall r, f token = Ret r -> Fits t r) l -> Forall (Fits t) raw.
Proof.
  unfold raw_tokens. intros H%map_out_Ret_Forall2 Hl. revert Hl.
  induction H as [|token r l raw Hr _ IH]; intros Hl; [by constructor|].
  inversion Hl; subst. constructor; auto.
Qed.

(** The continuation of a pure computation may use what it gave. *)
Lemma framed_bind_lift this P {A B} (r : Res A) (k : A -> M B) :
  (forall a, r = Ret a -> Framed this P (k a)) -> Framed this P (bind (lift r) k).
Proof. intros Hk s. destruct r as [a|e|]; [by apply Hk|simpl; reflexivity..]. Qed.

Lemma framed_value_bind this P {A B} (a : A) (k : A -> M B) :
  Framed this P (k a) -> Framed this P (bind (mreturn a) k).
Proof. done. Qed.

(** ** The submitting methods *)

(** Commands on collections and tokens. Arguments that the source types are
    values of the chain's types for them. *)
Inductive collection_tx helper signer : forall A, M A -> Prop :=
  | ct_burn c : collection_tx helper signer _ (CollectionGroup.burn helper signer c)
  | ct_setSponsor c a : collection_tx helper signer _ (CollectionGroup.setSponsor helper signer c a)
  | ct_confirmSponsorship c : collection_tx helper signer _ (CollectionGroup.confirmSponsorship helper signer c)
  | ct_removeSponsor c : collection_tx helper signer _ (CollectionGroup.removeSponsor helper signer c)
  | ct_setLimits c l : Fits (Name "UpDataStructsCollectionLimits") l ->
      collection_tx helper signer _ (CollectionGroup.setLimits helper signer c l)
  | ct_changeOwner c a : collection_tx helper signer _ (CollectionGroup.changeOwner helper signer c a)
  | ct_addAdmin c a : collection_tx helper signer _ (CollectionGroup.addAdmin helper signer c a)
  | ct_removeAdmin c a : collection_tx helper signer _ (CollectionGroup.removeAdmin helper signer c a)
  | ct_addToAllowList c a : collection_tx helper signer _ (CollectionGroup.addToAllowList helper signer c a)
  | ct_removeFromAllowList c a :
      collection_tx helper signer _ (CollectionGroup.removeFromAllowList helper signer c a)
  | ct_setPermissions c p : Fits (Name "UpDataStructsCollectionPermissions") p ->
      collection_tx helper signer _ (CollectionGroup.setPermissions helper signer c p)
  | ct_enableNesting c p : Fits (Name "UpDataStructsNestingPermissions") p ->
      collection_tx helper signer _ (CollectionGroup.enableNesting helper signer c p)
  | ct_disableNesting c : collection_tx helper signer _ (CollectionGroup.disableNesting helper signer c)
  | ct_setProperties c l : Forall (Fits Property) l ->
      collection_tx helper signer _ (CollectionGroup.setProperties helper signer c (JArr l))
  | ct_deleteProperties c l : Forall (Fits (Name "Bytes")) l ->
      collection_tx helper signer _ (CollectionGroup.deleteProperties helper signer c (JArr l))
  | ct_transferToken c t a n : collection_tx helper signer _ (CollectionGroup.transferToken helper signer c t a n)
  | ct_transferTokenFrom c t a b n :
      collection_tx helper signer _ (CollectionGroup.transferTokenFrom helper signer c t a b n)
  | ct_burnToken c t n : collection_tx helper signer _ (CollectionGroup.burnToken helper signer c t n)
  | ct_burnTokenFrom c t a n : collection_tx helper signer _ (CollectionGroup.burnTokenFrom helper signer c t a n)
  | ct_approveToken c t a n : collection_tx helper signer _ (CollectionGroup.approveToken helper signer c t a n)
  | ct_approveTokenFrom c t a b n :
      collection_tx helper signer _ (CollectionGroup.approveTokenFrom helper signer c t a b n)
  | ct_approveTokenFromEth c t a n :
      collection_tx helper signer _ (CollectionGroup.approveTokenFromEth helper signer c t a n)
  | ct_nestToken t r : collection_tx helper signer _ (NFTnRFT.nestToken helper signer t r)
  | ct_unnestToken t r a : collection_tx helper signer _ (NFTnRFT.unnestToken helper signer t r a)
  | ct_setTokenPropertyPermissions c l : Forall (Fits (Name "UpDataStructsPropertyKeyPermission")) l ->
      collection_tx helper signer _ (NFTnRFT.setTokenPropertyPermissions helper signer c (JArr l))
  | ct_setTokenProperties c t l : Forall (Fits Property) l ->
      collection_tx helper signer _ (NFTnRFT.setTokenProperties helper signer c t (JArr l))
  | ct_deleteTokenProperties c t l : Forall (Fits (Name "Bytes")) l ->
      collection_tx helper signer _ (NFTnRFT.deleteTokenProperties helper signer c t (JArr l))
  | ct_setAllowanceForAll c a b : collection_tx helper signer _ (NFTnRFT.setAllowanceForAll helper signer c a b).

(** The methods of the groups of tokens that only pass the work on. *)
Inductive token_tx helper signer : forall A, M A -> Prop :=
  | kt_nftTransfer c t a : token_tx helper signer _ (NFTGroup.transferToken helper signer c t a)
  | kt_nftTransferFrom c t a b : token_tx helper signer _ (NFTGroup.transferTokenFrom helper signer c t a b)
  | kt_nftApprove c t a n : token_tx helper signer _ (NFTGroup.approveToken helper signer c t a n)
  | kt_rftTransfer c t a n : token_tx helper signer _ (RFTGroup.transferToken helper signer c t a n)
  | kt_rftTransferFrom c t a b n : token_tx helper signer _ (RFTGroup.transferTokenFrom helper signer c t a b n)
  | kt_rftBurn c t n : token_tx helper signer _ (RFTGroup.burnToken helper signer c t n)
  | kt_rftBurnFrom c t a n : token_tx helper signer _ (RFTGroup.burnTokenFrom helper signer c t a n)
  | kt_rftApprove c t a n : token_tx helper signer _ (RFTGroup.approveToken helper signer c t a n).

Inductive mint_tx helper signer : forall A, M A -> Prop :=
  | mt_nftCollection o : creation_options [mode_key; flags_key] o ->
      mint_tx helper signer _ (NFTGroup.mintCollection helper signer o)
  | mt_nft c o p : may_fit Properties (or_undefined p) ->
      mint_tx helper signer _ (NFTGroup.mintToken helper signer c o p)
  | mt_nfts c l : Forall (Fits (Name "UpDataStructsCreateNftExData")) l ->
      mint_tx helper signer _ (NFTGroup.mintMultipleTokens helper signer c l)
  | mt_nftsOneOwner c a l : Forall (token_fits "properties" Properties) l ->
      mint_tx helper signer _ (NFTGroup.mintMultipleTokensWithOneOwner helper signer c a l)
  | mt_rftCollection o : creation_options [mode_key; flags_key] o ->
      mint_tx helper signer _ (RFTGroup.mintCollection helper signer o)
  | mt_rft c o n p : may_fit Properties (or_undefined p) ->
      mint_tx helper signer _ (RFTGroup.mintToken helper signer c o n p)
  | mt_rftsOneOwner c a l : Forall (fun token => token_fits "pieces" (Name "u128") token /\ token_fits "properties" Properties token) l ->
      mint_tx helper signer _ (RFTGroup.mintMultipleTokensWithOneOwner helper signer c a l)
  | mt_repartition c t n : mint_tx helper signer _ (RFTGroup.repartitionToken helper signer c t n)
  | mt_ftCollection o d : creation_options [mode_key] o ->
      mint_tx helper signer _ (FTGroup.mintCollection helper signer o d)
  | mt_ft c n o : mint_tx helper signer _ (FTGroup.mintTokens helper signer c n o)
  | mt_ftsOneOwner c l a : Forall (token_fits "value" (Name "u128")) l ->
      mint_tx helper signer _ (FTGroup.mintMultipleTokensWithOneOwner helper signer c l a)
  | mt_transfer c a n : mint_tx helper signer _ (FTGroup.transfer helper signer c a n)
  | mt_transferFrom c a b n : mint_tx helper signer _ (FTGroup.transferFrom helper signer c a b n)
  | mt_burnTokens c n : mint_tx helper signer _ (FTGroup.burnTokens helper signer c n)
  | mt_burnTokensFrom c a n : mint_tx helper signer _ (FTGroup.burnTokensFrom helper signer c a n)
  | mt_approveTokens c a n : mint_tx helper signer _ (FTGroup.approveTokens helper signer c a n).

(** Balances, vesting, staking, preimages and batches. *)
Inductive account_tx helper signer : forall A, M A -> Prop :=
  | at_toSubstrate a n : account_tx helper signer _ (BalanceGroup.transferToSubstrate helper signer a n)
  | at_toEthereum a n : account_tx helper signer _ (EthereumBalanceGroup.transferToEthereum helper signer a n)
  | at_setBalance a n : account_tx helper signer _ (BalanceGroup.setBalanceSubstrate helper signer a n)
  | at_forceTransfer a b n :
      account_tx helper signer _ (BalanceGroup.forceTransferToSubstrate helper signer a b n)
  | at_vestedTransfer a v : account_tx helper signer _ (BalanceGroup.vestedTransfer helper signer a v)
  | at_claim : account_tx helper signer _ (BalanceGroup.claim helper signer)
  | at_stake n : account_tx helper signer _ (StakingGroup.stake helper signer n)
  | at_unstakeAll : account_tx helper signer _ (StakingGroup.unstakeAll helper signer)
  | at_unstakePartial n : account_tx helper signer _ (StakingGroup.unstakePartial helper signer n)
  | at_notePreimage b r : Fits (Name "Bytes") b ->
      account_tx helper signer _ (PreimageGroup.notePreimage helper signer b r)
  | at_notePreimageFromCall c r : hex_call c ->
      account_tx helper signer _ (PreimageGroup.notePreimageFromCall helper signer c r)
  | at_unnotePreimage h : account_tx helper signer _ (PreimageGroup.unnotePreimage helper signer h)
  | at_requestPreimage h : account_tx helper signer _ (PreimageGroup.requestPreimage helper signer h)
  | at_unrequestPreimage h : account_tx helper signer _ (PreimageGroup.unrequestPreimage helper signer h)
  | at_batch l : account_tx helper signer _ (UtilityGroup.batch helper signer l)
  | at_batchAll l : account_tx helper signer _ (UtilityGroup.batchAll helper signer l).

(** The pallets that [DevUniqueHelper] makes its collectives from. *)
Definition collective_pallets : list jsstr := map js ["council"; "financialCouncil"; "technicalCommittee"]%string.
Definition membership_pallets : list jsstr :=
  map js ["councilMembership"; "financialCouncilMembership"; "technicalCommitteeMembership"]%string.

Inductive collective_tx helper signer : forall A, M A -> Prop :=
  | lt_propose k p t l : k ∈ collective_pallets ->
      collective_tx helper signer _ (CollectiveGroup.propose helper k signer p t l)
  | lt_vote k h i a : k ∈ collective_pallets ->
      collective_tx helper signer _ (CollectiveGroup.vote helper k signer h i a)
  | lt_execute k p l : k ∈ collective_pallets ->
      collective_tx helper signer _ (CollectiveGroup.execute helper k signer p l)
  | lt_close k h i w l : Fits (Name "SpWeightsWeightV2Weight") w ->
      k ∈ collective_pallets ->
      collective_tx helper signer _ (CollectiveGroup.close helper k signer h i w l)
  | lt_disapprove k h : k ∈ collective_pallets ->
      collective_tx helper signer _ (CollectiveGroup.disapproveProposal helper k signer h)
  | lt_addMember k a : k ∈ membership_pallets ->
      collective_tx helper signer _ (CollectiveMembershipGroup.addMember helper k signer a)
  | lt_removeMember k a : k ∈ membership_pallets ->
      collective_tx helper signer _ (CollectiveMembershipGroup.removeMember helper k signer a)
  | lt_resetMembers k l : k ∈ membership_pallets ->
      collective_tx helper signer _ (CollectiveMembershipGroup.resetMembers helper k signer l)
  | lt_setPrime k a : k ∈ membership_pallets ->
      collective_tx helper signer _ (CollectiveMembershipGroup.setPrime helper k signer a)
  | lt_clearPrime k : k ∈ membership_pallets ->
      collective_tx helper signer _ (CollectiveMembershipGroup.clearPrime helper k signer).

Inductive fellowship_tx helper signer : forall A, M A -> Prop :=
  | ft_addMember a :
      fellowship_tx helper signer _ (RankedCollectiveGroup.addMember helper (js "fellowshipCollective") signer a)
  | ft_removeMember a r :
      fellowship_tx helper signer _ (RankedCollectiveGroup.removeMember helper (js "fellowshipCollective") signer a r)
  | ft_promote a :
      fellowship_tx helper signer _ (RankedCollectiveGroup.promote helper (js "fellowshipCollective") signer a)
  | ft_demote a :
      fellowship_tx helper signer _ (RankedCollectiveGroup.demote helper (js "fellowshipCollective") signer a)
  | ft_vote i a :
      fellowship_tx helper signer _ (RankedCollectiveGroup.vote helper (js "fellowshipCollective") signer i a)
  | ft_submit o p m : Fits (Name "PalletGovOriginsOrigin") (JStr o) ->
      Fits (Name "FrameSupportPreimagesBounded") p -> Fits (Name "FrameSupportScheduleDispatchTime") m ->
      fellowship_tx helper signer _ (ReferendaGroup.submit helper (js "fellowshipReferenda") signer o p m)
  | ft_deposit i :
      fellowship_tx helper signer _ (ReferendaGroup.placeDecisionDeposit helper (js "fellowshipReferenda") signer i)
  | ft_cancel i : fellowship_tx helper signer _ (ReferendaGroup.cancel helper (js "fellowshipReferenda") signer i).

Inductive democracy_tx helper signer : forall A, M A -> Prop :=
  | dt_propose p d : hex_call p ->
      democracy_tx helper signer _ (DemocracyGroup.propose helper signer p d)
  | dt_proposeWithPreimage p d :
      democracy_tx helper signer _ (DemocracyGroup.proposeWithPreimage helper signer p d)
  | dt_second i : democracy_tx helper signer _ (DemocracyGroup.second helper signer i)
  | dt_externalPropose p : hex_call p ->
      democracy_tx helper signer _ (DemocracyGroup.externalPropose helper signer p)
  | dt_externalMajority p : hex_call p ->
      democracy_tx helper signer _ (DemocracyGroup.externalProposeMajority helper signer p)
  | dt_externalDefault p : hex_call p ->
      democracy_tx helper signer _ (DemocracyGroup.externalProposeDefault helper signer p)
  | dt_externalDefaultPreimage p :
      democracy_tx helper signer _ (DemocracyGroup.externalProposeDefaultWithPreimage helper signer p)
  | dt_vetoExternal h : democracy_tx helper signer _ (DemocracyGroup.vetoExternal helper signer h)
  | dt_blacklist h i : democracy_tx helper signer _ (DemocracyGroup.blacklist helper signer h i)
  | dt_cancelProposal i : democracy_tx helper signer _ (DemocracyGroup.cancelProposal helper signer i)
  | dt_clear : democracy_tx helper signer _ (DemocracyGroup.clearPublicProposals helper signer)
  | dt_fastTrack h v d : democracy_tx helper signer _ (DemocracyGroup.fastTrack helper signer h v d)
  | dt_emergencyCancel i : democracy_tx helper signer _ (DemocracyGroup.emergencyCancel helper signer i)
  | dt_vote i v : Fits (Name "PalletDemocracyVoteAccountVote") v ->
      democracy_tx helper signer _ (DemocracyGroup.vote helper signer i v)
  | dt_removeVote i a : democracy_tx helper signer _ (DemocracyGroup.removeVote helper signer i a)
  | dt_unlock a : democracy_tx helper signer _ (DemocracyGroup.unlock helper signer a)
  | dt_delegate a c b : Fits (Name "PalletDemocracyConviction") c ->
      democracy_tx helper signer _ (DemocracyGroup.delegate helper signer a c b)
  | dt_undelegate : democracy_tx helper signer _ (DemocracyGroup.undelegate helper signer).

(** The groups of the test helper that are for this chain, with the exception of
    [changePriority], [selfCancelingInc] and [teleportNativeAsset], whose
    extrinsics do not fit; [enable] of the test pallet comes below. *)
Inductive test_tx helper signer : forall A, M A -> Prop :=
  | tt_cancelScheduled i : test_tx helper signer _ (SchedulerGroup.cancelScheduled helper signer i)
  | tt_addInvulnerable a : test_tx helper signer _ (CollatorSelectionGroup.addInvulnerable helper signer a)
  | tt_removeInvulnerable a : test_tx helper signer _ (CollatorSelectionGroup.removeInvulnerable helper signer a)
  | tt_setLicenseBond n : test_tx helper signer _ (CollatorSelectionGroup.setLicenseBond helper signer n)
  | tt_obtainLicense : test_tx helper signer _ (CollatorSelectionGroup.obtainLicense helper signer)
  | tt_releaseLicense : test_tx helper signer _ (CollatorSelectionGroup.releaseLicense helper signer)
  | tt_forceReleaseLicense a : test_tx helper signer _ (CollatorSelectionGroup.forceReleaseLicense helper signer a)
  | tt_onboard : test_tx helper signer _ (CollatorSelectionGroup.onboard helper signer)
  | tt_offboard : test_tx helper signer _ (CollatorSelectionGroup.offboard helper signer)
  | tt_setOwnKeys k : test_tx helper signer _ (SessionGroup.setOwnKeys helper signer k)
  | tt_setOwnKeysFromAddress : test_tx helper signer _ (SessionGroup.setOwnKeysFromAddress helper signer)
  | tt_setTestValue n : test_tx helper signer _ (TestUtilGroup.setTestValue helper signer n)
  | tt_incTestValue : test_tx helper signer _ (TestUtilGroup.incTestValue helper signer)
  | tt_rollback n : test_tx helper signer _ (TestUtilGroup.setTestValueAndRollback helper signer n)
  | tt_justTakeFee : test_tx helper signer _ (TestUtilGroup.justTakeFee helper signer)
  | tt_payoutStakers n : test_tx helper signer _ (AdminGroup.payoutStakers helper signer n)
  | tt_registerForeign a n p m : Fits (Name "StagingXcmV4AssetAssetId") a ->
      Fits (Name "PalletForeignAssetsForeignCollectionMode") m ->
      test_tx helper signer _ (ForeignAssetsGroup.register helper signer a n p m)
  | tt_transferAssets d b a i w : Fits (Name "XcmVersionedLocation") d -> Fits (Name "XcmVersionedLocation") b ->
      Fits (Name "XcmVersionedAssets") a -> Fits (Name "XcmV3WeightLimit") w ->
      test_tx helper signer _ (XcmGroup.transferAssets helper (js "polkadotXcm") signer d b a i w)
  | tt_reserveTransfer d b a i w : Fits (Name "XcmVersionedLocation") d -> Fits (Name "XcmVersionedLocation") b ->
      Fits (Name "XcmVersionedAssets") a -> Fits (Name "XcmV3WeightLimit") w ->
      test_tx helper signer _ (XcmGroup.limitedReserveTransferAssets helper (js "polkadotXcm") signer d b a i w)
  | tt_safeXcmVersion v : test_tx helper signer _ (XcmGroup.setSafeXcmVersion helper (js "polkadotXcm") signer v)
  | tt_teleport d b a i : Fits (Name "XcmVersionedLocation") d -> Fits (Name "XcmVersionedLocation") b -> Fits (Name "XcmVersionedAssets") a ->
      test_tx helper signer _ (XcmGroup.teleportAssets helper (js "polkadotXcm") signer d b a i)
  | tt_send d m : Fits (Name "XcmVersionedLocation") d -> Fits (Name "XcmVersionedXcm") m ->
      test_tx helper signer _ (XcmGroup.send helper (js "polkadotXcm") signer d m)
  | tt_xTokens c n d w : Fits (Name "u32") c -> Fits (Name "XcmVersionedLocation") d -> Fits (Name "XcmV3WeightLimit") w ->
      test_tx helper signer _ (XTokensGroup.transfer helper signer c n d w)
  | tt_multiasset a d w : Fits (Name "XcmVersionedAsset") a -> Fits (Name "XcmVersionedLocation") d ->
      Fits (Name "XcmV3WeightLimit") w ->
      test_tx helper signer _ (XTokensGroup.transferMultiasset helper signer a d w)
  | tt_multiassets a i d w : Fits (Name "XcmVersionedAssets") a -> Fits (Name "XcmVersionedLocation") d ->
      Fits (Name "XcmV3WeightLimit") w ->
      test_tx helper signer _ (XTokensGroup.transferMultiassets helper signer a i d w)
  | tt_multicurrencies l i d w : Forall (Fits (App "ITuple" [Tuple [Name "u32"; Name "u128"]])) l ->
      Fits (Name "XcmVersionedLocation") d -> Fits (Name "XcmV3WeightLimit") w ->
      test_tx helper signer _ (XTokensGroup.transferMulticurrencies helper signer l i d w).

(** ** Their frames *)

(** A call with parameters that fit. *)
#[local] Ltac by_cases :=
  repeat (match goal with
          | |- context [cross_js ?a] => destruct a
          | |- context [owner_js ?a] => destruct a
          | |- context [amount_js ?a] => destruct a
          | |- context [optional_index ?a] => destruct a
          end; cbn [cross_js owner_js amount_js optional_index]).
#[local] Ltac conform :=
  first [apply allows_fitting_tx; [vm_compute; reflexivity|by_cases; fit_call]
        |apply allows_query; by_cases; vm_compute; reflexivity].
#[local] Hint Extern 1 (AllowsTx conforms ?call ?params) =>
  tryif first [is_var call | has_evar call | has_evar params] then fail else conform : typeclass_instances.
#[local] Hint Extern 1 (AllowsCall conforms ?call ?params) =>
  tryif first [is_var call | has_evar call | has_evar params] then fail else conform : typeclass_instances.

#[local] Typeclasses Opaque js.

Lemma collection_tx_framed helper signer A (m : M A) :
  collection_tx helper signer A m -> Framed helper conforms m.
Proof.
  intros [].
  all: unfold CollectionGroup.burn, CollectionGroup.setSponsor, CollectionGroup.confirmSponsorship,
    CollectionGroup.removeSponsor, CollectionGroup.setLimits, CollectionGroup.changeOwner,
    CollectionGroup.addAdmin, CollectionGroup.removeAdmin, CollectionGroup.addToAllowList,
    CollectionGroup.removeFromAllowList, CollectionGroup.enableNesting, CollectionGroup.disableNesting,
    CollectionGroup.setPermissions, CollectionGroup.setProperties, CollectionGroup.deleteProperties,
    CollectionGroup.approveToken, CollectionGroup.approveTokenFromEth, CollectionGroup.approveTokenFrom,
    CollectionGroup.burnToken, CollectionGroup.burnTokenFrom,
    NFTnRFT.nestToken, NFTnRFT.unnestToken, CollectionGroup.transferToken, CollectionGroup.transferTokenFrom,
    NFTnRFT.setTokenPropertyPermissions, NFTnRFT.setTokenProperties, NFTnRFT.deleteTokenProperties,
    NFTnRFT.setAllowanceForAll.
  all: solve_frame.
Qed.

Lemma token_tx_framed helper signer A (m : M A) : token_tx helper signer A m -> Framed helper conforms m.
Proof. intros []; eapply collection_tx_framed; constructor. Qed.

Lemma mintCollection_framed helper signer o mode : creation_options [mode_key; flags_key] o ->
  Framed helper conforms (NFTnRFT.mintCollection helper signer o mode).
Proof.
  intros Ho. apply framed_bind_lift. intros ps Hps. pose proof (nft_options_fit _ _ _ Ho Hps). solve_frame.
Qed.

Lemma fungible_mintCollection_framed helper signer o d : creation_options [mode_key] o ->
  Framed helper conforms (FTGroup.mintCollection helper signer o d).
Proof.
  intros Ho. apply framed_bind_lift. intros ps Hps. pose proof (fungible_options_fit _ _ _ Ho Hps). solve_frame.
Qed.

(** The fields of the token to mint, one after the other. *)
#[local] Ltac raw_token Hr :=
  repeat (match type of Hr with context [get_prop ?v ?k] =>
            let E := fresh "E" in destruct (get_prop v k) eqn:E; [simpl in Hr|discriminate Hr..] end);
  apply Ret_inj in Hr as <-.

Lemma nftsOneOwner_framed helper signer c a l : Forall (token_fits "properties" Properties) l ->
  Framed helper conforms (NFTGroup.mintMultipleTokensWithOneOwner helper signer c a l).
Proof.
  intros Hl. apply framed_bind_lift. intros raw Hraw.
  assert (Forall (Fits (Name "UpDataStructsCreateItemData")) raw); [|solve_frame].
  eapply raw_tokens_fit; [exact Hraw|]. eapply List.Forall_impl; [|exact Hl].
  intros token Ht r Hr. raw_token Hr. pose proof (Ht _ E). fit.
Qed.

Lemma rftsOneOwner_framed helper signer c a l :
  Forall (fun token => token_fits "pieces" (Name "u128") token /\ token_fits "properties" Properties token) l ->
  Framed helper conforms (RFTGroup.mintMultipleTokensWithOneOwner helper signer c a l).
Proof.
  intros Hl. apply framed_bind_lift. intros raw Hraw.
  assert (Forall (Fits (Name "UpDataStructsCreateItemData")) raw); [|solve_frame].
  eapply raw_tokens_fit; [exact Hraw|]. eapply List.Forall_impl; [|exact Hl].
  intros token [Hn Ht] r Hr. raw_token Hr. pose proof (Hn _ E). pose proof (Ht _ E0). fit.
Qed.

Lemma ftsOneOwner_framed helper signer c l a : Forall (token_fits "value" (Name "u128")) l ->
  Framed helper conforms (FTGroup.mintMultipleTokensWithOneOwner helper signer c l a).
Proof.
  intros Hl. apply framed_bind_lift. intros raw Hraw.
  assert (Forall (Fits (Name "UpDataStructsCreateItemData")) raw); [|solve_frame].
  eapply raw_tokens_fit; [exact Hraw|]. eapply List.Forall_impl; [|exact Hl].
  intros token Ht r Hr. raw_token Hr. pose proof (Ht _ E). fit.
Qed.

#[local] Hint Resolve mintCollection_framed fungible_mintCollection_framed nftsOneOwner_framed rftsOneOwner_framed
  ftsOneOwner_framed : core.

Lemma mint_tx_framed helper signer A (m : M A) : mint_tx helper signer A m -> Framed helper conforms m.
Proof.
  intros []; auto.
  all: unfold NFTGroup.mintCollection, RFTGroup.mintCollection, NFTGroup.mintToken, RFTGroup.mintToken,
    NFTGroup.mintMultipleTokens,
    RFTGroup.repartitionToken, RFTGroup.getTokenTotalPieces, unwrap_bigint, FTGroup.mintTokens,
    FTGroup.transfer, FTGroup.transferFrom, FTGroup.burnTokens,
    FTGroup.burnTokensFrom, FTGroup.approveTokens, CollectionGroup.transferToken,
    CollectionGroup.transferTokenFrom, CollectionGroup.burnToken, CollectionGroup.burnTokenFrom,
    CollectionGroup.approveToken.
  all: try (apply framed_bind; [by auto|]); solve_frame.
Qed.

Lemma account_tx_framed helper signer A (m : M A) :
  account_tx helper signer A m -> Framed helper conforms m.
Proof.
  intros [].
  all: unfold BalanceGroup.transferToSubstrate, SubstrateBalanceGroup.transferToSubstrate,
    EthereumBalanceGroup.transferToEthereum, BalanceGroup.setBalanceSubstrate,
    BalanceGroup.forceTransferToSubstrate, BalanceGroup.vestedTransfer, BalanceGroup.claim,
    StakingGroup.stake, StakingGroup.unstakeAll, StakingGroup.unstakePartial, PreimageGroup.notePreimage,
    PreimageGroup.unnotePreimage, PreimageGroup.requestPreimage, PreimageGroup.unrequestPreimage,
    UtilityGroup.batch, UtilityGroup.batchAll.
  all: try solve [solve_frame].
  apply framed_bind_lift. intros v Hv. apply framed_bind_lift. intros bytes Hb. pose proof (H _ _ Hv Hb) as Hh.
  destruct bytes; try discriminate Hh. unfold PreimageGroup.notePreimage. solve_frame.
Qed.

Lemma three_pallets (k a b c : jsstr) : k ∈ [a; b; c] -> k = a \/ k = b \/ k = c.
Proof. intros H. repeat (inversion_clear H as [|? ? ? H1]; [by auto|rename H1 into H]). by inversion H. Qed.

Lemma collective_tx_framed helper signer A (m : M A) :
  collective_tx helper signer A m -> Framed helper conforms m.
Proof.
  intros []; match goal with Hk : _ ∈ _ |- _ => apply three_pallets in Hk as [-> | [-> | ->]] end.
  all: unfold CollectiveGroup.propose, CollectiveGroup.vote, CollectiveGroup.execute, CollectiveGroup.close,
    CollectiveGroup.disapproveProposal, CollectiveGroup.checkExecutedEvent, CollectiveMembershipGroup.addMember,
    CollectiveMembershipGroup.removeMember, CollectiveMembershipGroup.resetMembers,
    CollectiveMembershipGroup.setPrime, CollectiveMembershipGroup.clearPrime.
  all: solve_frame.
Qed.

Lemma fellowship_tx_framed helper signer A (m : M A) :
  fellowship_tx helper signer A m -> Framed helper conforms m.
Proof.
  intros [].
  all: unfold RankedCollectiveGroup.addMember, RankedCollectiveGroup.removeMember,
    RankedCollectiveGroup.promote, RankedCollectiveGroup.demote, RankedCollectiveGroup.vote,
    ReferendaGroup.submit, ReferendaGroup.placeDecisionDeposit, ReferendaGroup.cancel.
  all: solve_frame.
Qed.

Lemma democracy_tx_framed helper signer A (m : M A) :
  democracy_tx helper signer A m -> Framed helper conforms m.
Proof.
  intros [].
  all: unfold DemocracyGroup.propose, DemocracyGroup.proposeWithPreimage, DemocracyGroup.second,
    DemocracyGroup.externalPropose, DemocracyGroup.externalProposeMajority,
    DemocracyGroup.externalProposeDefault, DemocracyGroup.externalProposeDefaultWithPreimage,
    DemocracyGroup.vetoExternal, DemocracyGroup.blacklist, DemocracyGroup.cancelProposal,
    DemocracyGroup.clearPublicProposals, DemocracyGroup.fastTrack, DemocracyGroup.emergencyCancel,
    DemocracyGroup.vote, DemocracyGroup.removeVote, DemocracyGroup.unlock, DemocracyGroup.delegate,
    DemocracyGroup.undelegate.
  all: try (match goal with H : hex_call _ |- _ =>
              apply framed_bind_lift; intros v Hv; pose proof (inline_call_fits _ _ H Hv) end).
  all: solve_frame.
Qed.

Lemma test_tx_framed helper signer A (m : M A) : test_tx helper signer A m -> Framed helper conforms m.
Proof.
  intros [].
  all: unfold SchedulerGroup.cancelScheduled, CollatorSelectionGroup.addInvulnerable,
    CollatorSelectionGroup.removeInvulnerable, CollatorSelectionGroup.setLicenseBond,
    CollatorSelectionGroup.obtainLicense, CollatorSelectionGroup.releaseLicense,
    CollatorSelectionGroup.forceReleaseLicense, CollatorSelectionGroup.onboard,
    CollatorSelectionGroup.offboard, SessionGroup.setOwnKeysFromAddress, SessionGroup.setOwnKeys,
    TestUtilGroup.setTestValue, TestUtilGroup.incTestValue, TestUtilGroup.setTestValueAndRollback,
    TestUtilGroup.justTakeFee, TestUtilGroup.run, AdminGroup.payoutStakers, ForeignAssetsGroup.register, UniqueUtil.str2vec,
    XcmGroup.transferAssets, XcmGroup.limitedReserveTransferAssets, XcmGroup.setSafeXcmVersion,
    XcmGroup.teleportAssets, XcmGroup.send, XTokensGroup.transfer,
    XTokensGroup.transferMultiasset, XTokensGroup.transferMultiassets, XTokensGroup.transferMulticurrencies,
    run.
  all: solve_frame.
Qed.

(** ** Reads of storage and of the chain *)

Inductive storage_read helper : forall A, M A -> Prop :=
  | sr_relayBlock : storage_read helper _ (ChainGroup.getRelayBlockNumber helper)
  | sr_nonce a : storage_read helper _ (ChainGroup.getNonce helper a)
  | sr_substrate a : storage_read helper _ (SubstrateBalanceGroup.getSubstrate helper a)
  | sr_substrateFull a : storage_read helper _ (SubstrateBalanceGroup.getSubstrateFull helper a)
  | sr_issuance : storage_read helper _ (SubstrateBalanceGroup.getTotalIssuance helper)
  | sr_locked a : storage_read helper _ (SubstrateBalanceGroup.getLocked helper a)
  | sr_vesting a : storage_read helper _ (BalanceGroup.getVestingSchedules helper a)
  | sr_stakesNumber a : storage_read helper _ (StakingGroup.getStakesNumber helper a)
  | sr_preimageInfo h : storage_read helper _ (PreimageGroup.getPreimageInfo helper h)
  | sr_members k : k ∈ collective_pallets -> storage_read helper _ (CollectiveGroup.getMembers helper k)
  | sr_prime k : k ∈ collective_pallets -> storage_read helper _ (CollectiveGroup.getPrimeMember helper k)
  | sr_proposals k : k ∈ collective_pallets -> storage_read helper _ (CollectiveGroup.getProposals helper k)
  | sr_proposalCall k h : k ∈ collective_pallets ->
      storage_read helper _ (CollectiveGroup.getProposalCallOf helper k h)
  | sr_proposalsCount k : k ∈ collective_pallets ->
      storage_read helper _ (CollectiveGroup.getTotalProposalsCount helper k)
  | sr_membership k : k ∈ membership_pallets ->
      storage_read helper _ (CollectiveMembershipGroup.getMembers helper k)
  | sr_membershipPrime k : k ∈ membership_pallets ->
      storage_read helper _ (CollectiveMembershipGroup.getPrimeMember helper k)
  | sr_rank a : storage_read helper _ (RankedCollectiveGroup.getMemberRank helper a)
  | sr_fellowReferendum i :
      storage_read helper _ (ReferendaGroup.referendumInfo helper (js "fellowshipReferenda") i)
  | sr_referendum i : storage_read helper _ (DemocracyGroup.referendumInfo helper i)
  | sr_publicProposals : storage_read helper _ (DemocracyGroup.publicProposals helper)
  | sr_publicProposal i : storage_read helper _ (DemocracyGroup.expectPublicProposal helper i)
  | sr_externalProposal : storage_read helper _ (DemocracyGroup.expectExternalProposal helper)
  | sr_invulnerables : storage_read helper _ (CollatorSelectionGroup.getInvulnerables helper)
  | sr_desiredCollators : storage_read helper _ (CollatorSelectionGroup.getDesiredCollators helper)
  | sr_licenseBond : storage_read helper _ (CollatorSelectionGroup.getLicenseBond helper)
  | sr_hasLicense a : storage_read helper _ (CollatorSelectionGroup.hasLicense helper a)
  | sr_candidates : storage_read helper _ (CollatorSelectionGroup.getCandidates helper)
  | sr_session : storage_read helper _ (SessionGroup.getIndex helper)
  | sr_latestBlock : storage_read helper _ (ChainGroup.getLatestBlockNumber helper)
  | sr_blockHash n : storage_read helper _ (ChainGroup.getBlockHashByNumber helper (JNum n))
  | sr_block h : storage_read helper _ (ChainGroup.getBlock helper (JStr h))
  | sr_findProposal i : storage_read helper _ (DemocracyGroup.findPublicProposal helper i)
  | sr_nextExternal : storage_read helper _ (DemocracyGroup.getExternalProposal helper)
  | sr_testValue i : storage_read helper _ (TestUtilGroup.testValue helper i)
  | sr_ethereum a : storage_read helper _ (BalanceGroup.getEthereum helper a)
  | sr_foreignCollection a : storage_read helper _ (ForeignAssetsGroup.foreignCollectionId helper a).

Lemma storage_read_framed helper A (m : M A) : storage_read helper A m -> Framed helper conforms m.
Proof.
  intros []; try match goal with Hk : _ ∈ _ |- _ => apply three_pallets in Hk as [-> | [-> | ->]] end.
  all: unfold ChainGroup.getRelayBlockNumber, SubstrateBalanceGroup.getSubstrate,
    SubstrateBalanceGroup.getSubstrateFull, SubstrateBalanceGroup.account_data,
    SubstrateBalanceGroup.getTotalIssuance, SubstrateBalanceGroup.getLocked, BalanceGroup.getVestingSchedules,
    StakingGroup.getStakesNumber, PreimageGroup.getPreimageInfo, CollectiveGroup.getMembers,
    CollectiveGroup.getPrimeMember, CollectiveGroup.getProposals, CollectiveGroup.getProposalCallOf,
    CollectiveGroup.getTotalProposalsCount, CollectiveMembershipGroup.getMembers,
    CollectiveMembershipGroup.getPrimeMember, RankedCollectiveGroup.getMemberRank,
    ReferendaGroup.referendumInfo, DemocracyGroup.referendumInfo, DemocracyGroup.expectPublicProposal,
    DemocracyGroup.findPublicProposal, DemocracyGroup.publicProposals, DemocracyGroup.expectExternalProposal,
    DemocracyGroup.getExternalProposal, CollatorSelectionGroup.getInvulnerables,
    CollatorSelectionGroup.getDesiredCollators, CollatorSelectionGroup.getLicenseBond,
    CollatorSelectionGroup.hasLicense, CollatorSelectionGroup.getCandidates, CollatorSelectionGroup.human_list,
    ChainGroup.getLatestBlockNumber, ChainGroup.getBlockHashByNumber,
    ChainGroup.getBlock, TestUtilGroup.testValue, BalanceGroup.getEthereum, EthereumBalanceGroup.getEthereum, SessionGroup.getIndex, ForeignAssetsGroup.foreignCollectionId.
  all: try match goal with i : option Z |- _ => destruct i as [[]|] end.
  all: try match goal with h : jsstr |- context [negb] => apply (framed_value_bind _ _ (JStr h)) end.
  all: solve_frame.
Qed.

(** ** The interface *)

(** The methods of the client and of the test helper that submit an extrinsic
    to the chain or read its storage. *)
Inductive uses_interface helper : forall A, M A -> Prop :=
  | ui_collection signer A m : collection_tx helper signer A m -> uses_interface helper A m
  | ui_token signer A m : token_tx helper signer A m -> uses_interface helper A m
  | ui_mint signer A m : mint_tx helper signer A m -> uses_interface helper A m
  | ui_account signer A m : account_tx helper signer A m -> uses_interface helper A m
  | ui_collective signer A m : collective_tx helper signer A m -> uses_interface helper A m
  | ui_fellowship signer A m : fellowship_tx helper signer A m -> uses_interface helper A m
  | ui_democracy signer A m : democracy_tx helper signer A m -> uses_interface helper A m
  | ui_test signer A m : test_tx helper signer A m -> uses_interface helper A m
  | ui_enable pallet : uses_interface helper _ (TestUtilGroup.enable helper pallet)
  | ui_storage A m : storage_read helper A m -> uses_interface helper A m.

(** A clone starts with an empty log. *)
Lemma clone_all_logged P this mixin s o s' :
  ChainHelperBase.clone this mixin s = (o, s') -> all_logged P s -> all_logged P s'.
Proof.
  intros H Hs. destruct (st_helpers s !! this) as [h|] eqn:Hh.
  - rewrite (clone_run _ _ _ _ Hh) in H. injection H as _ <-. intros l h' Hl. cbn in Hl.
    apply lookup_app_Some in Hl as [Hl|[_ Hl]].
    + rewrite list_lookup_alter in Hl. destruct (decide (this = l)) as [<-|_]; [|by apply (Hs l)].
      rewrite Hh in Hl. injection Hl as <-. exact (Hs this h Hh).
    + apply list_lookup_singleton_Some in Hl as [_ <-]. constructor.
  - unfold ChainHelperBase.clone in H. cbn [bind M_monad] in H. unfold get_this in H. rewrite Hh in H.
    by injection H as _ <-.
Qed.

(** [enable] works through a new sudo helper. *)
Lemma enable_conforms helper pallet s o s' :
  TestUtilGroup.enable helper pallet s = (o, s') -> all_logged conforms s -> all_logged conforms s'.
Proof.
  unfold TestUtilGroup.enable. intros H Hs.
  assert (Framed helper conforms (ChainHelperBase.fetchMissingPalletNames helper [pallet])) as Hf
    by (unfold ChainHelperBase.fetchMissingPalletNames, ChainHelperBase.fetchAllPalletNames; solve_frame).
  apply bind_inv in H as [(missing & s1 & Hm & H)|[(e & Hm & _)|[Hm _]]];
    apply (framed_all_logged _ _ _ _ _ _ Hf) in Hm; try done.
  destruct missing as [|p l]; [|injection H as _ <-; auto].
  apply bind_inv in H as [(sudo & s2 & Hc & H)|[(e & Hc & _)|[Hc _]]];
    apply (clone_all_logged conforms) in Hc; auto.
  assert (forall signer, Framed sudo conforms (exec sudo signer (js "api.tx.testUtils.enable") [];; mreturn tt)) as Hx
    by (intros; solve_frame).
  by apply (framed_all_logged _ _ _ _ _ _ (Hx _)) in H.
Qed.

Lemma uses_interface_conforms helper A (m : M A) s o s' :
  uses_interface helper A m -> m s = (o, s') -> all_logged conforms s -> all_logged conforms s'.
Proof.
  intros Hm. revert o s'. destruct Hm as [? ? ? Hm|? ? ? Hm|? ? ? Hm|? ? ? Hm|? ? ? Hm|? ? ? Hm|? ? ? Hm|? ? ? Hm|pallet|? ? Hm];
    intros o s' H; [..|by eapply enable_conforms|]; revert H; apply framed_all_logged with helper.
  - by eapply collection_tx_framed.
  - by eapply token_tx_framed.
  - by eapply mint_tx_framed.
  - by eapply account_tx_framed.
  - by eapply collective_tx_framed.
  - by eapply fellowship_tx_framed.
  - by eapply democracy_tx_framed.
  - by eapply test_tx_framed.
  - by apply storage_read_framed.
Qed.

(** C10: The methods of the client and of the test helper that execute an
    extrinsic on this chain, all but [changePriority], [selfCancelingInc] and
    [teleportNativeAsset], submit only extrinsics that the chain declares, with as
    many parameters as are declared and each a value of its type: every key of an
    object is a field or a variant of the described type, down to the last. This
    holds whatever the class of the helper: the calls that sudo and scheduled
    helpers, also nested ones, wrap in their own extrinsics are made from
    extrinsics that fit in the same way. The structured arguments of the caller
    must be values of their types; flags of a new fungible collection must be
    given as the chain has them. The listed reads name a declared storage item or
    RPC method, with parameters that fit; those of the unique and appPromotion
    methods are checked elsewhere, and what the code reads on the connection
    itself is not logged. When all entries of the chain logs fit the interface,
    so they do after the method, however it ends. *)
Theorem client_extrinsics_fit helper A (m : M A) s o s' :
  uses_interface helper A m -> all_logged conforms s -> m s = (o, s') -> all_logged conforms s'.
Proof. intros Hm Hs H. by eapply uses_interface_conforms. Qed.

End Calls.

(** ** Calls that the chain does not have *)

Section Undeclared.
Context {N : NodeApi} {C : Crypto}.
Implicit Types helper : nat.

(** A connection that has the declared pallets and, in them, the declared
    extrinsics. *)
Record only_declared (api : Api) : Prop := {
  od_tx : api_has api [js "tx"] = true;
  od_section : forall sec, api_has api [js "tx"; sec] = bool_decide (is_Some (entry sec extrinsics));
  od_name : forall sec name,
    api_has api [js "tx"; sec; name] = bool_decide (is_Some (extrinsic_at sec name)) }.

(** The message of [constructApiCall] for a missing part without an
    underscore. *)
Definition not_found (part call : jsstr) : exn :=
  JSError (js "Function " ++ part ++ js " of api call " ++ call ++ js " not found.").

(** An extrinsic that the chain has not, in a pallet that it has. *)
Record absent (call sec name : jsstr) : Prop := {
  ab_call : startsWith (js "api.") call = true;
  ab_parts : split_unit 46 (drop 4 call) = [js "tx"; sec; name];
  ab_section : is_Some (entry sec extrinsics);
  ab_name : extrinsic_at sec name = None;
  ab_camel : includes (js "_") name = false }.

Lemma construct_absent helper h api call sec name ps s :
  st_helpers s !! helper = Some h -> hs_api h = Some api -> only_declared api -> absent call sec name ->
  constructApiCall helper call ps s = (Throw (not_found name call), s).
Proof.
  intros Hh Ha [Ht Hs Hn] [Hc Hp [rows Hr] He Hu]. unfold constructApiCall. rewrite Hc. cbn [negb].
  rewrite (bind_Ret _ _ _ api s); [|unfold getApi; by rewrite (bind_Ret _ _ _ h s), Ha by by apply get_this_Some].
  rewrite Hp. cbn [find_call app]. rewrite Ht, Hs, Hn, He, Hr.
  rewrite bool_decide_true by done. rewrite bool_decide_false by by intros [].
  rewrite Hu. unfold lift, bind, not_found. by rewrite !app_nil_r.
Qed.

Lemma execute_absent helper h api call sec name signer ps es o s :
  st_helpers s !! helper = Some h -> hs_api h = Some api -> only_declared api -> absent call sec name ->
  exists s', executeExtrinsic helper signer call ps es o s = (Throw (not_found name call), s')
    /\ st_helpers s' = st_helpers s.
Proof.
  intros Hh Ha Hd Hc. unfold executeExtrinsic. rewrite (bind_Ret _ _ _ h s) by by apply get_this_Some.
  destruct (hs_class h); cbn [class_executeExtrinsic].
  - unfold ChainHelperBase.base_executeExtrinsic. rewrite (bind_Ret _ _ _ h s), Ha by by apply get_this_Some.
    destruct (now (st_world s)) as [t w] eqn:En. set (s1 := mkState (st_helpers s) (st_logger s) w).
    exists s1. split; [|done]. rewrite (bind_Ret _ _ _ t s1) by (unfold current_time; by rewrite En).
    apply bind_Throw. unfold ChainHelperBase.submit, catch.
    rewrite (bind_Throw _ _ _ (not_found name call) s1); [done|]. by eapply construct_absent.
  - eexists. split; [|reflexivity]. unfold SudoHelper.executeExtrinsic. apply bind_Throw.
    by eapply construct_absent.
  - eexists. split; [|reflexivity]. unfold ScheduledUniqueHelper.executeExtrinsic. apply bind_Throw.
    by eapply construct_absent.
Qed.

Lemma changeNamedPriority_absent :
  absent (js "api.tx.scheduler.changeNamedPriority") (js "scheduler") (js "changeNamedPriority").
Proof. split; vm_compute; eauto. Qed.

Lemma selfCancelingInc_absent :
  absent (js "api.tx.testUtils.selfCancelingInc") (js "testUtils") (js "selfCancelingInc").
Proof. split; vm_compute; eauto. Qed.

(** A native teleport wraps its arguments in a version of the XCM format that
    the chain's types do not have. *)
Lemma native_teleport_misfits helper signer para account amount v tag :
  XcmGroup.version_tag v = Some tag ->
  exists params,
    XcmGroup.teleportNativeAsset helper (js "polkadotXcm") signer para account amount v
    = Xcm.run helper signer (js "api.tx.polkadotXcm.teleportAssets") params
    /\ ~ tx_fits (js "api.tx.polkadotXcm.teleportAssets") params.
Proof.
  intros Hv. unfold XcmGroup.teleportNativeAsset. rewrite Hv. eexists. split; [reflexivity|].
  intros (sec & name & ps & Hp & He & Hf). vm_compute in Hp. injection Hp as <- <-. vm_compute in He. injection He as <-.
  inversion_clear Hf as [|? ? ? ? (t & Ht & Hfit) _]. vm_compute in Ht. injection Ht as <-.
  revert Hfit. unfold XcmGroup.version_tag in Hv.
  destruct (v =? 2); [|destruct (v =? 3); [|discriminate Hv]]; injection Hv as <-;
    (eapply no_such_variant; [vm_compute; reflexivity|by vm_compute]).
Qed.

(** C23: Two methods of the test helper call extrinsics that the declared chain
    does not have: changing the priority of a named call, and the self
    cancelling increment of the test pallet. On a connection that offers the
    declared extrinsics only, whatever the class of the helper, both throw the
    error that names the missing function, and neither logs anything. A third,
    the native teleport, submits for each version of the XCM format that it
    takes an extrinsic whose parameters are not values of the declared types. *)
Theorem undeclared_methods_fail helper h api signer scheduledId n s :
  st_helpers s !! helper = Some h -> hs_api h = Some api -> only_declared api ->
  (exists s', SchedulerGroup.changePriority helper signer scheduledId n s
     = (Throw (not_found (js "changeNamedPriority") (js "api.tx.scheduler.changeNamedPriority")), s')
     /\ st_helpers s' = st_helpers s)
  /\ (exists s', TestUtilGroup.selfCancelingInc helper signer scheduledId n s
     = (Throw (not_found (js "selfCancelingInc") (js "api.tx.testUtils.selfCancelingInc")), s')
     /\ st_helpers s' = st_helpers s)
  /\ (forall para account amount v tag, XcmGroup.version_tag v = Some tag -> exists params,
        XcmGroup.teleportNativeAsset helper (js "polkadotXcm") signer para account amount v
        = Xcm.run helper signer (js "api.tx.polkadotXcm.teleportAssets") params
        /\ ~ tx_fits (js "api.tx.polkadotXcm.teleportAssets") params).
Proof.
  intros Hh Ha Hd. split; [|split; [|intros; by eapply native_teleport_misfits]].
  - by apply (execute_absent _ _ _ _ _ _ _ _ _ _ _ Hh Ha Hd changeNamedPriority_absent).
  - destruct (execute_absent _ _ _ _ _ _ signer [JStr scheduledId; JNum (Int n)] true None _ Hh Ha Hd
                selfCancelingInc_absent) as (s' & He & Hs).
    exists s'. split; [|done]. by apply bind_Throw.
Qed.

End Undeclared.

(** ** Typed events *)

(** The typed events of the test helper that the chain declares. *)
Definition declared_events : list IEventHelper := [
  Democracy.Proposed; Democracy.Started; Democracy.Voted; Democracy.Passed; Democracy.ProposalCanceled;
  Democracy.Cancelled; Council.Proposed; Council.Closed; Council.Executed; FinCouncil.Proposed;
  FinCouncil.Closed; FinCouncil.Executed; TechnicalCommittee.Proposed; TechnicalCommittee.Closed;
  TechnicalCommittee.Approved; TechnicalCommittee.Executed; FellowshipReferenda.Submitted;
  FellowshipReferenda.Cancelled; Scheduler.Dispatched; XcmpQueue.XcmpMessageSent; PolkadotXcm.Sent;
  MessageQueue.Processed].

(** Those that it does not. *)
Definition undeclared_events : list IEventHelper := [
  Scheduler.PriorityChanged; XcmpQueue.Success; XcmpQueue.Fail; XcmPallet.Sent; DmpQueue.ExecutedDownward].

(** The declared field that a property of a wrapped event stands for: the one
    of the same name, or one of these. *)
Definition names_field (k : jsstr) (field : string) : Prop :=
  k = js field
  \/ (k = js "referendumIndex" /\ (field = "refIndex"%string \/ field = "index"%string))
  \/ (k = js "propIndex" /\ field = "refIndex"%string)
  \/ (k = js "trackId" /\ field = "track"%string).

(** A datum that reads as [v], both as JSON and for humans. *)
Definition reads_as (v : jsval) : jsval := codec [(js "toJSON", v); (js "toHuman", v)].

(** The properties of a wrapped event are fields that its declaration has and
    that they name. *)
Definition reads_named_fields (e : IEventHelper) : Prop :=
  exists fields, event_at (eh_section e) (eh_method e) = Some fields
  /\ forall vs, length vs = length fields ->
     exists props, wrapEvent e (map reads_as vs) = Ret (obj props)
     /\ Forall (fun kv => exists i field v, combine (map fst fields) vs !! i = Some (field, v)
          /\ names_field kv.1 field /\ (kv.2 = v \/ kv.2 = reads_as v)) props.

#[local] Ltac named_field n :=
  exists n; do 2 eexists; split; [reflexivity|];
  split; [unfold names_field; cbn [fst]; tauto|cbn [snd]; tauto].

(** C20: The typed events of the test helper that the chain declares read what
    they name: from data of the declared length, each property of the wrapped
    event is the declared field of that name, or of one of four known aliases,
    and none of them throws. The one exception is the veto of an external
    proposal, whose block is read from the field with the hash of the proposal.
    Five typed events are not declared by this chain. *)
Theorem typed_events_read_named_fields :
  Forall reads_named_fields declared_events
  /\ (forall who hash until, wrapEvent Democracy.Vetoed (map reads_as [who; hash; until])
        = Ret (obj [(js "who", who); (js "proposalHash", hash); (js "until", hash)]))
  /\ event_at (js "democracy") (js "Vetoed")
     = Some [("who", "AccountId32"); ("proposalHash", "H256"); ("until", "u32")]%string
  /\ Forall (fun e => event_at (eh_section e) (eh_method e) = None) undeclared_events.
Proof.
  split; [|split; [done|split; [by vm_compute|by repeat (constructor; [by vm_compute|])]]].
  unfold declared_events. repeat (apply List.Forall_cons; [|]); [..|by constructor].
  all: unfold reads_named_fields; eexists; split; [vm_compute; reflexivity|].
  all: intros vs Hl; repeat (destruct vs as [|? vs]; try discriminate Hl); clear Hl.
  all: eexists; split; [reflexivity|].
  all: repeat (apply List.Forall_cons; [first [named_field 0%nat|named_field 1%nat|named_field 2%nat|named_field 3%nat]|]);
    by constructor.
Qed.
