(* ===== verification/Calibrate.v ===== *)
(** * Exact fractions and the stack calculator of the calibration script

    [scripts/calibrate.ts] fits a line through measured prices with exact
    arithmetic: class [Fract] is a pair of bigints, [rpn] evaluates postfix
    programs over fractions, [linearRegression] is written in that calculator.
    Bigint division truncates and throws a [RangeError] on a zero divisor.
    [toNumber], which gives a double, is not modelled. *)

From Stdlib Require Import Ascii String.
From stdpp Require Import list.
From S2P Require Import Prelude JsString JsValue.

#[local] Set Warnings "-register-all".

Open Scope Z_scope.
Open Scope js_scope.

(** [x / y] on bigints. *)
Definition bigint_div (x y : Z) : Res Z :=
  if y =? 0 then Throw EngineError else Ret (Z.quot x y).

Record Fract : Type := mkFract {
  num : Z;
  den : Z }.

#[export] Instance Fract_eq_dec : EqDecision Fract.
Proof. solve_decision. Defined.

(** ** Class [Fract] *)

Module Fract.

(** [new Fract(a, b)]. *)
Definition new_Fract (a b : Z) : Res Fract :=
  if b =? 0 then Throw (JSError (js "division by zero"))
  else if b <? 0 then Throw (JSError (js "missing normalization"))
  else Ret (mkFract a b).

(** [Fract.ZERO]. *)
Definition ZERO : Fract := mkFract 0 1.

(** The loop of [gcd], for at most [fuel] rounds. *)
Fixpoint gcd_loop (fuel : nat) (x y : Z) : option Z :=
  if y =? 0 then Some x
  else match fuel with
       | O => None
       | S fuel' => gcd_loop fuel' y (Z.rem x y)
       end.

(** Two rounds halve the divisor. *)
Definition gcd_fuel (y : Z) : nat := 2 * S (Z.to_nat (Z.log2 y)).

(** [gcd] of [optimize]; a loop that does not end within the fuel counts as
    one that never ends. *)
Definition gcd (x y : Z) : Res Z :=
  let x := if x <? 0 then - x else x in
  let y := if y <? 0 then - y else y in
  match gcd_loop (gcd_fuel y) x y with
  | Some v => Ret v
  | None => Pending
  end.

Definition optimize (this : Fract) : Res Fract :=
  v ← gcd (num this) (den this);
  a ← bigint_div (num this) v;
  b ← bigint_div (den this) v;
  new_Fract a b.

Definition mul (this other : Fract) : Res Fract :=
  f ← new_Fract (num this * num other) (den this * den other);
  optimize f.

Definition inv (this : Fract) : Res Fract :=
  if num this <? 0 then new_Fract (- den this) (- num this)
  else new_Fract (den this) (num this).

Definition div (this other : Fract) : Res Fract :=
  f ← inv other; mul this f.

Definition plus (this other : Fract) : Res Fract :=
  if den this =? den other then new_Fract (num this + num other) (den this)
  else
    f ← new_Fract (num this * den other + num other * den this) (den this * den other);
    optimize f.

Definition neg (this : Fract) : Res Fract := new_Fract (- num this) (den this).

Definition minus (this other : Fract) : Res Fract :=
  f ← neg other; plus this f.

Definition toBigInt (this : Fract) : Res Z := bigint_div (num this) (den this).

Definition toString (this : Fract) : Res jsstr :=
  v ← optimize this;
  Ret (number_toString (num v) ++ js " / " ++ number_toString (den v)).

Definition lt (this other : Fract) : bool := num this * den other <? num other * den this.

Definition eq (this other : Fract) : bool := num this * den other =? num other * den this.

End Fract.

(** ** The calculator *)

Inductive Op : Type :=
  | OpFract (f : Fract)
  | OpPlus
  | OpMinus
  | OpMul
  | OpDiv
  | OpDup
  | OpSub (ops : list Op).

(** A stack is kept with its top first. *)
Definition binary (f : Fract -> Fract -> Res Fract) (stack : list Fract) : Res (list Fract) :=
  match stack with
  | b :: a :: stack' => r ← f a b; Ret (r :: stack')
  | _ => Throw (JSError (js "stack underflow"))
  end.

(** The end of [rpn]. *)
Definition only_element (stack : list Fract) : Res Fract :=
  match stack with
  | [f] => Ret f
  | _ => Throw (JSError (js "one element should be left on stack"))
  end.

(** One round of the loop of [rpn]. *)
Fixpoint rpn_op (stack : list Fract) (op : Op) {struct op} : Res (list Fract) :=
  match op with
  | OpFract f => Ret (f :: stack)
  | OpPlus => binary Fract.plus stack
  | OpMul => binary Fract.mul stack
  | OpMinus => binary Fract.minus stack
  | OpDiv => binary Fract.div stack
  | OpDup =>
      match stack with
      | a :: stack' => Ret (a :: a :: stack')
      | [] => Throw (JSError (js "stack underflow"))
      end
  | OpSub ops =>
      inner ← (fix loop (st : list Fract) (l : list Op) : Res (list Fract) :=
        match l with
        | [] => Ret st
        | o :: l' => st' ← rpn_op st o; loop st' l'
        end) [] ops;
      f ← only_element inner;
      Ret (f :: stack)
  end.

Definition rpn (ops : list Op) : Res Fract :=
  stack ← for_each rpn_op [] ops; only_element stack.

(** ** Square root

    [depth] is the number of nested calls the engine's stack has room for; one
    call too many is a [RangeError]. *)

Fixpoint newtonIteration (depth : nat) (n x0 : Fract) : Res Fract :=
  match depth with
  | O => Throw EngineError
  | S depth' =>
      two ← Fract.new_Fract 2 1;
      x1 ← rpn [OpFract n; OpFract x0; OpDiv; OpFract x0; OpPlus; OpFract two; OpDiv];
      if Fract.eq x0 x1 then Ret x0
      else
        one ← Fract.new_Fract 1 1;
        d ← Fract.minus x1 one;
        if Fract.eq x0 d then Ret x0 else newtonIteration depth' n x1
  end.

Definition sqrt (depth : nat) (this : Fract) : Res Fract :=
  if num this <? 0 then
    Throw (JSError (js "square root of negative numbers is not supported"))
  else
    two ← Fract.new_Fract 2 1;
    if Fract.lt this two then Ret this
    else one ← Fract.new_Fract 1 1; newtonIteration depth this one.

(** ** Fitting a line *)

(** A measured point, with fields [x] and [y]. *)
Abbreviation Point := (Fract * Fract)%type.

Record Sums : Type := mkSums {
  sumxy : Fract;
  sumx : Fract;
  sumy : Fract;
  sumx2 : Fract }.

(** The body of the loop of [linearRegression]. *)
Definition add_point (s : Sums) (p : Point) : Res Sums :=
  let '(x, y) := p in
  sumxy' ← rpn [OpFract x; OpFract y; OpMul; OpFract (sumxy s); OpPlus];
  sumx' ← Fract.plus (sumx s) x;
  sumy' ← Fract.plus (sumy s) y;
  sumx2' ← rpn [OpFract x; OpFract x; OpMul; OpFract (sumx2 s); OpPlus];
  Ret (mkSums sumxy' sumx' sumy' sumx2').

(** The slope and the intercept, the fields [a] and [b] of the result. *)
Definition linearRegression (points : list Point) : Res (Fract * Fract) :=
  s ← for_each add_point (mkSums Fract.ZERO Fract.ZERO Fract.ZERO Fract.ZERO) points;
  nb ← Fract.new_Fract (Z.of_nat (length points)) 1;
  a ← rpn [
    OpSub [OpFract nb; OpFract (sumxy s); OpMul; OpFract (sumx s); OpFract (sumy s); OpMul; OpMinus];
    OpSub [OpFract nb; OpFract (sumx2 s); OpMul; OpFract (sumx s); OpFract (sumx s); OpMul; OpMinus];
    OpDiv];
  b ← rpn [
    OpSub [OpFract (sumy s); OpFract a; OpFract (sumx s); OpMul; OpMinus];
    OpFract nb;
    OpDiv];
  Ret (a, b).

Definition hypothesisLinear (a b x : Fract) : Res Fract :=
  rpn [OpFract x; OpFract a; OpMul; OpFract b; OpPlus].
