(* ===== verification/CalibrateFacts.v ===== *)
(** * Exact arithmetic of the calibration script: theorems

    A well-formed fraction stands for a rational of the Standard Library; every
    operation of [Fract] keeps fractions well formed and computes the rational
    operation, the calculator computes the expression its program is the
    postfix form of, and [linearRegression] gives the line of least squares. *)

From Stdlib Require Import Ascii String QArith Qfield Lqa.
From stdpp Require Import list.
From S2P Require Import Prelude JsString JsValue Calibrate.

Open Scope Z_scope.
Open Scope js_scope.

(** ** Euclid's loop ends *)

Lemma gcd_step x y : y <> 0 -> Z.gcd x y = Z.gcd y (x mod y).
Proof. intros Hy. by rewrite (Z.gcd_comm y), Z.gcd_mod, Z.gcd_comm. Qed.

Lemma gcd_loop_halves n : forall x y,
  0 <= x -> 0 <= y < 2 ^ Z.of_nat n ->
  Fract.gcd_loop (2 * n) x y = Some (Z.gcd x y).
Proof.
  induction n as [|n IH]; intros x y Hx Hy.
  - assert (y = 0) as -> by (simpl in Hy; lia). simpl. f_equal.
    by rewrite Z.gcd_0_r, Z.abs_eq.
  - replace (2 * S n)%nat with (S (S (2 * n))) by lia.
    destruct (Z.eqb_spec y 0) as [->|Hy0].
    { simpl. by rewrite Z.gcd_0_r, Z.abs_eq. }
    cbn [Fract.gcd_loop]. apply Z.eqb_neq in Hy0 as Hb. rewrite Hb.
    rewrite Z.rem_mod_nonneg by lia.
    pose proof (Z.mod_pos_bound x y ltac:(lia)) as Hm.
    rewrite (gcd_step x y Hy0).
    destruct (Z.eqb_spec (x mod y) 0) as [->|Hr0].
    { by rewrite Z.gcd_0_r, Z.abs_eq by lia. }
    rewrite Z.rem_mod_nonneg by lia.
    pose proof (Z.mod_pos_bound y (x mod y) ltac:(lia)).
    rewrite (gcd_step y (x mod y) Hr0). apply IH; [lia|].
    pose proof (Z.div_mod y (x mod y) Hr0).
    assert (1 <= y / (x mod y)) by (apply Z.div_le_lower_bound; lia).
    rewrite Nat2Z.inj_succ, Z.pow_succ_r in Hy by lia. nia.
Qed.

Lemma gcd_Ret x y : Fract.gcd x y = Ret (Z.gcd x y).
Proof.
  unfold Fract.gcd.
  replace (if x <? 0 then - x else x) with (Z.abs x) by (destruct (Z.ltb_spec x 0); lia).
  replace (if y <? 0 then - y else y) with (Z.abs y) by (destruct (Z.ltb_spec y 0); lia).
  unfold Fract.gcd_fuel. rewrite gcd_loop_halves; [by rewrite Z.gcd_abs_l, Z.gcd_abs_r|lia|].
  split; [lia|]. rewrite Nat2Z.inj_succ, Z2Nat.id by apply Z.log2_nonneg.
  destruct (Z.eq_dec y 0) as [->|]; [done|]. apply Z.log2_spec. lia.
Qed.

(** ** Fractions and rationals *)

Definition wf (f : Fract) : Prop := 0 < den f.

(** The rational a fraction stands for. *)
Definition value (f : Fract) : Q := num f # Z.to_pos (den f).

(** [o] is a well-formed fraction of value [q]. *)
Definition denotes (o : Res Fract) (q : Q) : Prop :=
  exists f, o = Ret f /\ wf f /\ (value f == q)%Q.

#[global] Instance denotes_proper o : Proper (Qeq ==> iff) (denotes o).
Proof.
  intros p q Hpq. by split; intros (f & ? & ? & H); exists f; rewrite H; rewrite Hpq.
Qed.

Lemma value_eq f g : wf f -> wf g ->
  (value f == value g)%Q <-> num f * den g = num g * den f.
Proof.
  intros Hf Hg. unfold Qeq, value. cbn [Qnum Qden]. by rewrite !Z2Pos.id.
Qed.

Lemma new_Fract_pos a b : 0 < b -> Fract.new_Fract a b = Ret (mkFract a b).
Proof.
  intros Hb. unfold Fract.new_Fract.
  rewrite (proj2 (Z.eqb_neq b 0)), (proj2 (Z.ltb_ge b 0)) by lia. done.
Qed.

Lemma denotes_ret f q : wf f -> (value f == q)%Q -> denotes (Ret f) q.
Proof. intros Hw Hv. by exists f. Qed.

Lemma optimize_denotes f : wf f ->
  exists g, Fract.optimize f = Ret g /\ wf g /\ (value g == value f)%Q
    /\ Z.gcd (num g) (den g) = 1.
Proof.
  destruct f as [a b]. unfold wf. cbn [den]. intros Hb. unfold Fract.optimize. rewrite gcd_Ret.
  cbn [num den bind outcome_monad].
  assert (0 < Z.gcd a b) as Hg.
  { pose proof (Z.gcd_nonneg a b). enough (Z.gcd a b <> 0) by lia.
    intros H0%Z.gcd_eq_0. lia. }
  unfold bigint_div.
  rewrite (proj2 (Z.eqb_neq _ _)) by lia. cbn [bind outcome_monad].
  destruct (Z.gcd_divide_l a b) as [a' Ha]. destruct (Z.gcd_divide_r a b) as [b' Hb'].
  set (g := Z.gcd a b) in *.
  assert (Z.quot a g = a') as -> by (rewrite Ha at 1; apply Z.quot_mul; lia).
  assert (Z.quot b g = b') as -> by (rewrite Hb' at 1; apply Z.quot_mul; lia).
  assert (0 < b') by nia. rewrite new_Fract_pos by done.
  exists (mkFract a' b'). split_and!; [done|done| |].
  - apply value_eq; [done|done|]. cbn [num den]. rewrite Ha, Hb' at 1. ring.
  - cbn [num den]. assert (g * Z.gcd a' b' = g * 1) as Hm; [|nia].
    rewrite <- Z.gcd_mul_mono_l_nonneg by lia.
    rewrite (Z.mul_comm g a'), (Z.mul_comm g b'), <- Ha, <- Hb'. unfold g. lia.
Qed.

(** An equation of values as one of integers. *)
Ltac values :=
  unfold value, Qeq, Qplus, Qmult, Qopp, Qminus, Qinv; cbn [Qnum Qden num den];
  rewrite ?Pos2Z.inj_mul, ?Z2Pos.id by (unfold wf in *; cbn [den] in *; nia).

Lemma make_optimize_denotes a b q : 0 < b -> (value (mkFract a b) == q)%Q ->
  denotes (f ← Fract.new_Fract a b; Fract.optimize f) q.
Proof.
  intros Hb Hq. rewrite new_Fract_pos by done. cbn [bind outcome_monad].
  destruct (optimize_denotes (mkFract a b) Hb) as (g & Hg & Hw & Hv & _).
  exists g. by rewrite <- Hq.
Qed.

Lemma mul_denotes f g : wf f -> wf g -> denotes (Fract.mul f g) (value f * value g).
Proof.
  intros Hf Hg. apply make_optimize_denotes; [unfold wf in *; nia|].
  values. ring.
Qed.

Lemma plus_denotes f g : wf f -> wf g -> denotes (Fract.plus f g) (value f + value g).
Proof.
  intros Hf Hg. unfold Fract.plus. destruct (Z.eqb_spec (den f) (den g)) as [He|_].
  - rewrite new_Fract_pos by done. apply denotes_ret; [done|]. values. rewrite He. ring.
  - apply make_optimize_denotes; [unfold wf in *; nia|]. values. ring.
Qed.

Lemma neg_denotes f : wf f -> denotes (Fract.neg f) (- value f).
Proof.
  intros Hf. unfold Fract.neg. rewrite new_Fract_pos by done. by apply denotes_ret; [|reflexivity].
Qed.

(** The operands of an operation are replaced by what they stand for. *)
Lemma denotes_bind o q (k : Fract -> Res Fract) r :
  denotes o q -> (forall f, wf f -> (value f == q)%Q -> denotes (k f) r) -> denotes (f ← o; k f) r.
Proof. intros (f & -> & Hw & Hv) Hk. by apply Hk. Qed.

Lemma minus_denotes f g : wf f -> wf g -> denotes (Fract.minus f g) (value f - value g).
Proof.
  intros Hf Hg. unfold Fract.minus. eapply denotes_bind; [by apply neg_denotes|].
  intros h Hh Hv. unfold Qminus. rewrite <- Hv. by apply plus_denotes.
Qed.

Lemma value_zero f : wf f -> (value f == 0)%Q <-> num f = 0.
Proof. intros Hf. unfold value, Qeq. cbn. lia. Qed.

Lemma inv_denotes f : wf f -> ~ (value f == 0)%Q -> denotes (Fract.inv f) (/ value f).
Proof.
  intros Hf Hz. rewrite value_zero in Hz by done. unfold wf in Hf. unfold Fract.inv.
  destruct f as [a b]. cbn [num den] in *. unfold value, Qinv. cbn [Qnum Qden num den].
  destruct (Z.ltb_spec a 0).
  - rewrite new_Fract_pos by lia. apply denotes_ret; [unfold wf; cbn; lia|].
    unfold value, Qeq. destruct a as [|p|p]; [lia|lia|]. cbn.
    rewrite <- !Pos2Z.opp_pos, !Z2Pos.id by lia. ring.
  - rewrite new_Fract_pos by lia. apply denotes_ret; [unfold wf; cbn; lia|].
    unfold value, Qeq. destruct a as [|p|p]; [lia| |lia]. cbn. rewrite Z2Pos.id by lia. ring.
Qed.

Definition division_by_zero : exn := JSError (js "division by zero").

Lemma inv_zero f : wf f -> (value f == 0)%Q -> Fract.inv f = Throw division_by_zero.
Proof.
  intros Hf Hz%value_zero; [|done]. unfold Fract.inv. by rewrite Hz.
Qed.

Lemma div_denotes f g : wf f -> wf g -> ~ (value g == 0)%Q ->
  denotes (Fract.div f g) (value f / value g).
Proof.
  intros Hf Hg Hz. unfold Fract.div. eapply denotes_bind; [by apply inv_denotes|].
  intros h Hh Hv. unfold Qdiv. rewrite <- Hv. by apply mul_denotes.
Qed.

Lemma div_zero f g : wf g -> (value g == 0)%Q -> Fract.div f g = Throw division_by_zero.
Proof. intros Hg Hz. unfold Fract.div. by rewrite inv_zero. Qed.

Create HintDb fract.

#[export] Hint Resolve mul_denotes plus_denotes minus_denotes neg_denotes : fract.

(** ** Expressions and their postfix programs

    The reference for the calculator: expressions over fractions, their value
    in fractions and in rationals, and the program of [rpn] that stands for
    them. *)

Inductive BinOp : Type := Add | Sub | Mul | Div.

Inductive Expr : Type :=
  | Lit (f : Fract)
  | Bin (o : BinOp) (e1 e2 : Expr)
  | Nested (e : Expr).

Definition fract_op (o : BinOp) : Fract -> Fract -> Res Fract :=
  match o with
  | Add => Fract.plus
  | Sub => Fract.minus
  | Mul => Fract.mul
  | Div => Fract.div
  end.

Definition op_of (o : BinOp) : Op :=
  match o with Add => OpPlus | Sub => OpMinus | Mul => OpMul | Div => OpDiv end.

Fixpoint postfix (e : Expr) : list Op :=
  match e with
  | Lit f => [OpFract f]
  | Bin o e1 e2 => postfix e1 ++ postfix e2 ++ [op_of o]
  | Nested e => [OpSub (postfix e)]
  end.

Fixpoint eval (e : Expr) : Res Fract :=
  match e with
  | Lit f => Ret f
  | Bin o e1 e2 => a ← eval e1; b ← eval e2; fract_op o a b
  | Nested e => eval e
  end.

(** The rational value, [None] when some divisor is zero. *)
Definition q_op (o : BinOp) (p q : Q) : option Q :=
  match o with
  | Add => Some (p + q)%Q
  | Sub => Some (p - q)%Q
  | Mul => Some (p * q)%Q
  | Div => if Qeq_bool q 0 then None else Some (p / q)%Q
  end.

Fixpoint q_eval (e : Expr) : option Q :=
  match e with
  | Lit f => Some (value f)
  | Bin o e1 e2 => p ← q_eval e1; q ← q_eval e2; q_op o p q
  | Nested e => q_eval e
  end%stdpp.

Fixpoint wf_expr (e : Expr) : Prop :=
  match e with
  | Lit f => wf f
  | Bin _ e1 e2 => wf_expr e1 /\ wf_expr e2
  | Nested e => wf_expr e
  end.

Lemma rpn_op_sub ops st : rpn_op st (OpSub ops) = f ← rpn ops; Ret (f :: st).
Proof.
  unfold rpn. cbn [rpn_op].
  assert (forall l s, (fix loop (st : list Fract) (l : list Op) : Res (list Fract) :=
     match l with [] => Ret st | o :: l' => st' ← rpn_op st o; loop st' l' end) s l
     = for_each rpn_op s l) as ->.
  { induction l as [|o l IH]; intros s; simpl; [done|]. by destruct (rpn_op s o). }
  by destruct (for_each rpn_op [] ops).
Qed.

Lemma rpn_op_bin o a b st : rpn_op (b :: a :: st) (op_of o) = r ← fract_op o a b; Ret (r :: st).
Proof. by destruct o. Qed.

Lemma run_postfix e : forall st ops,
  for_each rpn_op st (postfix e ++ ops) = f ← eval e; for_each rpn_op (f :: st) ops.
Proof.
  induction e as [f|o e1 IH1 e2 IH2|e IH]; intros st ops.
  - done.
  - cbn [postfix eval]. rewrite <- !app_assoc, IH1.
    destruct (eval e1) as [a| |]; [|done..]. cbn [bind outcome_monad]. rewrite IH2.
    destruct (eval e2) as [b| |]; [|done..]. cbn [bind outcome_monad app for_each].
    rewrite rpn_op_bin. by destruct (fract_op o a b).
  - cbn [postfix eval app for_each]. rewrite rpn_op_sub. unfold rpn.
    specialize (IH [] []). rewrite app_nil_r in IH. rewrite IH.
    by destruct (eval e).
Qed.

Lemma rpn_postfix e : rpn (postfix e) = eval e.
Proof.
  unfold rpn. rewrite <- (app_nil_r (postfix e)), run_postfix. by destruct (eval e).
Qed.

Lemma fract_op_refines o f g : wf f -> wf g ->
  match q_op o (value f) (value g) with
  | Some q => denotes (fract_op o f g) q
  | None => fract_op o f g = Throw division_by_zero
  end.
Proof.
  intros Hf Hg. destruct o; simpl; [auto with fract..|].
  destruct (Qeq_bool (value g) 0) eqn:E.
  - apply Qeq_bool_eq in E. by apply div_zero.
  - apply Qeq_bool_neq in E. by apply div_denotes.
Qed.

(** [q_op] on equal rationals. *)
Lemma q_op_proper o p p' q q' : (p == p')%Q -> (q == q')%Q ->
  option_Forall2 Qeq (q_op o p q) (q_op o p' q').
Proof.
  intros Hp Hq. destruct o; simpl; try (constructor; by rewrite Hp, Hq).
  rewrite (Qeqb_comp _ _ Hq 0 0 (Qeq_refl 0))%Q.
  destruct (Qeq_bool q' 0); constructor. by rewrite Hp, Hq.
Qed.

Lemma eval_refines e : wf_expr e ->
  match q_eval e with
  | Some q => denotes (eval e) q
  | None => eval e = Throw division_by_zero
  end.
Proof.
  induction e as [f|o e1 IH1 e2 IH2|e IH]; cbn [wf_expr q_eval eval]; intros Hwf; [| |by apply IH].
  - by apply denotes_ret.
  - destruct Hwf as [H1%IH1 H2%IH2]. destruct (q_eval e1) as [p|]; simpl; [|by rewrite H1].
    destruct H1 as (f & -> & Hf & Hp). simpl.
    destruct (q_eval e2) as [q|]; simpl; [|by rewrite H2].
    destruct H2 as (g & -> & Hg & Hq). simpl.
    pose proof (fract_op_refines o f g Hf Hg) as H. pose proof (q_op_proper o _ _ _ _ Hp Hq) as Ho.
    destruct Ho as [r r' Hr|]; [|done]. by rewrite <- Hr.
Qed.

(** ** Sums over points *)

Lemma rpn_refines e : wf_expr e ->
  match q_eval e with
  | Some q => denotes (rpn (postfix e)) q
  | None => rpn (postfix e) = Throw division_by_zero
  end.
Proof. rewrite rpn_postfix. apply eval_refines. Qed.

(** [g x y] summed over the points. *)
Definition q_sum (g : Q -> Q -> Q) (ps : list Point) : Q :=
  foldr (fun p acc => (g (value p.1) (value p.2) + acc)%Q) 0%Q ps.

Definition wf_point (p : Point) : Prop := wf p.1 /\ wf p.2.

Abbreviation Sxy := (q_sum (fun x y => x * y)%Q).
Abbreviation Sx := (q_sum (fun x _ => x)).
Abbreviation Sy := (q_sum (fun _ y => y)).
Abbreviation Sxx := (q_sum (fun x _ => x * x)%Q).
Abbreviation Syy := (q_sum (fun _ y => y * y)%Q).
Abbreviation count ps := (inject_Z (Z.of_nat (@length Point ps))).

(** The four sums stand for these rationals. *)
Definition sums_denote (s : Sums) (xy x y xx : Q) : Prop :=
  (wf (sumxy s) /\ value (sumxy s) == xy)%Q /\ (wf (sumx s) /\ value (sumx s) == x)%Q
  /\ (wf (sumy s) /\ value (sumy s) == y)%Q /\ (wf (sumx2 s) /\ value (sumx2 s) == xx)%Q.

#[global] Instance sums_proper s : Proper (Qeq ==> Qeq ==> Qeq ==> Qeq ==> iff) (sums_denote s).
Proof.
  intros a a' H1 b b' H2 c c' H3 d d' H4. unfold sums_denote. by rewrite H1, H2, H3, H4.
Qed.

Lemma sums_eq s xy x y xx xy' x' y' xx' :
  sums_denote s xy x y xx ->
  (xy == xy')%Q -> (x == x')%Q -> (y == y')%Q -> (xx == xx')%Q ->
  sums_denote s xy' x' y' xx'.
Proof. intros H H1 H2 H3 H4. by rewrite <- H1, <- H2, <- H3, <- H4. Qed.

Lemma fma_denotes x y z : wf x -> wf y -> wf z ->
  denotes (rpn [OpFract x; OpFract y; OpMul; OpFract z; OpPlus]) (value x * value y + value z).
Proof.
  intros Hx Hy Hz.
  exact (rpn_refines (Bin Add (Bin Mul (Lit x) (Lit y)) (Lit z)) (conj (conj Hx Hy) Hz)).
Qed.

Lemma add_point_denotes s p xy x y xx : wf_point p -> sums_denote s xy x y xx ->
  exists s', add_point s p = Ret s'
    /\ sums_denote s' (value p.1 * value p.2 + xy) (x + value p.1) (y + value p.2)
         (value p.1 * value p.1 + xx).
Proof.
  destruct p as [px py]. intros [Hx Hy] ((W1 & V1) & (W2 & V2) & (W3 & V3) & (W4 & V4)).
  cbn [fst snd] in *. unfold add_point.
  destruct (fma_denotes px py (sumxy s) Hx Hy W1) as (f1 & -> & F1 & G1).
  destruct (plus_denotes (sumx s) px W2 Hx) as (f2 & -> & F2 & G2).
  destruct (plus_denotes (sumy s) py W3 Hy) as (f3 & -> & F3 & G3).
  destruct (fma_denotes px px (sumx2 s) Hx Hx W4) as (f4 & -> & F4 & G4).
  simpl. eexists. split; [done|]. rewrite <- V1, <- V2, <- V3, <- V4.
  by repeat split.
Qed.

Lemma sums_loop ps : forall s xy x y xx, Forall wf_point ps -> sums_denote s xy x y xx ->
  exists s', for_each add_point s ps = Ret s'
    /\ sums_denote s' (xy + Sxy ps) (x + Sx ps) (y + Sy ps) (xx + Sxx ps).
Proof.
  induction ps as [|p ps IH]; intros s xy x y xx Hps Hs.
  - exists s. split; [done|]. apply (sums_eq _ _ _ _ _ _ _ _ _ Hs); simpl; ring.
  - inversion Hps as [|? ? Hp Hps']; subst.
    destruct (add_point_denotes s p _ _ _ _ Hp Hs) as (s1 & H1 & Hs1).
    destruct (IH s1 _ _ _ _ Hps' Hs1) as (s' & H' & Hs').
    exists s'. simpl. rewrite H1. split; [done|]. apply (sums_eq _ _ _ _ _ _ _ _ _ Hs'); simpl; ring.
Qed.

Lemma sums_of_points ps : Forall wf_point ps ->
  exists s, for_each add_point (mkSums Fract.ZERO Fract.ZERO Fract.ZERO Fract.ZERO) ps = Ret s
    /\ sums_denote s (Sxy ps) (Sx ps) (Sy ps) (Sxx ps).
Proof.
  intros Hps. destruct (sums_loop ps (mkSums Fract.ZERO Fract.ZERO Fract.ZERO Fract.ZERO) 0 0 0 0 Hps)
    as (s & H & Hs); [by repeat split|].
  exists s. split; [done|]. apply (sums_eq _ _ _ _ _ _ _ _ _ Hs); ring.
Qed.

(** ** The fitted line *)

(** The determinant of the normal equations. *)
Definition spread (ps : list Point) : Q := (count ps * Sxx ps - Sx ps * Sx ps)%Q.

(** A quotient computed by the calculator. *)
Lemma rpn_quotient e1 e2 p q : wf_expr e1 -> wf_expr e2 -> q_eval e1 = Some p -> q_eval e2 = Some q ->
  if Qeq_bool q 0 then rpn (postfix (Bin Div e1 e2)) = Throw division_by_zero
  else denotes (rpn (postfix (Bin Div e1 e2))) (p / q).
Proof.
  intros W1 W2 H1 H2. pose proof (rpn_refines (Bin Div e1 e2) (conj W1 W2)) as H.
  cbn [q_eval] in H. rewrite H1, H2 in H. cbn [mbind option_bind q_op] in H.
  by destruct (Qeq_bool q 0).
Qed.

Lemma slope_denotes nb xy x y xx : wf nb -> wf xy -> wf x -> wf y -> wf xx ->
  let det := (value nb * value xx - value x * value x)%Q in
  let r := rpn [
    OpSub [OpFract nb; OpFract xy; OpMul; OpFract x; OpFract y; OpMul; OpMinus];
    OpSub [OpFract nb; OpFract xx; OpMul; OpFract x; OpFract x; OpMul; OpMinus];
    OpDiv] in
  if Qeq_bool det 0 then r = Throw division_by_zero
  else denotes r ((value nb * value xy - value x * value y) / det).
Proof.
  intros. exact (rpn_quotient
    (Nested (Bin Sub (Bin Mul (Lit nb) (Lit xy)) (Bin Mul (Lit x) (Lit y))))
    (Nested (Bin Sub (Bin Mul (Lit nb) (Lit xx)) (Bin Mul (Lit x) (Lit x)))) _ _
    ltac:(by repeat split) ltac:(by repeat split) eq_refl eq_refl).
Qed.

Lemma intercept_denotes nb x y a : wf nb -> wf x -> wf y -> wf a ->
  let r := rpn [OpSub [OpFract y; OpFract a; OpFract x; OpMul; OpMinus]; OpFract nb; OpDiv] in
  if Qeq_bool (value nb) 0 then r = Throw division_by_zero
  else denotes r ((value y - value a * value x) / value nb).
Proof.
  intros. exact (rpn_quotient (Nested (Bin Sub (Lit y) (Bin Mul (Lit a) (Lit x)))) (Lit nb) _ _
    ltac:(by repeat split) ltac:(done) eq_refl eq_refl).
Qed.

Lemma linearRegression_closed ps : Forall wf_point ps ->
  if Qeq_bool (spread ps) 0 then linearRegression ps = Throw division_by_zero
  else exists a b, linearRegression ps = Ret (a, b) /\ wf a /\ wf b
    /\ (value a == (count ps * Sxy ps - Sx ps * Sy ps) / spread ps)%Q
    /\ (value b == (Sy ps - value a * Sx ps) / count ps)%Q.
Proof.
  intros Hps. destruct (sums_of_points ps Hps) as (s & Hs & (W1 & V1) & (W2 & V2) & (W3 & V3) & (W4 & V4)).
  unfold linearRegression. rewrite Hs. cbn [bind outcome_monad].
  rewrite new_Fract_pos by done. cbn [bind outcome_monad].
  set (nb := mkFract (Z.of_nat (length ps)) 1). assert (wf nb) as Wn by done.
  pose proof (slope_denotes nb _ _ _ _ Wn W1 W2 W3 W4) as Ha. cbv zeta in Ha.
  assert (value nb * value (sumx2 s) - value (sumx s) * value (sumx s) == spread ps)%Q as Hd
    by (unfold spread; by rewrite V4, V2).
  rewrite (Qeqb_comp _ _ Hd 0 0 (Qeq_refl 0))%Q in Ha.
  destruct (Qeq_bool (spread ps) 0) eqn:E; [by rewrite Ha|].
  rewrite Hd, V1, V2, V3 in Ha. destruct Ha as (a & -> & Wa & Va). cbn [bind outcome_monad].
  pose proof (intercept_denotes nb _ _ a Wn W2 W3 Wa) as Hb. cbv zeta in Hb.
  destruct (Qeq_bool (value nb) 0) eqn:En.
  { apply Qeq_bool_eq in En. apply Qeq_bool_neq in E. exfalso. apply E.
    destruct ps as [|p ps]; [|done]. unfold spread. simpl. ring. }
  rewrite V2, V3 in Hb. destruct Hb as (b & -> & Wb & Vb). by exists a, b.
Qed.

(** ** Least squares *)

(** The squared error of the line of slope [a] and intercept [b]. *)
Definition squared_error (a b : Q) (ps : list Point) : Q :=
  q_sum (fun x y => (y - (a * x + b)) * (y - (a * x + b)))%Q ps.

Lemma count_cons p ps : (count (p :: ps) == 1 + count ps)%Q.
Proof.
  simpl length. rewrite Nat2Z.inj_succ, <- Z.add_1_l, inject_Z_plus. reflexivity.
Qed.

Lemma q_sum_nonneg g ps : (forall x y, 0 <= g x y)%Q -> (0 <= q_sum g ps)%Q.
Proof.
  intros Hg. induction ps as [|p ps IH]; simpl; [lra|]. specialize (Hg (value p.1) (value p.2)). lra.
Qed.

Lemma q_sum_zero g ps : (forall x y, 0 <= g x y)%Q -> (q_sum g ps == 0)%Q ->
  Forall (fun p => g (value p.1) (value p.2) == 0)%Q ps.
Proof.
  intros Hg. induction ps as [|p ps IH]; simpl; [constructor|]. intros H.
  pose proof (Hg (value p.1) (value p.2)). pose proof (q_sum_nonneg g ps Hg).
  constructor; [lra|]. apply IH. lra.
Qed.

Lemma q_square_nonneg (q : Q) : (0 <= q * q)%Q.
Proof. nra. Qed.

Lemma squared_error_expand a b ps :
  (squared_error a b ps == Syy ps + a * a * Sxx ps + b * b * count ps + (2#1) * a * b * Sx ps
     - (2#1) * a * Sxy ps - (2#1) * b * Sy ps)%Q.
Proof.
  unfold squared_error. induction ps as [|p ps IH].
  - simpl. ring.
  - rewrite count_cons. cbn [q_sum foldr]. fold (q_sum (fun x y => x * y)%Q ps).
    unfold q_sum in *. rewrite IH. ring.
Qed.

Lemma line_square_expand a b ps :
  (q_sum (fun x _ => (a * x + b) * (a * x + b)) ps
   == a * a * Sxx ps + (2#1) * a * b * Sx ps + b * b * count ps)%Q.
Proof.
  induction ps as [|p ps IH].
  - simpl. ring.
  - rewrite count_cons. unfold q_sum in *. cbn [foldr]. rewrite IH. ring.
Qed.

(** A line that solves the normal equations has the least error, and the excess
    of another is the squared distance of the two at the points. *)
Lemma normal_equations a b p q ps :
  (a * Sxx ps + b * Sx ps == Sxy ps)%Q -> (a * Sx ps + b * count ps == Sy ps)%Q ->
  (squared_error p q ps == squared_error a b ps
     + q_sum (fun x _ => ((p - a) * x + (q - b)) * ((p - a) * x + (q - b))) ps)%Q.
Proof.
  intros H1 H2. rewrite !squared_error_expand, line_square_expand, <- H1, <- H2. ring.
Qed.

Lemma spread_cons p ps :
  (spread (p :: ps) == spread ps + q_sum (fun x _ => (value p.1 - x) * (value p.1 - x)) ps)%Q.
Proof.
  unfold spread. rewrite count_cons.
  assert (q_sum (fun x _ => (value p.1 - x) * (value p.1 - x)) ps
    == count ps * (value p.1 * value p.1) - (2#1) * value p.1 * Sx ps + Sxx ps)%Q as ->.
  { induction ps as [|p' ps IH].
    - simpl. ring.
    - rewrite count_cons. unfold q_sum in *. cbn [foldr]. rewrite IH. ring. }
  unfold q_sum. cbn [foldr]. ring.
Qed.

Lemma spread_nonneg ps : (0 <= spread ps)%Q.
Proof.
  induction ps as [|p ps IH]; [by vm_compute|]. rewrite spread_cons.
  pose proof (q_sum_nonneg (fun x _ => (value p.1 - x) * (value p.1 - x))%Q ps
    (fun x _ => q_square_nonneg _)). lra.
Qed.

(** The determinant vanishes when all points have one abscissa. *)
Definition one_abscissa (ps : list Point) : Prop :=
  forall p p', p ∈ ps -> p' ∈ ps -> (value p.1 == value p'.1)%Q.

Lemma spread_zero ps : (spread ps == 0)%Q <-> one_abscissa ps.
Proof.
  unfold one_abscissa. split.
  - induction ps as [|p ps IH]; [intros _ p p' []%elem_of_nil|]. rewrite spread_cons. intros H.
    pose proof (spread_nonneg ps).
    pose proof (q_sum_nonneg (fun x _ => (value p.1 - x) * (value p.1 - x))%Q ps
      (fun x _ => q_square_nonneg _)) as Hn.
    assert (forall p', p' ∈ ps -> value p.1 == value p'.1)%Q as Hp.
    { intros p' Hin. assert (q_sum (fun x _ => (value p.1 - x) * (value p.1 - x)) ps == 0)%Q as Hz by lra.
      apply (q_sum_zero _ _ (fun x _ => q_square_nonneg _)) in Hz.
      rewrite Forall_forall in Hz. specialize (Hz p' Hin).
      apply Qmult_integral in Hz. lra. }
    assert (spread ps == 0)%Q as Hs by lra. specialize (IH Hs).
    intros p1 p2 [->|H1]%elem_of_cons [->|H2]%elem_of_cons; [reflexivity|by apply Hp| |by apply IH].
    symmetry. by apply Hp.
  - induction ps as [|p ps IH]; intros H; [by vm_compute|].
    rewrite spread_cons, IH by (intros; apply H; by right).
    assert (forall l, (forall p', p' ∈ l -> value p.1 == value p'.1)%Q ->
      q_sum (fun x _ => (value p.1 - x) * (value p.1 - x)) l == 0)%Q as Hz.
    { induction l as [|p' l IHl]; intros Hl; [reflexivity|]. cbn [q_sum foldr].
      rewrite (Hl p') at 1 2 by left. fold (q_sum (fun x _ => (value p.1 - x) * (value p.1 - x))%Q l).
      rewrite IHl by (intros; apply Hl; by right). ring. }
    rewrite Hz; [ring|]. intros p' Hp. apply H; [left|by right].
Qed.

(** ** The Newton iteration *)

Lemma eq_value f g : wf f -> wf g -> Fract.eq f g = true <-> (value f == value g)%Q.
Proof. intros Hf Hg. unfold Fract.eq. by rewrite Z.eqb_eq, value_eq. Qed.

Lemma eq_value_false f g : wf f -> wf g -> ~ (value f == value g)%Q -> Fract.eq f g = false.
Proof. intros Hf Hg Hn. apply not_true_iff_false. by rewrite eq_value. Qed.

Lemma lt_value f g : wf f -> wf g -> Fract.lt f g = true <-> (value f < value g)%Q.
Proof.
  intros Hf Hg. unfold Fract.lt. rewrite Z.ltb_lt. unfold value, Qlt. cbn [Qnum Qden].
  by rewrite !Z2Pos.id.
Qed.

Lemma newton_average n x : wf n -> wf x -> ~ (value x == 0)%Q ->
  denotes (rpn [OpFract n; OpFract x; OpDiv; OpFract x; OpPlus; OpFract (mkFract 2 1); OpDiv])
    ((value n / value x + value x) / (2#1)).
Proof.
  intros Hn Hx H0.
  pose proof (rpn_refines (Bin Div (Bin Add (Bin Div (Lit n) (Lit x)) (Lit x)) (Lit (mkFract 2 1)))
    ltac:(by repeat split)) as H.
  cbn [q_eval mbind option_bind q_op] in H.
  destruct (Qeq_bool (value x) 0) eqn:E; [by apply Qeq_bool_eq in E|]. exact H.
Qed.

(** A round that does not stop goes on from above the root. *)
Lemma newton_round depth n x : wf n -> wf x -> (0 < value x)%Q -> (0 < value n)%Q ->
  ~ (value n == value x * value x)%Q -> ~ (value n == value x * value x + (2#1) * value x)%Q ->
  exists x1, newtonIteration (S depth) n x = newtonIteration depth n x1
    /\ wf x1 /\ (0 < value x1)%Q /\ (value n < value x1 * value x1)%Q.
Proof.
  intros Wn Wx Hx Hn H1 H2. assert (~ value x == 0)%Q as Hx0 by lra.
  destruct (newton_average n x Wn Wx Hx0) as (x1 & E1 & W1 & V1).
  assert (exists q, q * value x == value n /\ value x1 == (q + value x) / (2#1))%Q as (q & Hq & V).
  { exists (value n / value x)%Q. split; [by field|done]. }
  assert (value x1 == (1#2) * (q + value x))%Q as V' by (rewrite V; field). clear V V1.
  assert (~ q == value x)%Q as Hne by (intros E; apply H1; rewrite <- Hq, E; ring).
  assert (~ q == value x + (2#1))%Q as Hne2 by (intros E; apply H2; rewrite <- Hq, E; ring).
  assert (0 < q)%Q as Hq0 by nra.
  exists x1. cbn [newtonIteration]. rewrite new_Fract_pos by done. cbn [bind outcome_monad].
  rewrite E1. cbn [bind outcome_monad]. rewrite eq_value_false by (auto; lra).
  rewrite new_Fract_pos by done. cbn [bind outcome_monad].
  destruct (minus_denotes x1 (mkFract 1 1) W1 eq_refl) as (d & -> & Wd & Vd).
  cbn [bind outcome_monad].
  assert (value (mkFract 1 1) == 1)%Q as Hone by reflexivity. rewrite Hone in Vd.
  rewrite eq_value_false by (auto; rewrite Vd; lra).
  split_and!; [done|done|lra|]. rewrite V', <- Hq.
  assert (0 < (value x - q) * (value x - q))%Q; [|nra].
  destruct (Q_dec (value x) q) as [[Hl|Hl]|Hl]; [nra|nra|]. by symmetry in Hl.
Qed.

(** From above the root the iteration never meets its stopping test. *)
Lemma newton_overflows depth n : forall x, wf n -> wf x -> (0 < value x)%Q -> (0 < value n)%Q ->
  (value n < value x * value x)%Q -> newtonIteration depth n x = Throw EngineError.
Proof.
  induction depth as [|depth IH]; intros x Wn Wx Hx Hn Hlt; [done|].
  destruct (newton_round depth n x) as (x1 & -> & W1 & Hx1 & Hlt1); [done..|lra| |].
  - nra.
  - by apply IH.
Qed.

(** ** Programs of the calculator in general *)

Section OpInduction.
Variable P : Op -> Prop.
Hypothesis case_flat : forall o, match o with OpSub _ => False | _ => True end -> P o.
Hypothesis case_sub : forall ops, Forall P ops -> P (OpSub ops).

Fixpoint Op_nested (o : Op) : P o :=
  match o with
  | OpSub ops =>
      case_sub ops
        ((fix elems (l : list Op) : Forall P l :=
            match l with
            | [] => @List.Forall_nil _ _
            | x :: l' => @List.Forall_cons _ _ _ _ (Op_nested x) (elems l')
            end) ops)
  | o => case_flat o I
  end.
End OpInduction.

(** All literals of a program are well formed. *)
Fixpoint wf_op (o : Op) : Prop :=
  match o with
  | OpFract f => wf f
  | OpSub ops => foldr (fun o acc => wf_op o /\ acc) True ops
  | _ => True
  end.

(** What the calculator throws. *)
Definition calculator_error (e : exn) : Prop :=
  e = division_by_zero \/ e = JSError (js "stack underflow")
  \/ e = JSError (js "one element should be left on stack").

Definition safe {A} (P : A -> Prop) (o : Res A) : Prop :=
  match o with Ret a => P a | Throw e => calculator_error e | Pending => False end.

Lemma safe_bind {A B} (P : A -> Prop) (R : B -> Prop) (o : Res A) (k : A -> Res B) :
  safe P o -> (forall a, P a -> safe R (k a)) -> safe R (a ← o; k a).
Proof. destruct o; simpl; auto. Qed.

Lemma denotes_safe o q : denotes o q -> safe wf o.
Proof. by intros (f & -> & ? & _). Qed.

Lemma fract_op_safe o f g : wf f -> wf g -> safe wf (fract_op o f g).
Proof.
  intros Hf Hg. pose proof (fract_op_refines o f g Hf Hg) as H.
  destruct (q_op o (value f) (value g)); [by eapply denotes_safe|]. rewrite H. by left.
Qed.

Lemma binary_safe o st : Forall wf st -> safe (Forall wf) (binary (fract_op o) st).
Proof.
  intros Hst. destruct st as [|b [|a st]]; simpl; [by right; left..|].
  inversion Hst as [|? ? Hb Hst']; subst. inversion Hst' as [|? ? Ha Hst'']; subst.
  eapply (safe_bind wf); [by apply fract_op_safe|]. intros r Hr. by constructor.
Qed.

Lemma wf_ops_Forall ops : wf_op (OpSub ops) <-> Forall wf_op ops.
Proof.
  cbn [wf_op]. induction ops as [|o ops IH]; simpl; [by split|].
  rewrite IH. split; [by intros []; constructor|by inversion 1].
Qed.

Lemma ops_safe ops : Forall (fun o => forall st, wf_op o -> Forall wf st -> safe (Forall wf) (rpn_op st o)) ops ->
  forall st, Forall wf_op ops -> Forall wf st -> safe (Forall wf) (for_each rpn_op st ops).
Proof.
  induction 1 as [|o ops Ho _ IH]; intros st Hw Hst; [done|].
  inversion Hw; subst. cbn [for_each]. eapply safe_bind; [by apply Ho|]. auto.
Qed.

Lemma only_element_safe st : Forall wf st -> safe wf (only_element st).
Proof. destruct st as [|f [|]]; simpl; [by right; right|by inversion 1|by right; right]. Qed.

Lemma rpn_op_safe o : forall st, wf_op o -> Forall wf st -> safe (Forall wf) (rpn_op st o).
Proof.
  induction o as [o Hf|ops IH] using Op_nested; intros st Hw Hst.
  - destruct o; [by constructor|apply (binary_safe Add _ Hst)|apply (binary_safe Sub _ Hst)
      |apply (binary_safe Mul _ Hst)|apply (binary_safe Div _ Hst)| |done].
    destruct st as [|a st]; [by right; left|]. inversion Hst; subst. by repeat constructor.
  - apply wf_ops_Forall in Hw. rewrite rpn_op_sub. apply (safe_bind wf).
    + eapply safe_bind; [by apply ops_safe; [exact IH| |constructor]|]. apply only_element_safe.
    + intros f Hwf. by constructor.
Qed.

(** ** Properties *)

(** C21: The calculator computes rational arithmetic: the program that is the
    postfix form of an expression, nested programs included, returns a
    well-formed fraction whose value is the rational value of the expression,
    and throws "division by zero" exactly when some divisor of the expression
    is zero. *)
Theorem rpn_refines_rationals e : wf_expr e ->
  match q_eval e with
  | Some q => exists f, rpn (postfix e) = Ret f /\ wf f /\ (value f == q)%Q
  | None => rpn (postfix e) = Throw (JSError (js "division by zero"))
  end.
Proof. exact (rpn_refines e). Qed.

(** C25: Every program over well-formed fractions is safe: it ends, what it
    returns is a well-formed fraction, and the only exceptions are those for a
    division by zero, for an operator without operands and for a stack that
    does not hold one element; the constructor's "missing normalization" and a
    [RangeError] of bigint division never occur. *)
Theorem rpn_type_safe ops : Forall wf_op ops ->
  match rpn ops with
  | Ret f => wf f
  | Throw e => calculator_error e
  | Pending => False
  end.
Proof.
  intros Hw. change (safe wf (rpn ops)). unfold rpn.
  eapply safe_bind; [|apply only_element_safe].
  apply ops_safe; [|done|constructor]. apply Forall_forall. intros o _. apply rpn_op_safe.
Qed.

(** C22: [linearRegression] returns a line of least squared error among all
    lines; it throws "division by zero" exactly when all points have the same
    abscissa, the empty list included. *)
Theorem linearRegression_least_squares ps : Forall wf_point ps ->
  match linearRegression ps with
  | Ret (a, b) =>
      wf a /\ wf b /\ ~ one_abscissa ps
      /\ forall p q, (squared_error (value a) (value b) ps <= squared_error p q ps)%Q
  | Throw e => e = JSError (js "division by zero") /\ one_abscissa ps
  | Pending => False
  end.
Proof.
  intros Hps. pose proof (linearRegression_closed ps Hps) as H.
  destruct (Qeq_bool (spread ps) 0) eqn:E.
  - rewrite H. apply Qeq_bool_eq, spread_zero in E. done.
  - destruct H as (a & b & -> & Wa & Wb & Va & Vb). apply Qeq_bool_neq in E.
    split_and!; [done|done|by rewrite <- spread_zero|]. intros p q.
    assert (~ count ps == 0)%Q as Hn.
    { intros Hz. apply E. destruct ps as [|? ps]; [unfold spread; simpl; ring|done]. }
    rewrite (normal_equations (value a) (value b) p q ps).
    + pose proof (q_sum_nonneg (fun x _ => ((p - value a) * x + (q - value b)) * ((p - value a) * x + (q - value b)))%Q
        ps (fun x _ => q_square_nonneg _)). lra.
    + rewrite Vb, Va. unfold spread in *. field. by split.
    + rewrite Vb. field. done.
Qed.

(** On points that lie on a line and do not all share one abscissa,
    [linearRegression] returns that line exactly, and [hypothesisLinear] then
    gives the ordinate of the line at every abscissa. *)
Theorem linearRegression_collinear ps (p q : Q) :
  Forall wf_point ps -> ~ one_abscissa ps ->
  Forall (fun pt => value pt.2 == p * value pt.1 + q)%Q ps ->
  exists a b, linearRegression ps = Ret (a, b) /\ (value a == p)%Q /\ (value b == q)%Q
    /\ forall x, wf x -> denotes (hypothesisLinear a b x) (p * value x + q).
Proof.
  intros Hps Hn Hl. pose proof (linearRegression_closed ps Hps) as H.
  rewrite <- spread_zero in Hn. destruct (Qeq_bool (spread ps) 0) eqn:E; [by apply Qeq_bool_eq in E|].
  destruct H as (a & b & -> & Wa & Wb & Va & Vb).
  assert (Sy ps == p * Sx ps + q * count ps)%Q as Hy.
  { clear -Hl. induction Hl as [|pt ps Hp _ IH]; [simpl; ring|].
    rewrite count_cons. unfold q_sum in *. cbn [foldr]. rewrite IH, Hp. ring. }
  assert (Sxy ps == p * Sxx ps + q * Sx ps)%Q as Hxy.
  { clear -Hl. induction Hl as [|pt ps Hp _ IH]; [simpl; ring|].
    unfold q_sum in *. cbn [foldr]. rewrite IH, Hp. ring. }
  assert (~ count ps == 0)%Q as Hc.
  { intros Hz. apply Hn. destruct ps as [|? ps]; [unfold spread; simpl; ring|done]. }
  assert (value a == p)%Q as Ha by (rewrite Va, Hxy, Hy; unfold spread in *; by field).
  assert (value b == q)%Q as Hb by (rewrite Vb, Ha, Hy; by field).
  exists a, b. split_and!; [done|done|done|]. intros x Hx.
  destruct (fma_denotes x a b Hx Wa Wb) as (f & Hf & Wf & Vf).
  exists f. split_and!; [exact Hf|done|]. rewrite Vf, Ha, Hb. ring.
Qed.

(** C37: [sqrt] gives a fraction below two back as it is, gives one for three,
    and on every other fraction from two on the iteration never meets its
    stopping test: it overflows the stack however deep that is. *)
Theorem sqrt_outcomes depth f : wf f -> (0 <= value f)%Q ->
  ((value f < 2#1)%Q -> sqrt depth f = Ret f)
  /\ ((value f == 3#1)%Q -> sqrt (S depth) f = Ret (mkFract 1 1))
  /\ (~ (value f < 2#1)%Q -> ~ (value f == 3#1)%Q -> sqrt depth f = Throw EngineError).
Proof.
  intros Hf H0. unfold sqrt.
  assert ((num f <? 0) = false) as ->.
  { apply Z.ltb_ge. unfold value, Qle in H0. cbn in H0. lia. }
  rewrite !new_Fract_pos by done. cbn [bind outcome_monad].
  split_and!; intros H.
  - rewrite (proj2 (lt_value f (mkFract 2 1) Hf eq_refl)); [done|exact H].
  - rewrite (not_true_is_false (Fract.lt f (mkFract 2 1)));
      [|rewrite lt_value by done; rewrite H; done].
    destruct (newton_average f (mkFract 1 1) Hf) as (x1 & E1 & W1 & V1); [done|done|].
    assert (value x1 == 2#1)%Q as V2 by (rewrite V1, H; reflexivity).
    cbn [newtonIteration]. rewrite !new_Fract_pos by done. cbn [bind outcome_monad].
    rewrite E1. cbn [bind outcome_monad].
    rewrite eq_value_false; [|done|done|rewrite V2; done].
    destruct (minus_denotes x1 (mkFract 1 1) W1 eq_refl) as (d & -> & Wd & Vd).
    cbn [bind outcome_monad].
    rewrite (proj2 (eq_value (mkFract 1 1) d eq_refl Wd)); [done|]. rewrite Vd, V2. reflexivity.
  - intros H3. rewrite (not_true_is_false (Fract.lt f (mkFract 2 1)));
      [|by rewrite lt_value by done].
    destruct depth as [|depth]; [done|].
    assert (value (mkFract 1 1) == 1)%Q as Hone by reflexivity.
    assert (2#1 <= value f)%Q as H2 by (by apply Qnot_lt_le).
    destruct (newton_round depth f (mkFract 1 1)) as (x1 & -> & W1 & Hx1 & Hlt);
      rewrite ?Hone; [done|done|lra|lra|lra| |].
    + intros E. apply H3. rewrite E. reflexivity.
    + apply newton_overflows; [done|done|done|lra|done].
Qed.

(** ** The theorems at concrete inputs *)

(** [1/2 * (1/3 + 5) - 7]. *)
Definition sample_expr : Expr :=
  Bin Sub (Bin Mul (Lit (mkFract 1 2)) (Nested (Bin Add (Lit (mkFract 1 3)) (Lit (mkFract 5 1)))))
    (Lit (mkFract 7 1)).

Lemma rpn_refines_rationals_witness :
  rpn (postfix sample_expr) = Ret (mkFract (-13) 3)
  /\ exists f, rpn (postfix sample_expr) = Ret f /\ wf f /\ (value f == -13 # 3)%Q.
Proof.
  split; [by vm_compute|].
  destruct (rpn_refines_rationals sample_expr) as (f & Hf & Hw & Hv); [by repeat split|].
  exists f. split_and!; [exact Hf|exact Hw|]. rewrite Hv. by vm_compute.
Defined.

Definition sample_program : list Op := [OpFract (mkFract 1 2); OpDup; OpSub [OpDup]].

Lemma rpn_type_safe_witness :
  rpn sample_program = Throw (JSError (js "stack underflow"))
  /\ calculator_error (JSError (js "stack underflow")).
Proof.
  assert (rpn sample_program = Throw (JSError (js "stack underflow"))) as E by by vm_compute.
  split; [exact E|]. pose proof (rpn_type_safe sample_program) as H. rewrite E in H.
  apply H. unfold sample_program. repeat constructor; done.
Defined.

(** Points on [y = 2 x + 1]. *)
Definition sample_points : list Point :=
  [(mkFract 1 1, mkFract 3 1); (mkFract 2 1, mkFract 5 1); (mkFract 1 2, mkFract 2 1)].

Lemma sample_points_wf : Forall wf_point sample_points.
Proof. by repeat constructor. Qed.

Lemma linearRegression_least_squares_witness :
  linearRegression sample_points = Ret (mkFract 2 1, mkFract 1 1)
  /\ forall p q, (squared_error (2#1) (1#1) sample_points <= squared_error p q sample_points)%Q.
Proof.
  split; [by vm_compute|].
  assert (linearRegression sample_points = Ret (mkFract 2 1, mkFract 1 1)) as E by by vm_compute.
  pose proof (linearRegression_least_squares _ sample_points_wf) as H. rewrite E in H.
  exact (proj2 (proj2 (proj2 H))).
Defined.

Lemma linearRegression_collinear_witness :
  exists a b, linearRegression sample_points = Ret (a, b) /\ (value a == 2#1)%Q /\ (value b == 1#1)%Q.
Proof.
  destruct (linearRegression_collinear sample_points (2#1) (1#1)) as (a & b & H & Ha & Hb & _);
    [exact sample_points_wf| | |exists a, b; exact (conj H (conj Ha Hb))];
    [|repeat constructor; by vm_compute].
  intros H. pose proof (H _ _ (list_elem_of_here _ _) (list_elem_of_further _ _ _ (list_elem_of_here _ _))) as E.
  by vm_compute in E.
Defined.

Lemma sqrt_outcomes_witness :
  sqrt 10 (mkFract 4 1) = Throw EngineError /\ sqrt 1 (mkFract 3 1) = Ret (mkFract 1 1)
  /\ sqrt 0 (mkFract 1 4) = Ret (mkFract 1 4).
Proof.
  split_and!.
  - by apply (sqrt_outcomes 10 (mkFract 4 1)).
  - by apply (sqrt_outcomes 0 (mkFract 3 1)).
  - by apply (sqrt_outcomes 0 (mkFract 1 4)).
Defined.
