(* ===== verification/CalibrateRun.v ===== *)
(** * Calibration runs

    The rest of [scripts/calibrate.ts]: measuring the price of a transfer under
    several values of a coefficient, fitting a line through the measurements
    with [Calibrate], and setting the coefficient for which the line gives the
    wanted price.  The prices it prints are left out. *)

From Stdlib Require Import Ascii String.
From stdpp Require Import list.
From S2P Require Import Prelude JsString JsValue Chain Address Util Helper Collections Tokens Objects Balance Wait Arrange.
From S2P Require Import Eth TestUtil Calibrate.

Open Scope Z_scope.
Open Scope js_scope.

(** A bigint, which is what [new Fract] is given. *)
Definition as_bigint (v : jsval) : Res Z := match v with JBig z => Ret z | _ => Throw EngineError end.

(** [from, from + 1, ..., to - 1] *)
Definition range (from to : Z) : list Z := map (fun n => from + Z.of_nat n) (seq 0 (Z.to_nat (to - from))).

Definition new_collection : jsval :=
  obj [(js "name", JStr (js "New")); (js "description", JStr (js "New collection")); (js "tokenPrefix", JStr (js "NEW"))].

(** The line through the measured points, taken at [p]: the coefficient to set
    for the price [p]. *)
Definition perfect_value (dataPoints : list Point) (price : Res Fract) : Res Z :=
  ' (a, b) ← linearRegression dataPoints;
  p ← price;
  v ← hypothesisLinear a b p;
  Fract.toBigInt v.

(** The wanted price: a fraction of a token. *)
Definition part_of_token (nominal num den : Z) : Res Fract :=
  n ← Fract.new_Fract nominal 1;
  f ← Fract.new_Fract num den;
  rpn [OpFract n; OpFract f; OpMul].

Section Runs.
Context {N : NodeApi} {C : Crypto}.
Variable helper : nat.

(** [(await api.query.configuration.<name>()).toBigInt()] *)
Definition configured (api : Api) (name : jsstr) : M Z :=
  v ← api_call api (js "query.configuration." ++ name) [];
  z ← lift (call0 v (js "toBigInt"));
  lift (as_bigint z).

(** [helper.signTransaction(alice, api.tx.sudo.sudo(api.tx.configuration.<setter>(value)))] *)
Definition set_configured (api : Api) (alice : TSigner) (setter : jsstr) (value : Z) : M unit :=
  inner ← api_call api (js "tx.configuration." ++ setter) [JBig value];
  call ← api_call api (js "tx.sudo.sudo") [inner];
  ChainHelperBase.signTransaction helper alice call None (js "transaction");;
  mreturn tt.

(** What transferring a new token costs the sender. *)
Definition transfer_price (alice bob : TSigner) : M Z :=
  collection ← NFTGroup.mintCollection helper alice new_collection;
  token ← UniqueNFTCollection.mintToken collection alice (Some (Substrate (address alice))) None;
  aliceBalanceBefore ← BalanceGroup.getSubstrate helper (address alice);
  UniqueNFToken.transfer token alice (Substrate (address bob));;
  aliceBalanceAfter ← BalanceGroup.getSubstrate helper (address alice);
  price ← lift (js_sub aliceBalanceBefore aliceBalanceAfter);
  lift (as_bigint price).

(** [calibrateWeightToFee] once the two accounts are there. *)
Definition weight_to_fee_run (alice bob : TSigner) : M unit :=
  transfer_price alice bob;;
  BalanceGroup.getOneTokenNominal helper;;
  api ← getApi helper;
  base ← configured api (js "weightToFeeCoefficientOverride");
  dataPoints ← map_M (fun i =>
    set_configured api alice (js "setWeightToFeeCoefficientOverride") (base + Z.quot base 1000 * i);;
    v ← configured api (js "weightToFeeCoefficientOverride");
    coefficient ← lift (Fract.new_Fract v 1);
    price ← transfer_price alice bob;
    transferPrice ← lift (Fract.new_Fract price 1);
    mreturn (transferPrice, coefficient)) (range (-5) 5);
  nominal ← BalanceGroup.getOneTokenNominal helper;
  perfectValue ← lift (perfect_value dataPoints (part_of_token nominal 1 10));
  set_configured api alice (js "setWeightToFeeCoefficientOverride") perfectValue;;
  transfer_price alice bob;;
  BalanceGroup.getOneTokenNominal helper;;
  mreturn tt.

Context {W : Ethers}.

Definition calibrateWeightToFee (key : Seed -> E TSigner) : E unit :=
  alice ← key (SeedText (js "//Alice"));
  bob ← key (SeedText (js "//Bob"));
  of_M (weight_to_fee_run alice bob).

(** The same for a transfer by an Ethereum account, at the default or a given
    gas price. *)
Definition eth_transfer_price (alice : TSigner) (caller receiver : Wallet) (gasPrice : option Z) : E Z :=
  collection ← of_M (NFTGroup.mintCollection helper alice new_collection);
  token ← of_M (UniqueNFTCollection.mintToken collection alice (Some (Ethereum (wallet_address caller))) None);
  address ← elift (EthAddressGroup.fromCollectionId (col_id collection));
  contract ← elift (NativeContractGroup.collection address nft caller false);
  let options := (match gasPrice with Some g => [(js "gasPrice", JBig g)] | None => [] end)
                 ++ [(js "gasLimit", JBig DEFAULT_GAS_LIMIT)] in
  cost ← EthGroup.calculateFee helper (Ethereum (wallet_address caller))
    (tx ← call_method contract (js "transfer") [wallet_param receiver; JNum (tok_id token)] (obj options);
     wait tx;;
     mreturn tt);
  elift (as_bigint cost).

Fixpoint map_E {A B} (f : A -> E B) (l : list A) : E (list B) :=
  match l with
  | [] => mreturn []
  | a :: l' => b ← f a; bs ← map_E f l'; mreturn (b :: bs)
  end.

Definition calibrateMinGasPrice (key : Seed -> E TSigner) : E unit :=
  alice ← key (SeedText (js "//Alice"));
  caller ← EthGroup.createAccountWithBalance helper alice None;
  receiver ← EthGroup.createAccount helper;
  eth_transfer_price alice caller receiver None;;
  of_M (BalanceGroup.getOneTokenNominal helper);;
  api ← of_M (getApi helper);
  base ← of_M (configured api (js "minGasPriceOverride"));
  dataPoints ← map_E (fun i =>
    let gasPrice := base + Z.quot base 100000 * i in
    of_M (set_configured api alice (js "setMinGasPriceOverride") gasPrice);;
    v ← of_M (configured api (js "minGasPriceOverride"));
    coefficient ← elift (Fract.new_Fract v 1);
    price ← eth_transfer_price alice caller receiver (Some gasPrice);
    transferPrice ← elift (Fract.new_Fract price 1);
    mreturn (transferPrice, coefficient)) (range (-8) 8);
  nominal ← of_M (BalanceGroup.getOneTokenNominal helper);
  perfectValue ← elift (perfect_value dataPoints (part_of_token nominal 15 100));
  of_M (set_configured api alice (js "setMinGasPriceOverride") perfectValue);;
  eth_transfer_price alice caller receiver None;;
  of_M (BalanceGroup.getOneTokenNominal helper);;
  mreturn tt.

End Runs.

(** The script: each calibration three times. *)
Definition iterations : nat := 3.

Definition calibrate {N : NodeApi} {C : Crypto} {W : Ethers} {X : Harness} (substrateUrl : jsstr) : E unit :=
  usingEthPlaygrounds substrateUrl (fun helper key =>
    for_each_E (fun _ _ => calibrateWeightToFee helper key) tt (seq 0 iterations);;
    for_each_E (fun _ _ => calibrateMinGasPrice helper key) tt (seq 0 iterations)).
