(* ===== verification/ScriptFacts.v ===== *)
(** * Test harness and scripts: theorems

    Sizes against the compact encoding, the attempts of the global set-up,
    number formatting, batches, lease times, the accounts the load generator
    keeps, and what the identity scripts do with existing data. *)

From Stdlib Require Import Ascii String.
From stdpp Require Import sorting list.
From S2P Require Import Prelude JsString JsValue Utf8 Chain Address Util Helper Collections Balance Dev Wait Arrange Eth.
From S2P Require Import HelperFacts Lifecycle TestUtil Scripts Proposals Measure.

Open Scope Z_scope.
Open Scope js_scope.

(** ** Compact integers *)

(** Bytes of a number below [2^32] in the compact encoding of SCALE: two bits
    of a byte give the mode. *)
Definition compact_length (i : Z) : Z :=
  if i <? 2 ^ 6 then 1 else if i <? 2 ^ 14 then 2 else if i <? 2 ^ 30 then 4 else 5.

(** The largest number of each mode. *)
Definition mode_limits : list Z := [2 ^ 6 - 1; 2 ^ 14 - 1; 2 ^ 30 - 1].

(** C40: [sizeOfInt] gives the length of the compact encoding of a number that
    fits 32 bits and throws for every other, except that the largest number of
    each mode is taken for one of the next mode. *)
Theorem sizeOfInt_compact i :
  sizeOfInt i
  = if (i <? 0) || (2 ^ 32 - 1 <? i) then Throw (JSError (js "out of range"))
    else Ret (compact_length (if bool_decide (i ∈ mode_limits) then i + 1 else i)).
Proof.
  unfold sizeOfInt, compact_length, mode_limits.
  change (2 ^ 32 - 1) with 4294967295. change (2 ^ 6) with 64. change (2 ^ 14) with 16384. change (2 ^ 30) with 1073741824.
  destruct ((i <? 0) || (4294967295 <? i)); [done|].
  case_bool_decide as H; rewrite !elem_of_cons, elem_of_nil in H;
    repeat match goal with |- context [?a <? ?b] => destruct (Z.ltb_spec a b) end; first [done|lia].
Qed.

(** ** Attempts *)

Section Attempts.
Context {N : NodeApi} {A : Type}.
(** A computation, and a loop with some tries left that catches its exception,
    waits a minute and goes on. *)
Variables (once : M A) (loop : nat -> M A).
Hypothesis loop_S : forall n s, loop (S n) s = catch once (fun _ => pass (10 * 6000);; loop n) s.

(** The state in which try number [k] starts, counted from zero: all before it
    failed, and each failure is followed by a minute. *)
Fixpoint after_failures (k : nat) (s : State) : option State :=
  match k with
  | O => Some s
  | S k' =>
      match once s with
      | (Throw _, s') => after_failures k' (pass (10 * 6000) s').2
      | _ => None
      end
  end.

Lemma loop_settles : forall n s, exists k sk, after_failures k s = Some sk
    /\ ((k < n)%nat /\ (forall e, (once sk).1 <> Throw e) /\ loop n s = once sk \/ k = n /\ loop n s = loop 0 sk).
Proof.
  induction n as [|n IH]; intros s; [by exists 0%nat, s; split; [done|right]|].
  rewrite loop_S. unfold catch. destruct (once s) as [[a|e|] s'] eqn:E.
  - exists 0%nat, s. split; [done|]. left. split_and!; [lia|by rewrite E|by rewrite E].
  - destruct (IH (pass (10 * 6000) s').2) as (k & sk & Hk & H). exists (S k), sk. cbn [after_failures].
    rewrite E. split; [done|]. change ((pass (10 * 6000);; loop n) s') with (loop n (pass (10 * 6000) s').2).
    destruct H as [(Hl & Hn & ->)|[-> ->]]; [left|right; done]. split_and!; [lia|done|done].
  - exists 0%nat, s. split; [done|]. left. split_and!; [lia|by rewrite E|by rewrite E].
Qed.

End Attempts.

(** C39: [globalSetup] makes at most three attempts. It ends like the first
    attempt that does not throw, which starts in the state the failed ones and a
    minute after each of them have left; when three attempts throw, it throws
    the error that says so. *)
Theorem globalSetup_attempts {N : NodeApi} {C : Crypto} {X : Harness} url filenames s :
  exists k sk, after_failures (setup_once url filenames) k s = Some sk
    /\ ((k < maxAttemps)%nat /\ (forall e, (setup_once url filenames sk).1 <> Throw e)
        /\ globalSetup url filenames s = setup_once url filenames sk
      \/ k = maxAttemps
        /\ globalSetup url filenames s
           = (Throw (JSError (js "failed to global setup tests after 3 retries")), sk)).
Proof. by apply (loop_settles _ (fun n => attempts n (setup_once url filenames))). Qed.

(** What [usingPlaygroundsGeneral] runs on its new helper. *)
Definition session {N : NodeApi} {C : Crypto} {X : Harness} {R} (connect : nat -> jsstr -> M unit)
  (has_balance : bool) (url : jsstr) (code : nat -> (Seed -> M TSigner) -> M R) (helper : nat) : M R :=
  connect helper url;;
  p ← ChainGroup.getChainProperties helper;
  code helper (privateKey helper has_balance (ss58Format p)).

(** C38: Whatever is run inside [usingPlaygrounds] or a variant of it, and
    whichever way it settles, the environment ends with the same value or
    exception after it has disconnected its helper: when connections can always
    be closed, the helper made for the run holds none afterwards. *)
Theorem playgrounds_clean_up {N : NodeApi} {C : Crypto} {X : Harness} {R} connect has_balance url
  (code : nat -> (Seed -> M TSigner) -> M R) s o s1 :
  let helper := length (st_helpers s) in
  (forall api w, (api_disconnect api w).1 = Ret tt) ->
  session connect has_balance url code helper (ChainHelperBase.constructor PlainHelper s).2 = (o, s1) ->
  o <> Pending -> is_Some (st_helpers s1 !! helper) ->
  exists s' h, usingPlaygroundsGeneral connect has_balance url code s = (o, s')
    /\ st_helpers s' !! helper = Some h /\ hs_api h = None.
Proof.
  intros helper Hd Hr Ho [h1 Hh1]. destruct (disconnect_closes helper s1 h1 Hd Hh1) as (s' & h & Hs & Hh & Ha).
  exists s', h. split; [|done]. unfold usingPlaygroundsGeneral.
  rewrite (bind_Ret _ _ s helper (ChainHelperBase.constructor PlainHelper s).2) by done.
  unfold finally. fold (session connect has_balance url code helper). rewrite Hr.
  destruct o as [a|e|]; [by rewrite (bind_Ret _ _ _ _ _ Hs)..|done].
Qed.

(** *** The walk through the directory of tests *)

(** The files below an entry of a directory, with their paths. *)
Inductive found : jsstr -> Entry -> jsstr -> Prop :=
  | found_file root name : found root (File name) (resolve root name)
  | found_inside root name entries e f :
      e ∈ entries -> found (resolve root name) e f -> found root (Directory name entries) f.

Lemma entry_files_found : forall e root f, f ∈ entry_files root e <-> found root e f.
Proof.
  fix IH 1. intros [name|name entries] root f; cbn [entry_files].
  - rewrite elem_of_cons, elem_of_nil. split; [intros [->|[]]; constructor|inversion 1; by left].
  - assert (f ∈ flat_map (entry_files (resolve root name)) entries
            <-> exists e, e ∈ entries /\ found (resolve root name) e f) as ->.
    { induction entries as [|e entries IHe]; cbn [flat_map].
      - rewrite elem_of_nil. split; [done|]. by intros (e & He & _); apply elem_of_nil in He.
      - rewrite elem_of_app, IH, IHe. split.
        + intros [He|(e' & Hi & He)]; [by exists e; split; [left|]|by exists e'; split; [right|]].
        + intros (e' & [->|Hi]%elem_of_cons & He); [by left|by right; exists e']. }
    split; [intros (e & Hi & He); by econstructor|inversion 1; subst; eauto].
Qed.

(** [getFiles] finds the files below its root and nothing else. *)
Lemma getFiles_found root entries f : f ∈ getFiles root entries <-> exists e, e ∈ entries /\ found root e f.
Proof.
  unfold getFiles. induction entries as [|e entries IH]; cbn [flat_map].
  - rewrite elem_of_nil. split; [done|]. by intros (e & He & _); apply elem_of_nil in He.
  - rewrite elem_of_app, entry_files_found, IH. split.
    + intros [He|(e' & Hi & He)]; [by exists e; split; [left|]|by exists e'; split; [right|]].
    + intros (e' & [->|Hi]%elem_of_cons & He); [by left|by right; exists e'].
Qed.

(** The script that fetches the metadata ends with code 0 at the first of at most
    ten tries that does not fail, and with code 1 after ten failures. *)
Theorem fetchMetadata_tries {N : NodeApi} {P : Process} variables output s :
  let url := FetchMetadata.node_url variables in
  exists k sk, after_failures (FetchMetadata.try_fetch url output) k s = Some sk
    /\ ((k < 10)%nat /\ (forall e, (FetchMetadata.try_fetch url output sk).1 <> Throw e)
        /\ FetchMetadata.fetchMetadata variables output s = FetchMetadata.try_fetch url output sk
      \/ k = 10%nat /\ FetchMetadata.fetchMetadata variables output s = (Ret 1, sk)).
Proof. by apply (loop_settles _ (fun n => FetchMetadata.fetch n (FetchMetadata.node_url variables) output)). Qed.

(** ** Number formatting *)

Import CalibrateApply.

Lemma mark_triples_groups r : Forall (fun c => is_digit c = true) r ->
  exists gs tail, r = mjoin gs ++ tail /\ Forall (fun g : jsstr => length g = 3%nat) gs /\ (length tail <= 2)%nat
    /\ mark_triples r = mjoin (map (fun g : jsstr => g ++ [95]) gs) ++ tail.
Proof.
  remember (length r) as n eqn:Hn. revert r Hn. induction n as [n IH] using lt_wf_ind. intros r -> H.
  destruct r as [|a [|b [|c r]]].
  - exists [], []. by repeat split; simpl; try lia.
  - exists [], [a]. by repeat split; simpl; try lia.
  - exists [], [a; b]. by repeat split; simpl; try lia.
  - inversion H as [|? ? Ha H1]; subst. inversion H1 as [|? ? Hb H2]; subst. inversion H2 as [|? ? Hc H3]; subst.
    destruct (IH (length r) ltac:(simpl; lia) r eq_refl H3) as (gs & tail & -> & Hg & Ht & Hm).
    exists ([a; b; c] :: gs), tail. split_and!; [done|by constructor|done|].
    cbn [mark_triples]. rewrite Ha, Hb, Hc. cbn [andb]. by rewrite Hm.
Qed.

Lemma reverse_mjoin {A} (gs : list (list A)) : reverse (mjoin gs) = mjoin (map reverse (reverse gs)).
Proof.
  induction gs as [|g gs IH]; [done|]. change (mjoin (g :: gs)) with (g ++ mjoin gs).
  rewrite reverse_app, IH, reverse_cons, map_app, join_app. f_equal.
  change (mjoin (map reverse [g])) with (reverse g ++ []). by rewrite app_nil_r.
Qed.

Lemma join_cons (sep g : jsstr) gs : join sep (g :: gs) = g ++ mjoin (map (fun h => sep ++ h) gs).
Proof.
  revert g. induction gs as [|h gs IH]; intros g; [by rewrite app_nil_r|].
  change (join sep (g :: h :: gs)) with (g ++ sep ++ join sep (h :: gs)). rewrite IH. cbn. by rewrite <- !app_assoc.
Qed.

Lemma reverse_map {A B} (f : A -> B) (l : list A) : reverse (map f l) = map f (reverse l).
Proof. induction l as [|a l IH]; [done|]. cbn [map]. by rewrite !reverse_cons, IH, map_app. Qed.

Lemma reverse_marked (gs : list jsstr) :
  reverse (mjoin (map (fun g : jsstr => g ++ [95]) gs)) = mjoin (map (fun h => js "_" ++ h) (map reverse (reverse gs))).
Proof.
  etransitivity; [apply reverse_mjoin|]. f_equal. rewrite reverse_map, !map_map. apply map_ext. intros g.
  apply (reverse_app g [95]).
Qed.

Lemma formatNumber_shape s : Forall (fun c => is_digit c = true) s -> s <> [] ->
  exists g gs, s = mjoin (g :: gs) /\ formatNumber s = join (js "_") (g :: gs)
    /\ (1 <= length g <= 3)%nat /\ Forall (fun h : jsstr => length h = 3%nat) gs.
Proof.
  intros Hs Hne. destruct (mark_triples_groups (reverse s)) as (gs & tail & Hr & Hg & Ht & Hm).
  { by apply Forall_reverse. }
  assert (s = reverse tail ++ mjoin (map reverse (reverse gs))) as E.
  { rewrite <- (reverse_involutive s), Hr, reverse_app, reverse_mjoin. done. }
  assert (reverse (mark_triples (reverse s))
    = reverse tail ++ mjoin (map (fun h => js "_" ++ h) (map reverse (reverse gs)))) as F.
  { by rewrite Hm, reverse_app, reverse_marked. }
  assert (Forall (fun h : jsstr => length h = 3%nat) (map reverse (reverse gs))) as Hg'.
  { apply Forall_map, Forall_reverse. eapply Forall_impl; [exact Hg|]. intros g Hl. by rewrite length_reverse. }
  unfold formatNumber. rewrite F. destruct tail as [|c tail].
  - cbn [reverse rev_append app] in E, F |- *. destruct (map reverse (reverse gs)) as [|g gs'] eqn:Eg.
    { by rewrite E in Hne. }
    inversion Hg' as [|? ? H1 H2]; subst. exists g, gs'. split_and!; [done| |lia|lia|done].
    rewrite join_cons. reflexivity.
  - assert (exists d t, reverse (c :: tail) = d :: t /\ is_digit d = true) as (d & t & Ed & Hd).
    { destruct (reverse (c :: tail)) as [|d t] eqn:Ed.
      - apply (f_equal length) in Ed. rewrite length_reverse in Ed. done.
      - exists d, t. split; [done|]. rewrite E in Hs. by inversion Hs. }
    exists (reverse (c :: tail)), (map reverse (reverse gs)). split_and!; [exact E| | | |exact Hg'].
    + rewrite join_cons, Ed. cbn [strip_mark app].
      assert (d <> 95) by (unfold is_digit in Hd; lia). by rewrite (proj2 (Z.eqb_neq d 95)).
    + rewrite length_reverse. simpl. lia.
    + rewrite length_reverse. simpl in *. lia.
Qed.

(** [formatNumber] cuts a number into groups of three digits from the right
    and joins them with underscores: the digits are the number's, only the first
    group may be shorter, and none is empty. *)
Theorem formatNumber_groups n : 0 <= n ->
  exists g gs, number_toString n = mjoin (g :: gs) /\ formatNumber (number_toString n) = join (js "_") (g :: gs)
    /\ (1 <= length g <= 3)%nat /\ Forall (fun h : jsstr => length h = 3%nat) gs.
Proof.
  intros Hn. destruct (number_toString_digits n Hn) as (ds & -> & Hf & _ & Hl). apply formatNumber_shape.
  - apply Forall_map. eapply Forall_impl; [exact Hf|]. intros d Hd. cbn beta in Hd |- *. unfold is_digit, digit_unit.
    destruct (Z.ltb_spec d 10); [|lia]. apply andb_true_intro. split; apply Z.leb_le; lia.
  - by destruct ds; [simpl in Hl; lia|].
Qed.

(** ** The accounts the load generator keeps *)

Import TransferLoad.

(** The elements of a list whose positions, counted from [i], are not listed. *)
Fixpoint without {A} (i : nat) (failed : list nat) (l : list A) : list A :=
  match l with
  | [] => []
  | a :: l' => if bool_decide (i ∈ failed) then without (S i) failed l' else a :: without (S i) failed l'
  end.

Lemma without_passed {A} x F (l : list A) : forall i, (x < i)%nat -> without i (x :: F) l = without i F l.
Proof.
  induction l as [|a l IH]; intros i Hi; [done|]. cbn [without]. rewrite IH by lia.
  rewrite (bool_decide_ext (i ∈ x :: F) (i ∈ F)); [done|]. rewrite elem_of_cons. split; [intros [->|H]; [lia|done]|by right].
Qed.

Lemma splice_without {A} x F (l : list A) : Forall (lt x) F -> forall i, (i <= x)%nat ->
  splice (x - i) (without i F l) = without i (x :: F) l.
Proof.
  intros HF. induction l as [|a l IH]; intros i Hi; [cbn [without]; unfold splice; by rewrite take_nil, drop_nil|]. cbn [without].
  assert (~ i ∈ F) as Hni. { intros H. rewrite Forall_forall in HF. apply HF in H. lia. }
  rewrite (bool_decide_eq_false_2 _ Hni). destruct (decide (i = x)) as [->|Hne].
  - rewrite Nat.sub_diag, bool_decide_eq_true_2 by by left. rewrite without_passed by lia. done.
  - rewrite bool_decide_eq_false_2 by (rewrite elem_of_cons; by intros [?|?]).
    replace (x - i)%nat with (S (x - S i)) by lia. rewrite <- IH by lia. done.
Qed.

Lemma remove_failed_cons {A} (l : list A) x F : remove_failed l (x :: F) = splice x (remove_failed l F).
Proof. unfold remove_failed. by rewrite reverse_cons, fold_left_app. Qed.

Lemma remove_failed_ascending {A} (l : list A) F : StronglySorted lt F -> remove_failed l F = without 0 F l.
Proof.
  induction 1 as [|x F HS IH HF].
  - unfold remove_failed. cbn. generalize 0%nat. induction l as [|a l IH]; intros i; [done|].
    cbn [without]. rewrite bool_decide_eq_false_2 by apply not_elem_of_nil. by rewrite <- IH.
  - rewrite remove_failed_cons, IH, <- (splice_without x F l HF 0) by lia. by rewrite Nat.sub_0_r.
Qed.

Lemma ascending_room x F n : StronglySorted lt (x :: F) -> Forall (fun i => (i < n)%nat) (x :: F) ->
  (x + length F < n)%nat.
Proof.
  revert x. induction F as [|y F IH]; intros x HS HB; inversion HS as [|? ? HS' HF]; inversion HB; subst; [simpl; lia|].
  inversion HF; subst. specialize (IH y HS' ltac:(done)). simpl in *. lia.
Qed.

Lemma length_remove_failed {A} (l : list A) F : StronglySorted lt F -> Forall (fun i => (i < length l)%nat) F ->
  (length (remove_failed l F) + length F = length l)%nat.
Proof.
  induction F as [|x F IH]; intros HS HB; [unfold remove_failed; simpl; lia|].
  pose proof (ascending_room _ _ _ HS HB) as Hr. inversion HS; inversion HB; subst. specialize (IH ltac:(done) ltac:(done)).
  rewrite remove_failed_cons. unfold splice. rewrite length_app, length_take, length_drop. simpl. lia.
Qed.

(** Failures that arrive in another order: the account at 3 has failed and
    stays, the one at 4 has not and goes. *)
Lemma remove_failed_out_of_order :
  remove_failed [10; 11; 12; 13; 14] [0; 3; 2]%nat = [11; 13]
  /\ without 0 [0; 3; 2]%nat [10; 11; 12; 13; 14] = [11; 14].
Proof. by split. Qed.

Lemma counter_set_same k v (c : Counters) : counter k (set_key k v c) = v.
Proof.
  induction c as [|[k' v'] c IH]; cbn [set_key counter]; [by rewrite jseq_refl|].
  destruct (jseq k k') eqn:E; cbn [counter]; [by rewrite jseq_refl|by rewrite E].
Qed.

Lemma counter_set_other k k' v (c : Counters) : k <> k' -> counter k (set_key k' v c) = counter k c.
Proof.
  intros Hne. assert (jseq k k' = false) as Hf. { destruct (jseq k k') eqn:E; [by apply jseq_true in E|done]. }
  induction c as [|[k1 v1] c IH]; cbn [set_key counter]; [by rewrite Hf|].
  destruct (jseq k' k1) eqn:E; cbn [counter]; [|by rewrite IH].
  apply jseq_true in E as <-. by rewrite Hf.
Qed.

Lemma counter_increase k n c : counter k (increaseCounter k n c) = counter k c + n.
Proof. apply counter_set_same. Qed.

Lemma counter_increase_other k k' n c : k <> k' -> counter k (increaseCounter k' n c) = counter k c.
Proof. apply counter_set_other. Qed.

Section Distribution.
Context {N : NodeApi} {C : Crypto}.
Variable helper : nat.
Variable accounts : list TSigner.

(** A transfer: the positions of its sender and its receiver and its amount. *)
Definition Transfer : Type := nat * nat * Z.

Definition receiver (t : Transfer) : nat := t.1.2.

(** The transfers that are made, one after the other, and whether each was
    carried out; one that throws was not. *)
Inductive transfers : list (Transfer * bool) -> State -> State -> Prop :=
  | transfers_none s : transfers [] s s
  | transfers_done i j amount sender user b log s s1 s2 :
      accounts !! i = Some sender -> accounts !! j = Some user ->
      BalanceGroup.transferToSubstrate helper sender (address user) (AmountBig amount) s = (Ret b, s1) ->
      transfers log s1 s2 -> transfers ((i, j, amount, true) :: log) s s2
  | transfers_failed i j amount sender user e log s s1 s2 :
      accounts !! i = Some sender -> accounts !! j = Some user ->
      BalanceGroup.transferToSubstrate helper sender (address user) (AmountBig amount) s = (Throw e, s1) ->
      transfers log s1 s2 -> transfers ((i, j, amount, false) :: log) s s2.

(** The receivers of the transfers that were not carried out. *)
Fixpoint unfunded (log : list (Transfer * bool)) : list nat :=
  match log with
  | [] => []
  | (t, ok) :: log' => if (ok : bool) then unfunded log' else receiver t :: unfunded log'
  end.

Lemma transfers_app log log' s s1 s2 : transfers log s s1 -> transfers log' s1 s2 -> transfers (log ++ log') s s2.
Proof. induction 1; [done|intros H'; by eapply transfers_done; auto|intros H'; by eapply transfers_failed; auto]. Qed.

Lemma unfunded_app log log' : unfunded (log ++ log') = unfunded log ++ unfunded log'.
Proof. induction log as [|[t []] log IH]; cbn; [done|done|by rewrite IH]. Qed.

Lemma unfunded_sublist log : sublist (unfunded log) (map receiver log.*1).
Proof. induction log as [|[t []] log IH]; cbn; by constructor. Qed.

Lemma unfunded_bound log s s' : transfers log s s' -> Forall (fun i => (i < length accounts)%nat) (unfunded log).
Proof.
  induction 1 as [|? ? ? ? ? ? ? ? ? ? _ _ _ _ IH|? ? ? ? ? ? ? ? ? ? _ Hj _ _ IH]; cbn; [constructor|done|].
  constructor; [by apply lookup_lt_Some in Hj|done].
Qed.

Lemma stage_transfers_log u amount senders : forall failed s f s',
  stage_transfers helper accounts u amount senders failed s = (Ret f, s') ->
  exists log, transfers log s s' /\ log.*1 = map (fun i => (i, (i + u)%nat, amount)) senders
    /\ f = failed ++ unfunded log.
Proof.
  induction senders as [|i senders IH]; intros failed s f s' H; cbn [stage_transfers] in H.
  - run_inv. exists []. rewrite app_nil_r. split_and!; [constructor|done|done].
  - destruct (accounts !! i) as [sender|] eqn:Ei; [|done].
    destruct (accounts !! (i + u)%nat) as [user|] eqn:Eu; [|done].
    apply bind_Ret_inv in H as (ok & s1 & Hok & H). apply IH in H as (log & Hl & E & ->).
    exists ((i, (i + u)%nat, amount, ok) :: log). cbn. rewrite E. unfold catch in Hok.
    destruct (BalanceGroup.transferToSubstrate helper sender (address user) (AmountBig amount) s)
      as [[b|e|] s2] eqn:Et.
    3: by cbn [bind M_monad] in Hok; rewrite Et in Hok.
    1: rewrite (bind_Ret _ _ _ _ _ Et) in Hok. 2: rewrite (bind_Throw _ _ _ _ _ Et) in Hok.
    all: injection Hok as <- <-; (split; [|split; [done|]]).
    + by eapply transfers_done.
    + done.
    + by eapply transfers_failed.
    + by rewrite <- app_assoc.
Qed.

Definition ascending_below (n : nat) (l : list nat) : Prop :=
  StronglySorted lt l /\ Forall (fun i => (i < n)%nat) l.

Lemma sublist_elem (k l : list nat) x : sublist k l -> x ∈ k -> x ∈ l.
Proof.
  induction 1 as [|y k l Hs IH|y k l Hs IH]; [done| |].
  - rewrite !elem_of_cons. intros [->|Hx]; [by left|right; auto].
  - rewrite elem_of_cons. intros Hx. right. auto.
Qed.

Lemma sublist_ascending (k l : list nat) : sublist k l -> StronglySorted lt l -> StronglySorted lt k.
Proof.
  induction 1 as [|y k l Hs IH|y k l Hs IH]; intros HS; inversion HS as [|? ? HS' HF]; subst; auto.
  constructor; [auto|]. rewrite Forall_forall in HF |- *. intros x Hx. apply HF. by eapply sublist_elem.
Qed.

Lemma seq_ascending n m : StronglySorted lt (seq n m).
Proof.
  revert n. induction m as [|m IH]; intros n; constructor; [apply IH|].
  apply Forall_forall. intros x. rewrite elem_of_seq. lia.
Qed.

Lemma ascending_zero : ascending_below (2 ^ 0) [0%nat].
Proof. split; [apply (seq_ascending 0 1)|constructor; [simpl; lia|constructor]]. Qed.

Lemma ascending_app n m l k : ascending_below n l -> sublist k (seq n m) -> ascending_below (n + m) (l ++ k).
Proof.
  intros [HS HB] Hk. rewrite Forall_forall in HB.
  assert (forall x, x ∈ k -> (n <= x < n + m)%nat) as Hr.
  { intros x Hx. apply (sublist_elem _ _ _ Hk) in Hx. rewrite elem_of_seq in Hx. lia. }
  split.
  - apply StronglySorted_app_2; [|done|by eapply sublist_ascending, seq_ascending].
    intros x y Hx%HB Hy%Hr. lia.
  - apply Forall_app. split; apply Forall_forall; [intros x Hx%HB; lia|intros x Hx%Hr; lia].
Qed.

Lemma shift_seq u : map (fun i => (i + u)%nat) (seq 0 u) = seq u u.
Proof.
  enough (forall n j, map (fun i => (i + u)%nat) (seq j n) = seq (j + u) n) as H by apply H.
  induction n as [|n IH]; intros j; cbn [seq map]; [done|]. by rewrite IH.
Qed.

(** The transfer that funds the account number [j]: in the stage whose power of
    two [j] reaches, the account that far before it sends the stage's share. *)
Definition funding (total : Z) (j : nat) : Transfer :=
  let stage := Nat.log2 j in
  ((j - 2 ^ stage)%nat, j, Z.quot total (2 ^ Z.of_nat stage) - 10 ^ 8 * Z.of_nat stage).

Lemma stage_funding total stage :
  map (fun i => (i, (i + 2 ^ stage)%nat, stage_amount total stage)) (seq 0 (2 ^ stage))
  = map (funding total) (seq (2 ^ stage) (2 ^ stage)).
Proof.
  rewrite <- (shift_seq (2 ^ stage)). rewrite map_map. apply map_ext_in. intros i Hi%in_seq. unfold funding.
  rewrite (Nat.log2_unique (i + 2 ^ stage) stage) by (cbn [Nat.pow]; lia).
  by replace (i + 2 ^ stage - 2 ^ stage)%nat with i by lia.
Qed.

Lemma fundings_receivers total n m : map receiver (map (funding total) (seq n m)) = seq n m.
Proof. rewrite map_map. by apply map_id. Qed.

(** What the stages from [stage] on do to the list of failures and to the
    counters. *)
Definition stages_result (total : Z) (left stage : nat) (failed : list nat) (counters : Counters) (s : State)
  (F : list nat) (c : Counters) (s' : State) : Prop :=
  ascending_below (2 ^ (stage + left)) F /\ Forall (fun i => (i < length accounts)%nat) F
  /\ (exists log, transfers log s s' /\ log.*1 = map (funding total) (seq (2 ^ stage) (2 ^ (stage + left) - 2 ^ stage))
        /\ F = failed ++ unfunded log
        /\ counter (js "txFailed") c = counter (js "txFailed") counters + Z.of_nat (length (unfunded log)))
  /\ counter (js "tx") c = counter (js "tx") counters + 2 ^ Z.of_nat (stage + left) - 2 ^ Z.of_nat stage.

Lemma count_failures f (c : Counters) :
  let c' := match f with
            | [] => c
            | _ => increaseCounter (js "txFailed") (Z.of_nat (length f)) c
            end in
  counter (js "txFailed") c' = counter (js "txFailed") c + Z.of_nat (length (A := nat) f)
  /\ counter (js "tx") c' = counter (js "tx") c.
Proof.
  destruct f as [|i f]; cbn zeta; [cbn [length]; lia|].
  by rewrite counter_increase, counter_increase_other.
Qed.

Lemma stages_from_result total : forall left stage failed counters s F c s',
  stages_from helper (fun _ f => f) left stage accounts total failed counters s = (Ret (F, c), s') ->
  ascending_below (2 ^ stage) failed -> Forall (fun i => (i < length accounts)%nat) failed ->
  stages_result total left stage failed counters s F c s'.
Proof.
  induction left as [|left IH]; intros stage failed counters s F c s' H Ha Hl; cbn [stages_from] in H.
  - run_inv. split_and!; [by rewrite Nat.add_0_r|done| |rewrite Nat.add_0_r; lia].
    exists []. rewrite app_nil_r, Nat.add_0_r, Nat.sub_diag. cbn [length unfunded].
    split_and!; [constructor|done|done|lia].
  - apply bind_Ret_inv in H as (f & s1 & Hf & H). apply stage_transfers_log in Hf as (log & Htr & Hlog & ->).
    cbn [app] in H. rewrite stage_funding in Hlog. pose proof (unfunded_sublist log) as Hg.
    rewrite Hlog, fundings_receivers in Hg. pose proof (unfunded_bound _ _ _ Htr) as Hb.
    pose proof (ascending_app _ _ _ _ Ha Hg) as Ha'.
    pose proof (count_failures (unfunded log) (increaseCounter (js "tx") (Z.of_nat (2 ^ stage)) counters)) as [Hcf Hct].
    cbn zeta in Hcf, Hct. rewrite counter_increase_other in Hcf by done. rewrite counter_increase in Hct.
    apply IH in H as (HF & HFl & (log' & Htr' & Hlog' & -> & Hg') & Htx);
      [|by replace (2 ^ S stage)%nat with (2 ^ stage + 2 ^ stage)%nat by (simpl; lia)|by apply Forall_app].
    rewrite Nat.add_succ_comm in HF, Htx, Hlog'. split_and!; [done|done| |].
    + exists (log ++ log'). rewrite unfunded_app, fmap_app, Hlog, Hlog', <- app_assoc, Hg', Hcf, length_app.
      split_and!; [by eapply transfers_app| |done|lia].
      pose proof (Nat.pow_le_mono_r 2 (S stage) (stage + S left) ltac:(lia) ltac:(lia)) as Hpow.
      replace (2 ^ (stage + S left) - 2 ^ stage)%nat with (2 ^ stage + (2 ^ (stage + S left) - 2 ^ S stage))%nat
        by (cbn [Nat.pow] in *; lia).
      rewrite seq_app, map_app. do 2 f_equal. cbn [Nat.pow]. f_equal. lia.
    + rewrite Htx, Hct, Nat2Z.inj_pow. change (Z.of_nat 2) with 2. rewrite (Nat2Z.inj_succ stage), Z.pow_succ_r by lia. lia.
Qed.

Lemma accounts_kept g : StronglySorted lt (0%nat :: g) -> Forall (fun i => (i < length accounts)%nat) (0%nat :: g) ->
  (length (without 0 (0%nat :: g) accounts) + S (length g) = length accounts)%nat.
Proof. intros HS HF. rewrite <- remove_failed_ascending by done. by apply (length_remove_failed accounts (0%nat :: g)). Qed.

End Distribution.

(** An account is taken when its balance has just been seen to be zero; without
    one the search goes on. *)
Lemma findUnusedAddress_sound {N : NodeApi} {C : Crypto} helper key seedAddition rolls : forall s account s',
  findUnusedAddress helper key seedAddition rolls s = (Ret (Some account), s') ->
  exists roll s1 s2, roll ∈ rolls
    /\ key (SeedText (js "//seed" ++ number_toString roll ++ seedAddition)) s1 = (Ret account, s2)
    /\ BalanceGroup.getSubstrate helper (address account) s2 = (Ret (JBig 0), s').
Proof.
  induction rolls as [|roll rolls IH]; intros s account s' H; cbn [findUnusedAddress] in H; [by run_inv|].
  apply bind_Ret_inv in H as (unused & s1 & Hk & H). apply bind_Ret_inv in H as (bal & s2 & Hb & H).
  destruct (strict_eq bal (JBig 0)) eqn:E.
  - injection H as -> ->. exists roll, s, s1. destruct bal as [| | | |z| | |]; try discriminate E.
    apply Z.eqb_eq in E as ->. split_and!; [by left|done|done].
  - destruct (IH _ _ _ H) as (r & s3 & s4 & Hr & ?). exists r, s3, s4. split; [by right|done].
Qed.

(** C36: When failed transfers are noted in the order of their receivers,
    [distributeBalance] makes one transfer to each of the [2 ^ stages - 1] users
    there should be, in their order: number [j] is sent its stage's share by the
    account [2 ^ stage] before it, where the stage is the logarithm of [j]. It
    returns, in order, the users without the receivers of exactly those transfers
    that threw; a transfer that answers [false] is not a failure. Every user is
    either returned or such a receiver, and the counters have grown by the
    transfers and by the failures. *)
Theorem distribute_in_order {N : NodeApi} {C : Crypto} helper source users total stages counters s kept counters' s' :
  distributeBalance helper (fun _ f => f) source users total stages counters s = (Ret (kept, counters'), s') ->
  exists log, transfers helper (source :: users) log s s'
    /\ log.*1 = map (funding total) (seq 1 (2 ^ stages - 1))
    /\ kept = without 1 (unfunded log) users
    /\ StronglySorted lt (unfunded log) /\ Forall (fun i => (1 <= i <= length users)%nat) (unfunded log)
    /\ (length kept + length (unfunded log) = length users)%nat
    /\ counter (js "txFailed") counters' = counter (js "txFailed") counters + Z.of_nat (length (unfunded log))
    /\ counter (js "tx") counters' = counter (js "tx") counters + 2 ^ Z.of_nat stages - 1.
Proof.
  unfold distributeBalance. intros H. apply bind_Ret_inv in H as ([F c] & s1 & H & E). injection E as <- <- <-.
  apply stages_from_result in H as ([HS _] & HF & (log & Htr & Hlog & -> & Hc) & Ht);
    [|apply ascending_zero|by constructor; [cbn [length]; lia|constructor]].
  rewrite counter_increase_other in Hc, Ht by done. cbn [app] in HS, HF |- *.
  rewrite remove_failed_ascending by done. pose proof (accounts_kept _ _ HS HF) as Hlen. revert Hlen.
  inversion HS as [|? ? HS' H0]; inversion HF as [|? ? _ HF']; subst. cbn [without].
  rewrite bool_decide_eq_true_2, without_passed by (by left || lia). cbn [length] in HF' |- *. intros Hlen.
  exists log. split_and!; [done|exact Hlog|done|done| |lia|done|].
  - rewrite Forall_forall in H0, HF' |- *. intros i Hi. specialize (H0 i Hi). specialize (HF' i Hi). lia.
  - rewrite Ht. change (Z.of_nat 0) with 0. rewrite Z.pow_0_r. f_equal.
Qed.

(** ** Identities *)

Import Identities RelayIdentities.

(** The value of an identity is a record whose JSON is an object without
    methods, as [JSON.parse] would give it. *)
Definition json_identity (value : jsval) : Prop :=
  forall heart json, call0 value (js "unwrap") = Ret heart -> call0 heart (js "toJSON") = Ret json ->
  exists ps, json = JObj ps [].

Definition plain (v : jsval) : Prop := exists ps, v = JObj ps [].

Lemma call0_plain v k : plain v -> jseq k (js "toString") = false -> call0 v k = Throw EngineError.
Proof. intros [ps ->] Hk. cbn [call0 assoc]. by rewrite Hk. Qed.

Lemma extractIdentityInfo_plain value v : json_identity value -> extractIdentityInfo value = Ret v -> plain v.
Proof.
  unfold extractIdentityInfo. cbn [bind outcome_monad]. intros Hj H.
  destruct (call0 value _) as [heart| |] eqn:Eh; [|done..]. cbn [bind outcome_monad] in H.
  destruct (call0 heart (js "toJSON")) as [json| |] eqn:Ej; [|done..]. destruct (Hj _ _ Eh Ej) as [ps ->].
  destruct (get_prop heart _) as [j| |]; [|done..]. destruct (call0 j _) as [h| |]; [|done..].
  injection H as <-. by eexists.
Qed.

Lemma collect_identities_plain l : Forall (fun kv : jsval * jsval => json_identity kv.2) l ->
  forall acc r, Forall (fun kv : jsval * jsval => plain kv.2) acc.1 -> 
  for_each (fun '(identities, nones) '(key, value) =>
    isNone ← get_prop value (js "isNone");
    if truthy isNone then Ret (identities, nones ++ [key])
    else i ← extractIdentity key value; Ret (identities ++ [i], nones)) acc l = Ret (E := exn) r ->
  Forall (fun kv : jsval * jsval => plain kv.2) r.1.
Proof.
  induction 1 as [|[key value] l Hv _ IH]; intros [ids nones] r Ha H; cbn [for_each] in H; [by injection H as <-|].
  destruct (get_prop value _) as [b| |]; [|done..]. cbn [bind outcome_monad] in H.
  destruct (truthy b); [by eapply (IH (ids, nones ++ [key]))|].
  unfold extractIdentity in H. destruct (extractAccountId key) as [a| |]; [|done..].
  destruct (extractIdentityInfo value) as [i| |] eqn:Ei; [|done..].
  eapply (IH (ids ++ [(a, i)], nones)); [|exact H]. apply Forall_app. split; [done|].
  constructor; [|constructor]. by eapply extractIdentityInfo_plain.
Qed.

Section RelayIdentitiesFacts.
Context {N : NodeApi} {C : Crypto} {X : Harness}.

Lemma getIdentities_plain helper s l nones s1 :
  (forall es s', entries helper (js "identityOf") s = (Ret es, s') ->
    Forall (fun kv : jsval * jsval => json_identity kv.2) es) ->
  getIdentities helper s = (Ret (l, nones), s1) -> Forall (fun kv : jsval * jsval => plain kv.2) l.
Proof.
  intros He H. apply bind_Ret_inv in H as (es & s2 & Hes & H). apply lift_Ret_inv in H as [H _].
  by apply (collect_identities_plain es (He _ _ Hes) ([], []) (l, nones)) in H.
Qed.

End RelayIdentitiesFacts.

(** The checker of relay chain identities cannot read an identity: it asks
    for [toHuman] on what [getIdentities] has already turned into a plain
    object. So [pull] throws as soon as a chain has one identity, and
    [pullIdentities] reports an error while fetching. *)
Theorem relay_checker_fails {N : NodeApi} {C : Crypto} {X : Harness} helper s i l nones s1 :
  (forall es s', entries helper (js "identityOf") s = (Ret es, s') ->
    Forall (fun kv : jsval * jsval => json_identity kv.2) es) ->
  getIdentities helper s = (Ret (i :: l, nones), s1) ->
  pull helper s = (Throw EngineError, s1).
Proof.
  intros He H. pose proof (getIdentities_plain _ _ _ _ _ He H) as HF. inversion HF as [|? ? Hp _]; subst.
  unfold pull. rewrite (bind_Ret _ _ _ _ _ H). destruct i as [key value]. apply bind_Throw.
  unfold lift. cbn [for_each]. unfold well_judged. by rewrite (call0_plain value).
Qed.

(** ** Priority of a registrar *)

(** The data of a registrar counts when it is the chain's own or of a smaller
    number than the relay chain's; the registrar of the chain with number zero
    never does, being taken for a missing one. *)
Lemma priority_of_zero relay : isCurrentChainDataPriority (JNum (Int 0)) (JNum (Int 0)) (JNum (Int relay)) = false.
Proof. done. Qed.

Lemma priority_of_registrar own current relay : current <> 0 ->
  isCurrentChainDataPriority (JNum (Int own)) (JNum (Int current)) (JNum (Int relay))
  = bool_decide (current = own \/ current < relay).
Proof.
  intros Hc. unfold isCurrentChainDataPriority. cbn [truthy]. rewrite (proj2 (Z.eqb_neq current 0)) by done.
  cbn [negb loose_num_eq num_eqb js_lt]. destruct (Z.eqb_spec current own) as [->|Hne].
  - by rewrite bool_decide_eq_true_2 by by left.
  - destruct (Z.ltb_spec current relay); symmetry.
    + apply bool_decide_eq_true_2. by right.
    + apply bool_decide_eq_false_2. lia.
Qed.

(** ** Batches and lease times *)

Lemma mjoin_chunks {A} (arr : list A) n k :
  mjoin (map (fun i => take n (drop (i * n) arr)) (seq 0 k)) = take (k * n) arr.
Proof.
  induction k as [|k IH]; [done|]. rewrite seq_S, map_app, join_app, IH. cbn [map].
  replace (S k * n)%nat with (k * n + n)%nat by (simpl; lia). rewrite <- take_take_drop. f_equal. apply app_nil_r.
Qed.

Lemma ceiling_div len n : (0 < n)%nat -> (len <= (len + (n - 1)) / n * n < len + n)%nat.
Proof.
  intros Hn. pose proof (Nat.div_mod_eq (len + (n - 1)) n). pose proof (Nat.mod_upper_bound (len + (n - 1)) n). lia.
Qed.

(** The batches of the repair script are consecutive pieces of the list of
    blocks, none empty and none longer than the given size. *)
Theorem chunk_partition {A} (arr : list A) n : (0 < n)%nat ->
  mjoin (Maintenance.chunk arr n) = arr
  /\ Forall (fun c => (1 <= length c <= n)%nat) (Maintenance.chunk arr n).
Proof.
  intros Hn. destruct (ceiling_div (length arr) n Hn) as [Hlo Hhi]. unfold Maintenance.chunk. split.
  - rewrite mjoin_chunks. by apply take_ge.
  - apply Forall_map, Forall_forall. intros i Hi. rewrite elem_of_seq in Hi. cbn beta.
    rewrite length_take, length_drop.
    assert (i * n + n <= (length arr + (n - 1)) / n * n)%nat by nia. lia.
Qed.

Import LeaseStatus.

Lemma remainder_taken s u : 0 <= s -> 0 < u -> (if 0 <? s / u then Z.rem s u else s) = s mod u.
Proof.
  intros Hs Hu. pose proof (Z.div_pos s u Hs Hu). destruct (Z.ltb_spec 0 (s / u)) as [_|H0].
  - apply Z.rem_mod_nonneg; lia.
  - pose proof (Z.div_mod s u). replace (s / u) with 0 in * by lia. lia.
Qed.

Lemma split_time_units s : 0 <= s -> split_time s units
  = [(s / 86400, js "d"); (s mod 86400 / 3600, js "h"); (s mod 86400 mod 3600 / 60, js "m");
     (s mod 86400 mod 3600 mod 60, js "s")].
Proof.
  intros Hs. change units with [(js "d", 86400); (js "h", 3600); (js "m", 60); (js "s", 1)]. cbn [split_time].
  pose proof (Z.mod_pos_bound s 86400). pose proof (Z.mod_pos_bound (s mod 86400) 3600).
  rewrite (remainder_taken s), (remainder_taken (s mod 86400)), (remainder_taken (s mod 86400 mod 3600)) by lia.
  by rewrite Z.div_1_r.
Qed.

(** [secondsToTime] writes a time that has not passed in days, hours,
    minutes and seconds that add up to it, each smaller unit within the next. *)
Theorem secondsToTime_exact s : 0 <= s ->
  exists d h m sec, secondsToTime s
    = number_toString d ++ js "d:" ++ number_toString h ++ js "h:" ++ number_toString m ++ js "m:"
      ++ number_toString sec ++ js "s"
  /\ s = 86400 * d + 3600 * h + 60 * m + sec /\ 0 <= d /\ 0 <= h < 24 /\ 0 <= m < 60 /\ 0 <= sec < 60.
Proof.
  intros Hs. exists (s / 86400), (s mod 86400 / 3600), (s mod 86400 mod 3600 / 60), (s mod 86400 mod 3600 mod 60).
  unfold secondsToTime. rewrite split_time_units by done. split.
  - cbn [map join fst snd]. by rewrite <- !app_assoc.
  - pose proof (Z.div_pos s 86400). Z.to_euclidean_division_equations. lia.
Qed.

(** A time that has passed is split by rounding down at every unit. *)
Lemma secondsToTime_past : secondsToTime (-1) = js "-1d:-1h:-1m:-1s".
Proof. by vm_compute. Qed.
