(* ===== verification/Load.v ===== *)
(** * The load generator's processes

    The master of transfer.nload.ts and its workers: how the workers are
    funded and started, and the counters they send. The processes run side
    by side, so a run is a list of events, each a turn of one of them; what an
    event does to the state is a function, and the theorems are about the
    states that lists of events lead to. *)

From Stdlib Require Import Ascii String.
From stdpp Require Import list.
From S2P Require Import Prelude JsString JsValue Chain Address Util Helper Collections Balance Dev Wait Arrange Eth.
From S2P Require Import TestUtil Scripts ScriptFacts.

Open Scope Z_scope.
Open Scope js_scope.

Module Load.
Import TransferLoad.

(** ** Starting the workers *)

(** [`${id}`] of the index [id] of a processor; a key of [for(... in ...)] is a
    text, so [id + 2] appends a digit. *)
Definition worker_env (id : nat) (now : Z) : jsstr * jsstr :=
  let id := number_toString (Z.of_nat id) in
  (js "//LoadWorker" ++ id ++ js "_" ++ number_toString now, id ++ js "2").

Section Start.
Context {N : NodeApi} {C : Crypto}.
Variable helper : nat.

(** One round of the loop of the master: the environment of the worker it
    forks. *)
Definition start_worker (key : Seed -> M TSigner) (alice : TSigner) (id : nat) : M (jsstr * jsstr) :=
  now ← current_time;
  let env := worker_env id now in
  workerAccount ← key (SeedText env.1);
  BalanceGroup.transferToSubstrate helper alice (address workerAccount) (AmountBig (400 * 10 ^ 23));;
  mreturn env.

(** The loop: the workers forked, and whether it went through all processors;
    the first error ends it and leaves the workers running. *)
Fixpoint start_workers (key : Seed -> M TSigner) (alice : TSigner) (ids : list nat)
  : M (list (jsstr * jsstr) * bool) :=
  match ids with
  | [] => mreturn ([], true)
  | id :: ids' =>
      r ← attempt (start_worker key alice id);
      match r with
      | inr _ => mreturn ([], false)
      | inl env => ' (envs, all) ← start_workers key alice ids'; mreturn (env :: envs, all)
      end
  end.

(** [findUnusedAddresses]: a list of rolls for each account. *)
Fixpoint findUnusedAddresses (key : Seed -> M TSigner) (rolls : list (list Z)) : M (option (list TSigner)) :=
  match rolls with
  | [] => mreturn (Some [])
  | r :: rolls' =>
      now ← current_time;
      a ← findUnusedAddress helper key (js "_" ++ number_toString now) r;
      l ← findUnusedAddresses key rolls';
      mreturn (match a, l with Some a, Some l => Some (a :: l) | _, _ => None end)
  end.

(** The work of a worker with the name [name]; the environment's number of
    stages is not read. *)
Definition worker_main (settle : nat -> list nat -> list nat) (key : Seed -> M TSigner) (name : jsstr)
  (rolls : list (list Z)) (counters : Counters) : M (option (list TSigner * Counters)) :=
  source ← key (SeedText name);
  users ← findUnusedAddresses key rolls;
  match users with
  | None => mreturn None
  | Some users =>
      r ← distributeBalance helper settle source users (400 * 10 ^ 22) 10 counters;
      mreturn (Some r)
  end.

End Start.

(** ** Counters between the processes *)

(** [w_channel] are the messages sent and not yet received. *)
Record Worker : Type := mkWorker {
  w_counters : Counters;
  w_channel : list Counters;
  w_alive : bool }.

(** [m_output] has a name and a difference for each line printed. *)
Record Cluster : Type := mkCluster {
  m_counters : Counters;
  m_prevCounters : Counters;
  m_output : list (jsstr * Z);
  m_printing : bool;
  m_starting : bool;
  m_testDone : bool;
  m_workers : list Worker }.

Definition initial : Cluster := mkCluster [] [] [] true true false [].

(** [worker.on('message', ...)] *)
Definition receive (msg : Counters) (counters : Counters) : Counters :=
  fold_left (fun c e => increaseCounter e.1 e.2 c) msg counters.

Definition in_counters (name : jsstr) (c : Counters) : bool := existsb (fun e => jseq name e.1) c.

(** A round of the printing loop over one counter. *)
Definition print_counter (s : Counters * list (jsstr * Z)) (e : jsstr * Z) : Counters * list (jsstr * Z) :=
  let '(prev, out) := s in
  let '(name, v) := e in
  let prev := if in_counters name prev then prev else set_key name 0 prev in
  if v =? counter name prev then (prev, out)
  else (set_key name v prev, out ++ [(name, v - counter name prev)]).

Definition print_counters (counters prev : Counters) (out : list (jsstr * Z)) : Counters * list (jsstr * Z) :=
  fold_left print_counter counters (prev, out).

(** [`${name.padEnd(15)} = ${...}`] *)
Definition counter_line (e : jsstr * Z) : jsstr :=
  padEnd 15 32 e.1 ++ js " = " ++ number_toString e.2.

Inductive Event : Type :=
  | Fork
  | AllForked
  | Count (i : nat) (name : jsstr) (amount : Z)
  | Tick (i : nat)
  | Deliver (i : nat)
  | Exit (i : nat)
  | Done
  | Report
  | StopReport.

Definition set_workers (f : list Worker -> list Worker) (c : Cluster) : Cluster :=
  mkCluster (m_counters c) (m_prevCounters c) (m_output c) (m_printing c) (m_starting c) (m_testDone c)
    (f (m_workers c)).

(** A worker starts by counting itself. *)
Definition new_worker : Worker := mkWorker (increaseCounter (js "startedWorkers") 1 []) [] true.

Definition count (name : jsstr) (amount : Z) (w : Worker) : Worker :=
  mkWorker (increaseCounter name amount (w_counters w)) (w_channel w) (w_alive w).

(** A tick of the worker's timer. *)
Definition tick (w : Worker) : Worker :=
  let '(msg, rest) := flushCounterToMaster (w_counters w) in
  mkWorker rest (w_channel w ++ match msg with Some m => [m] | None => [] end) (w_alive w).

(** The timer does not keep the process: it ends with its counters unsent. *)
Definition exit_worker (w : Worker) : Worker := mkWorker (w_counters w) (w_channel w) false.

(** What an event does; [None] when it cannot happen. *)
Definition run_event (e : Event) (c : Cluster) : option Cluster :=
  match e with
  | Fork => if m_starting c then Some (set_workers (fun ws => ws ++ [new_worker]) c) else None
  | AllForked =>
      if m_starting c
      then Some (mkCluster (m_counters c) (m_prevCounters c) (m_output c) (m_printing c) false (m_testDone c)
                   (m_workers c))
      else None
  | Count i name amount =>
      m_workers c !! i ≫= fun w =>
      if w_alive w then Some (set_workers (<[i := count name amount w]>) c) else None
  | Tick i =>
      m_workers c !! i ≫= fun w =>
      if w_alive w then Some (set_workers (<[i := tick w]>) c) else None
  | Deliver i =>
      m_workers c !! i ≫= fun w =>
      match w_channel w with
      | [] => None
      | msg :: channel =>
          Some (mkCluster (receive msg (m_counters c)) (m_prevCounters c) (m_output c) (m_printing c)
                  (m_starting c) (m_testDone c)
                  (<[i := mkWorker (w_counters w) channel (w_alive w)]> (m_workers c)))
      end
  | Exit i =>
      m_workers c !! i ≫= fun w =>
      if w_alive w then Some (set_workers (<[i := exit_worker w]>) c) else None
  | Done =>
      if negb (m_starting c) && forallb (fun w => negb (w_alive w)) (m_workers c)
      then Some (mkCluster (m_counters c) (m_prevCounters c) (m_output c) (m_printing c) (m_starting c) true
                   (m_workers c))
      else None
  | Report =>
      if m_printing c && negb (m_testDone c) then
        let '(prev, out) := print_counters (m_counters c) (m_prevCounters c) (m_output c) in
        Some (mkCluster (m_counters c) prev out true (m_starting c) (m_testDone c) (m_workers c))
      else None
  | StopReport =>
      if m_printing c && m_testDone c
      then Some (mkCluster (m_counters c) (m_prevCounters c) (m_output c) false (m_starting c) (m_testDone c)
                   (m_workers c))
      else None
  end.

(** The states that a list of events leads to. *)
Inductive runs : list Event -> Cluster -> Prop :=
  | runs_nil : runs [] initial
  | runs_snoc es e c c' : runs es c -> run_event e c = Some c' -> runs (es ++ [e]) c'.

(** ** What is counted, what is on its way, what is reported *)

(** The sum of all entries of a name. *)
Definition total (name : jsstr) (l : list (jsstr * Z)) : Z :=
  foldr (fun e n => (if jseq name e.1 then e.2 else 0) + n) 0 l.

Definition counted_by (name : jsstr) (e : Event) : Z :=
  match e with
  | Fork => if jseq name (js "startedWorkers") then 1 else 0
  | Count _ n amount => if jseq name n then amount else 0
  | _ => 0
  end.

(** Everything counted under a name in a run. *)
Definition counted (name : jsstr) (es : list Event) : Z := foldr (fun e n => counted_by name e + n) 0 es.

Definition sum_of {A} (f : A -> Z) (l : list A) : Z := foldr (fun a n => f a + n) 0 l.

(** What a worker has counted and not sent, and what it has sent and the
    master not received. *)
Definition unsent (name : jsstr) (w : Worker) : Z := total name (w_counters w).
Definition in_flight (name : jsstr) (w : Worker) : Z := sum_of (total name) (w_channel w).

Definition outstanding (name : jsstr) (w : Worker) : Z := unsent name w + in_flight name w.
Definition outside (name : jsstr) (c : Cluster) : Z := sum_of (outstanding name) (m_workers c).

Lemma sum_of_app {A} (f : A -> Z) l1 l2 : sum_of f (l1 ++ l2) = sum_of f l1 + sum_of f l2.
Proof. induction l1; cbn; [done|]. unfold sum_of in *. lia. Qed.

Lemma sum_of_insert {A} (f : A -> Z) l i a b d :
  l !! i = Some a -> f b = f a + d -> sum_of f (<[i:=b]> l) = sum_of f l + d.
Proof.
  revert i. induction l as [|x l IH]; intros [|i] H Hd; try done.
  - injection H as ->. cbn. lia.
  - specialize (IH _ H Hd). change (f x + sum_of f (<[i:=b]> l) = f x + sum_of f l + d). lia.
Qed.

Lemma total_app name l1 l2 : total name (l1 ++ l2) = total name l1 + total name l2.
Proof. unfold total. induction l1 as [|e l1 IH]; cbn; [done|]. rewrite IH. lia. Qed.

Lemma counted_app name es1 es2 : counted name (es1 ++ es2) = counted name es1 + counted name es2.
Proof. apply (sum_of_app (counted_by name)). Qed.

(** Adding to a counter adds to the total of its name. *)
Lemma total_set name n v c :
  total name (set_key n v c) = total name c + (if jseq name n then v - counter n c else 0).
Proof.
  induction c as [|[k w] c IH]; cbn [set_key total counter foldr fst snd].
  - destruct (jseq name n); cbn; lia.
  - destruct (jseq n k) eqn:E; cbn [total foldr fst snd].
    + apply jseq_true in E as ->. destruct (jseq name k); lia.
    + fold (total name (set_key n v c)) (total name c). rewrite IH. lia.
Qed.

Lemma total_increase name n amount c :
  total name (increaseCounter n amount c) = total name c + (if jseq name n then amount else 0).
Proof. unfold increaseCounter. rewrite total_set. destruct (jseq name n); lia. Qed.

Lemma total_receive name msg c : total name (receive msg c) = total name c + total name msg.
Proof.
  unfold receive. revert c. induction msg as [|[n a] msg IH]; intros c; cbn [fold_left]; [cbn; lia|].
  rewrite IH, total_increase. cbn. fold (total name msg). lia.
Qed.

Lemma outstanding_new name :
  outstanding name new_worker = if jseq name (js "startedWorkers") then 1 else 0.
Proof.
  unfold outstanding, unsent, in_flight, new_worker. cbn [w_counters w_channel sum_of foldr].
  rewrite total_increase. cbn [total foldr]. lia.
Qed.

Lemma outstanding_count name n amount w :
  outstanding name (count n amount w) = outstanding name w + (if jseq name n then amount else 0).
Proof.
  unfold outstanding, unsent, in_flight, count. cbn [w_counters w_channel]. rewrite total_increase.
  destruct (jseq name n); lia.
Qed.

Lemma outstanding_tick name w : outstanding name (tick w) = outstanding name w + 0.
Proof.
  unfold outstanding, unsent, in_flight, tick, flushCounterToMaster.
  destruct (w_counters w) as [|e c] eqn:E; cbn [w_counters w_channel]; rewrite sum_of_app; cbn; lia.
Qed.

Lemma outstanding_exit name w : outstanding name (exit_worker w) = outstanding name w + 0.
Proof. unfold outstanding, unsent, in_flight, exit_worker. cbn [w_counters w_channel]. lia. Qed.

Lemma outstanding_received name w msg channel : w_channel w = msg :: channel ->
  outstanding name (mkWorker (w_counters w) channel (w_alive w)) = outstanding name w + - total name msg.
Proof. unfold outstanding, unsent, in_flight. intros ->. cbn [w_counters w_channel sum_of foldr]. lia. Qed.

(** Take apart a run of one event. *)
Ltac event_inv H :=
  repeat first
    [ apply bind_Some in H as (? & ? & H)
    | match type of H with context [match ?x with _ => _ end] => destruct x eqn:?; try discriminate H end ];
  injection H as <-.

(** An event moves what is counted between the processes and adds what it
    counts. *)
Lemma event_conserves name e c c' : run_event e c = Some c' ->
  total name (m_counters c') + outside name c'
  = total name (m_counters c) + outside name c + counted_by name e.
Proof.
  unfold outside. destruct e; cbn [run_event counted_by]; intros H; event_inv H;
    cbn [set_workers m_counters m_workers]; try lia.
  - rewrite sum_of_app. cbn [sum_of foldr]. rewrite outstanding_new. lia.
  - rewrite (sum_of_insert _ _ _ _ _ _ ltac:(eassumption) (outstanding_count _ _ _ _)). lia.
  - rewrite (sum_of_insert _ _ _ _ _ _ ltac:(eassumption) (outstanding_tick _ _)). lia.
  - erewrite (sum_of_insert _ _ _ _ _ _ ltac:(eassumption)) by by apply outstanding_received.
    rewrite total_receive. lia.
  - rewrite (sum_of_insert _ _ _ _ _ _ ltac:(eassumption) (outstanding_exit _ _)). lia.
Qed.

(** ** Counters without repeated names *)

Definition names_unique (c : Counters) : Prop := NoDup (map fst c).

Lemma set_key_names {A} k (v : A) c : map fst (set_key k v c) =
  if existsb (fun e => jseq k e.1) c then map fst c else map fst c ++ [k].
Proof.
  induction c as [|[n w] c IH]; [done|]. cbn [set_key existsb map fst].
  destruct (jseq k n) eqn:E; cbn [orb map fst]; [by apply jseq_true in E as ->|].
  rewrite IH. by destruct (existsb _ c).
Qed.

Lemma in_counters_spec name c : in_counters name c = true <-> name ∈ map fst c.
Proof.
  unfold in_counters. rewrite existsb_exists, list_elem_of_In, in_map_iff. split.
  - intros (e & He & ->%jseq_true). eauto.
  - intros (e & <- & He). exists e. split; [done|]. apply jseq_refl.
Qed.

Lemma set_key_unique k v c : names_unique c -> names_unique (set_key k v c).
Proof.
  unfold names_unique. rewrite set_key_names. fold (in_counters k c).
  destruct (in_counters k c) eqn:E; [done|]. intros H. apply NoDup_app. split_and!; [done| |apply NoDup_singleton].
  intros x Hx ->%list_elem_of_singleton. apply in_counters_spec in Hx. congruence.
Qed.

Lemma counter_absent name c : name ∉ map fst c -> counter name c = 0 /\ total name c = 0.
Proof.
  induction c as [|[n v] c IH]; [done|]. cbn [map fst]. rewrite not_elem_of_cons. intros [Hn Hc].
  cbn [counter total foldr fst snd]. destruct (jseq name n) eqn:E; [by apply jseq_true in E|].
  destruct (IH Hc) as [H1 H2]. unfold total in H2. lia.
Qed.

Lemma counter_total name c : names_unique c -> counter name c = total name c.
Proof.
  induction c as [|[n v] c IH]; [done|]. intros [Hn Hc]%NoDup_cons.
  cbn [counter total foldr fst snd]. fold (total name c).
  destruct (jseq name n) eqn:E; [|by rewrite IH by done].
  apply jseq_true in E as ->. destruct (counter_absent n c Hn) as [_ ->]. lia.
Qed.

Lemma increase_unique n amount c : names_unique c -> names_unique (increaseCounter n amount c).
Proof. apply set_key_unique. Qed.

Lemma receive_unique msg c : names_unique c -> names_unique (receive msg c).
Proof. unfold receive. revert c. induction msg as [|e msg IH]; intros c H; [done|]. by apply IH, increase_unique. Qed.

(** ** The printing loop *)

(** A printed difference is what the printed total grows by. *)
Lemma print_counter_total name s e :
  total name (print_counter s e).2 - total name (print_counter s e).1 = total name s.2 - total name s.1.
Proof.
  destruct s as [prev out], e as [n v]. unfold print_counter. cbn [fst snd].
  set (prev1 := if in_counters n prev then prev else set_key n 0 prev).
  assert (total name prev1 = total name prev) as <-.
  { unfold prev1. destruct (in_counters n prev) eqn:E; [done|]. rewrite total_set.
    destruct (counter_absent n prev) as [-> _]; [|destruct (jseq name n); lia].
    intros H%in_counters_spec. congruence. }
  destruct (v =? counter n prev1); cbn [fst snd]; [done|].
  rewrite total_set, total_app. cbn [total foldr fst snd]. destruct (jseq name n); lia.
Qed.

Lemma print_counter_unique s e : names_unique s.1 -> names_unique (print_counter s e).1.
Proof.
  destruct s as [prev out], e as [n v]. unfold print_counter. cbn [fst snd]. intros H.
  destruct (in_counters n prev), (v =? _); cbn [fst]; auto using set_key_unique.
Qed.

(** After its round, the printed total of the counter is its value; the others
    are as they were. *)
Lemma print_counter_prev name s e : names_unique s.1 ->
  counter name (print_counter s e).1 = if jseq name e.1 then e.2 else counter name s.1.
Proof.
  destruct s as [prev out], e as [n v]. unfold print_counter. cbn [fst snd]. intros H.
  assert (forall m w c, counter name (set_key m w c) = if jseq name m then w else counter name c) as Hset.
  { intros m w c. destruct (jseq name m) eqn:E; [apply jseq_true in E as ->; apply counter_set_same|].
    induction c as [|[k x] c IH]; cbn [set_key counter]; [by rewrite E|].
    destruct (jseq m k) eqn:Ek; cbn [counter]; [apply jseq_true in Ek as ->; by rewrite E|by rewrite IH]. }
  destruct (in_counters n prev) eqn:Ein.
  - destruct (Z.eqb_spec v (counter n prev)) as [->|Hv]; cbn [fst]; [|apply Hset].
    destruct (jseq name n) eqn:E; [by apply jseq_true in E as ->|done].
  - rewrite counter_set_same.
    assert (name = n -> counter name prev = 0) as H0.
    { intros ->. apply counter_absent. intros Hin%in_counters_spec. congruence. }
    destruct (Z.eqb_spec v 0) as [->|Hv]; cbn [fst]; rewrite !Hset; destruct (jseq name n) eqn:E; done.
Qed.

Lemma print_counters_total name counters prev out :
  total name (print_counters counters prev out).2 - total name (print_counters counters prev out).1
  = total name out - total name prev.
Proof.
  unfold print_counters. change (total name out - total name prev)
    with (total name (prev, out).2 - total name (prev, out).1).
  generalize (prev, out). induction counters as [|e l IH]; intros s; [done|].
  cbn [fold_left]. by rewrite IH, print_counter_total.
Qed.

Lemma print_counters_prev counters prev out : names_unique counters -> names_unique prev ->
  names_unique (print_counters counters prev out).1
  /\ forall name, counter name (print_counters counters prev out).1
       = if in_counters name counters then counter name counters else counter name prev.
Proof.
  unfold print_counters. intros Hc Hp. change prev with (prev, out).1 in Hp |- * at 3. revert Hp.
  generalize (prev, out). induction counters as [|e l IH]; intros s Hp; [done|].
  apply NoDup_cons in Hc as [He Hl]. cbn [fold_left].
  destruct (IH Hl (print_counter s e) (print_counter_unique s e Hp)) as [Hu Hv]. split; [done|].
  intros name. rewrite Hv, print_counter_prev by done. destruct e as [n v].
  cbn [in_counters existsb counter fst snd] in *. fold (in_counters name l).
  destruct (jseq name n) eqn:E; cbn [orb]; [|done]. apply jseq_true in E as ->.
  destruct (in_counters n l) eqn:El; [|done]. by apply in_counters_spec in El.
Qed.

(** ** The states of a run *)

Definition worker_unique (w : Worker) : Prop :=
  names_unique (w_counters w) /\ Forall names_unique (w_channel w).

Definition all_unique (c : Cluster) : Prop :=
  names_unique (m_counters c) /\ names_unique (m_prevCounters c) /\ Forall worker_unique (m_workers c).

Lemma tick_unique w : worker_unique w -> worker_unique (tick w).
Proof.
  intros [Hc Hm]. unfold tick, flushCounterToMaster, worker_unique.
  destruct (w_counters w) as [|e l] eqn:E; cbn [w_counters w_channel].
  - by rewrite app_nil_r.
  - split; [apply NoDup_nil_2|]. apply Forall_app_2; [done|]. by constructor.
Qed.

Lemma event_unique e c c' : run_event e c = Some c' -> all_unique c -> all_unique c'.
Proof.
  intros H (Hc & Hp & Hw).
  assert (forall i w, m_workers c !! i = Some w -> worker_unique w) as Hl
    by (intros i w Hi; by eapply Forall_lookup_1 in Hw).
  destruct e; cbn [run_event] in H; event_inv H; cbn [set_workers];
    try (match goal with Hi : m_workers c !! _ = Some ?w |- _ => destruct (Hl _ _ Hi) as [Hu Hm] end);
    split_and!; cbn [m_counters m_prevCounters m_workers]; try done; try apply Forall_insert; try done.
  - apply Forall_app_2; [done|]. constructor; [|done]. split; [|constructor].
    apply increase_unique, NoDup_nil_2.
  - split; [by apply increase_unique|done].
  - by apply tick_unique.
  - by apply receive_unique.
  - match goal with H : w_channel _ = _ |- _ => rewrite H in Hm end. split; [done|].
    by apply Forall_cons in Hm as [_ Hm].
  - match goal with H : print_counters _ _ _ = _ |- _ => rename H into Hpr end.
    destruct (print_counters_prev _ _ (m_output c) Hc Hp) as [Hu _]. by rewrite Hpr in Hu.
Qed.

Lemma runs_unique es c : runs es c -> all_unique c.
Proof.
  induction 1 as [|es e c c' _ IH He]; [|by eapply event_unique].
  split_and!; [apply NoDup_nil_2..|constructor].
Qed.

(** Of a counter: what is on its way to the master; what the running workers
    have not sent yet; and what the workers that ended had not sent, which is
    lost. *)
Definition travelling (name : jsstr) (c : Cluster) : Z :=
  sum_of (fun w => sum_of (counter name) (w_channel w)) (m_workers c).
Definition unsent_by (alive : bool) (name : jsstr) (c : Cluster) : Z :=
  sum_of (fun w => if Bool.eqb (w_alive w) alive then counter name (w_counters w) else 0) (m_workers c).
Definition pending (name : jsstr) (c : Cluster) : Z := unsent_by true name c.
Definition lost (name : jsstr) (c : Cluster) : Z := unsent_by false name c.

Lemma sum_of_ext {A} (f g : A -> Z) l : Forall (fun a => f a = g a) l -> sum_of f l = sum_of g l.
Proof. induction 1 as [|a l Ha _ IH]; [done|]. cbn [sum_of foldr]. unfold sum_of in IH. by rewrite Ha, IH. Qed.

Lemma sum_of_add {A} (f g : A -> Z) l : sum_of (fun a => f a + g a) l = sum_of f l + sum_of g l.
Proof. induction l as [|a l IH]; cbn [sum_of foldr]; [done|]. unfold sum_of in IH. lia. Qed.

Lemma parts_outside name c : all_unique c ->
  travelling name c + pending name c + lost name c = outside name c.
Proof.
  intros (_ & _ & Hw). unfold travelling, pending, lost, unsent_by. rewrite <- !sum_of_add.
  apply sum_of_ext. eapply Forall_impl; [exact Hw|]. intros w [Hu Hm].
  unfold outstanding, unsent, in_flight. rewrite counter_total by done.
  rewrite (sum_of_ext (counter name) (total name) (w_channel w));
    [|eapply Forall_impl; [exact Hm|]; intros m; apply counter_total].
  unfold Counters. destruct (w_alive w); cbn [Bool.eqb]; lia.
Qed.

(** Counts are lost when a worker ends, and only then. *)
Definition lost_by (name : jsstr) (e : Event) (c : Cluster) : Z :=
  match e with
  | Exit i => match m_workers c !! i with Some w => counter name (w_counters w) | None => 0 end
  | _ => 0
  end.

Lemma event_loses name e c c' : run_event e c = Some c' -> lost name c' = lost name c + lost_by name e c.
Proof.
  intros H. unfold lost, unsent_by, lost_by.
  destruct e; cbn [run_event] in H; event_inv H; cbn [set_workers m_workers]; try lia.
  - rewrite sum_of_app. cbn [sum_of foldr new_worker w_alive Bool.eqb]. lia.
  - rewrite Z.add_0_r. erewrite (sum_of_insert _ _ _ _ _ 0); [lia|eassumption|].
    unfold count. cbn [w_alive]. by match goal with H : w_alive _ = true |- _ => rewrite H end.
  - rewrite Z.add_0_r. erewrite (sum_of_insert _ _ _ _ _ 0); [lia|eassumption|].
    unfold tick. destruct (flushCounterToMaster _). cbn [w_alive].
    by match goal with H : w_alive _ = true |- _ => rewrite H end.
  - rewrite Z.add_0_r. erewrite (sum_of_insert _ _ _ _ _ 0); [lia|eassumption|]. cbn [w_alive w_counters]. lia.
  - match goal with H : m_workers c !! _ = Some ?w |- _ => rewrite H;
      erewrite (sum_of_insert _ _ _ _ _ (counter name (w_counters w))); [done|eassumption|] end.
    cbn [exit_worker w_alive w_counters]. match goal with H : w_alive _ = true |- _ => rewrite H end. cbn [Bool.eqb]. lia.
Qed.

Lemma runs_conserve name es c : runs es c ->
  total name (m_counters c) + outside name c = counted name es
  /\ total name (m_output c) = total name (m_prevCounters c).
Proof.
  induction 1 as [|es e c c' Hr [IH IHp] He]; [done|]. split.
  - rewrite (event_conserves _ _ _ _ He), counted_app. cbn [counted foldr]. lia.
  - destruct e; cbn [run_event] in He; event_inv He; try exact IHp.
    match goal with H : print_counters _ _ _ = _ |- _ => rename H into Hpr end.
    pose proof (print_counters_total name (m_counters c) (m_prevCounters c) (m_output c)) as Ht.
    rewrite Hpr in Ht. cbn [fst snd m_output m_prevCounters] in *. lia.
Qed.

(** ** What the report says *)

(** A round of the report brings the printed total of every counter of the
    master to its value. *)
Lemma report_catches_up es c c' name : runs es c -> run_event Report c = Some c' ->
  in_counters name (m_counters c) = true -> total name (m_output c') = counter name (m_counters c').
Proof.
  intros Hr He Hn. assert (runs (es ++ [Report]) c') as Hr' by by econstructor.
  rewrite (proj2 (runs_conserve name _ _ Hr')). pose proof (runs_unique _ _ Hr') as (_ & Hq & _).
  rewrite <- counter_total by done. pose proof (runs_unique _ _ Hr) as (Hm & Hp & _).
  cbn [run_event] in He. event_inv He.
  match goal with H : print_counters _ _ _ = _ |- _ => rename H into Hpr end.
  destruct (print_counters_prev _ _ (m_output c) Hm Hp) as [_ Hv]. specialize (Hv name).
  rewrite Hpr, Hn in Hv. exact Hv.
Qed.

(** C13: No count is invented or counted twice between the processes of the
    load generator, and only the end of a worker loses any. In every state that
    the turns of the master and its workers lead to, in whatever order they
    come, everything that was counted under a name is what the master has under
    it, what is on its way to the master, what running workers have not sent,
    and what ended workers had not sent when they ended; the last part grows by
    the unsent counts of a worker at its end and by nothing else. The
    differences printed so far add up to the value that was printed last, which
    a round of the report brings to the master's value. *)
Theorem load_counts_conserved es c name : runs es c ->
  counted name es = counter name (m_counters c) + travelling name c + pending name c + lost name c
  /\ (forall e c', run_event e c = Some c' -> lost name c' = lost name c + lost_by name e c)
  /\ total name (m_output c) = counter name (m_prevCounters c)
  /\ (forall c', run_event Report c = Some c' -> in_counters name (m_counters c) = true ->
       total name (m_output c') = counter name (m_counters c')).
Proof.
  intros Hr. pose proof (runs_unique _ _ Hr) as Hu. destruct (runs_conserve name _ _ Hr) as [Hc Hp].
  pose proof (parts_outside name c Hu) as Ho. destruct Hu as (Hm & Hq & _).
  split_and!.
  - rewrite (counter_total _ _ Hm). lia.
  - intros e c'. apply event_loses.
  - by rewrite (counter_total _ _ Hq).
  - intros c'. by apply report_catches_up with (es := es).
Qed.

(** Running a list of events. *)
Definition run_events (es : list Event) : option Cluster :=
  fold_left (fun c e => c ≫= run_event e) es (Some initial).

Lemma run_events_runs es c : run_events es = Some c -> runs es c.
Proof.
  revert c. induction es as [|e es IH] using rev_ind; intros c; unfold run_events.
  - intros [= <-]. constructor.
  - rewrite fold_left_app. cbn [fold_left]. intros (c0 & H & He)%bind_Some.
    econstructor; [by apply IH|done].
Qed.

(** The end of a run need not report what was counted: counters that are not
    sent when a worker ends are lost, and so is what the master receives after
    its last round. *)
Definition lossy_run : list Event :=
  [Fork; AllForked; Count 0 (js "tx") 3; Tick 0; Report; Deliver 0; Count 0 (js "tx") 4; Exit 0; Done; StopReport].

Lemma last_counts_lost :
  exists c, runs lossy_run c /\ m_printing c = false /\ lost (js "tx") c = 4
    /\ counter (js "tx") (m_counters c) = 3 /\ total (js "tx") (m_output c) = 0
    /\ counted (js "tx") lossy_run = 7.
Proof.
  destruct (run_events lossy_run) as [c|] eqn:E; [|by vm_compute in E].
  exists c. split; [by apply run_events_runs|]. vm_compute in E. injection E as <-. by vm_compute.
Qed.

(** Nothing is reported that was not counted, when no count is negative. *)
Definition counts_up (e : Event) : Prop := match e with Count _ _ a => 0 <= a | _ => True end.

(** No entry of the counters is negative, here or on its way. *)
Definition entries_up (l : Counters) : Prop := Forall (fun e => 0 <= e.2) l.
Definition worker_up (w : Worker) : Prop := entries_up (w_counters w) /\ Forall entries_up (w_channel w).

Lemma total_up name l : entries_up l -> 0 <= total name l.
Proof. induction 1 as [|e l He _ IH]; cbn [total foldr]; [done|]. fold (total name l). destruct (jseq _ _); lia. Qed.

Lemma sum_of_up {A} (f : A -> Z) l : Forall (fun a => 0 <= f a) l -> 0 <= sum_of f l.
Proof. induction 1 as [|a l Ha _ IH]; cbn [sum_of foldr]; [done|]. unfold sum_of in IH. lia. Qed.

Lemma counter_up name l : entries_up l -> 0 <= counter name l.
Proof. induction 1 as [|[k v] l He _ IH]; cbn [counter]; [done|]. by destruct (jseq _ _). Qed.

Lemma increase_up n a c : 0 <= a -> entries_up c -> entries_up (increaseCounter n a c).
Proof.
  intros Ha Hc. unfold increaseCounter. assert (0 <= counter n c + a) as Hv by (pose proof (counter_up n c Hc); lia).
  revert Hv. generalize (counter n c + a). intros v Hv. induction Hc as [|[k w] c He Hc IH]; cbn [set_key].
  - by repeat constructor.
  - destruct (jseq n k); by constructor.
Qed.

Lemma outstanding_up name w : worker_up w -> 0 <= outstanding name w.
Proof.
  intros [Hc Hm]. unfold outstanding, unsent, in_flight. pose proof (total_up name _ Hc).
  assert (0 <= sum_of (total name) (w_channel w)); [|lia].
  apply sum_of_up. eapply Forall_impl; [exact Hm|]. intros l. apply total_up.
Qed.

Lemma event_up e c c' : run_event e c = Some c' -> counts_up e ->
  Forall worker_up (m_workers c) -> Forall worker_up (m_workers c').
Proof.
  intros H He Hw.
  assert (forall i w, m_workers c !! i = Some w -> worker_up w) as Hl
    by (intros i w Hi; by eapply Forall_lookup_1 in Hw).
  destruct e; cbn [run_event counts_up] in *; event_inv H; cbn [set_workers m_workers]; try done;
    try (match goal with Hi : m_workers c !! _ = Some ?w |- _ => destruct (Hl _ _ Hi) as [Hc Hm] end).
  - apply Forall_app_2; [done|]. constructor; [|done]. split; [|constructor]. by apply increase_up; [|constructor].
  - apply Forall_insert; [done|]. split; [by apply increase_up|done].
  - apply Forall_insert; [done|]. unfold tick, flushCounterToMaster, worker_up.
    destruct (w_counters _); cbn [w_counters w_channel]; [by rewrite app_nil_r|].
    split; [constructor|]. apply Forall_app_2; [done|]. by constructor.
  - apply Forall_insert; [done|]. match goal with H : w_channel _ = _ |- _ => rewrite H in Hm end.
    split; [done|]. by apply Forall_cons in Hm as [_ Hm].
  - by apply Forall_insert.
Qed.

(** What the master has under a name never falls, and what it last printed is
    no more. *)
Lemma runs_prev_le name es c : runs es c -> Forall counts_up es ->
  Forall worker_up (m_workers c)
  /\ counter name (m_prevCounters c) <= counter name (m_counters c).
Proof.
  induction 1 as [|es e c c' Hr IH He]; intros Hup; [by split; [constructor|]|].
  apply Forall_app in Hup as [Hup [Hue _]%Forall_cons]. destruct (IH Hup) as [Hw Hle].
  split; [by eapply event_up|].
  pose proof (runs_unique _ _ Hr) as (Hm & Hp & _).
  destruct e; cbn [run_event] in He; event_inv He; cbn [set_workers m_prevCounters m_counters]; try exact Hle.
  - rewrite (counter_total _ (receive _ _)) by by apply receive_unique.
    rewrite total_receive, <- counter_total by done.
    match goal with Hi : m_workers c !! _ = Some ?w, H : w_channel ?w = _ |- _ =>
      destruct (Forall_lookup_1 _ _ _ _ Hw Hi) as [_ Hch]; rewrite H in Hch end.
    apply Forall_cons in Hch as [Hmsg _]. pose proof (total_up name _ Hmsg). lia.
  - match goal with H : print_counters _ _ _ = _ |- _ => rename H into Hpr end.
    destruct (print_counters_prev _ _ (m_output c) Hm Hp) as [_ Hv]. specialize (Hv name).
    rewrite Hpr in Hv. cbn [fst] in Hv. rewrite Hv. destruct (in_counters name (m_counters c)); [done|exact Hle].
Qed.

(** The report of the load generator is sound and catches up. While no
    process counts a negative amount, the differences printed under a name
    never add up to more than was counted under it; and a round of the report
    brings their sum to the master's value of every counter that it has. *)
Theorem report_sound es c name : runs es c -> Forall counts_up es ->
  total name (m_output c) <= counted name es
  /\ (forall c', run_event Report c = Some c' -> in_counters name (m_counters c) = true ->
      total name (m_output c') = counter name (m_counters c')).
Proof.
  intros Hr Hup. split; [|intros c'; by apply report_catches_up with (es := es)].
  destruct (runs_conserve name _ _ Hr) as [Hc Hp]. destruct (runs_prev_le name _ _ Hr Hup) as [Hw Hle].
  destruct (runs_unique _ _ Hr) as (Hm & Hq & _).
  rewrite !counter_total in Hle by done.
  assert (0 <= outside name c); [|lia].
  apply sum_of_up. eapply Forall_impl; [exact Hw|]. intros w. apply outstanding_up.
Qed.

End Load.
