(* ===== verification/Benchmarks.v ===== *)
(** * Benchmarks of fees

    scripts/benchmarks: the shared collections and property lists
    (utils/common.ts), the fee of minting with properties (mintFee) and of
    nesting (nesting). A number of tokens is held in thousandths, as
    [convertToTokens] computes it. The calls of the ethers library that only
    the benchmarks make, the CSV writer and the console are parameters
    ([BenchIO]). *)

From Stdlib Require Import Ascii String SpecFloat.
From stdpp Require Import list.
From S2P Require Import Prelude JsString JsValue Utf8 Chain Address Util Helper Collections Tokens Objects Balance.
From S2P Require Import Dev Wait Arrange Eth TestUtil Measure.

Open Scope Z_scope.
Open Scope js_scope.

Class BenchIO {N : NodeApi} {W : Ethers} := {
  (** [contract.method.staticCall(...params)] *)
  static_call : jsstr -> list jsval -> option Wallet -> jsstr -> list jsval -> World -> Lib jsval * World;
  (** [(await contract.method.populateTransaction(...params)).data] *)
  populate : jsstr -> list jsval -> option Wallet -> jsstr -> list jsval -> World -> Lib jsstr * World;
  (** [createObjectCsvWriter({path, header}).writeRecords(records)] *)
  writeRecords : jsstr -> list jsstr -> list (list (jsstr * jsval)) -> World -> Lib unit * World;
  (** [console.log] and [console.table] *)
  console_log : jsstr -> World -> unit * World;
  console_table : jsval -> World -> unit * World }.

(** [(await contract.method.send(...params)).wait(...waitParams)] *)
Definition send {N : NodeApi} {W : Ethers} (c : Contract) (method : jsstr) (params : list jsval)
  : E (option ContractTransactionReceipt) :=
  tx ← call_method c method params JUndef; wait tx.

Definition send_with {N : NodeApi} {W : Ethers} (c : Contract) (method : jsstr) (params : list jsval)
  (options : list (jsstr * jsval)) : E (option ContractTransactionReceipt) :=
  tx ← call_method c method params (obj options); wait tx.

(** Evaluate and drop the result. *)
Definition ignore {N : NodeApi} {W : Ethers} {A} (m : E A) : E unit := m;; mreturn tt.

(** ** utils/common.ts *)

Module Common.

Definition key_of (i : nat) : jsstr := js "key_" ++ number_toString (Z.of_nat i).

(** A [Uint8Array] is held as the array of its bytes. *)
Definition PROPERTIES : list (jsstr * list Z) :=
  map (fun i => (key_of i, utf8 (js "value_" ++ number_toString (Z.of_nat i)))) (seq 0 40).

Definition SUBS_PROPERTIES : list (jsstr * jsstr) :=
  map (fun i => (key_of i, js "value_" ++ number_toString (Z.of_nat i))) (seq 0 40).

Definition all_permissions : jsval :=
  obj [(js "tokenOwner", jstrue); (js "collectionAdmin", jstrue); (js "mutable", jstrue)].

Definition permission_for (key : jsstr) : jsval :=
  obj [(js "key", JStr key); (js "permission", all_permissions)].

Definition PERMISSIONS : list jsval := map (fun p => permission_for p.1) PROPERTIES.

(** The elements of [PROPERTIES] and of [SUBS_PROPERTIES] as values. *)
Definition bytes_js (bs : list Z) : jsval := JArr (map (fun b => JNum (Int b)) bs).
Definition property_js (p : jsstr * list Z) : jsval := obj [(js "key", JStr p.1); (js "value", bytes_js p.2)].
Definition sub_property_js (p : jsstr * jsstr) : jsval := obj [(js "key", JStr p.1); (js "value", JStr p.2)].

(** In thousandths. *)
Definition convertToTokens (value : jsval) (nominal : option Z) : Res Z :=
  match value with
  | JBig z => FeeGasOps.convertToTokens z nominal
  | _ => Throw EngineError
  end.

Definition collection_options (mode : TCollectionMode) : jsval :=
  let name := match mode with nft => js "nft" | rft => js "rft" | ft => js "ft" end in
  obj ([(js "name", JStr (js "test mintToSubstrate")); (js "description", JStr (js "EVMHelpers"));
        (js "tokenPrefix", JStr name)]
       ++ match mode with
          | ft => []
          | _ => [(js "tokenPropertyPermissions", JArr [permission_for (js "url"); permission_for (js "URI")])]
          end
       ++ [(js "limits", obj [(js "sponsorTransferTimeout", JNum (Int 0)); (js "sponsorApproveTimeout", JNum (Int 0))]);
           (js "permissions", obj [(js "mintMode", jstrue)])]).

Section Common.
Context {N : NodeApi} {C : Crypto} {W : Ethers}.
Variable helper : nat.

Definition createCollectionForBenchmarks (mode : TCollectionMode) (key : Seed -> E TSigner) (ethSigner : jsstr)
  (proxyContract : option jsstr) (permissions : list jsval) : E Collection :=
  donor ← key (SeedText (js "//Alice"));
  collection ← of_M match mode with
                    | nft => NFTGroup.mintCollection helper donor (collection_options mode)
                    | rft => RFTGroup.mintCollection helper donor (collection_options mode)
                    | ft => FTGroup.mintCollection helper donor (collection_options mode) (Int 0)
                    end;
  mirror ← elift (AddressGroup.substrateToEth (address donor));
  of_M (UniqueBaseCollection.addToAllowList collection donor (Ethereum mirror));;
  of_M (UniqueBaseCollection.addToAllowList collection donor (Substrate (address donor)));;
  of_M (UniqueBaseCollection.addAdmin collection donor (Ethereum ethSigner));;
  of_M (UniqueBaseCollection.addAdmin collection donor (Ethereum mirror));;
  match proxyContract with
  | Some ((_ :: _) as proxyContract) =>
      of_M (UniqueBaseCollection.addToAllowList collection donor (Ethereum proxyContract));;
      ignore (of_M (UniqueBaseCollection.addAdmin collection donor (Ethereum proxyContract)))
  | _ => mreturn tt
  end;;
  match mode with
  | nft => ignore (of_M (UniqueNFTCollection.setTokenPropertyPermissions collection donor (JArr permissions)))
  | rft => ignore (of_M (UniqueRFTCollection.setTokenPropertyPermissions collection donor (JArr permissions)))
  | ft => mreturn tt
  end;;
  mreturn collection.

End Common.
End Common.

(** ** mintFee *)

Module MintFee.
Import Common.

Section Measures.
Context {N : NodeApi} {C : Crypto} {W : Ethers} {B : BenchIO}.
Variable helper : nat.

(** [contract.method.staticCall()] and the data of a populated transaction. *)
Definition staticCall (c : Contract) (method : jsstr) (params : list jsval) : E jsval :=
  eworld (static_call (target c) (interface c) (runner c) method params).

Definition populated (c : Contract) (method : jsstr) (params : list jsval) : E jsstr :=
  eworld (populate (target c) (interface c) (runner c) method params).

(** What [benchMintFee] returns, in thousandths. *)
Record MintFees : Type := mkMintFees {
  substrateFee : Z;
  ethFee : Z;
  evmProxyContractFee : Z }.

(** The native contract of the collection. *)
Definition native_contract (collection : Collection) (signer : Wallet) (mergeDeprecated : bool) : E Contract :=
  address ← elift (EthAddressGroup.fromCollectionId (col_id collection));
  elift (NativeContractGroup.collection address nft signer mergeDeprecated).

Definition collection_address (collection : Collection) : E jsval :=
  a ← elift (EthAddressGroup.fromCollectionId (col_id collection)); mreturn (JStr a).

Definition benchMintFee (key : Seed -> E TSigner) (contract : Contract) : E MintFees :=
  donor ← key (SeedText (js "//Alice"));
  substrateReceiver ← key (SeedText (js "//Bob"));
  ethSigner ← EthGroup.createAccountWithBalance helper donor None;
  let proxyContract := EthGroup.changeContractCaller contract ethSigner in
  nominal ← of_M (BalanceGroup.getOneTokenNominal helper);
  EthGroup.transferBalanceFromSubstrate helper donor (target proxyContract) (Some 100) None;;
  collection ← createCollectionForBenchmarks helper nft key (wallet_address ethSigner)
                 (Some (target proxyContract)) PERMISSIONS;
  substrateFee ← EthArrangeGroup.calculcateFee helper (Substrate (address donor))
    (ignore (of_M (UniqueNFTCollection.mintToken collection donor
       (Some (Substrate (address substrateReceiver))) None)));
  collectionContract ← native_contract collection ethSigner false;
  receiverEthAddress ← elift (AddressGroup.substrateToEth (address substrateReceiver));
  encodedCall ← populated collectionContract (js "mint") [JStr receiverEthAddress];
  ethFee ← EthArrangeGroup.calculcateFee helper (Substrate (address donor))
    (EthGroup.sendEVM helper donor (target collectionContract) encodedCall (js "0") None);
  evmProxyContractFee ← EthArrangeGroup.calculcateFee helper (Ethereum (wallet_address ethSigner))
    (a ← collection_address collection;
     ignore (send proxyContract (js "mintToSubstrate")
       [a; JStr (hexlify (addressRaw substrateReceiver))]));
  s ← elift (convertToTokens substrateFee (Some nominal));
  e ← elift (convertToTokens ethFee (Some nominal));
  p ← elift (convertToTokens evmProxyContractFee (Some nominal));
  mreturn (mkMintFees s e p).

Definition calculateFeeNftMintWithProperties (key : Seed -> E TSigner) (payer : ICrossAccountId)
  (ethSigner proxyContractAddress : jsstr) (calculatedCall : Collection -> E unit) : E jsval :=
  collection ← createCollectionForBenchmarks helper nft key ethSigner (Some proxyContractAddress) PERMISSIONS;
  EthArrangeGroup.calculcateFee helper payer (calculatedCall collection).

(** The bodies measured for a number of properties. *)
Definition properties (n : nat) : list (jsstr * list Z) := take n PROPERTIES.
Definition properties_js (n : nat) : jsval := JArr (map property_js (properties n)).

Definition mint_substrate (donor receiver : TSigner) (n : nat) (collection : Collection) : E unit :=
  ignore (of_M (UniqueNFTCollection.mintToken collection donor (Some (Substrate (address receiver)))
    (Some (JArr (map (fun p => sub_property_js (p.1, utf8_decode p.2)) (properties n)))))).

(** [mint] through [api.tx.evm.call]; the contract and the token's number. *)
Definition mint_by_evm (donor : TSigner) (ethSigner : Wallet) (receiver : jsstr) (mergeDeprecated : bool)
  (collection : Collection) : E (Contract * jsval) :=
  evmContract ← native_contract collection ethSigner mergeDeprecated;
  subTokenId ← staticCall evmContract (js "nextTokenId") [];
  encodedCall ← populated evmContract (js "mint") [JStr receiver];
  EthGroup.sendEVM helper donor (target evmContract) encodedCall (js "0") None;;
  mreturn (evmContract, subTokenId).

Definition mint_eth (donor : TSigner) (ethSigner : Wallet) (receiver : jsstr) (n : nat) (collection : Collection)
  : E unit :=
  ' (evmContract, subTokenId) ← mint_by_evm donor ethSigner receiver true collection;
  for_each_E (fun _ val =>
    encodedCall ← populated evmContract (js "setProperty") [subTokenId; JStr val.1; bytes_js val.2];
    EthGroup.sendEVM helper donor (target evmContract) encodedCall (js "0") None) tt (properties n).

Definition mint_eth_bulk (donor : TSigner) (ethSigner : Wallet) (receiver : jsstr) (n : nat)
  (collection : Collection) : E unit :=
  ' (evmContract, subTokenId) ← mint_by_evm donor ethSigner receiver false collection;
  encodedCall ← populated evmContract (js "setProperties") [subTokenId; properties_js n];
  EthGroup.sendEVM helper donor (target evmContract) encodedCall (js "0") None.

Definition gas_limit : list (jsstr * jsval) := [(js "gasLimit", JNum (Int DEFAULT_GAS_LIMIT))].

(** A [CrossAddress] as a parameter. *)
Definition cross_param (a : CrossAddress) : jsval := obj [(js "eth", JStr (eth a)); (js "sub", JStr (sub a))].

Definition mint_cross (ethSigner : Wallet) (receiver : jsstr) (n : nat) (collection : Collection) : E unit :=
  evmContract ← native_contract collection ethSigner false;
  ignore (send_with evmContract (js "mintCross")
    [cross_param (EthCrossAccountGroup.fromAddress (inl receiver)); properties_js n] gas_limit).

Definition mint_proxy (proxyContract : Contract) (method : jsstr) (receiver : TSigner) (n : nat)
  (collection : Collection) : E unit :=
  a ← collection_address collection;
  ignore (send_with proxyContract method
    [a; JStr (hexlify (addressRaw receiver)); properties_js n] gas_limit).

(** [IBenchmarkResultForProp], with the number of properties and the fees by
    name. *)
Definition benchMintWithProperties (key : Seed -> E TSigner) (contract : Contract) (propertiesNumber : nat)
  : E (list (jsstr * Z)) :=
  donor ← key (SeedText (js "//Alice"));
  ethSigner ← EthGroup.createAccountWithBalance helper donor None;
  let proxyContract := EthGroup.changeContractCaller contract ethSigner in
  substrateReceiver ← key (SeedText (js "//Bob"));
  receiverEthAddress ← elift (AddressGroup.substrateToEth (address substrateReceiver));
  nominal ← of_M (BalanceGroup.getOneTokenNominal helper);
  let measure payer call := calculateFeeNftMintWithProperties key payer (wallet_address ethSigner)
                              (target proxyContract) call in
  let payerSub := Substrate (address donor) in
  let payerEth := Ethereum (wallet_address ethSigner) in
  substrateFee ← measure payerSub (mint_substrate donor substrateReceiver propertiesNumber);
  ethFee ← measure payerSub (mint_eth donor ethSigner receiverEthAddress propertiesNumber);
  ethBulkFee ← measure payerSub (mint_eth_bulk donor ethSigner receiverEthAddress propertiesNumber);
  ethMintCrossFee ← measure payerEth (mint_cross ethSigner receiverEthAddress propertiesNumber);
  proxyContractFee ← measure payerEth
    (mint_proxy proxyContract (js "mintToSubstrateWithProperty") substrateReceiver propertiesNumber);
  proxyContractBulkFee ← measure payerEth
    (mint_proxy proxyContract (js "mintToSubstrateBulkProperty") substrateReceiver propertiesNumber);
  let tokens v := elift (convertToTokens v (Some nominal)) in
  a ← tokens substrateFee; b ← tokens ethFee; c ← tokens ethBulkFee; d ← tokens ethMintCrossFee;
  e ← tokens proxyContractFee; f ← tokens proxyContractBulkFee;
  mreturn [(js "substrateFee", a); (js "ethFee", b); (js "ethBulkFee", c); (js "ethMintCrossFee", d);
           (js "evmProxyContractFee", e); (js "evmProxyContractBulkFee", f)].

End Measures.

(** *** The table and the file *)

Definition benchmarks : list jsstr :=
  map js ["substrateFee"; "ethFee"; "ethBulkFee"; "ethMintCrossFee"; "evmProxyContractFee";
          "evmProxyContractBulkFee"]%string.

Definition headers : list jsstr := js "propertiesNumber" :: benchmarks.

(** A field of a result: the number of properties, a fee in thousandths, or a
    text. *)
Inductive Cell : Type :=
  | Count (n : Z)
  | Fee (thousandths : Z)
  | Text (s : jsstr).

(** A number of thousandths as the [number] [Number(z) / 1000]. *)
Definition double (z : Z) : spec_float := binary_normalize 53 1024 z 0 false.
Definition fee_number (z : Z) : spec_float := SFdiv 53 1024 (double z) (double 1000).

(** [Math.round] and the text of its result. *)
Definition round_text (x : spec_float) : jsstr :=
  match x with
  | S754_zero _ => js "0"
  | S754_infinity s => if s then js "-Infinity" else js "Infinity"
  | S754_nan => js "NaN"
  | S754_finite s m e =>
      let z := if s then Z.neg m else Z.pos m in
      number_toString (if 0 <=? e then z * 2 ^ e else (2 * z + 2 ^ (- e)) / 2 ^ (1 - e))
  end.

(** [Math.round((fee / minFee) * 100)] *)
Definition keyPercent (fee minFee : Z) : jsstr :=
  round_text (SFmul 53 1024 (SFdiv 53 1024 (fee_number fee) (fee_number minFee)) (double 100)).

(** The text of a fee: the shortest decimal that denotes the number, which is
    the one with up to three digits after the point while there are at most
    fifteen in all. *)
Fixpoint drop_zeros (s : jsstr) : jsstr :=
  match s with
  | [] => []
  | c :: s' => if c =? 48 then drop_zeros s' else s
  end.

Definition fee_text (z : Z) : jsstr :=
  let a := Z.abs z in
  let digits := reverse (drop_zeros (reverse (padStart 3 48 (number_toString (a mod 1000))))) in
  (if z <? 0 then js "-" else []) ++ number_toString (a / 1000)
  ++ match digits with [] => [] | _ => js "." ++ digits end.

Definition cell_text (c : Cell) : jsstr :=
  match c with
  | Count n => number_toString n
  | Fee z => fee_text z
  | Text s => s
  end.

(** [`${fee} (${keyPercent}%)`] *)
Definition percent_text (fee minFee : Z) : jsstr :=
  fee_text fee ++ js " (" ++ keyPercent fee minFee ++ js "%)".

(** Result objects live in a store and are shared by reference. *)
Definition Result : Type := list (jsstr * Cell).
Definition result_object (n : nat) (fees : list (jsstr * Z)) : Result :=
  (js "propertiesNumber", Count (Z.of_nat n)) :: map (fun kf => (kf.1, Fee kf.2)) fees.

Definition set_cell (k : jsstr) (c : Cell) (r : Result) : Result := set_key k c r.

(** The smallest of the fees; no fee is a text when it is taken. *)
Definition min_fee (fees : list (jsstr * Z)) : Z :=
  match fees with
  | [] => 0
  | kf :: l => fold_left Z.min (map snd l) kf.2
  end.

(** [for(const key of benchmarks) benchResult[key] = ...] *)
Definition add_percent (minFee : Z) (r : Result) (key : jsstr) : Result :=
  match lookup_key key r with
  | Some (Fee z) => set_cell key (Text (percent_text z minFee)) r
  | _ => r
  end.

Definition percents (minFee : Z) (r : Result) : Result := fold_left (add_percent minFee) benchmarks r.

(** The store of result objects, [csvResult] and [result], both lists of
    references. *)
Record Tables : Type := mkTables {
  objects : list Result;
  csvResult : list nat;
  result : list nat }.

(** A round of the loop of [main] with what [benchMintWithProperties] returned:
    the object is pushed to [csvResult], changed in place and pushed to
    [result]. *)
Definition add_result (t : Tables) (nf : nat * list (jsstr * Z)) : Tables :=
  let benchResult := length (objects t) in
  let t := mkTables (objects t ++ [result_object nf.1 nf.2]) (csvResult t ++ [benchResult]) (result t) in
  let t := mkTables (alter (percents (min_fee nf.2)) benchResult (objects t)) (csvResult t) (result t) in
  mkTables (objects t) (csvResult t) (result t ++ [benchResult]).

Definition add_results (runs : list (nat * list (jsstr * Z))) : Tables :=
  fold_left add_result runs (mkTables [] [] []).

(** The objects that a list of references holds. *)
Definition deref (t : Tables) (refs : list nat) : list Result := omap (fun i => objects t !! i) refs.

Definition result_js (r : Result) : list (jsstr * jsval) :=
  map (fun kc => (kc.1, match kc.2 with
                        | Count n => JNum (Int n)
                        | c => JStr (cell_text c)
                        end)) r.

Section Main.
Context {N : NodeApi} {C : Crypto} {W : Ethers} {X : Harness} {B : BenchIO}.

Definition log (s : jsstr) : E unit := eworld_new (console_log s).
Definition table (v : jsval) : E unit := eworld_new (console_table v).

(** The rounds for one to [n] properties. *)
Fixpoint bench_rounds (helper : nat) (key : Seed -> E TSigner) (contract : Contract) (rounds : list nat)
  (t : Tables) : E Tables :=
  match rounds with
  | [] => mreturn t
  | i :: rounds' =>
      fees ← benchMintWithProperties helper key contract i;
      bench_rounds helper key contract rounds' (add_result t (i, fees))
  end.

Definition CONTRACT_IMPORT (dirname : jsstr) : list ContractImports :=
  let EVM_ABI_DIR := dirname ++ js "/../../../evm-abi" in
  map (fun name => mkImport (js "eth/api/" ++ js name) (EVM_ABI_DIR ++ js "/api/" ++ js name))
    ["CollectionHelpers.sol"; "ContractHelpers.sol"; "UniqueRefungibleToken.sol"; "UniqueRefungible.sol";
     "UniqueNFT.sol"]%string.

(** The numbers of the table without properties are held in thousandths. *)
Definition main (url dirname : jsstr) : E unit :=
  usingEthPlaygrounds url (fun helper key =>
    CONTRACT_SOURCE ← eworld (readFile (dirname ++ js "/proxyContract.sol"));
    donor ← key (SeedText (js "//Alice"));
    ethSigner ← EthGroup.createAccountWithBalance helper donor None;
    contract ← ContractGroup.deployByCode ethSigner (js "ProxyMint") CONTRACT_SOURCE
                 (Some (CONTRACT_IMPORT dirname)) None None;
    fees ← benchMintFee helper key contract;
    log (js "Minting without properties");;
    table (obj [(js "substrateFee", JNum (Int (substrateFee fees))); (js "ethFee", JNum (Int (ethFee fees)));
                (js "evmProxyContractFee", JNum (Int (evmProxyContractFee fees)))]);;
    t ← bench_rounds helper key contract (seq 1 20) (mkTables [] [] []);
    eworld (writeRecords (js "properties.csv") headers (map result_js (deref t (csvResult t))));;
    log (js "Minting with properties");;
    table (JArr (map (fun r => obj (result_js r)) (deref t (result t))))).

End Main.

(** *** What the file holds *)

(** The rows of a run: the objects, with their percentages. *)
Definition finished (nf : nat * list (jsstr * Z)) : Result := percents (min_fee nf.2) (result_object nf.1 nf.2).

Lemma add_results_tables runs : add_results runs =
  mkTables (map finished runs) (seq 0 (length runs)) (seq 0 (length runs)).
Proof.
  unfold add_results. induction runs as [|nf runs IH] using rev_ind; [done|].
  rewrite fold_left_app, IH. cbn [fold_left]. unfold add_result. cbn [objects csvResult result].
  rewrite length_map, length_app, map_app, Nat.add_1_r, seq_S. cbn [map Nat.add]. f_equal.
  rewrite <- (length_map finished runs), <- (Nat.add_0_r (length _)).
  by rewrite alter_app_r.
Qed.

Lemma deref_seq t : deref t (seq 0 (length (objects t))) = objects t.
Proof.
  unfold deref. destruct t as [os c r]. cbn [objects]. clear c r.
  induction os as [|o os IH] using rev_ind; [done|].
  rewrite length_app, Nat.add_1_r, seq_S, omap_app. cbn.
  rewrite lookup_app_r, Nat.sub_diag by done. cbn. f_equal. etrans; [|exact IH].
  apply list_omap_ext, Forall2_same_length_lookup. split; [done|].
  intros i x y Hx Hy. rewrite Hx in Hy. injection Hy as <-. apply lookup_seq in Hx as [-> Hi].
  by rewrite lookup_app_l.
Qed.

Lemma fold_min_least l a : Forall (Z.le (fold_left Z.min l a)) (a :: l).
Proof.
  revert a. induction l as [|b l IH]; intros a; cbn [fold_left]; [by repeat constructor|].
  specialize (IH (Z.min a b)). inversion_clear IH as [|? ? H1 H2]. repeat constructor; [lia..|done].
Qed.

Lemma min_fee_least fees : Forall (Z.le (min_fee fees)) (map snd fees).
Proof. destruct fees as [|kf l]; [constructor|]. apply fold_min_least. Qed.

(** The file of the mint benchmark and the printed table are the same
    objects. Whatever fees are measured, the records written to the file are
    those of the table, one for each number of properties in order; and as the
    percentages are written into the shared objects, every fee in the file is
    the text of the fee with its percentage of the smallest, not the number. *)
Theorem csv_has_percentages runs :
  (forall n fees, (n, fees) ∈ runs -> map fst fees = benchmarks) ->
  let t := add_results runs in
  deref t (csvResult t) = deref t (result t)
  /\ Forall2 (fun r nf =>
       map fst r = headers
       /\ lookup_key (js "propertiesNumber") r = Some (Count (Z.of_nat nf.1))
       /\ forall key, key ∈ benchmarks -> exists fee, lookup_key key nf.2 = Some fee
            /\ min_fee nf.2 <= fee
            /\ lookup_key key r = Some (Text (percent_text fee (min_fee nf.2))))
     (deref t (csvResult t)) runs.
Proof.
  intros Hf t. unfold t. rewrite add_results_tables. cbn [csvResult result]. split; [done|].
  rewrite <- (length_map finished runs), deref_seq. cbn [objects].
  apply Forall2_fmap_l, Forall_Forall2_diag, Forall_forall. intros [n fees] Hin. specialize (Hf _ _ Hin).
  cbn [fst snd]. clear Hin. unfold finished. cbn [fst snd]. pose proof (min_fee_least fees) as Hm.
  do 6 (destruct fees as [|[? ?] fees]; [done|]). destruct fees; [|done]. injection Hf as -> -> -> -> -> ->.
  split_and!; [by cbv -[percent_text]|by cbv -[percent_text]|].
  cbn [map snd] in Hm. rewrite !Forall_cons in Hm. destruct_and! Hm.
  intros key. unfold benchmarks. cbn [map]. rewrite !elem_of_cons, elem_of_nil.
  intros [->|[->|[->|[->|[->|[->|[]]]]]]]; eexists; (split; [by cbv -[percent_text]|split; [eassumption|by cbv -[percent_text]]]).
Qed.

End MintFee.

(** ** nesting *)

Module NestingFee.
Import Common.

(** The names of the token ids of an event; [+(events.Transfer.args.tokenId)]. *)
Definition transfer_token (receipt : option ContractTransactionReceipt) : Res jsstr :=
  match receipt with
  | None => Throw EngineError
  | Some receipt =>
      events ← EthEvents.normalizeEvents receipt;
      match lookup_key (js "Transfer") events with
      | None => Throw EngineError
      | Some e =>
          match lookup_key (js "tokenId") (ne_args e) with
          | None => Ret (js "undefined")
          | Some id => Ret id
          end
      end
  end.

(** [+text] of a decimal text. *)
Definition to_number (s : jsstr) : number := parseInt10 s.

(** Fees in thousandths. *)
Record NestingFees : Type := mkNestingFees {
  mint : Z;
  transfer : Z;
  unnest : Z }.

Definition CONTRACT_IMPORT (dirname : jsstr) : list ContractImports :=
  let NODE_MODULES := dirname ++ js "/../../../../node_modules" in
  map (fun path => mkImport (js path) (NODE_MODULES ++ js "/" ++ js path))
    ["@rmrk-team/evm-contracts/contracts/RMRK/nestable/RMRKNestable.sol";
     "@rmrk-team/evm-contracts/contracts/RMRK/nestable/IERC6059.sol";
     "@rmrk-team/evm-contracts/contracts/RMRK/core/RMRKCore.sol";
     "@openzeppelin/contracts/token/ERC721/extensions/IERC721Metadata.sol";
     "@openzeppelin/contracts/token/ERC721/IERC721.sol";
     "@openzeppelin/contracts/token/ERC721/IERC721Receiver.sol";
     "@openzeppelin/contracts/utils/Address.sol"; "@openzeppelin/contracts/utils/Context.sol";
     "@openzeppelin/contracts/utils/introspection/IERC165.sol";
     "@rmrk-team/evm-contracts/contracts/RMRK/library/RMRKErrors.sol";
     "@rmrk-team/evm-contracts/contracts/RMRK/core/IRMRKCore.sol"]%string
  ++ [mkImport (js "RMRKNestableMintable.sol") (dirname ++ js "/RMRKNestableMintable.sol")].

Section Nesting.
Context {N : NodeApi} {C : Crypto} {W : Ethers} {X : Harness} {B : BenchIO}.
Variable helper : nat.

(** The three measures are converted in the order of the result. *)
Definition fees_of (nestMint nestTransfer unnestToken : jsval) : E NestingFees :=
  m ← elift (convertToTokens nestMint None);
  t ← elift (convertToTokens nestTransfer None);
  u ← elift (convertToTokens unnestToken None);
  mreturn (mkNestingFees m t u).

Definition createNestingCollection (owner : Wallet) : E (number * jsstr * Contract) :=
  r ← EthGroup.createNFTCollection helper owner (js "A") (js "B") (js "C");
  contract ← elift (NativeContractGroup.collection (cr_collectionAddress r) nft owner false);
  send contract (js "setCollectionNesting") [JArr [jstrue; jsfalse; JArr []]];;
  mreturn (cr_collectionId r, cr_collectionAddress r, contract).

(** A wallet is an addressable parameter. *)
Definition measureEth (donor : TSigner) : E NestingFees :=
  owner ← EthGroup.createAccountWithBalance helper donor None;
  ' (collectionId, _, contract) ← createNestingCollection owner;
  let me := wallet_param owner in
  let payer := Ethereum (wallet_address owner) in
  receipt ← send contract (js "mint") [me];
  targetNFTTokenId ← elift (transfer_token receipt);
  targetNftTokenAddress ← elift (EthAddressGroup.fromTokenId collectionId (to_number targetNFTTokenId));
  nestMint ← EthArrangeGroup.calculcateFee helper payer
    (ignore (send contract (js "mint") [JStr targetNftTokenAddress]));
  receipt ← send contract (js "mint") [me];
  nestedTokenId ← elift (transfer_token receipt);
  nestTransfer ← EthArrangeGroup.calculcateFee helper payer
    (ignore (send contract (js "transfer") [JStr targetNftTokenAddress; JNum (to_number nestedTokenId)]));
  unnestToken ← EthArrangeGroup.calculcateFee helper payer
    (ignore (send contract (js "transferFrom")
       [JStr targetNftTokenAddress; JStr (wallet_address owner); JNum (to_number nestedTokenId)]));
  fees_of nestMint nestTransfer unnestToken.

Definition measureSub (donor : TSigner) : E NestingFees :=
  accounts ← of_M (ArrangeGroup.createAccounts helper [100; 100] donor);
  match accounts with
  | alice :: bob :: _ =>
      let payer := Substrate (address bob) in
      targetNFTCollection ← of_M (NFTGroup.mintCollection helper alice (obj []));
      targetTokenBob ← of_M (UniqueNFTCollection.mintToken targetNFTCollection alice (Some payer) None);
      collectionForNesting ← of_M (NFTGroup.mintCollection helper bob (obj []));
      of_M (UniqueBaseCollection.setPermissions targetNFTCollection alice
              (obj [(js "nesting", obj [(js "tokenOwner", jstrue)])]));;
      nestMint ← EthArrangeGroup.calculcateFee helper payer
        (account ← elift (UniqueBaseToken.nestingAccount targetTokenBob);
         ignore (of_M (UniqueNFTCollection.mintToken collectionForNesting bob (Some account) None)));
      nestedToken2 ← of_M (UniqueNFTCollection.mintToken collectionForNesting bob None None);
      nestTransfer ← EthArrangeGroup.calculcateFee helper payer
        (ignore (of_M (UniqueNFToken.nest nestedToken2 bob
           (mkToken (col_id (tok_collection targetTokenBob)) (tok_id targetTokenBob)))));
      unnestToken ← EthArrangeGroup.calculcateFee helper payer
        (account ← elift (UniqueBaseToken.nestingAccount targetTokenBob);
         ignore (of_M (UniqueNFToken.transferFrom nestedToken2 bob account payer)));
      fees_of nestMint nestTransfer unnestToken
  | _ => ethrow EngineError
  end.

(** [relay] of the relayer contract with the data of a call. *)
Definition relayed (rmrk relayer : Contract) (method : jsstr) (params : list jsval) : E unit :=
  data ← MintFee.populated rmrk method params;
  ignore (send relayer (js "relay") [JStr data]).

Definition measureRMRK (dirname : jsstr) (donor : TSigner) : E NestingFees :=
  let imports := CONTRACT_IMPORT dirname in
  CONTRACT_SOURCE ← eworld (readFile (dirname ++ js "/RMRKNestableMintable.sol"));
  RELAYER_SOURCE ← eworld (readFile (dirname ++ js "/relayer.sol"));
  ethSigner ← EthGroup.createAccountWithBalance helper donor None;
  rmrk ← ContractGroup.deployByCode ethSigner (js "RMRKNestableMintable") CONTRACT_SOURCE (Some imports)
           (Some 5000000) None;
  relayer ← ContractGroup.deployByCode ethSigner (js "Relayer") RELAYER_SOURCE (Some imports)
              (Some 5000000) (Some [JStr (target rmrk)]);
  let me := wallet_address ethSigner in
  let createTokenFor receiver :=
    receipt ← send rmrk (js "safeMint") [JStr receiver];
    id ← elift (transfer_token receipt);
    mreturn (to_number id) in
  nestId ← createTokenFor me;
  contractOwnedNestId ← createTokenFor (target relayer);
  let num n := JNum (Int n) in
  let nextTokenId := JNum (match contractOwnedNestId with Int z => Int (z + 1) | NaN => NaN end) in
  let owned := JNum contractOwnedNestId in
  nestTransfer ← EthArrangeGroup.calculcateFee helper (Ethereum me)
    (relayed rmrk relayer (js "addChild") [JNum nestId; num 10; JArr []];;
     ignore (send rmrk (js "acceptChild") [JNum nestId; num 0; JStr (target relayer); num 10]));
  nestMint ← EthArrangeGroup.calculcateFee helper (Ethereum me)
    (relayed rmrk relayer (js "nestMint") [JStr (target rmrk); nextTokenId; owned];;
     relayed rmrk relayer (js "acceptChild") [owned; num 0; JStr (target rmrk); nextTokenId]);
  unnestToken ← EthArrangeGroup.calculcateFee helper (Ethereum me)
    (relayed rmrk relayer (js "transferChild")
       [owned; JStr me; num 0; num 0; JStr (target rmrk); nextTokenId; jsfalse; JArr []]);
  fees_of nestMint nestTransfer unnestToken.

End Nesting.

Definition fees_js (f : NestingFees) : jsval :=
  obj [(js "mint", JNum (Int (mint f))); (js "transfer", JNum (Int (transfer f)));
       (js "unnest", JNum (Int (unnest f)))].

(** The table prints the numbers held here in thousandths. *)
Definition main {N : NodeApi} {C : Crypto} {W : Ethers} {X : Harness} {B : BenchIO}
  (url dirname : jsstr) : E unit :=
  usingEthPlaygrounds url (fun helper key =>
    donor ← key (SeedText (js "//Alice"));
    eth ← measureEth helper donor;
    sub ← measureSub helper donor;
    rmrk ← measureRMRK helper dirname donor;
    MintFee.table (obj [(js "susbtrate", fees_js sub); (js "eth", fees_js eth); (js "rmrk", fees_js rmrk)])).

End NestingFee.
