(* ===== verification/OpsFee.v ===== *)
(** * Benchmarks of contract operations

    scripts/benchmarks/opsFee: for each operation of an NFT and of a fungible
    collection, what it costs through the native contract, through an extrinsic
    and through an OpenZeppelin contract. The script is a long list of
    assignments to the cells of a table; here it is a list of steps and an
    interpreter, so that what the table holds in the end can be read off the
    steps. *)

From Stdlib Require Import Ascii String.
From stdpp Require Import list.
From S2P Require Import Prelude JsString JsValue Utf8 Chain Address Util Helper Collections Tokens Objects Balance.
From S2P Require Import Dev Wait Arrange Eth EthFacts TestUtil Measure Benchmarks.

Open Scope Z_scope.
Open Scope js_scope.

Module OpsFee.
Import Common.

(** ** The table *)

(** A row of [IFunctionFee]; [None] is a property that is not there. The fee
    in tokens and the substrate fee are in thousandths. *)
Record Row : Type := mkRow {
  r_fee : option FeeGas;
  r_substrate : option Z;
  r_zeppelin : option FeeGas }.

Definition Table : Type := list (jsstr * Row).

Section Steps.
Context {N : NodeApi} {C : Crypto} {W : Ethers}.
Variable helper : nat.

(** What a step measures may use the variable [zeppelelinContract]. *)
Definition Code : Type := option Contract -> E unit.

Inductive Step : Type :=
  (** [res[row] = await calculcateFeeGas(payer, code)] *)
  | Gas (row : jsstr) (payer : ICrossAccountId) (code : Code)
  (** [res[row].substrate = convertToTokens(await calculcateFee(payer, code))] *)
  | SubstrateFee (row : jsstr) (payer : ICrossAccountId) (code : Code)
  (** [res[row].zeppelin = await calculcateFeeGas(payer, code)] *)
  | Zeppelin (row : jsstr) (payer : ICrossAccountId) (code : Code)
  (** the same with code that assigns [zeppelelinContract] *)
  | Deploy (row : jsstr) (payer : ICrossAccountId) (code : E Contract)
  (** [res[row] = {zeppelin: await calculcateFeeGas(payer, code)}] *)
  | ZeppelinRow (row : jsstr) (payer : ICrossAccountId) (code : Code)
  (** [res[row] = {fee: 0n, gas: 0n}] *)
  | ZeroRow (row : jsstr)
  (** a statement *)
  | Statement (code : Code).

(** [res[row].field = ...] throws when there is no row. *)
Definition update_row (row : jsstr) (f : Row -> Row) (t : Table) : Res Table :=
  match lookup_key row t with
  | None => Throw EngineError
  | Some r => Ret (set_key row (f r) t)
  end.

Definition with_substrate (v : Z) (r : Row) : Row := mkRow (r_fee r) (Some v) (r_zeppelin r).
Definition with_zeppelin (v : FeeGas) (r : Row) : Row := mkRow (r_fee r) (r_substrate r) (Some v).

(** The table and the variable. *)
Definition Vars : Type := Table * option Contract.

(** Code that leaves a contract is measured by its effect; the contract is
    kept. *)
Definition measure_deploy (payer : ICrossAccountId) (code : E Contract) : E (FeeGas * Contract) :=
  address ← match payer with
            | Substrate s => mreturn s
            | Ethereum e => of_M (ConnectedAddressGroup.ethToSubstrate helper e false)
            end;
  balance ← of_M (SubstrateBalanceGroup.getSubstrate helper address);
  contract ← code;
  after ← of_M (SubstrateBalanceGroup.getSubstrate helper address);
  fee ← elift (js_sub balance after);
  match fee with
  | JBig z => f ← FeeGasOps.build helper z; mreturn (f, contract)
  | _ => ethrow EngineError
  end.

Definition run_step (v : Vars) (step : Step) : E Vars :=
  let '(t, zep) := v in
  match step with
  | Gas row payer code =>
      f ← FeeGasOps.calculcateFeeGas helper payer (code zep);
      mreturn (set_key row (mkRow (Some f) None None) t, zep)
  | SubstrateFee row payer code =>
      fee ← EthArrangeGroup.calculcateFee helper payer (code zep);
      z ← elift (convertToTokens fee None);
      t ← elift (update_row row (with_substrate z) t);
      mreturn (t, zep)
  | Zeppelin row payer code =>
      f ← FeeGasOps.calculcateFeeGas helper payer (code zep);
      t ← elift (update_row row (with_zeppelin f) t);
      mreturn (t, zep)
  | Deploy row payer code =>
      ' (f, contract) ← measure_deploy payer code;
      t ← elift (update_row row (with_zeppelin f) t);
      mreturn (t, Some contract)
  | ZeppelinRow row payer code =>
      f ← FeeGasOps.calculcateFeeGas helper payer (code zep);
      mreturn (set_key row (mkRow None None (Some f)) t, zep)
  | ZeroRow row => mreturn (set_key row (mkRow (Some (mkFeeGas 0 0)) None None) t, zep)
  | Statement code => code zep;; mreturn (t, zep)
  end.

Definition run_steps (v : Vars) (steps : list Step) : E Vars := for_each_E run_step v steps.

(** ** The measured code *)

Definition on (c : Contract) (method : string) (params : list jsval) : Code :=
  fun _ => ignore (send c (js method) params).

(** [zeppelelinContract!.method.send(...)], as [signer] when it is given. *)
Definition on_zeppelin (signer : option Wallet) (method : string) (params : list jsval) : Code := fun z =>
  match z with
  | None => ethrow EngineError
  | Some c =>
      ignore (send (match signer with None => c | Some w => EthGroup.changeContractCaller c w end)
                (js method) params)
  end.

Definition by_extrinsic {A} (m : M A) : Code := fun _ => ignore (of_M m).

(** [p.value.toString()] of an array of bytes. *)
Definition bytes_text (bs : list Z) : jsstr := join (js ",") (map number_toString bs).

Definition first_properties : jsval := JArr (map property_js (take 1 PROPERTIES)).
Definition first_keys : list jsval := map (fun p => JStr p.1) (take 1 PROPERTIES).

(** A [Map], seen through its [entries()]. *)
Definition js_map (entries : list (jsval * jsval)) : jsval :=
  codec [(js "entries", JArr (map (fun kv => JArr [kv.1; kv.2]) entries))].

End Steps.

(** ** The steps *)

Definition num (z : Z) : jsval := JNum (Int z).
Definition str (s : string) : jsval := JStr (js s).
Definition test_options : jsval :=
  obj [(js "name", str "test"); (js "description", str "test"); (js "tokenPrefix", str "test")].

(** [CollectionLimitField.AccountTokenOwnership] and the fields of
    [TokenPermissionField]. *)
Definition AccountTokenOwnership : Z := 0.
Definition Mutable : Z := 0.
Definition TokenOwner : Z := 1.
Definition CollectionAdmin : Z := 2.

Definition limit_param : jsval :=
  obj [(js "field", num AccountTokenOwnership);
       (js "value", obj [(js "status", jstrue); (js "value", num 1000)])].

Definition permission_param : jsval :=
  JArr [JArr [str "url"; JArr [JArr [num Mutable; jstrue]; JArr [num TokenOwner; jstrue];
                               JArr [num CollectionAdmin; jstrue]]]].

Section Scripts.
Context {N : NodeApi} {C : Crypto} {W : Ethers}.
Variable helper : nat.
Variables (donor subReceiver : TSigner) (ethSigner ethReceiver : Wallet) (collection : Collection).
(** [helperContract] and [evmContract]. *)
Variables (helperContract evmContract : Contract).
(** [ZEPPELIN_ABI] and [ZEPPELIN_OBJECT]. *)
Variables (abi : jsval) (object : jsstr).

Let by_signer : ICrossAccountId := Ethereum (wallet_address ethSigner).
Let by_receiver : ICrossAccountId := Ethereum (wallet_address ethReceiver).
Let by_donor : ICrossAccountId := Substrate (address donor).
Let by_sub : ICrossAccountId := Substrate (address subReceiver).
Let signer_param : jsval := wallet_param ethSigner.
Let receiver_param : jsval := wallet_param ethReceiver.
Let crossSigner : jsval := MintFee.cross_param (EthCrossAccountGroup.fromAddress (inr ethSigner)).
Let crossReceiver : jsval := MintFee.cross_param (EthCrossAccountGroup.fromAddress (inr ethReceiver)).
Let evm (method : string) (params : list jsval) : Code := on evmContract method params.
(** [evmContract.connect(ethReceiver)] *)
Let evm_receiver (method : string) (params : list jsval) : Code :=
  on (EthGroup.changeContractCaller evmContract ethReceiver) method params.

(** Twice a token is sent along. *)
Definition create_call (method : string) (params : list jsval) : Code := fun _ =>
  nominal ← of_M (BalanceGroup.getOneTokenNominal helper);
  ignore (send_with helperContract (js method) params [(js "value", JBig (2 * nominal))]).

Definition deploy_zeppelin : E Contract := ContractGroup.deployByAbi ethSigner abi object None None.

Definition erc721_mint : list Step := [
  Gas (js "createCollection") by_signer (create_call "createNFTCollection" [str "test"; str "test"; str "test"]);
  SubstrateFee (js "createCollection") by_donor (by_extrinsic (NFTGroup.mintCollection helper donor test_options));
  Deploy (js "createCollection") by_signer deploy_zeppelin;
  Gas (js "mint") by_signer (evm "mint" [signer_param]);
  Zeppelin (js "mint") by_signer (on_zeppelin None "safeMint" [signer_param; JStr []]);
  Gas (js "mintCross") by_signer (evm "mintCross" [crossSigner; JArr []]);
  SubstrateFee (js "mint") by_donor
    (by_extrinsic (UniqueNFTCollection.mintToken collection donor (Some by_donor) None));
  SubstrateFee (js "mintCross") by_donor
    (by_extrinsic (UniqueNFTCollection.mintMultipleTokens collection donor [obj [(js "owner", cross_js by_donor)]]));
  Gas (js "mintWithTokenURI") by_signer (evm "mintWithTokenURI" [signer_param; str "Test URI"]);
  SubstrateFee (js "mintWithTokenURI") by_donor
    (by_extrinsic (UniqueNFTCollection.mintToken collection donor (Some by_signer)
       (Some (JArr [sub_property_js (js "URI", js "Test URI")]))));
  Zeppelin (js "mintWithTokenURI") by_signer (on_zeppelin None "safeMint" [signer_param; str "Test URI"])].

Definition erc721_properties : list Step := [
  Gas (js "setProperties") by_signer (evm "setProperties" [num 1; first_properties]);
  Gas (js "deleteProperties") by_signer (evm "deleteProperties" [num 1; JArr first_keys]);
  SubstrateFee (js "setProperties") by_donor
    (by_extrinsic (UniqueNFTCollection.setTokenProperties collection donor (Int 1)
       (JArr (map sub_property_js (take 1 SUBS_PROPERTIES)))));
  SubstrateFee (js "deleteProperties") by_donor
    (by_extrinsic (UniqueNFTCollection.deleteTokenProperties collection donor (Int 1)
       (JArr (map (fun p => JStr p.1) (take 1 SUBS_PROPERTIES)))))].

Definition erc721_transfer : list Step := [
  Gas (js "transfer") by_signer (evm "transfer" [receiver_param; num 1]);
  ZeppelinRow (js "safeTransferFrom*") by_signer
    (on_zeppelin None "safeTransferFrom" [signer_param; receiver_param; num 0]);
  Gas (js "transferCross") by_receiver (evm_receiver "transferCross" [crossSigner; num 1]);
  SubstrateFee (js "transferCross") by_donor
    (by_extrinsic (UniqueNFTCollection.transferToken collection donor (Int 3) by_sub));
  Statement (by_extrinsic (UniqueNFTCollection.approveToken collection subReceiver (Int 3) by_donor));
  Gas (js "transferFrom*") by_signer (evm "transferFrom" [signer_param; receiver_param; num 1]);
  Zeppelin (js "transferFrom*") by_receiver
    (on_zeppelin (Some ethReceiver) "transferFrom" [receiver_param; signer_param; num 0]);
  Gas (js "transferFromCross") by_receiver
    (evm_receiver "transferFromCross" [crossReceiver; crossSigner; num 1]);
  SubstrateFee (js "transferFromCross") by_donor
    (by_extrinsic (UniqueNFTCollection.transferTokenFrom collection donor (Int 3) by_sub by_donor));
  Gas (js "burn") by_signer (evm "burn" [num 1]);
  SubstrateFee (js "burn") by_donor (by_extrinsic (UniqueNFTCollection.burnToken collection donor (Int 3)))].

Definition erc721_approve : list Step := [
  Gas (js "approve*") by_signer (evm "approve" [receiver_param; num 2]);
  Zeppelin (js "approve*") by_signer (on_zeppelin None "approve" [receiver_param; num 0]);
  Gas (js "approveCross") by_signer (evm "approveCross" [crossReceiver; num 2]);
  SubstrateFee (js "approveCross") by_donor
    (by_extrinsic (UniqueNFTCollection.approveToken collection donor (Int 4) by_sub));
  Gas (js "setApprovalForAll*") by_signer (evm "setApprovalForAll" [receiver_param; jstrue]);
  Zeppelin (js "setApprovalForAll*") by_signer (on_zeppelin None "setApprovalForAll" [receiver_param; jstrue]);
  SubstrateFee (js "setApprovalForAll*") by_donor
    (by_extrinsic (NFTnRFT.setAllowanceForAll helper donor (col_id collection) by_sub true));
  Gas (js "burnFromCross") by_receiver (evm_receiver "burnFromCross" [crossSigner; num 2]);
  SubstrateFee (js "burnFromCross") by_sub
    (by_extrinsic (UniqueNFTCollection.burnTokenFrom collection subReceiver (Int 4) by_donor));
  Gas (js "setTokenPropertyPermissions") by_signer (evm "setTokenPropertyPermissions" [permission_param]);
  SubstrateFee (js "setTokenPropertyPermissions") by_donor
    (by_extrinsic (UniqueNFTCollection.setTokenPropertyPermissions collection donor
       (JArr [permission_for (js "url")])))].

Definition sponsorship : list Step := [
  Gas (js "setCollectionSponsorCross") by_signer (evm "setCollectionSponsorCross" [crossReceiver]);
  Gas (js "confirmCollectionSponsorship") by_receiver (evm_receiver "confirmCollectionSponsorship" []);
  Gas (js "removeCollectionSponsor") by_signer (evm "removeCollectionSponsor" []);
  SubstrateFee (js "setCollectionSponsorCross") by_donor
    (by_extrinsic (UniqueBaseCollection.setSponsor collection donor (address subReceiver)));
  SubstrateFee (js "confirmCollectionSponsorship") by_sub
    (by_extrinsic (UniqueBaseCollection.confirmSponsorship collection subReceiver));
  SubstrateFee (js "removeCollectionSponsor") by_donor
    (by_extrinsic (UniqueBaseCollection.removeSponsor collection donor))].

Definition collection_settings : list Step := [
  Gas (js "setCollectionProperties") by_signer (evm "setCollectionProperties" [first_properties]);
  Gas (js "deleteCollectionProperties") by_signer (evm "deleteCollectionProperties" [JArr first_keys]);
  SubstrateFee (js "setCollectionProperties") by_donor
    (by_extrinsic (UniqueBaseCollection.setProperties collection donor
       (JArr (map (fun p => sub_property_js (p.1, bytes_text p.2)) (take 1 PROPERTIES)))));
  SubstrateFee (js "deleteCollectionProperties") by_donor
    (by_extrinsic (UniqueBaseCollection.deleteProperties collection donor (JArr first_keys)));
  Gas (js "setCollectionLimit") by_signer (evm "setCollectionLimit" [limit_param]);
  SubstrateFee (js "setCollectionLimit") by_donor
    (by_extrinsic (UniqueBaseCollection.setLimits collection donor
       (obj [(js "accountTokenOwnershipLimit", num 1000)])))].

(** The steps after [createCollection] use the collection it made. *)
Variables (collectionAddress : jsstr) (collectionWithEthOwner : Contract).
Let owned (method : string) (params : list jsval) : Code := on collectionWithEthOwner method params.

Definition admins : list Step := [
  Gas (js "addCollectionAdminCross") by_signer (owned "addCollectionAdminCross" [crossReceiver]);
  Gas (js "removeCollectionAdminCross") by_signer (owned "removeCollectionAdminCross" [crossReceiver]);
  SubstrateFee (js "addCollectionAdminCross") by_donor
    (by_extrinsic (UniqueBaseCollection.addAdmin collection donor by_receiver));
  SubstrateFee (js "removeCollectionAdminCross") by_donor
    (by_extrinsic (UniqueBaseCollection.removeAdmin collection donor by_receiver))].

(** [restricted] is the parameter of the second call of the method; the method
    is the same. *)
Definition nesting (restricted : jsval) : list Step := [
  Gas (js "setCollectionNesting") by_signer (evm "setCollectionNesting(bool)" [jstrue]);
  Gas (js "setCollectionNesting[]") by_signer (evm "setCollectionNesting(bool)" [restricted]);
  SubstrateFee (js "setCollectionNesting") by_donor
    (by_extrinsic (UniqueBaseCollection.disableNesting collection donor));
  SubstrateFee (js "setCollectionNesting[]") by_donor
    (by_extrinsic (UniqueBaseCollection.setPermissions collection donor
       (obj [(js "nesting", obj [(js "tokenOwner", jstrue);
                                 (js "restricted", JArr [num_js (col_id collection)])])])))].

Definition erc721_nesting : list Step := nesting (JArr [jstrue; jsfalse; JArr [JStr collectionAddress]]).

Definition access : list Step := [
  Gas (js "setCollectionAccess") by_signer (evm "setCollectionAccess" [num 1]);
  SubstrateFee (js "setCollectionAccess") by_donor
    (by_extrinsic (UniqueBaseCollection.setPermissions collection donor (obj [(js "access", str "AllowList")])));
  Gas (js "addToCollectionAllowListCross") by_signer (evm "addToCollectionAllowListCross" [crossReceiver]);
  Gas (js "removeFromCollectionAllowListCross") by_signer (evm "removeFromCollectionAllowListCross" [crossReceiver]);
  SubstrateFee (js "addToCollectionAllowListCross") by_donor
    (by_extrinsic (UniqueBaseCollection.addToAllowList collection donor by_receiver));
  SubstrateFee (js "removeFromCollectionAllowListCross") by_donor
    (by_extrinsic (UniqueBaseCollection.removeFromAllowList collection donor by_receiver));
  Gas (js "setCollectionMintMode") by_signer (evm "setCollectionMintMode" [jstrue]);
  SubstrateFee (js "setCollectionMintMode") by_donor
    (by_extrinsic (UniqueBaseCollection.setPermissions collection donor (obj [(js "mintMode", jsfalse)])));
  Gas (js "changeCollectionOwnerCross") by_signer (owned "changeCollectionOwnerCross" [crossReceiver]);
  SubstrateFee (js "changeCollectionOwnerCross") by_donor
    (by_extrinsic (UniqueBaseCollection.changeOwner collection donor (address subReceiver)))].

(** *** The fungible collection *)

Definition erc20_mint : list Step := [
  Gas (js "createCollection") by_signer
    (create_call "createFTCollection" [str "test"; num 18; str "test"; str "test"]);
  SubstrateFee (js "createCollection") by_donor
    (by_extrinsic (FTGroup.mintCollection helper donor test_options (Int 18)));
  Deploy (js "createCollection") by_signer deploy_zeppelin;
  Gas (js "mint") by_signer (evm "mint" [signer_param; num 1]);
  Zeppelin (js "mint") by_signer (on_zeppelin None "mint" [signer_param; num 1]);
  Gas (js "mintCross") by_signer (evm "mintCross" [crossSigner; num 1]);
  SubstrateFee (js "mintCross") by_donor
    (by_extrinsic (UniqueFTCollection.mint collection donor 10 (Some by_donor)));
  Gas (js "mintBulk") by_signer
    (evm "mintBulk" [JArr [obj [(js "to", signer_param); (js "amount", num 1)]]]);
  SubstrateFee (js "mintBulk") by_donor
    (by_extrinsic (executeExtrinsic helper donor (js "api.tx.unique.createMultipleItemsEx")
       [num_js (col_id collection);
        obj [(js "Fungible", js_map [(JStr (cross_json by_signer), num 1)])]] true None))].

Definition erc20_transfer : list Step := [
  Gas (js "transfer*") by_signer (evm "transfer" [receiver_param; num 1]);
  Zeppelin (js "transfer*") by_signer (on_zeppelin None "transfer" [receiver_param; num 1]);
  Gas (js "transferCross") by_receiver (evm_receiver "transferCross" [crossSigner; num 1]);
  SubstrateFee (js "transferCross") by_donor
    (by_extrinsic (UniqueFTCollection.transfer collection donor by_sub 1));
  Statement (by_extrinsic (UniqueFTCollection.approveTokens collection subReceiver by_donor 1));
  Gas (js "transferFrom*") by_signer (evm "transferFrom" [signer_param; receiver_param; num 1]);
  Statement (on_zeppelin (Some ethReceiver) "approve" [signer_param; num 10]);
  Zeppelin (js "transferFrom*") by_signer
    (on_zeppelin None "transferFrom" [receiver_param; signer_param; num 1]);
  Gas (js "transferFromCross") by_receiver
    (evm_receiver "transferFromCross" [crossReceiver; crossSigner; num 1]);
  SubstrateFee (js "transferFromCross") by_donor
    (by_extrinsic (UniqueFTCollection.transferFrom collection donor by_sub by_donor 1));
  ZeroRow (js "burnTokens");
  SubstrateFee (js "burnTokens") by_donor (by_extrinsic (UniqueFTCollection.burnTokens collection donor 1))].

Definition erc20_approve : list Step := [
  Gas (js "approve*") by_signer (evm "approve" [receiver_param; num 2]);
  Zeppelin (js "approve*") by_signer (on_zeppelin None "approve" [receiver_param; num 10]);
  Gas (js "approveCross") by_signer (evm "approveCross" [crossReceiver; num 2]);
  SubstrateFee (js "approveCross") by_donor
    (by_extrinsic (UniqueFTCollection.approveTokens collection donor by_sub 1));
  Gas (js "burnFromCross") by_receiver (evm_receiver "burnFromCross" [crossSigner; num 1]);
  SubstrateFee (js "burnFromCross") by_sub
    (by_extrinsic (UniqueFTCollection.burnTokensFrom collection subReceiver by_donor 1))].

(** The rest of the script is that of the NFT collection. *)
Definition erc20_sponsorship : list Step := sponsorship.
Definition erc20_settings : list Step := collection_settings.
Definition erc20_admins : list Step := admins.
Definition erc20_nesting : list Step := nesting jstrue.
Definition erc20_access : list Step := access.

(** The steps before and after the creation of the second collection. *)
Definition erc721_first : list Step :=
  erc721_mint ++ erc721_properties ++ erc721_transfer ++ erc721_approve ++ sponsorship ++ collection_settings.
Definition erc721_second : list Step := admins ++ erc721_nesting ++ access.
Definition erc20_first : list Step :=
  erc20_mint ++ erc20_transfer ++ erc20_approve ++ erc20_sponsorship ++ erc20_settings.
Definition erc20_second : list Step := erc20_admins ++ erc20_nesting ++ erc20_access.

End Scripts.

(** ** The scripts *)

Section Main.
Context {N : NodeApi} {C : Crypto} {W : Ethers} {X : Harness} {P : Process} {B : BenchIO}.

(** What both functions set up: the accounts, the collection, the contracts
    and the compiled OpenZeppelin contract. *)
Record Setup : Type := mkSetup {
  su_donor : TSigner;
  su_subReceiver : TSigner;
  su_ethSigner : Wallet;
  su_ethReceiver : Wallet;
  su_collection : Collection;
  su_helperContract : Contract;
  su_evmContract : Contract;
  su_abi : jsval;
  su_object : jsstr }.

Definition zeppelin_file (dirname : jsstr) (mode : TCollectionMode) (extension : string) : jsstr :=
  dirname ++ js "/../utils/openZeppelin/" ++ match mode with ft => js "ERC20" | _ => js "ERC721" end
  ++ js "/bin/ZeppelinContract" ++ js extension.

Definition setup (helper : nat) (key : Seed -> E TSigner) (dirname : jsstr) (mode : TCollectionMode) : E Setup :=
  donor ← key (SeedText (js "//Alice"));
  accounts ← of_M (ArrangeGroup.createAccounts helper [10] donor);
  match accounts with
  | [] => ethrow EngineError
  | subReceiver :: _ =>
      ethSigner ← EthGroup.createAccountWithBalance helper donor None;
      ethReceiver ← EthGroup.createAccountWithBalance helper donor None;
      collection ← createCollectionForBenchmarks helper mode key (wallet_address ethSigner) None PERMISSIONS;
      helperContract ← NativeContractGroup.collectionHelpers helper ethSigner;
      bin ← eworld (readFile (zeppelin_file dirname mode ".bin"));
      abi ← eworld (readFile (zeppelin_file dirname mode ".abi"));
      abi ← elift (JSON_parse abi);
      address ← elift (EthAddressGroup.fromCollectionId (col_id collection));
      evmContract ← elift (NativeContractGroup.collection address mode ethSigner true);
      mreturn (mkSetup donor subReceiver ethSigner ethReceiver collection helperContract evmContract abi
                 (js "0x" ++ bin))
  end.

(** The second collection, whose owner is an Ethereum account. *)
Definition owned_collection (helper : nat) (ethSigner : Wallet) : E (jsstr * Contract) :=
  r ← EthGroup.createCollection helper ethSigner
        (new_CreateCollectionData (js "A") (js "B") (js "C") nft None) false [];
  contract ← elift (NativeContractGroup.collection (cr_collectionAddress r) nft ethSigner true);
  mreturn (cr_collectionAddress r, contract).

(** The steps around the creation of the second collection. *)
Definition measure (helper : nat) (ethSigner : Wallet) (first : list Step)
  (second : jsstr -> Contract -> list Step) : E Table :=
  v ← run_steps helper ([], None) first;
  ' (collectionAddress, collectionWithEthOwner) ← owned_collection helper ethSigner;
  v ← run_steps helper v (second collectionAddress collectionWithEthOwner);
  mreturn v.1.

Definition erc721CalculateFeeGas (helper : nat) (key : Seed -> E TSigner) (dirname : jsstr) : E Table :=
  u ← setup helper key dirname nft;
  measure helper (su_ethSigner u)
    (erc721_first helper (su_donor u) (su_subReceiver u) (su_ethSigner u) (su_ethReceiver u) (su_collection u)
       (su_helperContract u) (su_evmContract u) (su_abi u) (su_object u))
    (fun a c => erc721_second (su_donor u) (su_subReceiver u) (su_ethSigner u) (su_ethReceiver u)
       (su_collection u) (su_evmContract u) a c).

Definition erc20CalculateFeeGas (helper : nat) (key : Seed -> E TSigner) (dirname : jsstr) : E Table :=
  u ← setup helper key dirname ft;
  measure helper (su_ethSigner u)
    (erc20_first helper (su_donor u) (su_subReceiver u) (su_ethSigner u) (su_ethReceiver u) (su_collection u)
       (su_helperContract u) (su_evmContract u) (su_abi u) (su_object u))
    (fun _ c => erc20_second (su_donor u) (su_subReceiver u) (su_ethSigner u) (su_ethReceiver u)
       (su_collection u) (su_evmContract u) c).

(** The table as an [IFunctionFee]. *)
Definition number_or_undefined (o : option Z) : jsval := match o with Some z => num z | None => JUndef end.
Definition row_model (r : Row) : FunctionFeeVM.IFeeGas :=
  FunctionFeeVM.mkFeeGas (number_or_undefined (fee <$> r_fee r)) (number_or_undefined (gas <$> r_fee r))
    (number_or_undefined (r_substrate r)) ((fun f => (num (fee f), num (gas f))) <$> r_zeppelin r).
Definition model (t : Table) : list (jsstr * FunctionFeeVM.IFeeGas) := map (fun kr => (kr.1, row_model kr.2)) t.

Definition headers : list jsstr :=
  map js ["function"; "ethFee"; "ethGas"; "substrate"; "zeppelinFee"; "zeppelinGas"]%string.

Definition vm_js (t : list (jsstr * FunctionFeeVM.IFeeGasVm)) : jsval :=
  obj (map (fun kv => (kv.1, obj [(js "ethFee", FunctionFeeVM.ethFee kv.2); (js "ethGas", FunctionFeeVM.ethGas kv.2);
    (js "substrate", FunctionFeeVM.vm_substrate kv.2); (js "zeppelinFee", FunctionFeeVM.zeppelinFee kv.2);
    (js "zeppelinGas", FunctionFeeVM.zeppelinGas kv.2)])) t).

Definition report (title path : string) (measured : E Table) : E unit :=
  MintFee.log (10 :: js title);;
  t ← measured;
  let vm := FunctionFeeVM.fromModel (model t) in
  MintFee.table (vm_js vm);;
  eworld (writeRecords (js path) headers (FunctionFeeVM.toCsv vm)).

Definition main (url dirname : jsstr) : E unit :=
  usingEthPlaygrounds url (fun helper key =>
    report " ERC20 ops fees" "erc20.csv" (erc20CalculateFeeGas helper key dirname);;
    report " ERC721 ops fees" "erc721.csv" (erc721CalculateFeeGas helper key dirname)).

End Main.

(** ** What the table holds *)

(** Which cells of a row are filled: the native contract, the extrinsic, the
    OpenZeppelin contract. *)
Record Cells : Type := mkCells { c_eth : bool; c_substrate : bool; c_zeppelin : bool }.

Definition has {A} (o : option A) : bool := match o with Some _ => true | None => false end.
Definition cells (r : Row) : Cells := mkCells (has (r_fee r)) (has (r_substrate r)) (has (r_zeppelin r)).
Definition shape (t : Table) : list (jsstr * Cells) := map (fun kr => (kr.1, cells kr.2)) t.

(** What a step does to the shape, whatever it measures. *)
Definition plan_step {N : NodeApi} {W : Ethers} (step : Step) (t : list (jsstr * Cells))
  : option (list (jsstr * Cells)) :=
  let update row f := match lookup_key row t with Some c => Some (set_key row (f c) t) | None => None end in
  match step with
  | Gas row _ _ | ZeroRow row => Some (set_key row (mkCells true false false) t)
  | ZeppelinRow row _ _ => Some (set_key row (mkCells false false true) t)
  | SubstrateFee row _ _ => update row (fun c => mkCells (c_eth c) true (c_zeppelin c))
  | Zeppelin row _ _ | Deploy row _ _ => update row (fun c => mkCells (c_eth c) (c_substrate c) true)
  | Statement _ => Some t
  end.

Fixpoint plan {N : NodeApi} {W : Ethers} (steps : list Step) (t : list (jsstr * Cells))
  : option (list (jsstr * Cells)) :=
  match steps with
  | [] => Some t
  | step :: steps' => match plan_step step t with Some t' => plan steps' t' | None => None end
  end.

Lemma shape_set k r t : shape (set_key k r t) = set_key k (cells r) (shape t).
Proof. induction t as [|[k' r'] t IH]; [done|]. cbn. destruct (jseq k k'); [done|]. cbn. by f_equal. Qed.

Lemma shape_lookup k t : lookup_key k (shape t) = cells <$> lookup_key k t.
Proof. induction t as [|[k' r'] t IH]; [done|]. cbn. by destruct (jseq k k'). Qed.

Section Shape.
Context {N : NodeApi} {C : Crypto} {W : Ethers}.
Variable helper : nat.

Lemma update_row_plan row f g t t' : (forall r, cells (f r) = g (cells r)) -> update_row row f t = Ret t' ->
  match lookup_key row (shape t) with Some c => Some (set_key row (g c) (shape t)) | None => None end
  = Some (shape t').
Proof.
  intros Hf. unfold update_row. rewrite shape_lookup.
  destruct (lookup_key row t) as [r|]; [|done]. intros [= <-]. cbn. by rewrite shape_set, Hf.
Qed.

Lemma run_step_plan t z step s t' z' s' :
  run_step helper (t, z) step s = (Ret (t', z'), s') -> plan_step step (shape t) = Some (shape t').
Proof.
  destruct step; cbn [run_step plan_step]; intros H; erun_inv;
    try match type of H with context [let '(_, _) := ?x in _] => destruct x; erun_inv end;
    injection H as <- _ _; rewrite ?shape_set; try done;
    by (eapply update_row_plan; [|eassumption]).
Qed.

Lemma run_steps_plan steps : forall t z s t' z' s',
  run_steps helper (t, z) steps s = (Ret (t', z'), s') -> plan steps (shape t) = Some (shape t').
Proof.
  induction steps as [|step steps IH]; intros t z s t' z' s' H; unfold run_steps in *; cbn [for_each_E plan] in *.
  - by injection H as <- _ _.
  - apply ebind_Ret_inv in H as ([t1 z1] & s1 & H1 & H). rewrite (run_step_plan _ _ _ _ _ _ _ H1).
    by eapply IH.
Qed.

End Shape.

(** The cells of the two tables. *)
Definition eth_and_substrate (rows : list string) : list (jsstr * Cells) :=
  map (fun r => (js r, mkCells true true false)) rows.
Definition all_three (row : string) : jsstr * Cells := (js row, mkCells true true true).
Definition without_substrate (row : string) : jsstr * Cells := (js row, mkCells true false true).

Definition shared_cells : list (jsstr * Cells) := eth_and_substrate
  ["setCollectionSponsorCross"; "confirmCollectionSponsorship"; "removeCollectionSponsor";
   "setCollectionProperties"; "deleteCollectionProperties"; "setCollectionLimit"; "addCollectionAdminCross";
   "removeCollectionAdminCross"; "setCollectionNesting"; "setCollectionNesting[]"; "setCollectionAccess";
   "addToCollectionAllowListCross"; "removeFromCollectionAllowListCross"; "setCollectionMintMode";
   "changeCollectionOwnerCross"]%string.

Definition erc721_cells : list (jsstr * Cells) :=
  [all_three "createCollection"; all_three "mint"] ++ eth_and_substrate ["mintCross"%string]
  ++ [all_three "mintWithTokenURI"] ++ eth_and_substrate ["setProperties"; "deleteProperties"]%string
  ++ [(js "transfer", mkCells true false false); (js "safeTransferFrom*", mkCells false false true)]
  ++ eth_and_substrate ["transferCross"%string] ++ [without_substrate "transferFrom*"]
  ++ eth_and_substrate ["transferFromCross"; "burn"]%string ++ [without_substrate "approve*"]
  ++ eth_and_substrate ["approveCross"%string] ++ [all_three "setApprovalForAll*"]
  ++ eth_and_substrate ["burnFromCross"; "setTokenPropertyPermissions"]%string ++ shared_cells.

Definition erc20_cells : list (jsstr * Cells) :=
  [all_three "createCollection"; without_substrate "mint"]
  ++ eth_and_substrate ["mintCross"; "mintBulk"]%string ++ [without_substrate "transfer*"]
  ++ eth_and_substrate ["transferCross"%string] ++ [without_substrate "transferFrom*"]
  ++ eth_and_substrate ["transferFromCross"; "burnTokens"]%string ++ [without_substrate "approve*"]
  ++ eth_and_substrate ["approveCross"; "burnFromCross"]%string ++ shared_cells.

Section Tables.
Context {N : NodeApi} {C : Crypto} {W : Ethers} {X : Harness} {P : Process} {B : BenchIO}.

Lemma plan_app steps1 steps2 t : plan (steps1 ++ steps2) t = plan steps1 t ≫= plan steps2.
Proof. revert t. induction steps1 as [|x l IH]; intros t; [done|]. cbn. by destruct (plan_step x t). Qed.

Lemma measure_plan helper ethSigner first second s t s' :
  measure helper ethSigner first second s = (Ret t, s') ->
  exists a c, plan (first ++ second a c) [] = Some (shape t).
Proof.
  unfold measure. intros H.
  apply ebind_Ret_inv in H as ([t1 z1] & s1 & H1 & H).
  apply ebind_Ret_inv in H as ([a c] & s2 & _ & H).
  apply ebind_Ret_inv in H as ([t2 z2] & s3 & H2 & H). injection H as <- _.
  exists a, c. apply run_steps_plan in H1, H2. change (shape []) with (@nil (jsstr * Cells)) in H1.
  by rewrite plan_app, H1.
Qed.

(** The tables of the operation benchmarks are complete. When the
    benchmark of the NFT collection, or of the fungible one, returns, its table
    has exactly the rows of the operations, in order and each once, and each
    row has exactly its cells: no assignment to a cell misses its row, and only
    the operations listed lack the cost of an extrinsic or have that of the
    OpenZeppelin contract. *)
Theorem fee_tables helper key dirname s t s' :
  (erc721CalculateFeeGas helper key dirname s = (Ret t, s') -> shape t = erc721_cells)
  /\ (erc20CalculateFeeGas helper key dirname s = (Ret t, s') -> shape t = erc20_cells).
Proof.
  split; unfold erc721CalculateFeeGas, erc20CalculateFeeGas; intros (u & s1 & _ & H)%ebind_Ret_inv.
  - apply measure_plan in H as (a & c & H). revert H. generalize (shape t).
    intros cs H. vm_compute in H. injection H as <-. by vm_compute.
  - apply measure_plan in H as (a & c & H). revert H. generalize (shape t).
    intros cs H. vm_compute in H. injection H as <-. by vm_compute.
Qed.

End Tables.
End OpsFee.
