(* ===== verification/EthWitnesses.v ===== *)
(** * The theorems on the Ethereum helpers at concrete inputs *)

From Stdlib Require Import Ascii String.
From stdpp Require Import list gmap relations.
From S2P Require Import Prelude JsString JsValue Utf8 Chain Address Util Helper Lifecycle Collections Balance Dev.
From S2P Require Import Eth EthFacts Mock Witnesses.

Open Scope Z_scope.
Open Scope js_scope.

(** A node whose providers ask two units for gas, and on which a transaction
    creates collection 5. *)
Section Node.
Definition created_log : EthLog :=
  EventLog (js "CollectionCreated") (js "0x6c")
    [JStr (js "0x01"); JStr (js "0x00000000000000000000000017c4e6453cc49aaaaeaca894e6d9683e00000005")]
    [js "owner"; js "collectionId"].

#[local] Instance eth_node : NodeApi := mock_node account_reply (fun _ => []).

#[local] Instance mock_ethers : @Ethers eth_node := {|
  Provider := jsstr;
  Wallet := jsstr;
  TxResponse := unit;
  wallet_address w := w;
  wallet_param w := JStr w;
  new_JsonRpcProvider endpoint w := (endpoint, w);
  provider_destroy _ w := w;
  fee_data_gasPrice _ w := (Ret (Some 2), w);
  createRandom _ w := (js "0xaa", w);
  getAddress s := Ret s;
  hexlify bs := js "0x" ++ hex_bytes bs;
  contract_send _ _ _ _ _ _ w := (Ret tt, w);
  contract_view _ _ _ _ w := (Ret JUndef, w);
  tx_wait _ _ w := (Ret (Some (mkReceipt [RawLog []; created_log])), w);
  factory_deploy _ _ _ _ _ w := (Throw [], w);
  abi_json _ := [];
  solc_compile _ _ w := (Throw [], w);
  readFile _ w := (Throw [], w) |}.

#[local] Instance mock_ethers_laws : EthersLaws mock_ethers.
Proof. intros s _ Hs. by exists s. Qed.

Definition eth_store : EState := mkE (store eth_node (js "ws://node") 100 PlainHelper) {[ 0%nat := js "http://node" ]}.

Lemma collection_address_roundtrip_witness :
  EthAddressGroup.fromCollectionId 5 = Ret (js "0x17c4e6453cc49aaaaeaca894e6d9683e00000005")
  /\ EthAddressGroup.extractCollectionId (js "0x17c4e6453cc49aaaaeaca894e6d9683e00000005") = Ret (Int 5).
Proof.
  destruct (collection_address_roundtrip 5) as (r & H1 & _ & H3).
  assert (r = js "0x17c4e6453cc49aaaaeaca894e6d9683e00000005") as ->.
  { apply (Ret_inj (E := exn)). rewrite <- H1. by_computation. }
  by split.
Defined.

Lemma normalizeEvents_first_witness :
  exists o, EthEvents.normalizeEvents (mkReceipt [RawLog []; created_log; created_log]) = Ret o
    /\ lookup_key (js "toString") o = None
    /\ exists e, lookup_key (js "CollectionCreated") o = Some e /\ ne_address e = js "0x6c".
Proof.
  eexists. split; [by_computation|].
  destruct (normalizeEvents_first (mkReceipt [RawLog []; created_log; created_log]) _ ltac:(by_computation))
    as (l & Hl & Hk).
  split; [by rewrite Hk|]. eexists. split; by_computation.
Defined.

Lemma property_roundtrip_witness :
  utf8_decode (hex_decode (strip_0x (EthPropertyGroup.property (js "key") [0x20AC; 0xD83D; 0xDE00]).2))
  = [0x20AC; 0xD83D; 0xDE00].
Proof.
  apply (property_roundtrip (js "key") [0x20AC; 0xD83D; 0xDE00]); [repeat constructor; done|].
  by repeat split.
Defined.

Definition create_run := EthGroup.createCollection 0 (js "0xaa")
  (new_CreateCollectionData (js "n") (js "d") (js "T") nft None) false [] eth_store.

Lemma createCollection_reads_event_witness :
  exists r, create_run.1 = Ret r
    /\ EthAddressGroup.extractCollectionId (cr_collectionAddress r) = Ret (cr_collectionId r)
    /\ runner (cr_collection r) = Some (js "0xaa").
Proof.
  assert (exists r s', create_run = (Ret r, s')) as (r & s' & E) by (do 2 eexists; by_computation).
  exists r. split; [by rewrite E|].
  destruct (createCollection_reads_event _ _ _ _ _ _ _ _ E)
    as (price & a & resp & receipt & evs & e & x & w1 & w2 & _ & _ & _ & _ & _ & _ & _ & H1 & _ & H2).
  by split.
Defined.

(** A helper with a provider, and a clone of it. *)
Definition with_provider : EState :=
  (run_op (op_connectWeb3 0 (js "ws://node")) (run_op op_construct (eth_initial 100)).2).2.

Lemma with_provider_reachable : eth_reachable with_provider.
Proof. exists 100. eapply rtc_l; [by eexists|]. apply rtc_once. by eexists. Defined.


Lemma eth_disconnect_effect_witness :
  es_web3 (EthUniqueHelper.disconnect 0 eth_store).2 !! 0%nat = None.
Proof.
  destruct (eth_disconnect_effect 0 eth_store _ eq_refl) as (_ & _ & _ & _ & H);
    [by intros ?%elem_of_nil|].
  rewrite H. by vm_compute.
Defined.

Lemma fee_gas_bounds_witness :
  exists r, (FeeGasOps.build 0 (10 ^ 15 + 1) eth_store).1 = Ret r /\ Eth.fee r = 1 /\ Eth.gas r = 5 * 10 ^ 14
    /\ 0 <= (10 ^ 15 + 1) * 1000 - Eth.fee r * 10 ^ 18 < 10 ^ 18.
Proof.
  exists (mkFeeGas 1 500000000000000). split_and!; [by_computation|done|done|..];
    apply (fee_gas_bounds 0 (10 ^ 15 + 1) eth_store (FeeGasOps.build 0 (10 ^ 15 + 1) eth_store).2
      (mkFeeGas 1 500000000000000)); try lia; by_computation.
Defined.

End Node.
