(* ===== verification/ScriptWitnesses.v ===== *)
(** * The theorems on the scripts at concrete inputs *)

From Stdlib Require Import Ascii String.
From stdpp Require Import sorting list.
From S2P Require Import Prelude JsString JsValue Chain Address Util Helper Balance TestUtil Scripts Proposals ScriptFacts.
From S2P Require Import Mock Witnesses.

Open Scope Z_scope.
Open Scope js_scope.

Lemma formatNumber_groups_witness :
  0 <= 1234567 /\ CalibrateApply.formatNumber (js "1234567") = js "1_234_567"
  /\ exists g gs, number_toString 1234567 = mjoin (g :: gs) /\ (1 <= length g <= 3)%nat.
Proof.
  split_and!; [lia|by_computation|].
  destruct (formatNumber_groups 1234567) as (g & gs & H & _ & Hl & _); [lia|]. exists g, gs. by split.
Defined.

Lemma chunk_partition_witness :
  Maintenance.chunk [1; 2; 3; 4; 5; 6; 7] 3 = [[1; 2; 3]; [4; 5; 6]; [7]]
  /\ mjoin (Maintenance.chunk [1; 2; 3; 4; 5; 6; 7] 3) = [1; 2; 3; 4; 5; 6; 7].
Proof. split; [by_computation|]. apply (chunk_partition [1; 2; 3; 4; 5; 6; 7] 3). lia. Defined.

Lemma secondsToTime_exact_witness :
  LeaseStatus.secondsToTime 93784 = js "1d:2h:3m:4s"
  /\ exists d h m sec, 93784 = 86400 * d + 3600 * h + 60 * m + sec /\ 0 <= h < 24.
Proof.
  split; [by_computation|]. destruct (secondsToTime_exact 93784) as (d & h & m & sec & _ & Hs & _ & Hh & _); [lia|].
  by exists d, h, m, sec.
Defined.

(** ** The load generator *)

Section Distribution.
Definition user (s : string) : TSigner := mkSigner (js s) [2].
Definition users : list TSigner := [user "2a11"; user "2a12"; user "2a13"].

(** A transfer that the chain refuses. *)
Definition refused : list TxUpdate :=
  [mkTxUpdate (StFinalized (js "0x01")) [failed] (Some (Some (mkDispatchError (DEToken (js "FundsUnavailable")) JNull)))].

(** Transfers to the second user are refused. *)
Definition reports (tx : jsval) : list TxUpdate :=
  match get_prop tx (js "args") with
  | Ret (JArr (to :: _)) => if strict_eq to (JStr (js "2a12")) then refused else finalized [succeeded]
  | _ => dropped
  end.

#[local] Instance distribution_node : NodeApi := mock_node account_reply reports.
Definition distribution_store : State := store distribution_node (js "ws://node") 100 PlainHelper.
Definition distribution := TransferLoad.distributeBalance 0 (fun _ f => f) alice users (10 ^ 12) 2 [] distribution_store.

Lemma distribution_run : TransferLoad.distributeBalance 0 (fun _ f => f) alice users (10 ^ 12) 2 [] distribution_store
  = (Ret ([user "2a11"; user "2a13"], [(js "requests", 3); (js "tx", 3); (js "txFailed", 1)]), distribution.2).
Proof. by_computation. Qed.

Lemma distribute_in_order_witness :
  exists log, transfers 0 (alice :: users) log distribution_store distribution.2
    /\ log.*1 = [(0%nat, 1%nat, 10 ^ 12); (0%nat, 2%nat, 5 * 10 ^ 11 - 10 ^ 8); (1%nat, 3%nat, 5 * 10 ^ 11 - 10 ^ 8)]
    /\ [user "2a11"; user "2a13"] = without 1 (unfunded log) users
    /\ (2 + length (unfunded log) = 3)%nat.
Proof.
  destruct (distribute_in_order _ _ _ _ _ _ _ _ _ _ distribution_run) as (log & HT & HL & Hk & _ & _ & Hl & _).
  exact (ex_intro _ log (conj HT (conj HL (conj Hk Hl)))).
Defined.
End Distribution.

(** ** The checker of identities *)

Section RelayChecker.
Import Identities RelayIdentities.

Definition judged : jsval :=
  JObj [(js "judgements", answers [("toHuman"%string, JArr [JArr [JStr (js "0"); JStr (js "KnownGood")]])])]
    [(js "toJSON", fields [("info"%string, JStr (js "someone"))])].

Definition some_identity : jsval :=
  JArr [answers [("toHuman"%string, JArr [JStr (js "2a01")])];
        JObj [(js "isNone", JBool false)] [(js "unwrap", judged)]].

#[local] Instance relay_node : NodeApi :=
  mock_node (fun path => if jseq path (js "query.identity.identityOf.entries") then JArr [some_identity] else JUndef)
    (fun _ => []).
#[local] Instance no_harness : Harness :=
  {| md5 s := s; fileURLToPath s := Ret s; skip_exception := EngineError |}.
Definition relay_store : State := store relay_node (js "ws://node") 100 PlainHelper.
Definition relay_identities := getIdentities 0 relay_store.

Lemma relay_run : getIdentities 0 relay_store = (Ret ([(JStr (js "2a01"), JObj [(js "info", JStr (js "someone"));
    (js "judgements", JArr [JArr [JStr (js "0"); JStr (js "KnownGood")]])] [])], []), relay_identities.2).
Proof. by_computation. Qed.

Lemma relay_entries es s' : entries 0 (js "identityOf") relay_store = (Ret es, s') ->
  Forall (fun kv : jsval * jsval => json_identity kv.2) es.
Proof.
  assert ((entries 0 (js "identityOf") relay_store).1 = Ret [(answers [("toHuman"%string, JArr [JStr (js "2a01")])],
    JObj [(js "isNone", JBool false)] [(js "unwrap", judged)])]) as He by by_computation.
  intros H. rewrite H in He. injection He as ->. constructor; [|constructor].
  intros heart json Hh Hj. injection Hh as <-. injection Hj as <-. by eexists.
Qed.

Lemma relay_checker_fails_witness : pull 0 relay_store = (Throw EngineError, relay_identities.2).
Proof. exact (relay_checker_fails _ _ _ _ _ _ relay_entries relay_run). Defined.
End RelayChecker.
