(* ===== verification/ToolWitnesses.v ===== *)
(** * The theorems on the RPC definitions, the load generator and the
    benchmarks at concrete inputs *)

From Stdlib Require Import Ascii String.
From stdpp Require Import list gmap.
From S2P Require Import Prelude JsString JsValue Utf8 Chain Address RpcDefs TxDefs Interface InterfaceFacts Util Helper.
From S2P Require Import HelperFacts Collections Tokens Objects Balance Dev TxFacts.
From S2P Require Import Wait Arrange Eth EthFacts TestUtil Scripts Measure RpcFacts ScriptFacts Load Benchmarks OpsFee.
From S2P Require Import Mock Witnesses DevWitnesses.

Open Scope Z_scope.
Open Scope js_scope.

(** ** Operation benchmarks *)

Section Bench.
(** Every event that a command on collection 5 looks for. *)
Definition about5 (method : string) : EventRecord :=
  event "common" method [num_datum 5; num_datum 1; human_datum (cross_js (Substrate (js "2a01"))); num_datum 1].
Definition all_events : list EventRecord :=
  map about5 ["CollectionCreated"; "ItemCreated"; "ItemDestroyed"; "Approved"; "ApprovedForAll";
    "CollectionSponsorSet"; "SponsorshipConfirmed"; "CollectionSponsorRemoved"; "CollectionPropertySet";
    "CollectionPropertyDeleted"; "CollectionLimitSet"; "CollectionAdminAdded"; "CollectionAdminRemoved";
    "CollectionPermissionSet"; "AllowListAddressAdded"; "AllowListAddressRemoved"; "CollectionOwnerChanged";
    "TokenPropertySet"; "TokenPropertyDeleted"; "PropertyPermissionSet"]%string
  ++ [event "common" "Transfer" [num_datum 5; num_datum 1; human_datum (cross_js (Substrate (js "2a01")));
        human_datum (cross_js (Substrate (js "2a02"))); num_datum 1]].

Definition transferred : EventRecord :=
  event "balances" "Transfer" [human_datum (JStr (js "2a01")); human_datum (JStr (js "2a02")); num_datum 1].

#[local] Instance bench_node : NodeApi :=
  mock_node chain_reply (fun _ => finalized (all_events ++ [transferred; succeeded])).

Definition bench_log : EthLog :=
  EventLog (js "CollectionCreated") (js "0x6c")
    [JStr (js "0x01"); JStr (js "0x00000000000000000000000017c4e6453cc49aaaaeaca894e6d9683e00000005")]
    [js "owner"; js "collectionId"].

#[local] Instance bench_ethers : @Ethers bench_node := {|
  Provider := jsstr;
  Wallet := jsstr;
  TxResponse := unit;
  wallet_address w := w;
  wallet_param w := JStr w;
  new_JsonRpcProvider endpoint w := (endpoint, w);
  provider_destroy _ w := w;
  fee_data_gasPrice _ w := (Ret (Some 2), w);
  createRandom _ w := (js "0xaa", w);
  getAddress s := Ret s;
  hexlify bs := js "0x" ++ hex_bytes bs;
  contract_send _ _ _ _ _ _ w := (Ret tt, w);
  contract_view _ _ _ _ w := (Ret JUndef, w);
  tx_wait _ _ w := (Ret (Some (mkReceipt [bench_log])), w);
  factory_deploy _ _ _ _ _ w := (Ret (js "0xbb", Some tt), w);
  abi_json _ := [];
  solc_compile _ _ w := (Throw [], w);
  readFile _ w := (Ret [], w) |}.

#[local] Instance bench_process : Process := {|
  spawnSync _ _ w := (None, w);
  fetch_json _ _ w := (Throw [], w);
  writeFile _ _ w := (Ret tt, w);
  JSON_parse _ := Ret (JArr []) |}.

Definition bench_store : EState := mkE (store bench_node (js "ws://node") 100 PlainHelper) {[ 0%nat := js "http://node" ]}.
(** An account whose key has the length of an Ethereum address. *)
Definition long_signer : TSigner := mkSigner (js "2a" ++ concat (replicate 20 (js "01"))) [].
Definition bench_key (_ : Seed) : E TSigner := mreturn long_signer.

Definition returned_value {A S} (r : Res A * S) : bool := match r.1 with Ret _ => true | _ => false end.

Lemma erc20_returns : returned_value (OpsFee.erc20CalculateFeeGas 0 bench_key (js "dir") bench_store) = true.
Proof. by vm_compute. Qed.
Lemma erc721_returns : returned_value (OpsFee.erc721CalculateFeeGas 0 bench_key (js "dir") bench_store) = true.
Proof. by vm_compute. Qed.

Lemma ran_to {A S} (r : Res A * S) : returned_value r = true -> exists a s, r = (Ret a, s).
Proof. destruct r as [[a|e|] s]; [by do 2 eexists|done..]. Qed.

Lemma fee_tables_witness :
  (exists t s, OpsFee.erc721CalculateFeeGas 0 bench_key (js "dir") bench_store = (Ret t, s)
     /\ OpsFee.shape t = OpsFee.erc721_cells)
  /\ (exists t s, OpsFee.erc20CalculateFeeGas 0 bench_key (js "dir") bench_store = (Ret t, s)
     /\ OpsFee.shape t = OpsFee.erc20_cells)
  /\ length OpsFee.erc721_cells = 32%nat /\ length OpsFee.erc20_cells = 27%nat.
Proof.
  split_and!; [| |by_computation..].
  - destruct (ran_to _ erc721_returns) as (t & s & E). exists t, s. split; [exact E|].
    exact (proj1 (OpsFee.fee_tables 0 bench_key (js "dir") bench_store t s) E).
  - destruct (ran_to _ erc20_returns) as (t & s & E). exists t, s. split; [exact E|].
    exact (proj2 (OpsFee.fee_tables 0 bench_key (js "dir") bench_store t s) E).
Defined.
End Bench.

(** ** Mint benchmark *)

Definition some_fees (unit : Z) : list (jsstr * Z) :=
  combine MintFee.benchmarks [unit; 2 * unit; 3 * unit; 4 * unit; 5 * unit; 6 * unit].

Definition some_runs : list (nat * list (jsstr * Z)) := [(1%nat, some_fees 7); (2%nat, some_fees 120)].
Definition some_tables : MintFee.Tables := MintFee.add_results some_runs.

Lemma some_text : MintFee.percent_text (2 * 7) (MintFee.min_fee (some_fees 7)) = js "0.014 (200%)".
Proof. by vm_compute. Qed.

Lemma csv_has_percentages_witness :
  exists r, MintFee.deref some_tables (MintFee.csvResult some_tables) !! 0%nat = Some r
    /\ lookup_key (js "ethFee") r = Some (MintFee.Text (js "0.014 (200%)")).
Proof.
  destruct (MintFee.csv_has_percentages some_runs) as [_ H].
  - intros n fees. unfold some_runs. rewrite !elem_of_cons, elem_of_nil.
    by intros [[= -> ->]|[[= -> ->]|[]]].
  - destruct (Forall2_lookup_r _ _ _ 0 (1%nat, some_fees 7) H eq_refl) as (r & Hr & _ & _ & Hk).
    exists r. split; [exact Hr|]. destruct (Hk (js "ethFee")) as (fee & Hf & _ & Hl); [right; left|].
    injection Hf as <-. exact (eq_trans Hl (f_equal (fun x => Some (MintFee.Text x)) some_text)).
Defined.

(** ** Load generator *)

Definition busy_run : list Load.Event :=
  [Load.Fork; Load.Fork; Load.AllForked; Load.Count 0 (js "tx") 3; Load.Tick 0; Load.Count 1 (js "tx") 4;
   Load.Deliver 0; Load.Report; Load.Count 0 (js "tx") 1; Load.Tick 1].

Definition busy_cluster : Load.Cluster := default Load.initial (Load.run_events busy_run).

Lemma busy_runs : Load.runs busy_run busy_cluster.
Proof. apply Load.run_events_runs. by vm_compute. Qed.

Lemma load_counts_conserved_witness :
  TransferLoad.counter (js "tx") (Load.m_counters busy_cluster) + Load.travelling (js "tx") busy_cluster
    + Load.pending (js "tx") busy_cluster + Load.lost (js "tx") busy_cluster = 8
  /\ Load.total (js "tx") (Load.m_output busy_cluster) = 3
  /\ exists c', Load.run_event (Load.Exit 0) busy_cluster = Some c' /\ Load.lost (js "tx") c' = 1.
Proof.
  destruct (Load.load_counts_conserved busy_run busy_cluster (js "tx") busy_runs) as (H1 & H2 & H3 & _).
  split; [rewrite <- H1; by_computation|split; [rewrite H3; by_computation|]].
  assert (exists c', Load.run_event (Load.Exit 0) busy_cluster = Some c') as [c' Hc]
    by (eexists; vm_compute; reflexivity).
  exists c'. split; [exact Hc|]. rewrite (H2 _ _ Hc). by_computation.
Defined.

Lemma report_sound_witness :
  Load.total (js "tx") (Load.m_output busy_cluster) <= 8.
Proof.
  destruct (Load.report_sound busy_run busy_cluster (js "tx") busy_runs) as [H _];
    [by repeat constructor|exact H].
Defined.

(** ** Calls *)

Section Calls.
#[local] Instance rpc_node : NodeApi := mock_node account_reply (fun _ => []).
#[local] Instance rpc_process : Process := {|
  spawnSync _ _ w := (None, w);
  fetch_json _ _ w := (Throw [], w);
  writeFile _ _ w := (Ret tt, w);
  JSON_parse _ := Ret (JArr []) |}.
Definition rpc_store : State := store rpc_node (js "ws://node") 100 PlainHelper.
Definition balance_call : M jsval := RFTGroup.getTokenBalance 0 (Int 5) (Int 1) (Ethereum (js "0xaa")).

Lemma empty_logs_typed : all_logged typed_entry rpc_store.
Proof. intros l h Hl. destruct l as [|[|l]]; [|done..]. injection Hl as <-. constructor. Qed.

Lemma balance_call_logged :
  (fun h => map log_call (hs_chainLog h)) <$> (st_helpers (balance_call rpc_store).2 !! 0%nat)
  = Some [js "api.rpc.unique.balance"].
Proof. by vm_compute. Qed.

Lemma client_calls_fit_witness : all_logged typed_entry (balance_call rpc_store).2
  /\ (fun h => map log_call (hs_chainLog h)) <$> (st_helpers (balance_call rpc_store).2 !! 0%nat)
     = Some [js "api.rpc.unique.balance"].
Proof.
  split; [|exact balance_call_logged].
  exact (client_calls_fit 0 _ balance_call rpc_store _ _ (rr_getTokenBalance 0 (Int 5) (Int 1) (Ethereum (js "0xaa")))
    empty_logs_typed (surjective_pairing _)).
Defined.

Definition balance_fun : RpcFun := default (mkRpcFun [] [] []) (declared (js "unique") (js "balance")).
Definition balance_method : RustMethod := default (mkRustMethod [] RU32) (method_of (js "unique") (js "balance")).

Lemma definitions_match_node_witness :
  params_agree (rf_params balance_fun) (rm_params balance_method) = true
  /\ length (rm_params balance_method) = 4%nat.
Proof.
  split; [|by_computation].
  exact (proj1 (proj1 definitions_match_node (js "unique") (js "balance") balance_fun eq_refl)).
Defined.

Definition transfer_call : M bool := FTGroup.transfer 0 alice (Int 5) (Substrate (js "2a02")) 9.

Lemma empty_logs_conform : all_logged conforms rpc_store.
Proof. intros l h Hl. destruct l as [|[|l]]; [|done..]. injection Hl as <-. constructor. Qed.

Definition some_permissions : jsval :=
  obj [(js "access", JStr (js "AllowList")); (js "mintMode", jstrue);
       (js "nesting", obj [(js "tokenOwner", jstrue); (js "restricted", JArr [JNum (Int 7)])])].

Definition permissions_call : M bool := CollectionGroup.setPermissions 0 alice (Int 5) some_permissions.

Lemma client_extrinsics_fit_witness :
  all_logged conforms (transfer_call rpc_store).2 /\ all_logged conforms (permissions_call rpc_store).2.
Proof.
  split.
  - exact (client_extrinsics_fit 0 _ transfer_call rpc_store _ _
      (ui_mint _ alice _ _ (mt_transfer _ _ (Int 5) (Substrate (js "2a02")) 9))
      empty_logs_conform (surjective_pairing _)).
  - apply (client_extrinsics_fit 0 _ permissions_call rpc_store (permissions_call rpc_store).1).
    + apply (ui_collection _ alice), ct_setPermissions. fit.
    + exact empty_logs_conform.
    + apply surjective_pairing.
Defined.
End Calls.

(** ** A chain with the declared extrinsics *)

Section Declared.
Definition declared_path (path : list jsstr) : bool :=
  match path with
  | [t] => jseq t (js "tx")
  | [t; sec] => jseq t (js "tx") && bool_decide (is_Some (entry sec extrinsics))
  | [t; sec; name] => jseq t (js "tx") && bool_decide (is_Some (extrinsic_at sec name))
  | _ => false
  end.
#[local] Instance declared_node : NodeApi :=
  offering_node declared_path account_reply (fun _ => []) (fun _ => []) (fun _ => []).
Definition declared_store : State := store declared_node (js "ws://node") 100 PlainHelper.

Lemma declared_only : only_declared (js "ws://node").
Proof. by split. Qed.

Lemma undeclared_methods_fail_witness :
  (SchedulerGroup.changePriority 0 alice (js "0x01") 3 declared_store).1
  = Throw (JSError (js "Function changeNamedPriority of api call api.tx.scheduler.changeNamedPriority not found.")).
Proof.
  destruct (undeclared_methods_fail 0 _ _ alice (js "0x01") 3 declared_store eq_refl eq_refl declared_only)
    as [(s' & H & _) [_ _]].
  rewrite H. by_computation.
Defined.
End Declared.

(** ** A test that fails *)

Section Session.
#[local] Instance session_node : NodeApi :=
  mock_node (fun path => if jseq path (js "query.system.lastRuntimeUpgrade")
                         then answers [("toJSON"%string, fields [("specName"%string, JStr (js "opal"))])]
                         else JUndef) (fun _ => []).
#[local] Instance session_harness : Harness :=
  {| md5 s := s; fileURLToPath s := Ret s; skip_exception := EngineError |}.
Definition session_store : State := store session_node (js "ws://node") 100 PlainHelper.
Definition failing_test (helper : nat) (key : Seed -> M TSigner) : M unit := throw (JSError (js "assertion")).
Definition session_end : Res unit * State :=
  session DevUniqueHelper.connect true (js "ws://other") failing_test 1
    (ChainHelperBase.constructor PlainHelper session_store).2.

Lemma session_fails : session_end.1 = Throw (JSError (js "assertion")).
Proof. by vm_compute. Qed.
Lemma session_helper : is_Some (st_helpers session_end.2 !! 1%nat).
Proof. vm_compute. by eexists. Qed.
Lemma session_closes api w : (api_disconnect api w).1 = Ret tt.
Proof. done. Qed.

Lemma playgrounds_clean_up_witness :
  exists s' h, usingPlaygroundsGeneral DevUniqueHelper.connect true (js "ws://other") failing_test session_store
      = (Throw (JSError (js "assertion")), s')
    /\ st_helpers s' !! 1%nat = Some h /\ hs_api h = None.
Proof.
  exact (playgrounds_clean_up DevUniqueHelper.connect true (js "ws://other") failing_test session_store
    (Throw (JSError (js "assertion"))) session_end.2 session_closes
    (eq_trans (surjective_pairing session_end) (f_equal (fun o => (o, session_end.2)) session_fails))
    ltac:(discriminate) session_helper).
Defined.
End Session.
